(* ===== verification/_CoqProject ===== *)
-Q . S2P
Prelude.v
Malloc.v
Timers.v
CMem.v
Node.v
ObjDict.v
TestSlave.v
TestMaster.v
Emcy.v
Nmt.v
LifeGuard.v
Devices.v
I2c.v
Eth.v
EthMemory.v
EthRing.v
EthStart.v
LwipApp.v
LwipFacts.v
Timeouts.v
Agenda.v
TimeoutFacts.v
TimeoutOps.v
MainLoop.v
Lcd.v
LcdFacts.v
UniOem.v
OemUni.v
Unicode.v
FatWords.v
Blocks.v
Fat.v
FatFacts.v
FatChain.v
FatCreate.v
FatWindow.v
File.v
Mount.v
FileFacts.v
MountFacts.v
FileRead.v
FileWrite.v
FileSeek.v
FileSync.v
FatChecks.v
FileChecks.v
Events.v
Bits.v
Pdo.v
Sync.v
SdoLine.v
Sdo.v
SdoClient.v
States.v
Dcf.v
Stack.v
SdoFacts.v
SdoTransfer.v
SdoDownload.v
Running.v
SyncFacts.v
StateMachine.v
Alarms.v
Dispatch.v
Checks.v
