(* ===== verification/Prelude.v ===== *)
(** * Verification of the stm32f407zgt6 template: the development

    The program is the firmware of an STM32F407 board.  The development models
    the project's own code and the parts of the vendored network stack and file
    system that it drives, as C functions translated into Rocq functions, and
    proves what makes each part correct.  This comment is the guide to the whole;
    paths are under [Application/Users/] unless they start with [System/].

    ** Conventions

    - C integers are [Z] with the wrap-around of their width written out ([u8],
      [u16], [u32], [s16]); bit operations are those of [Z].
    - Arrays are lists; [a.[i]] and [a.[i <- x]] are [None] outside the array.
    - A stateful C function of a component is a function of the state monad [ST]
      (notations [x <- m; k] of stdpp) on the component's record: [CO] for a
      CANopen node, [ETH] for the Ethernet driver, [LW] for the network
      application, [LCD] for the display, [IIC] for the two-wire bus, [Vol] for a
      volume of the file system with its drive, [FileSys] for an open file on it,
      [timeouts] for the timers of the network stack.  The
      answer [None] is undefined behaviour of the C code, or a bounded loop out
      of fuel; error codes are ordinary values.  So every theorem that says
      [f s = Some ...] also says that the function returns and makes no access
      outside an object.
    - What leaves the program (messages given to the CAN driver, bus pulses,
      register writes that matter, calls into lwIP, calls of functions the
      application may overload) is appended to a log of the state, in order.
    - What enters it (levels of a pin, polls of a flag, answers of drivers and of
      lwIP, contents of uninitialised stack messages) is an arbitrary function of
      the position in the log or an argument.

    ** Parts, files and correspondence

    Base.  This file: the C fragment, arrays, loops, the hint database [cdb], the
    tactics [zb], [zcase], [ztest], [splits], [inv_bind].

    Memory.  [Malloc]: the block allocator of Main/src/malloc.c ([my_mem_malloc],
    [my_mem_free], [mymalloc], [myfree], [myrealloc]); state = the block tables
    and pools.  The abstract heap is a finite map from first blocks to lengths.

    CANopen stack (CanFestival/).  [Timers] is src/timers.c over the class
    [TimerWorld]; [CMem] the memory behind the dictionary pointers; [Node] the
    structure [CO_Data] of inc/data.h with the log and the driver's answers;
    [ObjDict] src/objacces.c; [TestSlave] and [TestMaster] the generated
    dictionaries of drive/; [Emcy] src/emcy.c; [Nmt] src/nmtMaster.c and the boot-up
    message; [LifeGuard] src/lifegrd.c; [Bits] and [Pdo] src/pdo.c; [Sync]
    src/sync.c; [SdoLine], [Sdo], [SdoClient] src/sdo.c; [States] src/states.c and
    src/nmtSlave.c; [Dcf] src/dcf.c; [Stack] ties the interfaces ([ODCallbacks],
    [SDOCallbacks], the alarm callbacks, [DcfPointers]) to the functions the code
    registers and models [canDispatch] and one input of a running node.
    [SdoFacts], [SdoTransfer] and [SdoDownload] prove transfers between two nodes; [Running]
    has the invariant [node_ok] of a running node and the rules of [keeps];
    [SyncFacts] proves the cadence of the synchronous PDOs; [Alarms] the timer
    interrupt; [StateMachine] and [Dispatch] the state machine and the dispatch;
    [Checks] applies the theorems to the two nodes of the repository.

    Board devices (Main/src/).  [Devices]: the interrupt handlers and helpers of
    uart.c, spi.c, key.c, can.c, dma.c, timer.c; [I2c]: i2c.c, at24c02.c,
    mpu6050.c as the waveform on the two pins.

    Network.  [Eth]: Main/src/lan8720.c, LwIP/arch/ethernetif.c and the descriptor
    functions of System/Library/slib/src/stm32f4xx_eth.c; [EthMemory] the driver
    as a client of [Malloc]; [EthRing] the rings as queues, [EthStart] start-up
    and the concrete inputs.  [LwipApp], [LwipFacts]: LwIP/user_app and sys_now of
    LwIP/arch/sys_arch.c.  [Timeouts]: LwIP/core/timeouts.c and the pool of
    LwIP/core/memp.c behind it, a linked list of timers and a 32-bit clock;
    [Agenda] is its abstract specification, [TimeoutFacts] and [TimeoutOps] the
    refinement, and [MainLoop] the loop of the main program over it.

    File system (FATFS/src/).  [UniOem], [OemUni] and [Unicode]: the code tables
    and conversions of ffunicode.c.  The rest is ff.c, from the bottom up:
    [FatWords] little-endian words and the encodings of characters; [Blocks] the
    laws of copies in a buffer; [Fat] the window of one sector on the volume, the
    allocation table and the chains of clusters; [File] the operations on an open
    file; [Mount] the search for a volume, its analysis and its registration.  The
    drive is the interface [Disk] with the contract [DiskLaws], of a drive that
    may fail at any call, and [reliable] of one that does not.  [FatFacts],
    [FatChain], [FatCreate] and [FatWindow] have the theorems on the table,
    [FileFacts] the abstract content of an open file and its invariant,
    [FileRead], [FileWrite], [FileSeek], [FileSync] the operations on it, and
    [MountFacts] what mounting establishes; [FatChecks] and [FileChecks] run the
    theorems on a drive in memory.

    Display (TFTLCD/).  [Lcd]: tftlcd.c, tftlcd_element.c, tftlcd_word.c, and
    ILI9341.c and rgb.c of System/Library/elib; [LcdFacts] the pictures they draw;
    [Events]: tftlcd_event.c.

    ** Interactions modelled

    The Ethernet driver allocates from the heap of [Malloc].  In a node, a write
    to the dictionary runs the registered functions (heartbeat, SYNC, PDO
    parameters, error field), alarms run the functions of their owners inside
    [TimeDispatch], an SDO transfer ends in the callback of its client (the DCF
    steps), and [setState] starts and stops the services; [Stack] composes them
    the way the code does.  An open file, the table and the window share one
    volume object and one medium: a write to the file allocates clusters through
    the window, and [f_sync] brings the buffer, the directory entry, the table and
    the free count to the drive.  The interrupt that receives frames and the DMA are
    interleaved in any order in [EthRing.receive_fifo].

    ** The theorems

    - Memory: [malloc] and [free] refine the abstract heap, never leave the
      tables, and are inverse to each other; [realloc] moves the contents.
    - Timers: one dispatch, with functions that arm and delete alarms meanwhile,
      gives exactly the alarms that are due their turn, keeps the invariant and sets
      the hardware timer for the next alarm; [Alarms] shows the contract it asks of
      the functions ([callbacks_ok]) for the alarms of SYNC, heartbeat, guarding
      and PDOs of the stack.
    - Dictionary: exact behaviour of reads and writes on every branch, errors
      included, and set/get round trip, for short strings too.
    - State machine: [setState] and the NMT commands implement the automaton of
      the NMT slave, services and application calls included; [canDispatch]
      equals the table of services each state allows; a node driven by any
      sequence of NMT, SYNC, EMCY, heartbeat and guarding inputs stays safe.
    - SDO: a read of any entry that fits the line, expedited or segmented,
      delivers the entry, and a write changes exactly the entry.  PDO: what one
      node maps and sends is what the other node stores, and a synchronous PDO of
      type [n] goes out at every [n]-th SYNC.  EMCY, life guard: the table of
      errors, the guard times.  Every frame sent is a well-formed CAN frame.
    - Ethernet: reception is a bounded FIFO under any interleaving with the
      DMA, frames with errors and a stack that refuses memory included, the
      interrupt ends, memory is all taken or all released.
    - Network application: start-up ends, timers fire when due, received data
      fits its buffer, one reply for each reception, and what TCP accepts of it.
      Stack timers: the list and the wrapping clock refine deadlines on unbounded
      time; the main loop never loses a service, a cyclic one is never early, its
      delays are bounded, and it runs once per interval if the passes are frequent
      enough.
    - File system: on any drive, a failing one included, the table operations end,
      stay inside the table and keep the free count; entries and chains change as
      asked and nothing else does.  On a reliable drive reading, writing and
      seeking in an open file refine operations on a list of bytes, what was
      written is read back, and after [f_sync] the drive alone holds it.  Mounting
      always returns, writes nothing, and establishes the invariant of a volume.
      The conversions of characters are inverse to each other.
    - Two-wire bus and EEPROM: the frames a bus monitor sees.  Display: the pixels.
      Events: one pass equals its specification, the cadence of cycle events.

    ** Bounds and fuel

    Loops with a counter run as counted loops ([for_up], [st_for]) of exactly the
    iterations of the C loop.  A [while] loop has fuel: [CopyBits] as many turns
    as bits (each turn copies at least one), the mapping loops of [Pdo] as many as
    entries (at most 256, the index has 8 bits), searches in fixed tables the size
    of the table, the polls of the CAN mailbox and of a two-wire acknowledgement
    the bound the code itself has, [str_copy] the length of the buffer.  The receive
    interrupt ends with more fuel than frames waiting (shown in
    [ETH_IRQHandler_drains]), and the wait of [lwip_app_init] with enough fuel
    whenever DHCP answers or gives up ([lwip_app_init_ends]).  In the file system,
    [remove_chain] has the number of entries of the table (each turn frees one),
    [f_read] and [f_write] the bytes to go (each turn moves at least one), [f_lseek]
    the clusters of the offset, the search for a partition its four entries; the
    theorems show that these are enough.  [create_linkmap] has the entries of the
    table; on a cyclic chain the C loop does not end and the model is undefined.  A
    pass of [sys_check_timeouts] has [check_fuel], twice the pool and one, which
    [main_loop_safe] shows to be enough.

    ** Assumptions on the environment

    The classes [LwipStack] with [LwipLaws], [LwipApi], [EventEffects],
    [TimerWorldLaws], [DiskLaws] and the hypotheses of the theorems state them: a
    drive whose successful reads answer what was written, a pbuf chain of
    the length asked for when there is one, a DMA that fills and empties
    descriptors in ring order and only those it owns, a clock of the main loop read
    at least every [2 ^ 24] milliseconds and a monotonic one in the DHCP wait, event
    functions that change no more than their own object, functions registered on
    a dictionary entry that leave the variables of the dictionary alone (in the
    set/get round trip), a display that reads its command set.  The answers of the
    stack and of the drivers, refusals included, are arbitrary.

    ** Not modelled

    Register configuration without state of the program (clock, pins, interrupt
    priorities, memory controller: Main/src/nvic.c, led.c, delay.c, system.c,
    fsmc.c and the set-up parts of the other drivers, the initialisations that
    main.c calls before its loop); the temperature and self-test arithmetic of
    mpu6050.c; LSS (compiled out) and the disabled allocator; of FatFs the
    directories, opening by a path, formatting, and the glue to the drives
    (FATFS/src/diskio.c, disk_api.c), which the program does not call: an open file
    is given by its object, and the drive is the interface; of lwIP everything but
    the timers and their pool: the core is reached through interfaces; and the rest
    of what is third-party or vendor code: the USB stacks and their application
    templates, the peripheral library and System/. *)

(** * Prelude: the C fragment shared by every component

    Machine-width integers as [Z] with explicit wrap-around, C arrays as lists
    indexed by [Z] with out-of-range accesses reported, counted loops with a
    total-correctness rule, little-endian 16-bit words, and the hint database
    [cdb] and tactics the component files use.

    Convention.  A result [None] of an operation is undefined behaviour of the
    C code (an access outside the array, a division by zero, a null
    dereference), never an error the code reports: error codes of the code are
    ordinary values. *)

From Stdlib Require Export ZArith Lia.
From stdpp Require Export base option list numbers gmap.

#[global] Open Scope Z_scope.

(** ** Machine-width integers *)

Definition u8 (x : Z) : Z := x mod 2 ^ 8.
Definition u16 (x : Z) : Z := x mod 2 ^ 16.
Definition u32 (x : Z) : Z := x mod 2 ^ 32.

(** A signed 16-bit value from its low 16 bits. *)
Definition s16 (x : Z) : Z := (x + 2 ^ 15) mod 2 ^ 16 - 2 ^ 15.

(** The truth value of a C comparison. *)
Definition b2z (b : bool) : Z := if b then 1 else 0.

(** ** Arrays *)

Declare Scope c_scope.
Delimit Scope c_scope with c.

Section arrays.
Context {A : Type}.
Implicit Types (l : list A) (i : Z) (x : A).

(** [a[i]] as a value. *)
Definition arr_get l i : option A :=
  if 0 <=? i then l !! Z.to_nat i else None.

(** [a[i] = x]. *)
Definition arr_set l i x : option (list A) :=
  if (0 <=? i) && (i <? Z.of_nat (length l))
  then Some (<[Z.to_nat i := x]> l) else None.
End arrays.

Notation "a .[ i ]" := (arr_get a i)
  (at level 1, left associativity, format "a .[ i ]") : c_scope.
Notation "a .[ i <- x ]" := (arr_set a i x)
  (at level 1, left associativity, format "a .[ i  <-  x ]") : c_scope.
#[global] Open Scope c_scope.

(** ** Record update *)

Class Settable (R : Type) := settable : R -> R.
Class Setter {R T : Type} (proj : R -> T) := set : (T -> T) -> R -> R.
Arguments set {R T} proj {_} f r.

Ltac solve_setter :=
  match goal with
  | |- @Setter ?R ?T ?A =>
      let f := fresh "f" in let r := fresh "r" in
      intros f r;
      let t := eval cbv beta delta [settable] in (settable r) in
      let t := eval hnf in t in
      let t := eval pattern (A r) in t in
      match t with ?g (A r) => let u := eval cbv beta in (g (f (A r))) in exact u end
  end.
#[export] Hint Extern 1 (Setter _) => solve_setter : typeclass_instances.

Notation "r <| f := v |>" := (set f (fun _ => v) r)
  (at level 1, left associativity, format "r  <|  f  :=  v  |>") : c_scope.
Notation "r <| f ::= g |>" := (set f g r)
  (at level 1, left associativity, format "r  <|  f  ::=  g  |>") : c_scope.

(** ** Counted loops

    [for_up n i body s] is [for (k = i; k < i + n; k++) s = body k s]. *)
Fixpoint for_up {S : Type} (n : nat) (i : Z) (body : Z -> S -> option S)
    (s : S) : option S :=
  match n with
  | O => Some s
  | Datatypes.S n' => s' ← body i s; for_up n' (i + 1) body s'
  end.

(** ** Stateful code

    [ST S A] is code that reads and writes a state [S] and answers an [A]. *)
Definition ST (S A : Type) : Type := S -> option (A * S).

#[export] Instance ST_ret {S} : MRet (ST S) := fun A x s => Some (x, s).
#[export] Instance ST_bind {S} : MBind (ST S) := fun A B f m s =>
  match m s with Some (x, s') => f x s' | None => None end.

Definition st_get {S A} (f : S -> A) : ST S A := fun s => Some (f s, s).
Definition st_mod {S} (f : S -> S) : ST S unit := fun s => Some (tt, f s).
(** A step that may be undefined. *)
Definition st_opt {S A} (x : option A) : ST S A := fun s => (fun v => (v, s)) <$> x.
Definition st_skip {S} : ST S unit := fun s => Some (tt, s).

Definition when {S} (b : bool) (m : ST S unit) : ST S unit :=
  if b then m else st_skip.

(** [for (k = i; k < i + n; k++) body k]. *)
Definition st_for {S} (n : nat) (i : Z) (body : Z -> ST S unit) : ST S unit :=
  fun s => (fun s' => (tt, s')) <$>
    for_up n i (fun k s => snd <$> body k s) s.

(** ** 16-bit words in memory, low byte first *)

Fixpoint bytes_of_u16s (ws : list Z) : list Z :=
  match ws with
  | [] => []
  | w :: ws' => w mod 256 :: w / 256 :: bytes_of_u16s ws'
  end.

Fixpoint u16s_of_bytes (bs : list Z) : list Z :=
  match bs with
  | lo :: hi :: bs' => lo + 256 * hi :: u16s_of_bytes bs'
  | _ => []
  end.

(** ** Automation *)

Create HintDb cdb.
Create Rewrite HintDb cdb.

(** Case analysis on the boolean comparisons of the code. *)
Ltac zb :=
  repeat match goal with
  | H : (_ =? _) = true |- _ => apply Z.eqb_eq in H
  | H : (_ =? _) = false |- _ => apply Z.eqb_neq in H
  | H : (_ <? _) = true |- _ => apply Z.ltb_lt in H
  | H : (_ <? _) = false |- _ => apply Z.ltb_ge in H
  | H : (_ <=? _) = true |- _ => apply Z.leb_le in H
  | H : (_ <=? _) = false |- _ => apply Z.leb_gt in H
  | H : (_ && _) = true |- _ => apply andb_true_iff in H as [? ?]
  | H : (_ && _) = false |- _ => apply andb_false_iff in H
  | H : (_ || _) = true |- _ => apply orb_true_iff in H
  | H : (_ || _) = false |- _ => apply orb_false_iff in H as [? ?]
  | H : negb _ = true |- _ => apply negb_true_iff in H
  | H : negb _ = false |- _ => apply negb_false_iff in H
  end.

Ltac zcase :=
  match goal with
  | |- context [if ?b then _ else _] =>
      lazymatch b with
      | context [if _ then _ else _] => fail
      | _ => destruct b eqn:?
      end
  end; zb.

(** Evaluate a test whose value follows from the context by [lia]. *)
Ltac ztest :=
  match goal with
  | |- context [?a =? ?b] =>
      first [ replace (a =? b) with true by (symmetry; apply Z.eqb_eq; lia)
            | replace (a =? b) with false by (symmetry; apply Z.eqb_neq; lia) ]
  | |- context [?a <? ?b] =>
      first [ replace (a <? b) with true by (symmetry; apply Z.ltb_lt; lia)
            | replace (a <? b) with false by (symmetry; apply Z.ltb_ge; lia) ]
  | |- context [?a <=? ?b] =>
      first [ replace (a <=? b) with true by (symmetry; apply Z.leb_le; lia)
            | replace (a <=? b) with false by (symmetry; apply Z.leb_gt; lia) ]
  end; cbn [andb orb negb].

(** Split conjunctions, and nothing else. *)
Ltac splits := repeat match goal with |- _ /\ _ => split end.

(** Invert one binding of a computation known to succeed. *)
Ltac inv_bind H :=
  let x := fresh "x" in let E := fresh "E" in
  apply bind_Some in H as (x & E & H).

(** ** Lemmas: integers *)

Lemma u8_range x : 0 <= u8 x < 256.
Proof. unfold u8. apply Z.mod_pos_bound. lia. Qed.

Lemma u16_range x : 0 <= u16 x < 65536.
Proof. unfold u16. apply Z.mod_pos_bound. lia. Qed.

Lemma u32_range x : 0 <= u32 x < 4294967296.
Proof. unfold u32. apply Z.mod_pos_bound. lia. Qed.

Lemma u8_small x : 0 <= x < 256 -> u8 x = x.
Proof. intros. unfold u8. apply Z.mod_small. lia. Qed.

Lemma u16_small x : 0 <= x < 65536 -> u16 x = x.
Proof. intros. unfold u16. apply Z.mod_small. lia. Qed.

Lemma u32_small x : 0 <= x < 4294967296 -> u32 x = x.
Proof. intros. unfold u32. apply Z.mod_small. lia. Qed.

(** Bit operations stay in the width. *)
Lemma lor_range n a b :
  0 <= n -> 0 <= a < 2 ^ n -> 0 <= b < 2 ^ n -> 0 <= Z.lor a b < 2 ^ n.
Proof.
  intros Hn Ha Hb. assert (E : Z.lor a b = Z.lor a b mod 2 ^ n).
  { rewrite <- Z.land_ones, Z.land_lor_distr_l, !Z.land_ones by done.
    by rewrite !Z.mod_small. }
  rewrite E. apply Z.mod_pos_bound. by apply Z.pow_pos_nonneg.
Qed.

Lemma land_range n a b : 0 <= n -> 0 <= b < 2 ^ n -> 0 <= Z.land a b < 2 ^ n.
Proof.
  intros Hn Hb. assert (E : Z.land a b = Z.land a b mod 2 ^ n).
  { rewrite <- Z.land_ones, <- Z.land_assoc, !Z.land_ones by done.
    by rewrite Z.mod_small. }
  rewrite E. apply Z.mod_pos_bound. by apply Z.pow_pos_nonneg.
Qed.

#[export] Hint Resolve u8_range u16_range u32_range : cdb.
#[export] Hint Rewrite u8_small u16_small u32_small using lia : cdb.

(** ** Lemmas: arrays *)

Section array_lemmas.
Context {A : Type}.
Implicit Types (l : list A) (i j : Z) (x y : A).

Lemma arr_get_nat l (n : nat) : l.[Z.of_nat n] = l !! n.
Proof.
  unfold arr_get. ztest. by rewrite Nat2Z.id.
Qed.

Lemma arr_get_Some l i x :
  l.[i] = Some x <-> 0 <= i /\ l !! Z.to_nat i = Some x.
Proof. unfold arr_get. zcase; [tauto|]. split; [done|]. intros [? _]. lia. Qed.

Lemma arr_get_lt l i x : l.[i] = Some x -> 0 <= i < Z.of_nat (length l).
Proof.
  rewrite arr_get_Some. intros [Hi Hl]. apply lookup_lt_Some in Hl. lia.
Qed.

Lemma arr_get_is_Some l i :
  0 <= i < Z.of_nat (length l) -> exists x, l.[i] = Some x.
Proof.
  intros. unfold arr_get. ztest. apply lookup_lt_is_Some. lia.
Qed.

Lemma arr_get_None l i :
  l.[i] = None <-> i < 0 \/ Z.of_nat (length l) <= i.
Proof.
  unfold arr_get. zcase; [rewrite lookup_ge_None; lia|]. split; [lia|done].
Qed.

Lemma arr_set_is_Some l i x :
  0 <= i < Z.of_nat (length l) -> l.[i <- x] = Some (<[Z.to_nat i := x]> l).
Proof. intros. unfold arr_set. by repeat ztest. Qed.

Lemma arr_set_Some l l' i x :
  l.[i <- x] = Some l' <->
  0 <= i < Z.of_nat (length l) /\ l' = <[Z.to_nat i := x]> l.
Proof.
  unfold arr_set. zcase; split.
  - intros [= <-]. split; [lia|done].
  - by intros [_ ->].
  - done.
  - intros [? _]. lia.
Qed.

Lemma arr_set_None l i x :
  l.[i <- x] = None <-> i < 0 \/ Z.of_nat (length l) <= i.
Proof. unfold arr_set. zcase; split; (done || lia). Qed.

Lemma arr_set_length l l' i x : l.[i <- x] = Some l' -> length l' = length l.
Proof. intros [_ ->]%arr_set_Some. apply length_insert. Qed.

Lemma arr_get_set_eq l l' i x : l.[i <- x] = Some l' -> l'.[i] = Some x.
Proof.
  intros [? ->]%arr_set_Some. apply arr_get_Some. split; [lia|].
  apply list_lookup_insert_eq. lia.
Qed.

Lemma arr_get_set_ne l l' i j x :
  l.[i <- x] = Some l' -> i <> j -> l'.[j] = l.[j].
Proof.
  intros [? ->]%arr_set_Some ?. unfold arr_get. zcase; [|done].
  apply list_lookup_insert_ne. lia.
Qed.

Lemma arr_ext l l' :
  length l = length l' ->
  (forall i, 0 <= i < Z.of_nat (length l) -> l.[i] = l'.[i]) -> l = l'.
Proof.
  intros Hlen H. apply list_eq. intros n.
  destruct (decide (n < length l)%nat).
  - rewrite <- !arr_get_nat. apply H. lia.
  - rewrite !lookup_ge_None_2 by lia. done.
Qed.

Lemma arr_get_replicate n i x :
  0 <= i < Z.of_nat n -> (replicate n x).[i] = Some x.
Proof.
  intros. apply arr_get_Some. split; [lia|]. apply lookup_replicate_2. lia.
Qed.
End array_lemmas.

Lemma insert_get {A} (l : list A) k x j :
  0 <= k < Z.of_nat (length l) ->
  (<[Z.to_nat k := x]> l).[j] = if decide (j = k) then Some x else l.[j].
Proof.
  intros Hk. pose proof (arr_set_is_Some l k x Hk) as E.
  case_decide as Hd; [subst j; by eapply arr_get_set_eq|].
  eapply arr_get_set_ne; [exact E|done].
Qed.

(** ** Lemmas: loops *)

Section loops.
Context {S : Type}.
Implicit Types (P : Z -> S -> Prop) (body : Z -> S -> option S).

(** A loop whose body keeps an invariant and never faults runs to its end. *)
Lemma for_up_inv P body n i s :
  (forall k t, i <= k < i + Z.of_nat n -> P k t ->
     exists t', body k t = Some t' /\ P (k + 1) t') ->
  P i s ->
  exists s', for_up n i body s = Some s' /\ P (i + Z.of_nat n) s'.
Proof.
  revert i s. induction n as [|n IH]; intros i s Hb Hi; cbn [for_up].
  - exists s. split; [done|]. by replace (i + Z.of_nat 0) with i by lia.
  - destruct (Hb i s ltac:(lia) Hi) as (t & -> & Ht). cbn.
    destruct (IH (i + 1) t) as (s' & Hs & HP); [|done|].
    { intros k t' ??. apply Hb; [lia|done]. }
    exists s'. split; [done|].
    by replace (i + Z.of_nat (Datatypes.S n)) with (i + 1 + Z.of_nat n) by lia.
Qed.

Lemma for_up_app n m i body s :
  for_up (n + m) i body s =
  (s' ← for_up n i body s; for_up m (i + Z.of_nat n) body s').
Proof.
  revert i s. induction n as [|n IH]; intros i s; cbn [for_up Nat.add].
  - cbn. by replace (i + Z.of_nat 0) with i by lia.
  - destruct (body i s) as [t|]; cbn; [|done]. rewrite IH.
    destruct (for_up n _ _ _); cbn; [|done]. f_equal. lia.
Qed.
End loops.

(** ** Lemmas: stateful code *)

Section stateful.
Context {S : Type}.

Lemma st_bind_eq {A B} (m : ST S A) (f : A -> ST S B) s x s' :
  m s = Some (x, s') -> (m ≫= f) s = f x s'.
Proof. intros E. unfold mbind, ST_bind. by rewrite E. Qed.

Lemma st_bind_Some {A B} (m : ST S A) (f : A -> ST S B) s y s2 :
  (m ≫= f) s = Some (y, s2) <->
  exists x s1, m s = Some (x, s1) /\ f x s1 = Some (y, s2).
Proof.
  unfold mbind, ST_bind. split.
  - destruct (m s) as [[x s1]|]; [|done]. by exists x, s1.
  - by intros (x & s1 & -> & ?).
Qed.

Lemma st_mod_bind {B} f (k : unit -> ST S B) s : (st_mod f ≫= k) s = k tt (f s).
Proof. done. Qed.

Lemma st_get_bind {A B} (f : S -> A) (k : A -> ST S B) s : (st_get f ≫= k) s = k (f s) s.
Proof. done. Qed.

Lemma st_ret_bind {A B} (x : A) (k : A -> ST S B) s : (mret x ≫= k) s = k x s.
Proof. done. Qed.

Lemma when_true (m : ST S unit) : when true m = m.
Proof. done. Qed.

Lemma when_false (m : ST S unit) s : when false m s = Some (tt, s).
Proof. done. Qed.

(** A loop whose body keeps an invariant and never faults runs to its end. *)
Lemma st_for_inv (P : Z -> S -> Prop) (body : Z -> ST S unit) n i s :
  (forall k t, i <= k < i + Z.of_nat n -> P k t ->
     exists t', body k t = Some (tt, t') /\ P (k + 1) t') ->
  P i s ->
  exists s', st_for n i body s = Some (tt, s') /\ P (i + Z.of_nat n) s'.
Proof.
  intros Hb Hi. unfold st_for.
  destruct (for_up_inv P (fun k s => snd <$> body k s) n i s) as (s' & -> & HP);
    [|done|].
  - intros k t Hk HP. destruct (Hb k t Hk HP) as (t' & -> & ?). by exists t'.
  - by exists s'.
Qed.

Lemma st_for_app n m i (body : Z -> ST S unit) s t :
  st_for n i body s = Some (tt, t) ->
  st_for (n + m) i body s = st_for m (i + Z.of_nat n) body t.
Proof.
  unfold st_for. rewrite for_up_app. intros (t' & E & [= ->])%fmap_Some. by rewrite E.
Qed.

Lemma st_for_one i (body : Z -> ST S unit) s t :
  body i s = Some (tt, t) -> st_for 1 i body s = Some (tt, t).
Proof. unfold st_for. cbn. by intros ->. Qed.
End stateful.

(** The loop [for (k = 0; k < n; k++) a[off + k] = x]. *)
Definition arr_fill {A} (n : nat) (off : Z) (x : A) (l : list A) :=
  for_up n 0 (fun k l => l.[off + k <- x]) l.

Lemma arr_fill_spec {A} n off (x : A) l :
  0 <= off -> off + Z.of_nat n <= Z.of_nat (length l) ->
  exists l', arr_fill n off x l = Some l' /\ length l' = length l /\
    forall j, l'.[j] = if (off <=? j) && (j <? off + Z.of_nat n)
                       then Some x else l.[j].
Proof.
  intros Hoff Hn. unfold arr_fill.
  destruct (for_up_inv
    (fun k l' => length l' = length l /\
       forall j, l'.[j] = if (off <=? j) && (j <? off + k) then Some x else l.[j])
    (fun k l => l.[off + k <- x]) n 0 l) as (l' & E & H1 & H2).
  - intros k t Hk [Hlen Ht].
    destruct (t.[off + k <- x]) as [t'|] eqn:E;
      [|apply arr_set_None in E; lia].
    exists t'. split; [done|]. split.
    + by rewrite (arr_set_length _ _ _ _ E).
    + intros j. destruct (decide (off + k = j)) as [<-|Hne].
      * rewrite (arr_get_set_eq _ _ _ _ E). by repeat ztest.
      * rewrite (arr_get_set_ne _ _ _ _ _ E Hne), Ht.
        repeat zcase; try done; lia.
  - split; [done|]. intros j. zcase; [lia|done].
  - exists l'. repeat split; [done..|]. intros j. rewrite H2. done.
Qed.

(** ** Lemmas: little-endian words *)

Lemma bytes_of_u16s_length ws : length (bytes_of_u16s ws) = (2 * length ws)%nat.
Proof. induction ws; cbn in *; lia. Qed.

Lemma u16s_of_bytes_of_u16s ws : u16s_of_bytes (bytes_of_u16s ws) = ws.
Proof.
  induction ws as [|w ws IH]; cbn; [done|]. rewrite IH. f_equal.
  pose proof (Z.div_mod w 256). lia.
Qed.

Lemma u16s_of_zero_bytes n : u16s_of_bytes (replicate (2 * n) 0) = replicate n 0.
Proof.
  induction n as [|n IH]; [done|].
  replace (2 * S n)%nat with (S (S (2 * n))) by lia.
  cbn [replicate u16s_of_bytes]. by rewrite IH.
Qed.
