(* ===== verification/Malloc.v ===== *)
(** * Malloc: the block allocator of Users/Main/src/malloc.c

    The active allocator of the file (the [#else] branch: [USE_NEW_MALLOC_MOD]
    is 0 in malloc.h).  Three pools, each cut in 32-byte blocks, each with a
    table of 16-bit words: 0 for a free block, and the block count [n] in each
    of the [n] cells of an allocation.  The abstract specification is a finite
    map from the first block of an allocation to its block count. *)

From S2P Require Import Prelude.

(** ** Configuration (malloc.h) *)

Definition SRAMIN : Z := 0.
Definition SRAMEX : Z := 1.
Definition SRAMCCM : Z := 2.
Definition SRAMBANK : Z := 3.

Definition MEM1_BLOCK_SIZE : Z := 32.
Definition MEM1_MAX_SIZE : Z := 30 * 1024.
Definition MEM1_ALLOC_TABLE_SIZE : Z := 30 * 1024 / 32.
Definition MEM2_BLOCK_SIZE : Z := 32.
Definition MEM2_MAX_SIZE : Z := 200 * 1024.
Definition MEM2_ALLOC_TABLE_SIZE : Z := 200 * 1024 / 32.
Definition MEM3_BLOCK_SIZE : Z := 32.
Definition MEM3_MAX_SIZE : Z := 60 * 1024.
Definition MEM3_ALLOC_TABLE_SIZE : Z := 60 * 1024 / 32.

Definition memtblsize : list Z :=
  [MEM1_ALLOC_TABLE_SIZE; MEM2_ALLOC_TABLE_SIZE; MEM3_ALLOC_TABLE_SIZE].
Definition memblksize : list Z :=
  [MEM1_BLOCK_SIZE; MEM2_BLOCK_SIZE; MEM3_BLOCK_SIZE].
Definition memsize : list Z := [MEM1_MAX_SIZE; MEM2_MAX_SIZE; MEM3_MAX_SIZE].

(** The error value of [my_mem_malloc]. *)
Definition NOMEM : Z := 0xFFFFFFFF.

(** [struct _m_mallco_dev]: the contents of the pools and of the tables the
    pointers [membase] and [memmap] designate, and the ready flags.  The two
    function pointers are never reassigned: the calls name their targets. *)
Record m_mallco_dev := Mallco {
  membase : list (list Z);
  memmap : list (list Z);
  memrdy : list Z
}.

(** [mallco_dev], before any call: the arrays are zero-initialised statics and
    no bank is ready. *)
Definition mallco_dev : m_mallco_dev :=
  {| membase := map (fun n => replicate (Z.to_nat n) 0) memsize;
     memmap := map (fun n => replicate (Z.to_nat n) 0) memtblsize;
     memrdy := [0; 0; 0] |}.

(** [mallco_dev.memmap[memx] = t], [mallco_dev.membase[memx] = p],
    [mallco_dev.memrdy[memx] = r]. *)
Definition set_memmap (memx : Z) (t : list Z) (d : m_mallco_dev) :=
  m ← (memmap d).[memx <- t]; Some (Mallco (membase d) m (memrdy d)).
Definition set_membase (memx : Z) (p : list Z) (d : m_mallco_dev) :=
  m ← (membase d).[memx <- p]; Some (Mallco m (memmap d) (memrdy d)).
Definition set_memrdy (memx : Z) (r : Z) (d : m_mallco_dev) :=
  m ← (memrdy d).[memx <- r]; Some (Mallco (membase d) (memmap d) m).

(** ** Byte operations *)

(** [mymemcpy], source and destination being positions in one pool. *)
Definition mymemcpy (des src n : Z) (pool : list Z) : option (list Z) :=
  for_up (Z.to_nat n) 0 (fun k p => x ← p.[src + k]; p.[des + k <- x]) pool.

(** [while(count--) *xs++ = c], the bytes from [xs] on being [s]. *)
Fixpoint memset_loop (count : nat) (c : Z) (s : list Z) : option (list Z) :=
  match count, s with
  | O, _ => Some s
  | S n, _ :: s' => t ← memset_loop n c s'; Some (c :: t)
  | S _, [] => None
  end.

(** [mymemset], on the bytes of the object at [s]; [c] is a byte. *)
Definition mymemset (s : list Z) (c count : Z) : option (list Z) :=
  memset_loop (Z.to_nat count) (u8 c) s.

(** ** Operations *)

Definition my_mem_init (memx : Z) (d : m_mallco_dev) : option m_mallco_dev :=
  tblsz ← memtblsize.[memx];
  size ← memsize.[memx];
  tbl ← (memmap d).[memx];
  bytes ← mymemset (bytes_of_u16s tbl) 0 (tblsz * 2);
  d1 ← set_memmap memx (u16s_of_bytes bytes) d;
  pool ← (membase d1).[memx];
  pool' ← mymemset pool 0 size;
  d2 ← set_membase memx pool' d1;
  set_memrdy memx 1 d2.

Definition my_mem_perused (memx : Z) (d : m_mallco_dev) : option Z :=
  tblsz ← memtblsize.[memx];
  tbl ← (memmap d).[memx];
  used ← for_up (Z.to_nat tblsz) 0
    (fun i used => v ← tbl.[i]; Some (if v =? 0 then used else used + 1)) 0;
  Some (u8 (used * 100 / tblsz)).

(** The search loop of [my_mem_malloc]: [k] is [offset + 1]; the result is the
    offset at which [nmemb] free blocks in a row were counted, if any. *)
Fixpoint find_run (tbl : list Z) (nmemb : Z) (k : nat) (cmemb : Z)
    : option (option Z) :=
  match k with
  | O => Some None
  | S k' =>
      v ← tbl.[Z.of_nat k'];
      let cmemb := if v =? 0 then cmemb + 1 else 0 in
      if cmemb =? nmemb then Some (Some (Z.of_nat k'))
      else find_run tbl nmemb k' cmemb
  end.

(** Blocks for [size] bytes. *)
Definition blocks_for (size blk : Z) : Z :=
  if size mod blk =? 0 then size / blk else size / blk + 1.

Definition my_mem_malloc (memx size : Z) (d : m_mallco_dev)
    : option (Z * m_mallco_dev) :=
  rdy ← (memrdy d).[memx];
  d ← (if rdy =? 0 then my_mem_init memx d else Some d);
  if size =? 0 then Some (NOMEM, d) else
  blk ← memblksize.[memx];
  tblsz ← memtblsize.[memx];
  tbl ← (memmap d).[memx];
  let nmemb := blocks_for size blk in
  run ← find_run tbl nmemb (Z.to_nat tblsz) 0;
  match run with
  | None => Some (NOMEM, d)
  | Some offset =>
      tbl' ← arr_fill (Z.to_nat nmemb) offset (u16 nmemb) tbl;
      d' ← set_memmap memx tbl' d;
      Some (u32 (offset * blk), d')
  end.

Definition my_mem_free (memx offset : Z) (d : m_mallco_dev)
    : option (Z * m_mallco_dev) :=
  rdy ← (memrdy d).[memx];
  if rdy =? 0 then d' ← my_mem_init memx d; Some (1, d') else
  size ← memsize.[memx];
  if offset <? size then
    blk ← memblksize.[memx];
    tbl ← (memmap d).[memx];
    let index := offset / blk in
    nmemb ← tbl.[index];
    tbl' ← arr_fill (Z.to_nat nmemb) index 0 tbl;
    d' ← set_memmap memx tbl' d;
    Some (0, d')
  else Some (2, d).

(** The user entry points work on addresses: [base] gives the address of each
    pool (the first is placed by the linker, the others by [at(...)]). *)
Section addresses.
Context (base : Z -> Z).

Definition myfree (memx ptr : Z) (d : m_mallco_dev) : option m_mallco_dev :=
  if ptr =? 0 then Some d else
  r ← my_mem_free memx (u32 (ptr - base memx)) d; Some (snd r).

Definition mymalloc (memx size : Z) (d : m_mallco_dev)
    : option (Z * m_mallco_dev) :=
  '(offset, d') ← my_mem_malloc memx size d;
  if offset =? NOMEM then Some (0, d')
  else Some (u32 (base memx + offset), d').

Definition myrealloc (memx ptr size : Z) (d : m_mallco_dev)
    : option (Z * m_mallco_dev) :=
  '(offset, d1) ← my_mem_malloc memx size d;
  if offset =? NOMEM then Some (0, d1) else
  pool ← (membase d1).[memx];
  pool' ← mymemcpy offset (ptr - base memx) size pool;
  d2 ← set_membase memx pool' d1;
  d3 ← myfree memx ptr d2;
  Some (u32 (base memx + offset), d3).
End addresses.

(** ** Abstract specification: a heap of disjoint allocations *)

(** Block [k] belongs to the allocation of [n] blocks starting at [i]. *)
Definition in_block (i n k : Z) : Prop := i <= k < i + n.

(** No block of [[i, i+n)] is allocated in [h]. *)
Definition free_run (h : gmap Z Z) (i n : Z) : Prop :=
  forall k j m, in_block i n k -> h !! j = Some m -> ~ in_block j m k.

(** Blocks [[i, i+n)] of the table are marked free. *)
Definition zero_run (t : list Z) (i n : Z) : Prop :=
  forall k, in_block i n k -> t.[k] = Some 0.

(** The table represents the heap: every allocation is marked with its size on
    exactly its own blocks, allocations do not overlap, everything else is
    free. *)
Record heap_rel (h : gmap Z Z) (t : list Z) : Prop := HeapRel {
  hr_block : forall i n, h !! i = Some n ->
    0 < n /\ 0 <= i /\ i + n <= Z.of_nat (length t) /\
    forall k, in_block i n k -> t.[k] = Some n;
  hr_disjoint : forall i n j m k, h !! i = Some n -> h !! j = Some m ->
    in_block i n k -> in_block j m k -> i = j;
  hr_cover : forall k, 0 <= k < Z.of_nat (length t) ->
    t.[k] = Some 0 \/ exists i n, h !! i = Some n /\ in_block i n k
}.

(** The contents of bank [memx]: a table of [ts] entries, a pool of [32 * ts]
    bytes and a ready flag. *)
Record bank (memx : Z) (d : m_mallco_dev) (ts : Z) (t p : list Z) (r : Z)
    : Prop := Bank {
  bk_ts : memtblsize.[memx] = Some ts;
  bk_map : (memmap d).[memx] = Some t;
  bk_base : (membase d).[memx] = Some p;
  bk_rdy : (memrdy d).[memx] = Some r;
  bk_tlen : Z.of_nat (length t) = ts;
  bk_plen : Z.of_nat (length p) = 32 * ts
}.

(** Bank [memx] of [d] is initialised and represents [h]. *)
Definition ready_heap (memx : Z) (h : gmap Z Z) (d : m_mallco_dev) : Prop :=
  exists ts t p r, bank memx d ts t p r /\ r <> 0 /\ heap_rel h t.

(** An operation on bank [memx] leaves the other banks alone. *)
Definition same_others (memx : Z) (d d' : m_mallco_dev) : Prop :=
  forall y, y <> memx -> (memmap d').[y] = (memmap d).[y] /\
    (membase d').[y] = (membase d).[y] /\ (memrdy d').[y] = (memrdy d).[y].

(** ** Lemmas: banks *)

Lemma bank_const memx ts : memtblsize.[memx] = Some ts ->
  memblksize.[memx] = Some 32 /\ memsize.[memx] = Some (32 * ts) /\
  0 < ts <= 6400 /\ 0 <= memx < 3.
Proof.
  intros H. pose proof (arr_get_lt _ _ _ H) as Hr. cbn in Hr.
  assert (memx = 0 \/ memx = 1 \/ memx = 2) as [-> | [-> | ->]] by lia;
    vm_compute in H; injection H as <-; vm_compute; repeat split; congruence.
Qed.

Lemma set_memmap_bank memx d ts t p r t' :
  bank memx d ts t p r -> Z.of_nat (length t') = ts ->
  exists d', set_memmap memx t' d = Some d' /\ bank memx d' ts t' p r /\
    same_others memx d d' /\ membase d' = membase d /\ memrdy d' = memrdy d.
Proof.
  intros [Hts Hm Hb Hr Ht Hp] Hl. unfold set_memmap.
  destruct ((memmap d).[memx <- t']) as [m|] eqn:E.
  2:{ apply arr_set_None in E. apply arr_get_lt in Hm. lia. }
  cbn. eexists. split; [done|]. split; [|split; [|done]].
  - constructor; cbn; try done. by eapply arr_get_set_eq.
  - intros y Hy. cbn. split; [|done]. eapply arr_get_set_ne; [done|lia].
Qed.

Lemma set_membase_bank memx d ts t p r p' :
  bank memx d ts t p r -> length p' = length p ->
  exists d', set_membase memx p' d = Some d' /\ bank memx d' ts t p' r /\
    same_others memx d d' /\ memmap d' = memmap d /\ memrdy d' = memrdy d.
Proof.
  intros [Hts Hm Hb Hr Ht Hp] Hl. unfold set_membase.
  destruct ((membase d).[memx <- p']) as [m|] eqn:E.
  2:{ apply arr_set_None in E. apply arr_get_lt in Hb. lia. }
  cbn. eexists. split; [done|]. split; [|split; [|done]].
  - constructor; cbn; try done; [by eapply arr_get_set_eq|lia].
  - intros y Hy. cbn. split; [done|]. split; [|done].
    eapply arr_get_set_ne; [done|lia].
Qed.

Lemma set_memrdy_bank memx d ts t p r r' :
  bank memx d ts t p r ->
  exists d', set_memrdy memx r' d = Some d' /\ bank memx d' ts t p r' /\
    same_others memx d d'.
Proof.
  intros [Hts Hm Hb Hr Ht Hp]. unfold set_memrdy.
  destruct ((memrdy d).[memx <- r']) as [m|] eqn:E.
  2:{ apply arr_set_None in E. apply arr_get_lt in Hr. lia. }
  cbn. eexists. split; [done|]. split.
  - constructor; cbn; try done. by eapply arr_get_set_eq.
  - intros y Hy. cbn. do 2 (split; [done|]).
    eapply arr_get_set_ne; [done|lia].
Qed.

Lemma same_others_trans memx d1 d2 d3 :
  same_others memx d1 d2 -> same_others memx d2 d3 -> same_others memx d1 d3.
Proof. intros H1 H2 y Hy. destruct (H1 y Hy) as (?&?&?), (H2 y Hy) as (?&?&?).
  splits; congruence. Qed.

Lemma same_others_refl memx d : same_others memx d d.
Proof. done. Qed.

#[export] Hint Resolve same_others_refl : cdb.

(** Writing back the contents a bank already has changes nothing. *)
Lemma set_memmap_id memx t d :
  (memmap d).[memx] = Some t -> set_memmap memx t d = Some d.
Proof.
  intros H. unfold set_memmap. rewrite arr_set_is_Some by (by eapply arr_get_lt).
  apply arr_get_Some in H as [_ H]. cbn. rewrite list_insert_id by done.
  by destruct d.
Qed.

Lemma set_memmap_twice memx t1 t2 d d1 :
  set_memmap memx t1 d = Some d1 -> set_memmap memx t2 d1 = set_memmap memx t2 d.
Proof.
  unfold set_memmap. intros (m & [Hr ->]%arr_set_Some & [= <-])%bind_Some. cbn.
  rewrite !arr_set_is_Some by (rewrite ?length_insert; lia). cbn.
  by rewrite list_insert_insert_eq.
Qed.

(** ** Lemmas: initialisation *)

Lemma memset_loop_spec n c s :
  (n <= length s)%nat -> memset_loop n c s = Some (replicate n c ++ drop n s).
Proof.
  revert s. induction n as [|n IH]; intros [|x s] H; cbn in *; try done; try lia.
  rewrite IH by lia. done.
Qed.

Lemma mymemset_all s c :
  mymemset s c (Z.of_nat (length s)) = Some (replicate (length s) (u8 c)).
Proof.
  unfold mymemset. rewrite Nat2Z.id, memset_loop_spec by lia.
  by rewrite drop_all, app_nil_r.
Qed.

Lemma heap_rel_empty n : heap_rel ∅ (replicate n 0).
Proof.
  split.
  - intros i m Hm. by rewrite lookup_empty in Hm.
  - intros i m j m' k Hm. by rewrite lookup_empty in Hm.
  - intros k Hk. left. apply arr_get_replicate. by rewrite length_replicate in Hk.
Qed.

Lemma my_mem_init_bank memx d ts t p r :
  bank memx d ts t p r ->
  exists d', my_mem_init memx d = Some d' /\ same_others memx d d' /\
    bank memx d' ts (replicate (length t) 0) (replicate (length p) 0) 1.
Proof.
  intros B. pose proof B as [Hts Hm _ _ Ht Hp].
  destruct (bank_const _ _ Hts) as (_ & Hsz & _ & _).
  unfold my_mem_init. rewrite Hts, Hsz, Hm. cbn [mbind option_bind].
  replace (ts * 2) with (Z.of_nat (length (bytes_of_u16s t)))
    by (rewrite bytes_of_u16s_length; lia).
  rewrite mymemset_all, bytes_of_u16s_length, u8_small by lia.
  cbn [mbind option_bind]. rewrite u16s_of_zero_bytes.
  destruct (set_memmap_bank _ _ _ _ _ _ (replicate (length t) 0) B)
    as (d1 & -> & B1 & S1 & _); [by rewrite length_replicate|].
  cbn [mbind option_bind]. rewrite (bk_base _ _ _ _ _ _ B1).
  cbn [mbind option_bind]. rewrite <- Hp, mymemset_all, u8_small by lia.
  cbn [mbind option_bind].
  destruct (set_membase_bank _ _ _ _ _ _ (replicate (length p) 0) B1)
    as (d2 & -> & B2 & S2 & _); [by rewrite length_replicate|].
  cbn [mbind option_bind].
  destruct (set_memrdy_bank _ _ _ _ _ _ 1 B2) as (d3 & -> & B3 & S3).
  exists d3. split; [done|]. split; [|done].
  eauto using same_others_trans.
Qed.

(** ** Lemmas: the search *)

Lemma find_run_spec t nmemb k c :
  0 <= c < nmemb -> Z.of_nat k + c <= Z.of_nat (length t) ->
  zero_run t (Z.of_nat k) c -> t.[Z.of_nat k + c] <> Some 0 ->
  exists run, find_run t nmemb k c = Some run /\
    match run with
    | Some o => 0 <= o < Z.of_nat k /\ zero_run t o nmemb /\
        forall o', o < o' < Z.of_nat k -> ~ zero_run t o' nmemb
    | None => forall o', 0 <= o' < Z.of_nat k -> ~ zero_run t o' nmemb
    end.
Proof.
  revert c. induction k as [|k IH]; intros c Hc Hl Hz Hend; cbn [find_run].
  { exists None. split; [done|]. lia. }
  destruct (arr_get_is_Some t (Z.of_nat k)) as [v Hv]; [lia|].
  rewrite Hv. cbn [mbind option_bind].
  destruct (v =? 0) eqn:Ev; zb.
  - subst v.
    assert (Hz' : zero_run t (Z.of_nat k) (c + 1)).
    { intros j Hj. destruct (decide (j = Z.of_nat k)) as [->|]; [done|].
      apply Hz. unfold in_block in *. lia. }
    destruct (c + 1 =? nmemb) eqn:Ec; zb.
    + subst nmemb. exists (Some (Z.of_nat k)). split; [done|].
      split; [lia|]. split; [done|lia].
    + destruct (IH (c + 1)) as (run & E & H); [lia| lia | done | |].
      { by replace (Z.of_nat k + (c + 1)) with (Z.of_nat (S k) + c) by lia. }
      exists run. split; [done|].
      assert (~ zero_run t (Z.of_nat k) nmemb).
      { intros Hr. apply Hend. apply Hr. unfold in_block. lia. }
      destruct run as [o|]; [destruct H as (? & ? & H); splits; [lia|lia|done|]|];
        intros o' Ho'; (destruct (decide (o' = Z.of_nat k)) as [->|];
          [done|apply H; lia]).
  - ztest. destruct (IH 0) as (run & E & H); [lia|lia| | |].
    { intros j Hj. unfold in_block in Hj. lia. }
    { rewrite Z.add_0_r, Hv. congruence. }
    exists run. split; [done|].
    assert (~ zero_run t (Z.of_nat k) nmemb).
    { intros Hr. specialize (Hr (Z.of_nat k)). rewrite Hv in Hr.
      unfold in_block in Hr. apply Ev. enough (Some v = Some 0) by congruence.
      apply Hr. lia. }
    destruct run as [o|]; [destruct H as (? & ? & H); splits; [lia|lia|done|]|];
      intros o' Ho'; (destruct (decide (o' = Z.of_nat k)) as [->|];
        [done|apply H; lia]).
Qed.

(** The whole search: the highest run of [n] free blocks, if there is one. *)
Lemma find_run_highest t n ts :
  Z.of_nat (length t) = ts -> 0 < n ->
  exists run, find_run t n (Z.to_nat ts) 0 = Some run /\
    match run with
    | Some o => 0 <= o /\ o + n <= ts /\ zero_run t o n /\
        forall o', o < o' -> ~ zero_run t o' n
    | None => forall o', 0 <= o' -> ~ zero_run t o' n
    end.
Proof.
  intros <- Hn. rewrite Nat2Z.id.
  destruct (find_run_spec t n (length t) 0) as (run & E & H); [lia|lia| | |].
  { intros j Hj. unfold in_block in Hj. lia. }
  { rewrite (proj2 (arr_get_None _ _)) by lia. done. }
  exists run. split; [done|].
  assert (Hbig : forall o', 0 <= o' -> zero_run t o' n ->
    o' + n <= Z.of_nat (length t)).
  { intros o' Ho Hr. specialize (Hr (o' + n - 1)). unfold in_block in Hr.
    specialize (Hr ltac:(lia)). apply arr_get_lt in Hr. lia. }
  destruct run as [o|].
  - destruct H as (Ho & Hr & H). pose proof (Hbig o ltac:(lia) Hr).
    splits; [lia|lia|done|]. intros o' Ho' Hr'.
    pose proof (Hbig o' ltac:(lia) Hr'). apply (H o'); [lia|done].
  - intros o' Ho' Hr'. pose proof (Hbig o' ltac:(lia) Hr').
    apply (H o'); [lia|done].
Qed.

(** ** Lemmas: the table and the heap *)

Lemma zero_run_free h t i n :
  heap_rel h t -> 0 <= i -> i + n <= Z.of_nat (length t) ->
  zero_run t i n <-> free_run h i n.
Proof.
  intros R Hi Hn. split.
  - intros Hz k j m Hk Hj Hkj.
    destruct (hr_block _ _ R _ _ Hj) as (Hm & _ & _ & Hall).
    specialize (Hz k Hk). specialize (Hall k Hkj). simplify_eq. lia.
  - intros Hf k Hk. pose proof Hk as [Hk1 Hk2].
    destruct (hr_cover _ _ R k ltac:(lia)) as [|(j & m & Hj & Hkj)]; [done|].
    by destruct (Hf k j m Hk Hj Hkj).
Qed.

(** [t'] is [t] with [x] in the cells of [[i, i+n)]. *)
Definition filled (t t' : list Z) (i n x : Z) : Prop :=
  length t' = length t /\
  forall j, t'.[j] = if (i <=? j) && (j <? i + n) then Some x else t.[j].

Lemma filled_in t t' i n x k :
  filled t t' i n x -> in_block i n k -> t'.[k] = Some x.
Proof. intros [_ ->] [? ?]. by repeat ztest. Qed.

Lemma filled_out t t' i n x k :
  filled t t' i n x -> ~ in_block i n k -> t'.[k] = t.[k].
Proof. intros [_ ->] Hk. unfold in_block in Hk. zcase; [lia|done]. Qed.

Lemma in_block_dec i n k : in_block i n k \/ ~ in_block i n k.
Proof. unfold in_block. lia. Qed.

Lemma arr_fill_filled t i n x :
  0 <= n -> 0 <= i -> i + n <= Z.of_nat (length t) ->
  exists t', arr_fill (Z.to_nat n) i x t = Some t' /\ filled t t' i n x.
Proof.
  intros. destruct (arr_fill_spec (Z.to_nat n) i x t) as (t' & E & Hl & Ht); [lia..|].
  exists t'. rewrite Z2Nat.id in Ht by lia. done.
Qed.

Lemma heap_rel_insert h t t' i n :
  heap_rel h t -> 0 < n -> 0 <= i -> i + n <= Z.of_nat (length t) ->
  free_run h i n -> filled t t' i n n -> heap_rel (<[i:=n]> h) t'.
Proof.
  intros R Hn Hi Hl Hf F. pose proof F as [Flen _].
  assert (Hother : forall j m k, h !! j = Some m -> in_block j m k ->
    ~ in_block i n k) by (intros j m k Hj Hk Hik; by apply (Hf k j m)).
  assert (Hii : forall j m k, <[i:=n]> h !! j = Some m -> in_block i n k ->
    in_block j m k -> j = i).
  { intros j m k [[<- _]|[_ Hj]]%lookup_insert_Some Hik Hjk; [done|].
    by destruct (Hother _ _ _ Hj Hjk). }
  split.
  - intros j m [[<- <-]|[Hne Hj]]%lookup_insert_Some.
    + splits; [lia..|]. intros k Hk. by eapply filled_in.
    + destruct (hr_block _ _ R _ _ Hj) as (? & ? & ? & Hall).
      rewrite Flen. splits; [lia..|]. intros k Hk.
      rewrite (filled_out _ _ _ _ _ _ F) by eauto. by apply Hall.
  - intros j m j' m' k Hj Hj' Hk Hk'.
    destruct (in_block_dec i n k) as [Hik|Hik].
    + by rewrite (Hii _ _ _ Hj Hik Hk), (Hii _ _ _ Hj' Hik Hk').
    + apply lookup_insert_Some in Hj as [[<- <-]|[_ Hj]]; [done|].
      apply lookup_insert_Some in Hj' as [[<- <-]|[_ Hj']]; [done|].
      by eapply (hr_disjoint _ _ R).
  - rewrite Flen. intros k Hk. destruct (in_block_dec i n k) as [Hik|Hik].
    + right. exists i, n. by rewrite lookup_insert_eq.
    + rewrite (filled_out _ _ _ _ _ _ F Hik).
      destruct (hr_cover _ _ R k Hk) as [|(j & m & Hj & Hjk)]; [by left|right].
      exists j, m. split; [|done]. rewrite lookup_insert_ne; [done|].
      intros <-. destruct (hr_block _ _ R _ _ Hj) as (? & _ & _ & _).
      apply (Hother _ _ i Hj); unfold in_block; lia.
Qed.

Lemma heap_rel_delete h t t' i n :
  heap_rel h t -> h !! i = Some n -> filled t t' i n 0 ->
  heap_rel (delete i h) t'.
Proof.
  intros R Hin F. pose proof F as [Flen _]. split.
  - intros j m [Hne Hj]%lookup_delete_Some.
    destruct (hr_block _ _ R _ _ Hj) as (? & ? & ? & Hall).
    rewrite Flen. splits; [lia..|]. intros k Hk.
    rewrite (filled_out _ _ _ _ _ _ F); [by apply Hall|]. intros Hik.
    apply Hne. by eapply (hr_disjoint _ _ R).
  - intros j m j' m' k [_ Hj]%lookup_delete_Some [_ Hj']%lookup_delete_Some.
    by eapply (hr_disjoint _ _ R).
  - rewrite Flen. intros k Hk. destruct (in_block_dec i n k) as [Hik|Hik].
    + left. by eapply filled_in.
    + rewrite (filled_out _ _ _ _ _ _ F Hik).
      destruct (hr_cover _ _ R k Hk) as [|(j & m & Hj & Hjk)]; [by left|right].
      exists j, m. split; [|done]. rewrite lookup_delete_ne; [done|].
      intros <-. simplify_eq. done.
Qed.

Lemma blocks_for_pos size : 0 < size -> 0 < blocks_for size 32.
Proof.
  intros. unfold blocks_for. pose proof (Z.div_mod size 32).
  pose proof (Z.mod_pos_bound size 32). zcase; lia.
Qed.

(** Enough blocks, and no block to spare. *)
Lemma blocks_for_bounds size : 0 <= size ->
  32 * (blocks_for size 32 - 1) < size + (if size =? 0 then 1 else 0) /\
  size <= 32 * blocks_for size 32.
Proof.
  intros. unfold blocks_for. pose proof (Z.div_mod size 32).
  pose proof (Z.mod_pos_bound size 32). repeat zcase; lia.
Qed.

(** ** Lemmas: the operations on a ready bank *)

Lemma my_mem_malloc_ready memx size d ts t p r :
  bank memx d ts t p r -> r <> 0 -> 0 < size ->
  exists run, find_run t (blocks_for size 32) (Z.to_nat ts) 0 = Some run /\
  match run with
  | None => my_mem_malloc memx size d = Some (NOMEM, d)
  | Some i => 0 <= i /\ i + blocks_for size 32 <= ts /\
      zero_run t i (blocks_for size 32) /\
      exists t' d', my_mem_malloc memx size d = Some (32 * i, d') /\
        filled t t' i (blocks_for size 32) (blocks_for size 32) /\
        set_memmap memx t' d = Some d' /\ bank memx d' ts t' p r /\
        same_others memx d d' /\ membase d' = membase d
  end.
Proof.
  intros B Hr Hs. pose proof B as [Hts Hm _ Hrd Ht _].
  destruct (bank_const _ _ Hts) as (Hblk & _ & Hbig & _).
  pose proof (blocks_for_pos size Hs) as Hn.
  destruct (find_run_highest t (blocks_for size 32) ts Ht Hn)
    as (run & E & Hrun). exists run. split; [done|].
  unfold my_mem_malloc. rewrite Hrd. cbn [mbind option_bind].
  do 2 ztest. cbn [mbind option_bind]. rewrite Hblk, Hts, Hm.
  cbn [mbind option_bind]. cbv zeta. rewrite E. cbn [mbind option_bind].
  destruct run as [i|]; [|done].
  destruct Hrun as (Hi & Hin & Hz & _). rewrite u16_small by lia.
  destruct (arr_fill_filled t i (blocks_for size 32) (blocks_for size 32))
    as (t' & -> & F); [lia..|]. cbn [mbind option_bind].
  destruct (set_memmap_bank _ _ _ _ _ _ t' B)
    as (d' & E' & B' & S' & Hb' & _); [rewrite (proj1 F); lia|].
  rewrite E'. cbn [mbind option_bind]. rewrite u32_small by lia.
  splits; [lia..|done|]. exists t', d'. rewrite Z.mul_comm. done.
Qed.

Lemma my_mem_free_block memx off d ts t p r n :
  bank memx d ts t p r -> r <> 0 -> 0 <= off < 32 * ts ->
  t.[off / 32] = Some n -> 0 <= n -> off / 32 + n <= ts ->
  exists t' d', my_mem_free memx off d = Some (0, d') /\
    filled t t' (off / 32) n 0 /\ set_memmap memx t' d = Some d' /\
    bank memx d' ts t' p r /\ same_others memx d d' /\ membase d' = membase d.
Proof.
  intros B Hr Ho Hg Hn Hend. pose proof B as [Hts Hm _ Hrd Ht _].
  destruct (bank_const _ _ Hts) as (Hblk & Hsz & _ & _).
  unfold my_mem_free. rewrite Hrd. cbn [mbind option_bind]. ztest.
  rewrite Hsz. cbn [mbind option_bind]. ztest.
  rewrite Hblk, Hm. cbn [mbind option_bind]. cbv zeta. rewrite Hg.
  cbn [mbind option_bind].
  destruct (arr_fill_filled t (off / 32) n 0) as (t' & -> & F);
    [lia|apply Z.div_pos; lia|lia|].
  cbn [mbind option_bind].
  destruct (set_memmap_bank _ _ _ _ _ _ t' B)
    as (d' & E' & B' & S' & Hb' & _); [rewrite (proj1 F); lia|].
  rewrite E'. cbn [mbind option_bind]. exists t', d'. done.
Qed.

(** ** Specification of the operations on the abstract heap *)

(** [n] blocks of a bank of [ts] blocks are free at [i]. *)
Definition fits (ts : Z) (h : gmap Z Z) (i n : Z) : Prop :=
  0 <= i /\ i + n <= ts /\ free_run h i n.

(** Allocation takes the highest place that fits, or reports that there is
    none. *)
Inductive heap_malloc (ts size : Z) (h : gmap Z Z) : Z -> gmap Z Z -> Prop :=
| heap_malloc_zero : size = 0 -> heap_malloc ts size h NOMEM h
| heap_malloc_full :
    0 < size -> (forall i, ~ fits ts h i (blocks_for size 32)) ->
    heap_malloc ts size h NOMEM h
| heap_malloc_ok i :
    0 < size -> fits ts h i (blocks_for size 32) ->
    (forall i', i < i' -> ~ fits ts h i' (blocks_for size 32)) ->
    heap_malloc ts size h (32 * i) (<[i := blocks_for size 32]> h).

(** Bank [memx] of [d] represents [h]; a bank that is not initialised yet
    holds no allocation. *)
Definition bank_rel (memx : Z) (h : gmap Z Z) (d : m_mallco_dev) : Prop :=
  exists ts t p r, bank memx d ts t p r /\
    if r =? 0 then h = ∅ else heap_rel h t.

(** [my_mem_init] leaves an empty, ready heap. *)
Lemma my_mem_init_rel memx h d :
  bank_rel memx h d ->
  exists d', my_mem_init memx d = Some d' /\ bank_rel memx ∅ d' /\
    same_others memx d d' /\ (memrdy d').[memx] = Some 1.
Proof.
  intros (ts & t & p & r & B & _).
  destruct (my_mem_init_bank _ _ _ _ _ _ B) as (d' & E & S & B').
  exists d'. split; [done|]. split; [|split; [done|apply (bk_rdy _ _ _ _ _ _ B')]].
  do 4 eexists. split; [exact B'|]. apply heap_rel_empty.
Qed.

(** Operations on a bank that is not ready start by initialising it. *)
Lemma my_mem_malloc_not_ready memx size d ts t p :
  bank memx d ts t p 0 ->
  exists d1, my_mem_init memx d = Some d1 /\ same_others memx d d1 /\
    bank memx d1 ts (replicate (length t) 0) (replicate (length p) 0) 1 /\
    my_mem_malloc memx size d = my_mem_malloc memx size d1.
Proof.
  intros B. destruct (my_mem_init_bank _ _ _ _ _ _ B) as (d1 & E & S & B1).
  exists d1. split; [done|]. split; [done|]. split; [done|].
  unfold my_mem_malloc.
  by rewrite (bk_rdy _ _ _ _ _ _ B), (bk_rdy _ _ _ _ _ _ B1); cbn; rewrite E.
Qed.

Lemma my_mem_malloc_zero memx d ts t p r :
  bank memx d ts t p r -> r <> 0 -> my_mem_malloc memx 0 d = Some (NOMEM, d).
Proof.
  intros B Hr. unfold my_mem_malloc. rewrite (bk_rdy _ _ _ _ _ _ B).
  do 2 (cbn [mbind option_bind]; ztest). done.
Qed.

Lemma find_run_heap h t ts n :
  heap_rel h t -> Z.of_nat (length t) = ts -> 0 < n ->
  exists run, find_run t n (Z.to_nat ts) 0 = Some run /\
    match run with
    | Some i => fits ts h i n /\ forall i', i < i' -> ~ fits ts h i' n
    | None => forall i, ~ fits ts h i n
    end.
Proof.
  intros R Ht Hn. destruct (find_run_highest t n ts Ht Hn) as (run & E & H).
  exists run. split; [done|]. destruct run as [i|].
  - destruct H as (Hi & Hin & Hz & H). unfold fits at 1. splits; [done..| |].
    + by apply (zero_run_free h t i n R); [|lia|].
    + intros i' Hlt (? & ? & Hf). apply (H i' Hlt).
      by apply (zero_run_free h t i' n R); [|lia|].
  - intros i (? & ? & Hf). apply (H i); [done|].
    by apply (zero_run_free h t i n R); [|lia|].
Qed.

Lemma my_mem_malloc_heap memx size d h ts t p r :
  bank memx d ts t p r -> r <> 0 -> heap_rel h t -> 0 <= size ->
  exists off h' d', my_mem_malloc memx size d = Some (off, d') /\
    heap_malloc ts size h off h' /\ bank_rel memx h' d' /\
    same_others memx d d' /\ membase d' = membase d.
Proof.
  intros B Hr R Hs. destruct (decide (size = 0)) as [->|Hne].
  { exists NOMEM, h, d. rewrite (my_mem_malloc_zero _ _ _ _ _ _ B Hr).
    splits; [done|by constructor| |done..]. exists ts, t, p, r.
    split; [done|]. by ztest. }
  assert (H0 : 0 < size) by lia.
  destruct (my_mem_malloc_ready _ _ _ _ _ _ _ B Hr H0) as (run & E & H).
  destruct (find_run_heap h t ts _ R (bk_tlen _ _ _ _ _ _ B)
    (blocks_for_pos _ H0)) as (run' & E' & Hf). rewrite E in E'.
  injection E' as <-. destruct run as [i|].
  - destruct H as (Hi & Hin & Hz & t' & d' & Em & F & _ & B' & S & Hb).
    destruct Hf as [Hf Hmax].
    exists (32 * i), (<[i:=blocks_for size 32]> h), d'.
    splits; [done|by apply heap_malloc_ok| |done..].
    exists ts, t', p, r. split; [done|]. ztest.
    pose proof (bk_tlen _ _ _ _ _ _ B). pose proof (blocks_for_pos _ H0).
    eapply heap_rel_insert; [done|lia..|apply Hf|done].
  - exists NOMEM, h, d. splits; [done|by apply heap_malloc_full| |done..].
    exists ts, t, p, r. split; [done|]. by ztest.
Qed.

Lemma my_mem_malloc_sim memx size d h ts :
  bank_rel memx h d -> memtblsize.[memx] = Some ts -> 0 <= size ->
  exists off h' d', my_mem_malloc memx size d = Some (off, d') /\
    heap_malloc ts size h off h' /\ bank_rel memx h' d' /\
    same_others memx d d'.
Proof.
  intros (ts' & t & p & r & B & R) Hts Hs.
  pose proof (bk_ts _ _ _ _ _ _ B). simplify_eq. destruct (r =? 0) eqn:Er; zb.
  - subst r h.
    destruct (my_mem_malloc_not_ready _ size _ _ _ _ B) as (d1 & _ & S & B1 & ->).
    destruct (my_mem_malloc_heap _ size _ ∅ _ _ _ _ B1)
      as (off & h' & d' & E & Hm & Hb & S' & _);
      [lia|apply heap_rel_empty|done|].
    exists off, h', d'. eauto using same_others_trans.
  - destruct (my_mem_malloc_heap _ size _ h _ _ _ _ B Er R Hs)
      as (off & h' & d' & ? & ? & ? & ? & _). eauto 10.
Qed.

(** C19: [my_mem_malloc] implements the heap specification on every branch:
    from any state of the bank (initialised or not), for every size, it
    returns the offset of the highest run of free blocks that is long enough
    (or the error value, exactly when [size] is 0 or no such run exists), marks
    exactly that run, and leaves the other banks alone. *)
Theorem my_mem_malloc_refines memx size d h ts :
  bank_rel memx h d -> memtblsize.[memx] = Some ts -> 0 <= size ->
  exists off h' d', my_mem_malloc memx size d = Some (off, d') /\
    heap_malloc ts size h off h' /\ bank_rel memx h' d' /\
    same_others memx d d'.
Proof. apply my_mem_malloc_sim. Qed.

Lemma my_mem_free_sim memx off d h ts :
  bank_rel memx h d -> memtblsize.[memx] = Some ts -> 0 <= off ->
  ((memrdy d).[memx] <> Some 0 -> off < 32 * ts -> is_Some (h !! (off / 32))) ->
  exists res d', my_mem_free memx off d = Some (res, d') /\
    same_others memx d d' /\
    ((memrdy d).[memx] = Some 0 /\ res = 1 /\ bank_rel memx ∅ d' \/
     (memrdy d).[memx] <> Some 0 /\ 32 * ts <= off /\ res = 2 /\ d' = d \/
     (memrdy d).[memx] <> Some 0 /\ off < 32 * ts /\ res = 0 /\
       bank_rel memx (delete (off / 32) h) d').
Proof.
  intros HB Hts Ho Hh. pose proof HB as (ts' & t & p & r & B & R).
  pose proof B as [Hts' _ _ Hrd Ht _]. simplify_eq.
  destruct (bank_const _ _ Hts) as (Hblk & Hsz & Hbig & _).
  rewrite Hrd in *. destruct (r =? 0) eqn:Er; zb.
  - destruct (my_mem_init_rel _ _ _ HB) as (d' & E & B' & S & _).
    exists 1, d'. unfold my_mem_free. rewrite Hrd. cbn [mbind option_bind].
    ztest. rewrite E. cbn. split; [done|]. split; [done|]. left. subst. done.
  - assert (Hr : Some r <> Some 0) by congruence.
    destruct (decide (off < 32 * Z.of_nat (length t))) as [Hlt|Hge].
    + destruct (Hh Hr Hlt) as [n Hn].
      destruct (hr_block _ _ R _ _ Hn) as (? & ? & ? & Hall).
      destruct (my_mem_free_block _ off _ _ _ _ _ n B Er) as
        (t' & d' & E & F & _ & B' & S & _);
        [lia|apply Hall; unfold in_block; lia|lia|lia|].
      exists 0, d'. do 2 (split; [done|]). right. right.
      do 3 (split; [done|]).
      exists (Z.of_nat (length t)), t', p, r. split; [done|]. ztest.
      by eapply heap_rel_delete.
    + exists 2, d. unfold my_mem_free. rewrite Hrd. cbn [mbind option_bind].
      ztest. rewrite Hsz. cbn [mbind option_bind]. ztest.
      split; [done|]. split; [done|]. right. left. splits; done || lia.
Qed.

(** [my_mem_free] on every branch: an initialised bank and an offset
    anywhere in the first block of an allocation release exactly that
    allocation; an offset beyond the pool is refused with 2; a bank that is not
    initialised is initialised and 1 is returned. *)
Theorem my_mem_free_refines memx off d h ts :
  bank_rel memx h d -> memtblsize.[memx] = Some ts -> 0 <= off ->
  ((memrdy d).[memx] <> Some 0 -> off < 32 * ts -> is_Some (h !! (off / 32))) ->
  exists res d', my_mem_free memx off d = Some (res, d') /\
    same_others memx d d' /\
    ((memrdy d).[memx] = Some 0 /\ res = 1 /\ bank_rel memx ∅ d' \/
     (memrdy d).[memx] <> Some 0 /\ 32 * ts <= off /\ res = 2 /\ d' = d \/
     (memrdy d).[memx] <> Some 0 /\ off < 32 * ts /\ res = 0 /\
       bank_rel memx (delete (off / 32) h) d').
Proof. apply my_mem_free_sim. Qed.

Lemma filled_undo t t' t'' i n x :
  zero_run t i n -> filled t t' i n x -> filled t' t'' i n 0 -> t'' = t.
Proof.
  intros Hz F1 F2. apply arr_ext.
  - by rewrite (proj1 F2), (proj1 F1).
  - intros k _. destruct (in_block_dec i n k) as [Hk|Hk].
    + by rewrite (filled_in _ _ _ _ _ _ F2 Hk), (Hz k Hk).
    + by rewrite (filled_out _ _ _ _ _ _ F2 Hk), (filled_out _ _ _ _ _ _ F1 Hk).
Qed.

(** C30: freeing what was just allocated restores the allocator exactly, pools
    and other banks included. *)
Theorem malloc_free_roundtrip memx size d off d' h :
  ready_heap memx h d -> 0 <= size ->
  my_mem_malloc memx size d = Some (off, d') -> off <> NOMEM ->
  my_mem_free memx off d' = Some (0, d).
Proof.
  intros (ts & t & p & r & B & Hr & R) Hs E Hoff.
  destruct (decide (size = 0)) as [->|].
  { rewrite (my_mem_malloc_zero _ _ _ _ _ _ B Hr) in E. congruence. }
  destruct (my_mem_malloc_ready memx size d _ _ _ _ B Hr ltac:(lia))
    as (run & _ & H). destruct run as [i|]; [|congruence].
  destruct H as (Hi & Hin & Hz & t' & d1 & Em & F & Es & B' & _ & _).
  rewrite Em in E. injection E as <- <-.
  pose proof (blocks_for_pos size ltac:(lia)).
  assert (Hdiv : 32 * i / 32 = i) by (rewrite Z.mul_comm; apply Z.div_mul; lia).
  destruct (my_mem_free_block memx (32 * i) d1 _ _ _ _ (blocks_for size 32) B' Hr)
    as (t'' & d'' & Ef & F' & Es' & _); rewrite ?Hdiv in *; [lia| |lia..|].
  { eapply filled_in; [done|unfold in_block; lia]. }
  rewrite Ef. do 2 f_equal.
  rewrite (filled_undo _ _ _ _ _ _ Hz F F') in Es'.
  rewrite (set_memmap_twice _ _ _ _ _ Es) in Es'.
  rewrite (set_memmap_id _ _ _ (bk_map _ _ _ _ _ _ B)) in Es'. congruence.
Qed.

(** ** Reallocation *)

(** [mymemcpy] on a source it does not overwrite copies it, and writes nothing
    else. *)
Lemma mymemcpy_spec des src n m p :
  0 <= des -> des + n <= Z.of_nat (length p) ->
  0 <= src -> src + n <= Z.of_nat (length p) -> 0 <= n ->
  src + m <= des \/ des + n <= src ->
  exists p', mymemcpy des src n p = Some p' /\ length p' = length p /\
    (forall j, ~ in_block des n j -> p'.[j] = p.[j]) /\
    forall x, 0 <= x < n -> x < m -> p'.[des + x] = p.[src + x].
Proof.
  intros Hd Hdn Hs Hsn Hn Hdis. unfold mymemcpy.
  destruct (for_up_inv (fun k q => length q = length p /\
      (forall j, ~ in_block des k j -> q.[j] = p.[j]) /\
      forall x, 0 <= x < k -> x < m -> q.[des + x] = p.[src + x])
    (fun k q => x ← q.[src + k]; q.[des + k <- x]) (Z.to_nat n) 0 p)
    as (p' & E & H).
  - intros k q Hk (Hl & Hout & Hin).
    destruct (arr_get_is_Some q (src + k)) as [v Hv]; [lia|].
    rewrite Hv. cbn [mbind option_bind].
    destruct (q.[des + k <- v]) as [q'|] eqn:E; [|apply arr_set_None in E; lia].
    exists q'. split; [done|]. split; [by rewrite (arr_set_length _ _ _ _ E)|].
    split.
    + intros j Hj. unfold in_block in Hj.
      rewrite (arr_get_set_ne _ _ _ _ _ E) by lia.
      apply Hout. unfold in_block. lia.
    + intros x Hx Hm. destruct (decide (x = k)) as [->|].
      * rewrite (arr_get_set_eq _ _ _ _ E), <- Hv. apply Hout.
        unfold in_block. lia.
      * rewrite (arr_get_set_ne _ _ _ _ _ E) by lia. apply Hin; lia.
  - splits; [done|done|lia].
  - exists p'. rewrite Z2Nat.id in H by lia. done.
Qed.

(** A source that runs past the end of the pool is read out of bounds. *)
Lemma mymemcpy_overread des src n p :
  0 <= des -> des + n <= Z.of_nat (length p) ->
  0 <= src <= Z.of_nat (length p) -> Z.of_nat (length p) < src + n ->
  mymemcpy des src n p = None.
Proof.
  intros Hd Hdn Hs Hn. unfold mymemcpy.
  set (a := Z.to_nat (Z.of_nat (length p) - src)).
  replace (Z.to_nat n) with (a + S (Z.to_nat n - a - 1))%nat by lia.
  rewrite for_up_app. set (body := fun k q => _).
  destruct (for_up_inv (fun _ q => length q = length p) body a 0 p)
    as (q & -> & Hl).
  - intros k q Hk Hl. unfold body.
    destruct (arr_get_is_Some q (src + k)) as [v ->]; [lia|]. cbn [mbind option_bind].
    destruct (q.[des + k <- v]) as [q'|] eqn:E; [|apply arr_set_None in E; lia].
    exists q'. split; [done|]. by rewrite (arr_set_length _ _ _ _ E).
  - done.
  - cbn [mbind option_bind for_up]. unfold body.
    rewrite (proj2 (arr_get_None q _)) by lia. done.
Qed.

(** The pools are inside the 32-bit address space and not at address 0. *)
Definition base_ok (base : Z -> Z) (memx ts : Z) : Prop :=
  0 < base memx /\ base memx + 32 * ts <= 2 ^ 32 - 1.

Lemma base_offset base memx ts x :
  base_ok base memx ts -> 0 <= x < 32 * ts ->
  u32 (base memx + x - base memx) = x /\ u32 (base memx + x) = base memx + x /\
  base memx + x <> 0 /\ x <> NOMEM.
Proof.
  intros [? ?] ?. unfold NOMEM. rewrite !u32_small by lia. lia.
Qed.

Lemma NOMEM_out i n ts : 0 <= i -> 0 < n -> i + n <= ts -> ts <= 6400 ->
  32 * i <> NOMEM.
Proof. unfold NOMEM. lia. Qed.

(** Moving an allocation: what [myrealloc] does once the new blocks [j] have
    been found. *)
Lemma myrealloc_ready base memx size d h ts t p r i n :
  bank memx d ts t p r -> r <> 0 -> heap_rel h t -> base_ok base memx ts ->
  h !! i = Some n -> 0 < size ->
  (forall i, ~ fits ts h i (blocks_for size 32)) \/
  exists j d1 t1, fits ts h j (blocks_for size 32) /\
    my_mem_malloc memx size d = Some (32 * j, d1) /\ 32 * j <> NOMEM /\
    bank memx d1 ts t1 p r /\
    heap_rel (<[j:=blocks_for size 32]> h) t1 /\ same_others memx d d1 /\
    i <> j /\ (i + n <= j \/ j + blocks_for size 32 <= i) /\
    (t1).[i] = Some n.
Proof.
  intros B Hr R Hbase Hi Hs.
  pose proof (bank_const _ _ (bk_ts _ _ _ _ _ _ B)) as (_ & _ & Hbig & _).
  pose proof (blocks_for_pos _ Hs) as Hm. set (m := blocks_for size 32) in *.
  destruct (my_mem_malloc_ready _ _ _ _ _ _ _ B Hr Hs) as (run & E & H).
  destruct (find_run_heap h t ts m R (bk_tlen _ _ _ _ _ _ B) Hm)
    as (run' & E' & Hf). fold m in E, H. rewrite E in E'. injection E' as <-.
  destruct run as [j|]; [right|by left].
  destruct H as (Hj & Hin & _ & t1 & d1 & Em & F & _ & B1 & S & _).
  destruct Hf as [Hf _]. destruct (hr_block _ _ R _ _ Hi) as (Hn & Hi0 & Hin' & Hall).
  assert (Hdis : i + n <= j \/ j + m <= i).
  { destruct (decide (i + n <= j)); [by left|]. destruct (decide (j + m <= i));
      [by right|]. exfalso. destruct Hf as (_ & _ & Hf).
    apply (Hf (Z.max i j) i n); unfold in_block; [lia|done|lia]. }
  exists j, d1, t1. splits; [done|done|apply (NOMEM_out j m ts); lia|done| |done|lia|done| ].
  - eapply heap_rel_insert; [done..| |apply Hf|done].
    pose proof (bk_tlen _ _ _ _ _ _ B). lia.
  - rewrite (filled_out _ _ _ _ _ _ F) by (unfold in_block; lia).
    apply Hall. unfold in_block. lia.
Qed.

(** [myrealloc] of a live allocation (block [i], [n] blocks), when the
    bytes it copies are inside the pool: it returns null and changes nothing
    exactly when the new size does not fit; otherwise it returns the address of
    a new allocation disjoint from the old one, whose contents are the first
    [min size (32 * n)] bytes of the old one, the old allocation is released,
    and no byte outside the [size] new bytes changes. *)
Theorem myrealloc_moves base memx size d h ts t p r i n :
  bank memx d ts t p r -> r <> 0 -> heap_rel h t -> base_ok base memx ts ->
  h !! i = Some n -> 0 < size -> 32 * i + size <= 32 * ts ->
  ((forall j, ~ fits ts h j (blocks_for size 32)) /\
   myrealloc base memx (base memx + 32 * i) size d = Some (0, d)) \/
  exists j d' t' p', fits ts h j (blocks_for size 32) /\
    myrealloc base memx (base memx + 32 * i) size d
      = Some (base memx + 32 * j, d') /\
    bank memx d' ts t' p' r /\
    heap_rel (delete i (<[j:=blocks_for size 32]> h)) t' /\
    same_others memx d d' /\
    (forall x, 0 <= x < Z.min size (32 * n) -> p'.[32 * j + x] = p.[32 * i + x]) /\
    (forall k, ~ in_block (32 * j) size k -> p'.[k] = p.[k]).
Proof.
  intros B Hr R Hbase Hi Hs Hsrc.
  destruct (myrealloc_ready base memx size d h _ _ _ _ i n B Hr R Hbase Hi Hs)
    as [Hno|(j & d1 & t1 & Hf & Em & Hne & B1 & R1 & S1 & Hij & Hdis & Ht1)].
  { left. split; [done|]. unfold myrealloc.
    destruct (my_mem_malloc_ready _ _ _ _ _ _ _ B Hr Hs) as (run & E & H).
    destruct (find_run_heap h t ts _ R (bk_tlen _ _ _ _ _ _ B)
      (blocks_for_pos _ Hs)) as (run' & E' & Hf). rewrite E in E'.
    injection E' as <-. destruct run as [j|]; [by destruct (Hno j), Hf|].
    by rewrite H. }
  right. pose proof Hf as (Hj & Hjn & _).
  pose proof (blocks_for_bounds size ltac:(lia)) as [_ Hbk].
  destruct (hr_block _ _ R _ _ Hi) as (Hn & Hi0 & Hin & _).
  pose proof (bk_tlen _ _ _ _ _ _ B) as Htl. pose proof (bk_plen _ _ _ _ _ _ B) as Hpl.
  destruct (base_offset base memx ts (32 * i) Hbase ltac:(lia)) as (Hbi & _ & Hnz & _).
  destruct (base_offset base memx ts (32 * j) Hbase) as (_ & Hbj & _ & _);
    [pose proof (blocks_for_pos _ Hs); lia|].
  destruct (mymemcpy_spec (32 * j) (32 * i) size (Z.min size (32 * n)) p)
    as (p' & Ecp & Hl' & Hout & Hcp); [lia..|].
  destruct (set_membase_bank _ _ _ _ _ _ p' B1 Hl') as (d2 & E2 & B2 & S2 & _).
  assert (Hdiv : 32 * i / 32 = i) by (rewrite Z.mul_comm; apply Z.div_mul; lia).
  destruct (my_mem_free_block memx (32 * i) d2 _ _ _ _ n B2 Hr)
    as (t' & d3 & E3 & F & _ & B3 & S3 & _); rewrite ?Hdiv in *; [lia|done|lia..|].
  exists j, d3, t', p'. splits; [done| |done| | |intros; apply Hcp; lia|done].
  - unfold myrealloc, myfree. rewrite Em. cbn [mbind option_bind].
    rewrite (bk_base _ _ _ _ _ _ B1). repeat ztest. cbn [mbind option_bind].
    replace (base memx + 32 * i - base memx) with (32 * i) by lia.
    rewrite Ecp. cbn [mbind option_bind]. rewrite E2. cbn [mbind option_bind].
    rewrite (u32_small (32 * i)) by (destruct Hbase; lia).
    rewrite E3. cbn [mbind option_bind snd]. by rewrite Hbj.
  - eapply heap_rel_delete; [exact R1| |done]. by rewrite lookup_insert_ne.
  - eauto using same_others_trans.
Qed.

(** the number of bytes [myrealloc] copies is the new size, whatever the
    size of the old allocation: when that runs past the end of the pool (for
    instance when the allocation at the top of the pool, the first one made, is
    enlarged), the copy reads outside the pool. *)
Theorem myrealloc_overread base memx size d h ts t p r i n :
  bank memx d ts t p r -> r <> 0 -> heap_rel h t -> base_ok base memx ts ->
  h !! i = Some n -> 0 < size -> 32 * ts < 32 * i + size ->
  (exists j, fits ts h j (blocks_for size 32)) ->
  myrealloc base memx (base memx + 32 * i) size d = None.
Proof.
  intros B Hr R Hbase Hi Hs Hsrc (j0 & Hj0).
  destruct (myrealloc_ready base memx size d h _ _ _ _ i n B Hr R Hbase Hi Hs)
    as [Hno|(j & d1 & t1 & Hf & Em & Hne & B1 & _)]; [by destruct (Hno j0)|].
  pose proof Hf as (Hj & Hjn & _).
  pose proof (blocks_for_bounds size ltac:(lia)) as [_ Hbk].
  destruct (hr_block _ _ R _ _ Hi) as (Hn & Hi0 & Hin & _).
  pose proof (bk_tlen _ _ _ _ _ _ B). pose proof (bk_plen _ _ _ _ _ _ B).
  unfold myrealloc. rewrite Em. cbn [mbind option_bind].
  rewrite (bk_base _ _ _ _ _ _ B1). ztest. cbn [mbind option_bind].
  replace (base memx + 32 * i - base memx) with (32 * i) by lia.
  by rewrite mymemcpy_overread by lia.
Qed.

(** ** Usage *)

(** Number of table entries in use. *)
Definition used_blocks (t : list Z) : Z :=
  Z.of_nat (length (filter (fun v => v <> 0) t)).

Lemma used_blocks_snoc t v :
  used_blocks (t ++ [v]) = used_blocks t + (if v =? 0 then 0 else 1).
Proof.
  unfold used_blocks. rewrite filter_app, length_app, filter_cons.
  destruct (v =? 0) eqn:E; zb; case_decide; cbn; try done; lia.
Qed.

Lemma used_blocks_bounds t : 0 <= used_blocks t <= Z.of_nat (length t).
Proof.
  unfold used_blocks. pose proof (length_filter (fun v => v <> 0) t). lia.
Qed.

Lemma used_blocks_all t :
  used_blocks t = Z.of_nat (length t) <-> Forall (fun v => v <> 0) t.
Proof.
  induction t as [|v t IH]; [by cbn|].
  pose proof (used_blocks_bounds t). unfold used_blocks in *.
  rewrite filter_cons, Forall_cons. case_decide; cbn [length].
  - rewrite <- IH. split; [intros; split; [done|lia]|intros [_ ?]; lia].
  - split; [intros; lia|by intros [? _]].
Qed.

Lemma used_blocks_none n : used_blocks (replicate n 0) = 0.
Proof. induction n; [done|]. unfold used_blocks in *. cbn. done. Qed.

Lemma heap_rel_empty_inv t : heap_rel ∅ t -> t = replicate (length t) 0.
Proof.
  intros R. apply arr_ext; [by rewrite length_replicate|]. intros k Hk.
  rewrite arr_get_replicate by done.
  by destruct (hr_cover _ _ R k Hk) as [|(i & n & Hi & _)].
Qed.

(** [my_mem_perused] returns the percentage of blocks in use, rounded
    down; it is a percentage, it is 100 exactly when every block is in use, and
    it is 0 for an empty heap. *)
Theorem my_mem_perused_percent memx d ts t p r :
  bank memx d ts t p r ->
  my_mem_perused memx d = Some (100 * used_blocks t / ts) /\
  0 <= 100 * used_blocks t / ts <= 100 /\
  (100 * used_blocks t / ts = 100 <-> Forall (fun v => v <> 0) t) /\
  (heap_rel ∅ t -> 100 * used_blocks t / ts = 0).
Proof.
  intros B. pose proof B as [Hts Hm _ _ Ht _].
  destruct (bank_const _ _ Hts) as (_ & _ & Hbig & _).
  pose proof (used_blocks_bounds t) as Hu.
  assert (Hr : 0 <= 100 * used_blocks t / ts <= 100).
  { split; [apply Z.div_pos; lia|]. apply Z.div_le_upper_bound; lia. }
  split; [|split; [done|split]].
  - unfold my_mem_perused. rewrite Hts, Hm. cbn [mbind option_bind].
    destruct (for_up_inv (fun k u => u = used_blocks (take (Z.to_nat k) t))
      (fun i used => v ← t.[i]; Some (if v =? 0 then used else used + 1))
      (Z.to_nat ts) 0 0) as (u & -> & Hu').
    + intros k u Hk ->. destruct (arr_get_is_Some t k) as [v Hv]; [lia|].
      rewrite Hv. cbn. eexists. split; [done|].
      apply arr_get_Some in Hv as [_ Hv].
      replace (Z.to_nat (k + 1)) with (S (Z.to_nat k)) by lia.
      rewrite (take_S_r _ _ _ Hv), used_blocks_snoc. zcase; lia.
    + done.
    + cbn. rewrite take_ge in Hu' by lia. subst u.
      rewrite Z.mul_comm, u8_small by lia. done.
  - rewrite <- used_blocks_all, Ht. split.
    + intros H. pose proof (Z.mul_div_le (100 * used_blocks t) ts). nia.
    + intros ->. apply Z.div_mul. lia.
  - intros R. by rewrite (heap_rel_empty_inv _ R), used_blocks_none.
Qed.

(** ** Reachable states *)

(** The device and the heap of each bank. *)
Definition dev_rel (H : Z -> gmap Z Z) (d : m_mallco_dev) : Prop :=
  forall memx, 0 <= memx < SRAMBANK -> bank_rel memx (H memx) d.

Definition upd (H : Z -> gmap Z Z) (memx : Z) (h : gmap Z Z) : Z -> gmap Z Z :=
  fun y => if y =? memx then h else H y.

(** What clients that free only what they were given may do, on any bank and
    in any order; the heaps are the clients' own account of what they hold. *)
Inductive client_step : (Z -> gmap Z Z) * m_mallco_dev ->
    (Z -> gmap Z Z) * m_mallco_dev -> Prop :=
| client_init H d memx d' :
    0 <= memx < SRAMBANK -> my_mem_init memx d = Some d' ->
    client_step (H, d) (upd H memx ∅, d')
| client_malloc_fail H d memx size d' :
    0 <= memx < SRAMBANK -> 0 <= size ->
    my_mem_malloc memx size d = Some (NOMEM, d') ->
    client_step (H, d) (H, d')
| client_malloc H d memx size off d' :
    0 <= memx < SRAMBANK -> 0 <= size -> off <> NOMEM ->
    my_mem_malloc memx size d = Some (off, d') ->
    client_step (H, d)
      (upd H memx (<[off / 32 := blocks_for size 32]> (H memx)), d')
| client_free H d memx off res d' :
    0 <= memx < SRAMBANK -> 0 <= off -> is_Some (H memx !! (off / 32)) ->
    my_mem_free memx off d = Some (res, d') ->
    client_step (H, d) (upd H memx (delete (off / 32) (H memx)), d').

Definition reachable (s : (Z -> gmap Z Z) * m_mallco_dev) : Prop :=
  rtc client_step (fun _ => ∅, mallco_dev) s.

Lemma bank_rel_other x y h d d' :
  same_others x d d' -> y <> x -> bank_rel y h d -> bank_rel y h d'.
Proof.
  intros S Hy (ts & t & p & r & [] & R). destruct (S y Hy) as (E1 & E2 & E3).
  exists ts, t, p, r. split; [|done]. constructor; congruence.
Qed.

Lemma dev_rel_upd H d memx h d' :
  dev_rel H d -> same_others memx d d' -> bank_rel memx h d' ->
  dev_rel (upd H memx h) d'.
Proof.
  intros D S Hb y Hy. unfold upd. destruct (y =? memx) eqn:E; zb; [by subst|].
  eapply bank_rel_other; eauto.
Qed.

Lemma dev_rel_initial : dev_rel (fun _ => ∅) mallco_dev.
Proof.
  intros memx Hm. unfold SRAMBANK in Hm.
  assert (memx = 0 \/ memx = 1 \/ memx = 2) as [-> | [-> | ->]] by lia;
    [exists MEM1_ALLOC_TABLE_SIZE|exists MEM2_ALLOC_TABLE_SIZE
    |exists MEM3_ALLOC_TABLE_SIZE];
    (do 3 eexists; split; [constructor; [reflexivity..| |]|reflexivity]);
    rewrite length_replicate, Z2Nat.id; vm_compute; done.
Qed.

Lemma memtblsize_bank memx : 0 <= memx < SRAMBANK ->
  exists ts, memtblsize.[memx] = Some ts.
Proof. intros. apply arr_get_is_Some. cbn. done. Qed.

Lemma bank_rel_held memx h d k :
  bank_rel memx h d -> is_Some (h !! k) -> (memrdy d).[memx] <> Some 0.
Proof.
  intros (ts & t & p & r & [_ _ _ Hr _ _] & R) [n Hn] E. simplify_eq. cbn in R.
  by rewrite R in Hn.
Qed.

Lemma heap_malloc_NOMEM ts size h h' :
  heap_malloc ts size h NOMEM h' -> ts <= 6400 -> h' = h.
Proof.
  intros Hm Hts. inversion Hm as [| |i H0 (? & ? & _) _ Hi]; try done.
  pose proof (blocks_for_pos _ H0). unfold NOMEM in Hi. lia.
Qed.

Lemma heap_malloc_at ts size h off h' :
  heap_malloc ts size h off h' -> off <> NOMEM ->
  h' = <[off / 32 := blocks_for size 32]> h.
Proof.
  intros Hm Hoff. inversion Hm; try done. by rewrite Z.mul_comm, Z.div_mul.
Qed.

Lemma client_step_rel H d H' d' :
  client_step (H, d) (H', d') -> dev_rel H d -> dev_rel H' d'.
Proof.
  intros St D. inversion St as [? ? memx ? Hx E | ? ? memx size ? Hx Hs E
    | ? ? memx size off ? Hx Hs Hoff E | ? ? memx off res ? Hx Ho Hh E]; subst;
    pose proof (D memx Hx) as HB; destruct (memtblsize_bank memx Hx) as [ts Hts].
  - destruct (my_mem_init_rel _ _ _ HB) as (d1 & E1 & B1 & S1 & _).
    simplify_eq. by eapply dev_rel_upd.
  - destruct (my_mem_malloc_sim _ _ _ _ _ HB Hts Hs)
      as (off & h' & d1 & E1 & Hm & B1 & S1). simplify_eq.
    destruct (bank_const _ _ Hts) as (_ & _ & ? & _).
    apply heap_malloc_NOMEM in Hm as ->; [|lia].
    intros y Hy. destruct (decide (y = memx)) as [->|]; [done|].
    eapply bank_rel_other; eauto.
  - destruct (my_mem_malloc_sim _ _ _ _ _ HB Hts Hs)
      as (off' & h' & d1 & E1 & Hm & B1 & S1). simplify_eq.
    apply heap_malloc_at in Hm as ->; [|done]. by eapply dev_rel_upd.
  - destruct (my_mem_free_sim _ _ _ _ _ HB Hts Ho ltac:(done))
      as (res' & d1 & E1 & S1 & [(Hn & _)|[(_ & Hge & _)|(_ & _ & _ & B1)]]);
      simplify_eq.
    + by destruct (bank_rel_held _ _ _ _ HB Hh).
    + destruct HB as (ts' & t & p & r & B & R), Hh as [n Hn].
      pose proof (bk_ts _ _ _ _ _ _ B). simplify_eq.
      destruct (r =? 0); [by rewrite R in Hn|].
      destruct (hr_block _ _ R _ _ Hn) as (? & _ & ? & _).
      pose proof (bk_tlen _ _ _ _ _ _ B). pose proof (Z.div_le_lower_bound off 32 ts).
      lia.
    + by eapply dev_rel_upd.
Qed.

Lemma reachable_rel s : reachable s -> dev_rel (fst s) (snd s).
Proof.
  unfold reachable. intros Hr.
  apply (rtc_ind_r (fun s => dev_rel (fst s) (snd s)) _) with (z := s) in Hr;
    [done|apply dev_rel_initial|].
  intros [H d] [H' d'] _ St D. by eapply client_step_rel.
Qed.

(** C23: safety of the allocator.  In every state clients can reach from power
    up, allocations held from a bank are disjoint and inside the bank, and no
    further call faults: any allocation, and any release of something held,
    runs to completion. *)
Theorem allocator_safe H d memx :
  reachable (H, d) -> 0 <= memx < SRAMBANK ->
  (forall i n j m k, H memx !! i = Some n -> H memx !! j = Some m ->
     in_block i n k -> in_block j m k -> i = j) /\
  (forall i n ts, H memx !! i = Some n -> memtblsize.[memx] = Some ts ->
     0 <= i /\ 0 < n /\ i + n <= ts) /\
  (forall size, 0 <= size -> is_Some (my_mem_malloc memx size d)) /\
  (forall off, 0 <= off -> is_Some (H memx !! (off / 32)) ->
     exists d', my_mem_free memx off d = Some (0, d')).
Proof.
  intros Hr Hx. apply reachable_rel in Hr. cbn in Hr.
  pose proof (Hr memx Hx) as HB. destruct (memtblsize_bank memx Hx) as [ts Hts].
  assert (Hheld : forall k, is_Some (H memx !! k) ->
    exists t, heap_rel (H memx) t /\ Z.of_nat (length t) = ts).
  { intros k Hk. pose proof HB as (ts' & t & p & r & B & R).
    pose proof (bank_rel_held _ _ _ _ HB Hk) as Hnr.
    rewrite (bk_rdy _ _ _ _ _ _ B) in Hnr. exists t.
    pose proof (bk_ts _ _ _ _ _ _ B). pose proof (bk_tlen _ _ _ _ _ _ B).
    destruct (r =? 0) eqn:E; zb; [congruence|]. split; [done|congruence]. }
  splits.
  - intros i n j m k Hi Hj. destruct (Hheld i) as (t & R & _); [by eexists|].
    by eapply (hr_disjoint _ _ R).
  - intros i n ts' Hi Hts'. simplify_eq.
    destruct (Hheld i) as (t & R & <-); [by eexists|].
    destruct (hr_block _ _ R _ _ Hi) as (? & ? & ? & _). done.
  - intros size Hs. destruct (my_mem_malloc_sim _ _ _ _ _ HB Hts Hs)
      as (? & ? & ? & -> & _). by eexists.
  - intros off Ho Hk.
    destruct (my_mem_free_sim _ _ _ _ _ HB Hts Ho ltac:(done))
      as (res' & d1 & E1 & S1 & [(Hn & _)|[(_ & Hge & _)|(_ & _ & -> & B1)]]).
    + by destruct (bank_rel_held _ _ _ _ HB Hk).
    + destruct (Hheld _ Hk) as (t & R & <-). destruct Hk as [n Hn].
      destruct (hr_block _ _ R _ _ Hn) as (? & _ & ? & _).
      pose proof (Z.div_le_lower_bound off 32 (Z.of_nat (length t))). lia.
    + by exists d1.
Qed.

(** ** Witnesses *)

(** All banks initialised. *)
Definition ready_dev : m_mallco_dev :=
  {| membase := membase mallco_dev; memmap := memmap mallco_dev;
     memrdy := [1; 1; 1] |}.

Lemma ready_dev_bank :
  exists t p, bank SRAMIN ready_dev MEM1_ALLOC_TABLE_SIZE t p 1 /\ heap_rel ∅ t.
Proof.
  do 2 eexists. split; [constructor; [reflexivity..| |]|apply heap_rel_empty];
    rewrite length_replicate, Z2Nat.id; vm_compute; done.
Qed.

(** The heap after one allocation of 100 bytes. *)
Definition sample_heap : gmap Z Z := {[956 := 4]}.

Lemma ready_dev_allocated :
  exists d t p, my_mem_malloc SRAMIN 100 ready_dev = Some (30592, d) /\
    bank SRAMIN d MEM1_ALLOC_TABLE_SIZE t p 1 /\ heap_rel sample_heap t.
Proof.
  destruct ready_dev_bank as (t & p & B & R).
  destruct (my_mem_malloc_heap _ 100 _ _ _ _ _ _ B ltac:(done) R ltac:(lia))
    as (off & h' & d & E & Hm & (ts & t' & p' & r & B' & R') & _).
  assert (Ho : fst <$> my_mem_malloc SRAMIN 100 ready_dev = Some 30592)
    by (vm_compute; reflexivity).
  rewrite E in Ho. injection Ho as ->. apply heap_malloc_at in Hm as ->; [|done].
  change (<[30592 / 32:=blocks_for 100 32]> ∅) with sample_heap in R'.
  exists d, t', p'. split; [done|].
  pose proof (bk_ts _ _ _ _ _ _ B') as E'. injection E' as <-.
  destruct (r =? 0) eqn:Er; zb.
  { apply (f_equal (lookup 956)) in R'. by vm_compute in R'. }
  split; [|done]. destruct (my_mem_malloc_ready SRAMIN 100 ready_dev _ _ _ _ B)
    as (run & _ & H); [done|done|].
  destruct run as [i|]; [|rewrite E in H; by injection H].
  destruct H as (_ & _ & _ & t1 & d1 & E1 & _ & _ & B1 & _).
  rewrite E in E1. injection E1 as _ <-.
  pose proof (bk_rdy _ _ _ _ _ _ B1) as H1. rewrite (bk_rdy _ _ _ _ _ _ B') in H1.
  by injection H1 as ->.
Qed.

(** Pool addresses: the external SRAM and CCM pools are placed by [at(...)],
    the internal pool here at the start of the SRAM. *)
Definition sample_base (memx : Z) : Z :=
  if memx =? SRAMIN then 0x20000000
  else if memx =? SRAMEX then 0x68000000 else 0x10000000.

Lemma my_mem_malloc_refines_witness :
  exists off h' d', my_mem_malloc SRAMEX 70 mallco_dev = Some (off, d') /\
    heap_malloc MEM2_ALLOC_TABLE_SIZE 70 ∅ off h' /\ bank_rel SRAMEX h' d' /\
    same_others SRAMEX mallco_dev d'.
Proof.
  apply (my_mem_malloc_refines SRAMEX 70 mallco_dev ∅ MEM2_ALLOC_TABLE_SIZE).
  - apply (dev_rel_initial SRAMEX). vm_compute. split; congruence.
  - reflexivity.
  - lia.
Defined.

Lemma my_mem_free_refines_witness :
  exists d, my_mem_malloc SRAMIN 100 ready_dev = Some (30592, d) /\
  exists res d', my_mem_free SRAMIN 30592 d = Some (res, d') /\
    same_others SRAMIN d d' /\
    ((memrdy d).[SRAMIN] = Some 0 /\ res = 1 /\ bank_rel SRAMIN ∅ d' \/
     (memrdy d).[SRAMIN] <> Some 0 /\ 32 * MEM1_ALLOC_TABLE_SIZE <= 30592 /\
       res = 2 /\ d' = d \/
     (memrdy d).[SRAMIN] <> Some 0 /\ 30592 < 32 * MEM1_ALLOC_TABLE_SIZE /\
       res = 0 /\ bank_rel SRAMIN (delete (30592 / 32) sample_heap) d').
Proof.
  destruct ready_dev_allocated as (d & t & p & E & B & R).
  exists d. split; [exact E|].
  apply (my_mem_free_refines SRAMIN 30592 d sample_heap).
  - do 4 eexists. split; [exact B|exact R].
  - reflexivity.
  - lia.
  - intros _ _. exists 4. reflexivity.
Defined.

Lemma malloc_free_roundtrip_witness :
  exists d, my_mem_malloc SRAMIN 100 ready_dev = Some (30592, d) /\
    my_mem_free SRAMIN 30592 d = Some (0, ready_dev).
Proof.
  destruct ready_dev_allocated as (d & t & p & E & _).
  exists d. split; [exact E|].
  apply (malloc_free_roundtrip SRAMIN 100 ready_dev 30592 d ∅).
  - destruct ready_dev_bank as (t0 & p0 & B & R).
    do 4 eexists. split; [exact B|]. split; [discriminate|exact R].
  - lia.
  - exact E.
  - discriminate.
Defined.

Lemma sample_base_ok : base_ok sample_base SRAMIN MEM1_ALLOC_TABLE_SIZE.
Proof. split; vm_compute; congruence. Qed.

Lemma myrealloc_moves_witness :
  exists d t p, my_mem_malloc SRAMIN 100 ready_dev = Some (30592, d) /\
  bank SRAMIN d MEM1_ALLOC_TABLE_SIZE t p 1 /\
  ((forall j, ~ fits MEM1_ALLOC_TABLE_SIZE sample_heap j (blocks_for 120 32)) /\
   myrealloc sample_base SRAMIN (sample_base SRAMIN + 32 * 956) 120 d = Some (0, d) \/
  exists j d' t' p',
    fits MEM1_ALLOC_TABLE_SIZE sample_heap j (blocks_for 120 32) /\
    myrealloc sample_base SRAMIN (sample_base SRAMIN + 32 * 956) 120 d
      = Some (sample_base SRAMIN + 32 * j, d') /\
    bank SRAMIN d' MEM1_ALLOC_TABLE_SIZE t' p' 1 /\
    heap_rel (delete 956 (<[j:=blocks_for 120 32]> sample_heap)) t' /\
    same_others SRAMIN d d' /\
    (forall x, 0 <= x < Z.min 120 (32 * 4) ->
       p'.[32 * j + x] = p.[32 * 956 + x]) /\
    (forall k, ~ in_block (32 * j) 120 k -> p'.[k] = p.[k])).
Proof.
  destruct ready_dev_allocated as (d & t & p & E & B & R). exists d, t, p.
  split; [exact E|]. split; [exact B|].
  apply (myrealloc_moves sample_base SRAMIN 120 d sample_heap _ _ _ _ 956 4
    B ltac:(discriminate) R sample_base_ok ltac:(reflexivity) ltac:(lia)
    ltac:(vm_compute; congruence)).
Defined.

Lemma myrealloc_overread_witness :
  exists d, my_mem_malloc SRAMIN 100 ready_dev = Some (30592, d) /\
    myrealloc sample_base SRAMIN (sample_base SRAMIN + 32 * 956) 129 d = None.
Proof.
  destruct ready_dev_allocated as (d & t & p & E & B & R). exists d.
  split; [exact E|].
  apply (myrealloc_overread sample_base SRAMIN 129 d sample_heap _ _ _ _ 956 4
    B ltac:(discriminate) R sample_base_ok ltac:(reflexivity) ltac:(lia)
    ltac:(vm_compute; congruence)).
  exists 0. split; [lia|]. split; [vm_compute; congruence|].
  intros k j m Hk Hjm Hj.
  unfold sample_heap in Hjm. apply lookup_singleton_Some in Hjm as [<- <-].
  change (blocks_for 129 32) with 5 in Hk. unfold in_block in *. lia.
Defined.

Lemma my_mem_perused_percent_witness :
  exists d t p, my_mem_malloc SRAMIN 100 ready_dev = Some (30592, d) /\
    bank SRAMIN d MEM1_ALLOC_TABLE_SIZE t p 1 /\
    my_mem_perused SRAMIN d = Some (100 * used_blocks t / MEM1_ALLOC_TABLE_SIZE).
Proof.
  destruct ready_dev_allocated as (d & t & p & E & B & _). exists d, t, p.
  split; [exact E|]. split; [exact B|].
  exact (proj1 (my_mem_perused_percent SRAMIN d _ _ _ _ B)).
Defined.

Lemma allocator_safe_witness :
  exists d, my_mem_init SRAMIN mallco_dev = Some d /\
    forall size, 0 <= size -> is_Some (my_mem_malloc SRAMIN size d).
Proof.
  destruct (my_mem_init_rel SRAMIN ∅ mallco_dev) as (d & E & _).
  { apply (dev_rel_initial SRAMIN). vm_compute. split; congruence. }
  exists d. split; [exact E|].
  apply (allocator_safe (upd (fun _ => ∅) SRAMIN ∅) d SRAMIN).
  - apply rtc_once, client_init; [vm_compute; split; congruence|exact E].
  - vm_compute. split; congruence.
Defined.
