(* ===== verification/Timers.v ===== *)
(** * Timers: the alarm table of Users/CanFestival/src/timers.c

    A fixed table of alarms served by one hardware timer.  The table is shared
    with the code the alarms call, so the operations work on a world [W] that
    contains it: the class [TimerWorld] is the interface between the table and
    its client (the driver functions [setTimer] and [getElapsedTime] of
    src/canfestival.c, and the effect of the callbacks). *)

From S2P Require Import Prelude.

(** ** Data (timers.h, timerscfg.h, config.h) *)

Definition TIMER_FREE : Z := 0.
Definition TIMER_ARMED : Z := 1.
Definition TIMER_TRIG : Z := 2.
Definition TIMER_TRIG_PERIOD : Z := 3.
Definition TIMER_NONE : Z := -1.
Definition MAX_NB_TIMER : Z := 8.
Definition TIMEVAL_MAX : Z := 0xFFFF.

(** The timer counts 8-microsecond ticks. *)
Definition MS_TO_TIMEVAL (ms : Z) : Z := u32 (ms * 125).
Definition US_TO_TIMEVAL (us : Z) : Z := Z.shiftr us 3.

Definition min_val (a b : Z) : Z := if a <? b then a else b.

(** One row of the table; [CB] is the type of the callbacks, and the node [d]
    is the world itself. *)
Record s_timer_entry (CB : Type) := TimerEntry {
  t_state : Z;
  t_callback : option CB;
  t_id : Z;
  t_val : Z;
  t_interval : Z
}.
Arguments TimerEntry {CB}.
Arguments t_state {CB}.
Arguments t_callback {CB}.
Arguments t_id {CB}.
Arguments t_val {CB}.
Arguments t_interval {CB}.

(** The globals of timers.c. *)
Record timer_table (CB : Type) := TimerTable {
  timers : list (s_timer_entry CB);
  total_sleep_time : Z;
  last_timer_raw : Z
}.
Arguments TimerTable {CB}.
Arguments timers {CB}.
Arguments total_sleep_time {CB}.
Arguments last_timer_raw {CB}.

Definition free_row {CB} : s_timer_entry CB := TimerEntry TIMER_FREE None 0 0 0.

(** The table at power up. *)
Definition timers_init {CB} : timer_table CB :=
  {| timers := replicate (Z.to_nat MAX_NB_TIMER) free_row;
     total_sleep_time := TIMEVAL_MAX;
     last_timer_raw := -1 |}.

(** ** Interface with the rest of the node *)

Class TimerWorld (CB W : Type) := {
  tw_get : W -> timer_table CB;
  tw_put : timer_table CB -> W -> W;
  setTimer : Z -> W -> W;
  getElapsedTime : W -> Z
}.

(** What the callbacks do; only the dispatch needs it. *)
Class TimerCallbacks (CB W : Type) :=
  run_callback : CB -> Z -> W -> option W.

Class TimerWorldLaws (CB W : Type) `{TimerWorld CB W} : Prop := {
  tw_get_put t w : tw_get (tw_put t w) = t;
  tw_get_setTimer v w : tw_get (setTimer v w) = tw_get w;
  tw_elapsed_range w : 0 <= getElapsedTime w < 2 ^ 32
}.

Section operations.
Context {CB W : Type} `{TW : TimerWorld CB W}.

Definition tw_map (f : timer_table CB -> timer_table CB) (w : W) : W :=
  tw_put (f (tw_get w)) w.

Definition set_rows (ts : list (s_timer_entry CB)) (t : timer_table CB) :=
  TimerTable ts (total_sleep_time t) (last_timer_raw t).

(** ** SetAlarm *)

(** The body of the search loop on a free row [row_number]. *)
Definition arm_row (row_number id : Z) (callback : CB) (value period : Z) (w : W)
    : option (Z * W) :=
  let t := tw_get w in
  let last := if row_number =? last_timer_raw t + 1
              then last_timer_raw t + 1 else last_timer_raw t in
  let elapsed := getElapsedTime w in
  let real_timer_value := min_val value TIMEVAL_MAX in
  let sooner := (elapsed <? total_sleep_time t) &&
                (real_timer_value <? total_sleep_time t - elapsed) in
  let total := if sooner then u32 (elapsed + real_timer_value)
               else total_sleep_time t in
  let w := tw_put (TimerTable (timers t) total last) w in
  let w := if sooner then setTimer real_timer_value w else w in
  ts ← (timers (tw_get w)).[row_number <-
    TimerEntry TIMER_ARMED (Some callback) id (u32 (value + elapsed)) period];
  Some (row_number, tw_map (set_rows ts) w).

(** The loop from [row_number] on; [fuel] bounds the rows left. *)
Fixpoint SetAlarm_from (fuel : nat) (row_number id : Z) (callback : option CB)
    (value period : Z) (w : W) : option (Z * W) :=
  match fuel with
  | O => Some (TIMER_NONE, w)
  | S fuel =>
      if (row_number <=? last_timer_raw (tw_get w) + 1) &&
         (row_number <? MAX_NB_TIMER) then
        row ← (timers (tw_get w)).[row_number];
        match callback with
        | Some cb =>
            if t_state row =? TIMER_FREE
            then arm_row row_number id cb value period w
            else SetAlarm_from fuel (row_number + 1) id callback value period w
        | None => SetAlarm_from fuel (row_number + 1) id callback value period w
        end
      else Some (TIMER_NONE, w)
  end.

Definition SetAlarm (id : Z) (callback : option CB) (value period : Z) (w : W)
    : option (Z * W) :=
  SetAlarm_from (Z.to_nat MAX_NB_TIMER) 0 id callback value period w.

(** ** DelAlarm *)

Definition set_state (s : Z) (row : s_timer_entry CB) : s_timer_entry CB :=
  TimerEntry s (t_callback row) (t_id row) (t_val row) (t_interval row).

Definition DelAlarm (handle : Z) (w : W) : option (Z * W) :=
  if handle =? TIMER_NONE then Some (TIMER_NONE, w) else
  let t := tw_get w in
  let last := if handle =? last_timer_raw t then last_timer_raw t - 1
              else last_timer_raw t in
  row ← (timers t).[handle];
  ts ← (timers t).[handle <- set_state TIMER_FREE row];
  Some (TIMER_NONE, tw_put (TimerTable ts (total_sleep_time t) last) w).

(** ** TimeDispatch *)

(** The first loop on one row: [real] is [real_total_sleep_time]. *)
Definition age_row (overrun real : Z) (row : s_timer_entry CB) (next_wakeup : Z)
    : s_timer_entry CB * Z :=
  if Z.land (t_state row) TIMER_ARMED =? 0 then (row, next_wakeup) else
  if t_val row <=? real then
    if t_interval row =? 0 then (set_state TIMER_TRIG row, next_wakeup)
    else
      let v := u32 (t_interval row - overrun mod t_interval row) in
      (TimerEntry TIMER_TRIG_PERIOD (t_callback row) (t_id row) v (t_interval row),
       if v <? next_wakeup then v else next_wakeup)
  else
    let v := u32 (t_val row - real) in
    (TimerEntry (t_state row) (t_callback row) (t_id row) v (t_interval row),
     if v <? next_wakeup then v else next_wakeup).

Definition age_rows (overrun real last : Z) (ts : list (s_timer_entry CB))
    : option (list (s_timer_entry CB) * Z) :=
  for_up (Z.to_nat (last + 1)) 0 (fun i '(ts, next_wakeup) =>
    row ← ts.[i];
    let '(row', next_wakeup') := age_row overrun real row next_wakeup in
    ts' ← ts.[i <- row'];
    Some (ts', next_wakeup')) (ts, TIMEVAL_MAX).

(** The second loop, from row [i] on: the callbacks may change the table and
    the bound of the loop.  There are at most [MAX_NB_TIMER] rows. *)
Fixpoint trig_rows `{!TimerCallbacks CB W} (fuel : nat) (i : Z) (w : W) : option W :=
  match fuel with
  | O => Some w
  | S fuel =>
      let t := tw_get w in
      if i <=? last_timer_raw t then
        row ← (timers t).[i];
        if Z.land (t_state row) TIMER_TRIG =? 0
        then trig_rows fuel (i + 1) w
        else
          ts ← (timers t).[i <-
            set_state (Z.land (t_state row) (Z.lnot TIMER_TRIG)) row];
          let w := tw_put (set_rows ts t) w in
          w ← match t_callback row with
              | Some cb => run_callback cb (t_id row) w
              | None => Some w
              end;
          trig_rows fuel (i + 1) w
      else Some w
  end.

Definition TimeDispatch `{!TimerCallbacks CB W} (w : W) : option W :=
  let t := tw_get w in
  let overrun := getElapsedTime w in
  let real_total_sleep_time := u32 (total_sleep_time t + overrun) in
  '(ts, next_wakeup) ←
    age_rows overrun real_total_sleep_time (last_timer_raw t) (timers t);
  let w := setTimer next_wakeup
    (tw_put (TimerTable ts next_wakeup (last_timer_raw t)) w) in
  trig_rows (Z.to_nat MAX_NB_TIMER) 0 w.

End operations.

(** ** Invariants *)

Section invariants.
Context {CB : Type}.
Implicit Types (t : timer_table CB) (row : s_timer_entry CB).

Definition armed row : Prop := Z.land (t_state row) TIMER_ARMED <> 0.
Definition triggered row : Prop := Z.land (t_state row) TIMER_TRIG <> 0.

(** The state is one of the four states, the times are 32-bit, and the timer
    wakes up no later than the alarm expires. *)
Record row_ok (total : Z) row : Prop := RowOk {
  ro_state : 0 <= t_state row < 4;
  ro_val : 0 <= t_val row < 2 ^ 32;
  ro_interval : 0 <= t_interval row < 2 ^ 32;
  ro_sleep : armed row -> total <= t_val row
}.

Record timers_inv t : Prop := TimersInv {
  ti_len : Z.of_nat (length (timers t)) = MAX_NB_TIMER;
  ti_last : -1 <= last_timer_raw t < MAX_NB_TIMER;
  ti_total : 0 <= total_sleep_time t <= TIMEVAL_MAX;
  ti_rows : forall i row, (timers t).[i] = Some row ->
    row_ok (total_sleep_time t) row /\
    (last_timer_raw t < i -> t_state row = TIMER_FREE)
}.

(** Between dispatches no alarm is waiting to be triggered. *)
Definition quiet t : Prop :=
  forall i row, (timers t).[i] = Some row -> ~ triggered row.

Lemma state_cases row : 0 <= t_state row < 4 ->
  t_state row = TIMER_FREE \/ t_state row = TIMER_ARMED \/
  t_state row = TIMER_TRIG \/ t_state row = TIMER_TRIG_PERIOD.
Proof. unfold TIMER_FREE, TIMER_ARMED, TIMER_TRIG, TIMER_TRIG_PERIOD. lia. Qed.

Lemma free_not_armed row : t_state row = TIMER_FREE -> ~ armed row /\ ~ triggered row.
Proof. unfold armed, triggered. intros ->. split; intros Ha; by apply Ha. Qed.

Lemma timers_init_inv : timers_inv timers_init /\ quiet timers_init.
Proof.
  assert (Hr : forall i row, (timers (@timers_init CB)).[i] = Some row -> row = free_row).
  { intros i row [_ [-> _]%lookup_replicate]%arr_get_Some. done. }
  split.
  - constructor; [done|done|done|]. intros i row ->%Hr. split; [|done].
    constructor; cbn; [done..|]. intros []. done.
  - intros i row ->%Hr []. done.
Qed.

(** Writing one row keeps the invariant. *)
Lemma timers_inv_write t i row total last ts :
  timers_inv t -> (timers t).[i <- row] = Some ts ->
  0 <= total <= total_sleep_time t -> row_ok total row ->
  (last = last_timer_raw t \/ last = last_timer_raw t + 1 /\ i = last \/
   last = last_timer_raw t - 1 /\ i = last_timer_raw t) ->
  (last < i -> t_state row = TIMER_FREE) ->
  timers_inv (TimerTable ts total last).
Proof.
  intros [Hl Hla Ht Hr] E Htot Hrow Hlast Hfree.
  pose proof (arr_get_set_eq _ _ _ _ E) as Heq. pose proof (arr_get_lt _ _ _ Heq).
  pose proof (arr_set_length _ _ _ _ E) as Hlen.
  constructor; cbn; [lia|lia|lia|]. intros j row' Hj.
  destruct (decide (i = j)) as [<-|Hne]; [by simplify_eq|].
  rewrite (arr_get_set_ne _ _ _ _ _ E Hne) in Hj.
  destruct (Hr j row' Hj) as [[] Hf]. split; [constructor; try done|].
  - intros Ha. etrans; [apply Htot|by apply ro_sleep0].
  - intros Hj'. apply Hf. lia.
Qed.
End invariants.

(** ** SetAlarm and DelAlarm *)

Section alarms.
Context {CB W : Type} `{TW : TimerWorld CB W} `{TWL : !TimerWorldLaws CB W}.
Implicit Types (w : W).

(** Rows of [t'] that wait to be triggered already did in [t]. *)
Definition no_new_trigger (t t' : timer_table CB) : Prop :=
  forall i row', (timers t').[i] = Some row' -> triggered row' ->
    exists row, (timers t).[i] = Some row /\ triggered row.

(** What a successful [SetAlarm] makes of the table. *)
Record alarm_set (t : timer_table CB) (elapsed h id : Z) (cb : CB)
    (value period : Z) (t' : timer_table CB) : Prop := AlarmSet {
  as_range : 0 <= h < MAX_NB_TIMER;
  as_free : exists row, (timers t).[h] = Some row /\ t_state row = TIMER_FREE;
  as_first : forall i row, i < h -> (timers t).[i] = Some row ->
    t_state row <> TIMER_FREE;
  as_row : (timers t').[h] =
    Some (TimerEntry TIMER_ARMED (Some cb) id (value + elapsed) period);
  as_others : forall i, i <> h -> (timers t').[i] = (timers t).[i];
  as_total : total_sleep_time t' =
    Z.min (total_sleep_time t)
      (Z.max elapsed (Z.min (total_sleep_time t) (elapsed + Z.min value TIMEVAL_MAX)));
  as_last : last_timer_raw t' = Z.max (last_timer_raw t) h
}.

Lemma min_val_min a b : min_val a b = Z.min a b.
Proof. unfold min_val. zcase; lia. Qed.

Lemma arm_row_spec h id cb value period w row :
  timers_inv (tw_get w) -> (timers (tw_get w)).[h] = Some row ->
  t_state row = TIMER_FREE -> h <= last_timer_raw (tw_get w) + 1 ->
  (forall i row, i < h -> (timers (tw_get w)).[i] = Some row ->
     t_state row <> TIMER_FREE) ->
  0 <= value -> value + getElapsedTime w < 2 ^ 32 -> 0 <= period < 2 ^ 32 ->
  exists w', arm_row h id cb value period w = Some (h, w') /\
    alarm_set (tw_get w) (getElapsedTime w) h id cb value period (tw_get w') /\
    timers_inv (tw_get w').
Proof.
  intros I Hrow Hfree Hh Hfirst Hv Hov Hp.
  pose proof I as [Hl Hla Ht Hr]. pose proof (tw_elapsed_range w) as He.
  set (t := tw_get w) in *. set (e := getElapsedTime w) in *.
  pose proof (arr_get_lt _ _ _ Hrow) as Hlt. rewrite Hl in Hlt.
  unfold arm_row. fold t e. rewrite min_val_min. set (real := Z.min value TIMEVAL_MAX).
  assert (Hreal : 0 <= real <= value) by (unfold real, TIMEVAL_MAX; lia).
  set (sooner := (e <? total_sleep_time t) && (real <? total_sleep_time t - e)).
  set (total := if sooner then u32 (e + real) else total_sleep_time t).
  set (last := if h =? last_timer_raw t + 1 then _ else _).
  set (w2 := if sooner then _ else _).
  assert (Ew2 : tw_get w2 = TimerTable (timers t) total last).
  { unfold w2. destruct sooner; rewrite ?tw_get_setTimer; apply tw_get_put. }
  rewrite Ew2. cbn [timers].
  set (row' := TimerEntry _ _ _ _ _).
  destruct ((timers t).[h <- row']) as [ts|] eqn:E;
    [|apply arr_set_None in E; lia].
  cbn [mbind option_bind]. eexists. split; [reflexivity|].
  unfold tw_map. rewrite tw_get_put, Ew2. unfold set_rows.
  cbn [timers total_sleep_time last_timer_raw].
  assert (Htot : total = Z.min (total_sleep_time t)
      (Z.max e (Z.min (total_sleep_time t) (e + real)))).
  { unfold total, sooner. repeat zcase; unfold TIMEVAL_MAX in Ht.
    - rewrite u32_small; lia.
    - destruct Heqb; zb; lia. }
  assert (Hlast : last = Z.max (last_timer_raw t) h).
  { unfold last. zcase; lia. }
  split.
  - constructor; cbn [timers total_sleep_time last_timer_raw]; try done; [by eauto| |].
    + rewrite (arr_get_set_eq _ _ _ _ E). unfold row'. by rewrite u32_small by lia.
    + intros i Hi. eapply arr_get_set_ne; [exact E|lia].
  - eapply timers_inv_write; [exact I|exact E|lia| | |].
    + constructor; cbn; [done|rewrite u32_small; lia|done|].
      intros _. rewrite u32_small by lia. lia.
    + rewrite Hlast. destruct (decide (h <= last_timer_raw t)); lia.
    + lia.
Qed.

(** No row can be armed: the handle tells, and nothing changes. *)
Definition no_room (t : timer_table CB) : Prop :=
  forall i row, (timers t).[i] = Some row -> t_state row <> TIMER_FREE.

Lemma SetAlarm_from_None fuel r id value period w :
  0 <= r -> timers_inv (tw_get w) ->
  SetAlarm_from fuel r id None value period w = Some (TIMER_NONE, w).
Proof.
  intros Hr [Hl _ _ _]. revert r Hr.
  induction fuel as [|fuel IH]; intros r Hr; cbn [SetAlarm_from]; [done|].
  zcase; [|done].
  destruct (arr_get_is_Some (timers (tw_get w)) r) as [row ->]; [lia|].
  cbn. apply IH. lia.
Qed.

Lemma SetAlarm_from_spec fuel r id cb value period w :
  0 <= r -> r + Z.of_nat fuel = MAX_NB_TIMER -> timers_inv (tw_get w) ->
  (forall i row, i < r -> (timers (tw_get w)).[i] = Some row ->
     t_state row <> TIMER_FREE) ->
  0 <= value -> value + getElapsedTime w < 2 ^ 32 -> 0 <= period < 2 ^ 32 ->
  (no_room (tw_get w) /\
   SetAlarm_from fuel r id (Some cb) value period w = Some (TIMER_NONE, w)) \/
  exists h w', SetAlarm_from fuel r id (Some cb) value period w = Some (h, w') /\
    alarm_set (tw_get w) (getElapsedTime w) h id cb value period (tw_get w') /\
    timers_inv (tw_get w').
Proof.
  intros Hr Hf I Hfirst Hv Hov Hp. pose proof I as [Hl Hla _ Hrows].
  revert r Hr Hf Hfirst.
  induction fuel as [|fuel IH]; intros r Hr Hf Hfirst; cbn [SetAlarm_from].
  { left. split; [|done]. intros i row Hi. apply (Hfirst i); [|done].
    apply arr_get_lt in Hi. lia. }
  assert (Hnext : r <= last_timer_raw (tw_get w) + 1).
  { destruct (decide (r <= last_timer_raw (tw_get w) + 1)); [done|exfalso].
    destruct (arr_get_is_Some (timers (tw_get w)) (last_timer_raw (tw_get w) + 1))
      as [row Hrow]; [lia|].
    eapply Hfirst; [|exact Hrow|]; [lia|]. apply (Hrows _ _ Hrow). lia. }
  do 2 ztest.
  destruct (arr_get_is_Some (timers (tw_get w)) r) as [row Hrow]; [lia|].
  rewrite Hrow. cbn [mbind option_bind].
  destruct (t_state row =? TIMER_FREE) eqn:E; zb.
  - right. destruct (arm_row_spec r id cb value period w row) as (w' & ? & ? & ?);
      [done..|]. by exists r, w'.
  - apply IH; [lia|lia|]. intros i row' Hi Hrow'.
    destruct (decide (i = r)) as [->|]; [congruence|].
    apply (Hfirst i); [lia|done].
Qed.
End alarms.

(** ** The passing of time, row by row *)

Section aging.
Context {CB : Type}.
Implicit Types (row : s_timer_entry CB) (ts : list (s_timer_entry CB)).

Definition is_armed row : bool := negb (Z.land (t_state row) TIMER_ARMED =? 0).
Definition is_triggered row : bool := negb (Z.land (t_state row) TIMER_TRIG =? 0).

Lemma armed_is row : armed row <-> is_armed row = true.
Proof. unfold armed, is_armed. rewrite negb_true_iff, Z.eqb_neq. done. Qed.

Lemma triggered_is row : triggered row <-> is_triggered row = true.
Proof. unfold triggered, is_triggered. rewrite negb_true_iff, Z.eqb_neq. done. Qed.

(** The row after the first loop, and the soonest of some rows. *)
Definition aged (overrun real : Z) row : s_timer_entry CB :=
  fst (age_row overrun real row 0).

Definition sooner row (n : Z) : Z :=
  if is_armed row then Z.min (t_val row) n else n.

Definition soonest ts : Z := foldr sooner TIMEVAL_MAX ts.

Lemma age_row_split overrun real row n :
  age_row overrun real row n =
    (aged overrun real row, sooner (aged overrun real row) n).
Proof.
  unfold aged, age_row, sooner, is_armed.
  destruct (Z.land (t_state row) TIMER_ARMED =? 0) eqn:E; cbn [fst].
  { rewrite E. done. }
  destruct (t_val row <=? real); [destruct (t_interval row =? 0)|];
    cbn [fst t_state set_state t_val]; rewrite ?E; [done|..];
    change (Z.land TIMER_TRIG_PERIOD TIMER_ARMED =? 0) with false; cbn [negb];
    f_equal; zcase; lia.
Qed.

Lemma soonest_cons row ts : soonest (row :: ts) = sooner row (soonest ts).
Proof. done. Qed.

Lemma sooner_le row n : sooner row n <= n.
Proof. unfold sooner. zcase; lia. Qed.

Lemma soonest_le ts : soonest ts <= TIMEVAL_MAX.
Proof.
  induction ts; [done|]. rewrite soonest_cons. etrans; [apply sooner_le|done].
Qed.

Lemma soonest_nonneg ts :
  (forall row, row ∈ ts -> 0 <= t_val row) -> 0 <= soonest ts.
Proof.
  induction ts as [|row ts IH]; intros H; [done|]. rewrite soonest_cons.
  pose proof (H row ltac:(left)). specialize (IH (fun r Hr => H r ltac:(by right))).
  unfold sooner. zcase; lia.
Qed.

Lemma soonest_armed ts row : row ∈ ts -> armed row -> soonest ts <= t_val row.
Proof.
  intros Hin Ha%armed_is.
  induction ts as [|row' ts IH]; [by apply not_elem_of_nil in Hin|].
  rewrite soonest_cons. apply elem_of_cons in Hin as [<-|Hin].
  - unfold sooner. rewrite Ha. lia.
  - etrans; [apply sooner_le|by apply IH].
Qed.

(** The order in which the rows are looked at does not matter. *)
Lemma soonest_foldl ts n :
  foldl (fun n row => sooner row n) n ts = Z.min n (soonest ts) \/
  TIMEVAL_MAX < n.
Proof.
  revert n. induction ts as [|row ts IH]; intros n; [cbn; lia|].
  rewrite soonest_cons. cbn [foldl].
  destruct (IH (sooner row n)) as [->|H];
    [|right; eapply Z.lt_le_trans; [exact H|apply sooner_le]].
  unfold sooner. zcase; lia.
Qed.
End aging.

Section age_loop.
Context {CB : Type}.
Implicit Types (row : s_timer_entry CB) (ts : list (s_timer_entry CB)).

Lemma age_rows_take overrun real last ts :
  -1 <= last < Z.of_nat (length ts) ->
  age_rows overrun real last ts =
  Some ((aged overrun real <$> take (Z.to_nat (last + 1)) ts) ++
          drop (Z.to_nat (last + 1)) ts,
        foldl (fun n row => sooner row n) TIMEVAL_MAX
          (aged overrun real <$> take (Z.to_nat (last + 1)) ts)).
Proof.
  intros Hl. unfold age_rows.
  edestruct (for_up_inv (fun k p =>
      p = ((aged overrun real <$> take (Z.to_nat k) ts) ++ drop (Z.to_nat k) ts,
           foldl (fun n row => sooner row n) TIMEVAL_MAX
             (aged overrun real <$> take (Z.to_nat k) ts))))
    as (p & E & Hp); [| |rewrite E, Hp;
      by replace (Z.to_nat (0 + _)) with (Z.to_nat (last + 1)) by lia].
  2: { by rewrite take_0, drop_0. }
  intros k p Hk ->. cbn beta iota.
  destruct (lookup_lt_is_Some_2 ts (Z.to_nat k)) as [row Hrow]; [lia|].
  set (pre := aged overrun real <$> take (Z.to_nat k) ts).
  assert (Hpre : length pre = Z.to_nat k).
  { unfold pre. rewrite length_fmap, length_take. lia. }
  rewrite (drop_S _ _ _ Hrow).
  rewrite (proj2 (arr_get_Some _ _ row)).
  2: { split; [lia|]. apply list_lookup_middle. done. }
  cbn [mbind option_bind]. rewrite age_row_split.
  rewrite arr_set_is_Some by (rewrite length_app; cbn; lia).
  cbn [mbind option_bind]. eexists. split; [reflexivity|].
  replace (Z.to_nat (k + 1)) with (S (Z.to_nat k)) by lia.
  rewrite (take_S_r _ _ _ Hrow), fmap_app, foldl_app. cbn. f_equal.
  rewrite <- app_assoc. cbn. rewrite insert_app_r_alt by lia.
  rewrite Hpre, Nat.sub_diag. done.
Qed.

Lemma aged_unarmed overrun real row : ~ armed row -> aged overrun real row = row.
Proof.
  rewrite armed_is. unfold aged, age_row, is_armed.
  destruct (_ =? 0); cbn; done.
Qed.

(** The first loop ages every row of the table. *)
Lemma age_rows_spec overrun real (t : timer_table CB) :
  timers_inv t ->
  age_rows overrun real (last_timer_raw t) (timers t) =
  Some (aged overrun real <$> timers t, soonest (aged overrun real <$> timers t)).
Proof.
  intros [Hl Hla _ Hr]. rewrite age_rows_take by lia.
  set (n := Z.to_nat (last_timer_raw t + 1)).
  assert (Hd : forall row, row ∈ drop n (timers t) -> ~ armed row).
  { intros row [i Hi]%list_elem_of_lookup. rewrite lookup_drop in Hi.
    rewrite <- arr_get_nat in Hi. apply free_not_armed.
    apply (Hr _ _ Hi). lia. }
  assert (Ed : aged overrun real <$> drop n (timers t) = drop n (timers t)).
  { rewrite <- (list_fmap_id (drop n (timers t))) at 2.
    apply list_fmap_ext. intros i row Hi. apply aged_unarmed, Hd.
    by eapply list_elem_of_lookup_2. }
  rewrite <- (take_drop n (timers t)) at 4 5. rewrite fmap_app, Ed.
  do 2 f_equal. destruct (soonest_foldl
    (aged overrun real <$> take n (timers t)) TIMEVAL_MAX) as [->|?]; [|lia].
  rewrite Z.min_r by apply soonest_le. unfold soonest. rewrite foldr_app. f_equal.
  clear Ed. induction (drop n (timers t)) as [|row l IH]; [done|]. cbn.
  rewrite <- IH by (intros; apply Hd; by right).
  unfold sooner. destruct (is_armed row) eqn:E; [|done].
  exfalso. apply (Hd row); [left|]. by apply armed_is.
Qed.
End age_loop.

(** ** Dispatch with callbacks that may use the table *)

Section dispatch_safety.
Context {CB W : Type} `{TW : TimerWorld CB W} `{TWL : !TimerWorldLaws CB W}.
Context `{TC : !TimerCallbacks CB W}.
Implicit Types (w : W).

Lemma aged_ok overrun real total (row : s_timer_entry CB) :
  row_ok total row -> 0 <= overrun ->
  0 <= t_val (aged overrun real row) < 2 ^ 32 /\
  0 <= t_interval (aged overrun real row) < 2 ^ 32 /\
  0 <= t_state (aged overrun real row) < 4.
Proof.
  intros [Hs Hv Hi _] Ho. unfold aged, age_row.
  repeat zcase; cbn [fst t_val t_interval t_state set_state];
    unfold TIMER_TRIG, TIMER_TRIG_PERIOD; splits; try lia; apply u32_range.
Qed.

Lemma aged_inv overrun real (t : timer_table CB) :
  timers_inv t -> 0 <= overrun ->
  let ts := aged overrun real <$> timers t in
  timers_inv (TimerTable ts (soonest ts) (last_timer_raw t)).
Proof.
  intros [Hl Hla Ht Hr] Ho ts.
  assert (Hget : forall i row', ts.[i] = Some row' ->
    exists row, (timers t).[i] = Some row /\ row' = aged overrun real row).
  { intros i row' [Hi E]%arr_get_Some. unfold ts in E.
    apply list_lookup_fmap_Some in E as (row & -> & E).
    exists row. by rewrite arr_get_Some. }
  constructor; cbn [timers total_sleep_time last_timer_raw].
  - unfold ts. by rewrite length_fmap.
  - done.
  - split; [|apply soonest_le]. apply soonest_nonneg.
    intros row' [i Hi]%list_elem_of_lookup. rewrite <- arr_get_nat in Hi.
    destruct (Hget _ _ Hi) as (row & Hrow & ->). destruct (Hr _ _ Hrow) as [Hok _].
    by apply (aged_ok overrun real _ _ Hok).
  - intros i row' Hi. destruct (Hget _ _ Hi) as (row & Hrow & Erow).
    destruct (Hr _ _ Hrow) as [Hok Hf]. split.
    + destruct (aged_ok overrun real _ _ Hok Ho) as (?&?&?).
      constructor; try (rewrite Erow; done). intros Ha.
      apply soonest_armed; [|done]. apply arr_get_Some in Hi as [_ Hi].
      by eapply list_elem_of_lookup_2.
    + intros Hlt. rewrite Erow, aged_unarmed; [by apply Hf|].
      by apply free_not_armed, Hf.
Qed.

(** Row [i] after its [TIMER_TRIG] bit is cleared. *)
Definition settle (row : s_timer_entry CB) : s_timer_entry CB :=
  set_state (Z.land (t_state row) (Z.lnot TIMER_TRIG)) row.

Lemma settle_state row : 0 <= t_state row < 4 ->
  t_state (settle row) = (if is_armed row then TIMER_ARMED else TIMER_FREE).
Proof.
  unfold settle, is_armed. cbn [t_state set_state].
  intros [-> | [-> | [-> | ->]]]%state_cases; done.
Qed.

Lemma settle_ok total row : row_ok total row -> row_ok total (settle row).
Proof.
  intros [Hs Hv Hi Ha]. pose proof (settle_state row Hs) as Es.
  constructor; try done.
  - rewrite Es. unfold TIMER_ARMED, TIMER_FREE. zcase; lia.
  - intros Har. apply Ha. unfold armed in Har. rewrite Es in Har.
    apply armed_is. by destruct (is_armed row).
Qed.

Lemma settle_quiet row : 0 <= t_state row < 4 -> ~ triggered (settle row).
Proof.
  intros Hs. rewrite triggered_is. unfold is_triggered.
  rewrite settle_state by done. by destruct (is_armed row).
Qed.

End dispatch_safety.

(** ** Arming and deleting *)

Section client.
Context {CB W : Type} `{TW : TimerWorld CB W} `{TWL : !TimerWorldLaws CB W}.
Implicit Types (w : W).

(** [SetAlarm] always answers, and keeps the invariant. *)
Lemma SetAlarm_run w id cb value period :
  timers_inv (tw_get w) -> 0 <= value -> value + getElapsedTime w < 2 ^ 32 ->
  0 <= period < 2 ^ 32 ->
  exists h w', SetAlarm id (Some cb) value period w = Some (h, w') /\
    timers_inv (tw_get w') /\ TIMER_NONE <= h < MAX_NB_TIMER.
Proof.
  intros I Hv Hov Hp.
  destruct (SetAlarm_from_spec (Z.to_nat MAX_NB_TIMER) 0 id cb value period w)
    as [[_ E]|(h & w' & E & Hset & I')]; try done.
  - intros i row Hi Hget. apply arr_get_lt in Hget. lia.
  - by exists TIMER_NONE, w.
  - exists h, w'. splits; [done|done|..]; pose proof (as_range _ _ _ _ _ _ _ _ Hset);
      unfold TIMER_NONE; lia.
Qed.

(** It puts no alarm in the triggered state. *)
Lemma alarm_set_trigger (t t' : timer_table CB) e h id cb v p : alarm_set t e h id cb v p t' -> no_new_trigger t t'.
Proof.
  intros Hset i row' Hget Htr. destruct (decide (i = h)) as [->|Hne].
  - rewrite (as_row _ _ _ _ _ _ _ _ Hset) in Hget. simplify_eq. by destruct Htr.
  - rewrite (as_others _ _ _ _ _ _ _ _ Hset) in Hget by done. by exists row'.
Qed.

Lemma SetAlarm_safe w id cb value period :
  timers_inv (tw_get w) -> 0 <= value -> value + getElapsedTime w < 2 ^ 32 -> 0 <= period < 2 ^ 32 ->
  exists h w', SetAlarm id (Some cb) value period w = Some (h, w') /\ timers_inv (tw_get w') /\
    no_new_trigger (tw_get w) (tw_get w').
Proof.
  intros I Hv Hov Hp. destruct (SetAlarm_from_spec (Z.to_nat MAX_NB_TIMER) 0 id cb value period w)
    as [[_ E]|(h & w' & E & Hset & I')]; try done.
  - intros i row Hi Hget. apply arr_get_lt in Hget. lia.
  - exists TIMER_NONE, w. splits; [done|done|]. by intros i r; exists r.
  - exists h, w'. splits; [done|done|]. by eapply alarm_set_trigger.
Qed.

(** [SetAlarm] on every branch: without a callback, or when all rows are
    in use, it answers [TIMER_NONE] and changes nothing; otherwise it arms the
    lowest free row with the value counted from the last dispatch, touches no
    other row, brings the wake-up forward exactly when the new alarm is sooner,
    keeps the invariant and puts no alarm in the triggered state. *)
Theorem SetAlarm_spec w id callback value period :
  timers_inv (tw_get w) -> 0 <= value -> value + getElapsedTime w < 2 ^ 32 ->
  0 <= period < 2 ^ 32 ->
  match callback with
  | None => SetAlarm id None value period w = Some (TIMER_NONE, w)
  | Some cb =>
      (no_room (tw_get w) /\
       SetAlarm id (Some cb) value period w = Some (TIMER_NONE, w)) \/
      exists h w', SetAlarm id (Some cb) value period w = Some (h, w') /\
        alarm_set (tw_get w) (getElapsedTime w) h id cb value period (tw_get w') /\
        timers_inv (tw_get w') /\ no_new_trigger (tw_get w) (tw_get w')
  end.
Proof.
  intros I Hv Hov Hp. destruct callback as [cb|];
    [|by apply SetAlarm_from_None].
  destruct (SetAlarm_from_spec (Z.to_nat MAX_NB_TIMER) 0 id cb value period w)
    as [?|(h & w' & E & Hset & I')]; try done; [| by left|].
  { intros i row Hi Hget. apply arr_get_lt in Hget. lia. }
  right. exists h, w'. splits; [done..|]. by eapply alarm_set_trigger.
Qed.

Lemma DelAlarm_run w handle :
  timers_inv (tw_get w) -> -1 <= handle < MAX_NB_TIMER ->
  exists w', DelAlarm handle w = Some (TIMER_NONE, w') /\
    timers_inv (tw_get w') /\ no_new_trigger (tw_get w) (tw_get w') /\
    total_sleep_time (tw_get w') = total_sleep_time (tw_get w) /\
    (forall i row, (timers (tw_get w)).[i] = Some row ->
       (timers (tw_get w')).[i] =
         Some (if decide (i = handle) then set_state TIMER_FREE row else row)) /\
    (handle = TIMER_NONE -> w' = w).
Proof.
  intros I Hh. pose proof I as [Hl Hla _ Hr]. unfold DelAlarm. zcase.
  { exists w. splits; [done|done|by intros i row; exists row|done| |done].
    intros i row Hget. rewrite decide_False; [done|].
    apply arr_get_lt in Hget. unfold TIMER_NONE in *. lia. }
  unfold TIMER_NONE in *.
  destruct (arr_get_is_Some (timers (tw_get w)) handle) as [row Hrow]; [lia|].
  rewrite Hrow. cbn [mbind option_bind].
  destruct ((timers (tw_get w)).[handle <- set_state TIMER_FREE row]) as [ts|] eqn:E;
    [|apply arr_set_None in E; lia].
  cbn [mbind option_bind]. eexists. split; [reflexivity|].
  rewrite tw_get_put. cbn [timers total_sleep_time].
  destruct (Hr _ _ Hrow) as [[Hs Hv Hi _] _].
  splits; [| |done| |done].
  - eapply timers_inv_write; [exact I|exact E|destruct I; lia| | |done].
    + constructor; [done..|]. by intros [].
    + zcase; lia.
  - intros i row' Hget Htr. cbn [timers] in Hget.
    destruct (decide (handle = i)) as [<-|Hne].
    + rewrite (arr_get_set_eq _ _ _ _ E) in Hget. injection Hget as <-. by destruct Htr.
    + rewrite (arr_get_set_ne _ _ _ _ _ E Hne) in Hget. by exists row'.
  - intros i row' Hget. case_decide as Hd.
    + subst i. rewrite (arr_get_set_eq _ _ _ _ E). by simplify_eq.
    + by rewrite (arr_get_set_ne _ _ _ _ _ E (not_eq_sym Hd)).
Qed.

(** [DelAlarm] always answers [TIMER_NONE]; given a handle of the table it
    frees that row, touches no other, keeps the invariant and puts no alarm in
    the triggered state; given [TIMER_NONE] it changes nothing. *)
Theorem DelAlarm_spec w handle :
  timers_inv (tw_get w) -> -1 <= handle < MAX_NB_TIMER ->
  exists w', DelAlarm handle w = Some (TIMER_NONE, w') /\
    timers_inv (tw_get w') /\ no_new_trigger (tw_get w) (tw_get w') /\
    total_sleep_time (tw_get w') = total_sleep_time (tw_get w) /\
    (forall i row, (timers (tw_get w)).[i] = Some row ->
       (timers (tw_get w')).[i] =
         Some (if decide (i = handle) then set_state TIMER_FREE row else row)) /\
    (handle = TIMER_NONE -> w' = w).
Proof. apply DelAlarm_run. Qed.

(** A step that leaves each row its function and argument, unless it arms it for one
    in [Q], and makes no alarm wait. *)
Definition alarms_step (Q : CB -> Z -> Prop) (t t' : timer_table CB) : Prop :=
  forall i row', (timers t').[i] = Some row' ->
    (exists row, (timers t).[i] = Some row /\ t_callback row' = t_callback row /\
       t_id row' = t_id row /\ (triggered row' -> triggered row)) \/
    (~ triggered row' /\ exists cb, t_callback row' = Some cb /\ Q cb (t_id row')).

(** The table calls only functions in [Q]. *)
Definition calls_only (Q : CB -> Z -> Prop) (t : timer_table CB) : Prop :=
  forall i row cb, (timers t).[i] = Some row -> t_callback row = Some cb -> Q cb (t_id row).

Lemma alarms_step_refl Q t : alarms_step Q t t.
Proof. intros i row H. left. by exists row. Qed.

Lemma alarms_step_trans Q t1 t2 t3 : alarms_step Q t1 t2 -> alarms_step Q t2 t3 -> alarms_step Q t1 t3.
Proof.
  intros H1 H2 i r3 H3. destruct (H2 i r3 H3) as [(r2 & E2 & C2 & I2 & T2)|]; [|by right].
  destruct (H1 i r2 E2) as [(r1 & E1 & C1 & I1 & T1)|(Ht & cb & Hcb & HQ)].
  - left. exists r1. splits; [done|congruence..|auto].
  - right. split; [auto|]. exists cb. rewrite C2, I2. done.
Qed.

Lemma alarms_step_mono (Q R : CB -> Z -> Prop) t t' :
  (forall cb id, Q cb id -> R cb id) -> alarms_step Q t t' -> alarms_step R t t'.
Proof. intros HQR Hs i row' Hi. destruct (Hs i row' Hi) as [?|(? & cb & ? & ?)]; [by left|right; eauto]. Qed.

Lemma alarms_step_calls Q t t' : alarms_step Q t t' -> calls_only Q t -> calls_only Q t'.
Proof.
  intros Hs Hq i row' cb Hi Hcb. destruct (Hs i row' Hi) as [(row & Hr & C & I & _)|(_ & cb' & Hcb' & HQ)].
  - rewrite I. eapply Hq; [exact Hr|congruence].
  - by simplify_eq.
Qed.

Lemma alarms_step_triggers Q t t' : alarms_step Q t t' -> no_new_trigger t t'.
Proof.
  intros Hs i row' Hi Ht. destruct (Hs i row' Hi) as [(row & Hr & _ & _ & T)|(Hn & _)]; [|done].
  exists row. auto.
Qed.

Lemma SetAlarm_step Q w id cb value period h w' :
  timers_inv (tw_get w) -> 0 <= value -> value + getElapsedTime w < 2 ^ 32 -> 0 <= period < 2 ^ 32 ->
  Q cb id -> SetAlarm id (Some cb) value period w = Some (h, w') -> alarms_step Q (tw_get w) (tw_get w').
Proof.
  intros I Hv Hov Hp HQ E. destruct (SetAlarm_from_spec (Z.to_nat MAX_NB_TIMER) 0 id cb value period w)
    as [[_ E']|(h' & w'' & E' & Hset & _)]; try done.
  - intros i row Hi Hget. apply arr_get_lt in Hget. lia.
  - unfold SetAlarm in E. rewrite E' in E. injection E as <- <-. apply alarms_step_refl.
  - unfold SetAlarm in E. rewrite E' in E. injection E as <- <-. intros i row' Hi.
    destruct (decide (i = h')) as [->|Hne].
    + rewrite (as_row _ _ _ _ _ _ _ _ Hset) in Hi. injection Hi as <-. right. split; [by intros []|]. by exists cb.
    + rewrite (as_others _ _ _ _ _ _ _ _ Hset) in Hi by done. left. by exists row'.
Qed.

Lemma DelAlarm_step Q w handle r w' :
  timers_inv (tw_get w) -> -1 <= handle < MAX_NB_TIMER -> DelAlarm handle w = Some (r, w') ->
  alarms_step Q (tw_get w) (tw_get w').
Proof.
  intros I Hh E. destruct (DelAlarm_run w handle I Hh) as (w'' & E' & I' & N & _ & Hrows & _).
  rewrite E in E'. injection E' as -> <-. intros i row' Hi. left.
  pose proof (arr_get_lt _ _ _ Hi) as Hr. rewrite (ti_len _ I'), <- (ti_len _ I) in Hr.
  destruct (arr_get_is_Some _ _ Hr) as [row Hrow]. exists row. split; [done|].
  rewrite (Hrows _ _ Hrow) in Hi. injection Hi as <-. destruct (decide (i = handle)) as [->|]; [|done].
  split; [done|]. split; [done|]. by intros [].
Qed.
End client.

(** ** The dispatch, exactly *)

Section exact_dispatch.
Context {CB W : Type} `{TW : TimerWorld CB W} `{TWL : !TimerWorldLaws CB W}.
Context `{TC : !TimerCallbacks CB W}.
Implicit Types (row : s_timer_entry CB) (t : timer_table CB) (w : W).

(** The rows call the same functions with the same arguments. *)
Definition same_calls t t' : Prop :=
  Forall2 (fun r r' => t_callback r' = t_callback r /\ t_id r' = t_id r) (timers t) (timers t').

(** What the callbacks may do: each one named in the table returns, keeps an invariant
    of the world, and lets no alarm wait that did not before.  Arming and deleting
    alarms is allowed. *)
Record callbacks_ok (P : W -> Prop) : Prop := {
  co_inv w : P w -> timers_inv (tw_get w);
  co_put w t : P w -> timers_inv t -> same_calls (tw_get w) t -> P (tw_put t w);
  co_timer w v : P w -> P (setTimer v w);
  co_call w i row cb : P w -> (timers (tw_get w)).[i] = Some row -> t_callback row = Some cb ->
    exists w', run_callback cb (t_id row) w = Some w' /\ P w' /\ no_new_trigger (tw_get w) (tw_get w')
}.

(** Row [i] gets its turn: if it still waits it is freed, or armed again when periodic,
    and then its function is called with its argument. *)
Definition fire (i : Z) w : option W :=
  row ← (timers (tw_get w)).[i];
  if is_triggered row then
    ts ← (timers (tw_get w)).[i <- settle row];
    match t_callback row with
    | Some cb => run_callback cb (t_id row) (tw_put (set_rows ts (tw_get w)) w)
    | None => Some (tw_put (set_rows ts (tw_get w)) w)
    end
  else Some w.

Fixpoint fire_all (ks : list Z) w : option W :=
  match ks with [] => Some w | i :: ks => w ← fire i w; fire_all ks w end.

Lemma same_calls_write t i row ts n l :
  (timers t).[i] = Some row -> (timers t).[i <- settle row] = Some ts -> same_calls t (TimerTable ts n l).
Proof.
  intros [_ Hi]%arr_get_Some [_ ->]%arr_set_Some. unfold same_calls. cbn [timers].
  rewrite <- (list_insert_id _ _ _ Hi) at 1. apply Forall2_insert; [|done].
  apply Forall2_same_length_lookup_2; [done|]. intros k x y Hx Hy. by simplify_eq.
Qed.

Lemma no_new_trigger_trans t1 t2 t3 : no_new_trigger t1 t2 -> no_new_trigger t2 t3 -> no_new_trigger t1 t3.
Proof. intros H1 H2 i r Hi Ht. destruct (H2 i r Hi Ht) as (r2 & Hi2 & Ht2). by apply (H1 i r2). Qed.

Lemma fire_idle i w row : (timers (tw_get w)).[i] = Some row -> ~ triggered row -> fire i w = Some w.
Proof.
  intros Hi Ht. unfold fire. rewrite Hi. cbn. destruct (is_triggered row) eqn:E; [|done].
  by apply triggered_is in E.
Qed.

Lemma fire_ok P i w : callbacks_ok P -> P w -> 0 <= i < MAX_NB_TIMER ->
  exists w', fire i w = Some w' /\ P w' /\ no_new_trigger (tw_get w) (tw_get w') /\
    (forall row, (timers (tw_get w')).[i] = Some row -> ~ triggered row).
Proof.
  intros HC Hw Hi. pose proof (co_inv _ HC _ Hw) as I. pose proof I as [Hl Hla _ Hr].
  destruct (arr_get_is_Some (timers (tw_get w)) i) as [row Hrow]; [lia|].
  destruct (is_triggered row) eqn:Et.
  2: { exists w. assert (Hn : ~ triggered row) by (rewrite triggered_is; congruence).
       splits; [by apply (fire_idle i w row)|done|by intros j r; exists r|]. intros r Hr'. by simplify_eq. }
  unfold fire. rewrite Hrow. cbn [mbind option_bind]. rewrite Et.
  rewrite arr_set_is_Some by lia. cbn [mbind option_bind].
  set (ts := <[_ := _]> _). set (w1 := tw_put _ w).
  assert (E1 : tw_get w1 = set_rows ts (tw_get w)) by apply tw_get_put.
  assert (Ets : (timers (tw_get w)).[i <- settle row] = Some ts) by (apply arr_set_Some; split; [lia|done]).
  destruct (Hr _ _ Hrow) as [Hok Hfree].
  assert (Hil : i <= last_timer_raw (tw_get w)).
  { apply Z.nlt_ge. intros Hlt. apply Hfree, free_not_armed in Hlt as [_ Hn]. by rewrite triggered_is in Hn. }
  assert (P1 : P w1).
  { apply (co_put _ HC); [done| |by eapply same_calls_write].
    eapply timers_inv_write; [exact I|exact Ets|destruct I; lia|by apply settle_ok|by left|].
    intros Hlt. lia. }
  assert (Hrow1 : (timers (tw_get w1)).[i] = Some (settle row)) by (rewrite E1; apply (arr_get_set_eq _ _ _ _ Ets)).
  assert (N1 : no_new_trigger (tw_get w) (tw_get w1)).
  { intros j r Hj Ht. rewrite E1 in Hj. cbn [timers set_rows] in Hj. destruct (decide (i = j)) as [<-|Hne].
    - rewrite (arr_get_set_eq _ _ _ _ Ets) in Hj. injection Hj as <-. by apply settle_quiet in Ht; [|apply Hok].
    - rewrite (arr_get_set_ne _ _ _ _ _ Ets Hne) in Hj. by exists r. }
  destruct (t_callback row) as [cb|] eqn:Ecb.
  - destruct (co_call _ HC w1 i (settle row) cb P1 Hrow1 Ecb) as (w2 & E2 & P2 & N2).
    exists w2. splits; [exact E2|done|by eapply no_new_trigger_trans|].
    intros r Hri Ht. destruct (N2 i r Hri Ht) as (r1 & Hr1 & Ht1). simplify_eq.
    by apply settle_quiet in Ht1; [|apply Hok].
  - exists w1. splits; [done|done|done|]. intros r Hri. simplify_eq. apply settle_quiet, Hok.
Qed.

Lemma fire_all_idle ks w :
  Forall (fun i => exists row, (timers (tw_get w)).[i] = Some row /\ ~ triggered row) ks -> fire_all ks w = Some w.
Proof.
  induction 1 as [|i ks (row & Hi & Hn) _ IH]; [done|]. cbn. by rewrite (fire_idle i w row).
Qed.

(** The second loop gives the rows that wait their turn, in row order. *)
Lemma trig_rows_fires P fuel i p w : callbacks_ok P -> P w -> 0 <= i -> i + Z.of_nat fuel = MAX_NB_TIMER ->
  (forall j row, (timers (tw_get w)).[j] = Some row -> triggered row -> i <= j /\ p j = true) ->
  exists w', trig_rows fuel i w = Some w' /\ fire_all (List.filter p (seqZ i (Z.of_nat fuel))) w = Some w' /\
    P w' /\ quiet (tw_get w').
Proof.
  intros HC. revert i w. induction fuel as [|fuel IH]; intros i w Hw Hi Hf Hp.
  { exists w. splits; [done..|]. intros j row Hj Ht. destruct (Hp j row Hj Ht) as [? _].
    pose proof (arr_get_lt _ _ _ Hj). pose proof (ti_len _ (co_inv _ HC _ Hw)). lia. }
  pose proof (co_inv _ HC _ Hw) as I. pose proof I as [Hl Hla _ Hr]. cbn [trig_rows].
  destruct (arr_get_is_Some (timers (tw_get w)) i) as [row Hrow]; [lia|].
  rewrite seqZ_cons by lia. replace (Z.pred (Z.of_nat (S fuel))) with (Z.of_nat fuel) by lia.
  change (Z.succ i) with (i + 1). cbn [List.filter].
  destruct (i <=? last_timer_raw (tw_get w)) eqn:El; zb.
  2: { exists w. assert (Hn : forall j r, i <= j -> (timers (tw_get w)).[j] = Some r -> ~ triggered r).
       { intros j r Hj Hjr. apply free_not_armed, (Hr _ _ Hjr). lia. }
       splits; [done| |done|].
       - apply fire_all_idle, Forall_forall. intros j Hj.
         assert (i <= j < i + Z.of_nat (S fuel)) as Hjr.
         { apply list_elem_of_In in Hj. destruct (p i); [destruct Hj as [<-|Hj]; [lia|]|];
             apply List.filter_In in Hj as [Hj _]; apply list_elem_of_In, elem_of_seqZ in Hj; lia. }
         destruct (arr_get_is_Some (timers (tw_get w)) j) as [r Hjw]; [lia|]. exists r. split; [done|].
         by apply (Hn j); [lia|].
       - intros j r Hj Ht. destruct (Hp j r Hj Ht) as [? _]. by apply (Hn j r). }
  rewrite Hrow. cbn [mbind option_bind].
  destruct (fire_ok P i w HC Hw) as (w1 & E1 & P1 & N1 & Q1); [lia|].
  assert (Hnext : forall j r, (timers (tw_get w1)).[j] = Some r -> triggered r -> i + 1 <= j /\ p j = true).
  { intros j r Hj Ht. destruct (N1 j r Hj Ht) as (r0 & Hj0 & Ht0). destruct (Hp j r0 Hj0 Ht0) as [Hij Hpj].
    split; [|done]. assert (j <> i); [|lia]. intros ->. by apply (Q1 r). }
  destruct (IH (i + 1) w1 P1 ltac:(lia) ltac:(lia) Hnext) as (w2 & E2 & F2 & P2 & Q2). exists w2.
  destruct (Z.land (t_state row) TIMER_TRIG =? 0) eqn:Et.
  - assert (Hn : ~ triggered row) by (rewrite triggered_is; unfold is_triggered; by rewrite Et).
    rewrite (fire_idle i w row Hrow Hn) in E1. injection E1 as <-.
    splits; [done| |done|done]. destruct (p i); [|done]. cbn. by rewrite (fire_idle i w row).
  - assert (Ht : triggered row) by (apply triggered_is; unfold is_triggered; by rewrite Et).
    destruct (Hp i row Hrow Ht) as [_ ->]. cbn [fire_all]. rewrite E1. splits; [|done..].
    rewrite <- E2. unfold fire in E1. rewrite Hrow in E1. cbn [mbind option_bind] in E1.
    apply triggered_is in Ht. rewrite Ht in E1. fold (settle row).
    apply bind_Some in E1 as (ts & -> & E1). cbn [mbind option_bind]. by destruct (t_callback row); rewrite E1.
Qed.

(** *** The dispatch in absolute time

    Between two dispatches the values count from the previous one, at [base]. *)
Definition deadline (base : Z) row : Z := base + t_val row.

(** The rows whose deadline is reached, from the lowest on. *)
Definition due (base now : Z) t : list Z :=
  List.filter (fun i => match (timers t).[i] with
                        | Some row => is_armed row && (deadline base row <=? now)
                        | None => false end) (seqZ 0 MAX_NB_TIMER).

(** The row after the first loop of a dispatch at [now]: one that is due waits for its
    call, a periodic one with its next value; the others count from [now]. *)
Definition marked (base overrun now : Z) row : s_timer_entry CB :=
  if negb (is_armed row) then row
  else if deadline base row <=? now then
    if t_interval row =? 0 then set_state TIMER_TRIG row
    else TimerEntry TIMER_TRIG_PERIOD (t_callback row) (t_id row)
           (t_interval row - overrun mod t_interval row) (t_interval row)
  else TimerEntry TIMER_ARMED (t_callback row) (t_id row)
         (deadline base row - now) (t_interval row).

Lemma land_armed st : 0 <= st < 4 -> Z.land st TIMER_TRIG = 0 ->
  negb (Z.land st TIMER_ARMED =? 0) = true -> st = TIMER_ARMED.
Proof.
  intros Hs. assert (st = 0 \/ st = 1 \/ st = 2 \/ st = 3) as [->|[->|[->| ->]]] by lia;
    by cbn.
Qed.

Lemma aged_marked base overrun total row :
  0 <= overrun -> 0 <= total -> total + overrun < 2 ^ 32 ->
  row_ok total row -> ~ triggered row ->
  let now := base + total + overrun in
  aged overrun (u32 (total + overrun)) row = marked base overrun now row /\
  is_triggered (marked base overrun now row) = is_armed row && (deadline base row <=? now).
Proof.
  intros Ho Ht Hlt [Hs Hv Hi _] Hq now.
  assert (Hq' : Z.land (t_state row) TIMER_TRIG = 0) by (apply dec_stable; exact Hq).
  unfold marked, aged, age_row, deadline, now, is_armed. rewrite u32_small by lia.
  replace (base + t_val row <=? base + total + overrun) with (t_val row <=? total + overrun)
    by (apply eq_true_iff_eq; rewrite !Z.leb_le; lia).
  destruct (Z.land (t_state row) TIMER_ARMED =? 0) eqn:Ea; cbn [negb fst andb].
  { unfold is_triggered. by rewrite Hq'. }
  pose proof (land_armed _ Hs Hq' ltac:(by rewrite Ea)) as Es.
  destruct (t_val row <=? total + overrun) eqn:Ev; zb.
  - destruct (t_interval row =? 0) eqn:Ei; zb; cbn [fst]; [done|].
    assert (0 <= overrun mod t_interval row < t_interval row) by (apply Z.mod_pos_bound; lia).
    rewrite u32_small by lia. done.
  - cbn [fst]. unfold is_triggered. cbn [t_state]. rewrite Es, u32_small by lia. split; [|done].
    f_equal. lia.
Qed.

Lemma inv_row_ok t r : timers_inv t -> r ∈ timers t -> row_ok (total_sleep_time t) r.
Proof.
  intros [_ _ _ Hr] [i Hi]%list_elem_of_lookup. rewrite <- arr_get_nat in Hi.
  by destruct (Hr _ _ Hi).
Qed.

Lemma quiet_elem t r : quiet t -> r ∈ timers t -> ~ triggered r.
Proof.
  intros Hq [i Hi]%list_elem_of_lookup. rewrite <- arr_get_nat in Hi.
  by apply (Hq _ _ Hi).
Qed.

Lemma aged_same_calls overrun real t n l : same_calls t (TimerTable (aged overrun real <$> timers t) n l).
Proof.
  apply Forall2_fmap_r. apply Forall2_same_length_lookup_2; [done|]. intros k x y Hx Hy. simplify_eq.
  cbn. unfold aged, age_row. by repeat zcase.
Qed.

Lemma due_spec base now t i : 0 <= i < MAX_NB_TIMER -> Z.of_nat (length (timers t)) = MAX_NB_TIMER ->
  i ∈ due base now t <-> exists row, (timers t).[i] = Some row /\ is_armed row && (deadline base row <=? now) = true.
Proof.
  intros Hi Hl. unfold due. rewrite list_elem_of_In, List.filter_In. split.
  - intros [_ H]. destruct ((timers t).[i]) as [row|]; [by exists row|done].
  - intros (row & -> & H). split; [|done]. apply list_elem_of_In, elem_of_seqZ. lia.
Qed.


Section dispatch.
Context (P : W -> Prop) (HC : callbacks_ok P) (base : Z) (w : W).
Context (Hw : P w) (Hq : quiet (tw_get w)).
Let t := tw_get w.
Let e := getElapsedTime w.
Let now := base + total_sleep_time t + e.
Context (Hlt : total_sleep_time t + e < 2 ^ 32).
Let ts := marked base e now <$> timers t.

(** The world when the first call is made: the rows due wait, and the hardware timer is
    programmed for the soonest of the others. *)
Definition first_call : W := setTimer (soonest ts) (tw_put (TimerTable ts (soonest ts) (last_timer_raw t)) w).

Lemma dispatch_rows : ts = aged e (u32 (total_sleep_time t + e)) <$> timers t /\
  (forall row, row ∈ timers t -> is_triggered (marked base e now row) = is_armed row && (deadline base row <=? now)).
Proof.
  pose proof (co_inv _ HC _ Hw) as I. pose proof (ti_total _ I) as Ht. pose proof (tw_elapsed_range w) as He.
  fold t in I, Ht. fold e in He. unfold TIMEVAL_MAX in Ht.
  assert (Hrow : forall row, row ∈ timers t -> aged e (u32 (total_sleep_time t + e)) row = marked base e now row /\
    is_triggered (marked base e now row) = is_armed row && (deadline base row <=? now)).
  { intros row Hin. apply aged_marked; [lia|lia|lia|by apply inv_row_ok|by apply (quiet_elem t)]. }
  split; [|intros row Hin; by apply Hrow]. apply list_fmap_ext. intros i row Hin.
  symmetry. apply Hrow. by eapply list_elem_of_lookup_2.
Qed.


Lemma dispatch_fires : exists w', TimeDispatch w = Some w' /\ fire_all (due base now t) first_call = Some w' /\
  P w' /\ quiet (tw_get w').
Proof.
  pose proof (co_inv _ HC _ Hw) as I. destruct dispatch_rows as [Ets Htr]. pose proof (tw_elapsed_range w) as He.
  fold t in I. fold e in He.
  unfold TimeDispatch. fold t e. rewrite age_rows_spec by done. cbn [mbind option_bind]. rewrite <- Ets.
  fold first_call. apply (trig_rows_fires P (Z.to_nat MAX_NB_TIMER) 0); [done| |done|done|].
  - apply (co_timer _ HC), (co_put _ HC); [done| |]; fold t; rewrite Ets; [apply aged_inv; [done|lia]|apply aged_same_calls].
  - intros j row' Hj Ht. pose proof (arr_get_lt _ _ _ Hj) as Hr. split; [lia|].
    unfold first_call in Hj, Hr. rewrite tw_get_setTimer, tw_get_put in Hj, Hr. cbn [timers] in Hj, Hr.
    unfold ts in Hr. rewrite length_fmap in Hr.
    destruct (arr_get_is_Some (timers t) j Hr) as [row Hrow]. rewrite Hrow.
    apply arr_get_Some in Hj as [_ Hj]. apply arr_get_Some in Hrow as [_ Hrow]. unfold ts in Hj.
    rewrite list_lookup_fmap, Hrow in Hj. injection Hj as <-.
    rewrite <- Htr by (by eapply list_elem_of_lookup_2). by apply triggered_is.
Qed.

End dispatch.

(** C31: A dispatch at time [now], for any callbacks within their contract, which may
    arm and delete alarms.  It programs the hardware timer for the soonest of the
    alarms that remain; then exactly the alarms whose deadline was reached when it began
    get their turn, each once and in row order: the alarm is freed, or armed again when
    periodic, and its function is called with its argument, unless an earlier call of
    the same dispatch has deleted it.  No alarm armed by a call is called in the same
    dispatch, and at the end no alarm waits. *)
Theorem TimeDispatch_exact (P : W -> Prop) base w :
  callbacks_ok P -> P w -> quiet (tw_get w) -> total_sleep_time (tw_get w) + getElapsedTime w < 2 ^ 32 ->
  let t := tw_get w in
  let now := base + total_sleep_time t + getElapsedTime w in
  let ts := marked base (getElapsedTime w) now <$> timers t in
  let w0 := setTimer (soonest ts) (tw_put (TimerTable ts (soonest ts) (last_timer_raw t)) w) in
  exists w', TimeDispatch w = Some w' /\ fire_all (due base now t) w0 = Some w' /\ P w' /\ quiet (tw_get w') /\
    (forall i row, (timers t).[i] = Some row ->
       (i ∈ due base now t <-> armed row /\ deadline base row <= now) /\
       (i ∈ due base now t <-> triggered (marked base (getElapsedTime w) now row))).
Proof.
  intros HC Hw Hq Hlt t now ts w0. destruct (dispatch_fires P HC base w Hw Hq Hlt) as (w' & E & F & Pw & Q).
  exists w'. splits; [done|done|done|done|]. intros i row Hrow. pose proof (arr_get_lt _ _ _ Hrow) as Hi.
  pose proof (ti_len _ (co_inv _ HC _ Hw)) as Hl. fold t in Hl.
  assert (Hd : i ∈ due base now t <-> is_armed row && (deadline base row <=? now) = true).
  { rewrite due_spec by (done || lia). split; [intros (r & Hr & H); congruence|intros H; by exists row]. }
  destruct (dispatch_rows P HC base w Hw Hq Hlt) as [_ Htr].
  rewrite Hd, triggered_is, armed_is, andb_true_iff, Z.leb_le. split; [done|].
  rewrite Htr, andb_true_iff, Z.leb_le; [done|]. apply arr_get_Some in Hrow as [_ Hrow].
  by eapply list_elem_of_lookup_2.
Qed.

End exact_dispatch.

(** ** The invariants as boolean checks, and concrete tables *)

Section checks.
Context {CB : Type}.
Implicit Types (t : timer_table CB) (row : s_timer_entry CB).

Definition row_okb (total : Z) row : bool :=
  (0 <=? t_state row) && (t_state row <? 4) && (0 <=? t_val row) &&
  (t_val row <? 2 ^ 32) && (0 <=? t_interval row) && (t_interval row <? 2 ^ 32) &&
  (negb (is_armed row) || (total <=? t_val row)).

Definition timers_invb t : bool :=
  (Z.of_nat (length (timers t)) =? MAX_NB_TIMER) &&
  (-1 <=? last_timer_raw t) && (last_timer_raw t <? MAX_NB_TIMER) &&
  (0 <=? total_sleep_time t) && (total_sleep_time t <=? TIMEVAL_MAX) &&
  forallb (row_okb (total_sleep_time t)) (timers t) &&
  forallb (fun row => t_state row =? TIMER_FREE)
    (drop (Z.to_nat (last_timer_raw t + 1)) (timers t)).

Lemma row_okb_ok total row : row_okb total row = true -> row_ok total row.
Proof.
  unfold row_okb. intros H. zb. constructor; [lia..|].
  intros Ha%armed_is. match goal with H : _ \/ _ |- _ => destruct H end; zb;
    [congruence|done].
Qed.

Lemma timers_invb_ok t : timers_invb t = true -> timers_inv t.
Proof.
  unfold timers_invb. intros H. zb.
  match goal with
  | H1 : forallb (row_okb _) _ = true, H2 : forallb _ (drop _ _) = true |- _ =>
      rename H1 into Hrows; rename H2 into Hfree
  end.
  rewrite forallb_forall in Hrows, Hfree.
  constructor; [done|lia|lia|]. intros i row [Hi Hget]%arr_get_Some. split.
  - apply row_okb_ok, Hrows, list_elem_of_In. by eapply list_elem_of_lookup_2.
  - intros Hlt. apply Z.eqb_eq, Hfree, list_elem_of_In.
    apply list_elem_of_lookup. exists (Z.to_nat i - Z.to_nat (last_timer_raw t + 1))%nat.
    rewrite lookup_drop, <- Hget. f_equal. lia.
Qed.

Definition quietb t : bool := forallb (fun row => negb (is_triggered row)) (timers t).

Lemma quietb_ok t : quietb t = true -> quiet t.
Proof.
  unfold quietb. rewrite forallb_forall. intros H i row [_ Hget]%arr_get_Some Ht.
  apply triggered_is in Ht. specialize (H row). rewrite Ht in H.
  enough (In row (timers t)) by (by discriminate H).
  by eapply list_elem_of_In, list_elem_of_lookup_2.
Qed.
End checks.

(** A one-shot alarm in 10 ticks, a periodic one every 100 in 25, one in 900. *)
Definition sample_table : timer_table nat :=
  TimerTable [TimerEntry TIMER_ARMED (Some 7%nat) 1 10 0;
              TimerEntry TIMER_ARMED (Some 8%nat) 2 10 100;
              TimerEntry TIMER_ARMED (Some 9%nat) 3 900 0;
              free_row; free_row; free_row; free_row; free_row] 10 2.

(** A world that records what the table does. *)
Inductive timer_event :=
  | Programmed (value : Z)
  | Called (callback : nat) (id : Z).

Record log_world := LogWorld {
  lw_table : timer_table nat;
  lw_elapsed : Z;
  lw_log : list timer_event
}.

Definition lw_emit (e : timer_event) (w : log_world) : log_world :=
  LogWorld (lw_table w) (lw_elapsed w) (lw_log w ++ [e]).

#[export] Instance log_timer_world : TimerWorld nat log_world := {|
  tw_get := lw_table;
  tw_put t w := LogWorld t (lw_elapsed w) (lw_log w);
  setTimer v w := lw_emit (Programmed v) w;
  getElapsedTime w := u32 (lw_elapsed w)
|}.

#[export] Instance log_timer_world_laws : TimerWorldLaws nat log_world.
Proof. by constructor; [..|intros; apply u32_range]. Qed.

(** Function 7 deletes the alarm of row 1, function 8 arms a new one. *)
#[export] Instance log_timer_callbacks : TimerCallbacks nat log_world := fun cb id w =>
  let w := lw_emit (Called cb id) w in
  match cb with
  | 7%nat => snd <$> DelAlarm 1 w
  | 8%nat => snd <$> SetAlarm id (Some 9%nat) 0 0 w
  | _ => Some w
  end.

Definition sample_world : log_world := LogWorld sample_table 203 [].

Lemma sample_inv : timers_inv sample_table /\ quiet sample_table.
Proof. split; [by apply timers_invb_ok|by apply quietb_ok]. Qed.

Definition log_ok (w : log_world) : Prop := timers_inv (lw_table w) /\ 0 <= lw_elapsed w < 2 ^ 31.

Lemma DelAlarm_elapsed h (w w' : log_world) r : DelAlarm h w = Some (r, w') -> lw_elapsed w' = lw_elapsed w.
Proof.
  unfold DelAlarm. destruct (h =? TIMER_NONE); [by intros [= _ <-]|].
  intros (row & _ & (ts & _ & [= _ <-])%bind_Some)%bind_Some. done.
Qed.

Lemma SetAlarm_elapsed id cb v p (w w' : log_world) h :
  SetAlarm id cb v p w = Some (h, w') -> lw_elapsed w' = lw_elapsed w.
Proof.
  unfold SetAlarm. generalize (Z.to_nat MAX_NB_TIMER), 0. intros fuel.
  induction fuel as [|fuel IH]; intros n; cbn [SetAlarm_from]; [by intros [= _ <-]|].
  destruct (_ && _); [|by intros [= _ <-]]. intros (row & _ & E)%bind_Some. revert E.
  destruct cb as [cb|]; [|apply IH]. destruct (_ =? _); [|apply IH]. unfold arm_row.
  intros (ts & _ & [= _ <-])%bind_Some. by destruct (_ && _).
Qed.

Lemma log_callbacks_ok : callbacks_ok log_ok.
Proof.
  constructor.
  - by intros w [I _].
  - intros w t [_ He] It _. by split.
  - intros w v H. exact H.
  - intros w i row cb [I He] _ _. set (id := t_id row). set (v := lw_emit (Called cb id) w).
    assert (Iv : timers_inv (tw_get v)) by exact I.
    assert (Hid : exists w', Some v = Some w' /\ log_ok w' /\ no_new_trigger (tw_get w) (tw_get w')).
    { exists v. splits; [done|done|]. by intros j r; exists r. }
    change (run_callback cb id w) with (log_timer_callbacks cb id w). unfold log_timer_callbacks. fold v.
    do 7 (destruct cb as [|cb]; [exact Hid|]). destruct cb as [|[|cb]]; [| |exact Hid].
    + destruct (DelAlarm_run v 1 Iv ltac:(done)) as (w' & E & I' & N & _). rewrite E. exists w'.
      splits; [done|split; [done|]|exact N]. by rewrite (DelAlarm_elapsed _ _ _ _ E).
    + pose proof (SetAlarm_safe v id 9%nat 0 0 Iv) as (h & w' & E & I' & N); [lia| |lia|].
      { change (getElapsedTime v) with (u32 (lw_elapsed w)). rewrite u32_small by lia. lia. }
      rewrite E. exists w'. splits; [done|split; [done|]|exact N]. by rewrite (SetAlarm_elapsed _ _ _ _ _ _ _ E).
Qed.

Example SetAlarm_spec_witness :
  exists h w', SetAlarm 4 (Some 5%nat) 6 0 (LogWorld sample_table 1 []) = Some (h, w') /\
    h = 3 /\ total_sleep_time (lw_table w') = 7 /\ lw_log w' = [Programmed 6].
Proof.
  destruct (SetAlarm_spec (LogWorld sample_table 1 []) 4 (Some 5%nat) 6 0)
    as [[_ E]|(h & w' & E & Hset & _)];
    [apply sample_inv|lia|vm_compute; done|lia|discriminate E|].
  exists h, w'. splits; [done| |..]; injection E as <- <-; done.
Defined.

Example DelAlarm_spec_witness :
  exists w', DelAlarm 2 sample_world = Some (TIMER_NONE, w') /\
    last_timer_raw (lw_table w') = 1.
Proof.
  destruct (DelAlarm_spec sample_world 2) as (w' & E & _);
    [apply sample_inv|done|].
  exists w'. split; [done|]. injection E as <-. done.
Defined.

(** Rows 0 and 1 are due; the call of the first deletes the second. *)
Example TimeDispatch_exact_witness :
  exists w', TimeDispatch sample_world = Some w' /\ lw_log w' = [Programmed 97; Called 7 1] /\ quiet (lw_table w').
Proof.
  destruct (TimeDispatch_exact log_ok 0 sample_world log_callbacks_ok) as (w' & E & F & _ & Q & _);
    [split; [apply sample_inv|done]|apply sample_inv|done|].
  exists w'. split; [exact E|]. split; [|exact Q]. vm_compute in F. by injection F as <-.
Defined.

