(* ===== verification/CMem.v ===== *)
(** * CMem: the variables behind the object dictionary

    The CANopen stack reaches its configuration variables through pointers, and
    several pointers reach the same variable (an entry of the dictionary and a
    field of [CO_Data]).  Memory is therefore a store of blocks of bytes, one
    block per C object, and a pointer is a block with an offset; an access
    outside a block is undefined ([None]).  Integers are stored low byte
    first. *)

From S2P Require Import Prelude.

Abbreviation mem := (gmap Z (list Z)).
Definition ptr : Type := Z * Z.

(** [p + n] for a pointer to bytes. *)
Definition ptr_add (p : ptr) (n : Z) : ptr := (fst p, snd p + n).

(** The [n] bytes at [p]. *)
Definition mload (m : mem) (p : ptr) (n : Z) : option (list Z) :=
  bs ← m !! fst p;
  if (0 <=? snd p) && (0 <=? n) && (snd p + n <=? Z.of_nat (length bs))
  then Some (take (Z.to_nat n) (drop (Z.to_nat (snd p)) bs)) else None.

(** The bytes [data] written at [p]. *)
Definition mstore (m : mem) (p : ptr) (data : list Z) : option mem :=
  bs ← m !! fst p;
  if (0 <=? snd p) && (snd p + Z.of_nat (length data) <=? Z.of_nat (length bs))
  then Some (<[fst p := take (Z.to_nat (snd p)) bs ++ data ++
                        drop (Z.to_nat (snd p) + length data) bs]> m)
  else None.

(** Integers of [n] bytes. *)
Fixpoint le_val (bs : list Z) : Z :=
  match bs with [] => 0 | b :: bs' => b + 256 * le_val bs' end.

Fixpoint le_bytes (n : nat) (v : Z) : list Z :=
  match n with
  | O => []
  | S n' => v mod 256 :: le_bytes n' (v / 256)
  end.

Definition load (n : Z) (m : mem) (p : ptr) : option Z := le_val <$> mload m p n.
Definition store (n : nat) (m : mem) (p : ptr) (v : Z) : option mem :=
  mstore m p (le_bytes n v).

(** ** Laws *)

Definition is_byte (b : Z) : Prop := 0 <= b < 256.

Lemma le_bytes_length n v : length (le_bytes n v) = n.
Proof. revert v. induction n; intros v; cbn; auto. Qed.

Lemma le_bytes_byte n v : Forall is_byte (le_bytes n v).
Proof.
  revert v. induction n; intros v; cbn; constructor; [|done].
  apply Z.mod_pos_bound. lia.
Qed.

Lemma le_val_bytes n v : le_val (le_bytes n v) = v mod 256 ^ Z.of_nat n.
Proof.
  revert v. induction n as [|n IH]; intros v; cbn [le_bytes le_val].
  - cbn. by rewrite Z.mod_1_r.
  - rewrite IH. replace (Z.of_nat (S n)) with (Z.of_nat n + 1) by lia.
    rewrite Z.pow_add_r, Z.pow_1_r, (Z.mul_comm (256 ^ _)) by lia.
    by rewrite Z.rem_mul_r by (try apply Z.pow_nonzero; lia).
Qed.

Lemma le_val_range bs : Forall is_byte bs ->
  0 <= le_val bs < 256 ^ Z.of_nat (length bs).
Proof.
  induction 1 as [|b bs [? ?] _ IH]; cbn [le_val length]; [lia|].
  replace (Z.of_nat (S (length bs))) with (Z.of_nat (length bs) + 1) by lia.
  rewrite Z.pow_add_r by lia. lia.
Qed.

Lemma le_bytes_val bs : Forall is_byte bs -> le_bytes (length bs) (le_val bs) = bs.
Proof.
  induction 1 as [|b bs [? ?] _ IH]; cbn [le_bytes le_val length]; [done|].
  f_equal.
  - rewrite Z.mul_comm, Z.mod_add, Z.mod_small; lia.
  - by rewrite Z.mul_comm, Z.div_add, Z.div_small, Z.add_0_l by lia.
Qed.

Section laws.
Implicit Types (m : mem) (p q : ptr).

Lemma mload_Some m p n bs :
  mload m p n = Some bs <->
  exists blk, m !! fst p = Some blk /\ 0 <= snd p /\ 0 <= n /\
    snd p + n <= Z.of_nat (length blk) /\
    bs = take (Z.to_nat n) (drop (Z.to_nat (snd p)) blk).
Proof.
  unfold mload. destruct (m !! fst p) as [blk|]; cbn [mbind option_bind];
    [|split; [done|by intros (? & [=] & _)]].
  zcase; split.
  - intros [= <-]. exists blk. splits; (done || lia).
  - by intros (? & [= <-] & _ & _ & _ & ->).
  - done.
  - intros (? & [= <-] & ? & ? & ? & _). lia.
Qed.

Lemma mload_length m p n bs : mload m p n = Some bs -> Z.of_nat (length bs) = n.
Proof.
  rewrite mload_Some. intros (blk & _ & ? & ? & ? & ->).
  rewrite length_take, length_drop. lia.
Qed.

Lemma mstore_Some m p data m' :
  mstore m p data = Some m' <->
  exists blk, m !! fst p = Some blk /\ 0 <= snd p /\
    snd p + Z.of_nat (length data) <= Z.of_nat (length blk) /\
    m' = <[fst p := take (Z.to_nat (snd p)) blk ++ data ++
                    drop (Z.to_nat (snd p) + length data) blk]> m.
Proof.
  unfold mstore. destruct (m !! fst p) as [blk|]; cbn [mbind option_bind];
    [|split; [done|by intros (? & [=] & _)]].
  zcase; split.
  - intros [= <-]. exists blk. splits; (done || lia).
  - by intros (? & [= <-] & _ & _ & ->).
  - done.
  - intros (? & [= <-] & ? & ? & _). lia.
Qed.

(** What was read can be written over. *)
Lemma mload_mstore_is_Some m p n bs data :
  mload m p n = Some bs -> Z.of_nat (length data) <= n ->
  exists m', mstore m p data = Some m'.
Proof.
  rewrite mload_Some. intros (blk & Hb & ? & ? & ? & _) Hlen. eexists.
  apply mstore_Some. exists blk. splits; [done|lia|lia|reflexivity].
Qed.

Lemma mload_mstore_same m p data m' :
  mstore m p data = Some m' ->
  mload m' p (Z.of_nat (length data)) = Some data.
Proof.
  rewrite mstore_Some. intros (blk & Hb & ? & ? & ->). apply mload_Some.
  eexists. rewrite lookup_insert_eq. split; [reflexivity|].
  rewrite !length_app, length_take, length_drop. splits; [lia..|].
  rewrite drop_app_length' by (rewrite length_take; lia).
  rewrite take_app_length' by lia. done.
Qed.

(** Two ranges of bytes that do not meet. *)
Definition disjoint_range p (n : Z) q (k : Z) : Prop :=
  fst p <> fst q \/ snd p + n <= snd q \/ snd q + k <= snd p.

Lemma mload_mstore_disjoint m p data m' q k :
  mstore m p data = Some m' ->
  disjoint_range p (Z.of_nat (length data)) q k ->
  mload m' q k = mload m q k.
Proof.
  rewrite mstore_Some. intros (blk & Hb & Hp & Hl & ->) Hd. unfold mload.
  destruct (decide (fst p = fst q)) as [Epq|Hne];
    [|by rewrite lookup_insert_ne].
  rewrite <- Epq, Hb, lookup_insert_eq. cbn [mbind option_bind].
  rewrite !length_app, length_take, length_drop.
  replace (Z.of_nat _) with (Z.of_nat (length blk)) at 1 by lia.
  destruct ((0 <=? snd q) && (0 <=? k) && (snd q + k <=? Z.of_nat (length blk)))
    eqn:E; [|done]. zb. f_equal.
  destruct Hd as [?|[Hd|Hd]]; [done|..].
  - rewrite drop_app_ge by (rewrite length_take; lia).
    rewrite drop_app_ge by (rewrite length_take; lia).
    rewrite drop_drop, length_take. do 2 f_equal. lia.
  - apply list_eq. intros i. destruct (decide (i < Z.to_nat k)%nat).
    + rewrite !lookup_take_lt, !lookup_drop by lia.
      rewrite lookup_app_l by (rewrite length_take; lia).
      by rewrite lookup_take_lt by lia.
    + by rewrite !lookup_take_ge by lia.
Qed.

(** Writing what is there changes nothing. *)
Lemma mstore_same m p n bs : mload m p n = Some bs -> mstore m p bs = Some m.
Proof.
  intros (blk & Hb & Hp & Hn & Hl & ->)%mload_Some. apply mstore_Some. exists blk.
  rewrite length_take, length_drop. splits; [done|done|lia|]. symmetry. apply insert_id. rewrite Hb. f_equal.
  rewrite <- (take_drop (Z.to_nat (snd p)) blk) at 1. f_equal.
  rewrite <- (take_drop (Z.to_nat n) (drop _ blk)) at 1. rewrite drop_drop. do 2 f_equal. lia.
Qed.

(** A store keeps every other range readable. *)
Lemma mstore_keeps_loads m p data m' q k bs :
  mstore m p data = Some m' -> mload m q k = Some bs ->
  exists bs', mload m' q k = Some bs'.
Proof.
  rewrite mstore_Some, mload_Some.
  intros (blk & Hb & Hp & Hl & ->) (blk' & Hb' & Hq & Hk & Hl' & _).
  destruct (decide (fst p = fst q)) as [Epq|Hne].
  - eexists. apply mload_Some. eexists. rewrite Epq, lookup_insert_eq.
    split; [reflexivity|].
    rewrite !length_app, length_take, length_drop. splits; try reflexivity; try lia.
    rewrite <- Epq, Hb in Hb'. injection Hb' as <-. lia.
  - eexists. apply mload_Some. exists blk'. by rewrite lookup_insert_ne.
Qed.
End laws.

(** *** Integers in memory *)

Section integers.
Implicit Types (m : mem) (p q : ptr).

Lemma load_store_same n m p v m' :
  store n m p v = Some m' -> load (Z.of_nat n) m' p = Some (v mod 256 ^ Z.of_nat n).
Proof.
  unfold store, load. intros H%mload_mstore_same. rewrite le_bytes_length in H.
  rewrite H. cbn. by rewrite le_val_bytes.
Qed.

Lemma load_store_other n m p v m' q k :
  store n m p v = Some m' -> disjoint_range p (Z.of_nat n) q k ->
  load k m' q = load k m q.
Proof.
  unfold store, load. intros H Hd. erewrite mload_mstore_disjoint; [done|exact H|].
  by rewrite le_bytes_length.
Qed.

Lemma store_is_Some n m p v x :
  load (Z.of_nat n) m p = Some x -> exists m', store n m p v = Some m'.
Proof.
  unfold load, store. intros (bs & Hbs & _)%fmap_Some.
  eapply mload_mstore_is_Some; [exact Hbs|]. rewrite le_bytes_length. lia.
Qed.

Lemma store_keeps_load n m p v m' q k x :
  store n m p v = Some m' -> load k m q = Some x -> exists y, load k m' q = Some y.
Proof.
  unfold load, store. intros Hs (bs & Hbs & _)%fmap_Some.
  destruct (mstore_keeps_loads _ _ _ _ _ _ _ Hs Hbs) as [bs' ->]. by eexists.
Qed.

Lemma store_keeps_mload n m p v m' q k bs :
  store n m p v = Some m' -> mload m q k = Some bs -> exists bs', mload m' q k = Some bs'.
Proof. intros Hs Hb. by eapply mstore_keeps_loads. Qed.

(** A word read inside a readable range. *)
Lemma mload_inside m p n bs off k :
  mload m p n = Some bs -> 0 <= off -> 0 <= k -> off + k <= n ->
  mload m (ptr_add p off) k = Some (take (Z.to_nat k) (drop (Z.to_nat off) bs)).
Proof.
  rewrite !mload_Some. intros (blk & Hb & ? & ? & ? & ->) Ho Hk Hle.
  exists blk. unfold ptr_add. cbn [fst snd]. splits; [done|lia..|].
  rewrite skipn_firstn_comm, take_take, drop_drop. f_equal; [lia|f_equal; lia].
Qed.

Lemma load_inside m p n bs off k :
  mload m p n = Some bs -> 0 <= off -> 0 <= k -> off + k <= n ->
  exists v, load k m (ptr_add p off) = Some v.
Proof.
  intros Hb ???. unfold load. erewrite mload_inside by done. by eexists.
Qed.

(** The [4]-byte words of an array. *)
Definition words m p (ws : list Z) : Prop :=
  forall k, (k < length ws)%nat -> load 4 m (ptr_add p (4 * Z.of_nat k)) = ws !! k.

Lemma words_store m p ws k v m' :
  words m p ws -> (k < length ws)%nat -> 0 <= v < 2 ^ 32 ->
  store 4 m (ptr_add p (4 * Z.of_nat k)) v = Some m' ->
  words m' p (<[k := v]> ws).
Proof.
  intros Hw Hk Hv Hs j. rewrite length_insert. intros Hj.
  destruct (decide (j = k)) as [->|Hne].
  - rewrite list_lookup_insert_eq by done.
    pose proof (load_store_same 4 _ _ _ _ Hs) as E. change (Z.of_nat 4) with 4 in E.
    rewrite E. f_equal. apply Z.mod_small. lia.
  - rewrite list_lookup_insert_ne by done.
    rewrite (load_store_other _ _ _ _ _ _ _ Hs); [by apply Hw|].
    unfold disjoint_range, ptr_add. cbn. lia.
Qed.

Lemma words_other m p ws n q v m' :
  words m p ws -> store n m q v = Some m' ->
  disjoint_range q (Z.of_nat n) p (4 * Z.of_nat (length ws)) -> words m' p ws.
Proof.
  intros Hw Hs Hd k Hk. rewrite (load_store_other _ _ _ _ _ _ _ Hs); [by apply Hw|].
  unfold disjoint_range, ptr_add in *. cbn. lia.
Qed.
End integers.

#[export] Hint Rewrite le_bytes_length : cdb.
