(* ===== verification/Node.v ===== *)
(** * Node: the state of a CANopen node (inc/data.h and the structures it uses)

    [CO_Data] is the structure the whole stack works on: the generated object
    dictionary (constant part and memory), the state machine, the life guard,
    the SYNC, PDO, SDO, DCF and EMCY data, and the alarm table of the node.
    What the node does to the outside - messages handed to the CAN driver, and
    calls of the functions the application may overload - is a log.  The CAN
    driver's answers and the contents of uninitialised stack messages are
    arbitrary functions of the position in the log.

    Operations are written in the monad [CO]; an answer [None] is undefined
    behaviour. *)

From S2P Require Import Prelude CMem Timers.

(** ** CAN messages (canOpen.h) *)

Record Message := MkMessage {
  cob_id : Z;
  rtr : Z;
  len : Z;
  msg_data : list Z
}.
#[export] Instance Message_settable : Settable Message :=
  fun r => MkMessage (cob_id r) (rtr r) (len r) (msg_data r).

Definition Message_Initializer : Message := MkMessage 0 0 0 (replicate 8 0).
Definition REQUEST : Z := 1.
Definition NOT_A_REQUEST : Z := 0.

Definition GET_NODE_ID (m : Message) : Z := Z.land (cob_id m) 0x7f.
Definition GET_FUNCTION_CODE (m : Message) : Z := Z.shiftr (cob_id m) 7.

(** ** Types, access and error codes (objdictdef.h, def.h) *)

Definition boolean : Z := 0x01.
Definition int16 : Z := 0x03.
Definition uint8 : Z := 0x05.
Definition uint16 : Z := 0x06.
Definition uint32 : Z := 0x07.
Definition visible_string : Z := 0x09.
Definition domain : Z := 0x0F.

Definition RW : Z := 0x00.
Definition WO : Z := 0x01.
Definition RO : Z := 0x02.
Definition TO_BE_SAVE : Z := 0x04.

Definition OD_SUCCESSFUL : Z := 0x00000000.
Definition OD_READ_NOT_ALLOWED : Z := 0x06010001.
Definition OD_WRITE_NOT_ALLOWED : Z := 0x06010002.
Definition OD_NO_SUCH_OBJECT : Z := 0x06020000.
Definition OD_LENGTH_DATA_INVALID : Z := 0x06070010.
Definition OD_NO_SUCH_SUBINDEX : Z := 0x06090011.
Definition OD_VALUE_RANGE_EXCEEDED : Z := 0x06090030.
Definition SDOABT_OUT_OF_MEMORY : Z := 0x05040005.
Definition SDOABT_GENERAL_ERROR : Z := 0x08000000.

(** ** Object dictionary (objdictdef.h) *)

Record subindex := Subindex {
  bAccessType : Z;
  bDataType : Z;
  od_size : Z;
  pObject : ptr
}.

Record indextable := Indextable {
  pSubindex : list subindex;
  bSubCount : Z;
  od_index : Z
}.

Record quick_index := QuickIndex {
  SDO_SVR : Z;
  SDO_CLT : Z;
  PDO_RCV : Z;
  PDO_RCV_MAP : Z;
  PDO_TRS : Z;
  PDO_TRS_MAP : Z
}.

(** The functions the stack registers on entries of the dictionary (the
    application of this repository registers none). *)
Inductive od_callback :=
  | OnNumberOfErrorsUpdate_cb
  | OnCOB_ID_SyncUpdate_cb
  | OnHeartbeatProducerUpdate_cb
  | OnNodeGuardUpdate_cb
  | TPDO_Communication_Parameter_cb.

(** The functions given to [SetAlarm]. *)
Inductive alarm :=
  | SyncAlarm_cb
  | ConsumerHeartbeatAlarm_cb
  | ProducerHeartbeatAlarm_cb
  | GuardTimeAlarm_cb
  | PDOEventTimerAlarm_cb
  | PDOInhibitTimerAlarm_cb
  | RxPDO_EventTimers_Handler_cb
  | SDOTimeoutAlarm_cb.

(** The constant part of a node: what the generated file fixes. *)
Record od_config := OdConfig {
  objdict : list indextable;
  (** [scanIndexOD]: the position of an index, [None] for OD_NO_SUCH_OBJECT *)
  scan : Z -> option Z;
  firstIndex : quick_index;
  lastIndex : quick_index;
  ObjdictSize : Z;
  iam_a_slave : Z;
  (** the error code for a value of a type; [None] if it reads past the value *)
  valueRangeTest : Z -> list Z -> option Z;
  error_history_size : Z;
  bDeviceNodeId : ptr;
  ConsumerHeartbeatCount : ptr;
  ConsumerHeartbeatEntries : ptr;
  ProducerHeartBeatTime : ptr;
  GuardTime : ptr;
  LifeTimeFactor : ptr;
  COB_ID_Sync : ptr;
  Sync_Cycle_Period : ptr;
  error_number : ptr;
  error_first_element : ptr;
  error_register : ptr;
  error_cobid : ptr
}.

(** ** State machine (states.h) *)

Definition Initialisation : Z := 0x00.
Definition Disconnected : Z := 0x01.
Definition Connecting : Z := 0x02.
Definition Stopped : Z := 0x04.
Definition Operational : Z := 0x05.
Definition Pre_operational : Z := 0x7F.
Definition Unknown_state : Z := 0x0F.

Record s_state_communication := StateCommunication {
  csBoot_Up : Z;
  csSDO : Z;
  csEmergency : Z;
  csSYNC : Z;
  csLifeGuard : Z;
  csPDO : Z;
  csLSS : Z
}.
#[export] Instance s_state_communication_settable : Settable s_state_communication :=
  fun r => StateCommunication (csBoot_Up r) (csSDO r) (csEmergency r) (csSYNC r)
    (csLifeGuard r) (csPDO r) (csLSS r).

Record co_state := CoState {
  nodeState : Z;
  CurrentCommunicationState : s_state_communication;
  (** whether the application set the reset callbacks *)
  NMT_Slave_Node_Reset_Callback : bool;
  NMT_Slave_Communications_Reset_Callback : bool
}.
#[export] Instance co_state_settable : Settable co_state :=
  fun r => CoState (nodeState r) (CurrentCommunicationState r)
    (NMT_Slave_Node_Reset_Callback r) (NMT_Slave_Communications_Reset_Callback r).

(** ** Life guard *)

Definition NMT_MAX_NODE_ID : Z := 128.

Record co_lifeguard := CoLifeguard {
  ConsumerHeartBeatTimers : list Z;
  ProducerHeartBeatTimer : Z;
  NMTable : list Z;
  GuardTimeTimer : Z;
  LifeTimeTimer : Z;
  nodeGuardStatus : list Z;
  toggle : Z
}.
#[export] Instance co_lifeguard_settable : Settable co_lifeguard :=
  fun r => CoLifeguard (ConsumerHeartBeatTimers r) (ProducerHeartBeatTimer r)
    (NMTable r) (GuardTimeTimer r) (LifeTimeTimer r) (nodeGuardStatus r) (toggle r).

(** ** PDO (pdo.h) *)

Record s_PDO_status := PDOStatus {
  transmit_type_parameter : Z;
  event_timer : Z;
  inhibit_timer : Z;
  last_message : Message
}.
#[export] Instance s_PDO_status_settable : Settable s_PDO_status :=
  fun r => PDOStatus (transmit_type_parameter r) (event_timer r) (inhibit_timer r)
    (last_message r).

Definition s_PDO_status_Initializer : s_PDO_status :=
  PDOStatus 0 TIMER_NONE TIMER_NONE Message_Initializer.

Record co_pdo := CoPdo {
  PDO_status : list s_PDO_status;
  (** [None] is the null pointer *)
  RxPDO_EventTimers : option (list Z)
}.
#[export] Instance co_pdo_settable : Settable co_pdo :=
  fun r => CoPdo (PDO_status r) (RxPDO_EventTimers r).

(** ** SDO (sdo.h) *)

Definition SDO_MAX_LENGTH_TRANSFER : Z := 32.
Definition SDO_BLOCK_SIZE : Z := 16.
Definition SDO_MAX_SIMULTANEOUS_TRANSFERS : Z := 1.

Record s_transfer := Transfer {
  CliServNbr : Z;
  whoami : Z;
  tr_state : Z;
  tr_toggle : Z;
  abortCode : Z;
  tr_index : Z;
  tr_subIndex : Z;
  tr_count : Z;
  tr_offset : Z;
  tr_data : list Z;
  peerCRCsupport : Z;
  blksize : Z;
  ackseq : Z;
  objsize : Z;
  lastblockoffset : Z;
  seqno : Z;
  endfield : Z;
  rxstep : Z;
  tmpData : list Z;
  tr_dataType : Z;
  tr_timer : Z;
  tr_Callback : option Z
}.
#[export] Instance s_transfer_settable : Settable s_transfer :=
  fun r => Transfer (CliServNbr r) (whoami r) (tr_state r) (tr_toggle r) (abortCode r)
    (tr_index r) (tr_subIndex r) (tr_count r) (tr_offset r) (tr_data r)
    (peerCRCsupport r) (blksize r) (ackseq r) (objsize r) (lastblockoffset r)
    (seqno r) (endfield r) (rxstep r) (tmpData r) (tr_dataType r) (tr_timer r)
    (tr_Callback r).

(** ** Concise DCF *)

Record co_dcf := CoDcf {
  (** the position of the entry in the dictionary; [None] is the null pointer *)
  dcf_odentry : option Z;
  dcf_cursor : option ptr;
  dcf_entries_count : Z;
  dcf_status : Z;
  dcf_size : Z;
  dcf_data : option ptr
}.
#[export] Instance co_dcf_settable : Settable co_dcf :=
  fun r => CoDcf (dcf_odentry r) (dcf_cursor r) (dcf_entries_count r) (dcf_status r)
    (dcf_size r) (dcf_data r).

(** ** EMCY (emcy.h) *)

Definition Error_free : Z := 0x00.
Definition Error_occurred : Z := 0x01.
Definition EMCY_MAX_ERRORS : Z := 8.

Record s_errors := Errors {
  errCode : Z;
  errRegMask : Z;
  active : Z
}.

Record co_emcy := CoEmcy {
  error_state : Z;
  error_data : list s_errors
}.
#[export] Instance co_emcy_settable : Settable co_emcy :=
  fun r => CoEmcy (error_state r) (error_data r).

(** ** What the node does to the outside *)

Inductive co_event :=
  | Sent (m : Message)
  (** the functions the application may overload *)
  | Call_initialisation
  | Call_preOperational
  | Call_operational
  | Call_stopped
  | Call_Node_Reset
  | Call_Communications_Reset
  | Call_heartbeatError (nodeId : Z)
  | Call_post_SlaveBootup (nodeId : Z)
  | Call_post_SlaveStateChange (nodeId newState : Z)
  | Call_nodeguardError (nodeId : Z)
  | Call_post_sync
  | Call_post_TPDO
  | Call_post_emcy (nodeId code reg : Z)
  | Call_storeODSubIndex (wIndex bSubindex : Z)
  | Call_RxPDO_EventTimers_Handler (pdoNum : Z)
  | Call_sdo_callback (n nodeId : Z).

(** What the outside answers at a position of the log: the driver's result, and
    the contents of an uninitialised message on the stack. *)
Record co_world := CoWorld {
  can_result : nat -> Z;
  garbage : nat -> Message
}.

(** ** The node (data.h) *)

Record CO_Data := MkCO_Data {
  co_od : od_config;
  co_mem : mem;
  (** the callback list of an index, absent when null *)
  co_cbs : gmap Z (list (option od_callback));
  co_st : co_state;
  co_lg : co_lifeguard;
  syncTimer : Z;
  co_pdos : co_pdo;
  transfers : list s_transfer;
  co_dcfs : co_dcf;
  co_em : co_emcy;
  co_timers : timer_table alarm;
  co_log : list co_event;
  co_env : co_world
}.
#[export] Instance CO_Data_settable : Settable CO_Data :=
  fun r => MkCO_Data (co_od r) (co_mem r) (co_cbs r) (co_st r) (co_lg r) (syncTimer r)
    (co_pdos r) (transfers r) (co_dcfs r) (co_em r) (co_timers r) (co_log r) (co_env r).

(** *** Initial values (CANOPEN_NODE_DATA_INITIALIZER and config.h) *)

Definition SDO_RESET : Z := 0x0.
Definition RXSTEP_INIT : Z := 0.
Definition RXSTEP_STARTED : Z := 1.
Definition RXSTEP_END : Z := 2.

Definition s_transfer_Initializer : s_transfer :=
  Transfer 0 0 SDO_RESET 0 0 0 0 0 0 (replicate 32 0) 0 0 0 0 0 0 0 RXSTEP_INIT
    (replicate 8 0) 0 (-1) None.

(** The macro REPEAT_NMT_MAX_NODE_ID_TIMES repeats its argument 42 times; C
    fills the rest of the array with zeros. *)
Definition REPEAT_NMT_MAX_NODE_ID_TIMES (x : Z) : list Z :=
  replicate 42 x ++ replicate 86 0.

Definition CANOPEN_NODE_DATA_INITIALIZER (od : od_config) (m : mem)
    (cbs : gmap Z (list (option od_callback))) (heartBeatTimers : list Z)
    (status : list s_PDO_status) (env : co_world) : CO_Data := {|
  co_od := od;
  co_mem := m;
  co_cbs := cbs;
  co_st := CoState Unknown_state (StateCommunication 0 0 0 0 0 0 0) false false;
  co_lg := CoLifeguard heartBeatTimers TIMER_NONE
             (REPEAT_NMT_MAX_NODE_ID_TIMES Unknown_state) TIMER_NONE TIMER_NONE
             (REPEAT_NMT_MAX_NODE_ID_TIMES 0) 0;
  syncTimer := TIMER_NONE;
  co_pdos := CoPdo status None;
  transfers := replicate (Z.to_nat SDO_MAX_SIMULTANEOUS_TRANSFERS) s_transfer_Initializer;
  co_dcfs := CoDcf None None 1 0 0 None;
  co_em := CoEmcy Error_free (replicate (Z.to_nat EMCY_MAX_ERRORS) (Errors 0 0 0));
  co_timers := timers_init;
  co_log := [];
  co_env := env
|}.

Definition CO (A : Type) : Type := ST CO_Data A.

(** ** Memory, alarms and the CAN driver *)

(** [*(UNSk * )p] for a pointer [p] to [k] bytes. *)
Definition rd (k : Z) (p : ptr) : CO Z := fun d => (fun v => (v, d)) <$> load k (co_mem d) p.

(** [*(UNSk * )p = v]. *)
Definition wr (k : nat) (p : ptr) (v : Z) : CO unit := fun d =>
  (fun m => (tt, d <| co_mem := m |>)) <$> store k (co_mem d) p v.

Definition get {A} (f : CO_Data -> A) : CO A := st_get f.
Definition modify (f : CO_Data -> CO_Data) : CO unit := st_mod f.
Definition opt {A} (x : option A) : CO A := st_opt x.
Definition ret {A} (x : A) : CO A := mret x.

Definition emit (e : co_event) : CO unit := modify (set co_log (fun l => l ++ [e])).

(** A message left uninitialised on the stack. *)
Definition Message_uninit : CO Message :=
  get (fun d => garbage (co_env d) (length (co_log d))).

(** [canSend]: the driver sees the message, and answers. *)
Definition canSend (m : Message) : CO Z := fun d =>
  Some (can_result (co_env d) (length (co_log d)), d <| co_log ::= (fun l => l ++ [Sent m]) |>).

(** src/canfestival.c: [getElapsedTime] is always 1, [setTimer] is empty. *)
#[export] Instance co_timer_world : TimerWorld alarm CO_Data := {|
  tw_get := co_timers;
  tw_put t d := d <| co_timers := t |>;
  setTimer _ d := d;
  getElapsedTime _ := 1
|}.

#[export] Instance co_timer_world_laws : TimerWorldLaws alarm CO_Data.
Proof. by constructor. Qed.

Definition coSetAlarm (id : Z) (cb : alarm) (value period : Z) : CO Z :=
  SetAlarm id (Some cb) value period.
Definition coDelAlarm (handle : Z) : CO Z := DelAlarm handle.

(** The entry of the dictionary at position [i], and its subindex [s]. *)
Definition od_entry (i : Z) : CO indextable := fun d =>
  (fun e => (e, d)) <$> (objdict (co_od d)).[i].
Definition od_sub (i s : Z) : CO subindex := fun d =>
  e ← (objdict (co_od d)).[i]; (fun x => (x, d)) <$> (pSubindex e).[s].

(** The byte of a message of the wire. *)
Definition data_at (m : Message) (i : Z) : CO Z := opt ((msg_data m).[i]).
Definition set_data (i v : Z) (m : Message) : option Message :=
  (fun l => m <| msg_data := l |>) <$> (msg_data m).[i <- v].

(** Writing several bytes of a message, from byte [i] on. *)
Fixpoint set_bytes (i : Z) (vs : list Z) (m : Message) : option Message :=
  match vs with
  | [] => Some m
  | v :: vs' => m' ← set_data i v m; set_bytes (i + 1) vs' m'
  end.

(** ** Lemmas *)

(** The frame of the operations that only emit or only touch alarms. *)
Lemma set_bytes_data i vs m m' :
  set_bytes i vs m = Some m' ->
  0 <= i -> i + Z.of_nat (length vs) <= Z.of_nat (length (msg_data m)) ->
  msg_data m' = take (Z.to_nat i) (msg_data m) ++ vs ++
                drop (Z.to_nat i + length vs) (msg_data m) /\
  cob_id m' = cob_id m /\ rtr m' = rtr m /\ len m' = len m.
Proof.
  revert i m. induction vs as [|v vs IH]; intros i m; cbn [set_bytes].
  { intros [= <-] _ _. cbn. by rewrite Nat.add_0_r, take_drop. }
  intros E Hi Hl. cbn [length] in Hl. unfold set_data in E.
  rewrite arr_set_is_Some in E by lia. cbn [mbind option_bind fmap option_fmap option_map] in E.
  apply IH in E as (Ed & -> & -> & ->); [|lia|cbn; rewrite length_insert; lia].
  split; [|done]. rewrite Ed. cbn [set msg_data length].
  replace (Z.to_nat (i + 1)) with (S (Z.to_nat i)) by lia.
  rewrite (take_S_r _ _ v) by (apply list_lookup_insert_eq; lia).
  rewrite take_insert_ge by lia. rewrite <- app_assoc. cbn [app]. do 3 f_equal.
  rewrite drop_insert_lt by lia. f_equal. lia.
Qed.

Lemma set_bytes_is_Some i vs m :
  0 <= i -> i + Z.of_nat (length vs) <= Z.of_nat (length (msg_data m)) ->
  exists m', set_bytes i vs m = Some m'.
Proof.
  revert i m. induction vs as [|v vs IH]; intros i m Hi Hl; cbn [set_bytes];
    [by eexists|]. cbn [length] in Hl. unfold set_data.
  rewrite arr_set_is_Some by lia. cbn [mbind option_bind fmap option_fmap option_map].
  apply IH; [lia|]. cbn. rewrite length_insert. lia.
Qed.

(** ** Memory steps *)

Lemma rd_eq k p d v : load k (co_mem d) p = Some v -> rd k p d = Some (v, d).
Proof. unfold rd. by intros ->. Qed.

Lemma wr_ok n p v d x :
  load (Z.of_nat n) (co_mem d) p = Some x ->
  exists m', store n (co_mem d) p v = Some m' /\ wr n p v d = Some (tt, d <| co_mem := m' |>).
Proof.
  intros Hx. destruct (store_is_Some n _ _ v _ Hx) as [m' Hm]. exists m'.
  split; [done|]. unfold wr. by rewrite Hm.
Qed.

(** ** The messages as they appear on the wire

    A message carries its first [len] bytes; the rest of the structure is not
    transmitted. *)

Definition wire (m : Message) : Message :=
  MkMessage (cob_id m) (rtr m) (len m) (take (Z.to_nat (len m)) (msg_data m)).

Definition wire_event (e : co_event) : co_event :=
  match e with Sent m => Sent (wire m) | _ => e end.

Definition wlog (d : CO_Data) : list co_event := wire_event <$> co_log d.

Definition clean_env (env : co_world) : Prop :=
  forall k, length (msg_data (garbage env k)) = 8%nat.

(** ** Alarms of the node *)

Lemma arm_row_frame r id cb v p (d : CO_Data) h d' :
  arm_row r id cb v p d = Some (h, d') -> d' = d <| co_timers := co_timers d' |>.
Proof.
  unfold arm_row. cbn [tw_get tw_put setTimer co_timer_world].
  destruct (_ && _); intros (ts & _ & [= <- <-])%bind_Some; done.
Qed.

Lemma SetAlarm_from_frame fuel r id cb v p (d : CO_Data) h d' :
  SetAlarm_from fuel r id cb v p d = Some (h, d') -> d' = d <| co_timers := co_timers d' |>.
Proof.
  assert (Hid : d = d <| co_timers := co_timers d |>) by by destruct d.
  revert r. induction fuel as [|fuel IH]; intros r; cbn [SetAlarm_from].
  { by intros [= <- <-]. }
  destruct (_ && _); [|by intros [= <- <-]].
  intros (row & _ & H)%bind_Some. destruct cb as [cb|]; [|by eapply IH].
  destruct (_ =? _); [by eapply arm_row_frame|by eapply IH].
Qed.

Lemma coSetAlarm_ok id cb v p d :
  timers_inv (co_timers d) -> 0 <= v -> v + 1 < 2 ^ 32 -> 0 <= p < 2 ^ 32 ->
  exists h t, coSetAlarm id cb v p d = Some (h, d <| co_timers := t |>) /\
    timers_inv t /\ TIMER_NONE <= h < MAX_NB_TIMER.
Proof.
  intros I Hv Hv1 Hp. destruct (SetAlarm_run d id cb v p) as (h & d' & E & I' & Hh);
    [done..|].
  exists h, (co_timers d'). split; [|done]. unfold coSetAlarm. rewrite E. do 2 f_equal.
  by eapply SetAlarm_from_frame.
Qed.

Lemma coDelAlarm_ok h d :
  timers_inv (co_timers d) -> TIMER_NONE <= h < MAX_NB_TIMER ->
  exists t, coDelAlarm h d = Some (TIMER_NONE, d <| co_timers := t |>) /\ timers_inv t.
Proof.
  intros I Hh.
  destruct (DelAlarm_run (CB := alarm) d h) as (d' & E & I' & _); [done..|].
  exists (co_timers d'). split; [|done]. unfold coDelAlarm. rewrite E. do 2 f_equal.
  revert E. unfold DelAlarm. destruct (h =? TIMER_NONE).
  { intros [= <-]. by destruct d. }
  intros (row & _ & E)%bind_Some. apply bind_Some in E as (ts & _ & [= <-]). done.
Qed.
