(* ===== verification/ObjDict.v ===== *)
(** * ObjDict: access to the object dictionary (src/objacces.c)

    Reading and writing an entry by index and subindex, with access, size and
    range checks; the functions registered on an entry run after a write.  What
    those functions do is the interface [ODCallbacks], which the components
    that register them implement. *)

From S2P Require Import Prelude CMem Timers Node.

(** ** Reading *)

(** The copy of a null-terminated string: the bytes copied and the pointer
    reached.  The byte is read before the pointer is compared. *)
Fixpoint str_copy (fuel : nat) (m : mem) (p : ptr) (ptr_end : Z)
    : option (list Z * ptr) :=
  match fuel with
  | O => None
  | S fuel =>
      b ← load 1 m p;
      if negb (b =? 0) && (snd p <? ptr_end) then
        '(bs, q) ← str_copy fuel m (ptr_add p 1) ptr_end;
        Some (b :: bs, q)
      else Some ([], p)
  end.

(** The answer of [_getODentry]: the code, the expected size and data type as
    the call leaves them, and the bytes stored at the destination. *)
Record od_read := OdRead {
  rd_code : Z;
  rd_size : Z;
  rd_type : option Z;
  rd_bytes : list Z
}.

(** From the access check on. *)
Definition read_sub (sub : subindex) (dest_null : bool) (expected : Z)
    (checkAccess : bool) : CO od_read :=
  if checkAccess && negb (Z.land (bAccessType sub) WO =? 0)
  then ret (OdRead OD_READ_NOT_ALLOWED expected None []) else
  if dest_null then ret (OdRead SDOABT_GENERAL_ERROR expected None []) else
  if expected <? od_size sub
  then ret (OdRead SDOABT_OUT_OF_MEMORY (od_size sub) None []) else
  let szData := od_size sub in
  m ← get co_mem;
  if negb (bDataType sub =? visible_string) then
    bs ← opt (mload m (pObject sub) szData);
    ret (OdRead OD_SUCCESSFUL szData (Some (bDataType sub)) bs)
  else
    let max := if expected =? 0 then szData else expected in
    '(bs, q) ← opt (str_copy (Z.to_nat max + 1) m (pObject sub)
                      (snd (pObject sub) + max));
    let n := snd q - snd (pObject sub) in
    _ ← when (n <? szData) (wr 1 q 0);
    ret (OdRead OD_SUCCESSFUL n (Some (bDataType sub)) bs).

Definition getODentry (wIndex bSubindex : Z) (dest_null : bool) (expected : Z)
    (checkAccess : bool) : CO od_read :=
  od ← get co_od;
  match scan od wIndex with
  | None => ret (OdRead OD_NO_SUCH_OBJECT expected None [])
  | Some i =>
      ptrTable ← od_entry i;
      if bSubCount ptrTable <=? bSubindex
      then ret (OdRead OD_NO_SUCH_SUBINDEX expected None []) else
      sub ← opt ((pSubindex ptrTable).[bSubindex]);
      read_sub sub dest_null expected checkAccess
  end.

(** ** Writing *)

Class ODCallbacks := run_od_callback : od_callback -> Z -> Z -> CO Z.

Definition storeODSubIndex (wIndex bSubindex : Z) : CO unit :=
  emit (Call_storeODSubIndex wIndex bSubindex).

Section setODentry.
Context `{ODC : ODCallbacks}.

(** The registered function of the subindex, if there is a list and an entry. *)
Definition call_od_callback (i wIndex bSubindex : Z) : CO Z :=
  cbs ← get co_cbs;
  match cbs !! wIndex with
  | None => ret OD_SUCCESSFUL
  | Some l =>
      cb ← opt (l.[bSubindex]);
      match cb with
      | None => ret OD_SUCCESSFUL
      | Some f => run_od_callback f i bSubindex
      end
  end.

(** From the access check on. *)
Definition write_sub (i wIndex bSubindex : Z) (sub : subindex) (src : list Z)
    (expected : Z) (checkAccess : bool) : CO (Z * Z) :=
  if checkAccess && (bAccessType sub =? RO)
  then ret (OD_WRITE_NOT_ALLOWED, expected) else
  let dataType := bDataType sub in
  let szData := od_size sub in
  if (expected =? 0) || (expected =? szData) ||
     ((dataType =? visible_string) && (expected <? szData)) then
    od ← get co_od;
    errorCode ← opt (valueRangeTest od dataType src);
    if negb (errorCode =? 0) then ret (errorCode, expected) else
    m ← get co_mem;
    bs ← opt (if expected <=? Z.of_nat (length src)
              then Some (take (Z.to_nat expected) src) else None);
    m ← opt (mstore m (pObject sub) bs);
    _ ← modify (fun d => d <| co_mem := m |>);
    _ ← when ((dataType =? visible_string) && (expected <? szData))
          (wr 1 (ptr_add (pObject sub) expected) 0);
    errorCode ← call_od_callback i wIndex bSubindex;
    if negb (errorCode =? OD_SUCCESSFUL) then ret (errorCode, szData) else
    _ ← when (negb (Z.land (bAccessType sub) TO_BE_SAVE =? 0))
          (storeODSubIndex wIndex bSubindex);
    ret (OD_SUCCESSFUL, szData)
  else ret (OD_LENGTH_DATA_INVALID, szData).

(** The answer is the code and the expected size as the call leaves it; [src]
    is the memory behind [pSourceData]. *)
Definition setODentry (wIndex bSubindex : Z) (src : list Z) (expected : Z)
    (checkAccess : bool) : CO (Z * Z) :=
  od ← get co_od;
  match scan od wIndex with
  | None => ret (OD_NO_SUCH_OBJECT, expected)
  | Some i =>
      ptrTable ← od_entry i;
      if bSubCount ptrTable <=? bSubindex
      then ret (OD_NO_SUCH_SUBINDEX, expected) else
      sub ← opt ((pSubindex ptrTable).[bSubindex]);
      write_sub i wIndex bSubindex sub src expected checkAccess
  end.
End setODentry.

(** ** Registering a function on an entry *)

Definition scanIndexOD (wIndex : Z) : CO (Z * option Z) :=
  od ← get co_od;
  ret (match scan od wIndex with
       | Some i => (OD_SUCCESSFUL, Some i)
       | None => (OD_NO_SUCH_OBJECT, None)
       end).

(** [CallbackList[i] = cb] in the list of index [wIndex]. *)
Definition set_callback (wIndex i : Z) (cb : option od_callback) : CO unit := fun d =>
  l ← co_cbs d !! wIndex;
  l' ← l.[i <- cb];
  Some (tt, d <| co_cbs ::= <[wIndex := l']> |>).

Definition RegisterSetODentryCallBack (wIndex bSubindex : Z) (cb : option od_callback)
    : CO Z :=
  '(errorCode, odentry) ← scanIndexOD wIndex;
  cbs ← get co_cbs;
  match odentry, cbs !! wIndex with
  | Some i, Some _ =>
      e ← od_entry i;
      _ ← when (bSubindex <? bSubCount e) (set_callback wIndex bSubindex cb);
      ret errorCode
  | _, _ => ret errorCode
  end.

(** ** Running code symbolically *)

Ltac co_red :=
  cbv [ret get opt modify emit mbind mret ST_bind ST_ret st_get st_opt st_mod st_skip
       fmap option_fmap option_map option_bind];
  cbn beta iota.

Ltac co_red_in H :=
  cbv [ret get opt modify emit mbind mret ST_bind ST_ret st_get st_opt st_mod st_skip
       fmap option_fmap option_map option_bind] in H;
  cbn beta iota in H.

(** ** Well-formed dictionaries *)

(** The subindex reached by an index and a subindex, and its position. *)
Definition find_sub (od : od_config) (w s : Z) : option (Z * subindex) :=
  i ← scan od w;
  e ← (objdict od).[i];
  if s <? bSubCount e then (fun x => (i, x)) <$> (pSubindex e).[s] else None.

Record od_ok (od : od_config) (m : mem) (cbs : gmap Z (list (option od_callback))) : Prop :=
  OdOk {
  ok_entry w i : scan od w = Some i -> exists e, (objdict od).[i] = Some e;
  ok_count i e : (objdict od).[i] = Some e ->
    bSubCount e = Z.of_nat (length (pSubindex e));
  ok_object i e s x : (objdict od).[i] = Some e -> (pSubindex e).[s] = Some x ->
    0 < od_size x /\ exists bs, mload m (pObject x) (od_size x) = Some bs;
  ok_cbs w i e l : scan od w = Some i -> (objdict od).[i] = Some e ->
    cbs !! w = Some l -> Z.of_nat (length l) = bSubCount e
}.

Definition node_od_ok (d : CO_Data) : Prop := od_ok (co_od d) (co_mem d) (co_cbs d).

Lemma find_sub_Some od w s i x :
  find_sub od w s = Some (i, x) <->
  exists e, scan od w = Some i /\ (objdict od).[i] = Some e /\ s < bSubCount e /\
    (pSubindex e).[s] = Some x.
Proof.
  unfold find_sub. split.
  - intros H. apply bind_Some in H as (i' & Hi & H). apply bind_Some in H as (e & He & H).
    destruct (s <? bSubCount e) eqn:E; [|done]. zb.
    apply fmap_Some in H as (x' & Hx & [= <- <-]). by exists e.
  - intros (e & -> & He & Hs & Hx). cbn [mbind option_bind]. rewrite He.
    cbn [mbind option_bind]. ztest. by rewrite Hx.
Qed.

(** The same as a check, for a dictionary whose index search is sound. *)
Definition od_okb (od : od_config) (m : mem) (cbs : gmap Z (list (option od_callback)))
    : bool :=
  forallb (fun e =>
    (bSubCount e =? Z.of_nat (length (pSubindex e))) &&
    forallb (fun x => (0 <? od_size x) &&
      match mload m (pObject x) (od_size x) with Some _ => true | None => false end)
      (pSubindex e)) (objdict od) &&
  forallb (fun '(w, l) =>
    match scan od w with
    | Some i => match (objdict od).[i] with
                | Some e => Z.of_nat (length l) =? bSubCount e
                | None => false
                end
    | None => true
    end) (map_to_list cbs).

Lemma od_okb_ok od m cbs :
  (forall w i, scan od w = Some i -> 0 <= i < Z.of_nat (length (objdict od))) ->
  od_okb od m cbs = true -> od_ok od m cbs.
Proof.
  unfold od_okb. intros Hscan [He Hc]%andb_true_iff.
  rewrite forallb_forall in He, Hc.
  assert (Hget : forall i e, (objdict od).[i] = Some e -> In e (objdict od)).
  { intros i e [_ H]%arr_get_Some. by eapply list_elem_of_In, list_elem_of_lookup_2. }
  constructor.
  - intros w i Hi. by apply arr_get_is_Some, (Hscan w).
  - intros i e Hi. specialize (He e (Hget i e Hi)). by zb.
  - intros i e s x Hi Hx. specialize (He e (Hget i e Hi)).
    apply andb_true_iff in He as [_ He]. rewrite forallb_forall in He.
    specialize (He x). rewrite arr_get_Some in Hx. destruct Hx as [_ Hx].
    destruct (mload m (pObject x) (od_size x)) as [bs|].
    + split; [|by exists bs]. rewrite andb_true_r in He. apply Z.ltb_lt, He.
      by eapply list_elem_of_In, list_elem_of_lookup_2.
    + exfalso. rewrite andb_false_r in He. discriminate He.
      by eapply list_elem_of_In, list_elem_of_lookup_2.
  - intros w i e l Hi Hg Hl. specialize (Hc (w, l)). cbn beta iota in Hc.
    rewrite Hi, Hg in Hc. apply Z.eqb_eq, Hc.
    by apply list_elem_of_In, elem_of_map_to_list.
Qed.

(** A write into memory keeps the dictionary well formed. *)
Lemma od_ok_mstore od m cbs p data m' :
  od_ok od m cbs -> mstore m p data = Some m' -> od_ok od m' cbs.
Proof.
  intros [] Hs. constructor; [done|done| |done].
  intros i e s x He Hx. destruct (ok_object0 i e s x He Hx) as (? & bs & Hb).
  split; [done|]. by eapply mstore_keeps_loads.
Qed.

(** The conditions under which the code answers a read. *)
Definition readable (od : od_config) (w s expected : Z) (chk : bool) (x : subindex) : Prop :=
  (exists i, find_sub od w s = Some (i, x)) /\
  (chk = true -> Z.land (bAccessType x) WO = 0) /\ od_size x <= expected.

Lemma od_ok_find od m cbs w s :
  od_ok od m cbs -> 0 <= s ->
  match scan od w with
  | None => find_sub od w s = None
  | Some i => exists e, (objdict od).[i] = Some e /\
      if s <? bSubCount e
      then exists x, (pSubindex e).[s] = Some x /\ find_sub od w s = Some (i, x)
      else find_sub od w s = None
  end.
Proof.
  intros Hok Hs. unfold find_sub. destruct (scan od w) as [i|] eqn:Ei; [|done].
  cbn [mbind option_bind]. destruct (ok_entry _ _ _ Hok w i Ei) as [e He].
  rewrite He. exists e. split; [done|]. cbn [mbind option_bind].
  destruct (s <? bSubCount e) eqn:E; [|done]. zb.
  rewrite (ok_count _ _ _ Hok i e He) in E.
  destruct (arr_get_is_Some (pSubindex e) s) as [x Hx]; [lia|].
  exists x. by rewrite Hx.
Qed.

(** The search for the entry, in the three cases it can end. *)
Lemma getODentry_find_mem w s null e chk d cbs :
  od_ok (co_od d) (co_mem d) cbs -> 0 <= s ->
  getODentry w s null e chk d =
  match scan (co_od d) w, find_sub (co_od d) w s with
  | None, _ => Some (OdRead OD_NO_SUCH_OBJECT e None [], d)
  | Some _, None => Some (OdRead OD_NO_SUCH_SUBINDEX e None [], d)
  | Some _, Some (_, x) => read_sub x null e chk d
  end.
Proof.
  intros Hok Hs. pose proof (od_ok_find _ _ _ w s Hok Hs) as Hfind.
  unfold getODentry, od_entry. co_red.
  destruct (scan (co_od d) w) as [i|]; co_red; [|done].
  destruct Hfind as (en & He & Hfind). rewrite He. co_red.
  destruct (s <? bSubCount en) eqn:Es; zb; ztest.
  - destruct Hfind as (x & Hx & ->). by rewrite Hx.
  - by rewrite Hfind.
Qed.

Lemma getODentry_find w s null e chk d :
  node_od_ok d -> 0 <= s ->
  getODentry w s null e chk d =
  match scan (co_od d) w, find_sub (co_od d) w s with
  | None, _ => Some (OdRead OD_NO_SUCH_OBJECT e None [], d)
  | Some _, None => Some (OdRead OD_NO_SUCH_SUBINDEX e None [], d)
  | Some _, Some (_, x) => read_sub x null e chk d
  end.
Proof. apply getODentry_find_mem. Qed.

Lemma setODentry_find `{ODC : ODCallbacks} w s src e chk d :
  node_od_ok d -> 0 <= s ->
  setODentry w s src e chk d =
  match scan (co_od d) w, find_sub (co_od d) w s with
  | None, _ => Some ((OD_NO_SUCH_OBJECT, e), d)
  | Some _, None => Some ((OD_NO_SUCH_SUBINDEX, e), d)
  | Some _, Some (i, x) => write_sub i w s x src e chk d
  end.
Proof.
  intros Hok Hs. pose proof (od_ok_find _ _ _ w s Hok Hs) as Hfind.
  unfold setODentry, od_entry. co_red.
  destruct (scan (co_od d) w) as [i|]; co_red; [|done].
  destruct Hfind as (en & He & Hfind). rewrite He. co_red.
  destruct (s <? bSubCount en) eqn:Es; zb; ztest.
  - destruct Hfind as (x & Hx & ->). by rewrite Hx.
  - by rewrite Hfind.
Qed.

Lemma find_sub_object od m cbs w s i x :
  od_ok od m cbs -> find_sub od w s = Some (i, x) ->
  0 < od_size x /\ exists bs, mload m (pObject x) (od_size x) = Some bs.
Proof.
  intros Hok (en & _ & He & _ & Hx)%find_sub_Some. by eapply (ok_object _ _ _ Hok).
Qed.

(** A read that passes the checks, of an entry that is not a string. *)
Lemma read_sub_ok x e chk d bs :
  (chk = true -> Z.land (bAccessType x) WO = 0) -> od_size x <= e ->
  bDataType x <> visible_string -> mload (co_mem d) (pObject x) (od_size x) = Some bs ->
  read_sub x false e chk d =
    Some (OdRead OD_SUCCESSFUL (od_size x) (Some (bDataType x)) bs, d).
Proof.
  intros Hacc Hsz Hty Hbs. unfold read_sub.
  replace (chk && negb (Z.land (bAccessType x) WO =? 0)) with false
    by (destruct chk; [by rewrite Hacc|done]).
  repeat ztest. co_red. by rewrite Hbs.
Qed.

(** ** The properties of reading *)

(** Reading an entry that is not a string never faults, never changes the
    node, and answers the whole contents of the variable exactly when the entry
    exists, may be read, has a destination and fits the buffer; otherwise it
    delivers nothing and answers the code of the first check that failed. *)
Theorem getODentry_spec w s null e chk d :
  node_od_ok d -> 0 <= s ->
  (forall i x, find_sub (co_od d) w s = Some (i, x) -> bDataType x <> visible_string) ->
  exists r, getODentry w s null e chk d = Some (r, d) /\
    (rd_code r = OD_SUCCESSFUL <->
       null = false /\ exists x, readable (co_od d) w s e chk x) /\
    (forall x, readable (co_od d) w s e chk x -> null = false ->
       mload (co_mem d) (pObject x) (od_size x) = Some (rd_bytes r) /\
       rd_size r = od_size x /\ rd_type r = Some (bDataType x)) /\
    (rd_code r <> OD_SUCCESSFUL -> rd_bytes r = []) /\
    (scan (co_od d) w = None -> rd_code r = OD_NO_SUCH_OBJECT) /\
    (scan (co_od d) w <> None -> find_sub (co_od d) w s = None ->
       rd_code r = OD_NO_SUCH_SUBINDEX) /\
    (forall i x, find_sub (co_od d) w s = Some (i, x) ->
       (chk = true -> Z.land (bAccessType x) WO <> 0 ->
          rd_code r = OD_READ_NOT_ALLOWED) /\
       ((chk = true -> Z.land (bAccessType x) WO = 0) -> null = false ->
          e < od_size x -> rd_code r = SDOABT_OUT_OF_MEMORY /\ rd_size r = od_size x)).
Proof.
  intros Hok Hs Hstr. rewrite getODentry_find by done. unfold readable.
  destruct (scan (co_od d) w) as [i|] eqn:Ei.
  2: { unfold find_sub. rewrite Ei. cbn. eexists. split; [reflexivity|]. cbn. naive_solver. }
  destruct (find_sub (co_od d) w s) as [[j x]|] eqn:Hf.
  2: { eexists. split; [reflexivity|]. cbn. naive_solver. }
  destruct (find_sub_object _ _ _ _ _ _ _ Hok Hf) as (_ & bs & Hbs).
  destruct (decide (chk = true /\ Z.land (bAccessType x) WO <> 0)) as [[-> Ha]|Ha].
  { eexists. split.
    { unfold read_sub. rewrite (proj2 (Z.eqb_neq _ _) Ha). reflexivity. }
    cbn. naive_solver. }
  assert (Hacc : chk = true -> Z.land (bAccessType x) WO = 0)
    by (intros ->; destruct (decide (Z.land (bAccessType x) WO = 0)); naive_solver).
  assert (Eacc : chk && negb (Z.land (bAccessType x) WO =? 0) = false)
    by (destruct chk; [by rewrite Hacc|done]).
  destruct null.
  { eexists. split; [unfold read_sub; rewrite Eacc; reflexivity|]. cbn. naive_solver. }
  destruct (decide (od_size x <= e)) as [Hsz|Hsz].
  - rewrite (read_sub_ok x e chk d bs) by naive_solver.
    eexists. split; [reflexivity|]. cbn. naive_solver lia.
  - eexists. split.
    { unfold read_sub. rewrite Eacc. ztest. reflexivity. }
    cbn. naive_solver lia.
Qed.

(** *** Strings *)

Lemma load1_nth m b blk off :
  m !! b = Some blk -> load 1 m (b, off) = blk.[off].
Proof.
  intros Hb. unfold load, mload. cbn [fst snd]. rewrite Hb. cbn [mbind option_bind].
  destruct (blk.[off]) as [v|] eqn:E.
  - pose proof (arr_get_lt _ _ _ E). repeat ztest.
    apply arr_get_Some in E as [Hoff E]. rewrite (drop_S _ _ _ E).
    change (Z.to_nat 1) with 1%nat. rewrite firstn_cons, take_0.
    cbn [fmap option_fmap option_map le_val]. f_equal. lia.
  - apply arr_get_None in E. zcase; [lia|done].
Qed.

(** Copying a string whose block has no null byte reads past its end. *)
Lemma str_copy_overread fuel m b blk off ptr_end :
  m !! b = Some blk -> Forall (fun v => v <> 0) blk -> 0 <= off ->
  Z.of_nat (length blk) < ptr_end ->
  str_copy fuel m (b, off) ptr_end = None.
Proof.
  intros Hb Hnz Hoff Hend. revert off Hoff.
  induction fuel as [|fuel IH]; intros off Hoff; cbn [str_copy]; [done|].
  rewrite (load1_nth _ _ _ _ Hb).
  destruct (blk.[off]) as [v|] eqn:E; [|done]. cbn [mbind option_bind].
  pose proof (arr_get_lt _ _ _ E). apply arr_get_Some in E as [_ E].
  rewrite Forall_lookup in Hnz. specialize (Hnz _ _ E).
  cbn [snd]. repeat ztest. unfold ptr_add. cbn [fst snd]. by rewrite IH by lia.
Qed.

(** A string that fills its variable (which a write of the full size
    produces) has no terminator, and reading it with a larger buffer runs off
    the end of the variable: undefined behaviour. *)
Theorem getODentry_string_overread w s e chk d i x blk :
  node_od_ok d -> 0 <= s -> find_sub (co_od d) w s = Some (i, x) ->
  bDataType x = visible_string -> (chk = true -> Z.land (bAccessType x) WO = 0) ->
  snd (pObject x) = 0 -> co_mem d !! fst (pObject x) = Some blk ->
  Z.of_nat (length blk) = od_size x -> Forall (fun v => v <> 0) blk ->
  od_size x < e ->
  getODentry w s false e chk d = None.
Proof.
  intros Hok Hs Hf Hty Hacc Hoff Hblk Hlen Hnz He. rewrite getODentry_find, Hf by done.
  pose proof Hf as (en & -> & _)%find_sub_Some.
  destruct (find_sub_object _ _ _ _ _ _ _ Hok Hf) as (Hpos & _).
  unfold read_sub.
  replace (chk && negb (Z.land (bAccessType x) WO =? 0)) with false
    by (destruct chk; [by rewrite Hacc|done]).
  rewrite Hty, Z.eqb_refl. cbn [negb]. repeat ztest. co_red.
  destruct (pObject x) as [b off]. cbn [fst snd] in *. subst off.
  by erewrite str_copy_overread by (try exact Hblk; done || lia).
Qed.

(** ** The properties of writing *)

Section writing.
Context `{ODC : ODCallbacks}.

(** The function registered on a subindex. *)
Definition registered (d : CO_Data) (w s : Z) : option od_callback :=
  l ← co_cbs d !! w; cb ← l.[s]; cb.

(** The conditions under which the code stores the value. *)
Definition writable (od : od_config) (x : subindex) (src : list Z) (e : Z) (chk : bool)
    : Prop :=
  (chk = true -> bAccessType x <> RO) /\ (e = 0 \/ e = od_size x) /\
  valueRangeTest od (bDataType x) src = Some 0.

#[export] Instance writable_dec od x src e chk : Decision (writable od x src e chk).
Proof. unfold writable. apply _. Defined.

(** The state after the value is stored. *)
Definition stored (d : CO_Data) (w s : Z) (x : subindex) (m : mem) : CO_Data :=
  let d := d <| co_mem := m |> in
  if Z.land (bAccessType x) TO_BE_SAVE =? 0 then d
  else d <| co_log ::= (fun l => l ++ [Call_storeODSubIndex w s]) |>.

Lemma call_unregistered d w s i en :
  node_od_ok d -> scan (co_od d) w = Some i -> (objdict (co_od d)).[i] = Some en ->
  0 <= s < bSubCount en -> registered d w s = None ->
  call_od_callback i w s d = Some (OD_SUCCESSFUL, d).
Proof.
  intros Hok Hi He Hs Hreg. unfold call_od_callback, registered in *. co_red.
  destruct (co_cbs d !! w) as [l|] eqn:El; co_red; [|done].
  cbn [mbind option_bind] in Hreg.
  destruct (arr_get_is_Some l s) as [cb Hcb].
  { rewrite (ok_cbs _ _ _ Hok w i en l) by done. lia. }
  rewrite Hcb in Hreg |- *. cbn [mbind option_bind] in Hreg. co_red. by rewrite Hreg.
Qed.

Lemma write_sub_ok i w s x src e chk d en :
  node_od_ok d -> scan (co_od d) w = Some i -> (objdict (co_od d)).[i] = Some en ->
  0 <= s < bSubCount en -> (pSubindex en).[s] = Some x ->
  bDataType x <> visible_string -> registered d w s = None ->
  0 <= e <= Z.of_nat (length src) -> writable (co_od d) x src e chk ->
  exists m, mstore (co_mem d) (pObject x) (take (Z.to_nat e) src) = Some m /\
    write_sub i w s x src e chk d = Some ((OD_SUCCESSFUL, od_size x), stored d w s x m).
Proof.
  intros Hok Hi He Hs Hx Hty Hreg Hsrc (Hacc & Hsz & Hr).
  destruct (ok_object _ _ _ Hok i en s x He Hx) as (Hpos & bs & Hbs).
  destruct (mload_mstore_is_Some _ _ _ _ (take (Z.to_nat e) src) Hbs) as [m Hm].
  { rewrite length_take. lia. }
  exists m. split; [done|]. unfold write_sub.
  replace (chk && (bAccessType x =? RO)) with false.
  2: { destruct chk; [|done]. symmetry. apply Z.eqb_neq. by apply Hacc. }
  replace ((e =? 0) || (e =? od_size x) || _) with true.
  2: { symmetry. rewrite !orb_true_iff, !Z.eqb_eq. tauto. }
  co_red. rewrite Hr. co_red. replace (e <=? Z.of_nat (length src)) with true
    by (symmetry; apply Z.leb_le; lia).
  change (negb (0 =? 0)) with false. co_red. rewrite Hm. co_red.
  rewrite (proj2 (Z.eqb_neq _ _) Hty). cbn [andb negb Z.eqb].
  assert (Hc : call_od_callback i w s (d <| co_mem := m |>) =
    Some (OD_SUCCESSFUL, d <| co_mem := m |>)).
  { eapply call_unregistered; [|exact Hi|exact He|done|done].
    eapply od_ok_mstore; [exact Hok|exact Hm]. }
  rewrite when_false, Hc. unfold stored, storeODSubIndex.
  destruct (Z.land (bAccessType x) TO_BE_SAVE =? 0); done.
Qed.

(** A refused write answers an error and changes nothing. *)
Lemma write_sub_rejected i w s x src e chk d c :
  bDataType x <> visible_string -> valueRangeTest (co_od d) (bDataType x) src = Some c ->
  ~ writable (co_od d) x src e chk ->
  exists code sz, write_sub i w s x src e chk d = Some ((code, sz), d) /\
    code <> OD_SUCCESSFUL.
Proof.
  intros Hty Hc Hw. unfold write_sub.
  destruct (chk && (bAccessType x =? RO)) eqn:Ea.
  { eexists _, _. by split; [reflexivity|]. }
  destruct ((e =? 0) || _ || _) eqn:Esz; [|eexists _, _; by split; [reflexivity|]].
  co_red. rewrite Hc. co_red. destruct (negb (c =? 0)) eqn:Ec; zb.
  { eexists _, _. by split; [reflexivity|]. }
  destruct Hw. subst c. split; [|split]; [| |done].
  - intros ->. cbn [andb] in Ea. by destruct Ea as [|Ea%Z.eqb_neq].
  - destruct Esz as [[?|?]%orb_true_iff|]; zb; [by left|by right|done].
Qed.

(** Writing an entry that is not a string, with no function registered on
    it, never faults; it answers OD_SUCCESSFUL exactly when the entry may be
    written, the size is the entry's (or 0) and the value is in range, and then
    the variable holds the value and nothing else in memory moves; with any
    other answer the node is unchanged.  The dictionary stays well formed. *)
Theorem setODentry_spec w s src e chk d i x :
  node_od_ok d -> 0 <= s -> find_sub (co_od d) w s = Some (i, x) ->
  bDataType x <> visible_string -> registered d w s = None ->
  0 <= e <= Z.of_nat (length src) ->
  (exists c, valueRangeTest (co_od d) (bDataType x) src = Some c) ->
  exists code sz d', setODentry w s src e chk d = Some ((code, sz), d') /\
    node_od_ok d' /\
    (code = OD_SUCCESSFUL <-> writable (co_od d) x src e chk) /\
    (code <> OD_SUCCESSFUL -> d' = d) /\
    (code = OD_SUCCESSFUL -> exists m,
       mstore (co_mem d) (pObject x) (take (Z.to_nat e) src) = Some m /\
       d' = stored d w s x m /\ sz = od_size x).
Proof.
  intros Hok Hs Hf Hty Hreg Hsrc [c Hc]. rewrite setODentry_find by done.
  pose proof Hf as (en & Hi & He & Hlt & Hx)%find_sub_Some. rewrite Hi, Hf.
  destruct (decide (writable (co_od d) x src e chk)) as [Hw|Hw].
  - destruct (write_sub_ok i w s x src e chk d en) as (m & Hm & ->); try done.
    eexists _, _, _. split; [reflexivity|]. splits; try done.
    + unfold node_od_ok, stored. pose proof (od_ok_mstore _ _ _ _ _ _ Hok Hm).
      by destruct (_ =? 0).
    + intros _. by exists m.
  - destruct (write_sub_rejected i w s x src e chk d c) as (code & sz & -> & Hcode);
      [done..|].
    eexists _, _, _. split; [reflexivity|]. splits; try done.
Qed.

(** A terminated string that is shorter than its variable is copied whole. *)
Lemma str_copy_all fuel m p data ptr_end :
  mload m p (Z.of_nat (length data)) = Some data -> Forall (fun b => b <> 0) data ->
  load 1 m (ptr_add p (Z.of_nat (length data))) = Some 0 ->
  snd p + Z.of_nat (length data) <= ptr_end -> (length data < fuel)%nat ->
  str_copy fuel m p ptr_end = Some (data, ptr_add p (Z.of_nat (length data))).
Proof.
  revert p fuel. induction data as [|b data IH]; intros p [|fuel] Hl Hnz H0 He Hf; cbn [length] in *; try lia.
  { cbn [str_copy]. unfold ptr_add in *. destruct p as [x y]. cbn [fst snd] in *.
    rewrite Z.add_0_r in *. by rewrite H0. }
  apply Forall_cons in Hnz as [Hb Hnz]. cbn [str_copy].
  pose proof (mload_inside _ _ _ _ 0 1 Hl ltac:(lia) ltac:(lia) ltac:(lia)) as H1.
  pose proof (mload_inside _ _ _ _ 1 (Z.of_nat (length data)) Hl ltac:(lia) ltac:(lia) ltac:(lia)) as H2.
  rewrite Nat2Z.id in H2. change (take _ _) with [b] in H1.
  change (drop (Z.to_nat 1) (b :: data)) with data in H2. rewrite take_ge in H2 by lia.
  assert (Hp : ptr_add p 0 = p) by (destruct p; unfold ptr_add; cbn; f_equal; lia).
  rewrite Hp in H1. unfold load at 1. rewrite H1.
  cbn [fmap option_fmap option_map le_val mbind option_bind].
  replace (b + 256 * 0) with b by lia. rewrite (proj2 (Z.eqb_neq b 0)) by done. ztest.
  assert (Ha : ptr_add (ptr_add p 1) (Z.of_nat (length data)) = ptr_add p (Z.of_nat (S (length data))))
    by (unfold ptr_add; cbn [fst snd]; f_equal; lia).
  rewrite IH; [cbn [mbind option_bind]; by rewrite Ha|done|done|by rewrite Ha| |lia].
  unfold ptr_add. cbn [snd]. lia.
Qed.

(** The read of such a string. *)
Lemma read_sub_string x data n c d m :
  bDataType x = visible_string -> Z.of_nat (length data) < od_size x <= n ->
  (c = true -> Z.land (bAccessType x) WO = 0) -> Forall (fun b => b <> 0) data ->
  mload m (pObject x) (Z.of_nat (length data)) = Some data ->
  store 1 m (ptr_add (pObject x) (Z.of_nat (length data))) 0 = Some (co_mem d) ->
  read_sub x false n c d =
    Some (OdRead OD_SUCCESSFUL (Z.of_nat (length data)) (Some (bDataType x)) data, d).
Proof.
  intros Hty Hn Hc Hnz Hl Hs. unfold read_sub.
  replace (c && negb (Z.land (bAccessType x) WO =? 0)) with false by (destruct c; [by rewrite Hc|done]).
  do 3 ztest.
  set (q := ptr_add (pObject x) _) in *.
  pose proof (load_store_same 1 _ _ _ _ Hs) as H0. change (Z.of_nat 1) with 1 in H0.
  assert (Hl' : mload (co_mem d) (pObject x) (Z.of_nat (length data)) = Some data).
  { rewrite <- Hl. eapply mload_mstore_disjoint; [exact Hs|]. unfold disjoint_range, q, ptr_add. cbn. lia. }
  rewrite (st_bind_eq _ _ _ _ _ (eq_refl : get co_mem d = _)).
  rewrite (str_copy_all _ _ _ data) by (done || lia). fold q.
  rewrite (st_bind_eq (opt (Some _)) _ d _ d eq_refl). cbn beta iota.
  replace (snd q - snd (pObject x)) with (Z.of_nat (length data)) by (unfold q, ptr_add; cbn; lia).
  assert (Ew : wr 1 q 0 d = Some (tt, d)).
  { unfold wr. unfold load in H0. apply fmap_Some in H0 as (bs & Hb & Hv).
    pose proof (mload_length _ _ _ _ Hb) as Hbl. destruct bs as [|b [|]]; cbn in Hbl, Hv; try lia.
    assert (b = 0) as -> by (rewrite Zmod_0_l in Hv; lia).
    unfold store. change (le_bytes 1 0) with [0]. rewrite (mstore_same _ _ _ _ Hb). by destruct d. }
  ztest. by rewrite when_true, (st_bind_eq _ _ _ _ _ Ew).
Qed.

(** The functions registered on entries that leave the dictionary and its variables
    alone. *)
Definition keeps_variables (w s i : Z) (d : CO_Data) : Prop :=
  forall cb d1 r d2, registered d w s = Some cb -> run_od_callback cb i s d1 = Some (r, d2) ->
    co_od d2 = co_od d1 /\ co_mem d2 = co_mem d1.

Lemma callback_keeps w s i d d1 r d2 :
  keeps_variables w s i d -> co_cbs d1 = co_cbs d -> call_od_callback i w s d1 = Some (r, d2) ->
  co_od d2 = co_od d1 /\ co_mem d2 = co_mem d1.
Proof.
  intros Hk Ec E. unfold call_od_callback in E. rewrite (st_bind_eq _ _ _ _ _ (eq_refl : get co_cbs d1 = _)) in E.
  rewrite Ec in E. destruct (co_cbs d !! w) as [l|] eqn:El; [|by injection E as _ <-].
  apply st_bind_Some in E as (cb & d1' & E1 & E). apply bind_Some in E1 as (cb' & Hcb & [= <- <-]).
  destruct cb' as [f|]; [|by injection E as _ <-]. eapply (Hk f); [|exact E].
  unfold registered. rewrite El. cbn. by rewrite Hcb.
Qed.

(** What a successful write leaves in memory. *)
Lemma write_sub_stores i w s x src e chk d sz d' :
  keeps_variables w s i d -> write_sub i w s x src e chk d = Some ((OD_SUCCESSFUL, sz), d') ->
  co_od d' = co_od d /\ sz = od_size x /\ e <= Z.of_nat (length src) /\
  (e = 0 \/ e = od_size x \/ bDataType x = visible_string /\ e < od_size x) /\
  exists m, mstore (co_mem d) (pObject x) (take (Z.to_nat e) src) = Some m /\
    (if (bDataType x =? visible_string) && (e <? od_size x)
     then store 1 m (ptr_add (pObject x) e) 0 = Some (co_mem d') else co_mem d' = m).
Proof.
  intros Hk E. unfold write_sub in E.
  destruct (chk && _); [done|].
  destruct ((e =? 0) || _ || _) eqn:Esz; [|done].
  assert (Hsz : e = 0 \/ e = od_size x \/ bDataType x = visible_string /\ e < od_size x)
    by (apply orb_true_iff in Esz as [[?|?]%orb_true_iff|?]; zb; auto).
  clear Esz. rewrite (st_bind_eq _ _ _ _ _ (eq_refl : get co_od d = _)) in E.
  apply st_bind_Some in E as (c & d1 & E1 & E). apply bind_Some in E1 as (c' & Hc & [= -> ->]).
  destruct (negb (c =? 0)) eqn:Ec.
  { injection E as -> _ _. done. }
  rewrite (st_bind_eq _ _ _ _ _ (eq_refl : get co_mem d1 = _)) in E.
  apply st_bind_Some in E as (bs & d2 & E1 & E). apply bind_Some in E1 as (bs' & Hbs & [= -> ->]).
  destruct (e <=? Z.of_nat (length src)) eqn:El; [|done]. injection Hbs as <-.
  apply st_bind_Some in E as (m & d3 & E1 & E). apply bind_Some in E1 as (m' & Hm & [= -> ->]).
  rewrite (st_bind_eq _ _ _ _ _ (eq_refl : modify (fun d => d <| co_mem := m |>) d3 = _)) in E.
  apply st_bind_Some in E as (u & d4 & E1 & E). apply st_bind_Some in E as (r & d5 & E2 & E).
  assert (H4 : co_od d4 = co_od d3 /\ co_cbs d4 = co_cbs d3 /\
    if (bDataType x =? visible_string) && (e <? od_size x)
    then store 1 m (ptr_add (pObject x) e) 0 = Some (co_mem d4) else co_mem d4 = m).
  { destruct (_ && _); [|by injection E1 as _ <-]. rewrite when_true in E1. unfold wr in E1.
    apply fmap_Some in E1 as (m4 & Hs & [= _ ->]). done. }
  destruct H4 as (Eo & Ecb & Em). destruct (callback_keeps _ _ _ _ _ _ _ Hk Ecb E2) as [Eo5 Em5].
  destruct (negb (r =? OD_SUCCESSFUL)) eqn:Er.
  { injection E as -> _ _. done. }
  apply st_bind_Some in E as (u' & d6 & E3 & [= <- <-]).
  assert (E6 : co_od d6 = co_od d5 /\ co_mem d6 = co_mem d5)
    by (destruct (negb (Z.land _ _ =? 0)); by injection E3 as _ <-).
  destruct E6 as [-> ->]. zb. splits; [congruence|done|lia|done|].
  exists m. split; [done|]. by rewrite Em5.
Qed.

(** C37: What is written is what is read.  After a successful write of a value that is
    not empty, by a caller that passes the access check or not, reading the entry with a
    buffer large enough, access checked or not, answers the value: all entries that are
    not strings, and strings shorter than their variable without null bytes.  Reading any
    other entry that is not a string and whose variable does not overlap answers what it
    answered before.  A function registered on the entry may run, if it leaves the
    dictionary's variables alone ([keeps_variables]). *)
Theorem set_get_roundtrip w s src e chk d i x sz d' :
  node_od_ok d -> 0 <= s -> find_sub (co_od d) w s = Some (i, x) -> keeps_variables w s i d ->
  0 < e -> (bDataType x = visible_string -> e < od_size x /\ Forall (fun b => b <> 0) (take (Z.to_nat e) src)) ->
  setODentry w s src e chk d = Some ((OD_SUCCESSFUL, sz), d') ->
  sz = od_size x /\
  (forall n c, od_size x <= n -> (c = true -> Z.land (bAccessType x) WO = 0) ->
     getODentry w s false n c d' =
     Some (OdRead OD_SUCCESSFUL e (Some (bDataType x)) (take (Z.to_nat e) src), d')) /\
  (forall w2 s2 i2 y n c, 0 <= s2 -> find_sub (co_od d) w2 s2 = Some (i2, y) ->
     bDataType y <> visible_string ->
     disjoint_range (pObject x) (od_size x) (pObject y) (od_size y) ->
     fst <$> getODentry w2 s2 false n c d' = fst <$> getODentry w2 s2 false n c d).
Proof.
  intros Hok Hs Hf Hk He Hstr E. rewrite setODentry_find in E by done.
  pose proof Hf as (en & Hi & _)%find_sub_Some. rewrite Hi, Hf in E.
  destruct (write_sub_stores _ _ _ _ _ _ _ _ _ _ Hk E) as (Eo & -> & Hle & Hsz & m & Hm & Em).
  assert (Hlen : Z.of_nat (length (take (Z.to_nat e) src)) = e) by (rewrite length_take; lia).
  pose proof (od_ok_mstore _ _ _ _ _ _ Hok Hm) as Hok1. rewrite <- Eo in Hok1.
  pose proof (mload_mstore_same _ _ _ _ Hm) as Hl. rewrite Hlen in Hl.
  assert (Hsmall : e <= od_size x) by lia. split; [done|].
  assert (Hd' : exists cbs, od_ok (co_od d') (co_mem d') cbs).
  { exists (co_cbs d). destruct (_ && _); [by eapply od_ok_mstore|by rewrite Em]. }
  destruct Hd' as [cbs Hd'].
  split.
  - intros n c Hn Hc. rewrite (getODentry_find_mem _ _ _ _ _ _ _ Hd'), Eo, Hi, Hf by done.
    destruct (bDataType x =? visible_string) eqn:Et; zb.
    + destruct (Hstr Et) as [Hshort Hnz]. revert Em. cbn [andb]. ztest. intros Em.
      pose proof (read_sub_string x (take (Z.to_nat e) src) n c d' m) as Hread.
      rewrite Hlen in Hread. by apply Hread.
    + assert (e = od_size x) as -> by tauto || lia. apply read_sub_ok; [done|lia|done|].
      cbn [andb] in Em. by rewrite Em.
  - intros w2 s2 i2 y n c Hs2 Hf2 Hty2 Hd.
    assert (Hy : mload (co_mem d') (pObject y) (od_size y) = mload (co_mem d) (pObject y) (od_size y)).
    { rewrite <- (mload_mstore_disjoint _ _ _ _ (pObject y) (od_size y) Hm).
      - destruct (_ && _) eqn:Es; [|by rewrite Em]. zb. eapply mload_mstore_disjoint; [exact Em|].
        revert Hd. unfold disjoint_range, ptr_add. rewrite le_bytes_length. cbn [fst snd]. lia.
      - revert Hd. unfold disjoint_range. rewrite Hlen. lia. }
    rewrite (getODentry_find_mem _ _ _ _ _ _ _ Hd'), (getODentry_find_mem _ _ _ _ _ _ _ Hok), Eo, Hf2 by done.
    destruct (scan (co_od d) w2); [|done]. unfold read_sub.
    destruct (c && _); [done|]. destruct (n <? od_size y); [done|].
    rewrite (proj2 (Z.eqb_neq _ _) Hty2). co_red. rewrite Hy. by destruct (mload (co_mem d) _ _).
Qed.
End writing.
