(* ===== verification/TestSlave.v ===== *)
(** * TestSlave: the dictionary of the slave node (drive/TestSlave.c)

    The tables the dictionary editor generated, translated entry by entry: each
    variable is a block of memory, each subindex points into one.  The data of
    the node is the initializer of inc/data.h applied to them.  The checks of
    the dictionary properties on concrete values run on this node. *)

From S2P Require Import Prelude CMem Timers Node ObjDict.

(** ** Value ranges *)

Definition valueRange_EMC : Z := 0x9F.

Definition TestSlave_valueRangeTest (typeValue : Z) (value : list Z) : option Z :=
  if typeValue =? valueRange_EMC then
    b ← value.[0]; Some (if negb (b =? 0) then OD_VALUE_RANGE_EXCEEDED else 0)
  else Some 0.

Definition TestSlave_iam_a_slave : Z := 1.
Definition TestSlave_heartBeatTimers : list Z := [0].

(** ** Variables, subindexes and callback lists *)

Definition Slave_FuncCode_F0 : ptr := (1, 0).
Definition TestSlave_bDeviceNodeId : ptr := (2, 0).
Definition TestSlave_obj1000 : ptr := (3, 0).
Definition TestSlave_Index1000 : list subindex :=
  [Subindex RO uint32 4 TestSlave_obj1000].
Definition TestSlave_obj1001 : ptr := (4, 0).
Definition TestSlave_Index1001 : list subindex :=
  [Subindex RO uint8 1 TestSlave_obj1001].
Definition TestSlave_highestSubIndex_obj1003 : ptr := (5, 0).
Definition TestSlave_obj1003 : ptr := (6, 0).
Definition TestSlave_Index1003_callbacks : list (option od_callback) := replicate 9 None.
Definition TestSlave_Index1003 : list subindex :=
  [Subindex RW valueRange_EMC 1 TestSlave_highestSubIndex_obj1003;
   Subindex RO uint32 4 (ptr_add TestSlave_obj1003 0);
   Subindex RO uint32 4 (ptr_add TestSlave_obj1003 4);
   Subindex RO uint32 4 (ptr_add TestSlave_obj1003 8);
   Subindex RO uint32 4 (ptr_add TestSlave_obj1003 12);
   Subindex RO uint32 4 (ptr_add TestSlave_obj1003 16);
   Subindex RO uint32 4 (ptr_add TestSlave_obj1003 20);
   Subindex RO uint32 4 (ptr_add TestSlave_obj1003 24);
   Subindex RO uint32 4 (ptr_add TestSlave_obj1003 28)].
Definition TestSlave_obj1005 : ptr := (7, 0).
Definition TestSlave_Index1005_callbacks : list (option od_callback) := replicate 1 None.
Definition TestSlave_Index1005 : list subindex :=
  [Subindex RW uint32 4 TestSlave_obj1005].
Definition TestSlave_obj1006 : ptr := (8, 0).
Definition TestSlave_Index1006_callbacks : list (option od_callback) := replicate 1 None.
Definition TestSlave_Index1006 : list subindex :=
  [Subindex RW uint32 4 TestSlave_obj1006].
Definition TestSlave_obj100C : ptr := (9, 0).
Definition TestSlave_obj100D : ptr := (10, 0).
Definition TestSlave_highestSubIndex_obj1010 : ptr := (11, 0).
Definition TestSlave_obj1010_Save_All_Parameters : ptr := (12, 0).
Definition TestSlave_obj1010_Save_Communication_Parameters : ptr := (13, 0).
Definition TestSlave_obj1010_Save_Application_Parameters : ptr := (14, 0).
Definition TestSlave_obj1010_Save_Manufacturer_Parameters_1 : ptr := (15, 0).
Definition TestSlave_Index1010_callbacks : list (option od_callback) := replicate 5 None.
Definition TestSlave_Index1010 : list subindex :=
  [Subindex RO uint8 1 TestSlave_highestSubIndex_obj1010;
   Subindex RW uint32 4 TestSlave_obj1010_Save_All_Parameters;
   Subindex RW uint32 4 TestSlave_obj1010_Save_Communication_Parameters;
   Subindex RW uint32 4 TestSlave_obj1010_Save_Application_Parameters;
   Subindex RW uint32 4 TestSlave_obj1010_Save_Manufacturer_Parameters_1].
Definition TestSlave_highestSubIndex_obj1011 : ptr := (16, 0).
Definition TestSlave_obj1011_Restore_All_Default_Parameters : ptr := (17, 0).
Definition TestSlave_obj1011_Restore_Communication_Default_Parameters : ptr := (18, 0).
Definition TestSlave_obj1011_Restore_Application_Default_Parameters : ptr := (19, 0).
Definition TestSlave_obj1011_Restore_Manufacturer_Defined_Default_Parameters_1 : ptr := (20, 0).
Definition TestSlave_Index1011_callbacks : list (option od_callback) := replicate 5 None.
Definition TestSlave_Index1011 : list subindex :=
  [Subindex RO uint8 1 TestSlave_highestSubIndex_obj1011;
   Subindex RW uint32 4 TestSlave_obj1011_Restore_All_Default_Parameters;
   Subindex RW uint32 4 TestSlave_obj1011_Restore_Communication_Default_Parameters;
   Subindex RW uint32 4 TestSlave_obj1011_Restore_Application_Default_Parameters;
   Subindex RW uint32 4 TestSlave_obj1011_Restore_Manufacturer_Defined_Default_Parameters_1].
Definition TestSlave_obj1014 : ptr := (21, 0).
Definition TestSlave_Index1014 : list subindex :=
  [Subindex RW uint32 4 TestSlave_obj1014].
Definition TestSlave_highestSubIndex_obj1016 : ptr := (22, 0).
Definition TestSlave_obj1016 : ptr := (23, 0).
Definition TestSlave_obj1017 : ptr := (24, 0).
Definition TestSlave_Index1017_callbacks : list (option od_callback) := replicate 1 None.
Definition TestSlave_Index1017 : list subindex :=
  [Subindex RW uint16 2 TestSlave_obj1017].
Definition TestSlave_highestSubIndex_obj1018 : ptr := (25, 0).
Definition TestSlave_obj1018_Vendor_ID : ptr := (26, 0).
Definition TestSlave_obj1018_Product_Code : ptr := (27, 0).
Definition TestSlave_obj1018_Revision_Number : ptr := (28, 0).
Definition TestSlave_obj1018_Serial_Number : ptr := (29, 0).
Definition TestSlave_Index1018 : list subindex :=
  [Subindex RO uint8 1 TestSlave_highestSubIndex_obj1018;
   Subindex RO uint32 4 TestSlave_obj1018_Vendor_ID;
   Subindex RO uint32 4 TestSlave_obj1018_Product_Code;
   Subindex RO uint32 4 TestSlave_obj1018_Revision_Number;
   Subindex RO uint32 4 TestSlave_obj1018_Serial_Number].
Definition TestSlave_highestSubIndex_obj1200 : ptr := (30, 0).
Definition TestSlave_obj1200_COB_ID_Client_to_Server_Receive_SDO : ptr := (31, 0).
Definition TestSlave_obj1200_COB_ID_Server_to_Client_Transmit_SDO : ptr := (32, 0).
Definition TestSlave_Index1200 : list subindex :=
  [Subindex RO uint8 1 TestSlave_highestSubIndex_obj1200;
   Subindex RO uint32 4 TestSlave_obj1200_COB_ID_Client_to_Server_Receive_SDO;
   Subindex RO uint32 4 TestSlave_obj1200_COB_ID_Server_to_Client_Transmit_SDO].
Definition TestSlave_highestSubIndex_obj1201 : ptr := (33, 0).
Definition TestSlave_obj1201_COB_ID_Client_to_Server_Receive_SDO : ptr := (34, 0).
Definition TestSlave_obj1201_COB_ID_Server_to_Client_Transmit_SDO : ptr := (35, 0).
Definition TestSlave_obj1201_Node_ID_of_the_SDO_Client : ptr := (36, 0).
Definition TestSlave_Index1201 : list subindex :=
  [Subindex RO uint8 1 TestSlave_highestSubIndex_obj1201;
   Subindex RO uint32 4 TestSlave_obj1201_COB_ID_Client_to_Server_Receive_SDO;
   Subindex RO uint32 4 TestSlave_obj1201_COB_ID_Server_to_Client_Transmit_SDO;
   Subindex RO uint8 1 TestSlave_obj1201_Node_ID_of_the_SDO_Client].
Definition TestSlave_highestSubIndex_obj1800 : ptr := (37, 0).
Definition TestSlave_obj1800_COB_ID_used_by_PDO : ptr := (38, 0).
Definition TestSlave_obj1800_Transmission_Type : ptr := (39, 0).
Definition TestSlave_obj1800_Inhibit_Time : ptr := (40, 0).
Definition TestSlave_obj1800_Compatibility_Entry : ptr := (41, 0).
Definition TestSlave_obj1800_Event_Timer : ptr := (42, 0).
Definition TestSlave_Index1800_callbacks : list (option od_callback) := replicate 6 None.
Definition TestSlave_Index1800 : list subindex :=
  [Subindex RO uint8 1 TestSlave_highestSubIndex_obj1800;
   Subindex RW uint32 4 TestSlave_obj1800_COB_ID_used_by_PDO;
   Subindex (Z.lor RW TO_BE_SAVE) uint8 1 TestSlave_obj1800_Transmission_Type;
   Subindex (Z.lor RW TO_BE_SAVE) uint16 2 TestSlave_obj1800_Inhibit_Time;
   Subindex RW uint8 1 TestSlave_obj1800_Compatibility_Entry;
   Subindex RW uint16 2 TestSlave_obj1800_Event_Timer].
Definition TestSlave_highestSubIndex_obj1801 : ptr := (43, 0).
Definition TestSlave_obj1801_COB_ID_used_by_PDO : ptr := (44, 0).
Definition TestSlave_obj1801_Transmission_Type : ptr := (45, 0).
Definition TestSlave_obj1801_Inhibit_Time : ptr := (46, 0).
Definition TestSlave_obj1801_Compatibility_Entry : ptr := (47, 0).
Definition TestSlave_obj1801_Event_Timer : ptr := (48, 0).
Definition TestSlave_Index1801_callbacks : list (option od_callback) := replicate 6 None.
Definition TestSlave_Index1801 : list subindex :=
  [Subindex RO uint8 1 TestSlave_highestSubIndex_obj1801;
   Subindex RW uint32 4 TestSlave_obj1801_COB_ID_used_by_PDO;
   Subindex RW uint8 1 TestSlave_obj1801_Transmission_Type;
   Subindex RW uint16 2 TestSlave_obj1801_Inhibit_Time;
   Subindex RW uint8 1 TestSlave_obj1801_Compatibility_Entry;
   Subindex RW uint16 2 TestSlave_obj1801_Event_Timer].
Definition TestSlave_highestSubIndex_obj1802 : ptr := (49, 0).
Definition TestSlave_obj1802_COB_ID_used_by_PDO : ptr := (50, 0).
Definition TestSlave_obj1802_Transmission_Type : ptr := (51, 0).
Definition TestSlave_obj1802_Inhibit_Time : ptr := (52, 0).
Definition TestSlave_obj1802_Compatibility_Entry : ptr := (53, 0).
Definition TestSlave_obj1802_Event_Timer : ptr := (54, 0).
Definition TestSlave_Index1802_callbacks : list (option od_callback) := replicate 6 None.
Definition TestSlave_Index1802 : list subindex :=
  [Subindex RO uint8 1 TestSlave_highestSubIndex_obj1802;
   Subindex RW uint32 4 TestSlave_obj1802_COB_ID_used_by_PDO;
   Subindex RW uint8 1 TestSlave_obj1802_Transmission_Type;
   Subindex RW uint16 2 TestSlave_obj1802_Inhibit_Time;
   Subindex RW uint8 1 TestSlave_obj1802_Compatibility_Entry;
   Subindex RW uint16 2 TestSlave_obj1802_Event_Timer].
Definition TestSlave_highestSubIndex_obj1803 : ptr := (55, 0).
Definition TestSlave_obj1803_COB_ID_used_by_PDO : ptr := (56, 0).
Definition TestSlave_obj1803_Transmission_Type : ptr := (57, 0).
Definition TestSlave_obj1803_Inhibit_Time : ptr := (58, 0).
Definition TestSlave_obj1803_Compatibility_Entry : ptr := (59, 0).
Definition TestSlave_obj1803_Event_Timer : ptr := (60, 0).
Definition TestSlave_Index1803_callbacks : list (option od_callback) := replicate 6 None.
Definition TestSlave_Index1803 : list subindex :=
  [Subindex RO uint8 1 TestSlave_highestSubIndex_obj1803;
   Subindex RW uint32 4 TestSlave_obj1803_COB_ID_used_by_PDO;
   Subindex RW uint8 1 TestSlave_obj1803_Transmission_Type;
   Subindex RW uint16 2 TestSlave_obj1803_Inhibit_Time;
   Subindex RW uint8 1 TestSlave_obj1803_Compatibility_Entry;
   Subindex RW uint16 2 TestSlave_obj1803_Event_Timer].
Definition TestSlave_highestSubIndex_obj1804 : ptr := (61, 0).
Definition TestSlave_obj1804_COB_ID_used_by_PDO : ptr := (62, 0).
Definition TestSlave_obj1804_Transmission_Type : ptr := (63, 0).
Definition TestSlave_obj1804_Inhibit_Time : ptr := (64, 0).
Definition TestSlave_obj1804_Compatibility_Entry : ptr := (65, 0).
Definition TestSlave_obj1804_Event_Timer : ptr := (66, 0).
Definition TestSlave_Index1804_callbacks : list (option od_callback) := replicate 6 None.
Definition TestSlave_Index1804 : list subindex :=
  [Subindex RO uint8 1 TestSlave_highestSubIndex_obj1804;
   Subindex RW uint32 4 TestSlave_obj1804_COB_ID_used_by_PDO;
   Subindex RW uint8 1 TestSlave_obj1804_Transmission_Type;
   Subindex RW uint16 2 TestSlave_obj1804_Inhibit_Time;
   Subindex RW uint8 1 TestSlave_obj1804_Compatibility_Entry;
   Subindex RW uint16 2 TestSlave_obj1804_Event_Timer].
Definition TestSlave_highestSubIndex_obj1A00 : ptr := (67, 0).
Definition TestSlave_obj1A00 : ptr := (68, 0).
Definition TestSlave_Index1A00 : list subindex :=
  [Subindex RW uint8 1 TestSlave_highestSubIndex_obj1A00;
   Subindex RW uint32 4 (ptr_add TestSlave_obj1A00 0);
   Subindex RW uint32 4 (ptr_add TestSlave_obj1A00 4);
   Subindex RW uint32 4 (ptr_add TestSlave_obj1A00 8);
   Subindex RW uint32 4 (ptr_add TestSlave_obj1A00 12);
   Subindex RW uint32 4 (ptr_add TestSlave_obj1A00 16);
   Subindex RW uint32 4 (ptr_add TestSlave_obj1A00 20);
   Subindex RW uint32 4 (ptr_add TestSlave_obj1A00 24);
   Subindex RW uint32 4 (ptr_add TestSlave_obj1A00 28);
   Subindex RW uint32 4 (ptr_add TestSlave_obj1A00 32);
   Subindex RW uint32 4 (ptr_add TestSlave_obj1A00 36)].
Definition TestSlave_highestSubIndex_obj1A01 : ptr := (69, 0).
Definition TestSlave_obj1A01 : ptr := (70, 0).
Definition TestSlave_Index1A01 : list subindex :=
  [Subindex RW uint8 1 TestSlave_highestSubIndex_obj1A01;
   Subindex RW uint32 4 (ptr_add TestSlave_obj1A01 0)].
Definition TestSlave_highestSubIndex_obj1A02 : ptr := (71, 0).
Definition TestSlave_obj1A02 : ptr := (72, 0).
Definition TestSlave_Index1A02 : list subindex :=
  [Subindex RW uint8 1 TestSlave_highestSubIndex_obj1A02;
   Subindex RW uint32 4 (ptr_add TestSlave_obj1A02 0)].
Definition TestSlave_highestSubIndex_obj1A03 : ptr := (73, 0).
Definition TestSlave_obj1A03 : ptr := (74, 0).
Definition TestSlave_Index1A03 : list subindex :=
  [Subindex RW uint8 1 TestSlave_highestSubIndex_obj1A03;
   Subindex RW uint32 4 (ptr_add TestSlave_obj1A03 0)].
Definition TestSlave_highestSubIndex_obj1A04 : ptr := (75, 0).
Definition TestSlave_obj1A04 : ptr := (76, 0).
Definition TestSlave_Index1A04 : list subindex :=
  [Subindex RW uint8 1 TestSlave_highestSubIndex_obj1A04;
   Subindex RW uint32 4 (ptr_add TestSlave_obj1A04 0)].
Definition TestSlave_highestSubIndex_obj20F0 : ptr := (77, 0).
Definition Slave_FuncCode_F0_callbacks : list (option od_callback) := replicate 25 None.
Definition TestSlave_Index20F0 : list subindex :=
  [Subindex RO uint8 1 TestSlave_highestSubIndex_obj20F0;
   Subindex RW uint16 2 (ptr_add Slave_FuncCode_F0 0);
   Subindex RW uint16 2 (ptr_add Slave_FuncCode_F0 2);
   Subindex RW uint16 2 (ptr_add Slave_FuncCode_F0 4);
   Subindex RW uint16 2 (ptr_add Slave_FuncCode_F0 6);
   Subindex RW uint16 2 (ptr_add Slave_FuncCode_F0 8);
   Subindex RW uint16 2 (ptr_add Slave_FuncCode_F0 10);
   Subindex RW uint16 2 (ptr_add Slave_FuncCode_F0 12);
   Subindex RW uint16 2 (ptr_add Slave_FuncCode_F0 14);
   Subindex RW uint16 2 (ptr_add Slave_FuncCode_F0 16);
   Subindex RW uint16 2 (ptr_add Slave_FuncCode_F0 18);
   Subindex RW uint16 2 (ptr_add Slave_FuncCode_F0 20);
   Subindex RW uint16 2 (ptr_add Slave_FuncCode_F0 22);
   Subindex RW uint16 2 (ptr_add Slave_FuncCode_F0 24);
   Subindex RW uint16 2 (ptr_add Slave_FuncCode_F0 26);
   Subindex RW uint16 2 (ptr_add Slave_FuncCode_F0 28);
   Subindex RW uint16 2 (ptr_add Slave_FuncCode_F0 30);
   Subindex RW uint16 2 (ptr_add Slave_FuncCode_F0 32);
   Subindex RW uint16 2 (ptr_add Slave_FuncCode_F0 34);
   Subindex RW uint16 2 (ptr_add Slave_FuncCode_F0 36);
   Subindex RW uint16 2 (ptr_add Slave_FuncCode_F0 38);
   Subindex RW uint16 2 (ptr_add Slave_FuncCode_F0 40);
   Subindex RW uint16 2 (ptr_add Slave_FuncCode_F0 42);
   Subindex RW uint16 2 (ptr_add Slave_FuncCode_F0 44);
   Subindex RW uint16 2 (ptr_add Slave_FuncCode_F0 46)].

(** ** The table of the indexes *)

(** [sizeof (TestSlave_IndexXXXX) / sizeof (TestSlave_IndexXXXX[0])]. *)
Definition mk_indextable (l : list subindex) (i : Z) : indextable :=
  Indextable l (Z.of_nat (length l)) i.

Definition TestSlave_objdict : list indextable :=
  [mk_indextable TestSlave_Index1000 0x1000;
   mk_indextable TestSlave_Index1001 0x1001;
   mk_indextable TestSlave_Index1003 0x1003;
   mk_indextable TestSlave_Index1005 0x1005;
   mk_indextable TestSlave_Index1006 0x1006;
   mk_indextable TestSlave_Index1010 0x1010;
   mk_indextable TestSlave_Index1011 0x1011;
   mk_indextable TestSlave_Index1014 0x1014;
   mk_indextable TestSlave_Index1017 0x1017;
   mk_indextable TestSlave_Index1018 0x1018;
   mk_indextable TestSlave_Index1200 0x1200;
   mk_indextable TestSlave_Index1201 0x1201;
   mk_indextable TestSlave_Index1800 0x1800;
   mk_indextable TestSlave_Index1801 0x1801;
   mk_indextable TestSlave_Index1802 0x1802;
   mk_indextable TestSlave_Index1803 0x1803;
   mk_indextable TestSlave_Index1804 0x1804;
   mk_indextable TestSlave_Index1A00 0x1A00;
   mk_indextable TestSlave_Index1A01 0x1A01;
   mk_indextable TestSlave_Index1A02 0x1A02;
   mk_indextable TestSlave_Index1A03 0x1A03;
   mk_indextable TestSlave_Index1A04 0x1A04;
   mk_indextable TestSlave_Index20F0 0x20F0].
Definition TestSlave_scanIndexOD (wIndex : Z) : option Z :=
  if wIndex =? 0x1000 then Some 0 else
  if wIndex =? 0x1001 then Some 1 else
  if wIndex =? 0x1003 then Some 2 else
  if wIndex =? 0x1005 then Some 3 else
  if wIndex =? 0x1006 then Some 4 else
  if wIndex =? 0x1010 then Some 5 else
  if wIndex =? 0x1011 then Some 6 else
  if wIndex =? 0x1014 then Some 7 else
  if wIndex =? 0x1017 then Some 8 else
  if wIndex =? 0x1018 then Some 9 else
  if wIndex =? 0x1200 then Some 10 else
  if wIndex =? 0x1201 then Some 11 else
  if wIndex =? 0x1800 then Some 12 else
  if wIndex =? 0x1801 then Some 13 else
  if wIndex =? 0x1802 then Some 14 else
  if wIndex =? 0x1803 then Some 15 else
  if wIndex =? 0x1804 then Some 16 else
  if wIndex =? 0x1A00 then Some 17 else
  if wIndex =? 0x1A01 then Some 18 else
  if wIndex =? 0x1A02 then Some 19 else
  if wIndex =? 0x1A03 then Some 20 else
  if wIndex =? 0x1A04 then Some 21 else
  if wIndex =? 0x20F0 then Some 22 else
  None.
Definition TestSlave_callbacks : gmap Z (list (option od_callback)) :=
  list_to_map
  [(0x1003, TestSlave_Index1003_callbacks);
   (0x1005, TestSlave_Index1005_callbacks);
   (0x1006, TestSlave_Index1006_callbacks);
   (0x1010, TestSlave_Index1010_callbacks);
   (0x1011, TestSlave_Index1011_callbacks);
   (0x1017, TestSlave_Index1017_callbacks);
   (0x1800, TestSlave_Index1800_callbacks);
   (0x1801, TestSlave_Index1801_callbacks);
   (0x1802, TestSlave_Index1802_callbacks);
   (0x1803, TestSlave_Index1803_callbacks);
   (0x1804, TestSlave_Index1804_callbacks);
   (0x20F0, Slave_FuncCode_F0_callbacks)].
Definition TestSlave_firstIndex : quick_index := QuickIndex 10 0 0 0 12 17.
Definition TestSlave_lastIndex : quick_index := QuickIndex 11 0 0 0 16 21.

Definition TestSlave_PDO_status : list s_PDO_status := replicate 5 s_PDO_status_Initializer.

Definition TestSlave_ObjdictSize : Z := Z.of_nat (length TestSlave_objdict).

(** The initial contents of the variables. *)
Definition TestSlave_mem : mem :=
  list_to_map
  [(1, replicate 48 0);
   (2, le_bytes 1 0x00);
   (3, le_bytes 4 0x12D);
   (4, le_bytes 1 0x0);
   (5, le_bytes 1 0);
   (6, replicate 32 0);
   (7, le_bytes 4 0x80);
   (8, le_bytes 4 0x0);
   (9, le_bytes 2 0x0);
   (10, le_bytes 1 0x0);
   (11, le_bytes 1 4);
   (12, le_bytes 4 0x0);
   (13, le_bytes 4 0x0);
   (14, le_bytes 4 0x0);
   (15, le_bytes 4 0x0);
   (16, le_bytes 1 4);
   (17, le_bytes 4 0x0);
   (18, le_bytes 4 0x0);
   (19, le_bytes 4 0x0);
   (20, le_bytes 4 0x0);
   (21, le_bytes 4 0x80);
   (22, le_bytes 1 0);
   (23, le_bytes 4 0);
   (24, le_bytes 2 0x0);
   (25, le_bytes 1 4);
   (26, le_bytes 4 0x12345678);
   (27, le_bytes 4 0x90123456);
   (28, le_bytes 4 0x78901234);
   (29, le_bytes 4 0x56789012);
   (30, le_bytes 1 2);
   (31, le_bytes 4 0x600);
   (32, le_bytes 4 0x580);
   (33, le_bytes 1 3);
   (34, le_bytes 4 0x0);
   (35, le_bytes 4 0x0);
   (36, le_bytes 1 0x0);
   (37, le_bytes 1 5);
   (38, le_bytes 4 0x180);
   (39, le_bytes 1 0x0);
   (40, le_bytes 2 0x0);
   (41, le_bytes 1 0x0);
   (42, le_bytes 2 0x0);
   (43, le_bytes 1 5);
   (44, le_bytes 4 0x280);
   (45, le_bytes 1 0x0);
   (46, le_bytes 2 0x0);
   (47, le_bytes 1 0x0);
   (48, le_bytes 2 0x0);
   (49, le_bytes 1 5);
   (50, le_bytes 4 0x380);
   (51, le_bytes 1 0xFF);
   (52, le_bytes 2 0x1388);
   (53, le_bytes 1 0x0);
   (54, le_bytes 2 0x3E8);
   (55, le_bytes 1 5);
   (56, le_bytes 4 0x480);
   (57, le_bytes 1 0xFC);
   (58, le_bytes 2 0x0);
   (59, le_bytes 1 0x0);
   (60, le_bytes 2 0x0);
   (61, le_bytes 1 5);
   (62, le_bytes 4 0x401);
   (63, le_bytes 1 0xFD);
   (64, le_bytes 2 0x0);
   (65, le_bytes 1 0x0);
   (66, le_bytes 2 0x0);
   (67, le_bytes 1 10);
   (68, replicate 40 0);
   (69, le_bytes 1 1);
   (70, le_bytes 4 0x0);
   (71, le_bytes 1 1);
   (72, le_bytes 4 0x0);
   (73, le_bytes 1 1);
   (74, le_bytes 4 0x0);
   (75, le_bytes 1 1);
   (76, le_bytes 4 0x0);
   (77, le_bytes 1 24)].

Definition TestSlave_od : od_config := {|
  objdict := TestSlave_objdict;
  scan := TestSlave_scanIndexOD;
  firstIndex := TestSlave_firstIndex;
  lastIndex := TestSlave_lastIndex;
  ObjdictSize := TestSlave_ObjdictSize;
  iam_a_slave := TestSlave_iam_a_slave;
  valueRangeTest := TestSlave_valueRangeTest;
  error_history_size := 8;
  bDeviceNodeId := TestSlave_bDeviceNodeId;
  ConsumerHeartbeatCount := TestSlave_highestSubIndex_obj1016;
  ConsumerHeartbeatEntries := TestSlave_obj1016;
  ProducerHeartBeatTime := TestSlave_obj1017;
  GuardTime := TestSlave_obj100C;
  LifeTimeFactor := TestSlave_obj100D;
  COB_ID_Sync := TestSlave_obj1005;
  Sync_Cycle_Period := TestSlave_obj1006;
  error_number := TestSlave_highestSubIndex_obj1003;
  error_first_element := TestSlave_obj1003;
  error_register := TestSlave_obj1001;
  error_cobid := TestSlave_obj1014
|}.

Definition TestSlave_Data (env : co_world) : CO_Data :=
  CANOPEN_NODE_DATA_INITIALIZER TestSlave_od TestSlave_mem TestSlave_callbacks
    TestSlave_heartBeatTimers TestSlave_PDO_status env.

(** A silent driver and a clean stack. *)
Definition quiet_env : co_world := CoWorld (fun _ => 0) (fun _ => Message_Initializer).

(** ** The dictionary is well formed *)

Lemma TestSlave_scan_sound w i :
  TestSlave_scanIndexOD w = Some i -> 0 <= i < 23.
Proof.
  unfold TestSlave_scanIndexOD.
  repeat (case_match; [intros [= <-]; lia|]). done.
Qed.

Lemma TestSlave_ok env : node_od_ok (TestSlave_Data env).
Proof.
  apply od_okb_ok.
  - intros w i Hi. by apply TestSlave_scan_sound in Hi.
  - vm_compute. reflexivity.
Qed.

(** ** The dictionary properties on this node *)

Definition slave0 : CO_Data := TestSlave_Data quiet_env.

Section dictionary_witnesses.

(** The functions registered on entries do not matter here. *)
Definition no_callbacks : ODCallbacks := fun _ _ _ => ret OD_SUCCESSFUL.

Definition sub_1018_1 : subindex := Subindex RO uint32 4 TestSlave_obj1018_Vendor_ID.
Definition sub_20F0_2 : subindex := Subindex RW uint16 2 (ptr_add Slave_FuncCode_F0 2).

Example getODentry_spec_witness :
  exists r, getODentry 0x1018 1 false 32 true slave0 = Some (r, slave0) /\
    rd_code r = OD_SUCCESSFUL /\ le_val (rd_bytes r) = 0x12345678.
Proof.
  destruct (getODentry_spec 0x1018 1 false 32 true slave0) as (r & E & Hok & Hval & _).
  - apply TestSlave_ok.
  - lia.
  - intros i x H. vm_compute in H. injection H as <- <-. discriminate.
  - exists r. split; [exact E|]. split.
    + apply Hok. split; [done|]. exists sub_1018_1. split; [by exists 9|]. done.
    + destruct (Hval sub_1018_1) as (Hl & _); [split; [by exists 9|done]|done|].
      assert (Hm : mload (co_mem slave0) (pObject sub_1018_1) (od_size sub_1018_1) =
        Some (le_bytes 4 0x12345678)) by (vm_compute; reflexivity).
      rewrite Hm in Hl. injection Hl as <-. reflexivity.
Defined.

Example setODentry_spec_witness :
  exists sz d', setODentry (ODC := no_callbacks) 0x20F0 2 [0x34; 0x12] 2 true slave0 =
    Some ((OD_SUCCESSFUL, sz), d') /\ node_od_ok d'.
Proof.
  destruct (setODentry_spec (ODC := no_callbacks) 0x20F0 2 [0x34; 0x12] 2 true slave0
    22 sub_20F0_2) as (code & sz & d' & E & Hok & Hc & _);
    [apply TestSlave_ok|lia|reflexivity|done|reflexivity|cbn; lia|by eexists|].
  exists sz, d'. rewrite E. split; [|exact Hok]. do 3 f_equal. apply Hc.
  split; [done|]. split; [by right|reflexivity].
Defined.

Example set_get_roundtrip_witness :
  exists d', fst <$> getODentry 0x20F0 2 false 8 true d' =
    Some (OdRead OD_SUCCESSFUL 2 (Some uint16) [0x34; 0x12]).
Proof.
  assert (H : fst <$> setODentry (ODC := no_callbacks) 0x20F0 2 [0x34; 0x12] 2 true slave0
    = Some (OD_SUCCESSFUL, 2)) by (vm_compute; reflexivity).
  destruct (setODentry (ODC := no_callbacks) 0x20F0 2 [0x34; 0x12] 2 true slave0)
    as [[[c sz] d']|] eqn:E; [|discriminate H].
  injection H as -> ->. exists d'.
  destruct (set_get_roundtrip (ODC := no_callbacks) 0x20F0 2 [0x34; 0x12] 2 true slave0
    22 sub_20F0_2 2 d') as (_ & Hget & _);
    [apply TestSlave_ok|lia|reflexivity| |lia|done|exact E|].
  { intros cb d1 r d2 Hr. vm_compute in Hr. discriminate Hr. }
  rewrite (Hget 8) by done. reflexivity.
Defined.
End dictionary_witnesses.

(** A dictionary with one string of four characters, all of them in use. *)
Definition string_od : od_config :=
  OdConfig [mk_indextable [Subindex RW visible_string 4 (1, 0)] 0x2000]
    (fun w => if w =? 0x2000 then Some 0 else None)
    (QuickIndex 0 0 0 0 0 0) (QuickIndex 0 0 0 0 0 0) 1 1 (fun _ _ => Some 0) 1
    (1, 0) (1, 0) (1, 0) (1, 0) (1, 0) (1, 0) (1, 0) (1, 0) (1, 0) (1, 0) (1, 0) (1, 0).

Definition string_node : CO_Data :=
  CANOPEN_NODE_DATA_INITIALIZER string_od {[1 := [65; 66; 67; 68]]} ∅ [] [] quiet_env.

Example getODentry_string_overread_witness :
  getODentry 0x2000 0 false 32 false string_node = None.
Proof.
  apply (getODentry_string_overread 0x2000 0 32 false string_node 0
    (Subindex RW visible_string 4 (1, 0)) [65; 66; 67; 68]); try done.
  - apply od_okb_ok; [|reflexivity]. intros w i. cbn. case_match; [|done].
    intros [= <-]. lia.
  - by repeat constructor.
Defined.
