(* ===== verification/TestMaster.v ===== *)
(** * TestMaster: the dictionary of the master node (drive/TestMaster.c)

    The tables the dictionary editor generated, translated entry by entry, as in
    TestSlave.  The array of 1F22h holds pointers to string literals: their
    bytes are the addresses the linker chose ([address]), and what they point to
    is [TestMaster_obj1F22_pointer].  The second value of 1F22h is 13 bytes long
    by its subindex, but its variable is a pointer of 4, at the end of the array:
    the dictionary is not well formed there ([TestMaster_1F22_too_long]), and
    [TestMaster_plain] is the node with the lengths of the variables. *)

From S2P Require Import Prelude CMem Timers Node ObjDict TestSlave.

(** ** Value ranges *)

Definition TestMaster_valueRangeTest (typeValue : Z) (value : list Z) : option Z :=
  if typeValue =? valueRange_EMC then
    b ← value.[0]; Some (if negb (b =? 0) then OD_VALUE_RANGE_EXCEEDED else 0)
  else Some 0.

Definition TestMaster_iam_a_slave : Z := 0.
Definition TestMaster_heartBeatTimers : list Z := [TIMER_NONE].

(** ** Variables, subindexes and callback lists *)

Definition MasterMap1 : ptr := (1, 0).
Definition MasterMap2 : ptr := (2, 0).
Definition MasterMap3 : ptr := (3, 0).
Definition MasterMap4 : ptr := (4, 0).
Definition MasterMap5 : ptr := (5, 0).
Definition MasterMap6 : ptr := (6, 0).
Definition MasterMap7 : ptr := (7, 0).
Definition MasterMap8 : ptr := (8, 0).
Definition MasterMap9 : ptr := (9, 0).
Definition MasterMap10 : ptr := (10, 0).
Definition MasterMap11 : ptr := (11, 0).
Definition MasterMap12 : ptr := (12, 0).
Definition MasterMap13 : ptr := (13, 0).
Definition TestMaster_bDeviceNodeId : ptr := (14, 0).
Definition TestMaster_obj1000 : ptr := (15, 0).
Definition TestMaster_Index1000 : list subindex :=
  [Subindex RO uint32 4 TestMaster_obj1000].
Definition TestMaster_obj1001 : ptr := (16, 0).
Definition TestMaster_Index1001 : list subindex :=
  [Subindex RO uint8 1 TestMaster_obj1001].
Definition TestMaster_highestSubIndex_obj1003 : ptr := (17, 0).
Definition TestMaster_obj1003 : ptr := (18, 0).
Definition TestMaster_Index1003_callbacks : list (option od_callback) := replicate 2 None.
Definition TestMaster_Index1003 : list subindex :=
  [Subindex RW valueRange_EMC 1 TestMaster_highestSubIndex_obj1003;
   Subindex RO uint32 4 (ptr_add TestMaster_obj1003 0)].
Definition TestMaster_obj1005 : ptr := (19, 0).
Definition TestMaster_Index1005_callbacks : list (option od_callback) := replicate 1 None.
Definition TestMaster_Index1005 : list subindex :=
  [Subindex RW uint32 4 TestMaster_obj1005].
Definition TestMaster_obj1006 : ptr := (20, 0).
Definition TestMaster_Index1006_callbacks : list (option od_callback) := replicate 1 None.
Definition TestMaster_Index1006 : list subindex :=
  [Subindex RW uint32 4 TestMaster_obj1006].
Definition TestMaster_obj100C : ptr := (21, 0).
Definition TestMaster_obj100D : ptr := (22, 0).
Definition TestMaster_highestSubIndex_obj1010 : ptr := (23, 0).
Definition TestMaster_obj1010_Save_All_Parameters : ptr := (24, 0).
Definition TestMaster_obj1010_Save_Communication_Parameters : ptr := (25, 0).
Definition TestMaster_obj1010_Save_Application_Parameters : ptr := (26, 0).
Definition TestMaster_obj1010_Save_Manufacturer_Parameters_1 : ptr := (27, 0).
Definition TestMaster_Index1010 : list subindex :=
  [Subindex RO uint8 1 TestMaster_highestSubIndex_obj1010;
   Subindex RW uint32 4 TestMaster_obj1010_Save_All_Parameters;
   Subindex RW uint32 4 TestMaster_obj1010_Save_Communication_Parameters;
   Subindex RW uint32 4 TestMaster_obj1010_Save_Application_Parameters;
   Subindex RW uint32 4 TestMaster_obj1010_Save_Manufacturer_Parameters_1].
Definition TestMaster_highestSubIndex_obj1011 : ptr := (28, 0).
Definition TestMaster_obj1011_Restore_All_Default_Parameters : ptr := (29, 0).
Definition TestMaster_obj1011_Restore_Communication_Default_Parameters : ptr := (30, 0).
Definition TestMaster_obj1011_Restore_Application_Default_Parameters : ptr := (31, 0).
Definition TestMaster_obj1011_Restore_Manufacturer_Defined_Default_Parameters_1 : ptr := (32, 0).
Definition TestMaster_Index1011 : list subindex :=
  [Subindex RO uint8 1 TestMaster_highestSubIndex_obj1011;
   Subindex RW uint32 4 TestMaster_obj1011_Restore_All_Default_Parameters;
   Subindex RW uint32 4 TestMaster_obj1011_Restore_Communication_Default_Parameters;
   Subindex RW uint32 4 TestMaster_obj1011_Restore_Application_Default_Parameters;
   Subindex RW uint32 4 TestMaster_obj1011_Restore_Manufacturer_Defined_Default_Parameters_1].
Definition TestMaster_obj1014 : ptr := (33, 0).
Definition TestMaster_Index1014 : list subindex :=
  [Subindex RW uint32 4 TestMaster_obj1014].
Definition TestMaster_highestSubIndex_obj1016 : ptr := (34, 0).
Definition TestMaster_obj1016 : ptr := (35, 0).
Definition TestMaster_Index1016 : list subindex :=
  [Subindex RO uint8 1 TestMaster_highestSubIndex_obj1016;
   Subindex RW uint32 4 (ptr_add TestMaster_obj1016 0)].
Definition TestMaster_obj1017 : ptr := (36, 0).
Definition TestMaster_highestSubIndex_obj1018 : ptr := (37, 0).
Definition TestMaster_obj1018_Vendor_ID : ptr := (38, 0).
Definition TestMaster_obj1018_Product_Code : ptr := (39, 0).
Definition TestMaster_obj1018_Revision_Number : ptr := (40, 0).
Definition TestMaster_obj1018_Serial_Number : ptr := (41, 0).
Definition TestMaster_Index1018 : list subindex :=
  [Subindex RO uint8 1 TestMaster_highestSubIndex_obj1018;
   Subindex RO uint32 4 TestMaster_obj1018_Vendor_ID;
   Subindex RO uint32 4 TestMaster_obj1018_Product_Code;
   Subindex RO uint32 4 TestMaster_obj1018_Revision_Number;
   Subindex RO uint32 4 TestMaster_obj1018_Serial_Number].
Definition TestMaster_highestSubIndex_obj1280 : ptr := (42, 0).
Definition TestMaster_obj1280_COB_ID_Client_to_Server_Transmit_SDO : ptr := (43, 0).
Definition TestMaster_obj1280_COB_ID_Server_to_Client_Receive_SDO : ptr := (44, 0).
Definition TestMaster_obj1280_Node_ID_of_the_SDO_Server : ptr := (45, 0).
Definition TestMaster_Index1280 : list subindex :=
  [Subindex RO uint8 1 TestMaster_highestSubIndex_obj1280;
   Subindex RW uint32 4 TestMaster_obj1280_COB_ID_Client_to_Server_Transmit_SDO;
   Subindex RW uint32 4 TestMaster_obj1280_COB_ID_Server_to_Client_Receive_SDO;
   Subindex RW uint8 1 TestMaster_obj1280_Node_ID_of_the_SDO_Server].
Definition TestMaster_highestSubIndex_obj1400 : ptr := (46, 0).
Definition TestMaster_obj1400_COB_ID_used_by_PDO : ptr := (47, 0).
Definition TestMaster_obj1400_Transmission_Type : ptr := (48, 0).
Definition TestMaster_obj1400_Inhibit_Time : ptr := (49, 0).
Definition TestMaster_obj1400_Compatibility_Entry : ptr := (50, 0).
Definition TestMaster_obj1400_Event_Timer : ptr := (51, 0).
Definition TestMaster_Index1400 : list subindex :=
  [Subindex RO uint8 1 TestMaster_highestSubIndex_obj1400;
   Subindex RW uint32 4 TestMaster_obj1400_COB_ID_used_by_PDO;
   Subindex RW uint8 1 TestMaster_obj1400_Transmission_Type;
   Subindex RW uint16 2 TestMaster_obj1400_Inhibit_Time;
   Subindex RW uint8 1 TestMaster_obj1400_Compatibility_Entry;
   Subindex RW uint16 2 TestMaster_obj1400_Event_Timer].
Definition TestMaster_highestSubIndex_obj1401 : ptr := (52, 0).
Definition TestMaster_obj1401_COB_ID_used_by_PDO : ptr := (53, 0).
Definition TestMaster_obj1401_Transmission_Type : ptr := (54, 0).
Definition TestMaster_obj1401_Inhibit_Time : ptr := (55, 0).
Definition TestMaster_obj1401_Compatibility_Entry : ptr := (56, 0).
Definition TestMaster_obj1401_Event_Timer : ptr := (57, 0).
Definition TestMaster_Index1401 : list subindex :=
  [Subindex RO uint8 1 TestMaster_highestSubIndex_obj1401;
   Subindex RW uint32 4 TestMaster_obj1401_COB_ID_used_by_PDO;
   Subindex RW uint8 1 TestMaster_obj1401_Transmission_Type;
   Subindex RW uint16 2 TestMaster_obj1401_Inhibit_Time;
   Subindex RW uint8 1 TestMaster_obj1401_Compatibility_Entry;
   Subindex RW uint16 2 TestMaster_obj1401_Event_Timer].
Definition TestMaster_highestSubIndex_obj1402 : ptr := (58, 0).
Definition TestMaster_obj1402_COB_ID_used_by_PDO : ptr := (59, 0).
Definition TestMaster_obj1402_Transmission_Type : ptr := (60, 0).
Definition TestMaster_obj1402_Inhibit_Time : ptr := (61, 0).
Definition TestMaster_obj1402_Compatibility_Entry : ptr := (62, 0).
Definition TestMaster_obj1402_Event_Timer : ptr := (63, 0).
Definition TestMaster_Index1402 : list subindex :=
  [Subindex RO uint8 1 TestMaster_highestSubIndex_obj1402;
   Subindex RW uint32 4 TestMaster_obj1402_COB_ID_used_by_PDO;
   Subindex RW uint8 1 TestMaster_obj1402_Transmission_Type;
   Subindex RW uint16 2 TestMaster_obj1402_Inhibit_Time;
   Subindex RW uint8 1 TestMaster_obj1402_Compatibility_Entry;
   Subindex RW uint16 2 TestMaster_obj1402_Event_Timer].
Definition TestMaster_highestSubIndex_obj1403 : ptr := (64, 0).
Definition TestMaster_obj1403_COB_ID_used_by_PDO : ptr := (65, 0).
Definition TestMaster_obj1403_Transmission_Type : ptr := (66, 0).
Definition TestMaster_obj1403_Inhibit_Time : ptr := (67, 0).
Definition TestMaster_obj1403_Compatibility_Entry : ptr := (68, 0).
Definition TestMaster_obj1403_Event_Timer : ptr := (69, 0).
Definition TestMaster_Index1403 : list subindex :=
  [Subindex RO uint8 1 TestMaster_highestSubIndex_obj1403;
   Subindex RW uint32 4 TestMaster_obj1403_COB_ID_used_by_PDO;
   Subindex RW uint8 1 TestMaster_obj1403_Transmission_Type;
   Subindex RW uint16 2 TestMaster_obj1403_Inhibit_Time;
   Subindex RW uint8 1 TestMaster_obj1403_Compatibility_Entry;
   Subindex RW uint16 2 TestMaster_obj1403_Event_Timer].
Definition TestMaster_highestSubIndex_obj1600 : ptr := (70, 0).
Definition TestMaster_obj1600 : ptr := (71, 0).
Definition TestMaster_Index1600 : list subindex :=
  [Subindex RW uint8 1 TestMaster_highestSubIndex_obj1600;
   Subindex RW uint32 4 (ptr_add TestMaster_obj1600 0);
   Subindex RW uint32 4 (ptr_add TestMaster_obj1600 4);
   Subindex RW uint32 4 (ptr_add TestMaster_obj1600 8);
   Subindex RW uint32 4 (ptr_add TestMaster_obj1600 12);
   Subindex RW uint32 4 (ptr_add TestMaster_obj1600 16);
   Subindex RW uint32 4 (ptr_add TestMaster_obj1600 20);
   Subindex RW uint32 4 (ptr_add TestMaster_obj1600 24);
   Subindex RW uint32 4 (ptr_add TestMaster_obj1600 28);
   Subindex RW uint32 4 (ptr_add TestMaster_obj1600 32);
   Subindex RW uint32 4 (ptr_add TestMaster_obj1600 36)].
Definition TestMaster_highestSubIndex_obj1601 : ptr := (72, 0).
Definition TestMaster_obj1601 : ptr := (73, 0).
Definition TestMaster_Index1601 : list subindex :=
  [Subindex RW uint8 1 TestMaster_highestSubIndex_obj1601;
   Subindex RW uint32 4 (ptr_add TestMaster_obj1601 0)].
Definition TestMaster_highestSubIndex_obj1602 : ptr := (74, 0).
Definition TestMaster_obj1602 : ptr := (75, 0).
Definition TestMaster_Index1602 : list subindex :=
  [Subindex RW uint8 1 TestMaster_highestSubIndex_obj1602;
   Subindex RW uint32 4 (ptr_add TestMaster_obj1602 0)].
Definition TestMaster_highestSubIndex_obj1603 : ptr := (76, 0).
Definition TestMaster_obj1603 : ptr := (77, 0).
Definition TestMaster_Index1603 : list subindex :=
  [Subindex RW uint8 1 TestMaster_highestSubIndex_obj1603;
   Subindex RW uint32 4 (ptr_add TestMaster_obj1603 0)].
Definition TestMaster_highestSubIndex_obj1F22 : ptr := (78, 0).
Definition TestMaster_obj1F22 : ptr := (81, 0).
Definition TestMaster_obj1F22_pointer (p : ptr) : option ptr :=
  if decide (p = ptr_add TestMaster_obj1F22 0) then Some (79, 0) else
  if decide (p = ptr_add TestMaster_obj1F22 4) then Some (80, 0) else
  None.
Definition TestMaster_Index1F22 : list subindex :=
  [Subindex RO uint8 1 TestMaster_highestSubIndex_obj1F22;
   Subindex RW domain 0 (ptr_add TestMaster_obj1F22 0);
   Subindex RW domain 13 (ptr_add TestMaster_obj1F22 4)].
Definition MasterMap1_callbacks : list (option od_callback) := replicate 1 None.
Definition TestMaster_Index2000 : list subindex :=
  [Subindex RW boolean 1 MasterMap1].
Definition TestMaster_Index2001 : list subindex :=
  [Subindex RW boolean 1 MasterMap2].
Definition TestMaster_Index2002 : list subindex :=
  [Subindex RW boolean 1 MasterMap3].
Definition TestMaster_Index2003 : list subindex :=
  [Subindex RW boolean 1 MasterMap4].
Definition TestMaster_Index2004 : list subindex :=
  [Subindex RW boolean 1 MasterMap5].
Definition TestMaster_Index2005 : list subindex :=
  [Subindex RW boolean 1 MasterMap6].
Definition TestMaster_Index2006 : list subindex :=
  [Subindex RW boolean 1 MasterMap7].
Definition TestMaster_Index2007 : list subindex :=
  [Subindex RW boolean 1 MasterMap8].
Definition TestMaster_Index2008 : list subindex :=
  [Subindex RW uint8 1 MasterMap9].
Definition TestMaster_Index2009 : list subindex :=
  [Subindex RW uint32 4 MasterMap10].
Definition TestMaster_Index200A : list subindex :=
  [Subindex RW uint16 2 MasterMap11].
Definition TestMaster_Index200B : list subindex :=
  [Subindex RW int16 2 MasterMap12].
Definition TestMaster_Index200C : list subindex :=
  [Subindex RW int16 2 MasterMap13].

(** ** The table of the indexes *)

Definition TestMaster_objdict : list indextable :=
  [mk_indextable TestMaster_Index1000 0x1000;
   mk_indextable TestMaster_Index1001 0x1001;
   mk_indextable TestMaster_Index1005 0x1005;
   mk_indextable TestMaster_Index1006 0x1006;
   mk_indextable TestMaster_Index1010 0x1010;
   mk_indextable TestMaster_Index1011 0x1011;
   mk_indextable TestMaster_Index1014 0x1014;
   mk_indextable TestMaster_Index1016 0x1016;
   mk_indextable TestMaster_Index1018 0x1018;
   mk_indextable TestMaster_Index1280 0x1280;
   mk_indextable TestMaster_Index1400 0x1400;
   mk_indextable TestMaster_Index1401 0x1401;
   mk_indextable TestMaster_Index1402 0x1402;
   mk_indextable TestMaster_Index1403 0x1403;
   mk_indextable TestMaster_Index1600 0x1600;
   mk_indextable TestMaster_Index1601 0x1601;
   mk_indextable TestMaster_Index1602 0x1602;
   mk_indextable TestMaster_Index1603 0x1603;
   mk_indextable TestMaster_Index1F22 0x1F22;
   mk_indextable TestMaster_Index2000 0x2000;
   mk_indextable TestMaster_Index2001 0x2001;
   mk_indextable TestMaster_Index2002 0x2002;
   mk_indextable TestMaster_Index2003 0x2003;
   mk_indextable TestMaster_Index2004 0x2004;
   mk_indextable TestMaster_Index2005 0x2005;
   mk_indextable TestMaster_Index2006 0x2006;
   mk_indextable TestMaster_Index2007 0x2007;
   mk_indextable TestMaster_Index2008 0x2008;
   mk_indextable TestMaster_Index2009 0x2009;
   mk_indextable TestMaster_Index200A 0x200A;
   mk_indextable TestMaster_Index200B 0x200B;
   mk_indextable TestMaster_Index200C 0x200C].
Definition TestMaster_scanIndexOD (wIndex : Z) : option Z :=
  if wIndex =? 0x1000 then Some 0 else
  if wIndex =? 0x1001 then Some 1 else
  if wIndex =? 0x1005 then Some 2 else
  if wIndex =? 0x1006 then Some 3 else
  if wIndex =? 0x1010 then Some 4 else
  if wIndex =? 0x1011 then Some 5 else
  if wIndex =? 0x1014 then Some 6 else
  if wIndex =? 0x1016 then Some 7 else
  if wIndex =? 0x1018 then Some 8 else
  if wIndex =? 0x1280 then Some 9 else
  if wIndex =? 0x1400 then Some 10 else
  if wIndex =? 0x1401 then Some 11 else
  if wIndex =? 0x1402 then Some 12 else
  if wIndex =? 0x1403 then Some 13 else
  if wIndex =? 0x1600 then Some 14 else
  if wIndex =? 0x1601 then Some 15 else
  if wIndex =? 0x1602 then Some 16 else
  if wIndex =? 0x1603 then Some 17 else
  if wIndex =? 0x1F22 then Some 18 else
  if wIndex =? 0x2000 then Some 19 else
  if wIndex =? 0x2001 then Some 20 else
  if wIndex =? 0x2002 then Some 21 else
  if wIndex =? 0x2003 then Some 22 else
  if wIndex =? 0x2004 then Some 23 else
  if wIndex =? 0x2005 then Some 24 else
  if wIndex =? 0x2006 then Some 25 else
  if wIndex =? 0x2007 then Some 26 else
  if wIndex =? 0x2008 then Some 27 else
  if wIndex =? 0x2009 then Some 28 else
  if wIndex =? 0x200A then Some 29 else
  if wIndex =? 0x200B then Some 30 else
  if wIndex =? 0x200C then Some 31 else
  None.
Definition TestMaster_callbacks : gmap Z (list (option od_callback)) :=
  list_to_map
  [(0x1005, TestMaster_Index1005_callbacks);
   (0x1006, TestMaster_Index1006_callbacks);
   (0x2000, MasterMap1_callbacks)].
Definition TestMaster_firstIndex : quick_index := QuickIndex 0 9 10 14 0 0.
Definition TestMaster_lastIndex : quick_index := QuickIndex 0 9 13 17 0 0.

Definition TestMaster_PDO_status : list s_PDO_status := replicate 1 s_PDO_status_Initializer.

Definition TestMaster_ObjdictSize : Z := Z.of_nat (length TestMaster_objdict).

(** The initial contents of the variables. *)
Definition TestMaster_mem (address : Z -> Z) : mem :=
  list_to_map
  [(1, le_bytes 1 0x0);
   (2, le_bytes 1 0x0);
   (3, le_bytes 1 0x0);
   (4, le_bytes 1 0x0);
   (5, le_bytes 1 0x0);
   (6, le_bytes 1 0x0);
   (7, le_bytes 1 0x0);
   (8, le_bytes 1 0x0);
   (9, le_bytes 1 0x0);
   (10, le_bytes 4 0x0);
   (11, le_bytes 2 0x0);
   (12, le_bytes 2 0x0);
   (13, le_bytes 2 0x0);
   (14, le_bytes 1 0x00);
   (15, le_bytes 4 0x12D);
   (16, le_bytes 1 0x0);
   (17, le_bytes 1 0);
   (18, le_bytes 4 0x0);
   (19, le_bytes 4 0x40000080);
   (20, le_bytes 4 0xC350);
   (21, le_bytes 2 0x0);
   (22, le_bytes 1 0x0);
   (23, le_bytes 1 4);
   (24, le_bytes 4 0x0);
   (25, le_bytes 4 0x0);
   (26, le_bytes 4 0x0);
   (27, le_bytes 4 0x0);
   (28, le_bytes 1 4);
   (29, le_bytes 4 0x0);
   (30, le_bytes 4 0x0);
   (31, le_bytes 4 0x0);
   (32, le_bytes 4 0x0);
   (33, le_bytes 4 0x80);
   (34, le_bytes 1 1);
   (35, le_bytes 4 0x205DC);
   (36, le_bytes 2 0x0);
   (37, le_bytes 1 4);
   (38, le_bytes 4 0x0);
   (39, le_bytes 4 0x0);
   (40, le_bytes 4 0x0);
   (41, le_bytes 4 0x0);
   (42, le_bytes 1 3);
   (43, le_bytes 4 0x602);
   (44, le_bytes 4 0x582);
   (45, le_bytes 1 0x2);
   (46, le_bytes 1 5);
   (47, le_bytes 4 0x200);
   (48, le_bytes 1 0x1);
   (49, le_bytes 2 0x0);
   (50, le_bytes 1 0x0);
   (51, le_bytes 2 0x0);
   (52, le_bytes 1 5);
   (53, le_bytes 4 0x300);
   (54, le_bytes 1 0x0);
   (55, le_bytes 2 0x0);
   (56, le_bytes 1 0x0);
   (57, le_bytes 2 0x0);
   (58, le_bytes 1 5);
   (59, le_bytes 4 0x401);
   (60, le_bytes 1 0x0);
   (61, le_bytes 2 0x0);
   (62, le_bytes 1 0x0);
   (63, le_bytes 2 0x0);
   (64, le_bytes 1 5);
   (65, le_bytes 4 0x482);
   (66, le_bytes 1 0x0);
   (67, le_bytes 2 0x0);
   (68, le_bytes 1 0x0);
   (69, le_bytes 2 0x0);
   (70, le_bytes 1 10);
   (71, le_bytes 4 0x20000001 ++ le_bytes 4 0x20010001 ++ le_bytes 4 0x20020001 ++ le_bytes 4 0x20030001 ++ le_bytes 4 0x20040001 ++ le_bytes 4 0x20050001 ++ le_bytes 4 0x20060001 ++ le_bytes 4 0x20070001 ++ le_bytes 4 0x20080008 ++ le_bytes 4 0x20090020);
   (72, le_bytes 1 1);
   (73, le_bytes 4 0x200A0010);
   (74, le_bytes 1 1);
   (75, le_bytes 4 0x200B0010);
   (76, le_bytes 1 1);
   (77, le_bytes 4 0x200C0010);
   (78, le_bytes 1 2);
   (79, [0x00]);
   (80, [0x01; 0x00; 0x00; 0x00; 0x17; 0x10; 0x00; 0x02; 0x00; 0x00; 0x00; 0xe8; 0x03; 0x00]);
   (81, le_bytes 4 (address 0) ++ le_bytes 4 (address 1))].

Definition TestMaster_od_with (table : list indextable) : od_config := {|
  objdict := table;
  scan := TestMaster_scanIndexOD;
  firstIndex := TestMaster_firstIndex;
  lastIndex := TestMaster_lastIndex;
  ObjdictSize := TestMaster_ObjdictSize;
  iam_a_slave := TestMaster_iam_a_slave;
  valueRangeTest := TestMaster_valueRangeTest;
  error_history_size := 1;
  bDeviceNodeId := TestMaster_bDeviceNodeId;
  ConsumerHeartbeatCount := TestMaster_highestSubIndex_obj1016;
  ConsumerHeartbeatEntries := TestMaster_obj1016;
  ProducerHeartBeatTime := TestMaster_obj1017;
  GuardTime := TestMaster_obj100C;
  LifeTimeFactor := TestMaster_obj100D;
  COB_ID_Sync := TestMaster_obj1005;
  Sync_Cycle_Period := TestMaster_obj1006;
  error_number := TestMaster_highestSubIndex_obj1003;
  error_first_element := TestMaster_obj1003;
  error_register := TestMaster_obj1001;
  error_cobid := TestMaster_obj1014
|}.

Definition TestMaster_od : od_config := TestMaster_od_with TestMaster_objdict.

Definition TestMaster_Data (address : Z -> Z) (env : co_world) : CO_Data :=
  CANOPEN_NODE_DATA_INITIALIZER TestMaster_od (TestMaster_mem address) TestMaster_callbacks
    TestMaster_heartBeatTimers TestMaster_PDO_status env.

(** ** Is the dictionary well formed? *)

Lemma TestMaster_scan_sound w i :
  TestMaster_scanIndexOD w = Some i -> 0 <= i < 32.
Proof.
  unfold TestMaster_scanIndexOD.
  repeat (case_match; [intros [= <-]; lia|]). done.
Qed.

(** The node, with the values of 1F22h as long as their variables. *)
Definition TestMaster_plain_od : od_config :=
  TestMaster_od_with (<[18%nat := mk_indextable
    [Subindex RO uint8 1 TestMaster_highestSubIndex_obj1F22;
     Subindex RW domain 4 (ptr_add TestMaster_obj1F22 0);
     Subindex RW domain 4 (ptr_add TestMaster_obj1F22 4)] 0x1F22]> TestMaster_objdict).

Definition TestMaster_plain (address : Z -> Z) (env : co_world) : CO_Data :=
  CANOPEN_NODE_DATA_INITIALIZER TestMaster_plain_od (TestMaster_mem address) TestMaster_callbacks
    TestMaster_heartBeatTimers TestMaster_PDO_status env.

Lemma TestMaster_plain_ok address env : node_od_ok (TestMaster_plain address env).
Proof.
  apply od_okb_ok.
  - intros w i Hi. by apply TestMaster_scan_sound in Hi.
  - vm_compute. reflexivity.
Qed.

(** Reading the value of 1F22h, subindex 2, leaves the array of pointers. *)
Lemma TestMaster_1F22_too_long address env :
  getODentry 0x1F22 2 false 64 false (TestMaster_Data address env) = None.
Proof. reflexivity. Qed.
