(* ===== verification/Emcy.v ===== *)
(** * Emcy: emergency objects (src/emcy.c)

    The node keeps the errors it has reported in [error_data], mirrors the
    active ones in the error register (1001h) and the history of codes in the
    predefined error field (1003h), and announces changes with EMCY messages. *)

From S2P Require Import Prelude CMem Timers Node ObjDict.

(** ** Operations *)

(** Called when index 0x1003 is updated. *)
Definition OnNumberOfErrorsUpdate : CO Z :=
  od ← get co_od;
  n ← rd 1 (error_number od);
  _ ← when (n =? 0)
    (st_for (Z.to_nat (error_history_size od)) 0 (fun index =>
       wr 4 (ptr_add (error_first_element od) (4 * index)) 0));
  ret 0.

Definition emergencyInit : CO unit :=
  _ ← RegisterSetODentryCallBack 0x1003 0x00 (Some OnNumberOfErrorsUpdate_cb);
  od ← get co_od;
  wr 1 (error_number od) 0.

Definition emergencyStop : CO unit := st_skip.

(** [Specific] is the manufacturer field, [None] for the null pointer. *)
Definition sendEMCY (code reg : Z) (Specific : option (list Z)) (SpecificLength : Z)
    : CO Z :=
  od ← get co_od;
  m ← Message_uninit;
  cobid ← rd 4 (error_cobid od);
  m ← opt (set_bytes 0 [Z.land code 0xFF; Z.land (Z.shiftr code 8) 0xFF; reg] m);
  '(m, n) ← match Specific with
    | None => m ← opt (set_bytes 3 [0; 0; 0; 0; 0] m); ret (m, 5)
    | Some bytes =>
        let n := if 5 <? SpecificLength then 5 else SpecificLength in
        m ← opt (if n <=? Z.of_nat (length bytes)
                 then set_bytes 3 (take (Z.to_nat n) bytes) m else None);
        ret (m, n)
    end;
  canSend (MkMessage (u16 cobid) NOT_A_REQUEST (n + 3) (msg_data m)).

(** The first entry from [index] on that satisfies [p]; EMCY_MAX_ERRORS if none. *)
Fixpoint search (fuel : nat) (index : Z) (p : s_errors -> bool) (l : list s_errors)
    : option Z :=
  match fuel with
  | O => Some index
  | S fuel =>
      if index <? EMCY_MAX_ERRORS then
        e ← l.[index];
        if p e then Some index else search fuel (index + 1) p l
      else Some index
  end.

Definition search_error (p : s_errors -> bool) : CO Z :=
  em ← get co_em; opt (search (Z.to_nat EMCY_MAX_ERRORS) 0 p (error_data em)).

Definition get_error (index : Z) : CO s_errors :=
  em ← get co_em; opt ((error_data em).[index]).

Definition set_error (index : Z) (e : s_errors) : CO unit := fun d =>
  (fun l => (tt, d <| co_em ::= set error_data (fun _ => l) |>)) <$>
    (error_data (co_em d)).[index <- e].

(** The bits of the active errors. *)
Definition errRegister_of (l : list s_errors) : Z :=
  fold_left (fun tmp e => if active e =? 1 then Z.lor tmp (errRegMask e) else tmp) l 0.

Definition anyActiveError (l : list s_errors) : bool :=
  existsb (fun e => active e =? 1) l.

(** The history moves one place up, from [index] down to 1. *)
Fixpoint shift_history (index : nat) : CO unit :=
  match index with
  | O => st_skip
  | S index' =>
      od ← get co_od;
      v ← rd 4 (ptr_add (error_first_element od) (4 * Z.of_nat index'));
      _ ← wr 4 (ptr_add (error_first_element od) (4 * Z.of_nat index)) v;
      shift_history index'
  end.

(** From the entry chosen on. *)
Definition record_error (index code mask addInfo : Z) : CO Z :=
  od ← get co_od;
  _ ← set_error index (Errors code mask 1);
  _ ← modify (set co_em (set error_state (fun _ => Error_occurred)));
  em ← get co_em;
  _ ← wr 1 (error_register od) (errRegister_of (error_data em));
  _ ← shift_history (Z.to_nat (u8 (error_history_size od - 1)));
  _ ← wr 4 (error_first_element od) (Z.lor code (Z.shiftl addInfo 16));
  n ← rd 1 (error_number od);
  _ ← when (n <? error_history_size od) (wr 1 (error_number od) (n + 1));
  st ← get co_st;
  if negb (csEmergency (CurrentCommunicationState st) =? 0) then
    reg ← rd 1 (error_register od);
    sendEMCY code reg None 0
  else ret 1.

Definition EMCY_setError (code mask addInfo : Z) : CO Z :=
  index ← search_error (fun e => errCode e =? code);
  if index =? EMCY_MAX_ERRORS then
    index ← search_error (fun e => active e =? 0);
    if index =? EMCY_MAX_ERRORS then ret 1
    else record_error index code mask addInfo
  else
    e ← get_error index;
    if negb (active e =? 0) then ret 0 else
    _ ← set_error index (Errors (errCode e) (errRegMask e) 1);
    record_error index code mask addInfo.

Definition EMCY_errorRecovered (code : Z) : CO unit :=
  index ← search_error (fun e => errCode e =? code);
  if index =? EMCY_MAX_ERRORS then st_skip else
  e ← get_error index;
  if active e =? 1 then
    od ← get co_od;
    _ ← set_error index (Errors (errCode e) (errRegMask e) 0);
    em ← get co_em;
    _ ← when (negb (anyActiveError (error_data em)))
      (_ ← modify (set co_em (set error_state (fun _ => Error_free)));
       st ← get co_st;
       when (negb (csEmergency (CurrentCommunicationState st) =? 0))
         (_ ← sendEMCY 0x0000 0x00 None 0; st_skip));
    wr 1 (error_register od) (errRegister_of (error_data em))
  else st_skip.

Definition proceedEMCY (m : Message) : CO unit :=
  if negb (len m =? 8) then st_skip else
  let nodeID := Z.land (cob_id m) 0x7F in
  b0 ← data_at m 0;
  b1 ← data_at m 1;
  reg ← data_at m 2;
  emit (Call_post_emcy nodeID (Z.lor b0 (Z.shiftl b1 8)) reg).

(** ** The errors as a table *)

Lemma search_spec fuel i p l :
  0 <= i -> i + Z.of_nat fuel = EMCY_MAX_ERRORS -> Z.of_nat (length l) = EMCY_MAX_ERRORS ->
  exists k, search fuel i p l = Some k /\ i <= k <= EMCY_MAX_ERRORS /\
    (forall j e, i <= j < k -> l.[j] = Some e -> p e = false) /\
    (k < EMCY_MAX_ERRORS -> exists e, l.[k] = Some e /\ p e = true).
Proof.
  revert i. induction fuel as [|fuel IH]; intros i Hi Hf Hl; cbn [search].
  { exists i. splits; [done|lia|lia|intros; lia|lia]. }
  ztest. destruct (arr_get_is_Some l i) as [e He]; [lia|]. rewrite He.
  cbn [mbind option_bind]. destruct (p e) eqn:Ep.
  { exists i. splits; [done|lia|lia|intros; lia|]. by exists e. }
  destruct (IH (i + 1)) as (k & Hk & Hr & Hn & Hs); [lia|lia|done|].
  exists k. splits; [done|lia|lia| |done]. intros j e' Hj He'.
  destruct (decide (j = i)) as [->|]; [congruence|]. apply (Hn j); [lia|done].
Qed.

Lemma search_error_spec p d :
  Z.of_nat (length (error_data (co_em d))) = EMCY_MAX_ERRORS ->
  exists k, search_error p d = Some (k, d) /\ 0 <= k <= EMCY_MAX_ERRORS /\
    (forall j e, 0 <= j < k -> (error_data (co_em d)).[j] = Some e -> p e = false) /\
    (k < EMCY_MAX_ERRORS -> exists e, (error_data (co_em d)).[k] = Some e /\ p e = true).
Proof.
  intros Hl.
  destruct (search_spec (Z.to_nat EMCY_MAX_ERRORS) 0 p (error_data (co_em d)))
    as (k & Hk & H); [done..|].
  exists k. split; [|done]. unfold search_error. co_red. by rewrite Hk.
Qed.

(** ** The invariant *)

(** The variables behind the pointers do not overlap. *)
Record emcy_ptrs (od : od_config) : Prop := EmcyPtrs {
  ep_size : 1 <= error_history_size od <= 255;
  ep_reg_num : disjoint_range (error_register od) 1 (error_number od) 1;
  ep_reg_hist : disjoint_range (error_register od) 1 (error_first_element od)
                  (4 * error_history_size od);
  ep_num_hist : disjoint_range (error_number od) 1 (error_first_element od)
                  (4 * error_history_size od);
  ep_reg_cob : disjoint_range (error_register od) 1 (error_cobid od) 4;
  ep_num_cob : disjoint_range (error_number od) 1 (error_cobid od) 4;
  ep_hist_cob : disjoint_range (error_first_element od) (4 * error_history_size od)
                  (error_cobid od) 4
}.

(** Every error is active or not, and no inactive entry hides an active one of
    the same code. *)
Record table_ok (l : list s_errors) : Prop := TableOk {
  to_len : Z.of_nat (length l) = EMCY_MAX_ERRORS;
  to_active i e : l.[i] = Some e -> active e = 0 \/ active e = 1;
  to_first i j ei ej : l.[i] = Some ei -> l.[j] = Some ej -> i < j ->
    active ej = 1 -> errCode ei <> errCode ej
}.

(** The memory: register [reg], [n] errors counted, history [ws], EMCY COB-ID
    [cob]. *)
Record emcy_mem (od : od_config) (m : mem) (reg n cob : Z) (ws : list Z) : Prop :=
  EmcyMem {
  em_reg : load 1 m (error_register od) = Some reg;
  em_num : load 1 m (error_number od) = Some n;
  em_cob : load 4 m (error_cobid od) = Some cob;
  em_hist : words m (error_first_element od) ws;
  em_size : Z.of_nat (length ws) = error_history_size od;
  em_words : Forall (fun w => 0 <= w < 2 ^ 32) ws;
  em_count : 0 <= n <= error_history_size od
}.

(** The register is the union of the active errors' bits, and the error state
    says whether there is one. *)
Record emcy_inv (d : CO_Data) (n cob : Z) (ws : list Z) : Prop := EmcyInv {
  ei_ptrs : emcy_ptrs (co_od d);
  ei_table : table_ok (error_data (co_em d));
  ei_mem : emcy_mem (co_od d) (co_mem d) (errRegister_of (error_data (co_em d))) n cob ws;
  ei_masks i e : (error_data (co_em d)).[i] = Some e -> 0 <= errRegMask e < 256;
  ei_state : error_state (co_em d) =
    (if anyActiveError (error_data (co_em d)) then Error_occurred else Error_free);
  ei_env : clean_env (co_env d)
}.

(** ** Messages *)

Definition EMCY_message (cob code reg : Z) : Message :=
  MkMessage (u16 cob) NOT_A_REQUEST 8
    [Z.land code 0xFF; Z.land (Z.shiftr code 8) 0xFF; reg; 0; 0; 0; 0; 0].

Lemma sendEMCY_eq d code reg cob :
  load 4 (co_mem d) (error_cobid (co_od d)) = Some cob -> clean_env (co_env d) ->
  exists r, sendEMCY code reg None 0 d =
    Some (r, d <| co_log ::= (fun l => l ++ [Sent (EMCY_message cob code reg)]) |>).
Proof.
  intros Hc Henv. unfold sendEMCY, Message_uninit. co_red. rewrite (rd_eq _ _ _ _ Hc).
  set (g := garbage _ _). specialize (Henv (length (co_log d))). fold g in Henv.
  set (b3 := [_; _; reg]).
  destruct (set_bytes_is_Some 0 b3 g) as [m1 E1]; [lia|unfold b3; cbn [length]; lia|].
  rewrite E1. destruct (set_bytes_data _ _ _ _ E1) as (D1 & _); [lia|unfold b3; cbn [length]; lia|].
  assert (H1 : length (msg_data m1) = 8%nat).
  { rewrite D1, !length_app, length_take, length_drop. unfold b3. cbn [length]. lia. }
  destruct (set_bytes_is_Some 3 [0; 0; 0; 0; 0] m1) as [m2 E2]; [lia|cbn [length]; lia|].
  rewrite E2. destruct (set_bytes_data _ _ _ _ E2) as (D2 & _); [lia|cbn [length]; lia|].
  replace (msg_data m2) with (b3 ++ [0; 0; 0; 0; 0]).
  - by eexists.
  - rewrite D2. change (Z.to_nat 3) with 3%nat. rewrite drop_ge by (cbn; lia).
    rewrite app_nil_r, D1. done.
Qed.

(** ** The history *)

Definition shifted (i : nat) (ws : list Z) : list Z :=
  take 1 ws ++ take i ws ++ drop (S i) ws.

(** What a step of memory leaves alone. *)
Definition mem_frame (p : ptr) (n : Z) (m m' : mem) : Prop :=
  forall q k, disjoint_range p n q k -> load k m' q = load k m q.

Lemma shift_history_spec i d ws :
  let p := error_first_element (co_od d) in
  words (co_mem d) p ws -> (i < length ws)%nat -> Forall (fun w => 0 <= w < 2 ^ 32) ws ->
  exists m', shift_history i d = Some (tt, d <| co_mem := m' |>) /\
    words m' p (shifted i ws) /\
    mem_frame p (4 * Z.of_nat (length ws)) (co_mem d) m'.
Proof.
  cbn zeta. revert d ws. induction i as [|i IH]; intros d ws Hw Hi Hr; cbn [shift_history].
  { exists (co_mem d). unfold shifted. rewrite take_0, app_nil_l, take_drop.
    splits; [by destruct d|done|by intros q k _]. }
  co_red. destruct (lookup_lt_is_Some_2 ws i) as [v Hv]; [lia|].
  rewrite (rd_eq _ _ _ v) by (by rewrite Hw by lia).
  destruct (lookup_lt_is_Some_2 ws (S i)) as [v' Hv']; [lia|].
  destruct (wr_ok 4 (ptr_add (error_first_element (co_od d)) (4 * Z.of_nat (S i))) v d v')
    as (m1 & Hm & ->); [by rewrite <- Hv'; apply Hw|].
  assert (Hvr : 0 <= v < 2 ^ 32) by (rewrite Forall_lookup in Hr; by eapply Hr).
  destruct (IH (d <| co_mem := m1 |>) (<[S i := v]> ws)) as (m' & E & Hw' & Hfr).
  - by eapply words_store.
  - rewrite length_insert. lia.
  - by apply Forall_insert.
  - exists m'. splits; [exact E| |].
    + replace (shifted (S i) ws) with (shifted i (<[S i:=v]> ws)); [done|].
      unfold shifted. rewrite !take_insert_ge by lia. f_equal.
      rewrite (take_S_r _ _ _ Hv), <- app_assoc. f_equal. cbn [app].
      rewrite (drop_S _ v (S i)) by (by apply list_lookup_insert_eq).
      f_equal. by rewrite drop_insert_lt by lia.
    + intros q k Hd. rewrite (Hfr q k) by (by rewrite length_insert).
      eapply (load_store_other 4); [exact Hm|].
      unfold disjoint_range, ptr_add in *. cbn in *. lia.
Qed.

(** ** Recording an error *)

Lemma errRegister_range l :
  (forall e, e ∈ l -> 0 <= errRegMask e < 256) -> 0 <= errRegister_of l < 256.
Proof.
  unfold errRegister_of. intros Hl.
  enough (H : forall z, 0 <= z < 256 ->
    0 <= fold_left (fun tmp e => if active e =? 1 then Z.lor tmp (errRegMask e) else tmp)
           l z < 256) by (apply H; lia).
  induction l as [|e l IH]; intros z Hz; cbn; [done|].
  apply IH; [intros; apply Hl; by right|].
  destruct (active e =? 1); [|done]. apply (lor_range 8); [lia|done|].
  apply Hl. left.
Qed.

Definition history_word (code addInfo : Z) : Z := Z.lor code (Z.shiftl addInfo 16).

Lemma history_word_range code addInfo :
  0 <= code < 2 ^ 16 -> 0 <= addInfo < 2 ^ 16 -> 0 <= history_word code addInfo < 2 ^ 32.
Proof.
  intros Hc Ha. apply lor_range; [lia|lia|]. rewrite Z.shiftl_mul_pow2 by lia. lia.
Qed.

Lemma disjoint_sym p n q k : disjoint_range p n q k -> disjoint_range q k p n.
Proof. unfold disjoint_range. intros [?|[?|?]]; auto. Qed.

(** The new register byte. *)
Lemma emcy_mem_reg od m reg n cob ws v m' :
  emcy_ptrs od -> emcy_mem od m reg n cob ws -> 0 <= v < 256 ->
  store 1 m (error_register od) v = Some m' -> emcy_mem od m' v n cob ws.
Proof.
  intros [] [] Hv Hs. pose proof (load_store_same 1 _ _ _ _ Hs) as E.
  constructor; try done.
  - change (Z.of_nat 1) with 1 in E. rewrite E. f_equal. by apply Z.mod_small.
  - by rewrite (load_store_other _ _ _ _ _ _ _ Hs).
  - by rewrite (load_store_other _ _ _ _ _ _ _ Hs).
  - eapply words_other; [done|exact Hs|]. by rewrite em_size0.
Qed.

(** The new count. *)
Lemma emcy_mem_num od m reg n cob ws v m' :
  emcy_ptrs od -> emcy_mem od m reg n cob ws -> 0 <= v <= error_history_size od ->
  store 1 m (error_number od) v = Some m' -> emcy_mem od m' reg v cob ws.
Proof.
  intros [] [] Hv Hs. pose proof (load_store_same 1 _ _ _ _ Hs) as E.
  constructor; try done.
  - rewrite (load_store_other _ _ _ _ _ _ _ Hs); [done|by apply disjoint_sym].
  - change (Z.of_nat 1) with 1 in E. rewrite E. f_equal. apply Z.mod_small. lia.
  - by rewrite (load_store_other _ _ _ _ _ _ _ Hs).
  - eapply words_other; [done|exact Hs|]. by rewrite em_size0.
Qed.

(** A new history, the rest of memory unchanged. *)
Lemma emcy_mem_hist od m reg n cob ws ws' m' :
  emcy_ptrs od -> emcy_mem od m reg n cob ws ->
  words m' (error_first_element od) ws' -> length ws' = length ws ->
  Forall (fun w => 0 <= w < 2 ^ 32) ws' ->
  mem_frame (error_first_element od) (4 * error_history_size od) m m' ->
  emcy_mem od m' reg n cob ws'.
Proof.
  intros [] [] Hw Hl Hr Hfr. constructor; try done.
  - rewrite Hfr; [done|by apply disjoint_sym].
  - rewrite Hfr; [done|by apply disjoint_sym].
  - by rewrite Hfr.
  - by rewrite Hl.
Qed.

Lemma push_history m p ws ws1 m1 v m2 :
  words m1 p ws1 -> ws1 = shifted (length ws - 1) ws -> (0 < length ws)%nat ->
  0 <= v < 2 ^ 32 -> store 4 m1 p v = Some m2 ->
  mem_frame p (4 * Z.of_nat (length ws)) m m1 ->
  words m2 p (v :: take (length ws - 1) ws) /\
  mem_frame p (4 * Z.of_nat (length ws)) m m2.
Proof.
  intros Hw -> Hl Hv Hs Hfr. split.
  - replace (v :: _) with (<[0%nat := v]> (shifted (length ws - 1) ws)).
    + apply (words_store m1 p _ 0 v m2 Hw); [|done|].
      * unfold shifted. rewrite length_app, length_take. lia.
      * unfold ptr_add. rewrite Z.mul_0_r, Z.add_0_r. by destruct p.
    + unfold shifted. rewrite drop_ge, app_nil_r by lia.
      destruct ws as [|w ws]; [cbn in Hl; lia|]. cbn. by rewrite take_0.
  - intros q k Hd. rewrite <- (Hfr q k Hd).
    apply (load_store_other 4 _ _ _ _ _ _ Hs).
    unfold disjoint_range in *. lia.
Qed.

(** The count of errors in the history, up to its size. *)
Lemma count_error d reg n cob ws :
  emcy_ptrs (co_od d) -> emcy_mem (co_od d) (co_mem d) reg n cob ws ->
  exists m, when (n <? error_history_size (co_od d)) (wr 1 (error_number (co_od d)) (n + 1)) d
      = Some (tt, d <| co_mem := m |>) /\
    emcy_mem (co_od d) m reg (Z.min (n + 1) (error_history_size (co_od d))) cob ws.
Proof.
  intros P M. pose proof (ep_size _ P) as Hsz. pose proof (em_count _ _ _ _ _ _ M) as Hn.
  destruct (n <? error_history_size (co_od d)) eqn:Eb; zb; unfold when.
  - destruct (wr_ok 1 (error_number (co_od d)) (n + 1) d n) as (m4 & E4 & ->); [apply M|].
    exists m4. split; [done|]. eapply emcy_mem_num; [done|exact M|lia|].
    replace (Z.min _ _) with (n + 1) by lia. exact E4.
  - exists (co_mem d). split; [by destruct d|]. by replace (Z.min _ _) with n by lia.
Qed.

Lemma record_error_spec d index code mask addInfo reg n cob ws :
  emcy_ptrs (co_od d) -> emcy_mem (co_od d) (co_mem d) reg n cob ws -> clean_env (co_env d) ->
  0 <= index < Z.of_nat (length (error_data (co_em d))) ->
  (forall e, e ∈ <[Z.to_nat index := Errors code mask 1]> (error_data (co_em d)) ->
     0 <= errRegMask e < 256) ->
  0 <= code < 2 ^ 16 -> 0 <= addInfo < 2 ^ 16 ->
  let l := <[Z.to_nat index := Errors code mask 1]> (error_data (co_em d)) in
  let on := csEmergency (CurrentCommunicationState (co_st d)) in
  exists r m,
    record_error index code mask addInfo d =
      Some (r, d <| co_mem := m |> <| co_em := CoEmcy Error_occurred l |>
                 <| co_log ::= (fun log => log ++
                      if on =? 0 then []
                      else [Sent (EMCY_message cob code (errRegister_of l))]) |>) /\
    (on = 0 -> r = 1) /\
    emcy_mem (co_od d) m (errRegister_of l) (Z.min (n + 1) (error_history_size (co_od d)))
      cob (history_word code addInfo :: take (length ws - 1) ws).
Proof.
  intros P M Henv Hi Hmasks Hc Ha l on. unfold record_error, set_error. co_red.
  rewrite arr_set_is_Some by done. fold l. co_red. cbn [set co_em error_data].
  pose proof (errRegister_range l Hmasks) as Hreg.
  set (d1 := d <| co_em := CoEmcy Error_occurred l |>).
  destruct (wr_ok 1 (error_register (co_od d)) (errRegister_of l) d1 reg)
    as (m1 & E1 & H1); [apply M|].
  match goal with |- context [wr 1 _ _ ?x] => change x with d1 end. rewrite H1.
  pose proof (emcy_mem_reg _ _ _ _ _ _ _ _ P M Hreg E1) as M1.
  pose proof (ep_size _ P) as Hsz. pose proof (em_size _ _ _ _ _ _ M) as Hl.
  rewrite u8_small by lia.
  replace (Z.to_nat (error_history_size (co_od d) - 1)) with (length ws - 1)%nat by lia.
  destruct (shift_history_spec (length ws - 1) (d1 <| co_mem := m1 |>) ws)
    as (m2 & -> & W2 & F2); [apply M1|lia|apply M1|].
  set (d2 := _ <| co_mem := m2 |>).
  assert (H0 : (0 < length ws)%nat) by lia.
  destruct (lookup_lt_is_Some_2 (shifted (length ws - 1) ws) 0) as [w0 Hw0].
  { unfold shifted. rewrite length_app, length_take. lia. }
  destruct (wr_ok 4 (error_first_element (co_od d)) (history_word code addInfo) d2 w0)
    as (m3 & E3 & H3).
  { rewrite <- Hw0. rewrite <- (W2 0%nat).
    - unfold ptr_add. rewrite Z.mul_0_r, Z.add_0_r. by destruct (error_first_element _).
    - by apply lookup_lt_Some in Hw0. }
  fold (history_word code addInfo). rewrite H3.
  pose proof (history_word_range code addInfo Hc Ha) as Hv.
  destruct (push_history m1 _ ws _ m2 _ m3 W2 eq_refl H0 Hv E3 F2) as (W3 & F3).
  assert (M3 : emcy_mem (co_od d) m3 (errRegister_of l) n cob
    (history_word code addInfo :: take (length ws - 1) ws)).
  { eapply (emcy_mem_hist _ m1); [done|exact M1|exact W3|cbn; rewrite length_take; lia| |].
    - constructor; [done|]. apply Forall_take, M.
    - by rewrite <- Hl. }
  set (d3 := d2 <| co_mem := m3 |>). rewrite (rd_eq 1 (error_number (co_od d)) d3 n) by apply M3.
  destruct (count_error d3 (errRegister_of l) n cob (history_word code addInfo :: take (length ws - 1) ws) P M3)
    as (m4 & E4 & M4).
  change (co_od d3) with (co_od d) in E4, M4. rewrite E4.
  change (d3 <| co_mem := m4 |>) with (d <| co_mem := m4 |> <| co_em := CoEmcy Error_occurred l |>).
  cbn [set co_st CurrentCommunicationState csEmergency]. fold on.
  destruct (on =? 0) eqn:Eon; zb; cbn [negb].
  - exists 1, m4. splits; [|done|exact M4]. cbv [set]. cbn beta. by rewrite app_nil_r.
  - set (d4 := _ <| co_em := _ |>).
    rewrite (rd_eq 1 (error_register (co_od d)) d4 (errRegister_of l)) by apply M4.
    destruct (sendEMCY_eq d4 code (errRegister_of l) cob) as [r E]; [apply M4|exact Henv|].
    exists r, m4. splits; [exact E|lia|exact M4].
Qed.

(** ** The table of errors *)

Definition is_active (code : Z) (l : list s_errors) : bool :=
  existsb (fun e => (errCode e =? code) && (active e =? 1)) l.

Definition all_active (l : list s_errors) : bool := forallb (fun e => active e =? 1) l.

Lemma is_active_spec code l :
  is_active code l = true <->
  exists j e, l.[j] = Some e /\ errCode e = code /\ active e = 1.
Proof.
  unfold is_active. rewrite existsb_exists. split.
  - intros (e & [j Hj]%list_elem_of_In%list_elem_of_lookup & H). zb.
    exists (Z.of_nat j), e. by rewrite arr_get_nat.
  - intros (j & e & [_ Hj]%arr_get_Some & Hc & Ha). exists e.
    split; [by eapply list_elem_of_In, list_elem_of_lookup_2|].
    by rewrite Hc, Ha, Z.eqb_refl.
Qed.

Lemma is_active_ext c l l' :
  (forall j e, l.[j] = Some e -> errCode e = c -> active e = 1 -> l'.[j] = Some e) ->
  (forall j e, l'.[j] = Some e -> errCode e = c -> active e = 1 -> l.[j] = Some e) ->
  is_active c l' = is_active c l.
Proof.
  intros H1 H2. apply eq_true_iff_eq. rewrite !is_active_spec.
  split; intros (j & e & Hj & ? & ?); exists j, e; eauto.
Qed.

Lemma anyActive_spec l :
  anyActiveError l = true <-> exists j e, l.[j] = Some e /\ active e = 1.
Proof.
  unfold anyActiveError. rewrite existsb_exists. split.
  - intros (e & [j Hj]%list_elem_of_In%list_elem_of_lookup & H). zb.
    exists (Z.of_nat j), e. by rewrite arr_get_nat.
  - intros (j & e & [_ Hj]%arr_get_Some & Ha). exists e.
    split; [by eapply list_elem_of_In, list_elem_of_lookup_2|]. by rewrite Ha.
Qed.

(** Activating entry [k], not active before, for [code]. *)
Lemma table_ok_set l k code mask :
  table_ok l -> 0 <= k < EMCY_MAX_ERRORS ->
  (forall j e, j < k -> l.[j] = Some e -> errCode e <> code) ->
  is_active code l = false ->
  table_ok (<[Z.to_nat k := Errors code mask 1]> l).
Proof.
  intros [Hl Ha Hf] Hk Hn Hact. constructor.
  - by rewrite length_insert.
  - intros i e. rewrite insert_get by lia. case_decide; [intros [= <-]; by right|by apply Ha].
  - intros i j ei ej. rewrite !insert_get by lia. repeat case_decide; subst.
    + lia.
    + intros [= <-] Hj _ Haj Hc. cbn in Hc.
      assert (is_active code l = true) by (apply is_active_spec; by exists j, ej).
      congruence.
    + intros Hi [= <-] Hij _. by eapply Hn.
    + by apply Hf.
Qed.

(** Deactivating entry [k]. *)
Lemma table_ok_clear l k e :
  table_ok l -> l.[k] = Some e ->
  table_ok (<[Z.to_nat k := Errors (errCode e) (errRegMask e) 0]> l).
Proof.
  intros [Hl Ha Hf] Hk. pose proof (arr_get_lt _ _ _ Hk). constructor.
  - by rewrite length_insert.
  - intros i e'. rewrite insert_get by lia. case_decide; [intros [= <-]; by left|by apply Ha].
  - intros i j ei ej. rewrite !insert_get by lia. repeat case_decide; subst.
    + lia.
    + intros [= <-] Hj Hij Haj. cbn. by eapply Hf.
    + by intros _ [= <-] _ [=].
    + by apply Hf.
Qed.

Lemma inactive_not_all l k e : l.[k] = Some e -> active e = 0 -> all_active l = false.
Proof.
  intros [_ He]%arr_get_Some H0. apply not_true_iff_false. unfold all_active.
  rewrite forallb_forall. intros H. specialize (H e). rewrite H0 in H. discriminate H.
  by eapply list_elem_of_In, list_elem_of_lookup_2.
Qed.

(** An inactive entry that is the first of its code: the code is not active. *)
Lemma first_inactive l k e code :
  table_ok l -> l.[k] = Some e -> errCode e = code -> active e = 0 ->
  (forall j e', j < k -> l.[j] = Some e' -> errCode e' <> code) ->
  is_active code l = false.
Proof.
  intros [Hl Ha Hf] He Hc H0 Hn. apply not_true_iff_false. rewrite is_active_spec.
  intros (j & e' & Hj & Hc' & Ha'). destruct (decide (j < k)); [by eapply Hn|].
  destruct (decide (j = k)) as [->|]; [congruence|].
  apply (Hf k j e e'); [done|done|lia|done|congruence].
Qed.

(** Writing the entry twice is writing it once. *)
Lemma set_error_ok k x d :
  0 <= k < Z.of_nat (length (error_data (co_em d))) ->
  exists d1, set_error k x d = Some (tt, d1) /\
    forall code mask addInfo,
      record_error k code mask addInfo d1 = record_error k code mask addInfo d.
Proof.
  intros Hk. unfold set_error at 1. rewrite arr_set_is_Some by done.
  cbn [fmap option_fmap option_map]. eexists. split; [reflexivity|]. intros code mask addInfo.
  set (d1 := _ <| co_em ::= _ |>).
  assert (E : set_error k (Errors code mask 1) d1 = set_error k (Errors code mask 1) d).
  { unfold set_error. cbn [d1 set co_em error_data].
    rewrite !arr_set_is_Some by (rewrite ?length_insert; done).
    by rewrite list_insert_insert_eq. }
  unfold record_error. unfold mbind at 1 3, ST_bind at 1 3. unfold get, st_get at 1 3.
  cbn beta iota. change (co_od d1) with (co_od d).
  unfold mbind at 1 2, ST_bind at 1 2. by rewrite E.
Qed.

(** The entry chosen: it is inactive, and no earlier entry has the code. *)
Lemma EMCY_setError_choice d code mask addInfo :
  table_ok (error_data (co_em d)) ->
  let l := error_data (co_em d) in
  (is_active code l = true /\ EMCY_setError code mask addInfo d = Some (0, d)) \/
  (is_active code l = false /\ all_active l = true /\
   EMCY_setError code mask addInfo d = Some (1, d)) \/
  (is_active code l = false /\ all_active l = false /\ exists k e,
     l.[k] = Some e /\ active e = 0 /\
     (forall j e, j < k -> l.[j] = Some e -> errCode e <> code) /\
     EMCY_setError code mask addInfo d = record_error k code mask addInfo d).
Proof.
  intros [Hl Ha Hf] l. unfold EMCY_setError.
  destruct (search_error_spec (fun e => errCode e =? code) d Hl) as (k & E & Hk & Hn & Hs).
  fold l in Hl, Ha, Hf, Hn, Hs. co_red. rewrite E. destruct (k =? EMCY_MAX_ERRORS) eqn:Ek; zb.
  - assert (Hno : forall j e, l.[j] = Some e -> errCode e <> code).
    { intros j e Hj. pose proof (arr_get_lt _ _ _ Hj). apply Z.eqb_neq.
      apply (Hn j); [lia|done]. }
    assert (Hact : is_active code l = false).
    { apply not_true_iff_false. rewrite is_active_spec.
      intros (j & e & Hj & Hc & _). by eapply Hno. }
    right. destruct (search_error_spec (fun e => active e =? 0) d Hl)
      as (k2 & E2 & Hk2 & Hn2 & Hs2). fold l in Hn2, Hs2. rewrite E2.
    destruct (k2 =? EMCY_MAX_ERRORS) eqn:Ek2; zb.
    + left. splits; [done| |done]. unfold all_active. apply forallb_forall.
      intros e [j Hj]%list_elem_of_In%list_elem_of_lookup.
      rewrite <- arr_get_nat in Hj. pose proof (arr_get_lt _ _ _ Hj).
      apply Z.eqb_eq. destruct (Ha _ _ Hj) as [H0|]; [|done].
      specialize (Hn2 (Z.of_nat j) e ltac:(lia) Hj). by apply Z.eqb_neq in Hn2.
    + right. destruct Hs2 as (e & He & H0); [lia|]. zb. splits; [done| |].
      * by eapply inactive_not_all.
      * exists k2, e. splits; [done|done| |done]. intros j e' _. apply Hno.
  - destruct Hs as (e & He & Hc); [lia|]. zb. unfold get_error. co_red. fold l.
    rewrite He. co_red. destruct (Ha _ _ He) as [H0|H1].
    + right. right. rewrite H0. cbn [negb Z.eqb].
      assert (Hn' : forall j e', j < k -> l.[j] = Some e' -> errCode e' <> code).
      { intros j e' Hj Hj'. pose proof (arr_get_lt _ _ _ Hj').
        apply Z.eqb_neq, (Hn j); [lia|done]. }
      pose proof (first_inactive l k e code ltac:(by constructor) He Hc H0 Hn').
      splits; [done| |].
      * by eapply inactive_not_all.
      * exists k, e. splits; [done|done| |].
        -- done.
        -- destruct (set_error_ok k (Errors (errCode e) (errRegMask e) 1) d) as (d1 & -> & Hd1);
             [fold l; lia|]. by apply Hd1.
    + left. rewrite H1. split; [|done]. apply is_active_spec. by exists k, e.
Qed.

(** ** The properties *)

(** C39: Reporting an error.  If the code is already active nothing happens and
    the answer is 0; if all entries are active nothing happens and the answer is
    1; otherwise the code becomes active, the other active codes stay, the
    register is again the union of the active bits, the history takes the code
    and the additional information in front and drops its last word, the count
    grows up to the size of the history, the state is Error_occurred, and one
    EMCY message goes out if the service is on. *)
Theorem EMCY_setError_spec d code mask addInfo n cob ws :
  emcy_inv d n cob ws -> 0 <= code < 2 ^ 16 -> 0 <= mask < 256 -> 0 <= addInfo < 2 ^ 16 ->
  let l := error_data (co_em d) in
  let on := csEmergency (CurrentCommunicationState (co_st d)) in
  exists r d', EMCY_setError code mask addInfo d = Some (r, d') /\
    (is_active code l = true -> r = 0 /\ d' = d) /\
    (is_active code l = false -> all_active l = true -> r = 1 /\ d' = d) /\
    (is_active code l = false -> all_active l = false ->
       let l' := error_data (co_em d') in
       emcy_inv d' (Z.min (n + 1) (error_history_size (co_od d))) cob
         (history_word code addInfo :: take (length ws - 1) ws) /\
       is_active code l' = true /\
       (forall c, c <> code -> is_active c l' = is_active c l) /\
       co_log d' = co_log d ++
         (if on =? 0 then [] else [Sent (EMCY_message cob code (errRegister_of l'))])).
Proof.
  intros [P T M Hmask Hst Henv] Hc Hm Ha l on. fold l in T, M, Hmask, Hst.
  destruct (EMCY_setError_choice d code mask addInfo T)
    as [[H1 E]|[(H1 & H2 & E)|(H1 & H2 & k & e & He & H0 & Hn & E)]]; fold l in H1;
    try fold l in H2; rewrite E.
  - exists 0, d. splits; [done|done|congruence|congruence].
  - exists 1, d. splits; [done|congruence|done|congruence].
  - fold l in He, Hn. pose proof (arr_get_lt _ _ _ He) as Hk.
    rewrite (to_len _ T) in Hk.
    pose proof (table_ok_set l k code mask T Hk Hn H1) as T'.
    set (l' := <[Z.to_nat k := Errors code mask 1]> l) in *.
    assert (Hl' : forall j, l'.[j] = if decide (j = k) then Some (Errors code mask 1)
                                     else l.[j]).
    { intros j. apply insert_get. rewrite (to_len _ T). lia. }
    assert (Hmask' : forall i e, l'.[i] = Some e -> 0 <= errRegMask e < 256).
    { intros i e'. rewrite Hl'. case_decide; [by intros [= <-]|by apply Hmask]. }
    destruct (record_error_spec d k code mask addInfo _ n cob ws P M Henv)
      as (r & m & -> & Hr & M'); [fold l; rewrite (to_len _ T); lia| |done|done|].
    { intros e' [j Hj]%list_elem_of_lookup. rewrite <- arr_get_nat in Hj.
      by eapply Hmask'. }
    fold l l' on in M' |- *. exists r. eexists. split; [reflexivity|].
    assert (Hact : is_active code l' = true).
    { apply is_active_spec. exists k, (Errors code mask 1). rewrite Hl', decide_True; done. }
    splits; [congruence|congruence|]. intros _ _. cbn zeta. splits; [|exact Hact| |done].
    + constructor; try done. cbn [set co_em error_state error_data].
      replace (anyActiveError l') with true; [done|].
      symmetry. apply anyActive_spec. apply is_active_spec in Hact as (j & e' & ? & ? & ?).
      by exists j, e'.
    + intros c Hcc. apply is_active_ext.
      * intros j e' Hj Hc' Ha'. cbn [set co_em error_data]. rewrite Hl'.
        case_decide; [|done]. subst j. exfalso. rewrite He in Hj. injection Hj as ->. lia.
      * intros j e'. cbn [set co_em error_data]. rewrite Hl'. case_decide; [|done].
        intros [= <-] Hc' _. cbn in Hc'. congruence.
Qed.

(** The announcement that no error is left. *)
Lemma announce_recovered d l cob :
  load 4 (co_mem d) (error_cobid (co_od d)) = Some cob -> clean_env (co_env d) ->
  let on := csEmergency (CurrentCommunicationState (co_st d)) in
  when (negb (anyActiveError l))
    (_ ← modify (set co_em (set error_state (fun _ => Error_free)));
     st ← get co_st;
     when (negb (csEmergency (CurrentCommunicationState st) =? 0))
       (_ ← sendEMCY 0x0000 0x00 None 0; st_skip)) d =
  Some (tt, d <| co_em ::= set error_state
                   (fun s => if anyActiveError l then s else Error_free) |>
              <| co_log ::= (fun log => log ++
                   if anyActiveError l || (on =? 0) then []
                   else [Sent (EMCY_message cob 0 0)]) |>).
Proof.
  intros Hc Henv on. destruct (anyActiveError l); cbn [negb orb].
  { rewrite when_false. destruct d as [? ? ? ? ? ? ? ? ? [? ?] ? ? ?].
    cbv [set]. cbn. by rewrite app_nil_r. }
  rewrite when_true. co_red. cbn [set co_st]. fold on.
  destruct (on =? 0) eqn:E; cbn [negb].
  - rewrite when_false. cbv [set]. cbn beta. by rewrite app_nil_r.
  - rewrite when_true. set (d1 := d <| co_em ::= _ |>).
    destruct (sendEMCY_eq d1 0 0 cob Hc Henv) as [r ->]. done.
Qed.

(** Recovering from an error.  A code that is not active changes nothing;
    otherwise the code is no longer active, the other active codes stay, the
    register loses the bits no other active error has, the history stays, and
    when no error is left the state returns to Error_free and one EMCY message
    with code 0 goes out if the service is on. *)
Theorem EMCY_errorRecovered_spec d code n cob ws :
  emcy_inv d n cob ws ->
  let l := error_data (co_em d) in
  let on := csEmergency (CurrentCommunicationState (co_st d)) in
  exists d', EMCY_errorRecovered code d = Some (tt, d') /\
    emcy_inv d' n cob ws /\
    (is_active code l = false -> d' = d) /\
    (is_active code l = true ->
       let l' := error_data (co_em d') in
       is_active code l' = false /\
       (forall c, c <> code -> is_active c l' = is_active c l) /\
       co_log d' = co_log d ++
         (if anyActiveError l' || (on =? 0) then [] else [Sent (EMCY_message cob 0 0)])).
Proof.
  intros I l on. pose proof I as [P T M Hmask Hst Henv]. fold l in T, M, Hmask, Hst.
  pose proof (to_len _ T) as Hl. unfold EMCY_errorRecovered.
  destruct (search_error_spec (fun e => errCode e =? code) d Hl) as (k & E & Hk & Hn & Hs).
  fold l in Hn, Hs. co_red. rewrite E. destruct (k =? EMCY_MAX_ERRORS) eqn:Ek; zb.
  { exists d. splits; [done|done|done|]. intros (j & e & Hj & Hc & _)%is_active_spec.
    pose proof (arr_get_lt _ _ _ Hj). specialize (Hn j e ltac:(lia) Hj). by zb. }
  destruct Hs as (e & He & Hc); [lia|]. zb. unfold get_error. co_red. fold l. rewrite He.
  co_red. assert (Hn' : forall j e', j < k -> l.[j] = Some e' -> errCode e' <> code).
  { intros j e' Hj Hj'. pose proof (arr_get_lt _ _ _ Hj').
    apply Z.eqb_neq, (Hn j); [lia|done]. }
  destruct (to_active _ T _ _ He) as [H0|H1].
  { rewrite H0. cbn [Z.eqb]. pose proof (first_inactive l k e code T He Hc H0 Hn').
    exists d. splits; [done|done|done|congruence]. }
  rewrite H1. change (1 =? 1) with true. cbn iota beta.
  assert (Hact : is_active code l = true) by (apply is_active_spec; by exists k, e).
  pose proof (table_ok_clear l k e T He) as T'.
  unfold set_error. cbn beta. fold l. rewrite arr_set_is_Some by lia. co_red.
  set (l' := <[Z.to_nat k := _]> l) in *. cbn [set co_em error_data].
  assert (Hl' : forall j, l'.[j] = if decide (j = k)
    then Some (Errors (errCode e) (errRegMask e) 0) else l.[j])
    by (intros j; apply insert_get; lia).
  assert (Hmask' : forall i e, l'.[i] = Some e -> 0 <= errRegMask e < 256).
  { intros i e'. rewrite Hl'. case_decide; [intros [= <-]; exact (Hmask k e He)|by apply Hmask]. }
  assert (Hreg : 0 <= errRegister_of l' < 256).
  { apply errRegister_range. intros e' [j Hj]%list_elem_of_lookup.
    rewrite <- arr_get_nat in Hj. by eapply Hmask'. }
  set (d1 := d <| co_em ::= _ |>).
  pose proof (announce_recovered d1 l' cob (em_cob _ _ _ _ _ _ M) Henv) as Ea.
  co_red_in Ea. rewrite Ea. clear Ea. set (d2 := _ <| co_log ::= _ |>).
  destruct (wr_ok 1 (error_register (co_od d)) (errRegister_of l') d2 _ (em_reg _ _ _ _ _ _ M))
    as (m & Em & ->).
  pose proof (emcy_mem_reg _ _ _ _ _ _ _ _ P M Hreg Em) as M'.
  eexists. split; [reflexivity|]. splits; [|congruence|].
  - constructor; try done. cbn [d2 d1 set co_em error_state error_data].
    destruct (anyActiveError l') eqn:Ey; [|done]. rewrite Hst.
    replace (anyActiveError l) with true; [done|]. symmetry. apply anyActive_spec.
    by exists k, e.
  - intros _. cbn zeta. splits; [| |done].
    + apply not_true_iff_false. cbn [d2 d1 set co_em error_data]. rewrite is_active_spec.
      intros (j & e' & Hj & Hc' & Ha'). rewrite Hl' in Hj. case_decide.
      * injection Hj as <-. discriminate Ha'.
      * destruct (decide (j < k)); [by eapply Hn'|].
        apply (to_first _ T k j e e'); [done|done|lia|done|congruence].
    + intros c Hcc. apply is_active_ext; intros j e'; cbn [d2 d1 set co_em error_data];
        rewrite Hl'; case_decide; try done.
      * subst j. rewrite He. intros [= <-] ??. congruence.
      * intros [= <-] _ [=].
Qed.
