(* ===== verification/Nmt.v ===== *)
(** * Nmt: the NMT messages (src/nmtMaster.c, and slaveSendBootUp of src/nmtSlave.c) *)

From S2P Require Import Prelude CMem Timers Node ObjDict.

Definition NODE_GUARD : Z := 0xE.
Definition NMT_Start_Node : Z := 0x01.
Definition NMT_Stop_Node : Z := 0x02.
Definition NMT_Enter_PreOperational : Z := 0x80.
Definition NMT_Reset_Node : Z := 0x81.
Definition NMT_Reset_Comunication : Z := 0x82.

Definition masterSendNMTstateChange (Node_ID cs : Z) : CO Z :=
  m ← Message_uninit;
  m ← opt (set_bytes 0 [cs; Node_ID] m);
  canSend (MkMessage 0x0000 NOT_A_REQUEST 2 (msg_data m)).

Definition masterSendNMTnodeguard (nodeId : Z) : CO Z :=
  m ← Message_uninit;
  let tmp := u16 (Z.lor nodeId (Z.shiftl NODE_GUARD 7)) in
  canSend (MkMessage tmp REQUEST 0 (msg_data m)).

(** [d->NMTable[nodeId] = s]. *)
Definition set_NMTable (nodeId s : Z) : CO unit := fun d =>
  (fun l => (tt, d <| co_lg ::= set NMTable (fun _ => l) |>)) <$>
    (NMTable (co_lg d)).[nodeId <- s].

Definition get_NMTable (nodeId : Z) : CO Z :=
  lg ← get co_lg; opt ((NMTable lg).[nodeId]).

Definition masterRequestNodeState (nodeId : Z) : CO Z :=
  _ ← set_NMTable nodeId Unknown_state;
  _ ← when (nodeId =? 0)
    (st_for (Z.to_nat NMT_MAX_NODE_ID) 0 (fun i => set_NMTable i Unknown_state));
  masterSendNMTnodeguard nodeId.

Definition slaveSendBootUp : CO Z :=
  od ← get co_od;
  m ← Message_uninit;
  id ← rd 1 (bDeviceNodeId od);
  let tmp := u16 (Z.lor (Z.shiftl NODE_GUARD 7) id) in
  m ← opt (set_bytes 0 [0x00] m);
  canSend (MkMessage tmp NOT_A_REQUEST 1 (msg_data m)).
