(* ===== verification/LifeGuard.v ===== *)
(** * LifeGuard: heartbeat and node guarding (src/lifegrd.c)

    The node watches other nodes (heartbeat consumer, node guarding master) and
    reports its own state (heartbeat producer, node guarding slave); [NMTable]
    holds the last known state of every node. *)

From S2P Require Import Prelude CMem Timers Node ObjDict Nmt.

(** ** Operations *)

Definition getNodeState (nodeId : Z) : CO Z :=
  if nodeId <? NMT_MAX_NODE_ID then get_NMTable nodeId else ret Unknown_state.

(** Entry [index] of the consumer table: the node watched, and its time. *)
Definition ConsumerHeartbeatEntry (index : Z) : CO Z :=
  od ← get co_od; rd 4 (ptr_add (ConsumerHeartbeatEntries od) (4 * index)).

Definition HeartBeat_nodeId (entry : Z) : Z := u8 (Z.shiftr (Z.land entry 0x00FF0000) 16).
Definition HeartBeat_time (entry : Z) : Z := Z.land entry 0x0000FFFF.

Definition get_HeartBeatTimer (index : Z) : CO Z :=
  lg ← get co_lg; opt ((ConsumerHeartBeatTimers lg).[index]).

Definition set_HeartBeatTimer (index h : Z) : CO unit := fun d =>
  (fun l => (tt, d <| co_lg ::= set ConsumerHeartBeatTimers (fun _ => l) |>)) <$>
    (ConsumerHeartBeatTimers (co_lg d)).[index <- h].

Definition ConsumerHeartbeatAlarm (id : Z) : CO unit :=
  entry ← ConsumerHeartbeatEntry id;
  let nodeId := HeartBeat_nodeId entry in
  _ ← set_HeartBeatTimer id TIMER_NONE;
  _ ← set_NMTable nodeId Disconnected;
  emit (Call_heartbeatError nodeId).

(** The answer to a node guarding request. *)
Definition answer_nodeguard : CO unit :=
  od ← get co_od;
  msg ← Message_uninit;
  id ← rd 1 (bDeviceNodeId od);
  st ← get co_st;
  lg ← get co_lg;
  let state := u8 (nodeState st) in
  let byte := if negb (toggle lg =? 0) then Z.lor state 0x80 else state in
  let t := if negb (toggle lg =? 0) then 0 else 1 in
  msg ← opt (set_bytes 0 [byte] msg);
  _ ← modify (set co_lg (set toggle (fun _ => t)));
  _ ← canSend (MkMessage (u16 (id + 0x700)) 0 0x01 (msg_data msg));
  st_skip.

(** Renewing the alarms of a node that has just been heard. *)
Definition renew_consumers (nodeId count : Z) : CO unit :=
  st_for (Z.to_nat count) 0 (fun index =>
    entry ← ConsumerHeartbeatEntry index;
    when (nodeId =? HeartBeat_nodeId entry)
      (h ← get_HeartBeatTimer index;
       _ ← coDelAlarm h;
       h ← coSetAlarm index ConsumerHeartbeatAlarm_cb
             (MS_TO_TIMEVAL (HeartBeat_time entry)) 0;
       set_HeartBeatTimer index h)).

Definition set_nodeGuardStatus (nodeId v : Z) : CO unit := fun d =>
  (fun l => (tt, d <| co_lg ::= set nodeGuardStatus (fun _ => l) |>)) <$>
    (nodeGuardStatus (co_lg d)).[nodeId <- v].

Definition proceedNODE_GUARD (m : Message) : CO unit :=
  let nodeId := GET_NODE_ID m in
  od ← get co_od;
  if rtr m =? 1 then
    id ← rd 1 (bDeviceNodeId od);
    when (nodeId =? id) answer_nodeguard
  else
    b ← data_at m 0;
    let newNodeState := Z.land b 0x7F in
    factor ← rd 1 (LifeTimeFactor od);
    _ ← set_nodeGuardStatus nodeId factor;
    old ← get_NMTable nodeId;
    _ ← when (negb (old =? newNodeState))
      (_ ← emit (Call_post_SlaveStateChange nodeId newNodeState);
       set_NMTable nodeId newNodeState);
    s ← get_NMTable nodeId;
    _ ← when (s =? Initialisation) (emit (Call_post_SlaveBootup nodeId));
    when (negb (s =? Unknown_state))
      (count ← rd 1 (ConsumerHeartbeatCount od);
       renew_consumers nodeId count).

Definition ProducerHeartbeatAlarm (id : Z) : CO unit :=
  od ← get co_od;
  time ← rd 2 (ProducerHeartBeatTime od);
  if negb (time =? 0) then
    msg ← Message_uninit;
    id ← rd 1 (bDeviceNodeId od);
    st ← get co_st;
    msg ← opt (set_bytes 0 [u8 (nodeState st)] msg);
    _ ← canSend (MkMessage (u16 (id + 0x700)) 0 0x01 (msg_data msg));
    st_skip
  else
    lg ← get co_lg;
    h ← coDelAlarm (ProducerHeartBeatTimer lg);
    modify (set co_lg (set ProducerHeartBeatTimer (fun _ => h))).

(** The body of the loop over the nodes. *)
Definition guard_node (i : Z) : CO unit :=
  od ← get co_od;
  s ← get_NMTable i;
  if s =? Unknown_state then st_skip else
  id ← rd 1 (bDeviceNodeId od);
  if i =? id then st_skip else
  lg ← get co_lg;
  status ← opt ((nodeGuardStatus lg).[i]);
  _ ← when (status <=? 0)
    (_ ← emit (Call_nodeguardError i);
     set_NMTable i Disconnected);
  _ ← set_nodeGuardStatus i (u8 (status - 1));
  _ ← masterSendNMTnodeguard i;
  st_skip.

Definition GuardTimeAlarm (id : Z) : CO unit :=
  od ← get co_od;
  time ← rd 2 (GuardTime od);
  if negb (time =? 0) then st_for (Z.to_nat NMT_MAX_NODE_ID) 0 guard_node
  else
    lg ← get co_lg;
    h ← coDelAlarm (GuardTimeTimer lg);
    modify (set co_lg (set GuardTimeTimer (fun _ => h))).

Definition heartbeatInit : CO unit :=
  _ ← RegisterSetODentryCallBack 0x1017 0x00 (Some OnHeartbeatProducerUpdate_cb);
  _ ← modify (set co_lg (set toggle (fun _ => 0)));
  od ← get co_od;
  count ← rd 1 (ConsumerHeartbeatCount od);
  _ ← st_for (Z.to_nat count) 0 (fun index =>
    entry ← ConsumerHeartbeatEntry index;
    let time := HeartBeat_time entry in
    when (negb (time =? 0))
      (h ← coSetAlarm index ConsumerHeartbeatAlarm_cb (MS_TO_TIMEVAL time) 0;
       set_HeartBeatTimer index h));
  time ← rd 2 (ProducerHeartBeatTime od);
  when (negb (time =? 0))
    (h ← coSetAlarm 0 ProducerHeartbeatAlarm_cb (MS_TO_TIMEVAL time) (MS_TO_TIMEVAL time);
     modify (set co_lg (set ProducerHeartBeatTimer (fun _ => h)))).

Definition heartbeatStop : CO unit :=
  od ← get co_od;
  count ← rd 1 (ConsumerHeartbeatCount od);
  _ ← st_for (Z.to_nat count) 0 (fun index =>
    h ← get_HeartBeatTimer index;
    h ← coDelAlarm h;
    set_HeartBeatTimer index h);
  lg ← get co_lg;
  h ← coDelAlarm (ProducerHeartBeatTimer lg);
  modify (set co_lg (set ProducerHeartBeatTimer (fun _ => h))).

Definition nodeguardInit : CO unit :=
  _ ← RegisterSetODentryCallBack 0x100C 0x00 (Some OnNodeGuardUpdate_cb);
  _ ← RegisterSetODentryCallBack 0x100D 0x00 (Some OnNodeGuardUpdate_cb);
  od ← get co_od;
  time ← rd 2 (GuardTime od);
  factor ← rd 1 (LifeTimeFactor od);
  when (negb (time =? 0) && negb (factor =? 0))
    (h ← coSetAlarm 0 GuardTimeAlarm_cb (MS_TO_TIMEVAL time) (MS_TO_TIMEVAL time);
     _ ← modify (set co_lg (set GuardTimeTimer (fun _ => h)));
     st_for (Z.to_nat NMT_MAX_NODE_ID) 0 (fun i =>
       s ← get_NMTable i;
       if s =? Unknown_state then st_skip else
       id ← rd 1 (bDeviceNodeId od);
       when (negb (i =? id)) (set_nodeGuardStatus i factor))).

Definition nodeguardStop : CO unit :=
  lg ← get co_lg;
  h ← coDelAlarm (GuardTimeTimer lg);
  modify (set co_lg (set GuardTimeTimer (fun _ => h))).

Definition OnNodeGuardUpdate : CO Z := _ ← nodeguardStop; _ ← nodeguardInit; ret 0.
Definition OnHeartbeatProducerUpdate : CO Z := _ ← heartbeatStop; _ ← heartbeatInit; ret 0.

Definition lifeGuardInit : CO unit := _ ← heartbeatInit; nodeguardInit.
Definition lifeGuardStop : CO unit := _ ← heartbeatStop; nodeguardStop.

(** ** Node guarding: the master *)

Definition guard_request (i : Z) : co_event :=
  Sent (MkMessage (u16 (Z.lor i (Z.shiftl NODE_GUARD 7))) REQUEST 0 []).

(** What one alarm does about node [i]. *)
Definition guard_events (known : bool) (i status : Z) : list co_event :=
  if known then
    (if status =? 0 then [Call_nodeguardError i] else []) ++ [guard_request i]
  else [].

(** The node is known and is not this one. *)
Definition guarded (d : CO_Data) (id i : Z) : bool :=
  match (NMTable (co_lg d)).[i] with
  | Some s => negb (s =? Unknown_state) && negb (i =? id)
  | None => false
  end.

Record guard_tables (d : CO_Data) : Prop := GuardTables {
  gt_table : Z.of_nat (length (NMTable (co_lg d))) = NMT_MAX_NODE_ID;
  gt_status : Z.of_nat (length (nodeGuardStatus (co_lg d))) = NMT_MAX_NODE_ID;
  gt_range i v : (nodeGuardStatus (co_lg d)).[i] = Some v -> 0 <= v < 256
}.

Lemma insert_same {A} (l : list A) k x : l.[k] = Some x -> <[Z.to_nat k := x]> l = l.
Proof. intros [_ H]%arr_get_Some. by apply list_insert_id. Qed.

(** The node after nodes [0 .. k-1] have been looked at, from [d]. *)
Record guard_progress (d : CO_Data) (id k : Z) (d' : CO_Data) : Prop := GuardProgress {
  gp_same : co_od d' = co_od d /\ co_mem d' = co_mem d /\ co_timers d' = co_timers d;
  gp_tables : guard_tables d';
  gp_table i s v : (NMTable (co_lg d)).[i] = Some s -> (nodeGuardStatus (co_lg d)).[i] = Some v ->
    (NMTable (co_lg d')).[i] =
      Some (if (i <? k) && guarded d id i && (v =? 0) then Disconnected else s) /\
    (nodeGuardStatus (co_lg d')).[i] =
      Some (if (i <? k) && guarded d id i then u8 (v - 1) else v);
  gp_log : wlog d' = wlog d ++ flat_map (fun i =>
    guard_events (guarded d id i) i
      (default 0 ((nodeGuardStatus (co_lg d)).[i]))) (seqZ 0 k)
}.

Lemma wlog_app d es : wlog (d <| co_log ::= (fun l => l ++ es) |>) = wlog d ++ (wire_event <$> es).
Proof. unfold wlog. cbn [set co_log]. apply fmap_app. Qed.

(** One more node handled: the tables at [k] updated, its events logged. *)
Lemma guard_progress_next d id k d' s v tab st log :
  guard_tables d -> guard_progress d id k d' -> 0 <= k < NMT_MAX_NODE_ID ->
  (NMTable (co_lg d)).[k] = Some s -> (nodeGuardStatus (co_lg d)).[k] = Some v ->
  tab = <[Z.to_nat k := if guarded d id k && (v =? 0) then Disconnected else s]> (NMTable (co_lg d')) ->
  st = <[Z.to_nat k := if guarded d id k then u8 (v - 1) else v]> (nodeGuardStatus (co_lg d')) ->
  wire_event <$> log = guard_events (guarded d id k) k v ->
  guard_progress d id (k + 1) (d' <| co_lg ::= set NMTable (fun _ => tab) |>
    <| co_lg ::= set nodeGuardStatus (fun _ => st) |> <| co_log ::= (fun l => l ++ log) |>).
Proof.
  intros [Ht Hs Hr] [(Eo & Em & Et) [Ht' Hs' Hr'] Htab Hlog] Hk Es Ev -> -> Elog.
  constructor; cbn [set co_od co_mem co_timers co_lg]; [done| | |].
  - constructor; cbn [set co_lg NMTable nodeGuardStatus]; rewrite ?length_insert; try done.
    intros i w. rewrite insert_get by lia. case_decide; [|by apply Hr'].
    intros [= <-]. destruct (guarded d id k); [apply u8_range|by eapply Hr].
  - intros i si vi Hsi Hvi. cbn [set co_lg NMTable nodeGuardStatus]. rewrite !insert_get by lia.
    case_decide; subst.
    + simplify_eq. replace (k <? k + 1) with true by (symmetry; apply Z.ltb_lt; lia). done.
    + destruct (Htab i si vi Hsi Hvi) as [-> ->].
      replace (i <? k + 1) with (i <? k); [done|]. apply eq_true_iff_eq. rewrite !Z.ltb_lt. lia.
  - rewrite wlog_app, Elog, (seqZ_app 0 k 1), flat_map_app, app_assoc by lia. f_equal; [exact Hlog|].
    replace (seqZ (0 + k) 1) with [k] by (unfold seqZ; cbn; f_equal; lia).
    cbn [flat_map]. by rewrite Ev, app_nil_r.
Qed.

Lemma guard_node_step d id k d' :
  load 1 (co_mem d) (bDeviceNodeId (co_od d)) = Some id -> guard_tables d ->
  guard_progress d id k d' -> 0 <= k < NMT_MAX_NODE_ID ->
  exists d2, guard_node k d' = Some (tt, d2) /\ guard_progress d id (k + 1) d2.
Proof.
  intros Hid Hg Hp Hk. pose proof Hg as [Ht Hs Hr]. pose proof Hp as [(Eo & Em & Et) [Ht' Hs' Hr'] Htab Hlog].
  destruct (arr_get_is_Some (NMTable (co_lg d)) k) as [s Es]; [lia|].
  destruct (arr_get_is_Some (nodeGuardStatus (co_lg d)) k) as [v Ev]; [lia|].
  destruct (Htab k s v Es Ev) as [Es' Ev'].
  rewrite Z.ltb_irrefl in Es', Ev'. cbn [andb] in Es', Ev'.
  assert (Eg : guarded d id k = negb (s =? Unknown_state) && negb (k =? id))
    by (unfold guarded; by rewrite Es).
  assert (Hfin : forall tab st log d2,
    d2 = d' <| co_lg ::= set NMTable (fun _ => tab) |>
            <| co_lg ::= set nodeGuardStatus (fun _ => st) |> <| co_log ::= (fun l => l ++ log) |> ->
    tab = <[Z.to_nat k := if guarded d id k && (v =? 0) then Disconnected else s]> (NMTable (co_lg d')) ->
    st = <[Z.to_nat k := if guarded d id k then u8 (v - 1) else v]> (nodeGuardStatus (co_lg d')) ->
    wire_event <$> log = guard_events (guarded d id k) k v ->
    guard_progress d id (k + 1) d2)
    by (intros tab st log d2 -> Htb Hst Elog; by eapply guard_progress_next).
  assert (Hskip : guarded d id k = false -> guard_progress d id (k + 1) d').
  { intros Eg0. eapply (Hfin _ _ []); rewrite ?Eg0; cbn [andb]; [|reflexivity..].
    rewrite !insert_same by done.
    destruct d' as [? ? ? ? [] ? ? ? ? ? ? ? ?]. cbv [set]. cbn. by rewrite app_nil_r. }
  unfold guard_node, get_NMTable. co_red. rewrite Es'. co_red.
  destruct (s =? Unknown_state) eqn:Eu; [exists d'; by auto|].
  rewrite (rd_eq 1 _ d' id) by (by rewrite Eo, Em).
  destruct (k =? id) eqn:Ei; [exists d'; by auto|]. cbn [negb andb] in Eg.
  rewrite Ev'. co_red. pose proof (Hr _ _ Ev) as Hv.
  unfold masterSendNMTnodeguard, Message_uninit, set_nodeGuardStatus, set_NMTable.
  replace (v <=? 0) with (v =? 0) by (apply eq_true_iff_eq; rewrite Z.eqb_eq, Z.leb_le; lia).
  destruct (v =? 0) eqn:Ev0; [rewrite when_true|rewrite when_false]; co_red.
  - cbn [set co_lg]. rewrite !arr_set_is_Some by lia. co_red. cbn [set co_lg nodeGuardStatus].
    rewrite arr_set_is_Some by lia. co_red. eexists. split; [reflexivity|].
    eapply (Hfin _ _ [Call_nodeguardError k; Sent _]); rewrite ?Eg; cbn [andb];
      [|reflexivity|reflexivity|].
    + cbv [set]. cbn. by rewrite <- app_assoc.
    + unfold guard_events. by rewrite Ev0.
  - rewrite arr_set_is_Some by lia. co_red. eexists. split; [reflexivity|].
    eapply (Hfin _ _ [Sent _]); rewrite ?Eg; cbn [andb];
      [|symmetry; by apply insert_same|reflexivity|].
    + by destruct d' as [? ? ? ? [] ? ? ? ? ? ? ? ?].
    + unfold guard_events. by rewrite Ev0.
Qed.

Lemma GuardTimeAlarm_run d id time x :
  load 2 (co_mem d) (GuardTime (co_od d)) = Some time -> time <> 0 ->
  load 1 (co_mem d) (bDeviceNodeId (co_od d)) = Some id -> guard_tables d ->
  exists d', GuardTimeAlarm x d = Some (tt, d') /\ guard_progress d id NMT_MAX_NODE_ID d'.
Proof.
  intros Ht Hnz Hid Htab. unfold GuardTimeAlarm. co_red.
  rewrite (rd_eq _ _ _ _ Ht), (proj2 (Z.eqb_neq _ _) Hnz). cbn [negb].
  apply (st_for_inv (guard_progress d id)).
  - intros k t Hk Hp. by apply guard_node_step.
  - constructor; [done|done| |by rewrite app_nil_r].
    intros i s v Hs Hv. pose proof (arr_get_lt _ _ _ Hs).
    replace (i <? 0) with false by (symmetry; apply Z.ltb_ge; lia). done.
Qed.

(** One node guarding alarm: every node whose state is known, except this
    one, is sent one request, in increasing order; its remaining life time drops
    by one (modulo 256); and exactly those whose life time was 0 are reported to
    the application and marked Disconnected.  Nothing else changes. *)
Theorem GuardTimeAlarm_spec d id time x :
  load 2 (co_mem d) (GuardTime (co_od d)) = Some time -> time <> 0 ->
  load 1 (co_mem d) (bDeviceNodeId (co_od d)) = Some id -> guard_tables d ->
  exists d', GuardTimeAlarm x d = Some (tt, d') /\
    co_od d' = co_od d /\ co_mem d' = co_mem d /\ co_timers d' = co_timers d /\
    guard_tables d' /\
    (forall i s v, (NMTable (co_lg d)).[i] = Some s ->
       (nodeGuardStatus (co_lg d)).[i] = Some v ->
       (NMTable (co_lg d')).[i] =
         Some (if guarded d id i && (v =? 0) then Disconnected else s) /\
       (nodeGuardStatus (co_lg d')).[i] = Some (if guarded d id i then u8 (v - 1) else v)) /\
    wlog d' = wlog d ++ flat_map (fun i =>
      guard_events (guarded d id i) i (default 0 ((nodeGuardStatus (co_lg d)).[i])))
      (seqZ 0 NMT_MAX_NODE_ID).
Proof.
  intros Ht Hnz Hid Htab.
  destruct (GuardTimeAlarm_run d id time x) as (d' & E & [(Eo & Em & Et) T H L]); [done..|].
  exists d'. splits; [done..| |done].
  intros i s v Hs Hv. destruct (H i s v Hs Hv) as [-> ->].
  pose proof (arr_get_lt _ _ _ Hs) as Hi. rewrite (gt_table _ Htab) in Hi.
  replace (i <? NMT_MAX_NODE_ID) with true by (symmetry; apply Z.ltb_lt; lia). done.
Qed.

(** *** The life time of a silent node *)

Definition is_guard_error (i : Z) (e : co_event) : bool :=
  match e with Call_nodeguardError j => i =? j | _ => false end.

(** How often the application was told that node [i] is lost. *)
Definition errors_about (i : Z) (l : list co_event) : nat :=
  length (List.filter (is_guard_error i) l).

Lemma errors_about_app i l l' : errors_about i (l ++ l') = (errors_about i l + errors_about i l')%nat.
Proof. unfold errors_about. by rewrite List.filter_app, length_app. Qed.

Lemma errors_about_events known i j v :
  errors_about i (guard_events known j v) =
  if known && (v =? 0) && (i =? j) then 1%nat else 0%nat.
Proof.
  unfold guard_events, errors_about. destruct known, (v =? 0); cbn; try done.
  by destruct (i =? j).
Qed.

Lemma errors_about_flat i (known : Z -> bool) (status : Z -> Z) n :
  0 <= i -> errors_about i (flat_map (fun j => guard_events (known j) j (status j))
    (seqZ 0 (Z.of_nat n))) =
  if known i && (status i =? 0) && (i <? Z.of_nat n) then 1%nat else 0%nat.
Proof.
  intros Hi. induction n as [|n IH].
  - replace (i <? Z.of_nat 0) with false by (symmetry; apply Z.ltb_ge; lia).
    by destruct (known i), (status i =? 0).
  - replace (Z.of_nat (S n)) with (Z.of_nat n + 1) by lia.
    rewrite seqZ_app by lia. rewrite flat_map_app, errors_about_app, IH.
    replace (seqZ (0 + Z.of_nat n) 1) with [Z.of_nat n] by (unfold seqZ; cbn; f_equal; lia).
    cbn [flat_map]. rewrite app_nil_r, errors_about_events.
    destruct (decide (i = Z.of_nat n)) as [->|Hne].
    + rewrite Z.ltb_irrefl, Z.eqb_refl.
      replace (Z.of_nat n <? Z.of_nat n + 1) with true by (symmetry; apply Z.ltb_lt; lia).
      by destruct (known _), (status _ =? 0).
    + replace (i =? Z.of_nat n) with false by (symmetry; apply Z.eqb_neq; lia).
      replace (i <? Z.of_nat n + 1) with (i <? Z.of_nat n)
        by (apply eq_true_iff_eq; rewrite !Z.ltb_lt; lia).
      destruct (known (Z.of_nat n)), (status (Z.of_nat n) =? 0); cbn [andb]; lia.
Qed.

Fixpoint guard_alarms (n : nat) : CO unit :=
  match n with
  | O => st_skip
  | S n => _ ← GuardTimeAlarm 0; guard_alarms n
  end.

(** What the alarms do to node [i] that never answers. *)
Lemma guard_alarm_node d id time i s v :
  load 2 (co_mem d) (GuardTime (co_od d)) = Some time -> time <> 0 ->
  load 1 (co_mem d) (bDeviceNodeId (co_od d)) = Some id -> guard_tables d ->
  (NMTable (co_lg d)).[i] = Some s -> s <> Unknown_state -> i <> id ->
  (nodeGuardStatus (co_lg d)).[i] = Some v ->
  exists d', GuardTimeAlarm 0 d = Some (tt, d') /\
    co_od d' = co_od d /\ co_mem d' = co_mem d /\ guard_tables d' /\
    (NMTable (co_lg d')).[i] = Some (if v =? 0 then Disconnected else s) /\
    (nodeGuardStatus (co_lg d')).[i] = Some (u8 (v - 1)) /\
    errors_about i (wlog d') =
      (errors_about i (wlog d) + if (v =? 0)%Z then 1 else 0)%nat.
Proof.
  intros Ht Hnz Hid Htab Hs Hk Hne Hv.
  destruct (GuardTimeAlarm_run d id time 0) as (d' & E & [(Eo & Em & _) T H L]); [done..|].
  pose proof (arr_get_lt _ _ _ Hs) as Hi. rewrite (gt_table _ Htab) in Hi.
  assert (Eg : guarded d id i = true).
  { unfold guarded. rewrite Hs. apply andb_true_iff. by rewrite !negb_true_iff, !Z.eqb_neq. }
  exists d'. splits; [done..| | |].
  - destruct (H i s v Hs Hv) as [-> _]. rewrite Eg. by repeat ztest.
  - destruct (H i s v Hs Hv) as [_ ->]. rewrite Eg. by repeat ztest.
  - rewrite L, errors_about_app. f_equal.
    change NMT_MAX_NODE_ID with (Z.of_nat 128) at 1.
    rewrite (errors_about_flat i (guarded d id)
      (fun j => default 0 ((nodeGuardStatus (co_lg d)).[j]))), Eg, Hv by lia.
    cbn [default from_option andb]. change (Z.of_nat 128) with NMT_MAX_NODE_ID.
    replace (i <? NMT_MAX_NODE_ID) with true by (symmetry; apply Z.ltb_lt; lia).
    by rewrite andb_true_r.
Qed.

(** C40: A node of life time factor [f] that stays silent is not reported during
    [f] alarms and is reported lost and Disconnected by alarm [f + 1].  (Its life
    time then wraps around to 255: it is reported again only 256 alarms
    later.) *)
Theorem nodeguard_lifetime d id time i s f :
  load 2 (co_mem d) (GuardTime (co_od d)) = Some time -> time <> 0 ->
  load 1 (co_mem d) (bDeviceNodeId (co_od d)) = Some id -> guard_tables d ->
  (NMTable (co_lg d)).[i] = Some s -> s <> Unknown_state -> i <> id ->
  (nodeGuardStatus (co_lg d)).[i] = Some (Z.of_nat f) -> Z.of_nat f < 256 ->
  (forall n, (n <= f)%nat -> exists d', guard_alarms n d = Some (tt, d') /\
     (NMTable (co_lg d')).[i] = Some s /\
     (nodeGuardStatus (co_lg d')).[i] = Some (Z.of_nat (f - n)) /\
     errors_about i (wlog d') = errors_about i (wlog d)) /\
  exists d', guard_alarms (S f) d = Some (tt, d') /\
     (NMTable (co_lg d')).[i] = Some Disconnected /\
     (nodeGuardStatus (co_lg d')).[i] = Some 255 /\
     errors_about i (wlog d') = S (errors_about i (wlog d)).
Proof.
  revert d s. induction f as [|f IH]; intros d s Ht Hnz Hid Htab Hs Hk Hne Hv Hf.
  - destruct (guard_alarm_node d id time i s 0) as (d1 & E & _ & _ & _ & H1 & H2 & H3);
      [done..|]. split.
    + intros n Hn. replace n with 0%nat by lia. by exists d.
    + exists d1. splits; [cbn [guard_alarms]; by rewrite (st_bind_eq _ _ _ _ _ E)|done|done|].
      by rewrite H3, Nat.add_comm.
  - destruct (guard_alarm_node d id time i s (Z.of_nat (S f)))
      as (d1 & E & Eo & Em & T1 & H1 & H2 & H3); [done..|].
    replace (Z.of_nat (S f) =? 0) with false in H1, H3 by (symmetry; apply Z.eqb_neq; lia).
    rewrite u8_small in H2 by lia. replace (Z.of_nat (S f) - 1) with (Z.of_nat f) in H2 by lia.
    rewrite Nat.add_0_r in H3.
    destruct (IH d1 s) as [Hsilent (d2 & E2 & Hlast)];
      [by rewrite Em, Eo|done|by rewrite Em, Eo|done|done|done|done|done|lia|].
    split.
    + intros [|n] Hn; [by exists d|]. destruct (Hsilent n) as (d' & E' & ? & ? & Hc); [lia|].
      exists d'. cbn [guard_alarms]. splits; [|done|done|by rewrite Hc].
      by rewrite (st_bind_eq _ _ _ _ _ E).
    + exists d2. rewrite H3 in Hlast. split; [|done]. cbn [guard_alarms] in E2 |- *.
      by rewrite (st_bind_eq _ _ _ _ _ E).
Qed.

(** ** Heartbeat consumer *)

Definition handles_ok (l : list Z) : Prop :=
  forall i h, l.[i] = Some h -> TIMER_NONE <= h < MAX_NB_TIMER.

(** The table of the consumers fits its variables, and its alarms are handles. *)
Record consumers_ok (d : CO_Data) (count : Z) : Prop := ConsumersOk {
  co_count : load 1 (co_mem d) (ConsumerHeartbeatCount (co_od d)) = Some count;
  co_room : 0 <= count <= Z.of_nat (length (ConsumerHeartBeatTimers (co_lg d)));
  co_entries i : 0 <= i < count -> exists e,
    load 4 (co_mem d) (ptr_add (ConsumerHeartbeatEntries (co_od d)) (4 * i)) = Some e;
  co_handles : handles_ok (ConsumerHeartBeatTimers (co_lg d));
  co_alarms : timers_inv (co_timers d)
}.

(** The node with other alarms. *)
Definition with_alarms (d : CO_Data) (l : list Z) (t : timer_table alarm) : CO_Data :=
  d <| co_lg ::= set ConsumerHeartBeatTimers (fun _ => l) |> <| co_timers := t |>.

Lemma HeartBeat_time_range e : 0 <= HeartBeat_time e < 65536.
Proof. apply (land_range 16); lia. Qed.

Lemma MS_TO_TIMEVAL_small ms : 0 <= ms < 65536 ->
  0 <= MS_TO_TIMEVAL ms /\ MS_TO_TIMEVAL ms + 1 < 2 ^ 32.
Proof. intros. unfold MS_TO_TIMEVAL. rewrite u32_small; lia. Qed.

Lemma handles_insert l k h :
  handles_ok l -> 0 <= k < Z.of_nat (length l) -> TIMER_NONE <= h < MAX_NB_TIMER ->
  handles_ok (<[Z.to_nat k := h]> l).
Proof.
  intros Hl Hk Hh i x. rewrite insert_get by done.
  case_decide; [by intros [= <-]|apply Hl].
Qed.

Lemma renew_consumers_ok nodeId d count :
  consumers_ok d count ->
  exists l t, renew_consumers nodeId count d = Some (tt, with_alarms d l t) /\
    length l = length (ConsumerHeartBeatTimers (co_lg d)) /\ handles_ok l /\ timers_inv t.
Proof.
  intros [Hc Hroom He Hh I].
  destruct (st_for_inv (fun _ d' => exists l t, d' = with_alarms d l t /\
    length l = length (ConsumerHeartBeatTimers (co_lg d)) /\ handles_ok l /\ timers_inv t)
    (fun index =>
      entry ← ConsumerHeartbeatEntry index;
      when (nodeId =? HeartBeat_nodeId entry)
        (h ← get_HeartBeatTimer index;
         _ ← coDelAlarm h;
         h ← coSetAlarm index ConsumerHeartbeatAlarm_cb
               (MS_TO_TIMEVAL (HeartBeat_time entry)) 0;
         set_HeartBeatTimer index h)) (Z.to_nat count) 0 d) as (d' & E & l & t & -> & H).
  - intros k d' Hk (l & t & -> & Hl & Hhl & It). destruct (He k) as [e Hek]; [lia|].
    unfold ConsumerHeartbeatEntry. co_red. rewrite (rd_eq _ _ _ e) by exact Hek.
    destruct (nodeId =? _); [rewrite when_true|rewrite when_false; by eauto 10].
    destruct (arr_get_is_Some l k) as [h Ehk]; [lia|].
    unfold get_HeartBeatTimer. co_red. cbn [with_alarms set co_lg ConsumerHeartBeatTimers].
    rewrite Ehk. co_red.
    destruct (coDelAlarm_ok h (with_alarms d l t)) as (t1 & -> & I1);
      [done|by eapply Hhl|].
    pose proof (MS_TO_TIMEVAL_small _ (HeartBeat_time_range e)) as [Hm1 Hm2].
    destruct (coSetAlarm_ok k ConsumerHeartbeatAlarm_cb (MS_TO_TIMEVAL (HeartBeat_time e)) 0
      ((with_alarms d l t) <| co_timers := t1 |>)) as (h2 & t2 & -> & I2 & Hh2); [done..|].
    unfold set_HeartBeatTimer. cbn [with_alarms set co_lg ConsumerHeartBeatTimers].
    rewrite arr_set_is_Some by lia. eexists. split; [reflexivity|].
    exists (<[Z.to_nat k := h2]> l), t2. splits; [done|by rewrite length_insert| |done].
    apply handles_insert; [done|lia|done].
  - exists (ConsumerHeartBeatTimers (co_lg d)), (co_timers d). splits; try done.
    by destruct d as [? ? ? ? [] ? ? ? ? ? ? ? ?].
  - by exists l, t.
Qed.

(** A received state report: the reported state of the node enters
    [NMTable] and its life time is refilled; the application hears of it exactly
    when the state changed, and of a boot-up exactly when it is Initialisation;
    no other node's state moves, and the consumer alarms stay well formed. *)
Theorem proceedNODE_GUARD_report d m b old factor count :
  let node := GET_NODE_ID m in
  let new := Z.land b 0x7F in
  rtr m <> 1 -> (msg_data m).[0] = Some b -> guard_tables d ->
  load 1 (co_mem d) (LifeTimeFactor (co_od d)) = Some factor -> 0 <= factor < 256 ->
  (NMTable (co_lg d)).[node] = Some old -> consumers_ok d count ->
  exists d', proceedNODE_GUARD m d = Some (tt, d') /\
    NMTable (co_lg d') = <[Z.to_nat node := new]> (NMTable (co_lg d)) /\
    nodeGuardStatus (co_lg d') = <[Z.to_nat node := factor]> (nodeGuardStatus (co_lg d)) /\
    guard_tables d' /\ consumers_ok d' count /\
    co_od d' = co_od d /\ co_mem d' = co_mem d /\ co_st d' = co_st d /\
    co_log d' = co_log d ++
      (if old =? new then [] else [Call_post_SlaveStateChange node new]) ++
      (if new =? Initialisation then [Call_post_SlaveBootup node] else []).
Proof.
  intros node new Hrtr Hb [Ht Hs Hr] Hf Hfr Hold Hcons.
  pose proof (arr_get_lt _ _ _ Hold) as Hnode. rewrite Ht in Hnode.
  unfold proceedNODE_GUARD, data_at. fold node. rewrite (proj2 (Z.eqb_neq _ _) Hrtr).
  co_red. rewrite Hb. co_red. fold new. rewrite (rd_eq _ _ _ _ Hf).
  unfold set_nodeGuardStatus. rewrite arr_set_is_Some by lia. co_red.
  unfold get_NMTable. co_red. cbn [set co_lg NMTable]. rewrite Hold. co_red.
  set (st := <[Z.to_nat node := factor]> _). set (tab := <[Z.to_nat node := new]> _).
  set (d1 := d <| co_lg ::= set nodeGuardStatus (fun _ => st) |>).
  set (d2 := d1 <| co_lg ::= set NMTable (fun _ => tab) |>
    <| co_log ::= (fun l => l ++ if old =? new then [] else
                     [Call_post_SlaveStateChange node new]) |>).
  assert (E2 : when (negb (old =? new)) (fun s =>
      match Some (tt, s <| co_log ::= (fun l => l ++ [Call_post_SlaveStateChange node new]) |>)
      with Some (_, s') => set_NMTable node new s' | None => None end) d1 = Some (tt, d2)).
  { destruct (old =? new) eqn:Eo; zb; cbn [negb].
    - rewrite when_false. unfold d2, tab. rewrite insert_same by congruence.
      destruct d as [? ? ? ? [] ? ? ? ? ? ? ? ?]. unfold d1. cbv [set]. cbn.
      by rewrite app_nil_r.
    - rewrite when_true. unfold set_NMTable. cbn [d1 set co_lg NMTable].
      by rewrite arr_set_is_Some by lia. }
  cbn beta iota in E2. rewrite E2. cbn [d2 d1 set co_lg NMTable]. unfold tab at 1.
  rewrite insert_get, decide_True by (done || lia). co_red. fold d1. fold d2.
  set (boot := if new =? Initialisation then [Call_post_SlaveBootup node] else []).
  set (d3 := d2 <| co_log ::= (fun l => l ++ boot) |>).
  assert (E3 : when (new =? Initialisation) (fun s => Some (tt,
      s <| co_log ::= (fun l => l ++ [Call_post_SlaveBootup node]) |>)) d2 = Some (tt, d3)).
  { unfold d3, boot. destruct (new =? Initialisation); [done|]. rewrite when_false.
    cbv [set]. cbn. by rewrite app_nil_r. }
  rewrite E3.
  assert (C3 : consumers_ok d3 count) by (destruct Hcons; by constructor).
  assert (T3 : guard_tables d3).
  { constructor; cbn [d3 d2 d1 set co_lg NMTable nodeGuardStatus]; unfold tab, st;
      rewrite ?length_insert; try done.
    intros i v. rewrite insert_get by lia.
    case_decide; [by intros [= <-]|apply Hr]. }
  assert (L3 : co_log d3 = co_log d ++
    (if old =? new then [] else [Call_post_SlaveStateChange node new]) ++ boot)
    by (cbn [d3 d2 d1 set co_log]; by rewrite <- app_assoc).
  destruct (new =? Unknown_state); cbn [negb].
  { rewrite when_false. exists d3. splits; done. }
  rewrite when_true, (rd_eq 1 _ d3 count) by apply C3.
  destruct (renew_consumers_ok node d3 count C3) as (l & t & -> & Hl & Hhl & It).
  exists (with_alarms d3 l t). splits; try done.
  - by destruct T3.
  - destruct C3. constructor; try done. cbn [with_alarms set co_lg ConsumerHeartBeatTimers].
    by rewrite Hl.
Qed.

(** ** Node guarding: the slave *)

Lemma wlog_sent d m w :
  wire m = w -> wlog (d <| co_log ::= (fun l => l ++ [Sent m]) |>) = wlog d ++ [Sent w].
Proof. intros <-. by rewrite wlog_app. Qed.

(** A node guarding request is answered exactly by the node it names, with
    one byte: the state of the node, with bit 7 set in every other answer. *)
Theorem proceedNODE_GUARD_request d m id :
  rtr m = 1 -> load 1 (co_mem d) (bDeviceNodeId (co_od d)) = Some id ->
  clean_env (co_env d) ->
  if GET_NODE_ID m =? id then
    exists d', proceedNODE_GUARD m d = Some (tt, d') /\
      wlog d' = wlog d ++ [Sent (MkMessage (u16 (id + 0x700)) NOT_A_REQUEST 1
        [if toggle (co_lg d) =? 0 then u8 (nodeState (co_st d))
         else Z.lor (u8 (nodeState (co_st d))) 0x80])] /\
      toggle (co_lg d') = (if toggle (co_lg d) =? 0 then 1 else 0) /\
      NMTable (co_lg d') = NMTable (co_lg d) /\ co_st d' = co_st d /\ co_mem d' = co_mem d
  else proceedNODE_GUARD m d = Some (tt, d).
Proof.
  intros Hr Hid Henv. unfold proceedNODE_GUARD. rewrite Hr. change (1 =? 1) with true.
  co_red. rewrite (rd_eq _ _ _ _ Hid). destruct (GET_NODE_ID m =? id);
    [rewrite when_true|by rewrite when_false].
  unfold answer_nodeguard, Message_uninit. co_red. rewrite (rd_eq _ _ _ _ Hid).
  set (g := garbage _ _). specialize (Henv (length (co_log d))). fold g in Henv.
  set (byte := if negb _ then _ else _).
  destruct (set_bytes_is_Some 0 [byte] g) as [m1 E1]; [lia|cbn [length]; lia|].
  rewrite E1. destruct (set_bytes_data _ _ _ _ E1) as (D1 & _); [lia|cbn [length]; lia|].
  eexists. split; [reflexivity|]. splits; try done.
  - erewrite wlog_sent; [reflexivity|]. unfold wire. cbn [cob_id rtr len msg_data].
    rewrite D1. unfold byte. by destruct (toggle (co_lg d) =? 0).
  - cbn [set co_lg toggle]. by destruct (toggle (co_lg d) =? 0).
Qed.
