(* ===== verification/Devices.v ===== *)
(** * Devices: serial ports, keys, CAN and DMA of the board (Main/src)

    The interrupt handlers and helpers of uart.c, spi.c, key.c, can.c, dma.c and
    timer.c that keep state of their own.  What the peripheral registers answer is
    an argument; a busy wait on a flag is the event [Wait], which ends when the
    hardware sets the flag. *)

From S2P Require Import Prelude.

(** ** Serial ports *)

(** The buffer of received characters and the static index of the handler. *)
Record rx_buffer := RxBuffer {
  rx_chars : list Z;
  rx_index : Z
}.

Definition newline : Z := 10.

Definition rx_empty : rx_buffer := RxBuffer (replicate 50 0) 0.

(** uart.c: [flag] is the receive flag, [RxData] the received byte. *)
Definition USART1_IRQHandler (flag : bool) (RxData : Z) (s : rx_buffer) : option rx_buffer :=
  if flag then
    l ← (rx_chars s).[rx_index s <- RxData];
    let DataBit := rx_index s + 1 in
    if RxData =? newline then
      l ← l.[DataBit <- 0];
      Some (RxBuffer l 0)
    else Some (RxBuffer l DataBit)
  else Some s.

(** spi.c: the index is a byte. *)
Definition SPI1_IRQHandler (flag : bool) (RxData : Z) (s : rx_buffer) : option rx_buffer :=
  if flag then
    l ← (rx_chars s).[rx_index s <- RxData];
    let RxIndex := u8 (rx_index s + 1) in
    if RxData =? newline then
      l ← l.[0 - 1 <- 0];
      Some (RxBuffer l 0)
    else Some (RxBuffer l RxIndex)
  else Some s.

Inductive serial_op := Wait | Send (c : Z).

(** The string at [Data]: reading past its memory is undefined. *)
Fixpoint Uart1_Send (Data : list Z) : option (list serial_op) :=
  match Data with
  | [] => None
  | c :: Data =>
      if c =? 0 then Some [] else
      ops ← Uart1_Send Data; Some (Wait :: Send c :: ops)
  end.

Fixpoint SPI1_Send (SendData : list Z) : option (list serial_op) :=
  match SendData with
  | [] => None
  | c :: SendData =>
      if c =? 0 then Some [] else
      ops ← SPI1_Send SendData; Some (Wait :: Send c :: ops)
  end.

(** Bytes received one after the other. *)
Fixpoint receive (handler : bool -> Z -> rx_buffer -> option rx_buffer) (bs : list Z)
    (s : rx_buffer) : option rx_buffer :=
  match bs with
  | [] => Some s
  | b :: bs => s ← handler true b s; receive handler bs s
  end.

(** ** Keys *)

Record key_pins := KeyPins { KEY0 : Z; KEY1 : Z; KEY2 : Z; WK_UP : Z }.

(** The static variables of the two scans, and the number of pin reads so far. *)
Record key_state := KeyState { key_up : Z; KeyUp : Z; KeyCode : Z; reads : nat }.
#[export] Instance key_state_settable : Settable key_state :=
  fun r => KeyState (key_up r) (KeyUp r) (KeyCode r) (reads r).

Definition keys_init : key_state := KeyState 1 1 0 0.

Definition KEY (A : Type) : Type := ST key_state A.

Section keys.
(** The level of the pins at each read. *)
Context (pins : nat -> key_pins).

Definition pin (f : key_pins -> Z) : KEY Z := fun s =>
  Some (f (pins (reads s)), s <| reads ::= S |>).

Definition is_level (f : key_pins -> Z) (v : Z) : KEY bool := x ← pin f; mret (x =? v).

(** [a || b] and [a && b] *)
Definition or_else (a b : KEY bool) : KEY bool := x ← a; if x : bool then mret true else b.
Definition and_then (a b : KEY bool) : KEY bool := x ← a; if x : bool then b else mret false.

Definition set_key_up (v : Z) : KEY unit := st_mod (set key_up (fun _ => v)).
Definition get_key (f : key_state -> Z) : KEY Z := st_get f.

Definition any_pressed : KEY bool :=
  or_else (is_level KEY0 0) (or_else (is_level KEY1 0)
    (or_else (is_level KEY2 0) (is_level WK_UP 1))).
Definition all_released : KEY bool :=
  and_then (is_level KEY0 1) (and_then (is_level KEY1 1)
    (and_then (is_level KEY2 1) (is_level WK_UP 0))).

Definition which_key : KEY Z :=
  k0 ← is_level KEY0 0; if k0 : bool then mret 1 else
  k1 ← is_level KEY1 0; if k1 : bool then mret 2 else
  k2 ← is_level KEY2 0; if k2 : bool then mret 3 else
  wk ← is_level WK_UP 1; if wk : bool then mret 4 else mret 0.

Definition Key_Scan (mode : Z) : KEY Z :=
  _ ← when (negb (mode =? 0)) (set_key_up 1);
  up ← get_key key_up;
  pressed ← (if up =? 0 then mret false else any_pressed);
  if pressed : bool then
    _ ← set_key_up 0;
    which_key
  else
    released ← all_released;
    _ ← when released (set_key_up 1);
    mret 0.

Definition Key0_Scan : KEY Z :=
  up ← get_key KeyUp;
  low ← (if up =? 0 then mret false else is_level KEY0 0);
  _ ← (if low : bool then
         still ← is_level KEY0 0;
         when still (st_mod (fun s => s <| KeyUp := 0 |> <| KeyCode ::= (fun c => u8 (c + 1) mod 2) |>))
       else
         high ← is_level KEY0 1;
         when high (st_mod (set KeyUp (fun _ => 1))));
  get_key KeyCode.
End keys.

(** ** CAN *)

Record CanRxMsg := CanRx { DLC : Z; can_Data : list Z }.

(** can.c: the frame [RxMsg] taken from the FIFO is copied to [CAN1_Rx_Buff]. *)
Definition CAN1_RX0_IRQHandler (RxMsg : CanRxMsg) (buff : list Z) : option (list Z) :=
  for_up (Z.to_nat (DLC RxMsg)) 0 (fun RxIndex buff =>
    b ← (can_Data RxMsg).[RxIndex]; buff.[RxIndex <- b]) buff.

Definition CAN_POLLS : Z := 0xFFF.

(** The status of the mailbox at each poll; [fuel] bounds the polls left. *)
Fixpoint wait_mailbox (fuel : nat) (ok : nat -> bool) (poll : nat) (TxIndex : Z) : option Z :=
  match fuel with
  | O => None
  | S fuel =>
      if ok poll then Some 0 else
      let TxIndex := u16 (TxIndex + 1) in
      if CAN_POLLS <=? TxIndex then Some 1 else wait_mailbox fuel ok (S poll) TxIndex
  end.

Definition CAN1_Send_Msg (ok : nat -> bool) : option Z :=
  wait_mailbox (Z.to_nat CAN_POLLS) ok 0 0.

(** ** DMA of SPI3 *)

(** The commands given to the DMA driver, for stream 0 (transmit) or 1. *)
Inductive dma_op :=
  | Read_SPI3_DR
  | DMA_Cmd (stream : Z) (enable : bool)
  | DMA_SetCurrDataCounter (stream count : Z)
  | Set_M0AR (stream : Z)
  | DMA_ClearFlag (stream : Z)
  | DMA_ClearITPendingBit (controller stream : Z).

(** [DMA_CH0_1_Busy] and the commands so far. *)
Definition dma_state : Type := Z * list dma_op.

Definition DMA1_CH0_1_Start (s : dma_state) : dma_state :=
  if fst s =? 0 then (1, snd s ++ [Read_SPI3_DR; DMA_Cmd 0 true; DMA_Cmd 1 true]) else s.

Definition DMA1_CH0_1_Reset (s : dma_state) : dma_state :=
  (0, snd s ++ [DMA_Cmd 0 false; DMA_Cmd 1 false; DMA_SetCurrDataCounter 0 8;
     DMA_SetCurrDataCounter 1 8; Set_M0AR 0; Set_M0AR 1; DMA_ClearFlag 0; DMA_ClearFlag 1]).

Definition DMA1_Stream0_IRQHandler (pending : bool) (s : dma_state) : dma_state :=
  if pending then (fst s, snd s ++ [DMA_ClearITPendingBit 2 0]) else s.

Definition DMA1_Stream1_IRQHandler (pending : bool) (s : dma_state) : dma_state :=
  if pending then DMA1_CH0_1_Reset (fst s, snd s ++ [DMA_ClearITPendingBit 2 1]) else s.

(** ** Timer 3 *)

(** timer.c: the clock of lwIP, in ms. *)
Definition TIM3_IRQHandler (update : bool) (lwip_sys_timer : Z) : Z :=
  if update then u32 (lwip_sys_timer + 10) else lwip_sys_timer.

(** ** The serial buffer *)

Lemma receive_app h bs1 bs2 s :
  receive h (bs1 ++ bs2) s = (s' ← receive h bs1 s; receive h bs2 s').
Proof.
  revert s. induction bs1 as [|b bs1 IH]; intros s; cbn; [by destruct (receive h bs2 s)|].
  destruct (h true b s); cbn; [apply IH|done].
Qed.

Lemma uart_char b l i : b <> newline ->
  USART1_IRQHandler true b (RxBuffer l i) = (fun l' => RxBuffer l' (i + 1)) <$> l.[i <- b].
Proof.
  intros Hb. unfold USART1_IRQHandler. cbn [rx_chars rx_index].
  destruct (l.[i <- b]); [|done]. cbn. by rewrite (proj2 (Z.eqb_neq b newline)).
Qed.

(** Characters other than newline go one after the other. *)
Lemma uart_chars bs : forall l i,
  0 <= i -> Forall (fun b => b <> newline) bs ->
  receive USART1_IRQHandler bs (RxBuffer l i) =
    if i + Z.of_nat (length bs) <=? Z.of_nat (length l) then
      Some (RxBuffer (take (Z.to_nat i) l ++ bs ++ drop (Z.to_nat i + length bs) l)
              (i + Z.of_nat (length bs)))
    else if bool_decide (bs = []) then Some (RxBuffer l i) else None.
Proof.
  induction bs as [|b bs IH]; intros l i Hi Hbs.
  { cbn [receive length app Nat.add]. rewrite Nat.add_0_r, take_drop, Z.add_0_r.
    by destruct (i <=? _). }
  apply Forall_cons in Hbs as [Hb Hbs]. cbn [receive]. rewrite uart_char by done.
  rewrite bool_decide_eq_false_2 by done. cbn [length].
  destruct (decide (i < Z.of_nat (length l))) as [Hlt|Hge].
  - rewrite arr_set_is_Some by lia. cbn [fmap option_fmap option_map mbind option_bind].
    rewrite IH by (done || lia). rewrite length_insert.
    replace (i + 1 + Z.of_nat (length bs)) with (i + Z.of_nat (S (length bs))) by lia.
    destruct (_ <=? _) eqn:E; zb.
    + do 2 f_equal. replace (Z.to_nat (i + 1)) with (S (Z.to_nat i)) by lia.
      rewrite (take_S_r _ _ b) by (apply list_lookup_insert_eq; lia).
      rewrite take_insert_ge by lia. rewrite <- app_assoc. cbn [app]. do 3 f_equal.
      replace (S (Z.to_nat i) + length bs)%nat with (Z.to_nat i + S (length bs))%nat by lia.
      by rewrite drop_insert_lt by lia.
    + rewrite bool_decide_eq_false_2; [done|]. intros ->. cbn in E. lia.
  - replace (l.[i <- b]) with (@None (list Z)) by (symmetry; apply arr_set_None; lia).
    replace (_ <=? _) with false by (symmetry; apply Z.leb_gt; lia). done.
Qed.

(** The serial receiver.  Starting with an empty line, a line of any
    characters and its newline are stored from the start of the buffer, end with
    a NUL, and leave the receiver ready for the next line, if the line has at
    most 48 characters; a longer line is written past the buffer. *)
Theorem uart_line line s :
  length (rx_chars s) = 50%nat -> rx_index s = 0 -> Forall (fun b => b <> newline) line ->
  if (length line <=? 48)%nat then
    exists l, receive USART1_IRQHandler (line ++ [newline]) s = Some (RxBuffer l 0) /\
      length l = 50%nat /\ take (length line + 2) l = line ++ [newline; 0] /\
      drop (length line + 2) l = drop (length line + 2) (rx_chars s)
  else receive USART1_IRQHandler (line ++ [newline]) s = None.
Proof.
  destruct s as [l i]. cbn [rx_chars rx_index]. intros Hl -> Hline.
  rewrite receive_app, uart_chars by done. rewrite Z.add_0_l, Hl.
  change (Z.to_nat 0) with 0%nat. rewrite take_0. cbn [app Nat.add].
  destruct (length line <=? 48)%nat eqn:E.
  - apply Nat.leb_le in E. replace (_ <=? _) with true by (symmetry; apply Z.leb_le; lia).
    cbn [mbind option_bind receive]. unfold USART1_IRQHandler. cbn [rx_chars rx_index].
    set (n := length line) in *. set (l1 := line ++ drop n l).
    assert (H1 : length l1 = 50%nat) by (unfold l1; rewrite length_app, length_drop; fold n; lia).
    rewrite arr_set_is_Some by lia. cbn [mbind option_bind].
    change (newline =? newline) with true. cbn iota.
    rewrite arr_set_is_Some by (rewrite length_insert; lia). cbn [mbind option_bind].
    replace (Z.to_nat (Z.of_nat n + 1)) with (S n) by lia. rewrite Nat2Z.id.
    exists (line ++ newline :: 0 :: drop (n + 2) l). split; [|split].
    + do 2 f_equal. unfold l1. rewrite insert_app_r_alt by (fold n; lia).
      rewrite insert_app_r_alt by (fold n; lia). fold n. f_equal.
      rewrite Nat.sub_diag. replace (S n - n)%nat with 1%nat by lia.
      destruct (drop n l) as [|a [|b r]] eqn:Ed.
      * apply (f_equal length) in Ed. rewrite length_drop in Ed. cbn in Ed. lia.
      * apply (f_equal length) in Ed. rewrite length_drop in Ed. cbn in Ed. lia.
      * cbn. do 2 f_equal. rewrite <- drop_drop, Ed. done.
    + rewrite length_app. cbn [length]. rewrite length_drop. fold n. lia.
    + split.
      * rewrite take_app_ge by (fold n; lia). fold n. replace (n + 2 - n)%nat with 2%nat by lia. done.
      * rewrite drop_app_ge by (fold n; lia). fold n. replace (n + 2 - n)%nat with 2%nat by lia. done.
  - apply Nat.leb_gt in E. destruct (_ <=? _) eqn:E2; zb.
    + cbn [mbind option_bind receive]. unfold USART1_IRQHandler. cbn [rx_chars rx_index].
      set (l1 := line ++ _).
      assert (H1 : length l1 = 50%nat) by (unfold l1; rewrite length_app, length_drop; lia).
      destruct (decide (length line = 50%nat)) as [H50|H50].
      * replace (l1.[Z.of_nat (length line) <- newline]) with (@None (list Z));
          [done|symmetry; apply arr_set_None; lia].
      * rewrite arr_set_is_Some by lia. cbn [mbind option_bind].
        change (newline =? newline) with true. cbn iota.
        match goal with |- context [?a.[?b <- 0]] =>
          replace (a.[b <- 0]) with (@None (list Z)) end; [done|].
        symmetry. apply arr_set_None. rewrite length_insert. lia.
    + rewrite bool_decide_eq_false_2; [done|]. intros ->. cbn in E2. lia.
Qed.

(** The line end of the SPI receiver writes before its buffer. *)
Lemma SPI1_newline s :
  0 <= rx_index s < Z.of_nat (length (rx_chars s)) -> SPI1_IRQHandler true newline s = None.
Proof.
  intros H. unfold SPI1_IRQHandler. rewrite arr_set_is_Some by done. cbn [mbind option_bind].
  change (newline =? newline) with true. cbn iota.
  match goal with |- context [?a.[0 - 1 <- 0]] =>
    replace (a.[0 - 1 <- 0]) with (@None (list Z)) end; [done|].
  symmetry. apply arr_set_None. lia.
Qed.

(** ** CAN transmission *)

Lemma wait_mailbox_spec ok fuel : forall poll i,
  0 <= i -> i + Z.of_nat fuel = CAN_POLLS -> (0 < fuel)%nat ->
  wait_mailbox fuel ok poll i =
    Some (if existsb ok (seq poll fuel) then 0 else 1).
Proof.
  induction fuel as [|fuel IH]; intros poll i Hi Hf Hpos; [lia|].
  cbn [wait_mailbox seq existsb]. destruct (ok poll); [done|]. cbn [orb].
  unfold CAN_POLLS in *. rewrite u16_small by lia. destruct (decide (fuel = 0%nat)) as [->|Hne].
  - ztest. done.
  - ztest. apply IH; lia.
Qed.

(** Sending a frame always comes to an end: it answers 0 if one of the first
    4095 polls finds the frame sent, and 1 otherwise. *)
Theorem CAN1_Send_Msg_terminates ok :
  CAN1_Send_Msg ok = Some (if existsb ok (seq 0 4095) then 0 else 1).
Proof.
  change 4095%nat with (Z.to_nat CAN_POLLS). apply wait_mailbox_spec; unfold CAN_POLLS; lia.
Qed.

(** A received frame of up to 8 bytes is copied to the start of the buffer,
    the rest of which stays; a frame with a larger length code, which the bus
    allows for 8 bytes, is read past its data. *)
Theorem CAN1_receive m buff :
  length (can_Data m) = 8%nat -> length buff = 50%nat -> 0 <= DLC m <= 15 ->
  if DLC m <=? 8 then
    CAN1_RX0_IRQHandler m buff =
      Some (take (Z.to_nat (DLC m)) (can_Data m) ++ drop (Z.to_nat (DLC m)) buff)
  else CAN1_RX0_IRQHandler m buff = None.
Proof.
  intros Hd Hb Hl. unfold CAN1_RX0_IRQHandler.
  assert (Hcopy : forall n, (n <= 8)%nat ->
    for_up n 0 (fun i buff => b ← (can_Data m).[i]; buff.[i <- b]) buff =
      Some (take n (can_Data m) ++ drop n buff)).
  { induction n as [|n IH]; intros Hn; [done|].
    replace (S n) with (n + 1)%nat by lia. rewrite for_up_app, IH by lia. cbn [mbind option_bind for_up].
    destruct (arr_get_is_Some (can_Data m) (0 + Z.of_nat n)) as [b Hb']; [lia|]. rewrite Hb'.
    cbn [mbind option_bind]. apply arr_get_Some in Hb' as [_ Hb'].
    rewrite Z.add_0_l, Nat2Z.id in *. set (bs := take n _ ++ _).
    assert (Hlen : length bs = 50%nat)
      by (unfold bs; rewrite length_app, length_take, length_drop; lia).
    rewrite arr_set_is_Some by lia. cbn [mbind option_bind]. rewrite Nat2Z.id. f_equal. unfold bs.
    rewrite insert_app_r_alt by (rewrite length_take; lia). rewrite length_take.
    replace (n - n `min` length (can_Data m))%nat with 0%nat by lia.
    replace (n + 1)%nat with (S n) by lia. rewrite (take_S_r _ _ b) by done.
    destruct (drop n buff) as [|c r] eqn:E;
      [apply (f_equal length) in E; rewrite length_drop in E; cbn in E; lia|].
    cbn [insert list_insert]. rewrite <- app_assoc. cbn [app]. do 2 f_equal.
    replace (S n) with (n + 1)%nat by lia. by rewrite <- drop_drop, E. }
  destruct (DLC m <=? 8) eqn:E; zb; [apply Hcopy; lia|].
  replace (Z.to_nat (DLC m)) with (8 + S (Z.to_nat (DLC m) - 9))%nat by lia.
  rewrite for_up_app, Hcopy by lia. cbn [mbind option_bind for_up].
  replace ((can_Data m).[0 + Z.of_nat 8]) with (@None Z); [done|].
  symmetry. apply arr_get_None. lia.
Qed.

(** ** Keys *)

(** The key that counts when several are down. *)
Definition key_code (p : key_pins) : Z :=
  if KEY0 p =? 0 then 1 else if KEY1 p =? 0 then 2 else if KEY2 p =? 0 then 3
  else if WK_UP p =? 1 then 4 else 0.

Definition released : key_pins := KeyPins 1 1 1 0.

(** Scans in mode 0, the pins at rest during each of them. *)
Fixpoint key_scans (ps : list key_pins) : KEY (list Z) :=
  match ps with
  | [] => mret []
  | p :: ps =>
      c ← Key_Scan (fun _ => p) 0;
      cs ← key_scans ps;
      mret (c :: cs)
  end.

(** Run a scan on the tests of its pins. *)
Ltac run_scan :=
  unfold Key_Scan, any_pressed, all_released, which_key, or_else, and_then, is_level, pin, when,
    get_key, st_get, set_key_up, st_mod, st_skip, mbind, ST_bind, mret, ST_ret;
  cbn [key_up negb Z.eqb fst snd]; unfold set; cbn.

Lemma scan_first p s : key_up s <> 0 -> key_code p <> 0 -> exists s',
  Key_Scan (fun _ => p) 0 s = Some (key_code p, s') /\ key_up s' = 0.
Proof.
  intros Hu Hp. destruct s as [up ku kc rd]. cbn in Hu. unfold key_code in *. run_scan.
  rewrite (proj2 (Z.eqb_neq up 0)) by done.
  repeat match goal with |- context [?a =? ?b] =>
    lazymatch a with context [if _ then _ else _] => fail | _ => destruct (a =? b) eqn:? end; cbn
  end; try (eexists; split; reflexivity); exfalso; apply Hp; zb;
    repeat match goal with |- context [?a =? ?b] => rewrite (proj2 (Z.eqb_neq a b)) by lia end; done.
Qed.

Lemma scan_held p s : key_up s = 0 -> key_code p <> 0 -> exists s',
  Key_Scan (fun _ => p) 0 s = Some (0, s') /\ key_up s' = 0.
Proof.
  intros Hu Hp. destruct s as [up ku kc rd]. cbn in Hu. subst up. unfold key_code in Hp. run_scan.
  repeat match goal with |- context [?a =? ?b] =>
    lazymatch a with context [if _ then _ else _] => fail | _ => destruct (a =? b) eqn:? end; cbn
  end; try (eexists; split; reflexivity); exfalso; apply Hp; zb;
    repeat match goal with |- context [?a =? ?b] => rewrite (proj2 (Z.eqb_neq a b)) by lia end; done.
Qed.

Lemma scan_released s : exists s',
  Key_Scan (fun _ => released) 0 s = Some (0, s') /\ key_up s' = 1.
Proof. destruct s as [up ku kc rd]. run_scan. destruct (up =? 0); cbn; by eexists. Qed.

Lemma scans_held p n s : key_up s = 0 -> key_code p <> 0 -> exists s',
  key_scans (replicate n p) s = Some (replicate n 0, s') /\ key_up s' = 0.
Proof.
  revert s. induction n as [|n IH]; intros s Hu Hp; cbn [replicate key_scans]; [by exists s|].
  destruct (scan_held p s Hu Hp) as (s1 & E1 & H1). destruct (IH s1 H1 Hp) as (s2 & E2 & H2).
  rewrite (st_bind_eq _ _ _ _ _ E1), (st_bind_eq _ _ _ _ _ E2). by exists s2.
Qed.

Lemma scans_released n s : exists s',
  key_scans (replicate (S n) released) s = Some (replicate (S n) 0, s') /\ key_up s' = 1.
Proof.
  revert s. induction n as [|n IH]; intros s; cbn [replicate key_scans];
    destruct (scan_released s) as (s1 & E1 & H1); rewrite (st_bind_eq _ _ _ _ _ E1); [by exists s1|].
  destruct (IH s1) as (s2 & E2 & H2). cbn [replicate key_scans] in E2.
  rewrite (st_bind_eq _ _ _ _ _ E2). by exists s2.
Qed.

Lemma key_scans_app ps1 ps2 s cs1 s1 cs2 s2 :
  key_scans ps1 s = Some (cs1, s1) -> key_scans ps2 s1 = Some (cs2, s2) ->
  key_scans (ps1 ++ ps2) s = Some (cs1 ++ cs2, s2).
Proof.
  revert s cs1. induction ps1 as [|p ps1 IH]; intros s cs1; cbn [key_scans app].
  - intros [= <- <-] E. done.
  - intros (c & s' & E1 & (cs & s3 & E2 & [= <- <-])%st_bind_Some)%st_bind_Some E.
    rewrite (st_bind_eq _ _ _ _ _ E1), (st_bind_eq _ _ _ _ _ (IH _ _ E2 E)). done.
Qed.

(** A key that is pressed, held during any number of scans and released is
    reported exactly once, by the first scan; the scan is then ready for the
    next key. *)
Theorem press_reported_once p n m s :
  key_up s <> 0 -> key_code p <> 0 -> exists s',
  key_scans (p :: replicate n p ++ replicate (S m) released) s =
    Some (key_code p :: replicate n 0 ++ replicate (S m) 0, s') /\ key_up s' = 1.
Proof.
  intros Hu Hp. destruct (scan_first p s Hu Hp) as (s1 & E1 & H1).
  destruct (scans_held p n s1 H1 Hp) as (s2 & E2 & _). destruct (scans_released m s2) as (s3 & E3 & H3).
  cbn [key_scans]. rewrite (st_bind_eq _ _ _ _ _ E1).
  rewrite (st_bind_eq _ _ _ _ _ (key_scans_app _ _ _ _ _ _ _ E2 E3)). by exists s3.
Qed.

(** ** Checks *)

Example uart_line_witness :
  exists l, receive USART1_IRQHandler ([72; 105] ++ [newline]) rx_empty = Some (RxBuffer l 0) /\
    take 4 l = [72; 105; 10; 0].
Proof.
  destruct (uart_line [72; 105] rx_empty) as (l & E & _ & H & _);
    [done|done|by repeat constructor|].
  exists l. exact (conj E H).
Defined.

Example CAN1_receive_witness :
  CAN1_RX0_IRQHandler (CanRx 2 [1; 2; 3; 4; 5; 6; 7; 8]) (replicate 50 0) =
    Some (1 :: 2 :: replicate 48 0).
Proof. apply (CAN1_receive (CanRx 2 [1; 2; 3; 4; 5; 6; 7; 8]) (replicate 50 0)); done. Defined.

Example press_reported_once_witness : exists s,
  key_scans [KeyPins 1 0 1 0; KeyPins 1 0 1 0; released; released] keys_init =
    Some ([2; 0; 0; 0], s) /\ key_up s = 1.
Proof. apply (press_reported_once (KeyPins 1 0 1 0) 1 1 keys_init); done. Defined.
