(* ===== verification/I2c.v ===== *)
(** * I2c: the two-wire bus in software and its devices (Main/src/i2c.c,
    at24c02.c, mpu6050.c)

    The driver writes the levels of the two pins and switches the data pin
    between output and input: what it does is the sequence of these operations.
    The level it reads while the pin is an input is an arbitrary function of the
    position in the sequence.  A bus monitor ([monitor]) turns the sequence into
    what a device on the bus sees: start and stop conditions, data bits of the
    master, and bit slots left to the device. *)

From S2P Require Import Prelude.

(** ** The pins *)

Inductive iic_op :=
  | Mode_Tx
  | Mode_Rx
  | SDA_OUT (v : Z)
  | SCL (v : Z)
  | SDA_IN (v : Z).

Record iic_bus := IicBus {
  iic_log : list iic_op;
  sda_level : nat -> Z
}.
#[export] Instance iic_bus_settable : Settable iic_bus :=
  fun r => IicBus (iic_log r) (sda_level r).

Definition IIC (A : Type) : Type := ST iic_bus A.

Definition pin_op (o : iic_op) : IIC unit := st_mod (set iic_log (fun l => l ++ [o])).

Definition read_sda : IIC Z := fun s =>
  let v := sda_level s (length (iic_log s)) in
  Some (v, s <| iic_log ::= (fun l => l ++ [SDA_IN v]) |>).

(** After [IIC_Init] both pins are outputs, at 1. *)
Definition iic_init (level : nat -> Z) : iic_bus := IicBus [Mode_Tx; SCL 1; SDA_OUT 1] level.

(** ** i2c.c *)

Definition IIC_Start : IIC unit :=
  _ ← pin_op Mode_Tx; _ ← pin_op (SDA_OUT 1); _ ← pin_op (SCL 1);
  _ ← pin_op (SDA_OUT 0); pin_op (SCL 0).

Definition IIC_Stop : IIC unit :=
  _ ← pin_op Mode_Tx; _ ← pin_op (SCL 0); _ ← pin_op (SDA_OUT 0);
  _ ← pin_op (SCL 1); pin_op (SDA_OUT 1).

Definition IIC_TxReply (Res : Z) : IIC unit :=
  _ ← pin_op (SCL 0); _ ← pin_op Mode_Tx; _ ← pin_op (SDA_OUT (1 - Res));
  _ ← pin_op (SCL 1); pin_op (SCL 0).

(** The wait for the device: at most 251 reads. *)
Fixpoint wait_reply (fuel : nat) (ReplyTime : Z) : IIC bool :=
  match fuel with
  | O => fun _ => None
  | S fuel =>
      v ← read_sda;
      if v =? 0 then mret true else
      let ReplyTime := u8 (ReplyTime + 1) in
      if 250 <? ReplyTime then _ ← IIC_Stop; mret false
      else wait_reply fuel ReplyTime
  end.

Definition IIC_RxReply : IIC bool :=
  _ ← pin_op Mode_Rx; _ ← pin_op (SDA_OUT 1); _ ← pin_op (SCL 1);
  ok ← wait_reply 251 0;
  if ok : bool then _ ← pin_op (SCL 0); mret true else mret false.

(** [n] bits, highest first. *)
Fixpoint send_bits (n : nat) (Data : Z) : IIC unit :=
  match n with
  | O => st_skip
  | S n =>
      _ ← pin_op (SDA_OUT (Z.shiftr (Z.land Data 0x80) 7));
      _ ← pin_op (SCL 1); _ ← pin_op (SCL 0);
      send_bits n (u8 (Z.shiftl Data 1))
  end.

Definition IIC_Send_Byte (Data : Z) : IIC bool :=
  _ ← pin_op Mode_Tx; _ ← send_bits 8 Data; IIC_RxReply.

Fixpoint read_bits (n : nat) (RxData : Z) : IIC Z :=
  match n with
  | O => mret RxData
  | S n =>
      _ ← pin_op (SCL 0); _ ← pin_op (SCL 1);
      v ← read_sda;
      let RxData := u8 (Z.shiftl RxData 1) in
      read_bits n (if v =? 0 then RxData else u8 (RxData + 1))
  end.

(** [garbage] is the value of the variable the bits are shifted into, which has
    none. *)
Definition IIC_Read_Byte (garbage IsAck : Z) : IIC Z :=
  _ ← pin_op Mode_Rx; RxData ← read_bits 8 garbage; _ ← IIC_TxReply IsAck; mret RxData.

(** ** at24c02.c *)

Definition IIC_DATA_SIZE_MAX : Z := 32.

(** [sizeof(Data)] is the size of the pointer, 4. *)
Definition sizeof_pointer : Z := 4.

Definition AT24C02_Tx_byte (b a : Z) : IIC bool :=
  _ ← IIC_Start;
  _ ← IIC_Send_Byte (u8 (0xA0 + Z.shiftl (a / 256) 1));
  _ ← IIC_Send_Byte (a mod 256);
  Res ← IIC_Send_Byte b;
  _ ← IIC_Stop;
  mret Res.

Fixpoint AT24C02_Tx_loop (n : nat) (Data : list Z) (Addr Index : Z) : IIC bool :=
  match n with
  | O => mret true
  | S n =>
      b ← st_opt Data.[Index];
      Res ← AT24C02_Tx_byte b (Addr + Index);
      if Res : bool then AT24C02_Tx_loop n Data Addr (Index + 1) else mret false
  end.

Definition AT24C02_Tx_Data (Data : list Z) (Addr TxLen : Z) : IIC bool :=
  if IIC_DATA_SIZE_MAX <? sizeof_pointer then mret false
  else AT24C02_Tx_loop (Z.to_nat TxLen) Data Addr 0.

Definition AT24C02_Rx_byte (garbage a : Z) : IIC (bool * Z) :=
  _ ← IIC_Start;
  _ ← IIC_Send_Byte (u8 (0xA0 + Z.shiftl (a / 256) 1));
  _ ← IIC_Send_Byte (a mod 256);
  _ ← IIC_Start;
  Res ← IIC_Send_Byte 0xA1;
  b ← IIC_Read_Byte garbage 0;
  _ ← IIC_Stop;
  mret (Res, b).

Fixpoint AT24C02_Rx_loop (n : nat) (garbage : Z) (Buff : list Z) (Addr Index : Z)
    : IIC (bool * list Z) :=
  match n with
  | O => mret (true, Buff)
  | S n =>
      '(Res, b) ← AT24C02_Rx_byte garbage (Addr + Index);
      Buff ← st_opt Buff.[Index <- b];
      if Res : bool then AT24C02_Rx_loop n garbage Buff Addr (Index + 1) else mret (false, Buff)
  end.

(** The answer and the buffer. *)
Definition AT24C02_Rx_Data (garbage : Z) (Buff : list Z) (Addr RxLen : Z)
    : IIC (bool * list Z) :=
  if IIC_DATA_SIZE_MAX <? RxLen then mret (false, Buff)
  else AT24C02_Rx_loop (Z.to_nat RxLen) garbage Buff Addr 0.

(** ** mpu6050.c *)

Definition MPU6050_DEV_ADDR : Z := 0x68.
Definition MPU6050_WRITE_CMD : Z := 0x00.
Definition MPU6050_READ_CMD : Z := 0x01.
Definition MPU6050_RESET_CMD : Z := 0x08.
Definition MPU6050_SAMPLE_RATE_REG : Z := 0x19.
Definition MPU6050_CFG_REG : Z := 0x1A.
Definition MPU6050_GYRO_CFG_REG : Z := 0x1B.
Definition MPU6050_ACCEL_CFG_REG : Z := 0x1C.
Definition MPU6050_ACCEL_XOUTH_REG : Z := 0x3B.
Definition MPU6050_GYRO_XOUTH_REG : Z := 0x43.
Definition MPU6050_PWR_MGMT1_REG : Z := 0x6B.

Fixpoint MPU6050_Tx_loop (n : nat) (Data : list Z) (Index : Z) : IIC bool :=
  match n with
  | O => mret true
  | S n =>
      b ← st_opt Data.[Index];
      Res ← IIC_Send_Byte b;
      if Res : bool then MPU6050_Tx_loop n Data (Index + 1) else mret false
  end.

Definition MPU6050_Tx_Data (Data : list Z) (Addr TxLen : Z) : IIC bool :=
  _ ← IIC_Start;
  _ ← IIC_Send_Byte (Z.lor (Z.shiftl MPU6050_DEV_ADDR 1) MPU6050_WRITE_CMD);
  _ ← IIC_Send_Byte (u8 Addr);
  Res ← IIC_Send_Byte (Z.lor (Z.shiftl MPU6050_DEV_ADDR 1) MPU6050_READ_CMD);
  if negb Res then _ ← IIC_Stop; mret false else
  Res ← MPU6050_Tx_loop (Z.to_nat TxLen) Data 0;
  _ ← IIC_Stop;
  mret Res.

Fixpoint MPU6050_Rx_loop (n : nat) (garbage : Z) (Buff : list Z) (Index : Z)
    : IIC (list Z) :=
  match n with
  | O => mret Buff
  | S n =>
      b ← (if negb (Index =? 1) then IIC_Read_Byte garbage 1 else IIC_Read_Byte garbage 0);
      Buff ← st_opt Buff.[Index <- b];
      MPU6050_Rx_loop n garbage Buff (Index + 1)
  end.

Definition MPU6050_Rx_Data (garbage : Z) (Buff : list Z) (Addr RxLen : Z)
    : IIC (bool * list Z) :=
  _ ← IIC_Start;
  _ ← IIC_Send_Byte (Z.lor (Z.shiftl MPU6050_DEV_ADDR 1) MPU6050_WRITE_CMD);
  _ ← IIC_Send_Byte (u8 Addr);
  Res ← IIC_Send_Byte (Z.lor (Z.shiftl MPU6050_DEV_ADDR 1) MPU6050_READ_CMD);
  if negb Res then _ ← IIC_Stop; mret (false, Buff) else
  Buff ← MPU6050_Rx_loop (Z.to_nat RxLen) garbage Buff 0;
  _ ← IIC_Stop;
  mret (true, Buff).

Section mpu6050.
(** The memory at an address: the code makes pointers of register values. *)
Context (bytes_at : Z -> list Z).

Definition MPU6050_Init : IIC bool :=
  _ ← MPU6050_Tx_Data (bytes_at MPU6050_RESET_CMD) MPU6050_PWR_MGMT1_REG 1;
  MPU6050_Tx_Data (bytes_at MPU6050_RESET_CMD) MPU6050_PWR_MGMT1_REG 1.

Definition MPU6050_SetGyroFsr (Fsr : Z) : IIC bool :=
  MPU6050_Tx_Data (bytes_at (Z.shiftl Fsr 3)) MPU6050_GYRO_CFG_REG 1.

Definition MPU6050_SetAccelFsr (Fsr : Z) : IIC bool :=
  MPU6050_Tx_Data (bytes_at (Z.shiftl Fsr 3)) MPU6050_ACCEL_CFG_REG 1.
End mpu6050.

Definition LPF_code (Lpf : Z) : Z :=
  if 188 <=? Lpf then 1 else if 98 <=? Lpf then 2 else if 42 <=? Lpf then 3
  else if 20 <=? Lpf then 4 else if 10 <=? Lpf then 5 else 6.

Definition MPU6050_SetLPF (Lpf : Z) : IIC bool :=
  MPU6050_Tx_Data [LPF_code Lpf] MPU6050_CFG_REG 1.

Definition rate_divider (Rate : Z) : Z :=
  let Rate := if 1000 <? Rate then 1000 else Rate in
  let Rate := if Rate <? 4 then 4 else Rate in
  u8 (1000 / Rate - 1).

Definition MPU6050_SetRate (Rate : Z) : IIC bool :=
  let Rate' := if 1000 <? Rate then 1000 else Rate in
  let Rate' := if Rate' <? 4 then 4 else Rate' in
  _ ← MPU6050_Tx_Data [rate_divider Rate] MPU6050_SAMPLE_RATE_REG 1;
  MPU6050_SetLPF (Rate' / 2).

(** Six bytes, high byte first, as three signed values. *)
Definition axes (b : list Z) : option (Z * Z * Z) :=
  match b with
  | [x1; x0; y1; y0; z1; z0] =>
      Some (s16 (Z.lor (Z.shiftl x1 8) x0), s16 (Z.lor (Z.shiftl y1 8) y0),
            s16 (Z.lor (Z.shiftl z1 8) z0))
  | _ => None
  end.

(** The answer, and the values if they are stored. *)
Definition read_axes (garbage : Z) (RxBuff : list Z) (reg : Z) : IIC (bool * option (Z * Z * Z)) :=
  '(Res, b) ← MPU6050_Rx_Data garbage RxBuff reg 6;
  if Res : bool then v ← st_opt (axes b); mret (true, Some v) else mret (false, None).

Definition MPU6050_GetGyroscope (garbage : Z) (RxBuff : list Z) : IIC (bool * option (Z * Z * Z)) :=
  read_axes garbage RxBuff MPU6050_GYRO_XOUTH_REG.

Definition MPU6050_GetAccelerometer (garbage : Z) (RxBuff : list Z)
    : IIC (bool * option (Z * Z * Z)) :=
  read_axes garbage RxBuff MPU6050_ACCEL_XOUTH_REG.

(** ** What a device on the bus sees *)

Inductive symbol :=
  | Start
  | Stop
  | Bit (b : Z)        (** a clock pulse while the master drives [b] *)
  | Slot               (** a clock pulse while the line is left to the device *)
  | Glitch.            (** a change of the line by the direction during a pulse *)

(** [mo_pulse] is what the present clock pulse carries, unless a start or stop
    condition took its place. *)
Record monitor := Monitor {
  mo_tx : bool;
  mo_out : Z;
  mo_scl : Z;
  mo_pulse : option symbol;
  mo_seen : list symbol
}.

Definition option_list {A} (o : option A) : list A :=
  match o with Some x => [x] | None => [] end.

Definition watch (m : monitor) (o : iic_op) : monitor :=
  let 'Monitor tx out scl pulse seen := m in
  let glitch := if (scl =? 1) && (out =? 0) then [Glitch] else [] in
  match o with
  | Mode_Tx => Monitor true out scl pulse (seen ++ (if tx then [] else glitch))
  | Mode_Rx => Monitor false out scl pulse (seen ++ (if tx then glitch else []))
  | SDA_OUT v =>
      if tx && (scl =? 1) && negb (out =? v)
      then Monitor tx v scl None (seen ++ [if v =? 0 then Start else Stop])
      else Monitor tx v scl pulse seen
  | SCL v =>
      if (scl =? 0) && (v =? 1) then Monitor tx out 1 (Some (if tx then Bit out else Slot)) seen
      else if (scl =? 1) && (v =? 0) then Monitor tx out 0 None (seen ++ option_list pulse)
      else Monitor tx out v pulse seen
  | SDA_IN _ => m
  end.

Definition seen_in (l : list iic_op) : monitor :=
  foldl watch (Monitor true 1 1 None []) l.

(** The bits of a byte, highest first, and back. *)
Definition bits8 (d : Z) : list Z :=
  (fun k => b2z (Z.testbit d (Z.of_nat k))) <$> [7; 6; 5; 4; 3; 2; 1; 0]%nat.
Definition byte_of (bs : list Z) : Z := foldl (fun a b => 2 * a + b) 0 bs.

(** A byte and the slot for its acknowledgment. *)
Definition byte_symbols (d : Z) : list symbol := (Bit <$> bits8 d) ++ [Slot].

Lemma byte_of_bits8 d : 0 <= d < 256 -> byte_of (bits8 d) = d.
Proof.
  intros H. assert (Hall : forallb (fun n => byte_of (bits8 (Z.of_nat n)) =? Z.of_nat n) (seq 0 256) = true)
    by (vm_compute; reflexivity).
  rewrite forallb_forall in Hall. specialize (Hall (Z.to_nat d)).
  rewrite Z2Nat.id in Hall by lia. apply Z.eqb_eq, Hall, in_seq. lia.
Qed.

(** ** Proofs about single operations *)

Lemma pin_op_eq o s : pin_op o s = Some (tt, s <| iic_log ::= (fun l => l ++ [o]) |>).
Proof. done. Qed.

Lemma seen_snoc l o : seen_in (l ++ [o]) = watch (seen_in l) o.
Proof. unfold seen_in. by rewrite foldl_app. Qed.

(** The state after more operations. *)
Definition after (s : iic_bus) (ops : list iic_op) : iic_bus :=
  s <| iic_log ::= (fun l => l ++ ops) |>.

Lemma after_after s a b : after (after s a) b = after s (a ++ b).
Proof. unfold after, set. cbn. by rewrite app_assoc. Qed.

Lemma after_seen s ops : seen_in (iic_log (after s ops)) = foldl watch (seen_in (iic_log s)) ops.
Proof. unfold seen_in. cbn. by rewrite foldl_app. Qed.

Lemma after_nil s : after s [] = s.
Proof. unfold after, set. cbn. rewrite app_nil_r. by destruct s. Qed.

Lemma IIC_Start_eq s : IIC_Start s =
  Some (tt, after s [Mode_Tx; SDA_OUT 1; SCL 1; SDA_OUT 0; SCL 0]).
Proof.
  unfold IIC_Start. rewrite !(st_bind_eq _ _ _ _ _ (pin_op_eq _ _)), pin_op_eq.
  unfold after, set. cbn. by rewrite <- !app_assoc.
Qed.

Lemma IIC_Stop_eq s : IIC_Stop s =
  Some (tt, after s [Mode_Tx; SCL 0; SDA_OUT 0; SCL 1; SDA_OUT 1]).
Proof.
  unfold IIC_Stop. rewrite !(st_bind_eq _ _ _ _ _ (pin_op_eq _ _)), pin_op_eq.
  unfold after, set. cbn. by rewrite <- !app_assoc.
Qed.

(** *** Sending *)

Fixpoint high_bits (n : nat) (d : Z) : list Z :=
  match n with
  | O => []
  | S n => Z.shiftr (Z.land d 0x80) 7 :: high_bits n (u8 (Z.shiftl d 1))
  end.

Lemma high_bits8 d : 0 <= d < 256 -> high_bits 8 d = bits8 d.
Proof.
  intros H.
  assert (Hall : forallb (fun n => bool_decide (high_bits 8 (Z.of_nat n) = bits8 (Z.of_nat n)))
    (seq 0 256) = true) by (vm_compute; reflexivity).
  rewrite forallb_forall in Hall. specialize (Hall (Z.to_nat d)).
  rewrite Z2Nat.id in Hall by lia. apply (bool_decide_eq_true_1 _), Hall, in_seq. lia.
Qed.

Definition bit_ops (b : Z) : list iic_op := [SDA_OUT b; SCL 1; SCL 0].

Lemma send_bits_eq n : forall d s,
  send_bits n d s = Some (tt, after s (flat_map bit_ops (high_bits n d))).
Proof.
  induction n as [|n IH]; intros d s; cbn [send_bits high_bits flat_map].
  { by rewrite after_nil. }
  rewrite !(st_bind_eq _ _ _ _ _ (pin_op_eq _ _)), IH. unfold after, set. cbn.
  by rewrite <- !app_assoc.
Qed.

Lemma watch_bits bs : forall out syms, exists out',
  foldl watch (Monitor true out 0 None syms) (flat_map bit_ops bs) =
    Monitor true out' 0 None (syms ++ (Bit <$> bs)).
Proof.
  induction bs as [|b bs IH]; intros out syms; cbn [flat_map fmap list_fmap].
  { exists out. by rewrite app_nil_r. }
  rewrite foldl_app. destruct (IH b (syms ++ [Bit b])) as [out' E]. exists out'.
  change (foldl watch (Monitor true out 0 None syms) (bit_ops b)) with (Monitor true b 0 None (syms ++ [Bit b])).
  rewrite E, <- app_assoc. done.
Qed.

(** *** The acknowledgment *)

(** Does one of the first [n] reads from position [pos] find the line low? *)
Definition low_within (level : nat -> Z) (pos n : nat) : bool :=
  existsb (fun k => level k =? 0) (seq pos n).

Definition is_read (o : iic_op) : Prop := exists v, o = SDA_IN v.

Lemma watch_reads ops m : Forall is_read ops -> foldl watch m ops = m.
Proof.
  revert m. induction ops as [|o ops IH]; intros m H; [done|].
  apply Forall_cons in H as [[v ->] H]. cbn [foldl]. destruct m. by apply IH.
Qed.

Lemma wait_reply_eq fuel : forall t s,
  0 <= t -> t + Z.of_nat fuel = 251 -> (0 < fuel)%nat ->
  exists reads, Forall is_read reads /\ wait_reply fuel t s =
    if low_within (sda_level s) (length (iic_log s)) fuel then Some (true, after s reads)
    else Some (false, after s (reads ++ [Mode_Tx; SCL 0; SDA_OUT 0; SCL 1; SDA_OUT 1])).
Proof.
  unfold low_within. induction fuel as [|fuel IH]; intros t s Ht Hf Hpos; [lia|].
  cbn [wait_reply seq existsb]. set (v := sda_level s (length (iic_log s))).
  assert (E : read_sda s = Some (v, after s [SDA_IN v])) by done.
  rewrite (st_bind_eq _ _ _ _ _ E). destruct (v =? 0); cbn [orb].
  { exists [SDA_IN v]. split; [|done]. repeat constructor. by exists v. }
  rewrite u8_small by lia. destruct (decide (fuel = 0%nat)) as [->|Hne].
  - ztest. rewrite (st_bind_eq _ _ _ _ _ (IIC_Stop_eq _)). exists [SDA_IN v].
    split; [repeat constructor; by exists v|]. rewrite after_after. done.
  - ztest. destruct (IH (t + 1) (after s [SDA_IN v])) as (reads & Hr & E'); [lia|lia|lia|].
    exists (SDA_IN v :: reads). split; [constructor; [by exists v|done]|]. rewrite E'.
    rewrite !after_after. cbn [after set iic_log sda_level]. rewrite length_app. cbn [length].
    replace (length (iic_log s) + 1)%nat with (S (length (iic_log s))) by lia. done.
Qed.

(** The bus before a byte: the clock is low and no pulse is under way. *)
Definition clock_low (s : iic_bus) (syms : list symbol) : Prop :=
  exists tx out, seen_in (iic_log s) = Monitor tx out 0 None syms.

(** The bus after an acknowledged byte. *)
Definition acked (s : iic_bus) (syms : list symbol) : Prop :=
  seen_in (iic_log s) = Monitor false 1 0 None syms.

(** The free bus. *)
Definition bus_idle (s : iic_bus) (syms : list symbol) : Prop :=
  seen_in (iic_log s) = Monitor true 1 1 None syms.

Lemma send_byte_run d s syms :
  0 <= d < 256 -> clock_low s syms ->
  let ok := low_within (sda_level s) (length (iic_log s) + 28) 251 in
  exists s', IIC_Send_Byte d s = Some (ok, s') /\ sda_level s' = sda_level s /\
    if ok then acked s' (syms ++ byte_symbols d)
    else bus_idle s' (syms ++ byte_symbols d ++ [Stop]).
Proof.
  intros Hd (tx & out & Hs) ok. unfold IIC_Send_Byte, IIC_RxReply.
  rewrite (st_bind_eq _ _ _ _ _ (pin_op_eq _ _)), (st_bind_eq _ _ _ _ _ (send_bits_eq _ _ _)).
  rewrite high_bits8 by done. rewrite !(st_bind_eq _ _ _ _ _ (pin_op_eq _ _)).
  set (s3 := _ <| iic_log ::= (fun l => l ++ [SCL 1]) |>).
  assert (E3 : s3 = after s (Mode_Tx :: flat_map bit_ops (bits8 d) ++ [Mode_Rx; SDA_OUT 1; SCL 1])).
  { unfold s3, after, set. cbn. rewrite <- !app_assoc. done. }
  assert (Hlen : length (iic_log s3) = (length (iic_log s) + 28)%nat)
    by (rewrite E3; cbn [after set iic_log]; rewrite length_app; done).
  assert (Hseen : seen_in (iic_log s3) = Monitor false 1 1 (Some Slot) (syms ++ (Bit <$> bits8 d))).
  { rewrite E3, after_seen, Hs. cbn [foldl]. rewrite foldl_app.
    assert (Em : watch (Monitor tx out 0 None syms) Mode_Tx = Monitor true out 0 None syms)
      by (cbn; destruct tx; by rewrite app_nil_r).
    rewrite Em. destruct (watch_bits (bits8 d) out syms) as [out' ->].
    cbn. by rewrite app_nil_r. }
  destruct (wait_reply_eq 251 0 s3) as (reads & Hr & Ew); [lia|lia|lia|].
  rewrite Hlen in Ew. change (sda_level s3) with (sda_level s) in Ew. fold ok in Ew.
  unfold byte_symbols. set (bs := Bit <$> bits8 d) in *. clearbody bs.
  destruct ok.
  - rewrite (st_bind_eq _ _ _ _ _ Ew), (st_bind_eq _ _ _ _ _ (pin_op_eq _ _)).
    eexists. split; [reflexivity|]. split; [done|]. unfold acked.
    cbn [after set iic_log]. rewrite seen_snoc. change (iic_log s3 ++ reads) with (iic_log (after s3 reads)).
    rewrite after_seen, Hseen, watch_reads by done. cbn. by rewrite app_assoc.
  - rewrite (st_bind_eq _ _ _ _ _ Ew). eexists. split; [reflexivity|]. split; [done|].
    unfold bus_idle. rewrite after_seen, foldl_app, Hseen, (watch_reads reads) by done. cbn.
    rewrite ?app_nil_r, <- ?app_assoc. done.
Qed.

(** A byte on the bus.  Whatever the driver did before, as long as the clock
    is low, sending a byte puts its eight bits on the bus, highest first, and one
    slot for the acknowledgment; the answer is whether the device pulls the line
    low within 251 reads; if it does not, the bus is released with a stop. *)
Theorem IIC_Send_Byte_spec d s syms :
  0 <= d < 256 -> clock_low s syms ->
  exists ok s' bits, IIC_Send_Byte d s = Some (ok, s') /\ byte_of bits = d /\ length bits = 8%nat /\
    (ok = true <-> exists k, (k < 251)%nat /\ sda_level s (length (iic_log s) + 28 + k) = 0) /\
    if ok then acked s' (syms ++ (Bit <$> bits) ++ [Slot])
    else bus_idle s' (syms ++ (Bit <$> bits) ++ [Slot; Stop]).
Proof.
  intros Hd Hs. destruct (send_byte_run d s syms Hd Hs) as (s' & E & _ & H).
  eexists _, s', (bits8 d). split; [exact E|]. split; [by apply byte_of_bits8|]. split; [done|]. split.
  - unfold low_within. rewrite existsb_exists. split.
    + intros (k & Hk%in_seq & Hv%Z.eqb_eq). exists (k - (length (iic_log s) + 28))%nat.
      split; [lia|]. rewrite <- Hv. f_equal. lia.
    + intros (k & Hk & Hv). eexists. split; [apply in_seq|by apply Z.eqb_eq]. lia.
  - destruct (low_within _ _ _); unfold byte_symbols in H; [done|]. by rewrite <- app_assoc in H.
Qed.

(** *** Reading *)

(** What a read at position [pos] contributes. *)
Definition sample (level : nat -> Z) (pos : nat) : Z := if level pos =? 0 then 0 else 1.

(** The [n] bits sampled from position [pos] on, a read every third operation. *)
Definition samples (level : nat -> Z) (pos n : nat) : list Z :=
  (fun k => sample level (pos + 3 * k + 2)) <$> seq 0 n.

Lemma samples_S level pos n :
  samples level pos (S n) = sample level (pos + 2) :: samples level (pos + 3) n.
Proof.
  unfold samples. cbn [seq fmap list_fmap]. f_equal; [f_equal; lia|].
  rewrite <- fmap_S_seq, <- list_fmap_compose. apply list_fmap_ext. intros i x _. cbn. f_equal. lia.
Qed.

Lemma byte_of_foldl bs : forall a,
  foldl (fun a b => 2 * a + b) a bs = a * 2 ^ Z.of_nat (length bs) + byte_of bs.
Proof.
  unfold byte_of. induction bs as [|b bs IH]; intros a; cbn [foldl length]; [lia|].
  rewrite IH, (IH (2 * 0 + b)). rewrite Nat2Z.inj_succ, Z.pow_succ_r by lia. lia.
Qed.

Lemma byte_of_samples level pos : 0 <= byte_of (samples level pos 8) < 256.
Proof.
  unfold samples, byte_of. cbn [seq fmap list_fmap foldl].
  assert (Hb : forall p, 0 <= sample level p <= 1) by (intros p; unfold sample; destruct (_ =? _); lia).
  repeat match goal with |- context [sample ?l ?p] => pose proof (Hb p); generalize dependent (sample l p); intros end.
  lia.
Qed.

(** What was in the variable is shifted out. *)
Lemma shifted_in level pos a :
  u8 (foldl (fun a b => 2 * a + b) a (samples level pos 8)) = byte_of (samples level pos 8).
Proof.
  rewrite byte_of_foldl. change (Z.of_nat (length (samples level pos 8))) with 8.
  unfold u8. rewrite Z.add_comm, Z_mod_plus_full. apply Z.mod_small, byte_of_samples.
Qed.

Lemma read_bits_run n : forall acc s out syms,
  0 <= acc < 256 -> watch (seen_in (iic_log s)) (SCL 0) = Monitor false out 0 None syms ->
  exists s', read_bits n acc s =
      Some (u8 (foldl (fun a b => 2 * a + b) acc (samples (sda_level s) (length (iic_log s)) n)), s') /\
    sda_level s' = sda_level s /\
    watch (seen_in (iic_log s')) (SCL 0) = Monitor false out 0 None (syms ++ repeat Slot n).
Proof.
  induction n as [|n IH]; intros acc s out syms Hacc Hs.
  { exists s. cbn. rewrite u8_small, app_nil_r by done. done. }
  cbn [read_bits]. rewrite !(st_bind_eq _ _ _ _ _ (pin_op_eq _ _)).
  set (s2 := _ <| iic_log ::= (fun l => l ++ [SCL 1]) |>).
  assert (E2 : s2 = after s [SCL 0; SCL 1]) by (unfold s2, after, set; cbn; by rewrite <- app_assoc).
  set (v := sda_level s (length (iic_log s) + 2)).
  assert (E : read_sda s2 = Some (v, after s [SCL 0; SCL 1; SDA_IN v])).
  { unfold read_sda. rewrite E2. cbn [after set iic_log sda_level]. rewrite length_app. cbn [length].
    fold v. unfold after, set. cbn. by rewrite <- app_assoc. }
  rewrite (st_bind_eq _ _ _ _ _ E). set (s3 := after s _).
  set (acc' := if v =? 0 then _ else _).
  assert (Hacc' : acc' = u8 (2 * acc + sample (sda_level s) (length (iic_log s) + 2))).
  { unfold acc', sample. fold v. unfold u8. rewrite Z.shiftl_mul_pow2 by lia.
    destruct (v =? 0); [f_equal; lia|]. rewrite Zplus_mod_idemp_l. f_equal. lia. }
  assert (H3 : watch (seen_in (iic_log s3)) (SCL 0) = Monitor false out 0 None (syms ++ [Slot])).
  { unfold s3. rewrite after_seen. cbn [foldl]. rewrite Hs. reflexivity. }
  destruct (IH acc' s3 out (syms ++ [Slot])) as (s' & -> & Hl & Hm); [rewrite Hacc'; apply u8_range|done|].
  exists s'. split; [|split; [done|]].
  2: { rewrite Hm, <- app_assoc. done. }
  f_equal. f_equal. change (sda_level s3) with (sda_level s).
  assert (Hlen : length (iic_log s3) = (length (iic_log s) + 3)%nat)
    by (unfold s3, after, set; cbn; by rewrite length_app).
  rewrite Hlen, samples_S. cbn [foldl]. rewrite !byte_of_foldl, Hacc'. unfold u8.
  rewrite <- (Zplus_mod_idemp_l (_ mod 256 * _)), Zmult_mod_idemp_l, Zplus_mod_idemp_l. done.
Qed.

Lemma IIC_TxReply_eq Res s : IIC_TxReply Res s =
  Some (tt, after s [SCL 0; Mode_Tx; SDA_OUT (1 - Res); SCL 1; SCL 0]).
Proof.
  unfold IIC_TxReply. rewrite !(st_bind_eq _ _ _ _ _ (pin_op_eq _ _)), pin_op_eq.
  unfold after, set. cbn. by rewrite <- !app_assoc.
Qed.

(** Reading a byte.  The driver leaves the line to the device for eight clock
    pulses, then drives the acknowledgment bit itself; the value is that of the
    eight levels sampled, highest first, whatever the variable they are shifted
    into held at first. *)
Theorem IIC_Read_Byte_spec garbage IsAck s syms :
  0 <= garbage < 256 -> clock_low s syms ->
  exists s', IIC_Read_Byte garbage IsAck s =
      Some (byte_of (samples (sda_level s) (length (iic_log s) + 1) 8), s') /\
    clock_low s' (syms ++ repeat Slot 8 ++ [Bit (1 - IsAck)]).
Proof.
  intros Hg (tx & out & Hs). unfold IIC_Read_Byte. rewrite (st_bind_eq _ _ _ _ _ (pin_op_eq _ _)).
  set (s1 := s <| iic_log ::= _ |>).
  assert (H1 : watch (seen_in (iic_log s1)) (SCL 0) = Monitor false out 0 None syms).
  { unfold s1. cbn [set iic_log]. rewrite seen_snoc, Hs. cbn. destruct tx; by rewrite app_nil_r. }
  destruct (read_bits_run 8 garbage s1 out syms Hg H1) as (s2 & E & _ & H2).
  rewrite (st_bind_eq _ _ _ _ _ E), (st_bind_eq _ _ _ _ _ (IIC_TxReply_eq _ _)).
  change (sda_level s1) with (sda_level s) in *.
  assert (Hlen : length (iic_log s1) = (length (iic_log s) + 1)%nat)
    by (unfold s1, set; cbn; by rewrite length_app).
  rewrite Hlen, shifted_in. eexists. split; [reflexivity|].
  exists true, (1 - IsAck). rewrite after_seen. cbn [foldl]. rewrite H2. cbn. by rewrite app_nil_r, <- app_assoc.
Qed.

(** ** The EEPROM *)

(** One byte [b] at address [a], as the device sees it. *)
Definition write_frame (a b : Z) : list symbol :=
  [Start] ++ byte_symbols (u8 (0xA0 + Z.shiftl (a / 256) 1)) ++ byte_symbols (a mod 256) ++
  byte_symbols b ++ [Stop].

Lemma start_wave_run s syms : bus_idle s syms ->
  exists s', IIC_Start s = Some (tt, s') /\ sda_level s' = sda_level s /\ clock_low s' (syms ++ [Start]).
Proof.
  intros Hs. rewrite IIC_Start_eq. eexists. split; [done|]. split; [done|].
  exists true, 0. rewrite after_seen, Hs. cbn. by rewrite !app_nil_r.
Qed.

Lemma stop_run s syms : acked s syms ->
  exists s', IIC_Stop s = Some (tt, s') /\ sda_level s' = sda_level s /\ bus_idle s' (syms ++ [Stop]).
Proof.
  intros Hs. rewrite IIC_Stop_eq. eexists. split; [done|]. split; [done|].
  unfold bus_idle. rewrite after_seen, Hs. cbn. by rewrite !app_nil_r.
Qed.

Lemma acked_clock_low s syms : acked s syms -> clock_low s syms.
Proof. intros H. by exists false, 1. Qed.

(** The device pulls the line low at every read. *)
Definition always_acks (s : iic_bus) : Prop := forall k, sda_level s k = 0.

Lemma low_within_acks s pos n : always_acks s -> (0 < n)%nat -> low_within (sda_level s) pos n = true.
Proof. intros H Hn. destruct n; [lia|]. unfold low_within. cbn. by rewrite H. Qed.

Lemma send_acked d s syms : 0 <= d < 256 -> clock_low s syms -> always_acks s ->
  exists s', IIC_Send_Byte d s = Some (true, s') /\ always_acks s' /\ acked s' (syms ++ byte_symbols d).
Proof.
  intros Hd Hs Ha. destruct (send_byte_run d s syms Hd Hs) as (s' & E & Hl & H).
  rewrite low_within_acks in E, H by (done || lia).
  exists s'. split; [done|]. split; [|done]. unfold always_acks. by rewrite Hl.
Qed.

Lemma AT24C02_Tx_byte_run b a s syms :
  0 <= b < 256 -> always_acks s -> bus_idle s syms ->
  exists s', AT24C02_Tx_byte b a s = Some (true, s') /\ always_acks s' /\
    bus_idle s' (syms ++ write_frame a b).
Proof.
  intros Hb Ha Hs. unfold AT24C02_Tx_byte.
  destruct (start_wave_run s syms Hs) as (s1 & E1 & Hl1 & H1). rewrite (st_bind_eq _ _ _ _ _ E1).
  assert (Ha1 : always_acks s1) by (unfold always_acks; by rewrite Hl1).
  destruct (send_acked (u8 (0xA0 + Z.shiftl (a / 256) 1)) s1 _ (u8_range _) H1 Ha1) as (s2 & E2 & Ha2 & H2%acked_clock_low).
  rewrite (st_bind_eq _ _ _ _ _ E2).
  destruct (send_acked (a mod 256) s2 _ (Z.mod_pos_bound a 256 eq_refl) H2 Ha2) as (s3 & E3 & Ha3 & H3%acked_clock_low).
  rewrite (st_bind_eq _ _ _ _ _ E3).
  destruct (send_acked b s3 _ Hb H3 Ha3) as (s4 & E4 & Ha4 & H4). rewrite (st_bind_eq _ _ _ _ _ E4).
  destruct (stop_run s4 _ H4) as (s5 & E5 & Hl5 & H5). rewrite (st_bind_eq _ _ _ _ _ E5).
  exists s5. split; [done|]. split; [unfold always_acks; by rewrite Hl5|].
  unfold write_frame. by rewrite <- !app_assoc in H5.
Qed.

Lemma AT24C02_Tx_loop_run n : forall Data Addr Index s syms,
  Forall (fun b => 0 <= b < 256) Data -> 0 <= Index -> Index + Z.of_nat n <= Z.of_nat (length Data) ->
  always_acks s -> bus_idle s syms ->
  exists s', AT24C02_Tx_loop n Data Addr Index s = Some (true, s') /\
    bus_idle s' (syms ++ flat_map (fun k => write_frame (Addr + Z.of_nat k) (Data !!! k)) (seq (Z.to_nat Index) n)).
Proof.
  induction n as [|n IH]; intros Data Addr Index s syms HD HI Hlen Ha Hs.
  { exists s. cbn. by rewrite app_nil_r. }
  cbn [AT24C02_Tx_loop seq flat_map].
  destruct (lookup_lt_is_Some_2 Data (Z.to_nat Index)) as [b Hb]; [lia|].
  assert (Eb : st_opt Data.[Index] s = Some (b, s)).
  { unfold st_opt, arr_get. ztest. by rewrite Hb. }
  rewrite (st_bind_eq _ _ _ _ _ Eb).
  destruct (AT24C02_Tx_byte_run b (Addr + Index) s syms) as (s1 & E1 & Ha1 & H1); [exact (Forall_lookup_1 _ _ _ _ HD Hb)|done|done|].
  rewrite (st_bind_eq _ _ _ _ _ E1).
  destruct (IH Data Addr (Index + 1) s1 _ HD ltac:(lia) ltac:(lia) Ha1 H1) as (s' & E & H).
  exists s'. split; [done|]. rewrite (list_lookup_total_correct _ _ _ Hb).
  replace (Z.to_nat (Index + 1)) with (S (Z.to_nat Index)) in H by lia.
  rewrite Z2Nat.id by lia. by rewrite <- app_assoc in H.
Qed.

(** Writing to the EEPROM.  Where the device acknowledges every byte and the
    buffer holds the [TxLen] bytes, the call succeeds, and what the device sees is
    one complete frame per byte -- start, chip address with the high address bits,
    low address byte, the data, stop -- in order and with nothing in between. *)
Theorem AT24C02_write_frames Data Addr TxLen s syms :
  Forall (fun b => 0 <= b < 256) Data -> 0 <= TxLen <= Z.of_nat (length Data) ->
  always_acks s -> bus_idle s syms ->
  exists s', AT24C02_Tx_Data Data Addr TxLen s = Some (true, s') /\
    bus_idle s' (syms ++ flat_map (fun k => write_frame (Addr + Z.of_nat k) (Data !!! k))
                           (seq 0 (Z.to_nat TxLen))).
Proof. intros. apply (AT24C02_Tx_loop_run _ Data Addr 0 s syms); by try lia. Qed.

(** ** Witnesses *)

(** A bus after a start condition, with nobody on it. *)
Definition started_bus : iic_bus :=
  IicBus [Mode_Tx; SCL 1; SDA_OUT 1; Mode_Tx; SDA_OUT 1; SCL 1; SDA_OUT 0; SCL 0] (fun _ => 1).

Lemma IIC_Send_Byte_spec_witness :
  exists ok s' bits, IIC_Send_Byte 0x5A started_bus = Some (ok, s') /\ byte_of bits = 0x5A /\
    length bits = 8%nat /\
    (ok = true <-> exists k, (k < 251)%nat /\
       sda_level started_bus (length (iic_log started_bus) + 28 + k) = 0) /\
    if ok then acked s' ([Start] ++ (Bit <$> bits) ++ [Slot])
    else bus_idle s' ([Start] ++ (Bit <$> bits) ++ [Slot; Stop]).
Proof. apply IIC_Send_Byte_spec; [lia|]. exists true, 0. reflexivity. Defined.

Lemma IIC_Read_Byte_spec_witness :
  exists s', IIC_Read_Byte 7 0 started_bus =
      Some (byte_of (samples (sda_level started_bus) (length (iic_log started_bus) + 1) 8), s') /\
    clock_low s' ([Start] ++ repeat Slot 8 ++ [Bit (1 - 0)]).
Proof. apply IIC_Read_Byte_spec; [lia|]. exists true, 0. reflexivity. Defined.

Lemma AT24C02_write_frames_witness :
  exists s', AT24C02_Tx_Data [1; 2; 3] 254 3 (iic_init (fun _ => 0)) = Some (true, s') /\
    bus_idle s' ([] ++ flat_map (fun k => write_frame (254 + Z.of_nat k) ([1; 2; 3] !!! k))
                           (seq 0 (Z.to_nat 3))).
Proof.
  apply AT24C02_write_frames; [repeat constructor; lia|cbn; lia|intros k; reflexivity|reflexivity].
Defined.
