(* ===== verification/Eth.v ===== *)
(** * Eth: the Ethernet driver (Main/src/lan8720.c, LwIP/arch/ethernetif.c and
    the descriptor functions of slib/src/stm32f4xx_eth.c)

    Two rings of DMA descriptors, one for received and one for transmitted
    frames, in memory taken from the allocator.  Each of the four regions is a
    list of its own (the allocator makes them disjoint, [ETH_Mem_Malloc_spec]),
    reached through the addresses the code computes: an address outside the
    region is undefined.  [pbuf_alloc] and [netif->input] belong to the lwIP
    stack and are parameters; a chain of pbufs is the list of its payloads. *)

From S2P Require Import Prelude Malloc.

(** ** Descriptors and their memory *)

Record ETH_DMADESC := MkDesc {
  Status : Z;
  ControlBufferSize : Z;
  Buffer1Addr : Z;
  Buffer2NextDescAddr : Z
}.
#[export] Instance desc_settable : Settable ETH_DMADESC :=
  fun r => MkDesc (Status r) (ControlBufferSize r) (Buffer1Addr r) (Buffer2NextDescAddr r).

(** With the four words of the enhanced format, which the code does not use. *)
Definition sizeof_desc : Z := 32.

Definition ETH_MAX_PACKET_SIZE : Z := 1524.
Definition ETH_RX_BUF_SIZE : Z := ETH_MAX_PACKET_SIZE.
Definition ETH_TX_BUF_SIZE : Z := ETH_MAX_PACKET_SIZE.
Definition ETH_RXBUFNB : Z := 5.
Definition ETH_TXBUFNB : Z := 5.

Definition ETH_DMATxDesc_OWN : Z := 0x80000000.
Definition ETH_DMATxDesc_LS : Z := 0x20000000.
Definition ETH_DMATxDesc_FS : Z := 0x10000000.
Definition ETH_DMATxDesc_TCH : Z := 0x00100000.
Definition ETH_DMATxDesc_TBS1 : Z := 0x00001FFF.
Definition ETH_DMATxDesc_ChecksumTCPUDPICMPFull : Z := 0x00C00000.
Definition ETH_DMARxDesc_OWN : Z := 0x80000000.
Definition ETH_DMARxDesc_FL : Z := 0x3FFF0000.
Definition ETH_DMARxDesc_ES : Z := 0x00008000.
Definition ETH_DMARxDesc_FS : Z := 0x00000200.
Definition ETH_DMARxDesc_LS : Z := 0x00000100.
Definition ETH_DMARxDesc_RCH : Z := 0x00004000.
Definition ETH_DMARxDesc_FrameLengthShift : Z := 16.
Definition ETH_DMASR_RBUS : Z := 0x00000080.
Definition ETH_DMASR_TBUS : Z := 0x00000004.

Definition ETH_ERROR : Z := 0.
Definition ETH_SUCCESS : Z := 1.
Definition ERR_OK : Z := 0.
Definition ERR_MEM : Z := -1.

(** A table of descriptors with its buffers, and where they are. *)
Record eth_area := MkArea {
  DscrTab : Z;
  descs : list ETH_DMADESC;
  Buff : Z;
  bytes : list Z
}.
#[export] Instance area_settable : Settable eth_area :=
  fun r => MkArea (DscrTab r) (descs r) (Buff r) (bytes r).

(** The element of the table at address [p]. *)
Definition desc_index (a : eth_area) (p : Z) : option Z :=
  let off := p - DscrTab a in
  if off mod sizeof_desc =? 0 then Some (off / sizeof_desc) else None.

Definition desc_get (a : eth_area) (p : Z) : option ETH_DMADESC :=
  i ← desc_index a p; (descs a).[i].

Definition desc_upd (f : ETH_DMADESC -> ETH_DMADESC) (p : Z) (a : eth_area) : option eth_area :=
  i ← desc_index a p;
  d ← (descs a).[i];
  l ← (descs a).[i <- f d];
  Some (a <| descs := l |>).

(** [n] bytes at address [p] of the buffers. *)
Definition buf_load (a : eth_area) (p n : Z) : option (list Z) :=
  let off := p - Buff a in
  if (0 <=? off) && (0 <=? n) && (off + n <=? Z.of_nat (length (bytes a)))
  then Some (take (Z.to_nat n) (drop (Z.to_nat off) (bytes a))) else None.

Definition buf_store (p : Z) (bs : list Z) (a : eth_area) : option eth_area :=
  let off := p - Buff a in
  if (0 <=? off) && (off + Z.of_nat (length bs) <=? Z.of_nat (length (bytes a)))
  then Some (a <| bytes := take (Z.to_nat off) (bytes a) ++ bs ++
                           drop (Z.to_nat off + length bs) (bytes a) |>)
  else None.

(** ** The driver's state *)

(** What the driver tells the DMA and the stack, in order. *)
Inductive eth_op :=
  | Clear_DMASR (bit : Z)
  | Rx_poll
  | Tx_poll
  | Alloc (len : Z) (ok : bool)
  | Input (p : list (list Z))
  | Pbuf_free (p : list (list Z))
  | MAC_address (addr : list Z)
  | ETH_Start
  | Clear_IT (bit : Z).

(** The fields of [struct netif] the driver sets. *)
Record netif := Netif {
  hwaddr : list Z;
  mtu : Z;
  flags : Z
}.
#[export] Instance netif_settable : Settable netif :=
  fun r => Netif (hwaddr r) (mtu r) (flags r).

Record eth_state := Eth {
  heap : m_mallco_dev;
  rx : eth_area;
  tx : eth_area;
  DMARxDescToGet : Z;
  DMATxDescToSet : Z;
  DMASR : Z;
  lwip_netif : netif;
  eth_log : list eth_op
}.
#[export] Instance eth_settable : Settable eth_state :=
  fun r => Eth (heap r) (rx r) (tx r) (DMARxDescToGet r) (DMATxDescToSet r) (DMASR r)
    (lwip_netif r) (eth_log r).

Definition ETH (A : Type) : Type := ST eth_state A.

Definition eth_do (o : eth_op) : ETH unit := st_mod (set eth_log (fun l => l ++ [o])).

(** Updates of an area that may be undefined. *)
Definition upd_rx (f : eth_area -> option eth_area) : ETH unit := fun s =>
  a ← f (rx s); Some (tt, s <| rx := a |>).
Definition upd_tx (f : eth_area -> option eth_area) : ETH unit := fun s =>
  a ← f (tx s); Some (tt, s <| tx := a |>).

Definition get_rx {A} (f : eth_area -> option A) : ETH A := fun s =>
  x ← f (rx s); Some (x, s).
Definition get_tx {A} (f : eth_area -> option A) : ETH A := fun s =>
  x ← f (tx s); Some (x, s).

(** A status bit of the DMA is cleared by writing it. *)
Definition clear_DMASR (bit : Z) : ETH unit :=
  _ ← st_mod (set DMASR (fun v => Z.ldiff v bit)); eth_do (Clear_DMASR bit).

(** ** stm32f4xx_eth.c *)

(** The body of the initialisation loops: descriptor [i] of [n]. *)
Definition rx_desc_init (tab buf n i : Z) (d : ETH_DMADESC) : ETH_DMADESC :=
  MkDesc ETH_DMARxDesc_OWN (Z.lor ETH_DMARxDesc_RCH ETH_RX_BUF_SIZE)
    (u32 (buf + i * ETH_RX_BUF_SIZE))
    (if i <? n - 1 then u32 (tab + sizeof_desc * (i + 1)) else tab).

Definition ETH_DMARxDescChainInit (tab buf n : Z) : ETH unit :=
  _ ← st_mod (set DMARxDescToGet (fun _ => tab));
  st_for (Z.to_nat n) 0 (fun i =>
    upd_rx (desc_upd (rx_desc_init tab buf n i) (tab + sizeof_desc * i))).

Definition tx_desc_init (tab buf n i : Z) (d : ETH_DMADESC) : ETH_DMADESC :=
  MkDesc ETH_DMATxDesc_TCH (ControlBufferSize d)
    (u32 (buf + i * ETH_TX_BUF_SIZE))
    (if i <? n - 1 then u32 (tab + sizeof_desc * (i + 1)) else tab).

Definition ETH_DMATxDescChainInit (tab buf n : Z) : ETH unit :=
  _ ← st_mod (set DMATxDescToSet (fun _ => tab));
  st_for (Z.to_nat n) 0 (fun i =>
    upd_tx (desc_upd (tx_desc_init tab buf n i) (tab + sizeof_desc * i))).

Definition ETH_DMATxDescChecksumInsertionConfig (p checksum : Z) : ETH unit :=
  upd_tx (desc_upd (fun d => d <| Status ::= (fun v => Z.lor v checksum) |>) p).

Definition ETH_GetDMARxDescFrameLength (d : ETH_DMADESC) : Z :=
  Z.shiftr (Z.land (Status d) ETH_DMARxDesc_FL) ETH_DMARxDesc_FrameLengthShift.

Definition ETH_GetRxPktSize (d : ETH_DMADESC) : Z :=
  if (Z.land (Status d) ETH_DMARxDesc_OWN =? 0) &&
     (Z.land (Status d) ETH_DMARxDesc_ES =? 0) &&
     negb (Z.land (Status d) ETH_DMARxDesc_LS =? 0)
  then ETH_GetDMARxDescFrameLength d else 0.

(** ** lan8720.c *)

(** A packet as the driver hands it over: its size, the address of its bytes
    and the descriptor it came from. *)
Record FrameTypeDef := Frame { frame_length : Z; frame_buffer : Z; descriptor : Z }.

Definition ETH_Rx_Packet : ETH FrameTypeDef :=
  p ← st_get DMARxDescToGet;
  d ← get_rx (fun a => desc_get a p);
  if negb (Z.land (Status d) ETH_DMARxDesc_OWN =? 0) then
    sr ← st_get DMASR;
    _ ← when (negb (Z.land sr ETH_DMASR_RBUS =? 0))
          (_ ← clear_DMASR ETH_DMASR_RBUS; eth_do Rx_poll);
    mret (Frame ETH_ERROR 0 0)
  else
    let frame :=
      if (Z.land (Status d) ETH_DMARxDesc_ES =? 0) &&
         negb (Z.land (Status d) ETH_DMARxDesc_LS =? 0) &&
         negb (Z.land (Status d) ETH_DMARxDesc_FS =? 0)
      then Frame (u32 (ETH_GetDMARxDescFrameLength d - 4)) (Buffer1Addr d) p
      else Frame ETH_ERROR 0 p in
    _ ← st_mod (set DMARxDescToGet (fun _ => Buffer2NextDescAddr d));
    mret frame.

Definition ETH_Tx_Packet (FrameLength : Z) : ETH Z :=
  p ← st_get DMATxDescToSet;
  d ← get_tx (fun a => desc_get a p);
  if negb (Z.land (Status d) ETH_DMATxDesc_OWN =? 0) then mret ETH_ERROR else
  _ ← upd_tx (desc_upd (fun d =>
        d <| ControlBufferSize := Z.land FrameLength ETH_DMATxDesc_TBS1 |>) p);
  _ ← upd_tx (desc_upd (fun d =>
        d <| Status ::= (fun v => Z.lor v (Z.lor ETH_DMATxDesc_LS ETH_DMATxDesc_FS)) |>) p);
  _ ← upd_tx (desc_upd (fun d => d <| Status ::= (fun v => Z.lor v ETH_DMATxDesc_OWN) |>) p);
  sr ← st_get DMASR;
  _ ← when (negb (Z.land sr ETH_DMASR_TBUS =? 0))
        (_ ← clear_DMASR ETH_DMASR_TBUS; eth_do Tx_poll);
  _ ← st_mod (set DMATxDescToSet (fun _ => Buffer2NextDescAddr d));
  mret ETH_SUCCESS.

Definition ETH_GetCurrentTxBuffer : ETH Z :=
  p ← st_get DMATxDescToSet;
  d ← get_tx (fun a => desc_get a p);
  mret (Buffer1Addr d).

Section memory.
(** Where the linker puts the pools. *)
Context (base : Z -> Z).

Definition eth_malloc (size : Z) : ETH Z := fun s =>
  '(p, d) ← mymalloc base SRAMIN size (heap s); Some (p, s <| heap := d |>).

Definition eth_free (p : Z) : ETH unit := fun s =>
  d ← myfree base SRAMIN p (heap s); Some (tt, s <| heap := d |>).

(** What is found at a pointer: nothing at the null pointer. *)
Definition at_ptr {A} (p : Z) (l : list A) : list A := if p =? 0 then [] else l.

(** The released regions no longer belong to the driver. *)
Definition ETH_Mem_Free : ETH unit :=
  p ← st_get (fun s => DscrTab (rx s)); _ ← eth_free p;
  p ← st_get (fun s => DscrTab (tx s)); _ ← eth_free p;
  p ← st_get (fun s => Buff (rx s)); _ ← eth_free p;
  p ← st_get (fun s => Buff (tx s)); _ ← eth_free p;
  _ ← st_mod (set rx (fun a => a <| descs := [] |> <| bytes := [] |>));
  st_mod (set tx (fun a => a <| descs := [] |> <| bytes := [] |>)).

(** [dr dt br bt] is what the allocated memory happens to hold. *)
Definition ETH_Mem_Malloc (dr dt : list ETH_DMADESC) (br bt : list Z) : ETH Z :=
  p ← eth_malloc (ETH_RXBUFNB * sizeof_desc);
  _ ← st_mod (set rx (fun a => a <| DscrTab := p |> <| descs := at_ptr p dr |>));
  q ← eth_malloc (ETH_TXBUFNB * sizeof_desc);
  _ ← st_mod (set tx (fun a => a <| DscrTab := q |> <| descs := at_ptr q dt |>));
  r ← eth_malloc (ETH_RX_BUF_SIZE * ETH_RXBUFNB);
  _ ← st_mod (set rx (fun a => a <| Buff := r |> <| bytes := at_ptr r br |>));
  t ← eth_malloc (ETH_TX_BUF_SIZE * ETH_TXBUFNB);
  _ ← st_mod (set tx (fun a => a <| Buff := t |> <| bytes := at_ptr t bt |>));
  if (p =? 0) || (q =? 0) || (r =? 0) || (t =? 0)
  then _ ← ETH_Mem_Free; mret 1 else mret 0.

(** [macdma] is the answer of [ETH_MACDMA_Config]; the pins and interrupts set
    up before are left out. *)
Definition LAN8720_Init (macdma : Z) (dr dt : list ETH_DMADESC) (br bt : list Z) : ETH Z :=
  rval ← ETH_Mem_Malloc dr dt br bt;
  mret (b2z (rval =? 0)).
End memory.

(** ** ethernetif.c *)

Definition NETIF_FLAG_BROADCAST : Z := 0x02.
Definition NETIF_FLAG_LINK_UP : Z := 0x04.
Definition NETIF_FLAG_ETHARP : Z := 0x08.

(** [mac] is [stcLwipObject.mac]. *)
Definition low_level_init (mac : list Z) : ETH unit :=
  _ ← st_mod (set lwip_netif (fun _ => Netif mac 1500
        (Z.lor (Z.lor NETIF_FLAG_BROADCAST NETIF_FLAG_ETHARP) NETIF_FLAG_LINK_UP)));
  _ ← eth_do (MAC_address mac);
  tt ← st_get (fun s => DscrTab (tx s)); tb ← st_get (fun s => Buff (tx s));
  _ ← ETH_DMATxDescChainInit tt tb ETH_TXBUFNB;
  rt ← st_get (fun s => DscrTab (rx s)); rb ← st_get (fun s => Buff (rx s));
  _ ← ETH_DMARxDescChainInit rt rb ETH_RXBUFNB;
  _ ← st_for (Z.to_nat ETH_TXBUFNB) 0 (fun i =>
        ETH_DMATxDescChecksumInsertionConfig (tt + sizeof_desc * i)
          ETH_DMATxDesc_ChecksumTCPUDPICMPFull);
  eth_do ETH_Start.

(** The copy of the chain [p] to [&buffer[l]]: the length copied in all. *)
Fixpoint copy_out (buffer l : Z) (p : list (list Z)) : ETH Z :=
  match p with
  | [] => mret l
  | q :: p =>
      _ ← upd_tx (buf_store (buffer + l) q);
      copy_out buffer (l + Z.of_nat (length q)) p
  end.

Definition low_level_output (p : list (list Z)) : ETH Z :=
  buffer ← ETH_GetCurrentTxBuffer;
  l ← copy_out buffer 0 p;
  res ← ETH_Tx_Packet (u16 l);
  mret (if res =? ETH_ERROR then ERR_MEM else ERR_OK).

(** The copy from [&buffer[l]] to pbufs of the lengths [ls]. *)
Fixpoint copy_in (buffer l : Z) (ls : list Z) : ETH (list (list Z)) :=
  match ls with
  | [] => mret []
  | n :: ls =>
      q ← get_rx (fun a => buf_load a (buffer + l) n);
      p ← copy_in buffer (l + n) ls;
      mret (q :: p)
  end.

(** What the lwIP stack answers, which may depend on all that came before. *)
Class LwipStack := {
  pbuf_alloc : list eth_op -> Z -> option (list Z);
  netif_input : list eth_op -> list (list Z) -> Z
}.

Section stack.
Context `{LwipStack}.

Definition low_level_input : ETH (option (list (list Z))) :=
  frame ← ETH_Rx_Packet;
  let len := u16 (frame_length frame) in
  log ← st_get eth_log;
  let r := pbuf_alloc log len in
  _ ← eth_do (Alloc len (bool_decide (is_Some r)));
  p ← match r with
      | Some ls => p ← copy_in (frame_buffer frame) 0 ls; mret (Some p)
      | None => mret None
      end;
  _ ← upd_rx (desc_upd (fun d => d <| Status := ETH_DMARxDesc_OWN |>) (descriptor frame));
  sr ← st_get DMASR;
  _ ← when (negb (Z.land sr ETH_DMASR_RBUS =? 0))
        (_ ← clear_DMASR ETH_DMASR_RBUS; eth_do Rx_poll);
  mret p.

Definition ethernetif_input : ETH Z :=
  p ← low_level_input;
  match p with
  | None => mret ERR_MEM
  | Some p =>
      log ← st_get eth_log;
      let err := netif_input log p in
      _ ← eth_do (Input p);
      _ ← when (negb (err =? ERR_OK)) (eth_do (Pbuf_free p));
      mret err
  end.

Definition ETH_DMA_IT_R : Z := 0x00000040.
Definition ETH_DMA_IT_NIS : Z := 0x00010000.

(** One turn of the loop of the interrupt: is there a packet? *)
Definition rx_turn : ETH bool :=
  p ← st_get DMARxDescToGet;
  d ← get_rx (fun a => desc_get a p);
  if ETH_GetRxPktSize d =? 0 then mret false
  else _ ← ethernetif_input; mret true.

Fixpoint rx_loop (fuel : nat) : ETH unit :=
  match fuel with
  | O => fun _ => None
  | Datatypes.S fuel =>
      more ← rx_turn;
      if more : bool then rx_loop fuel else st_skip
  end.

Definition ETH_IRQHandler (fuel : nat) : ETH unit :=
  _ ← rx_loop fuel; _ ← eth_do (Clear_IT ETH_DMA_IT_R); eth_do (Clear_IT ETH_DMA_IT_NIS).
End stack.
