(* ===== verification/EthMemory.v ===== *)
(** * EthMemory: the regions the Ethernet driver takes from the allocator

    The driver is a client of the allocator of [Malloc]: its theorems use the
    heap specification of that file and nothing else. *)

From S2P Require Import Prelude Malloc Eth.

Section memory.
Context (base : Z -> Z).
Hypothesis Hbase : base_ok base SRAMIN MEM1_ALLOC_TABLE_SIZE.

Implicit Types (h : gmap Z Z) (d : m_mallco_dev) (s : eth_state).

(** ** The entry points of the allocator on addresses *)

Definition block_addr (i : Z) : Z := base SRAMIN + 32 * i.

Lemma block_addr_ok i : 0 <= i < MEM1_ALLOC_TABLE_SIZE ->
  u32 (block_addr i - base SRAMIN) = 32 * i /\ u32 (block_addr i) = block_addr i /\
  block_addr i <> 0.
Proof.
  intros Hi. destruct (base_offset base SRAMIN _ (32 * i) Hbase) as (? & ? & ? & _); [lia|done].
Qed.

Lemma mymalloc_sim size d h :
  bank_rel SRAMIN h d -> 0 < size ->
  exists p d', mymalloc base SRAMIN size d = Some (p, d') /\ same_others SRAMIN d d' /\
    (p = 0 /\ bank_rel SRAMIN h d' /\
       (forall i, ~ fits MEM1_ALLOC_TABLE_SIZE h i (blocks_for size 32)) \/
     exists i, p = block_addr i /\ 0 <= i < MEM1_ALLOC_TABLE_SIZE /\
       fits MEM1_ALLOC_TABLE_SIZE h i (blocks_for size 32) /\
       bank_rel SRAMIN (<[i := blocks_for size 32]> h) d').
Proof.
  intros HB Hs.
  destruct (my_mem_malloc_sim SRAMIN size d h _ HB eq_refl ltac:(lia))
    as (off & h' & d' & E & Hm & B & S).
  unfold mymalloc. rewrite E. cbn [mbind option_bind].
  inversion Hm as [|? Hno|i _ Hf Hmax]; subst; [lia| |].
  - ztest. exists 0, d'. splits; [done..|]. by left.
  - pose proof (blocks_for_pos _ Hs). pose proof Hf as (? & ? & _).
    assert (Hi : 0 <= i < MEM1_ALLOC_TABLE_SIZE) by lia.
    destruct (base_offset base SRAMIN _ (32 * i) Hbase) as (_ & Hu & _ & Hne); [lia|].
    apply Z.eqb_neq in Hne. rewrite Hne, Hu. exists (block_addr i), d'.
    splits; [done..|]. right. by exists i.
Qed.

Lemma myfree_null d : myfree base SRAMIN 0 d = Some d.
Proof. done. Qed.

Lemma myfree_sim i n d h :
  bank_rel SRAMIN h d -> h !! i = Some n -> 0 <= i < MEM1_ALLOC_TABLE_SIZE ->
  exists d', myfree base SRAMIN (block_addr i) d = Some d' /\ same_others SRAMIN d d' /\
    bank_rel SRAMIN (delete i h) d'.
Proof.
  intros HB Hh Hi. destruct (block_addr_ok i Hi) as (Hu & _ & Hne).
  assert (Hd : 32 * i / 32 = i) by (rewrite Z.mul_comm; by apply Z.div_mul).
  destruct (my_mem_free_sim SRAMIN (32 * i) d h _ HB eq_refl ltac:(lia))
    as (res & d' & E & S & H).
  { intros _ _. rewrite Hd. by eexists. }
  unfold myfree. apply Z.eqb_neq in Hne. rewrite Hne, Hu, E. exists d'.
  splits; [done..|]. destruct H as [(Hr & _)|[(_ & Hlt & _)|(_ & _ & _ & B)]].
  - by apply (bank_rel_held _ _ _ i) in HB; [|rewrite Hh].
  - change MEM1_ALLOC_TABLE_SIZE with 960 in *. lia.
  - by rewrite Hd in B.
Qed.

(** ** Several regions *)

(** A region asked for: its blocks, and the first of them if it was found. *)
Abbreviation region := (Z * option Z)%type.

Definition region_ptr (r : region) : Z := default 0 (block_addr <$> snd r).

(** The heap with the regions added, the last one last. *)
Definition add_region (h : gmap Z Z) (r : region) : gmap Z Z :=
  match r with (n, Some i) => <[i := n]> h | (_, None) => h end.
Definition hold (h : gmap Z Z) (rs : list region) : gmap Z Z := foldl add_region h rs.

(** Each region was free when it was taken, or there was no room for it. *)
Definition outcome (h : gmap Z Z) (r : region) : Prop :=
  match r with
  | (n, Some i) => 0 < n /\ 0 <= i < MEM1_ALLOC_TABLE_SIZE /\ fits MEM1_ALLOC_TABLE_SIZE h i n
  | (n, None) => forall i, ~ fits MEM1_ALLOC_TABLE_SIZE h i n
  end.

Fixpoint taken (h : gmap Z Z) (rs : list region) : Prop :=
  match rs with
  | [] => True
  | r :: rs => outcome h r /\ taken (add_region h r) rs
  end.

(** The places of the regions that were found. *)
Fixpoint placed (h : gmap Z Z) (rs : list region) : Prop :=
  match rs with
  | [] => True
  | (n, Some i) :: rs =>
      0 < n /\ 0 <= i < MEM1_ALLOC_TABLE_SIZE /\ h !! i = None /\ placed (<[i := n]> h) rs
  | (_, None) :: rs => placed h rs
  end.

Definition positive h : Prop := forall j m, h !! j = Some m -> 0 < m.

Lemma positive_insert h i n : positive h -> 0 < n -> positive (<[i := n]> h).
Proof. intros Hp Hn j m [[_ <-]|[_ Hj]]%lookup_insert_Some; [done|by eapply Hp]. Qed.

Lemma bank_rel_positive h d : bank_rel SRAMIN h d -> positive h.
Proof.
  intros (ts & t & p & r & _ & R) j m Hj. destruct (r =? 0); [by rewrite R in Hj|].
  apply (hr_block _ _ R _ _ Hj).
Qed.

Lemma fits_fresh h i n ts : positive h -> 0 < n -> fits ts h i n -> h !! i = None.
Proof.
  intros Hp Hn (_ & _ & Hf). destruct (h !! i) as [m|] eqn:E; [|done].
  pose proof (Hp _ _ E). destruct (Hf i i m); [|done|]; unfold in_block; lia.
Qed.

Lemma taken_placed h rs : positive h -> taken h rs -> placed h rs.
Proof.
  revert h. induction rs as [|[n [i|]] rs IH]; intros h Hp; cbn [taken placed outcome]; [done| |].
  - intros [(Hn & Hi & Hf) Ht]. refine (conj Hn (conj Hi (conj _ _))); [by eapply fits_fresh|].
    apply IH; [by apply positive_insert|done].
  - intros [_ Ht]. by apply IH.
Qed.

Lemma taken_app h rs rs' : taken h (rs ++ rs') <-> taken h rs /\ taken (hold h rs) rs'.
Proof.
  revert h. induction rs as [|r rs IH]; intros h; cbn; [tauto|]. rewrite IH. tauto.
Qed.

Lemma hold_app h rs rs' : hold h (rs ++ rs') = hold (hold h rs) rs'.
Proof. apply foldl_app. Qed.

(** The places of later regions are not those held before. *)
Lemma placed_hold h i n rs : h !! i = None -> placed (<[i := n]> h) rs ->
  hold (<[i := n]> h) rs !! i = Some n /\ delete i (hold (<[i := n]> h) rs) = hold h rs /\
  placed h rs.
Proof.
  revert h. induction rs as [|[m [j|]] rs IH]; intros h Hi; cbn [placed hold foldl add_region].
  - intros _. splits; [by rewrite lookup_insert_eq|by apply delete_insert_id|done].
  - intros (Hm & Hj & Hn & Ht). rewrite lookup_insert_None in Hn. destruct Hn as [Hn Hne].
    rewrite insert_insert_ne in Ht |- * by done.
    destruct (IH (<[j := m]> h)) as (H1 & H2 & H3); [by rewrite lookup_insert_ne|done|].
    by refine (conj H1 (conj H2 (conj Hm (conj Hj (conj Hn H3))))).
  - intros Ht. by apply IH.
Qed.

(** ** Taking and releasing *)

Lemma eth_malloc_step size s h rs :
  bank_rel SRAMIN (hold h rs) (heap s) -> taken h rs -> 0 < size ->
  exists r d, eth_malloc base size s = Some (region_ptr r, s <| heap := d |>) /\
    fst r = blocks_for size 32 /\ (region_ptr r = 0 <-> snd r = None) /\
    same_others SRAMIN (heap s) d /\
    bank_rel SRAMIN (hold h (rs ++ [r])) d /\ taken h (rs ++ [r]).
Proof.
  intros HB Ht Hs. destruct (mymalloc_sim size _ _ HB Hs) as (p & d & E & S & H).
  unfold eth_malloc. rewrite E. cbn [mbind option_bind].
  destruct H as [(-> & B & Hno)|(i & -> & Hi & Hf & B)].
  - exists (blocks_for size 32, None), d. rewrite hold_app, taken_app. splits; done.
  - exists (blocks_for size 32, Some i), d. rewrite hold_app, taken_app.
    destruct (block_addr_ok i Hi) as (_ & _ & Hne).
    pose proof (blocks_for_pos _ Hs). splits; done.
Qed.

Lemma eth_free_step r rs s h :
  bank_rel SRAMIN (hold h (r :: rs)) (heap s) -> placed h (r :: rs) ->
  exists d, eth_free base (region_ptr r) s = Some (tt, s <| heap := d |>) /\
    same_others SRAMIN (heap s) d /\ bank_rel SRAMIN (hold h rs) d /\ placed h rs.
Proof.
  destruct r as [n [i|]]; cbn [placed hold foldl add_region]; intros HB Hp.
  - destruct Hp as (Hn & Hi & Hfr & Hp). destruct (placed_hold h i n rs Hfr Hp) as (H1 & H2 & H3).
    destruct (myfree_sim i n (heap s) _ HB H1 Hi) as (d & E & S & B).
    exists d. unfold eth_free, region_ptr. cbn. rewrite E. by rewrite <- H2.
  - exists (heap s). unfold eth_free, region_ptr. cbn. splits; [by destruct s|apply same_others_refl|done..].
Qed.

(** Releasing every region that was taken gives the heap back. *)
Lemma ETH_Mem_Free_spec h s a b c e :
  let rs := [a; b; c; e] in
  bank_rel SRAMIN (hold h rs) (heap s) -> placed h rs ->
  DscrTab (rx s) = region_ptr a -> DscrTab (tx s) = region_ptr b ->
  Buff (rx s) = region_ptr c -> Buff (tx s) = region_ptr e ->
  exists d, ETH_Mem_Free base s = Some (tt, s <| heap := d |>
      <| rx ::= (fun r => r <| descs := [] |> <| bytes := [] |>) |>
      <| tx ::= (fun r => r <| descs := [] |> <| bytes := [] |>) |>) /\
    same_others SRAMIN (heap s) d /\ bank_rel SRAMIN h d.
Proof.
  intros rs HB Hp Ea Eb Ec Ee. unfold ETH_Mem_Free.
  assert (St : forall r rs d0, bank_rel SRAMIN (hold h (r :: rs)) d0 -> placed h (r :: rs) ->
    same_others SRAMIN (heap s) d0 ->
    exists d, eth_free base (region_ptr r) (s <| heap := d0 |>) = Some (tt, s <| heap := d |>) /\
      same_others SRAMIN (heap s) d /\ bank_rel SRAMIN (hold h rs) d /\ placed h rs).
  { intros r rs' d0 B P S. destruct (eth_free_step r rs' (s <| heap := d0 |>) h)
      as (d & E & S1 & H).
    { exact B. } { exact P. }
    exists d. split; [done|]. split; [by eapply same_others_trans|done]. }
  destruct (St a [b; c; e] (heap s) HB Hp (same_others_refl _ _)) as (d1 & E1 & S1 & B1 & P1).
  destruct (St b [c; e] d1 B1 P1 S1) as (d2 & E2 & S2 & B2 & P2).
  destruct (St c [e] d2 B2 P2 S2) as (d3 & E3 & S3 & B3 & P3).
  destruct (St e [] d3 B3 P3 S3) as (d4 & E4 & S4 & B4 & _).
  replace (s <| heap := heap s |>) with s in E1 by by destruct s.
  exists d4. split; [|done].
  unfold st_get, st_mod, mbind, ST_bind.
  rewrite Ea, E1. cbn -[eth_free]. rewrite Eb. setoid_rewrite E2. cbn -[eth_free].
  rewrite Ec. setoid_rewrite E3. cbn -[eth_free]. rewrite Ee. setoid_rewrite E4. done.
Qed.

(** Every region was found. *)
Definition complete (rs : list region) : bool :=
  forallb (fun r => negb (region_ptr r =? 0)) rs.

(** The allocations themselves. *)
Lemma ETH_Mem_Malloc_takes h s dr dt br bt :
  bank_rel SRAMIN h (heap s) ->
  exists a b c e s',
    let rs := [(5, a); (5, b); (239, c); (239, e)] in
    taken h rs /\ same_others SRAMIN (heap s) (heap s') /\ bank_rel SRAMIN (hold h rs) (heap s') /\
    rx s' = MkArea (region_ptr (5, a)) (at_ptr (region_ptr (5, a)) dr)
              (region_ptr (239, c)) (at_ptr (region_ptr (239, c)) br) /\
    tx s' = MkArea (region_ptr (5, b)) (at_ptr (region_ptr (5, b)) dt)
              (region_ptr (239, e)) (at_ptr (region_ptr (239, e)) bt) /\
    ETH_Mem_Malloc base dr dt br bt s =
      (if complete rs then mret 0 else _ ← ETH_Mem_Free base; mret 1) s'.
Proof.
  intros HB.
  destruct (eth_malloc_step (ETH_RXBUFNB * sizeof_desc) s h [] HB I ltac:(done))
    as ([n1 a] & d1 & E1 & F1 & _ & S1 & B1 & T1). cbn in F1. subst n1.
  set (s1 := s <| heap := d1 |> <| rx ::= (fun r => r <| DscrTab := region_ptr (5, a) |>
               <| descs := at_ptr (region_ptr (5, a)) dr |>) |>).
  destruct (eth_malloc_step (ETH_TXBUFNB * sizeof_desc) s1 h _ B1 T1 ltac:(done))
    as ([n2 b] & d2 & E2 & F2 & _ & S2 & B2 & T2). cbn in F2. subst n2.
  set (s2 := s1 <| heap := d2 |> <| tx ::= (fun r => r <| DscrTab := region_ptr (5, b) |>
               <| descs := at_ptr (region_ptr (5, b)) dt |>) |>).
  destruct (eth_malloc_step (ETH_RX_BUF_SIZE * ETH_RXBUFNB) s2 h _ B2 T2 ltac:(done))
    as ([n3 c] & d3 & E3 & F3 & _ & S3 & B3 & T3). cbn in F3. subst n3.
  set (s3 := s2 <| heap := d3 |> <| rx ::= (fun r => r <| Buff := region_ptr (239, c) |>
               <| bytes := at_ptr (region_ptr (239, c)) br |>) |>).
  destruct (eth_malloc_step (ETH_TX_BUF_SIZE * ETH_TXBUFNB) s3 h _ B3 T3 ltac:(done))
    as ([n4 e] & d4 & E4 & F4 & _ & S4 & B4 & T4). cbn in F4. subst n4.
  set (s4 := s3 <| heap := d4 |> <| tx ::= (fun r => r <| Buff := region_ptr (239, e) |>
               <| bytes := at_ptr (region_ptr (239, e)) bt |>) |>).
  set (rs := [(5, a); (5, b); (239, c); (239, e)]) in *.
  assert (S : same_others SRAMIN (heap s) (heap s4)).
  { by repeat (eapply same_others_trans; [eassumption|]); apply same_others_refl. }
  exists a, b, c, e, s4. cbv zeta. fold rs. splits; [apply T4|exact S|exact B4|done|done|].
  unfold ETH_Mem_Malloc.
  rewrite (st_bind_eq _ _ _ _ _ E1), (st_bind_eq _ _ _ tt s1 eq_refl).
  rewrite (st_bind_eq _ _ _ _ _ E2), (st_bind_eq _ _ _ tt s2 eq_refl).
  rewrite (st_bind_eq _ _ _ _ _ E3), (st_bind_eq _ _ _ tt s3 eq_refl).
  rewrite (st_bind_eq _ _ _ _ _ E4), (st_bind_eq _ _ _ tt s4 eq_refl).
  unfold complete, rs. cbn [forallb]. rewrite andb_true_r.
  by repeat destruct (region_ptr _ =? 0).
Qed.

(** C27: memory of the Ethernet driver, on every branch.  The four regions (two
    tables of 5 descriptors, two of 5 buffers) are taken one after the other
    from the internal bank, each where the allocator finds room.  If all are
    found the answer is 0 and the driver holds four regions disjoint from each
    other and from everything held before; if any is refused the answer is 1,
    those that were found are released and the heap is exactly what it was. *)
Theorem ETH_Mem_Malloc_spec h s dr dt br bt :
  bank_rel SRAMIN h (heap s) ->
  exists a b c e s',
    let rs := [(5, a); (5, b); (239, c); (239, e)] in
    taken h rs /\ same_others SRAMIN (heap s) (heap s') /\
    ETH_Mem_Malloc base dr dt br bt s = Some (b2z (negb (complete rs)), s') /\
    if complete rs then
      bank_rel SRAMIN (hold h rs) (heap s') /\
      rx s' = MkArea (region_ptr (5, a)) dr (region_ptr (239, c)) br /\
      tx s' = MkArea (region_ptr (5, b)) dt (region_ptr (239, e)) bt
    else
      bank_rel SRAMIN h (heap s') /\
      descs (rx s') = [] /\ bytes (rx s') = [] /\ descs (tx s') = [] /\ bytes (tx s') = [].
Proof.
  intros HB. pose proof (bank_rel_positive _ _ HB) as Hpos.
  destruct (ETH_Mem_Malloc_takes h s dr dt br bt HB)
    as (a & b & c & e & s4 & T & S & B & Er & Et & E).
  exists a, b, c, e. cbv zeta. rewrite E.
  destruct (complete _) eqn:C.
  - exists s4. splits; [done..| |]; [rewrite Er|rewrite Et].
    all: cbn [complete forallb] in C; zb; apply Z.eqb_neq in H, H0, H1, H2; unfold at_ptr.
    all: try rewrite H; try rewrite H0; try rewrite H1; try rewrite H2; done.
  - destruct (ETH_Mem_Free_spec h s4 (5, a) (5, b) (239, c) (239, e))
      as (d5 & E5 & S5 & B5); [exact B|by apply taken_placed|by rewrite ?Er, ?Et..|].
    eexists. rewrite (st_bind_eq _ _ _ _ _ E5).
    splits; [apply T| |done|done|done..]. by eapply same_others_trans.
Qed.
End memory.
