(* ===== verification/EthRing.v ===== *)
(** * EthRing: the descriptor rings are bounded queues of frames

    The driver and the DMA each walk a ring of five descriptors.  [rx_ring s g q]
    says that the frames [q] wait in the descriptors from number [g] on, the
    others being the DMA's; [tx_ring s g q] that the DMA still has to send the
    frames [q] from number [g] on.  What the DMA does is its documented
    behaviour and is stated as operations of the environment. *)

From S2P Require Import Prelude Malloc Eth.

(** ** Areas *)

Definition SLOTS : Z := 5.

Lemma desc_get_at a i : desc_get a (DscrTab a + sizeof_desc * i) = (descs a).[i].
Proof.
  unfold desc_get, desc_index, sizeof_desc.
  replace (DscrTab a + 32 * i - DscrTab a) with (i * 32) by lia.
  by rewrite Z.mod_mul, Z.div_mul.
Qed.

Lemma desc_upd_at f a i d : (descs a).[i] = Some d ->
  desc_upd f (DscrTab a + sizeof_desc * i) a = Some (a <| descs := <[Z.to_nat i := f d]> (descs a) |>).
Proof.
  intros Hd. pose proof (arr_get_lt _ _ _ Hd). unfold desc_upd, desc_index, sizeof_desc.
  replace (DscrTab a + 32 * i - DscrTab a) with (i * 32) by lia.
  rewrite Z.mod_mul, Z.div_mul by done. cbn [Z.eqb mbind option_bind].
  rewrite Hd. cbn [mbind option_bind]. by rewrite arr_set_is_Some.
Qed.

Lemma buf_load_at a i n : 0 <= i -> 0 <= n -> i + n <= Z.of_nat (length (bytes a)) ->
  buf_load a (Buff a + i) n = Some (take (Z.to_nat n) (drop (Z.to_nat i) (bytes a))).
Proof.
  intros. unfold buf_load. replace (Buff a + i - Buff a) with i by lia. by repeat ztest.
Qed.

(** The area after a store. *)
Definition stored (i : Z) (bs : list Z) (a : eth_area) : eth_area :=
  a <| bytes := take (Z.to_nat i) (bytes a) ++ bs ++ drop (Z.to_nat i + length bs) (bytes a) |>.

Lemma buf_store_at i bs a : 0 <= i -> i + Z.of_nat (length bs) <= Z.of_nat (length (bytes a)) ->
  buf_store (Buff a + i) bs a = Some (stored i bs a).
Proof.
  intros. unfold buf_store. replace (Buff a + i - Buff a) with i by lia. by repeat ztest.
Qed.

Lemma stored_length i bs a : 0 <= i -> i + Z.of_nat (length bs) <= Z.of_nat (length (bytes a)) ->
  length (bytes (stored i bs a)) = length (bytes a).
Proof. intros. cbn. rewrite !length_app, length_take, length_drop. lia. Qed.

(** A store is read back, and read elsewhere it changed nothing. *)
Lemma stored_load i bs a n : 0 <= i -> 0 <= n <= Z.of_nat (length bs) ->
  i + Z.of_nat (length bs) <= Z.of_nat (length (bytes a)) ->
  take (Z.to_nat n) (drop (Z.to_nat i) (bytes (stored i bs a))) = take (Z.to_nat n) bs.
Proof.
  intros. cbn. rewrite drop_app_le, drop_ge, app_nil_l by (rewrite length_take; lia).
  by rewrite take_app_le by lia.
Qed.

Lemma stored_load_other i bs a j n : 0 <= i -> 0 <= j -> 0 <= n ->
  j + n <= i \/ i + Z.of_nat (length bs) <= j ->
  i + Z.of_nat (length bs) <= Z.of_nat (length (bytes a)) ->
  take (Z.to_nat n) (drop (Z.to_nat j) (bytes (stored i bs a))) =
  take (Z.to_nat n) (drop (Z.to_nat j) (bytes a)).
Proof.
  intros ??? [?|?] ?; cbn.
  - rewrite drop_app_le by (rewrite length_take; lia).
    rewrite take_app_le by (rewrite length_drop, length_take; lia).
    rewrite skipn_firstn_comm, take_take. f_equal. lia.
  - rewrite app_assoc, drop_app_ge by (rewrite length_app, length_take; lia).
    rewrite drop_drop, length_app, length_take. do 2 f_equal. lia.
Qed.

(** Five chained descriptors, each with its own buffer. *)
Record layout (a : eth_area) : Prop := Layout {
  lay_descs : Z.of_nat (length (descs a)) = SLOTS;
  lay_bytes : Z.of_nat (length (bytes a)) = ETH_MAX_PACKET_SIZE * SLOTS;
  lay_chain : forall i d, (descs a).[i] = Some d ->
    Buffer1Addr d = Buff a + ETH_MAX_PACKET_SIZE * i /\
    Buffer2NextDescAddr d = DscrTab a + sizeof_desc * ((i + 1) mod SLOTS)
}.

Lemma layout_get a i : layout a -> 0 <= i < SLOTS -> exists d, (descs a).[i] = Some d.
Proof. intros L Hi. apply arr_get_is_Some. by rewrite (lay_descs _ L). Qed.

Lemma layout_update a i d d' : layout a -> (descs a).[i] = Some d ->
  Buffer1Addr d' = Buffer1Addr d -> Buffer2NextDescAddr d' = Buffer2NextDescAddr d ->
  layout (a <| descs := <[Z.to_nat i := d']> (descs a) |>).
Proof.
  intros [L1 L2 L3] Hd E1 E2. pose proof (arr_get_lt _ _ _ Hd) as Hi.
  constructor; cbn; [by rewrite length_insert|done|].
  intros k x. rewrite insert_get by done. case_decide; [|apply L3].
  intros [= <-]. subst k. rewrite E1, E2. by apply L3.
Qed.

Lemma layout_stored a i bs : layout a -> 0 <= i ->
  i + Z.of_nat (length bs) <= Z.of_nat (length (bytes a)) -> layout (stored i bs a).
Proof.
  intros [L1 L2 L3] ??. constructor; [done| |done]. by rewrite stored_length.
Qed.

(** The bytes of the buffer of descriptor [i]. *)
Definition buffer_at (a : eth_area) (i n : Z) : list Z :=
  take (Z.to_nat n) (drop (Z.to_nat (ETH_MAX_PACKET_SIZE * i)) (bytes a)).

Lemma buffer_load a i n : layout a -> 0 <= i < SLOTS -> 0 <= n <= ETH_MAX_PACKET_SIZE ->
  buf_load a (Buff a + ETH_MAX_PACKET_SIZE * i) n = Some (buffer_at a i n).
Proof.
  intros L ??. pose proof (lay_bytes _ L).
  apply buf_load_at; unfold ETH_MAX_PACKET_SIZE, SLOTS in *; lia.
Qed.

Lemma buffer_store a i bs : layout a -> 0 <= i < SLOTS ->
  Z.of_nat (length bs) <= ETH_MAX_PACKET_SIZE ->
  let a' := stored (ETH_MAX_PACKET_SIZE * i) bs a in
  buf_store (Buff a + ETH_MAX_PACKET_SIZE * i) bs a = Some a' /\ layout a' /\
  (forall n, 0 <= n <= Z.of_nat (length bs) -> buffer_at a' i n = take (Z.to_nat n) bs) /\
  (forall k n, 0 <= k < SLOTS -> k <> i -> 0 <= n <= ETH_MAX_PACKET_SIZE ->
     buffer_at a' k n = buffer_at a k n).
Proof.
  intros L Hi Hn a'. pose proof (lay_bytes _ L) as Hl. subst a'.
  unfold buffer_at, ETH_MAX_PACKET_SIZE, SLOTS in *.
  splits; [apply buf_store_at; lia|apply layout_stored; [done|lia..]| |].
  - intros n Hr. apply stored_load; lia.
  - intros k n Hk Hne Hr. apply stored_load_other; lia.
Qed.

(** ** Positions in a ring of five *)

Ltac five x := assert (x = 0 \/ x = 1 \/ x = 2 \/ x = 3 \/ x = 4) as [->|[->|[->|[->| ->]]]]
  by (unfold SLOTS in *; lia).

Lemma slot_range x : 0 <= x mod SLOTS < SLOTS.
Proof. by apply Z.mod_pos_bound. Qed.

Lemma slot_next g i : 0 <= g < SLOTS -> 0 <= i < SLOTS -> i <> g ->
  (i - g) mod SLOTS = (i - (g + 1) mod SLOTS) mod SLOTS + 1.
Proof. intros ???. five g; five i; done. Qed.

Lemma slot_last g : 0 <= g < SLOTS -> (g - (g + 1) mod SLOTS) mod SLOTS = 4.
Proof. intros ?. five g; done. Qed.

Lemma slot_of g k : 0 <= g < SLOTS -> 0 <= k < SLOTS -> ((g + k) mod SLOTS - g) mod SLOTS = k.
Proof. intros ??. five g; five k; done. Qed.

Lemma slot_to g i : 0 <= g < SLOTS -> 0 <= i < SLOTS -> (g + (i - g) mod SLOTS) mod SLOTS = i.
Proof. intros ??. five g; five i; done. Qed.

Lemma slot_succ g k : 0 <= g < SLOTS -> 0 <= k -> ((g + 1) mod SLOTS + k) mod SLOTS = (g + (k + 1)) mod SLOTS.
Proof. intros ??. rewrite Zplus_mod_idemp_l. f_equal. lia. Qed.

Lemma slot_zero g : 0 <= g < SLOTS -> (g - g) mod SLOTS = 0.
Proof. intros. by rewrite Z.sub_diag. Qed.

(** The queue seen from a slot, after a removal and after an arrival. *)
Lemma queue_tail {A} (q : list A) x j : 0 <= j -> (x :: q).[j + 1] = q.[j].
Proof.
  intros. unfold arr_get. repeat ztest. replace (Z.to_nat (j + 1)) with (S (Z.to_nat j)) by lia. done.
Qed.

Lemma queue_snoc {A} (q : list A) x j : j <> Z.of_nat (length q) -> (q ++ [x]).[j] = q.[j].
Proof.
  intros Hj. unfold arr_get. zcase; [|done]. destruct (decide (Z.to_nat j < length q)%nat).
  - by rewrite lookup_app_l.
  - rewrite !lookup_ge_None_2; [done|lia|]. rewrite length_app. cbn. lia.
Qed.

Lemma queue_end {A} (q : list A) x : (q ++ [x]).[Z.of_nat (length q)] = Some x.
Proof. rewrite arr_get_nat. by rewrite lookup_app_r, Nat.sub_diag by lia. Qed.

(** ** The receive ring *)

(** A frame on its way: whether the hardware found an error in it, and its bytes. *)
Definition rx_frame : Type := bool * list Z.

Definition good (fs : list (list Z)) : list rx_frame := (fun f => (false, f)) <$> fs.

(** What a descriptor says of the frame it was filled with: whole, without error, of
    its size with the four bytes of the checksum; or that there was an error. *)
Definition describes (st : Z) (w : rx_frame) : Prop :=
  Z.land st ETH_DMARxDesc_OWN = 0 /\
  if fst w then Z.land st ETH_DMARxDesc_ES <> 0
  else Z.land st ETH_DMARxDesc_ES = 0 /\
    Z.land st ETH_DMARxDesc_LS <> 0 /\ Z.land st ETH_DMARxDesc_FS <> 0 /\
    Z.shiftr (Z.land st ETH_DMARxDesc_FL) ETH_DMARxDesc_FrameLengthShift = Z.of_nat (length (snd w)) + 4.

Definition frame_ok (w : rx_frame) : Prop := 0 < Z.of_nat (length (snd w)) <= ETH_MAX_PACKET_SIZE - 4.

Definition rx_slot (a : eth_area) (i : Z) (d : ETH_DMADESC) (w : option rx_frame) : Prop :=
  match w with
  | Some f => frame_ok f /\ describes (Status d) f /\ buffer_at a i (Z.of_nat (length (snd f))) = snd f
  | None => Z.land (Status d) ETH_DMARxDesc_OWN <> 0
  end.

Record rx_ring (s : eth_state) (g : Z) (q : list rx_frame) : Prop := RxRing {
  rr_layout : layout (rx s);
  rr_pos : 0 <= g < SLOTS;
  rr_len : Z.of_nat (length q) <= SLOTS;
  rr_get : DMARxDescToGet s = DscrTab (rx s) + sizeof_desc * g;
  rr_slots : forall i d, (descs (rx s)).[i] = Some d -> rx_slot (rx s) i d q.[(i - g) mod SLOTS]
}.

(** The DMA receives a frame in the descriptor at [c]: it fills the buffer and
    the status word [st], or reports that it has no buffer. *)
Definition dma_arrive (st : Z) (f crc : list Z) (s : eth_state) (c : Z)
    : option (eth_state * Z * bool) :=
  d ← desc_get (rx s) c;
  if Z.land (Status d) ETH_DMARxDesc_OWN =? 0
  then Some (s <| DMASR ::= (fun v => Z.lor v ETH_DMASR_RBUS) |>, c, false)
  else a ← buf_store (Buffer1Addr d) (f ++ crc) (rx s);
       a ← desc_upd (fun d => d <| Status := st |>) c a;
       Some (s <| rx := a |>, Buffer2NextDescAddr d, true).

(** The frames handed to the stack, in order. *)
Definition received (s : eth_state) : list (list Z) :=
  omap (fun o => match o with Input p => Some (concat p) | _ => None end) (eth_log s).

(** The requests for memory to the stack and whether they were answered, in order. *)
Definition allocs (s : eth_state) : list (Z * bool) :=
  omap (fun o => match o with Alloc n ok => Some (n, ok) | _ => None end) (eth_log s).

(** Of the frames [fs], those whose request for memory was answered. *)
Fixpoint given (fs : list (list Z)) (oks : list bool) : list (list Z) :=
  match fs, oks with
  | f :: fs, ok :: oks => (if ok then [f] else []) ++ given fs oks
  | _, _ => []
  end.

Lemma given_snoc fs oks f ok : length oks = length fs ->
  given (fs ++ [f]) (oks ++ [ok]) = given fs oks ++ (if ok then [f] else []).
Proof.
  revert oks. induction fs as [|x fs IH]; intros [|b oks] Hl; try done; cbn [given app]; [by rewrite app_nil_r|].
  cbn in Hl. rewrite IH, app_assoc by lia. done.
Qed.

(** The descriptor the DMA will fill next. *)
Definition rx_tail (s : eth_state) (g : Z) (q : list rx_frame) : Z :=
  DscrTab (rx s) + sizeof_desc * ((g + Z.of_nat (length q)) mod SLOTS).

Lemma dma_arrive_full st f crc s g q : rx_ring s g q -> Z.of_nat (length q) = SLOTS ->
  dma_arrive st f crc s (rx_tail s g q) =
    Some (s <| DMASR ::= (fun v => Z.lor v ETH_DMASR_RBUS) |>, rx_tail s g q, false).
Proof.
  intros [L Hg _ _ Hs] Hf. unfold dma_arrive, rx_tail. rewrite Hf, desc_get_at.
  set (i := (g + SLOTS) mod SLOTS). destruct (layout_get _ i L (slot_range _)) as [d Hd].
  rewrite Hd. cbn [mbind option_bind]. specialize (Hs i d Hd).
  assert (i = g) as -> by (unfold i; five g; done). rewrite slot_zero in Hs by done.
  destruct q as [|w q]; [done|]. destruct Hs as (_ & (-> & _) & _). done.
Qed.

Lemma slot_after {A} g (q : list A) x :
  ((g + Z.of_nat (length q)) mod SLOTS + 1) mod SLOTS = (g + Z.of_nat (length (q ++ [x]))) mod SLOTS.
Proof. rewrite Zplus_mod_idemp_l, length_app. f_equal. cbn. lia. Qed.

(** Filling the slot after the last frame: the buffer holds [bs], of which [f]
    is the frame. *)
Lemma rx_fill s g q f bs st d :
  let i := (g + Z.of_nat (length q)) mod SLOTS in
  let a := stored (ETH_MAX_PACKET_SIZE * i) bs (rx s) in
  let a' := a <| descs := <[Z.to_nat i := d <| Status := st |>]> (descs a) |> in
  rx_ring s g q -> Z.of_nat (length q) < SLOTS -> frame_ok f -> describes st f ->
  Z.of_nat (length bs) <= ETH_MAX_PACKET_SIZE -> take (length (snd f)) bs = snd f ->
  (descs (rx s)).[i] = Some d ->
  rx_ring (s <| rx := a' |>) g (q ++ [f]).
Proof.
  intros i a a' [L Hg _ Hget Hs] Hroom Hf Hst Hbs Htk Hd.
  pose proof (slot_range (g + Z.of_nat (length q))) as Hi. fold i in Hi.
  assert (Hj : (i - g) mod SLOTS = Z.of_nat (length q)) by (apply slot_of; lia).
  destruct (buffer_store (rx s) i bs L Hi Hbs) as (_ & L' & Hsame & Hother). fold a in L', Hsame, Hother.
  constructor; cbn; [by eapply layout_update|done|rewrite length_app; cbn; lia|done|].
  intros k x. rewrite insert_get by (by apply arr_get_lt in Hd). case_decide as Hk.
  - intros [= <-]. subst k. rewrite Hj, queue_end. cbn. splits; [done|done|].
    change (buffer_at a i (Z.of_nat (length (snd f))) = snd f).
    assert (length (snd f) <= length bs)%nat by (rewrite <- Htk at 1; rewrite length_take; lia).
    by rewrite Hsame, Nat2Z.id by lia.
  - intros Hx. pose proof (arr_get_lt _ _ _ Hx) as Hkr. specialize (Hs k x Hx).
    rewrite (lay_descs _ L) in Hkr. rewrite queue_snoc.
    + destruct (q.[_]) as [w|]; [|done]. destruct Hs as (Hw & Hd' & Hb).
      split; [done|]. split; [done|]. unfold frame_ok in Hw. rewrite <- Hb at 2.
      apply (Hother k); [lia|done|lia].
    + rewrite <- Hj. intros E. apply Hk. rewrite <- (slot_to g k), E by done. by apply slot_to.
Qed.

Lemma dma_arrive_room st f crc s g q :
  rx_ring s g q -> Z.of_nat (length q) < SLOTS -> frame_ok f -> describes st f -> length crc = 4%nat ->
  exists s', dma_arrive st (snd f) crc s (rx_tail s g q) = Some (s', rx_tail s' g (q ++ [f]), true) /\
    rx_ring s' g (q ++ [f]) /\ eth_log s' = eth_log s /\ heap s' = heap s /\ tx s' = tx s.
Proof.
  intros R Hroom Hf Hst Hcrc. pose proof R as [L Hg _ Hget Hs]. unfold dma_arrive, rx_tail.
  rewrite desc_get_at. set (i := (g + Z.of_nat (length q)) mod SLOTS).
  pose proof (slot_range (g + Z.of_nat (length q))) as Hi.
  destruct (layout_get _ i L Hi) as [d Hd]. rewrite Hd. cbn [mbind option_bind].
  pose proof (Hs i d Hd) as Hown. unfold i in Hown. rewrite slot_of in Hown by lia.
  destruct (arr_get_None q (Z.of_nat (length q))) as [_ E]. rewrite E in Hown by lia.
  cbn [rx_slot] in Hown. apply Z.eqb_neq in Hown. rewrite Hown.
  destruct (lay_chain _ L i d Hd) as [-> ->].
  assert (Hlen : Z.of_nat (length (snd f ++ crc)) <= ETH_MAX_PACKET_SIZE).
  { rewrite length_app, Hcrc. unfold frame_ok in Hf. lia. }
  destruct (buffer_store (rx s) i (snd f ++ crc) L Hi Hlen) as (-> & _).
  cbn [mbind option_bind]. set (a := stored _ (snd f ++ crc) (rx s)).
  change (DscrTab (rx s)) with (DscrTab a). rewrite (desc_upd_at _ a i d Hd). cbn [mbind option_bind].
  exists (s <| rx := a <| descs := <[Z.to_nat i := d <| Status := st |>]> (descs a) |> |>).
  splits; [unfold rx_tail; by rewrite <- (slot_after g q f)| |done..].
  by apply rx_fill; rewrite ?take_app_length.
Qed.

(** What the lwIP stack promises: the chain it allocates has the length asked
    for. *)
Class LwipLaws `{LwipStack} : Prop :=
  pbuf_alloc_length : forall log len ls, 0 <= len -> pbuf_alloc log len = Some ls ->
    Forall (Z.le 0) ls /\ foldr Z.add 0 ls = len.

Lemma rx_ring_ext s s' g q : rx s' = rx s -> DMARxDescToGet s' = DMARxDescToGet s ->
  rx_ring s g q -> rx_ring s' g q.
Proof. intros E1 E2 []. by constructor; rewrite ?E1, ?E2. Qed.

Lemma received_app s l : received (s <| eth_log ::= (fun l' => l' ++ l) |>) =
  received s ++ omap (fun o => match o with Input p => Some (concat p) | _ => None end) l.
Proof. apply omap_app. Qed.

Lemma copy_in_spec s i l ls :
  layout (rx s) -> 0 <= i < SLOTS -> 0 <= l -> Forall (Z.le 0) ls ->
  l + foldr Z.add 0 ls <= ETH_MAX_PACKET_SIZE ->
  exists p, copy_in (Buff (rx s) + ETH_MAX_PACKET_SIZE * i) l ls s = Some (p, s) /\
    concat p = take (Z.to_nat (foldr Z.add 0 ls))
                 (drop (Z.to_nat (ETH_MAX_PACKET_SIZE * i + l)) (bytes (rx s))).
Proof.
  intros L Hi. pose proof (lay_bytes _ L) as Hb. revert l.
  induction ls as [|n ls IH]; intros l Hl Hn Hsum; cbn in Hsum |- *; [by exists []|].
  apply Forall_cons in Hn as [Hn Hls].
  assert (Hs : 0 <= foldr Z.add 0 ls).
  { clear -Hls. induction Hls; cbn; lia. }
  unfold mbind, ST_bind, get_rx. unfold ETH_MAX_PACKET_SIZE, SLOTS in *.
  cbv beta. rewrite <- Z.add_assoc, buf_load_at by lia. cbn [mbind option_bind].
  destruct (IH (l + n)) as (p & E & Hp); [lia|done|lia|]. unfold mret, ST_ret.
  rewrite E. eexists. split; [done|]. cbn [concat]. rewrite Hp.
  rewrite (Z2Nat.inj_add n), Z.add_assoc, (Z2Nat.inj_add (1524 * i + l)) by lia.
  rewrite <- drop_drop. apply take_take_drop.
Qed.

Lemma ETH_Rx_Packet_spec s g f q : rx_ring s g ((false, f) :: q) ->
  ETH_Rx_Packet s = Some (Frame (Z.of_nat (length f)) (Buff (rx s) + ETH_MAX_PACKET_SIZE * g)
      (DscrTab (rx s) + sizeof_desc * g),
    s <| DMARxDescToGet := DscrTab (rx s) + sizeof_desc * ((g + 1) mod SLOTS) |>).
Proof.
  intros [L Hg _ Hget Hs]. destruct (layout_get _ g L Hg) as [d Hd].
  specialize (Hs g d Hd). rewrite slot_zero in Hs by done.
  destruct Hs as (Hf & (H1 & H2 & H3 & H4 & H5) & _). destruct (lay_chain _ L g d Hd) as [Hb Hn].
  apply Z.eqb_neq in H3, H4. unfold ETH_Rx_Packet, st_get, mbind, ST_bind. cbn.
  unfold get_rx. rewrite Hget, desc_get_at, Hd. cbn. rewrite H1, H2, H3, H4. cbn.
  unfold ETH_GetDMARxDescFrameLength. rewrite H5, Hb, Hn.
  unfold frame_ok, ETH_MAX_PACKET_SIZE in Hf. cbn [snd] in *. rewrite u32_small, Z.add_simpl_r by lia. done.
Qed.

(** Giving the first slot back to the DMA. *)
Lemma rx_release s g f q d : rx_ring s g (f :: q) -> (descs (rx s)).[g] = Some d ->
  rx_ring (s <| DMARxDescToGet := DscrTab (rx s) + sizeof_desc * ((g + 1) mod SLOTS) |>
             <| rx := (rx s) <| descs := <[Z.to_nat g := d <| Status := ETH_DMARxDesc_OWN |>]> (descs (rx s)) |> |>)
    ((g + 1) mod SLOTS) q.
Proof.
  intros [L Hg Hlen Hget Hs] Hd. cbn [length] in Hlen.
  constructor; cbn; [by eapply layout_update|apply slot_range|lia|done|].
  intros k x. rewrite insert_get by (by apply arr_get_lt in Hd). case_decide as Hk.
  - intros [= <-]. subst k. rewrite slot_last by done.
    destruct (arr_get_None q 4) as [_ ->]; [|unfold SLOTS in *; lia]. done.
  - intros Hx. pose proof (arr_get_lt _ _ _ Hx) as Hkr. specialize (Hs k x Hx).
    rewrite (lay_descs _ L) in Hkr. rewrite slot_next, queue_tail in Hs; [done|apply slot_range|done..].
Qed.

(** Nothing but the DMA status and the log of commands has changed. *)
Definition quiet (s s' : eth_state) : Prop :=
  rx s' = rx s /\ DMARxDescToGet s' = DMARxDescToGet s /\ received s' = received s /\ allocs s' = allocs s /\
  tx s' = tx s /\ DMATxDescToSet s' = DMATxDescToSet s /\ heap s' = heap s.

Lemma resume_quiet {A} (bit : Z) (o : eth_op) (x : A) s :
  (match o with Input _ | Alloc _ _ => False | _ => True end) ->
  exists s', (sr ← st_get DMASR;
    _ ← when (negb (Z.land sr bit =? 0)) (_ ← clear_DMASR bit; eth_do o); mret x) s = Some (x, s') /\
    quiet s s'.
Proof.
  intros Ho. unfold mbind, ST_bind, st_get, when, mret, ST_ret. destruct (negb _); cbn.
  - eexists. split; [done|]. unfold quiet, received, allocs. cbn. rewrite !omap_app. cbn.
    destruct o; rewrite ?app_nil_r; done.
  - by exists s.
Qed.

Section stack.
Context `{LwipLaws}.

(** One request for memory, for the length of the frame, is made; the chain answered
    gets the bytes of the frame. *)
Lemma low_level_input_spec s g f q : rx_ring s g ((false, f) :: q) ->
  exists p s', low_level_input s = Some (p, s') /\ rx_ring s' ((g + 1) mod SLOTS) q /\
    received s' = received s /\ tx s' = tx s /\ DscrTab (rx s') = DscrTab (rx s) /\
    allocs s' = allocs s ++ [(Z.of_nat (length f), bool_decide (is_Some p))] /\
    (forall ch, p = Some ch -> concat ch = f).
Proof.
  intros R. pose proof (ETH_Rx_Packet_spec _ _ _ _ R) as E. pose proof R as [L Hg _ _ Hs].
  destruct (layout_get _ g L Hg) as [d Hd]. pose proof (rx_release _ _ _ _ _ R Hd) as R'.
  specialize (Hs g d Hd). rewrite slot_zero in Hs by done. destruct Hs as (Hf & _ & Hbuf).
  unfold frame_ok in Hf. cbn [snd] in Hf, Hbuf. unfold low_level_input. rewrite (st_bind_eq _ _ _ _ _ E).
  cbn [frame_length frame_buffer descriptor]. set (s1 := s <| DMARxDescToGet := _ |>) in *.
  rewrite (st_bind_eq (st_get eth_log) _ s1 (eth_log s) s1 eq_refl), u16_small
    by (unfold ETH_MAX_PACKET_SIZE in *; lia).
  cbv zeta. set (r := pbuf_alloc (eth_log s) (Z.of_nat (length f))).
  set (s2 := s1 <| eth_log ::= (fun l => l ++ [Alloc (Z.of_nat (length f)) (bool_decide (is_Some r))]) |>).
  rewrite (st_bind_eq (eth_do _) _ s1 tt s2 eq_refl).
  assert (exists p, match r with
      | Some ls => p ← copy_in (Buff (rx s) + ETH_MAX_PACKET_SIZE * g) 0 ls; mret (Some p)
      | None => mret None end s2 = Some (p, s2) /\
    bool_decide (is_Some r) = bool_decide (is_Some p) /\ (forall ch, p = Some ch -> concat ch = f)) as (p & Ep & Hb & Hp).
  { destruct r as [ls|] eqn:Ea; [|by exists None].
    apply pbuf_alloc_length in Ea as [Hls Hsum]; [|lia].
    destruct (copy_in_spec s2 g 0 ls L Hg ltac:(lia) Hls) as (ch & Ec & Hch); [lia|].
    exists (Some ch). change (rx s2) with (rx s) in Ec. rewrite (st_bind_eq _ _ _ _ _ Ec).
    splits; [done|by rewrite !bool_decide_eq_true_2|]. intros ? [= <-]. by rewrite Hch, Hsum, Z.add_0_r. }
  rewrite (st_bind_eq _ _ _ _ _ Ep). rewrite (st_bind_eq _ _ _ tt
    (s2 <| rx := (rx s) <| descs := <[Z.to_nat g := d <| Status := ETH_DMARxDesc_OWN |>]> (descs (rx s)) |> |>)).
  2: { unfold upd_rx. change (rx s2) with (rx s). by rewrite (desc_upd_at _ _ _ _ Hd). }
  edestruct (resume_quiet ETH_DMASR_RBUS Rx_poll p) as (s' & -> & Q); [done|].
  destruct Q as (Q1 & Q2 & Q3 & Q4 & Q5 & _). exists p, s'. splits; [done| | |exact Q5|by rewrite Q1| |done].
  - refine (rx_ring_ext _ _ _ _ _ _ R'); [by rewrite Q1|by rewrite Q2].
  - rewrite Q3. unfold received, s2. cbn. rewrite omap_app. cbn. by rewrite app_nil_r.
  - rewrite Q4, <- Hb. unfold allocs, s2. cbn. by rewrite omap_app.
Qed.

(** One turn of the interrupt's loop: it stops on an empty ring, and otherwise
    takes the oldest frame out and hands it to the stack, unless the stack has
    no memory for it. *)
Lemma rx_turn_empty s g : rx_ring s g [] -> rx_turn s = Some (false, s).
Proof.
  intros [L Hg _ Hget Hs]. destruct (layout_get _ g L Hg) as [d Hd].
  specialize (Hs g d Hd). cbn in Hs. destruct (arr_get_None (@nil rx_frame) ((g - g) mod SLOTS)) as [_ E].
  rewrite E in Hs by (cbn; pose proof (slot_range (g - g)); lia). apply Z.eqb_neq in Hs.
  unfold rx_turn, st_get, get_rx, mbind, ST_bind. rewrite Hget, desc_get_at, Hd. cbn.
  unfold ETH_GetRxPktSize. by rewrite Hs.
Qed.

Lemma error_frame_stalls s d :
  desc_get (rx s) (DMARxDescToGet s) = Some d -> Z.land (Status d) ETH_DMARxDesc_ES <> 0 ->
  rx_turn s = Some (false, s).
Proof.
  intros Hd He. apply Z.eqb_neq in He. unfold rx_turn, st_get, get_rx, mbind, ST_bind.
  rewrite Hd. cbn. unfold ETH_GetRxPktSize. by rewrite He, andb_false_r.
Qed.

(** A descriptor that comes back with an error is never taken: the loop stops
    at it, now and at every later interrupt, and the ring stays blocked. *)
Lemma rx_turn_error s g f q : rx_ring s g ((true, f) :: q) -> rx_turn s = Some (false, s).
Proof.
  intros [L Hg _ Hget Hs]. destruct (layout_get _ g L Hg) as [d Hd].
  specialize (Hs g d Hd). rewrite slot_zero in Hs by done. destruct Hs as (_ & (_ & He) & _). cbn in He.
  apply (error_frame_stalls s d); [|done]. by rewrite Hget, desc_get_at.
Qed.

Lemma rx_turn_frame s g f q : rx_ring s g ((false, f) :: q) ->
  exists ok s', rx_turn s = Some (true, s') /\ rx_ring s' ((g + 1) mod SLOTS) q /\ tx s' = tx s /\
    DscrTab (rx s') = DscrTab (rx s) /\ allocs s' = allocs s ++ [(Z.of_nat (length f), ok)] /\
    received s' = received s ++ (if ok then [f] else []).
Proof.
  intros R. pose proof R as [L Hg _ Hget Hs]. destruct (layout_get _ g L Hg) as [d Hd].
  specialize (Hs g d Hd). rewrite slot_zero in Hs by done.
  destruct Hs as (_ & (H1 & H2 & H3 & _ & H5) & _). cbn [snd] in H5. apply Z.eqb_neq in H3.
  destruct (low_level_input_spec _ _ _ _ R) as (p & s1 & E & R1 & Hr & Ht & Hd1 & Ha & Hp).
  exists (bool_decide (is_Some p)).
  unfold rx_turn. rewrite (st_bind_eq (st_get DMARxDescToGet) _ s _ s eq_refl), Hget.
  rewrite (st_bind_eq _ _ _ d s) by (unfold get_rx; by rewrite desc_get_at, Hd).
  unfold ETH_GetRxPktSize, ETH_GetDMARxDescFrameLength. rewrite H1, H2, H3, H5. cbn [Z.eqb andb negb].
  ztest. unfold ethernetif_input, mbind at 1 2, ST_bind. rewrite E. destruct p as [ch|].
  - specialize (Hp ch eq_refl). unfold st_get, eth_do, st_mod, mbind, ST_bind, when. cbn.
    destruct (negb _); cbn; eexists; (splits; [done|by apply (rx_ring_ext s1)|done|done| |]);
      unfold received, allocs in *; cbn; rewrite ?omap_app, ?Hr, ?Ha; cbn; by rewrite ?Hp, ?app_nil_r.
  - exists s1. cbn. by rewrite app_nil_r.
Qed.

(** What makes the loop stop: no frame, or one with an error. *)
Definition stops (q : list rx_frame) : Prop := match q with (false, _) :: _ => False | _ => True end.

Lemma rx_turn_stops s g q : rx_ring s g q -> stops q -> rx_turn s = Some (false, s).
Proof.
  intros R Hq. destruct q as [|[[] f] q]; [by apply (rx_turn_empty s g)|by apply (rx_turn_error s g f q)|done].
Qed.

Lemma rx_loop_drains fuel s g fs q : rx_ring s g (good fs ++ q) -> stops q -> (length fs < fuel)%nat ->
  exists s' oks, rx_loop fuel s = Some (tt, s') /\
    rx_ring s' ((g + Z.of_nat (length fs)) mod SLOTS) q /\
    allocs s' = allocs s ++ zip ((fun f => Z.of_nat (length f)) <$> fs) oks /\ length oks = length fs /\
    received s' = received s ++ given fs oks /\ tx s' = tx s.
Proof.
  intros R Hq. revert s g fs R. induction fuel as [|fuel IH]; intros s g fs R Hfuel; [lia|]. cbn [rx_loop].
  pose proof (rr_pos _ _ _ R). destruct fs as [|f fs].
  - exists s, []. cbn [good fmap list_fmap app] in R. rewrite (st_bind_eq _ _ _ _ _ (rx_turn_stops _ _ _ R Hq)).
    cbn. rewrite !app_nil_r, Z.add_0_r, Z.mod_small by done. done.
  - destruct (rx_turn_frame _ _ f (good fs ++ q) R) as (ok & s1 & E1 & R1 & Ht1 & _ & Ha1 & Hr1).
    cbn [length] in Hfuel. destruct (IH _ _ _ R1) as (s2 & oks & E2 & R2 & Ha2 & Hl2 & Hr2 & Ht2); [lia|].
    rewrite slot_succ in R2 by lia. exists s2, (ok :: oks).
    rewrite (st_bind_eq _ _ _ _ _ E1), E2, Hr2, Hr1, Ht2, Ha2, Ha1, <- !app_assoc. cbn [length given].
    rewrite Nat2Z.inj_succ. splits; [done|done|done|by rewrite Hl2|done|done].
Qed.

(** C25: the receive interrupt empties the ring.  With the frames [fs] waiting, and
    behind them nothing or a frame with an error, the handler terminates after as many
    turns and one more.  It asks the stack for memory for each frame in the order they
    came, hands those for which it is answered to the stack, each exactly once and byte
    for byte, drops the others, and gives the descriptors of all of them back to the
    DMA; a frame with an error stays, with all that came after it. *)
Theorem ETH_IRQHandler_drains s g fs q fuel :
  rx_ring s g (good fs ++ q) -> stops q -> (length fs < fuel)%nat ->
  exists s' oks, ETH_IRQHandler fuel s = Some (tt, s') /\
    rx_ring s' ((g + Z.of_nat (length fs)) mod SLOTS) q /\
    allocs s' = allocs s ++ zip ((fun f => Z.of_nat (length f)) <$> fs) oks /\ length oks = length fs /\
    received s' = received s ++ given fs oks /\ tx s' = tx s.
Proof.
  intros R Hq Hfuel. destruct (rx_loop_drains _ _ _ _ _ R Hq Hfuel) as (s1 & oks & E & R1 & Ha & Hl & Hr & Ht).
  unfold ETH_IRQHandler, eth_do, st_mod. rewrite (st_bind_eq _ _ _ _ _ E).
  eexists _, oks. split; [done|]. split; [by apply (rx_ring_ext s1)|].
  unfold received, allocs in *. cbn. by rewrite !omap_app, Hr, Ha, !app_nil_r.
Qed.

(** ** Arrivals and turns in any order *)

Inductive rx_event :=
  | Arrive (st : Z) (w : rx_frame) (crc : list Z)
  | Turn.

Definition event_ok (e : rx_event) : Prop :=
  match e with
  | Arrive st w crc => frame_ok w /\ describes st w /\ length crc = 4%nat
  | Turn => True
  end.

(** The state, the DMA's descriptor and the frames it has accepted so far. *)
Definition rx_event_step (e : rx_event) (x : eth_state * Z * list rx_frame)
    : option (eth_state * Z * list rx_frame) :=
  let '(s, c, acc) := x in
  match e with
  | Arrive st w crc =>
      '(s, c, ok) ← dma_arrive st (snd w) crc s c; Some (s, c, if ok : bool then acc ++ [w] else acc)
  | Turn => '(_, s) ← rx_turn s; Some (s, c, acc)
  end.

Fixpoint rx_run (es : list rx_event) x : option (eth_state * Z * list rx_frame) :=
  match es with [] => Some x | e :: es => x ← rx_event_step e x; rx_run es x end.

(** The frames [fs] have been taken out: memory has been asked for each, and those for
    which it was answered are with the stack. *)
Definition taken (fs : list (list Z)) (s : eth_state) : Prop :=
  fst <$> allocs s = (fun f => Z.of_nat (length f)) <$> fs /\ received s = given fs (snd <$> allocs s).

Lemma taken_snoc fs s s' f ok : taken fs s -> allocs s' = allocs s ++ [(Z.of_nat (length f), ok)] ->
  received s' = received s ++ (if ok then [f] else []) -> taken (fs ++ [f]) s'.
Proof.
  intros [Hl Hr] Ha Hr'. unfold taken. rewrite Ha, !fmap_app, Hl. split; [done|].
  rewrite Hr', Hr. symmetry. apply given_snoc. apply (f_equal length) in Hl. rewrite length_fmap. by rewrite (length_fmap fst), length_fmap in Hl.
Qed.

(** What holds between events. *)
Definition rx_fifo (x : eth_state * Z * list rx_frame) : Prop :=
  let '(s, c, acc) := x in
  exists g fs q, rx_ring s g q /\ c = rx_tail s g q /\ acc = good fs ++ q /\ taken fs s.

Lemma rx_event_fifo e x : event_ok e -> rx_fifo x ->
  exists x', rx_event_step e x = Some x' /\ rx_fifo x'.
Proof.
  destruct x as [[s c] acc]. intros He (g & fs & q & R & -> & -> & T). destruct e as [st w crc|]; cbn.
  - destruct He as (Hf & Hst & Hc). destruct (decide (Z.of_nat (length q) < SLOTS)) as [Hlt|Hge].
    + destruct (dma_arrive_room st w crc s g q R Hlt Hf Hst Hc) as (s' & -> & R' & Hlog & _).
      cbn. eexists. split; [done|]. exists g, fs, (q ++ [w]). splits; [done|done|by rewrite app_assoc|].
      unfold taken, received, allocs in *. by rewrite Hlog.
    + pose proof (rr_len _ _ _ R). rewrite (dma_arrive_full _ _ _ _ _ _ R) by lia.
      cbn. eexists. split; [done|]. exists g, fs, q. by splits; [apply (rx_ring_ext s)|..].
  - destruct q as [|[[] f] q].
    + rewrite (rx_turn_empty _ _ R). cbn. eexists. split; [done|]. by exists g, fs, [].
    + rewrite (rx_turn_error _ _ _ _ R). cbn. eexists. split; [done|]. by exists g, fs, ((true, f) :: q).
    + destruct (rx_turn_frame _ _ _ _ R) as (ok & s' & -> & R' & _ & Ht & Ha & Hr). cbn. eexists. split; [done|].
      exists ((g + 1) mod SLOTS), (fs ++ [f]), q. pose proof (rr_pos _ _ _ R). splits; [done| | |].
      * unfold rx_tail. by rewrite slot_succ, Ht by lia; cbn [length]; rewrite Nat2Z.inj_succ.
      * unfold good. by rewrite fmap_app, <- app_assoc.
      * by apply (taken_snoc fs s s' f ok).
Qed.
Lemma rx_run_fifo es x : Forall event_ok es -> rx_fifo x ->
  exists x', rx_run es x = Some x' /\ rx_fifo x'.
Proof.
  intros Hes. revert x. induction Hes as [|e es He _ IH]; intros x Hx; [by exists x|].
  destruct (rx_event_fifo e x He Hx) as (x1 & E & H1). cbn. rewrite E. by apply IH.
Qed.

(** C24: reception is a bounded queue.  From an empty ring, for any frames, with or
    without errors, arriving at any moments between the turns of the interrupt's loop,
    and whatever the stack answers, nothing is ever undefined and at most five frames
    wait.  What has been taken out ([fs]) followed by what waits ([q]) is exactly what
    was accepted, in order; memory has been asked for each frame taken out, and the
    stack has been given exactly those for which it was answered.  The next frame is
    refused only when five are waiting; the next turn takes the oldest frame out, unless
    there is none or it has an error. *)
Theorem receive_fifo es s g :
  rx_ring s g [] -> received s = [] -> allocs s = [] -> Forall event_ok es ->
  exists s' c acc g' fs q, rx_run es (s, rx_tail s g [], []) = Some (s', c, acc) /\
    rx_ring s' g' q /\ (length q <= 5)%nat /\ acc = good fs ++ q /\ taken fs s' /\
    (forall st w crc, event_ok (Arrive st w crc) ->
      exists s'' c', dma_arrive st (snd w) crc s' c = Some (s'', c', bool_decide (length q < 5)%nat)) /\
    match q with
    | (false, f) :: q' => exists s'', rx_turn s' = Some (true, s'') /\
        rx_ring s'' ((g' + 1) mod SLOTS) q' /\ taken (fs ++ [f]) s''
    | _ => rx_turn s' = Some (false, s')
    end.
Proof.
  intros R Hr Ha Hes. destruct (rx_run_fifo es (s, rx_tail s g [], []) Hes) as ([[s' c] acc] & E & H').
  { exists g, [], []. unfold taken. by rewrite Hr, Ha. }
  destruct H' as (g' & fs & q & R' & -> & -> & T). exists s', (rx_tail s' g' q), (good fs ++ q), g', fs, q.
  pose proof (rr_len _ _ _ R') as Hl. unfold SLOTS in Hl. splits; [done|done|lia|done|done| |].
  - intros st w crc (Hf & Hst & Hc). case_bool_decide as Hq.
    + destruct (dma_arrive_room st w crc s' g' q R') as (s'' & E'' & _); [unfold SLOTS; lia|done..|].
      by eexists _, _.
    + eexists _, _. apply dma_arrive_full; [done|]. unfold SLOTS. lia.
  - destruct q as [|[[] f] q]; [by apply (rx_turn_stops s' g' [])|by apply (rx_turn_stops _ _ _ R')|].
    destruct (rx_turn_frame _ _ _ _ R') as (ok & s'' & E'' & R'' & _ & _ & Ha' & Hr').
    exists s''. splits; [done|done|by apply (taken_snoc fs s' s'' f ok)].
Qed.
End stack.

(** ** The transmit ring *)

Definition tx_frame_ok (f : list Z) : Prop := Z.of_nat (length f) <= ETH_MAX_PACKET_SIZE.

Definition tx_slot (a : eth_area) (i : Z) (d : ETH_DMADESC) (w : option (list Z)) : Prop :=
  match w with
  | Some f => tx_frame_ok f /\ Z.land (Status d) ETH_DMATxDesc_OWN <> 0 /\
      Z.land (Status d) (Z.lor ETH_DMATxDesc_LS ETH_DMATxDesc_FS) =
        Z.lor ETH_DMATxDesc_LS ETH_DMATxDesc_FS /\
      ControlBufferSize d = Z.of_nat (length f) /\ buffer_at a i (Z.of_nat (length f)) = f
  | None => Z.land (Status d) ETH_DMATxDesc_OWN = 0
  end.

(** The frames [q] wait to be sent, the oldest in descriptor [c]. *)
Record tx_ring (s : eth_state) (c : Z) (q : list (list Z)) : Prop := TxRing {
  tr_layout : layout (tx s);
  tr_pos : 0 <= c < SLOTS;
  tr_len : Z.of_nat (length q) <= SLOTS;
  tr_set : DMATxDescToSet s =
    DscrTab (tx s) + sizeof_desc * ((c + Z.of_nat (length q)) mod SLOTS);
  tr_slots : forall i d, (descs (tx s)).[i] = Some d -> tx_slot (tx s) i d q.[(i - c) mod SLOTS]
}.

(** The DMA sends the frame of the descriptor at [c] and gives the descriptor
    back. *)
Definition dma_send (s : eth_state) (c : Z) : option (eth_state * Z * option (list Z)) :=
  d ← desc_get (tx s) c;
  if Z.land (Status d) ETH_DMATxDesc_OWN =? 0
  then Some (s <| DMASR ::= (fun v => Z.lor v ETH_DMASR_TBUS) |>, c, None)
  else f ← buf_load (tx s) (Buffer1Addr d) (ControlBufferSize d);
       a ← desc_upd (fun d => d <| Status ::= (fun v => Z.ldiff v ETH_DMATxDesc_OWN) |>) c (tx s);
       Some (s <| tx := a |>, Buffer2NextDescAddr d, Some f).

Lemma stored_nil i a : 0 <= i <= Z.of_nat (length (bytes a)) -> stored i [] a = a.
Proof.
  intros. destruct a as [t ds b bs]. unfold stored. cbn. rewrite Nat.add_0_r.
  by rewrite take_drop.
Qed.

Lemma stored_app i x y a : 0 <= i ->
  i + Z.of_nat (length (x ++ y)) <= Z.of_nat (length (bytes a)) ->
  stored (i + Z.of_nat (length x)) y (stored i x a) = stored i (x ++ y) a.
Proof.
  intros Hi Hl. rewrite length_app in Hl. unfold stored, set. destruct a as [t ds b bs]. cbn in *.
  f_equal. replace (Z.to_nat (i + Z.of_nat (length x))) with (Z.to_nat i + length x)%nat by lia.
  set (n := Z.to_nat i). assert (Hn : length (take n bs) = n) by (rewrite length_take; lia).
  rewrite (app_assoc (take n bs)), take_app_le by (rewrite length_app, Hn; lia).
  rewrite take_ge by (rewrite length_app, Hn; lia).
  rewrite <- !app_assoc. do 3 f_equal.
  rewrite !drop_app_ge by lia. rewrite drop_drop, length_app, Hn.
  by replace (n + length x + (n + length x + length y - n - length x))%nat
    with (n + (length x + length y))%nat by lia.
Qed.

Lemma copy_out_spec s i l p : layout (tx s) -> 0 <= i < SLOTS -> 0 <= l ->
  l + Z.of_nat (length (concat p)) <= ETH_MAX_PACKET_SIZE ->
  copy_out (Buff (tx s) + ETH_MAX_PACKET_SIZE * i) l p s =
    Some (l + Z.of_nat (length (concat p)),
      s <| tx := stored (ETH_MAX_PACKET_SIZE * i + l) (concat p) (tx s) |>).
Proof.
  revert s l. induction p as [|x p IH]; intros s l L Hi Hl Hn; cbn in Hn |- *;
    pose proof (lay_bytes _ L) as Hb.
  - rewrite stored_nil, Z.add_0_r by (unfold ETH_MAX_PACKET_SIZE, SLOTS in *; lia). by destruct s as [? []].
  - rewrite length_app in Hn. unfold mbind at 1, ST_bind, upd_tx at 1.
    rewrite <- Z.add_assoc, buf_store_at by (unfold ETH_MAX_PACKET_SIZE, SLOTS in *; lia).
    cbn [mbind option_bind]. set (a := stored _ x (tx s)).
    assert (La : layout a) by (apply layout_stored; [done|unfold ETH_MAX_PACKET_SIZE, SLOTS in *; lia..]).
    pose proof (IH (s <| tx := a |>) (l + Z.of_nat (length x)) La Hi) as E.
    change (Buff (tx (s <| tx := a |>))) with (Buff (tx s)) in E. rewrite E by lia.
    change (tx (s <| tx := a |>)) with a. unfold a.
    rewrite Z.add_assoc, stored_app
      by (rewrite ?length_app; unfold ETH_MAX_PACKET_SIZE, SLOTS in *; lia).
    do 2 f_equal. rewrite length_app. lia.
Qed.

Lemma tx_own_after v :
  let v' := Z.lor (Z.lor v (Z.lor ETH_DMATxDesc_LS ETH_DMATxDesc_FS)) ETH_DMATxDesc_OWN in
  Z.land v' ETH_DMATxDesc_OWN <> 0 /\
  Z.land v' (Z.lor ETH_DMATxDesc_LS ETH_DMATxDesc_FS) = Z.lor ETH_DMATxDesc_LS ETH_DMATxDesc_FS.
Proof.
  intros v'. unfold v'. split.
  - rewrite Z.land_lor_distr_l. intros [_ E]%Z.lor_eq_0_iff. done.
  - apply Z.bits_inj'. intros k _. rewrite Z.land_spec, !Z.lor_spec.
    by destruct (Z.testbit v k), (Z.testbit ETH_DMATxDesc_LS k), (Z.testbit ETH_DMATxDesc_FS k),
      (Z.testbit ETH_DMATxDesc_OWN k).
Qed.

(** Handing descriptor [i] over with [n] bytes. *)
Definition tx_given (d : ETH_DMADESC) (n : Z) : ETH_DMADESC :=
  MkDesc (Z.lor (Z.lor (Status d) (Z.lor ETH_DMATxDesc_LS ETH_DMATxDesc_FS)) ETH_DMATxDesc_OWN)
    n (Buffer1Addr d) (Buffer2NextDescAddr d).

(** A descriptor updated in place, for a chain of updates of the same one. *)
Definition with_desc (s : eth_state) (i : Z) (d : ETH_DMADESC) : eth_state :=
  s <| tx := (tx s) <| descs := <[Z.to_nat i := d]> (descs (tx s)) |> |>.

Lemma upd_tx_desc f s i d : (descs (tx s)).[i] = Some d ->
  upd_tx (desc_upd f (DscrTab (tx s) + sizeof_desc * i)) s = Some (tt, with_desc s i (f d)).
Proof. intros Hd. unfold upd_tx. by rewrite (desc_upd_at _ _ _ _ Hd). Qed.

Lemma upd_tx_again f s i d d0 : (descs (tx s)).[i] = Some d0 ->
  upd_tx (desc_upd f (DscrTab (tx s) + sizeof_desc * i)) (with_desc s i d) =
    Some (tt, with_desc s i (f d)).
Proof.
  intros Hd. pose proof (arr_get_lt _ _ _ Hd) as Hi.
  change (DscrTab (tx s)) with (DscrTab (tx (with_desc s i d))).
  rewrite (upd_tx_desc f (with_desc s i d) i d).
  - unfold with_desc, set. cbn. by rewrite list_insert_insert_eq.
  - unfold with_desc. cbn. rewrite insert_get by done. by case_decide.
Qed.

Lemma ETH_Tx_Packet_free s i d n :
  DMATxDescToSet s = DscrTab (tx s) + sizeof_desc * i ->
  (descs (tx s)).[i] = Some d -> Z.land (Status d) ETH_DMATxDesc_OWN = 0 ->
  0 <= n <= ETH_MAX_PACKET_SIZE ->
  exists s', ETH_Tx_Packet n s = Some (ETH_SUCCESS, s') /\
    tx s' = tx (with_desc s i (tx_given d n)) /\
    DMATxDescToSet s' = Buffer2NextDescAddr d /\ rx s' = rx s /\ received s' = received s.
Proof.
  intros Hset Hd Hown Hn. unfold ETH_Tx_Packet.
  rewrite (st_bind_eq (st_get DMATxDescToSet) _ s _ s eq_refl), Hset.
  rewrite (st_bind_eq _ _ _ d s) by (unfold get_tx; by rewrite desc_get_at, Hd).
  rewrite Hown. cbn [Z.eqb negb].
  rewrite (st_bind_eq _ _ _ _ _ (upd_tx_desc _ s i d Hd)).
  rewrite (st_bind_eq _ _ _ _ _ (upd_tx_again _ s i _ d Hd)).
  rewrite (st_bind_eq _ _ _ _ _ (upd_tx_again _ s i _ d Hd)).
  set (d' := _ <| Status ::= _ |>). assert (d' = tx_given d n) as ->.
  { unfold d', tx_given, set. cbn. f_equal. unfold ETH_DMATxDesc_TBS1, ETH_MAX_PACKET_SIZE in *.
    change 8191 with (Z.ones 13). rewrite Z.land_ones, Z.mod_small by lia. done. }
  destruct (resume_quiet ETH_DMASR_TBUS Tx_poll tt (with_desc s i (tx_given d n)) I)
    as (s' & E & Q1 & Q2 & Q3 & _ & Q4 & _).
  exists (s' <| DMATxDescToSet := Buffer2NextDescAddr d |>).
  splits; [|exact Q4|done|exact Q1|exact Q3].
  revert E. unfold mbind, ST_bind, st_get, when, mret, ST_ret.
  destruct (negb _); cbn; intros [= <-]; done.
Qed.

(** The slot after the last frame takes the frame [f]. *)
Lemma tx_fill s s' c q f d :
  let i := (c + Z.of_nat (length q)) mod SLOTS in
  let a := stored (ETH_MAX_PACKET_SIZE * i) f (tx s) in
  tx_ring s c q -> Z.of_nat (length q) < SLOTS -> tx_frame_ok f -> (descs (tx s)).[i] = Some d ->
  tx s' = a <| descs := <[Z.to_nat i := tx_given d (Z.of_nat (length f))]> (descs a) |> ->
  DMATxDescToSet s' = Buffer2NextDescAddr d ->
  tx_ring s' c (q ++ [f]).
Proof.
  intros i a [L Hc _ Hset Hs] Hroom Hf Hd Htx Hset'.
  pose proof (slot_range (c + Z.of_nat (length q))) as Hi. fold i in Hi.
  assert (Hj : (i - c) mod SLOTS = Z.of_nat (length q)) by (apply slot_of; lia).
  destruct (buffer_store (tx s) i f L Hi Hf) as (_ & L' & Hsame & Hother). fold a in L', Hsame, Hother.
  destruct (lay_chain _ L i d Hd) as [_ Hn]. destruct (tx_own_after (Status d)) as [Ho Hls].
  constructor; rewrite ?Htx; cbn.
  - by apply (layout_update a i d).
  - done.
  - rewrite length_app. cbn. lia.
  - rewrite Hset', Hn. unfold i. by rewrite (slot_after c q f).
  - intros k x. rewrite insert_get by (by apply arr_get_lt in Hd). case_decide as Hk.
    + intros [= <-]. subst k. rewrite Hj, queue_end. cbn. splits; try done.
      change (buffer_at a i (Z.of_nat (length f)) = f). rewrite Hsame by lia.
      by rewrite Nat2Z.id, firstn_all.
    + intros Hx. pose proof (arr_get_lt _ _ _ Hx) as Hkr. specialize (Hs k x Hx).
      rewrite (lay_descs _ L) in Hkr. rewrite queue_snoc.
      * destruct (q.[_]) as [w|]; [|done]. destruct Hs as (Hw & H1 & H2 & H3 & Hb).
        do 4 (split; [done|]). unfold tx_frame_ok in Hw. rewrite <- Hb at 2.
        apply (Hother k); [lia|done|lia].
      * rewrite <- Hj. intros E. apply Hk. rewrite <- (slot_to c k), E by done. by apply slot_to.
Qed.

(** The copy goes to the buffer of the descriptor to be used. *)
Lemma output_copies s i d p : layout (tx s) -> 0 <= i < SLOTS ->
  DMATxDescToSet s = DscrTab (tx s) + sizeof_desc * i -> (descs (tx s)).[i] = Some d ->
  tx_frame_ok (concat p) ->
  low_level_output p s =
    (res ← ETH_Tx_Packet (Z.of_nat (length (concat p))); mret (if res =? ETH_ERROR then ERR_MEM else ERR_OK))
      (s <| tx := stored (ETH_MAX_PACKET_SIZE * i) (concat p) (tx s) |>).
Proof.
  intros L Hi Hset Hd Hf. unfold tx_frame_ok in Hf. destruct (lay_chain _ L i d Hd) as [Hb _].
  unfold low_level_output.
  rewrite (st_bind_eq _ _ s (Buff (tx s) + ETH_MAX_PACKET_SIZE * i) s).
  - rewrite (st_bind_eq _ _ _ _ _ (copy_out_spec s i 0 p L Hi ltac:(lia) Hf)).
    rewrite Z.add_0_r, u16_small by (unfold ETH_MAX_PACKET_SIZE in *; lia). done.
  - unfold ETH_GetCurrentTxBuffer, st_get, get_tx, mbind, ST_bind.
    rewrite Hset, desc_get_at, Hd. cbn. by rewrite Hb.
Qed.

Lemma ETH_Tx_Packet_busy s i d n :
  DMATxDescToSet s = DscrTab (tx s) + sizeof_desc * i ->
  (descs (tx s)).[i] = Some d -> Z.land (Status d) ETH_DMATxDesc_OWN <> 0 ->
  ETH_Tx_Packet n s = Some (ETH_ERROR, s).
Proof.
  intros Hset Hd Hown. apply Z.eqb_neq in Hown. unfold ETH_Tx_Packet.
  rewrite (st_bind_eq (st_get DMATxDescToSet) _ s _ s eq_refl), Hset.
  rewrite (st_bind_eq _ _ _ d s) by (unfold get_tx; by rewrite desc_get_at, Hd).
  by rewrite Hown.
Qed.

(** transmission on both branches.  With room in the ring, the chain is
    copied whole into the next free buffer, its descriptor is handed to the DMA
    as one frame of the right size, and the frames in flight are untouched.
    With five frames in flight the answer is [ERR_MEM], but the chain has
    already been copied over the buffer of the oldest of them, which the DMA is
    still to send. *)
Theorem low_level_output_spec s c q p :
  tx_ring s c q -> tx_frame_ok (concat p) ->
  exists s', rx s' = rx s /\ received s' = received s /\
  if bool_decide (length q < 5)%nat then
    low_level_output p s = Some (ERR_OK, s') /\ tx_ring s' c (q ++ [concat p])
  else
    low_level_output p s = Some (ERR_MEM, s') /\ descs (tx s') = descs (tx s) /\
    buffer_at (tx s') c (Z.of_nat (length (concat p))) = concat p.
Proof.
  intros R Hf. pose proof R as [L Hc Hlen Hset Hs].
  set (i := (c + Z.of_nat (length q)) mod SLOTS) in *.
  assert (Hi : 0 <= i < SLOTS) by apply slot_range.
  destruct (layout_get _ i L Hi) as [d Hd]. specialize (Hs i d Hd).
  rewrite (output_copies s i d p L Hi Hset Hd Hf). unfold tx_frame_ok in Hf.
  set (s1 := s <| tx := _ |>). case_bool_decide as Hq.
  - assert (Hown : Z.land (Status d) ETH_DMATxDesc_OWN = 0).
    { unfold i in Hs. rewrite slot_of in Hs by (unfold SLOTS in *; lia).
      destruct (arr_get_None q (Z.of_nat (length q))) as [_ En]. by rewrite En in Hs by lia. }
    destruct (ETH_Tx_Packet_free s1 i d (Z.of_nat (length (concat p))))
      as (s' & Et & Ha & Hs' & Hr & Hv); [done|done|done|lia|].
    exists s'. splits; [done|done| |].
    + by rewrite (st_bind_eq _ _ _ _ _ Et).
    + eapply tx_fill; [done|unfold SLOTS; lia|done|exact Hd|exact Ha|done].
  - assert (i = c) as Hic
      by (unfold i, SLOTS in *; replace (Z.of_nat (length q)) with 5 by lia; five c; done).
    clearbody i. subst i. rewrite slot_zero in Hs by done. destruct q as [|w q]; [cbn in Hq; lia|].
    destruct Hs as (_ & Hown & _). exists s1. splits; [done|done| |done|].
    + by rewrite (st_bind_eq _ _ _ _ _ (ETH_Tx_Packet_busy s1 c d _ Hset Hd Hown)).
    + destruct (buffer_store (tx s) c (concat p) L Hc Hf) as (_ & _ & Hsame & _).
      change (tx s1) with (stored (ETH_MAX_PACKET_SIZE * c) (concat p) (tx s)).
      rewrite Hsame by lia. by rewrite Nat2Z.id, firstn_all.
Qed.

(** The DMA sends the oldest frame as it was handed over. *)
Lemma dma_send_oldest s c f q : tx_ring s c (f :: q) ->
  exists s', dma_send s (DscrTab (tx s) + sizeof_desc * c) =
      Some (s', DscrTab (tx s) + sizeof_desc * ((c + 1) mod SLOTS), Some f) /\
    tx_ring s' ((c + 1) mod SLOTS) q /\ rx s' = rx s.
Proof.
  intros [L Hc Hlen Hset Hs]. destruct (layout_get _ c L Hc) as [d Hd].
  pose proof (Hs c d Hd) as Hf. rewrite slot_zero in Hf by done.
  destruct Hf as (Hf & Hown & _ & Hn & Hbuf). destruct (lay_chain _ L c d Hd) as [Hb Hnext].
  apply Z.eqb_neq in Hown. unfold dma_send. rewrite desc_get_at, Hd. cbn [mbind option_bind].
  unfold tx_frame_ok in Hf. rewrite Hown, Hb, Hn, (buffer_load _ c) by (done || lia).
  cbn [mbind option_bind]. rewrite (desc_upd_at _ _ c d Hd). cbn [mbind option_bind].
  rewrite Hnext, Hbuf. eexists. splits; [done| |done]. cbn [length] in *.
  constructor; cbn; [by apply (layout_update _ c d)|apply slot_range|lia| |].
  { rewrite Hset. rewrite slot_succ by lia. do 4 f_equal. lia. }
  intros k x. rewrite insert_get by (by apply arr_get_lt in Hd). case_decide as Hk.
  - intros [= <-]. subst k. rewrite slot_last by done.
    destruct (arr_get_None q 4) as [_ ->]; [|unfold SLOTS in *; lia]. cbn.
    apply Z.bits_inj'. intros b _. rewrite Z.land_spec, Z.ldiff_spec, Z.bits_0.
    by destruct (Z.testbit ETH_DMATxDesc_OWN b); rewrite ?andb_false_r.
  - intros Hx. pose proof (arr_get_lt _ _ _ Hx) as Hkr. specialize (Hs k x Hx).
    rewrite (lay_descs _ L) in Hkr. rewrite slot_next, queue_tail in Hs; [done|apply slot_range|done..].
Qed.

(** ** Initialisation *)

(** A loop over a table that treats each descriptor once. *)
Section tables.
Context (get : eth_state -> eth_area) (put : eth_area -> eth_state -> eth_state).
Context (get_put : forall a s, get (put a s) = a).
Context (put_put : forall a b s, put a (put b s) = put a s).
Context (put_get : forall s, put (get s) s = s).

Definition upd_table (f : eth_area -> option eth_area) : ETH unit := fun s =>
  a ← f (get s); Some (tt, put a s).

Definition mapped (f : Z -> ETH_DMADESC -> ETH_DMADESC) (a : eth_area) : eth_area :=
  a <| descs := imap (fun i => f (Z.of_nat i)) (descs a) |>.

Lemma arr_imap {A B} (f : Z -> A -> B) l i :
  (imap (fun k => f (Z.of_nat k)) l).[i] = f i <$> l.[i].
Proof.
  unfold arr_get. zcase; [|done]. rewrite list_lookup_imap, Z2Nat.id by done.
  by destruct (l !! _).
Qed.

Lemma table_loop f s n : length (descs (get s)) = n ->
  st_for n 0 (fun i => upd_table (desc_upd (f i) (DscrTab (get s) + sizeof_desc * i))) s =
    Some (tt, put (mapped f (get s)) s).
Proof.
  intros Hn. set (a := get s).
  destruct (st_for_inv (fun k t => exists l, t = put (a <| descs := l |>) s /\ length l = n /\
      forall j, l.[j] = (if j <? k then f j <$> (descs a).[j] else (descs a).[j]))
    (fun i => upd_table (desc_upd (f i) (DscrTab a + sizeof_desc * i))) n 0 s) as (t & -> & l & -> & Hl & Hget).
  - intros k t Hk (l & -> & Hl & Hget).
    destruct (arr_get_is_Some (descs a) k) as [x Hx]; [unfold a; lia|].
    assert (Ex : l.[k] = Some x) by (rewrite Hget; by ztest).
    unfold upd_table. rewrite get_put. set (a' := a <| descs := l |>).
    change (DscrTab a) with (DscrTab a'). rewrite (desc_upd_at (f k) a' k x Ex). cbn [mbind option_bind].
    rewrite put_put. eexists. split; [done|]. exists (<[Z.to_nat k := f k x]> l).
    rewrite length_insert. splits; [done|done|]. intros j. rewrite insert_get by lia.
    case_decide as Hj; [subst j; ztest; by rewrite Hx|]. rewrite Hget.
    destruct (Z.lt_total j k) as [?|[?|?]]; repeat ztest; done.
  - exists (descs a). splits; [|done|].
    + unfold set. destruct a eqn:E. cbn. by rewrite <- E; unfold a; rewrite put_get.
    + intros j. zcase; [|done]. rewrite (proj2 (arr_get_None _ _)); [done|lia].
  - do 2 f_equal. f_equal. unfold mapped, set. cbn. f_equal. apply arr_ext; [by rewrite length_imap, Hl|].
    intros j Hj. rewrite Hget, arr_imap. rewrite Hl in Hj. by ztest.
Qed.
End tables.

Definition put_rx (a : eth_area) (s : eth_state) : eth_state := s <| rx := a |>.
Definition put_tx (a : eth_area) (s : eth_state) : eth_state := s <| tx := a |>.

Lemma rx_table_loop f s n : length (descs (rx s)) = n ->
  st_for n 0 (fun i => upd_rx (desc_upd (f i) (DscrTab (rx s) + sizeof_desc * i))) s =
    Some (tt, put_rx (mapped f (rx s)) s).
Proof. apply (table_loop rx put_rx); [done|done|]. intros s'. by destruct s'. Qed.

Lemma tx_table_loop f s n : length (descs (tx s)) = n ->
  st_for n 0 (fun i => upd_tx (desc_upd (f i) (DscrTab (tx s) + sizeof_desc * i))) s =
    Some (tt, put_tx (mapped f (tx s)) s).
Proof. apply (table_loop tx put_tx); [done|done|]. intros s'. by destruct s'. Qed.

(** The memory the driver was given: the right sizes, inside the address
    space. *)
Definition region_ok (a : eth_area) : Prop :=
  Z.of_nat (length (descs a)) = SLOTS /\ Z.of_nat (length (bytes a)) = ETH_MAX_PACKET_SIZE * SLOTS /\
  0 <= DscrTab a /\ DscrTab a + sizeof_desc * SLOTS <= 2 ^ 32 /\
  0 <= Buff a /\ Buff a + ETH_MAX_PACKET_SIZE * SLOTS <= 2 ^ 32.

(** A table whose loop sets the two addresses is a ring. *)
Lemma mapped_layout f a : region_ok a ->
  (forall i d, 0 <= i < SLOTS ->
     Buffer1Addr (f i d) = u32 (Buff a + i * ETH_MAX_PACKET_SIZE) /\
     Buffer2NextDescAddr (f i d) =
       (if i <? SLOTS - 1 then u32 (DscrTab a + sizeof_desc * (i + 1)) else DscrTab a)) ->
  layout (mapped f a).
Proof.
  intros (Hd & Hb & H1 & H2 & H3 & H4) Hf. constructor; cbn; [by rewrite length_imap|done|].
  intros i x Hx. pose proof (arr_get_lt _ _ _ Hx) as Hi. rewrite length_imap, Hd in Hi.
  rewrite arr_imap in Hx. destruct ((descs a).[i]) as [d|]; [|done]. injection Hx as <-.
  destruct (Hf i d Hi) as [-> ->]. unfold ETH_MAX_PACKET_SIZE, sizeof_desc, SLOTS in *.
  rewrite u32_small by lia. split; [lia|]. zcase.
  - rewrite u32_small, Z.mod_small by lia. done.
  - replace i with 4 by lia. change ((4 + 1) mod 5) with 0. lia.
Qed.

Lemma empty_queue {A} i c : (@nil A).[(i - c) mod SLOTS] = None.
Proof. apply arr_get_None. right. apply slot_range. Qed.

Lemma rx_chain_init s : length (descs (rx s)) = 5%nat ->
  ETH_DMARxDescChainInit (DscrTab (rx s)) (Buff (rx s)) ETH_RXBUFNB s =
    Some (tt, put_rx (mapped (rx_desc_init (DscrTab (rx s)) (Buff (rx s)) ETH_RXBUFNB) (rx s))
                (s <| DMARxDescToGet := DscrTab (rx s) |>)).
Proof.
  intros Hl. unfold ETH_DMARxDescChainInit. set (s1 := s <| DMARxDescToGet := _ |>).
  rewrite (st_bind_eq _ _ s tt s1) by done. by apply (rx_table_loop _ s1).
Qed.

Lemma tx_chain_init s : length (descs (tx s)) = 5%nat ->
  ETH_DMATxDescChainInit (DscrTab (tx s)) (Buff (tx s)) ETH_TXBUFNB s =
    Some (tt, put_tx (mapped (tx_desc_init (DscrTab (tx s)) (Buff (tx s)) ETH_TXBUFNB) (tx s))
                (s <| DMATxDescToSet := DscrTab (tx s) |>)).
Proof.
  intros Hl. unfold ETH_DMATxDescChainInit. set (s1 := s <| DMATxDescToSet := _ |>).
  rewrite (st_bind_eq _ _ s tt s1) by done. by apply (tx_table_loop _ s1).
Qed.

(** The two tables once initialised. *)
Definition rx_initial (a : eth_area) : eth_area :=
  mapped (rx_desc_init (DscrTab a) (Buff a) ETH_RXBUFNB) a.
Definition tx_initial (a : eth_area) : eth_area :=
  mapped (fun i d => (tx_desc_init (DscrTab a) (Buff a) ETH_TXBUFNB i d)
    <| Status ::= (fun v => Z.lor v ETH_DMATxDesc_ChecksumTCPUDPICMPFull) |>) a.

Lemma mapped_get f a i : (descs (mapped f a)).[i] = f i <$> (descs a).[i].
Proof. apply arr_imap. Qed.

Lemma mapped_twice f g a : mapped g (mapped f a) = mapped (fun i d => g i (f i d)) a.
Proof.
  unfold mapped, set. cbn. f_equal. apply list_eq. intros k.
  rewrite !list_lookup_imap. by destruct (descs a !! k).
Qed.

Lemma low_level_init_eq s mac : length (descs (rx s)) = 5%nat -> length (descs (tx s)) = 5%nat ->
  exists s', low_level_init mac s = Some (tt, s') /\ rx s' = rx_initial (rx s) /\ tx s' = tx_initial (tx s) /\
    DMARxDescToGet s' = DscrTab (rx s) /\ DMATxDescToSet s' = DscrTab (tx s) /\
    hwaddr (lwip_netif s') = mac /\ eth_log s' = eth_log s ++ [MAC_address mac; ETH_Start].
Proof.
  intros Hr Ht. unfold low_level_init.
  set (s1 := s <| lwip_netif := Netif mac 1500
    (Z.lor (Z.lor NETIF_FLAG_BROADCAST NETIF_FLAG_ETHARP) NETIF_FLAG_LINK_UP) |>).
  set (s2 := s1 <| eth_log ::= (fun l => l ++ [MAC_address mac]) |>).
  rewrite (st_bind_eq _ _ s tt s1), (st_bind_eq _ _ s1 tt s2) by done.
  rewrite (st_bind_eq (st_get _) _ s2 (DscrTab (tx s2)) s2) by done.
  rewrite (st_bind_eq (st_get _) _ s2 (Buff (tx s2)) s2) by done.
  rewrite (st_bind_eq _ _ _ _ _ (tx_chain_init s2 Ht)). set (s3 := put_tx _ _).
  rewrite (st_bind_eq (st_get _) _ s3 (DscrTab (rx s3)) s3) by done.
  rewrite (st_bind_eq (st_get _) _ s3 (Buff (rx s3)) s3) by done.
  rewrite (st_bind_eq _ _ _ _ _ (rx_chain_init s3 Hr)). set (s4 := put_rx _ _).
  assert (Ht4 : length (descs (tx s4)) = 5%nat) by (cbn; by rewrite length_imap).
  set (g := fun (_ : Z) d => d <| Status ::= (fun v => Z.lor v ETH_DMATxDesc_ChecksumTCPUDPICMPFull) |>).
  rewrite (st_bind_eq _ _ s4 tt (put_tx (mapped g (tx s4)) s4)) by apply (tx_table_loop g s4 5 Ht4).
  eexists. split; [done|]. cbn. rewrite mapped_twice, <- app_assoc. done.
Qed.

Lemma low_level_init_sim s mac :
  region_ok (rx s) -> region_ok (tx s) ->
  exists s', low_level_init mac s = Some (tt, s') /\ rx_ring s' 0 [] /\ tx_ring s' 0 [] /\
    hwaddr (lwip_netif s') = mac /\ received s' = received s /\ allocs s' = allocs s.
Proof.
  intros Hrx Htx. pose proof Hrx as [Hlr _]. pose proof Htx as [Hlt _]. unfold SLOTS in Hlr, Hlt.
  destruct (low_level_init_eq s mac) as (s' & E & Er & Et & Eg & Es & Em & El); [lia..|].
  exists s'. split; [done|]. splits; [| |done| |].
  - constructor; rewrite ?Er, ?Eg; [|done|done|cbn; lia|].
    + by apply mapped_layout.
    + intros i d Hd. rewrite empty_queue. unfold rx_initial in Hd.
      rewrite mapped_get in Hd. destruct ((descs (rx s)).[i]); [|done]. injection Hd as <-. done.
  - constructor; rewrite ?Et, ?Es; [|done|done|by rewrite Z.mul_0_r, Z.add_0_r|].
    + by apply mapped_layout.
    + intros i d Hd. rewrite empty_queue. unfold tx_initial in Hd.
      rewrite mapped_get in Hd. destruct ((descs (tx s)).[i]); [|done]. injection Hd as <-. done.
  - unfold received. rewrite El, omap_app. apply app_nil_r.
  - unfold allocs. rewrite El, omap_app. apply app_nil_r.
Qed.

(** bringing the interface up.  From any memory of the right sizes, the
    initialisation links both tables into rings over their own buffers, gives
    all the receive descriptors to the DMA and keeps all the transmit ones, so
    that both queues are empty. *)
Theorem low_level_init_rings s mac :
  region_ok (rx s) -> region_ok (tx s) ->
  exists s', low_level_init mac s = Some (tt, s') /\ rx_ring s' 0 [] /\ tx_ring s' 0 [] /\
    hwaddr (lwip_netif s') = mac /\ received s' = received s /\ allocs s' = allocs s.
Proof. apply low_level_init_sim. Qed.
