(* ===== verification/EthStart.v ===== *)
(** * EthStart: the driver from power-up, and the theorems at concrete inputs *)

From S2P Require Import Prelude Malloc Eth EthMemory EthRing.

(** What the allocator gives is memory in which the rings can be built. *)
Section start.
Context (base : Z -> Z).
Hypothesis Hbase : base_ok base SRAMIN MEM1_ALLOC_TABLE_SIZE.

Lemma block_addr_range i n h : 0 <= i -> fits MEM1_ALLOC_TABLE_SIZE h i n ->
  0 <= block_addr base i /\ block_addr base i + 32 * n <= 2 ^ 32.
Proof.
  intros Hi (_ & Hn & _). destruct Hbase. unfold block_addr.
  change MEM1_ALLOC_TABLE_SIZE with 960 in *. lia.
Qed.

Lemma region_found n r h : outcome h (n, r) -> region_ptr base (n, r) <> 0 ->
  0 <= region_ptr base (n, r) /\ region_ptr base (n, r) + 32 * n <= 2 ^ 32.
Proof.
  destruct r as [i|]; [|done]. intros (_ & Hi & Hf) _. apply (block_addr_range i n h); [lia|done].
Qed.

(** C26: the driver comes up.  If [LAN8720_Init] answers 1 (its memory was
    found, whatever the MAC answered), then the interface initialisation that
    follows runs to its end and leaves two empty rings.  (The answer is the
    opposite of what its comment says.) *)
Theorem ethernet_starts h s macdma dr dt br bt s1 mac :
  bank_rel SRAMIN h (heap s) ->
  Z.of_nat (length dr) = SLOTS -> Z.of_nat (length dt) = SLOTS ->
  Z.of_nat (length br) = ETH_MAX_PACKET_SIZE * SLOTS ->
  Z.of_nat (length bt) = ETH_MAX_PACKET_SIZE * SLOTS ->
  LAN8720_Init base macdma dr dt br bt s = Some (1, s1) ->
  exists s2, low_level_init mac s1 = Some (tt, s2) /\ rx_ring s2 0 [] /\ tx_ring s2 0 [].
Proof.
  intros HB Hdr Hdt Hbr Hbt E.
  destruct (ETH_Mem_Malloc_takes base Hbase h s dr dt br bt HB)
    as (a & b & c & e & s' & T & _ & B & Er & Et & Em).
  unfold LAN8720_Init in E. destruct (complete base _) eqn:C.
  - rewrite (st_bind_eq _ _ _ _ _ Em) in E. injection E as <-.
    cbn [complete forallb] in C. zb. apply Z.eqb_neq in H, H0, H1, H2.
    pose proof H as P1; pose proof H0 as P2; pose proof H1 as P3; pose proof H2 as P4.
    apply Z.eqb_neq in P1, P2, P3, P4.
    destruct T as (T1 & T2 & T3 & T4 & _).
    destruct (region_found _ _ _ T1 P1), (region_found _ _ _ T2 P2),
      (region_found _ _ _ T3 P3), (region_found _ _ _ T4 P4).
    unfold at_ptr in Er, Et. rewrite H, H1 in Er. rewrite H0, H2 in Et.
    destruct (low_level_init_sim s' mac) as (s2 & E2 & R1 & R2 & _).
    + rewrite Er. unfold region_ok, sizeof_desc, ETH_MAX_PACKET_SIZE, SLOTS in *. cbn [DscrTab descs Buff bytes]. lia.
    + rewrite Et. unfold region_ok, sizeof_desc, ETH_MAX_PACKET_SIZE, SLOTS in *. cbn [DscrTab descs Buff bytes]. lia.
    + by exists s2.
  - exfalso. destruct (ETH_Mem_Free_spec base Hbase h s' (5, a) (5, b) (239, c) (239, e))
      as (d & Ef & _); [done| |by rewrite ?Er, ?Et..|].
    { apply taken_placed; [by eapply bank_rel_positive|done]. }
    rewrite (st_bind_eq _ _ _ _ _ Ef) in Em. by rewrite (st_bind_eq _ _ _ _ _ Em) in E.
Qed.
End start.

(** ** Concrete inputs *)

Definition blank_desc : ETH_DMADESC := MkDesc 0 0 0 0.
Definition blank_descs : list ETH_DMADESC := replicate 5 blank_desc.
Definition blank_bytes : list Z := replicate (Z.to_nat (ETH_MAX_PACKET_SIZE * SLOTS)) 0.

Lemma blank_descs_length : Z.of_nat (length blank_descs) = SLOTS.
Proof. done. Qed.

Lemma blank_bytes_length : Z.of_nat (length blank_bytes) = ETH_MAX_PACKET_SIZE * SLOTS.
Proof. unfold blank_bytes. rewrite length_replicate, Z2Nat.id; done. Qed.

(** Power-up. *)
Definition eth_boot : eth_state :=
  Eth mallco_dev (MkArea 0 [] 0 []) (MkArea 0 [] 0 []) 0 0 0 (Netif [] 0 0) [].

Lemma boot_bank : bank_rel SRAMIN ∅ (heap eth_boot).
Proof. apply (dev_rel_initial SRAMIN). by vm_compute. Qed.

Example ETH_Mem_Malloc_spec_witness :
  exists s', ETH_Mem_Malloc sample_base blank_descs blank_descs blank_bytes blank_bytes eth_boot =
    Some (0, s') /\ exists h, bank_rel SRAMIN h (heap s').
Proof.
  destruct (ETH_Mem_Malloc_spec sample_base sample_base_ok ∅ eth_boot
    blank_descs blank_descs blank_bytes blank_bytes boot_bank) as (a & b & c & e & s' & _ & _ & E & H).
  assert (Ho : fst <$> ETH_Mem_Malloc sample_base blank_descs blank_descs blank_bytes blank_bytes
    eth_boot = Some 0) by (vm_compute; reflexivity).
  rewrite E in Ho. exists s'. destruct (complete _ _); [|done].
  split; [exact E|]. eexists. apply H.
Defined.

Example ethernet_starts_witness :
  exists s1 s2, LAN8720_Init sample_base 1 blank_descs blank_descs blank_bytes blank_bytes eth_boot =
      Some (1, s1) /\
    low_level_init [2; 0; 0; 1; 2; 3] s1 = Some (tt, s2) /\ rx_ring s2 0 [] /\ tx_ring s2 0 [].
Proof.
  destruct (LAN8720_Init sample_base 1 blank_descs blank_descs blank_bytes blank_bytes eth_boot)
    as [[r s1]|] eqn:E.
  - assert (Ho : fst <$> LAN8720_Init sample_base 1 blank_descs blank_descs blank_bytes blank_bytes
      eth_boot = Some 1) by (vm_compute; reflexivity).
    rewrite E in Ho. injection Ho as ->.
    destruct (ethernet_starts sample_base sample_base_ok ∅ eth_boot 1 blank_descs blank_descs
      blank_bytes blank_bytes s1 [2; 0; 0; 1; 2; 3] boot_bank blank_descs_length blank_descs_length
      blank_bytes_length blank_bytes_length E) as (s2 & H).
    exists s1, s2. split; [done|exact H].
  - assert (Ho : is_Some (fst <$> LAN8720_Init sample_base 1 blank_descs blank_descs blank_bytes
      blank_bytes eth_boot)) by (exists 1; vm_compute; reflexivity).
    rewrite E in Ho. by destruct Ho.
Defined.

(** The driver's memory at some place, not yet initialised. *)
Definition eth_raw : eth_state :=
  Eth mallco_dev (MkArea 0x20001000 blank_descs 0x20002000 blank_bytes)
    (MkArea 0x20001100 blank_descs 0x20004000 blank_bytes) 0 0 0 (Netif [] 0 0) [].

Lemma eth_raw_regions : region_ok (rx eth_raw) /\ region_ok (tx eth_raw).
Proof.
  pose proof blank_bytes_length. by repeat split; try done; vm_compute.
Qed.

Example low_level_init_rings_witness :
  exists s', low_level_init [2; 0; 0; 1; 2; 3] eth_raw = Some (tt, s') /\ rx_ring s' 0 [].
Proof.
  destruct (low_level_init_rings eth_raw [2; 0; 0; 1; 2; 3] (proj1 eth_raw_regions)
    (proj2 eth_raw_regions)) as (s' & E & R & _).
  exists s'. by split.
Defined.

Lemma ready_state : exists s, rx_ring s 0 [] /\ tx_ring s 0 [] /\ received s = [] /\ allocs s = [].
Proof.
  destruct (low_level_init_sim eth_raw [] (proj1 eth_raw_regions) (proj2 eth_raw_regions))
    as (s & _ & R & T & _ & Hr & Ha). by exists s.
Qed.

(** A stack that takes every frame in one piece. *)
#[local] Instance easy_stack : LwipStack :=
  {| pbuf_alloc := fun _ len => Some [len]; netif_input := fun _ _ => ERR_OK |}.

#[local] Instance easy_stack_laws : LwipLaws.
Proof.
  intros log len ls Hlen [= <-]. split; [by constructor|]. cbn. lia.
Qed.

Definition ping : list Z := [1; 2; 3].
Definition ping_status : Z := 0x00070300.

(** The same frame with a checksum error. *)
Definition broken_status : Z := 0x00078302.

Lemma ping_ok : event_ok (Arrive ping_status (false, ping) [0; 0; 0; 0]).
Proof. by vm_compute. Qed.

Lemma broken_ok : event_ok (Arrive broken_status (true, ping) [0; 0; 0; 0]).
Proof. by vm_compute. Qed.

(** A good frame and a broken one. *)
Example ETH_IRQHandler_drains_witness :
  exists s s' ok, rx_ring s 0 [(false, ping); (true, ping)] /\ ETH_IRQHandler 2 s = Some (tt, s') /\
    rx_ring s' 1 [(true, ping)] /\ allocs s' = [(3, ok)] /\ received s' = (if ok then [ping] else []).
Proof.
  destruct ready_state as (s0 & R0 & _ & Hr & Ha). destruct ping_ok as (Hf & Hs & Hc). destruct broken_ok as (Hf2 & Hs2 & _).
  destruct (dma_arrive_room ping_status (false, ping) [0; 0; 0; 0] s0 0 [] R0) as (s1 & _ & R1 & Hl1 & _); [done..|].
  destruct (dma_arrive_room broken_status (true, ping) [0; 0; 0; 0] s1 0 _ R1) as (s & _ & R & Hl & _); [done..|].
  destruct (ETH_IRQHandler_drains s 0 [ping] [(true, ping)] 2 R) as (s' & oks & E & R' & Ha' & Hn & Hr' & _);
    [done|cbn; lia|].
  destruct oks as [|ok [|]]; try discriminate Hn. exists s, s', ok. unfold received, allocs in *.
  rewrite Hl, Hl1, Hr in Hr'. rewrite Hl, Hl1, Ha in Ha'. splits; [exact R|exact E|exact R'|exact Ha'|].
  rewrite Hr'. cbn. by rewrite app_nil_r.
Defined.

Example receive_fifo_witness :
  exists s s' c acc fs q, rx_ring s 0 [] /\
    rx_run [Arrive ping_status (false, ping) [0; 0; 0; 0]; Turn; Arrive broken_status (true, ping) [0; 0; 0; 0]; Turn]
      (s, rx_tail s 0 [], []) = Some (s', c, acc) /\ acc = good fs ++ q /\ taken fs s'.
Proof.
  destruct ready_state as (s0 & R0 & _ & Hr & Ha).
  destruct (receive_fifo
    [Arrive ping_status (false, ping) [0; 0; 0; 0]; Turn; Arrive broken_status (true, ping) [0; 0; 0; 0]; Turn]
    s0 0 R0 Hr Ha) as (s' & c & acc & _ & fs & q & E & _ & _ & Hacc & T & _).
  { repeat constructor; try apply ping_ok; apply broken_ok. }
  exists s0, s', c, acc, fs, q. by splits.
Defined.

Example low_level_output_spec_witness :
  exists s s', low_level_output [[1; 2]; [3]] s = Some (ERR_OK, s') /\ tx_ring s' 0 [ping].
Proof.
  destruct ready_state as (s0 & _ & T0 & _).
  destruct (low_level_output_spec s0 0 [] [[1; 2]; [3]] T0) as (s' & _ & _ & H); [done|].
  exists s0, s'. exact H.
Defined.
