(* ===== verification/LwipApp.v ===== *)
(** * LwipApp: the network application (LwIP/user_app)

    Addresses and DHCP, the periodic timers of the stack, and the UDP and TCP
    clients.  The lwIP stack itself is an interface ([LwipApi]): what each call
    answers may depend on all the calls made before, which are recorded in
    order.  A pbuf is a name with its payload, a chain a list of them. *)

From S2P Require Import Prelude.

(** ** Data *)

Record LwipObjectTypeDef := LwipObject {
  mac : list Z;
  remoteip : list Z;
  ip : list Z;
  netmask : list Z;
  gateway : list Z;
  dhcpstatus : Z;
  udpstatus : Z
}.
#[export] Instance object_settable : Settable LwipObjectTypeDef :=
  fun r => LwipObject (mac r) (remoteip r) (ip r) (netmask r) (gateway r) (dhcpstatus r) (udpstatus r).

Definition pbuf : Type := Z * list Z.

(** Calls of the stack. *)
Inductive lwip_op :=
  | Lwip_init
  | Netif_add (ipaddr nm gw : Z)
  | Netif_set_default
  | Netif_set_up
  | Netif_set_down
  | Tcp_tmr
  | Etharp_tmr
  | Dhcp_fine_tmr
  | Dhcp_coarse_tmr
  | Dhcp_start
  | Netif_static (ipaddr nm gw : Z)
  | Udp_new
  | Udp_bind (ipaddr port : Z)
  | Udp_connect (ipaddr port : Z)
  | Udp_recv_set
  | Udp_send (data : list Z)
  | Udp_disconnect
  | Udp_remove
  | Pbuf_alloc (len : Z)
  | Pbuf_take (p : list pbuf) (data : list Z)
  | Pbuf_ref (p : Z)
  | Pbuf_free (p : option Z)
  | Tcp_new
  | Tcp_connect (ipaddr port : Z)
  | Tcp_set_callbacks
  | Tcp_clear_callbacks
  | Tcp_recved (len : Z)
  | Tcp_write (data : list Z)
  | Tcp_abort.

(** What the stack answers. *)
Class LwipApi := {
  link_up : list lwip_op -> bool;
  netif_ip : list lwip_op -> Z;
  netif_mask : list lwip_op -> Z;
  netif_gw : list lwip_op -> Z;
  dhcp_tries : list lwip_op -> Z;
  udp_new : list lwip_op -> bool;
  udp_bind : list lwip_op -> Z;
  udp_connect : list lwip_op -> Z;
  udp_send : list lwip_op -> Z;
  pbuf_new : list lwip_op -> Z -> list pbuf;
  pbuf_take : list lwip_op -> Z;
  tcp_new : list lwip_op -> bool;
  tcp_connect : list lwip_op -> Z;
  tcp_write : list lwip_op -> Z;
  tcp_sndbuf : list lwip_op -> Z
}.

Record lwip_app := App {
  stcLwipObject : LwipObjectTypeDef;
  lwip_sys_timer : Z;
  TCPTimer : Z;
  ARPTimer : Z;
  DHCPfineTimer : Z;
  DHCPCoarseTimer : Z;
  numTimeDelta : Z;
  udp_app_recv_buff : list Z;
  tcp_app_client_recv_buff : list Z;
  tcpStatus : Z;
  calls : list lwip_op
}.
#[export] Instance app_settable : Settable lwip_app :=
  fun r => App (stcLwipObject r) (lwip_sys_timer r) (TCPTimer r) (ARPTimer r) (DHCPfineTimer r)
    (DHCPCoarseTimer r) (numTimeDelta r) (udp_app_recv_buff r) (tcp_app_client_recv_buff r)
    (tcpStatus r) (calls r).

Definition LW (A : Type) : Type := ST lwip_app A.

Definition lw_call (o : lwip_op) : LW unit := st_mod (set calls (fun l => l ++ [o])).
Definition lw_obj (f : LwipObjectTypeDef -> LwipObjectTypeDef) : LW unit := st_mod (set stcLwipObject f).

Definition ERR_OK : Z := 0.
Definition ERR_MEM : Z := -1.
Definition ERR_CONN : Z := -11.
Definition ERR_ABRT : Z := -13.
Definition LWIP_MAX_DHCP_TRIES : Z := 4.
Definition TCP_TMR_INTERVAL : Z := 25.
Definition ARP_TMR_INTERVAL : Z := 5000.
Definition DHCP_FINE_TIMER_MSECS : Z := 500.
Definition DHCP_COARSE_TIMER_MSECS : Z := 60 * 1000.

(** ** Addresses *)

Definition LWIP_MAKEU32 (a b c d : Z) : Z :=
  Z.lor (Z.lor (Z.lor (Z.shiftl (Z.land a 0xff) 24) (Z.shiftl (Z.land b 0xff) 16))
    (Z.shiftl (Z.land c 0xff) 8)) (Z.land d 0xff).

Definition PP_HTONL (x : Z) : Z :=
  Z.lor (Z.lor (Z.lor (u32 (Z.shiftl (Z.land x 0x000000ff) 24)) (Z.shiftl (Z.land x 0x0000ff00) 8))
    (Z.shiftr (Z.land x 0x00ff0000) 8)) (Z.shiftr (Z.land x 0xff000000) 24).

Definition IP4_ADDR (a b c d : Z) : Z := PP_HTONL (LWIP_MAKEU32 a b c d).

(** [IP4_ADDR] of the four elements of an array. *)
Definition ip4_of (l : list Z) : Z :=
  match l with [a; b; c; d] => IP4_ADDR a b c d | _ => 0 end.

(** The four assignments [x[3]=(uint8_t)(v>>24); ... x[0]=(uint8_t)(v);]. *)
Definition ip4_bytes (v : Z) : list Z :=
  [u8 v; u8 (Z.shiftr v 8); u8 (Z.shiftr v 16); u8 (Z.shiftr v 24)].

Definition lwip_app_remote_ip_set (a b c d : Z) : LW unit :=
  lw_obj (fun o => o <| remoteip := [a; b; c; d] |>).

(** [sn0] is the serial number of the chip. *)
Definition lwip_app_default_ip_set (sn0 : Z) : LW unit :=
  lw_obj (fun o => o
    <| remoteip := [192; 168; 0; 101] |>
    <| mac := [2; 0; 0; Z.land (Z.shiftr sn0 16) 0xFF; u8 (Z.land (Z.shiftr sn0 8) 0xFFF);
               Z.land sn0 0xFF] |>
    <| ip := [192; 168; 0; 122] |>
    <| netmask := [255; 255; 255; 0] |>
    <| gateway := [192; 168; 0; 1] |>).

Section api.
Context `{LwipApi}.

(** ** DHCP and the periodic timers *)

Definition lwip_dhcp_process_handle : LW unit :=
  o ← st_get stcLwipObject;
  if dhcpstatus o =? 0 then
    _ ← lw_call Dhcp_start; lw_obj (fun o => o <| dhcpstatus := 1 |>)
  else if dhcpstatus o =? 1 then
    log ← st_get calls;
    let a := netif_ip log in let nm := netif_mask log in let gw := netif_gw log in
    if negb (a =? 0) then
      lw_obj (fun o => o <| dhcpstatus := 2 |> <| ip := ip4_bytes a |>
        <| netmask := ip4_bytes nm |> <| gateway := ip4_bytes gw |>)
    else if LWIP_MAX_DHCP_TRIES <? dhcp_tries log then
      _ ← lw_obj (fun o => o <| dhcpstatus := 0xFF |>);
      lw_call (Netif_static (ip4_of (ip o)) (ip4_of (netmask o)) (ip4_of (gateway o)))
    else st_skip
  else st_skip.

(** [sys_now] of the lwIP port (LwIP/arch/sys_arch.c). *)
Definition sys_now : LW Z := st_get lwip_sys_timer.

(** [numTimeDelta = (lwip_sys_timer - last + 0xFFFFFFFF) % 0xFFFFFFFF]. *)
Definition time_delta (now last : Z) : Z := u32 (now - last + 0xFFFFFFFF) mod 0xFFFFFFFF.

Definition lwip_periodic_handle : LW unit :=
  s ← st_get id;
  let d := time_delta (lwip_sys_timer s) (TCPTimer s) in
  _ ← st_mod (set numTimeDelta (fun _ => d));
  _ ← when (TCP_TMR_INTERVAL <=? d)
        (_ ← st_mod (set TCPTimer (fun _ => lwip_sys_timer s)); lw_call Tcp_tmr);
  let d := time_delta (lwip_sys_timer s) (ARPTimer s) in
  _ ← st_mod (set numTimeDelta (fun _ => d));
  _ ← when (ARP_TMR_INTERVAL <=? d)
        (_ ← st_mod (set ARPTimer (fun _ => lwip_sys_timer s)); lw_call Etharp_tmr);
  let d := time_delta (lwip_sys_timer s) (DHCPfineTimer s) in
  _ ← st_mod (set numTimeDelta (fun _ => d));
  _ ← when (DHCP_FINE_TIMER_MSECS <=? d)
        (_ ← st_mod (set DHCPfineTimer (fun _ => lwip_sys_timer s));
         _ ← lw_call Dhcp_fine_tmr; lwip_dhcp_process_handle);
  let d := time_delta (lwip_sys_timer s) (DHCPCoarseTimer s) in
  _ ← st_mod (set numTimeDelta (fun _ => d));
  when (DHCP_COARSE_TIMER_MSECS <=? d)
    (_ ← st_mod (set DHCPCoarseTimer (fun _ => lwip_sys_timer s)); lw_call Dhcp_coarse_tmr).

(** The wait of [lwip_app_init].  The timer interrupt moves the clock: [clock k]
    is its reading in turn [k]. *)
Fixpoint dhcp_wait (clock : nat -> Z) (fuel k : nat) : LW unit :=
  match fuel with
  | O => fun _ => None
  | S fuel =>
      st ← st_get (fun s => dhcpstatus (stcLwipObject s));
      if negb (st =? 2) && negb (st =? 0xFF) then
        _ ← st_mod (set lwip_sys_timer (fun _ => clock k));
        _ ← lwip_periodic_handle; dhcp_wait clock fuel (S k)
      else st_skip
  end.

Definition lwip_app_init (sn0 : Z) (clock : nat -> Z) (fuel : nat) : LW unit :=
  _ ← lw_call Lwip_init;
  _ ← lwip_app_default_ip_set sn0;
  _ ← lw_call (Netif_add 0 0 0);
  _ ← lw_call Netif_set_default;
  log ← st_get calls;
  _ ← lw_call (if link_up log then Netif_set_up else Netif_set_down);
  _ ← lw_obj (fun o => o <| dhcpstatus := 0 |>);
  dhcp_wait clock fuel 0.

(** ** The copy of a received chain, the same in both clients *)

Definition APP_RX_BUFF_SIZE : Z := 200.

(** [memcpy(buff + at_, data, n)]: within the buffer and the payload. *)
Definition memcpy_at (buff : list Z) (at_ : Z) (data : list Z) (n : Z) : option (list Z) :=
  if (0 <=? at_) && (0 <=? n) && (n <=? Z.of_nat (length data)) &&
     (at_ + n <=? Z.of_nat (length buff))
  then Some (take (Z.to_nat at_) buff ++ take (Z.to_nat n) data ++
             drop (Z.to_nat at_ + Z.to_nat n) buff)
  else None.

Fixpoint recv_loop (buff : list Z) (numSize : Z) (p : list pbuf) : option (list Z) :=
  match p with
  | [] => Some buff
  | (_, payload) :: p =>
      let len := Z.of_nat (length payload) in
      if APP_RX_BUFF_SIZE - numSize <? len
      then memcpy_at buff numSize payload (APP_RX_BUFF_SIZE - numSize)
      else buff ← memcpy_at buff numSize payload len;
           recv_loop buff (u16 (numSize + len)) p
  end.

(** After [memset]. *)
Definition recv_buffer (p : list pbuf) : option (list Z) :=
  recv_loop (replicate (Z.to_nat APP_RX_BUFF_SIZE) 0) 0 p.

Definition tot_len (p : list pbuf) : Z := Z.of_nat (length (concat (snd <$> p))).

(** ** UDP *)

Definition enUdpInitOK : Z := 0.
Definition enUdpSendOK : Z := 1.
Definition enUdpRecvOK : Z := 2.
Definition enUdpObjCrtErr : Z := 3.
Definition enUdpConnErr : Z := 4.
Definition enUdpBindErr : Z := 5.
Definition enUdpSendErr : Z := 6.

(** ["hello world!\r\n"]. *)
Definition app_send_buff : list Z := [104; 101; 108; 108; 111; 32; 119; 111; 114; 108; 100; 33; 13; 10].

Definition set_udpstatus (v : Z) : LW unit := lw_obj (fun o => o <| udpstatus := v |>).

Definition lwip_app_udp_init : LW Z :=
  _ ← lwip_app_remote_ip_set 192 168 0 101;
  o ← st_get stcLwipObject;
  let remote := ip4_of (remoteip o) in
  let local := ip4_of (ip o) in
  log ← st_get calls;
  _ ← lw_call Udp_new;
  if negb (udp_new log) then mret enUdpObjCrtErr else
  log ← st_get calls;
  _ ← lw_call (Udp_bind local 8089);
  if negb (udp_bind log =? enUdpInitOK) then mret enUdpBindErr else
  log ← st_get calls;
  _ ← lw_call (Udp_connect remote 8089);
  if negb (udp_connect log =? enUdpInitOK) then mret enUdpConnErr else
  _ ← lw_call Udp_recv_set;
  mret enUdpInitOK.

(** The name of a chain is that of its first pbuf. *)
Definition chain_name (p : list pbuf) : option Z := fst <$> head p.

Definition lwip_app_udp_send_data (data : list Z) : LW unit :=
  _ ← set_udpstatus enUdpSendErr;
  log ← st_get calls;
  let p := pbuf_new log (Z.of_nat (length data)) in
  _ ← lw_call (Pbuf_alloc (Z.of_nat (length data)));
  _ ← match p with
      | [] => st_skip
      | _ =>
          log ← st_get calls;
          _ ← lw_call (Pbuf_take p data);
          when (pbuf_take log =? ERR_OK)
            (log ← st_get calls;
             _ ← lw_call (Udp_send data);
             when (udp_send log =? ERR_OK) (set_udpstatus enUdpSendOK))
      end;
  lw_call (Pbuf_free (chain_name p)).

Definition lwip_app_udp_conn_close : LW unit :=
  _ ← lw_call Udp_disconnect; lw_call Udp_remove.

Definition lwip_app_udp_client : LW unit :=
  st ← st_get (fun s => udpstatus (stcLwipObject s));
  if st =? enUdpRecvOK then
    _ ← set_udpstatus enUdpInitOK; lwip_app_udp_send_data app_send_buff
  else if enUdpRecvOK <? st then lwip_app_udp_conn_close
  else st_skip.

(** [remote] is [pUdpPcb->remote_ip.addr]; no chain is the null pointer. *)
Definition lwip_app_udp_recv_data (remote : Z) (p : option (list pbuf)) : LW unit :=
  _ ← match p with
      | None => st_skip
      | Some p =>
          _ ← set_udpstatus enUdpRecvOK;
          b ← st_opt (recv_buffer p);
          _ ← st_mod (set udp_app_recv_buff (fun _ => b));
          lw_obj (fun o => o <| remoteip :=
            [Z.land remote 0xff; Z.land (Z.shiftr remote 8) 0xff;
             Z.land (Z.shiftr remote 16) 0xff; Z.land (Z.shiftr remote 24) 0xff] |>)
      end;
  lw_call (Pbuf_free (p ← p; chain_name p)).

(** ** TCP *)

Definition enTcpClientNone : Z := 0.
Definition enTcpClientClose : Z := 1.
Definition enTcpClientConn : Z := 2.
Definition enTcpClientRecvOK : Z := 3.
Definition enTcpClientSendOK : Z := 4.
Definition enTcpClientAckWait : Z := 5.
Definition enTcpClientRecvErr : Z := 6.
Definition enTcpClientSendErr : Z := 7.

Definition set_tcpStatus (v : Z) : LW unit := st_mod (set tcpStatus (fun _ => v)).

Definition lwip_app_tcp_client_init : LW Z :=
  _ ← lwip_app_remote_ip_set 192 168 0 101;
  log ← st_get calls;
  _ ← lw_call Tcp_new;
  if tcp_new log then
    o ← st_get stcLwipObject;
    log ← st_get calls;
    _ ← lw_call (Tcp_connect (ip4_of (remoteip o)) 8089);
    mret (tcp_connect log)
  else mret ERR_MEM.

Definition lwip_app_tcp_client_connect (err : Z) : LW Z :=
  if err =? ERR_OK then
    _ ← lw_call Tcp_set_callbacks; _ ← set_tcpStatus enTcpClientConn; mret ERR_OK
  else mret ERR_CONN.

(** The argument of the callbacks is [&tcpStatus].  [garbage] is the value of
    the variable returned without having been set when there is no pbuf. *)
Definition lwip_app_tcp_client_recv (garbage : Z) (p : option (list pbuf)) (err : Z) : LW Z :=
  ret ← match p with
    | None => mret garbage
    | Some p =>
        if err =? ERR_OK then
          st ← st_get tcpStatus;
          if enTcpClientClose <? st then
            b ← st_opt (recv_buffer p);
            _ ← st_mod (set tcp_app_client_recv_buff (fun _ => b));
            _ ← set_tcpStatus enTcpClientRecvOK;
            _ ← lw_call (Tcp_recved (tot_len p));
            mret ERR_OK
          else _ ← lw_call (Tcp_recved (tot_len p)); mret ERR_OK
        else _ ← set_tcpStatus enTcpClientRecvErr; mret err
    end;
  _ ← lw_call (Pbuf_free (p ← p; chain_name p));
  mret ret.

(** The loop of [lwip_app_tcp_client_send_data]: it ends when the chain does,
    when the stack has no room, or on any error. *)
Fixpoint lwip_app_tcp_client_send_data (p : list pbuf) : LW unit :=
  match p with
  | [] => st_skip
  | (name, payload) :: p =>
      log ← st_get calls;
      if Z.of_nat (length payload) <=? tcp_sndbuf log then
        _ ← lw_call (Tcp_write payload);
        if tcp_write log =? ERR_OK then
          _ ← match p with [] => st_skip | (next, _) :: _ => lw_call (Pbuf_ref next) end;
          _ ← lw_call (Pbuf_free (Some name));
          lwip_app_tcp_client_send_data p
        else st_skip
      else st_skip
  end.

Definition lwip_app_tcp_client_conn_close : LW unit :=
  _ ← lw_call Tcp_abort; lw_call Tcp_clear_callbacks.

(** [pbuf_take] fills the chain: the payloads are pieces of the data. *)
Fixpoint filled_with (p : list pbuf) (data : list Z) : list pbuf :=
  match p with
  | [] => []
  | (name, old) :: p =>
      (name, take (length old) data ++ drop (length data) old) :: filled_with p (drop (length old) data)
  end.

Definition lwip_app_tcp_client_poll : LW Z :=
  st ← st_get tcpStatus;
  if st =? enTcpClientRecvOK then
    log ← st_get calls;
    let n := Z.of_nat (length app_send_buff) in
    let p := pbuf_new log n in
    _ ← lw_call (Pbuf_alloc n);
    _ ← lw_call (Pbuf_take p app_send_buff);
    _ ← lwip_app_tcp_client_send_data (filled_with p app_send_buff);
    _ ← set_tcpStatus enTcpClientAckWait;
    _ ← lw_call (Pbuf_free (chain_name p));
    mret ERR_OK
  else if st =? enTcpClientClose then
    _ ← lwip_app_tcp_client_conn_close; mret ERR_ABRT
  else mret ERR_OK.

Definition lwip_app_tcp_client_sent : LW Z :=
  _ ← set_tcpStatus enTcpClientSendOK; mret ERR_OK.
End api.
