(* ===== verification/LwipFacts.v ===== *)
(** * LwipFacts: theorems on the network application *)

From S2P Require Import Prelude LwipApp.

(** ** Reception *)

Lemma memcpy_at_end d n x k : (length d + k <= n)%nat -> (k <= length x)%nat ->
  memcpy_at (d ++ replicate (n - length d) 0) (Z.of_nat (length d)) x (Z.of_nat k) =
    Some ((d ++ take k x) ++ replicate (n - length (d ++ take k x)) 0).
Proof.
  intros Hn Hk. unfold memcpy_at. rewrite length_app, length_replicate. repeat ztest.
  rewrite !Nat2Z.id, take_app_length, drop_app_ge by lia.
  rewrite length_app, length_take, Nat.min_l, <- app_assoc by lia.
  replace (length d + k - length d)%nat with k by lia.
  rewrite drop_replicate. do 4 f_equal. lia.
Qed.

Lemma recv_loop_spec p d : (length d <= 200)%nat ->
  recv_loop (d ++ replicate (200 - length d) 0) (Z.of_nat (length d)) p =
    Some (take 200 (d ++ concat (snd <$> p) ++ replicate 200 0)).
Proof.
  revert d. induction p as [|[name x] p IH]; intros d Hd; cbn [recv_loop fmap list_fmap concat snd].
  - cbn [app]. rewrite take_app_ge, take_replicate, Nat.min_l by lia. done.
  - unfold APP_RX_BUFF_SIZE. zcase.
    + replace (200 - Z.of_nat (length d)) with (Z.of_nat (200 - length d)) by lia.
      rewrite memcpy_at_end, length_app, length_take, Nat.min_l by lia.
      replace (200 - (length d + (200 - length d)))%nat with 0%nat by lia. rewrite app_nil_r.
      by rewrite <- app_assoc, take_app_ge, (take_app_le x) by lia.
    + rewrite memcpy_at_end, firstn_all by lia. cbn [mbind option_bind].
      rewrite u16_small, <- Nat2Z.inj_add, <- length_app by lia.
      rewrite IH by (rewrite length_app; lia). by rewrite <- !app_assoc.
Qed.

Lemma recv_buffer_eq p :
  recv_buffer p = Some (take 200 (concat (snd <$> p) ++ replicate 200 0)).
Proof. apply (recv_loop_spec p []). cbn. lia. Qed.

(** C33: the copy of a received chain, in both clients.  Whatever the number and
    the lengths of its pbufs, the copy stays inside the 200-byte buffer, which
    ends up holding the first 200 bytes of the data, padded with zeros: data
    beyond that is dropped silently. *)
Theorem recv_buffer_spec p :
  recv_buffer p = Some (take 200 (concat (snd <$> p) ++ replicate 200 0)).
Proof. apply recv_buffer_eq. Qed.

(** ** Addresses *)

Lemma high_bit a k n : 0 <= a < 2 ^ k -> 0 <= k <= n -> Z.testbit a n = false.
Proof.
  intros Ha Hk. rewrite <- (Z.mod_small a (2 ^ k)) by done. apply Z.mod_pow2_bits_high. lia.
Qed.

#[local] Ltac bits :=
  unfold IP4_ADDR, PP_HTONL, LWIP_MAKEU32, u32;
  repeat first [ rewrite Z.lor_spec | rewrite Z.land_spec | rewrite Z.shiftr_spec by lia
    | rewrite Z.shiftl_spec by lia | rewrite Z.mod_pow2_bits_low by lia ];
  cbn [Z.add Z.sub Z.opp Z.pos_sub Z.testbit Pos.testbit Pos.add Pos.succ Pos.pred_double
    Z.double Z.succ_double Z.pred_double Pos.sub];
  rewrite ?andb_true_r, ?andb_false_r, ?orb_false_r, ?orb_false_l.

(** The first number is in the lowest byte: network order on this machine. *)
Lemma ip4_bit a b c d j : 0 <= j < 8 ->
  Z.testbit (IP4_ADDR a b c d) j = Z.testbit a j /\
  Z.testbit (IP4_ADDR a b c d) (j + 8) = Z.testbit b j /\
  Z.testbit (IP4_ADDR a b c d) (j + 16) = Z.testbit c j /\
  Z.testbit (IP4_ADDR a b c d) (j + 24) = Z.testbit d j.
Proof.
  intros Hj.
  assert (Hc : j = 0 \/ j = 1 \/ j = 2 \/ j = 3 \/ j = 4 \/ j = 5 \/ j = 6 \/ j = 7) by lia.
  repeat (destruct Hc as [->|Hc]; [|]). all: try subst j.
  all: splits; bits; first [reflexivity | bits; reflexivity].
Qed.

Lemma ip4_high a b c d n : 32 <= n -> Z.testbit (IP4_ADDR a b c d) n = false.
Proof.
  intros Hn. unfold IP4_ADDR, PP_HTONL. set (x := LWIP_MAKEU32 a b c d). unfold u32.
  rewrite !Z.lor_spec, Z.mod_pow2_bits_high, Z.shiftl_spec, !Z.shiftr_spec, !Z.land_spec by lia.
  rewrite (high_bit 0xff00 16), (high_bit 0xff0000 24), (high_bit 0xff000000 32) by lia.
  by rewrite !andb_false_r.
Qed.

Lemma u8_bit x n : 0 <= n -> Z.testbit (u8 x) n = (n <? 8) && Z.testbit x n.
Proof.
  intros. unfold u8. destruct (n <? 8) eqn:E; zb; [by apply Z.mod_pow2_bits_low|]. apply Z.mod_pow2_bits_high. lia.
Qed.

Lemma byte_ext x y : 0 <= y < 256 -> (forall j, 0 <= j < 8 -> Z.testbit x j = Z.testbit y j) -> u8 x = y.
Proof.
  intros Hy Hx. apply Z.bits_inj'. intros n Hn. rewrite u8_bit by done.
  destruct (n <? 8) eqn:E; zb; cbn; [by apply Hx|]. symmetry. apply (high_bit _ 8); lia.
Qed.

(** addresses are packed and unpacked consistently.  The four bytes that
    [IP4_ADDR] packs are the four bytes the DHCP code and the UDP callback
    unpack, and unpacking any 32-bit address and packing it again gives it
    back. *)
Theorem address_roundtrip :
  (forall a b c d, 0 <= a < 256 -> 0 <= b < 256 -> 0 <= c < 256 -> 0 <= d < 256 ->
     ip4_bytes (IP4_ADDR a b c d) = [a; b; c; d]) /\
  (forall v, 0 <= v < 2 ^ 32 -> ip4_of (ip4_bytes v) = v).
Proof.
  split.
  - intros a b c d Ha Hb Hc Hd. unfold ip4_bytes.
    f_equal; [|f_equal; [|f_equal; [|f_equal]]]; apply byte_ext; try done; intros j Hj;
      rewrite ?Z.shiftr_spec by lia; by apply ip4_bit.
  - intros v Hv. unfold ip4_bytes, ip4_of. apply Z.bits_inj'. intros n Hn.
    destruct (decide (32 <= n)) as [Hge|Hlt].
    { rewrite ip4_high, (high_bit v 32) by done. done. }
    destruct (ip4_bit (u8 v) (u8 (Z.shiftr v 8)) (u8 (Z.shiftr v 16)) (u8 (Z.shiftr v 24)) (n mod 8))
      as (H1 & H2 & H3 & H4); [by apply Z.mod_pos_bound|].
    rewrite u8_bit in H1, H2, H3, H4 by (apply Z.mod_pos_bound; done).
    rewrite Z.shiftr_spec in H2, H3, H4 by (apply Z.mod_pos_bound; done).
    pose proof (Z.mod_pos_bound n 8 ltac:(done)) as Hm. pose proof (Z.div_mod n 8 ltac:(done)) as Hd.
    rewrite (proj2 (Z.ltb_lt (n mod 8) 8)) in H1, H2, H3, H4 by lia. cbn [andb] in *.
    assert (Hq : n / 8 = 0 \/ n / 8 = 1 \/ n / 8 = 2 \/ n / 8 = 3) by lia.
    destruct Hq as [E|[E|[E|E]]]; rewrite E in Hd.
    + by replace n with (n mod 8) by lia.
    + by replace n with (n mod 8 + 8) by lia.
    + by replace n with (n mod 8 + 16) by lia.
    + by replace n with (n mod 8 + 24) by lia.
Qed.

(** ** The periodic timers *)

(** More than [interval] has passed since [last], on the 32-bit clock. *)
Definition due (interval now last : Z) : bool := interval <? (now - last) mod 2 ^ 32.

(** The code's difference is one less than the time that passed. *)
Lemma time_delta_due interval now last : 0 < interval -> 0 <= now < 2 ^ 32 -> 0 <= last < 2 ^ 32 ->
  (interval <=? time_delta now last) = due interval now last.
Proof.
  intros Hi Hn Hl. unfold time_delta, due, u32. set (e := (now - last) mod 2 ^ 32).
  assert (E : (now - last + 0xFFFFFFFF) mod 2 ^ 32 = (e - 1) mod 2 ^ 32).
  { unfold e. rewrite Zminus_mod_idemp_l. replace (now - last + 0xFFFFFFFF)
      with (now - last - 1 + 1 * 2 ^ 32) by lia. by apply Z.mod_add. }
  rewrite E. assert (He : 0 <= e < 2 ^ 32) by (apply Z.mod_pos_bound; lia).
  destruct (decide (e = 0)) as [->|Hne].
  - change ((0 - 1) mod 2 ^ 32 mod 0xFFFFFFFF) with 0. repeat ztest. done.
  - rewrite (Z.mod_small (e - 1)), (Z.mod_small (e - 1)) by lia.
    destruct (interval <=? e - 1) eqn:E1; zb; symmetry; [apply Z.ltb_lt|apply Z.ltb_ge]; lia.
Qed.

Section app.
Context `{LwipApi}.

(** What one call of the DHCP state machine does: the new object and the calls
    it makes. *)
Definition dhcp_next (log : list lwip_op) (o : LwipObjectTypeDef) : LwipObjectTypeDef * list lwip_op :=
  if dhcpstatus o =? 0 then (o <| dhcpstatus := 1 |>, [Dhcp_start])
  else if negb (dhcpstatus o =? 1) then (o, [])
  else if negb (netif_ip log =? 0) then
    (o <| dhcpstatus := 2 |> <| ip := ip4_bytes (netif_ip log) |>
       <| netmask := ip4_bytes (netif_mask log) |> <| gateway := ip4_bytes (netif_gw log) |>, [])
  else if LWIP_MAX_DHCP_TRIES <? dhcp_tries log then
    (o <| dhcpstatus := 0xFF |>,
     [Netif_static (ip4_of (ip o)) (ip4_of (netmask o)) (ip4_of (gateway o))])
  else (o, []).

Lemma lwip_dhcp_process_handle_eq s :
  lwip_dhcp_process_handle s =
    Some (tt, s <| stcLwipObject := fst (dhcp_next (calls s) (stcLwipObject s)) |>
                <| calls ::= (fun l => l ++ snd (dhcp_next (calls s) (stcLwipObject s))) |>).
Proof.
  unfold lwip_dhcp_process_handle, dhcp_next, lw_call, lw_obj, st_mod, st_get, st_skip, mbind, ST_bind.
  destruct s as [o ? ? ? ? ? ? ? ? ? l]. cbn.
  destruct (dhcpstatus o =? 0); [done|]. destruct (dhcpstatus o =? 1); cbn; [|by unfold set; cbn; rewrite app_nil_r].
  destruct (netif_ip l =? 0); cbn; [|by unfold set; cbn; rewrite app_nil_r].
  destruct (_ <? _); cbn; [done|by unfold set; cbn; rewrite app_nil_r].
Qed.

(** The calls of one turn. *)
Definition periodic_calls (s : lwip_app) : list lwip_op :=
  let now := lwip_sys_timer s in
  let l := (if due TCP_TMR_INTERVAL now (TCPTimer s) then [Tcp_tmr] else []) ++
           (if due ARP_TMR_INTERVAL now (ARPTimer s) then [Etharp_tmr] else []) in
  let l := if due DHCP_FINE_TIMER_MSECS now (DHCPfineTimer s)
           then l ++ [Dhcp_fine_tmr] ++
                snd (dhcp_next (calls s ++ l ++ [Dhcp_fine_tmr]) (stcLwipObject s))
           else l in
  l ++ (if due DHCP_COARSE_TIMER_MSECS now (DHCPCoarseTimer s) then [Dhcp_coarse_tmr] else []).

(** The log the DHCP state machine sees in that turn. *)
Definition dhcp_log (s : lwip_app) : list lwip_op :=
  calls s ++ (if due TCP_TMR_INTERVAL (lwip_sys_timer s) (TCPTimer s) then [Tcp_tmr] else []) ++
    (if due ARP_TMR_INTERVAL (lwip_sys_timer s) (ARPTimer s) then [Etharp_tmr] else []) ++
    [Dhcp_fine_tmr].

Definition clocks_ok (s : lwip_app) : Prop :=
  0 <= lwip_sys_timer s < 2 ^ 32 /\ 0 <= TCPTimer s < 2 ^ 32 /\ 0 <= ARPTimer s < 2 ^ 32 /\
  0 <= DHCPfineTimer s < 2 ^ 32 /\ 0 <= DHCPCoarseTimer s < 2 ^ 32.

Lemma periodic_sim s : clocks_ok s ->
  exists s', lwip_periodic_handle s = Some (tt, s') /\ clocks_ok s' /\
    let now := lwip_sys_timer s in
    lwip_sys_timer s' = now /\
    TCPTimer s' = (if due TCP_TMR_INTERVAL now (TCPTimer s) then now else TCPTimer s) /\
    ARPTimer s' = (if due ARP_TMR_INTERVAL now (ARPTimer s) then now else ARPTimer s) /\
    DHCPfineTimer s' =
      (if due DHCP_FINE_TIMER_MSECS now (DHCPfineTimer s) then now else DHCPfineTimer s) /\
    DHCPCoarseTimer s' =
      (if due DHCP_COARSE_TIMER_MSECS now (DHCPCoarseTimer s) then now else DHCPCoarseTimer s) /\
    calls s' = calls s ++ periodic_calls s /\
    stcLwipObject s' =
      (if due DHCP_FINE_TIMER_MSECS now (DHCPfineTimer s)
       then fst (dhcp_next (dhcp_log s) (stcLwipObject s)) else stcLwipObject s).
Proof.
  intros (Hn & H1 & H2 & H3 & H4).
  unfold lwip_periodic_handle, periodic_calls, dhcp_log, when, lw_call, st_mod, st_skip, mbind, ST_bind.
  cbn -[lwip_dhcp_process_handle time_delta due].
  rewrite !time_delta_due by done.
  destruct (due TCP_TMR_INTERVAL _ _), (due ARP_TMR_INTERVAL _ _),
    (due DHCP_FINE_TIMER_MSECS _ _), (due DHCP_COARSE_TIMER_MSECS _ _);
    cbn -[lwip_dhcp_process_handle]; rewrite ?lwip_dhcp_process_handle_eq;
    (eexists; split; [reflexivity|]; split; [unfold clocks_ok; cbn; lia|]);
    cbn -[dhcp_next]; rewrite <- ?app_assoc; cbn [app]; rewrite ?app_nil_r; splits; done.
Qed.
(** ** The wait for an address *)

Definition fine_ticks (log : list lwip_op) : nat :=
  length (filter (fun o => match o with Dhcp_fine_tmr => true | _ => false end = true) log).

Lemma fine_ticks_app l l' : fine_ticks (l ++ l') = (fine_ticks l + fine_ticks l')%nat.
Proof. unfold fine_ticks. by rewrite filter_app, length_app. Qed.

Definition waiting (s : lwip_app) : bool :=
  negb (dhcpstatus (stcLwipObject s) =? 2) && negb (dhcpstatus (stcLwipObject s) =? 0xFF).

(** The outcome of the wait: an address from the server, or the default one
    set as static address. *)
Definition settled (o0 : LwipObjectTypeDef) (s : lwip_app) : Prop :=
  let o := stcLwipObject s in
  (dhcpstatus o = 2 /\ exists log, netif_ip log <> 0 /\ ip o = ip4_bytes (netif_ip log) /\
     netmask o = ip4_bytes (netif_mask log) /\ gateway o = ip4_bytes (netif_gw log)) \/
  (dhcpstatus o = 0xFF /\ ip o = ip o0 /\ netmask o = netmask o0 /\ gateway o = gateway o0 /\
     exists log log', calls s = log ++
       Netif_static (ip4_of (ip o0)) (ip4_of (netmask o0)) (ip4_of (gateway o0)) :: log').

(** Real time in turn [k]; the clock shows it modulo 2^32.  Turns are at most a
    second apart, and time does not stop. *)
Section wait.
Context (T : nat -> Z).
Hypothesis T_step : forall k, T k <= T (S k) <= T k + 1000.
Hypothesis T_goes_on : forall x, exists k, x < T k.

Definition clock_of (k : nat) : Z := u32 (T k).

(** Before turn [k]: the last firing of the fine timer was at [L]. *)
Record wait_inv (o0 : LwipObjectTypeDef) (k : nat) (L : Z) (s : lwip_app) : Prop := WaitInv {
  wi_clocks : clocks_ok s;
  wi_last : DHCPfineTimer s = u32 L;
  wi_time : 0 <= T k - L < 2 ^ 32;
  wi_status : dhcpstatus (stcLwipObject s) = 0 \/ dhcpstatus (stcLwipObject s) = 1;
  wi_object : ip (stcLwipObject s) = ip o0 /\ netmask (stcLwipObject s) = netmask o0 /\
    gateway (stcLwipObject s) = gateway o0
}.

Lemma wait_waiting o0 k L s : wait_inv o0 k L s -> waiting s = true.
Proof. intros [_ _ _ [E|E] _]; unfold waiting; by rewrite E. Qed.

Lemma dhcp_wait_step s fuel k : waiting s = true ->
  dhcp_wait clock_of (S fuel) k s =
    (_ ← lwip_periodic_handle; dhcp_wait clock_of fuel (S k)) (s <| lwip_sys_timer := clock_of k |>).
Proof. intros W. cbn [dhcp_wait]. unfold waiting in W. unfold mbind, ST_bind, st_get. by rewrite W. Qed.

Lemma due_since L k last : last = u32 L -> 0 <= T k - L < 2 ^ 32 ->
  due DHCP_FINE_TIMER_MSECS (clock_of k) last = (500 <? T k - L).
Proof.
  intros -> HL. unfold due, clock_of, u32. rewrite <- Zminus_mod, Z.mod_small by done. done.
Qed.
(** After [n0] fine ticks the server has answered or the client has given
    up. *)
Context (n0 : nat).
Hypothesis answered : forall log, (n0 <= fine_ticks log)%nat ->
  netif_ip log <> 0 \/ LWIP_MAX_DHCP_TRIES < dhcp_tries log.

(** A turn in which the fine timer fires: either the wait is over, or it goes
    on with a tick less to come. *)
Definition fired (o0 : LwipObjectTypeDef) (k : nat) (L : Z) (s s1 : lwip_app) : Prop :=
  fine_ticks (calls s1) = S (fine_ticks (calls s)) /\
  (settled o0 s1 /\ waiting s1 = false \/
   wait_inv o0 k L s1 /\ dhcpstatus (stcLwipObject s1) = 1 /\
     (dhcpstatus (stcLwipObject s) = 1 -> (fine_ticks (calls s) < n0)%nat)).

Lemma periodic_calls_ticks s :
  fine_ticks (periodic_calls s) =
    if due DHCP_FINE_TIMER_MSECS (lwip_sys_timer s) (DHCPfineTimer s) then 1%nat else 0%nat.
Proof.
  unfold periodic_calls, dhcp_next. rewrite !fine_ticks_app.
  destruct (due TCP_TMR_INTERVAL _ _), (due ARP_TMR_INTERVAL _ _),
    (due DHCP_FINE_TIMER_MSECS _ _), (due DHCP_COARSE_TIMER_MSECS _ _); cbn [app]; try done.
  all: rewrite ?fine_ticks_app; repeat case_match; done.
Qed.

Lemma dhcp_log_ticks s : fine_ticks (dhcp_log s) = S (fine_ticks (calls s)).
Proof.
  unfold dhcp_log. rewrite !fine_ticks_app.
  change (fine_ticks [Dhcp_fine_tmr]) with 1%nat.
  destruct (due TCP_TMR_INTERVAL _ _), (due ARP_TMR_INTERVAL _ _);
    change (fine_ticks [Tcp_tmr]) with 0%nat; change (fine_ticks [Etharp_tmr]) with 0%nat;
    change (fine_ticks []) with 0%nat; lia.
Qed.

(** The DHCP state machine when the timer fires. *)
Lemma dhcp_fires o0 s : dhcpstatus (stcLwipObject s) = 0 \/ dhcpstatus (stcLwipObject s) = 1 ->
  ip (stcLwipObject s) = ip o0 /\ netmask (stcLwipObject s) = netmask o0 /\
    gateway (stcLwipObject s) = gateway o0 ->
  let '(o, l) := dhcp_next (dhcp_log s) (stcLwipObject s) in
  (dhcpstatus o = 1 /\ ip o = ip o0 /\ netmask o = netmask o0 /\ gateway o = gateway o0 /\
     (dhcpstatus (stcLwipObject s) = 1 -> (fine_ticks (calls s) < n0)%nat)) \/
  (dhcpstatus o = 2 /\ netif_ip (dhcp_log s) <> 0 /\ ip o = ip4_bytes (netif_ip (dhcp_log s)) /\
     netmask o = ip4_bytes (netif_mask (dhcp_log s)) /\
     gateway o = ip4_bytes (netif_gw (dhcp_log s))) \/
  (dhcpstatus o = 0xFF /\ ip o = ip o0 /\ netmask o = netmask o0 /\ gateway o = gateway o0 /\
     l = [Netif_static (ip4_of (ip o0)) (ip4_of (netmask o0)) (ip4_of (gateway o0))]).
Proof.
  intros Hst (H1 & H2 & H3). pose proof (answered (dhcp_log s)) as Ha.
  rewrite dhcp_log_ticks in Ha. unfold dhcp_next.
  destruct Hst as [E|E]; rewrite E; cbn [Z.eqb negb].
  - left. cbn. splits; done.
  - destruct (netif_ip _ =? 0) eqn:Eip; cbn [negb]; zb; [|right; left; cbn; splits; done].
    destruct (LWIP_MAX_DHCP_TRIES <? _) eqn:Et; zb.
    + right. right. cbn. by rewrite H1, H2, H3.
    + left. splits; try done. intros _.
      destruct (decide (fine_ticks (calls s) < n0)%nat); [done|]. destruct Ha; lia.
Qed.

Lemma periodic_calls_fires s :
  due DHCP_FINE_TIMER_MSECS (lwip_sys_timer s) (DHCPfineTimer s) = true ->
  exists l l', periodic_calls s = l ++ snd (dhcp_next (dhcp_log s) (stcLwipObject s)) ++ l'.
Proof.
  intros E. unfold periodic_calls. rewrite E. unfold dhcp_log. set (l1 := if due TCP_TMR_INTERVAL _ _ then _ else _).
  set (l2 := if due ARP_TMR_INTERVAL _ _ then _ else _). rewrite <- (app_assoc l1 l2 [Dhcp_fine_tmr]).
  eexists ((l1 ++ l2) ++ [Dhcp_fine_tmr]), _. by rewrite <- !app_assoc.
Qed.

Lemma wait_fires o0 k s s1 :
  let s0 := s <| lwip_sys_timer := clock_of k |> in
  due DHCP_FINE_TIMER_MSECS (lwip_sys_timer s0) (DHCPfineTimer s0) = true ->
  clocks_ok s1 -> DHCPfineTimer s1 = clock_of k -> calls s1 = calls s0 ++ periodic_calls s0 ->
  stcLwipObject s1 = fst (dhcp_next (dhcp_log s0) (stcLwipObject s0)) ->
  dhcpstatus (stcLwipObject s) = 0 \/ dhcpstatus (stcLwipObject s) = 1 ->
  ip (stcLwipObject s) = ip o0 /\ netmask (stcLwipObject s) = netmask o0 /\
    gateway (stcLwipObject s) = gateway o0 ->
  fired o0 (S k) (T k) s s1.
Proof.
  intros s0 Hdue Hc Hf Hcalls Hobj Hst Ho. split.
  { by rewrite Hcalls, fine_ticks_app, periodic_calls_ticks, Hdue, Nat.add_1_r. }
  pose proof (dhcp_fires o0 s0 Hst Ho) as D. destruct (dhcp_next _ _) as [o l] eqn:En. cbn in Hobj.
  pose proof (T_step k). destruct D as [(D & Hi & Hm & Hg & Hn)|[(D & Hip & Hi & Hm & Hg)|(D & Hi & Hm & Hg & Hl)]].
  - right. splits; [|by rewrite Hobj|exact Hn].
    constructor; rewrite ?Hobj; [done|done|lia|by right|done].
  - left. split; [|by unfold waiting; rewrite Hobj, D]. left. rewrite Hobj.
    split; [done|]. by exists (dhcp_log s0).
  - left. split; [|by unfold waiting; rewrite Hobj, D]. right. rewrite Hobj. splits; [done..|].
    destruct (periodic_calls_fires s0 Hdue) as (l1 & l2 & E).
    rewrite En, Hl in E. cbn in E. exists (calls s0 ++ l1), l2. by rewrite Hcalls, E, app_assoc.
Qed.

Lemma wait_turn o0 k L s : wait_inv o0 k L s ->
  exists s1, lwip_periodic_handle (s <| lwip_sys_timer := clock_of k |>) = Some (tt, s1) /\
    (T k - L <= 500 /\ wait_inv o0 (S k) L s1 /\ calls s1 = calls s ++ periodic_calls (s <| lwip_sys_timer := clock_of k |>) /\
       fine_ticks (calls s1) = fine_ticks (calls s) /\
       dhcpstatus (stcLwipObject s1) = dhcpstatus (stcLwipObject s) \/
     500 < T k - L /\ fired o0 (S k) (T k) s s1).
Proof.
  intros [Hc Hl Ht Hst Ho]. set (s0 := s <| lwip_sys_timer := clock_of k |>).
  assert (Hc0 : clocks_ok s0).
  { destruct Hc as (_ & Hc). split; [apply u32_range|exact Hc]. }
  destruct (periodic_sim s0 Hc0) as (s1 & E & Hc1 & _ & _ & _ & Hf & _ & Hcalls & Hobj).
  assert (Hdue : due DHCP_FINE_TIMER_MSECS (lwip_sys_timer s0) (DHCPfineTimer s0) = (500 <? T k - L))
    by by apply due_since.
  pose proof (periodic_calls_ticks s0) as Hticks. rewrite Hdue in Hf, Hobj, Hticks.
  exists s1. split; [done|]. pose proof (T_step k). destruct (500 <? T k - L) eqn:Ed; zb.
  - right. split; [done|]. by apply wait_fires.
  - left. splits; try done; rewrite ?Hobj; try done.
    + constructor; rewrite ?Hobj, ?Hf; try done. lia.
    + by rewrite Hcalls, fine_ticks_app, Hticks, Nat.add_0_r.
Qed.

Lemma T_mono k j : (k <= j)%nat -> T k <= T j.
Proof. induction 1 as [|j _ IH]; [lia|]. pose proof (T_step j). lia. Qed.

(** The fine timer fires after some number of turns. *)
Lemma next_fire o0 k L s : wait_inv o0 k L s ->
  exists m s0 s1, (forall fuel, dhcp_wait clock_of (m + fuel) k s = dhcp_wait clock_of fuel (m + k) s1) /\
    fine_ticks (calls s0) = fine_ticks (calls s) /\
    dhcpstatus (stcLwipObject s0) = dhcpstatus (stcLwipObject s) /\
    exists L', fired o0 (m + k) L' s0 s1.
Proof.
  destruct (T_goes_on (L + 500)) as [j Hj]. remember (j - k)%nat as n eqn:En. revert k s En.
  induction n as [|n IH]; intros k s En W; destruct (wait_turn _ _ _ _ W) as (s1 & E & H');
    pose proof (dhcp_wait_step s) as St; destruct H' as [(Hle & W1 & _ & Ht & Hs)|(Hgt & F)].
  - pose proof (T_mono j k ltac:(lia)). lia.
  - exists 1%nat, s, s1. splits; [|done|done|by exists (T k)].
    intros fuel. cbn [Nat.add]. rewrite St by (by eapply wait_waiting).
    by rewrite (st_bind_eq _ _ _ _ _ E).
  - destruct (IH (S k) s1 ltac:(lia) W1) as (m & s2 & s3 & Hr & Ht2 & Hs2 & L' & F).
    exists (S m), s2, s3. rewrite Ht2, Hs2, Ht, Hs. splits; [|done|done|exists L'; by rewrite Nat.add_succ_r in F].
    intros fuel. cbn [Nat.add]. rewrite St by (by eapply wait_waiting).
    by rewrite (st_bind_eq _ _ _ _ _ E), Hr, Nat.add_succ_r.
  - exists 1%nat, s, s1. splits; [|done|done|by exists (T k)].
    intros fuel. cbn [Nat.add]. rewrite St by (by eapply wait_waiting).
    by rewrite (st_bind_eq _ _ _ _ _ E).
Qed.

(** In the waiting state the server is given [n0] ticks at most. *)
Lemma wait_bound o0 d k L s : wait_inv o0 k L s -> dhcpstatus (stcLwipObject s) = 1 ->
  (n0 <= fine_ticks (calls s) + d)%nat ->
  exists fuel s', dhcp_wait clock_of fuel k s = Some (tt, s') /\ settled o0 s'.
Proof.
  revert k L s. induction d as [|d IH]; intros k L s W Hst Hd;
    destruct (next_fire _ _ _ _ W) as (m & s0 & s1 & Hr & Ht & Hs & L' & F & [(S1 & W1)|(W1 & Hst1 & Hlt)]).
  1, 3: exists (m + 1)%nat, s1; rewrite Hr; cbn [dhcp_wait]; unfold waiting in W1;
    unfold mbind, ST_bind, st_get; by rewrite W1.
  - specialize (Hlt ltac:(congruence)). lia.
  - destruct (IH _ _ _ W1 Hst1) as (fuel & s' & E & S'); [lia|].
    exists (m + fuel)%nat, s'. by rewrite Hr.
Qed.

Lemma wait_ends o0 k L s : wait_inv o0 k L s ->
  exists fuel s', dhcp_wait clock_of fuel k s = Some (tt, s') /\ settled o0 s'.
Proof.
  intros W. destruct (wi_status _ _ _ _ W) as [Hst|Hst].
  - destruct (next_fire _ _ _ _ W) as (m & s0 & s1 & Hr & _ & _ & L' & _ & [(S1 & W1)|(W1 & Hst1 & _)]).
    + exists (m + 1)%nat, s1. rewrite Hr. cbn [dhcp_wait]. unfold waiting in W1.
      unfold mbind, ST_bind, st_get. by rewrite W1.
    + destruct (wait_bound o0 n0 _ _ _ W1 Hst1) as (fuel & s' & E & S'); [lia|].
      exists (m + fuel)%nat, s'. by rewrite Hr.
  - apply (wait_bound o0 n0 _ _ _ W Hst). lia.
Qed.
(** The addresses the board starts with. *)
Definition default_object : LwipObjectTypeDef :=
  LwipObject [] [] [192; 168; 0; 122] [255; 255; 255; 0] [192; 168; 0; 1] 0 0.

(** C28: start-up does not hang.  Whenever the clock is read during the wait (at
    turns a second apart at most, its 32 bits wrapping around or not), if the
    server answers or the client gives up after some number of fine ticks, the
    initialisation of the network ends: with the address, mask and gateway the
    server gave, or with the default ones set as static. *)
Theorem lwip_app_init_ends sn0 s L :
  clocks_ok s -> DHCPfineTimer s = u32 L -> 0 <= T 0%nat - L < 2 ^ 32 ->
  exists fuel s', lwip_app_init sn0 clock_of fuel s = Some (tt, s') /\ settled default_object s'.
Proof.
  intros Hc Hl Ht.
  assert (exists s1, wait_inv default_object 0 L s1 /\
    forall fuel, lwip_app_init sn0 clock_of fuel s = dhcp_wait clock_of fuel 0 s1) as (s1 & W & E).
  { eexists. split; [|intros fuel; unfold lwip_app_init, mbind, ST_bind; reflexivity].
    constructor; [exact Hc|exact Hl|exact Ht|by left|done]. }
  destruct (wait_ends _ _ _ _ W) as (fuel & s' & Ew & S'). exists fuel, s'. by rewrite E.
Qed.
End wait.
(** one turn of the periodic timers, on every branch: each of the four
    services is called exactly when more than its interval has passed on the
    32-bit clock since its last call (wrap-around included), its timer is then
    set to the present and otherwise kept, the calls are made in this order,
    and the DHCP state machine runs with the fine timer and only then. *)
Theorem lwip_periodic_handle_spec s : clocks_ok s ->
  exists s', lwip_periodic_handle s = Some (tt, s') /\ clocks_ok s' /\
    let now := lwip_sys_timer s in
    lwip_sys_timer s' = now /\
    TCPTimer s' = (if due TCP_TMR_INTERVAL now (TCPTimer s) then now else TCPTimer s) /\
    ARPTimer s' = (if due ARP_TMR_INTERVAL now (ARPTimer s) then now else ARPTimer s) /\
    DHCPfineTimer s' =
      (if due DHCP_FINE_TIMER_MSECS now (DHCPfineTimer s) then now else DHCPfineTimer s) /\
    DHCPCoarseTimer s' =
      (if due DHCP_COARSE_TIMER_MSECS now (DHCPCoarseTimer s) then now else DHCPCoarseTimer s) /\
    calls s' = calls s ++ periodic_calls s /\
    stcLwipObject s' =
      (if due DHCP_FINE_TIMER_MSECS now (DHCPfineTimer s)
       then fst (dhcp_next (dhcp_log s) (stcLwipObject s)) else stcLwipObject s).
Proof. apply periodic_sim. Qed.

(** ** The TCP client *)

Inductive tcp_event := Tcp_poll | Tcp_sent.

Definition tcp_step (e : tcp_event) : LW Z :=
  match e with Tcp_poll => lwip_app_tcp_client_poll | Tcp_sent => lwip_app_tcp_client_sent end.

Fixpoint tcp_run (es : list tcp_event) : LW unit :=
  match es with [] => st_skip | e :: es => _ ← tcp_step e; tcp_run es end.

(** The replies begun: each starts with an allocation. *)
Definition replies (log : list lwip_op) : nat :=
  length (filter (fun o => match o with Pbuf_alloc _ => true | _ => false end = true) log).

Lemma replies_app l l' : replies (l ++ l') = (replies l + replies l')%nat.
Proof. unfold replies. by rewrite filter_app, length_app. Qed.

Lemma replies_one o : replies [o] = match o with Pbuf_alloc _ => 1%nat | _ => 0%nat end.
Proof. by destruct o. Qed.

#[local] Arguments replies : simpl never.

(** The bytes that were given to TCP to send, in order: those of the calls of
    [tcp_write] that were answered without error. *)
Fixpoint accepted_from (before log : list lwip_op) : list Z :=
  match log with
  | [] => []
  | o :: log =>
      (match o with Tcp_write d => if tcp_write before =? ERR_OK then d else [] | _ => [] end) ++
      accepted_from (before ++ [o]) log
  end.

Definition accepted (log : list lwip_op) : list Z := accepted_from [] log.

Lemma accepted_from_app before l l' :
  accepted_from before (l ++ l') = accepted_from before l ++ accepted_from (before ++ l) l'.
Proof.
  revert before. induction l as [|o l IH]; intros before; cbn [accepted_from app]; [by rewrite app_nil_r|].
  by rewrite IH, <- !app_assoc.
Qed.

Lemma accepted_snoc l o : accepted (l ++ [o]) = accepted l ++
  match o with Tcp_write d => if tcp_write l =? ERR_OK then d else [] | _ => [] end.
Proof. unfold accepted. rewrite accepted_from_app. cbn. by rewrite app_nil_r. Qed.

(** The stack has no memory for a reply, no room for it, or an error. *)
Definition refuses (log : list lwip_op) : Prop :=
  pbuf_new log (Z.of_nat (length app_send_buff)) = [] \/
  tcp_sndbuf log < Z.of_nat (length app_send_buff) \/ tcp_write log <> ERR_OK.

(** Code that starts no reply, sends nothing and keeps the status. *)
Definition frame (m : LW unit) : Prop := forall s, exists s', m s = Some (tt, s') /\
  tcpStatus s' = tcpStatus s /\ replies (calls s') = replies (calls s) /\
  accepted (calls s') = accepted (calls s) /\ calls s `prefix_of` calls s'.

Lemma frame_skip : frame st_skip.
Proof. intros s. by exists s. Qed.

Lemma frame_bind m k : frame m -> frame k -> frame (_ ← m; k).
Proof.
  intros Hm Hk s. destruct (Hm s) as (s1 & E1 & H1 & R1 & A1 & P1), (Hk s1) as (s2 & E2 & H2 & R2 & A2 & P2).
  exists s2. rewrite (st_bind_eq _ _ _ _ _ E1). splits; [done|congruence..|by transitivity (calls s1)].
Qed.

Lemma frame_call o : (match o with Pbuf_alloc _ | Tcp_write _ => False | _ => True end) -> frame (lw_call o).
Proof.
  intros Ho s. eexists. split; [done|]. split; [done|]. cbn. rewrite replies_app, replies_one, accepted_snoc.
  splits; [destruct o; try done; apply Nat.add_0_r|by destruct o; rewrite ?app_nil_r|by exists [o]].
Qed.

(** The bytes of a chain go to TCP in order, up to the first refusal. *)
Lemma send_data_sends p s : Forall (fun q => length (snd q) <= length app_send_buff)%nat p ->
  exists s' reply, lwip_app_tcp_client_send_data p s = Some (tt, s') /\ tcpStatus s' = tcpStatus s /\
    replies (calls s') = replies (calls s) /\ accepted (calls s') = accepted (calls s) ++ reply /\
    reply `prefix_of` concat (snd <$> p) /\ calls s `prefix_of` calls s' /\
    (reply = concat (snd <$> p) \/
     exists l, calls s `prefix_of` l /\ l `prefix_of` calls s' /\ refuses l).
Proof.
  revert s. induction p as [|[name x] p IH]; intros s Hp; cbn [lwip_app_tcp_client_send_data].
  { exists s, []. rewrite app_nil_r. splits; [done..|by left]. }
  apply Forall_cons in Hp as [Hx Hp]. cbn [snd] in Hx.
  rewrite (st_bind_eq (st_get calls) _ s _ s eq_refl).
  destruct (Z.of_nat (length x) <=? tcp_sndbuf (calls s)) eqn:Er; zb.
  2: { exists s, []. rewrite app_nil_r. splits; [done..|apply prefix_nil|done|]. right. exists (calls s).
       splits; [done|done|]. right; left. lia. }
  set (s1 := s <| calls ::= (fun l => l ++ [Tcp_write x]) |>). rewrite (st_bind_eq (lw_call (Tcp_write x)) _ s tt s1 eq_refl).
  assert (A1 : accepted (calls s1) = accepted (calls s) ++ if tcp_write (calls s) =? ERR_OK then x else [])
    by apply accepted_snoc.
  assert (R1 : replies (calls s1) = replies (calls s)) by (cbn; rewrite replies_app, replies_one; lia).
  assert (P1 : calls s `prefix_of` calls s1) by (by eexists).
  destruct (tcp_write (calls s) =? ERR_OK) eqn:Ew; zb.
  2: { exists s1, []. splits; [done|done|done|done|apply prefix_nil|done|]. right. exists (calls s).
       splits; [done|done|]. by right; right. }
  destruct (frame_bind (match p with [] => st_skip | (next, _) :: _ => lw_call (Pbuf_ref next) end)
    (lw_call (Pbuf_free (Some name)))) with (s := s1) as (s2 & E2 & H2 & R2 & A2 & P2);
    [destruct p as [|[next y] p]; [apply frame_skip|by apply frame_call]|by apply frame_call|].
  destruct (IH s2 Hp) as (s3 & reply & E3 & H3 & R3 & A3 & Hpre & P3 & Hall).
  exists s3, (x ++ reply). apply st_bind_Some in E2 as (u & s' & E' & E2).
  rewrite (st_bind_eq _ _ _ _ _ E'), (st_bind_eq _ _ _ _ _ E2), E3, A3, A2, A1, app_assoc.
  splits; [done|by rewrite H3, H2|congruence|done|by apply prefix_app| |].
  - etransitivity; [exact P1|]. etransitivity; [exact P2|exact P3].
  - cbn [fmap list_fmap concat snd]. destruct Hall as [->|(l & L1 & L2 & L3)]; [by left|right].
    exists l. splits; [|done|done]. etransitivity; [exact P1|]. by transitivity (calls s2).
Qed.

(** What [pbuf_alloc] documents: no chain, or one of the length asked for. *)
Definition whole_chains : Prop := forall log n, 0 <= n -> pbuf_new log n = [] \/ tot_len (pbuf_new log n) = n.

Lemma filled_with_data p data : length (concat (snd <$> p)) = length data ->
  concat (snd <$> filled_with p data) = data /\
  Forall (fun q => length (snd q) <= length data)%nat (filled_with p data).
Proof.
  revert data. induction p as [|[name old] p IH]; intros data Hl; cbn in *; [by destruct data|].
  rewrite length_app in Hl. destruct (IH (drop (length old) data)) as [E HF]; [rewrite length_drop; lia|].
  rewrite E, drop_ge, app_nil_r by lia. split; [apply take_drop|]. constructor; [cbn; rewrite length_take; lia|].
  eapply Forall_impl; [exact HF|]. intros q. cbn beta. rewrite length_drop. lia.
Qed.

(** A poll replies exactly when data has been received. *)
Lemma poll_reply s : whole_chains -> exists v s' reply, lwip_app_tcp_client_poll s = Some (v, s') /\
  accepted (calls s') = accepted (calls s) ++ reply /\ calls s `prefix_of` calls s' /\
  if tcpStatus s =? enTcpClientRecvOK
  then tcpStatus s' = enTcpClientAckWait /\ replies (calls s') = S (replies (calls s)) /\
    reply `prefix_of` app_send_buff /\
    (reply = app_send_buff \/ exists l, calls s `prefix_of` l /\ l `prefix_of` calls s' /\ refuses l)
  else tcpStatus s' = tcpStatus s /\ replies (calls s') = replies (calls s) /\ reply = [].
Proof.
  intros Hlaw. unfold lwip_app_tcp_client_poll. rewrite (st_bind_eq (st_get tcpStatus) _ s _ s eq_refl).
  destruct (tcpStatus s =? enTcpClientRecvOK).
  - rewrite (st_bind_eq (st_get calls) _ s _ s eq_refl). set (n := Z.of_nat _).
    set (p := pbuf_new (calls s) n).
    assert (Hp : Forall (fun q => length (snd q) <= length app_send_buff)%nat (filled_with p app_send_buff) /\
      (concat (snd <$> filled_with p app_send_buff) = app_send_buff \/
       concat (snd <$> filled_with p app_send_buff) = [] /\ refuses (calls s))).
    { destruct (Hlaw (calls s) n) as [E|E]; [lia| |]; fold p in E.
      - rewrite E. split; [constructor|right]. split; [done|by left].
      - destruct (filled_with_data p app_send_buff) as [E2 HF]; [unfold tot_len, n in E; lia|]. auto. }
    destruct Hp as [HF Hcat].
    set (s1 := s <| calls ::= (fun l => (l ++ [Pbuf_alloc n]) ++ [Pbuf_take p app_send_buff]) |>).
    destruct (send_data_sends (filled_with p app_send_buff) s1 HF) as (s2 & reply & E & _ & R & A & Hpre & P & Hall).
    assert (P1 : calls s `prefix_of` calls s1) by (cbn; rewrite <- app_assoc; by eexists).
    exists ERR_OK, (s2 <| tcpStatus := enTcpClientAckWait |>
      <| calls ::= (fun l => l ++ [Pbuf_free (chain_name p)]) |>), reply. split.
    + rewrite (st_bind_eq _ _ s tt (s <| calls ::= (fun l => l ++ [Pbuf_alloc n]) |>)) by done.
      rewrite (st_bind_eq _ _ _ tt s1) by done. by rewrite (st_bind_eq _ _ _ _ _ E).
    + cbn. rewrite accepted_snoc, app_nil_r, A, replies_app, R. unfold s1. cbn.
      rewrite !accepted_snoc, !app_nil_r, !replies_app, !replies_one. cbn.
      assert (P2 : calls s2 `prefix_of` calls s2 ++ [Pbuf_free (chain_name p)]) by (by eexists).
      splits; [done|etransitivity; [exact P1|]; by etransitivity; [exact P|]|done|lia| |].
      * destruct Hcat as [Hcat|[Hcat _]]; rewrite Hcat in Hpre; [done|]. etransitivity; [exact Hpre|apply prefix_nil].
      * destruct Hcat as [Hcat|[Hcat Href]].
        -- rewrite Hcat in Hall. destruct Hall as [->|(l & L1 & L2 & L3)]; [by left|right]. exists l.
           splits; [by transitivity (calls s1)|by transitivity (calls s2)|done].
        -- right. exists (calls s). splits; [done|etransitivity; [exact P1|]; by etransitivity; [exact P|]|done].
  - destruct (tcpStatus s =? enTcpClientClose); [|by exists ERR_OK, s, []; rewrite app_nil_r].
    destruct (frame_bind _ _ (frame_call Tcp_abort I) (frame_call Tcp_clear_callbacks I) s)
      as (s' & E & H1 & H2 & H3 & H4).
    exists ERR_ABRT, s', []. rewrite app_nil_r. by rewrite (st_bind_eq _ _ _ _ _ E).
Qed.

(** Once nothing is pending no reply is made. *)
Lemma tcp_run_quiet es s : whole_chains -> tcpStatus s <> enTcpClientRecvOK ->
  exists s', tcp_run es s = Some (tt, s') /\ replies (calls s') = replies (calls s) /\
    accepted (calls s') = accepted (calls s) /\ calls s `prefix_of` calls s'.
Proof.
  intros Hlaw. revert s. induction es as [|[|] es IH]; intros s Hs; cbn [tcp_run tcp_step]; [by exists s| |].
  - destruct (poll_reply s Hlaw) as (v & s1 & reply & E & A & P & H'). apply Z.eqb_neq in Hs as Hb. rewrite Hb in H'.
    destruct H' as (H1 & R1 & ->). rewrite app_nil_r in A. rewrite (st_bind_eq _ _ _ _ _ E), <- R1, <- A.
    destruct (IH s1) as (s2 & E2 & R2 & A2 & P2); [congruence|]. exists s2.
    splits; [done..|]. by transitivity (calls s1).
  - rewrite (st_bind_eq _ _ s ERR_OK (s <| tcpStatus := enTcpClientSendOK |>)) by done.
    set (s1 := s <| tcpStatus := _ |>). change (calls s) with (calls s1). by apply IH.
Qed.

(** C29: data received on an open connection is answered once, if the chains that
    [pbuf_alloc] answers have the length asked for ([whole_chains]).  The first poll
    after it begins one reply: what TCP accepts of it to send is a prefix of the
    program's text, and all of it unless the stack refuses memory, room or the write
    itself at some moment in between.  No further poll or acknowledgement begins
    another or sends a byte; but if an acknowledgement of earlier data comes before
    that poll, nothing is ever sent. *)
Theorem tcp_one_reply garbage p s es :
  whole_chains -> enTcpClientClose < tcpStatus s ->
  exists s1 s2 s3 reply, lwip_app_tcp_client_recv garbage (Some p) ERR_OK s = Some (ERR_OK, s1) /\
    tcp_app_client_recv_buff s1 = take 200 (concat (snd <$> p) ++ replicate 200 0) /\
    replies (calls s1) = replies (calls s) /\ accepted (calls s1) = accepted (calls s) /\
    tcp_run (Tcp_poll :: es) s1 = Some (tt, s2) /\ replies (calls s2) = S (replies (calls s)) /\
    accepted (calls s2) = accepted (calls s) ++ reply /\ reply `prefix_of` app_send_buff /\
    (reply = app_send_buff \/ exists l, calls s1 `prefix_of` l /\ l `prefix_of` calls s2 /\ refuses l) /\
    tcp_run (Tcp_sent :: es) s1 = Some (tt, s3) /\ replies (calls s3) = replies (calls s) /\
    accepted (calls s3) = accepted (calls s).
Proof.
  intros Hlaw Hst. set (b := take 200 (concat (snd <$> p) ++ replicate 200 0)).
  set (s1 := s <| tcp_app_client_recv_buff := b |> <| tcpStatus := enTcpClientRecvOK |>
    <| calls ::= (fun l => (l ++ [Tcp_recved (tot_len p)]) ++ [Pbuf_free (chain_name p)]) |>).
  assert (R1 : replies (calls s1) = replies (calls s)) by (cbn; rewrite !replies_app, !replies_one; lia).
  assert (A1 : accepted (calls s1) = accepted (calls s)) by (cbn; by rewrite !accepted_snoc, !app_nil_r).
  destruct (poll_reply s1 Hlaw) as (v & s2 & reply & E2 & A2 & P2 & H2). cbn [Z.eqb] in H2.
  destruct H2 as (H2 & R2 & Hpre & Hall).
  destruct (tcp_run_quiet es s2 Hlaw) as (s3 & E3 & R3 & A3 & P3); [by rewrite H2|].
  destruct (tcp_run_quiet es (s1 <| tcpStatus := enTcpClientSendOK |>) Hlaw) as (s4 & E4 & R4 & A4 & _); [done|].
  exists s1, s3, s4, reply. splits; [|done|done|done| |congruence|by rewrite A3, A2, A1|done| |exact E4|by rewrite R4|by rewrite A4].
  - apply Z.ltb_lt in Hst. unfold lwip_app_tcp_client_recv, st_get, st_opt, mbind, ST_bind.
    cbn -[recv_buffer]. by rewrite Hst, recv_buffer_eq.
  - cbn [tcp_run tcp_step]. by rewrite (st_bind_eq _ _ _ _ _ E2).
  - destruct Hall as [|(l & L1 & L2 & L3)]; [by left|right]. exists l. splits; [done|by transitivity (calls s2)|done].
Qed.

(** A reply that is sent is released twice: by the sender and by the poll. *)
Lemma poll_frees_twice b s :
  tcpStatus s = enTcpClientRecvOK -> pbuf_new (calls s) 14 = [(b, replicate 14 0)] ->
  (forall log, 14 <= tcp_sndbuf log /\ tcp_write log = ERR_OK) ->
  exists s', lwip_app_tcp_client_poll s = Some (ERR_OK, s') /\
    calls s' = calls s ++ [Pbuf_alloc 14; Pbuf_take [(b, replicate 14 0)] app_send_buff;
      Tcp_write app_send_buff; Pbuf_free (Some b); Pbuf_free (Some b)].
Proof.
  intros Hs Hp Hw. unfold lwip_app_tcp_client_poll, st_get, lw_call, st_mod, mbind, ST_bind.
  rewrite Hs. cbn -[app_send_buff]. change (Z.of_nat (length app_send_buff)) with 14. rewrite Hp.
  cbn -[Z.leb]. unfold st_get, mbind, ST_bind. cbn -[Z.leb].
  match goal with |- context [tcp_sndbuf ?l] => destruct (Hw l) as [Hb _] end.
  change (Z.of_nat 14) with 14. apply Z.leb_le in Hb. rewrite Hb. cbn.
  match goal with |- context [tcp_write ?l] => destruct (Hw l) as [_ ->] end. cbn.
  eexists. split; [done|]. cbn. by rewrite <- !app_assoc.
Qed.

(** ** The UDP client *)

(** After an error the connection is closed at every call, not once: the
    control block is used and released again. *)
Lemma udp_client_closes_again s : enUdpRecvOK < udpstatus (stcLwipObject s) ->
  exists s', (_ ← lwip_app_udp_client; lwip_app_udp_client) s = Some (tt, s') /\
    calls s' = calls s ++ [Udp_disconnect; Udp_remove; Udp_disconnect; Udp_remove].
Proof.
  intros Hs. assert (Hne : (udpstatus (stcLwipObject s) =? enUdpRecvOK) = false) by (apply Z.eqb_neq; lia).
  apply Z.ltb_lt in Hs.
  assert (E : forall s', udpstatus (stcLwipObject s') = udpstatus (stcLwipObject s) ->
    lwip_app_udp_client s' = lwip_app_udp_conn_close s').
  { intros s' E. unfold lwip_app_udp_client, st_get, mbind at 1, ST_bind. by rewrite E, Hne, Hs. }
  set (s1 := s <| calls ::= (fun l => (l ++ [Udp_disconnect]) ++ [Udp_remove]) |>).
  rewrite (st_bind_eq _ _ s tt s1), E by by rewrite ?E.
  eexists. split; [done|]. cbn. by rewrite <- !app_assoc.
Qed.
End app.

(** ** Concrete inputs *)

(** A stack whose DHCP server answers at the second tick. *)
#[local] Instance sample_api : LwipApi := {|
  link_up := fun _ => true;
  netif_ip := fun log => if (2 <=? fine_ticks log)%nat then IP4_ADDR 192 168 1 7 else 0;
  netif_mask := fun _ => IP4_ADDR 255 255 255 0;
  netif_gw := fun _ => IP4_ADDR 192 168 1 1;
  dhcp_tries := fun _ => 0;
  udp_new := fun _ => true; udp_bind := fun _ => 0; udp_connect := fun _ => 0; udp_send := fun _ => 0;
  pbuf_new := fun _ n => [(1, replicate (Z.to_nat n) 0)]; pbuf_take := fun _ => 0;
  tcp_new := fun _ => true; tcp_connect := fun _ => 0; tcp_write := fun _ => 0;
  tcp_sndbuf := fun _ => 1000
|}.

Definition sample_app : lwip_app :=
  App default_object 0 0 0 0 0 0 (replicate 200 0) (replicate 200 0) enTcpClientConn [].

Lemma sample_clocks : clocks_ok sample_app.
Proof. by repeat split. Qed.

Example lwip_periodic_handle_spec_witness :
  exists s', lwip_periodic_handle (sample_app <| lwip_sys_timer := 510 |>) = Some (tt, s') /\
    calls s' = [Tcp_tmr; Dhcp_fine_tmr; Dhcp_start].
Proof.
  destruct (lwip_periodic_handle_spec (sample_app <| lwip_sys_timer := 510 |>))
    as (s' & E & _ & _ & _ & _ & _ & _ & Hc & _); [by repeat split|].
  exists s'. split; [exact E|]. rewrite Hc. vm_compute. reflexivity.
Defined.

Example lwip_app_init_ends_witness :
  exists fuel s', lwip_app_init 0x123456 (clock_of (fun k => 300 * Z.of_nat k)) fuel sample_app =
    Some (tt, s') /\ settled default_object s'.
Proof.
  apply (lwip_app_init_ends (fun k => 300 * Z.of_nat k)) with (n0 := 2%nat) (L := 0).
  - intros k. lia.
  - intros x. exists (Z.to_nat x + 1)%nat. lia.
  - intros log Hlog. left. cbn [netif_ip sample_api]. apply Nat.leb_le in Hlog. rewrite Hlog. by vm_compute.
  - apply sample_clocks.
  - reflexivity.
  - cbn. lia.
Defined.

Example tcp_one_reply_witness :
  exists s1 s2, lwip_app_tcp_client_recv 0 (Some [(7, [1; 2; 3])]) ERR_OK sample_app = Some (ERR_OK, s1) /\
    tcp_run [Tcp_poll; Tcp_poll] s1 = Some (tt, s2) /\ replies (calls s2) = 1%nat /\
    accepted (calls s2) = app_send_buff.
Proof.
  destruct (tcp_one_reply 0 [(7, [1; 2; 3])] sample_app [Tcp_poll])
    as (s1 & s2 & _ & reply & E1 & _ & _ & _ & E2 & R & A & _ & [Hr|(l & _ & _ & Hl)] & _).
  - intros log n Hn. right. change (tot_len [(1, replicate (Z.to_nat n) 0)] = n). unfold tot_len. cbn [fmap list_fmap concat snd]. rewrite app_nil_r, length_replicate. lia.
  - by vm_compute.
  - exists s1, s2. split; [exact E1|]. split; [exact E2|]. split; [exact R|]. rewrite A, Hr. reflexivity.
  - exfalso. destruct Hl as [Hl|[Hl|Hl]]; [discriminate Hl|vm_compute in Hl; discriminate Hl|by apply Hl].
Defined.
