(* ===== verification/Timeouts.v ===== *)
(** * Timeouts: the timers of the network stack (LwIP/core/timeouts.c)

    The main program's loop is [sys_check_timeouts].  The pending timers are a
    linked list in the memory of their pool (LwIP/core/memp.c), where the links
    of the free elements overlay those of the timers: [next] is the first field
    of both structures.  The stack's services are an interface ([Stack]): what
    they take of time and do to TCP connections may depend on all that happened
    before, which is recorded in order. *)

From S2P Require Import Prelude.

(** ** Data *)

(** The periodic services of the stack. *)
Inductive lwip_tmr :=
  | tcp_tmr
  | ip_reass_tmr
  | etharp_tmr
  | dhcp_coarse_tmr
  | dhcp_fine_tmr
  | autoip_tmr.
#[export] Instance lwip_tmr_eq_dec : EqDecision lwip_tmr.
Proof. solve_decision. Defined.

(** The callbacks registered with [sys_timeout]. *)
Inductive sys_timeout_handler := tcpip_tcp_timer_h | lwip_cyclic_timer_h.
#[export] Instance handler_eq_dec : EqDecision sys_timeout_handler.
Proof. solve_decision. Defined.

(** An element of the pool; [arg] is the index of a row of
    [lwip_cyclic_timers], [None] is NULL. *)
Record sys_timeo := Timeo {
  next : option Z;
  time : Z;
  h : option sys_timeout_handler;
  arg : option Z
}.
#[export] Instance timeo_settable : Settable sys_timeo :=
  fun r => Timeo (next r) (time r) (h r) (arg r).

(** What happens, in order: a reading of the clock, a call of a service. *)
Inductive event := Now (t : Z) | Call (f : lwip_tmr).
#[export] Instance event_eq_dec : EqDecision event.
Proof. solve_decision. Defined.

Record timeouts := Timeouts {
  memp : list sys_timeo;
  memp_tab : option Z;
  used : Z;
  max_used : Z;
  err : Z;
  next_timeout : option Z;
  current_timeout_due_time : Z;
  tcpip_tcp_timer_active : Z;
  lwip_sys_timer : Z;
  trace : list event
}.
#[export] Instance timeouts_settable : Settable timeouts :=
  fun r => Timeouts (memp r) (memp_tab r) (used r) (max_used r) (err r) (next_timeout r)
    (current_timeout_due_time r) (tcpip_tcp_timer_active r) (lwip_sys_timer r) (trace r).

(** The rest of the program: the turns of the timer interrupt up to the next
    reading of the clock; whether TCP has active connections or ones in
    TIME-WAIT; whether a service just called registers a connection. *)
Class Stack := {
  ticks : list event -> nat;
  pcbs : list event -> bool;
  registers : list event -> bool
}.

Definition MEMP_NUM_SYS_TIMEOUT : nat := 10.
Definition TCP_TMR_INTERVAL : Z := 25.
Definition IP_TMR_INTERVAL : Z := 1000.
Definition ARP_TMR_INTERVAL : Z := 5000.
Definition DHCP_COARSE_TIMER_SECS : Z := 60.
Definition DHCP_COARSE_TIMER_MSECS : Z := DHCP_COARSE_TIMER_SECS * 1000.
Definition DHCP_FINE_TIMER_MSECS : Z := 500.
Definition AUTOIP_TMR_INTERVAL : Z := 100.
Definition LWIP_MAX_TIMEOUT : Z := 0x7fffffff.
Definition SYS_TIMEOUTS_SLEEPTIME_INFINITE : Z := 0xFFFFFFFF.

(** The table for the options of lwipopts.h: TCP, IPv4 with reassembly, ARP,
    DHCP and AUTOIP; no IGMP, DNS or IPv6. *)
Definition lwip_cyclic_timers : list (Z * lwip_tmr) :=
  [ (TCP_TMR_INTERVAL, tcp_tmr);
    (IP_TMR_INTERVAL, ip_reass_tmr);
    (ARP_TMR_INTERVAL, etharp_tmr);
    (DHCP_COARSE_TIMER_MSECS, dhcp_coarse_tmr);
    (DHCP_FINE_TIMER_MSECS, dhcp_fine_tmr);
    (AUTOIP_TMR_INTERVAL, autoip_tmr) ].

Definition TIME_LESS_THAN (t compare_to : Z) : bool := LWIP_MAX_TIMEOUT <? u32 (t - compare_to).

(** ** Memory *)

(** [*p], and [*p = f( *p)]. *)
Definition deref (p : option Z) : ST timeouts sys_timeo := fun s =>
  i ← p; t ← (memp s).[i]; Some (t, s).
Definition assign (p : option Z) (f : sys_timeo -> sys_timeo) : ST timeouts unit := fun s =>
  i ← p; t ← (memp s).[i]; l ← (memp s).[i <- f t]; Some (tt, s <| memp := l |>).

(** The pool's free list is threaded through the elements from the last to the
    first. *)
Definition memp_init_pool : ST timeouts unit :=
  st_mod (set memp_tab (fun _ => None));;
  st_for MEMP_NUM_SYS_TIMEOUT 0 (fun i =>
    tab ← st_get memp_tab;
    assign (Some i) (set next (fun _ => tab));;
    st_mod (set memp_tab (fun _ => Some i))).

Definition memp_malloc : ST timeouts (option Z) :=
  m ← st_get memp_tab;
  match m with
  | Some _ =>
      e ← deref m;
      st_mod (set memp_tab (fun _ => next e));;
      st_mod (set used (fun u => u16 (u + 1)));;
      u ← st_get used;
      x ← st_get max_used;
      when (x <? u) (st_mod (set max_used (fun _ => u)));;
      mret m
  | None => st_mod (set err (fun e => u16 (e + 1)));; mret None
  end.

Definition memp_free (mem : option Z) : ST timeouts unit :=
  match mem with
  | None => st_skip
  | Some _ =>
      st_mod (set used (fun u => u16 (u - 1)));;
      tab ← st_get memp_tab;
      assign mem (set next (fun _ => tab));;
      st_mod (set memp_tab (fun _ => mem))
  end.

(** ** Operations *)

Section stack.
Context {K : Stack}.

(** The timer interrupt adds 10 at each turn. *)
Definition sys_now : ST timeouts Z := fun s =>
  let t := u32 (lwip_sys_timer s + 10 * Z.of_nat (ticks (trace s))) in
  Some (t, s <| lwip_sys_timer := t |> <| trace ::= fun l => l ++ [Now t] |>).

(** The end of [sys_timeout_abs]: from [t] on, the first place whose successor
    is later. *)
Fixpoint insert_from (fuel : nat) (timeout t : option Z) : ST timeouts unit :=
  match t, fuel with
  | None, _ => st_skip
  | Some _, O => fun _ => None
  | Some _, S fuel' =>
      e ← deref t;
      new ← deref timeout;
      stop ← match next e with
             | None => mret true
             | Some _ => n ← deref (next e); mret (TIME_LESS_THAN (time new) (time n))
             end;
      if (stop : bool) then
        assign timeout (set next (fun _ => next e));;
        assign t (set next (fun _ => timeout))
      else insert_from fuel' timeout (next e)
  end.

Definition sys_timeout_abs (abs_time : Z) (handler : option sys_timeout_handler)
    (argument : option Z) : ST timeouts unit :=
  timeout ← memp_malloc;
  match timeout with
  | None => st_skip
  | Some _ =>
      assign timeout (fun _ => Timeo None abs_time handler argument);;
      head ← st_get next_timeout;
      match head with
      | None => st_mod (set next_timeout (fun _ => timeout))
      | Some _ =>
          new ← deref timeout;
          e ← deref head;
          if TIME_LESS_THAN (time new) (time e) then
            assign timeout (set next (fun _ => head));;
            st_mod (set next_timeout (fun _ => timeout))
          else insert_from MEMP_NUM_SYS_TIMEOUT timeout head
      end
  end.

Definition sys_timeout (msecs : Z) (handler : option sys_timeout_handler)
    (argument : option Z) : ST timeouts unit :=
  now ← sys_now;
  sys_timeout_abs (u32 (now + msecs)) handler argument.

Definition tcp_timer_needed : ST timeouts unit :=
  a ← st_get tcpip_tcp_timer_active;
  l ← st_get trace;
  when ((a =? 0) && pcbs l)
    (st_mod (set tcpip_tcp_timer_active (fun _ => 1));;
     sys_timeout TCP_TMR_INTERVAL (Some tcpip_tcp_timer_h) None).

(** A call of a service of the stack, which may register a connection. *)
Definition call (f : lwip_tmr) : ST timeouts unit :=
  st_mod (set trace (fun l => l ++ [Call f]));;
  l ← st_get trace;
  when (registers l) tcp_timer_needed.

Definition tcpip_tcp_timer : ST timeouts unit :=
  call tcp_tmr;;
  l ← st_get trace;
  if pcbs l then sys_timeout TCP_TMR_INTERVAL (Some tcpip_tcp_timer_h) None
  else st_mod (set tcpip_tcp_timer_active (fun _ => 0)).

Definition lwip_cyclic_timer (argument : option Z) : ST timeouts unit :=
  cyclic ← st_opt (i ← argument; lwip_cyclic_timers.[i]);
  call cyclic.2;;
  now ← sys_now;
  due ← st_get current_timeout_due_time;
  let next_timeout_time := u32 (due + cyclic.1) in
  if TIME_LESS_THAN next_timeout_time now then
    sys_timeout_abs (u32 (now + cyclic.1)) (Some lwip_cyclic_timer_h) argument
  else
    sys_timeout_abs next_timeout_time (Some lwip_cyclic_timer_h) argument.

(** The TCP timer, row 0, is started on demand. *)
Definition sys_timeouts_init : ST timeouts unit :=
  st_for (length lwip_cyclic_timers - 1) 1 (fun i =>
    row ← st_opt lwip_cyclic_timers.[i];
    sys_timeout row.1 (Some lwip_cyclic_timer_h) (Some i)).

Fixpoint untimeout_from (fuel : nat) (handler : option sys_timeout_handler)
    (argument prev_t t : option Z) : ST timeouts unit :=
  match t, fuel with
  | None, _ => st_skip
  | Some _, O => fun _ => None
  | Some _, S fuel' =>
      e ← deref t;
      if bool_decide (h e = handler) && bool_decide (arg e = argument) then
        match prev_t with
        | None => st_mod (set next_timeout (fun _ => next e))
        | Some _ => assign prev_t (set next (fun _ => next e))
        end;;
        memp_free t
      else untimeout_from fuel' handler argument t (next e)
  end.

Definition sys_untimeout (handler : option sys_timeout_handler) (argument : option Z) : ST timeouts unit :=
  head ← st_get next_timeout;
  match head with
  | None => st_skip
  | Some _ => untimeout_from MEMP_NUM_SYS_TIMEOUT handler argument None head
  end.

(** [handler(arg)]. *)
Definition dispatch (handler : sys_timeout_handler) (argument : option Z) : ST timeouts unit :=
  match handler with
  | tcpip_tcp_timer_h => tcpip_tcp_timer
  | lwip_cyclic_timer_h => lwip_cyclic_timer argument
  end.

Fixpoint check_loop (fuel : nat) (now : Z) : ST timeouts unit :=
  match fuel with
  | O => fun _ => None
  | S fuel' =>
      tmptimeout ← st_get next_timeout;
      match tmptimeout with
      | None => st_skip
      | Some _ =>
          e ← deref tmptimeout;
          if TIME_LESS_THAN now (time e) then st_skip
          else
            st_mod (set next_timeout (fun _ => next e));;
            st_mod (set current_timeout_due_time (fun _ => time e));;
            memp_free tmptimeout;;
            match h e with
            | Some handler => dispatch handler (arg e)
            | None => st_skip
            end;;
            check_loop fuel' now
      end
  end.

(** A timer due at the very reading may be due once more: the bound of the
    loop. *)
Definition check_fuel : nat := S (2 * MEMP_NUM_SYS_TIMEOUT).

Definition sys_check_timeouts : ST timeouts unit :=
  now ← sys_now;
  check_loop check_fuel now.

Fixpoint rebase_from (fuel : nat) (base now : Z) (t : option Z) : ST timeouts unit :=
  match t, fuel with
  | None, _ => st_skip
  | Some _, O => fun _ => None
  | Some _, S fuel' =>
      assign t (set time (fun x => u32 (u32 (x - base) + now)));;
      e ← deref t;
      rebase_from fuel' base now (next e)
  end.

Definition sys_restart_timeouts : ST timeouts unit :=
  head ← st_get next_timeout;
  match head with
  | None => st_skip
  | Some _ =>
      now ← sys_now;
      e ← deref head;
      rebase_from MEMP_NUM_SYS_TIMEOUT (time e) now head
  end.

Definition sys_timeouts_sleeptime : ST timeouts Z :=
  head ← st_get next_timeout;
  match head with
  | None => mret SYS_TIMEOUTS_SLEEPTIME_INFINITE
  | Some _ =>
      now ← sys_now;
      e ← deref head;
      if TIME_LESS_THAN (time e) now then mret 0 else mret (u32 (time e - now))
  end.

(** ** The main program (Main/main.c)

    TCP may need its timer between two passes of the loop: connections are
    registered by the application and by the receive interrupt. *)
Inductive main_step := Register | Pass.

Definition main_do (m : main_step) : ST timeouts unit :=
  match m with
  | Register => tcp_timer_needed
  | Pass => sys_check_timeouts
  end.

Fixpoint main_run (ms : list main_step) : ST timeouts unit :=
  match ms with
  | [] => st_skip
  | m :: ms' => main_do m;; main_run ms'
  end.

(** Static memory before the stack starts: zeros. *)
Definition static_zero (clock : Z) : timeouts :=
  Timeouts (replicate MEMP_NUM_SYS_TIMEOUT (Timeo None 0 None None)) None 0 0 0 None 0 0 clock [].

(** The calls of [lwip_init] that concern timers, and the program's loop. *)
Definition main_from (ms : list main_step) : ST timeouts unit :=
  memp_init_pool;;
  sys_timeouts_init;;
  main_run ms.

End stack.
