(* ===== verification/Agenda.v ===== *)
(** * Agenda: the abstract timers of the network stack

    What [Timeouts] promises, without memory and without wrap-around: time is
    unbounded, the pending timers are a list of deadlines in order.  The
    operations are those of the code, on this data. *)

From Stdlib Require Import Sorting.Sorted.
From S2P Require Import Prelude Timeouts.

(** A registered callback with its argument. *)
Definition timer : Type := option sys_timeout_handler * option Z.

Record agenda := Agenda {
  clock : Z;
  due : list (Z * timer);
  tcp_on : bool;
  log : list event
}.
#[export] Instance agenda_settable : Settable agenda :=
  fun r => Agenda (clock r) (due r) (tcp_on r) (log r).

Definition cyclic (i : Z) : timer := (Some lwip_cyclic_timer_h, Some i).
Definition tcp : timer := (Some tcpip_tcp_timer_h, None).

(** The timers that have to be pending: the cyclic ones always, the TCP timer
    while it is on. *)
Definition stack_timers (on : bool) : list timer :=
  map cyclic [1; 2; 3; 4; 5] ++ (if on then [tcp] else []).

(** A timer goes before the first one that is due strictly later. *)
Fixpoint insert_due (x : Z * timer) (l : list (Z * timer)) : list (Z * timer) :=
  match l with
  | [] => [x]
  | y :: l' => if x.1 <? y.1 then x :: y :: l' else y :: insert_due x l'
  end.

Section stack.
Context {K : Stack}.

Definition tick (a : agenda) : agenda :=
  let t := clock a + 10 * Z.of_nat (ticks (log a)) in
  a <| clock := t |> <| log ::= fun l => l ++ [Now (u32 t)] |>.

Definition plan (d : Z) (x : timer) (a : agenda) : agenda := a <| due ::= insert_due (d, x) |>.

Definition start (ms : Z) (x : timer) (a : agenda) : agenda :=
  let b := tick a in plan (clock b + ms) x b.

Definition need_tcp (a : agenda) : agenda :=
  if negb (tcp_on a) && pcbs (log a)
  then start TCP_TMR_INTERVAL tcp (a <| tcp_on := true |>) else a.

Definition called (f : lwip_tmr) (a : agenda) : agenda :=
  let b := a <| log ::= fun l => l ++ [Call f] |> in
  if registers (log b) then need_tcp b else b.

Definition run_tcp (a : agenda) : agenda :=
  let b := called tcp_tmr a in
  if pcbs (log b) then start TCP_TMR_INTERVAL tcp b else b <| tcp_on := false |>.

(** A cyclic timer is due again its interval after it was due, or after the
    present when that has passed already. *)
Definition run_cyclic (i iv : Z) (f : lwip_tmr) (d : Z) (a : agenda) : agenda :=
  let b := tick (called f a) in
  plan (if d + iv <? clock b then clock b + iv else d + iv) (cyclic i) b.

Definition run_timer (d : Z) (x : timer) (a : agenda) : agenda :=
  match x with
  | (Some tcpip_tcp_timer_h, _) => run_tcp a
  | (Some lwip_cyclic_timer_h, Some i) =>
      match lwip_cyclic_timers.[i] with
      | Some (iv, f) => run_cyclic i iv f d a
      | None => a
      end
  | _ => a
  end.

(** The timers due at [now] are run, the soonest first. *)
Fixpoint run_due (fuel : nat) (now : Z) (a : agenda) : agenda :=
  match fuel, due a with
  | S fuel', (d, x) :: l =>
      if now <? d then a else run_due fuel' now (run_timer d x (a <| due := l |>))
  | _, _ => a
  end.

Definition pass (a : agenda) : agenda :=
  let b := tick a in run_due check_fuel (clock b) b.

Definition agenda_do (m : main_step) (a : agenda) : agenda :=
  match m with Register => need_tcp a | Pass => pass a end.

Fixpoint agenda_run (ms : list main_step) (a : agenda) : agenda :=
  match ms with [] => a | m :: ms' => agenda_run ms' (agenda_do m a) end.

Definition start_cyclic (a : agenda) (i : Z) : agenda :=
  match lwip_cyclic_timers.[i] with
  | Some (iv, _) => start iv (cyclic i) a
  | None => a
  end.

(** All cyclic timers started. *)
Definition agenda_init (t0 : Z) : agenda :=
  fold_left start_cyclic [1; 2; 3; 4; 5] (Agenda t0 [] false []).

(** ** Deadlines stay near the clock *)

Definition sorted_due (l : list (Z * timer)) : Prop := Sorted (fun x y => x.1 <= y.1) l.

Lemma insert_due_perm x l : insert_due x l ≡ₚ x :: l.
Proof.
  induction l as [|y l IH]; cbn; [done|]. case_match; [done|].
  rewrite IH. apply Permutation_swap.
Qed.

Lemma insert_due_Forall (P : Z * timer -> Prop) x l :
  P x -> Forall P l -> Forall P (insert_due x l).
Proof. intros ??. rewrite insert_due_perm. by constructor. Qed.

Lemma insert_due_sorted x l : sorted_due l -> sorted_due (insert_due x l).
Proof.
  unfold sorted_due. induction 1 as [|y l Hs IH Hh]; cbn; [repeat constructor|].
  case_match; zb.
  - constructor; [by constructor|]. constructor. lia.
  - constructor; [done|]. destruct l as [|z l]; cbn; [constructor; lia|].
    inversion Hh; subst. case_match; constructor; zb; lia.
Qed.

Lemma sorted_head_le x l y : sorted_due (x :: l) -> y ∈ l -> x.1 <= y.1.
Proof.
  intros Hs Hy. apply Sorted_StronglySorted in Hs; [|intros ???; lia].
  inversion Hs as [|?? _ HF]; subst. rewrite Forall_forall in HF. by apply HF.
Qed.

Lemma sorted_tail x l : sorted_due (x :: l) -> sorted_due l.
Proof. by inversion 1. Qed.

Lemma stack_timers_on : stack_timers true ≡ₚ tcp :: stack_timers false.
Proof. unfold stack_timers. by rewrite app_nil_r, Permutation_app_comm. Qed.

Lemma stack_timer_cases x l on :
  x :: l ≡ₚ stack_timers on ->
  x = tcp /\ on = true /\ l ≡ₚ stack_timers false \/ exists i, 1 <= i <= 5 /\ x = cyclic i.
Proof.
  intros Hp. assert (Hx : x ∈ stack_timers on) by (rewrite <- Hp; set_solver).
  unfold stack_timers in Hx. apply elem_of_app in Hx as [Hx|Hx].
  - right. apply list_elem_of_In, in_map_iff in Hx as (i & <- & Hi). exists i.
    split; [|done]. cbn in Hi. lia.
  - destruct on; [|by apply not_elem_of_nil in Hx]. apply list_elem_of_singleton in Hx as ->.
    left. repeat split. rewrite stack_timers_on in Hp. by eapply Permutation_cons_inv.
Qed.

(** The longest interval. *)
Definition horizon : Z := DHCP_COARSE_TIMER_MSECS.

Lemma cyclic_row i : 1 <= i <= 5 ->
  exists iv f, lwip_cyclic_timers.[i] = Some (iv, f) /\ 0 < iv <= horizon.
Proof.
  intros Hi. assert (i = 1 \/ i = 2 \/ i = 3 \/ i = 4 \/ i = 5) as Hc by lia.
  destruct Hc as [->|[->|[->|[->| ->]]]]; do 2 eexists; (split; [reflexivity|]);
    split; reflexivity || discriminate.
Qed.

(** [g] bounds the time between two readings of the clock. *)
Context (g : Z) (Hg : forall l, 10 * Z.of_nat (ticks l) <= g).

Lemma gap_nonneg : 0 <= g.
Proof. specialize (Hg []). lia. Qed.

(** All pending timers are due at most [k] readings ago, and at most one
    interval ahead; apart from [out], they are those of the stack. *)
Record ok (out : list timer) (k : Z) (a : agenda) : Prop := {
  ok_sorted : sorted_due (due a);
  ok_timers : out ++ map snd (due a) ≡ₚ stack_timers (tcp_on a);
  ok_near : Forall (fun x => clock a - k * g <= x.1 <= clock a + horizon) (due a)
}.

Lemma ok_mono out k k' a : k <= k' -> ok out k a -> ok out k' a.
Proof.
  intros Hk [? ? HF]. constructor; [done..|].
  pose proof gap_nonneg. eapply Forall_impl; [exact HF|]. cbn. nia.
Qed.

Lemma ok_log out k a u : ok out k a -> ok out k (a <| log ::= u |>).
Proof. by intros [???]. Qed.

Lemma clock_tick a : clock a <= clock (tick a) <= clock a + g.
Proof. cbn. specialize (Hg (log a)). lia. Qed.

Lemma ok_tick out k a : ok out k a -> ok out (k + 1) (tick a).
Proof.
  intros [? ? HF]. constructor; [done..|].
  pose proof (clock_tick a). eapply Forall_impl; [exact HF|]. cbn beta. intros x ?. nia.
Qed.

Lemma ok_plan out k a d x :
  ok (x :: out) k a -> clock a - k * g <= d <= clock a + horizon -> ok out k (plan d x a).
Proof.
  intros [? Hp HF] Hd. constructor; cbn.
  - by apply insert_due_sorted.
  - rewrite <- Hp, insert_due_perm. cbn. by rewrite Permutation_middle.
  - by apply insert_due_Forall.
Qed.

Lemma ok_start out k a ms x :
  0 <= k -> ok (x :: out) k a -> 0 <= ms <= horizon -> ok out (k + 1) (start ms x a).
Proof.
  intros Hk Ha Hm. apply ok_plan; [by apply ok_tick|]. pose proof gap_nonneg. nia.
Qed.

Lemma ok_need_tcp out k a : 0 <= k -> ok out k a -> ok out (k + 1) (need_tcp a).
Proof.
  intros Hk Ha. unfold need_tcp. case_match eqn:E; [|apply (ok_mono out k); [lia|done]].
  zb. apply ok_start; [done| |cbv; split; discriminate].
  destruct Ha as [? Hp ?]. constructor; [done| |done].
  cbn in *. rewrite stack_timers_on. constructor. by replace (tcp_on a) with false in Hp.
Qed.

Lemma ok_called out k f a : 0 <= k -> ok out k a -> ok out (k + 1) (called f a).
Proof.
  intros Hk Ha. unfold called. cbn. case_match.
  - apply ok_need_tcp; [done|]. by apply ok_log.
  - apply (ok_mono out k); [lia|]. by apply ok_log.
Qed.

Lemma need_tcp_on a : tcp_on a = true -> need_tcp a = a.
Proof. unfold need_tcp. by intros ->. Qed.

Lemma called_on f a : tcp_on a = true -> called f a = a <| log ::= fun l => l ++ [Call f] |>.
Proof. intros E. unfold called. cbn. case_match; [|done]. by apply need_tcp_on. Qed.

Lemma clock_need_tcp a : clock a <= clock (need_tcp a) <= clock a + g.
Proof.
  unfold need_tcp. case_match; [|pose proof gap_nonneg; lia].
  pose proof (clock_tick (a <| tcp_on := true |>)) as Hc. exact Hc.
Qed.

Lemma clock_called f a : clock a <= clock (called f a) <= clock a + g.
Proof.
  unfold called. cbn. case_match; [|pose proof gap_nonneg; cbn; lia].
  pose proof (clock_need_tcp (a <| log := log a ++ [Call f] |>)) as Hc. exact Hc.
Qed.

(** What a run leaves: its timer is pending again, unless TCP is done. *)
Lemma ok_run_timer k a d x :
  0 <= k -> ok [x] k a -> clock a - k * g <= d <= clock a -> ok [] (k + 2) (run_timer d x a).
Proof.
  intros Hk Ha Hd. pose proof gap_nonneg as Hg0.
  destruct (stack_timer_cases x _ _ (ok_timers _ _ _ Ha)) as [(-> & Hon & Hl)|(i & Hi & ->)].
  - cbn. unfold run_tcp. rewrite called_on by done. cbn.
    set (b := a <| log ::= _ |>). case_match.
    + replace (k + 2) with (k + 1 + 1) by lia. apply ok_start; [lia| |cbv; split; discriminate].
      apply (ok_mono _ k); [lia|]. by apply ok_log.
    + apply (ok_mono _ k); [lia|]. destruct Ha as [? ? ?]. by constructor.
  - cbn. destruct (cyclic_row i Hi) as (iv & f & -> & Hiv). unfold run_cyclic.
    pose proof (ok_called _ _ f _ Hk Ha) as Hb. pose proof (clock_called f a).
    apply ok_tick in Hb. replace (k + 2) with (k + 1 + 1) by lia.
    pose proof (clock_tick (called f a)).
    apply ok_plan; [done|]. zcase; nia.
Qed.

(** ** A pass ends *)

Definition weight1 (now d : Z) : nat := if d <? now then 2 else if d =? now then 1 else 0.
Definition weight (now : Z) (l : list (Z * timer)) : nat := sum_list_with (fun x => weight1 now x.1) l.

Lemma weight_cons now x l : weight now (x :: l) = (weight1 now x.1 + weight now l)%nat.
Proof. done. Qed.
#[local] Arguments weight : simpl never.

Lemma weight_insert now x l : weight now (insert_due x l) = (weight1 now x.1 + weight now l)%nat.
Proof.
  induction l as [|y l IH]; cbn; [done|]. case_match; rewrite !weight_cons; [done|].
  rewrite IH. lia.
Qed.

Lemma weight_bound now l : (weight now l <= 2 * length l)%nat.
Proof.
  induction l as [|x l IH]; [done|]. rewrite weight_cons. cbn [length]. unfold weight1.
  repeat case_match; lia.
Qed.

Lemma weight1_later now d : now < d -> weight1 now d = 0%nat.
Proof. intros ?. unfold weight1. by repeat ztest. Qed.

Lemma weight_need_tcp now a :
  now <= clock a -> weight now (due (need_tcp a)) = weight now (due a).
Proof.
  intros Hn. unfold need_tcp. case_match; [|done].
  unfold start, plan. cbn. rewrite weight_insert, weight1_later; [done|].
  specialize (Hg (log a)). cbn. unfold TCP_TMR_INTERVAL. lia.
Qed.

Lemma weight_called now f a :
  now <= clock a -> weight now (due (called f a)) = weight now (due a).
Proof. intros ?. unfold called. cbn. case_match; [|done]. by rewrite weight_need_tcp. Qed.

(** Running a timer that is due makes the work left for this pass smaller. *)
Lemma weight_run_timer now a d x :
  x = tcp \/ (exists i, 1 <= i <= 5 /\ x = cyclic i) ->
  d <= now <= clock a ->
  (weight now (due (run_timer d x a)) < weight1 now d + weight now (due a))%nat.
Proof.
  intros Hx Hd.
  assert (Hw : (0 < weight1 now d)%nat) by (unfold weight1; repeat zcase; lia).
  destruct Hx as [->|(i & Hi & ->)].
  - cbn. unfold run_tcp. case_match; cbn; rewrite ?weight_insert, weight_called by lia; [|lia].
    rewrite weight1_later; [lia|]. cbn. pose proof (clock_called tcp_tmr a).
    unfold TCP_TMR_INTERVAL. lia.
  - cbn. destruct (cyclic_row i Hi) as (iv & f & -> & Hiv). unfold run_cyclic, plan.
    cbn. rewrite weight_insert, weight_called by lia. cbn.
    pose proof (clock_called f a). set (c := _ + 10 * _) in *.
    assert (clock a <= c) by (unfold c; lia).
    enough (weight1 now (if d + iv <? c then c + iv else d + iv)%Z < weight1 now d)%nat by lia.
    zcase; [rewrite weight1_later by lia; done|]. unfold weight1. repeat zcase; lia.
Qed.

Lemma clock_run_timer d x a : clock a <= clock (run_timer d x a) <= clock a + 2 * g.
Proof.
  pose proof gap_nonneg. destruct x as [[[]|] [i|]]; cbn; try lia.
  1,2: unfold run_tcp; pose proof (clock_called tcp_tmr a);
    case_match; cbn; [specialize (Hg (log (called tcp_tmr a)))|]; lia.
  destruct lwip_cyclic_timers.[i] as [[iv f]|]; [|lia]. cbn.
  pose proof (clock_called f a). specialize (Hg (log (called f a))). lia.
Qed.

(** A timer taken off the front of the agenda. *)
Lemma ok_pop k a d x l :
  ok [] k a -> due a = (d, x) :: l -> d <= clock a ->
  ok [x] k (a <| due := l |>) /\ clock a - k * g <= d <= clock a /\
  (x = tcp \/ exists i, 1 <= i <= 5 /\ x = cyclic i).
Proof.
  intros [Hs Hp HF] E Hd. rewrite E in *. cbn in Hp. split; [|split].
  - constructor; [by eapply sorted_tail|done|]. by inversion HF.
  - apply Forall_cons_1 in HF as [? _]. cbn in *. lia.
  - destruct (stack_timer_cases _ _ _ Hp) as [(? & _)|?]; auto.
Qed.

Lemma run_due_ok fuel now k a :
  0 <= k -> ok [] k a -> now <= clock a -> (weight now (due a) < fuel)%nat ->
  let n := Z.of_nat (weight now (due a)) in
  let a' := run_due fuel now a in
  ok [] (k + 2 * n) a' /\ Forall (fun x => now < x.1) (due a') /\
  clock a <= clock a' <= clock a + 2 * n * g.
Proof.
  pose proof gap_nonneg. revert k a. induction fuel as [|fuel IH]; intros k a Hk Ha Hn Hw; [lia|].
  cbn. destruct (due a) as [|[d x] l] eqn:E.
  { rewrite E. split; [|split; [constructor|cbn; lia]]. by rewrite Z.add_0_r. }
  case_match; zb.
  { rewrite E. split; [eapply ok_mono; [|done]; lia|]. split; [|nia].
    apply Forall_forall. intros y [->|Hy]%elem_of_cons; [done|].
    pose proof (ok_sorted _ _ _ Ha) as Hs. rewrite E in Hs.
    pose proof (sorted_head_le _ _ _ Hs Hy). cbn in *. lia. }
  destruct (ok_pop k a d x l Ha E ltac:(lia)) as (Hb & Hd & Hx).
  change (clock a) with (clock (a <| due := l |>)) in *.
  change l with (due (a <| due := l |>)) in Hw |- *. set (b := a <| due := l |>) in *.
  pose proof (ok_run_timer k b d x Hk Hb Hd) as Hc.
  pose proof (weight_run_timer now b d x Hx ltac:(lia)) as Hlt.
  pose proof (clock_run_timer d x b) as Hcl. rewrite weight_cons in *. cbn [fst] in *.
  replace (a <| due := due b |>) with b by done. set (c := run_timer d x b) in *.
  destruct (IH (k + 2) c) as (H1 & H2 & H3); [lia|done|lia|lia|].
  split; [|split; [done|nia]]. eapply ok_mono; [|exact H1]. lia.
Qed.

Lemma ok_length out k a : ok out k a -> (length (due a) <= 6)%nat.
Proof.
  intros [_ Hp _]. apply Permutation_length in Hp.
  rewrite length_app, length_map in Hp. destruct (tcp_on a); cbn in Hp; lia.
Qed.

Lemma ok_weight k a now : ok [] k a -> (weight now (due a) <= 12)%nat.
Proof. intros Ha%ok_length. pose proof (weight_bound now (due a)). lia. Qed.

(** After a pass nothing is left that was due when it began. *)
Lemma pass_ok k a :
  0 <= k -> ok [] k a ->
  ok [] 24 (pass a) /\ Forall (fun x => clock (tick a) < x.1) (due (pass a)) /\
  clock (tick a) <= clock (pass a) <= clock (tick a) + 24 * g.
Proof.
  intros Hk Ha%ok_tick. unfold pass. pose proof gap_nonneg.
  pose proof (ok_weight _ _ (clock (tick a)) Ha) as Hw.
  destruct (run_due_ok check_fuel (clock (tick a)) (k + 1) (tick a)) as ([Hs Hp HF] & Hd & Hc);
    [lia|done|done|cbv [check_fuel MEMP_NUM_SYS_TIMEOUT]; lia|].
  split; [|split; [done|nia]]. constructor; [done..|].
  rewrite Forall_forall in *. intros y Hy. specialize (Hd y Hy). specialize (HF y Hy). nia.
Qed.

(** The state of the agenda between two steps of the main program. *)
Definition ready (a : agenda) : Prop := ok [] (24 + b2z (tcp_on a)) a.

Lemma ready_pass a : ready a -> ready (pass a).
Proof.
  intros Ha. apply pass_ok in Ha as (Ha & _); [|destruct (tcp_on a); cbn; lia].
  eapply ok_mono; [|exact Ha]. destruct (tcp_on _); cbn; lia.
Qed.

Lemma ready_need_tcp a : ready a -> ready (need_tcp a).
Proof.
  intros Ha. destruct (tcp_on a) eqn:E; [by rewrite need_tcp_on|].
  unfold ready in *. rewrite E in Ha. cbn in Ha.
  pose proof (ok_need_tcp [] 24 a ltac:(lia) Ha) as Hb. revert Hb.
  unfold need_tcp. rewrite E. cbn. case_match; [done|]. intros _. by rewrite E.
Qed.

Lemma ready_run ms a : ready a -> ready (agenda_run ms a).
Proof.
  revert a. induction ms as [|[] ms IH]; intros a Ha; cbn; [done|..]; apply IH.
  - by apply ready_need_tcp.
  - by apply ready_pass.
Qed.

Lemma ok_start_cyclic out k a i :
  0 <= k -> 1 <= i <= 5 -> ok (cyclic i :: out) k a -> ok out (k + 1) (start_cyclic a i).
Proof.
  intros Hk Hi Ha. unfold start_cyclic. destruct (cyclic_row i Hi) as (iv & f & -> & Hiv).
  apply ok_start; [done..|lia].
Qed.

Lemma ok_empty t0 : ok (map cyclic [1; 2; 3; 4; 5]) 0 (Agenda t0 [] false []).
Proof. constructor; [constructor|done|constructor]. Qed.

Lemma ready_init t0 : ready (agenda_init t0).
Proof.
  apply (ok_mono _ 5); [destruct (tcp_on _); cbn; lia|].
  pose proof (ok_empty t0) as H. cbn [map] in H.
  do 5 (apply ok_start_cyclic in H; [|lia..]). exact H.
Qed.

(** From the start of each pass to the end of the next at most [m] milliseconds go by;
    [lo] is the start of the last one. *)
Fixpoint spaced (m lo : Z) (ms : list main_step) (a : agenda) : Prop :=
  match ms with
  | [] => True
  | Register :: ms' => spaced m lo ms' (need_tcp a)
  | Pass :: ms' => clock (pass a) <= lo + m /\ spaced m (clock (tick a)) ms' (pass a)
  end.

Lemma spaced_mono m m' lo ms a : m <= m' -> spaced m lo ms a -> spaced m' lo ms a.
Proof.
  intros Hm. revert lo a. induction ms as [|[] ms IH]; intros lo a; cbn [spaced]; [done|apply IH|].
  intros [H1 H2]. split; [lia|by apply IH].
Qed.

Lemma clock_init t0 : clock (agenda_init t0) <= t0 + 5 * g.
Proof.
  assert (Hs : forall a j, 1 <= j <= 5 -> clock (start_cyclic a j) <= clock a + g).
  { intros a j Hj. unfold start_cyclic. destruct (cyclic_row j Hj) as (iv & f & -> & _). apply (clock_tick a). }
  unfold agenda_init. cbn [fold_left]. set (a0 := Agenda t0 [] false []). pose proof (Hs a0 1 ltac:(lia)) as H1.
  set (a1 := start_cyclic a0 1) in *. pose proof (Hs a1 2 ltac:(lia)). set (a2 := start_cyclic a1 2) in *.
  pose proof (Hs a2 3 ltac:(lia)). set (a3 := start_cyclic a2 3) in *.
  pose proof (Hs a3 4 ltac:(lia)). pose proof (Hs (start_cyclic a3 4) 5 ltac:(lia)).
  change (clock a0) with t0 in H1. lia.
Qed.

(** Fifty readings of the clock are enough for that. *)
Lemma spaced_always lo ms a :
  ready a -> clock a <= lo + (24 + b2z (tcp_on a)) * g -> spaced (50 * g) lo ms a.
Proof.
  pose proof gap_nonneg as Hg0. revert lo a. induction ms as [|[] ms IH]; intros lo a Ha Hlo; cbn [spaced]; [done|..].
  - apply IH; [by apply ready_need_tcp|]. pose proof (clock_need_tcp a) as Hc. revert Hc. unfold need_tcp.
    destruct (tcp_on a) eqn:E; cbn [negb andb] in *; [rewrite E; lia|].
    case_match; [|rewrite E; lia]. cbn in *. lia.
  - assert (Hk : 0 <= 24 + b2z (tcp_on a)) by (destruct (tcp_on a); cbn; lia).
    destruct (pass_ok _ a Hk Ha) as (_ & _ & Hcl). pose proof (clock_tick a).
    split; [destruct (tcp_on a); unfold b2z in Hlo; lia|]. apply IH; [by apply ready_pass|].
    destruct (tcp_on (pass a)); unfold b2z; lia.
Qed.

Lemma due_need_tcp lo a : lo <= clock a -> Forall (fun y => lo <= y.1) (due a) ->
  Forall (fun y => lo <= y.1) (due (need_tcp a)).
Proof.
  intros Hlo HF. unfold need_tcp. case_match; [|done]. apply insert_due_Forall; [|done].
  cbn. specialize (Hg (log a)). unfold TCP_TMR_INTERVAL. lia.
Qed.

Lemma due_later_called lo f a : lo <= clock a -> Forall (fun y => lo <= y.1) (due a) ->
  Forall (fun y => lo <= y.1) (due (called f a)).
Proof. intros Hlo HF. unfold called. cbn. case_match; [by apply due_need_tcp|done]. Qed.

(** What a run plans is not due before it. *)
Lemma due_run_timer lo d x a :
  x = tcp \/ (exists i, 1 <= i <= 5 /\ x = cyclic i) ->
  lo <= d -> Forall (fun y => lo <= y.1) (due a) -> lo <= clock a ->
  Forall (fun y => lo <= y.1) (due (run_timer d x a)).
Proof.
  intros Hx Hd HF Hlo. destruct Hx as [->|(i & Hi & ->)]; cbn.
  - pose proof (due_later_called lo tcp_tmr a Hlo HF) as Hc. pose proof (clock_called tcp_tmr a).
    unfold run_tcp. case_match; [|done]. apply insert_due_Forall; [|done].
    pose proof (clock_tick (called tcp_tmr a)). cbn [fst]. unfold TCP_TMR_INTERVAL. lia.
  - destruct (cyclic_row i Hi) as (iv & f & -> & Hiv). pose proof (clock_called f a).
    pose proof (clock_tick (called f a)). apply insert_due_Forall; [|by apply due_later_called].
    cbn [fst]. zcase; lia.
Qed.

Lemma clock_run_due fuel now a : clock a <= clock (run_due fuel now a).
Proof.
  revert a. induction fuel as [|fuel IH]; intros a; cbn; [lia|].
  destruct (due a) as [|[d x] l]; [lia|]. case_match; [lia|].
  pose proof (clock_run_timer d x (a <| due := l |>)) as Hr. specialize (IH (run_timer d x (a <| due := l |>))).
  change (clock (a <| due := l |>)) with (clock a) in Hr. lia.
Qed.

(** ** The cadence of a cyclic timer *)

Definition calls (f : lwip_tmr) (l : list event) : Z :=
  Z.of_nat (length (filter (fun e => e = Call f) l)).

Lemma calls_snoc f l e : calls f (l ++ [e]) = calls f l + b2z (bool_decide (e = Call f)).
Proof.
  unfold calls. rewrite filter_app, length_app, filter_cons, filter_nil.
  case_bool_decide; case_decide; cbn; try done; lia.
Qed.

Lemma calls_tick f a : calls f (log (tick a)) = calls f (log a).
Proof. unfold tick. cbn [log set]. rewrite calls_snoc, bool_decide_false by done. cbn [b2z]. lia. Qed.

Lemma calls_need_tcp f a : calls f (log (need_tcp a)) = calls f (log a).
Proof.
  unfold need_tcp. case_match; [|done]. exact (calls_tick f (a <| tcp_on ::= fun _ => true |>)).
Qed.

Lemma calls_called f f' a :
  calls f (log (called f' a)) = calls f (log a) + b2z (bool_decide (f' = f)).
Proof.
  unfold called. cbn. case_match; rewrite ?calls_need_tcp; cbn; rewrite calls_snoc;
    by repeat case_bool_decide; congruence || done.
Qed.

Section cadence.
Context (i iv : Z) (f : lwip_tmr) (Hi : 1 <= i <= 5) (Hrow : lwip_cyclic_timers.[i] = Some (iv, f)).
(** [t0] is the time at which the timer was started, [w] the delay allowed to a call. *)
Context (t0 w : Z) (Hw : 0 <= w).

Lemma row_distinct j iv' f' : 1 <= j <= 5 -> lwip_cyclic_timers.[j] = Some (iv', f') ->
  f' <> tcp_tmr /\ (f' = f -> j = i).
Proof.
  clear t0 w Hw. intros Hj Hrow'. revert Hrow Hrow'.
  assert (Hc : forall n, 1 <= n <= 5 -> n = 1 \/ n = 2 \/ n = 3 \/ n = 4 \/ n = 5) by lia.
  destruct (Hc i Hi) as [->|[->|[->|[->| ->]]]], (Hc j Hj) as [->|[->|[->|[->| ->]]]];
    intros [= <- <-] [= <- <-]; done.
Qed.

(** The deadline after [c] calls: never early, and late by at most [w] for each call. *)
Definition on_time (c d : Z) : Prop := t0 + (c + 1) * iv <= d <= t0 + (c + 1) * iv + c * w.

(** The timer is due for the time that follows its calls so far. *)
Definition phased (a : agenda) : Prop :=
  forall d, (d, cyclic i) ∈ due a -> on_time (calls f (log a)) d.

Lemma phased_calls a b :
  phased a -> due b = due a -> calls f (log b) = calls f (log a) -> phased b.
Proof. intros Ha Hd Hc d. rewrite Hd, Hc. apply Ha. Qed.

Lemma elem_plan d x a y : y ∈ due (plan d x a) <-> y = (d, x) \/ y ∈ due a.
Proof. cbn. rewrite insert_due_perm. apply elem_of_cons. Qed.

Lemma phased_plan d x a : phased a -> x <> cyclic i -> phased (plan d x a).
Proof. intros Ha Hx d' [[= -> <-]|Hd]%elem_plan; [done|]. by apply Ha. Qed.

Lemma phased_need_tcp a : phased a -> phased (need_tcp a).
Proof.
  intros Ha. unfold need_tcp. case_match; [|done]. apply phased_plan; [|done].
  eapply phased_calls; [exact Ha|done|]. exact (calls_tick f (a <| tcp_on ::= fun _ => true |>)).
Qed.

Lemma phased_called f' a : phased a -> f' <> f -> phased (called f' a).
Proof.
  intros Ha Hf. assert (Hb : phased (a <| log ::= fun l => l ++ [Call f'] |>)).
  { eapply phased_calls; [exact Ha|done|]. cbn. rewrite calls_snoc, bool_decide_false by congruence.
    cbn. lia. }
  unfold called. cbn. case_match; [by apply phased_need_tcp|done].
Qed.

Lemma phased_tick a : phased a -> phased (tick a).
Proof. intros Ha. eapply phased_calls; [exact Ha|done|apply calls_tick]. Qed.

Lemma due_called f' a x : x ∈ due (called f' a) -> x.2 = tcp \/ x ∈ due a.
Proof.
  unfold called, need_tcp. cbn. repeat case_match; cbn; auto.
  intros [->|?]%elem_plan; auto.
Qed.

Lemma calls_nonneg l : 0 <= calls f l.
Proof. unfold calls. lia. Qed.

(** A run of another timer does not concern this one; a run of this one is
    followed by the next, one interval later, or one interval after the end of the
    call when that was slow. *)
Lemma phased_run_timer k a d x :
  0 <= k -> ok [x] k a -> phased a ->
  (x = cyclic i -> on_time (calls f (log a)) d /\ clock (run_timer d x a) <= d + Z.max iv w) ->
  phased (run_timer d x a).
Proof.
  intros Hk Ha Hp Hx.
  destruct (stack_timer_cases x _ _ (ok_timers _ _ _ Ha)) as [(-> & Hon & Hl)|(j & Hj & ->)].
  - assert (Hq : phased (called tcp_tmr a)).
    { apply phased_called; [done|]. destruct (row_distinct i iv f Hi Hrow). congruence. }
    cbn. unfold run_tcp. case_match; [|done]. apply phased_plan; [by apply phased_tick|done].
  - destruct (decide (j = i)) as [->|Hne].
    + destruct (Hx eq_refl) as [Hot Hcl]. revert Hcl. cbn [run_timer cyclic]. rewrite Hrow. unfold run_cyclic.
      set (b := tick (called f a)). intros Hcl. change (clock (plan _ _ b)) with (clock b) in Hcl.
      pose proof (calls_nonneg (log a)). unfold on_time in Hot.
      intros d' [[= Ed]|Hd']%elem_plan.
      * change (log (plan _ _ b)) with (log b).
        unfold b. rewrite calls_tick, calls_called, bool_decide_true by done. cbn [b2z]. fold b.
        destruct (cyclic_row i Hi) as (iv' & f' & Er & Hiv). rewrite Hrow in Er. injection Er as <- <-.
        unfold on_time. subst d'. change (clock (called f a) + 10 * _) with (clock b). zcase; nia.
      * exfalso. change (due b) with (due (called f a)) in Hd'. apply due_called in Hd' as [?|Hd']; [done|].
        pose proof (ok_timers _ _ _ Ha) as Hperm.
        assert (Hnd : NoDup ([cyclic i] ++ map snd (due a))).
        { rewrite Hperm. destruct (tcp_on a); apply (bool_decide_unpack _); vm_compute; done. }
        apply NoDup_cons in Hnd as [Hni _]. apply Hni.
        apply list_elem_of_In, in_map_iff. exists (d', cyclic i). split; [done|].
        by apply list_elem_of_In.
    + cbn. destruct (cyclic_row j Hj) as (iv' & f' & E & _). rewrite E. unfold run_cyclic.
      apply phased_plan; [|unfold cyclic; congruence]. apply phased_tick, phased_called; [done|].
      intros ->. destruct (row_distinct j iv' f Hj E) as [_ Hji]. by apply Hne, Hji.
Qed.

Lemma calls_run_timer d x a :
  x = tcp \/ (exists j, 1 <= j <= 5 /\ x = cyclic j) ->
  calls f (log (run_timer d x a)) = calls f (log a) + b2z (bool_decide (x = cyclic i)).
Proof.
  intros [->|(j & Hj & ->)].
  - cbn [run_timer tcp]. destruct (row_distinct i iv f Hi Hrow) as [Hne _].
    rewrite (bool_decide_false (tcp = _)) by done.
    transitivity (calls f (log (called tcp_tmr a))).
    + unfold run_tcp. case_match; [exact (calls_tick f (called tcp_tmr a))|done].
    + by rewrite calls_called, bool_decide_false by congruence.
  - cbn [run_timer cyclic]. destruct (cyclic_row j Hj) as (iv' & f' & E & _). rewrite E.
    transitivity (calls f (log (called f' a))); [exact (calls_tick f (called f' a))|].
    rewrite calls_called. f_equal. f_equal. apply bool_decide_ext.
    split; [intros ->; destruct (row_distinct j iv' f Hj E) as [_ Hji]; by rewrite Hji|].
    intros [= ->]. congruence.
Qed.

(** The runs made so far were all due by [now]. *)
Definition cadence (now : Z) (a : agenda) : Prop :=
  phased a /\ t0 + calls f (log a) * iv <= now.

Lemma cadence_mono now now' a : now <= now' -> cadence now a -> cadence now' a.
Proof. intros ? [? ?]. split; [done|lia]. Qed.

Lemma cadence_tick now a : cadence now a -> cadence now (tick a).
Proof. intros [? ?]. split; [by apply phased_tick|]. by rewrite calls_tick. Qed.

Lemma cadence_need_tcp now a : cadence now a -> cadence now (need_tcp a).
Proof. intros [? ?]. split; [by apply phased_need_tcp|]. by rewrite calls_need_tcp. Qed.

Lemma cadence_run_due fuel now lo k a :
  0 <= k -> ok [] k a -> now <= clock a -> lo <= now ->
  Forall (fun y => lo <= y.1) (due a) -> clock (run_due fuel now a) <= lo + Z.max iv w ->
  cadence now a -> cadence now (run_due fuel now a).
Proof.
  pose proof gap_nonneg. revert k a.
  induction fuel as [|fuel IH]; intros k a Hk Ha Hn Hlo HF Hend Hc; cbn in *; [done|].
  destruct (due a) as [|[d x] l] eqn:E; [done|]. destruct (now <? d) eqn:Ed; zb; [done|].
  destruct (ok_pop k a d x l Ha E ltac:(lia)) as (Hb & Hd & Hx).
  apply Forall_cons in HF as [Hld HF]. cbn [fst] in Hld.
  assert (Hph : x = cyclic i -> on_time (calls f (log a)) d).
  { intros ->. destruct Hc as [Hp _]. apply Hp. rewrite E. apply elem_of_cons. by left. }
  assert (Hpb : phased (a <| due ::= fun _ => l |>)).
  { destruct Hc as [Hp _]. intros d' Hd'. apply Hp. rewrite E. apply elem_of_cons. by right. }
  destruct Hc as [_ Hlow]. change (log a) with (log (a <| due := l |>)) in Hph, Hlow.
  change (clock a) with (clock (a <| due := l |>)) in *.
  change l with (due (a <| due := l |>)) in HF. set (b := a <| due := l |>) in *.
  pose proof (ok_run_timer k b d x Hk Hb Hd) as Hok. pose proof (clock_run_timer d x b) as Hcl.
  pose proof (clock_run_due fuel now (run_timer d x b)) as Hmono.
  apply (IH (k + 2)); [lia|done|lia|done|by apply due_run_timer; [..|lia]|done|]. split.
  - apply (phased_run_timer k); [done..|]. intros Ex. split; [by apply Hph|]. lia.
  - rewrite calls_run_timer by done. case_bool_decide; cbn [b2z]; [|lia].
    specialize (Hph ltac:(done)). unfold on_time in Hph. lia.
Qed.

Lemma cadence_pass lo k now a :
  0 <= k -> ok [] k a -> lo <= clock a -> Forall (fun y => lo <= y.1) (due a) ->
  clock (pass a) <= lo + Z.max iv w -> now <= clock (tick a) ->
  cadence now a -> cadence (clock (tick a)) (pass a).
Proof.
  intros Hk Ha Hlo HF Hend Hn Hc. apply (cadence_mono _ _ _ Hn), cadence_tick in Hc. unfold pass.
  pose proof (clock_tick a). apply ok_tick in Ha.
  by apply (cadence_run_due _ _ lo (k + 1)); [lia|done|lia|lia|..].
Qed.

(** Every run so far was due by the present, and the next one is planned. *)
Lemma cadence_run ms lo a :
  spaced (Z.max iv w) lo (ms ++ [Pass]) a -> ready a -> lo <= clock a -> Forall (fun y => lo <= y.1) (due a) ->
  cadence (clock a) a ->
  let b := agenda_run ms a in cadence (clock (tick b)) (pass b).
Proof.
  revert lo a. induction ms as [|[] ms IH]; intros lo a Hsp Ha Hlo HF Hc; cbn [agenda_run app spaced agenda_do] in *.
  - destruct Hsp as [Hend _]. pose proof (clock_tick a).
    by apply (cadence_pass lo (24 + b2z (tcp_on a)) (clock a)); [destruct (tcp_on a); cbn; lia|..|lia|].
  - pose proof (clock_need_tcp a).
    apply (IH lo); [done|by apply ready_need_tcp|lia|by apply due_need_tcp|].
    eapply cadence_mono; [|by apply cadence_need_tcp]. lia.
  - destruct Hsp as [Hend Hsp]. pose proof (clock_tick a).
    assert (Hk : 0 <= 24 + b2z (tcp_on a)) by (destruct (tcp_on a); cbn; lia).
    destruct (pass_ok _ a Hk Ha) as (_ & Hd & Hcl).
    apply (IH (clock (tick a))); [done|by apply ready_pass|lia| |].
    + eapply Forall_impl; [exact Hd|]. cbn beta. lia.
    + apply (cadence_mono (clock (tick a))); [lia|].
      by apply (cadence_pass lo (24 + b2z (tcp_on a)) (clock a)); [..|lia|].
Qed.

(** The runs a pass leaves, against the time at which it begins. *)
Lemma cadence_count k a :
  0 <= k -> ok [] k a -> cadence (clock (tick a)) (pass a) ->
  let n := clock (tick a) - t0 in let c := calls f (log (pass a)) in c * iv <= n < (c + 1) * iv + c * w.
Proof.
  intros Hk Ha [Hp Hlo] n c. destruct (pass_ok k a Hk Ha) as ([_ Hperm _] & Hd & _).
  assert (Hin : cyclic i ∈ map snd (due (pass a))).
  { cbn [app] in Hperm. rewrite Hperm. unfold stack_timers. apply elem_of_app. left.
    apply list_elem_of_In, in_map. cbn. lia. }
  apply list_elem_of_In, in_map_iff in Hin as ([d x] & Hx & Hin). cbn in Hx. subst x.
  apply list_elem_of_In in Hin. rewrite Forall_forall in Hd. specialize (Hd _ Hin).
  apply Hp in Hin. cbn [fst] in Hd. unfold on_time, n, c in *. lia.
Qed.
End cadence.

(** ** The cadence from start-up *)

Section from_start.
Context (w : Z) (Hw : 0 <= w).
Context (i iv : Z) (f : lwip_tmr) (Hi : 1 <= i <= 5) (Hrow : lwip_cyclic_timers.[i] = Some (iv, f)).

(** Before the timer is started. *)
Definition unstarted (a : agenda) : Prop :=
  (forall d, (d, cyclic i) ∉ due a) /\ calls f (log a) = 0.

Lemma start_cyclic_due a j y :
  y ∈ due (start_cyclic a j) -> y.2 = cyclic j \/ y ∈ due a.
Proof.
  unfold start_cyclic. case_match; [|auto]. case_match; subst.
  intros [->|?]%elem_plan; auto.
Qed.

Lemma calls_start_cyclic a j : calls f (log (start_cyclic a j)) = calls f (log a).
Proof. unfold start_cyclic. case_match; [|done]. case_match. apply (calls_tick f a). Qed.

Lemma clock_start_cyclic a j : clock a <= clock (start_cyclic a j).
Proof.
  unfold start_cyclic. case_match; [|lia]. case_match. apply (clock_tick a).
Qed.

Lemma unstarted_fold js a :
  i ∉ js -> unstarted a -> unstarted (fold_left start_cyclic js a).
Proof.
  revert a. induction js as [|j js IH]; intros a Hj [Hn Hc]; [done|].
  apply not_elem_of_cons in Hj as [Hij Hj]. apply IH; [done|]. split.
  - intros d [[= Heq]|Hd]%start_cyclic_due; [done|]. by apply (Hn d).
  - by rewrite calls_start_cyclic.
Qed.

Lemma started_fold js t a :
  i ∉ js -> cadence i iv f t w (clock a) a ->
  cadence i iv f t w (clock (fold_left start_cyclic js a)) (fold_left start_cyclic js a).
Proof.
  revert a. induction js as [|j js IH]; intros a Hj [Hp Hc]; [done|].
  apply not_elem_of_cons in Hj as [Hij Hj]. apply IH; [done|].
  pose proof (clock_start_cyclic a j). split; [|rewrite calls_start_cyclic; lia].
  intros d Hd. rewrite calls_start_cyclic.
  apply start_cyclic_due in Hd as [[= Heq]|Hd]; [done|]. by apply Hp.
Qed.

Lemma started_here a :
  unstarted a -> let b := start_cyclic a i in cadence i iv f (clock b) w (clock b) b.
Proof.
  intros [Hn Hc] b. assert (Hcb : calls f (log b) = 0) by (unfold b; by rewrite calls_start_cyclic).
  split; [|rewrite Hcb; lia]. intros d Hd. rewrite Hcb.
  unfold b, start_cyclic in *. rewrite Hrow in *.
  apply elem_plan in Hd as [[= ->]|Hd]; [unfold on_time; cbn; lia|]. by apply Hn in Hd.
Qed.

(** The time at which the timer is started. *)
Definition started (t : Z) : Z :=
  clock (fold_left start_cyclic (seqZ 1 i) (Agenda t [] false [])).

Lemma cadence_init t :
  cadence i iv f (started t) w (clock (agenda_init t)) (agenda_init t).
Proof.
  assert (E : [1; 2; 3; 4; 5] = seqZ 1 i ++ seqZ (1 + i) (5 - i))
    by (rewrite <- seqZ_app by lia; by replace (i + (5 - i)) with 5 by lia).
  assert (E1 : seqZ 1 i = seqZ 1 (i - 1) ++ [i]).
  { replace [i] with (seqZ (1 + (i - 1)) 1) by (by replace (1 + (i - 1)) with i by lia).
    rewrite <- seqZ_app by lia. f_equal. lia. }
  unfold agenda_init, started. rewrite E, fold_left_app.
  apply started_fold; [rewrite elem_of_seqZ; lia|].
  rewrite E1, fold_left_app. apply started_here, unstarted_fold; [rewrite elem_of_seqZ; lia|].
  split; [|done]. intros d. apply not_elem_of_nil.
Qed.
End from_start.
End stack.
