(* ===== verification/TimeoutFacts.v ===== *)
(** * TimeoutFacts: the timers of the network stack are the agenda

    The linked list of [Timeouts] implements the list of deadlines of [Agenda],
    and the wrapping clock its unbounded one, as long as no two readings of the
    clock are more than [2 ^ 24] milliseconds (4.6 hours) apart. *)

From S2P Require Import Prelude Timeouts Agenda.

(** ** The wrapping clock *)

Lemma u32_add x y : u32 (u32 x + y) = u32 (x + y).
Proof. unfold u32. by rewrite Zplus_mod_idemp_l. Qed.

Lemma u32_sub x y : u32 (u32 x - u32 y) = u32 (x - y).
Proof. unfold u32. by rewrite Zminus_mod_idemp_l, Zminus_mod_idemp_r. Qed.

(** Times less than half the range apart are compared rightly. *)
Lemma TIME_LESS_THAN_u32 t c :
  - 2 ^ 31 <= t - c < 2 ^ 31 -> TIME_LESS_THAN (u32 t) (u32 c) = (t <? c).
Proof.
  intros H. unfold TIME_LESS_THAN, LWIP_MAX_TIMEOUT. rewrite u32_sub. unfold u32.
  destruct (Z.ltb_spec t c).
  - replace (t - c) with (t - c + 2 ^ 32 + (-1) * 2 ^ 32) by lia.
    rewrite Z_mod_plus_full, Z.mod_small by lia. apply Z.ltb_lt. lia.
  - rewrite Z.mod_small by lia. apply Z.ltb_ge. lia.
Qed.

(** ** Memory *)

Definition store (m : list sys_timeo) (i : Z) (x : sys_timeo) : list sys_timeo :=
  <[Z.to_nat i := x]> m.

Lemma length_store m i x : length (store m i x) = length m.
Proof. apply length_insert. Qed.

Lemma get_store m i t x : m.[i] = Some t -> (store m i x).[i] = Some x.
Proof.
  intros Hi%arr_get_lt. unfold store. rewrite insert_get by done. by rewrite decide_True.
Qed.

Lemma get_store_ne m i t x j : m.[i] = Some t -> j <> i -> (store m i x).[j] = m.[j].
Proof.
  intros Hi%arr_get_lt ?. unfold store. rewrite insert_get by done. by rewrite decide_False.
Qed.

Lemma deref_eq s i t : (memp s).[i] = Some t -> deref (Some i) s = Some (t, s).
Proof. unfold deref. cbn. by intros ->. Qed.

Lemma assign_eq s i t f :
  (memp s).[i] = Some t -> assign (Some i) f s = Some (tt, s <| memp := store (memp s) i (f t) |>).
Proof.
  intros H. unfold assign. cbn. rewrite H. cbn.
  by rewrite arr_set_is_Some by (by eapply arr_get_lt).
Qed.

Lemma deref_bind {B} s i t (k : sys_timeo -> ST timeouts B) :
  (memp s).[i] = Some t -> (deref (Some i) ≫= k) s = k t s.
Proof. intros H. by rewrite (st_bind_eq _ _ _ _ _ (deref_eq _ _ _ H)). Qed.

Lemma assign_bind {B} s i t f (k : unit -> ST timeouts B) :
  (memp s).[i] = Some t ->
  (assign (Some i) f ≫= k) s = k tt (s <| memp := store (memp s) i (f t) |>).
Proof. intros H. by rewrite (st_bind_eq _ _ _ _ _ (assign_eq _ _ _ _ H)). Qed.

(** The elements [l] linked from [p]. *)
Fixpoint chain (m : list sys_timeo) (p : option Z) (l : list Z) : Prop :=
  match l with
  | [] => p = None
  | i :: l' => p = Some i /\ exists t, m.[i] = Some t /\ chain m (next t) l'
  end.

(** The elements [l] linked from [p] hold the timers [ds]. *)
Fixpoint pending (m : list sys_timeo) (p : option Z) (l : list Z) (ds : list (Z * timer)) : Prop :=
  match l, ds with
  | [], [] => p = None
  | i :: l', (d, x) :: ds' =>
      p = Some i /\
      exists nx, m.[i] = Some (Timeo nx (u32 d) x.1 x.2) /\ pending m nx l' ds'
  | _, _ => False
  end.

Lemma chain_frame m m' p l :
  (forall i, i ∈ l -> m'.[i] = m.[i]) -> chain m p l -> chain m' p l.
Proof.
  revert p. induction l as [|i l IH]; intros p Hm; cbn; [done|].
  intros (-> & t & Ht & Hl). split; [done|]. exists t.
  rewrite Hm by set_solver. split; [done|]. apply IH; [set_solver|done].
Qed.

Lemma pending_frame m m' p l ds :
  (forall i, i ∈ l -> m'.[i] = m.[i]) -> pending m p l ds -> pending m' p l ds.
Proof.
  revert p ds. induction l as [|i l IH]; intros p [|[d x] ds] Hm; cbn; [done..|].
  intros (-> & nx & Ht & Hl). split; [done|]. exists nx.
  rewrite Hm by set_solver. split; [done|]. apply IH; [set_solver|done].
Qed.

Lemma pending_None m l ds : pending m None l ds -> l = [] /\ ds = [].
Proof. destruct l, ds as [|[]]; cbn; try done. by intros []. Qed.

Lemma pending_Some m j l ds : pending m (Some j) l ds ->
  exists l' d x ds', l = j :: l' /\ ds = (d, x) :: ds'.
Proof.
  destruct l, ds as [|[d x] ds]; cbn; try done. intros [[= <-] _]. by eexists _, d, x, _.
Qed.

Lemma pending_length m p l ds : pending m p l ds -> length l = length ds.
Proof.
  revert p ds. induction l as [|i l IH]; intros p [|[d x] ds]; cbn; try done.
  intros (_ & nx & _ & Hl). f_equal. by eapply IH.
Qed.

(** Everything the list of timers and the free list need. *)
Record shape (s : timeouts) (ts fs : list Z) (ds : list (Z * timer)) : Prop := {
  shape_pending : pending (memp s) (next_timeout s) ts ds;
  shape_free : chain (memp s) (memp_tab s) fs;
  shape_perm : ts ++ fs ≡ₚ seqZ 0 10;
  shape_length : length (memp s) = MEMP_NUM_SYS_TIMEOUT;
  shape_used : used s = Z.of_nat (length ts);
  shape_err : err s = 0
}.

Lemma shape_NoDup s ts fs ds : shape s ts fs ds -> NoDup (ts ++ fs).
Proof. intros [_ _ Hp _ _ _]. rewrite Hp. apply NoDup_seqZ. Qed.

Lemma shape_get s ts fs ds i : shape s ts fs ds -> i ∈ ts ++ fs -> exists t, (memp s).[i] = Some t.
Proof.
  intros [_ _ Hp Hl _ _]. rewrite Hp, elem_of_seqZ. intros Hi.
  apply arr_get_is_Some. rewrite Hl. cbv [MEMP_NUM_SYS_TIMEOUT]. lia.
Qed.

(** ** The pool *)

(** What the pool's operations leave alone. *)
Definition rest (s : timeouts) : Z * Z * Z * list event :=
  (current_timeout_due_time s, tcpip_tcp_timer_active s, lwip_sys_timer s, trace s).

Lemma memp_malloc_run s ts fs ds :
  shape s ts fs ds -> (length ds < MEMP_NUM_SYS_TIMEOUT)%nat ->
  exists i fs' s', fs = i :: fs' /\ memp_malloc s = Some (Some i, s') /\
    chain (memp s) (memp_tab s') fs' /\ used s' = Z.of_nat (length ts) + 1 /\
    err s' = 0 /\ memp s' = memp s /\ next_timeout s' = next_timeout s /\ rest s' = rest s.
Proof.
  intros [Hp Hf Hperm Hl Hu He] Hlen.
  apply Permutation_length in Hperm. rewrite length_app, length_seqZ in Hperm.
  rewrite <- (pending_length _ _ _ _ Hp) in Hlen. cbv [MEMP_NUM_SYS_TIMEOUT] in Hlen.
  destruct fs as [|i fs]; [cbn in Hperm; lia|].
  destruct Hf as (E & t & Ht & Hf). exists i, fs.
  unfold memp_malloc. rewrite st_get_bind, E, (deref_bind s i t) by done.
  rewrite !st_mod_bind, !st_get_bind. unfold when.
  destruct (_ <? _); (eexists; split; [done|]; split; [reflexivity|]); cbn -[u16];
    rewrite Hu, u16_small by lia; done.
Qed.

Lemma memp_free_run s (n : nat) i t :
  used s = Z.of_nat n -> err s = 0 -> (memp s).[i] = Some t ->
  exists s', memp_free (Some i) s = Some (tt, s') /\
    memp s' = store (memp s) i (t <| next := memp_tab s |>) /\ memp_tab s' = Some i /\
    used s' = u16 (Z.of_nat n - 1) /\ err s' = 0 /\
    next_timeout s' = next_timeout s /\ rest s' = rest s.
Proof.
  intros Hu He Ht. unfold memp_free. rewrite st_mod_bind, st_get_bind.
  rewrite (assign_bind _ i t) by done.
  eexists; split; [reflexivity|]. cbn -[u16]. by rewrite Hu.
Qed.

(** ** Insertion *)

(** The new element [i] linked in behind [j]. *)
Lemma insert_here s i D x nx j nj l d0 x0 ds :
  i ∉ l -> j ∉ l -> i <> j ->
  (memp s).[i] = Some (Timeo nx (u32 D) x.1 x.2) ->
  (memp s).[j] = Some (Timeo nj (u32 d0) x0.1 x0.2) -> pending (memp s) nj l ds ->
  exists m, (assign (Some i) (set next (fun _ => nj));;
             assign (Some j) (set next (fun _ => Some i))) s = Some (tt, s <| memp := m |>) /\
    pending m (Some j) (j :: i :: l) ((d0, x0) :: (D, x) :: ds) /\
    length m = length (memp s) /\ forall q, q ∉ i :: j :: l -> m.[q] = (memp s).[q].
Proof.
  intros Hi Hj Hij Ei Ej Hl. rewrite (assign_bind s i _) by exact Ei.
  set (m1 := store _ i _).
  assert (Ej1 : m1.[j] = Some (Timeo nj (u32 d0) x0.1 x0.2))
    by (unfold m1; by erewrite get_store_ne).
  assert (Ei1 : m1.[i] = Some (Timeo nj (u32 D) x.1 x.2)) by (by eapply get_store).
  eexists. split; [exact (assign_eq (s <| memp := m1 |>) j _ _ Ej1)|]. cbn [memp set].
  split; [|split; [by rewrite length_store; unfold m1; rewrite length_store|]].
  - split; [done|]. exists (Some i). split; [by eapply get_store|].
    split; [done|]. exists nj. split; [by erewrite get_store_ne|].
    eapply pending_frame; [|exact Hl]. intros q Hq.
    erewrite get_store_ne by (exact Ej1 || set_solver). unfold m1.
    erewrite get_store_ne by (exact Ei || set_solver). done.
  - intros q Hq. erewrite get_store_ne by (exact Ej1 || set_solver). unfold m1.
    erewrite get_store_ne by (exact Ei || set_solver). done.
Qed.

(** The walk from element [j], which is not due later than the new element
    [i], puts [i] in its place behind [j]. *)
Lemma insert_from_run fuel i D x nx j l d0 x0 ds s :
  (length l < fuel)%nat -> NoDup (i :: j :: l) ->
  (memp s).[i] = Some (Timeo nx (u32 D) x.1 x.2) ->
  pending (memp s) (Some j) (j :: l) ((d0, x0) :: ds) ->
  Forall (fun y => - 2 ^ 31 <= D - y.1 < 2 ^ 31) ds ->
  exists m l', insert_from fuel (Some i) (Some j) s = Some (tt, s <| memp := m |>) /\
    pending m (Some j) (j :: l') ((d0, x0) :: insert_due (D, x) ds) /\
    l' ≡ₚ i :: l /\ length m = length (memp s) /\
    forall q, q ∉ i :: j :: l -> m.[q] = (memp s).[q].
Proof.
  revert j l d0 x0 ds. induction fuel as [|fuel IH]; intros j l d0 x0 ds Hf Hnd Hi Hp HF; [lia|].
  pose proof Hp as (_ & nj & Hj & Hl). cbn [insert_from].
  rewrite (deref_bind s j _) by exact Hj. rewrite (deref_bind s i _) by exact Hi.
  cbn [next time].
  apply NoDup_cons in Hnd as [Hni Hnd]. apply NoDup_cons in Hnd as [Hnj Hnd].
  destruct l as [|k l], ds as [|[d1 x1] ds]; try done.
  - cbn in Hl. subst nj. rewrite st_ret_bind.
    destruct (insert_here s i D x nx j None [] d0 x0 []) as (m & E & Hm & Hlen & Hfr);
      [set_solver..|done|done|done|].
    exists m, [i]. done.
  - pose proof Hl as (-> & nk & Hk & Hl2). apply Forall_cons_1 in HF as [Hd HF].
    rewrite (st_bind_eq _ _ s (D <? d1) s);
      [|rewrite (deref_bind s k _) by exact Hk; cbn [time]; by rewrite TIME_LESS_THAN_u32].
    cbn [insert_due fst].
    destruct (D <? d1) eqn:Hlt.
    + destruct (insert_here s i D x nx j (Some k) (k :: l) d0 x0 ((d1, x1) :: ds))
        as (m & E & Hm & Hlen & Hfr); [set_solver..|done|done|done|].
      exists m, (i :: k :: l). done.
    + destruct (IH k l d1 x1 ds) as (m & l' & E & Hm & Hp' & Hlen & Hfr);
        [cbn in Hf; lia|constructor; [set_solver|done]|done|done|done|].
      exists m, (k :: l'). split; [exact E|]. split; [|split; [|split; [done|]]].
      * split; [done|]. exists (Some k). split; [|done]. by rewrite Hfr by set_solver.
      * rewrite Hp'. apply Permutation_swap.
      * intros q Hq. apply Hfr. set_solver.
Qed.

Definition in_range (D : Z) (ds : list (Z * timer)) : Prop :=
  Forall (fun y => - 2 ^ 31 <= D - y.1 < 2 ^ 31) ds.

Lemma store_pending s ts fs ds i t y :
  shape s ts (i :: fs) ds -> (memp s).[i] = Some t ->
  pending (store (memp s) i y) (next_timeout s) ts ds.
Proof.
  intros Hs Ht. pose proof (shape_NoDup _ _ _ _ Hs) as Hnd. destruct Hs as [Hp _ _ _ _ _].
  eapply pending_frame; [|exact Hp]. intros q Hq. eapply get_store_ne; [exact Ht|].
  apply NoDup_app in Hnd as (_ & Hd & _). intros ->. apply (Hd i); set_solver.
Qed.

(** The new element is used, the timers have their new list, the free list is
    untouched. *)
Lemma shape_add s s1 ts fs ds i m p ts' ds' nt :
  shape s ts (i :: fs) ds -> memp s1 = memp s -> used s1 = Z.of_nat (length ts) + 1 ->
  err s1 = 0 -> chain (memp s) (memp_tab s1) fs ->
  m = s1 <| memp := p |> <| next_timeout := nt |> ->
  pending p nt ts' ds' -> ts' ≡ₚ i :: ts -> length p = length (memp s) ->
  (forall q, q ∉ i :: ts -> p.[q] = (memp s).[q]) ->
  shape m ts' fs ds'.
Proof.
  intros Hs Hm Hu He Hf -> Hp Hperm Hlen Hfr. pose proof (shape_NoDup _ _ _ _ Hs) as Hnd.
  destruct Hs as [_ _ Hp0 Hl0 _ _]. constructor; cbn [memp next_timeout memp_tab used err set]; try done.
  - eapply chain_frame; [|exact Hf]. intros q Hq. apply Hfr.
    apply NoDup_app in Hnd as (_ & Hd & Hnd). apply NoDup_cons in Hnd as [Hi _].
    intros [->|Hq2]%elem_of_cons; [done|]. apply (Hd q); set_solver.
  - rewrite Hperm, <- Hp0. cbn. by rewrite Permutation_middle.
  - by rewrite Hlen.
  - apply Permutation_length in Hperm. rewrite Hperm. cbn. lia.
Qed.

Lemma sys_timeout_abs_run s ts fs ds D x :
  shape s ts fs ds -> (length ds < MEMP_NUM_SYS_TIMEOUT)%nat -> in_range D ds ->
  exists ts' fs' s', sys_timeout_abs (u32 D) x.1 x.2 s = Some (tt, s') /\
    shape s' ts' fs' (insert_due (D, x) ds) /\ rest s' = rest s.
Proof.
  intros Hs Hlen HR.
  destruct (memp_malloc_run _ _ _ _ Hs Hlen) as (i & fs' & s1 & -> & E & Hf & Hu & He & Hm & Hn & Hr).
  unfold sys_timeout_abs. rewrite (st_bind_eq _ _ _ _ _ E).
  pose proof (shape_NoDup _ _ _ _ Hs) as Hnd.
  destruct (shape_get _ _ _ _ i Hs) as [t Ht]; [set_solver|].
  assert (Ht1 : (memp s1).[i] = Some t) by (by rewrite Hm).
  rewrite (assign_bind s1 i t) by exact Ht1.
  set (y := Timeo None (u32 D) x.1 x.2). set (m1 := store (memp s1) i y).
  set (s2 := s1 <| memp := m1 |>).
  assert (Hi2 : (memp s2).[i] = Some y) by (by eapply get_store).
  assert (Hp2 : pending (memp s2) (next_timeout s) ts ds).
  { cbn. unfold m1. rewrite Hm. by eapply store_pending. }
  assert (Hni : i ∉ ts) by (apply NoDup_app in Hnd as (_ & Hd & _); intros ?; apply (Hd i); set_solver).
  assert (Hfr : forall q, q ∉ i :: ts -> m1.[q] = (memp s).[q]).
  { intros q Hq. rewrite <- Hm. eapply get_store_ne; [exact Ht1|]. set_solver. }
  assert (Hl1 : length m1 = length (memp s)) by (unfold m1; by rewrite length_store, Hm).
  rewrite st_get_bind. change (next_timeout s2) with (next_timeout s1). rewrite Hn.
  destruct (next_timeout s) as [j|] eqn:Ej.
  - destruct (pending_Some _ _ _ _ Hp2) as (l & d0 & x0 & ds' & -> & ->).
    pose proof Hp2 as (_ & nj & Hj & Hl). apply Forall_cons in HR as [Hd0 HR].
    rewrite (deref_bind s2 i y) by exact Hi2. rewrite (deref_bind s2 j _) by exact Hj.
    cbn [time]. unfold y at 1. cbn [time]. rewrite TIME_LESS_THAN_u32 by exact Hd0.
    cbn [insert_due fst]. destruct (D <? d0) eqn:Hlt.
    + rewrite (assign_bind s2 i y) by exact Hi2.
      eexists (i :: j :: l), fs', _. split; [reflexivity|]. split; [|exact Hr].
      eapply (shape_add s s1); try done.
      * split; [done|]. eexists. split; [by eapply get_store|].
        eapply pending_frame; [|exact Hp2]. intros q Hq. eapply get_store_ne; [exact Hi2|].
        set_solver.
      * cbn [memp set s2]. by rewrite length_store.
      * intros q Hq. erewrite get_store_ne; [by apply Hfr|exact Hi2|set_solver].
    + destruct (insert_from_run MEMP_NUM_SYS_TIMEOUT i D x None j l d0 x0 ds' s2)
        as (m & l' & E2 & Hm2 & Hperm & Hlm & Hfm); try done.
      { apply pending_length in Hp2. cbn in Hlen, Hp2. lia. }
      { constructor; [done|]. by apply NoDup_app in Hnd as (? & _). }
      eexists (j :: l'), fs', _. split; [exact E2|]. split; [|exact Hr].
      eapply (shape_add s s1 _ _ _ i _ m _ _ (Some j)); try done.
      * unfold s2. destruct s1; cbn in Hn |- *. by rewrite Hn.
      * rewrite Hperm. apply Permutation_swap.
      * by rewrite Hlm.
      * intros q Hq. rewrite Hfm by done. by apply Hfr.
  - apply pending_None in Hp2 as [-> ->].
    eexists [i], fs', _. split; [reflexivity|]. split; [|exact Hr].
    eapply (shape_add s s1); try done. split; [done|]. by exists None.
Qed.

(** ** The agenda, implemented *)

(** [c] is the time at which the timer that runs was due. *)
Record rep (c : Z) (s : timeouts) (a : agenda) : Prop := {
  rep_shape : exists ts fs, shape s ts fs (due a);
  rep_due : current_timeout_due_time s = c;
  rep_active : tcpip_tcp_timer_active s = b2z (tcp_on a);
  rep_clock : lwip_sys_timer s = u32 (clock a);
  rep_trace : trace s = log a
}.

Section stack.
Context {K : Stack}.

Lemma sys_now_run c s a : rep c s a ->
  exists s', sys_now s = Some (u32 (clock (tick a)), s') /\ rep c s' (tick a).
Proof.
  intros [(ts & fs & Hs) Hd Ha Hc Ht]. unfold sys_now. rewrite Hc, Ht, u32_add.
  eexists. split; [reflexivity|]. constructor; try done.
  - exists ts, fs. destruct Hs. by constructor.
  - cbn -[u32]. by rewrite Ht.
Qed.

Lemma plan_run c s a D x :
  rep c s a -> (length (due a) < MEMP_NUM_SYS_TIMEOUT)%nat -> in_range D (due a) ->
  exists s', sys_timeout_abs (u32 D) x.1 x.2 s = Some (tt, s') /\ rep c s' (plan D x a).
Proof.
  intros [(ts & fs & Hs) Hd Ha Hc Ht] Hl HR.
  destruct (sys_timeout_abs_run _ _ _ _ D x Hs Hl HR) as (ts' & fs' & s' & E & Hs' & [= E1 E2 E3 E4]).
  exists s'. split; [exact E|]. constructor; [by exists ts', fs'|..]; cbn; congruence.
Qed.

Lemma start_run c s a ms x :
  rep c s a -> (length (due a) < MEMP_NUM_SYS_TIMEOUT)%nat ->
  in_range (clock (tick a) + ms) (due a) ->
  exists s', sys_timeout ms x.1 x.2 s = Some (tt, s') /\ rep c s' (start ms x a).
Proof.
  intros Hr Hl HR. destruct (sys_now_run _ _ _ Hr) as (s1 & E & Hr1).
  unfold sys_timeout. rewrite (st_bind_eq _ _ _ _ _ E), u32_add.
  apply plan_run; done.
Qed.

(** ** Within the range of the clock *)

Definition LAG : Z := 2 ^ 24.

Context (Hlag : forall l, 10 * Z.of_nat (ticks l) <= LAG).

(** What the operations need of the agenda: room for one more timer, and
    deadlines near the clock. *)
Definition near (k : Z) (a : agenda) : Prop :=
  (length (due a) < MEMP_NUM_SYS_TIMEOUT)%nat /\
  Forall (fun x => clock a - k * LAG <= x.1 <= clock a + horizon) (due a).

Lemma ok_is_near out k a : ok LAG out k a -> near k a.
Proof.
  intros Ho. split; [|by destruct Ho]. apply ok_length in Ho. cbv [MEMP_NUM_SYS_TIMEOUT]. lia.
Qed.

Lemma near_range k a D :
  near k a -> 0 <= k <= 62 -> clock a - k * LAG <= D <= clock a + horizon + LAG ->
  in_range D (due a).
Proof.
  intros [_ HF] Hk HD. unfold in_range. eapply Forall_impl; [exact HF|]. cbn beta.
  intros y Hy. unfold LAG in *. change horizon with 60000 in *. nia.
Qed.

Lemma near_start_run c s a k ms x :
  rep c s a -> near k a -> 0 <= k <= 62 -> 0 <= ms <= horizon ->
  exists s', sys_timeout ms x.1 x.2 s = Some (tt, s') /\ rep c s' (start ms x a).
Proof.
  intros Hr Hn Hk Hm. pose proof (clock_tick LAG Hlag a).
  apply start_run; [done|by destruct Hn|]. apply (near_range k); [done..|]. unfold LAG in *. lia.
Qed.

Lemma need_tcp_run c s a k :
  rep c s a -> near k a -> 0 <= k <= 62 ->
  exists s', tcp_timer_needed s = Some (tt, s') /\ rep c s' (need_tcp a).
Proof.
  intros Hr Ho Hk. pose proof Hr as [(ts & fs & Hs) Hd Ha Hc Ht].
  unfold tcp_timer_needed, need_tcp. rewrite !st_get_bind, Ha, Ht.
  replace (b2z (tcp_on a) =? 0) with (negb (tcp_on a)) by (by destruct (tcp_on a)).
  destruct (_ && _) eqn:E; [|by eexists]. rewrite when_true, st_mod_bind.
  apply (near_start_run c _ _ k TCP_TMR_INTERVAL tcp); [|done|done|cbv; split; discriminate].
  constructor; try done. exists ts, fs. by destruct Hs.
Qed.

Lemma rep_log c s a e :
  rep c s a ->
  rep c (s <| trace ::= fun l => l ++ [e] |>) (a <| log ::= fun l => l ++ [e] |>).
Proof.
  intros [(ts & fs & Hs) Hd Ha Hc Ht]. constructor; try done; [|cbn; by rewrite Ht].
  exists ts, fs. by destruct Hs.
Qed.

Lemma called_run c s a k f :
  rep c s a -> near k a -> 0 <= k <= 62 ->
  exists s', call f s = Some (tt, s') /\ rep c s' (called f a).
Proof.
  intros Hr%(rep_log c s a (Call f)) Hn Hk. unfold call, called.
  rewrite st_mod_bind, st_get_bind, (rep_trace _ _ _ Hr).
  destruct (registers _); [|by eexists]. by apply (need_tcp_run c _ _ k).
Qed.

Lemma run_tcp_run c s a k :
  rep c s a -> ok LAG [tcp] k a -> tcp_on a = true -> 0 <= k <= 60 ->
  exists s', tcpip_tcp_timer s = Some (tt, s') /\ rep c s' (run_tcp a).
Proof.
  intros Hr Ho Hon Hk.
  destruct (called_run c s a k tcp_tmr Hr (ok_is_near _ _ _ Ho) ltac:(lia)) as (s1 & E & Hr1).
  unfold tcpip_tcp_timer, run_tcp. rewrite (st_bind_eq _ _ _ _ _ E), st_get_bind.
  rewrite (rep_trace _ _ _ Hr1). destruct (pcbs _).
  - apply (ok_called LAG Hlag _ _ tcp_tmr) in Ho; [|lia].
    apply (near_start_run c _ _ (k + 1) TCP_TMR_INTERVAL tcp);
      [done|by eapply ok_is_near|lia|cbv; split; discriminate].
  - eexists. split; [reflexivity|]. destruct Hr1 as [(ts & fs & Hs) Hd Ha Hc Ht].
    constructor; try done. exists ts, fs. by destruct Hs.
Qed.

Lemma run_cyclic_run i iv f d s a k :
  rep (u32 d) s a -> lwip_cyclic_timers.[i] = Some (iv, f) -> 0 < iv <= horizon ->
  ok LAG [cyclic i] k a -> 0 <= k <= 60 -> clock a - k * LAG <= d <= clock a ->
  exists s', lwip_cyclic_timer (Some i) s = Some (tt, s') /\
    rep (u32 d) s' (run_cyclic i iv f d a).
Proof.
  intros Hr Hrow Hiv Ho Hk Hd.
  destruct (called_run _ s a k f Hr (ok_is_near _ _ _ Ho) ltac:(lia)) as (s1 & E & Hr1).
  unfold lwip_cyclic_timer, run_cyclic.
  rewrite (st_bind_eq _ _ s (iv, f) s); [|unfold st_opt; cbn; by rewrite Hrow]. cbn [fst snd].
  rewrite (st_bind_eq _ _ _ _ _ E).
  destruct (sys_now_run _ _ _ Hr1) as (s2 & E2 & Hr2). rewrite (st_bind_eq _ _ _ _ _ E2).
  rewrite st_get_bind, (rep_due _ _ _ Hr2), u32_add.
  pose proof (clock_called LAG Hlag f a). pose proof (clock_tick LAG Hlag (called f a)).
  apply (ok_called LAG Hlag _ _ f), (ok_tick LAG Hlag) in Ho; [|lia].
  apply ok_is_near in Ho.
  change horizon with 60000 in *. unfold LAG in *.
  rewrite TIME_LESS_THAN_u32 by nia. rewrite u32_add.
  destruct (d + iv <? _) eqn:Hlt; zb; (apply (plan_run _ _ _ _ (cyclic i)); [done|by destruct Ho|]);
    (eapply near_range; [exact Ho|lia|]; unfold LAG; change horizon with 60000; lia).
Qed.

Lemma run_timer_run d x s a k :
  rep (u32 d) s a -> ok LAG [x] k a -> 0 <= k <= 60 -> clock a - k * LAG <= d <= clock a ->
  exists hd s', x.1 = Some hd /\ dispatch hd x.2 s = Some (tt, s') /\
    rep (u32 d) s' (run_timer d x a).
Proof.
  intros Hr Ho Hk Hd. pose proof (ok_timers _ _ _ _ Ho) as Hp.
  destruct (stack_timer_cases x _ _ Hp) as [(-> & Hon & _)|(i & Hi & ->)].
  - eexists tcpip_tcp_timer_h.
    destruct (run_tcp_run _ _ _ _ Hr Ho Hon Hk) as (s' & ? & ?). by exists s'.
  - destruct (cyclic_row i Hi) as (iv & f & Hrow & Hiv).
    destruct (run_cyclic_run i iv f d s a k) as (s' & ? & Hr'); [done..|].
    exists lwip_cyclic_timer_h, s'. split; [done|]. split; [done|].
    cbn. by rewrite Hrow.
Qed.

(** The first timer of the list released. *)
Lemma pop_run c s a d x l :
  rep c s a -> due a = (d, x) :: l ->
  exists i nx, next_timeout s = Some i /\ (memp s).[i] = Some (Timeo nx (u32 d) x.1 x.2) /\
  exists s', memp_free (Some i) (s <| next_timeout := nx |> <| current_timeout_due_time := u32 d |>)
               = Some (tt, s') /\ rep (u32 d) s' (a <| due := l |>).
Proof.
  intros [(ts & fs & Hs) Hd Ha Hc Ht] E. pose proof (shape_NoDup _ _ _ _ Hs) as Hnd.
  destruct Hs as [Hp Hf Hperm Hl Hu He]. rewrite E in Hp.
  destruct ts as [|i ts]; [done|]. destruct Hp as (Hn & nx & Hi & Hp).
  exists i, nx. split; [done|]. split; [done|].
  match goal with |- context [memp_free _ ?s0] =>
    destruct (memp_free_run s0 (length (i :: ts)) i _ Hu He Hi)
      as (s' & E' & Hm & Hmt & Hu' & He' & Hn' & [= R1 R2 R3 R4])
  end.
  cbn -[store u16 u32] in Hm, Hn', R1, R2, R3, R4.
  exists s'. split; [exact E'|]. cbn [app] in Hnd. apply NoDup_cons in Hnd as [Hni Hnd].
  assert (Hfr : forall q, q ∈ ts ++ fs -> (memp s').[q] = (memp s).[q]).
  { intros q Hq. rewrite Hm. eapply get_store_ne; [exact Hi|]. set_solver. }
  constructor; try (cbn; congruence). exists ts, (i :: fs). constructor.
  - rewrite Hn'. eapply pending_frame; [|exact Hp]. set_solver.
  - rewrite Hmt. split; [done|]. eexists. split; [rewrite Hm; by eapply get_store|].
    eapply chain_frame; [|exact Hf]. set_solver.
  - rewrite <- Hperm. cbn. by rewrite Permutation_middle.
  - rewrite Hm, length_store. done.
  - rewrite Hu'. apply Permutation_length in Hperm. rewrite length_app, length_seqZ in Hperm.
    cbn in Hperm |- *. rewrite u16_small; lia.
  - done.
Qed.

Lemma check_loop_run fuel now c s a k :
  rep c s a -> ok LAG [] k a -> 0 <= k -> k + 2 * Z.of_nat (weight now (due a)) <= 60 ->
  clock a - k * LAG <= now <= clock a -> (weight now (due a) < fuel)%nat ->
  exists s' c', check_loop fuel (u32 now) s = Some (tt, s') /\ rep c' s' (run_due fuel now a).
Proof.
  revert c s a k. induction fuel as [|fuel IH]; intros c s a k Hr Ho Hk Hkw Hn Hw; [lia|].
  cbn [check_loop run_due]. rewrite st_get_bind.
  destruct (due a) as [|[d x] l] eqn:E.
  { pose proof Hr as [(ts & fs & [Hp _ _ _ _ _]) _ _ _ _]. rewrite E in Hp.
    destruct ts; [|done]. rewrite Hp. by exists s, c. }
  destruct (pop_run _ _ _ _ _ _ Hr E) as (i & nx & -> & Hi & s1 & Hfree & Hr1).
  rewrite (deref_bind s i _) by exact Hi. cbn [time next h arg].
  pose proof (ok_near _ _ _ _ Ho) as HF. rewrite E in HF. apply Forall_cons_1 in HF as [Hd _].
  cbn [fst] in Hd. change horizon with 60000 in Hd. unfold LAG in Hd, Hn.
  rewrite TIME_LESS_THAN_u32 by (unfold LAG; nia).
  destruct (now <? d) eqn:Hlt; zb; [by exists s, c|].
  rewrite !st_mod_bind. rewrite (st_bind_eq _ _ _ _ _ Hfree).
  destruct (ok_pop LAG k a d x l Ho E ltac:(lia)) as (Hb & Hdb & Hx).
  change l with (due (a <| due := l |>)) in Hw, Hkw. set (b := a <| due := l |>) in *.
  change (clock a) with (clock b) in *.
  destruct (run_timer_run d x s1 b k Hr1 Hb ltac:(lia) Hdb) as (hd & s2 & Eh & E2 & Hr2).
  rewrite Eh, (st_bind_eq _ _ _ _ _ E2).
  pose proof (ok_run_timer LAG Hlag k b d x Hk Hb Hdb) as Hc.
  pose proof (weight_run_timer LAG Hlag now b d x Hx ltac:(lia)) as Hlt2.
  pose proof (clock_run_timer LAG Hlag d x b) as Hcl. rewrite weight_cons in *. cbn [fst] in *.
  apply (IH (u32 d) s2 (run_timer d x b) (k + 2)); [done|done|lia|lia|unfold LAG in *; lia|lia].
Qed.

Lemma pass_run c s a :
  rep c s a -> ready LAG a ->
  exists s' c', sys_check_timeouts s = Some (tt, s') /\ rep c' s' (pass a).
Proof.
  intros Hr Ho. destruct (sys_now_run _ _ _ Hr) as (s1 & E & Hr1).
  unfold sys_check_timeouts, pass. rewrite (st_bind_eq _ _ _ _ _ E).
  apply (ok_tick LAG Hlag) in Ho.
  pose proof (ok_weight _ _ _ (clock (tick a)) Ho).
  eapply check_loop_run; [done|exact Ho|..];
    unfold LAG; destruct (tcp_on a); cbn [b2z]; try lia; cbv [check_fuel MEMP_NUM_SYS_TIMEOUT]; lia.
Qed.

Lemma main_run_run ms c s a :
  rep c s a -> ready LAG a ->
  exists s' c', main_run ms s = Some (tt, s') /\ rep c' s' (agenda_run ms a).
Proof.
  revert c s a. induction ms as [|m ms IH]; intros c s a Hr Ho; cbn [main_run agenda_run].
  { by exists s, c. }
  assert (Hm : exists s1 c1, main_do m s = Some (tt, s1) /\ rep c1 s1 (agenda_do m a) /\
    ready LAG (agenda_do m a)).
  { destruct m; cbn.
    - destruct (need_tcp_run c s a 25 Hr) as (s1 & ? & ?).
      + eapply ok_is_near, ok_mono, Ho; [done|]. destruct (tcp_on a); cbn; lia.
      + lia.
      + exists s1, c. split; [done|]. split; [done|]. by apply ready_need_tcp.
    - destruct (pass_run c s a Hr Ho) as (s1 & c1 & ? & ?). exists s1, c1.
      split; [done|]. split; [done|]. by apply ready_pass. }
  destruct Hm as (s1 & c1 & E & Hr1 & Ho1). rewrite (st_bind_eq _ _ _ _ _ E). by eapply IH.
Qed.

(** ** From start-up *)

Lemma init_pool_run t0 : exists s,
  memp_init_pool (static_zero (u32 t0)) = Some (tt, s) /\ rep 0 s (Agenda t0 [] false []).
Proof.
  exists (Timeouts (Timeo None 0 None None :: map (fun i => Timeo (Some i) 0 None None) (seqZ 0 9))
    (Some 9) 0 0 0 None 0 0 (u32 t0) []).
  split; [generalize (u32 t0); intros c; vm_compute; reflexivity|]. constructor; try done.
  exists [], [9; 8; 7; 6; 5; 4; 3; 2; 1; 0]. constructor; try done.
  - repeat (split; [reflexivity|]; eexists; split; [vm_compute; reflexivity|]). done.
  - symmetry. exact (Permutation_rev (seqZ 0 10)).
Qed.

Lemma init_from_run n i k s a :
  rep 0 s a -> ok LAG (map cyclic (seqZ i (Z.of_nat n))) k a ->
  0 <= k -> k + Z.of_nat n <= 60 -> 1 <= i -> i + Z.of_nat n <= 6 ->
  exists s', st_for n i (fun i => row ← st_opt lwip_cyclic_timers.[i];
      sys_timeout row.1 (Some lwip_cyclic_timer_h) (Some i)) s = Some (tt, s') /\
    rep 0 s' (fold_left start_cyclic (seqZ i (Z.of_nat n)) a).
Proof.
  revert i k s a. induction n as [|n IH]; intros i k s a Hr Ho Hk Hkn Hi Hin.
  { by exists s. }
  rewrite seqZ_cons in Ho |- * by lia. replace (Z.pred (Z.of_nat (S n))) with (Z.of_nat n) in Ho |- * by lia.
  cbn [map fold_left] in Ho |- *. unfold st_for. cbn [for_up].
  destruct (cyclic_row i ltac:(lia)) as (iv & f & Hrow & Hiv).
  destruct (near_start_run 0 s a k iv (cyclic i) Hr (ok_is_near _ _ _ Ho)) as (s1 & E1 & Hr1); [lia..|].
  rewrite Hrow. rewrite (st_bind_eq _ _ s (iv, f) s eq_refl). cbn [fst].
  change (sys_timeout iv _ _ s) with (sys_timeout iv (cyclic i).1 (cyclic i).2 s).
  rewrite E1. cbn [fmap option_fmap option_map snd mbind option_bind].
  apply (IH (i + 1) (k + 1)); [..|lia|lia|lia|lia].
  - unfold start_cyclic. by rewrite Hrow.
  - apply (ok_start_cyclic LAG Hlag); [lia|lia|]. done.
Qed.

Lemma main_from_run t0 ms :
  exists s c, main_from ms (static_zero (u32 t0)) = Some (tt, s) /\
    rep c s (agenda_run ms (agenda_init t0)).
Proof.
  destruct (init_pool_run t0) as (s0 & E0 & Hr0). unfold main_from.
  rewrite (st_bind_eq _ _ _ _ _ E0).
  destruct (init_from_run 5 1 0 s0 _ Hr0 (ok_empty LAG t0)) as (s1 & E1 & Hr1); [lia..|].
  rewrite (st_bind_eq sys_timeouts_init _ _ _ _ E1).
  apply (main_run_run ms 0 s1 (agenda_init t0)); [exact Hr1|]. by apply ready_init.
Qed.
End stack.
