(* ===== verification/TimeoutOps.v ===== *)
(** * TimeoutOps: cancelling and inspecting timers (LwIP/core/timeouts.c)

    [sys_untimeout], [sys_timeouts_sleeptime] and [sys_restart_timeouts] on the
    agenda. *)

From S2P Require Import Prelude Timeouts Agenda TimeoutFacts.

(** The agenda without the first timer with this callback and argument. *)
Fixpoint cancel (x : timer) (l : list (Z * timer)) : list (Z * timer) :=
  match l with
  | [] => []
  | y :: l' => if bool_decide (y.2 = x) then l' else y :: cancel x l'
  end.

(** ** Cancelling *)

(** Release of [i], linked from [prev], whose successor is [nx]. *)
Lemma matches_eq t (x y : timer) :
  h t = y.1 -> arg t = y.2 ->
  bool_decide (h t = x.1) && bool_decide (arg t = x.2) = bool_decide (y = x).
Proof.
  intros -> ->. destruct x, y; cbn. repeat case_bool_decide; naive_solver.
Qed.

(** What releasing the element [i] does to the pool. *)
Definition released (s s' : timeouts) (i : Z) : Prop :=
  memp_tab s' = Some i /\ used s' = u16 (used s - 1) /\ err s' = err s /\ rest s' = rest s /\
  exists t, (memp s').[i] = Some t /\ next t = memp_tab s.

Lemma memp_free_released s i t :
  (memp s).[i] = Some t ->
  exists s', memp_free (Some i) s = Some (tt, s') /\ released s s' i /\
    next_timeout s' = next_timeout s /\ length (memp s') = length (memp s) /\
    forall q, q <> i -> (memp s').[q] = (memp s).[q].
Proof.
  intros Ht. unfold memp_free. rewrite st_mod_bind, st_get_bind.
  rewrite (assign_bind _ i t) by done. eexists. split; [reflexivity|].
  split; [|split; [done|split]].
  - repeat split. eexists. split; [by eapply get_store|]. done.
  - apply length_store.
  - intros q Hq. by eapply get_store_ne.
Qed.

(** Behind the element [j], which stays. *)
Lemma untimeout_behind fuel x j p l d0 x0 ds s :
  (length l <= fuel)%nat -> NoDup (j :: l) ->
  pending (memp s) (Some j) (j :: l) ((d0, x0) :: ds) ->
  (memp s).[j] = Some (Timeo p (u32 d0) x0.1 x0.2) ->
  exists s', untimeout_from fuel x.1 x.2 (Some j) p s = Some (tt, s') /\
    next_timeout s' = next_timeout s /\ length (memp s') = length (memp s) /\
    (forall q, q ∉ j :: l -> (memp s').[q] = (memp s).[q]) /\
    exists l', pending (memp s') (Some j) (j :: l') ((d0, x0) :: cancel x ds) /\
      (s' = s /\ l' = l \/ exists i, released s s' i /\ l ≡ₚ i :: l').
Proof.
  revert j p l d0 x0 ds. induction fuel as [|fuel IH];
    intros j p l d0 x0 ds Hf Hnd Hp Hj; pose proof Hp as (_ & p' & Hj' & Hl);
    rewrite Hj in Hj'; injection Hj' as <-; destruct l as [|i l], ds as [|[d1 x1] ds]; try done;
    cbn in Hf; try lia;
    try (cbn in Hl; subst p; exists s; split; [done|]; split; [done|]; split; [done|];
         split; [done|]; exists []; split; [done|by left]).
  pose proof Hl as (-> & nx & Hi & Hl').
  apply NoDup_cons in Hnd as [Hnj Hnd]. pose proof Hnd as [Hni Hnd']%NoDup_cons.
  cbn [untimeout_from]. rewrite (deref_bind s i _) by exact Hi.
  rewrite (matches_eq _ x x1) by done. cbn [cancel snd next]. case_bool_decide as Hx.
  - rewrite (assign_bind s j _) by exact Hj. set (m1 := store _ j _).
    assert (Hi1 : m1.[i] = Some (Timeo nx (u32 d1) x1.1 x1.2)).
    { unfold m1. erewrite get_store_ne; [exact Hi|exact Hj|]. set_solver. }
    match goal with |- context [memp_free _ ?s1] =>
      destruct (memp_free_released s1 i _ Hi1) as (s' & E & Hrel & Hn & Hlen & Hfr)
    end.
    exists s'. split; [exact E|]. split; [exact Hn|].
    split; [rewrite Hlen; apply length_store|].
    assert (Hfr' : forall q, q <> i -> q <> j -> (memp s').[q] = (memp s).[q]).
    { intros q ??. rewrite Hfr by done. unfold m1. cbn. by erewrite get_store_ne. }
    split; [intros q Hq; apply Hfr'; set_solver|]. exists l. split; [|right; by exists i].
    split; [done|]. exists nx. split.
    + rewrite Hfr by set_solver. by eapply get_store.
    + eapply pending_frame; [|exact Hl']. intros q Hq. apply Hfr'; set_solver.
  - destruct (IH i nx l d1 x1 ds) as (s' & E & Hn & Hlen & Hfr & l' & Hp' & Hor); [lia|done|done|done|].
    exists s'. split; [exact E|]. split; [done|]. split; [done|].
    split; [intros q Hq; apply Hfr; set_solver|].
    exists (i :: l'). split.
    + split; [done|]. exists (Some i). split; [|exact Hp']. rewrite Hfr by done. exact Hj.
    + destruct Hor as [[-> ->]|(k & ? & Hperm)]; [by left|]. right. exists k. split; [done|].
      rewrite Hperm. apply Permutation_swap.
Qed.

Lemma shape_released s s' ts fs ds i ts' ds' :
  shape s ts fs ds -> released s s' i -> ts ≡ₚ i :: ts' ->
  pending (memp s') (next_timeout s') ts' ds' -> length (memp s') = length (memp s) ->
  (forall q, q ∉ ts -> (memp s').[q] = (memp s).[q]) ->
  shape s' ts' (i :: fs) ds'.
Proof.
  intros Hs (Hmt & Hu & He & _ & t & Ht & Hnext) Hperm Hp Hlen Hfr.
  pose proof (shape_NoDup _ _ _ _ Hs) as Hnd. destruct Hs as [_ Hf Hp0 Hl Hu0 He0].
  pose proof (Permutation_length Hperm) as HL. cbn in HL.
  constructor; [done|..|congruence].
  - rewrite Hmt. split; [done|]. exists t. split; [done|]. rewrite Hnext.
    eapply chain_frame; [|exact Hf]. intros q Hq. apply Hfr.
    apply NoDup_app in Hnd as (_ & Hd & _). intros Hq'. by apply (Hd q).
  - rewrite <- Hp0, Hperm. cbn. by rewrite <- Permutation_middle.
  - by rewrite Hlen.
  - rewrite Hu, Hu0, HL. apply Permutation_length in Hp0.
    rewrite length_app, length_seqZ in Hp0. rewrite u16_small; lia.
Qed.

Lemma rep_rest c s s' a b :
  rep c s a -> rest s' = rest s -> (exists ts fs, shape s' ts fs (due b)) ->
  tcp_on b = tcp_on a -> clock b = clock a -> log b = log a -> rep c s' b.
Proof.
  intros [_ Hd Ha Hc Ht] [= E1 E2 E3 E4] Hs F1 F2 F3. constructor; [done|congruence..].
Qed.

Lemma sys_untimeout_run c s a x :
  rep c s a ->
  exists s', sys_untimeout x.1 x.2 s = Some (tt, s') /\ rep c s' (a <| due ::= cancel x |>).
Proof.
  intros Hr. pose proof Hr as [(ts & fs & Hs) _ _ _ _]. pose proof Hs as [Hp _ Hperm _ _ _].
  pose proof (shape_NoDup _ _ _ _ Hs) as [Hnd _]%NoDup_app.
  apply Permutation_length in Hperm. rewrite length_app, length_seqZ in Hperm.
  unfold sys_untimeout. rewrite st_get_bind.
  destruct (next_timeout s) as [i|] eqn:En.
  2: { apply pending_None in Hp as [-> Hd]. exists s. split; [done|].
       eapply rep_rest; [exact Hr|done|..|done|done|done]. cbn. rewrite Hd in *. by exists [], fs. }
  destruct (pending_Some _ _ _ _ Hp) as (l & d & y & ds & -> & Hds). rewrite Hds in *.
  pose proof Hp as (_ & nx & Hi & Hl). cbn [untimeout_from MEMP_NUM_SYS_TIMEOUT].
  rewrite (deref_bind s i _) by exact Hi. rewrite (matches_eq _ x y) by done.
  assert (Hdue : due (a <| due ::= cancel x |>) = cancel x ((d, y) :: ds)) by (cbn; by rewrite Hds).
  cbn [cancel snd] in Hdue. case_bool_decide as Hx.
  - rewrite st_mod_bind. cbn [next].
    match goal with |- context [memp_free _ ?s1] =>
      destruct (memp_free_released s1 i _ Hi) as (s' & E & Hrel & Hn & Hlen & Hfr)
    end.
    exists s'. split; [exact E|].
    eapply rep_rest; [exact Hr|by destruct Hrel as (_ & _ & _ & ? & _)|..|done|done|done].
    rewrite Hdue. exists l, (i :: fs). apply NoDup_cons in Hnd as [Hni _].
    apply (shape_released s s' _ _ _ _ _ _ Hs); [done|done| |done|].
    + rewrite Hn. eapply pending_frame; [|exact Hl]. intros q Hq. apply Hfr. by intros ->.
    + intros q Hq. apply Hfr. set_solver.
  - destruct (untimeout_behind 9 x i nx l d y ds s) as (s' & E & Hn & Hlen & Hfr & l' & Hp' & Hor);
      [cbn in Hperm; lia|done|done|done|].
    exists s'. split; [exact E|]. destruct Hor as [[-> ->]|(k & Hrel & Hkp)].
    + eapply rep_rest; [exact Hr|done|..|done|done|done]. rewrite Hdue. exists (i :: l), fs.
      destruct Hs. constructor; try done. by rewrite En.
    + eapply rep_rest; [exact Hr|by destruct Hrel as (_ & _ & _ & ? & _)|..|done|done|done].
      rewrite Hdue. exists (i :: l'), (k :: fs).
      apply (shape_released s s' _ _ _ _ _ _ Hs); [done| |by rewrite Hn, En|done|exact Hfr].
      rewrite Hkp. apply Permutation_swap.
Qed.

Lemma cancel_insert d x l : x ∉ map snd l -> cancel x (insert_due (d, x) l) = l.
Proof.
  induction l as [|y l IH]; cbn; [by rewrite bool_decide_true by done|].
  intros [Hy Hl]%not_elem_of_cons. case_match; cbn.
  - by rewrite bool_decide_true by done.
  - rewrite bool_decide_false by congruence. by rewrite IH.
Qed.

(** ** The time left *)

Section stack.
Context {K : Stack}.

(** The time to the first deadline, 0 when it has passed, as long as the clock
    and the deadline are in range of each other. *)
Lemma sys_timeouts_sleeptime_run c s a :
  rep c s a -> Forall (fun y => - 2 ^ 31 <= y.1 - clock (tick a) < 2 ^ 31) (due a) ->
  exists s', sys_timeouts_sleeptime s =
      Some (match due a with
            | [] => SYS_TIMEOUTS_SLEEPTIME_INFINITE
            | y :: _ => Z.max 0 (y.1 - clock (tick a))
            end, s') /\
    rep c s' (match due a with [] => a | _ => tick a end).
Proof.
  intros Hr HR. pose proof Hr as [(ts & fs & Hs) _ _ _ _]. pose proof Hs as [Hp _ _ _ _ _].
  unfold sys_timeouts_sleeptime. rewrite st_get_bind.
  destruct (next_timeout s) as [i|] eqn:En.
  2: { apply pending_None in Hp as [-> Hd]. rewrite Hd. by exists s. }
  destruct (pending_Some _ _ _ _ Hp) as (l & d & y & ds & -> & Hds). rewrite Hds in *.
  pose proof Hp as (_ & nx & Hi & Hl). apply Forall_cons_1 in HR as [Hd _]. cbn [fst] in *.
  pose proof (rep_clock _ _ _ Hr) as Hc. pose proof (rep_trace _ _ _ Hr) as Ht.
  destruct (sys_now_run _ _ _ Hr) as (s1 & E & Hr1). rewrite (st_bind_eq _ _ _ _ _ E).
  assert (Hi1 : (memp s1).[i] = Some (Timeo nx (u32 d) y.1 y.2)).
  { unfold sys_now in E. injection E as _ <-. exact Hi. }
  rewrite (deref_bind s1 i _) by exact Hi1. cbn [time].
  set (now := clock (tick a)) in *.
  rewrite TIME_LESS_THAN_u32 by lia. exists s1. split; [|done].
  destruct (Z.ltb_spec d now); unfold mret, ST_ret; f_equal; f_equal; [lia|].
  rewrite u32_sub, u32_small; lia.
Qed.

(** All deadlines moved so that the first one is now. *)
Definition restart (a : agenda) : agenda :=
  match due a with
  | [] => a
  | (b, _) :: _ =>
      let t := tick a in t <| due ::= map (fun y => (y.1 - b + clock t, y.2)) |>
  end.

Lemma rebase_from_run fuel b now p l ds s :
  (length l <= fuel)%nat -> NoDup l -> pending (memp s) p l ds ->
  exists m, rebase_from fuel (u32 b) (u32 now) p s = Some (tt, s <| memp := m |>) /\
    pending m p l (map (fun y => (y.1 - b + now, y.2)) ds) /\
    length m = length (memp s) /\ forall q, q ∉ l -> m.[q] = (memp s).[q].
Proof.
  revert p l ds s. induction fuel as [|fuel IH]; intros p l ds s Hf Hnd Hp.
  - destruct l, ds as [|[]]; cbn in *; try done; [|lia]. subst p.
    exists (memp s). split; [by destruct s|done].
  - destruct l as [|i l], ds as [|[d x] ds]; cbn in Hf; try done.
    { cbn in Hp. subst p. exists (memp s). split; [by destruct s|done]. }
    destruct Hp as (-> & nx & Hi & Hp). apply NoDup_cons in Hnd as [Hni Hnd].
    cbn [rebase_from]. rewrite (assign_bind s i _) by exact Hi. cbn [time].
    set (y := set time _ _). set (m1 := store (memp s) i y).
    assert (Hi1 : m1.[i] = Some y) by (by eapply get_store).
    rewrite (deref_bind _ i y) by exact Hi1.
    assert (Hfr1 : forall q, q <> i -> m1.[q] = (memp s).[q]).
    { intros q Hq. by eapply get_store_ne. }
    destruct (IH nx l ds (s <| memp ::= fun _ => m1 |>)) as (m & E & Hm & Hlen & Hfr); [lia|done|..].
    { eapply pending_frame; [|exact Hp]. intros q Hq. apply Hfr1. by intros ->. }
    exists m. split; [exact E|]. split; [|split].
    + split; [done|]. exists nx. split; [|exact Hm]. rewrite Hfr by done. cbn. rewrite Hi1.
      unfold y, set. cbn -[u32 Z.add Z.sub]. by rewrite u32_sub, u32_add, Z.add_comm, u32_add, Z.add_comm.
    + rewrite Hlen. apply length_store.
    + intros q Hq. apply not_elem_of_cons in Hq as [Hq Hql]. rewrite Hfr by done. by apply Hfr1.
Qed.

Lemma sys_restart_timeouts_run c s a :
  rep c s a -> exists s', sys_restart_timeouts s = Some (tt, s') /\ rep c s' (restart a).
Proof.
  intros Hr. pose proof Hr as [(ts & fs & Hs) _ _ _ _]. pose proof Hs as [Hp _ _ _ _ _].
  unfold sys_restart_timeouts, restart. rewrite st_get_bind.
  destruct (next_timeout s) as [i|] eqn:En.
  2: { apply pending_None in Hp as [-> Hd]. rewrite Hd. by exists s. }
  destruct (pending_Some _ _ _ _ Hp) as (l & d & y & ds & -> & Hds).
  destruct (sys_now_run _ _ _ Hr) as (s1 & E & Hr1). rewrite (st_bind_eq _ _ _ _ _ E).
  assert (Hs1 : shape s1 (i :: l) fs (due a)).
  { unfold sys_now in E. injection E as _ <-. destruct Hs. by constructor. }
  pose proof Hs1 as [Hp1 Hf Hperm HL Hu He]. pose proof (shape_NoDup _ _ _ _ Hs1) as Hnd.
  assert (Hn1 : next_timeout s1 = Some i) by (unfold sys_now in E; by injection E as _ <-).
  rewrite Hn1 in Hp1. rewrite Hds in Hp1 |- *. pose proof Hp1 as (_ & nx & Hi & _).
  rewrite (deref_bind s1 i _) by exact Hi. cbn [time].
  apply Permutation_length in Hperm as Hlen. rewrite length_app, length_seqZ in Hlen.
  apply NoDup_app in Hnd as (Hnd & Hdisj & _).
  destruct (rebase_from_run MEMP_NUM_SYS_TIMEOUT d (clock (tick a)) (Some i) (i :: l) ((d, y) :: ds) s1)
    as (m & E2 & Hm & Hlm & Hfr);
    [change (Z.to_nat 10) with MEMP_NUM_SYS_TIMEOUT in Hlen; lia|exact Hnd|exact Hp1|].
  eexists. split; [exact E2|]. destruct Hr1 as [_ Hd1 Ha1 Hc1 Ht1]. constructor; try done.
  exists (i :: l), fs. constructor; [|eapply chain_frame; [|exact Hf]|done|by cbn; rewrite Hlm|done|done].
  - cbn [due set]. change (due (tick a)) with (due a). rewrite Hds. cbn. rewrite Hn1. exact Hm.
  - intros q Hq. apply Hfr. intros Hq'. by apply (Hdisj q).
Qed.
End stack.
