(* ===== verification/MainLoop.v ===== *)
(** * MainLoop: the main program's loop (Main/main.c)

    After the initialisations the program calls [sys_check_timeouts] for ever.
    This file states what that loop does for the network stack: it never stops
    or fails, no service of the stack is ever lost, and each service is called
    as often as its interval says. *)

From Stdlib Require Import Sorting.Sorted.
From S2P Require Import Prelude Timeouts Agenda TimeoutFacts.

(** The elements linked from [p]. *)
Fixpoint walk (fuel : nat) (m : list sys_timeo) (p : option Z) : option (list sys_timeo) :=
  match p, fuel with
  | None, _ => Some []
  | Some _, O => None
  | Some i, S n => t ← m.[i]; l ← walk n m (next t); Some (t :: l)
  end.

Definition callback (t : sys_timeo) : timer := (h t, arg t).

Lemma pending_walk fuel m p l ds :
  pending m p l ds -> (length l <= fuel)%nat ->
  exists ts, walk fuel m p = Some ts /\
    Forall2 (fun t y => time t = u32 y.1 /\ callback t = y.2) ts ds.
Proof.
  revert p l ds. induction fuel as [|fuel IH]; intros p l ds Hp Hl.
  - destruct l, ds as [|[] ?]; cbn in *; try done; [|lia]. subst p. by exists [].
  - destruct l as [|i l], ds as [|[d x] ds]; cbn in Hp; try done; [subst p; by exists []|].
    destruct Hp as (-> & nx & Hi & Hp). cbn in Hl.
    destruct (IH nx l ds Hp ltac:(lia)) as (ts & Ew & HF). cbn [walk]. rewrite Hi. cbn.
    rewrite Ew. eexists. split; [reflexivity|]. constructor; [|done]. by destruct x.
Qed.

(** The pending timers of the program are those of the agenda. *)
Lemma rep_walk c s a :
  rep c s a -> (length (due a) <= MEMP_NUM_SYS_TIMEOUT)%nat ->
  exists l, walk MEMP_NUM_SYS_TIMEOUT (memp s) (next_timeout s) = Some l /\
    Forall2 (fun t y => time t = u32 y.1 /\ callback t = y.2) l (due a).
Proof.
  intros [(ts & fs & Hs) _ _ _ _] Hl. apply (pending_walk _ _ _ ts); [by destruct Hs|].
  destruct Hs as [Hp _ _ _ _ _]. apply pending_length in Hp. lia.
Qed.

Lemma Forall2_callback l ds :
  Forall2 (fun t (y : Z * timer) => time t = u32 y.1 /\ callback t = y.2) l ds ->
  map callback l = map snd ds.
Proof. induction 1 as [|t y l ds [_ E] _ IH]; cbn; [done|]. by rewrite E, IH. Qed.

Lemma Forall2_delay l (ds : list (Z * timer)) now :
  Forall2 (fun t y => time t = u32 y.1 /\ callback t = y.2) l ds ->
  Forall2 (fun t d => time t = u32 (u32 now + d)) l (map (fun y => y.1 - now) ds).
Proof.
  induction 1 as [|t y l ds [E _] _ IH]; cbn [map]; constructor; [|done].
  rewrite E, u32_add. f_equal. lia.
Qed.

Lemma sorted_delay (ds : list (Z * timer)) now :
  sorted_due ds -> Sorted Z.le (map (fun y => y.1 - now) ds).
Proof.
  induction 1 as [|y ds Hs IH Hh]; cbn [map]; constructor; [done|].
  destruct Hh; cbn [map]; constructor. lia.
Qed.

(** C20: From start-up on, for any passes of the loop and registrations of TCP
    connections in between, and any readings of the clock at most [2 ^ 24] milliseconds
    (4.6 hours) apart, every pass returns; the pool of timers is never
    exhausted; every cyclic service of the stack is pending exactly once, the TCP
    timer exactly once while it is active and not at all otherwise; the list is
    in the order in which the timers are due, and none is due more than one
    longest interval ahead, across the wrap-around of the clock. *)
Theorem main_loop_safe (K : Stack) (t0 : Z) (ms : list main_step) :
  (forall l, 10 * Z.of_nat (ticks l) <= LAG) ->
  exists s l, main_from ms (static_zero (u32 t0)) = Some (tt, s) /\ err s = 0 /\
    walk MEMP_NUM_SYS_TIMEOUT (memp s) (next_timeout s) = Some l /\
    map callback l ≡ₚ stack_timers (tcpip_tcp_timer_active s =? 1) /\
    exists delays, Sorted Z.le delays /\
      Forall2 (fun t d => time t = u32 (lwip_sys_timer s + d)) l delays /\
      Forall (fun d => - 25 * LAG <= d <= 60 * 1000) delays.
Proof.
  intros Hlag. destruct (main_from_run Hlag t0 ms) as (s & c & E & Hr).
  pose proof (ready_run LAG Hlag ms _ (ready_init LAG Hlag t0)) as Ho.
  set (a := agenda_run ms (agenda_init t0)) in *. pose proof (ok_length _ _ _ _ Ho) as Hlen.
  destruct (rep_walk c s a Hr) as (l & Hw & HF); [cbv [MEMP_NUM_SYS_TIMEOUT]; lia|].
  exists s, l. destruct Ho as [Hs Hp Hn]. split; [done|]. split.
  { destruct (rep_shape _ _ _ Hr) as (ts & fs & Hsh). by destruct Hsh. }
  split; [done|]. split.
  { rewrite (Forall2_callback _ _ HF), (rep_active _ _ _ Hr). cbn [app] in Hp. rewrite Hp.
    by destruct (tcp_on a). }
  exists (map (fun y => y.1 - clock a) (due a)). rewrite (rep_clock _ _ _ Hr).
  split; [by apply sorted_delay|]. split; [by apply Forall2_delay|].
  apply Forall_map. eapply Forall_impl; [exact Hn|]. cbn beta. intros y Hy.
  unfold LAG in *. change horizon with 60000 in Hy. destruct (tcp_on a); cbn [b2z] in Hy; lia.
Qed.

(** C21: With readings of the clock at most [2 ^ 24] milliseconds apart, one pass of the
    loop on the linked list and the wrapping clock does what the agenda prescribes on its list of deadlines and unbounded time, and
    afterwards nothing is pending that was due when the pass began. *)
Theorem sys_check_timeouts_refines (K : Stack) (c : Z) (s : timeouts) (a : agenda) :
  (forall l, 10 * Z.of_nat (ticks l) <= LAG) -> rep c s a -> ready LAG a ->
  exists s' c', sys_check_timeouts s = Some (tt, s') /\ rep c' s' (pass a) /\
    ready LAG (pass a) /\ Forall (fun y => clock (tick a) < y.1) (due (pass a)).
Proof.
  intros Hlag Hr Ho. destruct (pass_run Hlag c s a Hr Ho) as (s' & c' & E & Hr').
  exists s', c'. split; [done|]. split; [done|]. split; [by apply ready_pass|].
  apply (pass_ok LAG Hlag) in Ho; [tauto|]. destruct (tcp_on a); cbn; lia.
Qed.

Lemma agenda_run_app `{Stack} ms ms' a :
  agenda_run (ms ++ ms') a = agenda_run ms' (agenda_run ms a).
Proof. revert a. induction ms as [|m ms IH]; intros a; cbn; [done|apply IH]. Qed.

Lemma due_init `{Stack} t0 : Forall (fun y => t0 <= y.1) (due (agenda_init t0)) /\ t0 <= clock (agenda_init t0).
Proof.
  assert (Hj : forall js a, t0 <= clock a -> Forall (fun y => t0 <= y.1) (due a) -> Forall (fun j => 1 <= j <= 5) js ->
    Forall (fun y => t0 <= y.1) (due (fold_left start_cyclic js a)) /\ t0 <= clock (fold_left start_cyclic js a)).
  { induction js as [|j js IH]; intros a Hc HF Hjs; [done|]. apply Forall_cons in Hjs as [Hj Hjs]. cbn [fold_left].
    destruct (cyclic_row j Hj) as (iv & f & E & Hiv). apply IH; [| |done]; unfold start_cyclic; rewrite E; cbn; [lia|].
    apply insert_due_Forall; [cbn; lia|done]. }
  apply Hj; [cbn; lia|constructor|]. repeat (apply Forall_cons_2; [lia|]). constructor.
Qed.

(** C22: The cadence of a cyclic service, for any steps of the main program and any
    readings of the clock at most [g] milliseconds (up to 4.6 hours) apart.  After a
    pass it has been called [c] times, in the [n] milliseconds from its start to the
    beginning of that pass, such that no call was early and each was late by at most
    [50 * g]; and if the passes are frequent enough, that is if never more time than
    the interval goes by from the start of one pass (the first time from power up) to
    the end of the next, [c] is exactly the number of intervals in [n]: no call is
    lost, none is made twice, and delays do not add up. *)
Theorem cyclic_cadence (K : Stack) (g t0 : Z) (ms : list main_step) (i iv : Z) (f : lwip_tmr) :
  (forall l, 10 * Z.of_nat (ticks l) <= g) -> g <= LAG ->
  1 <= i -> lwip_cyclic_timers.[i] = Some (iv, f) ->
  exists s, main_from (ms ++ [Pass]) (static_zero (u32 t0)) = Some (tt, s) /\
    let c := calls f (trace s) in
    let n := clock (tick (agenda_run ms (agenda_init t0))) - started i t0 in
    c * iv <= n < (c + 1) * iv + c * (50 * g) /\
    (spaced iv t0 (ms ++ [Pass]) (agenda_init t0) -> c = n / iv).
Proof.
  intros Hg Hlag Hi Hrow.
  assert (Hi5 : 1 <= i <= 5) by (apply arr_get_lt in Hrow; cbn in Hrow; lia).
  destruct (cyclic_row i Hi5) as (iv' & f' & E & Hiv). rewrite Hrow in E. injection E as <- <-.
  destruct (main_from_run (fun l => Z.le_trans _ g LAG (Hg l) Hlag) t0 (ms ++ [Pass])) as (s & c & Em & Hr).
  exists s. split; [done|]. rewrite (rep_trace _ _ _ Hr), agenda_run_app. cbn [agenda_run agenda_do].
  pose proof (ready_init g Hg t0) as H0. destruct (due_init t0) as [Hdue Hclk]. pose proof (gap_nonneg g Hg) as Hg0.
  assert (Hcount : forall w, 0 <= w -> spaced (Z.max iv w) t0 (ms ++ [Pass]) (agenda_init t0) ->
    let n := clock (tick (agenda_run ms (agenda_init t0))) - started i t0 in
    let c := calls f (log (pass (agenda_run ms (agenda_init t0)))) in c * iv <= n < (c + 1) * iv + c * w).
  { intros w Hw Hsp. apply (cadence_count g Hg i iv f Hi5 (started i t0) w 25); [lia| |].
    - apply (ok_mono g Hg _ (24 + b2z (tcp_on (agenda_run ms (agenda_init t0))))); [destruct (tcp_on _); cbn; lia|].
      by apply (ready_run g Hg ms).
    - by apply (cadence_run g Hg i iv f Hi5 Hrow (started i t0) w Hw ms t0); [..|apply (cadence_init g)]. }
  split.
  - apply (Hcount (50 * g)); [lia|]. apply (spaced_mono (50 * g)); [lia|].
    apply (spaced_always g Hg); [done|]. pose proof (clock_init g Hg t0). destruct (tcp_on _); unfold b2z; lia.
  - intros Hsp. destruct (Hcount 0 ltac:(lia)) as [H1 H2]; [by rewrite Z.max_l by lia|]. cbn zeta in *.
    apply (Z.div_unique _ _ _ (clock (tick (agenda_run ms (agenda_init t0))) - started i t0
      - calls f (log (pass (agenda_run ms (agenda_init t0)))) * iv)); lia.
Qed.

(** ** Concrete programs *)

(** One turn of the timer interrupt between two readings; TCP has a connection
    and no service registers one. *)
Definition busy_stack : Stack := Build_Stack (fun _ => 1%nat) (fun _ => true) (fun _ => false).

(** The clock wraps around while the loop runs. *)
Lemma main_loop_safe_witness :
  exists s l, main_from (K := busy_stack) [Register; Pass; Pass] (static_zero (u32 (2 ^ 32 - 60))) =
      Some (tt, s) /\ err s = 0 /\
    walk MEMP_NUM_SYS_TIMEOUT (memp s) (next_timeout s) = Some l /\
    map callback l ≡ₚ stack_timers (tcpip_tcp_timer_active s =? 1) /\
    exists delays, Sorted Z.le delays /\
      Forall2 (fun t d => time t = u32 (lwip_sys_timer s + d)) l delays /\
      Forall (fun d => - 25 * LAG <= d <= 60 * 1000) delays.
Proof.
  apply (main_loop_safe busy_stack (2 ^ 32 - 60) [Register; Pass; Pass]).
  intros l. cbv. discriminate.
Defined.

Example main_loop_clock :
  (fun r => (lwip_sys_timer r.2, length (trace r.2))) <$>
    main_from (K := busy_stack) [Register; Pass; Pass] (static_zero (u32 (2 ^ 32 - 60)))
  = Some (20, 8%nat).
Proof. vm_compute. reflexivity. Qed.

(** The service of the shortest interval, with a turn of the 10 ms interrupt at every
    reading of the clock. *)
Lemma cyclic_cadence_witness :
  exists s, main_from (K := busy_stack) (replicate 20 Pass ++ [Pass]) (static_zero (u32 0)) = Some (tt, s) /\
    calls autoip_tmr (trace s) =
      (clock (tick (K := busy_stack) (agenda_run (K := busy_stack) (replicate 20 Pass)
         (agenda_init (K := busy_stack) 0))) - started (K := busy_stack) 5 0) / 100.
Proof.
  destruct (cyclic_cadence busy_stack 10 0 (replicate 20 Pass) 5 100 autoip_tmr) as (s & E & _ & Hc).
  - intros l. cbv. discriminate.
  - cbv. discriminate.
  - lia.
  - reflexivity.
  - exists s. split; [exact E|]. apply Hc. vm_compute. repeat split; discriminate.
Defined.

Example cyclic_cadence_calls :
  (fun r => (calls ip_reass_tmr (trace r.2), calls autoip_tmr (trace r.2))) <$>
    main_from (K := busy_stack) (replicate 121 Pass) (static_zero (u32 0))
  = Some (1, 13).
Proof. vm_compute. reflexivity. Qed.

(** The state after the initialisations. *)
Definition booted : timeouts :=
  match main_from (K := busy_stack) [] (static_zero (u32 0)) with
  | Some (_, s) => s
  | None => static_zero 0
  end.

Lemma busy_lag l : 10 * Z.of_nat (ticks (Stack := busy_stack) l) <= LAG.
Proof. cbv. discriminate. Qed.

Lemma booted_rep : exists c, rep c booted (agenda_init (K := busy_stack) 0).
Proof.
  destruct (main_from_run busy_lag 0 []) as (s & c & E & Hr). exists c.
  unfold booted. by rewrite E.
Qed.

Lemma sys_check_timeouts_refines_witness :
  exists c, rep c booted (agenda_init (K := busy_stack) 0) /\
    ready LAG (agenda_init (K := busy_stack) 0) /\
    exists s' c', sys_check_timeouts (K := busy_stack) booted = Some (tt, s') /\
      rep c' s' (pass (K := busy_stack) (agenda_init (K := busy_stack) 0)) /\
      ready LAG (pass (K := busy_stack) (agenda_init (K := busy_stack) 0)) /\
      Forall (fun y => clock (tick (K := busy_stack) (agenda_init (K := busy_stack) 0)) < y.1)
        (due (pass (K := busy_stack) (agenda_init (K := busy_stack) 0))).
Proof.
  destruct booted_rep as [c Hc]. exists c.
  pose proof (ready_init (K := busy_stack) LAG busy_lag 0) as Hr.
  split; [exact Hc|]. split; [exact Hr|].
  exact (sys_check_timeouts_refines busy_stack c booted _ busy_lag Hc Hr).
Defined.
