(* ===== verification/Lcd.v ===== *)
(** * Lcd: the display (TFTLCD/tftlcd, tftlcd_element, tftlcd_word; elib/rgb,
    elib/ILI9341)

    The display is written through two addresses, one for commands ([REG]) and
    one for their parameters and pixels ([RAM]): what the code does is the
    sequence of these writes, with the reads in between. *)

From S2P Require Import Prelude.

(** ** The bus *)

Inductive bus_op :=
  | REG (v : Z)
  | RAM (v : Z)
  | RAM_read (v : Z)
  | Delay (us : Z).

Record TFTLCD_CMD := LcdCmd {
  CMD_Read_ID : Z;
  CMD_Write_ScanDir : Z;
  CMD_Write_XPos : Z;
  CMD_Write_YPos : Z;
  CMD_Write_ColorCode : Z;
  CMD_Read_ColorCode : Z
}.

Record TFTLCD_Config := LcdConfig {
  TFTLCD_Width : Z;
  TFTLCD_Height : Z;
  TFTLCD_Id : Z;
  TFTLCD_Dir : Z;
  TFTLCD_Cmd : TFTLCD_CMD
}.
#[export] Instance config_settable : Settable TFTLCD_Config :=
  fun r => LcdConfig (TFTLCD_Width r) (TFTLCD_Height r) (TFTLCD_Id r) (TFTLCD_Dir r) (TFTLCD_Cmd r).

(** [answers] is what the display puts on the bus, given all that was written
    and read before. *)
Record lcd := Lcd {
  TFTLCD_Conf : TFTLCD_Config;
  lcd_log : list bus_op;
  answers : list bus_op -> Z
}.
#[export] Instance lcd_settable : Settable lcd :=
  fun r => Lcd (TFTLCD_Conf r) (lcd_log r) (answers r).

Definition LCD (A : Type) : Type := ST lcd A.

Definition bus (o : bus_op) : LCD unit := st_mod (set lcd_log (fun l => l ++ [o])).

(** The two registers are 16 bits wide. *)
Definition TFTLCD_REG (v : Z) : LCD unit := bus (REG (u16 v)).
Definition TFTLCD_RAM (v : Z) : LCD unit := bus (RAM (u16 v)).

Definition read_RAM : LCD Z := fun s =>
  let v := u16 (answers s (lcd_log s)) in
  Some (v, s <| lcd_log ::= (fun l => l ++ [RAM_read v]) |>).

Definition cmd_of (f : TFTLCD_CMD -> Z) : LCD Z := st_get (fun s => f (TFTLCD_Cmd (TFTLCD_Conf s))).

(** ** Colours *)

Definition GET_H8 (v : Z) : Z := Z.shiftr v 16.
Definition GET_M8 (v : Z) : Z := Z.shiftr (Z.land v 0xFFFF) 8.
Definition GET_L8 (v : Z) : Z := Z.land v 0xFF.
Definition R_TO565 (r : Z) : Z := 31 * r / 255.
Definition G_TO565 (g : Z) : Z := 63 * g / 255.
Definition B_TO565 (b : Z) : Z := 31 * b / 255.
Definition RGB_TO565 (r g b : Z) : Z := Z.lor (Z.lor r (Z.shiftl g 5)) (Z.shiftl b 11).

(** 32-bit arithmetic: the products do not overflow for any 32-bit colour. *)
Definition RGB_To_U16 (rgb : Z) : Z :=
  u16 (RGB_TO565 (R_TO565 (GET_H8 rgb)) (G_TO565 (GET_M8 rgb)) (B_TO565 (GET_L8 rgb))).
Definition COLOR16 (v : Z) : Z := RGB_To_U16 v.

(** ** tftlcd.c *)

Definition TFTLCD_ReadRAM (REG_Addr : Z) : LCD Z :=
  _ ← TFTLCD_REG REG_Addr; _ ← bus (Delay 5); read_RAM.

Definition TFTLCD_WriteRAM (REG_Addr Data : Z) : LCD unit :=
  _ ← TFTLCD_REG REG_Addr; TFTLCD_RAM Data.

Definition TFTLCD_ReadDeviceId : LCD unit :=
  c ← cmd_of CMD_Read_ID; _ ← TFTLCD_REG c;
  _ ← read_RAM; _ ← read_RAM; hi ← read_RAM; lo ← read_RAM;
  st_mod (set TFTLCD_Conf (fun r => r <| TFTLCD_Id := Z.lor (u16 (Z.shiftl hi 8)) lo |>)).

Definition TFTLCD_SetScanDir (Dir : Z) : LCD unit :=
  c ← cmd_of CMD_Write_ScanDir; TFTLCD_WriteRAM c Dir.

Definition TFTLCD_SetCursor (XPos YPos : Z) : LCD unit :=
  cx ← cmd_of CMD_Write_XPos; _ ← TFTLCD_REG cx;
  _ ← TFTLCD_RAM (Z.shiftr XPos 8); _ ← TFTLCD_RAM (Z.land XPos 0xFF);
  cy ← cmd_of CMD_Write_YPos; _ ← TFTLCD_REG cy;
  _ ← TFTLCD_RAM (Z.shiftr YPos 8); TFTLCD_RAM (Z.land YPos 0xFF).

Definition TFTLCD_DrawPoint (XPos YPos Color : Z) : LCD unit :=
  let Color16 := COLOR16 Color in
  _ ← TFTLCD_SetCursor XPos YPos;
  c ← cmd_of CMD_Write_ColorCode; _ ← TFTLCD_REG c;
  TFTLCD_RAM Color16.

Definition TFTLCD_DrawBlock (StartXPos StartYPos EndXPos EndYPos : Z) (ColorBuff : list Z) : LCD unit :=
  let width := u16 (EndXPos - StartXPos + 1) in
  let height := u16 (EndYPos - StartYPos + 1) in
  st_for (Z.to_nat height) 0 (fun i =>
    _ ← TFTLCD_SetCursor StartXPos (u16 (StartYPos + i));
    c ← cmd_of CMD_Write_ColorCode; _ ← TFTLCD_REG c;
    st_for (Z.to_nat width) 0 (fun j =>
      v ← st_opt ColorBuff.[i * width + j]; TFTLCD_RAM v)).

Definition TFTLCD_Clear (Color : Z) : LCD unit :=
  let Color16 := COLOR16 Color in
  conf ← st_get TFTLCD_Conf;
  let PointSum := u32 (TFTLCD_Height conf * TFTLCD_Width conf) in
  _ ← TFTLCD_SetCursor 0 0;
  c ← cmd_of CMD_Write_ColorCode; _ ← TFTLCD_REG c;
  st_for (Z.to_nat PointSum) 0 (fun _ => TFTLCD_RAM Color16).

(** The high bytes are written with [>] where [>>] is meant. *)
Definition TFTLCD_SetWindow (StarXPos EndXPos StarYPos EndYPos : Z) : LCD unit :=
  cx ← cmd_of CMD_Write_XPos; _ ← TFTLCD_REG cx;
  _ ← TFTLCD_RAM (b2z (8 <? StarXPos)); _ ← TFTLCD_RAM (Z.land StarXPos 0xFF);
  _ ← TFTLCD_RAM (b2z (8 <? EndXPos)); _ ← TFTLCD_RAM (Z.land EndXPos 0xFF);
  cy ← cmd_of CMD_Write_YPos; _ ← TFTLCD_REG cy;
  _ ← TFTLCD_RAM (b2z (8 <? StarYPos)); _ ← TFTLCD_RAM (Z.land StarYPos 0xFF);
  _ ← TFTLCD_RAM (b2z (8 <? EndYPos)); TFTLCD_RAM (Z.land EndYPos 0xFF).

(** The writes of [ILI9341_Init]; the last command follows a delay. *)
Definition ILI9341_ops : list bus_op :=
  [REG 0xcf; RAM 0x00; RAM 0xc1; RAM 0x30;
   REG 0xed; RAM 0x64; RAM 0x03; RAM 0x12; RAM 0x81;
   REG 0xe8; RAM 0x85; RAM 0x10; RAM 0x7a;
   REG 0xcb; RAM 0x39; RAM 0x2c; RAM 0x00; RAM 0x34; RAM 0x02;
   REG 0xf7; RAM 0x20;
   REG 0xea; RAM 0x00; RAM 0x00;
   REG 0xc0; RAM 0x1b;
   REG 0xc1; RAM 0x01;
   REG 0xc5; RAM 0x30; RAM 0x30;
   REG 0xc7; RAM 0xb7;
   REG 0x36; RAM 0x48;
   REG 0x3a; RAM 0x55;
   REG 0xb1; RAM 0x00; RAM 0x1a;
   REG 0xb6; RAM 0x0a; RAM 0xa2;
   REG 0xf2; RAM 0x00;
   REG 0x26; RAM 0x01;
   REG 0xe0; RAM 0x0f; RAM 0x2a; RAM 0x28; RAM 0x08; RAM 0x0e; RAM 0x08; RAM 0x54; RAM 0xa9;
     RAM 0x43; RAM 0x0a; RAM 0x0f; RAM 0x00; RAM 0x00; RAM 0x00; RAM 0x00;
   REG 0xe1; RAM 0x00; RAM 0x15; RAM 0x17; RAM 0x07; RAM 0x11; RAM 0x06; RAM 0x2b; RAM 0x56;
     RAM 0x3c; RAM 0x05; RAM 0x10; RAM 0x0f; RAM 0x3f; RAM 0x3f; RAM 0x0f;
   REG 0x2b; RAM 0x00; RAM 0x00; RAM 0x01; RAM 0x3f;
   REG 0x2a; RAM 0x00; RAM 0x00; RAM 0x00; RAM 0xef;
   REG 0x11;
   Delay 120000; REG 0x29].

Definition ILI9341_Init : LCD unit := st_mod (set lcd_log (fun l => l ++ ILI9341_ops)).

(** [TFTLCD_Init] after the set-up of the memory controller. *)
Definition TFTLCD_Init : LCD unit :=
  _ ← st_mod (set TFTLCD_Conf (fun r => r <| TFTLCD_Dir := 0 |> <| TFTLCD_Height := 320 |>
        <| TFTLCD_Width := 240 |> <| TFTLCD_Cmd := LcdCmd 0xD3 0x36 0x2A 0x2B 0x2C 0x2E |>));
  _ ← TFTLCD_ReadDeviceId;
  _ ← ILI9341_Init;
  conf ← st_get TFTLCD_Conf;
  _ ← TFTLCD_SetScanDir (TFTLCD_Dir conf);
  _ ← TFTLCD_SetWindow 0 (u16 (TFTLCD_Width conf - 1)) 0 (u16 (TFTLCD_Height conf - 1));
  TFTLCD_Clear 0xFFFFFF.

(** ** tftlcd_element.c *)

Record Ele_Line_PropType := LineProp {
  Ele_Line_Width : Z;
  Ele_Line_Height : Z;
  Ele_Line_Type : Z;
  Ele_Line_Color : Z
}.

Record Ele_Box_PropType := BoxProp {
  Ele_Box_Width : Z;
  Ele_Box_Height : Z;
  Ele_Box_Color : Z;
  Ele_Box_IsSolid : Z;
  Ele_Box_Border : Ele_Line_PropType
}.

Definition SetLineBd (Color Width Height Type_ : Z) : Ele_Line_PropType :=
  LineProp Width Height Type_ Color.

Definition SetBoxBd (Color WidthLR WidthTD Type_ : Z) (b : Ele_Box_PropType) : Ele_Box_PropType :=
  BoxProp (Ele_Box_Width b) (Ele_Box_Height b) (Ele_Box_Color b) (Ele_Box_IsSolid b)
    (SetLineBd Color WidthLR WidthTD Type_).

Definition SetBoxBg (Color Width Height IsSolid : Z) (b : Ele_Box_PropType) : Ele_Box_PropType :=
  BoxProp Width Height (if IsSolid =? 0 then 0xFFFFFF else Color) IsSolid (Ele_Box_Border b).

Definition DrawLine (StartXPix StartYPix : Z) (l : Ele_Line_PropType) : LCD unit :=
  let ColorU16 := COLOR16 (Ele_Line_Color l) in
  st_for (Z.to_nat (Ele_Line_Height l)) 0 (fun PixYIndex =>
    _ ← TFTLCD_SetCursor StartXPix (u16 (StartYPix + PixYIndex));
    c ← cmd_of CMD_Write_ColorCode; _ ← TFTLCD_REG c;
    st_for (Z.to_nat (Ele_Line_Width l)) 0 (fun _ => TFTLCD_RAM ColorU16)).

(** The display function of a line object is [DrawLine] with its properties. *)
Definition DrawBox (StartXPix StartYPix : Z) (b : Ele_Box_PropType) : LCD unit :=
  let border := Ele_Box_Border b in
  let BorderWidth := Ele_Line_Width border in
  let BorderHeight := Ele_Line_Height border in
  let BoxWidth := Ele_Box_Width b in
  let BoxHeight := Ele_Box_Height b in
  let BoxTotalWidth := u16 (BoxWidth + BorderWidth * 2) in
  let BoxTotalHeight := u16 (BoxHeight + BorderHeight * 2) in
  let line w h c := LineProp w h (Ele_Line_Type border) c in
  let l := line BoxTotalWidth BorderHeight (Ele_Line_Color border) in
  _ ← DrawLine StartXPix StartYPix l;
  _ ← DrawLine StartXPix (u16 (StartYPix + BoxTotalHeight - BorderHeight)) l;
  let l := line BorderWidth BoxHeight (Ele_Line_Color border) in
  _ ← DrawLine (u16 (StartXPix + BoxTotalWidth - BorderWidth)) (u16 (StartYPix + BorderHeight)) l;
  _ ← DrawLine StartXPix (u16 (StartYPix + BorderHeight)) l;
  if Ele_Box_IsSolid b =? 0 then st_skip else
  DrawLine (u16 (StartXPix + BorderWidth)) (u16 (StartYPix + BorderHeight))
    (line BoxWidth BoxHeight (Ele_Box_Color b)).

(** ** tftlcd_word.c *)

Record TFTLCD_Word_PropType := WordProp {
  XPix : Z;
  YPix : Z;
  FontSize : Z;
  FontType : Z;
  FontFg : Z;
  FontBg : Z;
  WordBuff : list Z
}.

(** The pixels of one row: [n] of them, from the highest bit. *)
Fixpoint word_row (n : nat) (RowValue fg bg : Z) : LCD unit :=
  match n with
  | O => st_skip
  | S n =>
      _ ← TFTLCD_RAM (if Z.land RowValue 0x8000 =? 0 then bg else fg);
      word_row n (u16 (Z.shiftl RowValue 1)) fg bg
  end.

Definition TFTLCD_Word (x y : Z) (w : TFTLCD_Word_PropType) : LCD TFTLCD_Word_PropType :=
  let w := WordProp x y (FontSize w) (FontType w) (FontFg w) (FontBg w) (WordBuff w) in
  _ ← st_for (Z.to_nat (FontSize w)) 0 (fun Row =>
    hi ← st_opt (WordBuff w).[2 * Row];
    lo ← st_opt (WordBuff w).[2 * Row + 1];
    _ ← TFTLCD_SetCursor x (u16 (y + Row));
    c ← cmd_of CMD_Write_ColorCode; _ ← TFTLCD_REG c;
    word_row (Z.to_nat (FontSize w)) (u16 (Z.lor (Z.shiftl hi 8) lo)) (FontFg w) (FontBg w));
  mret w.
