(* ===== verification/LcdFacts.v ===== *)
(** * LcdFacts: what the display shows after the drawing operations

    The bus log is read the way the display's command set reads it: [0x2A] sets
    the start and end columns, [0x2B] the start and end rows, high byte first
    (two parameters change only the start), and [0x2C] writes pixels from the
    start position, left to right, on to the start column of the next row after
    the end column.  The drawing operations are specified by the picture this
    reading leaves: each pixel of a line, a box, a block or a character has the
    colour asked for, and every other pixel is unchanged. *)

From S2P Require Import Prelude Lcd.

(** ** Reading the bus *)

Record panel := Panel {
  command : Z;
  params : list Z;
  start_col : Z;
  end_col : Z;
  start_row : Z;
  end_row : Z;
  at_col : Z;
  at_row : Z;
  picture : Z -> Z -> Z
}.

Definition put (f : Z -> Z -> Z) (x y v : Z) : Z -> Z -> Z :=
  fun i j => if (i =? x) && (j =? y) then v else f i j.

Definition command_of (v : Z) (p : panel) : panel :=
  let '(Panel _ _ sc ec sr er c r f) := p in
  if v =? 0x2C then Panel v [] sc ec sr er sc sr f else Panel v [] sc ec sr er c r f.

Definition parameter (v : Z) (p : panel) : panel :=
  let '(Panel m ps sc ec sr er c r f) := p in
  let ps' := ps ++ [v] in
  if m =? 0x2A then
    match ps' with
    | [a; b] => Panel m ps' (256 * a + b) ec sr er c r f
    | [_; _; a; b] => Panel m ps' sc (256 * a + b) sr er c r f
    | _ => Panel m ps' sc ec sr er c r f
    end
  else if m =? 0x2B then
    match ps' with
    | [a; b] => Panel m ps' sc ec (256 * a + b) er c r f
    | [_; _; a; b] => Panel m ps' sc ec sr (256 * a + b) c r f
    | _ => Panel m ps' sc ec sr er c r f
    end
  else if m =? 0x2C then
    if c =? ec then Panel m ps sc ec sr er sc (r + 1) (put f c r v)
    else Panel m ps sc ec sr er (c + 1) r (put f c r v)
  else Panel m ps' sc ec sr er c r f.

Definition read_op (p : panel) (o : bus_op) : panel :=
  match o with REG v => command_of v p | RAM v => parameter v p | _ => p end.

Definition read_bus (p : panel) (l : list bus_op) : panel := fold_left read_op l p.

(** The display after all that was written; [p] is the display at the start. *)
Definition shown (p : panel) (s : lcd) : panel := read_bus p (lcd_log s).

Definition ready (s : lcd) : Prop :=
  TFTLCD_Cmd (TFTLCD_Conf s) = LcdCmd 0xD3 0x36 0x2A 0x2B 0x2C 0x2E.

(** [s'] is [s] after the writes [l]. *)
Definition wrote (s : lcd) (l : list bus_op) (s' : lcd) : Prop :=
  s' = Lcd (TFTLCD_Conf s) (lcd_log s ++ l) (answers s).

Lemma shown_wrote p s l s' : wrote s l s' -> shown p s' = read_bus (shown p s) l.
Proof. intros ->. unfold shown, read_bus. cbn. by rewrite fold_left_app. Qed.

Lemma ready_wrote s l s' : wrote s l s' -> ready s -> ready s'.
Proof. by intros ->. Qed.

Lemma wrote_nil s : wrote s [] s.
Proof. unfold wrote. rewrite app_nil_r. by destruct s. Qed.

Lemma wrote_app s l1 s1 l2 s2 : wrote s l1 s1 -> wrote s1 l2 s2 -> wrote s (l1 ++ l2) s2.
Proof. unfold wrote. intros -> ->. cbn. by rewrite app_assoc. Qed.

Lemma bus_wrote o s : bus o s = Some (tt, Lcd (TFTLCD_Conf s) (lcd_log s ++ [o]) (answers s)).
Proof. by destruct s. Qed.

(** ** Placing the cursor and writing pixels *)

Definition cursor_ops (x y : Z) : list bus_op :=
  [REG 0x2A; RAM (u16 (Z.shiftr x 8)); RAM (u16 (Z.land x 0xFF));
   REG 0x2B; RAM (u16 (Z.shiftr y 8)); RAM (u16 (Z.land y 0xFF))].

(** The body of the drawing loops, up to the pixels. *)
Definition open_row (x y : Z) : LCD unit :=
  _ ← TFTLCD_SetCursor x y; c ← cmd_of CMD_Write_ColorCode; TFTLCD_REG c.

Lemma SetCursor_wrote x y s :
  ready s -> exists s', TFTLCD_SetCursor x y s = Some (tt, s') /\ wrote s (cursor_ops x y) s'.
Proof.
  destruct s as [[w h i d c] l a]. unfold ready. cbn. intros ->.
  eexists. split; [reflexivity|]. unfold wrote, set. cbn. repeat rewrite <- app_assoc. done.
Qed.

Lemma open_row_then {A} x y (k : LCD A) s :
  ready s -> exists s', wrote s (cursor_ops x y ++ [REG 0x2C]) s' /\
    (_ ← TFTLCD_SetCursor x y; c ← cmd_of CMD_Write_ColorCode; _ ← TFTLCD_REG c; k) s = k s'.
Proof.
  intros Hr. destruct (SetCursor_wrote x y s Hr) as (s1 & E & W).
  exists (Lcd (TFTLCD_Conf s1) (lcd_log s1 ++ [REG 0x2C]) (answers s1)). split.
  - by eapply wrote_app.
  - rewrite (st_bind_eq _ _ _ _ _ E).
    pose proof (ready_wrote _ _ _ W Hr) as Hr1. destruct s1 as [[w h i d c] l a].
    unfold ready in Hr1. cbn in Hr1. by subst c.
Qed.

Lemma bytes_of_u16 v : 0 <= v < 65536 -> 256 * u16 (Z.shiftr v 8) + u16 (Z.land v 0xFF) = v.
Proof.
  intros Hv. rewrite Z.shiftr_div_pow2 by lia. change 0xFF with (Z.ones 8).
  rewrite Z.land_ones by lia. change (2 ^ 8) with 256.
  rewrite !u16_small by (split; [|apply Z.lt_trans with 256]; Z.div_mod_to_equations; lia).
  Z.div_mod_to_equations; lia.
Qed.

Lemma read_cursor x y p :
  0 <= x < 65536 -> 0 <= y < 65536 ->
  exists m ps, read_bus p (cursor_ops x y ++ [REG 0x2C]) =
    Panel m ps x (end_col p) y (end_row p) x y (picture p) /\ m = 0x2C.
Proof.
  intros Hx Hy. destruct p as [m ps sc ec sr er c r f]. cbn. unfold parameter.
  change (42 =? 44) with false. cbn. change (43 =? 44) with false. cbn.
  rewrite !bytes_of_u16 by done. by do 2 eexists.
Qed.

(** ** Pictures

    What an operation paints: a colour for each pixel it writes. *)
Definition area := Z -> Z -> option Z.

Definition over (B A : area) : area :=
  fun i j => match B i j with Some v => Some v | None => A i j end.

(** The pixels [vs] at [(x,y)] and to its right. *)
Definition row_at (x y : Z) (vs : list Z) : area :=
  fun i j => if j =? y then vs.[i - x] else None.

(** [n] rows from [(x,y)] down, [vs k] the pixels of row [k]. *)
Definition rows_at (x y n : Z) (vs : Z -> list Z) : area :=
  fun i j => if (y <=? j) && (j <? y + n) then (vs (j - y)).[i - x] else None.

(** [s'] is [s] after writes that paint [A] on any display whose window ends at
    column [ec], and leave the rest of its picture and the window's end. *)
Definition paints (ec : Z) (s s' : lcd) (A : area) : Prop :=
  exists l, wrote s l s' /\ forall p, end_col p = ec ->
    end_col (read_bus p l) = ec /\
    forall i j, picture (read_bus p l) i j = default (picture p i j) (A i j).

Lemma read_bus_app p l1 l2 : read_bus p (l1 ++ l2) = read_bus (read_bus p l1) l2.
Proof. apply fold_left_app. Qed.

Lemma paints_nil ec s : paints ec s s (fun _ _ => None).
Proof. exists []. split; [apply wrote_nil|]. done. Qed.

Lemma paints_over ec s s1 s2 A B :
  paints ec s s1 A -> paints ec s1 s2 B -> paints ec s s2 (over B A).
Proof.
  intros (l1 & W1 & H1) (l2 & W2 & H2). exists (l1 ++ l2). split; [by eapply wrote_app|].
  intros p Hp. destruct (H1 p Hp) as [E1 P1]. destruct (H2 _ E1) as [E2 P2].
  rewrite read_bus_app. split; [done|]. intros i j. rewrite P2, P1. unfold over. by destruct (B i j).
Qed.

Lemma paints_ext ec s s' A B :
  paints ec s s' A -> (forall i j, A i j = B i j) -> paints ec s s' B.
Proof.
  intros (l & W & H) E. exists l. split; [done|]. intros p Hp. destruct (H p Hp) as [? P].
  split; [done|]. intros i j. by rewrite P, E.
Qed.

Lemma paints_ready ec s s' A : paints ec s s' A -> ready s -> ready s'.
Proof. intros (l & W & _). by eapply ready_wrote. Qed.

(** Writing [vs] from column [c], inside the window. *)
Lemma read_pixels vs : forall ps sc ec sr er c r f,
  c + Z.of_nat (length vs) <= ec + 1 ->
  exists c' r' g,
    read_bus (Panel 0x2C ps sc ec sr er c r f) (RAM <$> vs) = Panel 0x2C ps sc ec sr er c' r' g /\
    (forall i j, g i j = default (f i j) (row_at c r vs i j)) /\
    (vs <> [] -> c + Z.of_nat (length vs) = ec + 1 -> c' = sc /\ r' = r + 1).
Proof.
  induction vs as [|v vs IH]; intros ps sc ec sr er c r f Hc.
  - exists c, r, f. split; [done|]. split; [|done]. intros i j. unfold row_at, arr_get.
    repeat zcase; by rewrite ?lookup_nil.
  - cbn [length] in Hc. destruct (decide (c = ec)) as [->|Hne].
    + destruct vs; [|cbn in Hc; lia]. exists sc, (r + 1), (put f ec r v). split.
      { cbn. by rewrite Z.eqb_refl. }
      split; [|done]. intros i j. unfold put, row_at. destruct (j =? r), (i =? ec) eqn:E; zb; cbn; try done.
      * by replace (i - ec) with 0 by lia.
      * replace (arr_get [v] (i - ec)) with (@None Z); [done|].
        symmetry. apply arr_get_None. cbn. lia.
    + destruct (IH ps sc ec sr er (c + 1) r (put f c r v)) as (c' & r' & g & E & Hg & Hend); [lia|].
      exists c', r', g. split.
      { cbn. replace (c =? ec) with false by lia. exact E. }
      split.
      2:{ intros _ Hlen. cbn [length] in Hlen. apply Hend; [|lia]. intros ->. cbn in Hlen. lia. }
      intros i j. rewrite Hg. unfold put, row_at. destruct (j =? r) eqn:Ej; zb;
        rewrite ?andb_false_r, ?andb_true_r; [|done].
      destruct (decide (i = c)) as [->|Hi].
      * replace (c =? c) with true by lia. replace (vs.[c - (c + 1)]) with (@None Z)
          by (symmetry; apply arr_get_None; lia). by replace (c - c) with 0 by lia.
      * replace (i =? c) with false by lia. cbn. unfold arr_get.
        repeat zcase; try lia; try done.
        by replace (Z.to_nat (i - c)) with (S (Z.to_nat (i - (c + 1)))) by lia.
Qed.

(** Opening a row and writing its pixels. *)
Lemma row_paints ec x y vs s1 s2 s3 :
  0 <= x < 65536 -> 0 <= y < 65536 -> x + Z.of_nat (length vs) <= ec + 1 ->
  wrote s1 (cursor_ops x y ++ [REG 0x2C]) s2 -> wrote s2 (RAM <$> vs) s3 ->
  paints ec s1 s3 (row_at x y vs).
Proof.
  intros Hx Hy Hv W1 W2. eexists. split; [by eapply wrote_app|]. intros p Hp.
  rewrite read_bus_app. destruct (read_cursor x y p Hx Hy) as (m & ps & -> & ->).
  rewrite Hp. destruct (read_pixels vs ps x ec y (end_row p) x y (picture p) Hv)
    as (c & r & g & -> & Hg & _). done.
Qed.

(** A loop that writes one pixel at each pass. *)
Lemma pixels_for n (f : Z -> Z) body s :
  (forall k t, 0 <= k < Z.of_nat n -> body k t = TFTLCD_RAM (f k) t) ->
  exists s', st_for n 0 body s = Some (tt, s') /\
    wrote s (RAM <$> ((fun k => u16 (f k)) <$> seqZ 0 (Z.of_nat n))) s'.
Proof.
  intros Hb. destruct (st_for_inv (fun k t =>
      wrote s (RAM <$> ((fun k => u16 (f k)) <$> seqZ 0 k)) t) body n 0 s)
    as (s' & E & W); [|apply wrote_nil|by exists s'].
  intros k t Hk W. rewrite (Hb k t ltac:(lia)). eexists. split; [apply bus_wrote|].
  replace (seqZ 0 (k + 1)) with (seqZ 0 k ++ [k])
    by (rewrite seqZ_app by lia; f_equal; by rewrite Z.add_0_l).
  rewrite !fmap_app. by eapply wrote_app.
Qed.

(** A loop that writes one row of pixels at each pass. *)
Lemma rows_for ec x y n (vs : Z -> list Z) body s :
  0 <= x < 65536 -> 0 <= y -> y + Z.of_nat n <= 65536 -> ready s ->
  (forall k, 0 <= k < Z.of_nat n -> x + Z.of_nat (length (vs k)) <= ec + 1) ->
  (forall k t, 0 <= k < Z.of_nat n -> ready t -> exists t1 t2,
     wrote t (cursor_ops x (y + k) ++ [REG 0x2C]) t1 /\ body k t = Some (tt, t2) /\
     wrote t1 (RAM <$> vs k) t2) ->
  exists s', st_for n 0 body s = Some (tt, s') /\ paints ec s s' (rows_at x y (Z.of_nat n) vs).
Proof.
  intros Hx Hy Hn Hr Hv Hb.
  destruct (st_for_inv (fun k t => paints ec s t (rows_at x y k vs)) body n 0 s)
    as (s' & E & P); [| |by exists s'].
  - intros k t Hk P.
    destruct (Hb k t ltac:(lia) (paints_ready _ _ _ _ P Hr)) as (t1 & t2 & W1 & E & W2).
    exists t2. split; [done|]. eapply paints_ext.
    { eapply paints_over; [exact P|]. exact (row_paints ec x (y + k) (vs k) t t1 t2 Hx ltac:(lia) (Hv k ltac:(lia)) W1 W2). }
    intros i j. unfold over, row_at, rows_at.
    destruct (decide (j = y + k)) as [->|Hj].
    + rewrite Z.eqb_refl. replace (y + k - y) with k by lia.
      replace ((y <=? y + k) && (y + k <? y + k)) with false by lia.
      replace ((y <=? y + k) && (y + k <? y + (k + 1))) with true by lia.
      by destruct (arr_get _ _).
    + replace (j =? y + k) with false by lia.
      by replace (j <? y + (k + 1)) with (j <? y + k) by lia.
  - eapply paints_ext; [apply paints_nil|]. intros i j. unfold rows_at. zcase; [lia|done].
Qed.

(** ** Lines and boxes *)

Definition rectangle (x y w h v : Z) : area :=
  fun i j => if (x <=? i) && (i <? x + w) && (y <=? j) && (j <? y + h) then Some v else None.

Lemma rectangle_in x y w h v i j :
  rectangle x y w h v i j = if decide (x <= i < x + w /\ y <= j < y + h) then Some v else None.
Proof.
  unfold rectangle. destruct (x <=? i) eqn:?, (i <? x + w) eqn:?, (y <=? j) eqn:?, (j <? y + h) eqn:?;
    cbn; zb; case_decide; try done; lia.
Qed.

Lemma same_pixels x y w h v i j :
  0 <= w -> rows_at x y h (fun _ => (fun _ => v) <$> seqZ 0 w) i j = rectangle x y w h v i j.
Proof.
  intros Hw. unfold rows_at, rectangle.
  destruct (y <=? j) eqn:?, (j <? y + h) eqn:?; cbn; rewrite ?andb_false_r; try done.
  rewrite !andb_true_r. zcase.
  - apply arr_get_Some. split; [lia|]. rewrite list_lookup_fmap.
    by rewrite lookup_seqZ_lt by lia.
  - apply arr_get_None. rewrite length_fmap, length_seqZ. lia.
Qed.

Lemma COLOR16_u16 c : u16 (COLOR16 c) = COLOR16 c.
Proof. unfold COLOR16, RGB_To_U16, u16. by rewrite Zmod_mod. Qed.

Lemma DrawLine_rectangle ec x y l s :
  ready s -> 0 <= x < 65536 -> 0 <= y ->
  0 <= Ele_Line_Width l -> x + Ele_Line_Width l <= ec + 1 ->
  0 <= Ele_Line_Height l -> y + Ele_Line_Height l <= 65536 ->
  exists s', DrawLine x y l s = Some (tt, s') /\
    paints ec s s' (rectangle x y (Ele_Line_Width l) (Ele_Line_Height l)
                      (COLOR16 (Ele_Line_Color l))).
Proof.
  intros Hr Hx Hy Hw Hxw Hh Hyh. unfold DrawLine.
  destruct (rows_for ec x y (Z.to_nat (Ele_Line_Height l))
    (fun _ => (fun _ => COLOR16 (Ele_Line_Color l)) <$> seqZ 0 (Ele_Line_Width l))
    (fun PixYIndex =>
       _ ← TFTLCD_SetCursor x (u16 (y + PixYIndex));
       c ← cmd_of CMD_Write_ColorCode; _ ← TFTLCD_REG c;
       st_for (Z.to_nat (Ele_Line_Width l)) 0
         (fun _ => TFTLCD_RAM (COLOR16 (Ele_Line_Color l)))) s) as (s' & E & P);
    try lia; try done.
  - intros k _. rewrite length_fmap, length_seqZ. lia.
  - intros k t Hk Ht. rewrite u16_small by lia.
    destruct (open_row_then x (y + k) (st_for (Z.to_nat (Ele_Line_Width l)) 0
         (fun _ => TFTLCD_RAM (COLOR16 (Ele_Line_Color l)))) t Ht) as (t1 & W1 & E1).
    destruct (pixels_for (Z.to_nat (Ele_Line_Width l)) (fun _ => COLOR16 (Ele_Line_Color l))
      (fun _ => TFTLCD_RAM (COLOR16 (Ele_Line_Color l))) t1) as (t2 & E2 & W2); [done|].
    exists t1, t2. split; [done|]. split; [exact (eq_trans E1 E2)|].
    by rewrite Z2Nat.id, COLOR16_u16 in W2 by lia.
  - exists s'. split; [done|]. eapply paints_ext; [exact P|]. intros i j.
    rewrite Z2Nat.id by lia. by apply same_pixels.
Qed.

(** The picture of a box: the border all around, the inside when it is solid. *)
Definition box_area (x y : Z) (b : Ele_Box_PropType) : area :=
  let bd := Ele_Box_Border b in
  let bw := Ele_Line_Width bd in let bh := Ele_Line_Height bd in
  fun i j =>
    if (x <=? i) && (i <? x + Ele_Box_Width b + 2 * bw) &&
       (y <=? j) && (j <? y + Ele_Box_Height b + 2 * bh) then
      if (x + bw <=? i) && (i <? x + bw + Ele_Box_Width b) &&
         (y + bh <=? j) && (j <? y + bh + Ele_Box_Height b) then
        if Ele_Box_IsSolid b =? 0 then None else Some (COLOR16 (Ele_Box_Color b))
      else Some (COLOR16 (Ele_Line_Color bd))
    else None.

(** One more line of a drawing. *)
Lemma then_line ec x y l s s1 A B (k : unit -> LCD unit) :
  paints ec s s1 A -> ready s -> 0 <= x < 65536 -> 0 <= y ->
  0 <= Ele_Line_Width l -> x + Ele_Line_Width l <= ec + 1 ->
  0 <= Ele_Line_Height l -> y + Ele_Line_Height l <= 65536 ->
  (forall s2, paints ec s s2 (over (rectangle x y (Ele_Line_Width l) (Ele_Line_Height l)
                                      (COLOR16 (Ele_Line_Color l))) A) ->
     exists s', k tt s2 = Some (tt, s') /\ paints ec s s' B) ->
  exists s', (DrawLine x y l ≫= k) s1 = Some (tt, s') /\ paints ec s s' B.
Proof.
  intros P Hr Hx Hy Hw Hxw Hh Hyh Hk.
  destruct (DrawLine_rectangle ec x y l s1 (paints_ready _ _ _ _ P Hr)) as (s2 & E & P2);
    try done. rewrite (st_bind_eq _ _ _ _ _ E).
  exact (Hk s2 (paints_over _ _ _ _ _ _ P P2)).
Qed.

(** C34: a box whose outer rectangle fits the display window is drawn exactly:
    [DrawBox] always returns, the border has its colour on all four sides, the
    inside has the box's colour if the box is solid and is not touched otherwise,
    and no pixel outside the outer rectangle changes. *)
Theorem DrawBox_paints ec x y b s :
  ready s -> 0 <= x -> 0 <= y -> 0 <= Ele_Box_Width b -> 0 <= Ele_Box_Height b ->
  0 <= Ele_Line_Width (Ele_Box_Border b) -> 0 <= Ele_Line_Height (Ele_Box_Border b) ->
  x + Ele_Box_Width b + 2 * Ele_Line_Width (Ele_Box_Border b) <= ec + 1 -> ec < 65535 ->
  y + Ele_Box_Height b + 2 * Ele_Line_Height (Ele_Box_Border b) < 65536 ->
  exists s', DrawBox x y b s = Some (tt, s') /\ paints ec s s' (box_area x y b).
Proof.
  intros Hr Hx Hy Hw Hh Hbw Hbh Hxe He Hye. unfold DrawBox.
  set (bd := Ele_Box_Border b) in *. set (bw := Ele_Line_Width bd) in *.
  set (bh := Ele_Line_Height bd) in *. set (w := Ele_Box_Width b) in *.
  set (h := Ele_Box_Height b) in *.
  rewrite (u16_small (w + bw * 2)), (u16_small (h + bh * 2)) by lia. rewrite !u16_small by lia.
  eapply then_line; [apply paints_nil|exact Hr|cbn; lia..|]. intros s1 P1.
  eapply then_line; [exact P1|exact Hr|cbn; lia..|]. intros s2 P2.
  eapply then_line; [exact P2|exact Hr|cbn; lia..|]. intros s3 P3.
  eapply then_line; [exact P3|exact Hr|cbn; lia..|]. intros s4 P4.
  clear P1 P2 P3. cbn [Ele_Line_Width Ele_Line_Height Ele_Line_Color] in P4.
  pose proof (paints_ready _ _ _ _ P4 Hr) as Hr4.
  unfold box_area. fold bd bw bh w h. destruct (Ele_Box_IsSolid b =? 0).
  - eexists. split; [done|]. eapply paints_ext; [exact P4|]. intros i j.
    unfold over, rectangle. repeat zcase; try done; lia.
  - destruct (DrawLine_rectangle ec (x + bw) (y + bh)
      (LineProp w h (Ele_Line_Type bd) (Ele_Box_Color b)) s4) as (s5 & E & P5);
      try done; cbn; try lia.
    exists s5. split; [exact E|]. eapply paints_ext; [exact (paints_over _ _ _ _ _ _ P4 P5)|].
    intros i j. unfold over, rectangle. cbn. repeat zcase; try done; lia.
Qed.

(** ** Characters *)

(** The bit of the font for pixel [j] of row [r]: two bytes for each row, the
    first pixel in the highest bit. *)
Definition font_bit (buff : list Z) (r j : Z) : bool :=
  Z.testbit (default 0 buff.[2 * r + j / 8]) (7 - j mod 8).

Definition word_pixel (w : TFTLCD_Word_PropType) (r j : Z) : Z :=
  u16 (if font_bit (WordBuff w) r j then FontFg w else FontBg w).

Lemma top_bit v : (Z.land v 0x8000 =? 0) = negb (Z.testbit v 15).
Proof.
  destruct (Z.testbit v 15) eqn:E; cbn; [apply Z.eqb_neq|apply Z.eqb_eq].
  - intros H. apply (f_equal (fun z => Z.testbit z 15)) in H.
    by rewrite Z.land_spec, E in H.
  - apply Z.bits_inj'. intros n Hn. rewrite Z.land_spec, Z.bits_0.
    change 0x8000 with (2 ^ 15). destruct (decide (n = 15)) as [->|Hne]; [by rewrite E|].
    by rewrite Z.pow2_bits_false, andb_false_r by lia.
Qed.

Lemma u16_shifted v k n :
  0 <= k -> 0 <= n < 16 -> Z.testbit (u16 (Z.shiftl v k)) n = Z.testbit v (n - k).
Proof. intros. unfold u16. rewrite Z.mod_pow2_bits_low by lia. apply Z.shiftl_spec. lia. Qed.

Lemma shift_once v k : 0 <= k -> u16 (Z.shiftl (u16 (Z.shiftl v k)) 1) = u16 (Z.shiftl v (k + 1)).
Proof.
  intros. rewrite !Z.shiftl_mul_pow2 by lia. unfold u16.
  rewrite Zmult_mod_idemp_l, Z.pow_add_r by lia. f_equal. lia.
Qed.

Lemma word_row_wrote n v fg bg : forall k s, 0 <= k ->
  exists s', word_row n (u16 (Z.shiftl v k)) fg bg s = Some (tt, s') /\
    wrote s (RAM <$> ((fun j => u16 (if Z.testbit v (15 - j) then fg else bg)) <$>
                      seqZ k (Z.of_nat n))) s'.
Proof.
  induction n as [|n IH]; intros k s Hk; [exists s; split; [done|apply wrote_nil]|].
  cbn [word_row]. unfold TFTLCD_RAM. rewrite (st_bind_eq (bus _) _ s _ _ (bus_wrote _ s)).
  rewrite shift_once by done. set (s1 := Lcd _ _ _).
  destruct (IH (k + 1) s1) as (s' & E & W); [lia|]. exists s'. split; [exact E|].
  rewrite seqZ_cons by lia. cbn [fmap list_fmap].
  replace (Z.pred (Z.of_nat (S n))) with (Z.of_nat n) by lia.
  replace (Z.succ k) with (k + 1) by lia.
  eapply (wrote_app _ [_]); [|exact W]. unfold wrote, s1.
  rewrite top_bit, u16_shifted by lia. by destruct (Z.testbit v (15 - k)).
Qed.

(** The two font bytes of a row as the code joins them. *)
Lemma joined_bit hi lo j :
  0 <= hi < 256 -> 0 <= lo < 256 -> 0 <= j < 16 ->
  Z.testbit (Z.lor (Z.shiftl hi 8) lo) (15 - j) =
  if j <? 8 then Z.testbit hi (7 - j) else Z.testbit lo (15 - j).
Proof.
  intros Hh Hl Hj. rewrite Z.lor_spec, Z.shiftl_spec by lia.
  replace (15 - j - 8) with (7 - j) by lia. zcase.
  - replace (Z.testbit lo (15 - j)) with false; [by rewrite orb_false_r|].
    symmetry. rewrite <- (Z.mod_small lo (2 ^ 8)) by lia. apply Z.mod_pow2_bits_high. lia.
  - by rewrite (Z.testbit_neg_r hi) by lia.
Qed.

Lemma font_row buff r hi lo j :
  0 <= hi < 256 -> 0 <= lo < 256 -> 0 <= j < 16 ->
  buff.[2 * r] = Some hi -> buff.[2 * r + 1] = Some lo ->
  Z.testbit (u16 (Z.lor (Z.shiftl hi 8) lo)) (15 - j) = font_bit buff r j.
Proof.
  intros Hh Hl Hj Eh El. unfold u16. rewrite Z.mod_pow2_bits_low, joined_bit by lia.
  unfold font_bit. zcase.
  - rewrite (Z.div_small j 8), (Z.mod_small j 8), Z.add_0_r, Eh by lia. done.
  - replace (j / 8) with 1 by (Z.div_mod_to_equations; lia).
    replace (j mod 8) with (j - 8) by (Z.div_mod_to_equations; lia).
    rewrite El. cbn [default]. f_equal. lia.
Qed.

(** a character is drawn exactly: for a font of at most 16 pixels a side
    with two bytes for each row, [TFTLCD_Word] always returns, each pixel of the
    square has the foreground where its font bit is set and the background where
    not, and no other pixel changes.  The two colours are put on the 16-bit bus
    as they are. *)
Theorem TFTLCD_Word_paints ec x y w s :
  ready s -> 0 <= x < 65536 -> 0 <= y -> 0 <= FontSize w <= 16 ->
  x + FontSize w <= ec + 1 -> y + FontSize w <= 65536 ->
  2 * FontSize w <= Z.of_nat (length (WordBuff w)) ->
  Forall (fun b => 0 <= b < 256) (WordBuff w) ->
  exists w' s', TFTLCD_Word x y w s = Some (w', s') /\ XPix w' = x /\ YPix w' = y /\
    paints ec s s' (rows_at x y (FontSize w) (fun r =>
      (fun j => word_pixel w r j) <$> seqZ 0 (FontSize w))).
Proof.
  intros Hr Hx Hy Hn Hxe Hye Hlen Hb. unfold TFTLCD_Word.
  cbn [FontSize FontType FontFg FontBg WordBuff].
  match goal with |- context [st_for ?n 0 ?body] =>
    destruct (rows_for ec x y n (fun r =>
      (fun j => word_pixel w r j) <$> seqZ 0 (FontSize w)) body s) as (s' & E & P) end;
    try lia; try done; [| |].
  3:{ rewrite Z2Nat.id in P by lia. do 2 eexists.
      rewrite (st_bind_eq _ _ _ _ _ E). by repeat split. }
  - intros k _. rewrite length_fmap, length_seqZ. lia.
  - intros k t Hk Ht.
    destruct (arr_get_is_Some (WordBuff w) (2 * k)) as [hi Eh]; [lia|].
    destruct (arr_get_is_Some (WordBuff w) (2 * k + 1)) as [lo El]; [lia|].
    set (v := u16 (Z.lor (Z.shiftl hi 8) lo)).
    destruct (open_row_then x (y + k) (word_row (Z.to_nat (FontSize w)) v (FontFg w) (FontBg w)) t Ht)
      as (t1 & W1 & E1).
    destruct (word_row_wrote (Z.to_nat (FontSize w)) v (FontFg w) (FontBg w) 0 t1)
      as (t2 & E2 & W2); [lia|].
    exists t1, t2. split; [done|]. split.
    + rewrite (st_bind_eq _ _ t hi t) by (unfold st_opt; by rewrite Eh).
      rewrite (st_bind_eq _ _ t lo t) by (unfold st_opt; by rewrite El).
      rewrite (u16_small (y + k)) by lia. etrans; [exact E1|]. fold v.
      rewrite Z.shiftl_0_r in E2. by rewrite (u16_small v) in E2 by apply u16_range.
    + rewrite Z2Nat.id in W2 by lia. replace ((fun j => word_pixel w k j) <$> seqZ 0 (FontSize w))
        with ((fun j => u16 (if Z.testbit v (15 - j) then FontFg w else FontBg w)) <$>
              seqZ 0 (FontSize w)); [exact W2|].
      apply list_fmap_ext. intros i j Hij. apply lookup_seqZ in Hij. unfold word_pixel.
      apply arr_get_Some in Eh as [Hk0 Eh'], El as [Hk1 El'].
      by rewrite <- (font_row _ _ hi lo j) by
        (first [lia | by apply arr_get_Some | by eapply (Forall_lookup_1 _ _ _ _ Hb)]).
Qed.

(** ** Blocks and the whole screen *)

(** A block of 32-bit values: each goes to the bus as its low 16 bits. *)
Lemma DrawBlock_paints ec sx sy ex ey buff s :
  ready s -> 0 <= sx <= ex -> ex <= ec -> ec < 65535 -> 0 <= sy <= ey -> ey < 65535 ->
  (ey - sy + 1) * (ex - sx + 1) <= Z.of_nat (length buff) ->
  exists s', TFTLCD_DrawBlock sx sy ex ey buff s = Some (tt, s') /\
    paints ec s s' (rows_at sx sy (ey - sy + 1) (fun i =>
      (fun j => u16 (default 0 buff.[i * (ex - sx + 1) + j])) <$> seqZ 0 (ex - sx + 1))).
Proof.
  intros Hr Hx Hxe He Hy Hye Hlen. unfold TFTLCD_DrawBlock.
  rewrite (u16_small (ex - sx + 1)), (u16_small (ey - sy + 1)) by lia.
  remember (ex - sx + 1) as w eqn:Ew. remember (ey - sy + 1) as h eqn:Eh.
  match goal with |- context [st_for ?n 0 ?body] => destruct (rows_for ec sx sy n (fun i =>
      (fun j => u16 (default 0 buff.[i * w + j])) <$> seqZ 0 w) body s) as (s' & E & P) end;
    try lia; try done; [| |by exists s'; rewrite Z2Nat.id in P by lia].
  - intros k _. rewrite length_fmap, length_seqZ. lia.
  - intros k t Hk Ht. rewrite u16_small by lia.
    set (pix := st_for (Z.to_nat w) 0 (fun j => v ← st_opt buff.[k * w + j]; TFTLCD_RAM v)).
    destruct (open_row_then sx (sy + k) pix t Ht) as (t1 & W1 & E1).
    destruct (pixels_for (Z.to_nat w) (fun j => default 0 buff.[k * w + j])
      (fun j => v ← st_opt buff.[k * w + j]; TFTLCD_RAM v) t1) as (t2 & E2 & W2).
    { intros j u Hj. assert ((k + 1) * w <= h * w) by (apply Z.mul_le_mono_nonneg_r; lia).
      assert (0 <= k * w) by (apply Z.mul_nonneg_nonneg; lia).
      destruct (arr_get_is_Some buff (k * w + j)) as [v Ev]; [lia|].
      by rewrite (st_bind_eq _ _ u v u) by (unfold st_opt; by rewrite Ev); rewrite Ev. }
    exists t1, t2. split; [done|]. split; [exact (eq_trans E1 E2)|].
    by rewrite Z2Nat.id in W2 by lia.
Qed.

(** Reading whole rows: each leaves the position at the start of the next. *)
Lemma read_rows w c ps sr er : 0 < w -> forall h r f,
  exists g, read_bus (Panel 0x2C ps 0 (w - 1) sr er 0 r f) (RAM <$> replicate (h * Z.to_nat w) c) =
      Panel 0x2C ps 0 (w - 1) sr er 0 (r + Z.of_nat h) g /\
    forall i j, g i j = default (f i j) (rectangle 0 r w (Z.of_nat h) c i j).
Proof.
  intros Hw h. induction h as [|h IH]; intros r f.
  - exists f. split; [cbn; by rewrite Z.add_0_r|]. intros i j. unfold rectangle.
    zcase; [lia|done].
  - cbn [Nat.mul]. rewrite replicate_add, fmap_app, read_bus_app.
    destruct (read_pixels (replicate (Z.to_nat w) c) ps 0 (w - 1) sr er 0 r f)
      as (c' & r' & g & -> & Hg & Hend); [rewrite length_replicate; lia|].
    destruct Hend as [-> ->]; [|rewrite length_replicate; lia|].
    { intros H. apply (f_equal length) in H. rewrite length_replicate in H. cbn in H. lia. }
    destruct (IH (r + 1) g) as (g' & -> & Hg'). exists g'. split; [f_equal; lia|].
    intros i j. rewrite Hg', Hg, !rectangle_in. unfold row_at.
    destruct (j =? r) eqn:Ej; zb; repeat case_decide; cbn; try done; try lia.
    + by rewrite arr_get_replicate by lia.
    + replace (arr_get (replicate (Z.to_nat w) c) (i - 0)) with (@None Z); [done|].
      symmetry. apply arr_get_None. rewrite length_replicate. lia.
Qed.

(** Clearing the screen: every pixel of it, and no other, has the colour. *)
Lemma Clear_paints c s :
  ready s ->
  let w := TFTLCD_Width (TFTLCD_Conf s) in let h := TFTLCD_Height (TFTLCD_Conf s) in
  0 < w < 65536 -> 0 <= h < 65536 ->
  exists s', TFTLCD_Clear c s = Some (tt, s') /\
    paints (w - 1) s s' (rectangle 0 0 w h (COLOR16 c)).
Proof.
  intros Hr w h Hw Hh. unfold TFTLCD_Clear. rewrite (st_bind_eq (st_get _) _ s _ s eq_refl).
  fold w h. rewrite u32_small by nia.
  set (pix := st_for (Z.to_nat (h * w)) 0 (fun _ => TFTLCD_RAM (COLOR16 c))).
  destruct (open_row_then 0 0 pix s Hr) as (s1 & W1 & E1).
  destruct (pixels_for (Z.to_nat (h * w)) (fun _ => COLOR16 c)
    (fun _ => TFTLCD_RAM (COLOR16 c)) s1) as (s2 & E2 & W2); [done|].
  exists s2. split; [exact (eq_trans E1 E2)|]. eexists. split; [by eapply wrote_app|].
  intros p Hp. rewrite read_bus_app.
  destruct (read_cursor 0 0 p) as (m & ps & -> & ->); [lia..|]. rewrite Hp.
  destruct (read_rows w (COLOR16 c) ps 0 (end_row p)) with (h := Z.to_nat h) (r := 0) (f := picture p)
    as (g & Eg & Hg); [lia|].
  assert (El : (fun _ => u16 (COLOR16 c)) <$> seqZ 0 (Z.of_nat (Z.to_nat (h * w))) =
    replicate (Z.to_nat h * Z.to_nat w) (COLOR16 c)).
  { apply list_eq_same_length with (n := (Z.to_nat h * Z.to_nat w)%nat);
      rewrite ?length_fmap, ?length_seqZ, ?length_replicate; [lia..|].
    intros i x y Hi. rewrite list_lookup_fmap, lookup_seqZ_lt by lia. cbn.
    rewrite lookup_replicate_2, COLOR16_u16 by lia. congruence. }
  rewrite El, Eg. split; [done|]. intros i j. rewrite Hg. by rewrite Z2Nat.id by lia.
Qed.

(** ** The window *)

(** What the display reads of a coordinate [TFTLCD_SetWindow] sends. *)
Definition window_seen (v : Z) : Z := 256 * b2z (8 <? v) + v mod 256.

Lemma window_seen_id v : 0 <= v < 65536 -> window_seen v = v <-> v <= 8 \/ 256 <= v < 512.
Proof. intros. unfold window_seen, b2z. zcase; Z.div_mod_to_equations; lia. Qed.

(** the window that [TFTLCD_SetWindow] opens: it always returns and touches
    no pixel, but each coordinate reaches the display with its high byte replaced
    by the outcome of the comparison [8 < v].  So the display is given the
    coordinate asked for exactly when that is at most 8 or from 256 to 511. *)
Theorem SetWindow_window sx ex sy ey s :
  ready s -> 0 <= sx < 65536 -> 0 <= ex < 65536 -> 0 <= sy < 65536 -> 0 <= ey < 65536 ->
  exists s' l, TFTLCD_SetWindow sx ex sy ey s = Some (tt, s') /\ wrote s l s' /\
    forall p, let q := read_bus p l in
      picture q = picture p /\
      start_col q = window_seen sx /\ end_col q = window_seen ex /\
      start_row q = window_seen sy /\ end_row q = window_seen ey /\
      (end_col q = ex <-> ex <= 8 \/ 256 <= ex < 512) /\
      (end_row q = ey <-> ey <= 8 \/ 256 <= ey < 512).
Proof.
  intros Hr Hsx Hex Hsy Hey. destruct s as [[w h i d c] l a]. unfold ready in Hr. cbn in Hr. subst c.
  eexists _, [REG 0x2A; RAM (u16 (b2z (8 <? sx))); RAM (u16 (Z.land sx 0xFF));
    RAM (u16 (b2z (8 <? ex))); RAM (u16 (Z.land ex 0xFF));
    REG 0x2B; RAM (u16 (b2z (8 <? sy))); RAM (u16 (Z.land sy 0xFF));
    RAM (u16 (b2z (8 <? ey))); RAM (u16 (Z.land ey 0xFF))].
  split; [reflexivity|]. split.
  { unfold wrote, set. cbn. repeat rewrite <- app_assoc. done. }
  assert (Hseen : forall v, 0 <= v -> 256 * u16 (b2z (8 <? v)) + u16 (Z.land v 255) = window_seen v).
  { intros v Hv. unfold window_seen. change 255 with (Z.ones 8). rewrite Z.land_ones by lia.
    change (2 ^ 8) with 256. pose proof (Z.mod_pos_bound v 256).
    rewrite !u16_small by (unfold b2z; repeat zcase; lia). done. }
  intros [m ps sc ec sr er c r f]. cbn. change (42 =? 44) with false. cbn.
  change (43 =? 44) with false. cbn. rewrite !Hseen by lia. splits; try done;
    apply window_seen_id; lia.
Qed.

(** ** Concrete pictures *)

Definition demo_lcd : lcd :=
  Lcd (LcdConfig 240 320 0x9341 0 (LcdCmd 0xD3 0x36 0x2A 0x2B 0x2C 0x2E)) [] (fun _ => 0).

Definition blank : panel := Panel 0 [] 0 239 0 319 0 0 (fun _ _ => 0).

(** What a painted area shows at a pixel. *)
Lemma paints_pixel ec s s' A p i j :
  paints ec s s' A -> end_col (shown p s) = ec ->
  picture (shown p s') i j = default (picture (shown p s) i j) (A i j).
Proof. intros (l & W & H) Hp. rewrite (shown_wrote _ _ _ _ W). by apply H. Qed.

(** A box of 5 by 3 pixels, its border one pixel wide: a corner, the inside and
    a pixel next to it. *)
Lemma DrawBox_paints_witness :
  let b := BoxProp 5 3 0xFF 1 (LineProp 1 1 0 0xFF0000) in
  exists s', DrawBox 10 20 b demo_lcd = Some (tt, s') /\
    picture (shown blank s') 10 20 = 0x1F /\ picture (shown blank s') 15 23 = 0xF800 /\
    picture (shown blank s') 17 23 = 0.
Proof.
  destruct (DrawBox_paints 239 10 20 (BoxProp 5 3 0xFF 1 (LineProp 1 1 0 0xFF0000)) demo_lcd)
    as (s' & E & P); [reflexivity|cbn; lia..|].
  exists s'. split; [exact E|]. rewrite !(paints_pixel _ _ _ _ blank _ _ P eq_refl).
  splits; vm_compute; reflexivity.
Defined.

(** A character whose second row has its first and last pixels set. *)
Lemma TFTLCD_Word_paints_witness :
  let w := WordProp 0 0 16 0 0xF800 0xFFFF (0 :: 0 :: 0x80 :: 0x01 :: replicate 28 0) in
  exists w' s', TFTLCD_Word 100 50 w demo_lcd = Some (w', s') /\
    picture (shown blank s') 100 51 = 0xF800 /\ picture (shown blank s') 115 51 = 0xF800 /\
    picture (shown blank s') 101 51 = 0xFFFF /\ picture (shown blank s') 116 51 = 0.
Proof.
  destruct (TFTLCD_Word_paints 239 100 50
    (WordProp 0 0 16 0 0xF800 0xFFFF (0 :: 0 :: 0x80 :: 0x01 :: replicate 28 0)) demo_lcd)
    as (w' & s' & E & _ & _ & P); [reflexivity|cbn; lia..|repeat constructor; lia|].
  exists w', s'. split; [exact E|]. rewrite !(paints_pixel _ _ _ _ blank _ _ P eq_refl).
  splits; vm_compute; reflexivity.
Defined.

(** The window of the whole screen: its last column reaches the display as 495,
    its last row as it is. *)
Lemma SetWindow_window_witness :
  exists s' l, TFTLCD_SetWindow 0 239 0 319 demo_lcd = Some (tt, s') /\ wrote demo_lcd l s' /\
    end_col (read_bus blank l) = 495 /\ end_row (read_bus blank l) = 319.
Proof.
  destruct (SetWindow_window 0 239 0 319 demo_lcd) as (s' & l & E & W & H);
    [reflexivity|lia..|].
  exists s', l. split; [exact E|]. split; [exact W|].
  destruct (H blank) as (_ & _ & -> & _ & -> & _). split; vm_compute; reflexivity.
Defined.
