(* ===== verification/Unicode.v ===== *)
(** * Unicode: the characters of file names

    FATFS/src/ffunicode.c as the program configures it (code page 936, long names):
    the conversions between Unicode and GBK by a bounded binary search in the tables
    of [UniOem] and [OemUni], and the upper-case conversion by compressed tables.
    Reading outside a table is [None]. *)

From stdpp Require Import sorting.
From S2P Require Import Prelude UniOem OemUni.

Definition FF_CODE_PAGE : Z := 936.

(** ** The search *)

(** The loop [for (n = 16; n; n--)] of both conversions: what is left of [n], and [i]. *)
Fixpoint search (n : nat) (p : list Z) (c i li hi : Z) : option (nat * Z) :=
  match n with
  | O => Some (O, i)
  | S n' =>
      let i := u32 (li + u32 (hi - li) / 2) in
      x ← p.[i * 2];
      if c =? x then Some (n, i)
      else if x <? c then search n' p c i i hi
      else search n' p c i li i
  end.

(** The conversion through a table. *)
Definition convert (p : list Z) (c : Z) : option Z :=
  let hi := u32 (Z.of_nat (length p) * 2 / 4 - 1) in
  '(n, i) ← search 16 p c 0 0 hi;
  if Nat.eqb n 0 then Some 0 else p.[i * 2 + 1].

Definition ff_uni2oem (uni cp : Z) : option Z :=
  if uni <? 0x80 then Some (u16 uni)
  else if (uni <? 0x10000) && (cp =? FF_CODE_PAGE) then convert uni2oem936 (u16 uni)
  else Some 0.

Definition ff_oem2uni (oem cp : Z) : option Z :=
  if oem <? 0x80 then Some oem
  else if cp =? FF_CODE_PAGE then convert oem2uni936 oem
  else Some 0.

(** ** Upper case *)

(** Compressed up conversion table for U+0000 - U+0FFF. *)
Definition cvt1 : list Z := [
  (* Basic Latin *)
  0x0061; 0x031A;
  (* Latin-1 Supplement *)
  0x00E0; 0x0317;
  0x00F8; 0x0307;
  0x00FF; 0x0001; 0x0178;
  (* Latin Extended-A *)
  0x0100; 0x0130;
  0x0132; 0x0106;
  0x0139; 0x0110;
  0x014A; 0x012E;
  0x0179; 0x0106;
  (* Latin Extended-B *)
  0x0180; 0x004D; 0x0243; 0x0181; 0x0182; 0x0182; 0x0184; 0x0184; 0x0186; 0x0187; 0x0187;
    0x0189; 0x018A; 0x018B; 0x018B; 0x018D; 0x018E; 0x018F; 0x0190; 0x0191; 0x0191; 0x0193;
    0x0194; 0x01F6; 0x0196; 0x0197; 0x0198; 0x0198; 0x023D; 0x019B; 0x019C; 0x019D; 0x0220;
    0x019F; 0x01A0; 0x01A0; 0x01A2; 0x01A2; 0x01A4; 0x01A4; 0x01A6; 0x01A7; 0x01A7; 0x01A9;
    0x01AA; 0x01AB; 0x01AC; 0x01AC; 0x01AE; 0x01AF; 0x01AF; 0x01B1; 0x01B2; 0x01B3; 0x01B3;
    0x01B5; 0x01B5; 0x01B7; 0x01B8; 0x01B8; 0x01BA; 0x01BB; 0x01BC; 0x01BC; 0x01BE; 0x01F7;
    0x01C0; 0x01C1; 0x01C2; 0x01C3; 0x01C4; 0x01C5; 0x01C4; 0x01C7; 0x01C8; 0x01C7; 0x01CA;
    0x01CB; 0x01CA;
  0x01CD; 0x0110;
  0x01DD; 0x0001; 0x018E;
  0x01DE; 0x0112;
  0x01F3; 0x0003; 0x01F1; 0x01F4; 0x01F4;
  0x01F8; 0x0128;
  0x0222; 0x0112;
  0x023A; 0x0009; 0x2C65; 0x023B; 0x023B; 0x023D; 0x2C66; 0x023F; 0x0240; 0x0241; 0x0241;
  0x0246; 0x010A;
  (* IPA Extensions *)
  0x0253; 0x0040; 0x0181; 0x0186; 0x0255; 0x0189; 0x018A; 0x0258; 0x018F; 0x025A; 0x0190;
    0x025C; 0x025D; 0x025E; 0x025F; 0x0193; 0x0261; 0x0262; 0x0194; 0x0264; 0x0265; 0x0266;
    0x0267; 0x0197; 0x0196; 0x026A; 0x2C62; 0x026C; 0x026D; 0x026E; 0x019C; 0x0270; 0x0271;
    0x019D; 0x0273; 0x0274; 0x019F; 0x0276; 0x0277; 0x0278; 0x0279; 0x027A; 0x027B; 0x027C;
    0x2C64; 0x027E; 0x027F; 0x01A6; 0x0281; 0x0282; 0x01A9; 0x0284; 0x0285; 0x0286; 0x0287;
    0x01AE; 0x0244; 0x01B1; 0x01B2; 0x0245; 0x028D; 0x028E; 0x028F; 0x0290; 0x0291; 0x01B7;
  (* Greek, Coptic *)
  0x037B; 0x0003; 0x03FD; 0x03FE; 0x03FF;
  0x03AC; 0x0004; 0x0386; 0x0388; 0x0389; 0x038A;
  0x03B1; 0x0311;
  0x03C2; 0x0002; 0x03A3; 0x03A3;
  0x03C4; 0x0308;
  0x03CC; 0x0003; 0x038C; 0x038E; 0x038F;
  0x03D8; 0x0118;
  0x03F2; 0x000A; 0x03F9; 0x03F3; 0x03F4; 0x03F5; 0x03F6; 0x03F7; 0x03F7; 0x03F9; 0x03FA;
    0x03FA;
  (* Cyrillic *)
  0x0430; 0x0320;
  0x0450; 0x0710;
  0x0460; 0x0122;
  0x048A; 0x0136;
  0x04C1; 0x010E;
  0x04CF; 0x0001; 0x04C0;
  0x04D0; 0x0144;
  (* Armenian *)
  0x0561; 0x0426;
  0x0000].

(** Compressed up conversion table for U+1000 - U+FFFF. *)
Definition cvt2 : list Z := [
  (* Phonetic Extensions *)
  0x1D7D; 0x0001; 0x2C63;
  (* Latin Extended Additional *)
  0x1E00; 0x0196;
  0x1EA0; 0x015A;
  (* Greek Extended *)
  0x1F00; 0x0608;
  0x1F10; 0x0606;
  0x1F20; 0x0608;
  0x1F30; 0x0608;
  0x1F40; 0x0606;
  0x1F51; 0x0007; 0x1F59; 0x1F52; 0x1F5B; 0x1F54; 0x1F5D; 0x1F56; 0x1F5F;
  0x1F60; 0x0608;
  0x1F70; 0x000E; 0x1FBA; 0x1FBB; 0x1FC8; 0x1FC9; 0x1FCA; 0x1FCB; 0x1FDA; 0x1FDB; 0x1FF8;
    0x1FF9; 0x1FEA; 0x1FEB; 0x1FFA; 0x1FFB;
  0x1F80; 0x0608;
  0x1F90; 0x0608;
  0x1FA0; 0x0608;
  0x1FB0; 0x0004; 0x1FB8; 0x1FB9; 0x1FB2; 0x1FBC;
  0x1FCC; 0x0001; 0x1FC3;
  0x1FD0; 0x0602;
  0x1FE0; 0x0602;
  0x1FE5; 0x0001; 0x1FEC;
  0x1FF3; 0x0001; 0x1FFC;
  (* Letterlike Symbols *)
  0x214E; 0x0001; 0x2132;
  (* Number forms *)
  0x2170; 0x0210;
  0x2184; 0x0001; 0x2183;
  (* Enclosed Alphanumerics *)
  0x24D0; 0x051A;
  0x2C30; 0x042F;
  (* Latin Extended-C *)
  0x2C60; 0x0102;
  0x2C67; 0x0106; 0x2C75; 0x0102;
  (* Coptic *)
  0x2C80; 0x0164;
  (* Georgian Supplement *)
  0x2D00; 0x0826;
  (* Full-width *)
  0xFF41; 0x031A;
  0x0000].

(** The command of a block applied to a character in it; [p] is what follows the
    head of the block. *)
Definition upper_cmd (cmd uc bc : Z) (p : list Z) : option Z :=
  if cmd =? 0 then p.[uc - bc]
  else Some (
    if cmd =? 1 then u16 (uc - Z.land (uc - bc) 1)
    else if cmd =? 2 then u16 (uc - 16)
    else if cmd =? 3 then u16 (uc - 32)
    else if cmd =? 4 then u16 (uc - 48)
    else if cmd =? 5 then u16 (uc - 26)
    else if cmd =? 6 then u16 (uc + 8)
    else if cmd =? 7 then u16 (uc - 80)
    else if cmd =? 8 then u16 (uc - 0x1C60)
    else uc).

(** The loop over the blocks; the pointer is the rest of the table. *)
Fixpoint upper_loop (fuel : nat) (uc : Z) (p : list Z) : option Z :=
  match fuel with
  | O => None
  | S fuel' =>
      bc ← p.[0];
      if (bc =? 0) || (uc <? bc) then Some uc else
      nc ← p.[1];
      let p := drop 2 p in
      let cmd := Z.shiftr nc 8 in
      let nc := Z.land nc 0xFF in
      if uc <? bc + nc then upper_cmd cmd uc bc p
      else upper_loop fuel' uc (if cmd =? 0 then drop (Z.to_nat nc) p else p)
  end.

Definition ff_wtoupper (uni : Z) : option Z :=
  if uni <? 0x10000 then
    let uc := u16 uni in
    let p := if uc <? 0x1000 then cvt1 else cvt2 in
    upper_loop (length p) uc p
  else Some uni.

(** ** Tables *)

(** The entries of a table, without the row of zeros at its end. *)
Fixpoint entries (p : list Z) : list (Z * Z) :=
  match p with
  | a :: b :: (_ :: _) as p' => (a, b) :: entries p'
  | _ => []
  end.

(** The entries laid out as in the array. *)
Definition rows (es : list (Z * Z)) : list Z := flat_map (fun e => [fst e; snd e]) es.

Fixpoint increasing (es : list (Z * Z)) : bool :=
  match es with
  | a :: (b :: _) as es' => (fst a <? fst b) && increasing es'
  | _ => true
  end.

(** What a search has to find: the entry of [c]. *)
Definition assoc (c : Z) (es : list (Z * Z)) : option Z := snd <$> find (fun e => fst e =? c) es.

Lemma rows_app es es' : rows (es ++ es') = rows es ++ rows es'.
Proof. apply flat_map_app. Qed.

Lemma length_rows es : length (rows es) = (2 * length es)%nat.
Proof. induction es as [|e es IH]; [done|]. cbn [rows flat_map app length]. unfold rows in IH. lia. Qed.

Lemma rows_get es tl i e : es !! i = Some e ->
  (rows es ++ tl).[Z.of_nat i * 2] = Some (fst e) /\ (rows es ++ tl).[Z.of_nat i * 2 + 1] = Some (snd e).
Proof.
  intros H. replace (Z.of_nat i * 2) with (Z.of_nat (2 * i)) by lia.
  replace (Z.of_nat (2 * i) + 1) with (Z.of_nat (2 * i + 1)) by lia. rewrite !arr_get_nat.
  revert i H. induction es as [|a es IH]; intros [|i] H; try done.
  - by injection H as ->.
  - replace (2 * S i)%nat with (S (S (2 * i))) by lia. cbn. apply (IH i H).
Qed.

Lemma increasing_lt es i j a b : increasing es = true ->
  es !! i = Some a -> es !! j = Some b -> (i < j)%nat -> fst a < fst b.
Proof.
  revert i j a. induction es as [|e es IH]; intros i j a Hs Hi Hj Hij; [done|].
  destruct j as [|j]; [lia|]. cbn in Hj.
  assert (Hs' : increasing es = true) by (destruct es; [done|]; apply andb_true_iff in Hs; tauto).
  destruct i as [|i]; [|apply (IH i j a); [done|done|done|lia]].
  injection Hi as ->. destruct es as [|e' es']; [done|].
  apply andb_true_iff in Hs as [Hae _]. zb.
  destruct j as [|j]; [by injection Hj as ->|].
  enough (fst e' < fst b) by lia. apply (IH 0%nat (S j) e'); [done|done|done|lia].
Qed.

(** ** The search finds what is in the table *)

Section search.
Context (es : list (Z * Z)) (tl : list Z) (c : Z).
Hypothesis Hinc : increasing es = true.

Lemma probe li hi : 0 <= li <= hi -> li < Z.of_nat (length es) -> hi <= Z.of_nat (length es) ->
  Z.of_nat (length es) <= 2 ^ 15 ->
  let i := u32 (li + u32 (hi - li) / 2) in
  i = li + (hi - li) / 2 /\ li <= i /\ (i = li \/ i < hi) /\
  exists e, es !! Z.to_nat i = Some e /\ (rows es ++ tl).[i * 2] = Some (fst e).
Proof.
  intros Hl Hl' Hh Hn. cbv zeta. rewrite (u32_small (hi - li)) by lia.
  pose proof (Z.div_mod (hi - li) 2). pose proof (Z.mod_pos_bound (hi - li) 2).
  rewrite u32_small by lia. splits; [done|lia|lia|].
  destruct (lookup_lt_is_Some_2 es (Z.to_nat (li + (hi - li) / 2))) as [e He]; [lia|].
  exists e. split; [done|]. destruct (rows_get es tl _ e He) as [H1 _].
  by rewrite Z2Nat.id in H1 by lia.
Qed.

Lemma search_hit n t v i li hi :
  es !! t = Some (c, v) -> li <= Z.of_nat t < hi -> 0 <= li -> hi <= Z.of_nat (length es) ->
  Z.of_nat (length es) <= 2 ^ 15 -> hi - li <= 2 ^ Z.of_nat n ->
  exists n', search (S n) (rows es ++ tl) c i li hi = Some (S n', Z.of_nat t).
Proof.
  intros Ht. revert i li hi. induction n as [|n IH]; intros i li hi Htl Hl Hh Hn Hd.
  all: destruct (probe li hi) as (Ei & ? & Hi & e & He & Hr); [lia..|].
  all: remember (u32 (li + u32 (hi - li) / 2)) as k eqn:Ek.
  all: cbn [search]; rewrite <- Ek, Hr; cbn [mbind option_bind].
  - change (2 ^ Z.of_nat 0) with 1 in Hd. assert (k = Z.of_nat t) as -> by lia.
    rewrite Nat2Z.id, Ht in He. injection He as <-. cbn [fst]. ztest. by exists 0%nat.
  - rewrite Nat2Z.inj_succ, Z.pow_succ_r in Hd by lia.
    pose proof (Z.div_mod (hi - li) 2). pose proof (Z.mod_pos_bound (hi - li) 2).
    destruct (Z.lt_trichotomy (Z.of_nat t) k) as [Hlt|[Heq|Hgt]].
    + pose proof (increasing_lt es t _ (c, v) e Hinc Ht He ltac:(lia)) as Hlt'. cbn [fst] in Hlt'.
      repeat ztest. apply (IH k li k); lia.
    + rewrite <- Heq, Nat2Z.id, Ht in He. injection He as <-. cbn [fst]. ztest.
      exists (S n). by rewrite Heq.
    + pose proof (increasing_lt es _ t e (c, v) Hinc He Ht ltac:(lia)) as Hlt'. cbn [fst] in Hlt'.
      repeat ztest. apply (IH k k hi); lia.
Qed.

Lemma search_miss n i li hi :
  (forall v, (c, v) ∉ es) -> 0 <= li <= hi -> li < Z.of_nat (length es) -> hi <= Z.of_nat (length es) ->
  Z.of_nat (length es) <= 2 ^ 15 ->
  exists i', search n (rows es ++ tl) c i li hi = Some (0%nat, i').
Proof.
  intros Hc. revert i li hi. induction n as [|n IH]; intros i li hi Hl Hl' Hh Hn; [by exists i|].
  destruct (probe li hi) as (Ei & ? & Hi & e & He & Hr); [lia..|].
  remember (u32 (li + u32 (hi - li) / 2)) as k eqn:Ek.
  cbn [search]. rewrite <- Ek, Hr. cbn [mbind option_bind].
  assert (c <> fst e).
  { intros ->. apply (Hc (snd e)). apply list_elem_of_lookup_2 with (Z.to_nat k).
    by rewrite He, <- surjective_pairing. }
  ztest. destruct (Z_lt_ge_dec (fst e) c); ztest; apply IH; lia.
Qed.
End search.

Lemma assoc_Some es c t v : increasing es = true -> es !! t = Some (c, v) -> assoc c es = Some v.
Proof.
  intros Hinc. revert t. induction es as [|e es IH]; intros t Ht; [done|].
  unfold assoc. cbn [find]. destruct (fst e =? c) eqn:E.
  - zb. destruct t as [|t]; [by injection Ht as ->|].
    pose proof (increasing_lt _ 0 (S t) e (c, v) Hinc eq_refl Ht ltac:(lia)). cbn in *. lia.
  - destruct t as [|t]; [injection Ht as ->; zb; done|].
    apply (IH ltac:(destruct es; [done|]; apply andb_true_iff in Hinc; tauto) t Ht).
Qed.

Lemma assoc_None es c : assoc c es = None -> forall v, (c, v) ∉ es.
Proof.
  unfold assoc. intros H v Hv. apply fmap_None in H.
  pose proof (find_none _ _ H (c, v)) as Hn. cbn in Hn.
  rewrite Z.eqb_refl in Hn. discriminate Hn. by apply list_elem_of_In.
Qed.

Lemma assoc_In es c v : assoc c es = Some v -> (c, v) ∈ es.
Proof.
  unfold assoc. intros H. apply fmap_Some in H as (e & He & ->).
  apply find_some in He as [He Hc]. zb. subst c. rewrite <- surjective_pairing. by apply list_elem_of_In.
Qed.

(** A table is good: entries in increasing order, few enough for sixteen probes,
    and a row after them. *)
Definition good_table (p : list Z) : bool :=
  increasing (entries p) && (Z.of_nat (length (entries p)) <=? 2 ^ 15) &&
  (1 <=? Z.of_nat (length (entries p))) && bool_decide (p = rows (entries p) ++ [0; 0]).

Lemma convert_eq p c : good_table p = true -> convert p c = Some (default 0 (assoc c (entries p))).
Proof.
  unfold good_table. rewrite !andb_true_iff, bool_decide_eq_true. intros [[[Hinc Hn] Hn1] Hp]. zb.
  revert Hinc Hn Hn1 Hp. generalize (entries p). intros es Hinc Hn Hn1 ->.
  unfold convert. rewrite length_app, length_rows. cbn [length].
  replace (Z.of_nat (2 * length es + 2) * 2 / 4) with (Z.of_nat (length es) + 1)
    by (replace (Z.of_nat (2 * length es + 2) * 2) with ((Z.of_nat (length es) + 1) * 4) by lia;
        by rewrite Z.div_mul).
  rewrite u32_small by lia. replace (Z.of_nat (length es) + 1 - 1) with (Z.of_nat (length es)) by lia.
  destruct (assoc c es) as [v|] eqn:E.
  - pose proof (assoc_In _ _ _ E) as (t & Ht)%list_elem_of_lookup_1.
    pose proof (lookup_lt_Some _ _ _ Ht) as Hlt.
    destruct (search_hit es [0; 0] c Hinc 15 t v 0 0 (Z.of_nat (length es)) Ht) as [n' ->];
      [lia..|cbn; lia|].
    cbn [mbind option_bind Nat.eqb]. by destruct (rows_get es [0; 0] t (c, v) Ht) as [_ ->].
  - destruct (search_miss es [0; 0] c 16 0 0 (Z.of_nat (length es))) as [i' ->];
      [by apply assoc_None|lia..|]. done.
Qed.

(** ** The tables of code page 936 *)

Definition swap (e : Z * Z) : Z * Z := (snd e, fst e).
Definition by_fst (a b : Z * Z) : Prop := fst a <= fst b.
#[local] Instance by_fst_dec a b : Decision (by_fst a b) := decide (fst a <= fst b).

(** Entries are sixteen-bit and outside of ASCII. *)
Definition extended (e : Z * Z) : bool :=
  (0x80 <=? fst e) && (fst e <? 0x10000) && (0x80 <=? snd e) && (snd e <? 0x10000).

Lemma tables_good : good_table uni2oem936 && good_table oem2uni936 &&
  forallb extended (entries uni2oem936) = true.
Proof. vm_compute. reflexivity. Qed.

Lemma tables_inverse :
  bool_decide (merge_sort by_fst (map swap (entries oem2uni936)) = entries uni2oem936) = true.
Proof. vm_compute. reflexivity. Qed.

Lemma uni2oem936_good : good_table uni2oem936 = true.
Proof. pose proof tables_good as H. rewrite !andb_true_iff in H. tauto. Qed.
Lemma oem2uni936_good : good_table oem2uni936 = true.
Proof. pose proof tables_good as H. rewrite !andb_true_iff in H. tauto. Qed.

Lemma uni_extended uni oem : (uni, oem) ∈ entries uni2oem936 ->
  0x80 <= uni < 0x10000 /\ 0x80 <= oem < 0x10000.
Proof.
  pose proof tables_good as H. rewrite !andb_true_iff, forallb_forall in H. destruct H as [_ H].
  intros Hin%list_elem_of_In. specialize (H _ Hin). unfold extended in H.
  rewrite !andb_true_iff in H. destruct_and! H. cbn [fst snd] in *. zb. lia.
Qed.

Lemma entries_inverse uni oem : (uni, oem) ∈ entries uni2oem936 <-> (oem, uni) ∈ entries oem2uni936.
Proof.
  pose proof tables_inverse as H. apply bool_decide_eq_true in H. rewrite <- H.
  rewrite (merge_sort_Permutation by_fst). rewrite list_elem_of_In, in_map_iff, list_elem_of_In.
  split; [intros ([o u] & [= -> ->] & Hin); exact Hin|].
  intros Hin. exact (ex_intro _ (oem, uni) (conj eq_refl Hin)).
Qed.

Lemma good_increasing p : good_table p = true -> increasing (entries p) = true.
Proof. unfold good_table. rewrite !andb_true_iff. tauto. Qed.

Lemma assoc_iff p c v : good_table p = true -> assoc c (entries p) = Some v <-> (c, v) ∈ entries p.
Proof.
  intros Hg. split; [apply assoc_In|]. intros (t & Ht)%list_elem_of_lookup_1.
  exact (assoc_Some _ _ t _ (good_increasing p Hg) Ht).
Qed.

#[local] Opaque uni2oem936 oem2uni936.

Lemma ff_uni2oem_eq uni : 0 <= uni < 2 ^ 32 ->
  ff_uni2oem uni FF_CODE_PAGE =
    Some (if uni <? 0x80 then uni else default 0 (assoc uni (entries uni2oem936))).
Proof.
  intros Hu. unfold ff_uni2oem. rewrite Z.eqb_refl, andb_true_r.
  destruct (uni <? 0x80) eqn:E; zb; [by rewrite u16_small by lia|].
  destruct (uni <? 0x10000) eqn:E'; zb.
  - rewrite u16_small by lia. exact (convert_eq _ uni uni2oem936_good).
  - destruct (assoc uni _) as [v|] eqn:Ea; [|done].
    apply assoc_In, uni_extended in Ea. lia.
Qed.

Lemma ff_oem2uni_eq oem : 0 <= oem < 2 ^ 16 ->
  ff_oem2uni oem FF_CODE_PAGE =
    Some (if oem <? 0x80 then oem else default 0 (assoc oem (entries oem2uni936))).
Proof.
  intros Ho. unfold ff_oem2uni. rewrite Z.eqb_refl.
  destruct (oem <? 0x80); [done|]. exact (convert_eq _ oem oem2uni936_good).
Qed.

Lemma mapped_uni uni oem : 0x80 <= uni -> oem <> 0 ->
  default 0 (assoc uni (entries uni2oem936)) = oem <-> (uni, oem) ∈ entries uni2oem936.
Proof.
  intros Hu Ho. rewrite <- (assoc_iff _ _ _ uni2oem936_good).
  destruct (assoc uni _); cbn; split; congruence.
Qed.

Lemma mapped_oem uni oem : 0x80 <= oem -> uni <> 0 ->
  default 0 (assoc oem (entries oem2uni936)) = uni <-> (oem, uni) ∈ entries oem2uni936.
Proof.
  intros Hu Ho. rewrite <- (assoc_iff _ _ _ oem2uni936_good).
  destruct (assoc oem _); cbn; split; congruence.
Qed.

(** The search against the table.  The bounded binary search finds exactly what
    the table holds: for every 32-bit character the conversion to GBK gives the
    character itself when it is ASCII, the code of its entry in the table when it
    has one, and zero otherwise, and never reads outside the table. *)
Theorem ff_uni2oem_lookup uni : 0 <= uni < 2 ^ 32 ->
  ff_uni2oem uni FF_CODE_PAGE =
    Some (if uni <? 0x80 then uni else default 0 (assoc uni (entries uni2oem936))).
Proof. apply ff_uni2oem_eq. Qed.

(** C35: The two conversions are inverse to each other: a code converts to a
    character (zero reports an error) exactly when the character converts to the
    code. *)
Theorem gbk_roundtrip oem uni :
  0 <= oem < 2 ^ 16 -> 0 <= uni < 2 ^ 32 ->
  ff_oem2uni oem FF_CODE_PAGE = Some uni /\ uni <> 0 <->
  ff_uni2oem uni FF_CODE_PAGE = Some oem /\ oem <> 0.
Proof.
  intros Ho Hu. rewrite ff_oem2uni_eq, ff_uni2oem_eq by done.
  destruct (oem <? 0x80) eqn:Eo, (uni <? 0x80) eqn:Eu; zb.
  - split; intros [[= ->] ?]; done.
  - split; [intros [[= ->] ?]; lia|]. intros [[= E] ?].
    apply mapped_uni, uni_extended in E; [lia|done..].
  - split; [|intros [[= ->] ?]; lia]. intros [[= E] ?].
    apply mapped_oem, entries_inverse, uni_extended in E; [lia|done..].
  - split; intros [[= E] ?].
    + apply mapped_oem, entries_inverse in E; [|done..].
      pose proof (uni_extended _ _ E). split; [f_equal; apply mapped_uni; [lia|lia|done]|lia].
    + apply mapped_uni, entries_inverse in E; [|done..].
      pose proof (uni_extended uni oem (proj2 (entries_inverse uni oem) E)).
      split; [f_equal; apply mapped_oem; [lia|lia|done]|lia].
Qed.

(** ** Upper case *)

(** [f] holds of the [n] integers from [i] on. *)
Fixpoint all_from (n : nat) (i : Z) (f : Z -> bool) : bool :=
  match n with O => true | S n' => f i && all_from n' (i + 1) f end.

Lemma all_from_spec n i f : all_from n i f = true -> forall x, i <= x < i + Z.of_nat n -> f x = true.
Proof.
  revert i. induction n as [|n IH]; intros i H x Hx; [lia|].
  cbn in H. apply andb_true_iff in H as [H1 H2].
  destruct (Z.eq_dec x i) as [->|]; [done|]. apply (IH (i + 1) H2). lia.
Qed.

(** What is checked of each character of the BMP. *)
Definition upper_ok (uni : Z) : bool :=
  match ff_wtoupper uni with
  | Some v => (0 <=? v) && (v <? 0x10000) && Bool.eqb (v <? 0x80) (uni <? 0x80) &&
              match ff_wtoupper v with Some w => w =? v | None => false end
  | None => false
  end.

(** The blocks of a table: their first characters and sizes. *)
Fixpoint heads (fuel : nat) (p : list Z) : option (list (Z * Z)) :=
  match fuel with
  | O => None
  | S fuel' =>
      bc ← p.[0];
      if bc =? 0 then Some [] else
      nc ← p.[1];
      let cmd := Z.shiftr nc 8 in
      let nc := Z.land nc 0xFF in
      bs ← heads fuel' (if cmd =? 0 then drop (Z.to_nat nc) (drop 2 p) else drop 2 p);
      Some ((bc, nc) :: bs)
  end.

Definition in_block (uc : Z) (b : Z * Z) : bool := (fst b <=? uc) && (uc <? fst b + snd b).

(** A character of no block is its own upper case. *)
Lemma upper_outside fuel uc p bs :
  heads fuel p = Some bs -> existsb (in_block uc) bs = false -> upper_loop fuel uc p = Some uc.
Proof.
  revert p bs. induction fuel as [|fuel IH]; intros p bs Hb Hu; [done|].
  cbn [heads upper_loop] in *. destruct p.[0] as [bc|]; [|done]. cbn [mbind option_bind] in *.
  destruct (bc =? 0); [done|]. cbn [orb]. destruct (uc <? bc) eqn:Ebc; [done|].
  destruct p.[1] as [nc|]; [|done]. cbn [mbind option_bind] in *.
  inv_bind Hb. injection Hb as <-. cbn [existsb] in Hu. apply orb_false_iff in Hu as [Hin Hu].
  unfold in_block in Hin. cbn [fst snd] in Hin.
  assert ((bc <=? uc) = true) as E1 by (zb; apply Z.leb_le; lia). rewrite E1 in Hin. cbn [andb] in Hin.
  rewrite Hin. by apply IH with x.
Qed.

Definition table_for (uni : Z) : list Z := if uni <? 0x1000 then cvt1 else cvt2.

(** Every character of every block is checked. *)
Definition blocks_ok (p : list Z) : bool :=
  match heads (length p) p with
  | Some bs => forallb (fun b => all_from (Z.to_nat (snd b)) (fst b) upper_ok) bs
  | None => false
  end.

Lemma upper_blocks : blocks_ok cvt1 && blocks_ok cvt2 = true.
Proof. vm_compute. reflexivity. Qed.

Lemma upper_all uni : 0 <= uni < 0x10000 -> upper_ok uni = true.
Proof.
  intros Hu. pose proof upper_blocks as H. apply andb_true_iff in H.
  assert (Hb : blocks_ok (table_for uni) = true) by (unfold table_for; destruct (_ <? _); tauto).
  unfold blocks_ok in Hb. destruct (heads _ _) as [bs|] eqn:E; [|done].
  destruct (existsb (in_block uni) bs) eqn:Ex.
  - apply existsb_exists in Ex as (b & Hin & Hb'). unfold in_block in Hb'.
    apply andb_true_iff in Hb' as [H1 H2]. zb. rewrite forallb_forall in Hb.
    apply (all_from_spec _ _ _ (Hb b Hin)). lia.
  - pose proof (upper_outside _ _ _ _ E Ex) as Hup.
    assert (Hw : ff_wtoupper uni = Some uni).
    { unfold ff_wtoupper. rewrite u16_small by lia. ztest. exact Hup. }
    unfold upper_ok. rewrite Hw, Hw, Bool.eqb_reflx. by repeat ztest.
Qed.

Lemma upper_ascii : all_from 128 0 (fun u => bool_decide (ff_wtoupper u =
  Some (if (0x61 <=? u) && (u <=? 0x7A) then u - 32 else u))) = true.
Proof. vm_compute. reflexivity. Qed.

(** The upper-case conversion never leaves its tables and ends for every 32-bit
    character; it is idempotent, maps a character of the BMP to one of the BMP and
    ASCII to ASCII and nothing else to ASCII, changes of ASCII only the small
    letters, and leaves the characters beyond the BMP alone. *)
Theorem ff_wtoupper_spec uni : 0 <= uni < 2 ^ 32 ->
  exists v, ff_wtoupper uni = Some v /\ ff_wtoupper v = Some v /\
    (v < 0x10000 <-> uni < 0x10000) /\ (v < 0x80 <-> uni < 0x80) /\ (0x10000 <= uni -> v = uni) /\
    (uni < 0x80 -> v = if (0x61 <=? uni) && (uni <=? 0x7A) then uni - 32 else uni).
Proof.
  intros Hu. destruct (Z_lt_ge_dec uni 0x10000) as [Hlt|Hge].
  - pose proof (upper_all uni ltac:(lia)) as H. unfold upper_ok in H.
    pose proof (all_from_spec _ _ _ upper_ascii uni) as Ha. rewrite bool_decide_eq_true in Ha.
    destruct (ff_wtoupper uni) as [v|]; [|done]. rewrite !andb_true_iff in H.
    destruct H as [[[H0 H1] H2] H3]. zb. apply Bool.eqb_prop in H2.
    destruct (ff_wtoupper v) as [w|] eqn:Ev; [|done]. zb. subst w.
    exists v. splits; [done|done|lia| |lia|intros Hua; specialize (Ha ltac:(lia)); congruence].
    by rewrite <- !Z.ltb_lt, H2.
  - exists uni. assert (E : ff_wtoupper uni = Some uni) by (unfold ff_wtoupper; by ztest).
    splits; [done|done|lia|lia|done|lia].
Qed.

(** ** Witnesses *)

(** The euro sign has a one-byte code; Latin capital A with diaeresis has none. *)
Example ff_uni2oem_lookup_witness :
  ff_uni2oem 0x20AC FF_CODE_PAGE = Some 0x80 /\ ff_uni2oem 0xC4 FF_CODE_PAGE = Some 0.
Proof.
  split; [rewrite (ff_uni2oem_lookup 0x20AC) by lia|rewrite (ff_uni2oem_lookup 0xC4) by lia];
    vm_compute; reflexivity.
Defined.

Example gbk_roundtrip_witness :
  ff_oem2uni 0xD6D0 FF_CODE_PAGE = Some 0x4E2D /\ ff_uni2oem 0x4E2D FF_CODE_PAGE = Some 0xD6D0.
Proof.
  assert (E : ff_oem2uni 0xD6D0 FF_CODE_PAGE = Some 0x4E2D) by (vm_compute; reflexivity).
  split; [exact E|]. apply (gbk_roundtrip 0xD6D0 0x4E2D); [lia..|]. split; [exact E|lia].
Defined.

Example ff_wtoupper_spec_witness : exists v, ff_wtoupper 0x61 = Some v /\ v = 0x41.
Proof.
  destruct (ff_wtoupper_spec 0x61) as (v & E & _ & _ & _ & _ & H); [lia|].
  exists v. split; [exact E|]. rewrite H by lia. reflexivity.
Defined.
