(* ===== verification/FatWords.v ===== *)
(** * FatWords: words and characters of the file system

    The first private functions of FATFS/src/ff.c: little-endian words in a byte
    buffer ([ld_word], [ld_dword], [st_word], [st_dword]), the bytes of a two-byte
    code ([dbc_1st], [dbc_2nd]), and the two directions of the API encoding, UTF-8 as
    the program configures it ([tchar2uni], [put_utf]).  An access outside of a
    buffer is [None]. *)

From S2P Require Import Prelude.

(** ** Words of a buffer at an offset *)

Definition ld_word (b : list Z) (o : Z) : option Z :=
  b1 ← b.[o + 1]; b0 ← b.[o];
  Some (u16 (Z.lor (Z.shiftl b1 8) b0)).

Definition ld_dword (b : list Z) (o : Z) : option Z :=
  b3 ← b.[o + 3]; b2 ← b.[o + 2]; b1 ← b.[o + 1]; b0 ← b.[o];
  let rv := b3 in
  let rv := u32 (Z.lor (Z.shiftl rv 8) b2) in
  let rv := u32 (Z.lor (Z.shiftl rv 8) b1) in
  Some (u32 (Z.lor (Z.shiftl rv 8) b0)).

Definition st_word (b : list Z) (o val : Z) : option (list Z) :=
  b ← b.[o <- u8 val];
  b.[o + 1 <- u8 (Z.shiftr val 8)].

Definition st_dword (b : list Z) (o val : Z) : option (list Z) :=
  b ← b.[o <- u8 val]; let val := Z.shiftr val 8 in
  b ← b.[o + 1 <- u8 val]; let val := Z.shiftr val 8 in
  b ← b.[o + 2 <- u8 val]; let val := Z.shiftr val 8 in
  b.[o + 3 <- u8 val].

(** ** Two-byte codes *)

(** [TBL_DC936]. *)
Definition DbcTbl : list Z := [0x81; 0xFE; 0x00; 0x00; 0x40; 0x7E; 0x80; 0xFE; 0x00; 0x00].

Definition in_range (k c : Z) : option bool :=
  a ← DbcTbl.[k]; b ← DbcTbl.[k + 1]; Some ((a <=? c) && (c <=? b)).

Definition dbc_1st (c : Z) : option bool :=
  d0 ← DbcTbl.[0];
  if d0 <=? c then
    d1 ← DbcTbl.[1];
    if c <=? d1 then Some true else in_range 2 c
  else Some false.

Definition dbc_2nd (c : Z) : option bool :=
  d4 ← DbcTbl.[4];
  if d4 <=? c then
    d5 ← DbcTbl.[5];
    if c <=? d5 then Some true else
    r ← in_range 6 c; if r : bool then Some true else in_range 8 c
  else Some false.

(** ** The API encoding *)

Definition DECODE_ERROR : Z := 0xFFFFFFFF.

Definition IsSurrogate (c : Z) : bool := (0xD800 <=? c) && (c <=? 0xDFFF).

(** The trailing bytes of a sequence: the code and the rest, [inl tt] at a byte that
    does not continue it. *)
Fixpoint trailing (nf : nat) (uc : Z) (p : list Z) : option (unit + Z * list Z) :=
  match nf with
  | O => Some (inr (uc, p))
  | S nf' =>
      match p with
      | [] => None
      | b :: p' =>
          if negb (Z.land b 0xC0 =? 0x80) then Some (inl tt)
          else trailing nf' (u32 (Z.lor (Z.shiftl uc 6) (Z.land b 0x3F))) p'
      end
  end.

Definition surrogate_pair (uc : Z) : Z :=
  Z.lor (Z.lor 0xD800DC00 (Z.land (u32 (Z.shiftl (u32 (uc - 0x10000)) 6)) 0x3FF0000)) (Z.land uc 0x3FF).

(** The character at the start of a string and the rest of the string; the string is
    not advanced on an error. *)
Definition tchar2uni (str : list Z) : option (Z * list Z) :=
  match str with
  | [] => None
  | uc :: p =>
      if Z.land uc 0x80 =? 0 then Some (uc, p) else
      let head :=
        if Z.land uc 0xE0 =? 0xC0 then Some (Z.land uc 0x1F, 1%nat)
        else if Z.land uc 0xF0 =? 0xE0 then Some (Z.land uc 0x0F, 2%nat)
        else if Z.land uc 0xF8 =? 0xF0 then Some (Z.land uc 0x07, 3%nat)
        else None in
      match head with
      | None => Some (DECODE_ERROR, str)
      | Some (uc, nf) =>
          r ← trailing nf uc p;
          match r with
          | inl _ => Some (DECODE_ERROR, str)
          | inr (uc, p) =>
              if (uc <? 0x80) || IsSurrogate uc || (0x110000 <=? uc) then Some (DECODE_ERROR, str)
              else Some (if 0x10000 <=? uc then surrogate_pair uc else uc, p)
          end
      end
  end.

(** The bytes written for a character into a buffer of [szb] bytes; the result of the
    function is their number, zero when the character is wrong or does not fit. *)
Definition put_utf (chr szb : Z) : list Z :=
  if chr <? 0x80 then
    if szb <? 1 then [] else [u8 chr]
  else if chr <? 0x800 then
    if szb <? 2 then [] else
    [u8 (Z.lor 0xC0 (Z.land (Z.shiftr chr 6) 0x1F)); u8 (Z.lor 0x80 (Z.land chr 0x3F))]
  else if chr <? 0x10000 then
    if (szb <? 3) || IsSurrogate chr then [] else
    [u8 (Z.lor 0xE0 (Z.land (Z.shiftr chr 12) 0x0F)); u8 (Z.lor 0x80 (Z.land (Z.shiftr chr 6) 0x3F));
     u8 (Z.lor 0x80 (Z.land chr 0x3F))]
  else
    if szb <? 4 then [] else
    let hc := Z.shiftr (u32 (Z.land chr 0xFFFF0000 - 0xD8000000)) 6 in
    let chr := u32 (Z.land chr 0xFFFF - 0xDC00) in
    if (0x100000 <=? hc) || (0x400 <=? chr) then [] else
    let chr := u32 (Z.lor hc chr + 0x10000) in
    [u8 (Z.lor 0xF0 (Z.land (Z.shiftr chr 18) 0x07)); u8 (Z.lor 0x80 (Z.land (Z.shiftr chr 12) 0x3F));
     u8 (Z.lor 0x80 (Z.land (Z.shiftr chr 6) 0x3F)); u8 (Z.lor 0x80 (Z.land chr 0x3F))].

(** ** Arithmetic of the bit operations *)

Lemma lor_mul_add k a b : 0 <= k -> 0 <= b < 2 ^ k -> Z.lor (a * 2 ^ k) b = a * 2 ^ k + b.
Proof.
  intros Hk Hb. assert (Hl : Z.land (a * 2 ^ k) b = 0).
  { apply Z.bits_inj'. intros n Hn. rewrite Z.land_spec, Z.bits_0, <- Z.shiftl_mul_pow2 by done.
    destruct (Z_lt_ge_dec n k).
    - by rewrite Z.shiftl_spec_low by done.
    - rewrite <- (Z.mod_small b (2 ^ k)) by done. rewrite Z.mod_pow2_bits_high by lia. apply andb_false_r. }
  pose proof (Z.add_lor_land (a * 2 ^ k) b). lia.
Qed.

Lemma lor_shift k a b : 0 <= k -> 0 <= b < 2 ^ k -> Z.lor (Z.shiftl a k) b = a * 2 ^ k + b.
Proof. intros. rewrite Z.shiftl_mul_pow2 by done. by apply lor_mul_add. Qed.

Lemma lor_base k c a b : 0 <= k -> c = a * 2 ^ k -> 0 <= b < 2 ^ k -> Z.lor c b = c + b.
Proof. intros Hk -> Hb. by apply lor_mul_add. Qed.

Lemma land_mask k c a : 0 <= k -> c = Z.ones k -> Z.land a c = a mod 2 ^ k.
Proof. intros Hk ->. by apply Z.land_ones. Qed.

(** The bits from [k] to [k + m]. *)
Lemma land_high k m c a : 0 <= k -> 0 <= m -> c = Z.ones m * 2 ^ k -> Z.land a c = a / 2 ^ k mod 2 ^ m * 2 ^ k.
Proof.
  intros Hk Hm ->. apply Z.bits_inj'. intros n Hn.
  rewrite Z.land_spec, <- !Z.shiftl_mul_pow2 by done.
  destruct (Z_lt_ge_dec n k).
  - rewrite !Z.shiftl_spec_low by done. apply andb_false_r.
  - rewrite !Z.shiftl_spec by done. destruct (Z_lt_ge_dec (n - k) m).
    + rewrite Z.ones_spec_low, andb_true_r, Z.mod_pow2_bits_low, Z.div_pow2_bits by lia. f_equal. lia.
    + rewrite Z.ones_spec_high, Z.mod_pow2_bits_high by lia. apply andb_false_r.
Qed.

Ltac divs := Z.div_mod_to_equations; lia.

(** ** Round trips of words *)

Definition is_u8 (x : Z) : Prop := 0 <= x < 256.

Lemma u8_byte x : is_u8 (u8 x).
Proof. unfold is_u8, u8. apply Z.mod_pos_bound. lia. Qed.

Lemma ld_word_eq b o x y : b.[o] = Some x -> b.[o + 1] = Some y -> is_u8 x -> is_u8 y ->
  ld_word b o = Some (x + 256 * y).
Proof.
  intros Hx Hy Hx' Hy'. unfold ld_word. rewrite Hx, Hy. cbn [mbind option_bind].
  unfold is_u8 in *. rewrite lor_shift by lia. change (2 ^ 8) with 256. rewrite u16_small by lia. f_equal. lia.
Qed.

Lemma ld_dword_eq b o x y z t : b.[o] = Some x -> b.[o + 1] = Some y -> b.[o + 2] = Some z ->
  b.[o + 3] = Some t -> is_u8 x -> is_u8 y -> is_u8 z -> is_u8 t ->
  ld_dword b o = Some (x + 256 * y + 65536 * z + 16777216 * t).
Proof.
  intros Hx Hy Hz Ht. unfold ld_dword. rewrite Hx, Hy, Hz, Ht. cbn [mbind option_bind].
  unfold is_u8. intros. cbv zeta. rewrite !lor_shift by (change (2 ^ 8) with 256; lia).
  change (2 ^ 8) with 256. rewrite (u32_small (t * 256 + z)), (u32_small (_ * 256 + y)), u32_small by lia. f_equal. lia.
Qed.

(** A store changes its bytes and nothing else. *)
Lemma arr_set_at b o x : 0 <= o < Z.of_nat (length b) ->
  exists b', b.[o <- x] = Some b' /\ length b' = length b /\
    (Forall is_u8 b -> is_u8 x -> Forall is_u8 b') /\
    forall i, b'.[i] = if i =? o then Some x else b.[i].
Proof.
  intros Ho. eexists. split; [apply arr_set_is_Some, Ho|]. rewrite length_insert.
  split; [done|]. split; [intros; by apply Forall_insert|].
  intros i. pose proof (arr_set_is_Some b o x Ho) as E. destruct (i =? o) eqn:Ei; zb.
  - subst i. exact (arr_get_set_eq _ _ _ _ E).
  - apply (arr_get_set_ne _ _ _ _ _ E). lia.
Qed.

Lemma st_word_at b o x : 0 <= o -> o + 1 < Z.of_nat (length b) ->
  exists b', st_word b o x = Some b' /\ length b' = length b /\ (Forall is_u8 b -> Forall is_u8 b') /\
    forall i, b'.[i] = if i =? o then Some (u8 x) else if i =? o + 1 then Some (u8 (Z.shiftr x 8)) else b.[i].
Proof.
  intros Ho Hl. unfold st_word.
  destruct (arr_set_at b o (u8 x)) as (b1 & -> & L1 & F1 & G1); [lia|]. cbn [mbind option_bind].
  destruct (arr_set_at b1 (o + 1) (u8 (Z.shiftr x 8))) as (b2 & -> & L2 & F2 & G2); [lia|].
  exists b2. splits; [done|lia|intros; apply F2, u8_byte; apply F1, u8_byte; done|].
  intros i. rewrite G2, G1. repeat zcase; try done; lia.
Qed.

Lemma st_dword_at b o x : 0 <= o -> o + 3 < Z.of_nat (length b) ->
  exists b', st_dword b o x = Some b' /\ length b' = length b /\ (Forall is_u8 b -> Forall is_u8 b') /\
    forall i, b'.[i] = if i =? o then Some (u8 x) else if i =? o + 1 then Some (u8 (Z.shiftr x 8))
      else if i =? o + 2 then Some (u8 (Z.shiftr x 16)) else if i =? o + 3 then Some (u8 (Z.shiftr x 24)) else b.[i].
Proof.
  intros Ho Hl. unfold st_dword. cbv zeta.
  replace (Z.shiftr (Z.shiftr x 8) 8) with (Z.shiftr x 16) by (by rewrite Z.shiftr_shiftr).
  replace (Z.shiftr (Z.shiftr x 16) 8) with (Z.shiftr x 24) by (by rewrite Z.shiftr_shiftr).
  destruct (arr_set_at b o (u8 x)) as (b1 & -> & L1 & F1 & G1); [lia|]. cbn [mbind option_bind].
  destruct (arr_set_at b1 (o + 1) (u8 (Z.shiftr x 8))) as (b2 & -> & L2 & F2 & G2); [lia|]. cbn [mbind option_bind].
  destruct (arr_set_at b2 (o + 2) (u8 (Z.shiftr x 16))) as (b3 & -> & L3 & F3 & G3); [lia|]. cbn [mbind option_bind].
  destruct (arr_set_at b3 (o + 3) (u8 (Z.shiftr x 24))) as (b4 & -> & L4 & F4 & G4); [lia|].
  exists b4. splits; [done|lia| |].
  - intros Hb. apply F4, u8_byte. apply F3, u8_byte. apply F2, u8_byte. by apply F1, u8_byte.
  - intros i. rewrite G4, G3, G2, G1. repeat zcase; try done; lia.
Qed.

(** ** UTF-8 *)

(** A character of the encoding FatFs uses inside: UTF-16, a surrogate pair in one
    32-bit word. *)
Definition utf16 (c : Z) : bool :=
  (0 <=? c) && (c <? 0x10000) && negb (IsSurrogate c) ||
  (0xD800 <=? c / 0x10000) && (c / 0x10000 <=? 0xDBFF) &&
  (0xDC00 <=? c mod 0x10000) && (c mod 0x10000 <=? 0xDFFF).

(** The code point of such a character. *)
Definition code_point (c : Z) : Z :=
  if c <? 0x10000 then c else 0x10000 + (c / 0x10000 - 0xD800) * 0x400 + (c mod 0x10000 - 0xDC00).

(** The bytes of a code point (RFC 3629). *)
Definition utf8 (u : Z) : list Z :=
  if u <? 0x80 then [u]
  else if u <? 0x800 then [0xC0 + u / 64; 0x80 + u mod 64]
  else if u <? 0x10000 then [0xE0 + u / 4096; 0x80 + u / 64 mod 64; 0x80 + u mod 64]
  else [0xF0 + u / 262144; 0x80 + u / 4096 mod 64; 0x80 + u / 64 mod 64; 0x80 + u mod 64].

Lemma lead x k n m j : 0 <= k -> 0 <= x / 2 ^ k -> n = m * 2 ^ j -> 0 <= j -> x / 2 ^ k < 2 ^ j -> 0 <= n -> n + 2 ^ j <= 256 ->
  u8 (Z.lor n (Z.land (Z.shiftr x k) (Z.ones j))) = n + x / 2 ^ k.
Proof.
  intros Hk Hx0 Hn Hj Hx Hn0 Hb. rewrite Z.land_ones, Z.shiftr_div_pow2 by done.
  rewrite Z.mod_small by lia. rewrite (lor_base j n m) by lia. apply u8_small. lia.
Qed.

Lemma cont x k : 0 <= k ->
  u8 (Z.lor 0x80 (Z.land (Z.shiftr x k) 0x3F)) = 0x80 + x / 2 ^ k mod 64.
Proof.
  intros Hk. rewrite (land_mask 6) by done. rewrite Z.shiftr_div_pow2 by done. change (2 ^ 6) with 64.
  pose proof (Z.mod_pos_bound (x / 2 ^ k) 64). rewrite (lor_base 6 _ 2) by lia. apply u8_small. lia.
Qed.

Lemma cont0 x : u8 (Z.lor 0x80 (Z.land x 0x3F)) = 0x80 + x mod 64.
Proof. rewrite <- (Z.shiftr_0_r x) at 1. rewrite cont by done. by rewrite Z.div_1_r. Qed.

Lemma utf16_bmp c : 0 <= c < 0x10000 -> utf16 c = negb (IsSurrogate c).
Proof.
  intros Hc. unfold utf16. rewrite (Z.div_small c) by lia. repeat ztest. cbn [andb]. apply orb_false_r.
Qed.

Lemma put_utf_bmp c szb : 0 <= c < 0x10000 ->
  put_utf c szb = if utf16 c && (Z.of_nat (length (utf8 c)) <=? szb) then utf8 c else [].
Proof.
  intros Hc. rewrite utf16_bmp by done. unfold put_utf, utf8, IsSurrogate.
  destruct (c <? 0x80) eqn:E1; zb; [|destruct (c <? 0x800) eqn:E2; zb; [|ztest]]; cbn [length].
  - repeat ztest. rewrite u8_small by lia. cbn [andb negb Z.of_nat Pos.of_succ_nat]. by repeat zcase; try lia.
  - repeat ztest. change 0x1F with (Z.ones 5). rewrite (lead c 6 0xC0 6 5), cont0 by (cbn; divs).
    change (2 ^ 6) with 64. cbn [andb negb Z.of_nat Pos.of_succ_nat Pos.succ]. by repeat zcase; try lia.
  - change 0x0F with (Z.ones 4). rewrite (lead c 12 0xE0 14 4), cont, cont0 by (cbn; divs).
    change (2 ^ 12) with 4096. change (2 ^ 6) with 64.
    destruct ((0xD800 <=? c) && (c <=? 0xDFFF)); [by rewrite orb_true_r|]. rewrite orb_false_r.
    cbn [andb negb Z.of_nat Pos.of_succ_nat Pos.succ]. by repeat zcase; try lia.
Qed.

Lemma high_half c : 0 <= c < 2 ^ 32 -> Z.land c 0xFFFF0000 = c / 0x10000 * 0x10000.
Proof.
  intros Hc. rewrite (land_high 16 16) by done. change (2 ^ 16) with 0x10000.
  by rewrite (Z.mod_small (c / 0x10000)) by divs.
Qed.

(** The tests of the two halves of a pair, by subtraction with wrap-around. *)
Lemma high_test h : 0 <= h < 0x10000 ->
  (0x100000 <=? u32 (h * 0x10000 - 0xD8000000) / 64) = negb ((0xD800 <=? h) && (h <=? 0xDBFF)).
Proof.
  intros Hh. unfold u32. destruct (_ && _) eqn:E; cbn [negb]; zb; [apply Z.leb_gt|apply Z.leb_le; destruct E; zb]; divs.
Qed.

Lemma low_test l : 0 <= l < 0x10000 ->
  (0x400 <=? u32 (l - 0xDC00)) = negb ((0xDC00 <=? l) && (l <=? 0xDFFF)).
Proof.
  intros Hh. unfold u32. destruct (_ && _) eqn:E; cbn [negb]; zb; [apply Z.leb_gt|apply Z.leb_le; destruct E; zb]; divs.
Qed.

Lemma code_point_pair c : 0x10000 <= c -> utf16 c = true ->
  0x10000 <= code_point c < 0x110000 /\
  u32 (Z.lor (u32 (c / 0x10000 * 0x10000 - 0xD8000000) / 64) (u32 (c mod 0x10000 - 0xDC00)) + 0x10000) = code_point c.
Proof.
  intros Hc H. unfold utf16 in H. rewrite orb_true_iff, !andb_true_iff in H.
  destruct H as [[[? ?] ?]|[[[? ?] ?] ?]]; zb; [lia|]. unfold code_point. ztest.
  set (h := c / 0x10000) in *. set (l := c mod 0x10000) in *.
  rewrite (u32_small (h * 0x10000 - 0xD8000000)), (u32_small (l - 0xDC00)) by lia.
  replace ((h * 0x10000 - 0xD8000000) / 64) with ((h - 0xD800) * 2 ^ 10) by (change (2 ^ 10) with 1024; divs).
  rewrite lor_mul_add by (change (2 ^ 10) with 1024; lia). change (2 ^ 10) with 1024.
  rewrite u32_small by lia. lia.
Qed.

Lemma utf8_pair u : 0x10000 <= u < 0x110000 ->
  utf8 u = [0xF0 + u / 262144; 0x80 + u / 4096 mod 64; 0x80 + u / 64 mod 64; 0x80 + u mod 64].
Proof. intros. unfold utf8. by do 3 ztest. Qed.

Lemma put_utf_pair c szb : 0x10000 <= c < 2 ^ 32 ->
  put_utf c szb = if utf16 c && (Z.of_nat (length (utf8 (code_point c))) <=? szb) then utf8 (code_point c) else [].
Proof.
  intros Hc. unfold put_utf. do 3 ztest. cbv zeta.
  rewrite high_half, (land_mask 16 0xFFFF) by (done || lia). change (2 ^ 16) with 0x10000.
  rewrite Z.shiftr_div_pow2 by lia. change (2 ^ 6) with 64.
  rewrite high_test, low_test, <- negb_andb by divs.
  destruct (utf16 c) eqn:Eu; cbn [andb].
  - destruct (code_point_pair c) as [Hp ->]; [lia|done|].
    unfold utf16 in Eu. replace (c <? 0x10000) with false in Eu by (symmetry; apply Z.ltb_ge; lia).
    rewrite andb_false_r, orb_false_l, <- andb_assoc in Eu. rewrite Eu. cbn [negb].
    rewrite utf8_pair by done. change 0x07 with (Z.ones 3).
    rewrite (lead _ 18 0xF0 30 3), !cont, cont0 by (cbn; divs).
    change (2 ^ 18) with 262144. change (2 ^ 12) with 4096. change (2 ^ 6) with 64.
    cbn [length Z.of_nat Pos.of_succ_nat Pos.succ]. by repeat zcase; try lia.
  - unfold utf16 in Eu. replace (c <? 0x10000) with false in Eu by (symmetry; apply Z.ltb_ge; lia).
    rewrite andb_false_r, orb_false_l, <- andb_assoc in Eu. rewrite Eu. cbn [negb]. by zcase.
Qed.

Lemma put_utf_eq c szb : 0 <= c < 2 ^ 32 ->
  put_utf c szb = if utf16 c && (Z.of_nat (length (utf8 (code_point c))) <=? szb)
                  then utf8 (code_point c) else [].
Proof.
  intros Hc. destruct (Z_lt_ge_dec c 0x10000); [|apply put_utf_pair; lia].
  replace (code_point c) with c by (unfold code_point; by ztest). apply put_utf_bmp. lia.
Qed.

(** *** Decoding *)

(** The first byte by the range it is in. *)
Lemma head_bits b : is_u8 b ->
  (Z.land b 0x80 =? 0) = (b <? 0x80) /\
  (Z.land b 0xE0 =? 0xC0) = (0xC0 <=? b) && (b <? 0xE0) /\
  (Z.land b 0xF0 =? 0xE0) = (0xE0 <=? b) && (b <? 0xF0) /\
  (Z.land b 0xF8 =? 0xF0) = (0xF0 <=? b) && (b <? 0xF8) /\
  (Z.land b 0xC0 =? 0x80) = (0x80 <=? b) && (b <? 0xC0).
Proof.
  unfold is_u8. intros Hb.
  rewrite (land_high 7 1 0x80), (land_high 5 3 0xE0), (land_high 4 4 0xF0), (land_high 3 5 0xF8),
    (land_high 6 2 0xC0) by done.
  change (2 ^ 7) with 128. change (2 ^ 5) with 32. change (2 ^ 4) with 16. change (2 ^ 3) with 8.
  change (2 ^ 6) with 64. change (2 ^ 1) with 2. change (2 ^ 2) with 4.
  splits; apply eq_bool_prop_intro; rewrite ?Is_true_true, ?andb_True, ?Is_true_true; split; intros H;
    destruct_and?; rewrite ?andb_true_iff; zb; repeat split;
    rewrite ?Z.eqb_eq, ?Z.leb_le, ?Z.ltb_lt; divs.
Qed.

Lemma trailing_step nf uc b p : is_u8 b -> 0 <= uc < 2 ^ 26 ->
  trailing (S nf) uc (b :: p) =
    if (0x80 <=? b) && (b <? 0xC0) then trailing nf (uc * 64 + (b - 0x80)) p else Some (inl tt).
Proof.
  intros Hb Hu. cbn [trailing]. destruct (head_bits b Hb) as (_ & _ & _ & _ & ->).
  unfold is_u8 in Hb. destruct ((0x80 <=? b) && (b <? 0xC0)) eqn:E; cbn [negb]; [|done].
  zb. rewrite (land_mask 6 0x3F) by done. change (2 ^ 6) with 64.
  rewrite lor_shift by (change (2 ^ 6) with 64; divs). change (2 ^ 6) with 64.
  rewrite u32_small by divs. f_equal. divs.
Qed.

Lemma surrogate_pair_eq u : 0x10000 <= u < 0x110000 ->
  surrogate_pair u = (0xD800 + (u - 0x10000) / 1024) * 0x10000 + (0xDC00 + u mod 1024).
Proof.
  intros Hu. unfold surrogate_pair. rewrite (u32_small (u - 0x10000)), Z.shiftl_mul_pow2 by lia.
  change (2 ^ 6) with 64. rewrite u32_small by lia.
  rewrite (land_high 16 10), (land_mask 10 0x3FF) by done.
  change (2 ^ 16) with 65536. change (2 ^ 10) with 1024.
  replace ((u - 65536) * 64 / 65536 mod 1024) with ((u - 65536) / 1024) by divs.
  change 0xD800DC00 with (Z.lor (0x36 * 2 ^ 26) 0xDC00).
  rewrite <- (Z.lor_assoc _ 0xDC00), (Z.lor_comm 0xDC00).
  change 65536 with (2 ^ 16) at 2. rewrite (lor_mul_add 16) by lia.
  rewrite (lor_mul_add 26) by (change (2 ^ 16) with 65536; change (2 ^ 26) with 67108864; divs).
  change (2 ^ 16) with 65536. change (2 ^ 26) with 67108864.
  rewrite (lor_base 10 _ (0x36 * 65536 + (u - 65536) / 1024 * 64 + 55)) by (change (2 ^ 10) with 1024; divs).
  divs.
Qed.

Lemma surrogate_pair_code u : 0x10000 <= u < 0x110000 ->
  utf16 (surrogate_pair u) = true /\ code_point (surrogate_pair u) = u /\
  0x10000 <= surrogate_pair u < 0xFFFFFFFF.
Proof.
  intros Hu. rewrite surrogate_pair_eq by done.
  set (h := 0xD800 + (u - 0x10000) / 1024). set (l := 0xDC00 + u mod 1024).
  assert (Hh : 0xD800 <= h <= 0xDBFF) by (subst h; divs).
  assert (Hl : 0xDC00 <= l <= 0xDFFF) by (subst l; divs).
  assert (E : h = 0xD800 + (u - 0x10000) / 1024) by done. assert (E' : l = 0xDC00 + u mod 1024) by done.
  clearbody h l. unfold utf16, code_point.
  replace ((h * 0x10000 + l) / 0x10000) with h by divs.
  replace ((h * 0x10000 + l) mod 0x10000) with l by divs.
  splits; [|ztest; divs|lia|lia]. repeat ztest. cbn. by rewrite ?andb_false_r, ?orb_true_r.
Qed.

(** What decoding a sequence gives: the code of the bits, or an error. *)
Definition decoded (uc : Z) (str p : list Z) : Z * list Z :=
  if (uc <? 0x80) || IsSurrogate uc || (0x110000 <=? uc) then (DECODE_ERROR, str)
  else (if 0x10000 <=? uc then surrogate_pair uc else uc, p).

Definition is_cont (b : Z) : bool := (0x80 <=? b) && (b <? 0xC0).

(** The length and the bits of a sequence by its first byte. *)
Definition head_of (b : Z) : option (Z * nat) :=
  if (0xC0 <=? b) && (b <? 0xE0) then Some (b - 0xC0, 1%nat)
  else if (0xE0 <=? b) && (b <? 0xF0) then Some (b - 0xE0, 2%nat)
  else if (0xF0 <=? b) && (b <? 0xF8) then Some (b - 0xF0, 3%nat)
  else None.

Lemma tchar2uni_head b p : is_u8 b ->
  tchar2uni (b :: p) =
    if b <? 0x80 then Some (b, p) else
    match head_of b with
    | None => Some (DECODE_ERROR, b :: p)
    | Some (uc, nf) =>
        r ← trailing nf uc p;
        match r with
        | inl _ => Some (DECODE_ERROR, b :: p)
        | inr (uc, p') => Some (decoded uc (b :: p) p')
        end
    end.
Proof.
  intros Hb. unfold tchar2uni, head_of, decoded. destruct (head_bits b Hb) as (-> & -> & -> & -> & _).
  unfold is_u8 in Hb. rewrite (land_mask 5 0x1F), (land_mask 4 0x0F), (land_mask 3 0x07) by done.
  change (2 ^ 5) with 32. change (2 ^ 4) with 16. change (2 ^ 3) with 8.
  destruct (b <? 0x80) eqn:E0; [done|]. zb.
  destruct ((0xC0 <=? b) && (b <? 0xE0)) eqn:E1; [|destruct ((0xE0 <=? b) && (b <? 0xF0)) eqn:E2;
    [|destruct ((0xF0 <=? b) && (b <? 0xF8)) eqn:E3]]; zb.
  1: replace (b mod 32) with (b - 0xC0) by divs.
  2: replace (b mod 16) with (b - 0xE0) by divs.
  3: replace (b mod 8) with (b - 0xF0) by divs.
  4: done.
  all: destruct (trailing _ _ _) as [[[]|[u q]]|]; [done| |done]; cbn [mbind option_bind];
    by destruct (_ || _).
Qed.

Lemma utf16_code c : utf16 c = true ->
  0 <= code_point c < 0x110000 /\ IsSurrogate (code_point c) = false /\
  (code_point c < 0x10000 -> code_point c = c) /\
  (0x10000 <= code_point c -> surrogate_pair (code_point c) = c).
Proof.
  intros H. destruct (Z_lt_ge_dec c 0x10000) as [Hlt|Hge].
  - unfold utf16 in H. rewrite orb_true_iff, !andb_true_iff, negb_true_iff in H. zb.
    assert (0 <= c) by (destruct H as [H|H]; [lia|divs]).
    unfold code_point. ztest. splits; [lia|lia| |done|lia].
    destruct H as [(_ & H)|H]; [done|]. divs.
  - destruct (code_point_pair c) as [Hc _]; [lia|done|].
    splits; [lia|lia|unfold IsSurrogate; by repeat ztest|lia|].
    intros _. rewrite surrogate_pair_eq by done. unfold utf16 in H. unfold code_point in *.
    replace (c <? 0x10000) with false in * by (symmetry; apply Z.ltb_ge; lia).
    rewrite andb_false_r, orb_false_l, !andb_true_iff in H. zb. divs.
Qed.

Lemma trailing_nil uc p : trailing 0 uc p = Some (inr (uc, p)).
Proof. done. Qed.

(** Continuation bytes add their six bits. *)
Lemma trailing_cont nf uc x p : 0 <= x < 64 -> 0 <= uc < 2 ^ 26 ->
  trailing (S nf) uc (0x80 + x :: p) = trailing nf (uc * 64 + x) p.
Proof.
  intros Hx Hu. rewrite trailing_step by (unfold is_u8; lia). repeat ztest. cbn [andb]. do 2 f_equal. lia.
Qed.

Lemma decoded_valid u str p : 0x80 <= u < 0x110000 -> IsSurrogate u = false ->
  decoded u str p = (if 0x10000 <=? u then surrogate_pair u else u, p).
Proof. intros Hu Hs. unfold decoded. rewrite Hs. by do 2 ztest. Qed.

Lemma head_of_2 x : 0 <= x < 32 -> head_of (0xC0 + x) = Some (x, 1%nat).
Proof. intros. unfold head_of. repeat ztest. cbn [andb]. do 2 f_equal. lia. Qed.
Lemma head_of_3 x : 0 <= x < 16 -> head_of (0xE0 + x) = Some (x, 2%nat).
Proof. intros. unfold head_of. repeat ztest. cbn [andb]. do 2 f_equal. lia. Qed.
Lemma head_of_4 x : 0 <= x < 8 -> head_of (0xF0 + x) = Some (x, 3%nat).
Proof. intros. unfold head_of. repeat ztest. cbn [andb]. do 2 f_equal. lia. Qed.

Lemma tchar2uni_utf8 u rest : 0 <= u < 0x110000 -> IsSurrogate u = false ->
  tchar2uni (utf8 u ++ rest) = Some (if 0x10000 <=? u then surrogate_pair u else u, rest).
Proof.
  intros Hu Hs. unfold utf8.
  destruct (u <? 0x80) eqn:E1; zb; [|destruct (u <? 0x800) eqn:E2; zb; [|destruct (u <? 0x10000) eqn:E3; zb]];
    cbn [app]; rewrite tchar2uni_head by (unfold is_u8; divs).
  - by repeat ztest.
  - assert (2 <= u / 64 < 32) by divs. ztest. rewrite head_of_2, trailing_cont by divs. cbn [trailing mbind option_bind].
    replace (u / 64 * 64 + u mod 64) with u by divs. by rewrite decoded_valid by (done || lia).
  - assert (0 <= u / 4096 < 16) by divs. ztest. rewrite head_of_3, !trailing_cont by divs.
    cbn [trailing mbind option_bind].
    replace ((u / 4096 * 64 + u / 64 mod 64) * 64 + u mod 64) with u by divs. by rewrite decoded_valid by (done || lia).
  - assert (0 <= u / 262144 < 8) by divs. ztest. rewrite head_of_4, !trailing_cont by divs.
    cbn [trailing mbind option_bind].
    replace (((u / 262144 * 64 + u / 4096 mod 64) * 64 + u / 64 mod 64) * 64 + u mod 64) with u by divs.
    by rewrite decoded_valid by (done || lia).
Qed.

(** In a string that ends in a zero, a sequence ends before the zero. *)
Lemma trailing_nul nf uc p post : (nf <= 3)%nat ->
  Forall is_u8 p -> 0 <= uc < 2 ^ (21 - 6 * Z.of_nat nf) ->
  trailing nf uc (p ++ 0 :: post) = Some (inl tt) \/
  exists uc' q p', trailing nf uc (p ++ 0 :: post) = Some (inr (uc', p' ++ 0 :: post)) /\
    0 <= uc' < 2 ^ 21 /\ p = q ++ p' /\ length q = nf.
Proof.
  revert uc p. induction nf as [|nf IH]; intros uc p Hnf Hp Hu.
  { right. exists uc, [], p. splits; [done|lia|lia|done|done]. }
  assert (2 ^ (21 - 6 * Z.of_nat nf) = 64 * 2 ^ (21 - 6 * Z.of_nat (S nf))) as Hpow.
  { change 64 with (2 ^ 6). rewrite <- Z.pow_add_r by lia. f_equal. lia. }
  assert (2 ^ (21 - 6 * Z.of_nat (S nf)) <= 2 ^ 26) by (apply Z.pow_le_mono_r; lia).
  destruct p as [|b p]; cbn [app].
  { left. rewrite trailing_step by (unfold is_u8; lia). done. }
  inversion Hp as [|? ? Hb Hp']; subst. rewrite trailing_step by (done || lia).
  destruct (_ && _) eqn:E; [zb|by left].
  destruct (IH (uc * 64 + (b - 0x80)) p) as [->|(uc' & q & p' & -> & ? & -> & ?)]; [lia|done|lia|by left|].
  right. exists uc', (b :: q), p'. splits; [done|lia|lia|done|cbn; lia].
Qed.

Lemma head_of_some b uc nf : head_of b = Some (uc, nf) ->
  (1 <= nf <= 3)%nat /\ 0 <= uc < 2 ^ (21 - 6 * Z.of_nat nf).
Proof. unfold head_of. intros H. repeat case_match; zb; simplify_eq; cbn; lia. Qed.

Lemma decoded_cases u str p : 0 <= u < 2 ^ 21 ->
  decoded u str p = (DECODE_ERROR, str) \/
  exists c, decoded u str p = (c, p) /\ utf16 c = true /\ c < DECODE_ERROR /\ 0x80 <= c /\ code_point c = u.
Proof.
  intros Hu. unfold decoded. destruct (_ || _) eqn:E; [by left|right].
  rewrite !orb_false_iff in E. destruct E as [[E1 E2] E3]. zb. eexists. split; [done|].
  destruct (0x10000 <=? u) eqn:E4; zb.
  - destruct (surrogate_pair_code u) as (? & ? & ?); [lia|]. unfold DECODE_ERROR. splits; [done|lia|lia|done].
  - unfold DECODE_ERROR. rewrite utf16_bmp, E2 by lia. splits; [done|lia|lia|]. unfold code_point. by ztest.
Qed.

(** C36: The character encoding of the interface is a faithful UTF-8.  A character (a
    UTF-16 unit or a surrogate pair) that fits in the buffer is stored as the UTF-8
    bytes of its code point, and reading them back gives the character and the rest of
    the string; anything else, in particular a lone surrogate, is refused and writes
    nothing. *)
Theorem utf8_roundtrip c szb rest : 0 <= c < 2 ^ 32 ->
  (if utf16 c && (Z.of_nat (length (utf8 (code_point c))) <=? szb)
   then put_utf c szb = utf8 (code_point c) /\ put_utf c szb <> [] /\ tchar2uni (put_utf c szb ++ rest) = Some (c, rest)
   else put_utf c szb = []).
Proof.
  intros Hc. rewrite put_utf_eq by done. destruct (utf16 c) eqn:Eu; cbn [andb]; [|done].
  destruct (_ <=? szb); [|done].
  destruct (utf16_code c Eu) as (Hp & Hs & H1 & H2). splits; [done|unfold utf8; by repeat case_match|].
  rewrite tchar2uni_utf8 by done. do 2 f_equal.
  destruct (0x10000 <=? code_point c) eqn:E; zb; [by apply H2|by apply H1].
Qed.

(** Reading a character of any string of bytes that ends in a zero stays within
    the string.  It is an error, and the string is not advanced, or the end of the
    string, or a character of Unicode (never a lone surrogate) made of one to four
    bytes before the zero. *)
Theorem tchar2uni_safe p post : Forall is_u8 p ->
  exists c s, tchar2uni (p ++ 0 :: post) = Some (c, s) /\
    (c = DECODE_ERROR /\ s = p ++ 0 :: post \/
     p = [] /\ c = 0 /\ s = post \/
     exists q p', p = q ++ p' /\ (1 <= length q <= 4)%nat /\ s = p' ++ 0 :: post /\
       utf16 c = true /\ 0 <= c < DECODE_ERROR).
Proof.
  intros Hp. destruct p as [|b p]; cbn [app].
  { exists 0, post. split; [done|]. right. by left. }
  inversion Hp as [|? ? Hb Hp']; subst. rewrite tchar2uni_head by done.
  destruct (b <? 0x80) eqn:E; zb.
  { eexists _, _. split; [done|]. right; right. exists [b], p. unfold is_u8 in Hb.
    rewrite utf16_bmp by lia. unfold IsSurrogate, DECODE_ERROR.
    splits; [done|cbn; lia..|done| |lia|lia]. by ztest. }
  destruct (head_of b) as [[uc nf]|] eqn:Eh; [|eexists _, _; split; [done|by left]].
  apply head_of_some in Eh as [Hnf Hu].
  destruct (trailing_nul nf uc p post) as [->|(u & q & p' & -> & Hu' & -> & Hq)];
    [lia|done|done|eexists _, _; split; [done|by left]|]. cbn [mbind option_bind].
  destruct (decoded_cases u (b :: (q ++ p') ++ 0 :: post) (p' ++ 0 :: post) Hu') as [->|(c & -> & H1 & H2 & H3 & _)];
    eexists _, _; split; [done|by left|done|].
  right; right. exists (b :: q), p'. splits; [done|cbn; lia..|done|done|lia|lia].
Qed.

(** ** Witnesses *)

(** The euro sign and an emoji; a lone surrogate is refused. *)
Example utf8_roundtrip_witness :
  put_utf 0x20AC 8 = [0xE2; 0x82; 0xAC] /\ tchar2uni [0xE2; 0x82; 0xAC; 0x2E] = Some (0x20AC, [0x2E]) /\
  tchar2uni (put_utf 0xD83DDE00 4 ++ []) = Some (0xD83DDE00, []) /\ put_utf 0xD83D 8 = [].
Proof.
  destruct (utf8_roundtrip 0x20AC 8 [0x2E]) as (E & _ & E'); [lia|].
  split; [exact E|]. split; [exact E'|]. split.
  - exact (proj2 (proj2 (utf8_roundtrip 0xD83DDE00 4 [] ltac:(lia)))).
  - exact (utf8_roundtrip 0xD83D 8 [] ltac:(lia)).
Defined.

(** A sequence cut short by the end of the string is an error. *)
Example tchar2uni_safe_witness :
  exists c s, tchar2uni [0xE2; 0x82; 0] = Some (c, s) /\ c = DECODE_ERROR.
Proof.
  destruct (tchar2uni_safe [0xE2; 0x82] []) as (c & s & E & _); [repeat constructor; cbn; lia|].
  exists c, s. split; [exact E|]. vm_compute in E. by injection E as <- _.
Defined.
