(* ===== verification/Blocks.v ===== *)
(** * Blocks: ranges of bytes of a buffer

    [peek] and [poke] are the two sides of a [memcpy] at an offset, undefined outside
    of the buffer, with their laws byte by byte. *)

From S2P Require Import Prelude.

Section blocks.
Context {A : Type}.
Implicit Types a b : list A.

(** The [n] elements of [a] from [off]. *)
Definition peek a (off n : Z) : option (list A) :=
  if (0 <=? off) && (0 <=? n) && (off + n <=? Z.of_nat (length a))
  then Some (take (Z.to_nat n) (drop (Z.to_nat off) a)) else None.

(** [a] with [b] stored from [off]. *)
Definition poke a (off : Z) b : option (list A) :=
  if (0 <=? off) && (off + Z.of_nat (length b) <=? Z.of_nat (length a))
  then Some (take (Z.to_nat off) a ++ b ++ drop (Z.to_nat off + length b) a) else None.

Lemma peek_Some a off n b : peek a off n = Some b <->
  0 <= off /\ 0 <= n /\ off + n <= Z.of_nat (length a) /\ b = take (Z.to_nat n) (drop (Z.to_nat off) a).
Proof.
  unfold peek. destruct (_ && _) eqn:E.
  - zb. split; [intros [= <-]; splits; [lia..|done]|]. by intros (_ & _ & _ & ->).
  - split; [done|]. intros (? & ? & ? & _). revert E. by repeat ztest.
Qed.

Lemma peek_range a off n : 0 <= off -> 0 <= n -> off + n <= Z.of_nat (length a) ->
  peek a off n = Some (take (Z.to_nat n) (drop (Z.to_nat off) a)).
Proof. intros. by apply peek_Some. Qed.

Lemma peek_all a n : Z.of_nat (length a) = n -> peek a 0 n = Some a.
Proof. intros <-. rewrite peek_range by lia. f_equal. rewrite drop_0, take_ge by lia. done. Qed.

Lemma peek_length a off n b : peek a off n = Some b -> Z.of_nat (length b) = n.
Proof. intros (? & ? & ? & ->)%peek_Some. rewrite length_take, length_drop. lia. Qed.

Lemma peek_get a off n b j : peek a off n = Some b -> 0 <= j < n -> b.[j] = a.[off + j].
Proof.
  intros (? & ? & ? & ->)%peek_Some Hj. unfold arr_get. repeat ztest.
  rewrite lookup_take_lt by lia. rewrite lookup_drop. f_equal. lia.
Qed.

Lemma peek_Forall P a off n b : peek a off n = Some b -> Forall P a -> Forall P b.
Proof. intros (_ & _ & _ & ->)%peek_Some Ha. by apply Forall_take, Forall_drop. Qed.

Lemma poke_Some a off b a' : poke a off b = Some a' <->
  0 <= off /\ off + Z.of_nat (length b) <= Z.of_nat (length a) /\
  a' = take (Z.to_nat off) a ++ b ++ drop (Z.to_nat off + length b) a.
Proof.
  unfold poke. destruct (_ && _) eqn:E.
  - zb. split; [intros [= <-]; splits; [lia..|done]|]. by intros (_ & _ & ->).
  - split; [done|]. intros (? & ? & _). revert E. by repeat ztest.
Qed.

Lemma poke_range a off b : 0 <= off -> off + Z.of_nat (length b) <= Z.of_nat (length a) ->
  exists a', poke a off b = Some a'.
Proof. intros. eexists. by apply poke_Some. Qed.

Lemma poke_length a off b a' : poke a off b = Some a' -> length a' = length a.
Proof. intros (? & ? & ->)%poke_Some. rewrite !length_app, length_take, length_drop. lia. Qed.

Lemma poke_get a off b a' j : poke a off b = Some a' ->
  a'.[j] = if (off <=? j) && (j <? off + Z.of_nat (length b)) then b.[j - off] else a.[j].
Proof.
  intros (? & ? & ->)%poke_Some. unfold arr_get. destruct (0 <=? j) eqn:E0; zb.
  2: { destruct (_ && _) eqn:E; [zb; lia|done]. }
  destruct (_ && _) eqn:E; zb.
  - ztest. rewrite lookup_app_r by (rewrite length_take; lia).
    rewrite length_take, lookup_app_l by lia. f_equal. lia.
  - destruct (decide (j < off)).
    + rewrite lookup_app_l by (rewrite length_take; lia). by rewrite lookup_take_lt by lia.
    + rewrite lookup_app_r by (rewrite length_take; lia).
      rewrite lookup_app_r by (rewrite length_take; lia). rewrite lookup_drop. f_equal. rewrite length_take. lia.
Qed.

Lemma poke_Forall P a off b a' : poke a off b = Some a' -> Forall P a -> Forall P b -> Forall P a'.
Proof. intros (_ & _ & ->)%poke_Some Ha Hb. repeat apply Forall_app_2; [by apply Forall_take|done|by apply Forall_drop]. Qed.

Lemma poke_all a b : length b = length a -> poke a 0 b = Some b.
Proof.
  intros Hl. apply poke_Some. splits; [lia..|]. cbn [Z.to_nat take app Nat.add].
  rewrite drop_ge by lia. by rewrite app_nil_r.
Qed.


Lemma peek_eq a off n b : 0 <= off -> off + n <= Z.of_nat (length a) -> Z.of_nat (length b) = n ->
  (forall j, 0 <= j < n -> a.[off + j] = b.[j]) -> peek a off n = Some b.
Proof.
  intros Ho Hn Hl Hj. rewrite peek_range by lia. f_equal. apply arr_ext.
  - rewrite length_take, length_drop. lia.
  - intros j Hr. rewrite length_take, length_drop in Hr. rewrite <- Hj by lia.
    eapply peek_get; [apply peek_range; lia|lia].
Qed.

(** Two ranges side by side. *)
Lemma peek_append a off n m b c : peek a off n = Some b -> peek a (off + n) m = Some c -> peek a off (n + m) = Some (b ++ c).
Proof.
  rewrite !peek_Some. intros (? & ? & ? & ->) (? & ? & ? & ->). splits; [lia..|].
  rewrite (Z2Nat.inj_add off n), (Z2Nat.inj_add n m) by lia. rewrite <- drop_drop, take_take_drop. done.
Qed.

(** A range that is stored, or that lies beside it. *)
Lemma peek_poke a o b a' off n : poke a o b = Some a' -> 0 <= off -> 0 <= n -> off + n <= Z.of_nat (length a) ->
  (off = o /\ n = Z.of_nat (length b) -> peek a' off n = Some b) /\
  (off + n <= o \/ o + Z.of_nat (length b) <= off -> peek a' off n = peek a off n).
Proof.
  intros E H0 Hn Hl. pose proof (poke_length _ _ _ _ E) as El. split.
  - intros [-> ->]. apply peek_eq; [done|lia|done|]. intros j Hj. rewrite (poke_get _ _ _ _ _ E).
    repeat ztest. f_equal. lia.
  - intros Hd. destruct (peek a off n) as [c|] eqn:Ec; [|by rewrite peek_range in Ec].
    apply peek_eq; [done|lia|by apply (peek_length a off)|]. intros j Hj.
    rewrite (peek_get _ _ _ _ j Ec) by done. rewrite (poke_get _ _ _ _ _ E).
    destruct (_ && _) eqn:Er; [zb; lia|done].
Qed.
End blocks.

(** ** Bytes given by a function *)

(** The bytes [f k], [f (k + 1)], ... for [n] positions. *)
Definition bytes (f : Z -> Z) (k n : Z) : list Z := f <$> seqZ k n.

Lemma bytes_length f k n : length (bytes f k n) = Z.to_nat n.
Proof. unfold bytes. by rewrite length_fmap, length_seqZ. Qed.

Lemma bytes_get f k n j : 0 <= j < n -> (bytes f k n).[j] = Some (f (k + j)).
Proof.
  intros Hj. unfold bytes, arr_get. ztest. rewrite list_lookup_fmap, lookup_seqZ_lt by lia. cbn. do 2 f_equal. lia.
Qed.

Lemma bytes_app f k n m : 0 <= n -> 0 <= m -> bytes f k (n + m) = bytes f k n ++ bytes f (k + n) m.
Proof. intros. unfold bytes. by rewrite seqZ_app, fmap_app by done. Qed.

Lemma bytes_ext f g k n : (forall j, k <= j < k + n -> f j = g j) -> bytes f k n = bytes g k n.
Proof. intros H. unfold bytes. apply list_fmap_ext. intros i x [-> Hi]%lookup_seqZ. apply H. lia. Qed.

(** A list is the bytes of its positions. *)
Lemma bytes_of_list l f k n : Z.of_nat (length l) = n -> (forall j, 0 <= j < n -> l.[j] = Some (f (k + j))) -> l = bytes f k n.
Proof.
  intros Hl H. apply arr_ext; [rewrite bytes_length; lia|]. intros i Hi. rewrite bytes_get by lia. apply H. lia.
Qed.

Lemma bytes_take f k n m : 0 <= m <= n -> take (Z.to_nat m) (bytes f k n) = bytes f k m.
Proof.
  intros Hm. replace n with (m + (n - m)) at 1 by lia. rewrite bytes_app by lia.
  by rewrite take_app_le, take_ge by (rewrite bytes_length; lia).
Qed.

Lemma bytes_drop f k n m : 0 <= m <= n -> drop (Z.to_nat m) (bytes f k n) = bytes f (k + m) (n - m).
Proof.
  intros Hm. replace n with (m + (n - m)) at 1 by lia. rewrite bytes_app by lia.
  by rewrite drop_app_length' by (rewrite bytes_length; lia).
Qed.
