(* ===== verification/Fat.v ===== *)
(** * Fat: the volume window and the allocation table

    The part of FATFS/src/ff.c below the directories: the one-sector window on the
    volume ([sync_window], [move_window], [sync_fs]), the entries of the allocation
    table in its three formats ([get_fat], [put_fat]) and the chains of clusters
    ([remove_chain], [create_chain]).  The physical drive is the interface [Disk]. *)

From S2P Require Import Prelude FatWords.

(** ** Data *)

(** What the volume object [FATFS] has of these functions (sectors of 512 bytes). *)
Record FATFS := MkFATFS {
  fs_type : Z;
  pdrv : Z;
  n_fats : Z;
  wflag : Z;
  fsi_flag : Z;
  n_rootdir : Z;
  csize : Z;
  last_clst : Z;
  free_clst : Z;
  n_fatent : Z;
  fsize : Z;
  volbase : Z;
  fatbase : Z;
  dirbase : Z;
  database : Z;
  winsect : Z;
  win : list Z
}.
#[export] Instance FATFS_settable : Settable FATFS :=
  fun r => MkFATFS (fs_type r) (pdrv r) (n_fats r) (wflag r) (fsi_flag r) (n_rootdir r) (csize r)
    (last_clst r) (free_clst r) (n_fatent r) (fsize r) (volbase r) (fatbase r) (dirbase r) (database r) (winsect r) (win r).

Definition SS : Z := 512.

Definition FS_FAT12 : Z := 1.
Definition FS_FAT16 : Z := 2.
Definition FS_FAT32 : Z := 3.

Definition FR_OK : Z := 0.
Definition FR_DISK_ERR : Z := 1.
Definition FR_INT_ERR : Z := 2.

Definition RES_OK : Z := 0.
Definition CTRL_SYNC : Z := 0.

Definition STA_NOINIT : Z := 1.

Definition DISK_ERROR : Z := 0xFFFFFFFF.

(** ** The drive

    The services of diskio.c, in the state of the drive: reading [count] sectors into
    a buffer gives the result and what the buffer holds then. *)
Class Disk (D : Type) := {
  disk_initialize : Z -> ST D Z;
  disk_status : Z -> ST D Z;
  disk_read : Z -> list Z -> Z -> Z -> ST D (Z * list Z);
  disk_write : Z -> list Z -> Z -> Z -> ST D Z;
  disk_ctrl_sync : Z -> ST D Z
}.

(** A mounted volume on its drive. *)
Record Vol (D : Type) := MkVol { fs : FATFS; dev : D }.
Arguments MkVol {D} _ _.
Arguments fs {D} _.
Arguments dev {D} _.
#[export] Instance Vol_settable D : Settable (Vol D) := fun r => MkVol (fs r) (dev r).

Section fat.
Context `{Disk D}.

Definition get {A} (f : FATFS -> A) : ST (Vol D) A := st_get (fun v => f (fs v)).
Definition upd (f : FATFS -> FATFS) : ST (Vol D) unit := st_mod (set fs f).
Definition on_dev {A} (m : ST D A) : ST (Vol D) A := fun v =>
  '(x, d) ← m (dev v); Some (x, v <| dev := d |>).

(** ** The window *)

Definition sync_window : ST (Vol D) Z :=
  fs ← get id;
  if negb (wflag fs =? 0) then
    r ← on_dev (disk_write (pdrv fs) (win fs) (winsect fs) 1);
    if r =? RES_OK then
      _ ← upd (set wflag (fun _ => 0));
      _ ← when ((u32 (winsect fs - fatbase fs) <? fsize fs) && (n_fats fs =? 2))
            (_ ← on_dev (disk_write (pdrv fs) (win fs) (u32 (winsect fs + fsize fs)) 1); st_skip);
      mret FR_OK
    else mret FR_DISK_ERR
  else mret FR_OK.

Definition move_window (sect : Z) : ST (Vol D) Z :=
  ws ← get winsect;
  if negb (sect =? ws) then
    res ← sync_window;
    if res =? FR_OK then
      fs ← get id;
      '(r, b) ← on_dev (disk_read (pdrv fs) (win fs) sect 1);
      _ ← upd (set win (fun _ => b));
      if negb (r =? RES_OK) then
        _ ← upd (set winsect (fun _ => u32 (0 - 1)));
        mret FR_DISK_ERR
      else
        _ ← upd (set winsect (fun _ => sect));
        mret FR_OK
    else mret res
  else mret FR_OK.

(** The FSInfo sector of FAT32. *)
Definition fsinfo (fs : FATFS) : option (list Z) :=
  w ← st_word (replicate 512 0) 510 0xAA55;
  w ← st_dword w 0 0x41615252;
  w ← st_dword w 484 0x61417272;
  w ← st_dword w 488 (free_clst fs);
  st_dword w 492 (last_clst fs).

Definition sync_fs : ST (Vol D) Z :=
  res ← sync_window;
  if res =? FR_OK then
    fs ← get id;
    _ ← when ((fs_type fs =? FS_FAT32) && (fsi_flag fs =? 1))
          (w ← st_opt (fsinfo fs);
           _ ← upd (fun fs => fs <| win := w |> <| winsect := u32 (volbase fs + 1) |>);
           _ ← on_dev (disk_write (pdrv fs) w (u32 (volbase fs + 1)) 1);
           upd (set fsi_flag (fun _ => 0)));
    r ← on_dev (disk_ctrl_sync (pdrv fs));
    mret (if negb (r =? RES_OK) then FR_DISK_ERR else FR_OK)
  else mret res.

(** The first sector of a cluster, zero for a number that is not one. *)
Definition clst2sect (fs : FATFS) (clst : Z) : Z :=
  let clst := u32 (clst - 2) in
  if u32 (n_fatent fs - 2) <=? clst then 0
  else u32 (database fs + u32 (csize fs * clst)).

(** ** Entries of the table *)

(** A byte of the window. *)
Definition win_get (o : Z) : ST (Vol D) Z := w ← get win; st_opt w.[o].
Definition win_set (o x : Z) : ST (Vol D) unit :=
  w ← get win; w' ← st_opt w.[o <- x]; upd (set win (fun _ => w')).

Definition get_fat (clst : Z) : ST (Vol D) Z :=
  fs ← get id;
  if (clst <? 2) || (n_fatent fs <=? clst) then mret 1
  else if fs_type fs =? FS_FAT12 then
    let bc := u32 (clst + clst / 2) in
    r ← move_window (u32 (fatbase fs + bc / SS));
    if negb (r =? FR_OK) then mret DISK_ERROR else
    wc ← win_get (bc mod SS);
    let bc := u32 (bc + 1) in
    r ← move_window (u32 (fatbase fs + bc / SS));
    if negb (r =? FR_OK) then mret DISK_ERROR else
    b ← win_get (bc mod SS);
    let wc := Z.lor wc (Z.shiftl b 8) in
    mret (if negb (Z.land clst 1 =? 0) then Z.shiftr wc 4 else Z.land wc 0xFFF)
  else if fs_type fs =? FS_FAT16 then
    r ← move_window (u32 (fatbase fs + clst / (SS / 2)));
    if negb (r =? FR_OK) then mret DISK_ERROR else
    w ← get win;
    st_opt (ld_word w (u32 (clst * 2) mod SS))
  else if fs_type fs =? FS_FAT32 then
    r ← move_window (u32 (fatbase fs + clst / (SS / 4)));
    if negb (r =? FR_OK) then mret DISK_ERROR else
    w ← get win;
    v ← st_opt (ld_dword w (u32 (clst * 4) mod SS));
    mret (Z.land v 0x0FFFFFFF)
  else mret 1.

Definition put_fat (clst val : Z) : ST (Vol D) Z :=
  fs ← get id;
  if negb ((2 <=? clst) && (clst <? n_fatent fs)) then mret FR_INT_ERR
  else if fs_type fs =? FS_FAT12 then
    let bc := u32 (clst + clst / 2) in
    let odd := negb (Z.land clst 1 =? 0) in
    res ← move_window (u32 (fatbase fs + bc / SS));
    if negb (res =? FR_OK) then mret res else
    p ← win_get (bc mod SS);
    _ ← win_set (bc mod SS) (if odd then u8 (Z.lor (Z.land p 0x0F) (Z.shiftl (u8 val) 4)) else u8 val);
    _ ← upd (set wflag (fun _ => 1));
    let bc := u32 (bc + 1) in
    res ← move_window (u32 (fatbase fs + bc / SS));
    if negb (res =? FR_OK) then mret res else
    p ← win_get (bc mod SS);
    _ ← win_set (bc mod SS) (if odd then u8 (Z.shiftr val 4)
                             else Z.lor (Z.land p 0xF0) (Z.land (u8 (Z.shiftr val 8)) 0x0F));
    _ ← upd (set wflag (fun _ => 1));
    mret res
  else if fs_type fs =? FS_FAT16 then
    res ← move_window (u32 (fatbase fs + clst / (SS / 2)));
    if negb (res =? FR_OK) then mret res else
    w ← get win;
    w ← st_opt (st_word w (u32 (clst * 2) mod SS) (u16 val));
    _ ← upd (fun fs => fs <| win := w |> <| wflag := 1 |>);
    mret res
  else if fs_type fs =? FS_FAT32 then
    res ← move_window (u32 (fatbase fs + clst / (SS / 4)));
    if negb (res =? FR_OK) then mret res else
    w ← get win;
    old ← st_opt (ld_dword w (u32 (clst * 4) mod SS));
    let val := Z.lor (Z.land val 0x0FFFFFFF) (Z.land old 0xF0000000) in
    w ← st_opt (st_dword w (u32 (clst * 4) mod SS) val);
    _ ← upd (fun fs => fs <| win := w |> <| wflag := 1 |>);
    mret res
  else mret FR_INT_ERR.

(** ** Chains *)

(** The loop of [remove_chain], for at most [fuel] clusters. *)
Fixpoint remove_loop (fuel : nat) (clst : Z) : ST (Vol D) Z :=
  match fuel with
  | O => fun _ => None
  | S fuel' =>
      nxt ← get_fat clst;
      if nxt =? 0 then mret FR_OK
      else if nxt =? 1 then mret FR_INT_ERR
      else if nxt =? DISK_ERROR then mret FR_DISK_ERR
      else
        res ← put_fat clst 0;
        if negb (res =? FR_OK) then mret res else
        fs ← get id;
        _ ← when (free_clst fs <? u32 (n_fatent fs - 2))
              (upd (fun fs => fs <| free_clst ::= (fun n => u32 (n + 1)) |>
                                 <| fsi_flag ::= (fun f => Z.lor f 1) |>));
        if nxt <? n_fatent fs then remove_loop fuel' nxt else mret FR_OK
  end.

(** Every turn but the last frees a cluster of the table. *)
Definition remove_chain (clst pclst : Z) : ST (Vol D) Z :=
  fs ← get id;
  if (clst <? 2) || (n_fatent fs <=? clst) then mret FR_INT_ERR else
  res ← (if negb (pclst =? 0) then put_fat pclst 0xFFFFFFFF else mret FR_OK);
  if negb (res =? FR_OK) then mret res else
  remove_loop (Z.to_nat (n_fatent fs)) clst.

(** What the search for a free cluster ends with: a free cluster, or what
    [create_chain] returns. *)
Inductive found := Found (ncl : Z) | Return (r : Z).

(** The loop that looks for a free cluster after [ncl], for at most [fuel] turns. *)
Fixpoint find_loop (fuel : nat) (scl ncl : Z) : ST (Vol D) found :=
  match fuel with
  | O => fun _ => None
  | S fuel' =>
      n ← get n_fatent;
      let ncl := u32 (ncl + 1) in
      let wrapped := n <=? ncl in
      let ncl := if wrapped then 2 else ncl in
      if wrapped && (scl <? ncl) then mret (Return 0) else
      cs ← get_fat ncl;
      if cs =? 0 then mret (Found ncl)
      else if (cs =? 1) || (cs =? DISK_ERROR) then mret (Return cs)
      else if ncl =? scl then mret (Return 0)
      else find_loop fuel' scl ncl
  end.

(** The cluster after the end of the chain if it is free, else the first free one
    after the suggested cluster. *)
Definition find_free (clst scl : Z) : ST (Vol D) found :=
  fs ← get id;
  first ← (if scl =? clst then
             let ncl := u32 (scl + 1) in
             let ncl := if n_fatent fs <=? ncl then 2 else ncl in
             cs ← get_fat ncl;
             if (cs =? 1) || (cs =? DISK_ERROR) then mret (inl cs)
             else if negb (cs =? 0) then
               last ← get last_clst;
               mret (inr (0, if (2 <=? last) && (last <? n_fatent fs) then last else scl))
             else mret (inr (ncl, scl))
           else mret (inr (0, scl)));
  match first with
  | inl r => mret (Return r)
  | inr (ncl, scl) =>
      if ncl =? 0 then find_loop (Z.to_nat (n_fatent fs)) scl scl else mret (Found ncl)
  end.

(** The cluster is marked as the end of its chain and linked to the previous one. *)
Definition link_cluster (clst ncl : Z) : ST (Vol D) Z :=
  res ← put_fat ncl 0xFFFFFFFF;
  res ← (if (res =? FR_OK) && negb (clst =? 0) then put_fat clst ncl else mret res);
  if res =? FR_OK then
    _ ← upd (fun fs =>
          (if free_clst fs <=? u32 (n_fatent fs - 2) then fs <| free_clst ::= (fun n => u32 (n - 1)) |> else fs)
            <| last_clst := ncl |> <| fsi_flag ::= (fun f => Z.lor f 1) |>);
    mret ncl
  else mret (if res =? FR_DISK_ERR then DISK_ERROR else 1).

Definition create_chain (clst : Z) : ST (Vol D) Z :=
  fs ← get id;
  start ← (if clst =? 0 then
             let scl := last_clst fs in
             mret (inr (if (scl =? 0) || (n_fatent fs <=? scl) then 1 else scl))
           else
             cs ← get_fat clst;
             mret (if cs <? 2 then inl 1
                   else if cs =? DISK_ERROR then inl cs
                   else if cs <? n_fatent fs then inl cs
                   else inr clst));
  match start with
  | inl r => mret r
  | inr scl =>
      free ← get free_clst;
      if free =? 0 then mret 0 else
      r ← find_free clst scl;
      match r with
      | Return r => mret r
      | Found ncl => link_cluster clst ncl
      end
  end.
End fat.
