(* ===== verification/FatFacts.v ===== *)
(** * FatFacts: what the window and the table promise

    The contract of a drive ([DiskLaws]): a medium of sectors that a successful read
    answers and a successful write changes, and that a failing one leaves alone but
    for the sector it was to write.  Against any such drive, however often it fails,
    the window is a faithful cache of the volume, reading an entry of the table changes
    nothing, and writing one changes nothing else.  *)

From S2P Require Import Prelude FatWords Blocks Fat.

(** ** The contract *)

Definition sector (b : list Z) : Prop := length b = 512%nat /\ Forall is_u8 b.

Class DiskLaws (D : Type) `{Disk D} := {
  medium : D -> Z -> list Z;
  medium_sector d s : sector (medium d s);
  initialize_law p d : exists r d', disk_initialize p d = Some (r, d') /\ (forall t, medium d' t = medium d t);
  status_law p d : exists r d', disk_status p d = Some (r, d') /\ (forall t, medium d' t = medium d t);
  read_laws p b s n d : 0 < n -> Z.of_nat (length b) = SS * n -> Forall is_u8 b ->
    exists r b' d', disk_read p b s n d = Some (r, b', d') /\
      length b' = length b /\ Forall is_u8 b' /\ (forall t, medium d' t = medium d t) /\
      (r = RES_OK -> forall i, 0 <= i < n -> peek b' (SS * i) SS = Some (medium d (s + i)));
  write_laws p b s n d : 0 < n -> Z.of_nat (length b) = SS * n -> Forall is_u8 b ->
    exists r d', disk_write p b s n d = Some (r, d') /\
      (forall t, ~ (s <= t < s + n) -> medium d' t = medium d t) /\
      (r = RES_OK -> forall i, 0 <= i < n -> peek b (SS * i) SS = Some (medium d' (s + i)));
  sync_law p d : exists r d', disk_ctrl_sync p d = Some (r, d') /\ (forall t, medium d' t = medium d t)
}.

(** A drive that is ready and never fails. *)
Record reliable (D : Type) `{Disk D} : Prop := Reliable {
  reliable_initialize p d r d' : disk_initialize p d = Some (r, d') -> Z.land r STA_NOINIT = 0;
  reliable_status p d r d' : disk_status p d = Some (r, d') -> Z.land r STA_NOINIT = 0;
  reliable_read p b s n d r b' d' : disk_read p b s n d = Some (r, b', d') -> r = RES_OK;
  reliable_write p b s n d r d' : disk_write p b s n d = Some (r, d') -> r = RES_OK;
  reliable_sync p d r d' : disk_ctrl_sync p d = Some (r, d') -> r = RES_OK
}.

Section one_sector.
Context `{DL : DiskLaws D}.

Lemma read_law p b s d : sector b -> exists r b' d', disk_read p b s 1 d = Some (r, b', d') /\
  sector b' /\ (forall t, medium d' t = medium d t) /\ (r = RES_OK -> b' = medium d s).
Proof.
  intros [Hl Hb]. destruct (read_laws p b s 1 d) as (r & b' & d' & E & Hl' & Hb' & Hm & Hr);
    [done|unfold SS; lia|done|].
  exists r, b', d'. splits; [done|by split; [congruence|]|done|]. intros Hok.
  specialize (Hr Hok 0 ltac:(lia)). rewrite Z.add_0_r in Hr. change (SS * 0) with 0 in Hr.
  rewrite peek_all in Hr by (unfold SS; lia). by injection Hr.
Qed.

Lemma write_law p b s d : sector b -> exists r d', disk_write p b s 1 d = Some (r, d') /\
  (forall t, t <> s -> medium d' t = medium d t) /\ (r = RES_OK -> medium d' s = b).
Proof.
  intros [Hl Hb]. destruct (write_laws p b s 1 d) as (r & d' & E & Hm & Hr); [done|unfold SS; lia|done|].
  exists r, d'. splits; [done|intros t Ht; apply Hm; lia|]. intros Hok.
  specialize (Hr Hok 0 ltac:(lia)). rewrite Z.add_0_r in Hr. change (SS * 0) with 0 in Hr.
  rewrite peek_all in Hr by (unfold SS; lia). by injection Hr.
Qed.
End one_sector.

(** ** Volumes *)

Definition NO_SECTOR : Z := 0xFFFFFFFF.

(** The bytes of a table of [n] entries. *)
Definition table_bytes (type n : Z) : Z :=
  if type =? FS_FAT12 then n + n / 2 + n mod 2 else if type =? FS_FAT16 then 2 * n else 4 * n.

(** The widest value of an entry, the mark of the end of a chain. *)
Definition end_of_chain (type : Z) : Z :=
  if type =? FS_FAT12 then 0xFFF else if type =? FS_FAT16 then 0xFFFF else 0xFFFFFFF.

Record geometry_ok (f : FATFS) : Prop := GeometryOk {
  geo_type : fs_type f = FS_FAT12 \/ fs_type f = FS_FAT16 \/ fs_type f = FS_FAT32;
  geo_base : 0 <= fatbase f;
  geo_size : 0 < fsize f;
  geo_end : fatbase f + 2 * fsize f < 2 ^ 32;
  geo_count : 2 <= n_fatent f <= end_of_chain (fs_type f);
  geo_table : table_bytes (fs_type f) (n_fatent f) <= SS * fsize f
}.

Section volume.
Context `{DL : DiskLaws D}.
Implicit Types v : Vol D.

(** What the volume holds: the medium under the window. *)
Definition view v (s : Z) : list Z :=
  if s =? winsect (fs v) then win (fs v) else medium (dev v) s.

Record vol_ok v : Prop := VolOk {
  vol_geo : geometry_ok (fs v);
  vol_win : sector (win (fs v));
  vol_sect : 0 <= winsect (fs v) <= NO_SECTOR;
  vol_flag : wflag (fs v) = 0 /\ (winsect (fs v) = NO_SECTOR \/ win (fs v) = medium (dev v) (winsect (fs v))) \/
             wflag (fs v) = 1 /\ winsect (fs v) <> NO_SECTOR
}.

(** The sectors whose contents matter: all but the second copy of the table. *)
Definition live (f : FATFS) (s : Z) : Prop :=
  0 <= s < NO_SECTOR /\ ~ (n_fats f = 2 /\ fatbase f + fsize f <= s < fatbase f + 2 * fsize f).

(** Only the window has moved. *)
Definition same (f f' : FATFS) : Prop :=
  f' = f <| wflag := wflag f' |> <| winsect := winsect f' |> <| win := win f' |>.

Definition kept v v' : Prop :=
  vol_ok v' /\ same (fs v) (fs v') /\ forall s, live (fs v) s -> view v' s = view v s.

Lemma same_refl f : same f f.
Proof. by destruct f. Qed.

Lemma same_trans f g h : same f g -> same g h -> same f h.
Proof. destruct f, g, h. unfold same, set. cbn. intros [=] [=]. by subst. Qed.

Lemma same_fields f g : same f g ->
  fs_type g = fs_type f /\ n_fats g = n_fats f /\ fatbase g = fatbase f /\ fsize g = fsize f /\
  n_fatent g = n_fatent f /\ free_clst g = free_clst f /\ last_clst g = last_clst f.
Proof. destruct f, g. unfold same, set. cbn. intros [=]. subst. done. Qed.

Lemma same_live f g s : same f g -> live g s <-> live f s.
Proof. destruct f, g. unfold same, live, set. cbn. intros [=]. by subst. Qed.

Lemma same_geo f g : same f g -> geometry_ok f -> geometry_ok g.
Proof. destruct f, g. unfold same, set. cbn. intros [=] []. subst. cbn in *. by constructor. Qed.

Lemma kept_refl v : vol_ok v -> kept v v.
Proof. intros Hv. split; [done|]. split; [apply same_refl|done]. Qed.

Lemma kept_trans u v w : kept u v -> kept v w -> kept u w.
Proof.
  intros (_ & Huv & Vuv) (Hw & Hvw & Vvw). split; [done|]. split; [by apply same_trans with (fs v)|].
  intros s Hs. rewrite Vvw; [by apply Vuv|]. by apply (same_live _ _ _ Huv).
Qed.

Lemma on_dev_eq {A} (m : ST D A) v x d : m (dev v) = Some (x, d) ->
  on_dev m v = Some (x, v <| dev := d |>).
Proof. intros E. unfold on_dev. by rewrite E. Qed.

Lemma upd_bind {A} f (k : unit -> ST (Vol D) A) v : (upd f ≫= k) v = k tt (v <| fs ::= f |>).
Proof. apply st_mod_bind. Qed.

(** ** The window *)

Lemma in_table f s : geometry_ok f -> 0 <= s < 2 ^ 32 ->
  (u32 (s - fatbase f) <? fsize f) = (fatbase f <=? s) && (s <? fatbase f + fsize f).
Proof.
  intros [_ ? ? ? _ _] Hs. unfold u32.
  destruct (_ && _) eqn:E; zb; [apply Z.ltb_lt|apply Z.ltb_ge; destruct E; zb].
  - rewrite Z.mod_small by lia. lia.
  - replace ((s - fatbase f) mod 2 ^ 32) with (s - fatbase f + 2 ^ 32); [lia|].
    apply (Z.mod_unique_pos _ _ (-1)); lia.
  - rewrite Z.mod_small by lia. lia.
Qed.

(** Writing the window back makes it clean. *)
Lemma kept_clean v d : vol_ok v -> winsect (fs v) <> NO_SECTOR ->
  medium d (winsect (fs v)) = win (fs v) ->
  (forall s, live (fs v) s -> s <> winsect (fs v) -> medium d s = medium (dev v) s) ->
  kept v (v <| fs ::= set wflag (fun _ => 0) |> <| dev := d |>).
Proof.
  intros Hv Hn Hw Hm. destruct v as [f d0]. unfold set; cbn in *. destruct f; unfold set, settable; cbn in *.
  split; [|split; [done|]].
  - destruct Hv as [Hg Hwin Hs Hf]. constructor; cbn in *; [by destruct Hg|done|done|]. left. split; [done|by right].
  - intros s Hs. unfold view; cbn. destruct (s =? _) eqn:E; [done|]. zb. by apply Hm.
Qed.

Lemma kept_dirty v d : vol_ok v -> wflag (fs v) = 1 ->
  (forall s, live (fs v) s -> s <> winsect (fs v) -> medium d s = medium (dev v) s) ->
  kept v (v <| dev := d |>).
Proof.
  intros Hv Hw Hm. destruct v as [f d0]. unfold set; cbn in *.
  split; [|split; [apply same_refl|]].
  - destruct Hv as [Hg Hwin Hs Hf]. constructor; cbn in *; [done..|]. right. split; [done|]. by destruct Hf as [[? _]|[_ ?]]; [congruence|].
  - intros s Hs. unfold view; cbn. destruct (s =? _) eqn:E; [done|]. zb. by apply Hm.
Qed.

Lemma sync_window_ok v : vol_ok v ->
  exists r v', sync_window v = Some (r, v') /\ kept v v' /\
    winsect (fs v') = winsect (fs v) /\ win (fs v') = win (fs v) /\
    (r = FR_OK /\ wflag (fs v') = 0 \/ r = FR_DISK_ERR /\ ~ reliable D).
Proof.
  intros Hv. pose proof Hv as [Hg Hw Hs Hf]. unfold sync_window.
  rewrite (st_bind_eq (get id) _ v (fs v) v eq_refl). unfold id.
  destruct Hf as [[Hf Hc]|[Hf Hn]]; rewrite Hf; cbn [Z.eqb negb].
  { exists FR_OK, v. split; [done|]. splits; [by apply kept_refl|done|done|by left]. }
  destruct (write_law (pdrv (fs v)) (win (fs v)) (winsect (fs v)) (dev v) Hw) as (r & d & E & Hd & Hr).
  rewrite (st_bind_eq _ _ v r (v <| dev := d |>)) by (by apply on_dev_eq).
  destruct (r =? RES_OK) eqn:Er; zb.
  2: { exists FR_DISK_ERR, (v <| dev := d |>). split; [done|].
       splits; [|done|done|right; split; [done|]; intros Hrel; by apply Er, (reliable_write _ Hrel _ _ _ _ _ _ _ E)].
       apply kept_dirty; [done|done|]. intros s _ Hne. by apply Hd. }
  specialize (Hr Er). rewrite upd_bind. unfold NO_SECTOR in *.
  rewrite (in_table _ _ Hg) by lia.
  destruct (_ && (n_fats (fs v) =? 2)) eqn:Em; cbn [when].
  - rewrite !andb_true_iff in Em. destruct Em as [[? ?] ?]. zb.
    destruct (write_law (pdrv (fs v)) (win (fs v)) (u32 (winsect (fs v) + fsize (fs v))) d Hw) as (r' & d' & E' & Hd' & _).
    pose proof Hg as [_ ? ? ? _ _]. rewrite u32_small in Hd' by lia.
    set (v' := v <| fs ::= set wflag (fun _ => 0) |> <| dev := d' |>).
    assert (Hk : kept v v').
    { apply kept_clean; [done|done|rewrite Hd' by lia; exact Hr|].
      intros s [? Hl] Hne. rewrite Hd', Hd; [done|lia|]. intros ->. apply Hl. lia. }
    exists FR_OK, v'. splits; [|exact Hk|done|done|left; done].
    unfold mbind, ST_bind, on_dev. cbn [dev set]. cbn. rewrite E'. cbn. by destruct v.
  - set (v' := v <| fs ::= set wflag (fun _ => 0) |> <| dev := d |>).
    exists FR_OK, v'. splits; [by destruct v| |done|done|left; done].
    apply kept_clean; [done|done|exact Hr|]. intros s _ Hne. by apply Hd.
Qed.

(** Reading a sector into a clean window. *)
Lemma kept_load v b w d : vol_ok v -> wflag (fs v) = 0 -> sector b -> 0 <= w <= NO_SECTOR ->
  w = NO_SECTOR \/ b = medium d w -> (forall t, medium d t = medium (dev v) t) ->
  kept v (MkVol ((fs v) <| win := b |> <| winsect := w |>) d).
Proof.
  intros Hv Hf Hb Hw Hc Hm. pose proof Hv as [Hg Hwin Hs Hfl].
  assert (Hview : forall s, live (fs v) s -> view v s = medium (dev v) s).
  { intros s [? _]. unfold view. destruct (s =? _) eqn:E; [|done]. zb. subst s.
    destruct Hfl as [[_ [?|?]]|[? _]]; [lia|done|congruence]. }
  assert (Hs' : same (fs v) ((fs v) <| win := b |> <| winsect := w |>)) by (by destruct (fs v)).
  split; [|split; [done|]].
  - constructor; cbn [fs dev]; [by apply (same_geo _ _ Hs')|by destruct (fs v)|by destruct (fs v)|].
    left. destruct (fs v); cbn in *. by split.
  - intros s Hs1. rewrite Hview by done. unfold view. cbn [fs dev].
    replace (winsect ((fs v) <| win := b |> <| winsect := w |>)) with w by (by destruct (fs v)).
    replace (win ((fs v) <| win := b |> <| winsect := w |>)) with b by (by destruct (fs v)).
    destruct (s =? w) eqn:E; [|apply Hm]. zb. subst s. destruct Hs1 as [? _].
    destruct Hc as [?|Hc]; [lia|]. by rewrite Hc.
Qed.

Lemma move_window_ok v sect : vol_ok v -> 0 <= sect < NO_SECTOR ->
  exists r v', move_window sect v = Some (r, v') /\ kept v v' /\
    (r = FR_OK /\ winsect (fs v') = sect \/ r = FR_DISK_ERR /\ ~ reliable D).
Proof.
  intros Hv Hsect. unfold move_window.
  rewrite (st_bind_eq (get winsect) _ v (winsect (fs v)) v eq_refl).
  destruct (sect =? winsect (fs v)) eqn:Ew; zb; cbn [negb].
  { exists FR_OK, v. split; [done|]. split; [by apply kept_refl|by left]. }
  destruct (sync_window_ok v Hv) as (r1 & v1 & E1 & K1 & Hw1 & Hb1 & Hr1).
  rewrite (st_bind_eq _ _ _ _ _ E1).
  destruct Hr1 as [[-> Hf1]|[-> Hrel]].
  2: { exists FR_DISK_ERR, v1. split; [done|]. split; [done|by right]. }
  rewrite Z.eqb_refl. rewrite (st_bind_eq (get id) _ v1 (fs v1) v1 eq_refl). unfold id.
  pose proof K1 as (Hv1 & _ & _). pose proof Hv1 as [_ Hwin _ _].
  destruct (read_law (pdrv (fs v1)) (win (fs v1)) sect (dev v1) Hwin) as (r & b & d & E & Hb & Hm & Hr).
  rewrite (st_bind_eq _ _ v1 (r, b) (MkVol (fs v1) d)) by (rewrite (on_dev_eq _ _ _ _ E); by destruct v1).
  cbv beta iota. rewrite upd_bind.
  destruct (r =? RES_OK) eqn:Er; zb; cbn [negb]; rewrite upd_bind.
  - exists FR_OK, (MkVol ((fs v1) <| win := b |> <| winsect := sect |>) d). splits; [done| |left; by destruct (fs v1)].
    apply (kept_trans _ _ _ K1), kept_load; [done|done|done|unfold NO_SECTOR in *; lia| |done].
    right. rewrite Hm. by apply Hr.
  - exists FR_DISK_ERR, (MkVol ((fs v1) <| win := b |> <| winsect := NO_SECTOR |>) d).
    splits; [done| |right; split; [done|]; intros Hrel; by apply Er, (reliable_read _ Hrel _ _ _ _ _ _ _ _ E)].
    apply (kept_trans _ _ _ K1), kept_load; [done|done|done|unfold NO_SECTOR in *; lia|by left|done].
Qed.

(** ** Bytes of the table *)

(** Byte [k] of the table. *)
Definition fat_byte v (k : Z) : Z := default 0 (view v (fatbase (fs v) + k / SS)).[k mod SS].

Definition in_fat (f : FATFS) (k : Z) : Prop := 0 <= k < SS * fsize f.

Lemma fat_sector f k : geometry_ok f -> in_fat f k ->
  u32 (fatbase f + k / SS) = fatbase f + k / SS /\ live f (fatbase f + k / SS).
Proof.
  unfold in_fat, live, SS, NO_SECTOR. intros [_ ? ? ? _ _] Hk.
  assert (0 <= k / 512 < fsize f) by divs. rewrite u32_small by lia. splits; [done|lia|lia|lia].
Qed.

Lemma kept_byte v v' k : vol_ok v -> kept v v' -> in_fat (fs v) k -> fat_byte v' k = fat_byte v k.
Proof.
  intros [Hg _ _ _] (_ & Hs & Hview) Hk. unfold fat_byte.
  destruct (fat_sector _ _ Hg Hk) as [_ Hl]. replace (fatbase (fs v')) with (fatbase (fs v)).
  - by rewrite Hview.
  - by destruct (same_fields _ _ Hs) as (_ & _ & -> & _).
Qed.

Lemma sector_byte b o : sector b -> 0 <= o < 512 -> exists x, b.[o] = Some x /\ is_u8 x.
Proof.
  intros [Hl Hb] Ho. destruct (arr_get_is_Some b o) as [x Hx]; [lia|]. exists x. split; [done|].
  apply arr_get_Some in Hx as [_ Hx]. by apply (Forall_lookup_1 _ _ _ _ Hb Hx).
Qed.

Lemma view_sector v s : vol_ok v -> sector (view v s).
Proof. intros [_ Hw _ _]. unfold view. destruct (_ =? _); [done|apply medium_sector]. Qed.

Lemma fat_byte_u8 v k : vol_ok v -> is_u8 (fat_byte v k).
Proof.
  intros Hv. unfold fat_byte.
  destruct (sector_byte (view v (fatbase (fs v) + k / SS)) (k mod SS)) as (x & -> & ?);
    [by apply view_sector|unfold SS; divs|done].
Qed.

(** With the window on the sector of a byte, the window holds it. *)
Lemma window_byte v k : vol_ok v -> winsect (fs v) = fatbase (fs v) + k / SS ->
  (win (fs v)).[k mod SS] = Some (fat_byte v k).
Proof.
  intros Hv Hw. unfold fat_byte, view. rewrite Hw, Z.eqb_refl.
  destruct (sector_byte (win (fs v)) (k mod SS)) as (x & -> & ?); [by destruct Hv|unfold SS; divs|done].
Qed.

Lemma fetch_ok v k : vol_ok v -> in_fat (fs v) k ->
  exists r v', move_window (u32 (fatbase (fs v) + k / SS)) v = Some (r, v') /\ kept v v' /\
    (r = FR_OK /\ winsect (fs v') = fatbase (fs v') + k / SS \/ r = FR_DISK_ERR /\ ~ reliable D).
Proof.
  intros Hv Hk. destruct (fat_sector _ _ (vol_geo _ Hv) Hk) as [-> [Hl _]].
  destruct (move_window_ok v (fatbase (fs v) + k / SS) Hv Hl) as (r & v' & E & K & Hr).
  exists r, v'. splits; [done|done|]. destruct Hr as [[? Hr]|?]; [left|by right]. split; [done|].
  rewrite Hr. destruct K as (_ & Hs & _). by destruct (same_fields _ _ Hs) as (_ & _ & -> & _).
Qed.

Lemma same_in_fat f g k : same f g -> in_fat f k -> in_fat g k.
Proof. destruct f, g. unfold same, in_fat, set. cbn. intros [=]. by subst. Qed.

(** ** Changing the table *)

(** Only bytes of the table have changed, and they are now [B]. *)
Record changed v v' (B : Z -> Z) : Prop := Changed {
  ch_ok : vol_ok v';
  ch_same : same (fs v) (fs v');
  ch_bytes k : in_fat (fs v) k -> fat_byte v' k = B k;
  ch_others s : live (fs v) s -> ~ (fatbase (fs v) <= s < fatbase (fs v) + fsize (fs v)) -> view v' s = view v s
}.

Lemma kept_changed v v' : vol_ok v -> kept v v' -> changed v v' (fat_byte v).
Proof.
  intros Hv K. pose proof K as (Hv' & Hs & Hview). constructor; [done|done| |].
  - intros k Hk. by apply kept_byte.
  - intros s Hl _. by apply Hview.
Qed.

Lemma changed_trans u v w B C : changed u v B -> changed v w C -> changed u w C.
Proof.
  intros [Hv Huv _ Ouv] [Hw Hvw Bvw Ovw].
  destruct (same_fields _ _ Huv) as (_ & _ & Hf & Hf' & _).
  constructor; [done|by apply same_trans with (fs v)| |].
  - intros k Hk. apply Bvw. by apply (same_in_fat _ _ _ Huv).
  - intros s Hs Ho. rewrite Ovw, Ouv; [done|done|done|by apply (same_live _ _ _ Huv)|lia].
Qed.

Lemma changed_ext v v' B C : changed v v' B -> (forall k, in_fat (fs v) k -> B k = C k) -> changed v v' C.
Proof. intros [? ? Hb ?] HC. constructor; [done|done| |done]. intros k Hk. rewrite Hb by done. by apply HC. Qed.

(** A new window on a sector of the table. *)
Lemma changed_store v w q f' : vol_ok v -> sector w -> 0 <= q < fsize (fs v) ->
  winsect (fs v) = fatbase (fs v) + q -> f' = (fs v) <| win := w |> <| wflag := 1 |> ->
  changed v (v <| fs := f' |>) (fun k => if k / SS =? q then default 0 w.[k mod SS] else fat_byte v k).
Proof.
  intros Hv Hw Hq Hws ->. pose proof Hv as [Hg Hwin Hs Hf].
  assert (Hne : winsect (fs v) <> NO_SECTOR) by (destruct Hg; unfold NO_SECTOR; lia).
  assert (Hsame : same (fs v) ((fs v) <| win := w |> <| wflag := 1 |>)) by (by destruct (fs v)).
  assert (Hview : forall s, view (v <| fs := (fs v) <| win := w |> <| wflag := 1 |> |>) s =
    if s =? winsect (fs v) then w else view v s).
  { intros s. unfold view. destruct v as [f d]; destruct f; cbn. by destruct (s =? _). }
  constructor.
  - constructor; cbn [fs dev].
    + exact (same_geo _ _ Hsame Hg).
    + by destruct v as [[] ?].
    + by destruct v as [[] ?].
    + right. by destruct v as [[] ?].
  - exact Hsame.
  - intros k Hk. unfold fat_byte at 1. rewrite Hview.
    replace (fatbase (fs (v <| fs := _ |>))) with (fatbase (fs v)) by (by destruct v as [[] ?]).
    rewrite Hws. destruct (k / SS =? q) eqn:E; zb.
    + by rewrite E, Z.eqb_refl.
    + by ztest.
  - intros s Hl Ho. rewrite Hview. by ztest.
Qed.

Lemma sector_set b o x b' : sector b -> is_u8 x -> b.[o <- x] = Some b' -> sector b'.
Proof.
  intros [Hl Hb] Hx E. apply arr_set_Some in E as [_ ->]. split; [by rewrite length_insert|].
  by apply Forall_insert.
Qed.

(** A byte stored into the window by [win_set] and marked by the dirty flag. *)
Lemma poke_ok {A} v k x (m : unit -> ST (Vol D) A) : vol_ok v -> is_u8 x -> in_fat (fs v) k ->
  winsect (fs v) = fatbase (fs v) + k / SS ->
  exists v', changed v v' (fun j => if j =? k then x else fat_byte v j) /\
    winsect (fs v') = winsect (fs v) /\
    (_ ← win_set (k mod SS) x; upd (set wflag (fun _ => 1)) ≫= m) v = m tt v'.
Proof.
  intros Hv Hx Hk Hw. destruct (vol_win _ Hv) as [Hl _].
  assert (Ew : exists w, (win (fs v)).[k mod SS <- x] = Some w)
    by (rewrite arr_set_is_Some; [eauto|unfold SS; rewrite Hl; divs]).
  destruct Ew as [w Ew].
  exists (v <| fs := (fs v) <| win := w |> <| wflag := 1 |> |>). splits.
  - assert (Hq : 0 <= k / SS < fsize (fs v)) by (unfold in_fat, SS in *; divs).
    eapply changed_ext; [eapply (changed_store v w (k / SS)); [done| |done|done|done]|].
    { by apply (sector_set _ _ _ _ (vol_win _ Hv) Hx Ew). }
    intros j Hj. cbv beta. destruct (j =? k) eqn:E; zb.
    + subst j. rewrite Z.eqb_refl. by rewrite (arr_get_set_eq _ _ _ _ Ew).
    + destruct (j / SS =? k / SS) eqn:E'; zb; [|done].
      rewrite (arr_get_set_ne _ _ _ _ _ Ew) by (unfold SS in *; divs).
      rewrite window_byte; [done|done|congruence].
  - by destruct v as [[] ?].
  - unfold win_set, get, upd, mbind, ST_bind, st_get, st_opt, st_mod. cbn. rewrite Ew. cbn. by destruct v as [[] ?].
Qed.

(** ** Entries *)

(** The value of entry [c] in a table of bytes [B]. *)
Definition entry_of (type : Z) (B : Z -> Z) (c : Z) : Z :=
  if type =? FS_FAT12 then
    let o := c + c / 2 in
    let w := B o + 256 * B (o + 1) in
    if c mod 2 =? 1 then w / 16 else w mod 4096
  else if type =? FS_FAT16 then B (2 * c) + 256 * B (2 * c + 1)
  else (B (4 * c) + 256 * B (4 * c + 1) + 65536 * B (4 * c + 2) + 16777216 * B (4 * c + 3)) mod 2 ^ 28.

(** The value of entry [c] of a volume. *)
Definition entry v (c : Z) : Z := entry_of (fs_type (fs v)) (fat_byte v) c.

Definition cluster (f : FATFS) (c : Z) : Prop := 2 <= c < n_fatent f.

Lemma cluster_test f c : cluster f c -> (c <? 2) || (n_fatent f <=? c) = false.
Proof. intros [? ?]. by repeat ztest. Qed.

Lemma cluster_bytes f c : geometry_ok f -> cluster f c ->
  c < 2 ^ 28 /\
  (fs_type f = FS_FAT12 -> in_fat f (c + c / 2) /\ in_fat f (c + c / 2 + 1)) /\
  (fs_type f = FS_FAT16 -> in_fat f (2 * c) /\ in_fat f (2 * c + 1)) /\
  (fs_type f = FS_FAT32 -> in_fat f (4 * c) /\ in_fat f (4 * c + 1) /\ in_fat f (4 * c + 2) /\ in_fat f (4 * c + 3)).
Proof.
  unfold cluster, in_fat. intros [Ht ? ? ? Hn Hb] Hc.
  assert (n_fatent f < 2 ^ 28) by (revert Hn; unfold end_of_chain; repeat case_match; lia).
  splits; [lia|..]; intros E; rewrite E in Hb; cbn in Hb; splits; divs.
Qed.

Lemma entry_range v c : vol_ok v -> 0 <= entry v c <= end_of_chain (fs_type (fs v)).
Proof.
  intros Hv. pose proof (fat_byte_u8 v) as Hb. unfold is_u8 in Hb.
  unfold entry, entry_of, end_of_chain. destruct (vol_geo _ Hv) as [[E|[E|E]] _ _ _ _ _]; rewrite E; cbn [Z.eqb Pos.eqb].
  - pose proof (Hb (c + c / 2) Hv). pose proof (Hb (c + c / 2 + 1) Hv). cbn. zcase; divs.
  - pose proof (Hb (2 * c) Hv). pose proof (Hb (2 * c + 1) Hv). cbn. lia.
  - cbn. match goal with |- _ <= ?x mod _ <= _ => pose proof (Z.mod_pos_bound x (2 ^ 28)) end. lia.
Qed.

Lemma kept_entry v v' c : vol_ok v -> kept v v' -> cluster (fs v) c -> entry v' c = entry v c.
Proof.
  intros Hv K Hc. destruct (cluster_bytes _ _ (vol_geo _ Hv) Hc) as (_ & H12 & H16 & H32).
  unfold entry. pose proof K as (_ & Hs & _). destruct (same_fields _ _ Hs) as (-> & _).
  unfold entry_of. destruct (vol_geo _ Hv) as [[E|[E|E]] _ _ _ _ _]; rewrite E; cbn [Z.eqb Pos.eqb FS_FAT12 FS_FAT16 FS_FAT32].
  - destruct (H12 E). cbn. by rewrite !(kept_byte v v') by done.
  - destruct (H16 E). cbn. by rewrite !(kept_byte v v') by done.
  - destruct (H32 E) as (? & ? & ? & ?). cbn. by rewrite !(kept_byte v v') by done.
Qed.

Lemma odd_test c : negb (Z.land c 1 =? 0) = (c mod 2 =? 1).
Proof.
  rewrite (land_mask 1 1) by done. change (2 ^ 1) with 2.
  destruct (c mod 2 =? 1) eqn:E; zb; [apply negb_true_iff, Z.eqb_neq; lia|].
  apply negb_false_iff, Z.eqb_eq. divs.
Qed.

(** The window on the sector of a byte that was fetched. *)
Lemma fetched v v' k : vol_ok v -> kept v v' -> in_fat (fs v) k ->
  winsect (fs v') = fatbase (fs v') + k / SS -> (win (fs v')).[k mod SS] = Some (fat_byte v k).
Proof.
  intros Hv K Hk Hw. rewrite window_byte by (done || apply K). by rewrite (kept_byte v v').
Qed.

(** What reading an entry may end with. *)
Definition read_as v (c : Z) (res : option (Z * Vol D)) : Prop :=
  exists y v', res = Some (y, v') /\ kept v v' /\ (y = entry v c \/ y = DISK_ERROR /\ ~ reliable D).

Lemma get_id_bind {A} (k : FATFS -> ST (Vol D) A) v : (get id ≫= k) v = k (fs v) v.
Proof. apply st_get_bind. Qed.

Lemma win_get_eq v o x : (win (fs v)).[o] = Some x -> win_get o v = Some (x, v).
Proof. intros E. unfold win_get, get. rewrite st_get_bind. unfold st_opt. by rewrite E. Qed.

Lemma get_fat12_ok v c : vol_ok v -> cluster (fs v) c -> fs_type (fs v) = FS_FAT12 ->
  read_as v c (get_fat c v).
Proof.
  intros Hv Hc Ht. destruct (cluster_bytes _ _ (vol_geo _ Hv) Hc) as (Hsm & Hb & _).
  destruct (Hb Ht) as [Hk Hk']. unfold get_fat. rewrite get_id_bind, (cluster_test _ _ Hc), Ht.
  unfold cluster in Hc. rewrite Z.eqb_refl. cbv zeta.
  rewrite (u32_small (c + c / 2)), (u32_small (c + c / 2 + 1)) by divs. set (k := c + c / 2) in *.
  destruct (fetch_ok v k Hv Hk) as (r1 & v1 & E1 & K1 & [[-> W1]|[-> Hrel]]);
    rewrite (st_bind_eq _ _ _ _ _ E1); [rewrite Z.eqb_refl; cbn [negb]|exists DISK_ERROR, v1; by splits; [..|right]].
  rewrite (st_bind_eq _ _ _ _ _ (win_get_eq v1 _ _ (fetched v v1 k Hv K1 Hk W1))).
  pose proof K1 as (Hv1 & S1 & _). pose proof (same_in_fat _ _ _ S1 Hk') as Hk1.
  destruct (same_fields _ _ S1) as (_ & _ & Eb & _). rewrite <- Eb.
  destruct (fetch_ok v1 (k + 1) Hv1 Hk1) as (r2 & v2 & E2 & K2 & [[-> W2]|[-> Hrel]]);
    rewrite (st_bind_eq _ _ _ _ _ E2);
    [rewrite Z.eqb_refl; cbn [negb]|exists DISK_ERROR, v2; splits; [done|by apply kept_trans with v1|by right]].
  rewrite (st_bind_eq _ _ _ _ _ (win_get_eq v2 _ _ (fetched v1 v2 (k + 1) Hv1 K2 Hk1 W2))).
  eexists _, v2. splits; [reflexivity|by apply kept_trans with v1|left].
  rewrite (kept_byte v v1) by done. unfold entry, entry_of. rewrite Ht, Z.eqb_refl, odd_test. fold k.
  pose proof (fat_byte_u8 v k Hv). pose proof (fat_byte_u8 v (k + 1) Hv). unfold is_u8 in *.
  rewrite (Z.lor_comm (fat_byte v k)), lor_shift by (change (2 ^ 8) with 256; lia). change (2 ^ 8) with 256.
  rewrite (land_mask 12 0xFFF), Z.shiftr_div_pow2 by done. change (2 ^ 12) with 4096. change (2 ^ 4) with 16.
  rewrite (Z.mul_comm _ 256), (Z.add_comm _ (fat_byte v k)). done.
Qed.

Lemma get_fat16_ok v c : vol_ok v -> cluster (fs v) c -> fs_type (fs v) = FS_FAT16 ->
  read_as v c (get_fat c v).
Proof.
  intros Hv Hc Ht. destruct (cluster_bytes _ _ (vol_geo _ Hv) Hc) as (Hsm & _ & Hb & _).
  destruct (Hb Ht) as [Hk Hk']. unfold get_fat. rewrite get_id_bind, (cluster_test _ _ Hc), Ht.
  unfold cluster in Hc. change (FS_FAT16 =? FS_FAT12) with false. rewrite Z.eqb_refl. cbv zeta.
  rewrite (u32_small (c * 2)), (Z.mul_comm c) by lia.
  replace (c / (SS / 2)) with (2 * c / SS) by (unfold SS; change (512 / 2) with 256; divs).
  destruct (fetch_ok v (2 * c) Hv Hk) as (r1 & v1 & E1 & K1 & [[-> W1]|[-> Hrel]]);
    rewrite (st_bind_eq _ _ _ _ _ E1); [rewrite Z.eqb_refl; cbn [negb]|exists DISK_ERROR, v1; by splits; [..|right]].
  pose proof (fetched v v1 _ Hv K1 Hk W1) as B0.
  assert (B1 : (win (fs v1)).[2 * c mod SS + 1] = Some (fat_byte v (2 * c + 1))).
  { rewrite <- (fetched v v1 _ Hv K1 Hk'); [f_equal; unfold SS; divs|].
    rewrite W1. f_equal. unfold SS. divs. }
  unfold get. rewrite st_get_bind. unfold st_opt.
  rewrite (ld_word_eq _ _ _ _ B0 B1) by (apply fat_byte_u8, Hv).
  eexists _, v1. splits; [reflexivity|done|left]. unfold entry, entry_of.
  rewrite Ht. done.
Qed.

Lemma get_fat32_ok v c : vol_ok v -> cluster (fs v) c -> fs_type (fs v) = FS_FAT32 ->
  read_as v c (get_fat c v).
Proof.
  intros Hv Hc Ht. destruct (cluster_bytes _ _ (vol_geo _ Hv) Hc) as (Hsm & _ & _ & Hb).
  destruct (Hb Ht) as (Hk & Hk1 & Hk2 & Hk3). unfold get_fat. rewrite get_id_bind, (cluster_test _ _ Hc), Ht.
  unfold cluster in Hc. change (FS_FAT32 =? FS_FAT12) with false.
  change (FS_FAT32 =? FS_FAT16) with false. rewrite Z.eqb_refl. cbv zeta iota.
  rewrite (u32_small (c * 4)), (Z.mul_comm c) by lia.
  replace (c / (SS / 4)) with (4 * c / SS) by (unfold SS; change (512 / 4) with 128; divs).
  destruct (fetch_ok v (4 * c) Hv Hk) as (r1 & v1 & E1 & K1 & [[-> W1]|[-> Hrel]]);
    rewrite (st_bind_eq _ _ _ _ _ E1); [rewrite Z.eqb_refl; cbn [negb]|exists DISK_ERROR, v1; by splits; [..|right]].
  pose proof (fetched v v1 _ Hv K1 Hk W1) as B0.
  assert (B : forall i, 0 <= i < 4 -> in_fat (fs v) (4 * c + i) ->
    (win (fs v1)).[4 * c mod SS + i] = Some (fat_byte v (4 * c + i))).
  { intros i Hi Hki. rewrite <- (fetched v v1 _ Hv K1 Hki); [f_equal; unfold SS; divs|].
    rewrite W1. f_equal. unfold SS. divs. }
  unfold get. rewrite st_get_bind. unfold st_opt at 1.
  rewrite (st_bind_eq _ _ v1 (fat_byte v (4 * c) + 256 * fat_byte v (4 * c + 1) +
    65536 * fat_byte v (4 * c + 2) + 16777216 * fat_byte v (4 * c + 3)) v1).
  2: { rewrite (ld_dword_eq _ _ _ _ _ _ B0 (B 1 ltac:(lia) Hk1) (B 2 ltac:(lia) Hk2) (B 3 ltac:(lia) Hk3))
         by (apply fat_byte_u8, Hv). done. }
  eexists _, v1. splits; [reflexivity|done|left]. unfold entry, entry_of.
  rewrite Ht, (land_mask 28) by done. done.
Qed.

Lemma get_fat_ok v c : vol_ok v -> cluster (fs v) c -> read_as v c (get_fat c v).
Proof.
  intros Hv Hc. destruct (vol_geo _ Hv) as [[E|[E|E]] _ _ _ _ _];
    [by apply get_fat12_ok|by apply get_fat16_ok|by apply get_fat32_ok].
Qed.

(** ** Writing an entry *)

(** Entries of twelve bits share a byte with a neighbour, which keeps its half. *)
Lemma entry12_other (B B' : Z -> Z) c c' : 0 <= c -> 0 <= c' -> c' <> c ->
  (forall j, is_u8 (B j)) -> (forall j, is_u8 (B' j)) ->
  (forall j, j <> c + c / 2 -> j <> c + c / 2 + 1 -> B' j = B j) ->
  (c mod 2 = 1 -> B' (c + c / 2) mod 16 = B (c + c / 2) mod 16) ->
  (c mod 2 = 0 -> B' (c + c / 2 + 1) / 16 = B (c + c / 2 + 1) / 16) ->
  entry_of FS_FAT12 B' c' = entry_of FS_FAT12 B c'.
Proof.
  intros Hc Hc' Hne HB HB' Hj Hodd Heven. unfold entry_of. rewrite Z.eqb_refl. cbv zeta.
  set (k := c + c / 2) in *. unfold is_u8 in *.
  destruct (decide (c' = c + 1 /\ c mod 2 = 0)) as [[-> Hm]|H1].
  { replace (c + 1 + (c + 1) / 2) with (k + 1) by (subst k; divs). rewrite (Hj (k + 1 + 1)) by lia.
    replace ((c + 1) mod 2 =? 1) with true by (symmetry; apply Z.eqb_eq; divs).
    specialize (Heven Hm). pose proof (HB (k + 1)). pose proof (HB' (k + 1)). divs. }
  destruct (decide (c' = c - 1 /\ c mod 2 = 1)) as [[-> Hm]|H2].
  { replace (c - 1 + (c - 1) / 2) with (k - 1) by (subst k; divs). rewrite (Hj (k - 1)) by lia.
    replace ((c - 1) mod 2 =? 1) with false by (symmetry; apply Z.eqb_neq; divs).
    replace (k - 1 + 1) with k by lia.
    specialize (Hodd Hm). pose proof (HB k). pose proof (HB' k). pose proof (HB (k - 1)). divs. }
  rewrite !Hj; [done|subst k; divs..].
Qed.

(** What writing an entry may end with: the entry changed and nothing else, or an
    error of the drive and at most that entry damaged. *)
Definition written_as v (c x : Z) (res : option (Z * Vol D)) : Prop :=
  exists r v', res = Some (r, v') /\ vol_ok v' /\ same (fs v) (fs v') /\
    (forall s, live (fs v) s -> ~ (fatbase (fs v) <= s < fatbase (fs v) + fsize (fs v)) -> view v' s = view v s) /\
    (forall c', cluster (fs v) c' -> c' <> c -> entry v' c' = entry v c') /\
    (r = FR_OK /\ entry v' c = x mod (end_of_chain (fs_type (fs v)) + 1) \/ r = FR_DISK_ERR /\ ~ reliable D).

(** A change of the bytes of entry [c] that gives it the value. *)
Lemma changed_written v v' B c x r : vol_ok v -> cluster (fs v) c -> changed v v' B ->
  (forall c', cluster (fs v) c' -> c' <> c -> entry_of (fs_type (fs v)) B c' = entry v c') ->
  r = FR_OK /\ entry_of (fs_type (fs v)) B c = x mod (end_of_chain (fs_type (fs v)) + 1) \/ r = FR_DISK_ERR /\ ~ reliable D ->
  written_as v c x (Some (r, v')).
Proof.
  intros Hv Hc [Hv' Hs Hb Ho] Hother Hr.
  assert (He : forall c', cluster (fs v) c' -> entry v' c' = entry_of (fs_type (fs v)) B c').
  { intros c' Hc'. destruct (cluster_bytes _ _ (vol_geo _ Hv) Hc') as (_ & H12 & H16 & H32).
    unfold entry. destruct (same_fields _ _ Hs) as (-> & _). unfold entry_of.
    destruct (vol_geo _ Hv) as [[E|[E|E]] _ _ _ _ _]; rewrite E in *; cbn.
    - destruct (H12 eq_refl). by rewrite !Hb by done.
    - destruct (H16 eq_refl). by rewrite !Hb by done.
    - destruct (H32 eq_refl) as (? & ? & ? & ?). by rewrite !Hb by done. }
  exists r, v'. splits; [done|done|done|done| |].
  - intros c' Hc' Hne. rewrite He by done. by apply Hother.
  - destruct Hr as [[-> Hr]|Hr]; [left|by right]. by rewrite He.
Qed.

Lemma kept_written v v' c x : vol_ok v -> cluster (fs v) c -> kept v v' ->
  ~ reliable D -> written_as v c x (Some (FR_DISK_ERR, v')).
Proof.
  intros Hv Hc K Hrel. apply (changed_written v v' (fat_byte v)); [done|done|by apply kept_changed|done|by right].
Qed.

Lemma put_test f c : cluster f c -> negb ((2 <=? c) && (c <? n_fatent f)) = false.
Proof. intros [? ?]. by repeat ztest. Qed.

Lemma store_bind {A} (w : list Z) (k : unit -> ST (Vol D) A) v :
  (upd (fun f => f <| win := w |> <| wflag := 1 |>) ≫= k) v =
    k tt (v <| fs := (fs v) <| win := w |> <| wflag := 1 |> |>).
Proof. rewrite upd_bind. by destruct v. Qed.

(** Byte [j] of a table whose sector of byte [k] was fetched and changed to [w]. *)
Lemma fetched_bytes v v1 k w : vol_ok v -> kept v v1 -> in_fat (fs v) k ->
  winsect (fs v1) = fatbase (fs v1) + k / SS -> sector w ->
  changed v (v1 <| fs := (fs v1) <| win := w |> <| wflag := 1 |> |>)
    (fun j => if j / SS =? k / SS then default 0 w.[j mod SS] else fat_byte v j).
Proof.
  intros Hv K Hk W Hw. pose proof K as (Hv1 & S1 & _).
  eapply changed_ext.
  - eapply changed_trans; [by apply kept_changed|].
    eapply (changed_store v1 w (k / SS)); [done|done| |done|done].
    destruct (same_fields _ _ S1) as (_ & _ & _ & -> & _). unfold in_fat, SS in *. divs.
  - intros j Hj. cbv beta. destruct (_ =? _); [done|]. by apply kept_byte.
Qed.

Lemma put_fat16_ok v c x : vol_ok v -> cluster (fs v) c -> fs_type (fs v) = FS_FAT16 ->
  written_as v c x (put_fat c x v).
Proof.
  intros Hv Hc Ht. destruct (cluster_bytes _ _ (vol_geo _ Hv) Hc) as (Hsm & _ & Hb & _).
  destruct (Hb Ht) as [Hk Hk']. unfold put_fat. rewrite get_id_bind, (put_test _ _ Hc), Ht.
  change (FS_FAT16 =? FS_FAT12) with false. rewrite Z.eqb_refl. cbv zeta.
  rewrite (u32_small (c * 2)), (Z.mul_comm c) by (unfold cluster in Hc; lia).
  replace (c / (SS / 2)) with (2 * c / SS) by (unfold SS; change (512 / 2) with 256; divs).
  destruct (fetch_ok v (2 * c) Hv Hk) as (r1 & v1 & E1 & K1 & [[-> W1]|[-> Hrel]]);
    rewrite (st_bind_eq _ _ _ _ _ E1); [rewrite Z.eqb_refl; cbn [negb]|by apply kept_written].
  pose proof K1 as (Hv1 & _). destruct (vol_win _ Hv1) as [Hl Hf].
  unfold get at 1. rewrite st_get_bind.
  destruct (st_word_at (win (fs v1)) (2 * c mod SS) (u16 x)) as (w & Ew & Lw & Fw & Gw); [unfold SS; divs..|].
  rewrite (st_bind_eq (st_opt _) _ v1 w v1) by (unfold st_opt; by rewrite Ew). rewrite store_bind.
  eapply changed_written; [done|done|apply (fetched_bytes v v1 (2 * c) w); [done|done|done|done|split; [lia|by apply Fw]]| |left].
  - intros c' Hc' Hne. unfold entry. rewrite Ht. unfold entry_of. cbn.
    destruct (cluster_bytes _ _ (vol_geo _ Hv) Hc') as (_ & _ & H16 & _). destruct (H16 Ht) as [Hj Hj'].
    assert (G : forall j, in_fat (fs v) j -> j <> 2 * c -> j <> 2 * c + 1 ->
      (if j / SS =? 2 * c / SS then default 0 w.[j mod SS] else fat_byte v j) = fat_byte v j).
    { intros j Hj0 H1 H2. destruct (_ =? _) eqn:E; [|done]. zb. rewrite Gw.
      do 2 (replace (_ =? _) with false by (symmetry; apply Z.eqb_neq; unfold SS in *; divs)).
      by rewrite (fetched v v1 j Hv K1 Hj0) by (rewrite W1; congruence). }
    rewrite !G by (done || lia). done.
  - split; [done|]. rewrite Ht. unfold entry_of. cbn. rewrite !Gw.
    replace ((2 * c + 1) / SS =? 2 * c / SS) with true by (symmetry; apply Z.eqb_eq; unfold SS; divs).
    replace ((2 * c + 1) mod SS) with (2 * c mod SS + 1) by (unfold SS; divs).
    rewrite !Z.eqb_refl. replace (2 * c mod SS + 1 =? 2 * c mod SS) with false by (symmetry; apply Z.eqb_neq; lia).
    cbn. rewrite Z.shiftr_div_pow2 by done. unfold u8, u16. change (2 ^ 8) with 256. change (2 ^ 16) with 65536. divs.
Qed.

Lemma bytes_of_dword y : 0 <= y < 2 ^ 32 ->
  u8 y + 256 * u8 (Z.shiftr y 8) + 65536 * u8 (Z.shiftr y 16) + 16777216 * u8 (Z.shiftr y 24) = y.
Proof.
  intros Hy. rewrite !Z.shiftr_div_pow2 by done. unfold u8.
  change (2 ^ 8) with 256. change (2 ^ 16) with 65536. change (2 ^ 24) with 16777216. divs.
Qed.

(** The value that keeps the upper four bits of the old one. *)
Lemma keep_upper x old : 0 <= old < 2 ^ 32 ->
  let y := Z.lor (Z.land x 0x0FFFFFFF) (Z.land old 0xF0000000) in
  0 <= y < 2 ^ 32 /\ y mod 2 ^ 28 = x mod 2 ^ 28.
Proof.
  intros Ho. cbv zeta. rewrite (land_mask 28), (land_high 28 4) by done.
  pose proof (Z.mod_pos_bound x (2 ^ 28)). change (2 ^ 4) with 16.
  rewrite Z.lor_comm, lor_mul_add by lia. split; [divs|].
  rewrite Z.add_comm, Z.mod_add by lia. apply Z.mod_mod. lia.
Qed.

Lemma put_fat32_ok v c x : vol_ok v -> cluster (fs v) c -> fs_type (fs v) = FS_FAT32 ->
  written_as v c x (put_fat c x v).
Proof.
  intros Hv Hc Ht. destruct (cluster_bytes _ _ (vol_geo _ Hv) Hc) as (Hsm & _ & _ & Hb).
  destruct (Hb Ht) as (Hk & Hk1 & Hk2 & Hk3). unfold put_fat. rewrite get_id_bind, (put_test _ _ Hc), Ht.
  change (FS_FAT32 =? FS_FAT12) with false. change (FS_FAT32 =? FS_FAT16) with false.
  rewrite Z.eqb_refl. cbv zeta iota.
  rewrite (u32_small (c * 4)), (Z.mul_comm c) by (unfold cluster in Hc; lia).
  replace (c / (SS / 4)) with (4 * c / SS) by (unfold SS; change (512 / 4) with 128; divs).
  destruct (fetch_ok v (4 * c) Hv Hk) as (r1 & v1 & E1 & K1 & [[-> W1]|[-> Hrel]]);
    rewrite (st_bind_eq _ _ _ _ _ E1); [rewrite Z.eqb_refl; cbn [negb]|by apply kept_written].
  pose proof K1 as (Hv1 & _). destruct (vol_win _ Hv1) as [Hl Hf].
  assert (B : forall i, 0 <= i < 4 -> in_fat (fs v) (4 * c + i) ->
    (win (fs v1)).[4 * c mod SS + i] = Some (fat_byte v (4 * c + i))).
  { intros i Hi Hki. rewrite <- (fetched v v1 _ Hv K1 Hki); [f_equal; unfold SS; divs|].
    rewrite W1. f_equal. unfold SS. divs. }
  unfold get at 1. rewrite st_get_bind.
  set (old := fat_byte v (4 * c) + 256 * fat_byte v (4 * c + 1) + 65536 * fat_byte v (4 * c + 2) +
    16777216 * fat_byte v (4 * c + 3)).
  rewrite (st_bind_eq (st_opt _) _ v1 old v1).
  2: { unfold st_opt. rewrite (ld_dword_eq _ _ _ _ _ _ (fetched v v1 _ Hv K1 Hk W1) (B 1 ltac:(lia) Hk1)
         (B 2 ltac:(lia) Hk2) (B 3 ltac:(lia) Hk3)) by (apply fat_byte_u8, Hv). done. }
  assert (Hold : 0 <= old < 2 ^ 32).
  { pose proof (fat_byte_u8 v) as Hu. unfold is_u8 in Hu. pose proof (Hu (4 * c) Hv). pose proof (Hu (4 * c + 1) Hv).
    pose proof (Hu (4 * c + 2) Hv). pose proof (Hu (4 * c + 3) Hv). subst old. lia. }
  destruct (keep_upper x old Hold) as [Hy Hyx]. cbv zeta.
  set (y := Z.lor (Z.land x 0x0FFFFFFF) (Z.land old 0xF0000000)) in *. clearbody y old.
  destruct (st_dword_at (win (fs v1)) (4 * c mod SS) y) as (w & Ew & Lw & Fw & Gw); [unfold SS; divs..|].
  rewrite (st_bind_eq (st_opt _) _ v1 w v1) by (unfold st_opt; by rewrite Ew). rewrite store_bind.
  eapply changed_written; [done|done|apply (fetched_bytes v v1 (4 * c) w); [done|done|done|done|split; [lia|by apply Fw]]| |left].
  - intros c' Hc' Hne. unfold entry. rewrite Ht. unfold entry_of. cbn [FS_FAT32 FS_FAT12 FS_FAT16 Z.eqb Pos.eqb].
    destruct (cluster_bytes _ _ (vol_geo _ Hv) Hc') as (_ & _ & _ & H32). destruct (H32 Ht) as (Hj & Hj1 & Hj2 & Hj3).
    assert (G : forall j, in_fat (fs v) j -> ~ (4 * c <= j < 4 * c + 4) ->
      (if j / SS =? 4 * c / SS then default 0 w.[j mod SS] else fat_byte v j) = fat_byte v j).
    { intros j Hj0 H1. destruct (_ =? _) eqn:E; [|done]. zb. rewrite Gw.
      do 4 (replace (_ =? _) with false by (symmetry; apply Z.eqb_neq; unfold SS in *; divs)).
      by rewrite (fetched v v1 j Hv K1 Hj0) by (rewrite W1; congruence). }
    rewrite !G by (done || lia). done.
  - split; [done|]. rewrite Ht. unfold entry_of. cbn [FS_FAT32 FS_FAT12 FS_FAT16 Z.eqb Pos.eqb].
    assert (G : forall i, 0 <= i < 4 -> (if (4 * c + i) / SS =? 4 * c / SS then default 0 w.[(4 * c + i) mod SS]
      else fat_byte v (4 * c + i)) = u8 (Z.shiftr y (8 * i))).
    { intros i Hi. replace ((4 * c + i) / SS =? 4 * c / SS) with true by (symmetry; apply Z.eqb_eq; unfold SS; divs).
      replace ((4 * c + i) mod SS) with (4 * c mod SS + i) by (unfold SS; divs). rewrite Gw.
      assert (i = 0 \/ i = 1 \/ i = 2 \/ i = 3) as [->|[->|[->| ->]]] by lia; repeat ztest; done. }
    pose proof (G 0 ltac:(lia)) as G0. rewrite Z.add_0_r in G0. rewrite G0, !G by lia.
    cbn [Z.mul Pos.mul]. rewrite Z.shiftr_0_r, bytes_of_dword by done. exact Hyx.
Qed.

(** The two bytes of a twelve-bit entry. *)
Definition low_byte (odd : bool) (p x : Z) : Z :=
  if odd then u8 (Z.lor (Z.land p 0x0F) (Z.shiftl (u8 x) 4)) else u8 x.
Definition high_byte (odd : bool) (p x : Z) : Z :=
  if odd then u8 (Z.shiftr x 4) else Z.lor (Z.land p 0xF0) (Z.land (u8 (Z.shiftr x 8)) 0x0F).

Lemma low_byte_odd p x : is_u8 p -> low_byte true p x = p mod 16 + 16 * (x mod 16).
Proof.
  unfold is_u8, low_byte. intros Hp. rewrite (land_mask 4 0x0F) by done. change (2 ^ 4) with 16.
  rewrite Z.lor_comm, lor_shift by (change (2 ^ 4) with 16; divs).
  unfold u8. change (2 ^ 4) with 16. change (2 ^ 8) with 256. divs.
Qed.

Lemma high_byte_even p x : is_u8 p -> high_byte false p x = p / 16 * 16 + x / 256 mod 16.
Proof.
  unfold is_u8, high_byte. intros Hp. rewrite (land_mask 4 0x0F), (land_high 4 4 0xF0) by done.
  change (2 ^ 4) with 16. rewrite (lor_mul_add 4) by (change (2 ^ 4) with 16; divs).
  rewrite Z.shiftr_div_pow2 by done. unfold u8. change (2 ^ 4) with 16. change (2 ^ 8) with 256. divs.
Qed.

Lemma low_byte_u8 b p x : is_u8 (low_byte b p x).
Proof. unfold low_byte. destruct b; apply u8_byte. Qed.

Lemma high_byte_u8 b p x : is_u8 p -> is_u8 (high_byte b p x).
Proof.
  intros Hp. destruct b; [apply u8_byte|]. rewrite high_byte_even by done. unfold is_u8 in *. divs.
Qed.

(** A table whose entry [c] has new bytes. *)
Definition with_bytes (B : Z -> Z) (k b0 b1 : Z) (j : Z) : Z :=
  if j =? k + 1 then b1 else if j =? k then b0 else B j.

Lemma with_bytes_other v c x b1 c' : vol_ok v -> cluster (fs v) c -> cluster (fs v) c' -> c' <> c ->
  let k := c + c / 2 in
  b1 = fat_byte v (k + 1) \/ b1 = high_byte (c mod 2 =? 1) (fat_byte v (k + 1)) x ->
  entry_of FS_FAT12 (with_bytes (fat_byte v) k (low_byte (c mod 2 =? 1) (fat_byte v k) x) b1) c' =
    entry_of FS_FAT12 (fat_byte v) c'.
Proof.
  intros Hv [Hc _] [Hc' _] Hne k Hb1. pose proof (fat_byte_u8 v k Hv) as H0. pose proof (fat_byte_u8 v (k + 1) Hv) as H1.
  assert (Hb1' : is_u8 b1) by (destruct Hb1 as [->| ->]; [done|by apply high_byte_u8]).
  apply entry12_other with c; [lia|lia|done|intros; by apply fat_byte_u8| | | |]; fold k; unfold with_bytes.
  - intros j. repeat zcase; [done|apply low_byte_u8|by apply fat_byte_u8].
  - intros j ? ?. by repeat ztest.
  - intros Hm. rewrite Hm. ztest. rewrite !Z.eqb_refl, low_byte_odd by done. divs.
  - intros Hm. rewrite Z.eqb_refl. rewrite Hm in Hb1. change (0 =? 1) with false in Hb1.
    destruct Hb1 as [->| ->]; [done|]. rewrite high_byte_even by done. unfold is_u8 in *. divs.
Qed.

Lemma with_bytes_entry v c x : vol_ok v ->
  let k := c + c / 2 in
  entry_of FS_FAT12 (with_bytes (fat_byte v) k (low_byte (c mod 2 =? 1) (fat_byte v k) x)
    (high_byte (c mod 2 =? 1) (fat_byte v (k + 1)) x)) c = x mod 4096.
Proof.
  intros Hv k. pose proof (fat_byte_u8 v k Hv) as H0. pose proof (fat_byte_u8 v (k + 1) Hv) as H1.
  unfold entry_of, with_bytes. rewrite Z.eqb_refl. cbv zeta. fold k. rewrite Z.eqb_refl. ztest. rewrite Z.eqb_refl.
  unfold is_u8 in *. destruct (c mod 2 =? 1).
  - rewrite low_byte_odd by done. unfold high_byte, u8. rewrite Z.shiftr_div_pow2 by done.
    change (2 ^ 4) with 16. change (2 ^ 8) with 256. divs.
  - rewrite high_byte_even by done. unfold low_byte, u8. change (2 ^ 8) with 256. divs.
Qed.

Lemma put_fat12_ok v c x : vol_ok v -> cluster (fs v) c -> fs_type (fs v) = FS_FAT12 ->
  written_as v c x (put_fat c x v).
Proof.
  intros Hv Hc Ht. destruct (cluster_bytes _ _ (vol_geo _ Hv) Hc) as (Hsm & Hb & _).
  destruct (Hb Ht) as [Hk Hk']. unfold put_fat. rewrite get_id_bind, (put_test _ _ Hc), Ht, Z.eqb_refl.
  cbv zeta. unfold cluster in Hc. rewrite (u32_small (c + c / 2)), (u32_small (c + c / 2 + 1)), odd_test by divs.
  set (odd := c mod 2 =? 1). set (k := c + c / 2) in *.
  destruct (fetch_ok v k Hv Hk) as (r1 & v1 & E1 & K1 & [[-> W1]|[-> Hrel]]);
    rewrite (st_bind_eq _ _ _ _ _ E1); [rewrite Z.eqb_refl; cbn [negb]|by apply kept_written].
  rewrite (st_bind_eq _ _ _ _ _ (win_get_eq v1 _ _ (fetched v v1 k Hv K1 Hk W1))).
  pose proof K1 as (Hv1 & S1 & _). destruct (same_fields _ _ S1) as (_ & _ & Eb & _).
  destruct (poke_ok (A := Z) v1 k (low_byte odd (fat_byte v k) x)) with
    (m := fun _ : unit => res ← move_window (u32 (fatbase (fs v) + (k + 1) / SS));
      if negb (res =? FR_OK) then mret res else
      p ← win_get ((k + 1) mod SS);
      _ ← win_set ((k + 1) mod SS) (high_byte odd p x); upd (set wflag (fun _ => 1)) ≫= fun _ => mret res)
    as (v2 & C2 & _ & E2); [done|apply low_byte_u8|by apply (same_in_fat _ _ _ S1)|done|].
  match goal with |- written_as _ _ _ ?t => rewrite (E2 : t = _) end. clear E2.
  pose proof (changed_trans _ _ _ _ _ (kept_changed _ _ Hv K1) C2) as C. pose proof C2 as [Hv2 S2 B2 _].
  pose proof (same_trans _ _ _ S1 S2) as S12. pose proof (same_in_fat _ _ _ S12 Hk') as Hk2.
  destruct (same_fields _ _ S12) as (_ & _ & Eb2 & _). rewrite <- Eb2.
  assert (HB2 : forall j, in_fat (fs v) j -> fat_byte v2 j = with_bytes (fat_byte v) k (low_byte odd (fat_byte v k) x) (fat_byte v (k + 1)) j).
  { intros j Hj. rewrite (B2 j) by by apply (same_in_fat _ _ _ S1). unfold with_bytes.
    rewrite (kept_byte v v1) by done. repeat zcase; try done; [lia|by subst]. }
  destruct (fetch_ok v2 (k + 1) Hv2 Hk2) as (r3 & v3 & E3 & K3 & [[-> W3]|[-> Hrel]]); rewrite (st_bind_eq _ _ _ _ _ E3).
  2: { eapply changed_written; [done|done|eapply changed_trans; [exact C|by apply kept_changed]| |by right].
       intros c' Hc' Hne. unfold entry. rewrite Ht.
       rewrite <- (with_bytes_other v c x (fat_byte v (k + 1)) c' Hv Hc Hc' Hne) by by left.
       unfold entry_of. rewrite Z.eqb_refl. destruct (cluster_bytes _ _ (vol_geo _ Hv) Hc') as (_ & H12 & _).
       destruct (H12 Ht). cbv zeta. by rewrite !HB2 by done. }
  rewrite Z.eqb_refl. cbn [negb].
  rewrite (st_bind_eq _ _ _ _ _ (win_get_eq v3 _ _ (fetched v2 v3 (k + 1) Hv2 K3 Hk2 W3))).
  pose proof K3 as (Hv3 & S3 & _).
  destruct (poke_ok (A := Z) v3 (k + 1) (high_byte odd (fat_byte v2 (k + 1)) x)) with (m := fun _ : unit => mret (M := ST (Vol D)) FR_OK)
    as (v4 & C4 & _ & E4); [done|by apply high_byte_u8, fat_byte_u8|by apply (same_in_fat _ _ _ S3)|done|].
  match goal with |- written_as _ _ _ ?t => rewrite (E4 : t = _) end. clear E4.
  assert (Cf : changed v v4 (with_bytes (fat_byte v) k (low_byte odd (fat_byte v k) x) (high_byte odd (fat_byte v (k + 1)) x))).
  { eapply changed_ext; [eapply changed_trans; [exact C|]; eapply changed_trans; [by apply kept_changed|exact C4]|].
    intros j Hj. cbv beta. pose proof (same_in_fat _ _ _ S12 Hj) as Hj2. rewrite (kept_byte v2 v3) by done.
    rewrite (HB2 j Hj), (HB2 (k + 1) Hk'). unfold with_bytes. rewrite Z.eqb_refl. by repeat zcase. }
  eapply changed_written; [done|done|exact Cf| |left; split; [done|]]; rewrite Ht.
  - intros c' Hc' Hne. unfold entry. rewrite Ht. by apply with_bytes_other; [..|right].
  - by apply with_bytes_entry.
Qed.

Lemma put_fat_ok v c x : vol_ok v -> cluster (fs v) c -> written_as v c x (put_fat c x v).
Proof.
  intros Hv Hc. destruct (vol_geo _ Hv) as [[E|[E|E]] _ _ _ _ _];
    [by apply put_fat12_ok|by apply put_fat16_ok|by apply put_fat32_ok].
Qed.

(** A number that is no cluster is refused. *)
Lemma fat_out_of_range v c x : vol_ok v -> 0 <= c -> ~ cluster (fs v) c ->
  get_fat c v = Some (1, v) /\ put_fat c x v = Some (FR_INT_ERR, v).
Proof.
  intros Hv Hc Hn. unfold get_fat, put_fat. rewrite !get_id_bind. unfold cluster in Hn.
  destruct (Z_lt_ge_dec c 2); repeat ztest; cbn [orb andb negb]; done.
Qed.

(** C15: An entry that was written is read back, and no other one has changed.  In the
    three formats of the table, across the sector boundaries twelve-bit entries may
    straddle, and whatever of the table the window holds: unless the drive fails,
    writing a value and reading the entry gives the value in the width of the
    format; every other entry, and every sector outside of the table, is as before. *)
Theorem fat_roundtrip v c x : vol_ok v -> cluster (fs v) c ->
  exists r v', put_fat c x v = Some (r, v') /\ vol_ok v' /\
    (forall s, live (fs v) s -> ~ (fatbase (fs v) <= s < fatbase (fs v) + fsize (fs v)) -> view v' s = view v s) /\
    (forall c', cluster (fs v) c' -> c' <> c -> entry v' c' = entry v c') /\
    (r = FR_OK /\ (exists y v'', get_fat c v' = Some (y, v'') /\
        (forall c', cluster (fs v) c' -> entry v'' c' = entry v' c') /\
        (y = x mod (end_of_chain (fs_type (fs v)) + 1) \/ y = DISK_ERROR /\ ~ reliable D)) \/
     r = FR_DISK_ERR /\ ~ reliable D).
Proof.
  intros Hv Hc. destruct (put_fat_ok v c x Hv Hc) as (r & v' & E & Hv' & Hs & Hd & He & Hr).
  exists r, v'. splits; [done..|]. destruct Hr as [[-> Hr]|Hr]; [left|by right]. split; [done|].
  assert (Hcl : forall a, cluster (fs v') a <-> cluster (fs v) a).
  { intros a. unfold cluster. by destruct (same_fields _ _ Hs) as (_ & _ & _ & _ & -> & _). }
  destruct (get_fat_ok v' c Hv' (proj2 (Hcl c) Hc)) as (y & v'' & E'' & K & Hy).
  exists y, v''. splits; [done| |by rewrite <- Hr].
  intros c' Hc'. apply kept_entry; [done|done|by apply Hcl].
Qed.
End volume.
