(* ===== verification/FatChain.v ===== *)
(** * FatChain: chains of clusters

    What [remove_chain] and [create_chain] of FATFS/src/ff.c do to the table of a
    volume, on any drive that keeps the contract of [FatFacts]: they end on every
    table, damaged ones included, touch no sector outside of the table, keep the count
    of free clusters exact, and free or extend exactly the chain they are given. *)

From S2P Require Import Prelude FatWords Fat FatFacts.

(** ** Counting free clusters *)

(** The entries that are zero among the [n] from [lo] on. *)
Fixpoint zeros (E : Z -> Z) (lo : Z) (n : nat) : Z :=
  match n with
  | O => 0
  | S n' => b2z (E lo =? 0) + zeros E (lo + 1) n'
  end.

Lemma zeros_bound E lo n : 0 <= zeros E lo n <= Z.of_nat n.
Proof. revert lo. induction n as [|n IH]; intros lo; [done|]. cbn [zeros]. specialize (IH (lo + 1)). unfold b2z. zcase; lia. Qed.

Lemma zeros_ext E E' lo n : (forall c, lo <= c < lo + Z.of_nat n -> E' c = E c) -> zeros E' lo n = zeros E lo n.
Proof.
  revert lo. induction n as [|n IH]; intros lo H; [done|]. cbn [zeros].
  rewrite (H lo) by lia. rewrite (IH (lo + 1)); [done|]. intros c Hc. apply H. lia.
Qed.

Lemma zeros_change E E' lo n c : lo <= c < lo + Z.of_nat n ->
  (forall j, lo <= j < lo + Z.of_nat n -> j <> c -> E' j = E j) ->
  zeros E' lo n = zeros E lo n - b2z (E c =? 0) + b2z (E' c =? 0).
Proof.
  revert lo. induction n as [|n IH]; intros lo Hc H; [lia|]. cbn [zeros].
  destruct (Z.eq_dec c lo) as [->|Hne].
  - rewrite (zeros_ext E E' (lo + 1) n); [lia|]. intros j Hj. apply H; lia.
  - rewrite (H lo) by lia. rewrite (IH (lo + 1)); [lia|lia|]. intros j Hj. apply H. lia.
Qed.

(** ** Volumes *)

Section chain.
Context `{DL : DiskLaws D}.
Implicit Types v : Vol D.

(** What is fixed when a volume is mounted. *)
Definition geometry (f : FATFS) : list Z :=
  [fs_type f; pdrv f; n_fats f; csize f; n_fatent f; fsize f; volbase f; fatbase f; database f].

(** Only the window and the counts have moved. *)
Definition stable (f f' : FATFS) : Prop := geometry f' = geometry f.

Lemma stable_refl f : stable f f.
Proof. reflexivity. Qed.

Lemma stable_trans f g h : stable f g -> stable g h -> stable f h.
Proof. unfold stable. congruence. Qed.

Lemma same_stable f g : same f g -> stable f g.
Proof. unfold same. intros ->. by destruct f. Qed.

Lemma stable_fields f g : stable f g ->
  fs_type g = fs_type f /\ n_fats g = n_fats f /\ fatbase g = fatbase f /\ fsize g = fsize f /\ n_fatent g = n_fatent f.
Proof. unfold stable, geometry. by intros [=]. Qed.

Lemma stable_cluster f g c : stable f g -> cluster g c <-> cluster f c.
Proof. intros Hs. unfold cluster. by destruct (stable_fields _ _ Hs) as (_ & _ & _ & _ & ->). Qed.

Lemma stable_live f g s : stable f g -> live g s <-> live f s.
Proof. intros Hs. unfold live. by destruct (stable_fields _ _ Hs) as (_ & -> & -> & -> & _). Qed.

(** A sector that is not of the table. *)
Definition data_sector (f : FATFS) (s : Z) : Prop :=
  live f s /\ ~ (fatbase f <= s < fatbase f + fsize f).

Lemma stable_data f g s : stable f g -> data_sector g s <-> data_sector f s.
Proof.
  intros Hs. unfold data_sector. rewrite (stable_live _ _ _ Hs).
  by destruct (stable_fields _ _ Hs) as (_ & _ & -> & -> & _).
Qed.

(** The volume is in order and nothing but the table has changed. *)
Record table_only v v' : Prop := TableOnly {
  to_ok : vol_ok v';
  to_stable : stable (fs v) (fs v');
  to_data s : data_sector (fs v) s -> view v' s = view v s
}.

Lemma table_only_refl v : vol_ok v -> table_only v v.
Proof. intros Hv. constructor; [done|apply stable_refl|done]. Qed.

Lemma table_only_trans u v w : table_only u v -> table_only v w -> table_only u w.
Proof.
  intros [Hv Suv Duv] [Hw Svw Dvw]. constructor; [done|by apply stable_trans with (fs v)|].
  intros s Hs. rewrite Dvw; [by apply Duv|]. by apply (stable_data _ _ _ Suv).
Qed.

Lemma kept_table v v' : kept v v' -> table_only v v'.
Proof. intros (Hv' & Hs & Hview). constructor; [done|by apply same_stable|]. intros s [Hl _]. by apply Hview. Qed.

Lemma get_step v c : vol_ok v -> cluster (fs v) c ->
  exists v', kept v v' /\ (get_fat c v = Some (entry v c, v') \/ get_fat c v = Some (DISK_ERROR, v') /\ ~ reliable D).
Proof.
  intros Hv Hc. destruct (get_fat_ok v c Hv Hc) as (y & v' & E & K & [->|[-> Hrel]]); exists v'; split; try done;
    [by left|by right].
Qed.

(** The table after an entry is written. *)
Definition with_entry (E : Z -> Z) (c x : Z) (c' : Z) : Z := if c' =? c then x else E c'.

Definition clipped (f : FATFS) (x : Z) : Z := x mod (end_of_chain (fs_type f) + 1).

Lemma put_step v c x : vol_ok v -> cluster (fs v) c ->
  exists r v', put_fat c x v = Some (r, v') /\ table_only v v' /\ same (fs v) (fs v') /\
    (forall c', cluster (fs v) c' -> c' <> c -> entry v' c' = entry v c') /\
    (r = FR_OK /\ (forall c', cluster (fs v) c' -> entry v' c' = with_entry (entry v) c (clipped (fs v) x) c') \/
     r = FR_DISK_ERR /\ ~ reliable D).
Proof.
  intros Hv Hc. destruct (put_fat_ok v c x Hv Hc) as (r & v' & E & Hv' & Hs & Hd & He & Hr).
  exists r, v'. splits; [done| |done|done|].
  - constructor; [done|by apply same_stable|]. intros s [Hl Ho]. by apply Hd.
  - destruct Hr as [[-> Hr]|Hr]; [left|by right]. split; [done|]. intros c' Hc'. unfold with_entry.
    destruct (c' =? c) eqn:E'; zb; [by subst|by apply He].
Qed.

(** A change of the counts is not seen by the window and the table. *)
Lemma counts_ok v f' : vol_ok v -> f' = (fs v) <| free_clst := free_clst f' |> <| last_clst := last_clst f' |> <| fsi_flag := fsi_flag f' |> ->
  table_only v (v <| fs := f' |>) /\ forall c, entry (v <| fs := f' |>) c = entry v c.
Proof.
  intros Hv Hf. destruct v as [f d]. cbn in *.
  assert (Hs : stable f f') by (unfold stable; rewrite Hf; by destruct f).
  destruct (stable_fields _ _ Hs) as (Et & En & Eb & Es & Ec).
  assert (Ew : winsect f' = winsect f /\ win f' = win f /\ wflag f' = wflag f)
    by (rewrite Hf; by destruct f).
  destruct Ew as (Ew & Ewin & Ewf).
  assert (Hview : forall s, view (MkVol f' d) s = view (MkVol f d) s) by (intros s; unfold view; cbn; by rewrite Ew, Ewin).
  split; [constructor|]; cbn.
  - destruct Hv as [[] ? ? ?]. cbn in *. constructor; cbn; [constructor; congruence|congruence|congruence|by rewrite Ew, Ewin, Ewf].
  - done.
  - intros s _. apply Hview.
  - intros c. unfold entry, set. cbn. rewrite Et. unfold fat_byte. cbn. rewrite Eb.
    unfold entry_of. by rewrite !Hview.
Qed.

(** ** Free clusters *)

Definition free v : Z := zeros (entry v) 2 (Z.to_nat (n_fatent (fs v) - 2)).

(** The count of free clusters is exact, or marked unknown. *)
Definition count_ok v : Prop :=
  free_clst (fs v) = free v \/ n_fatent (fs v) - 2 < free_clst (fs v).

Lemma cluster_range v c : vol_ok v -> cluster (fs v) c <-> 2 <= c < 2 + Z.of_nat (Z.to_nat (n_fatent (fs v) - 2)).
Proof. intros Hv. destruct (vol_geo _ Hv) as [_ _ _ _ [? _] _]. unfold cluster. lia. Qed.

Lemma n_fatent_small v : vol_ok v -> 2 <= n_fatent (fs v) < 2 ^ 28.
Proof.
  intros Hv. destruct (vol_geo _ Hv) as [_ _ _ _ [? Hn] _]. revert Hn. unfold end_of_chain. repeat case_match; lia.
Qed.

Lemma free_ext v v' : vol_ok v -> n_fatent (fs v') = n_fatent (fs v) ->
  (forall c, cluster (fs v) c -> entry v' c = entry v c) -> free v' = free v.
Proof.
  intros Hv Hn He. unfold free. rewrite Hn. apply zeros_ext. intros c Hc. apply He. by apply cluster_range.
Qed.

Lemma free_entry v v' c x : vol_ok v -> cluster (fs v) c -> n_fatent (fs v') = n_fatent (fs v) ->
  (forall c', cluster (fs v) c' -> entry v' c' = with_entry (entry v) c x c') ->
  free v' = free v - b2z (entry v c =? 0) + b2z (x =? 0).
Proof.
  intros Hv Hc Hn He. unfold free. rewrite Hn. rewrite (zeros_change (entry v) (entry v') _ _ c).
  - rewrite (He c Hc). unfold with_entry. by rewrite Z.eqb_refl.
  - by apply cluster_range.
  - intros j Hj Hne. rewrite He by by apply cluster_range. unfold with_entry. by ztest.
Qed.

Lemma free_bound v : vol_ok v -> 0 <= free v <= n_fatent (fs v) - 2.
Proof. intros Hv. pose proof (n_fatent_small v Hv). unfold free. pose proof (zeros_bound (entry v) 2 (Z.to_nat (n_fatent (fs v) - 2))). lia. Qed.

(** ** Removing a chain *)

Definition bump_free : ST (Vol D) unit :=
  fs ← get id;
  when (free_clst fs <? u32 (n_fatent fs - 2))
    (upd (fun fs => fs <| free_clst ::= (fun n => u32 (n + 1)) |> <| fsi_flag ::= (fun f => Z.lor f 1) |>)).

Lemma bump_free_ok v : vol_ok v -> 0 <= free_clst (fs v) ->
  exists v', bump_free v = Some (tt, v') /\ table_only v v' /\ (forall c, entry v' c = entry v c) /\
    free_clst (fs v') = (if free_clst (fs v) <? n_fatent (fs v) - 2 then free_clst (fs v) + 1 else free_clst (fs v)).
Proof.
  intros Hv Hf. pose proof (n_fatent_small v Hv) as Hn. unfold bump_free. rewrite get_id_bind, (u32_small (_ - 2)) by lia.
  destruct (_ <? _) eqn:E; zb; cbn [when].
  - set (f' := (fs v) <| free_clst ::= (fun n => u32 (n + 1)) |> <| fsi_flag ::= (fun f => Z.lor f 1) |>).
    destruct (counts_ok v f') as [T He]; [done|by subst f'; destruct (fs v)|].
    exists (v <| fs := f' |>). splits; [by destruct v|done|done|].
    subst f'. destruct v as [[] d]; cbn in *. rewrite u32_small by lia. done.
  - exists v. splits; [done|by apply table_only_refl|done|done].
Qed.

(** One turn of the loop on a cluster that is in use. *)
Lemma remove_turn fuel c v : vol_ok v -> cluster (fs v) c -> 0 <= free_clst (fs v) ->
  let x := entry v c in
  exists r v', table_only v v' /\
    (x = 0 /\ remove_loop (S fuel) c v = Some (FR_OK, v') /\ kept v v' \/
     x = 1 /\ remove_loop (S fuel) c v = Some (FR_INT_ERR, v') /\ kept v v' \/
     remove_loop (S fuel) c v = Some (FR_DISK_ERR, v') /\ ~ reliable D /\
       (forall c', cluster (fs v) c' -> c' <> c -> entry v' c' = entry v c') \/
     1 < x /\ r = FR_OK /\
       remove_loop (S fuel) c v = (if x <? n_fatent (fs v) then remove_loop fuel x v' else Some (FR_OK, v')) /\
       (forall c', cluster (fs v) c' -> entry v' c' = with_entry (entry v) c 0 c') /\
       free_clst (fs v') = (if free_clst (fs v) <? n_fatent (fs v) - 2 then free_clst (fs v) + 1 else free_clst (fs v))).
Proof.
  intros Hv Hc Hf x. pose proof (entry_range v c Hv) as Hx. fold x in Hx.
  destruct (get_step v c Hv Hc) as (v1 & K1 & [E1|[E1 Hrel]]); cbn [remove_loop]; rewrite (st_bind_eq _ _ _ _ _ E1).
  2: { exists FR_DISK_ERR, v1. split; [by apply kept_table|]. right; right; left. splits; [done|done|].
       intros c' Hc' _. by apply kept_entry. }
  fold x. destruct (x =? 0) eqn:E0; zb.
  { exists FR_OK, v1. split; [by apply kept_table|]. by left. }
  destruct (x =? 1) eqn:E1'; zb.
  { exists FR_INT_ERR, v1. split; [by apply kept_table|]. right; by left. }
  replace (x =? DISK_ERROR) with false
    by (symmetry; apply Z.eqb_neq; revert Hx; unfold DISK_ERROR, end_of_chain; repeat case_match; lia).
  pose proof K1 as (Hv1 & S1 & _). destruct (same_fields _ _ S1) as (_ & _ & _ & _ & En & Ef & _).
  assert (Hc1 : cluster (fs v1) c) by (unfold cluster; by rewrite En).
  destruct (put_step v1 c 0 Hv1 Hc1) as (r & v2 & E2 & T2 & S2 & O2 & [[-> W2]|[-> Hrel]]); rewrite (st_bind_eq _ _ _ _ _ E2).
  2: { exists FR_DISK_ERR, v2. split; [apply table_only_trans with v1; [by apply kept_table|done]|].
       right; right; left. splits; [done|done|]. intros c' Hc' Hne.
       rewrite O2; [by apply kept_entry|unfold cluster; by rewrite En|done]. }
  rewrite Z.eqb_refl. cbn [negb]. destruct (same_fields _ _ S2) as (_ & _ & _ & _ & En2 & Ef2 & _).
  destruct (bump_free_ok v2) as (v3 & E3 & T3 & He3 & Hf3); [by destruct T2|by rewrite Ef2, Ef|].
  assert (T : table_only v v3) by (apply table_only_trans with v1; [by apply kept_table|by apply table_only_trans with v2]).
  exists FR_OK, v3. split; [done|]. right; right; right. splits; [lia|done| | |].
  - rewrite get_id_bind. unfold bump_free in E3. rewrite get_id_bind in E3. rewrite (st_bind_eq _ _ _ _ _ E3).
    rewrite En2, En. by destruct (x <? _).
  - intros c' Hc'. rewrite He3, W2 by (unfold cluster; by rewrite En). unfold with_entry, clipped.
    destruct (c' =? c); [|by apply kept_entry]. apply Z.mod_0_l. unfold end_of_chain. by repeat case_match.
  - by rewrite Hf3, Ef2, Ef, En2, En.
Qed.

(** What removing a chain may end with, whatever the table holds: entries only become
    free, unless the drive has failed, and the count stays right. *)
Definition removed v (res : option (Z * Vol D)) : Prop :=
  exists r v', res = Some (r, v') /\ table_only v v' /\
    (r = FR_DISK_ERR /\ ~ reliable D \/
     (r = FR_OK \/ r = FR_INT_ERR) /\ (count_ok v -> count_ok v') /\
     forall c, cluster (fs v) c -> entry v' c = entry v c \/ entry v' c = 0).

Lemma table_fatent v v' : table_only v v' -> n_fatent (fs v') = n_fatent (fs v).
Proof. intros [_ Hs _]. by destruct (stable_fields _ _ Hs) as (_ & _ & _ & _ & ->). Qed.

Lemma table_cluster v v' c : table_only v v' -> cluster (fs v') c <-> cluster (fs v) c.
Proof. intros [_ Hs _]. by apply stable_cluster. Qed.

Lemma kept_count v v' : vol_ok v -> kept v v' -> count_ok v -> count_ok v'.
Proof.
  intros Hv K. pose proof K as (_ & S & _). destruct (same_fields _ _ S) as (_ & _ & _ & _ & En & Ef & _).
  unfold count_ok. rewrite En, Ef, (free_ext v v' Hv En); [done|]. intros c Hc. by apply kept_entry.
Qed.

(** Freeing a used entry and counting it. *)
Lemma freed_count v v' c : vol_ok v -> cluster (fs v) c -> entry v c <> 0 ->
  n_fatent (fs v') = n_fatent (fs v) ->
  (forall c', cluster (fs v) c' -> entry v' c' = with_entry (entry v) c 0 c') ->
  free_clst (fs v') = (if free_clst (fs v) <? n_fatent (fs v) - 2 then free_clst (fs v) + 1 else free_clst (fs v)) ->
  free v' = free v + 1 /\ (count_ok v -> count_ok v') /\ free v < n_fatent (fs v) - 2.
Proof.
  intros Hv Hc Hne Hn He Hf.
  assert (Hfree : free v' = free v + 1).
  { rewrite (free_entry v v' c 0) by done. replace (entry v c =? 0) with false by (symmetry; by apply Z.eqb_neq). cbn. lia. }
  assert (Hb : 0 <= free v' <= n_fatent (fs v') - 2).
  { pose proof (n_fatent_small v Hv). unfold free. rewrite Hn. pose proof (zeros_bound (entry v') 2 (Z.to_nat (n_fatent (fs v) - 2))). lia. }
  splits; [done| |lia]. unfold count_ok. rewrite Hfree, Hf, Hn. intros [Ho|Ho]; [left|right].
  - ztest. lia.
  - by ztest.
Qed.

Lemma remove_loop_ok fuel c v : vol_ok v -> cluster (fs v) c -> 0 <= free_clst (fs v) ->
  n_fatent (fs v) - 2 - free v < Z.of_nat fuel -> removed v (remove_loop fuel c v).
Proof.
  revert c v. induction fuel as [|fuel IH]; intros c v Hv Hc Hf Hfuel.
  { pose proof (free_bound v Hv). lia. }
  destruct (remove_turn fuel c v Hv Hc Hf) as (r & v' & T & [(Hx & -> & K)|[(Hx & -> & K)|[(-> & Hrel & _)|(Hx & -> & -> & He & Hf')]]]).
  - exists FR_OK, v'. splits; [done|done|right]. splits; [by left|by apply kept_count|]. intros c' Hc'. left. by apply kept_entry.
  - exists FR_INT_ERR, v'. splits; [done|done|right]. splits; [by right|by apply kept_count|]. intros c' Hc'. left. by apply kept_entry.
  - exists FR_DISK_ERR, v'. splits; [done|done|by left].
  - pose proof (table_fatent _ _ T) as Hn.
    destruct (freed_count v v' c) as (Hfree & Hcount & Hlt); [done|done|lia|done|done|done|].
    assert (He' : forall c', cluster (fs v) c' -> entry v' c' = entry v c' \/ entry v' c' = 0).
    { intros c' Hc'. rewrite He by done. unfold with_entry. destruct (_ =? _); [by right|by left]. }
    destruct (entry v c <? n_fatent (fs v)) eqn:E; zb.
    2: { exists FR_OK, v'. splits; [done|done|right]. splits; [by left|done|done]. }
    destruct (IH (entry v c) v') as (r & v2 & E2 & T2 & H2);
      [by destruct T|apply (table_cluster _ _ _ T); split; lia|rewrite Hf'; zcase; lia|lia|].
    exists r, v2. splits; [done|by apply table_only_trans with v'|].
    destruct H2 as [H2|(Hr & Hc2 & He2)]; [by left|right]. splits; [done|tauto|].
    intros c' Hc'. destruct (He2 c'); [by apply (table_cluster _ _ _ T)| |by right].
    destruct (He' c' Hc'); [left|right]; congruence.
Qed.

(** *** A proper chain *)

(** From [c] the links of the table [E] of [n] entries go through [l] to an end. *)
Fixpoint linked (E : Z -> Z) (n c : Z) (l : list Z) : Prop :=
  match l with
  | [] => False
  | [a] => c = a /\ 2 <= c < n /\ n <= E c
  | a :: l' => c = a /\ 2 <= c < n /\ linked E n (E c) l'
  end.

Lemma linked_cons E n c a b l : linked E n c (a :: b :: l) <-> c = a /\ 2 <= c < n /\ linked E n (E c) (b :: l).
Proof. done. Qed.

Lemma linked_in E n c l : linked E n c l -> Forall (fun a => 2 <= a < n) l.
Proof.
  revert c. induction l as [|a [|b l] IH]; intros c Hl; [done| |].
  - destruct Hl as (-> & ? & _). by constructor.
  - apply linked_cons in Hl as (-> & ? & Hl). constructor; [done|]. by apply (IH _ Hl).
Qed.

Lemma linked_head E n c b l : linked E n c (b :: l) -> c = b /\ 2 <= c < n.
Proof. destruct l; [intros (-> & ? & _)|intros (-> & ? & _)]; done. Qed.

Lemma linked_ext E E' n c l : (forall a, In a l -> E' a = E a) -> linked E n c l -> linked E' n c l.
Proof.
  revert c. induction l as [|a [|b l] IH]; intros c He Hl; [done| |].
  - destruct Hl as (-> & ? & ?). cbn. rewrite He by (by left). done.
  - apply linked_cons in Hl as (-> & ? & Hl). apply linked_cons. rewrite He by (by left).
    splits; [done|lia|lia|]. apply IH; [|done]. intros a' Ha'. apply He. by right.
Qed.

(** The entries of a list are free, the others as before. *)
Definition without (E : Z -> Z) (l : list Z) (c : Z) : Z := if bool_decide (c ∈ l) then 0 else E c.

Lemma without_cons E a l c : without (with_entry E a 0) l c = without E (a :: l) c.
Proof.
  unfold without, with_entry. destruct (c =? a) eqn:E1; zb.
  - subst. rewrite (bool_decide_true (a ∈ a :: l)) by set_solver. by destruct (bool_decide _).
  - destruct (decide (c ∈ l)).
    + rewrite !bool_decide_true by set_solver. done.
    + rewrite !bool_decide_false by set_solver. done.
Qed.

Lemma remove_linked fuel l c v : vol_ok v -> 0 <= free_clst (fs v) ->
  linked (entry v) (n_fatent (fs v)) c l -> NoDup l -> (length l <= fuel)%nat ->
  exists r v', remove_loop fuel c v = Some (r, v') /\ table_only v v' /\
    (r = FR_OK /\ (forall c', cluster (fs v) c' -> entry v' c' = without (entry v) l c') \/
     r = FR_DISK_ERR /\ ~ reliable D /\
       forall c', cluster (fs v) c' -> c' ∉ l -> entry v' c' = entry v c').
Proof.
  revert fuel c v. induction l as [|a l IH]; intros fuel c v Hv Hf Hl Hnd Hfuel; [done|].
  destruct (linked_head _ _ _ _ _ Hl) as [-> Hc]. destruct fuel as [|fuel]; [cbn in Hfuel; lia|].
  assert (Hx : entry v a >= 2 /\ (l = [] -> n_fatent (fs v) <= entry v a) /\
    (l <> [] -> linked (entry v) (n_fatent (fs v)) (entry v a) l)).
  { destruct l as [|b l]; [destruct Hl as (_ & _ & ?); splits; [lia|done|done]|].
    apply linked_cons in Hl as (_ & _ & Hl). destruct (linked_head _ _ _ _ _ Hl). by splits; [lia|..]. }
  destruct Hx as (Hx & Hlast & Hnext).
  destruct (remove_turn fuel a v Hv Hc Hf) as (r & v' & T & [(H0 & _)|[(H1 & _)|[(-> & Hrel & Ho)|(_ & -> & -> & He & Hf')]]]);
    [lia|lia| |].
  { exists FR_DISK_ERR, v'. splits; [done|done|right]. splits; [done|done|]. intros c' Hc' Hn. apply Ho; [done|].
    intros ->. apply Hn. by left. }
  apply NoDup_cons in Hnd as [Ha Hnd]. pose proof (table_fatent _ _ T) as Hn.
  destruct l as [|b l].
  - specialize (Hlast eq_refl). ztest. exists FR_OK, v'. splits; [done|done|left]. split; [done|]. intros c' Hc'. rewrite He by done.
    rewrite <- (without_cons (entry v) a). unfold without. by rewrite bool_decide_false by set_solver.
  - specialize (Hnext ltac:(done)). destruct (linked_head _ _ _ _ _ Hnext) as [_ Hb]. ztest.
    destruct (IH fuel (entry v a) v') as (r & v2 & E2 & T2 & H2);
      [by destruct T|rewrite Hf'; zcase; lia| |done|cbn in *; lia|].
    { rewrite Hn. apply linked_ext with (entry v); [|done]. intros a' Ha'.
      rewrite He by (pose proof (linked_in _ _ _ _ Hnext) as HF; rewrite List.Forall_forall in HF; by apply HF).
      unfold with_entry. destruct (a' =? a) eqn:E; [|done]. zb. subst. apply list_elem_of_In in Ha'. done. }
    exists r, v2. splits; [done|by apply table_only_trans with v'|].
    destruct H2 as [[-> H2]|(-> & Hrel & H2)]; [left|right].
    + split; [done|]. intros c' Hc'. rewrite H2 by (by apply (table_cluster _ _ _ T)).
      rewrite <- (without_cons (entry v) a). unfold without. destruct (bool_decide _); [done|]. by apply He.
    + splits; [done|done|]. intros c' Hc' Hni. rewrite H2; [|by apply (table_cluster _ _ _ T)|set_solver].
      rewrite He by done. unfold with_entry. destruct (c' =? a) eqn:E; [|done]. zb. subst. set_solver.
Qed.

(** The table with the entry of the previous cluster, if there is one, changed to [x]. *)
Definition with_prev (E : Z -> Z) (pclst x : Z) : Z -> Z :=
  if pclst =? 0 then E else with_entry E pclst x.

Lemma clipped_end v x : vol_ok v -> x = 0xFFFFFFFF -> clipped (fs v) x = end_of_chain (fs_type (fs v)).
Proof. intros Hv ->. unfold clipped, end_of_chain. destruct (vol_geo _ Hv) as [[E|[E|E]] _ _ _ _ _]; by rewrite E. Qed.

(** Ending the chain at the previous cluster. *)
Lemma put_prev v pclst x : vol_ok v -> pclst = 0 \/ cluster (fs v) pclst ->
  exists r v', (if negb (pclst =? 0) then put_fat pclst x else mret FR_OK) v = Some (r, v') /\
    table_only v v' /\ same (fs v) (fs v') /\
    (forall c, cluster (fs v) c -> c <> pclst -> entry v' c = entry v c) /\
    (r = FR_OK /\ (forall c, cluster (fs v) c -> entry v' c = with_prev (entry v) pclst (clipped (fs v) x) c) \/
     r = FR_DISK_ERR /\ ~ reliable D).
Proof.
  intros Hv Hp. unfold with_prev. destruct (pclst =? 0) eqn:E; zb; cbn [negb].
  - exists FR_OK, v. splits; [done|by apply table_only_refl|apply same_refl|done|by left].
  - destruct Hp as [?|Hp]; [lia|]. by apply put_step.
Qed.

Lemma clusters_bound v l : vol_ok v -> NoDup l -> Forall (fun a => 2 <= a < n_fatent (fs v)) l ->
  (length l <= Z.to_nat (n_fatent (fs v)))%nat.
Proof.
  intros Hv Hnd Hl. assert (Hs : l ⊆+ seqZ 2 (n_fatent (fs v) - 2)).
  { apply NoDup_submseteq; [done|]. intros a Ha. apply elem_of_seqZ.
    rewrite Forall_forall in Hl. specialize (Hl _ Ha). lia. }
  apply submseteq_length in Hs. rewrite length_seqZ in Hs. lia.
Qed.

(** C16: Removing a chain frees it and nothing else.  A chain of distinct clusters that
    ends is freed to its last cluster, and the chain it was cut from ends at the
    previous cluster; every other entry of the table and every sector outside of the
    table is as before.  If the drive fails, no cluster outside of the chain is
    touched. *)
Theorem remove_chain_frees v clst pclst l :
  vol_ok v -> 0 <= free_clst (fs v) -> linked (entry v) (n_fatent (fs v)) clst l -> NoDup l ->
  pclst = 0 \/ cluster (fs v) pclst /\ pclst ∉ l ->
  exists r v', remove_chain clst pclst v = Some (r, v') /\ table_only v v' /\
    (r = FR_OK /\ (forall c, cluster (fs v) c ->
        entry v' c = without (with_prev (entry v) pclst (end_of_chain (fs_type (fs v)))) l c) \/
     r = FR_DISK_ERR /\ ~ reliable D /\
       forall c, cluster (fs v) c -> c ∉ l -> c <> pclst -> entry v' c = entry v c).
Proof.
  intros Hv Hf Hl Hnd Hp. pose proof (linked_in _ _ _ _ Hl) as Hin.
  assert (Hc : cluster (fs v) clst) by (destruct l; [done|]; by destruct (linked_head _ _ _ _ _ Hl) as [-> ?]).
  unfold remove_chain. rewrite get_id_bind, (cluster_test _ _ Hc).
  destruct (put_prev v pclst 0xFFFFFFFF Hv) as (r & v1 & E1 & T1 & S1 & O1 & [[-> W1]|[-> Hrel]]);
    [tauto| |]; rewrite (st_bind_eq _ _ _ _ _ E1).
  2: { exists FR_DISK_ERR, v1. splits; [done|done|right]. splits; [done|done|]. intros c Hc' _ Hne. by apply O1. }
  rewrite Z.eqb_refl. cbn [negb]. destruct (same_fields _ _ S1) as (_ & _ & _ & _ & En & Ef & _).
  assert (Hother : forall a, In a l -> entry v1 a = entry v a).
  { intros a Ha%list_elem_of_In. rewrite Forall_forall in Hin. apply O1; [by apply Hin|]. intros ->.
    destruct Hp as [->|[_ Hp]]; [specialize (Hin _ Ha); lia|done]. }
  destruct (remove_linked (Z.to_nat (n_fatent (fs v))) l clst v1) as (r & v2 & E2 & T2 & H2);
    [by destruct T1|lia|rewrite En; by apply linked_ext with (entry v)|done|by apply clusters_bound|].
  exists r, v2. splits; [done|by apply table_only_trans with v1|]. rewrite (clipped_end v _ Hv eq_refl) in W1.
  destruct H2 as [[-> H2]|(-> & Hrel & H2)]; [left|right].
  - split; [done|]. intros c Hc'. rewrite H2 by (by apply (table_cluster _ _ _ T1)).
    unfold without. destruct (bool_decide _); [done|]. by apply W1.
  - splits; [done|done|]. intros c Hc' Hni Hne. rewrite H2; [by apply O1|by apply (table_cluster _ _ _ T1)|done].
Qed.

(** C18: Removing a chain always ends, also in a damaged table.  Wherever the links of
    the table lead, in a cycle or into free space, the loop ends: it writes nothing
    outside of the table, and unless the drive has failed every entry is as before or
    free (the previous cluster: as before, free or the end of a chain) and the count of
    free clusters is still exact. *)
Theorem remove_chain_ends v clst pclst :
  vol_ok v -> 0 <= free_clst (fs v) -> cluster (fs v) clst ->
  pclst = 0 \/ cluster (fs v) pclst /\ entry v pclst <> 0 ->
  exists r v', remove_chain clst pclst v = Some (r, v') /\ table_only v v' /\
    (r = FR_DISK_ERR /\ ~ reliable D \/
     (r = FR_OK \/ r = FR_INT_ERR) /\ (count_ok v -> count_ok v') /\
     forall c, cluster (fs v) c -> entry v' c = entry v c \/ entry v' c = 0 \/
       c = pclst /\ entry v' c = end_of_chain (fs_type (fs v))).
Proof.
  intros Hv Hf Hc Hp. unfold remove_chain. rewrite get_id_bind, (cluster_test _ _ Hc).
  destruct (put_prev v pclst 0xFFFFFFFF Hv) as (r & v1 & E1 & T1 & S1 & O1 & [[-> W1]|[-> Hrel]]);
    [tauto| |]; rewrite (st_bind_eq _ _ _ _ _ E1).
  2: { exists FR_DISK_ERR, v1. splits; [done|done|by left]. }
  rewrite Z.eqb_refl. cbn [negb]. destruct (same_fields _ _ S1) as (_ & _ & _ & _ & En & Ef & _).
  rewrite (clipped_end v _ Hv eq_refl) in W1. pose proof (to_ok _ _ T1) as Hv1. pose proof (free_bound _ Hv1).
  pose proof (n_fatent_small v Hv).
  destruct (remove_loop_ok (Z.to_nat (n_fatent (fs v))) clst v1) as (r & v2 & E2 & T2 & H2);
    [done|by apply (table_cluster _ _ _ T1)|lia|lia|].
  exists r, v2. splits; [done|by apply table_only_trans with v1|].
  destruct H2 as [H2|(Hr & Hc2 & H2)]; [by left|right]. splits; [done| |].
  - intros Hco. apply Hc2. revert Hco. unfold count_ok. rewrite En, Ef. enough (free v1 = free v) as -> by done.
    unfold with_prev in W1. destruct (pclst =? 0) eqn:E0; zb.
    + by apply free_ext.
    + destruct Hp as [?|[Hp Hne]]; [lia|]. rewrite (free_entry v v1 pclst _ Hv Hp En W1).
      replace (entry v pclst =? 0) with false by (symmetry; by apply Z.eqb_neq).
      replace (end_of_chain _ =? 0) with false; [cbn; lia|]. unfold end_of_chain. by repeat case_match.
  - intros c Hc'. destruct (H2 c) as [Hs|Hz]; [by apply (table_cluster _ _ _ T1)| |tauto].
    rewrite Hs, W1 by done. unfold with_prev, with_entry. destruct (pclst =? 0); [tauto|].
    destruct (c =? pclst) eqn:E; zb; tauto.
Qed.
End chain.
