(* ===== verification/FatCreate.v ===== *)
(** * FatCreate: creating and stretching a chain

    [create_chain] of FATFS/src/ff.c: the search for a free cluster goes once around the
    table, and what it finds becomes the new end of the chain. *)

From S2P Require Import Prelude FatWords Fat FatFacts FatChain.

Section create.
Context `{DL : DiskLaws D}.
Implicit Types v : Vol D.

(** ** The search *)

(** The end of a search among the clusters of [R]. *)
Definition searched v (R : Z -> Prop) (res : option (found * Vol D)) : Prop :=
  exists f v', res = Some (f, v') /\ kept v v' /\
    match f with
    | Found c => cluster (fs v) c /\ entry v c = 0
    | Return r => r = 0 /\ (forall c, R c -> entry v c <> 0) \/
                  r = 1 /\ (exists c, cluster (fs v) c /\ entry v c = 1) \/
                  r = DISK_ERROR /\ ~ reliable D
    end.

Lemma searched_weaken v (R R' : Z -> Prop) res : (forall c, R' c -> R c) -> searched v R res -> searched v R' res.
Proof.
  intros HR (f & v' & -> & K & Hf). exists f, v'. splits; [done|done|].
  destruct f; [done|]. destruct Hf as [[-> Hf]|Hf]; [left|by right]. split; [done|]. intros c Hc. by apply Hf, HR.
Qed.

(** A search that goes on after a used cluster. *)
Lemma searched_next v v1 c R res : vol_ok v -> kept v v1 -> entry v c <> 0 ->
  (forall a, R a -> cluster (fs v) a) ->
  searched v1 R res -> searched v (fun a => a = c \/ R a) res.
Proof.
  intros Hv K Hc HR (f & v' & -> & K' & Hf). exists f, v'. splits; [done|by apply kept_trans with v1|].
  pose proof (kept_table _ _ K) as T. destruct f as [ncl|r].
  - destruct Hf as [Hn He]. apply (table_cluster _ _ _ T) in Hn. by rewrite (kept_entry v v1) in He.
  - destruct Hf as [[-> Hf]|[[-> (a & Ha & He)]|Hf]]; [left|right; left|by right; right].
    + split; [done|]. intros a [->|Ha]; [done|]. rewrite <- (kept_entry v v1) by auto. by apply Hf.
    + apply (table_cluster _ _ _ T) in Ha. split; [done|]. exists a. by rewrite (kept_entry v v1) in He.
Qed.

(** One look at a cluster. *)
Lemma look v c scl (k : ST (Vol D) found) (R : Z -> Prop) : vol_ok v -> cluster (fs v) c ->
  (forall a, R a -> cluster (fs v) a) ->
  (c = scl -> forall a, R a -> False) ->
  (c <> scl -> entry v c <> 0 -> forall v1, kept v v1 -> searched v1 R (k v1)) ->
  searched v (fun a => a = c \/ R a)
    ((cs ← get_fat c;
      if cs =? 0 then mret (Found c)
      else if (cs =? 1) || (cs =? DISK_ERROR) then mret (Return cs)
      else if c =? scl then mret (Return 0) else k) v).
Proof.
  intros Hv Hc HR Hend Hk. destruct (get_step v c Hv Hc) as (v1 & K & [E|[E Hrel]]); rewrite (st_bind_eq _ _ _ _ _ E).
  2: { exists (Return DISK_ERROR), v1. splits; [done|done|]. by right; right. }
  destruct (entry v c =? 0) eqn:E0; zb; [exists (Found c), v1; by splits|].
  pose proof (entry_range v c Hv) as Hr.
  replace (entry v c =? DISK_ERROR) with false
    by (symmetry; apply Z.eqb_neq; revert Hr; unfold DISK_ERROR, end_of_chain; repeat case_match; lia).
  rewrite orb_false_r. destruct (entry v c =? 1) eqn:E1; zb.
  { exists (Return (entry v c)), v1. splits; [done|done|]. right; left. split; [done|]. by exists c. }
  destruct (c =? scl) eqn:Es; zb.
  { exists (Return 0), v1. splits; [done|done|]. left. split; [done|]. intros a [->|Ha]; [done|].
    exfalso. by apply (Hend Es a). }
  apply (searched_next v v1 c R); [done|done|done|done|]. by apply Hk.
Qed.

Lemma find_loop_step fuel scl ncl v : find_loop (S fuel) scl ncl v =
  (let ncl' := u32 (ncl + 1) in
   let wrapped := n_fatent (fs v) <=? ncl' in
   let ncl' := if wrapped then 2 else ncl' in
   (if wrapped && (scl <? ncl') then mret (Return 0) else
      cs ← get_fat ncl';
      if cs =? 0 then mret (Found ncl')
      else if (cs =? 1) || (cs =? DISK_ERROR) then mret (Return cs)
      else if ncl' =? scl then mret (Return 0) else find_loop fuel scl ncl') v).
Proof. cbn [find_loop]. unfold get. by rewrite st_get_bind. Qed.

(** After the wrap-around, up to the start. *)
Lemma find_second fuel scl ncl v : vol_ok v -> 2 <= ncl < scl -> scl < n_fatent (fs v) ->
  scl - ncl <= Z.of_nat fuel ->
  searched v (fun a => ncl < a <= scl) (find_loop fuel scl ncl v).
Proof.
  revert ncl v. induction fuel as [|fuel IH]; intros ncl v Hv Hn Hs Hf; [lia|].
  pose proof (n_fatent_small v Hv) as Hsm. rewrite find_loop_step. cbv zeta. rewrite u32_small by lia.
  replace (n_fatent (fs v) <=? ncl + 1) with false by (symmetry; apply Z.leb_gt; lia). cbn [andb].
  apply searched_weaken with (fun a => a = ncl + 1 \/ ncl + 1 < a <= scl); [lia|].
  apply look; [done|unfold cluster; lia|unfold cluster; lia|lia|]. intros Hne _ v1 K.
  pose proof (table_fatent _ _ (kept_table _ _ K)) as En. apply IH; [by destruct K|lia|lia|lia].
Qed.

(** From the start to the end of the table and around. *)
Lemma find_first fuel scl ncl v : vol_ok v -> 1 <= scl <= ncl -> ncl < n_fatent (fs v) ->
  n_fatent (fs v) - ncl + scl <= Z.of_nat fuel ->
  searched v (fun a => ncl < a < n_fatent (fs v) \/ 2 <= a <= scl) (find_loop fuel scl ncl v).
Proof.
  revert ncl v. induction fuel as [|fuel IH]; intros ncl v Hv Hn Hs Hf; [lia|].
  pose proof (n_fatent_small v Hv) as Hsm. rewrite find_loop_step. cbv zeta. rewrite u32_small by lia.
  destruct (n_fatent (fs v) <=? ncl + 1) eqn:Ew; zb; cbn [andb].
  - destruct (scl <? 2) eqn:E2; zb.
    { exists (Return 0), v. splits; [done|by apply kept_refl|]. left. split; [done|]. lia. }
    apply searched_weaken with (fun a => a = 2 \/ 2 < a <= scl); [lia|].
    apply look; [done|unfold cluster; lia|unfold cluster; lia|lia|]. intros Hne _ v1 K.
    pose proof (table_fatent _ _ (kept_table _ _ K)) as En. apply find_second; [by destruct K|lia|lia|lia].
  - apply searched_weaken with (fun a => a = ncl + 1 \/ (ncl + 1 < a < n_fatent (fs v) \/ 2 <= a <= scl)); [lia|].
    apply look; [done|unfold cluster; lia|unfold cluster; lia|lia|]. intros Hne _ v1 K.
    pose proof (table_fatent _ _ (kept_table _ _ K)) as En. rewrite <- En.
    apply IH; [by destruct K|lia|lia|lia].
Qed.

(** Once around the table from any start. *)
Lemma find_around scl v : vol_ok v -> 1 <= scl < n_fatent (fs v) ->
  searched v (cluster (fs v)) (find_loop (Z.to_nat (n_fatent (fs v))) scl scl v).
Proof.
  intros Hv Hs. eapply searched_weaken; [|apply find_first; [done|lia|lia|lia]].
  unfold cluster. lia.
Qed.

Lemma find_free_ok clst scl v : vol_ok v -> clst = 0 /\ 1 <= scl < n_fatent (fs v) \/ clst = scl /\ cluster (fs v) clst ->
  searched v (cluster (fs v)) (find_free clst scl v).
Proof.
  intros Hv Hs. pose proof (n_fatent_small v Hv) as Hsm. unfold find_free. rewrite get_id_bind.
  destruct (scl =? clst) eqn:E; zb.
  2: { destruct Hs as [[-> Hs]|[Hs _]]; [|congruence]. by apply find_around. }
  assert (Hc : cluster (fs v) clst) by (destruct Hs as [[-> Hs]|[_ Hs]]; [lia|done]). subst scl. unfold cluster in Hc.
  rewrite u32_small by lia. set (ncl := if n_fatent (fs v) <=? clst + 1 then 2 else clst + 1).
  assert (Hn : cluster (fs v) ncl) by (subst ncl; unfold cluster; zcase; lia).
  destruct (get_step v ncl Hv Hn) as (v1 & K & [E1|[E1 Hrel]]).
  2: { rewrite (st_bind_eq _ _ v (inl DISK_ERROR) v1) by (by rewrite (st_bind_eq _ _ _ _ _ E1)).
       exists (Return DISK_ERROR), v1. splits; [done|done|]. by right; right. }
  pose proof (entry_range v ncl Hv) as Hr.
  assert (Hde : (entry v ncl =? DISK_ERROR) = false)
    by (apply Z.eqb_neq; revert Hr; unfold DISK_ERROR, end_of_chain; repeat case_match; lia).
  destruct (Z.eq_dec (entry v ncl) 1) as [H1|H1].
  { rewrite (st_bind_eq _ _ v (inl 1) v1) by (rewrite (st_bind_eq _ _ _ _ _ E1), H1; done).
    exists (Return 1), v1. splits; [done|done|]. right; left. split; [done|]. by exists ncl. }
  destruct (Z.eq_dec (entry v ncl) 0) as [H0|H0].
  { rewrite (st_bind_eq _ _ v (inr (ncl, clst)) v1) by (rewrite (st_bind_eq _ _ _ _ _ E1), H0; done).
    exists (Found ncl), v1. unfold cluster in Hn. splits; [by ztest|done|unfold cluster; lia..|done]. }
  pose proof (kept_table _ _ K) as T. pose proof (table_fatent _ _ T) as En.
  set (last := last_clst (fs v1)). set (scl := if (2 <=? last) && (last <? n_fatent (fs v)) then last else clst).
  rewrite (st_bind_eq _ _ v (inr (0, scl)) v1).
  2: { rewrite (st_bind_eq _ _ _ _ _ E1), Hde. repeat ztest. cbn [orb negb]. unfold get. by rewrite st_get_bind. }
  cbv beta iota. rewrite Z.eqb_refl, <- En.
  assert (Hscl : 1 <= scl < n_fatent (fs v1)) by (rewrite En; subst scl; destruct (_ && _) eqn:Ea; zb; lia).
  pose proof K as (Hv1 & _).
  assert (Hcl : forall a, cluster (fs v1) a -> cluster (fs v) a) by (intros a; apply (table_cluster _ _ _ T)).
  eapply searched_weaken; [|apply (searched_next v v1 ncl (cluster (fs v1))); [done|done|done|done|by apply find_around]].
  intros a Ha. right. by apply (table_cluster _ _ _ T).
Qed.

(** ** The new end of the chain *)

Lemma clipped_small v x : vol_ok v -> 0 <= x < n_fatent (fs v) -> clipped (fs v) x = x.
Proof.
  intros Hv Hx. unfold clipped. apply Z.mod_small. destruct (vol_geo _ Hv) as [_ _ _ _ [_ Hn] _]. lia.
Qed.

(** The table with [ncl] at the end of the chain of [clst]. *)
Definition extended v (clst ncl : Z) : Z -> Z :=
  with_prev (with_entry (entry v) ncl (end_of_chain (fs_type (fs v)))) clst ncl.

Lemma link_cluster_ok v clst ncl : vol_ok v -> 0 <= free_clst (fs v) -> cluster (fs v) ncl -> entry v ncl = 0 ->
  clst = 0 \/ cluster (fs v) clst /\ entry v clst <> 0 -> count_ok v ->
  exists r v', link_cluster clst ncl v = Some (r, v') /\ table_only v v' /\
    (r = ncl /\ last_clst (fs v') = ncl /\ count_ok v' /\
       (forall c, cluster (fs v) c -> entry v' c = extended v clst ncl c) \/
     r = DISK_ERROR /\ ~ reliable D /\
       (forall c, cluster (fs v) c -> c <> ncl -> c <> clst -> entry v' c = entry v c)).
Proof.
  intros Hv Hf Hn He Hc Hcount. pose proof (n_fatent_small v Hv) as Hsm. unfold link_cluster.
  destruct (put_step v ncl 0xFFFFFFFF Hv Hn) as (r & v1 & E1 & T1 & S1 & O1 & [[-> W1]|[-> Hrel]]); rewrite (st_bind_eq _ _ _ _ _ E1).
  2: { exists DISK_ERROR, v1. splits; [done|done|right]. splits; [done|done|]. intros c ? ? _. by apply O1. }
  rewrite (clipped_end v _ Hv eq_refl) in W1. rewrite Z.eqb_refl. cbn [andb].
  pose proof (to_ok _ _ T1) as Hv1. destruct (same_fields _ _ S1) as (Et1 & _ & _ & _ & En1 & Ef1 & _).
  destruct (put_prev v1 clst ncl Hv1) as (r & v2 & E2 & T2 & S2 & O2 & [[-> W2]|[-> Hrel]]);
    [destruct Hc as [Hc|[Hc _]]; [by left|right; by apply (table_cluster _ _ _ T1)]| |]; rewrite (st_bind_eq _ _ _ _ _ E2).
  2: { exists DISK_ERROR, v2. splits; [done|by apply table_only_trans with v1|right]. splits; [done|done|].
       intros c Hc' Hne Hne'. rewrite O2; [by apply O1|by apply (table_cluster _ _ _ T1)|done]. }
  rewrite Z.eqb_refl, upd_bind.
  destruct (same_fields _ _ S2) as (_ & _ & _ & _ & En2 & Ef2 & _).
  set (f' := (if free_clst (fs v2) <=? u32 (n_fatent (fs v2) - 2) then (fs v2) <| free_clst ::= (fun n => u32 (n - 1)) |> else fs v2)
    <| last_clst := ncl |> <| fsi_flag ::= (fun f => Z.lor f 1) |>).
  destruct (counts_ok v2 f') as [T3 He3]; [by destruct T2|subst f'; destruct (fs v2); by zcase|].
  assert (T : table_only v (v2 <| fs := f' |>)).
  { apply table_only_trans with v1; [done|]. by apply table_only_trans with v2. }
  assert (W : forall c, cluster (fs v) c -> entry (v2 <| fs := f' |>) c = extended v clst ncl c).
  { intros c Hc'. rewrite He3, W2 by (by apply (table_cluster _ _ _ T1)). unfold extended, with_prev.
    replace (clipped (fs v1) ncl) with ncl by (symmetry; apply clipped_small; [done|unfold cluster in *; lia]).
    destruct (clst =? 0); [by apply W1|]. unfold with_entry at 1. unfold with_entry at 1.
    destruct (c =? clst); [done|]. by apply W1. }
  exists ncl, (v2 <| fs := f' |>). splits; [|done|left].
  { subst f'. destruct v2. done. }
  splits; [done|subst f'; destruct v2 as [[] ?]; done| |exact W].
  assert (Hfree : free (v2 <| fs := f' |>) = free v - 1).
  { assert (Heoc : (end_of_chain (fs_type (fs v)) =? 0) = false) by (unfold end_of_chain; by repeat case_match).
    rewrite <- (Z.add_0_r (free v - 1)).
    assert (Hf1 : free v1 = free v - 1) by (rewrite (free_entry v v1 ncl _ Hv Hn En1 W1), He, Heoc; cbn; lia).
    rewrite <- Hf1, Z.add_0_r. transitivity (free v2).
    - apply free_ext; [by destruct T2|exact (table_fatent _ _ T3)|]. intros. apply He3.
    - unfold with_prev in W2. destruct (clst =? 0) eqn:E0; zb; [by apply free_ext|].
      destruct Hc as [?|[Hc Hce]]; [lia|].
      rewrite (free_entry v1 v2 clst (clipped (fs v1) ncl)); [|done|by apply (table_cluster _ _ _ T1)|done|done].
      rewrite W1 by done. unfold with_entry. rewrite clipped_small by (unfold cluster in *; lia || done).
      destruct (clst =? ncl) eqn:Ec; zb; [congruence|].
      replace (entry v clst =? 0) with false by (symmetry; by apply Z.eqb_neq).
      replace (ncl =? 0) with false by (symmetry; apply Z.eqb_neq; unfold cluster in *; lia). cbn. lia. }
  pose proof (free_bound _ (to_ok _ _ T)) as Hb. rewrite (table_fatent _ _ T) in Hb.
  unfold count_ok in *. rewrite Hfree in *. rewrite (table_fatent _ _ T).
  assert (Hfc : free_clst (fs (v2 <| fs := f' |>)) =
    if free_clst (fs v) <=? n_fatent (fs v) - 2 then u32 (free_clst (fs v) - 1) else free_clst (fs v)).
  { rewrite <- Ef1, <- Ef2, <- En1, <- En2, <- (u32_small (n_fatent (fs v2) - 2)) by lia.
    subst f'. destruct v2 as [[] ?]; cbn. by zcase. }
  pose proof (free_bound v Hv). rewrite Hfc. destruct Hcount as [Hcount|Hcount]; [left|right]; ztest; [rewrite u32_small by lia|]; lia.
Qed.

Lemma zeros_none E lo n : zeros E lo n = 0 -> forall c, lo <= c < lo + Z.of_nat n -> E c <> 0.
Proof.
  revert lo. induction n as [|n IH]; intros lo Hz c Hc; [lia|]. cbn [zeros] in Hz.
  pose proof (zeros_bound E (lo + 1) n). unfold b2z in Hz. destruct (E lo =? 0) eqn:E0; zb; [lia|].
  destruct (Z.eq_dec c lo) as [->|Hne]; [done|]. apply (IH (lo + 1)); lia.
Qed.

Lemma free_none v : vol_ok v -> free v = 0 -> forall c, cluster (fs v) c -> entry v c <> 0.
Proof. intros Hv Hz c Hc. apply (zeros_none _ _ _ Hz). by apply cluster_range. Qed.

(** A table no entry of which is the reserved value. *)
Definition sane v : Prop := forall c, cluster (fs v) c -> entry v c <> 1.

(** What creating a cluster may end with. *)
Definition created v (clst : Z) (res : option (Z * Vol D)) : Prop :=
  exists r v', res = Some (r, v') /\ table_only v v' /\
    (cluster (fs v) r /\ entry v r = 0 /\ last_clst (fs v') = r /\ count_ok v' /\
       (forall c, cluster (fs v) c -> entry v' c = extended v clst r c) \/
     r = 0 /\ kept v v' /\ (forall c, cluster (fs v) c -> entry v c <> 0) \/
     r = DISK_ERROR /\ ~ reliable D /\
       (forall c, cluster (fs v) c -> entry v c <> 0 -> c <> clst -> entry v' c = entry v c)).

(** From the search on. *)
Lemma create_from v clst scl : vol_ok v -> sane v -> 0 <= free_clst (fs v) -> count_ok v ->
  clst = 0 /\ 1 <= scl < n_fatent (fs v) \/ clst = scl /\ cluster (fs v) clst /\ entry v clst <> 0 ->
  created v clst
    ((free ← get free_clst;
      if free =? 0 then mret 0 else
      r ← find_free clst scl;
      match r with Return r => mret r | Found ncl => link_cluster clst ncl end) v).
Proof.
  intros Hv Hsane Hf Hcount Hs. unfold get at 1. rewrite st_get_bind.
  destruct (free_clst (fs v) =? 0) eqn:E0; zb.
  { exists 0, v. splits; [done|by apply table_only_refl|right; left]. splits; [done|by apply kept_refl|]. intros c Hc.
    apply (free_none v Hv); [|done]. pose proof (n_fatent_small v Hv). destruct Hcount; lia. }
  destruct (find_free_ok clst scl v Hv) as (f & v1 & E1 & K & Hr); [tauto|]. rewrite (st_bind_eq _ _ _ _ _ E1).
  pose proof (kept_table _ _ K) as T1. destruct f as [ncl|r].
  2: { exists r, v1. splits; [done|done|]. destruct Hr as [[-> Hr]|[[-> (c & Hc & He)]|[-> Hrel]]].
       - right; left. by splits.
       - exfalso. by apply (Hsane c Hc).
       - right; right. splits; [done|done|]. intros c Hc _ _. by apply kept_entry. }
  destruct Hr as [Hn He]. pose proof K as (Hv1 & S1 & _).
  destruct (same_fields _ _ S1) as (Et1 & _ & _ & _ & En1 & Ef1 & _).
  assert (Hk : forall c, cluster (fs v) c -> entry v1 c = entry v c) by (intros; by apply kept_entry).
  destruct (link_cluster_ok v1 clst ncl) as (r & v2 & E2 & T2 & H2);
    [done|lia|by apply (table_cluster _ _ _ T1)|by rewrite Hk| |by apply (kept_count v)|].
  { destruct Hs as [[-> _]|(_ & Hc & Hce)]; [by left|right]. split; [by apply (table_cluster _ _ _ T1)|by rewrite Hk]. }
  exists r, v2. splits; [done|by apply table_only_trans with v1|].
  destruct H2 as [(-> & Hl & Hc2 & W)|(-> & Hrel & O)]; [left|right; right].
  - splits; [done|done|done|done|]. intros c Hc. rewrite W by (by apply (table_cluster _ _ _ T1)).
    unfold extended, with_prev, with_entry. rewrite Et1. destruct (clst =? 0); repeat zcase; try done; by apply Hk.
  - splits; [done|done|]. intros c Hc Hne Hne'. rewrite <- (Hk c Hc) in *.
    apply O; [by apply (table_cluster _ _ _ T1)| |done]. intros ->. by rewrite Hk in Hne.
Qed.

(** A table extended at its end: the chain is longer by the new cluster. *)
Lemma linked_extend v clst ncl h l : vol_ok v -> cluster (fs v) ncl -> entry v ncl = 0 ->
  linked (entry v) (n_fatent (fs v)) h (l ++ [clst]) -> NoDup (l ++ [clst]) ->
  linked (extended v clst ncl) (n_fatent (fs v)) h (l ++ [clst; ncl]).
Proof.
  intros Hv Hn He. pose proof (geo_count _ (vol_geo _ Hv)) as [_ Heoc].
  assert (Hnew : forall l h, linked (entry v) (n_fatent (fs v)) h (l ++ [clst]) -> ncl ∉ l ++ [clst]).
  { clear l h. induction l as [|a l IH]; intros h Hl Hin.
    - destruct Hl as (-> & ? & Hl). apply list_elem_of_singleton in Hin. subst. unfold cluster in Hn. lia.
    - assert (Hl' : h = a /\ linked (entry v) (n_fatent (fs v)) (entry v h) (l ++ [clst])).
      { cbn [app] in Hl. destruct (l ++ [clst]) as [|b m] eqn:E; [by destruct l|].
        apply linked_cons in Hl as (-> & _ & ?). done. }
      destruct Hl' as [-> Hl']. cbn [app] in Hin. apply elem_of_cons in Hin as [->|Hin]; [|by apply (IH _ Hl')].
      rewrite He in Hl'. destruct (l ++ [clst]) as [|b m] eqn:E; [by destruct l|].
      destruct (linked_head _ _ _ _ _ Hl') as [_ ?]. lia. }
  intros Hl Hnd. pose proof (Hnew _ _ Hl) as Hni. revert h Hl Hnd Hni. induction l as [|a l IH]; intros h Hl Hnd Hni; cbn [app] in *.
  - destruct Hl as (-> & Hc & _). assert (clst <> ncl) by set_solver.
    assert (E1 : extended v clst ncl clst = ncl).
    { unfold extended, with_prev. ztest. unfold with_entry. by rewrite Z.eqb_refl. }
    assert (E2 : extended v clst ncl ncl = end_of_chain (fs_type (fs v))).
    { unfold extended, with_prev. ztest. unfold with_entry. rewrite Z.eqb_refl. by ztest. }
    unfold cluster in Hn. apply linked_cons. rewrite E1. splits; [done|lia|lia|]. cbn. rewrite E2. lia.
  - apply NoDup_cons in Hnd as [Ha Hnd].
    assert (Hl' : h = a /\ 2 <= h < n_fatent (fs v) /\ linked (entry v) (n_fatent (fs v)) (entry v h) (l ++ [clst])).
    { destruct (l ++ [clst]) as [|b m] eqn:E; [by destruct l|]. by apply linked_cons in Hl. }
    destruct Hl' as (-> & Hr & Hl'). specialize (IH _ Hl' Hnd ltac:(set_solver)).
    assert (Ea : extended v clst ncl a = entry v a).
    { unfold extended, with_prev, with_entry. assert (a <> clst /\ a <> ncl) as [? ?] by set_solver.
      destruct (clst =? 0); repeat ztest; done. }
    destruct (l ++ [clst; ncl]) as [|b m] eqn:E; [by destruct l|]. apply linked_cons. by rewrite Ea.
Qed.

Definition can_create v (clst : Z) : Prop :=
  sane v /\ 0 <= free_clst (fs v) /\ count_ok v /\ 0 <= last_clst (fs v) /\
  (clst = 0 \/ cluster (fs v) clst /\ n_fatent (fs v) <= entry v clst).

Lemma create_chain_ok v clst : vol_ok v -> can_create v clst -> created v clst (create_chain clst v).
Proof.
  intros Hv (Hsane & Hf & Hcount & Hlast & Hc). pose proof (n_fatent_small v Hv) as Hsm.
  unfold create_chain. rewrite get_id_bind. destruct (clst =? 0) eqn:E0; zb.
  - subst clst. rewrite (st_bind_eq _ _ v _ v eq_refl). cbv beta iota. apply create_from; [done..|].
    left. split; [done|]. destruct (_ || _) eqn:E; zb; lia.
  - destruct Hc as [?|[Hc He]]; [done|]. pose proof (entry_range v clst Hv) as Hr.
    destruct (get_step v clst Hv Hc) as (v1 & K & [E1|[E1 Hrel]]).
    2: { rewrite (st_bind_eq _ _ v (inl DISK_ERROR) v1) by (by rewrite (st_bind_eq _ _ _ _ _ E1)).
         exists DISK_ERROR, v1. splits; [done|by apply kept_table|right; right]. splits; [done|done|].
         intros c Hc' _ _. by apply kept_entry. }
    rewrite (st_bind_eq _ _ v (inr clst) v1).
    2: { rewrite (st_bind_eq _ _ _ _ _ E1).
         replace (entry v clst =? DISK_ERROR) with false
           by (symmetry; apply Z.eqb_neq; revert Hr; unfold DISK_ERROR, end_of_chain; repeat case_match; lia).
         by repeat ztest. }
    cbv beta iota. pose proof (kept_table _ _ K) as T. pose proof K as (Hv1 & S & _).
    destruct (same_fields _ _ S) as (Et & _ & _ & _ & En & Ef & _).
    assert (Hk : forall c, cluster (fs v) c -> entry v1 c = entry v c) by (intros; by apply kept_entry).
    destruct (create_from v1 clst clst) as (r & v2 & E2 & T2 & H2);
      [done|intros c Hc'; rewrite Hk by (by apply (table_cluster _ _ _ T)); apply Hsane; by apply (table_cluster _ _ _ T)
      |lia|by apply (kept_count v)|right; splits; [done|by apply (table_cluster _ _ _ T)..|rewrite Hk by done; lia]|].
    exists r, v2. splits; [done|by apply table_only_trans with v1|].
    destruct H2 as [(Hr2 & He2 & Hl & Hc2 & W)|[(-> & O)|(-> & Hrel & O)]]; [left|right; left|right; right].
    + pose proof (proj1 (table_cluster _ _ r T) Hr2) as Hr1. splits; [done|by rewrite <- Hk|done|done|].
      intros c Hc'. rewrite W by (by apply (table_cluster _ _ _ T)).
      unfold extended, with_prev, with_entry. rewrite Et. destruct (clst =? 0); repeat zcase; try done; by apply Hk.
    + destruct O as [K2 O]. splits; [done|by apply kept_trans with v1|]. intros c Hc'. rewrite <- (Hk c Hc').
      apply O. by apply (table_cluster _ _ _ T).
    + splits; [done|done|]. intros c Hc' Hne Hne'. rewrite <- (Hk c Hc') in *. apply O; [by apply (table_cluster _ _ _ T)|done|done].
Qed.

(** A chain that ended at [clst] is then that chain and the new cluster. *)
Lemma create_chain_linked v clst r v' h l : vol_ok v -> can_create v clst ->
  create_chain clst v = Some (r, v') -> cluster (fs v) r ->
  linked (entry v) (n_fatent (fs v)) h (l ++ [clst]) -> NoDup (l ++ [clst]) ->
  linked (entry v') (n_fatent (fs v)) h (l ++ [clst; r]).
Proof.
  intros Hv Hcan E Hr Hl Hnd.
  destruct (create_chain_ok v clst Hv Hcan) as (r' & v2 & E' & T & H2). rewrite E in E'. injection E' as <- <-.
  destruct H2 as [(_ & He & _ & _ & W)|[[-> _]|[-> _]]]; [|unfold cluster in Hr; lia|unfold cluster, DISK_ERROR in Hr; pose proof (n_fatent_small v Hv); lia].
  pose proof (linked_extend v clst r h l Hv Hr He Hl Hnd) as Hx. refine (linked_ext _ _ _ _ _ _ Hx).
  intros a Ha. apply W. pose proof (linked_in _ _ _ _ Hx) as HF. rewrite List.Forall_forall in HF. exact (HF _ Ha).
Qed.

(** C17: Creating a cluster.  On a table without reserved values and with an exact count,
    a new chain or the end of an existing one gets a free cluster: it becomes the end of
    the chain, the count stays exact, and every other entry and every sector outside
    of the table is as before; a chain that ended at [clst] is then that chain and the
    new cluster.  Zero is answered only when no cluster is free, and a failing drive
    damages no cluster in use but [clst]. *)
Theorem create_chain_spec v clst : vol_ok v -> can_create v clst ->
  created v clst (create_chain clst v) /\
  forall r v' h l, create_chain clst v = Some (r, v') -> cluster (fs v) r ->
    linked (entry v) (n_fatent (fs v)) h (l ++ [clst]) -> NoDup (l ++ [clst]) ->
    linked (entry v') (n_fatent (fs v)) h (l ++ [clst; r]).
Proof.
  intros Hv Hcan. split; [by apply create_chain_ok|]. intros r v' h l. by apply create_chain_linked.
Qed.
End create.
