(* ===== verification/FatWindow.v ===== *)
(** * FatWindow: where the window goes

    The operations on the table move the window to sectors of the table only, and end
    there when they succeed: a small logic of the sector under the window ([moves]),
    used to show that the data sectors of a file never come under it. *)

From S2P Require Import Prelude FatWords Blocks Fat FatFacts FatChain FatCreate.

Definition in_table (f : FATFS) (s : Z) : Prop := fatbase f <= s < fatbase f + fsize f.

Section window.
Context `{DL : DiskLaws D}.
Variable f0 : FATFS.
Hypothesis Hgeo : geometry_ok f0.
Implicit Types (P : Z -> Prop) (v : Vol D).

(** [m] keeps the geometry and takes the window from a sector of [P] to one of [Q]. *)
Definition moves {A} P (m : ST (Vol D) A) (Q : A -> Z -> Prop) : Prop :=
  forall v x v', stable f0 (fs v) -> P (winsect (fs v)) -> m v = Some (x, v') ->
    stable f0 (fs v') /\ Q x (winsect (fs v')).

Lemma moves_ret {A} P (x : A) (Q : A -> Z -> Prop) : (forall w, P w -> Q x w) -> moves P (mret x) Q.
Proof. intros HQ v y v' Hs Hp [= <- <-]. auto. Qed.

Lemma moves_bind {A B} P (m : ST (Vol D) A) (k : A -> ST (Vol D) B) Q R :
  moves P m Q -> (forall x, moves (Q x) (k x) R) -> moves P (m ≫= k) R.
Proof.
  intros Hm Hk v y v' Hs Hp E. apply st_bind_Some in E as (x & v1 & E1 & E2).
  destruct (Hm _ _ _ Hs Hp E1) as [Hs1 Hq]. by apply (Hk x _ _ _ Hs1 Hq).
Qed.

Lemma moves_weaken {A} P P' (m : ST (Vol D) A) (Q Q' : A -> Z -> Prop) :
  moves P' m Q' -> (forall w, P w -> P' w) -> (forall x w, Q' x w -> Q x w) -> moves P m Q.
Proof. intros Hm HP HQ v x v' Hs Hp E. destruct (Hm _ _ _ Hs (HP _ Hp) E). auto. Qed.

(** Reading the volume object. *)
Lemma moves_get {A B} P (g : FATFS -> A) (k : A -> ST (Vol D) B) Q :
  (forall f, stable f0 f -> moves P (k (g f)) Q) -> moves P (get g ≫= k) Q.
Proof. intros Hk v y v' Hs Hp E. unfold get in E. rewrite st_get_bind in E. by apply (Hk (fs v) Hs v). Qed.

(** A step that leaves the geometry and the place of the window alone. *)
Lemma moves_still {A} P (m : ST (Vol D) A) :
  (forall v x v', m v = Some (x, v') -> stable (fs v) (fs v') /\ winsect (fs v') = winsect (fs v)) ->
  moves P m (fun _ => P).
Proof.
  intros Hm v x v' Hs Hp E. destruct (Hm _ _ _ E) as [Hs' ->]. split; [|done]. by apply stable_trans with (fs v).
Qed.

Lemma moves_upd P (g : FATFS -> FATFS) : (forall f, stable f (g f) /\ winsect (g f) = winsect f) ->
  moves P (upd g) (fun _ => P).
Proof. intros Hg. apply moves_still. intros v x v' [= _ <-]. destruct v as [f d]. apply Hg. Qed.

Lemma moves_st_opt {A} P (o : option A) : moves P (st_opt o) (fun _ => P).
Proof.
  apply moves_still. unfold st_opt. intros v x v' E. destruct o; [|done]. injection E as <- <-. by split.
Qed.

Lemma moves_on_dev {A} P (m : ST D A) : moves P (on_dev m) (fun _ => P).
Proof.
  apply moves_still. unfold on_dev. intros v x v' E. destruct (m (dev v)) as [[y d]|]; [|done].
  injection E as <- <-. by destruct v.
Qed.

Lemma moves_when P (b : bool) (m : ST (Vol D) unit) : moves P m (fun _ => P) -> moves P (when b m) (fun _ => P).
Proof. intros Hm. destruct b; [done|]. by apply moves_ret. Qed.

Lemma moves_if {A} P (b : bool) (m m' : ST (Vol D) A) Q : moves P m Q -> moves P m' Q -> moves P (if b then m else m') Q.
Proof. by destruct b. Qed.

Ltac steps :=
  repeat first
    [ apply moves_get; intros ? ?
    | apply moves_ret; tauto
    | eapply moves_bind; [first [apply moves_st_opt | apply moves_on_dev | apply moves_upd; intros []; by split]|intros ?; cbv beta]
    | apply moves_if ].

Lemma moves_sync_window P : moves P sync_window (fun _ => P).
Proof.
  unfold sync_window. steps. eapply moves_bind; [apply moves_when|intros ?; by apply moves_ret].
  eapply moves_bind; [apply moves_on_dev|intros ?; by apply moves_ret].
Qed.

(** The window is on the sector if the move succeeded. *)
Lemma moves_move_window P s :
  moves P (move_window s) (fun r w => r = FR_OK /\ w = s \/ r <> FR_OK /\ (P w \/ w = NO_SECTOR)).
Proof.
  unfold move_window. intros v x v' Hs Hp E. unfold get in E. rewrite st_get_bind in E.
  destruct (s =? winsect (fs v)) eqn:Ew; zb; cbn [negb] in E.
  { injection E as <- <-. split; [done|]. by left. }
  apply st_bind_Some in E as (r & v1 & E1 & E). destruct (moves_sync_window P _ _ _ Hs Hp E1) as [Hs1 Hp1].
  destruct (r =? FR_OK) eqn:Er; zb; cbv beta iota in E.
  2: { injection E as <- <-. split; [done|]. right. tauto. }
  rewrite st_get_bind in E. apply st_bind_Some in E as ([r' b] & v2 & E2 & E).
  destruct (moves_on_dev P _ _ _ _ Hs1 Hp1 E2) as [Hs2 Hp2]. cbv beta iota in E. rewrite upd_bind in E.
  assert (Hg : forall w, stable f0 (fs (v2 <| fs ::= set win (fun _ => b) |> <| fs ::= set winsect (fun _ => w) |>)) /\
    winsect (fs (v2 <| fs ::= set win (fun _ => b) |> <| fs ::= set winsect (fun _ => w) |>)) = w).
  { intros w. destruct v2 as [[] d]. split; [exact Hs2|done]. }
  destruct (r' =? RES_OK) eqn:Er'; zb; cbn [negb] in E; rewrite upd_bind in E; injection E as <- <-;
    (split; [apply Hg|]).
  - left. split; [done|apply Hg].
  - right. split; [done|]. right. apply Hg.
Qed.

(** Where the window may be that started at [w0]. *)
Definition roams (w0 w : Z) : Prop := w = w0 \/ w = NO_SECTOR \/ in_table f0 w.

Lemma moves_to_table w0 s : in_table f0 s ->
  moves (roams w0) (move_window s) (fun r w => roams w0 w /\ (r = FR_OK -> in_table f0 w)).
Proof.
  intros Hs. eapply moves_weaken; [by apply (moves_move_window (roams w0))|done|].
  intros r w [[-> ->]|[Hr [Hw| ->]]].
  - split; [right; by right|done].
  - by split.
  - split; [right; by left|done].
Qed.

Lemma table_at f bc k : stable f0 f -> in_fat f0 k -> bc = k -> in_table f0 (u32 (fatbase f + bc / SS)).
Proof.
  intros Hs Hk ->. destruct (stable_fields _ _ Hs) as (_ & _ & -> & _).
  destruct (fat_sector _ _ Hgeo Hk) as [-> _]. unfold in_table, in_fat, SS in *. divs.
Qed.

Lemma stable_test f c : stable f0 f -> (c <? 2) || (n_fatent f <=? c) = false -> cluster f0 c.
Proof. intros Hs Hc. destruct (stable_fields _ _ Hs) as (_ & _ & _ & _ & E). unfold cluster. rewrite <- E. zb. lia. Qed.

Lemma table12 f c : stable f0 f -> cluster f0 c -> fs_type f = FS_FAT12 ->
  in_table f0 (u32 (fatbase f + u32 (c + c / 2) / SS)) /\
  in_table f0 (u32 (fatbase f + u32 (u32 (c + c / 2) + 1) / SS)).
Proof.
  intros Hs Hc Ht. destruct (stable_fields _ _ Hs) as (Et & _). rewrite Et in Ht.
  destruct (cluster_bytes _ _ Hgeo Hc) as (Hsm & Hb & _). destruct (Hb Ht) as [H1 H2]. unfold cluster in Hc.
  rewrite (u32_small (c + c / 2)), (u32_small (c + c / 2 + 1)) by divs.
  split; [by apply (table_at _ _ (c + c / 2))|by apply (table_at _ _ (c + c / 2 + 1))].
Qed.

Lemma table16_at f c : stable f0 f -> cluster f0 c -> fs_type f = FS_FAT16 -> in_table f0 (u32 (fatbase f + c / (SS / 2))).
Proof.
  intros Hs Hc Ht. destruct (stable_fields _ _ Hs) as (Et & _). rewrite Et in Ht.
  destruct (cluster_bytes _ _ Hgeo Hc) as (Hsm & _ & Hb & _). destruct (Hb Ht) as [H1 _].
  replace (c / (SS / 2)) with (2 * c / SS) by (unfold SS; change (512 / 2) with 256; divs).
  by apply (table_at _ _ (2 * c)).
Qed.

Lemma table32_at f c : stable f0 f -> cluster f0 c -> fs_type f = FS_FAT32 -> in_table f0 (u32 (fatbase f + c / (SS / 4))).
Proof.
  intros Hs Hc Ht. destruct (stable_fields _ _ Hs) as (Et & _). rewrite Et in Ht.
  destruct (cluster_bytes _ _ Hgeo Hc) as (Hsm & _ & _ & Hb). destruct (Hb Ht) as [H1 _].
  replace (c / (SS / 4)) with (4 * c / SS) by (unfold SS; change (512 / 4) with 128; divs).
  by apply (table_at _ _ (4 * c)).
Qed.

(** ** The operations on the table *)

(** A sector of the table is fetched, then [k] runs on it. *)
Lemma moves_fetch {A} (P : Z -> Prop) w0 s (bad k : Z -> ST (Vol D) A) Q : in_table f0 s ->
  (forall w, P w -> roams w0 w) ->
  (forall r, r <> FR_OK -> moves (roams w0) (bad r) Q) -> moves (in_table f0) (k FR_OK) Q ->
  moves P (r ← move_window s; if negb (r =? FR_OK) then bad r else k r) Q.
Proof.
  intros Hs HP Hbad Hk. eapply moves_bind.
  { eapply moves_weaken; [by apply (moves_to_table w0)|exact HP|]. intros r w Hw. exact Hw. }
  intros r. destruct (r =? FR_OK) eqn:Er; zb; cbn [negb].
  - subst r. eapply moves_weaken; [exact Hk|by intros w [_ Hw]; apply Hw|done].
  - eapply moves_weaken; [by apply Hbad|by intros w [Hw _]|done].
Qed.

(** After a success the window is in the table. *)
Definition landed (w0 : Z) (ok : Prop) (w : Z) : Prop := roams w0 w /\ (ok -> in_table f0 w).

Lemma landed_in w0 (ok : Prop) w : in_table f0 w -> landed w0 ok w.
Proof. intros Hw. split; [right; by right|done]. Qed.

Lemma moves_win_get P o : moves P (win_get o) (fun _ => P).
Proof. unfold win_get. apply moves_get. intros. apply moves_st_opt. Qed.

Lemma moves_win_set P o x : moves P (win_set o x) (fun _ => P).
Proof.
  unfold win_set. apply moves_get. intros. eapply moves_bind; [apply moves_st_opt|intros ?].
  apply moves_upd. by intros [].
Qed.

Ltac quiet := first
  [ apply moves_win_get | apply moves_win_set | apply moves_st_opt | apply moves_on_dev
  | apply moves_upd; by intros [] ].

(** Reads a sector of the table, with no effect on where the window is. *)
Ltac read_out :=
  repeat first
    [ apply moves_get; intros ? _
    | apply moves_ret; intros ? ?; by apply landed_in
    | eapply moves_bind; [quiet|intros ?; cbv beta] ].

Ltac fetch H := eapply moves_fetch; [exact H| | |].

Lemma moves_bad w0 (x : Z) (ok : Z -> Prop) : ~ ok x -> moves (roams w0) (mret x) (fun x => landed w0 (ok x)).
Proof. intros Hx. apply moves_ret. intros w Hw. by split. Qed.

Lemma moves_get_fat w0 c : moves (roams w0) (get_fat c) (fun x => landed w0 (x <> 1 /\ x <> DISK_ERROR)).
Proof.
  unfold get_fat. apply moves_get. intros f Hf. unfold id.
  destruct ((c <? 2) || (n_fatent f <=? c)) eqn:Ec.
  { apply (moves_bad w0 _ (fun x => x <> 1 /\ x <> DISK_ERROR)). tauto. }
  pose proof (stable_test _ _ Hf Ec) as Hc.
  assert (Hbad : forall (r : Z) x, r <> FR_OK -> x = DISK_ERROR ->
    moves (roams w0) (mret x) (fun x => landed w0 (x <> 1 /\ x <> DISK_ERROR))).
  { intros r x _ ->. apply (moves_bad w0 _ (fun x => x <> 1 /\ x <> DISK_ERROR)). tauto. }
  destruct (fs_type f =? FS_FAT12) eqn:E12; zb.
  { destruct (table12 f c Hf Hc E12) as [T1 T2]. fetch T1; [done|intros r ?; by apply (Hbad r)|].
    eapply moves_bind; [quiet|intros wc; cbv beta zeta].
    fetch T2; [intros w Hw; right; by right|intros r ?; by apply (Hbad r)|]. read_out. }
  destruct (fs_type f =? FS_FAT16) eqn:E16; zb.
  { fetch (table16_at f c Hf Hc E16); [done|intros r ?; by apply (Hbad r)|].
    apply moves_get. intros f1 _. eapply moves_weaken; [apply moves_st_opt|done|]. intros ? ? ?. by apply landed_in. }
  destruct (fs_type f =? FS_FAT32) eqn:E32; zb.
  { fetch (table32_at f c Hf Hc E32); [done|intros r ?; by apply (Hbad r)|]. read_out. }
  exfalso. destruct (stable_fields _ _ Hf) as (Et & _). destruct Hgeo as [Ht _ _ _ _ _]. rewrite Et in *. tauto.
Qed.

Lemma moves_put_fat w0 c x : moves (roams w0) (put_fat c x) (fun r => landed w0 (r = FR_OK)).
Proof.
  unfold put_fat. apply moves_get. intros f Hf. unfold id.
  destruct (negb _) eqn:Ec; [by apply (moves_bad w0 _ (fun r => r = FR_OK))|].
  assert (Hc : cluster f0 c).
  { apply (stable_test f); [done|]. apply negb_false_iff, andb_true_iff in Ec as [H1 H2]. zb. apply orb_false_iff. split; [apply Z.ltb_ge|apply Z.leb_gt]; lia. }
  assert (Hbad : forall r, r <> FR_OK -> moves (roams w0) (mret r) (fun r => landed w0 (r = FR_OK)))
    by (intros; by apply (moves_bad w0 _ (fun r => r = FR_OK))).
  destruct (fs_type f =? FS_FAT12) eqn:E12; zb.
  { destruct (table12 f c Hf Hc E12) as [T1 T2]. fetch T1; [done|exact Hbad|].
    eapply moves_bind; [quiet|intros p; cbv beta]. eapply moves_bind; [quiet|intros ?; cbv beta].
    eapply moves_bind; [quiet|intros ?; cbv beta].
    fetch T2; [intros w Hw; right; by right|exact Hbad|]. read_out. }
  destruct (fs_type f =? FS_FAT16) eqn:E16; zb.
  { fetch (table16_at f c Hf Hc E16); [done|exact Hbad|]. read_out. }
  destruct (fs_type f =? FS_FAT32) eqn:E32; zb.
  { fetch (table32_at f c Hf Hc E32); [done|exact Hbad|]. read_out. }
  by apply (moves_bad w0 _ (fun r => r = FR_OK)).
Qed.

(** What a search may end with. *)
Definition sought (w0 : Z) (r : found) (w : Z) : Prop :=
  roams w0 w /\ match r with Return x => x < 2 \/ x = DISK_ERROR | Found _ => True end.

Lemma moves_find_loop w0 fuel scl ncl : moves (roams w0) (find_loop fuel scl ncl) (sought w0).
Proof.
  revert ncl. induction fuel as [|fuel IH]; intros ncl; [by intros ? ? ? ? ?|]. cbn [find_loop].
  apply moves_get. intros f _. cbv zeta.
  apply moves_if; [apply moves_ret; intros w Hw; split; [done|by left]|].
  eapply moves_bind; [apply moves_get_fat|]. intros cs.
  eapply moves_weaken with (P' := roams w0); [|by intros w [Hw _]|exact (fun _ _ Hw => Hw)].
  destruct (cs =? 0); [by apply moves_ret|]. destruct ((cs =? 1) || _) eqn:E; zb.
  { apply moves_ret. intros w Hw. split; [done|]. destruct E; zb; [left; lia|by right]. }
  apply moves_if; [apply moves_ret; intros w Hw; split; [done|by left]|apply IH].
Qed.

Lemma moves_find_free w0 clst scl : moves (roams w0) (find_free clst scl) (sought w0).
Proof.
  unfold find_free. apply moves_get. intros f _. unfold id.
  eapply moves_bind with (Q := fun x w => roams w0 w /\ match x with inl r => r < 2 \/ r = DISK_ERROR | inr _ => True end).
  - apply moves_if; [|by apply moves_ret]. cbv zeta. eapply moves_bind; [apply moves_get_fat|]. intros cs.
    eapply moves_weaken with (P' := roams w0); [|by intros w [Hw _]|exact (fun _ _ Hw => Hw)].
    destruct ((cs =? 1) || _) eqn:E.
    + apply moves_ret. intros w Hw. split; [done|]. zb. destruct E; zb; [left; lia|by right].
    + apply moves_if; [|by apply moves_ret]. apply moves_get. intros. by apply moves_ret.
  - intros [r|[ncl scl']]; [by apply moves_ret|].
    eapply moves_weaken with (P' := roams w0); [|by intros w [Hw _]|exact (fun _ _ Hw => Hw)].
    apply moves_if; [apply moves_find_loop|by apply moves_ret].
Qed.

Lemma moves_link_cluster w0 clst ncl : moves (roams w0) (link_cluster clst ncl) (fun x => landed w0 (cluster f0 x)).
Proof.
  assert (Hbig : ~ cluster f0 DISK_ERROR /\ ~ cluster f0 1).
  { unfold cluster, DISK_ERROR. destruct Hgeo as [_ _ _ _ [_ Hn] _]. revert Hn. unfold end_of_chain. repeat case_match; lia. }
  unfold link_cluster. eapply moves_bind; [apply moves_put_fat|]. intros res.
  eapply moves_bind with (Q := fun r => landed w0 (r = FR_OK)).
  - destruct (_ && _) eqn:E.
    + eapply moves_weaken; [apply moves_put_fat|by intros w [Hw _]|exact (fun _ _ Hw => Hw)].
    + apply moves_ret. by intros w Hw.
  - intros res'. destruct (res' =? FR_OK) eqn:E; zb.
    + eapply moves_bind.
      { apply moves_upd. intros f. split; [|by zcase; destruct f]. zcase; by destruct f. }
      intros ?. apply moves_ret. intros w [_ Hw]. by apply landed_in, Hw.
    + apply moves_ret. intros w [Hw _]. split; [done|]. zcase; tauto.
Qed.

(** A cluster is answered with the window in the table. *)
Lemma moves_create_chain w0 clst : moves (roams w0) (create_chain clst) (fun x => landed w0 (cluster f0 x)).
Proof.
  assert (Hbig : forall x, x < 2 \/ x = DISK_ERROR -> ~ cluster f0 x).
  { intros x. unfold cluster, DISK_ERROR. destruct Hgeo as [_ _ _ _ [_ Hn] _]. revert Hn. unfold end_of_chain. repeat case_match; lia. }
  unfold create_chain. apply moves_get. intros f _. unfold id.
  eapply moves_bind with (Q := fun st w => match st with inl x => landed w0 (cluster f0 x) w | inr _ => roams w0 w end).
  - apply moves_if; [by apply moves_ret|]. eapply moves_bind; [apply moves_get_fat|]. intros cs.
    apply moves_ret. intros w [Hw Ht]. repeat zcase; try done; (split; [done|intros Hc]); [by apply Hbig in Hc; [|lia]| |].
    + by apply Hbig in Hc; [|right].
    + apply Ht. unfold cluster in Hc. lia.
  - intros [x|scl]; [by apply moves_ret|]. apply moves_get. intros n _. apply moves_if.
    { apply moves_ret. intros w Hw. split; [done|]. intros Hc. by apply Hbig in Hc; [|lia]. }
    eapply moves_bind; [apply moves_find_free|]. intros [ncl|r].
    { eapply moves_weaken; [apply (moves_link_cluster w0)|by intros w [Hw _]|exact (fun _ _ Hw => Hw)]. }
    apply moves_ret. intros w [Hw Hr]. split; [done|]. intros Hc. by apply Hbig in Hc.
Qed.
End window.
