(* ===== verification/File.v ===== *)
(** * File: an open file of the file system

    The functions of FATFS/src/ff.c on an open file: [validate], [f_read], [f_write],
    [f_sync], [f_close], [f_lseek] with the cluster link map ([clmt_clust]), and
    [f_truncate].  A file reads and writes the volume through the chain of its clusters
    and a buffer of one sector of its own.  Opening a file by its path is not part of
    the model: the file object is given. *)

From S2P Require Import Prelude FatWords Blocks Fat.

(** ** Data *)

(** A file object; [obj_fs] tells whether it points to the volume, [dir_ptr] is an
    offset in the window, and [cltbl] is the memory at the link map table. *)
Record FIL := MkFIL {
  obj_fs : bool;
  obj_id : Z;
  sclust : Z;
  objsize : Z;
  flag : Z;
  err : Z;
  fptr : Z;
  clust : Z;
  sect : Z;
  dir_sect : Z;
  dir_ptr : Z;
  cltbl : option (list Z);
  buf : list Z
}.
#[export] Instance FIL_settable : Settable FIL :=
  fun r => MkFIL (obj_fs r) (obj_id r) (sclust r) (objsize r) (flag r) (err r) (fptr r) (clust r)
    (sect r) (dir_sect r) (dir_ptr r) (cltbl r) (buf r).

Definition FA_READ : Z := 0x01.
Definition FA_WRITE : Z := 0x02.
Definition FA_MODIFIED : Z := 0x40.
Definition FA_DIRTY : Z := 0x80.

Definition FR_DENIED : Z := 7.
Definition FR_INVALID_OBJECT : Z := 9.
Definition FR_NOT_ENOUGH_CORE : Z := 17.

Definition CREATE_LINKMAP : Z := 0xFFFFFFFF.

Definition AM_ARC : Z := 0x20.
Definition DIR_Attr : Z := 11.
Definition DIR_LstAccDate : Z := 18.
Definition DIR_FstClusHI : Z := 20.
Definition DIR_ModTime : Z := 22.
Definition DIR_FstClusLO : Z := 26.
Definition DIR_FileSize : Z := 28.

(** The board has no clock: [get_fattime] of diskio.c. *)
Definition get_fattime : Z := 0.

(** A mounted volume with its mount number, and an open file. *)
Record FileSys (D : Type) := MkFileSys { vol : Vol D; fs_id : Z; file : FIL }.
Arguments MkFileSys {D} _ _ _.
Arguments vol {D} _.
Arguments fs_id {D} _.
Arguments file {D} _.
#[export] Instance FileSys_settable D : Settable (FileSys D) :=
  fun r => MkFileSys (vol r) (fs_id r) (file r).

Section file.
Context `{Disk D}.

Definition fil {A} (f : FIL -> A) : ST (FileSys D) A := st_get (fun s => f (file s)).
Definition upd_fil (f : FIL -> FIL) : ST (FileSys D) unit := st_mod (set file f).
Definition fatfs {A} (f : FATFS -> A) : ST (FileSys D) A := st_get (fun s => f (fs (vol s))).
Definition on_vol {A} (m : ST (Vol D) A) : ST (FileSys D) A := fun s =>
  '(x, v) ← m (vol s); Some (x, s <| vol := v |>).

(** [fp->flag & bit]. *)
Definition has (bit flags : Z) : bool := negb (Z.land flags bit =? 0).
Definition clear (bit flags : Z) : Z := Z.land flags (0xFF - bit).

(** ** Common parts *)

Definition validate : ST (FileSys D) Z :=
  fp ← fil id; id' ← st_get fs_id; fs ← fatfs id;
  if obj_fs fp && negb (fs_type fs =? 0) && (obj_id fp =? id') then
    stat ← on_vol (on_dev (disk_status (pdrv fs)));
    mret (if negb (has STA_NOINIT stat) then FR_OK else FR_INVALID_OBJECT)
  else mret FR_INVALID_OBJECT.

Definition ABORT (res : Z) : ST (FileSys D) Z :=
  _ ← upd_fil (set err (fun _ => u8 res)); mret res.

(** Both checks of an operation on a file: the object and its abort flag. *)
Definition check : ST (FileSys D) Z :=
  res ← validate;
  if negb (res =? FR_OK) then mret res else fil err.

(** The dirty buffer is written back. *)
Definition flush : ST (FileSys D) Z :=
  fp ← fil id;
  if has FA_DIRTY (flag fp) then
    fs ← fatfs id;
    r ← on_vol (on_dev (disk_write (pdrv fs) (buf fp) (sect fp) 1));
    if negb (r =? RES_OK) then mret FR_DISK_ERR
    else _ ← upd_fil (set flag (clear FA_DIRTY)); mret FR_OK
  else mret FR_OK.

(** Sector [s] is read into the buffer. *)
Definition fill (s : Z) : ST (FileSys D) Z :=
  fs ← fatfs id; b ← fil buf;
  '(r, b) ← on_vol (on_dev (disk_read (pdrv fs) b s 1));
  _ ← upd_fil (set buf (fun _ => b));
  mret (if negb (r =? RES_OK) then FR_DISK_ERR else FR_OK).

(** The buffer holds sector [s]. *)
Definition load (s : Z) : ST (FileSys D) Z :=
  cur ← fil sect;
  res ← (if negb (cur =? s) then
           res ← flush;
           if negb (res =? FR_OK) then mret res else fill s
         else mret FR_OK);
  if negb (res =? FR_OK) then ABORT FR_DISK_ERR
  else _ ← upd_fil (set sect (fun _ => s)); mret FR_OK.

(** The loop of [clmt_clust] from item [k] of the table. *)
Fixpoint clmt_loop (fuel : nat) (tbl : list Z) (k cl : Z) : option Z :=
  match fuel with
  | O => None
  | S fuel' =>
      ncl ← tbl.[k];
      if ncl =? 0 then Some 0
      else if cl <? ncl then top ← tbl.[k + 1]; Some (u32 (cl + top))
      else clmt_loop fuel' tbl (k + 2) (u32 (cl - ncl))
  end.

Definition clmt_clust (tbl : list Z) (csize ofs : Z) : option Z :=
  clmt_loop (length tbl) tbl 1 (ofs / SS / csize).

(** ** Reading *)

(** The cluster of the file pointer, on a cluster boundary. *)
Definition read_cluster : ST (FileSys D) Z :=
  fp ← fil id; fs ← fatfs id;
  if fptr fp =? 0 then mret (sclust fp)
  else match cltbl fp with
       | Some tbl => st_opt (clmt_clust tbl (csize fs) (fptr fp))
       | None => on_vol (get_fat (clust fp))
       end.

Definition enter_cluster (clst : Z) : ST (FileSys D) Z :=
  if clst <? 2 then ABORT FR_INT_ERR
  else if clst =? DISK_ERROR then ABORT FR_DISK_ERR
  else _ ← upd_fil (set clust (fun _ => clst)); mret FR_OK.

(** As many sectors as possible read directly to [rbuff] at [off]: the result, the bytes
    transferred and the memory. *)
Definition read_direct (sector csect btr : Z) (rbuff : list Z) (off : Z) : ST (FileSys D) (Z * Z * list Z) :=
  fs ← fatfs id;
  let cc := btr / SS in
  let cc := if csize fs <? u32 (csect + cc) then u32 (csize fs - csect) else cc in
  b ← st_opt (peek rbuff off (SS * cc));
  '(r, b) ← on_vol (on_dev (disk_read (pdrv fs) b sector cc));
  rbuff ← st_opt (poke rbuff off b);
  if negb (r =? RES_OK) then r ← ABORT FR_DISK_ERR; mret (r, 0, rbuff) else
  fp ← fil id;
  let d := u32 (sect fp - sector) in
  rbuff ← (if has FA_DIRTY (flag fp) && (d <? cc) then st_opt (poke rbuff (off + d * SS) (buf fp)) else mret rbuff);
  mret (FR_OK, SS * cc, rbuff).

(** The rest of the sector in the buffer, or [btr] bytes of it. *)
Definition read_partial (btr : Z) (rbuff : list Z) (off : Z) : ST (FileSys D) (Z * Z * list Z) :=
  fp ← fil id;
  let rcnt := SS - fptr fp mod SS in
  let rcnt := if btr <? rcnt then btr else rcnt in
  b ← st_opt (peek (buf fp) (fptr fp mod SS) rcnt);
  rbuff ← st_opt (poke rbuff off b);
  mret (FR_OK, rcnt, rbuff).

(** One turn of the loop of [f_read]. *)
Definition read_turn (btr : Z) (rbuff : list Z) (off : Z) : ST (FileSys D) (Z * Z * list Z) :=
  p ← fil fptr;
  if p mod SS =? 0 then
    fs ← fatfs id;
    let csect := Z.land (p / SS) (csize fs - 1) in
    r ← (if csect =? 0 then clst ← read_cluster; enter_cluster clst else mret FR_OK);
    if negb (r =? FR_OK) then mret (r, 0, rbuff) else
    fs ← fatfs id; c ← fil clust;
    let sector := clst2sect fs c in
    if sector =? 0 then r ← ABORT FR_INT_ERR; mret (r, 0, rbuff) else
    let sector := u32 (sector + csect) in
    if 0 <? btr / SS then read_direct sector csect btr rbuff off else
    r ← load sector;
    if negb (r =? FR_OK) then mret (r, 0, rbuff) else read_partial btr rbuff off
  else read_partial btr rbuff off.

(** The loop, for at most [fuel] turns; [off] bytes have been read. *)
Fixpoint read_loop (fuel : nat) (btr : Z) (rbuff : list Z) (off : Z) : ST (FileSys D) (Z * Z * list Z) :=
  if btr <=? 0 then mret (FR_OK, off, rbuff) else
  match fuel with
  | O => fun _ => None
  | S fuel' =>
      '(r, rcnt, rbuff) ← read_turn btr rbuff off;
      if negb (r =? FR_OK) then mret (r, off, rbuff) else
      _ ← upd_fil (set fptr (fun p => u32 (p + rcnt)));
      read_loop fuel' (btr - rcnt) rbuff (off + rcnt)
  end.

(** The result, [*br] and the memory at [buff].  Every turn reads at least a byte. *)
Definition f_read (btr : Z) (buff : list Z) : ST (FileSys D) (Z * Z * list Z) :=
  res ← check;
  if negb (res =? FR_OK) then mret (res, 0, buff) else
  fp ← fil id;
  if negb (has FA_READ (flag fp)) then mret (FR_DENIED, 0, buff) else
  let remain := u32 (objsize fp - fptr fp) in
  let btr := if remain <? btr then remain else btr in
  read_loop (Z.to_nat btr) btr buff 0.

(** ** Writing *)

(** The cluster of the file pointer, on a cluster boundary; the chain grows at its end. *)
Definition write_cluster : ST (FileSys D) Z :=
  fp ← fil id; fs ← fatfs id;
  if fptr fp =? 0 then
    if sclust fp =? 0 then on_vol (create_chain 0) else mret (sclust fp)
  else match cltbl fp with
       | Some tbl => st_opt (clmt_clust tbl (csize fs) (fptr fp))
       | None => on_vol (create_chain (clust fp))
       end.

(** That cluster becomes the current one; nothing when the disk is full. *)
Definition write_enter : ST (FileSys D) (option Z) :=
  clst ← write_cluster;
  if clst =? 0 then mret None else
  r ← (if clst =? 1 then ABORT FR_INT_ERR
       else if clst =? DISK_ERROR then ABORT FR_DISK_ERR
       else _ ← upd_fil (fun fp => (if sclust fp =? 0 then fp <| sclust := clst |> else fp) <| clust := clst |>);
            mret FR_OK);
  mret (Some r).

Definition write_direct (sector csect btw : Z) (wbuff : list Z) (off : Z) : ST (FileSys D) (Z * Z) :=
  fs ← fatfs id;
  let cc := btw / SS in
  let cc := if csize fs <? u32 (csect + cc) then u32 (csize fs - csect) else cc in
  b ← st_opt (peek wbuff off (SS * cc));
  r ← on_vol (on_dev (disk_write (pdrv fs) b sector cc));
  if negb (r =? RES_OK) then r ← ABORT FR_DISK_ERR; mret (r, 0) else
  fp ← fil id;
  let d := u32 (sect fp - sector) in
  _ ← when (d <? cc)
        (b ← st_opt (peek wbuff (off + d * SS) SS);
         upd_fil (fun fp => fp <| buf := b |> <| flag ::= clear FA_DIRTY |>));
  mret (FR_OK, SS * cc).

Definition write_partial (btw : Z) (wbuff : list Z) (off : Z) : ST (FileSys D) (Z * Z) :=
  fp ← fil id;
  let wcnt := SS - fptr fp mod SS in
  let wcnt := if btw <? wcnt then btw else wcnt in
  b ← st_opt (peek wbuff off wcnt);
  b ← st_opt (poke (buf fp) (fptr fp mod SS) b);
  _ ← upd_fil (fun fp => fp <| buf := b |> <| flag ::= Z.lor FA_DIRTY |>);
  mret (FR_OK, wcnt).

(** On a boundary of sectors, in the cluster entered, with the buffer written back: whole
    sectors at once, or the sector at the pointer [p] comes to the buffer. *)
Definition transfer_sector (csect btw : Z) (wbuff : list Z) (off p : Z) : ST (FileSys D) (option (Z * Z)) :=
  fs ← fatfs id; fp ← fil id;
  let sector := clst2sect fs (clust fp) in
  if sector =? 0 then r ← ABORT FR_INT_ERR; mret (Some (r, 0)) else
  let sector := u32 (sector + csect) in
  if 0 <? btw / SS then r ← write_direct sector csect btw wbuff off; mret (Some r) else
  r ← (if negb (sect fp =? sector) && (p <? objsize fp) then fill sector else mret FR_OK);
  if negb (r =? FR_OK) then r ← ABORT FR_DISK_ERR; mret (Some (r, 0)) else
  _ ← upd_fil (set sect (fun _ => sector));
  r ← write_partial btw wbuff off; mret (Some r).

(** One turn of the loop of [f_write]; no count of bytes when the disk is full. *)
Definition write_turn (btw : Z) (wbuff : list Z) (off : Z) : ST (FileSys D) (option (Z * Z)) :=
  p ← fil fptr;
  if p mod SS =? 0 then
    fs ← fatfs id;
    let csect := Z.land (p / SS) (csize fs - 1) in
    r ← (if csect =? 0 then write_enter else mret (Some FR_OK));
    match r with
    | None => mret None
    | Some r =>
        if negb (r =? FR_OK) then mret (Some (r, 0)) else
        r ← flush;
        if negb (r =? FR_OK) then r ← ABORT FR_DISK_ERR; mret (Some (r, 0)) else
        transfer_sector csect btw wbuff off p
    end
  else r ← write_partial btw wbuff off; mret (Some r).

(** The loop, for at most [fuel] turns; [off] bytes have been written. *)
Fixpoint write_loop (fuel : nat) (btw : Z) (wbuff : list Z) (off : Z) : ST (FileSys D) (Z * Z) :=
  if btw <=? 0 then mret (FR_OK, off) else
  match fuel with
  | O => fun _ => None
  | S fuel' =>
      t ← write_turn btw wbuff off;
      match t with
      | None => mret (FR_OK, off)
      | Some (r, wcnt) =>
          if negb (r =? FR_OK) then mret (r, off) else
          _ ← upd_fil (set fptr (fun p => u32 (p + wcnt)));
          _ ← upd_fil (fun fp => fp <| objsize := if objsize fp <? fptr fp then fptr fp else objsize fp |>);
          write_loop fuel' (btw - wcnt) wbuff (off + wcnt)
      end
  end.

(** The result and [*bw].  Every turn writes at least a byte. *)
Definition f_write (buff : list Z) (btw : Z) : ST (FileSys D) (Z * Z) :=
  res ← check;
  if negb (res =? FR_OK) then mret (res, 0) else
  fp ← fil id;
  if negb (has FA_WRITE (flag fp)) then mret (FR_DENIED, 0) else
  let btw := if u32 (fptr fp + btw) <? fptr fp then u32 (0xFFFFFFFF - fptr fp) else btw in
  '(r, bw) ← write_loop (Z.to_nat btw) btw buff 0;
  if negb (r =? FR_OK) then mret (r, bw) else
  _ ← upd_fil (set flag (Z.lor FA_MODIFIED));
  mret (FR_OK, bw).

(** ** Synchronising and closing *)

Definition st_clust (fs : FATFS) (w : list Z) (dir cl : Z) : option (list Z) :=
  w ← st_word w (dir + DIR_FstClusLO) (u16 cl);
  if fs_type fs =? FS_FAT32 then st_word w (dir + DIR_FstClusHI) (u16 (Z.shiftr cl 16)) else Some w.

(** The directory entry of a file, in the window. *)
Definition update_entry (fs : FATFS) (fp : FIL) (tm : Z) : option (list Z) :=
  let dir := dir_ptr fp in
  a ← (win fs).[dir + DIR_Attr];
  w ← (win fs).[dir + DIR_Attr <- Z.lor a AM_ARC];
  w ← st_clust fs w dir (sclust fp);
  w ← st_dword w (dir + DIR_FileSize) (u32 (objsize fp));
  w ← st_dword w (dir + DIR_ModTime) tm;
  st_word w (dir + DIR_LstAccDate) 0.

(** The entry is updated and the volume is brought to the drive. *)
Definition sync_entry : ST (FileSys D) Z :=
  fp ← fil id;
  let tm := get_fattime in
  res ← on_vol (move_window (dir_sect fp));
  if negb (res =? FR_OK) then mret res else
  fs ← fatfs id;
  w ← st_opt (update_entry fs fp tm);
  _ ← on_vol (upd (fun fs => fs <| win := w |> <| wflag := 1 |>));
  res ← on_vol sync_fs;
  _ ← upd_fil (set flag (clear FA_MODIFIED));
  mret res.

Definition f_sync : ST (FileSys D) Z :=
  res ← validate;
  if negb (res =? FR_OK) then mret res else
  fp ← fil id;
  if negb (has FA_MODIFIED (flag fp)) then mret res else
  r ← flush;
  if negb (r =? FR_OK) then mret FR_DISK_ERR else sync_entry.

Definition f_close : ST (FileSys D) Z :=
  res ← f_sync;
  if negb (res =? FR_OK) then mret res else
  res ← validate;
  _ ← when (res =? FR_OK) (upd_fil (set obj_fs (fun _ => false)));
  mret res.

(** ** Moving the file pointer *)

(** The contiguous clusters from [cl] on, [ncl] of them counted: the length and the
    cluster that follows, or what is wrong with it. *)
Fixpoint fragment (fuel : nat) (cl ncl : Z) : ST (FileSys D) (Z + Z * Z) :=
  match fuel with
  | O => fun _ => None
  | S fuel' =>
      let ncl := u32 (ncl + 1) in
      nxt ← on_vol (get_fat cl);
      if nxt <=? 1 then mret (inl FR_INT_ERR)
      else if nxt =? DISK_ERROR then mret (inl FR_DISK_ERR)
      else if nxt =? u32 (cl + 1) then fragment fuel' nxt ncl
      else mret (inr (ncl, nxt))
  end.

(** [tbl[k] = x] in the memory at the link map table. *)
Definition put_map (k x : Z) : ST (FileSys D) unit :=
  tbl ← fil cltbl; tbl ← st_opt tbl; tbl ← st_opt tbl.[k <- x];
  upd_fil (set cltbl (fun _ => Some tbl)).

(** The loop that fills the table from item [k]; [ulen] items are needed.  It gives the
    next item and the items needed, or what went wrong. *)
Fixpoint linkmap (fuel : nat) (tlen k ulen cl : Z) : ST (FileSys D) (Z + Z * Z) :=
  match fuel with
  | O => fun _ => None
  | S fuel' =>
      n ← fatfs n_fatent;
      let ulen := u32 (ulen + 2) in
      r ← fragment (S (Z.to_nat n)) cl 0;
      match r with
      | inl e => mret (inl e)
      | inr (ncl, nxt) =>
          _ ← when (ulen <=? tlen) (_ ← put_map k ncl; put_map (k + 1) cl);
          let k := if ulen <=? tlen then k + 2 else k in
          if nxt <? n then linkmap fuel' tlen k ulen nxt else mret (inr (k, ulen))
      end
  end.

(** The link map of the file is stored in the table, whose first item is its size. *)
Definition create_linkmap (tbl : list Z) : ST (FileSys D) Z :=
  tlen ← st_opt tbl.[0];
  cl ← fil sclust; n ← fatfs n_fatent;
  r ← (if cl =? 0 then mret (inr (1, 2)) else linkmap (Z.to_nat n) tlen 1 2 cl);
  match r with
  | inl e => ABORT e
  | inr (k, ulen) =>
      _ ← put_map 0 ulen;
      _ ← when (ulen <=? tlen) (put_map k 0);
      mret (if ulen <=? tlen then FR_OK else FR_NOT_ENOUGH_CORE)
  end.

(** The pointer is inside of a sector: the buffer has to hold it. *)
Definition seek_load (s : Z) : ST (FileSys D) Z :=
  fp ← fil id;
  if negb (fptr fp mod SS =? 0) && negb (s =? sect fp) then load s else mret FR_OK.

Definition fast_seek (tbl : list Z) (ofs : Z) : ST (FileSys D) Z :=
  fp ← fil id; fs ← fatfs id;
  let ofs := if objsize fp <? ofs then objsize fp else ofs in
  _ ← upd_fil (set fptr (fun _ => ofs));
  if ofs <=? 0 then mret FR_OK else
  c ← st_opt (clmt_clust tbl (csize fs) (ofs - 1));
  _ ← upd_fil (set clust (fun _ => c));
  let dsc := clst2sect fs c in
  if dsc =? 0 then ABORT FR_INT_ERR else
  seek_load (u32 (dsc + Z.land ((ofs - 1) / SS) (csize fs - 1))).

(** The loop that follows the chain from [clst] over [ofs] bytes, for at most [fuel]
    clusters: what is left of [ofs] and the cluster, or what went wrong. *)
Fixpoint seek_loop (fuel : nat) (bcs ofs clst : Z) : ST (FileSys D) (Z + Z * Z) :=
  if ofs <=? bcs then mret (inr (ofs, clst)) else
  match fuel with
  | O => fun _ => None
  | S fuel' =>
      let ofs := ofs - bcs in
      _ ← upd_fil (set fptr (fun p => u32 (p + bcs)));
      fp ← fil id;
      clst ← on_vol (if has FA_WRITE (flag fp) then create_chain clst else get_fat clst);
      if has FA_WRITE (flag fp) && (clst =? 0) then mret (inr (0, clst)) else
      n ← fatfs n_fatent;
      if clst =? DISK_ERROR then mret (inl FR_DISK_ERR)
      else if (clst <=? 1) || (n <=? clst) then mret (inl FR_INT_ERR)
      else _ ← upd_fil (set clust (fun _ => clst)); seek_loop fuel' bcs ofs clst
  end.

(** The cluster the search starts from and the bytes to go from it. *)
Definition seek_start (bcs ofs ifptr : Z) : ST (FileSys D) (Z + Z * Z) :=
  fp ← fil id;
  if (0 <? ifptr) && ((ifptr - 1) / bcs <=? (ofs - 1) / bcs) then
    let p := Z.land (ifptr - 1) (0xFFFFFFFF - (bcs - 1)) in
    _ ← upd_fil (set fptr (fun _ => p));
    mret (inr (u32 (ofs - p), clust fp))
  else
    c ← (if sclust fp =? 0 then
           c ← on_vol (create_chain 0);
           if c =? 1 then mret (inl FR_INT_ERR)
           else if c =? DISK_ERROR then mret (inl FR_DISK_ERR)
           else _ ← upd_fil (set sclust (fun _ => c)); mret (inr c)
         else mret (inr (sclust fp)));
    match c with
    | inl e => mret (inl e)
    | inr c => _ ← upd_fil (set clust (fun _ => c)); mret (inr (ofs, c))
    end.

(** The pointer is moved along the chain; the sector it ends in, zero on a boundary. *)
Definition seek_chain (ofs ifptr : Z) : ST (FileSys D) (Z + Z) :=
  fs ← fatfs id;
  let bcs := u32 (csize fs * SS) in
  start ← seek_start bcs ofs ifptr;
  match start with
  | inl e => mret (inl e)
  | inr (ofs, clst) =>
      if clst =? 0 then mret (inr 0) else
      r ← seek_loop (Z.to_nat (ofs / bcs)) bcs ofs clst;
      match r with
      | inl e => mret (inl e)
      | inr (ofs, clst) =>
          _ ← upd_fil (set fptr (fun p => u32 (p + ofs)));
          if ofs mod SS =? 0 then mret (inr 0) else
          fs ← fatfs id;
          let nsect := clst2sect fs clst in
          if nsect =? 0 then mret (inl FR_INT_ERR) else mret (inr (u32 (nsect + ofs / SS)))
      end
  end.

Definition normal_seek (ofs : Z) : ST (FileSys D) Z :=
  fp ← fil id;
  let ofs := if (objsize fp <? ofs) && negb (has FA_WRITE (flag fp)) then objsize fp else ofs in
  _ ← upd_fil (set fptr (fun _ => 0));
  r ← (if 0 <? ofs then seek_chain ofs (fptr fp) else mret (inr 0));
  match r with
  | inl e => ABORT e
  | inr nsect =>
      _ ← upd_fil (fun fp => if objsize fp <? fptr fp
                             then fp <| objsize := fptr fp |> <| flag ::= Z.lor FA_MODIFIED |> else fp);
      seek_load nsect
  end.

Definition f_lseek (ofs : Z) : ST (FileSys D) Z :=
  res ← check;
  if negb (res =? FR_OK) then mret res else
  tbl ← fil cltbl;
  match tbl with
  | Some tbl => if ofs =? CREATE_LINKMAP then create_linkmap tbl else fast_seek tbl ofs
  | None => normal_seek ofs
  end.

(** ** Truncating *)

(** The clusters after the file pointer are freed. *)
Definition free_rest : ST (FileSys D) Z :=
  fp ← fil id; fs ← fatfs id;
  if fptr fp =? 0 then
    res ← on_vol (remove_chain (sclust fp) 0);
    _ ← upd_fil (set sclust (fun _ => 0));
    mret res
  else
    ncl ← on_vol (get_fat (clust fp));
    if ncl =? DISK_ERROR then mret FR_DISK_ERR
    else if ncl =? 1 then mret FR_INT_ERR
    else if ncl <? n_fatent fs then on_vol (remove_chain ncl (clust fp))
    else mret FR_OK.

Definition f_truncate : ST (FileSys D) Z :=
  res ← check;
  if negb (res =? FR_OK) then mret res else
  fp ← fil id;
  if negb (has FA_WRITE (flag fp)) then mret FR_DENIED else
  if fptr fp <? objsize fp then
    res ← free_rest;
    _ ← upd_fil (fun fp => fp <| objsize := fptr fp |> <| flag ::= Z.lor FA_MODIFIED |>);
    res ← (if res =? FR_OK then flush else mret res);
    if negb (res =? FR_OK) then ABORT res else mret res
  else mret res.
End file.
