(* ===== verification/Mount.v ===== *)
(** * Mount: finding and mounting a volume

    The part of FATFS/src/ff.c that makes a volume ready: the number of the drive in a
    path ([get_ldnumber]), the boot sector ([check_fs], [find_volume]), the analysis of
    the parameters in it ([mount_volume]) and the registration of a volume object
    ([f_mount]).  The objects of two drives are taken to be different. *)

From S2P Require Import Prelude FatWords Blocks Fat File.

(** ** Constants *)

Definition FF_VOLUMES : Z := 3.

Definition MAX_FAT12 : Z := 0xFF5.
Definition MAX_FAT16 : Z := 0xFFF5.
Definition MAX_FAT32 : Z := 0x0FFFFFF5.

Definition FR_NOT_READY : Z := 3.
Definition FR_WRITE_PROTECTED : Z := 10.
Definition FR_INVALID_DRIVE : Z := 11.
Definition FR_NOT_ENABLED : Z := 12.
Definition FR_NO_FILESYSTEM : Z := 13.

Definition STA_PROTECT : Z := 4.

Definition SZDIRE : Z := 32.
Definition SZ_PTE : Z := 16.
Definition MBR_Table : Z := 446.
Definition PTE_StLba : Z := 8.

Definition BS_JmpBoot : Z := 0.
Definition BPB_BytsPerSec : Z := 11.
Definition BPB_SecPerClus : Z := 13.
Definition BPB_RsvdSecCnt : Z := 14.
Definition BPB_NumFATs : Z := 16.
Definition BPB_RootEntCnt : Z := 17.
Definition BPB_TotSec16 : Z := 19.
Definition BPB_FATSz16 : Z := 22.
Definition BPB_TotSec32 : Z := 32.
Definition BPB_FATSz32 : Z := 36.
Definition BPB_FSVer32 : Z := 42.
Definition BPB_RootClus32 : Z := 44.
Definition BPB_FSInfo32 : Z := 48.
Definition BS_FilSysType32 : Z := 82.
Definition BS_55AA : Z := 510.
Definition FSI_LeadSig : Z := 0.
Definition FSI_StrucSig : Z := 484.
Definition FSI_Free_Count : Z := 488.
Definition FSI_Nxt_Free : Z := 492.

(** The string FAT32 with three spaces. *)
Definition FAT32_name : list Z := [0x46; 0x41; 0x54; 0x33; 0x32; 0x20; 0x20; 0x20].

(** ** The path *)

Definition IsTerminator (c : Z) : bool := c <? 0x20.
Definition IsDigit (c : Z) : bool := (0x30 <=? c) && (c <=? 0x39).

(** The first terminator or colon of a string, and its place. *)
Fixpoint find_colon (path : list Z) (k : Z) : option (Z * Z) :=
  match path with
  | [] => None
  | tc :: path' => if IsTerminator tc || (tc =? 0x3A) then Some (tc, k) else find_colon path' (k + 1)
  end.

(** The drive number, -1 when it is invalid, and how much of the path it takes. *)
Definition get_ldnumber (path : list Z) : option (Z * Z) :=
  '(tc, k) ← find_colon path 0;
  if tc =? 0x3A then
    c ← path.[0];
    let i := if IsDigit c && (k + 1 =? 2) then c - 0x30 else FF_VOLUMES in
    Some (if i <? FF_VOLUMES then (i, k + 1) else (-1, 0))
  else Some (0, 0).

(** ** The boot sector *)

(** Whether a sector is the boot record of a volume: 0 it is, 2 and 3 it is not, and has
    a signature or not. *)
Definition boot_status (w : list Z) : option Z :=
  sign ← ld_word w BS_55AA;
  b ← w.[BS_JmpBoot];
  let no := if sign =? 0xAA55 then 2 else 3 in
  if (b =? 0xEB) || (b =? 0xE9) || (b =? 0xE8) then
    type ← peek w BS_FilSysType32 8;
    if (sign =? 0xAA55) && bool_decide (type = FAT32_name) then Some 0 else
    bps ← ld_word w BPB_BytsPerSec; spc ← w.[BPB_SecPerClus]; rsv ← ld_word w BPB_RsvdSecCnt;
    nf ← w.[BPB_NumFATs]; root ← ld_word w BPB_RootEntCnt;
    t16 ← ld_word w BPB_TotSec16; t32 ← ld_dword w BPB_TotSec32; f16 ← ld_word w BPB_FATSz16;
    Some (if (Z.land bps (bps - 1) =? 0) && (SS <=? bps) && (bps <=? SS) &&
             negb (spc =? 0) && (Z.land spc (spc - 1) =? 0) && negb (rsv =? 0) &&
             (u32 (nf - 1) <=? 1) && negb (root =? 0) &&
             ((128 <=? t16) || (0x10000 <=? t32)) && negb (f16 =? 0)
          then 0 else no)
  else Some no.

(** The type of a volume by its clusters, 0 when there are too many. *)
Definition fat_type (nclst : Z) : Z :=
  if nclst <=? MAX_FAT12 then FS_FAT12
  else if nclst <=? MAX_FAT16 then FS_FAT16
  else if nclst <=? MAX_FAT32 then FS_FAT32 else 0.

(** The parameters of the root directory and the bytes the table needs. *)
Definition init_root (w : list Z) (fmt fasize : Z) (f : FATFS) : option (option Z * FATFS) :=
  if fmt =? FS_FAT32 then
    ver ← ld_word w BPB_FSVer32; root ← ld_dword w BPB_RootClus32;
    Some (if negb (ver =? 0) || negb (n_rootdir f =? 0) then (None, f)
          else (Some (u32 (n_fatent f * 4)), f <| dirbase := root |>))
  else
    Some (if n_rootdir f =? 0 then (None, f)
          else (Some (if fmt =? FS_FAT16 then u32 (n_fatent f * 2)
                      else u32 (u32 (n_fatent f * 3) / 2 + Z.land (n_fatent f) 1)),
                f <| dirbase := u32 (fatbase f + fasize) |>)).

(** The analysis of the boot sector [w] at [bsect]: the type, 0 when there is no valid
    volume, and the volume object. *)
Definition init_fat (w : list Z) (bsect : Z) (f : FATFS) : option (Z * FATFS) :=
  bps ← ld_word w BPB_BytsPerSec;
  if negb (bps =? SS) then Some (0, f) else
  f16 ← ld_word w BPB_FATSz16; f32 ← ld_dword w BPB_FATSz32;
  let fasize := if f16 =? 0 then f32 else f16 in
  nf ← w.[BPB_NumFATs];
  let f := f <| fsize := fasize |> <| n_fats := nf |> in
  if negb (nf =? 1) && negb (nf =? 2) then Some (0, f) else
  let fasize := u32 (fasize * nf) in
  spc ← w.[BPB_SecPerClus];
  let f := f <| csize := spc |> in
  if (spc =? 0) || negb (Z.land spc (spc - 1) =? 0) then Some (0, f) else
  root ← ld_word w BPB_RootEntCnt;
  let f := f <| n_rootdir := root |> in
  if negb (root mod (SS / SZDIRE) =? 0) then Some (0, f) else
  t16 ← ld_word w BPB_TotSec16; t32 ← ld_dword w BPB_TotSec32;
  let tsect := if t16 =? 0 then t32 else t16 in
  nrsv ← ld_word w BPB_RsvdSecCnt;
  if nrsv =? 0 then Some (0, f) else
  let sysect := u32 (nrsv + fasize + root / (SS / SZDIRE)) in
  if tsect <? sysect then Some (0, f) else
  let nclst := (tsect - sysect) / spc in
  if nclst =? 0 then Some (0, f) else
  let fmt := fat_type nclst in
  if fmt =? 0 then Some (0, f) else
  let f := f <| n_fatent := u32 (nclst + 2) |> <| volbase := bsect |>
             <| fatbase := u32 (bsect + nrsv) |> <| database := u32 (bsect + sysect) |> in
  '(need, f) ← init_root w fmt fasize f;
  match need with
  | None => Some (0, f)
  | Some szbfat => Some (if fsize f <? u32 (szbfat + (SS - 1)) / SS then (0, f) else (fmt, f))
  end.

Section mount.
Context `{Disk D}.

Definition check_fs (sect : Z) : ST (Vol D) Z :=
  _ ← upd (fun fs => fs <| wflag := 0 |> <| winsect := u32 (0 - 1) |>);
  r ← move_window sect;
  if negb (r =? FR_OK) then mret 4 else
  w ← get win;
  st_opt (boot_status w).

(** The loop over the partition table from entry [i]. *)
Fixpoint find_partition (fuel : nat) (mbr_pt : list Z) (part i : Z) : ST (Vol D) Z :=
  match fuel with
  | O => fun _ => None
  | S fuel' =>
      p ← st_opt mbr_pt.[i];
      fmt ← (if negb (p =? 0) then check_fs p else mret 3);
      if (part =? 0) && (2 <=? fmt) && (i + 1 <? 4) then find_partition fuel' mbr_pt part (i + 1)
      else mret fmt
  end.

Definition find_volume (part : Z) : ST (Vol D) Z :=
  fmt ← check_fs 0;
  if negb (fmt =? 2) && ((3 <=? fmt) || (part =? 0)) then mret fmt else
  w ← get win;
  p0 ← st_opt (ld_dword w (MBR_Table + PTE_StLba));
  p1 ← st_opt (ld_dword w (MBR_Table + SZ_PTE + PTE_StLba));
  p2 ← st_opt (ld_dword w (MBR_Table + 2 * SZ_PTE + PTE_StLba));
  p3 ← st_opt (ld_dword w (MBR_Table + 3 * SZ_PTE + PTE_StLba));
  find_partition 4 [p0; p1; p2; p3] part (if negb (part =? 0) then part - 1 else 0).

(** The FSInfo sector of FAT32, when the boot sector says there is one. *)
Definition load_fsinfo (bsect fmt : Z) : ST (Vol D) unit :=
  _ ← upd (fun fs => fs <| last_clst := 0xFFFFFFFF |> <| free_clst := 0xFFFFFFFF |> <| fsi_flag := 0x80 |>);
  w ← get win;
  info ← st_opt (ld_word w BPB_FSInfo32);
  if (fmt =? FS_FAT32) && (info =? 1) then
    r ← move_window (u32 (bsect + 1));
    if r =? FR_OK then
      _ ← upd (set fsi_flag (fun _ => 0));
      w ← get win;
      sign ← st_opt (ld_word w BS_55AA); lead ← st_opt (ld_dword w FSI_LeadSig); struc ← st_opt (ld_dword w FSI_StrucSig);
      free ← st_opt (ld_dword w FSI_Free_Count); last ← st_opt (ld_dword w FSI_Nxt_Free);
      when ((sign =? 0xAA55) && (lead =? 0x41615252) && (struc =? 0x61417272))
        (upd (fun fs => fs <| free_clst := free |> <| last_clst := last |>))
    else st_skip
  else st_skip.

(** A volume that is not mounted, or whose drive has been lost, on drive [vol]. *)
Definition mount_new (vol : Z) (write : bool) : ST (Vol D) Z :=
  _ ← upd (fun fs => fs <| fs_type := 0 |> <| pdrv := u8 vol |>);
  stat ← on_dev (disk_initialize (u8 vol));
  if has STA_NOINIT stat then mret FR_NOT_READY else
  if write && has STA_PROTECT stat then mret FR_WRITE_PROTECTED else
  fmt ← find_volume 0;
  if fmt =? 4 then mret FR_DISK_ERR else
  if 2 <=? fmt then mret FR_NO_FILESYSTEM else
  fs ← get id;
  let bsect := winsect fs in
  '(fmt, fs) ← st_opt (init_fat (win fs) bsect fs);
  _ ← upd (fun _ => fs);
  if fmt =? 0 then mret FR_NO_FILESYSTEM else
  _ ← load_fsinfo bsect fmt;
  _ ← upd (set fs_type (fun _ => fmt));
  mret FR_OK.

(** The registered volume objects with their mount numbers, and the last number. *)
Record Mounts := MkMounts { FatFs : list (option (FATFS * Z)); m_dev : D; Fsid : Z }.

(** [mode] asks for write access when it has other flags than reading. *)
Definition mount_volume (path : list Z) (mode : Z) : ST Mounts Z := fun m =>
  '(vol, _) ← get_ldnumber path;
  if vol <? 0 then Some (FR_INVALID_DRIVE, m) else
  obj ← (FatFs m).[vol];
  match obj with
  | None => Some (FR_NOT_ENABLED, m)
  | Some (f, n) =>
      let write := negb (clear FA_READ mode =? 0) in
      let store := fun v n id => l ← (FatFs m).[vol <- Some (fs v, n)]; Some (MkMounts l (dev v) id) in
      let v := MkVol f (m_dev m) in
      '(stat, v) ← (if negb (fs_type f =? 0) then on_dev (disk_status (pdrv f)) v else Some (STA_NOINIT, v));
      if negb (has STA_NOINIT stat) then
        m' ← store v n (Fsid m);
        Some (if write && has STA_PROTECT stat then FR_WRITE_PROTECTED else FR_OK, m')
      else
        '(r, v) ← mount_new vol write v;
        let id := if r =? FR_OK then u16 (Fsid m + 1) else Fsid m in
        m' ← store v (if r =? FR_OK then id else n) id;
        Some (r, m')
  end.

(** [obj] is the volume object given, if any; an object is mounted at once with [opt]. *)
Definition f_mount (obj : option (FATFS * Z)) (path : list Z) (opt : Z) : ST Mounts Z := fun m =>
  '(vol, _) ← get_ldnumber path;
  if vol <? 0 then Some (FR_INVALID_DRIVE, m) else
  let obj := (fun '(f, n) => (f <| fs_type := 0 |>, n)) <$> obj in
  l ← (FatFs m).[vol <- obj];
  let m := MkMounts l (m_dev m) (Fsid m) in
  if opt =? 0 then Some (FR_OK, m) else mount_volume path 0 m.
End mount.
