(* ===== verification/FileFacts.v ===== *)
(** * FileFacts: what an open file stands for

    The sectors of the chain of a file ([snum]), the bytes that its buffer and the
    medium give it ([fbyte], [content]), and the invariant of an open file: [core_ok]
    of its data and [pos_ok] of its pointer.  The steps the operations are made of keep
    the data: the window moves on the table, the buffer is written back and filled,
    sectors are read and written directly. *)

From S2P Require Import Prelude FatWords Blocks Fat FatFacts FatChain FatCreate FatWindow File.

(** ** The data area *)

Record data_ok (f : FATFS) : Prop := DataOk {
  da_csize : exists e, 0 <= e <= 7 /\ csize f = 2 ^ e;
  da_fats : n_fats f = 1 \/ n_fats f = 2;
  da_base : fatbase f + n_fats f * fsize f <= database f;
  da_end : database f + csize f * (n_fatent f - 2) <= NO_SECTOR
}.

(** The first sector of a cluster. *)
Definition base (f : FATFS) (c : Z) : Z := database f + csize f * (c - 2).

(** The sectors of a chain, and where sector [i] is. *)
Definition span (f : FATFS) (cs : list Z) : Z := csize f * Z.of_nat (length cs).
Definition snum (f : FATFS) (cs : list Z) (i : Z) : Z :=
  base f (default 2 cs.[i / csize f]) + i mod csize f.

Definition clusters (f : FATFS) (cs : list Z) : Prop := Forall (cluster f) cs.

Lemma csize_range f : data_ok f -> 1 <= csize f <= 128.
Proof.
  intros [(e & He & ->) _ _ _]. pose proof (Z.pow_pos_nonneg 2 e). pose proof (Z.pow_le_mono_r 2 e 7). lia.
Qed.

Lemma csize_mask f x : data_ok f -> Z.land x (csize f - 1) = x mod csize f.
Proof.
  intros [(e & He & ->) _ _ _]. apply land_mask; [lia|]. by rewrite Z.ones_equiv.
Qed.

Lemma chain_index f cs i : data_ok f -> 0 <= i < span f cs -> 0 <= i / csize f < Z.of_nat (length cs).
Proof.
  intros Hd Hi. pose proof (csize_range f Hd). unfold span in Hi. split; [apply Z.div_pos; lia|].
  apply Z.div_lt_upper_bound; lia.
Qed.

Lemma chain_lookup f cs i : data_ok f -> clusters f cs -> 0 <= i < span f cs ->
  exists c, cs.[i / csize f] = Some c /\ cluster f c /\ snum f cs i = base f c + i mod csize f.
Proof.
  intros Hd Hcs Hi. destruct (arr_get_is_Some cs (i / csize f)) as [c Hc]; [by apply chain_index|].
  exists c. splits; [done| |unfold snum; by rewrite Hc].
  apply arr_get_Some in Hc as [_ Hc]. by apply (Forall_lookup_1 _ _ _ _ Hcs Hc).
Qed.

Lemma base_range f c : data_ok f -> cluster f c ->
  database f <= base f c /\ base f c + csize f <= NO_SECTOR.
Proof.
  intros Hd [? ?]. pose proof (csize_range f Hd). destruct Hd as [_ _ _ He]. unfold base. split; nia.
Qed.

Lemma snum_range f cs i : data_ok f -> clusters f cs -> 0 <= i < span f cs ->
  database f <= snum f cs i < NO_SECTOR.
Proof.
  intros Hd Hcs Hi. destruct (chain_lookup f cs i Hd Hcs Hi) as (c & _ & Hc & ->).
  destruct (base_range f c Hd Hc). pose proof (csize_range f Hd). pose proof (Z.mod_pos_bound i (csize f)). lia.
Qed.

(** Sectors past the tables. *)
Lemma data_live f s : geometry_ok f -> data_ok f -> database f <= s < NO_SECTOR -> data_sector f s /\ ~ in_table f s /\ 0 < s.
Proof.
  intros [_ Hb Hs _ _ _] [_ Hf Hbase _] Hr. unfold data_sector, live, in_table.
  destruct Hf as [E|E]; rewrite E in *; splits; lia.
Qed.

Lemma snum_data f cs i : geometry_ok f -> data_ok f -> clusters f cs -> 0 <= i < span f cs ->
  data_sector f (snum f cs i) /\ ~ in_table f (snum f cs i) /\ 0 < snum f cs i < NO_SECTOR.
Proof.
  intros Hg Hd Hcs Hi. pose proof (snum_range f cs i Hd Hcs Hi) as Hr.
  destruct (data_live f _ Hg Hd Hr) as (? & ? & ?). splits; [done|done|lia|lia].
Qed.

(** Distinct clusters have distinct sectors. *)
Lemma snum_inj f cs i j : data_ok f -> clusters f cs -> NoDup cs -> 0 <= i < span f cs -> 0 <= j < span f cs ->
  snum f cs i = snum f cs j -> i = j.
Proof.
  intros Hd Hcs Hnd Hi Hj E. pose proof (csize_range f Hd) as Hr.
  destruct (chain_lookup f cs i Hd Hcs Hi) as (c & Ec & Hc & Ei).
  destruct (chain_lookup f cs j Hd Hcs Hj) as (c' & Ec' & Hc' & Ej).
  rewrite Ei, Ej in E. unfold base in E.
  pose proof (Z.mod_pos_bound i (csize f)). pose proof (Z.mod_pos_bound j (csize f)).
  destruct (Z.div_mod_unique (csize f) (c - 2) (c' - 2) (i mod csize f) (j mod csize f)) as [Eq Em]; [lia..|].
  replace c' with c in * by lia.
  rewrite arr_get_Some in Ec, Ec'. destruct Ec as [? Ec], Ec' as [? Ec'].
  pose proof (NoDup_lookup _ _ _ _ Hnd Ec Ec') as En.
  rewrite (Z.div_mod i (csize f)), (Z.div_mod j (csize f)) by lia. lia.
Qed.

(** Neighbours in a cluster. *)
Lemma snum_next f cs i d : data_ok f -> 0 <= i -> 0 <= d -> i mod csize f + d < csize f ->
  (i + d) / csize f = i / csize f /\ snum f cs (i + d) = snum f cs i + d.
Proof.
  intros Hd Hi Hd0 Hm. pose proof (csize_range f Hd) as Hr. pose proof (Z.mod_pos_bound i (csize f)).
  assert (E : (i + d) / csize f = i / csize f /\ (i + d) mod csize f = i mod csize f + d).
  { rewrite (Z.div_mod i (csize f)) at 1 3 by lia. split.
    - symmetry. apply Z.div_unique_pos with (i mod csize f + d); lia.
    - symmetry. apply Z.mod_unique_pos with (i / csize f); lia. }
  destruct E as [E1 E2]. split; [done|]. unfold snum. rewrite E1, E2. lia.
Qed.

Lemma clst2sect_eq f c : data_ok f -> geometry_ok f -> cluster f c -> clst2sect f c = base f c.
Proof.
  intros Hd Hg Hc. destruct (base_range f c Hd Hc). pose proof (csize_range f Hd).
  destruct Hc as [? ?]. destruct Hd as [_ Hf Hb He]. destruct Hg as [_ ? ? _ [_ Hn] _]. unfold NO_SECTOR in *.
  assert (n_fatent f < 2 ^ 28) by (revert Hn; unfold end_of_chain; repeat case_match; lia).
  unfold clst2sect, base in *. rewrite (u32_small (c - 2)), (u32_small (n_fatent f - 2)) by lia. ztest.
  assert (0 <= database f) by (destruct Hf as [E|E]; rewrite E in Hb; lia).
  rewrite (u32_small (csize f * _)) by nia. apply u32_small. nia.
Qed.

(** ** The data of a file *)

Section file.
Context `{DL : DiskLaws D}.
Implicit Types (v : Vol D) (s : FileSys D) (fp : FIL) (cs : list Z).

Definition dirty fp : bool := has FA_DIRTY (flag fp).

(** Sector [i] of the file as the program sees it. *)
Definition cached s cs (i : Z) : list Z :=
  let t := snum (fs (vol s)) cs i in
  if dirty (file s) && (t =? sect (file s)) then buf (file s) else medium (dev (vol s)) t.

Definition fbyte s cs (k : Z) : Z := default 0 (cached s cs (k / SS)).[k mod SS].

Definition content s cs : list Z := bytes (fbyte s cs) 0 (objsize (file s)).

Definition chain v (c : Z) cs : Prop := c = 0 /\ cs = [] \/ linked (entry v) (n_fatent (fs v)) c cs.

Record core_ok s cs : Prop := CoreOk {
  co_vol : vol_ok (vol s);
  co_data : data_ok (fs (vol s));
  co_chain : chain (vol s) (sclust (file s)) cs;
  co_nodup : NoDup cs;
  co_size : 0 <= objsize (file s) < 2 ^ 32 /\ objsize (file s) <= SS * span (fs (vol s)) cs;
  co_buf : sector (buf (file s));
  co_dirty : dirty (file s) = true ->
    exists i, 0 <= i < span (fs (vol s)) cs /\ sect (file s) = snum (fs (vol s)) cs i;
  co_clean i : dirty (file s) = false -> 0 <= i < span (fs (vol s)) cs -> SS * i < objsize (file s) ->
    sect (file s) = snum (fs (vol s)) cs i -> buf (file s) = medium (dev (vol s)) (sect (file s));
  co_away i : 0 <= i < span (fs (vol s)) cs -> winsect (fs (vol s)) <> snum (fs (vol s)) cs i
}.

(** Nothing but the clusters of [cs] and their sectors has changed. *)
Record frame s s' cs : Prop := Frame {
  fr_stable : stable (fs (vol s)) (fs (vol s'));
  fr_entry c : cluster (fs (vol s)) c -> c ∉ cs -> entry (vol s') c = entry (vol s) c;
  fr_view t : data_sector (fs (vol s)) t ->
    (forall i, 0 <= i < span (fs (vol s)) cs -> t <> snum (fs (vol s)) cs i) ->
    view (vol s') t = view (vol s) t
}.

(** What a file object has but for its buffer. *)
Definition head fp :=
  (obj_fs fp, obj_id fp, sclust fp, objsize fp, err fp, fptr fp, clust fp, cltbl fp, dir_sect fp, dir_ptr fp,
   clear FA_DIRTY (flag fp)).

(** The counts of the table are right, and a cluster can be created. *)
Definition room (v : Vol D) : Prop :=
  sane v /\ 0 <= free_clst (fs v) /\ count_ok v /\ 0 <= last_clst (fs v).

Lemma room_same (v v' : Vol D) : vol_ok v -> n_fatent (fs v') = n_fatent (fs v) ->
  free_clst (fs v') = free_clst (fs v) -> last_clst (fs v') = last_clst (fs v) ->
  (forall c, cluster (fs v) c -> entry v' c = entry v c) -> room v -> room v'.
Proof.
  intros Hv En Ef El He (Hs & H0 & Hc & Hl). unfold room; splits; [|by rewrite Ef| |by rewrite El].
  - intros c Hc'. assert (Hc2 : cluster (fs v) c) by (unfold cluster in *; by rewrite En in Hc'). rewrite He by done. by apply Hs.
  - unfold count_ok. by rewrite Ef, En, (free_ext v v' Hv En He).
Qed.

(** A step the file does not notice. *)
Record quiet s s' cs : Prop := Quiet {
  qu_core : core_ok s' cs;
  qu_frame : frame s s' cs;
  qu_head : head (file s') = head (file s);
  qu_id : fs_id s' = fs_id s;
  qu_info : fsi_flag (fs (vol s')) = fsi_flag (fs (vol s));
  qu_room : room (vol s) -> room (vol s');
  qu_cached i : 0 <= i < span (fs (vol s)) cs -> cached s' cs i = cached s cs i
}.

Lemma core_clusters s cs : core_ok s cs -> clusters (fs (vol s)) cs.
Proof.
  intros [_ _ [[_ ->]|Hl] _ _ _ _ _ _]; [by constructor|]. unfold clusters. by apply (linked_in _ _ _ _ Hl).
Qed.

Lemma stable_geometry f g : stable f g -> csize g = csize f /\ database g = database f /\ pdrv g = pdrv f.
Proof. unfold stable, geometry. by intros [=]. Qed.

Lemma stable_base f g c : stable f g -> base g c = base f c.
Proof. intros Hs. unfold base. by destruct (stable_geometry _ _ Hs) as (-> & -> & _). Qed.

Lemma stable_snum f g cs i : stable f g -> span g cs = span f cs /\ snum g cs i = snum f cs i.
Proof.
  intros Hs. unfold span, snum. rewrite (stable_base f g) by done.
  by destruct (stable_geometry _ _ Hs) as (-> & _).
Qed.

Lemma stable_data_ok f g : stable f g -> data_ok f -> data_ok g.
Proof.
  intros Hs [? ? ? ?]. destruct (stable_geometry _ _ Hs) as (E1 & E2 & _).
  destruct (stable_fields _ _ Hs) as (_ & E3 & E4 & E5 & E6).
  constructor; rewrite ?E1, ?E2, ?E3, ?E4, ?E5, ?E6; done.
Qed.

Lemma frame_refl s cs : frame s s cs.
Proof. constructor; [apply stable_refl|done|done]. Qed.

Lemma frame_trans s1 s2 s3 cs : frame s1 s2 cs -> frame s2 s3 cs -> frame s1 s3 cs.
Proof.
  intros [S1 E1 V1] [S2 E2 V2]. constructor; [by apply stable_trans with (fs (vol s2))| |].
  - intros c Hc Hn. rewrite E2, E1; [done|done|done|by apply (stable_cluster _ _ _ S1)|done].
  - intros t Ht Hi. rewrite V2, V1; [done|done|done|by apply (stable_data _ _ _ S1)|].
    intros i. destruct (stable_snum _ _ cs i S1) as [-> ->]. apply Hi.
Qed.

Lemma quiet_trans s1 s2 s3 cs : quiet s1 s2 cs -> quiet s2 s3 cs -> quiet s1 s3 cs.
Proof.
  intros [C1 F1 H1 I1 N1 R1 Q1] [C2 F2 H2 I2 N2 R2 Q2]. constructor; [done|by apply frame_trans with s2|congruence|congruence|congruence|auto|].
  intros i Hi. rewrite Q2, Q1; [done..|]. by destruct (stable_snum _ _ cs i (fr_stable _ _ _ F1)) as [-> _].
Qed.

Lemma quiet_refl s cs : core_ok s cs -> quiet s s cs.
Proof. intros Hc. by constructor; [|apply frame_refl|..]. Qed.

Lemma file_snum s cs i : core_ok s cs -> 0 <= i < span (fs (vol s)) cs ->
  data_sector (fs (vol s)) (snum (fs (vol s)) cs i) /\ ~ in_table (fs (vol s)) (snum (fs (vol s)) cs i) /\
  0 < snum (fs (vol s)) cs i < NO_SECTOR.
Proof. intros Hc. apply snum_data; [apply vol_geo, Hc|apply Hc|by apply core_clusters]. Qed.

Lemma cached_sector s cs i : core_ok s cs -> sector (cached s cs i).
Proof. intros Hc. unfold cached. zcase; [apply Hc|apply medium_sector]. Qed.

(** The medium under a sector of the file. *)
Lemma file_view s cs i : core_ok s cs -> 0 <= i < span (fs (vol s)) cs ->
  view (vol s) (snum (fs (vol s)) cs i) = medium (dev (vol s)) (snum (fs (vol s)) cs i).
Proof.
  intros Hc Hi. unfold view. pose proof (co_away _ _ Hc i Hi). destruct (_ =? _) eqn:E; [zb; congruence|done].
Qed.

(** ** Steps of the volume *)

Lemma kept_dev v d : vol_ok v -> (forall t, medium d t = medium (dev v) t) -> kept v (v <| dev := d |>).
Proof.
  intros [Hg Hw Hs Hf] Hm. destruct v as [f d0]. cbn in *. split; [|split; [apply same_refl|]].
  - constructor; cbn; [done..|]. by rewrite Hm.
  - intros t _. unfold view. cbn. by rewrite Hm.
Qed.

(** Only the sectors [X] of the data have changed. *)
Record apart v v' (X : Z -> Prop) : Prop := Apart {
  ap_ok : vol_ok v';
  ap_stable : stable (fs v) (fs v');
  ap_free : free_clst (fs v') = free_clst (fs v);
  ap_last : last_clst (fs v') = last_clst (fs v);
  ap_view t : live (fs v) t -> ~ X t -> view v' t = view v t
}.

Lemma apart_kept v v' X : kept v v' -> apart v v' X.
Proof.
  intros (Hv & Hs & Hview). destruct (same_fields _ _ Hs) as (_ & _ & _ & _ & _ & ? & ?).
  constructor; [done|by apply same_stable|done|done|]. intros t Ht _. by apply Hview.
Qed.

Lemma apart_trans v1 v2 v3 X : apart v1 v2 X -> apart v2 v3 X -> apart v1 v3 X.
Proof.
  intros [? S1 ? ? V1] [? S2 ? ? V2]. constructor; [done|by apply stable_trans with (fs v2)|congruence|congruence|].
  intros t Ht Hx. rewrite V2, V1; [done..| |done]. by apply (stable_live _ _ _ S1).
Qed.

Lemma apart_weaken v v' (X Y : Z -> Prop) : apart v v' X -> (forall t, X t -> Y t) -> apart v v' Y.
Proof. intros [] HXY. constructor; [done..|]. intros t Ht Hy. apply ap_view0; [done|]. intros Hx. by apply Hy, HXY. Qed.

Lemma apart_entry v v' X c : vol_ok v -> apart v v' X -> (forall t, X t -> ~ in_table (fs v) t) -> cluster (fs v) c ->
  entry v' c = entry v c.
Proof.
  intros Hv [_ Hs _ _ Hview] HX Hc. destruct (stable_fields _ _ Hs) as (Et & _ & Eb & _).
  assert (Hbyte : forall k, in_fat (fs v) k -> fat_byte v' k = fat_byte v k).
  { intros k Hk. unfold fat_byte. rewrite Eb. destruct (fat_sector _ _ (vol_geo _ Hv) Hk) as [_ Hl].
    rewrite Hview; [done|done|]. intros Hx. apply (HX _ Hx). unfold in_table, in_fat in *. unfold SS in *. divs. }
  destruct (cluster_bytes _ _ (vol_geo _ Hv) Hc) as (_ & H12 & H16 & H32). unfold entry, entry_of. rewrite Et.
  destruct (vol_geo _ Hv) as [[E|[E|E]] _ _ _ _ _]; rewrite E; cbn [Z.eqb Pos.eqb FS_FAT12 FS_FAT16 FS_FAT32].
  - destruct (H12 E). cbn. by rewrite !Hbyte by done.
  - destruct (H16 E). cbn. by rewrite !Hbyte by done.
  - destruct (H32 E) as (? & ? & ? & ?). cbn. by rewrite !Hbyte by done.
Qed.

(** The sectors are neither of the table nor of the file. *)
Definition beside s cs (X : Z -> Prop) : Prop :=
  forall t, X t -> ~ in_table (fs (vol s)) t /\ forall i, 0 <= i < span (fs (vol s)) cs -> t <> snum (fs (vol s)) cs i.

(** The file has not noticed. *)
Lemma apart_core s cs v' X : core_ok s cs -> apart (vol s) v' X -> beside s cs X ->
  (forall i, 0 <= i < span (fs (vol s)) cs -> winsect (fs v') <> snum (fs (vol s)) cs i) ->
  core_ok (s <| vol := v' |>) cs /\ (room (vol s) -> room v') /\
  (forall i, 0 <= i < span (fs (vol s)) cs ->
     medium (dev v') (snum (fs (vol s)) cs i) = medium (dev (vol s)) (snum (fs (vol s)) cs i)).
Proof.
  intros Hc A HX Haway. pose proof A as [Hv' Hst Hfree Hlast Hview].
  assert (Hmed : forall i, 0 <= i < span (fs (vol s)) cs ->
    medium (dev v') (snum (fs (vol s)) cs i) = medium (dev (vol s)) (snum (fs (vol s)) cs i)).
  { intros i Hi. destruct (file_snum s cs i Hc Hi) as ([Hl _] & _). rewrite <- (file_view s cs i Hc Hi), <- Hview; [|done|].
    - unfold view. pose proof (Haway i Hi). destruct (_ =? winsect (fs v')) eqn:E; [zb; congruence|done].
    - intros Hx. by apply (proj2 (HX _ Hx) i Hi). }
  assert (Hsn : forall i, span (fs v') cs = span (fs (vol s)) cs /\ snum (fs v') cs i = snum (fs (vol s)) cs i)
    by (intros i; by apply stable_snum).
  assert (Hent : forall c, cluster (fs (vol s)) c -> entry v' c = entry (vol s) c).
  { intros c. apply (apart_entry _ _ X); [apply Hc|done|]. intros t Ht. by apply HX. }
  destruct (stable_fields _ _ Hst) as (_ & _ & _ & _ & En). splits; [|by apply room_same; [apply Hc|..]|exact Hmed].
  constructor; cbn; try apply Hc; [done|by apply (stable_data_ok _ _ Hst), Hc| | | | |].
  - destruct (co_chain _ _ Hc) as [?|Hl]; [by left|right]. rewrite En. apply linked_ext with (entry (vol s)); [|done].
    intros a Ha. apply Hent. pose proof (core_clusters _ _ Hc) as HF. unfold clusters in HF.
    rewrite List.Forall_forall in HF. by apply HF.
  - rewrite (proj1 (Hsn 0)). apply Hc.
  - intros Hd. destruct (co_dirty _ _ Hc Hd) as (i & Hi & ->). exists i. by destruct (Hsn i) as [-> ->].
  - intros i Hd Hi Ho E. destruct (Hsn i) as [Ei Es]. rewrite Ei in Hi. rewrite Es in E. rewrite E, (Hmed i Hi), <- E.
    by apply (co_clean _ _ Hc i).
  - intros i. destruct (Hsn i) as [-> ->]. apply Haway.
Qed.
(** The window moves on the table. *)
Lemma quiet_kept s cs v' : core_ok s cs -> kept (vol s) v' ->
  roams (fs (vol s)) (winsect (fs (vol s))) (winsect (fs v')) -> quiet s (s <| vol := v' |>) cs.
Proof.
  intros Hc K Hroam. pose proof (apart_kept _ _ (fun _ => False) K) as A. pose proof (ap_stable _ _ _ A) as Hst.
  destruct (apart_core s cs v' _ Hc A) as (Hcore & Hroom & Hmed); [done| |].
  { intros i Hi. destruct (file_snum s cs i Hc Hi) as (_ & Hnt & Hr).
    destruct Hroam as [->|[->|Ht]]; [by apply Hc|lia|congruence]. }
  constructor; [done| |done|done|by destruct K as (_ & Hsm & _); change (fsi_flag (fs v') = fsi_flag (fs (vol s))); rewrite Hsm|done|].
  - constructor; cbn; [done|intros; by apply kept_entry; [apply Hc|..]|]. intros t [Hl _] _. by apply K.
  - intros i Hi. unfold cached. cbn. destruct (stable_snum _ _ cs i Hst) as [_ ->]. destruct (_ && _); [done|]. by apply Hmed.
Qed.

(** A step of the drive that leaves the medium alone. *)
Lemma quiet_dev s cs d : core_ok s cs -> (forall t, medium d t = medium (dev (vol s)) t) ->
  quiet s (s <| vol ::= set dev (fun _ => d) |>) cs.
Proof.
  intros Hc Hm. pose proof (kept_dev (vol s) d (co_vol _ _ Hc) Hm) as K.
  destruct s as [v n fp]. cbn in *. apply (quiet_kept (MkFileSys v n fp) cs (v <| dev := d |>)); [done|done|by left].
Qed.

(** ** Steps of the file object *)

Lemma on_vol_eq {A} (m : ST (Vol D) A) s x v : m (vol s) = Some (x, v) -> on_vol m s = Some (x, s <| vol := v |>).
Proof. intros E. unfold on_vol. by rewrite E. Qed.

Lemma on_drive_eq {A} (m : ST D A) s x d : m (dev (vol s)) = Some (x, d) ->
  on_vol (on_dev m) s = Some (x, s <| vol ::= set dev (fun _ => d) |>).
Proof. intros E. by rewrite (on_vol_eq _ _ _ _ (on_dev_eq _ _ _ _ E)). Qed.

Lemma upd_fil_bind {A} f (k : unit -> ST (FileSys D) A) s : (upd_fil f ≫= k) s = k tt (s <| file ::= f |>).
Proof. apply st_mod_bind. Qed.

Lemma fil_bind {A B} (f : FIL -> A) (k : A -> ST (FileSys D) B) s : (fil f ≫= k) s = k (f (file s)) s.
Proof. done. Qed.

Lemma fatfs_bind {A B} (f : FATFS -> A) (k : A -> ST (FileSys D) B) s : (fatfs f ≫= k) s = k (f (fs (vol s))) s.
Proof. done. Qed.

(** The bits of the flags. *)
Lemma has_clear b f : 0 <= b < 7 -> has (2 ^ b) (clear FA_DIRTY f) = has (2 ^ b) f.
Proof.
  intros Hb. unfold has, clear, FA_DIRTY. f_equal. f_equal. rewrite <- Z.land_assoc. f_equal.
  assert (b = 0 \/ b = 1 \/ b = 2 \/ b = 3 \/ b = 4 \/ b = 5 \/ b = 6) as [->|[->|[->|[->|[->|[->| ->]]]]]] by lia; done.
Qed.

Lemma clean_clear f : has FA_DIRTY (clear FA_DIRTY f) = false.
Proof. unfold has, clear, FA_DIRTY. by rewrite <- Z.land_assoc, Z.land_0_r. Qed.

Lemma clear_clear f : clear FA_DIRTY (clear FA_DIRTY f) = clear FA_DIRTY f.
Proof. unfold clear, FA_DIRTY. by rewrite <- Z.land_assoc. Qed.

Lemma dirty_lor f : has FA_DIRTY (Z.lor FA_DIRTY f) = true.
Proof.
  unfold has, FA_DIRTY. rewrite Z.land_lor_distr_l. apply negb_true_iff, Z.eqb_neq. intros E.
  apply Z.lor_eq_0_iff in E as [E _]. discriminate E.
Qed.

Lemma clear_lor f : clear FA_DIRTY (Z.lor FA_DIRTY f) = clear FA_DIRTY f.
Proof. unfold clear, FA_DIRTY. by rewrite Z.land_lor_distr_l. Qed.

(** Sectors of the file are written on the medium. *)
Lemma vol_write v d (X : Z -> Prop) : vol_ok v -> (forall t, X t -> ~ in_table (fs v) t /\ t <> winsect (fs v)) ->
  (forall t, ~ X t -> medium d t = medium (dev v) t) ->
  vol_ok (v <| dev := d |>) /\ (forall t, ~ X t -> view (v <| dev := d |>) t = view v t) /\
  (forall c, cluster (fs v) c -> entry (v <| dev := d |>) c = entry v c).
Proof.
  intros Hv HX Hm. pose proof Hv as [Hg Hw Hs Hf]. destruct v as [f d0]. cbn in *.
  assert (Hview : forall t, ~ X t -> view (MkVol f d) t = view (MkVol f d0) t).
  { intros t Ht. unfold view. cbn. destruct (_ =? _); [done|by apply Hm]. }
  assert (Hnw : ~ X (winsect f)) by (intros Hx; by apply HX in Hx as [_ ?]).
  splits; [|exact Hview|].
  - constructor; cbn; [done..|]. by rewrite Hm.
  - intros c Hc. destruct (cluster_bytes _ _ Hg Hc) as (_ & H12 & H16 & H32). cbn in *.
    assert (Hb : forall k, in_fat f k -> fat_byte (MkVol f d) k = fat_byte (MkVol f d0) k).
    { intros k Hk. unfold fat_byte. cbn. rewrite Hview; [done|]. intros Hx. apply HX in Hx as [Hx _]. apply Hx.
      unfold in_table, in_fat, SS in *. divs. }
    unfold entry, entry_of. cbn. destruct Hg as [[E|[E|E]] _ _ _ _ _]; rewrite E; cbn [Z.eqb Pos.eqb FS_FAT12 FS_FAT16 FS_FAT32].
    + destruct (H12 E). cbn. by rewrite !Hb by done.
    + destruct (H16 E). cbn. by rewrite !Hb by done.
    + destruct (H32 E) as (? & ? & ? & ?). cbn. by rewrite !Hb by done.
Qed.

(** A change of sectors of the file on the medium and of its object. *)
Lemma core_write s cs d fp' (X : Z -> Prop) : core_ok s cs ->
  (forall t, X t -> exists i, 0 <= i < span (fs (vol s)) cs /\ t = snum (fs (vol s)) cs i) ->
  (forall t, ~ X t -> medium d t = medium (dev (vol s)) t) ->
  sclust fp' = sclust (file s) ->
  0 <= objsize fp' < 2 ^ 32 /\ objsize fp' <= SS * span (fs (vol s)) cs ->
  sector (buf fp') ->
  (dirty fp' = true -> exists i, 0 <= i < span (fs (vol s)) cs /\ sect fp' = snum (fs (vol s)) cs i) ->
  (forall i, dirty fp' = false -> 0 <= i < span (fs (vol s)) cs -> SS * i < objsize fp' -> sect fp' = snum (fs (vol s)) cs i ->
     buf fp' = medium d (sect fp')) ->
  let s' := MkFileSys ((vol s) <| dev := d |>) (fs_id s) fp' in
  core_ok s' cs /\ frame s s' cs /\ (room (vol s) -> room (vol s')).
Proof.
  intros Hc HX Hm Hscl Hsize Hbuf Hdirty Hclean s'. pose proof (core_clusters s cs Hc) as Hcs.
  destruct (vol_write (vol s) d X) as (Hv & Hview & Hent); [apply Hc| |done|].
  { intros t Ht. destruct (HX t Ht) as (i & Hi & ->). destruct (file_snum s cs i Hc Hi) as (_ & Hn & _).
    split; [done|]. intros E. by apply (co_away _ _ Hc i). }
  destruct s as [[f d0] n fp]. cbn in *. splits; cycle 2.
  - by apply (room_same (MkVol f d0) (MkVol f d)); [apply Hc|..].
  - constructor; cbn; try done; try apply Hc. rewrite Hscl. destruct (co_chain _ _ Hc) as [?|Hl]; [by left|right]. cbn in *.
    apply linked_ext with (entry (MkVol f d0)); [|done]. intros a Ha. apply Hent.
    unfold clusters in Hcs. rewrite List.Forall_forall in Hcs. by apply Hcs.
  - constructor; cbn; [apply stable_refl|intros c Hc' _; by apply Hent|]. intros t Ht Hi. apply Hview.
    intros Hx. destruct (HX t Hx) as (i & Hr & ->). by apply (Hi i).
Qed.

(** A change of the file object alone. *)
Lemma core_file s cs fp' : core_ok s cs ->
  sclust fp' = sclust (file s) ->
  0 <= objsize fp' < 2 ^ 32 /\ objsize fp' <= SS * span (fs (vol s)) cs ->
  sector (buf fp') ->
  (dirty fp' = true -> exists i, 0 <= i < span (fs (vol s)) cs /\ sect fp' = snum (fs (vol s)) cs i) ->
  (forall i, dirty fp' = false -> 0 <= i < span (fs (vol s)) cs -> SS * i < objsize fp' -> sect fp' = snum (fs (vol s)) cs i ->
     buf fp' = medium (dev (vol s)) (sect fp')) ->
  core_ok (s <| file := fp' |>) cs /\ frame s (s <| file := fp' |>) cs.
Proof.
  intros Hc. intros. destruct (core_write s cs (dev (vol s)) fp' (fun _ => False)) as (Hx & Hy & _); try done.
  destruct s as [[f d0] n fp]. by split.
Qed.

Lemma medium_law s (b : list Z) : sector b -> Z.of_nat (length b) = SS * 1 /\ Forall is_u8 b.
Proof. intros [Hl Hb]. unfold SS. split; [lia|done]. Qed.

(** The dirty buffer is written back. *)
Lemma flush_ok s cs : core_ok s cs ->
  exists r s', flush s = Some (r, s') /\
    (r = FR_OK /\ quiet s s' cs /\ dirty (file s') = false /\ sect (file s') = sect (file s) \/
     r = FR_DISK_ERR /\ ~ reliable D).
Proof.
  intros Hc. unfold flush. rewrite fil_bind. unfold id. fold (dirty (file s)). destruct (dirty (file s)) eqn:Hd.
  2: { exists FR_OK, s. split; [done|left]. by splits; [|apply quiet_refl|..]. }
  rewrite fatfs_bind. pose proof (co_buf _ _ Hc) as Hb.
  destruct (write_law (pdrv (fs (vol s))) (buf (file s)) (sect (file s)) (dev (vol s)) Hb) as (r & d & E & Hm & Hr).
  rewrite (st_bind_eq _ _ _ _ _ (on_drive_eq _ _ _ _ E)).
  destruct (r =? RES_OK) eqn:Er; zb; cbn [negb].
  2: { eexists _, _. split; [done|right]. split; [done|]. intros Hrel. by apply Er, (reliable_write _ Hrel _ _ _ _ _ _ _ E). }
  specialize (Hr Er). rewrite upd_fil_bind. eexists _, _. split; [reflexivity|left]. split; [done|].
  set (fp' := (file s) <| flag ::= clear FA_DIRTY |>).
  assert (Hclean : dirty fp' = false) by (unfold dirty, fp'; destruct (file s); apply clean_clear).
  destruct (co_dirty _ _ Hc Hd) as (i & Hi & Ei).
  destruct (core_write s cs d fp' (fun t => t = sect (file s))) as (Hcore & Hframe & Hroom); try done.
  - intros t ->. by exists i.
  - exact (co_size _ _ Hc).
  - by rewrite Hclean.
  - assert (Es : s <| vol ::= set dev (fun _ => d) |> <| file ::= set flag (clear FA_DIRTY) |> =
      MkFileSys ((vol s) <| dev := d |>) (fs_id s) fp') by (by destruct s as [[] ? []]).
    cbn [mret ST_ret]. rewrite Es. splits; [|done|by subst fp'; destruct (file s)].
    constructor; [done|done| |done|by destruct s as [[] ? ?]|done|].
    + subst fp'. cbn. destruct (file s). unfold head. cbn. by rewrite clear_clear.
    + intros j Hj. unfold cached. cbn. rewrite Hclean. cbn [andb].
      replace (fs ((vol s) <| dev := d |>)) with (fs (vol s)) by (by destruct (vol s)).
      replace (dev ((vol s) <| dev := d |>)) with d by (by destruct (vol s)).
      rewrite Hd. cbn [andb]. destruct (_ =? sect (file s)) eqn:E'; zb; [by rewrite E', Hr|by apply Hm].
Qed.

(** A sector is read into the buffer. *)
Lemma fill_ok s t : sector (buf (file s)) ->
  exists r b d, fill t s = Some (r, MkFileSys ((vol s) <| dev := d |>) (fs_id s) ((file s) <| buf := b |>)) /\
    sector b /\ (forall u, medium d u = medium (dev (vol s)) u) /\
    (r = FR_OK /\ b = medium (dev (vol s)) t \/ r = FR_DISK_ERR /\ ~ reliable D).
Proof.
  intros Hb. unfold fill. rewrite fatfs_bind, fil_bind. unfold id.
  destruct (read_law (pdrv (fs (vol s))) (buf (file s)) t (dev (vol s)) Hb) as (r & b & d & E & Hb' & Hm & Hr).
  rewrite (st_bind_eq _ _ _ _ _ (on_drive_eq _ _ _ _ E)). rewrite upd_fil_bind.
  exists (if negb (r =? RES_OK) then FR_DISK_ERR else FR_OK), b, d. splits; [by destruct s as [[] ? []]|done|done|].
  destruct (r =? RES_OK) eqn:Er; zb; cbn [negb]; [left; by split; [|apply Hr]|right]. split; [done|].
  intros Hrel. by apply Er, (reliable_read _ Hrel _ _ _ _ _ _ _ _ E).
Qed.

(** The clean buffer is for another sector now. *)
Lemma refill_ok s cs b d t : core_ok s cs -> dirty (file s) = false -> sector b ->
  (forall u, medium d u = medium (dev (vol s)) u) ->
  (forall i, 0 <= i < span (fs (vol s)) cs -> SS * i < objsize (file s) -> t = snum (fs (vol s)) cs i ->
     b = medium (dev (vol s)) t) ->
  quiet s (MkFileSys ((vol s) <| dev := d |>) (fs_id s) ((file s) <| buf := b |> <| sect := t |>)) cs.
Proof.
  intros Hc Hd Hb Hm Hbt. set (fp' := (file s) <| buf := b |> <| sect := t |>).
  assert (Hd' : dirty fp' = false) by exact Hd.
  destruct (core_write s cs d fp' (fun _ => False)) as (Hcore & Hframe & Hroom); try done.
  - exact (co_size _ _ Hc).
  - by rewrite Hd'.
  - intros i _ Hi Ho Et. rewrite Hm. by apply (Hbt i).
  - constructor; [done|done|done|done|by destruct s as [[] ? ?]|done|]. intros i Hi. unfold cached. cbn. rewrite Hd'. rewrite Hd. cbn [andb]. apply Hm.
Qed.

(** The buffer is made to hold sector [i] of the file. *)
Lemma load_ok s cs i : core_ok s cs -> 0 <= i < span (fs (vol s)) cs -> SS * i < objsize (file s) ->
  exists r s', load (snum (fs (vol s)) cs i) s = Some (r, s') /\
    (r = FR_OK /\ quiet s s' cs /\ sect (file s') = snum (fs (vol s)) cs i /\ buf (file s') = cached s cs i \/
     r = FR_DISK_ERR /\ ~ reliable D).
Proof.
  intros Hc Hi Ho. unfold load. rewrite fil_bind. set (t := snum (fs (vol s)) cs i).
  destruct (sect (file s) =? t) eqn:Et; zb; cbn [negb].
  - rewrite st_ret_bind. cbn [Z.eqb negb FR_OK]. rewrite upd_fil_bind.
    assert (Es : s <| file ::= set sect (fun _ => t) |> = s) by (rewrite <- Et; by destruct s as [? ? []]).
    rewrite Es. exists FR_OK, s. split; [done|left]. splits; [done|by apply quiet_refl|done|].
    unfold cached. fold t. destruct (dirty (file s)) eqn:Hd; cbn [andb]; [by ztest|]. rewrite <- Et. by apply (co_clean _ _ Hc i).
  - destruct (flush_ok s cs Hc) as (r & s1 & E1 & [(-> & Q1 & Hd1 & Hs1)|[-> Hrel]]).
    2: { rewrite (st_bind_eq _ _ s FR_DISK_ERR s1) by (by rewrite (st_bind_eq _ _ _ _ _ E1)).
         eexists _, _. split; [done|by right]. }
    destruct (fill_ok s1 t) as (r & b & d & E2 & Hb & Hm & Hr); [apply Q1|].
    rewrite (st_bind_eq _ _ s r (MkFileSys ((vol s1) <| dev := d |>) (fs_id s1) ((file s1) <| buf := b |>)))
      by (by rewrite (st_bind_eq _ _ _ _ _ E1)).
    destruct Hr as [[-> Hbt]|[-> Hrel]]; [|eexists _, _; split; [done|by right]].
    cbn [Z.eqb negb FR_OK]. rewrite upd_fil_bind. eexists _, _. split; [reflexivity|left].
    pose proof (qu_core _ _ _ Q1) as Hc1. destruct (stable_snum _ _ cs i (fr_stable _ _ _ (qu_frame _ _ _ Q1))) as [Ei En].
    assert (Q2 : quiet s1 (MkFileSys ((vol s1) <| dev := d |>) (fs_id s1) ((file s1) <| buf := b |> <| sect := t |>)) cs)
      by (by apply refill_ok).
    splits; [done|by apply quiet_trans with s1|done|]. cbn. rewrite <- (qu_cached _ _ _ Q1) by done.
    unfold cached. rewrite Hd1, En. done.
Qed.

(** ** Following the chain *)

Lemma linked_lookup E n c cs : linked E n c cs -> cs.[0] = Some c /\
  forall j a b, cs.[j] = Some a -> cs.[j + 1] = Some b -> E a = b.
Proof.
  revert c. induction cs as [|a [|b cs] IH]; intros c Hl; [done| |].
  - destruct Hl as (-> & _). split; [done|]. intros j x y Hx Hy.
    apply arr_get_lt in Hx, Hy. cbn in *. lia.
  - apply linked_cons in Hl as (-> & _ & Hl). destruct (IH _ Hl) as [H0 Hnext]. split; [done|].
    intros j x y Hx Hy. destruct (decide (j = 0)) as [->|Hj].
    + assert (Ex : Some a = Some x) by exact Hx. assert (Ey : Some b = Some y) by exact Hy.
      assert (E0 : Some b = Some (E a)) by exact H0. congruence.
    + pose proof (arr_get_lt _ _ _ Hx). apply (Hnext (j - 1)).
      * apply arr_get_Some in Hx as [_ Hx]. apply arr_get_Some. split; [lia|].
        replace (Z.to_nat j) with (S (Z.to_nat (j - 1))) in Hx by lia. done.
      * apply arr_get_Some in Hy as [_ Hy]. apply arr_get_Some. split; [lia|].
        replace (Z.to_nat (j + 1)) with (S (Z.to_nat (j - 1 + 1))) in Hy by lia. done.
Qed.

(** The last cluster of a chain ends it. *)
Lemma linked_last E n c cs a : linked E n c cs -> cs.[Z.of_nat (length cs) - 1] = Some a -> n <= E a.
Proof.
  revert c. induction cs as [|b [|b' cs] IH]; intros c Hl Ha; [done| |].
  - destruct Hl as (-> & _ & ?). by injection Ha as <-.
  - apply linked_cons in Hl as (-> & _ & Hl). apply (IH _ Hl). apply arr_get_Some in Ha as [_ Ha].
    apply arr_get_Some. split; [cbn; lia|]. cbn [length] in *.
    replace (Z.to_nat (Z.of_nat (S (S (length cs))) - 1)) with (S (length cs)) in Ha by lia.
    replace (Z.to_nat (Z.of_nat (S (length cs)) - 1)) with (length cs) by lia. done.
Qed.

(** The next cluster of the file, from the table. *)
Lemma next_cluster s cs j a b : core_ok s cs -> cs.[j] = Some a -> cs.[j + 1] = Some b ->
  exists r s', on_vol (get_fat a) s = Some (r, s') /\ quiet s s' cs /\
    (r = b \/ r = DISK_ERROR /\ ~ reliable D) /\ file s' = file s.
Proof.
  intros Hc Ha Hb. pose proof (core_clusters s cs Hc) as Hcs.
  assert (Hca : cluster (fs (vol s)) a).
  { apply arr_get_Some in Ha as [_ Ha]. by apply (Forall_lookup_1 _ _ _ _ Hcs Ha). }
  destruct (get_fat_ok (vol s) a (co_vol _ _ Hc) Hca) as (r & v' & E & K & Hr).
  exists r, (s <| vol := v' |>). splits; [by apply on_vol_eq| | |done].
  - apply quiet_kept; [done|done|].
    destruct (moves_get_fat (fs (vol s)) (vol_geo _ (co_vol _ _ Hc)) (winsect (fs (vol s))) a _ _ _ (stable_refl _)
      (or_introl eq_refl) E) as [_ [Hroam _]]. exact Hroam.
  - destruct Hr as [->|Hr]; [left|by right]. destruct (co_chain _ _ Hc) as [[_ ->]|Hl]; [by apply arr_get_lt in Ha; cbn in Ha; lia|].
    destruct (linked_lookup _ _ _ _ Hl) as [_ Hnext]. by apply (Hnext j).
Qed.
End file.
