(* ===== verification/MountFacts.v ===== *)
(** * MountFacts: mounting establishes the invariant of a volume

    [mount_volume] never writes, always returns, and what it mounts has the geometry and
    the data area that the functions on the table and on files rely on, when the sizes
    in the boot sector do not wrap around 32 bits. *)

From S2P Require Import Prelude FatWords Blocks Fat FatFacts FatChain File FileFacts Mount.

(** ** Words of a sector *)

Definition word w (o : Z) : Z := default 0 (ld_word w o).
Definition dword w (o : Z) : Z := default 0 (ld_dword w o).

Lemma ld_word_total w o : sector w -> 0 <= o -> o + 1 < 512 -> ld_word w o = Some (word w o) /\ 0 <= word w o < 2 ^ 16.
Proof.
  intros Hs Ho Hl. destruct (sector_byte w o Hs ltac:(lia)) as (x & Ex & Hx). destruct (sector_byte w (o + 1) Hs ltac:(lia)) as (y & Ey & Hy).
  unfold word. rewrite (ld_word_eq w o x y) by done. unfold is_u8 in *. cbn. split; [done|lia].
Qed.

Lemma ld_dword_total w o : sector w -> 0 <= o -> o + 3 < 512 -> ld_dword w o = Some (dword w o) /\ 0 <= dword w o < 2 ^ 32.
Proof.
  intros Hs Ho Hl. destruct (sector_byte w o Hs ltac:(lia)) as (x & Ex & Hx). destruct (sector_byte w (o + 1) Hs ltac:(lia)) as (y & Ey & Hy).
  destruct (sector_byte w (o + 2) Hs ltac:(lia)) as (z & Ez & Hz). destruct (sector_byte w (o + 3) Hs ltac:(lia)) as (t & Et & Ht).
  unfold dword. rewrite (ld_dword_eq w o x y z t) by done. unfold is_u8 in *. cbn. split; [done|lia].
Qed.

Lemma boot_status_total w : sector w -> exists r, boot_status w = Some r /\ (r = 0 \/ r = 2 \/ r = 3).
Proof.
  intros Hs. unfold boot_status, BS_55AA, BS_JmpBoot, BPB_BytsPerSec, BPB_SecPerClus, BPB_RsvdSecCnt, BPB_NumFATs, BPB_RootEntCnt,
    BPB_TotSec16, BPB_TotSec32, BPB_FATSz16, BS_FilSysType32.
  destruct (sector_byte w 0 Hs) as (b & -> & _); [lia|]. destruct (sector_byte w 13 Hs) as (spc & -> & _); [lia|].
  destruct (sector_byte w 16 Hs) as (nf & -> & _); [lia|].
  rewrite (proj1 (ld_word_total w 510 Hs ltac:(lia) ltac:(lia))), (proj1 (ld_word_total w 11 Hs ltac:(lia) ltac:(lia))),
    (proj1 (ld_word_total w 14 Hs ltac:(lia) ltac:(lia))), (proj1 (ld_word_total w 17 Hs ltac:(lia) ltac:(lia))),
    (proj1 (ld_word_total w 19 Hs ltac:(lia) ltac:(lia))), (proj1 (ld_word_total w 22 Hs ltac:(lia) ltac:(lia))),
    (proj1 (ld_dword_total w 32 Hs ltac:(lia) ltac:(lia))), peek_range by (destruct Hs; lia).
  cbn [mbind option_bind]. repeat case_match; eexists; (split; [reflexivity|]); tauto.
Qed.

(** ** The analysis *)

(** The sizes of the boot sector [w] at [b]: they do not wrap around. *)
Definition table_size w : Z := if word w BPB_FATSz16 =? 0 then dword w BPB_FATSz32 else word w BPB_FATSz16.
Definition total_size w : Z := if word w BPB_TotSec16 =? 0 then dword w BPB_TotSec32 else word w BPB_TotSec16.
Definition fits w (b : Z) : Prop :=
  b + word w BPB_RsvdSecCnt + 2 * table_size w + word w BPB_RootEntCnt / 16 < 2 ^ 32 /\ b + total_size w <= NO_SECTOR.

Lemma table_size_range w : sector w -> 0 <= table_size w < 2 ^ 32.
Proof.
  intros Hs. unfold table_size. pose proof (ld_word_total w BPB_FATSz16 Hs ltac:(done) ltac:(done)).
  pose proof (ld_dword_total w BPB_FATSz32 Hs ltac:(done) ltac:(done)). zcase; lia.
Qed.

(** A byte without lower bits in common with its predecessor is a power of two. *)
Lemma power_of_two x : 0 < x < 256 -> Z.land x (x - 1) = 0 -> exists e, 0 <= e <= 7 /\ x = 2 ^ e.
Proof.
  intros Hx Hl. exists (Z.log2 x). pose proof (Z.log2_spec x ltac:(lia)) as Hs. pose proof (Z.log2_nonneg x).
  assert (He : Z.log2 x <= 7). { pose proof (Z.log2_le_mono x 255 ltac:(lia)) as Hm. exact Hm. }
  split; [lia|]. set (e := Z.log2 x) in *. destruct (decide (x = 2 ^ e)) as [|Hne]; [done|exfalso].
  assert (Hb1 : Z.testbit x e = true) by (apply Z.bit_log2; lia).
  assert (Hb2 : Z.testbit (x - 1) e = true).
  { assert (El : Z.log2 (x - 1) = e) by (apply Z.log2_unique; lia). rewrite <- El. apply Z.bit_log2. lia. }
  assert (Hb : Z.testbit (Z.land x (x - 1)) e = true) by (by rewrite Z.land_spec, Hb1, Hb2).
  by rewrite Hl, Z.bits_0 in Hb.
Qed.

(** What the analysis keeps of the volume object. *)
Definition rest_of (f : FATFS) := (pdrv f, wflag f, fsi_flag f, last_clst f, free_clst f, winsect f, win f, fs_type f).

(** A valid volume, from the boot sector [w] at [b]. *)
Record analysed w (b fmt : Z) (f : FATFS) : Prop := Analysed {
  an_type : fmt = FS_FAT12 \/ fmt = FS_FAT16 \/ fmt = FS_FAT32;
  an_kind : fmt = fat_type (n_fatent f - 2);
  an_base : volbase f = b;
  an_rsv : 0 < word w BPB_RsvdSecCnt < 2 ^ 16;
  an_root : 0 <= word w BPB_RootEntCnt < 2 ^ 16;
  an_fats : n_fats f = 1 \/ n_fats f = 2;
  an_size : fsize f = table_size w;
  an_csize : exists e, 0 <= e <= 7 /\ csize f = 2 ^ e;
  an_fatbase : fatbase f = u32 (b + word w BPB_RsvdSecCnt);
  an_database : database f = u32 (b + u32 (word w BPB_RsvdSecCnt + u32 (table_size w * n_fats f) + word w BPB_RootEntCnt / 16));
  an_count : 1 <= n_fatent f - 2 <= MAX_FAT32 /\
    csize f * (n_fatent f - 2) <= total_size w - u32 (word w BPB_RsvdSecCnt + u32 (table_size w * n_fats f) + word w BPB_RootEntCnt / 16);
  an_table : table_bytes fmt (n_fatent f) <= SS * fsize f
}.

Lemma fat_type_spec n : 0 < n ->
  (fat_type n = 0 /\ MAX_FAT32 < n) \/
  (fat_type n = FS_FAT12 /\ n <= MAX_FAT12) \/ (fat_type n = FS_FAT16 /\ n <= MAX_FAT16) \/ (fat_type n = FS_FAT32 /\ n <= MAX_FAT32).
Proof. intros Hn. unfold fat_type. repeat zcase; tauto. Qed.

(** The bytes the table needs. *)
Definition need fmt n : Z :=
  if fmt =? FS_FAT32 then u32 (n * 4) else if fmt =? FS_FAT16 then u32 (n * 2) else u32 (u32 (n * 3) / 2 + Z.land n 1).

Lemma need_table fmt n : fmt = FS_FAT12 \/ fmt = FS_FAT16 \/ fmt = FS_FAT32 -> fmt = fat_type (n - 2) ->
  3 <= n -> need fmt n = table_bytes fmt n /\ 0 <= need fmt n < 2 ^ 31.
Proof.
  intros Hf Hk Hn. destruct (fat_type_spec (n - 2)) as [[E _]|[[E H]|[[E H]|[E H]]]]; [lia|..]; rewrite E in Hk; subst fmt; clear E;
    [destruct Hf as [|[|]]; discriminate|..]; unfold need, table_bytes, MAX_FAT12, MAX_FAT16, MAX_FAT32 in *; cbn [Z.eqb Pos.eqb FS_FAT12 FS_FAT16 FS_FAT32].
  - change (Z.land n 1) with (Z.land n (Z.ones 1)). rewrite Z.land_ones by lia. rewrite (u32_small (n * 3)) by lia. rewrite u32_small by divs. split; divs.
  - rewrite u32_small by lia. lia.
  - rewrite u32_small by lia. lia.
Qed.

Lemma init_root_ok w fmt fasize f : sector w ->
  exists o f', init_root w fmt fasize f = Some (o, f') /\ (o = None \/ o = Some (need fmt (n_fatent f))) /\
    exists d, f' = f <| dirbase := d |>.
Proof.
  intros Hs. assert (Ef : f <| dirbase := dirbase f |> = f) by (by destruct f). unfold init_root, need, BPB_FSVer32, BPB_RootClus32.
  rewrite (proj1 (ld_word_total w 42 Hs ltac:(lia) ltac:(lia))), (proj1 (ld_dword_total w 44 Hs ltac:(lia) ltac:(lia))).
  cbn [mbind option_bind]. destruct (fmt =? FS_FAT32).
  - destruct (_ || _); eexists _, _; (split; [reflexivity|]); (split; [first [by left|by right]|]); [exists (dirbase f); by rewrite Ef|by eexists].
  - destruct (n_rootdir f =? 0); eexists _, _; (split; [reflexivity|]); (split; [first [by left|by right]|]); [exists (dirbase f); by rewrite Ef|by eexists].
Qed.

Lemma init_fat_ok w b f : sector w -> 0 <= b < 2 ^ 32 ->
  exists fmt f', init_fat w b f = Some (fmt, f') /\ rest_of f' = rest_of f /\ (fmt = 0 \/ analysed w b fmt f').
Proof.
  intros Hs Hb. remember (rest_of f) as R eqn:ER. destruct f as [ty pd nf0 wf fi nr cz lc fc ne fz vb fb db da ws wn]. unfold init_fat.
  assert (Hw : forall o, 0 <= o -> o + 1 < 512 -> ld_word w o = Some (word w o)) by (intros; by apply ld_word_total).
  assert (Hd : forall o, 0 <= o -> o + 3 < 512 -> ld_dword w o = Some (dword w o)) by (intros; by apply ld_dword_total).
  destruct (sector_byte w 16 Hs) as (nf & Enf & Hnf); [lia|]. destruct (sector_byte w 13 Hs) as (spc & Espc & Hspc); [lia|].
  change (w.[BPB_NumFATs]) with (w.[16]). change (w.[BPB_SecPerClus]) with (w.[13]). rewrite Enf, Espc.
  rewrite !Hw, !Hd by done.
  cbv [mbind option_bind set settable FATFS_settable fs_type pdrv n_fats wflag fsi_flag n_rootdir csize last_clst free_clst
       n_fatent fsize volbase fatbase dirbase database winsect win].
  fold (table_size w) (total_size w).
  change (SS / SZDIRE) with 16. pose proof (table_size_range w Hs) as Hts.
  pose proof (proj2 (ld_word_total w BPB_RsvdSecCnt Hs ltac:(done) ltac:(done))) as Hrsv.
  pose proof (proj2 (ld_word_total w BPB_RootEntCnt Hs ltac:(done) ltac:(done))) as Hroot.
  set (sys := u32 (word w BPB_RsvdSecCnt + u32 (table_size w * nf) + word w BPB_RootEntCnt / 16)).
  assert (Hno : forall g, rest_of g = R -> exists fmt f', Some (0, g) = Some (fmt, f') /\ rest_of f' = R /\ (fmt = 0 \/ analysed w b fmt f'))
    by (intros g Hg; exists 0, g; by splits; [| |left]).
  destruct (word w BPB_BytsPerSec =? SS) eqn:E1; cbn [negb]; [|by apply Hno].
  destruct (negb (nf =? 1) && negb (nf =? 2)) eqn:E2; [by apply Hno|].
  assert (Hfats : nf = 1 \/ nf = 2) by (apply andb_false_iff in E2 as [E2|E2]; apply negb_false_iff, Z.eqb_eq in E2; tauto). clear E2.
  destruct ((spc =? 0) || negb (Z.land spc (spc - 1) =? 0)) eqn:E3; [by apply Hno|].
  apply orb_false_iff in E3 as [E3 E3']. apply negb_false_iff in E3'.
  destruct (word w BPB_RootEntCnt mod 16 =? 0) eqn:E4; cbn [negb]; [|by apply Hno].
  destruct (word w BPB_RsvdSecCnt =? 0) eqn:E5; [by apply Hno|].
  destruct (total_size w <? sys) eqn:E6; [by apply Hno|]. set (n := (total_size w - sys) / spc).
  destruct (n =? 0) eqn:E7; [by apply Hno|]. destruct (fat_type n =? 0) eqn:E8; [by apply Hno|].
  zb. unfold is_u8 in *.
  assert (Hn : 0 < n) by (unfold n in *; pose proof (Z.div_pos (total_size w - sys) spc ltac:(lia) ltac:(lia)); lia).
  assert (Hle : spc * n <= total_size w - sys) by (by apply Z.mul_div_le; lia).
  destruct (fat_type_spec n Hn) as [[? _]|Ht]; [done|].
  assert (Hmax : n <= MAX_FAT32) by (unfold MAX_FAT12, MAX_FAT16, MAX_FAT32 in *; lia).
  assert (Ekind : fat_type n = FS_FAT12 \/ fat_type n = FS_FAT16 \/ fat_type n = FS_FAT32) by tauto.
  rewrite (u32_small (n + 2)) by (unfold MAX_FAT32 in *; lia).
  match goal with |- context [init_root w ?a ?c ?g] => destruct (init_root_ok w a c g Hs) as (o & f' & -> & Ho & d & ->) end.
  cbv [mbind option_bind set settable FATFS_settable fs_type pdrv n_fats wflag fsi_flag n_rootdir csize last_clst free_clst
       n_fatent fsize volbase fatbase dirbase database winsect win] in Ho |- *. destruct Ho as [->| ->]; [by apply Hno|]. cbn [n_fatent fsize]. 
  destruct (need_table (fat_type n) (n + 2)) as [En Hneed]; [done|by replace (n + 2 - 2) with n by lia|lia|].
  rewrite En in *. destruct (_ <? _) eqn:E9; [by apply Hno|]. zb.
  eexists _, _. split; [reflexivity|]. split; [by subst R|]. right.
  constructor; cbn; replace (n + 2 - 2) with n by lia; try done; try lia.
  - by apply power_of_two; [lia|].
  - rewrite u32_small in E9 by (unfold SS in *; lia). unfold SS in *. revert E9. clear. intros. divs.
Qed.

(** The analysis gives the invariant where the sizes do not wrap around. *)
Lemma analysed_ok w b fmt f : sector w -> 0 <= b -> analysed w b fmt f -> fits w b -> fs_type f = fmt ->
  geometry_ok f /\ data_ok f.
Proof.
  intros Hs Hb [Htype Hkind Hbase Hrsv Hroot Hfats Hsize Hcs Hfb Hdb [Hcount Hdata] Htab] [Hfit Hend] Et.
  pose proof (table_size_range w Hs) as Hts. assert (Hr16 : 0 <= word w BPB_RootEntCnt / 16) by (apply Z.div_pos; lia).
  assert (Hm : u32 (table_size w * n_fats f) = table_size w * n_fats f) by (apply u32_small; destruct Hfats as [->| ->]; lia).
  rewrite Hm in *. assert (Hsys : u32 (word w BPB_RsvdSecCnt + table_size w * n_fats f + word w BPB_RootEntCnt / 16) =
    word w BPB_RsvdSecCnt + table_size w * n_fats f + word w BPB_RootEntCnt / 16) by (apply u32_small; destruct Hfats as [->| ->]; lia).
  rewrite Hsys in *. rewrite u32_small in Hfb by lia. rewrite u32_small in Hdb by (destruct Hfats as [->| ->]; lia).
  assert (H0 : 0 < table_size w).
  { rewrite <- Hsize. unfold table_bytes, SS in Htab. revert Htab. repeat case_match; intros; divs. }
  split.
  - constructor; rewrite ?Et; [done|lia|lia|lia| |done]. unfold end_of_chain.
    destruct (fat_type_spec (n_fatent f - 2)) as [[E _]|[[E Hn]|[[E Hn]|[E Hn]]]]; [lia|..]; rewrite E in Hkind; rewrite Hkind in Htype |- *;
      [by destruct Htype as [|[|]]|..]; unfold MAX_FAT12, MAX_FAT16, MAX_FAT32 in *; cbn [Z.eqb Pos.eqb FS_FAT12 FS_FAT16 FS_FAT32]; lia.
  - constructor; [done|done| |].
    + rewrite Hfb, Hdb, Hsize. lia.
    + rewrite Hdb. lia.
Qed.

Section mount.
Context `{DL : DiskLaws D}.
Implicit Types v : Vol D.

(** The window has been read and not written, or holds nothing. *)
Definition idle v : Prop :=
  sector (win (fs v)) /\ wflag (fs v) = 0 /\ 0 <= winsect (fs v) <= NO_SECTOR /\
  (winsect (fs v) = NO_SECTOR \/ win (fs v) = medium (dev v) (winsect (fs v))).

Definition unwritten v v' : Prop := forall t, medium (dev v') t = medium (dev v) t.

Lemma idle_vol v : idle v -> geometry_ok (fs v) -> vol_ok v.
Proof. intros (Hs & Hw & Hr & Hc) Hg. constructor; [done|done|done|by left]. Qed.

Lemma move_clean v sect : idle v -> 0 <= sect <= NO_SECTOR ->
  exists r v', move_window sect v = Some (r, v') /\ idle v' /\ same (fs v) (fs v') /\ unwritten v v' /\
    (r = FR_OK /\ winsect (fs v') = sect /\ (winsect (fs v) = sect -> v' = v) \/ r = FR_DISK_ERR /\ ~ reliable D).
Proof.
  intros Hi Hsect. pose proof Hi as (Hs & Hw & Hr & Hc). unfold move_window.
  rewrite (st_bind_eq (get winsect) _ v (winsect (fs v)) v eq_refl). destruct (sect =? winsect (fs v)) eqn:Ew; zb; cbn [negb].
  { exists FR_OK, v. splits; [done|done|apply same_refl|by intros t|left]. by splits. }
  assert (Es : sync_window v = Some (FR_OK, v)) by (unfold sync_window; by rewrite get_id_bind, Hw).
  rewrite (st_bind_eq _ _ _ _ _ Es). cbn [Z.eqb FR_OK]. rewrite get_id_bind.
  destruct (read_law (pdrv (fs v)) (win (fs v)) sect (dev v) Hs) as (r & b & d & E & Hb & Hm & Hok).
  rewrite (st_bind_eq _ _ v (r, b) (v <| dev := d |>)) by (by apply on_dev_eq). cbv beta iota. rewrite upd_bind.
  destruct v as [f d0]. cbn in *. destruct (r =? RES_OK) eqn:Er; zb; cbn [negb]; rewrite upd_bind; eexists _, _; (split; [reflexivity|]).
  - splits; [|by destruct f|exact Hm|left; by splits]. unfold idle. cbn. rewrite Hm. splits; [exact Hb|exact Hw|lia|lia|right; by apply Hok].
  - splits; [|by destruct f|exact Hm|right; split; [done|]].
    + unfold idle. cbn. splits; [exact Hb|exact Hw|done|done|by left].
    + intros Hrel. by apply Er, (reliable_read _ Hrel _ _ _ _ _ _ _ _ E).
Qed.

(** Nothing is left to chance in the sector checked: the window holds it, but for the
    last number of a sector, which is what an empty window has. *)
Lemma check_fs_ok v sect : sector (win (fs v)) -> 0 <= sect <= NO_SECTOR ->
  exists r v', check_fs sect v = Some (r, v') /\ idle v' /\ same (fs v) (fs v') /\ unwritten v v' /\
    (r = 4 /\ ~ reliable D \/
     (r = 0 \/ r = 2 \/ r = 3) /\ boot_status (win (fs v')) = Some r /\ winsect (fs v') = sect /\
       (sect = NO_SECTOR -> win (fs v') = win (fs v))).
Proof.
  intros Hs Hsect. unfold check_fs. rewrite upd_bind. set (v0 := v <| fs ::= _ |>).
  assert (H0 : idle v0 /\ same (fs v) (fs v0) /\ dev v0 = dev v /\ win (fs v0) = win (fs v) /\ winsect (fs v0) = NO_SECTOR).
  { destruct v as [[] d]. unfold idle, v0, same, set, settable. cbn in *. change (u32 (0 - 1)) with NO_SECTOR. splits; try done. by left. }
  destruct H0 as (Hi0 & Hsm0 & Hd0 & Hw0 & Hn0).
  destruct (move_clean v0 sect Hi0 Hsect) as (r & v' & E & Hi & Hsm & Hu & Hr). rewrite (st_bind_eq _ _ _ _ _ E).
  assert (Hu' : unwritten v v') by (intros t; by rewrite Hu, Hd0). pose proof (same_trans _ _ _ Hsm0 Hsm) as Hsm'.
  destruct Hr as [(-> & Hws & Hsame)|[-> Hrel]]; cbn [Z.eqb negb FR_OK FR_DISK_ERR].
  2: { exists 4, v'. splits; try done. by left. }
  rewrite (st_bind_eq (get win) _ v' (win (fs v')) v' eq_refl). destruct (boot_status_total (win (fs v'))) as (st & Est & Hst); [apply Hi|].
  rewrite Est. exists st, v'. splits; try done. right. splits; try done. intros ->. rewrite Hsame by done. exact Hw0.
Qed.

(** The window holds the boot record of a volume. *)
Definition found v : Prop :=
  0 <= winsect (fs v) < NO_SECTOR /\ win (fs v) = medium (dev v) (winsect (fs v)) /\ boot_status (win (fs v)) = Some 0.

(** What a search ends with. *)
Definition searched v v' (r : Z) : Prop :=
  idle v' /\ same (fs v) (fs v') /\ unwritten v v' /\
  (r = 0 /\ (found v' \/ ~ reliable D) \/ (r = 2 \/ r = 3) \/ r = 4 /\ ~ reliable D).

Lemma searched_trans v1 v2 v3 r : same (fs v1) (fs v2) -> unwritten v1 v2 -> searched v2 v3 r -> searched v1 v3 r.
Proof.
  intros Hs Hu (Hi & Hs' & Hu' & Hr). unfold searched; splits; [done|by apply same_trans with (fs v2)|intros t; by rewrite Hu'|done].
Qed.

Lemma found_idle v : idle v -> winsect (fs v) <> NO_SECTOR -> boot_status (win (fs v)) = Some 0 -> found v.
Proof. intros (_ & _ & Hr & [Hn|Hc]) Hne Hb; [done|]. unfold found. splits; (lia || done). Qed.

Lemma find_partition_ok fuel pts i v : idle v -> Forall (fun p => 0 <= p <= NO_SECTOR) pts -> length pts = 4%nat ->
  0 <= i < 4 -> 4 - i <= Z.of_nat fuel ->
  ~ reliable D \/ (exists st, boot_status (win (fs v)) = Some st /\ 2 <= st) ->
  exists r v', find_partition fuel pts 0 i v = Some (r, v') /\ searched v v' r.
Proof.
  intros Hi Hpts Hl. revert i v Hi. induction fuel as [|fuel IH]; intros i v Hi Hr Hf Hst; [lia|]. cbn [find_partition].
  destruct (arr_get_is_Some pts i) as [p Hp]; [lia|]. rewrite Hp. rewrite (st_bind_eq (st_opt (Some p)) _ v p v eq_refl).
  assert (Hpr : 0 <= p <= NO_SECTOR) by (apply arr_get_Some in Hp as [_ Hp]; by apply (Forall_lookup_1 _ _ _ _ Hpts Hp)).
  assert (Hstep : exists fmt v1, (if negb (p =? 0) then check_fs p else mret 3) v = Some (fmt, v1) /\ searched v v1 fmt /\
    (2 <= fmt -> ~ reliable D \/ exists st, boot_status (win (fs v1)) = Some st /\ 2 <= st)).
  { destruct (p =? 0) eqn:E0; zb; cbn [negb].
    - exists 3, v. splits; [done| |done]. unfold searched; splits; [done|apply same_refl|by intros t|]. right; left. by right.
    - destruct (check_fs_ok v p) as (r & v1 & E & Hi1 & Hs1 & Hu1 & Hc); [apply Hi|done|]. exists r, v1. splits; [done| |].
      + unfold searched; splits; [done..|]. destruct Hc as [Hc|([->|Hc] & Hb & Hw & Hn)]; [by right; right| |by right; left]. left. split; [done|].
        destruct (decide (p = NO_SECTOR)) as [->|Hne]; [|left; apply found_idle; [done|lia|done]].
        right. destruct Hst as [Hst|(st & Hst & Hge)]; [done|]. rewrite Hn, Hst in Hb by done. injection Hb. lia.
      + intros Hge. destruct Hc as [[_ Hrel]|(_ & Hb & _)]; [by left|right; by exists r]. }
  destruct Hstep as (fmt & v1 & E & Hs & Hst1). rewrite (st_bind_eq _ _ _ _ _ E). cbn [Z.eqb andb].
  destruct ((2 <=? fmt) && (i + 1 <? 4)) eqn:Ec.
  - apply andb_true_iff in Ec as [Ec1 Ec2]. zb. destruct Hs as (Hi1 & Hs1 & Hu1 & _).
    destruct (IH (i + 1) v1 Hi1 ltac:(lia) ltac:(lia) (Hst1 Ec1)) as (r & v2 & E2 & Hs2). exists r, v2. split; [done|].
    by apply searched_trans with v1.
  - by exists fmt, v1.
Qed.

Lemma find_volume_ok v : sector (win (fs v)) ->
  exists r v', find_volume 0 v = Some (r, v') /\ searched v v' r /\
    (boot_status (medium (dev v) 0) = Some 0 -> r = 0 /\ winsect (fs v') = 0 \/ ~ reliable D).
Proof.
  intros Hs. unfold find_volume. destruct (check_fs_ok v 0 Hs) as (r & v1 & E & Hi1 & Hs1 & Hu1 & Hc); [by vm_compute|].
  rewrite (st_bind_eq _ _ _ _ _ E). cbn [Z.eqb]. rewrite orb_true_r, andb_true_r.
  destruct (r =? 2) eqn:Er; zb; cbn [negb].
  2: { exists r, v1. splits; [done| |].
    - unfold searched; splits; [done..|]. destruct Hc as [Hc|(Hr & Hb & Hw & _)]; [by right; right|]. destruct Hr as [->|[->|Hr]]; [left|done|by right; left; right].
      split; [done|left]. apply found_idle; [done|by rewrite Hw|done].
    - intros Hb0. destruct Hc as [[_ Hrel]|(_ & Hb & Hw & _)]; [by right|left]. split; [|done].
      destruct Hi1 as (_ & _ & _ & [Hn|Hc1]); [by rewrite Hw in Hn|]. rewrite Hc1, Hw, Hu1, Hb0 in Hb. by injection Hb. }
  subst r. destruct Hc as [[? _]|(_ & Hb & Hw & _)]; [done|].
  rewrite (st_bind_eq (get win) _ v1 (win (fs v1)) v1 eq_refl). pose proof Hi1 as (Hs1' & _).
  assert (Hp : forall k, 0 <= k < 4 -> ld_dword (win (fs v1)) (MBR_Table + k * SZ_PTE + PTE_StLba) = Some (dword (win (fs v1)) (454 + 16 * k)) /\
    0 <= dword (win (fs v1)) (454 + 16 * k) <= NO_SECTOR).
  { intros k Hk. replace (MBR_Table + k * SZ_PTE + PTE_StLba) with (454 + 16 * k) by (unfold MBR_Table, SZ_PTE, PTE_StLba; lia).
    destruct (ld_dword_total (win (fs v1)) (454 + 16 * k) Hs1') as [-> Hd]; [lia|lia|]. split; [done|]. unfold NO_SECTOR. lia. }
  change (MBR_Table + PTE_StLba) with (MBR_Table + 0 * SZ_PTE + PTE_StLba).
  change (MBR_Table + SZ_PTE + PTE_StLba) with (MBR_Table + 1 * SZ_PTE + PTE_StLba).
  destruct (Hp 0) as [-> H0]; [lia|]. destruct (Hp 1) as [-> H1]; [lia|]. destruct (Hp 2) as [-> H2]; [lia|]. destruct (Hp 3) as [-> H3]; [lia|].
  rewrite !(st_bind_eq (st_opt (Some _)) _ v1 _ v1 eq_refl).
  destruct (find_partition_ok 4 [dword (win (fs v1)) (454 + 16 * 0); dword (win (fs v1)) (454 + 16 * 1); dword (win (fs v1)) (454 + 16 * 2); dword (win (fs v1)) (454 + 16 * 3)] 0 v1)
    as (r & v2 & E2 & Hr2); [done|by repeat (apply List.Forall_cons; [assumption|])|done|lia|lia|right; exists 2; by split|].
  exists r, v2. splits; [exact E2|by apply searched_trans with v1|].
  intros Hb0. destruct Hi1 as (_ & _ & _ & [Hn|Hc1]); [by rewrite Hw in Hn|]. by rewrite Hc1, Hw, Hu1, Hb0 in Hb.
Qed.

(** ** The volume object *)

Lemma analysed_stable w b fmt f g : stable f g -> analysed w b fmt f -> analysed w b fmt g.
Proof.
  unfold stable, geometry. intros [= E1 E2 E3 E4 E5 E6 E7 E8 E9] []. constructor; rewrite ?E3, ?E4, ?E5, ?E6, ?E7, ?E8, ?E9; done.
Qed.

Lemma load_fsinfo_ok v b fmt : idle v -> 0 <= b < 2 ^ 32 ->
  exists v', load_fsinfo b fmt v = Some (tt, v') /\ idle v' /\ stable (fs v) (fs v') /\ unwritten v v' /\
    (fmt <> FS_FAT32 -> free_clst (fs v') = 0xFFFFFFFF /\ fsi_flag (fs v') = 0x80).
Proof.
  intros Hi Hb. unfold load_fsinfo. rewrite upd_bind. set (v1 := v <| fs ::= _ |>).
  assert (H1 : idle v1 /\ stable (fs v) (fs v1) /\ dev v1 = dev v /\ free_clst (fs v1) = 0xFFFFFFFF /\ fsi_flag (fs v1) = 0x80)
    by (by destruct v as [[] d]).
  destruct H1 as (Hi1 & Hst1 & Hd1 & Hf1 & Hg1).
  assert (Hu1 : unwritten v v1) by (intros t; by rewrite Hd1).
  rewrite (st_bind_eq (get win) _ v1 (win (fs v1)) v1 eq_refl).
  destruct (ld_word_total (win (fs v1)) BPB_FSInfo32 (proj1 Hi1)) as [-> _]; [done|done|].
  rewrite (st_bind_eq (st_opt (Some _)) _ v1 _ v1 eq_refl).
  destruct ((fmt =? FS_FAT32) && _) eqn:Ec; [|by exists v1].
  apply andb_true_iff in Ec as [Ec _]. zb.
  pose proof (u32_range (b + 1)) as Hr. destruct (move_clean v1 (u32 (b + 1)) Hi1) as (r & v2 & E & Hi2 & Hs2 & Hu2 & Hres); [unfold NO_SECTOR; lia|].
  rewrite (st_bind_eq _ _ _ _ _ E). pose proof (stable_trans _ _ _ Hst1 (same_stable _ _ Hs2)) as Hst2.
  assert (Hu : unwritten v v2) by (intros t; by rewrite Hu2, Hu1).
  destruct (r =? FR_OK); [|by exists v2]. rewrite upd_bind. set (v3 := v2 <| fs ::= set fsi_flag (fun _ => 0) |>).
  assert (H3 : idle v3 /\ stable (fs v2) (fs v3) /\ dev v3 = dev v2) by (by destruct v2 as [[] d]).
  destruct H3 as (Hi3 & Hst3 & Hd3). pose proof Hi3 as (Hs3 & _).
  rewrite (st_bind_eq (get win) _ v3 (win (fs v3)) v3 eq_refl).
  rewrite (proj1 (ld_word_total _ BS_55AA Hs3 ltac:(done) ltac:(done))), (proj1 (ld_dword_total _ FSI_LeadSig Hs3 ltac:(done) ltac:(done))),
    (proj1 (ld_dword_total _ FSI_StrucSig Hs3 ltac:(done) ltac:(done))), (proj1 (ld_dword_total _ FSI_Free_Count Hs3 ltac:(done) ltac:(done))),
    (proj1 (ld_dword_total _ FSI_Nxt_Free Hs3 ltac:(done) ltac:(done))).
  rewrite !(st_bind_eq (st_opt (Some _)) _ v3 _ v3 eq_refl).
  assert (Hst : stable (fs v) (fs v3)) by (by apply stable_trans with (fs v2)).
  assert (Hu3 : unwritten v v3) by (intros t; by rewrite Hd3, Hu).
  destruct (_ && _ && _); cbn [when]; [|by exists v3]. eexists. split; [reflexivity|].
  destruct v3 as [[] d3]. splits; [exact Hi3|exact Hst|exact Hu3|done].
Qed.

(** What has been mounted. *)
Record mounted v : Prop := Mounted {
  mo_base : 0 <= volbase (fs v) < NO_SECTOR;
  mo_boot : boot_status (medium (dev v) (volbase (fs v))) = Some 0;
  mo_analysed : analysed (medium (dev v) (volbase (fs v))) (volbase (fs v)) (fs_type (fs v)) (fs v);
  mo_ok : fits (medium (dev v) (volbase (fs v))) (volbase (fs v)) -> vol_ok v /\ data_ok (fs v);
  mo_free : fs_type (fs v) <> FS_FAT32 -> free_clst (fs v) = 0xFFFFFFFF /\ fsi_flag (fs v) = 0x80
}.

(** A sector from which the code can mount a volume, whatever the volume object holds. *)
Definition bootable w : Prop := boot_status w = Some 0 /\ exists fmt, fmt <> 0 /\ forall f, fst <$> init_fat w 0 f = Some fmt.

Lemma finish_mount_ok v b fmt f' : idle v -> found v -> winsect (fs v) = b -> init_fat (win (fs v)) b (fs v) = Some (fmt, f') ->
  rest_of f' = rest_of (fs v) -> analysed (win (fs v)) b fmt f' ->
  exists v', (_ ← upd (fun _ => f'); _ ← load_fsinfo b fmt; _ ← upd (set fs_type (fun _ => fmt)); mret FR_OK) v = Some (FR_OK, v') /\
    idle v' /\ unwritten v v' /\ mounted v'.
Proof.
  intros Hi (Hrange & Hcont & Hboot) Hb Ein Hrest Han. rewrite upd_bind. set (v1 := v <| fs ::= fun _ => f' |>).
  assert (H1 : idle v1 /\ dev v1 = dev v /\ fs v1 = f').
  { destruct v as [f d]. unfold rest_of in Hrest. injection Hrest as _ R2 _ _ _ R6 R7 _. unfold idle, v1 in *. cbn in *. by rewrite R2, R6, R7. }
  destruct H1 as (Hi1 & Hd1 & Hf1). destruct (load_fsinfo_ok v1 b fmt Hi1) as (v2 & E2 & Hi2 & Hst2 & Hu2 & Hfree); [unfold NO_SECTOR in *; lia|].
  rewrite (st_bind_eq _ _ _ _ _ E2), upd_bind. set (v3 := v2 <| fs ::= set fs_type (fun _ => fmt) |>). exists v3. split; [done|].
  assert (H3 : idle v3 /\ dev v3 = dev v2 /\ fs_type (fs v3) = fmt /\ free_clst (fs v3) = free_clst (fs v2) /\ fsi_flag (fs v3) = fsi_flag (fs v2) /\
    stable (f' <| fs_type := fmt |>) (fs v3)).
  { splits; [by destruct v2 as [[] d]..|]. rewrite Hf1 in Hst2. unfold stable, geometry in *. by destruct v2 as [[] d], f'; injection Hst2 as -> -> -> -> -> -> -> -> ->. }
  destruct H3 as (Hi3 & Hd3 & Ht3 & Hfr3 & Hfl3 & Hst3).
  assert (Hu : unwritten v v3) by (intros t; by rewrite Hd3, Hu2, Hd1).
  assert (Han3 : analysed (win (fs v)) b fmt (fs v3)).
  { apply (analysed_stable _ _ _ _ _ Hst3). destruct Han. constructor; done. }
  pose proof (an_base _ _ _ _ Han3) as Eb. assert (Ew : medium (dev v3) b = win (fs v)) by (by rewrite Hu, Hcont, Hb).
  splits; [done|done|]. constructor; rewrite ?Eb, ?Ew, ?Ht3, ?Hfr3, ?Hfl3; [by rewrite <- Hb|done|done| |done].
  intros Hfits. destruct (analysed_ok (win (fs v)) b fmt (fs v3)) as [Hg Hdt]; [apply Hi|lia|done|done|done|].
  split; [by apply idle_vol|done].
Qed.

(** What mounting may answer; an object that is not mounted has type zero. *)
Definition mount_result v v' (write : bool) (r : Z) : Prop :=
  unwritten v v' /\ sector (win (fs v')) /\ (r <> FR_OK -> fs_type (fs v') = 0) /\
  (r = FR_OK /\ (mounted v' \/ ~ reliable D) \/ r = FR_NO_FILESYSTEM \/ r = FR_WRITE_PROTECTED /\ write = true \/
   (r = FR_NOT_READY \/ r = FR_DISK_ERR) /\ ~ reliable D) /\
  (reliable D -> bootable (medium (dev v) 0) -> write = false -> r = FR_OK).

Lemma same_type f g : same f g -> fs_type g = fs_type f.
Proof. intros Hs. by destruct (same_fields _ _ Hs) as (-> & _). Qed.

Lemma mount_new_ok v vol write : sector (win (fs v)) ->
  exists r v', mount_new vol write v = Some (r, v') /\ mount_result v v' write r.
Proof.
  intros Hs. unfold mount_new. rewrite upd_bind. set (v1 := v <| fs ::= _ |>).
  assert (H1 : sector (win (fs v1)) /\ dev v1 = dev v /\ fs_type (fs v1) = 0) by (by destruct v as [[] d]).
  destruct H1 as (Hs1 & Hd1 & Ht1). destruct (initialize_law (u8 vol) (dev v1)) as (stat & d & E & Hm).
  rewrite (st_bind_eq _ _ _ _ _ (on_dev_eq _ _ _ _ E)). set (v2 := v1 <| dev := d |>).
  assert (H2 : sector (win (fs v2)) /\ unwritten v v2 /\ fs_type (fs v2) = 0) by (unfold v2; destruct v1; cbn in *; splits; [done|intros t; by rewrite Hm, Hd1|done]).
  destruct H2 as (Hs2 & Hu2 & Ht2).
  destruct (has STA_NOINIT stat) eqn:En.
  { assert (Hrel : ~ reliable D) by (intros Hrel; unfold has in En; by rewrite (reliable_initialize _ Hrel _ _ _ _ E) in En).
    exists FR_NOT_READY, v2. split; [done|]. unfold mount_result. splits; [done|done|done|right; right; right; split; [by left|done]|intros Hr; by destruct (Hrel Hr)]. }
  destruct (write && has STA_PROTECT stat) eqn:Ep.
  { apply andb_true_iff in Ep as [-> _]. exists FR_WRITE_PROTECTED, v2. split; [done|]. unfold mount_result.
    splits; [done|done|done|right; right; by left|done]. }
  destruct (find_volume_ok v2 Hs2) as (fmt & v3 & E3 & (Hi3 & Hsm3 & Hu3 & Hres) & Hboot). rewrite (st_bind_eq _ _ _ _ _ E3).
  assert (Hu : unwritten v v3) by (intros t; by rewrite Hu3, Hu2). pose proof (same_type _ _ Hsm3) as Ht3. rewrite Ht2 in Ht3.
  rewrite Hu2 in Hboot.
  assert (Hfail : forall r, r = FR_NO_FILESYSTEM \/ r = FR_DISK_ERR /\ ~ reliable D -> (reliable D -> bootable (medium (dev v) 0) -> False) ->
    exists r' v', (mret r : ST (Vol D) Z) v3 = Some (r', v') /\ mount_result v v' write r').
  { intros r Hr Hno. exists r, v3. split; [done|]. unfold mount_result. splits; [done|apply Hi3|done| |intros Hrel Hb _; by destruct (Hno Hrel Hb)].
    destruct Hr as [->|[-> Hrel]]; [right; by left|right; right; right; split; [by right|done]]. }
  destruct (fmt =? 4) eqn:E4; zb.
  { assert (Hrel : ~ reliable D) by (destruct Hres as [[-> _]|[[->| ->]|[_ ?]]]; done).
    apply Hfail; [by right|intros Hr; by destruct (Hrel Hr)]. }
  destruct (2 <=? fmt) eqn:E2; zb.
  { apply Hfail; [by left|]. intros Hrel [Hb _]. destruct (Hboot Hb) as [[-> _]|Hn]; [lia|done]. }
  destruct Hres as [(-> & Hf)|[[->| ->]|[-> _]]]; [|lia..].
  rewrite get_id_bind. unfold id. cbv zeta. pose proof Hi3 as (Hs3 & _ & Hr3 & _).
  destruct (init_fat_ok (win (fs v3)) (winsect (fs v3)) (fs v3) Hs3) as (k & f' & Ein & Hrest & Hk); [unfold NO_SECTOR in *; lia|].
  rewrite Ein. rewrite (st_bind_eq (st_opt (Some (k, f'))) _ v3 (k, f') v3 eq_refl). cbv beta iota.
  destruct (k =? 0) eqn:Ek; zb.
  { rewrite upd_bind. set (v4 := v3 <| fs ::= fun _ => f' |>). exists FR_NO_FILESYSTEM, v4. split; [done|].
    unfold rest_of in Hrest. injection Hrest as _ _ _ _ _ _ R7 R8. unfold mount_result. splits; [|destruct v3; cbn in *; by rewrite R7| |right; by left|].
    - intros t. rewrite <- Hu. by destruct v3.
    - intros _. destruct v3. cbn in *. by rewrite R8.
    - intros Hrel [Hb (k' & Hk' & Hall)] _. destruct (Hboot Hb) as [[_ Hw0]|Hn]; [|done]. destruct Hf as [(_ & Hcont & _)|Hn]; [|done].
      specialize (Hall (fs v3)). rewrite Hw0 in Ein, Hcont. rewrite <- Hu, <- Hcont, Ein in Hall. cbn in Hall. congruence. }
  destruct Hk as [?|Han]; [done|]. rewrite upd_bind.
  destruct Hf as [Hf|Hrel].
  - destruct (finish_mount_ok v3 _ k f' Hi3 Hf eq_refl Ein Hrest Han) as (v' & E' & Hi' & Hu' & Hmo). rewrite upd_bind in E'.
    exists FR_OK, v'. split; [exact E'|]. unfold mount_result. splits; [intros t; by rewrite Hu', Hu|apply Hi'|done|left; split; [done|by left]|done].
  - set (v4 := v3 <| fs ::= fun _ => f' |>).
    assert (Hi4 : idle v4).
    { unfold rest_of in Hrest. injection Hrest as _ R2 _ _ _ R6 R7 _. destruct v3 as [f3 d3]. unfold idle, v4 in *. cbn in *. by rewrite R2, R6, R7. }
    destruct (load_fsinfo_ok v4 (winsect (fs v3)) k Hi4) as (v5 & E5 & Hi5 & _ & Hu5 & _); [unfold NO_SECTOR in *; lia|].
    rewrite (st_bind_eq _ _ _ _ _ E5), upd_bind. eexists _, _. split; [reflexivity|]. unfold mount_result.
    splits; [intros t; rewrite <- Hu, <- (Hu5 t : _ = medium (dev v3) t); by destruct v5 as [[] d5]|destruct v5 as [[] d5]; apply Hi5|done|left; split; [done|by right]|done].
Qed.

(** C14: Mounting a volume.  Mounting a registered volume object that is not mounted
    always returns, writes nothing on the drive and touches no other object.  On success
    the object has a new mount number and is mounted, unless the drive fails: its
    numbers are those of a boot record found on the drive, its type is the one the count
    of clusters has, and when the sizes in the boot record do not wrap around the volume
    and its data area are in the state that the table and the files rely on.  Otherwise
    the object stays unmounted.  A drive that does not fail, with a boot record the code
    accepts in sector 0, is mounted. *)
Theorem mount_volume_spec (m : Mounts (D := D)) path mode vol k f n :
  get_ldnumber path = Some (vol, k) -> (FatFs m).[vol] = Some (Some (f, n)) -> fs_type f = 0 -> sector (win f) ->
  let write := negb (clear FA_READ mode =? 0) in
  exists r m' f' n', mount_volume path mode m = Some (r, m') /\
    (forall t, medium (m_dev m') t = medium (m_dev m) t) /\
    (forall i, i <> vol -> (FatFs m').[i] = (FatFs m).[i]) /\ (FatFs m').[vol] = Some (Some (f', n')) /\
    (r = FR_OK /\ n' = u16 (Fsid m + 1) /\ Fsid m' = n' /\ (mounted (MkVol f' (m_dev m')) \/ ~ reliable D) \/
     (r = FR_NO_FILESYSTEM \/ r = FR_WRITE_PROTECTED /\ write = true \/ (r = FR_NOT_READY \/ r = FR_DISK_ERR) /\ ~ reliable D) /\
       fs_type f' = 0 /\ n' = n /\ Fsid m' = Fsid m) /\
    (reliable D -> bootable (medium (m_dev m) 0) -> write = false -> r = FR_OK).
Proof.
  intros Hpath Hobj Ht Hs write. pose proof (arr_get_lt _ _ _ Hobj) as Hv.
  destruct (mount_new_ok (MkVol f (m_dev m)) vol write Hs) as (r & v' & E & Hu & _ & Hty & Hr & Hboot).
  unfold mount_volume. rewrite Hpath. cbn [mbind option_bind].
  replace (vol <? 0) with false by (symmetry; apply Z.ltb_ge; lia). rewrite Hobj. cbn [mbind option_bind].
  rewrite Ht. cbn [Z.eqb negb has]. change (has STA_NOINIT STA_NOINIT) with true. cbn [negb mbind option_bind].
  fold write. rewrite E. cbn [mbind option_bind].
  pose proof (arr_set_is_Some (FatFs m) vol (Some (fs v', if r =? FR_OK then if r =? FR_OK then u16 (Fsid m + 1) else Fsid m else n)) Hv) as El.
  set (id := if r =? FR_OK then u16 (Fsid m + 1) else Fsid m) in *. set (n' := if r =? FR_OK then id else n) in *.
  cbv beta zeta. rewrite El. cbn [mbind option_bind]. eexists r, _, (fs v'), n'. split; [reflexivity|]. cbn [FatFs m_dev Fsid].
  splits; [exact Hu|intros i Hi; by apply (arr_get_set_ne _ _ _ _ _ El)|by apply (arr_get_set_eq _ _ _ _ El)| |exact Hboot].
  assert (Hfail : r <> FR_OK -> fs_type (fs v') = 0 /\ n' = n /\ id = Fsid m).
  { intros Hne. unfold n', id. replace (r =? FR_OK) with false by (symmetry; by apply Z.eqb_neq). by splits; [apply Hty| |]. }
  destruct Hr as [[-> Hm]|Hr]; [left|right].
  - unfold n', id. cbn [Z.eqb FR_OK]. splits; [done|done|done|]. by destruct v'.
  - split; [tauto|]. apply Hfail. intros ->. by destruct Hr as [?|[[? _]|[[?|?] _]]].
Qed.
End mount.
