(* ===== verification/FileRead.v ===== *)
(** * FileRead: reading a file

    [f_read] delivers the bytes of the file from the file pointer on, whatever parts of
    them are in the buffer, and moves the pointer behind them; it changes nothing else.
    One turn of its loop is shown first, for the direct transfer of sectors and for the
    rest of a sector in the buffer. *)

From S2P Require Import Prelude FatWords Blocks Fat FatFacts FatChain FatCreate FatWindow File FileFacts.

Section read.
Context `{DL : DiskLaws D}.
Implicit Types (s : FileSys D) (cs : list Z).

(** ** The file pointer *)

Record pos_ok s cs : Prop := PosOk {
  po_ptr : 0 <= fptr (file s) <= objsize (file s);
  po_clust : 0 < fptr (file s) ->
    cs.[(fptr (file s) - 1) / SS / csize (fs (vol s))] = Some (clust (file s));
  po_sect : fptr (file s) mod SS <> 0 -> sect (file s) = snum (fs (vol s)) cs (fptr (file s) / SS)
}.

Definition file_ok s cs : Prop := core_ok s cs /\ pos_ok s cs.

(** The link map table, if there is one, gives the clusters of the file. *)
Definition map_ok s cs : Prop :=
  match cltbl (file s) with
  | None => True
  | Some tbl => forall ofs, 0 <= ofs < SS * span (fs (vol s)) cs ->
      clmt_clust tbl (csize (fs (vol s))) ofs = cs.[ofs / SS / csize (fs (vol s))]
  end.

Definition at_cluster s (c : Z) : FileSys D := s <| file ::= set clust (fun _ => c) |>.

Lemma core_at s cs c : core_ok s cs -> core_ok (at_cluster s c) cs.
Proof. intros []. by constructor. Qed.

Lemma quiet_at s s' cs c : quiet s s' cs -> quiet (at_cluster s c) (at_cluster s' c) cs.
Proof.
  intros [Hc [Hs He Hv] Hh Hi Hn Hr Hq]. constructor; [by apply core_at|by constructor| |done|exact Hn|exact Hr|exact Hq].
  unfold head in *. cbn. injection Hh as -> -> -> -> -> -> _ -> -> -> ->. done.
Qed.

Lemma at_cluster_same s : at_cluster s (clust (file s)) = s.
Proof. by destruct s as [? ? []]. Qed.

(** The buffer, on a sector of the file. *)
Lemma buf_cached s cs i : core_ok s cs -> 0 <= i < span (fs (vol s)) cs -> SS * i < objsize (file s) ->
  sect (file s) = snum (fs (vol s)) cs i -> buf (file s) = cached s cs i.
Proof.
  intros Hc Hi Ho Es. unfold cached. destruct (dirty (file s)) eqn:Hd; cbn [andb].
  - by ztest.
  - rewrite <- Es. by apply (co_clean _ _ Hc i).
Qed.

Lemma cached_byte s cs k : core_ok s cs -> (cached s cs (k / SS)).[k mod SS] = Some (fbyte s cs k) /\ is_u8 (fbyte s cs k).
Proof.
  intros Hc. unfold fbyte. destruct (sector_byte (cached s cs (k / SS)) (k mod SS)) as (x & -> & ?);
    [by apply cached_sector|unfold SS; divs|done].
Qed.

(** Byte [o] of sector [i]. *)
Lemma cached_at s cs i o : core_ok s cs -> 0 <= o < SS -> (cached s cs i).[o] = Some (fbyte s cs (SS * i + o)).
Proof.
  intros Hc Ho. destruct (cached_byte s cs (SS * i + o) Hc) as [<- _]. unfold SS in *.
  replace ((512 * i + o) / 512) with i by divs. by replace ((512 * i + o) mod 512) with o by divs.
Qed.

Lemma bytes_u8 s cs k n : core_ok s cs -> Forall is_u8 (bytes (fbyte s cs) k n).
Proof. intros Hc. apply Forall_fmap, Forall_forall. intros j _. by apply cached_byte. Qed.

Lemma quiet_fbyte s s' cs k : quiet s s' cs -> 0 <= k < SS * span (fs (vol s)) cs -> fbyte s' cs k = fbyte s cs k.
Proof. intros Hq Hk. unfold fbyte. rewrite (qu_cached _ _ _ Hq); [done|]. unfold SS in *. divs. Qed.

(** ** The rest of the sector in the buffer *)

Lemma read_partial_ok s cs btr rbuff off : core_ok s cs -> 0 <= fptr (file s) < objsize (file s) ->
  fptr (file s) / SS < span (fs (vol s)) cs -> sect (file s) = snum (fs (vol s)) cs (fptr (file s) / SS) ->
  0 < btr -> 0 <= off -> off + btr <= Z.of_nat (length rbuff) ->
  let rc := Z.min btr (SS - fptr (file s) mod SS) in
  exists rbuff', read_partial btr rbuff off s = Some (FR_OK, rc, rbuff', s) /\
    poke rbuff off (bytes (fbyte s cs) (fptr (file s)) rc) = Some rbuff'.
Proof.
  intros Hc Hp Hi Es Hbtr Hoff Hlen. set (p := fptr (file s)) in *. cbv zeta.
  assert (Hm : 0 <= p mod SS < SS) by (unfold SS; divs).
  assert (Er : (if btr <? SS - p mod SS then btr else SS - p mod SS) = Z.min btr (SS - p mod SS))
    by (zcase; lia).
  set (rc := Z.min btr (SS - p mod SS)) in *.
  assert (Eb : peek (buf (file s)) (p mod SS) rc = Some (bytes (fbyte s cs) p rc)).
  { assert (Hl : length (buf (file s)) = 512%nat) by apply Hc.
    rewrite peek_range by (unfold SS in *; lia). f_equal. apply bytes_of_list.
    - rewrite length_take, length_drop. unfold SS in *. lia.
    - intros j Hj. erewrite peek_get; [|apply peek_range; unfold SS in *; lia|done].
      rewrite (buf_cached s cs (p / SS)) by (try done; unfold SS in *; divs).
      rewrite (cached_at s cs) by (try done; unfold SS in *; lia). do 2 f_equal. unfold SS. divs. }
  destruct (poke_range rbuff off (bytes (fbyte s cs) p rc)) as [rbuff' Ep]; [done|rewrite bytes_length; lia|].
  exists rbuff'. split; [|done]. unfold read_partial. rewrite fil_bind. unfold id. fold p. rewrite Er. fold rc.
  unfold st_opt, mbind, ST_bind. rewrite Eb. cbn. by rewrite Ep.
Qed.

(** ** Direct transfer *)

(** A store into a range that was just stored. *)
Lemma poke_poke {A} (a b c a1 : list A) off o : poke a off b = Some a1 -> 0 <= o ->
  o + Z.of_nat (length c) <= Z.of_nat (length b) ->
  exists b', poke b o c = Some b' /\ poke a1 (off + o) c = poke a off b'.
Proof.
  intros E Ho Hl. pose proof E as (H0 & H1 & _)%poke_Some. pose proof (poke_length _ _ _ _ E) as El.
  destruct (poke_range b o c) as [b' Eb]; [lia..|]. pose proof (poke_length _ _ _ _ Eb) as Elb.
  exists b'. split; [done|]. destruct (poke_range a1 (off + o) c) as [x Ex]; [lia..|].
  destruct (poke_range a off b') as [y Ey]; [lia..|]. rewrite Ex, Ey. f_equal.
  pose proof (poke_length _ _ _ _ Ex). pose proof (poke_length _ _ _ _ Ey).
  apply arr_ext; [congruence|]. intros j Hj.
  rewrite (poke_get _ _ _ _ j Ex), (poke_get _ _ _ _ j E), (poke_get _ _ _ _ j Ey).
  rewrite Elb. destruct ((off <=? j) && (j <? off + Z.of_nat (length b))) eqn:Er; zb.
  - rewrite (poke_get _ _ _ _ (j - off) Eb). replace (j - off - o) with (j - (off + o)) by lia.
    destruct ((off + o <=? j) && _) eqn:E1; destruct ((o <=? j - off) && _) eqn:E2; zb; try done; lia.
  - destruct ((off + o <=? j) && _) eqn:E1; zb; [lia|done].
Qed.

(** Sectors one after the other are the bytes of the file. *)
Lemma sectors_bytes s cs b i cc : core_ok s cs -> 0 <= i -> 0 <= cc -> Z.of_nat (length b) = SS * cc ->
  (forall d, 0 <= d < cc -> peek b (SS * d) SS = Some (cached s cs (i + d))) ->
  b = bytes (fbyte s cs) (SS * i) (SS * cc).
Proof.
  intros Hc Hi Hcc Hl Hb. apply bytes_of_list; [done|]. intros j Hj.
  assert (Hd : 0 <= j / SS < cc) by (unfold SS in *; divs).
  specialize (Hb _ Hd). assert (Ej : j = SS * (j / SS) + j mod SS) by (unfold SS; divs).
  rewrite Ej at 1. rewrite <- (peek_get _ _ _ _ (j mod SS) Hb) by (unfold SS; divs).
  rewrite (cached_at s cs) by (try done; unfold SS; divs). do 2 f_equal. lia.
Qed.

(** How far a direct transfer goes. *)
Definition run f (i n : Z) : Z := Z.min (n / SS) (csize f - i mod csize f).

Lemma run_spec f cs i n : data_ok f -> 0 <= i < span f cs -> SS <= n < 2 ^ 32 ->
  (if csize f <? u32 (i mod csize f + n / SS) then u32 (csize f - i mod csize f) else n / SS) = run f i n /\
  0 < run f i n /\ SS * run f i n <= n /\ i mod csize f + run f i n <= csize f /\ i + run f i n <= span f cs.
Proof.
  intros Hd Hi Hn. pose proof (csize_range f Hd) as Hr. pose proof (Z.mod_pos_bound i (csize f)) as Hm.
  assert (Hb : 0 < n / SS < 2 ^ 24 /\ SS * (n / SS) <= n) by (unfold SS in *; divs).
  pose proof (chain_index f cs i Hd Hi) as Hx. unfold run, span in *.
  rewrite !u32_small by lia. splits; [zcase; lia|lia|unfold SS in *; lia|lia|].
  rewrite (Z.div_mod i (csize f)) at 1 by lia. nia.
Qed.

(** Where the buffer is in a run of sectors. *)
Lemma buffer_in_run s cs i n d : core_ok s cs -> 0 <= i < span (fs (vol s)) cs -> SS <= n < 2 ^ 32 ->
  dirty (file s) = true -> let cc := run (fs (vol s)) i n in
  d = u32 (sect (file s) - snum (fs (vol s)) cs i) ->
  (d < cc -> 0 <= d /\ sect (file s) = snum (fs (vol s)) cs (i + d)) /\
  forall e, 0 <= e < cc -> sect (file s) = snum (fs (vol s)) cs (i + e) -> d = e.
Proof.
  intros Hc Hi Hn Hd cc Ed. destruct (run_spec _ cs i n (co_data _ _ Hc) Hi Hn) as (_ & Hc0 & _ & Hc1 & Hc2). fold cc in Hc0, Hc1, Hc2.
  assert (Hnext : forall e, 0 <= e < cc -> snum (fs (vol s)) cs (i + e) = snum (fs (vol s)) cs i + e)
    by (intros e He; apply snum_next; [apply Hc|lia|lia|lia]).
  assert (Hlast := Hnext (cc - 1) ltac:(lia)).
  destruct (file_snum s cs i Hc Hi) as (_ & _ & Ht). destruct (file_snum s cs (i + (cc - 1)) Hc ltac:(lia)) as (_ & _ & Ht').
  destruct (co_dirty _ _ Hc Hd) as (j & Hj & Es). destruct (file_snum s cs j Hc Hj) as (_ & _ & Hs).
  unfold NO_SECTOR, u32 in *. split.
  - intros Hlt. assert (0 <= d) by (subst d; apply Z.mod_pos_bound; lia). split; [done|]. rewrite Hnext by lia.
    rewrite <- Es in Hs. revert Ed. Z.div_mod_to_equations. lia.
  - intros e He E. rewrite Hnext in E by done. rewrite Ed, E. rewrite Z.mod_small; lia.
Qed.

Lemma read_direct_ok s cs i btr rbuff off : core_ok s cs -> 0 <= i < span (fs (vol s)) cs ->
  SS <= btr < 2 ^ 32 -> 0 <= off -> off + btr <= Z.of_nat (length rbuff) -> Forall is_u8 rbuff ->
  let rc := SS * run (fs (vol s)) i btr in
  exists r x rbuff' s',
    read_direct (snum (fs (vol s)) cs i) (i mod csize (fs (vol s))) btr rbuff off s = Some (r, x, rbuff', s') /\
    (r = FR_OK /\ x = rc /\ quiet s s' cs /\
       poke rbuff off (bytes (fbyte s cs) (SS * i) rc) = Some rbuff' \/
     r = FR_DISK_ERR /\ ~ reliable D).
Proof.
  intros Hc Hi Hbtr Hoff Hlen Hu8. destruct (run_spec _ cs i btr (co_data _ _ Hc) Hi Hbtr) as (Ecc & Hc0 & Hc1 & Hc2 & Hc3).
  unfold read_direct. rewrite fatfs_bind. unfold id. cbv zeta. rewrite Ecc. set (cc := run (fs (vol s)) i btr) in *.
  destruct (peek rbuff off (SS * cc)) as [b|] eqn:Eb; [|by rewrite peek_range in Eb by (unfold SS in *; lia)].
  rewrite (st_bind_eq _ _ s b s eq_refl).
  destruct (read_laws (pdrv (fs (vol s))) b (snum (fs (vol s)) cs i) cc (dev (vol s)))
    as (r & b' & d & E & Hl & Hb' & Hm & Hr); [done|by apply (peek_length rbuff off)|by apply (peek_Forall _ _ _ _ _ Eb)|].
  rewrite (st_bind_eq _ _ _ _ _ (on_drive_eq _ _ _ _ E)). cbv beta iota.
  pose proof (peek_length _ _ _ _ Eb) as Hlb.
  destruct (poke_range rbuff off b') as [rb Erb]; [done|lia|].
  rewrite (st_bind_eq _ _ _ rb (s <| vol ::= set dev (fun _ => d) |>)) by (unfold st_opt; by rewrite Erb).
  destruct (r =? RES_OK) eqn:Er; zb; cbn [negb].
  2: { eexists _, _, _, _. split; [reflexivity|right]. split; [done|]. intros Hrel. by apply Er, (reliable_read _ Hrel _ _ _ _ _ _ _ _ E). }
  specialize (Hr Er). rewrite fil_bind. unfold id.
  change (file (s <| vol ::= set dev (fun _ => d) |>)) with (file s). fold (dirty (file s)).
  set (dd := u32 (sect (file s) - snum (fs (vol s)) cs i)).
  assert (Hmed : forall e, 0 <= e < cc -> peek b' (SS * e) SS = Some (medium (dev (vol s)) (snum (fs (vol s)) cs (i + e)))).
  { intros e He. rewrite Hr by done. f_equal. f_equal. symmetry. apply snum_next; [apply Hc|lia|lia|lia]. }
  assert (Hfin : exists b2 rbuff', (forall e, 0 <= e < cc -> peek b2 (SS * e) SS = Some (cached s cs (i + e))) /\
    length b2 = length b' /\ poke rbuff off b2 = Some rbuff' /\
    (if dirty (file s) && (dd <? cc) then st_opt (poke rb (off + dd * SS) (buf (file s))) else mret rb)
      (s <| vol ::= set dev (fun _ => d) |>) = Some (rbuff', s <| vol ::= set dev (fun _ => d) |>)).
  { destruct (dirty (file s)) eqn:Hd; cbn [andb].
    2: { exists b', rb. splits; [|done|done|done]. intros e He. rewrite Hmed by done. unfold cached. by rewrite Hd. }
    destruct (buffer_in_run s cs i btr dd Hc Hi Hbtr Hd eq_refl) as [Hin Hout]. fold cc in Hin, Hout.
    pose proof (co_buf _ _ Hc) as [Hlbuf _]. destruct (dd <? cc) eqn:Edd; zb.
    - destruct (Hin Edd) as [Hd0 Es].
      destruct (poke_poke rbuff b' (buf (file s)) rb off (dd * SS) Erb) as (b2 & E2 & Ep); [unfold SS; lia|unfold SS in *; lia|].
      pose proof (poke_length _ _ _ _ E2) as Hl2.
      destruct (poke_range rbuff off b2) as [rbuff' E3]; [done|lia|]. exists b2, rbuff'. splits; [|done|done|].
      + intros e He. destruct (peek_poke b' (dd * SS) (buf (file s)) b2 (SS * e) SS E2) as [P1 P2]; [unfold SS in *; lia..|].
        unfold cached. rewrite Hd. cbn [andb]. destruct (snum _ cs (i + e) =? sect (file s)) eqn:Ese; zb.
        * apply P1. rewrite (Hout e He) by done. unfold SS in *. lia.
        * rewrite P2; [by apply Hmed|]. assert (e <> dd) by (intros ->; congruence). unfold SS in *. lia.
      + unfold st_opt. by rewrite Ep, E3.
    - exists b', rb. splits; [|done|done|done]. intros e He. rewrite Hmed by done. unfold cached. rewrite Hd. cbn [andb].
      destruct (_ =? sect (file s)) eqn:Ese; [|done]. zb. symmetry in Ese. specialize (Hout e He Ese). lia. }
  destruct Hfin as (b2 & rbuff' & Hb2 & Hl2 & Ep & Em). rewrite (st_bind_eq _ _ _ _ _ Em).
  eexists _, _, _, _. split; [reflexivity|left]. splits; [done|done|by apply quiet_dev|].
  rewrite <- (sectors_bytes s cs b2); [done|done|lia|lia|lia|done].
Qed.

(** ** One turn *)

Lemma sector_div i : SS * i / SS = i.
Proof. rewrite Z.mul_comm. by apply Z.div_mul. Qed.

Lemma sector_before i : (SS * i - 1) / SS = i - 1.
Proof. unfold SS. divs. Qed.

(** The cluster of the file pointer on a sector boundary. *)
Lemma boundary s cs i : core_ok s cs -> 0 <= i < span (fs (vol s)) cs ->
  (i mod csize (fs (vol s)) = 0 -> i = 0 \/
     0 < i /\ (i - 1) / csize (fs (vol s)) + 1 = i / csize (fs (vol s))) /\
  (i mod csize (fs (vol s)) <> 0 -> 0 < i /\ (i - 1) / csize (fs (vol s)) = i / csize (fs (vol s))).
Proof.
  intros Hc Hi. pose proof (csize_range _ (co_data _ _ Hc)) as Hr. set (z := csize (fs (vol s))) in *.
  pose proof (Z.div_mod i z ltac:(lia)) as Ei. pose proof (Z.mod_pos_bound i z ltac:(lia)) as Hm. split; intros H0.
  - destruct (decide (i = 0)); [by left|right]. split; [lia|].
    replace ((i - 1) / z) with (i / z - 1); [lia|]. apply Z.div_unique_pos with (z - 1); lia.
  - assert (i <> 0) by (intros ->; rewrite Z.mod_0_l in H0; lia). split; [lia|].
    symmetry. apply Z.div_unique_pos with (i mod z - 1); lia.
Qed.

Lemma read_cluster_ok s cs i : core_ok s cs -> pos_ok s cs -> map_ok s cs ->
  fptr (file s) = SS * i -> 0 <= i < span (fs (vol s)) cs -> i mod csize (fs (vol s)) = 0 ->
  exists r s', read_cluster s = Some (r, s') /\ quiet s s' cs /\ file s' = file s /\
    (cs.[i / csize (fs (vol s))] = Some r \/ r = DISK_ERROR /\ ~ reliable D).
Proof.
  intros Hc [_ Hcl _] Hmap Hp Hi Hm. destruct (chain_lookup _ cs i (co_data _ _ Hc) (core_clusters s cs Hc) Hi) as (c & Ec & _).
  destruct (proj1 (boundary s cs i Hc Hi) Hm) as [->|[Hi0 Hq]]; unfold read_cluster; rewrite fil_bind, fatfs_bind; unfold id.
  - rewrite Hp. cbn [Z.eqb Z.mul SS]. eexists _, s. splits; [reflexivity|by apply quiet_refl|done|left].
    destruct (co_chain _ _ Hc) as [[_ ->]|Hl]; [by apply arr_get_lt in Ec; cbn in Ec; lia|].
    apply (linked_lookup _ _ _ _ Hl).
  - replace (fptr (file s) =? 0) with false by (symmetry; apply Z.eqb_neq; unfold SS in *; lia).
    unfold map_ok in Hmap. destruct (cltbl (file s)) as [tbl|].
    + specialize (Hmap (fptr (file s)) ltac:(rewrite Hp; unfold SS in *; lia)).
      replace (fptr (file s) / SS) with i in Hmap by (by rewrite Hp, ?sector_div, ?sector_before). rewrite Ec in Hmap.
      eexists _, s. splits; [unfold st_opt; by rewrite Hmap|by apply quiet_refl|done|by left].
    + specialize (Hcl ltac:(unfold SS in *; lia)).
      replace ((fptr (file s) - 1) / SS) with (i - 1) in Hcl by (by rewrite Hp, ?sector_div, ?sector_before).
      rewrite <- Hq in Ec. destruct (next_cluster s cs _ _ _ Hc Hcl Ec) as (r & s' & E & Q & Hr & Hf).
      exists r, s'. splits; [done|done|done|]. rewrite <- Hq. destruct Hr as [->|Hr]; [by left|by right].
Qed.

(** The cluster is entered and its sector is known. *)
Lemma enter_ok s cs i : core_ok s cs -> pos_ok s cs -> map_ok s cs ->
  fptr (file s) = SS * i -> 0 <= i < span (fs (vol s)) cs ->
  exists r s' c, cs.[i / csize (fs (vol s))] = Some c /\
    (if Z.land (fptr (file s) / SS) (csize (fs (vol s)) - 1) =? 0
     then clst ← read_cluster; enter_cluster clst else mret FR_OK) s = Some (r, s') /\
    (r = FR_OK /\ quiet (at_cluster s c) s' cs /\
       clst2sect (fs (vol s')) (clust (file s')) = base (fs (vol s)) c \/
     r = FR_DISK_ERR /\ ~ reliable D).
Proof.
  intros Hc Hpos Hmap Hp Hi. replace (fptr (file s) / SS) with i by (by rewrite Hp, ?sector_div, ?sector_before).
  rewrite csize_mask by apply Hc.
  destruct (chain_lookup _ cs i (co_data _ _ Hc) (core_clusters s cs Hc) Hi) as (c & Ec & Hcc & _).
  assert (Hsec : forall s', quiet (at_cluster s c) s' cs -> clust (file s') = c -> clst2sect (fs (vol s')) (clust (file s')) = base (fs (vol s)) c).
  { intros s' Q ->. pose proof (fr_stable _ _ _ (qu_frame _ _ _ Q)) as Hst. rewrite <- (stable_base (fs (vol s)) (fs (vol s')) c Hst).
    apply clst2sect_eq; [apply Q|apply vol_geo, Q|]. by apply (stable_cluster _ _ _ Hst). }
  destruct (i mod _ =? 0) eqn:Em; zb.
  - destruct (read_cluster_ok s cs i Hc Hpos Hmap Hp Hi Em) as (r & s1 & E & Q & Hf & Hr).
    rewrite (st_bind_eq _ _ _ _ _ E). unfold enter_cluster. destruct Hr as [Hr|[-> Hrel]].
    + rewrite Ec in Hr. injection Hr as <-. unfold cluster in Hcc. pose proof (n_fatent_small _ (co_vol _ _ Hc)).
      replace (c <? 2) with false by (symmetry; apply Z.ltb_ge; lia).
      replace (c =? DISK_ERROR) with false by (symmetry; apply Z.eqb_neq; unfold DISK_ERROR; lia).
      rewrite upd_fil_bind. exists FR_OK, (at_cluster s1 c), c. splits; [done|done|left]. split; [done|].
      pose proof (quiet_at _ _ _ c Q) as Q'. split; [done|]. by apply Hsec.
    + cbn [Z.ltb Z.eqb Z.compare DISK_ERROR]. eexists _, _, c. split; [done|]. split; [reflexivity|]. by right.
  - assert (Hcl : clust (file s) = c).
    { destruct (proj2 (boundary s cs i Hc Hi) Em) as [Hi0 Hq]. destruct Hpos as [_ Hcl _].
      specialize (Hcl ltac:(unfold SS in *; lia)). replace ((fptr (file s) - 1) / SS) with (i - 1) in Hcl by (by rewrite Hp, ?sector_div, ?sector_before).
      rewrite Hq, Ec in Hcl. by injection Hcl. }
    exists FR_OK, s, c. splits; [done|done|left]. split; [done|].
    assert (Q : quiet (at_cluster s c) s cs) by (rewrite <- Hcl, at_cluster_same; by apply quiet_refl).
    split; [done|]. by apply Hsec.
Qed.


(** What a file object has but for its place in the file. *)
Definition tail (fp : FIL) :=
  (obj_fs fp, obj_id fp, sclust fp, objsize fp, err fp, cltbl fp, dir_sect fp, dir_ptr fp, clear FA_DIRTY (flag fp)).

(** The pointer has moved to [p], and nothing else has changed. *)
Record moved s s' cs (p : Z) : Prop := Moved {
  mv_file : file_ok s' cs;
  mv_ptr : fptr (file s') = p;
  mv_frame : frame s s' cs;
  mv_tail : tail (file s') = tail (file s);
  mv_id : fs_id s' = fs_id s;
  mv_room : room (vol s) -> room (vol s');
  mv_cached i : 0 <= i < span (fs (vol s)) cs -> cached s' cs i = cached s cs i
}.

Lemma moved_refl s cs : file_ok s cs -> moved s s cs (fptr (file s)).
Proof. intros Hf. by constructor; [..|apply frame_refl| | | |]. Qed.

Lemma moved_trans s1 s2 s3 cs p q : moved s1 s2 cs p -> moved s2 s3 cs q -> moved s1 s3 cs q.
Proof.
  intros [F1 P1 A1 T1 I1 R1 Q1] [F2 P2 A2 T2 I2 R2 Q2]. constructor; [done|done|by apply frame_trans with s2|congruence|congruence|auto|].
  intros i Hi. rewrite Q2, Q1; [done..|]. by destruct (stable_snum _ _ cs i (fr_stable _ _ _ A1)) as [-> _].
Qed.

Definition go (n : Z) s : FileSys D := s <| file ::= set fptr (fun p => u32 (p + n)) |>.

Lemma core_go s cs n : core_ok s cs -> core_ok (go n s) cs.
Proof. intros []. by constructor. Qed.

Lemma advance_ok s s' cs c n : core_ok s cs -> quiet (at_cluster s c) s' cs ->
  let p := fptr (file s) in
  0 <= p -> 0 < n -> p + n <= objsize (file s) ->
  cs.[p / SS / csize (fs (vol s))] = Some c ->
  (p + n - 1) / SS / csize (fs (vol s)) = p / SS / csize (fs (vol s)) ->
  ((p + n) mod SS <> 0 -> sect (file s') = snum (fs (vol s)) cs ((p + n) / SS)) ->
  moved s (go n s') cs (p + n).
Proof.
  intros Hc [Hc' Hfr Hh Hi _ Hr Hq] p Hp Hn Hle Ec Ed Hs.
  pose proof (co_size _ _ Hc) as [Hsz _].
  assert (Hst : stable (fs (vol s)) (fs (vol s'))) by exact (fr_stable _ _ _ Hfr).
  assert (Hhead : objsize (file s') = objsize (file s) /\ fptr (file s') = p /\ clust (file s') = c /\
    tail (file s') = tail (file s)).
  { unfold head in Hh. unfold tail. cbn in Hh. injection Hh as -> -> -> -> -> -> -> -> -> -> ->. by splits. }
  destruct Hhead as (E1 & E2 & E3 & E4).
  assert (Ep : fptr (file (go n s')) = p + n) by (cbn; rewrite E2; apply u32_small; lia).
  destruct (stable_geometry _ _ Hst) as (Ecz & _). constructor; [|done| | |exact Hi|exact Hr|exact Hq].
  - split; [by apply core_go|]. constructor; rewrite Ep; change (fs (vol (go n s'))) with (fs (vol s')).
    + change (objsize (file (go n s'))) with (objsize (file s')). rewrite E1. lia.
    + intros _. change (clust (file (go n s'))) with (clust (file s')). by rewrite Ecz, Ed, E3.
    + intros Hm. change (sect (file (go n s'))) with (sect (file s')). rewrite Hs by done.
      by destruct (stable_snum _ _ cs ((p + n) / SS) Hst) as [_ ->].
  - destruct Hfr. by constructor.
  - exact E4.
Qed.

Lemma partial_place p btr : 0 <= p -> 0 < btr -> let n := Z.min btr (SS - p mod SS) in
  0 < n <= btr /\ (p + n - 1) / SS = p / SS /\ ((p + n) mod SS <> 0 -> (p + n) / SS = p / SS).
Proof. intros Hp Hb n. unfold n, SS. splits; divs. Qed.

(** The rest of the sector in the buffer, from the state the pointer was read in. *)
Lemma finish_partial s s1 cs c btr rbuff off : core_ok s cs -> quiet (at_cluster s c) s1 cs ->
  let p := fptr (file s) in
  0 <= p -> 0 < btr <= objsize (file s) - p -> 0 <= off -> off + btr <= Z.of_nat (length rbuff) ->
  cs.[p / SS / csize (fs (vol s))] = Some c ->
  sect (file s1) = snum (fs (vol s)) cs (p / SS) ->
  exists rc rbuff', read_partial btr rbuff off s1 = Some (FR_OK, rc, rbuff', s1) /\
    0 < rc <= btr /\ poke rbuff off (bytes (fbyte s cs) p rc) = Some rbuff' /\ moved s (go rc s1) cs (p + rc).
Proof.
  intros Hc Q p Hp Hbtr Hoff Hlen Ec Es. pose proof (co_size _ _ Hc) as [Hsz Hspan].
  assert (Hst : stable (fs (vol s)) (fs (vol s1))) by exact (fr_stable _ _ _ (qu_frame _ _ _ Q)).
  assert (Ep : fptr (file s1) = p /\ objsize (file s1) = objsize (file s)).
  { pose proof (qu_head _ _ _ Q) as Hh. unfold head in Hh. cbn in Hh. by injection Hh as _ _ _ -> _ -> _ _ _ _ _. }
  destruct Ep as [Ep Eo]. assert (Hps : p / SS < span (fs (vol s)) cs) by (unfold SS in *; divs).
  destruct (stable_snum _ _ cs (p / SS) Hst) as [Espan Esn].
  destruct (read_partial_ok s1 cs btr rbuff off) as (rb & E & Hpk);
    [apply Q|lia|by rewrite Ep, Espan|by rewrite Ep, Esn|lia|done|done|].
  rewrite Ep in E, Hpk. destruct (partial_place p btr Hp ltac:(lia)) as (Hn & Hd & Hm).
  set (n := Z.min btr (SS - p mod SS)) in *. exists n, rb. splits; [done|lia|lia| |].
  - rewrite <- Hpk. f_equal. apply bytes_ext. intros j Hj. symmetry.
    apply (quiet_fbyte (at_cluster s c) s1); [done|]. change (fs (vol (at_cluster s c))) with (fs (vol s)). lia.
  - apply (advance_ok s s1 cs c n); [done|done|done|lia|fold p; lia|done|fold p; by rewrite Hd|].
    fold p. intros Hm0. by rewrite Hm, Es.
Qed.

Lemma read_turn_ok s cs btr rbuff off : file_ok s cs -> map_ok s cs ->
  0 < btr <= objsize (file s) - fptr (file s) -> 0 <= off -> off + btr <= Z.of_nat (length rbuff) ->
  Forall is_u8 rbuff ->
  exists r rc rbuff' s', read_turn btr rbuff off s = Some (r, rc, rbuff', s') /\
    (r = FR_OK /\ 0 < rc <= btr /\ poke rbuff off (bytes (fbyte s cs) (fptr (file s)) rc) = Some rbuff' /\
       moved s (go rc s') cs (fptr (file s) + rc) \/
     r = FR_DISK_ERR /\ ~ reliable D).
Proof.
  intros [Hc Hpos] Hmap Hbtr Hoff Hlen Hu8. pose proof Hpos as [Hp Hcl Hs]. pose proof (co_size _ _ Hc) as [Hsz Hspan].
  unfold read_turn. rewrite fil_bind. set (p := fptr (file s)) in *.
  assert (Hps : 0 <= p / SS < span (fs (vol s)) cs) by (unfold SS in *; divs).
  destruct (p mod SS =? 0) eqn:Em; zb.
  2: { destruct (finish_partial s s cs (clust (file s)) btr rbuff off) as (rc & rb & E & Hrc & Hpk & Hmv); try done.
       - fold p. lia.
       - fold p. rewrite <- Hcl by (unfold SS in *; divs). do 2 f_equal. unfold SS in *. divs.
       - fold p. by apply Hs.
       - exists FR_OK, rc, rb, s. split; [done|]. left. by splits; [|lia|lia|..]. }
  set (i := p / SS) in *. assert (Ep : p = SS * i) by (unfold i, SS in *; divs).
  rewrite fatfs_bind. unfold id. cbv zeta.
  destruct (enter_ok s cs i Hc Hpos Hmap Ep Hps) as (r & s1 & c & Ec & E1 & Hr). fold p i in E1.
  rewrite (st_bind_eq _ _ _ _ _ E1). destruct Hr as [(-> & Q1 & Hcs)|[-> Hrel]].
  2: { eexists _, _, _, _. split; [reflexivity|by right]. }
  cbn [Z.eqb negb FR_OK]. rewrite fatfs_bind, fil_bind. unfold id. rewrite Hcs.
  destruct (chain_lookup _ cs i (co_data _ _ Hc) (core_clusters s cs Hc) Hps) as (c' & Ec' & Hcc & Esn).
  rewrite Ec in Ec'. injection Ec' as <-. destruct (file_snum s cs i Hc Hps) as (_ & _ & Hrange).
  destruct (base_range _ _ (co_data _ _ Hc) Hcc) as [Hbase Htop]. pose proof (csize_range _ (co_data _ _ Hc)) as Hz.
  destruct (data_live (fs (vol s)) (base (fs (vol s)) c)) as (_ & _ & Hb0); [apply vol_geo, Hc|apply Hc|lia|].
  replace (base (fs (vol s)) c =? 0) with false by (symmetry; apply Z.eqb_neq; lia).
  rewrite csize_mask by apply Hc. rewrite <- Esn, u32_small by (unfold NO_SECTOR in *; lia).
  assert (Hst : stable (fs (vol s)) (fs (vol s1))) by exact (fr_stable _ _ _ (qu_frame _ _ _ Q1)).
  destruct (stable_snum _ _ cs i Hst) as [Espan1 Esn1]. destruct (stable_geometry _ _ Hst) as (Ecz & _).
  destruct (0 <? btr / SS) eqn:Eb; zb.
  - destruct (read_direct_ok s1 cs i btr rbuff off) as (r & x & rb & s2 & E2 & Hr); try done;
      [apply Q1|by rewrite Espan1|unfold SS in *; divs|]. rewrite Esn1, Ecz in E2.
    exists r, x, rb, s2. split; [done|]. destruct Hr as [(-> & -> & Q2 & Hpk)|Hr]; [left|by right].
    destruct (run_spec (fs (vol s1)) cs i btr) as (_ & Hr0 & Hr1 & Hr2 & Hr3); [apply Q1|by rewrite Espan1|unfold SS in *; divs|].
    set (cc := run (fs (vol s1)) i btr) in *. splits; [done|unfold SS in *; lia|lia| |].
    + rewrite <- Hpk. f_equal. rewrite Ep. apply bytes_ext. intros j Hj. symmetry.
      apply (quiet_fbyte (at_cluster s c) s1); [done|]. change (fs (vol (at_cluster s c))) with (fs (vol s)). lia.
    + apply (advance_ok s s2 cs c (SS * cc)); [done|by apply quiet_trans with s1|fold p; lia|unfold SS in *; lia|fold p; lia|done| |].
      * fold p. replace ((p + SS * cc - 1) / SS) with (i + (cc - 1)) by (rewrite Ep; unfold SS; clear; divs).
        fold i. rewrite Ecz in Hr2. apply (snum_next (fs (vol s)) cs i (cc - 1)); [apply Hc|lia|lia|lia].
      * fold p. intros Hm. exfalso. apply Hm. rewrite Ep. unfold SS. clear. divs.
  - assert (Hq1 : core_ok s1 cs) by apply Q1.
    assert (Eo1 : objsize (file s1) = objsize (file s)).
    { pose proof (qu_head _ _ _ Q1) as Hh. unfold head in Hh. cbn in Hh. by injection Hh as _ _ _ -> _ _ _ _ _ _ _. }
    destruct (load_ok s1 cs i Hq1) as (r & s2 & E2 & Hr); [by rewrite Espan1|rewrite Eo1; lia|]. rewrite Esn1 in E2.
    rewrite (st_bind_eq _ _ _ _ _ E2). destruct Hr as [(-> & Q2 & Hs2 & _)|[-> Hrel]].
    2: { eexists _, _, _, _. split; [reflexivity|by right]. }
    destruct (finish_partial s s2 cs c btr rbuff off) as (rc & rb & E & Hrc & Hpk & Hmv); try done.
    + by apply quiet_trans with s1.
    + fold p. lia.
    + fold p i. by rewrite Hs2, Esn1.
    + exists FR_OK, rc, rb, s2. split; [done|]. left. by splits; [|lia|lia|..].
Qed.

(** ** The whole *)

Lemma poke_append {A} (a b c a1 a2 : list A) off : poke a off b = Some a1 ->
  poke a1 (off + Z.of_nat (length b)) c = Some a2 -> poke a off (b ++ c) = Some a2.
Proof.
  intros E1 E2. pose proof (poke_length _ _ _ _ E1). pose proof (poke_length _ _ _ _ E2).
  pose proof E1 as (? & ? & _)%poke_Some. pose proof E2 as (? & ? & _)%poke_Some.
  destruct (poke_range a off (b ++ c)) as [x Ex]; [done|rewrite length_app; lia|]. rewrite Ex. f_equal.
  pose proof (poke_length _ _ _ _ Ex). apply arr_ext; [congruence|]. intros j Hj.
  rewrite (poke_get _ _ _ _ j Ex), (poke_get _ _ _ _ j E2), (poke_get _ _ _ _ j E1), length_app.
  unfold arr_get. destruct ((off <=? j) && (j <? off + Z.of_nat (length b + length c))) eqn:Er; zb.
  - replace (0 <=? j - off) with true by (symmetry; apply Z.leb_le; lia).
    destruct ((off + _ <=? j) && _) eqn:E; zb.
    + replace (0 <=? j - (off + Z.of_nat (length b))) with true by (symmetry; apply Z.leb_le; lia).
      rewrite lookup_app_r by lia. f_equal. lia.
    + rewrite lookup_app_l by lia. destruct ((off <=? j) && _) eqn:E'; zb; [done|lia].
  - destruct ((off + _ <=? j) && _) eqn:E; zb; [destruct Er; zb; lia|]. destruct ((off <=? j) && _) eqn:E'; zb; [destruct Er, E; zb; lia|done].
Qed.

Lemma moved_map s s' cs p : moved s s' cs p -> map_ok s cs -> map_ok s' cs.
Proof.
  intros [_ _ Hfr Ht _ _ _]. unfold map_ok. pose proof (fr_stable _ _ _ Hfr) as Hst.
  replace (cltbl (file s')) with (cltbl (file s)) by (unfold tail in Ht; by injection Ht as _ _ _ _ _ -> _ _ _).
  destruct (stable_snum _ _ cs 0 Hst) as [-> _]. by destruct (stable_geometry _ _ Hst) as (-> & _).
Qed.

Lemma moved_fbyte s s' cs p k : moved s s' cs p -> 0 <= k < SS * span (fs (vol s)) cs -> fbyte s' cs k = fbyte s cs k.
Proof. intros Hm Hk. unfold fbyte. rewrite (mv_cached _ _ _ _ Hm); [done|]. unfold SS in *. divs. Qed.

Lemma moved_size s s' cs p : moved s s' cs p -> objsize (file s') = objsize (file s).
Proof. intros [_ _ _ Ht _ _ _]. unfold tail in Ht. by injection Ht as _ _ _ -> _ _ _ _ _. Qed.

Lemma moved_content s s' cs p : file_ok s cs -> moved s s' cs p -> content s' cs = content s cs.
Proof.
  intros [Hc _] Hm. pose proof (co_size _ _ Hc). unfold content. rewrite (moved_size _ _ _ _ Hm). apply bytes_ext.
  intros j Hj. apply (moved_fbyte _ _ _ _ _ Hm). lia.
Qed.

Lemma read_loop_ok fuel s cs btr rbuff off : file_ok s cs -> map_ok s cs ->
  0 <= btr <= objsize (file s) - fptr (file s) -> btr <= Z.of_nat fuel ->
  0 <= off -> off + btr <= Z.of_nat (length rbuff) -> Forall is_u8 rbuff ->
  exists r br rbuff' s', read_loop fuel btr rbuff off s = Some (r, br, rbuff', s') /\
    (r = FR_OK /\ br = off + btr /\ poke rbuff off (bytes (fbyte s cs) (fptr (file s)) btr) = Some rbuff' /\
       moved s s' cs (fptr (file s) + btr) \/
     r = FR_DISK_ERR /\ ~ reliable D).
Proof.
  revert s btr rbuff off. induction fuel as [|fuel IH]; intros s btr rbuff off Hf Hmap Hbtr Hfuel Hoff Hlen Hu8;
    cbn [read_loop]; destruct (btr <=? 0) eqn:Eb; zb; try lia.
  1,2: replace btr with 0 in * by lia; rewrite !Z.add_0_r; eexists _, _, _, s; split; [reflexivity|left];
    (splits; [done|done| |by apply moved_refl]); change (bytes (fbyte s cs) (fptr (file s)) 0) with (@nil Z);
    apply poke_Some; cbn [length app]; (splits; [done|lia|]); by rewrite Nat.add_0_r, take_drop.
  destruct (read_turn_ok s cs btr rbuff off Hf Hmap ltac:(lia) Hoff Hlen Hu8) as (r & rc & rb & s1 & E1 & Hr).
  rewrite (st_bind_eq _ _ _ _ _ E1). cbv beta iota. destruct Hr as [(-> & Hrc & Hpk & Hmv)|[-> Hrel]].
  2: { eexists _, _, _, _. split; [reflexivity|by right]. }
  cbn [Z.eqb negb FR_OK]. rewrite upd_fil_bind. fold (go rc s1).
  pose proof Hf as [Hc Hpos]. pose proof (po_ptr _ _ Hpos) as Hp. pose proof (co_size _ _ Hc) as [Hsz Hspan].
  pose proof (moved_size _ _ _ _ Hmv) as Eo. pose proof (mv_ptr _ _ _ _ Hmv) as Ep.
  pose proof (poke_length _ _ _ _ Hpk) as Hl.
  destruct (IH (go rc s1) (btr - rc) rb (off + rc)) as (r & br & rb2 & s2 & E2 & Hr);
    [apply Hmv|by apply (moved_map s _ _ _ Hmv)|rewrite Eo, Ep; lia|lia|lia|lia| |].
  { apply (poke_Forall _ _ _ _ _ Hpk); [done|]. by apply bytes_u8. }
  exists r, br, rb2, s2. split; [exact E2|]. destruct Hr as [(-> & -> & Hpk2 & Hmv2)|Hr]; [left|by right].
  rewrite Ep in Hpk2, Hmv2. splits; [done|lia| |].
  - replace btr with (rc + (btr - rc)) by lia. rewrite bytes_app by lia. apply (poke_append _ _ _ rb); [done|].
    rewrite bytes_length. replace (off + Z.of_nat (Z.to_nat rc)) with (off + rc) by lia. rewrite <- Hpk2. f_equal. apply bytes_ext.
    intros j Hj. symmetry. apply (moved_fbyte _ _ _ _ _ Hmv). lia.
  - replace (fptr (file s) + btr) with (fptr (file s) + rc + (btr - rc)) by lia. by apply (moved_trans s (go rc s1) s2 _ _ _ Hmv).
Qed.

(** An open file of the mounted volume without an error. *)
Definition usable s : Prop := obj_fs (file s) = true /\ obj_id (file s) = fs_id s /\ err (file s) = 0.

Lemma validate_ok s cs : core_ok s cs -> obj_fs (file s) = true -> obj_id (file s) = fs_id s ->
  exists r s', validate s = Some (r, s') /\ file s' = file s /\
    (r = FR_OK /\ quiet s s' cs \/ r = FR_INVALID_OBJECT /\ ~ reliable D).
Proof.
  intros Hc Hofs Hid. destruct (status_law (pdrv (fs (vol s))) (dev (vol s))) as (r & d & E & Hm).
  exists (if negb (has STA_NOINIT r) then FR_OK else FR_INVALID_OBJECT), (s <| vol ::= set dev (fun _ => d) |>). splits; [|done|].
  - unfold validate. rewrite fil_bind. unfold id at 1. rewrite st_get_bind, fatfs_bind. unfold id.
    replace (fs_type (fs (vol s)) =? 0) with false.
    2: { symmetry. apply Z.eqb_neq. destruct (geo_type _ (vol_geo _ (co_vol _ _ Hc))) as [->|[->| ->]]; done. }
    rewrite Hofs, Hid, Z.eqb_refl. cbn [andb negb]. by rewrite (st_bind_eq _ _ _ _ _ (on_drive_eq _ _ _ _ E)).
  - destruct (has STA_NOINIT r) eqn:Eh; cbn [negb]; [right|left; split; [done|by apply quiet_dev]].
    split; [done|]. intros Hrel. unfold has in Eh. by rewrite (reliable_status _ Hrel _ _ _ _ E) in Eh.
Qed.

(** A step that leaves the file object alone. *)
Lemma moved_quiet s s' cs : file_ok s cs -> quiet s s' cs -> file s' = file s -> moved s s' cs (fptr (file s)).
Proof.
  intros [Hc [Hp Hcl Hs]] Q Ef. pose proof (fr_stable _ _ _ (qu_frame _ _ _ Q)) as Hst.
  destruct (stable_geometry _ _ Hst) as (Ez & _). constructor; rewrite ?Ef; try done; try apply Q.
  split; [apply Q|]. constructor; rewrite ?Ef, ?Ez; [done|done|].
  by destruct (stable_snum _ _ cs (fptr (file s) / SS) Hst) as [_ ->].
Qed.

Lemma check_ok s cs : file_ok s cs -> usable s ->
  exists r s', check s = Some (r, s') /\ file s' = file s /\
    (r = FR_OK /\ moved s s' cs (fptr (file s)) \/ r = FR_INVALID_OBJECT /\ ~ reliable D).
Proof.
  intros Hf (Hofs & Hid & Herr). destruct (validate_ok s cs (proj1 Hf) Hofs Hid) as (r & s1 & E & Ef & Hr).
  unfold check. rewrite (st_bind_eq _ _ _ _ _ E). destruct Hr as [[-> Q]|[-> Hrel]]; cbn [negb Z.eqb FR_OK FR_INVALID_OBJECT].
  - exists FR_OK, s1. splits; [unfold fil, st_get; by rewrite Ef, Herr|done|left]. split; [done|by apply moved_quiet].
  - exists FR_INVALID_OBJECT, s1. by splits; [| |right].
Qed.

(** Reading, in terms of the bytes of the file and the move of its pointer. *)
Lemma f_read_ok s cs btr buff :
  file_ok s cs -> usable s -> has FA_READ (flag (file s)) = true -> map_ok s cs ->
  0 <= btr <= Z.of_nat (length buff) -> Forall is_u8 buff ->
  let m := Z.min btr (objsize (file s) - fptr (file s)) in
  exists r br buff' s', f_read btr buff s = Some (r, br, buff', s') /\
    (r = FR_OK /\ br = m /\ poke buff 0 (bytes (fbyte s cs) (fptr (file s)) m) = Some buff' /\
       moved s s' cs (fptr (file s) + m) \/
     (r = FR_DISK_ERR \/ r = FR_INVALID_OBJECT) /\ ~ reliable D).
Proof.
  intros Hf Huse Hread Hmap Hbtr Hu8 m. pose proof Hf as [Hc Hpos].
  pose proof (po_ptr _ _ Hpos) as Hp. pose proof (co_size _ _ Hc) as [Hsz Hspan].
  unfold f_read. destruct (check_ok s cs Hf Huse) as (r & s1 & E1 & Ef1 & [[-> Hm1]|[-> Hrel]]);
    rewrite (st_bind_eq _ _ _ _ _ E1).
  2: { eexists _, _, _, _. split; [reflexivity|]. right. split; [by right|done]. }
  cbn [Z.eqb negb FR_OK]. rewrite fil_bind. unfold id. rewrite Ef1, Hread. cbn [negb].
  rewrite u32_small by lia. cbv zeta.
  replace (if objsize (file s) - fptr (file s) <? btr then objsize (file s) - fptr (file s) else btr) with m by (unfold m; zcase; lia).
  destruct (read_loop_ok (Z.to_nat m) s1 cs m buff 0) as (r & br & rb & s2 & E2 & Hr);
    [apply Hm1|by apply (moved_map s _ _ _ Hm1)|rewrite Ef1; lia|lia|done|lia|done|].
  exists r, br, rb, s2. split; [exact E2|]. destruct Hr as [(-> & -> & Hpk & Hmv)|[-> Hrel]]; [left|right; split; [by left|done]].
  rewrite Ef1 in Hpk, Hmv. splits; [done|lia| |by apply (moved_trans _ _ _ _ _ _ Hm1 Hmv)].
  rewrite <- Hpk. f_equal. apply bytes_ext. intros j Hj. symmetry. apply (moved_fbyte _ _ _ _ _ Hm1). lia.
Qed.

(** The bytes read are a part of the content. *)
Lemma read_content s cs buff buff' p m : 0 <= p -> 0 <= m -> p + m <= objsize (file s) ->
  poke buff 0 (bytes (fbyte s cs) p m) = Some buff' ->
  buff' = take (Z.to_nat m) (drop (Z.to_nat p) (content s cs)) ++ drop (Z.to_nat m) buff.
Proof.
  intros Hp Hm Hle (_ & _ & ->)%poke_Some. rewrite bytes_length. change (Z.to_nat 0) with 0%nat.
  rewrite take_0, app_nil_l, Nat.add_0_l. unfold content. by rewrite bytes_drop, bytes_take by lia.
Qed.

(** C12: Reading a file.  On an open file a read of [btr] bytes, of which [m] are before
    its end, always returns; unless the drive fails it gives exactly the [m] bytes of the
    file from the pointer on, at the start of the memory given, and leaves the rest of
    the memory.  The pointer is moved behind them, the file has the same content, the
    buffer and the chain are in order, and no other file, table entry or sector has
    changed, whatever part of the file was in the buffer and not yet on the drive. *)
Theorem f_read_spec s cs btr buff :
  file_ok s cs -> usable s -> has FA_READ (flag (file s)) = true -> map_ok s cs ->
  0 <= btr <= Z.of_nat (length buff) -> Forall is_u8 buff ->
  let m := Z.min btr (objsize (file s) - fptr (file s)) in
  exists r br buff' s', f_read btr buff s = Some (r, br, buff', s') /\
    (r = FR_OK /\ br = m /\
       buff' = take (Z.to_nat m) (drop (Z.to_nat (fptr (file s))) (content s cs)) ++ drop (Z.to_nat m) buff /\
       fptr (file s') = fptr (file s) + m /\ file_ok s' cs /\ content s' cs = content s cs /\
       tail (file s') = tail (file s) /\ frame s s' cs \/
     (r = FR_DISK_ERR \/ r = FR_INVALID_OBJECT) /\ ~ reliable D).
Proof.
  intros Hf Huse Hread Hmap Hbtr Hu8 m. pose proof (po_ptr _ _ (proj2 Hf)) as Hp.
  destruct (f_read_ok s cs btr buff) as (r & br & rb & s2 & E & Hr); try done.
  exists r, br, rb, s2. split; [exact E|]. destruct Hr as [(-> & -> & Hpk & Hmv)|Hr]; [left|by right].
  splits; [done|done| |apply Hmv|apply Hmv|by apply (moved_content _ _ _ _ Hf Hmv)|apply Hmv|apply Hmv].
  apply (read_content s cs buff); [lia|unfold m; lia|unfold m; lia|exact Hpk].
Qed.
End read.
