(* ===== verification/FileWrite.v ===== *)
(** * FileWrite: writing a file

    [f_write] replaces the bytes of the file from the file pointer on and lets the file
    grow behind its end, cluster by cluster while there are free ones; no other file is
    touched.  The chain grows first, then one turn of the loop is shown, for the direct
    transfer of sectors and for the part of a sector in the buffer. *)

From S2P Require Import Prelude FatWords Blocks Fat FatFacts FatChain FatCreate FatWindow File FileFacts FileRead.

Section write.
Context `{DL : DiskLaws D}.
Implicit Types (s : FileSys D) (cs : list Z).

(** ** The chain grows *)

Lemma linked_entries E n c cs a : 2 <= n -> linked E n c cs -> a ∈ cs -> 2 <= E a.
Proof.
  intros Hn. revert c. induction cs as [|b [|b' cs] IH]; intros c Hl Ha; [by apply not_elem_of_nil in Ha| |].
  - destruct Hl as (-> & _ & ?). apply list_elem_of_singleton in Ha as ->. lia.
  - apply linked_cons in Hl as (-> & _ & Hl). apply elem_of_cons in Ha as [->|Ha]; [|by apply (IH _ Hl)].
    destruct (linked_head _ _ _ _ _ Hl). lia.
Qed.

(** A chain that goes on is followed. *)
Lemma create_follow (v : Vol D) clst : vol_ok v -> cluster (fs v) clst -> cluster (fs v) (entry v clst) ->
  exists r v', create_chain clst v = Some (r, v') /\ kept v v' /\
    (r = entry v clst \/ r = DISK_ERROR /\ ~ reliable D).
Proof.
  intros Hv Hc Hx. pose proof (n_fatent_small v Hv) as Hsm. unfold create_chain. rewrite get_id_bind.
  unfold cluster in Hc, Hx. replace (clst =? 0) with false by (symmetry; apply Z.eqb_neq; lia).
  destruct (get_step v clst Hv Hc) as (v1 & K & [E1|[E1 Hrel]]).
  - rewrite (st_bind_eq _ _ v (inl (entry v clst)) v1).
    2: { rewrite (st_bind_eq _ _ _ _ _ E1). unfold DISK_ERROR.
         replace (entry v clst <? 2) with false by (symmetry; apply Z.ltb_ge; lia).
         replace (entry v clst =? 0xFFFFFFFF) with false by (symmetry; apply Z.eqb_neq; lia).
         by replace (entry v clst <? n_fatent (fs v)) with true by (symmetry; apply Z.ltb_lt; lia). }
    exists (entry v clst), v1. by splits; [..|left].
  - rewrite (st_bind_eq _ _ v (inl DISK_ERROR) v1) by (by rewrite (st_bind_eq _ _ _ _ _ E1)).
    exists DISK_ERROR, v1. by splits; [..|right].
Qed.

(** What writing leaves of a file object. *)
Definition stub (fp : FIL) :=
  (obj_fs fp, obj_id fp, err fp, cltbl fp, dir_sect fp, dir_ptr fp, clear FA_DIRTY (flag fp)).

(** The chain has grown by clusters that were free, and no further than to the cluster
    that holds the byte at [q]. *)
Definition grew s cs cs' (q : Z) : Prop := exists ext, cs' = cs ++ ext /\
  Forall (fun c => entry (vol s) c = 0) ext /\
  (ext = [] \/ Z.of_nat (length cs') = q / SS / csize (fs (vol s)) + 1).

Lemma grew_refl s cs q : grew s cs cs q.
Proof. exists []. splits; [by rewrite app_nil_r|done|by left]. Qed.

(** The file has the chain [cs'], which goes on from [cs], and is in cluster [c]. *)
Record grown s s' cs cs' (c : Z) : Prop := Grown {
  gr_core : core_ok s' cs';
  gr_frame : frame s s' cs';
  gr_ext : grew s cs cs' (fptr (file s));
  gr_size : objsize (file s') = objsize (file s);
  gr_ptr : fptr (file s') = fptr (file s);
  gr_stub : stub (file s') = stub (file s);
  gr_clust : clust (file s') = c;
  gr_id : fs_id s' = fs_id s;
  gr_room : room (vol s');
  gr_cached i : 0 <= i < span (fs (vol s)) cs -> cached s' cs' i = cached s cs i
}.

Definition took (c : Z) s : FileSys D :=
  s <| file ::= (fun fp => (if sclust fp =? 0 then fp <| sclust := c |> else fp) <| clust := c |>) |>.

Lemma took_used s c : sclust (file s) <> 0 -> took c s = at_cluster s c.
Proof.
  intros Hs. destruct s as [v n fp]. unfold took, at_cluster, set. cbn. cbn in Hs.
  by replace (sclust fp =? 0) with false by (symmetry; by apply Z.eqb_neq).
Qed.

Lemma chain_start s cs i c : core_ok s cs -> cs.[i] = Some c -> sclust (file s) <> 0.
Proof.
  intros Hc Hi. destruct (co_chain _ _ Hc) as [[_ ->]|Hl].
  - apply arr_get_lt in Hi. cbn in Hi. lia.
  - destruct cs as [|a cs]; [done|]. destruct (linked_head _ _ _ _ _ Hl). lia.
Qed.

(** The cluster was there already. *)
Lemma grown_same s s' cs i c : core_ok s cs -> quiet s s' cs -> file s' = file s -> room (vol s) ->
  cs.[i] = Some c -> grown s (took c s') cs cs c.
Proof.
  intros Hc Q Hf Hroom Hi. rewrite took_used by (rewrite Hf; by apply (chain_start s cs i c)).
  destruct Q as [Hc' [Hst He Hv] Hh Hid _ Hr Hq]. constructor; [by apply core_at|by constructor| | | | |done|done|by apply Hr|exact Hq].
  - apply grew_refl.
  - cbn. by rewrite Hf.
  - cbn. by rewrite Hf.
  - unfold stub. cbn. by rewrite Hf.
Qed.

Lemma span_app (f : FATFS) cs ext : data_ok f -> span f cs <= span f (cs ++ ext).
Proof. intros Hd. pose proof (csize_range f Hd). unfold span. rewrite length_app. nia. Qed.

Lemma snum_app (f : FATFS) cs ext i : data_ok f -> 0 <= i < span f cs -> snum f (cs ++ ext) i = snum f cs i.
Proof.
  intros Hd Hi. pose proof (chain_index f cs i Hd Hi) as Hx. unfold snum, arr_get.
  replace (0 <=? i / csize f) with true by (symmetry; apply Z.leb_le; lia). by rewrite lookup_app_l by lia.
Qed.

(** A free cluster has come to the end of the chain. *)
Lemma extended_chain (v : Vol D) h cs clst c v' : vol_ok v -> can_create v clst -> chain v h cs ->
  (cs = [] /\ clst = 0 \/ cs.[Z.of_nat (length cs) - 1] = Some clst) -> NoDup cs ->
  create_chain clst v = Some (c, v') -> cluster (fs v) c -> entry v c = 0 ->
  (forall a, cluster (fs v) a -> entry v' a = extended v clst c a) ->
  (cs = [] -> linked (entry v') (n_fatent (fs v)) c [c]) /\
  (cs <> [] -> linked (entry v') (n_fatent (fs v)) h (cs ++ [c])) /\ c ∉ cs.
Proof.
  intros Hv Hcan Hch Hlast Hnd E Hc He W. pose proof (n_fatent_small v Hv) as Hsm.
  pose proof (geo_count _ (vol_geo _ Hv)) as [_ Heoc]. splits.
  - intros ->. destruct Hlast as [[_ ->]|Hl]; [|by apply arr_get_lt in Hl; cbn in Hl; lia].
    cbn. splits; [done|apply Hc|apply Hc|]. rewrite W by done. unfold extended, with_prev, with_entry. cbn [Z.eqb].
    rewrite Z.eqb_refl. lia.
  - intros Hne. destruct Hlast as [[-> _]|Hl]; [done|]. destruct Hch as [[_ ->]|Hch]; [done|].
    assert (Ecs : exists l, cs = l ++ [clst]).
    { destruct cs as [|x l _] using rev_ind; [done|]. exists l. f_equal. f_equal. apply arr_get_Some in Hl as [_ Hl].
      rewrite length_app in Hl. cbn [length] in Hl.
      replace (Z.to_nat (Z.of_nat (length l + 1) - 1)) with (length l) in Hl by lia.
      rewrite list_lookup_middle in Hl by done. by injection Hl. }
    destruct Ecs as [l ->]. rewrite <- app_assoc. by apply (create_chain_linked v clst c v' h l).
  - intros Hin. destruct Hch as [[_ ->]|Hch]; [by apply not_elem_of_nil in Hin|].
    pose proof (linked_entries _ (n_fatent (fs v)) _ _ c ltac:(lia) Hch Hin). lia.
Qed.

Lemma extended_room (v v' : Vol D) clst c : vol_ok v -> room v -> cluster (fs v) c -> count_ok v' -> last_clst (fs v') = c ->
  table_only v v' -> (forall a, cluster (fs v) a -> entry v' a = extended v clst c a) -> room v'.
Proof.
  intros Hv (Hs & H0 & Hc0 & Hl) Hc Hcount Hlast T W. pose proof (free_bound v' (to_ok _ _ T)) as Hfb.
  pose proof (n_fatent_small v' (to_ok _ _ T)). pose proof (geo_count _ (vol_geo _ Hv)) as [_ Heoc].
  unfold cluster in Hc. unfold room. splits; [|destruct Hcount; lia|done|lia].
  intros a Ha. apply (table_cluster _ _ _ T) in Ha. rewrite W by done. unfold extended, with_prev, with_entry.
  specialize (Hs a Ha). destruct (clst =? 0); repeat zcase; lia.
Qed.

(** What taking the cluster does to the file object. *)
Lemma took_fields s c v' : let s' := took c (s <| vol := v' |>) in
  sclust (file s') = (if sclust (file s) =? 0 then c else sclust (file s)) /\ clust (file s') = c /\
  objsize (file s') = objsize (file s) /\ fptr (file s') = fptr (file s) /\ stub (file s') = stub (file s) /\
  buf (file s') = buf (file s) /\ sect (file s') = sect (file s) /\ dirty (file s') = dirty (file s).
Proof. unfold took, stub, dirty. cbn. by destruct (sclust (file s) =? 0). Qed.

(** The invariant of the file on the volume whose table has the longer chain. *)
Lemma took_core s cs c v' : core_ok s cs -> table_only (vol s) v' ->
  (linked (entry v') (n_fatent (fs (vol s))) (if sclust (file s) =? 0 then c else sclust (file s)) (cs ++ [c])) ->
  c ∉ cs ->
  (forall i, 0 <= i < span (fs (vol s)) (cs ++ [c]) -> winsect (fs v') <> snum (fs (vol s)) (cs ++ [c]) i) ->
  (forall i, 0 <= i < span (fs (vol s)) cs ->
    medium (dev v') (snum (fs (vol s)) cs i) = medium (dev (vol s)) (snum (fs (vol s)) cs i)) ->
  core_ok (took c (s <| vol := v' |>)) (cs ++ [c]).
Proof.
  intros Hc T Hlk Hnin Haway Hmed. pose proof T as [Hv' Hst _]. pose proof (co_data _ _ Hc) as Hd.
  destruct (took_fields s c v') as (F1 & _ & F3 & _ & _ & F6 & F7 & F8). set (s' := took c (s <| vol := v' |>)) in *.
  destruct (stable_fields _ _ Hst) as (_ & _ & _ & _ & En). pose proof (span_app (fs (vol s)) cs [c] Hd) as Hspan.
  pose proof (co_size _ _ Hc) as [_ Hsz].
  constructor; change (vol s') with v'; rewrite ?F3, ?F6, ?F7, ?F8; [done|by apply (stable_data_ok _ _ Hst)| | | |apply Hc| | |].
  - right. by rewrite En, F1.
  - apply NoDup_app. splits; [apply Hc| |by apply NoDup_singleton]. intros a Ha. rewrite list_elem_of_singleton. by intros ->.
  - destruct (stable_snum _ _ (cs ++ [c]) 0 Hst) as [-> _]. pose proof (co_size _ _ Hc). unfold SS in *. lia.
  - intros Hdt. destruct (co_dirty _ _ Hc Hdt) as (i & Hi & ->). exists i.
    destruct (stable_snum _ _ (cs ++ [c]) i Hst) as [-> ->]. rewrite snum_app by done. split; [lia|done].
  - intros i Hdt Hi Ho Es. assert (Hi' : 0 <= i < span (fs (vol s)) cs) by (unfold SS in *; lia).
    destruct (stable_snum _ _ (cs ++ [c]) i Hst) as [_ E2]. rewrite E2, snum_app in Es by done.
    rewrite Es, (Hmed i Hi'), <- Es. by apply (co_clean _ _ Hc i).
  - intros i. destruct (stable_snum _ _ (cs ++ [c]) i Hst) as [-> ->]. apply Haway.
Qed.

Lemma grown_new s cs clst c v' : core_ok s cs -> room (vol s) -> can_create (vol s) clst ->
  (cs = [] /\ clst = 0 \/ cs.[Z.of_nat (length cs) - 1] = Some clst) ->
  fptr (file s) / SS / csize (fs (vol s)) = Z.of_nat (length cs) ->
  create_chain clst (vol s) = Some (c, v') -> cluster (fs (vol s)) c -> entry (vol s) c = 0 ->
  table_only (vol s) v' -> last_clst (fs v') = c -> count_ok v' ->
  (forall a, cluster (fs (vol s)) a -> entry v' a = extended (vol s) clst c a) ->
  grown s (took c (s <| vol := v' |>)) cs (cs ++ [c]) c.
Proof.
  intros Hc Hroom Hcan Hlast Hend E Hcc He T Hl Hcount W. pose proof T as [Hv' Hst Hdata].
  pose proof (co_data _ _ Hc) as Hd. pose proof (stable_data_ok _ _ Hst Hd) as Hd'.
  destruct (extended_chain (vol s) (sclust (file s)) cs clst c v') as (H1 & H2 & Hnin);
    [apply Hc|done|apply Hc|done|apply Hc|done|done|done|done|].
  assert (Hcs' : clusters (fs (vol s)) (cs ++ [c])).
  { apply Forall_app_2; [by apply (core_clusters s)|by constructor]. }
  assert (Hsn : forall i, 0 <= i < span (fs (vol s)) (cs ++ [c]) ->
    data_sector (fs (vol s)) (snum (fs (vol s)) (cs ++ [c]) i) /\ ~ in_table (fs (vol s)) (snum (fs (vol s)) (cs ++ [c]) i))
    by (intros i Hi; destruct (snum_data (fs (vol s)) (cs ++ [c]) i) as (? & ? & _); [apply vol_geo, Hc|done..]).
  assert (Hin : in_table (fs (vol s)) (winsect (fs v'))).
  { by apply (moves_create_chain (fs (vol s)) (vol_geo _ (co_vol _ _ Hc)) (winsect (fs (vol s))) clst _ _ _ (stable_refl _)
      (or_introl eq_refl) E). }
  assert (Haway : forall i, 0 <= i < span (fs (vol s)) (cs ++ [c]) -> winsect (fs v') <> snum (fs (vol s)) (cs ++ [c]) i).
  { intros i Hi Ew. destruct (Hsn i Hi) as [_ Hn]. by rewrite Ew in Hin. }
  pose proof (span_app (fs (vol s)) cs [c] Hd) as Hspan.
  assert (Hmed : forall i, 0 <= i < span (fs (vol s)) cs ->
    medium (dev v') (snum (fs (vol s)) cs i) = medium (dev (vol s)) (snum (fs (vol s)) cs i)).
  { intros i Hi. rewrite <- (file_view s cs i Hc Hi), <- Hdata by (by apply file_snum). unfold view.
    pose proof (Haway i ltac:(lia)) as Hw. rewrite snum_app in Hw by done.
    destruct (_ =? winsect (fs v')) eqn:Ew; [zb; congruence|done]. }
  set (s' := took c (s <| vol := v' |>)). destruct (took_fields s c v') as (F1 & F2 & F3 & F4 & F5 & F6 & F7 & Hdirty). fold s' in F1, F2, F3, F4, F5, F6, F7, Hdirty.
  destruct (stable_fields _ _ Hst) as (_ & _ & _ & _ & En).
  constructor; [| |exists [c]; splits; [done|by constructor|right; rewrite length_app, Hend; cbn; lia]|done|done|done|done|done| |].
  - apply took_core; try done. destruct (co_chain _ _ Hc) as [[-> Hnil]|Hch]; [rewrite Hnil in *; by apply H1|].
    assert (Hne : cs <> []) by (intros ->; done). destruct cs as [|b l]; [done|].
    destruct (linked_head _ _ _ _ _ Hch) as [_ Hb].
    replace (sclust (file s) =? 0) with false by (symmetry; apply Z.eqb_neq; lia). by apply H2.
  - constructor; change (vol s') with v'; [done| |].
    + intros a Ha Hn. rewrite W by done. unfold extended, with_prev, with_entry.
      assert (a <> c /\ a ∉ cs) as [Hac Hacs] by set_solver.
      assert (clst = 0 \/ a <> clst) as Hacl.
      { destruct Hlast as [[_ ->]|Hlast]; [by left|right]. intros ->. apply Hacs.
        apply arr_get_Some in Hlast as [_ Hlast]. by apply list_elem_of_lookup_2 in Hlast. }
      destruct (clst =? 0) eqn:E0; zb; [by ztest|]. destruct Hacl as [?|?]; [lia|]. by repeat ztest.
    + intros t Ht _. by apply Hdata.
  - change (vol s') with v'. by apply (extended_room (vol s) v' clst c); [apply Hc|..].
  - intros i Hi. unfold cached. change (vol s') with v'. rewrite Hdirty, F6, F7.
    destruct (stable_snum _ _ (cs ++ [c]) i Hst) as [_ ->]. rewrite snum_app by done. by rewrite Hmed.
Qed.

(** What entering a cluster for writing ends with, on the boundary of sector [i]. *)
Definition taken s cs (i r : Z) s' : Prop :=
  (exists cs', cs'.[i / csize (fs (vol s))] = Some r /\ cluster (fs (vol s)) r /\ grown s (took r s') cs cs' r) \/
  r = 0 /\ quiet s s' cs /\ file s' = file s /\ (forall c, cluster (fs (vol s)) c -> entry (vol s) c <> 0) \/
  r = DISK_ERROR /\ ~ reliable D.

Lemma quiet_create s cs clst r v' : core_ok s cs -> kept (vol s) v' -> create_chain clst (vol s) = Some (r, v') ->
  quiet s (s <| vol := v' |>) cs.
Proof.
  intros Hc K E. apply quiet_kept; [done|done|].
  by apply (moves_create_chain (fs (vol s)) (vol_geo _ (co_vol _ _ Hc)) (winsect (fs (vol s))) clst _ _ _ (stable_refl _)
    (or_introl eq_refl) E).
Qed.

(** At the end of the chain a cluster is created. *)
Lemma create_end_ok s cs clst i : core_ok s cs -> room (vol s) ->
  (cs = [] /\ clst = 0 \/ cs.[Z.of_nat (length cs) - 1] = Some clst) ->
  fptr (file s) = SS * i -> i / csize (fs (vol s)) = Z.of_nat (length cs) ->
  exists r s', on_vol (create_chain clst) s = Some (r, s') /\ taken s cs i r s'.
Proof.
  intros Hc Hroom Hlast Hp Hi. pose proof Hroom as (Hs & H0 & Hcount & Hl).
  assert (Hcan : can_create (vol s) clst).
  { unfold can_create. splits; [done..|]. destruct Hlast as [[_ ->]|Hlast]; [by left|right].
    destruct (co_chain _ _ Hc) as [[_ ->]|Hch]; [apply arr_get_lt in Hlast; cbn in Hlast; lia|]. split.
    - pose proof (core_clusters s cs Hc) as Hcs. apply arr_get_Some in Hlast as [_ Hlast]. by apply (Forall_lookup_1 _ _ _ _ Hcs Hlast).
    - by apply (linked_last _ _ _ _ _ Hch). }
  destruct (create_chain_ok (vol s) clst (co_vol _ _ Hc) Hcan) as (r & v' & E & T & Hr).
  exists r, (s <| vol := v' |>). split; [by apply on_vol_eq|].
  destruct Hr as [(Hcr & He & Hlc & Hc' & W)|[(-> & K & Hnone)|(-> & Hrel & _)]].
  - left. exists (cs ++ [r]). splits; [|done|apply (grown_new s cs clst r v'); try done; by rewrite Hp, sector_div].
    rewrite Hi. rewrite arr_get_nat. by apply list_lookup_middle.
  - right; left. splits; [done|by apply (quiet_create s cs clst 0)|done|done].
  - right; right. done.
Qed.

Lemma write_cluster_ok s cs i : core_ok s cs -> pos_ok s cs -> room (vol s) -> cltbl (file s) = None ->
  fptr (file s) = SS * i -> 0 <= i <= span (fs (vol s)) cs -> i mod csize (fs (vol s)) = 0 ->
  exists r s', write_cluster s = Some (r, s') /\ taken s cs i r s'.
Proof.
  intros Hc Hpos Hroom Htbl Hp Hi Hm. pose proof (csize_range _ (co_data _ _ Hc)) as Hz.
  pose proof (Z.div_mod i (csize (fs (vol s))) ltac:(lia)) as Ei. rewrite Hm, Z.add_0_r in Ei.
  assert (Hx : 0 <= i / csize (fs (vol s)) <= Z.of_nat (length cs)) by (unfold span in Hi; nia).
  unfold write_cluster. rewrite fil_bind, fatfs_bind. unfold id. rewrite Hp.
  destruct (decide (i = 0)) as [->|Hi0].
  { rewrite Z.mul_0_r. cbn [Z.eqb]. rewrite Z.div_0_l in * by lia.
    destruct (co_chain _ _ Hc) as [[Hs ->]|Hch].
    - rewrite Hs. cbn [Z.eqb]. apply create_end_ok; [done|done|by left|done|by rewrite Z.div_0_l by lia].
    - destruct cs as [|b l]; [done|]. destruct (linked_head _ _ _ _ _ Hch) as [Eb Hb].
      replace (sclust (file s) =? 0) with false by (symmetry; apply Z.eqb_neq; lia).
      exists (sclust (file s)), s. split; [done|]. left. exists (b :: l). rewrite Z.div_0_l by lia.
      splits; [by rewrite Eb|done|]. apply (grown_same s s _ 0); [done|by apply quiet_refl|done|done|by rewrite Eb]. }
  replace (SS * i =? 0) with false by (symmetry; apply Z.eqb_neq; unfold SS; lia). rewrite Htbl.
  pose proof (po_clust _ _ Hpos ltac:(unfold SS in *; lia)) as Hcl. rewrite Hp, sector_before in Hcl.
  assert (Eq : (i - 1) / csize (fs (vol s)) = i / csize (fs (vol s)) - 1).
  { symmetry. apply Z.div_unique_pos with (csize (fs (vol s)) - 1); lia. }
  rewrite Eq in Hcl. set (j := i / csize (fs (vol s))) in *.
  destruct (decide (j = Z.of_nat (length cs))) as [Ej|Hj].
  { apply create_end_ok; [done|done| |done|done]. right. by rewrite <- Ej. }
  destruct (arr_get_is_Some cs j) as [b Hb]; [lia|]. pose proof (core_clusters s cs Hc) as Hcs.
  assert (Hin : forall k a, cs.[k] = Some a -> cluster (fs (vol s)) a).
  { intros k a Ha. apply arr_get_Some in Ha as [_ Ha]. by apply (Forall_lookup_1 _ _ _ _ Hcs Ha). }
  assert (Enext : entry (vol s) (clust (file s)) = b).
  { destruct (co_chain _ _ Hc) as [[_ ->]|Hch]; [apply arr_get_lt in Hb; cbn in Hb; lia|].
    destruct (linked_lookup _ _ _ _ Hch) as [_ Hnext]. apply (Hnext (j - 1)); [done|by replace (j - 1 + 1) with j by lia]. }
  destruct (create_follow (vol s) (clust (file s))) as (r & v' & E & K & Hr);
    [apply Hc|by apply (Hin (j - 1))|rewrite Enext; by apply (Hin j)|].
  exists r, (s <| vol := v' |>). split; [by apply on_vol_eq|]. destruct Hr as [->|Hr]; [left|by right; right].
  rewrite Enext in *. exists cs. splits; [done|by apply (Hin j)|].
  apply (grown_same s _ _ j); [done|by apply (quiet_create s cs (clust (file s)) b)|done|done|done].
Qed.

Lemma grown_here s cs c : core_ok s cs -> room (vol s) -> clust (file s) = c -> grown s s cs cs c.
Proof.
  intros Hc Hroom Hcl. constructor; [done|apply frame_refl|apply grew_refl|done..].
Qed.

Lemma write_enter_ok s cs i : core_ok s cs -> pos_ok s cs -> room (vol s) -> cltbl (file s) = None ->
  fptr (file s) = SS * i -> 0 <= i <= span (fs (vol s)) cs ->
  exists r s', (if Z.land (fptr (file s) / SS) (csize (fs (vol s)) - 1) =? 0 then write_enter else mret (Some FR_OK)) s = Some (r, s') /\
    (r = Some FR_OK /\ (exists cs' c, cs'.[i / csize (fs (vol s))] = Some c /\ cluster (fs (vol s)) c /\ grown s s' cs cs' c) \/
     r = None /\ quiet s s' cs /\ file s' = file s /\ (forall c, cluster (fs (vol s)) c -> entry (vol s) c <> 0) \/
     r = Some FR_DISK_ERR /\ ~ reliable D).
Proof.
  intros Hc Hpos Hroom Htbl Hp Hi. rewrite Hp, sector_div, csize_mask by apply Hc.
  destruct (i mod _ =? 0) eqn:Em; zb.
  - unfold write_enter. destruct (write_cluster_ok s cs i Hc Hpos Hroom Htbl Hp Hi Em) as (r & s1 & E & Hr).
    rewrite (st_bind_eq _ _ _ _ _ E). destruct Hr as [(cs' & Hx & Hcc & Hg)|[(-> & Q & Hf & Hn)|[-> Hrel]]].
    + pose proof (n_fatent_small _ (co_vol _ _ Hc)) as Hsm. pose proof Hcc as Hcr. unfold cluster in Hcr.
      replace (r =? 0) with false by (symmetry; apply Z.eqb_neq; lia).
      replace (r =? 1) with false by (symmetry; apply Z.eqb_neq; lia).
      replace (r =? DISK_ERROR) with false by (symmetry; apply Z.eqb_neq; unfold DISK_ERROR; lia).
      exists (Some FR_OK), (took r s1). split; [done|left]. split; [done|]. by exists cs', r.
    + exists None, s1. split; [done|]. right; left. by splits.
    + eexists _, _. split; [reflexivity|]. by right; right.
  - exists (Some FR_OK), s. split; [done|left]. split; [done|].
    pose proof (csize_range _ (co_data _ _ Hc)) as Hz.
    assert (Hi' : 0 <= i < span (fs (vol s)) cs).
    { split; [lia|]. destruct (decide (i = span (fs (vol s)) cs)) as [Ei|]; [|lia]. exfalso. apply Em. rewrite Ei. unfold span.
      by rewrite Z.mul_comm, Z.mod_mul by lia. }
    destruct (proj2 (boundary s cs i Hc Hi') Em) as [Hi0 Hq].
    pose proof (po_clust _ _ Hpos ltac:(unfold SS in *; lia)) as Hcl. rewrite Hp, sector_before, Hq in Hcl.
    exists cs, (clust (file s)). splits; [done| |by apply grown_here].
    apply arr_get_Some in Hcl as [_ Hcl]. by apply (Forall_lookup_1 _ _ _ _ (core_clusters s cs Hc) Hcl).
Qed.

(** ** Storing bytes *)

(** The pointer behind [n] bytes, and the size. *)
Definition adv (n : Z) (fp : FIL) : FIL :=
  let p := u32 (fptr fp + n) in fp <| fptr := p |> <| objsize := if objsize fp <? p then p else objsize fp |>.

Definition forward (n : Z) s : FileSys D := s <| file ::= adv n |>.

(** Byte [k] of a file after [chunk] is stored at [p]. *)
Definition patched (f : Z -> Z) (p : Z) (chunk : list Z) (k : Z) : Z :=
  if (p <=? k) && (k <? p + Z.of_nat (length chunk)) then default 0 chunk.[k - p] else f k.

(** The bytes of [chunk] have been written. *)
Record wrote s s' cs cs' (chunk : list Z) : Prop := Wrote {
  wr_file : file_ok s' cs';
  wr_ext : grew s cs cs' (fptr (file s') - 1);
  wr_frame : frame s s' cs';
  wr_ptr : fptr (file s') = fptr (file s) + Z.of_nat (length chunk);
  wr_size : objsize (file s') = Z.max (objsize (file s)) (fptr (file s) + Z.of_nat (length chunk));
  wr_stub : stub (file s') = stub (file s);
  wr_id : fs_id s' = fs_id s;
  wr_room : room (vol s');
  wr_bytes k : 0 <= k < objsize (file s') -> fbyte s' cs' k = patched (fbyte s cs) (fptr (file s)) chunk k
}.

Lemma grown_fbyte s s' cs cs' c k : core_ok s cs -> grown s s' cs cs' c -> 0 <= k < objsize (file s) ->
  fbyte s' cs' k = fbyte s cs k.
Proof.
  intros Hc Hg Hk. pose proof (co_size _ _ Hc) as [_ Hsz]. unfold fbyte. rewrite (gr_cached _ _ _ _ _ Hg); [done|].
  unfold SS in *. divs.
Qed.

(** A store in the medium and the file object that has the bytes wanted. *)
Lemma wrote_intro s s1 cs cs' c d fp' chunk (X : Z -> Prop) : file_ok s cs -> grown s s1 cs cs' c ->
  let p := fptr (file s) in let n := Z.of_nat (length chunk) in
  let f := fs (vol s1) in let s' := MkFileSys ((vol s1) <| dev := d |>) (fs_id s1) fp' in
  0 < n -> p + n < 2 ^ 32 -> p + n <= SS * span f cs' ->
  (forall t, X t -> exists i, 0 <= i < span f cs' /\ t = snum f cs' i) ->
  (forall t, ~ X t -> medium d t = medium (dev (vol s1)) t) ->
  fptr fp' = p + n -> objsize fp' = Z.max (objsize (file s)) (p + n) -> stub fp' = stub (file s) ->
  sclust fp' = sclust (file s1) -> clust fp' = c -> sector (buf fp') ->
  (dirty fp' = true -> exists i, 0 <= i < span f cs' /\ sect fp' = snum f cs' i) ->
  (forall i, dirty fp' = false -> 0 <= i < span f cs' -> SS * i < objsize fp' -> sect fp' = snum f cs' i ->
     buf fp' = medium d (sect fp')) ->
  cs'.[(p + n - 1) / SS / csize f] = Some c ->
  ((p + n) mod SS <> 0 -> sect fp' = snum f cs' ((p + n) / SS)) ->
  (forall k, 0 <= k < objsize fp' -> fbyte s' cs' k = patched (fbyte s1 cs') p chunk k) ->
  wrote s s' cs cs' chunk.
Proof.
  intros [Hc Hpos] Hg p n f s' Hn Hlt Hle HX Hm Fp Fo Fs Fc Fcl Hb Hdirty Hclean Hcl Hsect Hbytes.
  pose proof (po_ptr _ _ Hpos) as Hp. fold p in Hp. pose proof (co_size _ _ Hc) as [Hsz _].
  pose proof (co_size _ _ (gr_core _ _ _ _ _ Hg)) as [_ Hsz1]. rewrite (gr_size _ _ _ _ _ Hg) in Hsz1. fold f in Hsz1.
  destruct (core_write s1 cs' d fp' X) as (Hcore & Hframe & Hroom); [apply Hg|done|done|done|rewrite Fo; fold f; lia|done..|].
  fold s' in Hcore, Hframe, Hroom. constructor.
  - split; [done|]. constructor; change (file s') with fp'; change (fs (vol s')) with f; rewrite Fp.
    + rewrite Fo. lia.
    + intros _. by rewrite Fcl.
    + done.
  - change (file s') with fp'. rewrite Fp. destruct (gr_ext _ _ _ _ _ Hg) as (ext & Ex & Hfree & Hlen).
    exists ext. splits; [done|done|]. destruct Hlen as [|Hlen]; [by left|right]. apply arr_get_lt in Hcl.
    assert (Hcz : csize f = csize (fs (vol s))) by (by destruct (stable_geometry _ _ (fr_stable _ _ _ (gr_frame _ _ _ _ _ Hg)))).
    pose proof (csize_range _ (co_data _ _ Hc)) as Hz. rewrite Hcz in Hcl. fold p in Hlen.
    assert (p / SS / csize (fs (vol s)) <= (p + n - 1) / SS / csize (fs (vol s))); [|lia].
    apply Z.div_le_mono; [lia|]. apply Z.div_le_mono; [unfold SS; lia|lia].
  - apply frame_trans with s1; [apply Hg|done].
  - done.
  - done.
  - done.
  - apply Hg.
  - apply Hroom, Hg.
  - intros k Hk. change (file s') with fp' in Hk. rewrite Hbytes by done. unfold patched. fold p.
    destruct (_ && _) eqn:E; [done|]. apply (grown_fbyte s s1 cs cs' c); [done|done|]. rewrite Fo in Hk. fold n in E.
    apply andb_false_iff in E as [E|E]; zb; lia.
Qed.

Lemma grew_trans s1 s2 s3 cs1 cs2 cs3 a b : file_ok s1 cs1 -> wrote s1 s2 cs1 cs2 a -> wrote s2 s3 cs2 cs3 b ->
  grew s1 cs1 cs3 (fptr (file s3) - 1).
Proof.
  intros [Hc _] W1 W2. pose proof (wr_ptr _ _ _ _ _ W2) as P2. pose proof (wr_file _ _ _ _ _ W2) as [Hc3 Hpos3].
  destruct (wr_ext _ _ _ _ _ W1) as (x1 & E1 & F1 & L1). destruct (wr_ext _ _ _ _ _ W2) as (x2 & E2 & F2 & L2).
  destruct (wr_frame _ _ _ _ _ W1) as [S1 N1 _], (wr_frame _ _ _ _ _ W2) as [S2 _ _].
  destruct (stable_geometry _ _ S1) as (Ez & _). rewrite Ez in L2. pose proof (csize_range _ (co_data _ _ Hc)) as Hz.
  exists (x1 ++ x2). splits; [by rewrite E2, E1, app_assoc| |].
  - apply Forall_app_2; [done|]. pose proof (co_nodup _ _ Hc3) as Hnd. rewrite E2 in Hnd. apply NoDup_app in Hnd as (_ & Hnd & _).
    pose proof (core_clusters _ _ Hc3) as Hcl. rewrite E2 in Hcl. apply Forall_app in Hcl as [_ Hcl].
    rewrite Forall_forall in F2, Hcl |- *. intros c Hin. rewrite <- (F2 c Hin). symmetry. apply N1.
    + by apply (stable_cluster _ _ _ S1), (stable_cluster _ _ _ S2), Hcl.
    + intros H2. by apply (Hnd c).
  - destruct L2 as [->|L2]; [|by right]. rewrite app_nil_r in *. subst cs3. destruct L1 as [|L1]; [by left|right].
    destruct (stable_geometry _ _ S2) as (Ez2 & _).
    pose proof (po_ptr _ _ Hpos3). pose proof (co_size _ _ Hc3) as [_ Hsz]. unfold span in Hsz. rewrite Ez2, Ez in Hsz.
    assert ((fptr (file s2) - 1) / SS / csize (fs (vol s1)) <= (fptr (file s3) - 1) / SS / csize (fs (vol s1))).
    { apply Z.div_le_mono; [lia|]. apply Z.div_le_mono; [unfold SS; lia|lia]. }
    assert ((fptr (file s3) - 1) / SS / csize (fs (vol s1)) < Z.of_nat (length cs2)); [|lia].
    apply Z.div_lt_upper_bound; [lia|]. apply Z.div_lt_upper_bound; [unfold SS; lia|]. lia.
Qed.

Lemma wrote_trans s1 s2 s3 cs1 cs2 cs3 a b : file_ok s1 cs1 -> wrote s1 s2 cs1 cs2 a -> wrote s2 s3 cs2 cs3 b ->
  wrote s1 s3 cs1 cs3 (a ++ b).
Proof.
  intros [Hc Hpos] W1 W2. pose proof (po_ptr _ _ Hpos) as Hp.
  pose proof (wr_ptr _ _ _ _ _ W1) as P1. pose proof (wr_ptr _ _ _ _ _ W2) as P2.
  pose proof (wr_size _ _ _ _ _ W1) as O1. pose proof (wr_size _ _ _ _ _ W2) as O2.
  destruct (wr_ext _ _ _ _ _ W1) as (x1 & E1 & _). destruct (wr_ext _ _ _ _ _ W2) as (x2 & E2 & _).
  constructor; rewrite ?length_app, ?Nat2Z.inj_add.
  - apply W2.
  - by apply (grew_trans s1 s2 s3 cs1 cs2 cs3 a b).
  - destruct (wr_frame _ _ _ _ _ W1) as [S1 N1 V1], (wr_frame _ _ _ _ _ W2) as [S2 N2 V2].
    constructor; [by apply stable_trans with (fs (vol s2))| |].
    + intros c Hcl Hn. rewrite N2, N1; [done|done| |by apply (stable_cluster _ _ _ S1)|done].
      intros Hin. apply Hn. rewrite E2. set_solver.
    + intros t Ht Hi. pose proof (co_data _ _ Hc) as Hd. pose proof (stable_data_ok _ _ S1 Hd) as Hd2.
      rewrite V2, V1; [done|done| |by apply (stable_data _ _ _ S1)|].
      * intros i Hr. rewrite <- (snum_app _ cs2 x2) by done. rewrite <- E2. apply Hi. rewrite E2.
        pose proof (span_app (fs (vol s1)) cs2 x2 Hd). lia.
      * intros i. destruct (stable_snum _ _ cs3 i S1) as [-> ->]. apply Hi.
  - lia.
  - lia.
  - rewrite (wr_stub _ _ _ _ _ W2). apply W1.
  - rewrite (wr_id _ _ _ _ _ W2). apply W1.
  - apply W2.
  - intros k Hk. rewrite (wr_bytes _ _ _ _ _ W2) by done. rewrite P1. unfold patched. rewrite length_app.
    destruct ((fptr (file s1) + Z.of_nat (length a) <=? k) && _) eqn:Eb; zb.
    + replace ((fptr (file s1) <=? k) && _) with true by (symmetry; apply andb_true_iff; split; [apply Z.leb_le|apply Z.ltb_lt]; lia).
      f_equal. unfold arr_get. replace (0 <=? k - fptr (file s1)) with true by (symmetry; apply Z.leb_le; lia).
      replace (0 <=? k - (fptr (file s1) + Z.of_nat (length a))) with true by (symmetry; apply Z.leb_le; lia).
      rewrite lookup_app_r by lia. f_equal. lia.
    + assert (Hk2 : 0 <= k < objsize (file s2)).
      { pose proof (po_ptr _ _ (proj2 (wr_file _ _ _ _ _ W1))). rewrite O2 in Hk. destruct Eb; zb; lia. }
      rewrite (wr_bytes _ _ _ _ _ W1) by done. unfold patched.
      destruct ((fptr (file s1) <=? k) && (k <? fptr (file s1) + Z.of_nat (length a))) eqn:Ea; zb.
      * replace ((fptr (file s1) <=? k) && _) with true by (symmetry; apply andb_true_iff; split; [apply Z.leb_le|apply Z.ltb_lt]; lia).
        f_equal. unfold arr_get. replace (0 <=? k - fptr (file s1)) with true by (symmetry; apply Z.leb_le; lia).
        by rewrite lookup_app_l by lia.
      * replace ((fptr (file s1) <=? k) && _) with false; [done|]. symmetry. apply andb_false_iff.
        destruct Ea as [Ea|Ea]; zb; [left; by apply Z.leb_gt|right]. apply Z.ltb_ge. destruct Eb; zb; lia.
Qed.

(** ** The part of a sector in the buffer *)

Lemma grown_quiet s s1 s2 cs cs' c : grown s s1 cs cs' c -> quiet s1 s2 cs' -> grown s s2 cs cs' c.
Proof.
  intros [Hc1 Hf1 Hg Ho Hp Hs Hcl Hid Hr Hq] Q. pose proof (qu_head _ _ _ Q) as Hh. unfold head in Hh.
  assert (Hst : stable (fs (vol s)) (fs (vol s1))) by apply Hf1.
  constructor; [apply Q|by apply frame_trans with s1; [|apply Q]|done|..].
  - rewrite <- Ho. by injection Hh as _ _ _ -> _ _ _ _ _ _ _.
  - rewrite <- Hp. by injection Hh as _ _ _ _ _ -> _ _ _ _ _.
  - rewrite <- Hs. unfold stub. by injection Hh as -> -> _ _ -> _ _ -> -> -> ->.
  - rewrite <- Hcl. by injection Hh as _ _ _ _ _ _ -> _ _ _ _.
  - rewrite <- Hid. apply Q.
  - by apply Q.
  - intros i Hi. rewrite (qu_cached _ _ _ Q), Hq; [done|done|].
    destruct (stable_snum _ _ cs' i Hst) as [-> _]. destruct Hg as (ext & -> & _).
    assert (Hd : data_ok (fs (vol s))).
    { destruct (stable_geometry _ _ Hst) as (E1 & E2 & _). destruct (stable_fields _ _ Hst) as (_ & E3 & E4 & E5 & E6).
      destruct (co_data _ _ Hc1) as [? ? ? ?]. rewrite ?E1, ?E2, ?E3, ?E4, ?E5, ?E6 in *. by constructor. }
    pose proof (span_app (fs (vol s)) cs ext Hd). lia.
Qed.

Lemma sector_split p : 0 <= p mod SS < SS /\ p = SS * (p / SS) + p mod SS.
Proof. split; [by apply Z.mod_pos_bound|by apply Z.div_mod]. Qed.

(** Byte [k] of the file when the buffer, on its sector [i], has [chunk] stored at [o]. *)
Lemma patched_buffer s cs fp' i o chunk b k : core_ok s cs -> 0 <= i < span (fs (vol s)) cs ->
  sect (file s) = snum (fs (vol s)) cs i -> poke (buf (file s)) o chunk = Some b -> 0 <= o ->
  o + Z.of_nat (length chunk) <= SS -> dirty fp' = true -> buf fp' = b -> sect fp' = sect (file s) ->
  0 <= k < SS * span (fs (vol s)) cs -> k < Z.max (objsize (file s)) (SS * i + o + Z.of_nat (length chunk)) ->
  SS * i + o <= objsize (file s) ->
  fbyte (MkFileSys (vol s) (fs_id s) fp') cs k = patched (fbyte s cs) (SS * i + o) chunk k.
Proof.
  intros Hc Hi Es Eb Ho Hlen Hd Hb Hs Hk Hk' Hle. unfold fbyte at 1. unfold cached.
  change (vol (MkFileSys (vol s) (fs_id s) fp')) with (vol s). change (file (MkFileSys (vol s) (fs_id s) fp')) with fp'.
  rewrite Hd, Hb, Hs, Es. cbn [andb]. unfold patched.
  assert (Hks : 0 <= k / SS < span (fs (vol s)) cs) by (unfold SS in *; divs).
  destruct (snum (fs (vol s)) cs (k / SS) =? snum (fs (vol s)) cs i) eqn:E; zb.
  - apply snum_inj in E; [|apply Hc|by apply core_clusters|apply Hc|done|done].
    assert (Ek : k = SS * i + k mod SS) by (rewrite <- E; unfold SS; divs).
    rewrite (poke_get _ _ _ _ (k mod SS) Eb). set (r := k mod SS) in *.
    replace ((SS * i + o <=? k) && _) with ((o <=? r) && (r <? o + Z.of_nat (length chunk))).
    2: { f_equal; [destruct (o <=? r) eqn:E1; symmetry; zb; [apply Z.leb_le|apply Z.leb_gt]; lia|].
         destruct (r <? _) eqn:E1; symmetry; zb; [apply Z.ltb_lt|apply Z.ltb_ge]; lia. }
    replace (k - (SS * i + o)) with (r - o) by lia. destruct (_ && _) eqn:E1; [done|].
    assert (Hlt : SS * i < objsize (file s)).
    { pose proof (Z.mod_pos_bound k SS ltac:(done)). apply andb_false_iff in E1 as [E1|E1]; zb; unfold r in *; lia. }
    rewrite (buf_cached s cs i) by done. rewrite <- E. unfold r. by rewrite (proj1 (cached_byte s cs k Hc)).
  - assert (Hne : k / SS <> i) by (intros Heq; apply E; by rewrite Heq).
    replace ((SS * i + o <=? k) && _) with false.
    2: { symmetry. apply andb_false_iff. unfold SS in *.
         destruct (Z_lt_ge_dec (k / 512) i); [left; apply Z.leb_gt|right; apply Z.ltb_ge]; divs. }
    unfold fbyte, cached. destruct (dirty (file s)); cbn [andb]; [|done]. rewrite Es. by ztest.
Qed.

Lemma write_partial_ok s s1 cs cs' c btw wbuff off : file_ok s cs -> grown s s1 cs cs' c ->
  let p := fptr (file s) in
  0 < btw -> p + btw < 2 ^ 32 -> p / SS < span (fs (vol s1)) cs' ->
  cs'.[p / SS / csize (fs (vol s1))] = Some c ->
  sect (file s1) = snum (fs (vol s1)) cs' (p / SS) ->
  0 <= off -> off + btw <= Z.of_nat (length wbuff) -> Forall is_u8 wbuff ->
  exists n chunk s2, write_partial btw wbuff off s1 = Some (FR_OK, n, s2) /\
    0 < n <= btw /\ peek wbuff off n = Some chunk /\ wrote s (forward n s2) cs cs' chunk.
Proof.
  intros [Hc Hpos] Hg p Hbtw Hlt Hi Hcl Es Hoff Hlen Hu8. pose proof (po_ptr _ _ Hpos) as Hp. fold p in Hp.
  pose proof (gr_core _ _ _ _ _ Hg) as Hc1. pose proof (gr_ptr _ _ _ _ _ Hg) as Ep. fold p in Ep.
  pose proof (gr_size _ _ _ _ _ Hg) as Eo. pose proof (co_size _ _ Hc) as [Hsz _].
  destruct (partial_place p btw ltac:(lia) Hbtw) as (Hn & Hd & Hm). set (n := Z.min btw (SS - p mod SS)) in *.
  destruct (peek wbuff off n) as [chunk|] eqn:Ek; [|by rewrite peek_range in Ek by lia].
  pose proof (peek_length _ _ _ _ Ek) as Hlc. pose proof (co_buf _ _ Hc1) as [Hlb Hbb].
  pose proof (sector_split p) as Hmod.
  destruct (poke_range (buf (file s1)) (p mod SS) chunk) as [b Eb]; [lia|rewrite Hlb; unfold SS in *; lia|].
  set (fp1 := (file s1) <| buf := b |> <| flag ::= Z.lor FA_DIRTY |>).
  exists n, chunk, (s1 <| file := fp1 |>). splits; [|lia|lia|done|].
  { unfold write_partial. rewrite fil_bind. unfold id. rewrite Ep.
    replace (if btw <? SS - p mod SS then btw else SS - p mod SS) with n by (unfold n; zcase; lia). cbv zeta.
    unfold st_opt, mbind, ST_bind. rewrite Ek. cbn. rewrite Eb. cbn. by destruct s1. }
  set (fp' := adv n fp1).
  assert (Hs2 : forward n (s1 <| file := fp1 |>) = MkFileSys ((vol s1) <| dev := dev (vol s1) |>) (fs_id s1) fp').
  { unfold forward, fp'. destruct s1 as [[] ? ?]. done. }
  rewrite Hs2. assert (Hdirty : dirty fp' = true) by exact (dirty_lor (flag (file s1))).
  assert (Fp : fptr fp' = p + n). { unfold fp', adv. cbn. rewrite Ep. apply u32_small. lia. }
  assert (Fo : objsize fp' = Z.max (objsize (file s)) (p + n)).
  { unfold fp', adv. cbn. rewrite Ep, Eo, u32_small by lia. zcase; lia. }
  apply (wrote_intro s s1 cs cs' c _ fp' chunk (fun _ => False)); rewrite ?Hlc; fold p; try done; try lia.
  - unfold SS in *. divs.
  - rewrite <- (gr_stub _ _ _ _ _ Hg). unfold stub, fp', adv, fp1. cbn. by rewrite clear_lor.
  - apply Hg.
  - split.
    + change (buf fp') with b. by rewrite (poke_length _ _ _ _ Eb).
    + apply (poke_Forall _ _ _ _ _ Eb); [done|]. by apply (peek_Forall _ _ _ _ _ Ek).
  - intros _. exists (p / SS). split; [unfold SS in *; divs|done].
  - by rewrite Hdirty.
  - by rewrite Hd.
  - intros Hm0. by rewrite Hm.
  - intros k Hk. replace ((vol s1) <| dev := dev (vol s1) |>) with (vol s1) by (by destruct (vol s1)).
    rewrite Fo in Hk. pose proof (co_size _ _ Hc1) as [_ Hsz1]. rewrite Eo in Hsz1.
    assert (Hcap : p + n <= SS * span (fs (vol s1)) cs') by (unfold SS in *; divs).
    rewrite (patched_buffer s1 cs' fp' (p / SS) (p mod SS) chunk b); [by rewrite <- (proj2 Hmod)|done| |done|done|lia|lia|done|done|done|lia| |].
    + unfold SS in *. divs.
    + rewrite Eo. lia.
    + rewrite Eo. lia.
Qed.

(** The clean buffer is prepared for sector [i]: it is read unless the file ends before. *)
Lemma prepare_ok s cs i : core_ok s cs -> dirty (file s) = false -> 0 <= i < span (fs (vol s)) cs -> fptr (file s) = SS * i ->
  let t := snum (fs (vol s)) cs i in
  exists r s', (if negb (sect (file s) =? t) && (fptr (file s) <? objsize (file s)) then fill t else mret FR_OK) s = Some (r, s') /\
    (r = FR_OK /\ quiet s (s' <| file ::= set sect (fun _ => t) |>) cs \/ r = FR_DISK_ERR /\ ~ reliable D).
Proof.
  intros Hc Hd Hi Hp t. rewrite Hp. destruct (_ && _) eqn:E; zb.
  - destruct (fill_ok s t (co_buf _ _ Hc)) as (r & b & d & E1 & Hb & Hm & Hr). exists r. eexists. split; [exact E1|].
    destruct Hr as [[-> Hbt]|Hr]; [left|by right]. split; [done|].
    apply (refill_ok s cs b d t); [done|done|done|done|]. intros j _ _ _. exact Hbt.
  - exists FR_OK, s. split; [done|left]. split; [done|].
    assert (Es : s <| file ::= set sect (fun _ => t) |> =
      MkFileSys ((vol s) <| dev := dev (vol s) |>) (fs_id s) ((file s) <| buf := buf (file s) |> <| sect := t |>))
      by (by destruct s as [[] ? []]).
    rewrite Es. apply refill_ok; [done|done|apply Hc|done|]. intros j Hj Ho Et.
    assert (j = i) as -> by (apply (snum_inj (fs (vol s)) cs); [apply Hc|by apply core_clusters|apply Hc|done|done|by symmetry]).
    destruct E as [E|E]; zb; [|lia]. rewrite <- E. apply (co_clean _ _ Hc i); [done|done|done|]. by rewrite E.
Qed.

(** ** Direct transfer *)

(** Byte [k] of the file when sectors from [i] on, and the clean buffer, are new. *)
Lemma patched_sectors s cs d fp' i cc chunk k : core_ok s cs -> dirty (file s) = false -> dirty fp' = false ->
  0 <= i -> i mod csize (fs (vol s)) + cc <= csize (fs (vol s)) -> i + cc <= span (fs (vol s)) cs -> 0 < cc ->
  Z.of_nat (length chunk) = SS * cc ->
  (forall t, ~ (snum (fs (vol s)) cs i <= t < snum (fs (vol s)) cs i + cc) -> medium d t = medium (dev (vol s)) t) ->
  (forall e, 0 <= e < cc -> peek chunk (SS * e) SS = Some (medium d (snum (fs (vol s)) cs i + e))) ->
  0 <= k < SS * span (fs (vol s)) cs ->
  fbyte (MkFileSys ((vol s) <| dev := d |>) (fs_id s) fp') cs k = patched (fbyte s cs) (SS * i) chunk k.
Proof.
  intros Hc Hd Hd' Hi Hmod Hspan Hcc Hl Hm Hb Hk. unfold fbyte at 1. unfold cached, dirty in *.
  change (fs (vol (MkFileSys ((vol s) <| dev := d |>) (fs_id s) fp'))) with (fs (vol s)).
  change (dev (vol (MkFileSys ((vol s) <| dev := d |>) (fs_id s) fp'))) with d.
  change (file (MkFileSys ((vol s) <| dev := d |>) (fs_id s) fp')) with fp'. unfold dirty. rewrite Hd'. cbn [andb].
  destruct (sector_split k) as [Hr Ek]. set (q := k / SS) in *. set (r := k mod SS) in *.
  assert (Hq : 0 <= q < span (fs (vol s)) cs) by (unfold SS in *; lia).
  assert (Hnext : forall e, 0 <= e < cc -> snum (fs (vol s)) cs (i + e) = snum (fs (vol s)) cs i + e)
    by (intros e He; apply snum_next; [apply Hc|lia|lia|lia]).
  unfold patched. rewrite Hl. destruct ((SS * i <=? k) && (k <? SS * i + SS * cc)) eqn:E; zb.
  - assert (He : 0 <= q - i < cc) by (unfold SS in *; lia). specialize (Hb _ He).
    replace (snum (fs (vol s)) cs q) with (snum (fs (vol s)) cs i + (q - i)) by (rewrite <- Hnext by done; f_equal; lia).
    rewrite (peek_get _ _ _ _ r Hb) by done. do 2 f_equal. lia.
  - assert (Hout : q < i \/ i + cc <= q) by (destruct E as [E|E]; zb; unfold SS in *; lia).
    rewrite Hm.
    + unfold fbyte, cached, dirty. rewrite Hd. done.
    + intros Ht. assert (Ee : snum (fs (vol s)) cs q = snum (fs (vol s)) cs (i + (snum (fs (vol s)) cs q - snum (fs (vol s)) cs i)))
        by (rewrite Hnext by lia; lia).
      apply snum_inj in Ee; [|apply Hc|by apply core_clusters|apply Hc|done|lia]. lia.
Qed.

(** The buffer after a direct transfer of [cc] sectors from sector [i] on: the sector it
    holds is loaded again when it was among them. *)
Record refreshed (s1 : FileSys D) (cs' : list Z) (i cc : Z) (d : D) (fp1 : FIL) : Prop := {
  re_stub : stub fp1 = stub (file s1);
  re_sclust : sclust fp1 = sclust (file s1);
  re_clust : clust fp1 = clust (file s1);
  re_ptr : fptr fp1 = fptr (file s1);
  re_size : objsize fp1 = objsize (file s1);
  re_buf : sector (buf fp1);
  re_clean : dirty fp1 = false;
  re_sect : sect fp1 = sect (file s1);
  re_in : u32 (sect (file s1) - snum (fs (vol s1)) cs' i) < cc ->
    buf fp1 = medium d (snum (fs (vol s1)) cs' i + u32 (sect (file s1) - snum (fs (vol s1)) cs' i));
  re_out : cc <= u32 (sect (file s1) - snum (fs (vol s1)) cs' i) -> buf fp1 = buf (file s1) }.

Lemma refresh_ok s1 cs' i cc d wbuff off chunk :
  sector (buf (file s1)) -> dirty (file s1) = false -> 0 <= off -> off + SS * cc <= Z.of_nat (length wbuff) ->
  peek wbuff off (SS * cc) = Some chunk ->
  (forall e, 0 <= e < cc -> peek chunk (SS * e) SS = Some (medium d (snum (fs (vol s1)) cs' i + e))) ->
  exists fp1, when (u32 (sect (file s1) - snum (fs (vol s1)) cs' i) <? cc)
      (b ← st_opt (peek wbuff (off + u32 (sect (file s1) - snum (fs (vol s1)) cs' i) * SS) SS);
       upd_fil (fun fp => fp <| buf := b |> <| flag ::= clear FA_DIRTY |>))
      (s1 <| vol ::= set dev (fun _ => d) |>) = Some (tt, MkFileSys ((vol s1) <| dev := d |>) (fs_id s1) fp1) /\
    refreshed s1 cs' i cc d fp1.
Proof.
  intros Hbuf Hd Hoff Hlen Ek Hr. pose proof (peek_length _ _ _ _ Ek) as Hlc.
  pose proof (u32_range (sect (file s1) - snum (fs (vol s1)) cs' i)) as Hdd.
  destruct (u32 (sect (file s1) - snum (fs (vol s1)) cs' i) <? cc) eqn:Edd; zb; cbn [when].
  - set (dd := u32 (sect (file s1) - snum (fs (vol s1)) cs' i)) in *.
    assert (Eb : peek wbuff (off + dd * SS) SS = Some (medium d (snum (fs (vol s1)) cs' i + dd))).
    { rewrite <- (Hr dd) by lia. pose proof (peek_length _ _ _ _ (Hr dd ltac:(lia))) as Hl1.
      rewrite (peek_range chunk) by (unfold SS in *; lia). apply peek_eq; [unfold SS; lia|unfold SS in *; lia| |].
      - rewrite length_take, length_drop. unfold SS in *. lia.
      - intros j Hj. symmetry. erewrite peek_get; [|apply peek_range; unfold SS in *; lia|done].
        rewrite (peek_get _ _ _ _ _ Ek) by (unfold SS in *; lia). f_equal. lia. }
    exists ((file s1) <| buf := medium d (snum (fs (vol s1)) cs' i + dd) |> <| flag ::= clear FA_DIRTY |>).
    split; [unfold mbind, ST_bind, st_opt; rewrite Eb; cbn; by destruct s1 as [[] ? ?]|].
    constructor; try done; fold dd.
    + unfold stub. cbn. by rewrite clear_clear.
    + apply medium_sector.
    + apply clean_clear.
    + lia.
  - exists (file s1). split; [by destruct s1 as [[] ? ?]|]. constructor; try done. lia.
Qed.

(** So the buffer keeps the contract of a clean buffer on the new medium. *)
Lemma refreshed_clean s1 cs' i cc d fp1 j : core_ok s1 cs' -> refreshed s1 cs' i cc d fp1 -> dirty (file s1) = false ->
  0 <= i -> SS * i <= objsize (file s1) -> 0 < cc -> i + cc <= span (fs (vol s1)) cs' ->
  (forall e, 0 <= e < cc -> snum (fs (vol s1)) cs' (i + e) = snum (fs (vol s1)) cs' i + e) ->
  (forall t, ~ (snum (fs (vol s1)) cs' i <= t < snum (fs (vol s1)) cs' i + cc) -> medium d t = medium (dev (vol s1)) t) ->
  0 <= j < span (fs (vol s1)) cs' -> SS * j < Z.max (objsize (file s1)) (SS * i + SS * cc) ->
  sect fp1 = snum (fs (vol s1)) cs' j -> buf fp1 = medium d (snum (fs (vol s1)) cs' j).
Proof.
  intros Hc1 R Hd Hi Hio Hcc Hle Hnext Hm Hj Ho Es. pose proof (re_sect _ _ _ _ _ _ R) as F8.
  rewrite F8 in Es. pose proof (csize_range _ (co_data _ _ Hc1)) as Hcs.
  set (dd := u32 (sect (file s1) - snum (fs (vol s1)) cs' i)) in *.
  destruct (Z_lt_ge_dec dd cc) as [Hlt|Hge].
  - rewrite (re_in _ _ _ _ _ _ R) by done. fold dd. f_equal. unfold dd, u32 in *.
    destruct (file_snum s1 cs' j Hc1 Hj) as (_ & _ & Hs1). destruct (file_snum s1 cs' i Hc1 ltac:(lia)) as (_ & _ & Hs2).
    pose proof (Hnext (cc - 1) ltac:(lia)) as Hla. destruct (file_snum s1 cs' (i + (cc - 1)) Hc1 ltac:(lia)) as (_ & _ & Hs3).
    unfold NO_SECTOR in *. rewrite <- Es in Hs1. clear - Hlt Hs1 Hs2 Hs3 Hla Es. revert Hlt. Z.div_mod_to_equations. lia.
  - rewrite (re_out _ _ _ _ _ _ R) by (fold dd; lia). rewrite <- Es, Hm.
    + destruct (Z_lt_ge_dec (SS * j) (objsize (file s1))) as [Hlo|Hhi]; [by apply (co_clean _ _ Hc1 j)|].
      exfalso. assert (He : 0 <= j - i < cc) by (unfold SS in *; lia).
      specialize (Hnext _ He). replace (i + (j - i)) with j in Hnext by lia. rewrite <- Es in Hnext.
      unfold dd in Hge. rewrite u32_small in Hge; [lia|].
      destruct (file_snum s1 cs' j Hc1 Hj) as (_ & _ & Hs1). destruct (file_snum s1 cs' i Hc1 ltac:(lia)) as (_ & _ & Hs2).
      rewrite <- Es in Hs1. unfold NO_SECTOR in *. lia.
    + intros Ht. unfold dd in Hge. rewrite u32_small in Hge; [lia|].
      destruct (file_snum s1 cs' j Hc1 Hj) as (_ & _ & Hs1). destruct (file_snum s1 cs' i Hc1 ltac:(lia)) as (_ & _ & Hs2).
      rewrite <- Es in Hs1. unfold NO_SECTOR in *. lia.
Qed.

Lemma write_direct_ok s s1 cs cs' c i btw wbuff off : file_ok s cs -> grown s s1 cs cs' c -> dirty (file s1) = false ->
  fptr (file s) = SS * i -> 0 <= i < span (fs (vol s1)) cs' -> cs'.[i / csize (fs (vol s1))] = Some c ->
  SS <= btw -> SS * i + btw < 2 ^ 32 -> 0 <= off -> off + btw <= Z.of_nat (length wbuff) -> Forall is_u8 wbuff ->
  exists r n s2, write_direct (snum (fs (vol s1)) cs' i) (i mod csize (fs (vol s1))) btw wbuff off s1 = Some (r, n, s2) /\
    (r = FR_OK /\ 0 < n <= btw /\ (exists chunk, peek wbuff off n = Some chunk /\ wrote s (forward n s2) cs cs' chunk) \/
     r = FR_DISK_ERR /\ ~ reliable D).
Proof.
  intros Hf Hg Hd Hp Hi Hcl Hbtw Hlt Hoff Hlen Hu8. pose proof (gr_core _ _ _ _ _ Hg) as Hc1.
  pose proof Hf as [Hc Hpos]. pose proof (po_ptr _ _ Hpos) as Hpr. rewrite Hp in Hpr. pose proof (co_size _ _ Hc) as [Hsz _].
  destruct (run_spec _ cs' i btw (co_data _ _ Hc1) Hi ltac:(lia)) as (Ecc & Hc0 & Hle & Hcm & Hcs).
  unfold write_direct. rewrite fatfs_bind. unfold id. cbv zeta. rewrite Ecc. set (cc := run (fs (vol s1)) i btw) in *.
  destruct (peek wbuff off (SS * cc)) as [chunk|] eqn:Ek; [|by rewrite peek_range in Ek by (unfold SS in *; lia)].
  rewrite (st_bind_eq _ _ s1 chunk s1 eq_refl). pose proof (peek_length _ _ _ _ Ek) as Hlc.
  destruct (write_laws (pdrv (fs (vol s1))) chunk (snum (fs (vol s1)) cs' i) cc (dev (vol s1)))
    as (r & d & E & Hm & Hr); [done|done|by apply (peek_Forall _ _ _ _ _ Ek)|].
  rewrite (st_bind_eq _ _ _ _ _ (on_drive_eq _ _ _ _ E)). destruct (r =? RES_OK) eqn:Er; zb; cbn [negb].
  2: { eexists _, _, _. split; [reflexivity|right]. split; [done|]. intros Hrel. by apply Er, (reliable_write _ Hrel _ _ _ _ _ _ _ E). }
  specialize (Hr Er). rewrite fil_bind. unfold id.
  change (file (s1 <| vol ::= set dev (fun _ => d) |>)) with (file s1).
  assert (Hnext : forall e, 0 <= e < cc -> snum (fs (vol s1)) cs' (i + e) = snum (fs (vol s1)) cs' i + e)
    by (intros e He; apply snum_next; [apply Hc1|lia|lia|lia]).
  destruct (refresh_ok s1 cs' i cc d wbuff off chunk) as (fp1 & Ew & R);
    [apply Hc1|done|done|unfold SS in *; lia|done|done|].
  pose proof R as [F1 F2 F3 F4 F5 F6 F7 F8 _ _].
  rewrite (st_bind_eq _ _ _ _ _ Ew). eexists _, _, _. split; [reflexivity|left].
  splits; [done|unfold SS in *; lia|done|]. exists chunk. split; [done|].
  set (fp' := adv (SS * cc) fp1).
  change (forward (SS * cc) (MkFileSys ((vol s1) <| dev := d |>) (fs_id s1) fp1))
    with (MkFileSys ((vol s1) <| dev := d |>) (fs_id s1) fp').
  assert (Fp : fptr fp' = SS * i + SS * cc).
  { unfold fp', adv. cbn. rewrite F4, (gr_ptr _ _ _ _ _ Hg), Hp. apply u32_small. unfold SS in *. lia. }
  assert (Fo : objsize fp' = Z.max (objsize (file s)) (SS * i + SS * cc)).
  { unfold fp', adv. cbn. rewrite F4, F5, (gr_ptr _ _ _ _ _ Hg), (gr_size _ _ _ _ _ Hg), Hp.
    rewrite u32_small by (unfold SS in *; lia). zcase; lia. }
  apply (wrote_intro s s1 cs cs' c d fp' chunk (fun t => snum (fs (vol s1)) cs' i <= t < snum (fs (vol s1)) cs' i + cc));
    rewrite ?Hlc, ?Hp; try done; try lia.
  - unfold SS in *. lia.
  - unfold SS in *. lia.
  - intros t Ht. exists (i + (t - snum (fs (vol s1)) cs' i)). rewrite Hnext by lia. split; lia.
  - rewrite <- (gr_stub _ _ _ _ _ Hg). exact F1.
  - rewrite <- (gr_clust _ _ _ _ _ Hg). exact F3.
  - change (dirty fp') with (dirty fp1). by rewrite F7.
  - intros j _ Hj Ho Es. rewrite Es. rewrite Fo, <- (gr_size _ _ _ _ _ Hg) in Ho.
    apply (refreshed_clean s1 cs' i cc d fp1 j); try done; [lia|rewrite (gr_size _ _ _ _ _ Hg); lia].
  - rewrite <- Hcl. f_equal. replace ((SS * i + SS * cc - 1) / SS) with (i + (cc - 1)).
    + apply (snum_next (fs (vol s1)) cs'); [apply Hc1|lia|lia|lia].
    + clear. unfold SS. divs.
  - intros Hm0. exfalso. apply Hm0. clear. unfold SS. divs.
  - intros k Hk. rewrite Fo in Hk. pose proof (co_size _ _ Hc1) as [_ Hz]. rewrite (gr_size _ _ _ _ _ Hg) in Hz.
    apply (patched_sectors s1 cs' d fp' i cc chunk); try done; try lia. unfold SS in *. lia.
Qed.

(** ** One turn *)

(** The cluster entered is the one of sector [i], and where the sector is. *)
Lemma entered_sector s cs' c i : cs'.[i / csize (fs (vol s))] = Some c -> 0 <= i ->
  core_ok s cs' -> 0 <= i < span (fs (vol s)) cs' /\ clst2sect (fs (vol s)) c = base (fs (vol s)) c /\
  base (fs (vol s)) c <> 0 /\ u32 (base (fs (vol s)) c + i mod csize (fs (vol s))) = snum (fs (vol s)) cs' i.
Proof.
  intros Hx Hi Hc. pose proof (csize_range _ (co_data _ _ Hc)) as Hz.
  assert (Hi' : 0 <= i < span (fs (vol s)) cs').
  { split; [done|]. apply arr_get_lt in Hx. unfold span. pose proof (Z.div_mod i (csize (fs (vol s))) ltac:(lia)).
    pose proof (Z.mod_pos_bound i (csize (fs (vol s))) ltac:(lia)). nia. }
  destruct (chain_lookup _ cs' i (co_data _ _ Hc) (core_clusters s cs' Hc) Hi') as (c' & Ec & Hcc & Es).
  rewrite Hx in Ec. injection Ec as <-. destruct (file_snum s cs' i Hc Hi') as (_ & _ & Hr).
  destruct (base_range _ _ (co_data _ _ Hc) Hcc) as [Hb Ht].
  destruct (data_live (fs (vol s)) (base (fs (vol s)) c)) as (_ & _ & Hb0); [apply vol_geo, Hc|apply Hc|lia|].
  splits; [lia|lia|apply clst2sect_eq; [apply Hc|apply vol_geo, Hc|done]|lia|].
  rewrite <- Es. apply u32_small. unfold NO_SECTOR in *. lia.
Qed.

(** Nothing is written. *)
Lemma wrote_nothing s s' cs : file_ok s cs -> room (vol s) -> quiet s s' cs -> clust (file s') = clust (file s) ->
  sect (file s') = sect (file s) -> wrote s s' cs cs [].
Proof.
  intros [Hc [Hp Hcl Hs]] Hroom Q Ec Es. pose proof (co_size _ _ Hc) as [Hsz Hspan].
  pose proof (qu_head _ _ _ Q) as Hh. unfold head in Hh. injection Hh as H1 H2 H3 H4 H5 H6 _ H8 H9 H10 H11.
  pose proof (fr_stable _ _ _ (qu_frame _ _ _ Q)) as Hst. destruct (stable_geometry _ _ Hst) as (Ez & _).
  constructor; cbn [length Z.of_nat]; rewrite ?Z.add_0_r; [|apply grew_refl|apply Q|done|lia| |apply Q|by apply Q|].
  - split; [apply Q|]. constructor; rewrite ?H4, ?H6, ?Ec, ?Es, ?Ez; [done|done|].
    destruct (stable_snum _ _ cs (fptr (file s) / SS) Hst) as [_ ->]. done.
  - unfold stub. by rewrite H1, H2, H5, H8, H9, H10, H11.
  - intros k Hk. rewrite H4 in Hk. unfold patched. cbn [length Z.of_nat]. rewrite Z.add_0_r.
    replace ((fptr (file s) <=? k) && (k <? fptr (file s))) with false by (symmetry; apply andb_false_iff; destruct (Z_lt_ge_dec k (fptr (file s))); [left; apply Z.leb_gt|right; apply Z.ltb_ge]; lia).
    apply (quiet_fbyte s s'); [done|lia].
Qed.

Definition turn_done s cs btw (wbuff : list Z) (off : Z) (t : option (Z * Z)) s' : Prop :=
  (exists n chunk cs', t = Some (FR_OK, n) /\ 0 < n <= btw /\ peek wbuff off n = Some chunk /\
     wrote s (forward n s') cs cs' chunk) \/
  t = None /\ wrote s s' cs cs [] /\ (forall c, cluster (fs (vol s)) c -> entry (vol s) c <> 0) \/
  (exists n, t = Some (FR_DISK_ERR, n)) /\ ~ reliable D.

Lemma transfer_sector_ok s s1 cs cs' c i btw wbuff off : file_ok s cs -> grown s s1 cs cs' c -> dirty (file s1) = false ->
  fptr (file s) = SS * i -> cs'.[i / csize (fs (vol s))] = Some c ->
  0 < btw -> SS * i + btw < 2 ^ 32 -> 0 <= off -> off + btw <= Z.of_nat (length wbuff) -> Forall is_u8 wbuff ->
  exists t s', transfer_sector (i mod csize (fs (vol s))) btw wbuff off (fptr (file s)) s1 = Some (t, s') /\
    turn_done s cs btw wbuff off t s'.
Proof.
  intros Hf Hg Hd Hp Hx Hbtw Hlt Hoff Hlen Hu8. pose proof Hf as [Hc Hpos]. pose proof (po_ptr _ _ Hpos) as Hpr.
  pose proof (gr_core _ _ _ _ _ Hg) as Hc1. pose proof (fr_stable _ _ _ (gr_frame _ _ _ _ _ Hg)) as Hst.
  destruct (stable_geometry _ _ Hst) as (Ez & _). rewrite <- Ez in Hx |- *.
  destruct (entered_sector s1 cs' c i Hx ltac:(unfold SS in *; lia) Hc1) as (Hi & Ec & Hb & Es).
  unfold transfer_sector. rewrite fatfs_bind, fil_bind. unfold id. rewrite (gr_clust _ _ _ _ _ Hg), Ec. cbv zeta.
  replace (base (fs (vol s1)) c =? 0) with false by (symmetry; by apply Z.eqb_neq). rewrite Es.
  destruct (0 <? btw / SS) eqn:Eb; zb.
  - destruct (write_direct_ok s s1 cs cs' c i btw wbuff off) as (r & n & s2 & E & Hr); try done; [unfold SS in *; divs|].
    rewrite (st_bind_eq _ _ _ _ _ E). eexists _, _. split; [reflexivity|].
    destruct Hr as [(-> & Hn & chunk & Hk & Hw)|[-> Hrel]]; [left; by exists n, chunk, cs'|right; right; split; [by exists n|done]].
  - destruct (prepare_ok s1 cs' i Hc1 Hd Hi) as (r & s2 & E & Hr); [by rewrite (gr_ptr _ _ _ _ _ Hg)|].
    rewrite (gr_ptr _ _ _ _ _ Hg) in E. rewrite (st_bind_eq _ _ _ _ _ E).
    destruct Hr as [[-> Q]|[-> Hrel]]; cbn [Z.eqb negb FR_OK FR_DISK_ERR].
    2: { eexists _, _. split; [reflexivity|right; right]. split; [by exists 0|done]. }
    rewrite upd_fil_bind. set (s3 := s2 <| file ::= _ |>) in *. pose proof (grown_quiet _ _ _ _ _ _ Hg Q) as Hg3.
    pose proof (fr_stable _ _ _ (qu_frame _ _ _ Q)) as Hst3. destruct (stable_geometry _ _ Hst3) as (Ez3 & _).
    destruct (stable_snum _ _ cs' i Hst3) as [Espan Esn].
    destruct (write_partial_ok s s3 cs cs' c btw wbuff off Hf Hg3) as (n & chunk & s4 & E4 & Hn & Hk & Hw); rewrite ?Hp, ?sector_div, ?Ez3, ?Espan, ?Esn; try done; [lia|].
    rewrite (st_bind_eq _ _ _ _ _ E4). eexists _, _. split; [reflexivity|]. left. by exists n, chunk, cs'.
Qed.

Lemma write_turn_ok s cs btw wbuff off : file_ok s cs -> room (vol s) -> cltbl (file s) = None ->
  0 < btw -> fptr (file s) + btw < 2 ^ 32 -> 0 <= off -> off + btw <= Z.of_nat (length wbuff) -> Forall is_u8 wbuff ->
  exists t s', write_turn btw wbuff off s = Some (t, s') /\ turn_done s cs btw wbuff off t s'.
Proof.
  intros Hf Hroom Htbl Hbtw Hlt Hoff Hlen Hu8. pose proof Hf as [Hc Hpos]. pose proof (po_ptr _ _ Hpos) as Hp.
  pose proof (co_size _ _ Hc) as [Hsz Hspan]. destruct (sector_split (fptr (file s))) as [Hm Ep].
  unfold write_turn. rewrite fil_bind. destruct (fptr (file s) mod SS =? 0) eqn:Em; zb.
  2: { assert (Hi : fptr (file s) / SS < span (fs (vol s)) cs) by (unfold SS in *; divs).
       pose proof (po_clust _ _ Hpos ltac:(unfold SS in *; divs)) as Hcl.
       replace ((fptr (file s) - 1) / SS) with (fptr (file s) / SS) in Hcl by (clear - Em Hm; unfold SS in *; divs).
       destruct (write_partial_ok s s cs cs _ btw wbuff off Hf (grown_here s cs _ Hc Hroom eq_refl)) as (n & chunk & s2 & E & Hn & Hk & Hw); try done; [by apply po_sect|].
       rewrite (st_bind_eq _ _ _ _ _ E). eexists _, _. split; [reflexivity|]. left. by exists n, chunk, cs. }
  set (i := fptr (file s) / SS) in *. rewrite Em, Z.add_0_r in Ep.
  rewrite fatfs_bind. unfold id. cbv zeta.
  destruct (write_enter_ok s cs i Hc Hpos Hroom Htbl Ep) as (r & s1 & E1 & Hr); [unfold SS in *; lia|].
  fold i in E1. rewrite (st_bind_eq _ _ _ _ _ E1).
  destruct Hr as [(-> & cs' & c & Hx & Hcc & Hg)|[(-> & Q & Ef & Hn)|[-> Hrel]]].
  2: { eexists _, _. split; [reflexivity|]. right; left. splits; [done| |done]. apply wrote_nothing; [done..|by rewrite Ef|by rewrite Ef]. }
  2: { eexists _, _. split; [reflexivity|]. right; right. split; [by exists 0|done]. }
  cbn [Z.eqb negb FR_OK]. destruct (flush_ok s1 cs' (gr_core _ _ _ _ _ Hg)) as (r & s2 & E2 & Hr).
  rewrite (st_bind_eq _ _ _ _ _ E2). destruct Hr as [(-> & Q & Hd & _)|[-> Hrel]]; cbn [Z.eqb negb FR_OK FR_DISK_ERR].
  2: { eexists _, _. split; [reflexivity|]. right; right. split; [by exists 0|done]. }
  rewrite csize_mask by apply Hc. apply (transfer_sector_ok s s2 cs cs' c i); try done; [by apply grown_quiet with s1|lia].
Qed.

(** ** The whole *)

(** No cluster is free. *)
Definition full s : Prop := forall c, cluster (fs (vol s)) c -> entry (vol s) c <> 0.

Lemma full_wrote s s' cs cs' : wrote s s' cs cs' [] -> full s -> full s'.
Proof.
  intros W Hfull c Hc. pose proof (fr_stable _ _ _ (wr_frame _ _ _ _ _ W)) as Hst. apply (stable_cluster _ _ _ Hst) in Hc.
  destruct (decide (c ∈ cs')) as [Hin|Hn].
  - pose proof (wr_file _ _ _ _ _ W) as [Hc' _]. destruct (co_chain _ _ Hc') as [[_ ->]|Hch]; [by apply not_elem_of_nil in Hin|].
    pose proof (n_fatent_small _ (co_vol _ _ Hc')) as Hsm.
    pose proof (linked_entries _ (n_fatent (fs (vol s'))) _ _ c ltac:(lia) Hch Hin). lia.
  - rewrite (fr_entry _ _ _ (wr_frame _ _ _ _ _ W)) by done. by apply Hfull.
Qed.

Lemma write_loop_ok fuel s cs btw wbuff off : file_ok s cs -> room (vol s) -> cltbl (file s) = None ->
  0 <= btw <= Z.of_nat fuel -> fptr (file s) + btw < 2 ^ 32 -> 0 <= off -> off + btw <= Z.of_nat (length wbuff) ->
  Forall is_u8 wbuff ->
  exists r bw s', write_loop fuel btw wbuff off s = Some (r, bw, s') /\
    (r = FR_OK /\ (exists n chunk cs', bw = off + n /\ 0 <= n <= btw /\ peek wbuff off n = Some chunk /\
        wrote s s' cs cs' chunk /\ (n < btw -> full s')) \/
     r = FR_DISK_ERR /\ ~ reliable D).
Proof.
  revert s cs btw off. induction fuel as [|fuel IH]; intros s cs btw off Hf Hroom Htbl Hbtw Hlt Hoff Hlen Hu8;
    cbn [write_loop]; destruct (btw <=? 0) eqn:Eb; zb; try lia.
  1,2: eexists _, _, s; split; [reflexivity|left]; split; [done|]; exists 0, [], cs;
    (splits; [lia|lia|lia|apply peek_Some; splits; (lia || done)|apply wrote_nothing; [done|done|apply quiet_refl, Hf|done|done]|lia]).
  destruct (write_turn_ok s cs btw wbuff off Hf Hroom Htbl ltac:(lia) Hlt Hoff Hlen Hu8) as (t & s1 & E1 & Ht).
  rewrite (st_bind_eq _ _ _ _ _ E1).
  destruct Ht as [(n & chunk & cs1 & -> & Hn & Hk & W1)|[(-> & W1 & Hfull)|[[n ->] Hrel]]].
  2: { eexists _, _, _. split; [reflexivity|left]. split; [done|]. exists 0, [], cs.
       splits; [lia|lia|lia|apply peek_Some; by splits; [|lia|lia|]|done|]. intros _. by apply (full_wrote s s1 cs cs). }
  2: { eexists _, _, _. split; [reflexivity|by right]. }
  cbn [Z.eqb negb FR_OK]. rewrite !upd_fil_bind.
  change (s1 <| file ::= set fptr (fun p => u32 (p + n)) |> <| file ::= _ |>) with (forward n s1).
  pose proof (peek_length _ _ _ _ Hk) as Hl. pose proof (wr_ptr _ _ _ _ _ W1) as Ep. rewrite Hl in Ep.
  pose proof (wr_stub _ _ _ _ _ W1) as Es. unfold stub in Es. injection Es as _ _ _ Et _ _ _.
  destruct (IH (forward n s1) cs1 (btw - n) (off + n)) as (r & bw & s2 & E2 & Hr);
    [apply W1|apply W1|exact (eq_trans Et Htbl)|lia|rewrite Ep; lia|lia|lia|done|].
  exists r, bw, s2. split; [exact E2|]. destruct Hr as [(-> & m & chunk2 & cs2 & -> & Hm & Hk2 & W2 & Hfull)|Hr]; [left|by right].
  split; [done|]. exists (n + m), (chunk ++ chunk2), cs2.
  splits; [lia|lia|lia|by apply peek_append|by apply wrote_trans with (forward n s1) cs1|intros; apply Hfull; lia].
Qed.

(** The bytes of a file with [chunk] stored at [p]. *)
Lemma bytes_patched f p chunk n : 0 <= p <= n ->
  let m := Z.of_nat (length chunk) in
  bytes (patched f p chunk) 0 (Z.max n (p + m)) =
  take (Z.to_nat p) (bytes f 0 n) ++ chunk ++ drop (Z.to_nat (p + m)) (bytes f 0 n).
Proof.
  intros Hp m. replace (Z.max n (p + m)) with (p + (m + (Z.max n (p + m) - p - m))) by lia.
  rewrite !bytes_app by lia. rewrite Z.add_0_l, bytes_take by lia.
  f_equal; [|f_equal].
  - apply bytes_ext. intros j Hj. unfold patched. by replace (p <=? j) with false by (symmetry; apply Z.leb_gt; lia).
  - symmetry. apply bytes_of_list; [done|]. intros j Hj. unfold patched. fold m.
    replace ((p <=? p + j) && (p + j <? p + m)) with true by (symmetry; apply andb_true_iff; split; [apply Z.leb_le|apply Z.ltb_lt]; lia).
    replace (p + j - p) with j by lia. destruct (arr_get_is_Some chunk j Hj) as [x ->]. done.
  - destruct (Z_le_gt_dec (p + m) n) as [Hle|Hgt].
    + rewrite bytes_drop by lia. replace (Z.max n (p + m) - p - m) with (n - (p + m)) by lia. rewrite Z.add_0_l.
      apply bytes_ext. intros j Hj. unfold patched. fold m.
      replace ((p <=? j) && (j <? p + m)) with false by (symmetry; apply andb_false_iff; right; apply Z.ltb_ge; lia). done.
    + rewrite drop_ge by (rewrite bytes_length; lia). by replace (Z.max n (p + m) - p - m) with 0 by lia.
Qed.

(** Only the flag that the file has been modified is set. *)
Definition modified s : FileSys D := s <| file ::= set flag (Z.lor FA_MODIFIED) |>.

Lemma dirty_modified f : has FA_DIRTY (Z.lor FA_MODIFIED f) = has FA_DIRTY f.
Proof. unfold has, FA_DIRTY, FA_MODIFIED. by rewrite Z.land_lor_distr_l. Qed.

(** The other flags are no part of the contract. *)
Lemma reflag_ok s cs g : file_ok s cs -> has FA_DIRTY (g (flag (file s))) = has FA_DIRTY (flag (file s)) ->
  let s' := s <| file ::= set flag g |> : FileSys D in
  file_ok s' cs /\ frame s s' cs /\ content s' cs = content s cs.
Proof.
  intros [Hc Hpos] Hd s'. assert (Hf : dirty (file s') = dirty (file s)) by exact Hd. splits.
  - split; [|by destruct Hpos; constructor]. destruct Hc. constructor; rewrite ?Hf; done.
  - constructor; [apply stable_refl|done|done].
  - unfold content. apply bytes_ext. intros j _. unfold fbyte, cached. by rewrite Hf.
Qed.

Lemma modified_ok s cs : file_ok s cs ->
  file_ok (modified s) cs /\ frame s (modified s) cs /\ content (modified s) cs = content s cs.
Proof. intros Hf. apply (reflag_ok s cs (Z.lor FA_MODIFIED) Hf), dirty_modified. Qed.

Lemma modified_set s : has FA_MODIFIED (flag (file (modified s))) = true.
Proof.
  unfold modified, has, FA_MODIFIED. cbn. rewrite Z.land_lor_distr_l. apply negb_true_iff, Z.eqb_neq. intros E.
  apply Z.lor_eq_0_iff in E as [E _]. discriminate E.
Qed.

(** The checks write nothing. *)
Lemma wrote_moved s s' cs : file_ok s cs -> file s' = file s -> moved s s' cs (fptr (file s)) -> room (vol s') ->
  wrote s s' cs cs [].
Proof.
  intros [Hc [Hp _ _]] Ef Hm Hroom. constructor; cbn [length Z.of_nat]; rewrite ?Ef, ?Z.add_0_r;
    [apply Hm|apply grew_refl|apply Hm|done|lia|done|apply Hm|done|].
  intros k Hk. unfold patched. cbn [length Z.of_nat]. rewrite Z.add_0_r.
  destruct (_ && _) eqn:E; [zb; lia|]. apply (moved_fbyte _ _ _ _ _ Hm). pose proof (co_size _ _ Hc). lia.
Qed.

Lemma wrote_content s s' cs cs' chunk : file_ok s cs -> wrote s s' cs cs' chunk ->
  content s' cs' = take (Z.to_nat (fptr (file s))) (content s cs) ++ chunk ++
                   drop (Z.to_nat (fptr (file s) + Z.of_nat (length chunk))) (content s cs).
Proof.
  intros [_ Hpos] W. unfold content. rewrite <- bytes_patched by apply Hpos. rewrite (wr_size _ _ _ _ _ W).
  apply bytes_ext. intros j Hj. apply (wr_bytes _ _ _ _ _ W). rewrite (wr_size _ _ _ _ _ W). lia.
Qed.

(** Writing, in terms of the bytes of the file: [chunk] is what has been written. *)
Lemma f_write_ok s cs buff btw :
  file_ok s cs -> usable s -> has FA_WRITE (flag (file s)) = true -> cltbl (file s) = None -> room (vol s) ->
  0 <= btw < 2 ^ 32 -> btw <= Z.of_nat (length buff) -> Forall is_u8 buff ->
  let p := fptr (file s) in let m := Z.min btw (2 ^ 32 - 1 - p) in
  exists r bw s', f_write buff btw s = Some (r, bw, s') /\
    (r = FR_OK /\ 0 <= bw <= m /\ (bw < m -> full s') /\
       (exists s2 cs' chunk, s' = modified s2 /\ peek buff 0 bw = Some chunk /\ wrote s s2 cs cs' chunk) \/
     (r = FR_DISK_ERR \/ r = FR_INVALID_OBJECT) /\ ~ reliable D).
Proof.
  intros Hf Huse Hw Htbl Hroom Hbtw Hlen Hu8 p m. pose proof Hf as [Hc Hpos].
  pose proof (po_ptr _ _ Hpos) as Hp. fold p in Hp. pose proof (co_size _ _ Hc) as [Hsz Hspan].
  unfold f_write. destruct (check_ok s cs Hf Huse) as (r & s1 & E1 & Ef1 & [[-> Hm1]|[-> Hrel]]);
    rewrite (st_bind_eq _ _ _ _ _ E1).
  2: { eexists _, _, _. split; [reflexivity|]. right. split; [by right|done]. }
  cbn [Z.eqb negb FR_OK]. rewrite fil_bind. unfold id. rewrite Ef1, Hw. cbn [negb]. fold p.
  replace (if u32 (p + btw) <? p then u32 (0xFFFFFFFF - p) else btw) with m.
  2: { unfold m. destruct (Z_lt_ge_dec (p + btw) (2 ^ 32)).
       - rewrite (u32_small (p + btw)) by lia. zcase; lia.
       - rewrite (u32_small (0xFFFFFFFF - p)) by lia. unfold u32. rewrite <- (Z_mod_plus_full (p + btw) (-1)).
         rewrite Z.mod_small by lia. zcase; lia. }
  cbv zeta. destruct (write_loop_ok (Z.to_nat m) s1 cs m buff 0) as (r & bw & s2 & E2 & Hr);
    [apply Hm1|by apply Hm1|by rewrite Ef1|lia|rewrite Ef1; fold p; lia|done|lia|done|].
  rewrite (st_bind_eq _ _ _ _ _ E2). destruct Hr as [(-> & n & chunk & cs' & -> & Hn & Hk & W & Hfull)|[-> Hrel]].
  2: { eexists _, _, _. split; [reflexivity|]. right. split; [by left|done]. }
  cbn [Z.eqb negb FR_OK]. rewrite upd_fil_bind. fold (modified s2). rewrite Z.add_0_l.
  exists FR_OK, n, (modified s2). split; [done|left].
  splits; [done|lia|lia|intros Hlt c; by apply Hfull|]. exists s2, cs', chunk. splits; [done|done|].
  apply (wrote_trans s s1 s2 cs cs cs' [] chunk Hf); [|done]. by apply wrote_moved; [..|apply Hm1].
Qed.

(** C11: Writing a file.  On an open file a write of [btw] bytes always returns.  Unless
    the drive fails it stores the first [bw] of the bytes given from the pointer on, where
    [bw] is less than [m] (all that is asked for, cut where the size would pass four
    gigabytes) only when the volume ends without a free cluster: the file then has its
    old bytes before and behind them, its chain has grown at its end by clusters that
    were free, and only as far as the last byte written needs, the pointer is behind the
    bytes written, and the buffer, the chain and the counts of the table are in order.
    No other table entry or sector has changed. *)
Theorem f_write_spec s cs buff btw :
  file_ok s cs -> usable s -> has FA_WRITE (flag (file s)) = true -> cltbl (file s) = None -> room (vol s) ->
  0 <= btw < 2 ^ 32 -> btw <= Z.of_nat (length buff) -> Forall is_u8 buff ->
  let p := fptr (file s) in let m := Z.min btw (2 ^ 32 - 1 - p) in
  exists r bw s', f_write buff btw s = Some (r, bw, s') /\
    (r = FR_OK /\ 0 <= bw <= m /\ (bw < m -> full s') /\ (exists ext, file_ok s' (cs ++ ext) /\ frame s s' (cs ++ ext) /\
       Forall (fun c => entry (vol s) c = 0) ext /\
       (ext = [] \/ Z.of_nat (length (cs ++ ext)) = (p + bw - 1) / SS / csize (fs (vol s)) + 1) /\
       content s' (cs ++ ext) = take (Z.to_nat p) (content s cs) ++ take (Z.to_nat bw) buff ++
                                drop (Z.to_nat (p + bw)) (content s cs)) /\
       fptr (file s') = p + bw /\ has FA_MODIFIED (flag (file s')) = true /\ room (vol s') \/
     (r = FR_DISK_ERR \/ r = FR_INVALID_OBJECT) /\ ~ reliable D).
Proof.
  intros Hf Huse Hw Htbl Hroom Hbtw Hlen Hu8 p m.
  destruct (f_write_ok s cs buff btw) as (r & bw & s' & E & Hr); try done.
  exists r, bw, s'. split; [exact E|]. destruct Hr as [(-> & Hbw & Hfull & s2 & cs' & chunk & -> & Hk & W)|Hr]; [left|by right].
  destruct (modified_ok s2 cs' (wr_file _ _ _ _ _ W)) as (Hf2 & Hfr2 & Hct2).
  pose proof (peek_length _ _ _ _ Hk) as Hl. pose proof (wr_ptr _ _ _ _ _ W) as Hp2. rewrite Hl in Hp2.
  destruct (wr_ext _ _ _ _ _ W) as (ext & -> & Hfree & Hneed). fold p in Hp2. rewrite Hp2 in Hneed.
  splits; [done|apply Hbw|apply Hbw|done| |done|apply modified_set|apply W].
  exists ext. splits; [done|by apply frame_trans with s2; [apply W|]|done|done|].
  rewrite Hct2, (wrote_content _ _ _ _ _ Hf W), Hl. by apply peek_Some in Hk as (_ & _ & _ & ->).
Qed.
End write.
