(* ===== verification/FileSeek.v ===== *)
(** * FileSeek: moving the file pointer

    [f_lseek] inside of a file: along the chain from the current cluster or from the
    start, or by the cluster link map.  With it what was written is read back. *)

From S2P Require Import Prelude FatWords Blocks Fat FatFacts FatChain FatCreate FatWindow File FileFacts FileRead FileWrite.

Section seek.
Context `{DL : DiskLaws D}.
Implicit Types (s : FileSys D) (cs : list Z).

(** The file with its pointer at [p], in cluster [c]. *)
Definition at_ptr s (p : Z) : FileSys D := s <| file ::= set fptr (fun _ => p) |>.
Definition pos s (p c : Z) : FileSys D := at_ptr (at_cluster s c) p.

Lemma core_ptr s cs p : core_ok s cs -> core_ok (at_ptr s p) cs.
Proof. intros []. by constructor. Qed.

Lemma core_pos s cs p c : core_ok s cs -> core_ok (pos s p c) cs.
Proof. intros Hc. by apply core_ptr, core_at. Qed.

Lemma quiet_ptr s s' cs p : quiet s s' cs -> quiet (at_ptr s p) (at_ptr s' p) cs.
Proof.
  intros [Hc [Hs He Hv] Hh Hi Hn Hr Hq]. constructor; [by apply core_ptr|by constructor| |done|exact Hn|exact Hr|exact Hq].
  unfold head in *. cbn. injection Hh as -> -> -> -> -> _ -> -> -> -> ->. done.
Qed.

Lemma pos_fields s s1 cs p c : quiet (pos s p c) s1 cs ->
  fptr (file s1) = p /\ clust (file s1) = c /\ objsize (file s1) = objsize (file s) /\
  sclust (file s1) = sclust (file s) /\ cltbl (file s1) = cltbl (file s) /\
  clear FA_DIRTY (flag (file s1)) = clear FA_DIRTY (flag (file s)).
Proof. intros Q. pose proof (qu_head _ _ _ Q) as Hh. unfold head in Hh. cbn in Hh. by injection Hh as _ _ -> -> _ -> -> -> _ _ ->. Qed.

(** The pointer has come to [p]. *)
Lemma settled s s' cs p c : core_ok s cs -> quiet (pos s p c) s' cs -> 0 <= p <= objsize (file s) ->
  (0 < p -> cs.[(p - 1) / SS / csize (fs (vol s))] = Some c) ->
  (p mod SS <> 0 -> sect (file s') = snum (fs (vol s)) cs (p / SS)) -> moved s s' cs p.
Proof.
  intros Hc Q Hp Hcl Hs. destruct (pos_fields _ _ _ _ _ Q) as (E1 & E2 & E3 & _).
  destruct Q as [Hc' Hfr Hh Hi _ Hr Hq]. pose proof (fr_stable _ _ _ Hfr) as Hst.
  change (fs (vol (pos s p c))) with (fs (vol s)) in Hst. destruct (stable_geometry _ _ Hst) as (Ez & _).
  constructor; [|done| | |exact Hi|exact Hr|exact Hq].
  - split; [done|]. constructor; rewrite E1, ?E2, ?E3, ?Ez; [done|done|].
    by destruct (stable_snum _ _ cs (p / SS) Hst) as [_ ->].
  - destruct Hfr. by constructor.
  - unfold head in Hh. unfold tail. cbn in Hh. injection Hh as -> -> -> -> -> _ _ -> -> -> ->. done.
Qed.

(** The buffer gets the sector of the pointer. *)
Lemma seek_load_ok s s1 cs p c : core_ok s cs -> quiet (pos s p c) s1 cs -> 0 <= p <= objsize (file s) ->
  (0 < p -> cs.[(p - 1) / SS / csize (fs (vol s))] = Some c) ->
  forall t, (p mod SS <> 0 -> t = snum (fs (vol s)) cs (p / SS)) ->
  exists r s', seek_load t s1 = Some (r, s') /\
    (r = FR_OK /\ moved s s' cs p \/ r = FR_DISK_ERR /\ ~ reliable D).
Proof.
  intros Hc Q Hp Hcl t Ht. destruct (pos_fields _ _ _ _ _ Q) as (E1 & E2 & E3 & _).
  unfold seek_load. rewrite fil_bind. unfold id. rewrite E1.
  destruct (p mod SS =? 0) eqn:Em; zb; cbn [negb andb].
  { exists FR_OK, s1. split; [done|left]. split; [done|]. by apply (settled s s1 cs p c). }
  specialize (Ht Em). pose proof (co_size _ _ Hc) as [Hsz Hspan]. destruct (sector_split p) as [Hm Ep].
  pose proof (fr_stable _ _ _ (qu_frame _ _ _ Q)) as Hst. change (fs (vol (pos s p c))) with (fs (vol s)) in Hst.
  destruct (stable_snum _ _ cs (p / SS) Hst) as [Espan Esn].
  destruct (t =? sect (file s1)) eqn:Et; zb; cbn [negb].
  { exists FR_OK, s1. split; [done|left]. split; [done|]. apply (settled s s1 cs p c); try done. intros _. congruence. }
  destruct (load_ok s1 cs (p / SS)) as (r & s2 & E & Hr); [apply Q|rewrite Espan; unfold SS in *; lia|rewrite E3; lia|].
  rewrite Ht, <- Esn. exists r, s2. split; [exact E|]. destruct Hr as [(-> & Q2 & Hs2 & _)|Hr]; [left|by right].
  split; [done|]. apply (settled s s2 cs p c); try done; [by apply quiet_trans with s1|]. intros _. by rewrite Hs2, Esn.
Qed.

(** ** Along the chain *)

(** The next cluster, for reading or for writing. *)
Lemma follow_ok (w : bool) s cs j a b : core_ok s cs -> cs.[j] = Some a -> cs.[j + 1] = Some b ->
  exists r s', on_vol (if w then create_chain a else get_fat a) s = Some (r, s') /\ quiet s s' cs /\
    (r = b \/ r = DISK_ERROR /\ ~ reliable D).
Proof.
  intros Hc Ha Hb. destruct w.
  2: { destruct (next_cluster s cs j a b Hc Ha Hb) as (r & s' & E & Q & Hr & _). by exists r, s'. }
  pose proof (core_clusters s cs Hc) as Hcs.
  assert (Hin : forall k x, cs.[k] = Some x -> cluster (fs (vol s)) x).
  { intros k x Hx. apply arr_get_Some in Hx as [_ Hx]. by apply (Forall_lookup_1 _ _ _ _ Hcs Hx). }
  assert (Enext : entry (vol s) a = b).
  { destruct (co_chain _ _ Hc) as [[_ ->]|Hch]; [apply arr_get_lt in Hb; cbn in Hb; lia|].
    destruct (linked_lookup _ _ _ _ Hch) as [_ Hnext]. by apply (Hnext j). }
  destruct (create_follow (vol s) a) as (r & v' & E & K & Hr);
    [apply Hc|by apply (Hin j)|rewrite Enext; by apply (Hin (j + 1))|]. rewrite Enext in Hr.
  exists r, (s <| vol := v' |>). splits; [by apply on_vol_eq|by apply (quiet_create s cs a r)|done].
Qed.

(** Bytes of a cluster. *)
Definition bcs f : Z := csize f * SS.

Lemma seek_loop_ok fuel s s1 cs j c ofs : core_ok s cs -> quiet (pos s (bcs (fs (vol s)) * j) c) s1 cs ->
  0 <= j -> cs.[j] = Some c -> 0 < ofs <= bcs (fs (vol s)) * (Z.of_nat fuel + 1) -> bcs (fs (vol s)) * j + ofs <= objsize (file s) ->
  exists r s2, seek_loop fuel (bcs (fs (vol s))) ofs c s1 = Some (r, s2) /\
    ((exists ofs' j' c', r = inr (ofs', c') /\ quiet (pos s (bcs (fs (vol s)) * j') c') s2 cs /\ 0 <= j' /\ cs.[j'] = Some c' /\
        0 < ofs' <= bcs (fs (vol s)) /\ bcs (fs (vol s)) * j' + ofs' = bcs (fs (vol s)) * j + ofs) \/
     r = inl FR_DISK_ERR /\ ~ reliable D).
Proof.
  intros Hc. pose proof (csize_range _ (co_data _ _ Hc)) as Hz. pose proof (co_size _ _ Hc) as [Hsz Hspan].
  set (B := bcs (fs (vol s))). assert (HB : 0 < B) by (unfold B, bcs, SS; lia).
  revert s1 j c ofs. induction fuel as [|fuel IH]; intros s1 j c ofs Q Hj Hx Hofs Hle; cbn [seek_loop];
    destruct (ofs <=? B) eqn:Eb; zb; try lia.
  1,2: eexists _, s1; split; [reflexivity|left]; exists ofs, j, c; by (splits; [| | | |lia|lia|]).
  rewrite upd_fil_bind, fil_bind. unfold id. destruct (pos_fields _ _ _ _ _ Q) as (E1 & E2 & E3 & _).
  set (q := B * (j + 1)). assert (Eq : u32 (fptr (file s1) + B) = q) by (rewrite E1, u32_small; unfold q; lia).
  change (s1 <| file ::= set fptr (fun p => u32 (p + B)) |>) with (at_ptr s1 (u32 (fptr (file s1) + B))). rewrite Eq.
  assert (Q1 : quiet (pos s q c) (at_ptr s1 q) cs) by exact (quiet_ptr _ _ _ q Q).
  assert (Hx1 : exists b, cs.[j + 1] = Some b).
  { apply arr_get_is_Some. unfold span in Hspan. split; [lia|]. unfold B, bcs in *. unfold SS in *. nia. }
  destruct Hx1 as [b Hb]. set (w := has FA_WRITE _).
  destruct (follow_ok w (at_ptr s1 q) cs j c b) as (r & s2 & E & Q2 & Hr); [apply Q1|done|done|].
  rewrite (st_bind_eq _ _ _ _ _ E).
  assert (Hcb : cluster (fs (vol s)) b).
  { apply arr_get_Some in Hb as [_ Hb]. by apply (Forall_lookup_1 _ _ _ _ (core_clusters s cs Hc) Hb). }
  pose proof (quiet_trans _ _ _ _ Q1 Q2) as Q3. pose proof (fr_stable _ _ _ (qu_frame _ _ _ Q3)) as Hst.
  destruct (stable_fields _ _ Hst) as (_ & _ & _ & _ & En). change (fs (vol (pos s q c))) with (fs (vol s)) in En.
  pose proof (n_fatent_small _ (co_vol _ _ Hc)) as Hsm. unfold cluster in Hcb.
  destruct Hr as [->|[-> Hrel]].
  2: { change (DISK_ERROR =? 0) with false. rewrite andb_false_r, fatfs_bind, Z.eqb_refl.
       eexists _, _. split; [reflexivity|by right]. }
  replace (b =? 0) with false by (symmetry; apply Z.eqb_neq; lia). rewrite andb_false_r, fatfs_bind, En.
  replace (b =? DISK_ERROR) with false by (symmetry; apply Z.eqb_neq; unfold DISK_ERROR; lia).
  replace (b <=? 1) with false by (symmetry; apply Z.leb_gt; lia).
  replace (n_fatent (fs (vol s)) <=? b) with false by (symmetry; apply Z.leb_gt; lia). cbn [orb].
  rewrite upd_fil_bind. destruct (IH (at_cluster s2 b) (j + 1) b (ofs - B)) as (r & s3 & E3' & Hr); [|lia|done|lia|lia|].
  - exact (quiet_at _ _ _ b Q3).
  - exists r, s3. split; [exact E3'|]. destruct Hr as [(o & j' & c' & -> & Hq & H1 & H2 & H3 & H4)|Hr]; [left|by right].
    exists o, j', c'. splits; try done; lia.
Qed.

(** The start of the cluster of byte [x]. *)
Lemma cluster_mask f x : data_ok f -> 0 <= x < 2 ^ 32 ->
  Z.land x (0xFFFFFFFF - (bcs f - 1)) = bcs f * (x / bcs f).
Proof.
  intros [(e & He & Ez) _ _ _] Hx. unfold bcs. rewrite Ez.
  assert (Ep : 2 ^ e * SS = 2 ^ (e + 9)) by (rewrite Z.pow_add_r by lia; done). rewrite Ep.
  assert (Ek : 0xFFFFFFFF - (2 ^ (e + 9) - 1) = Z.ldiff (Z.ones 32) (Z.ones (e + 9))).
  { rewrite <- Z.sub_nocarry_ldiff; [rewrite (Z.ones_equiv (e + 9)); change (Z.ones 32) with 0xFFFFFFFF; lia|].
    apply Z.bits_inj'. intros n Hn. rewrite Z.ldiff_spec, Z.bits_0.
    destruct (Z_lt_ge_dec n (e + 9)); [|by rewrite (Z.ones_spec_high (e + 9)) by lia].
    by rewrite !Z.ones_spec_low by lia. }
  rewrite Ek. transitivity (Z.ldiff (Z.land x (Z.ones 32)) (Z.ones (e + 9))).
  - apply Z.bits_inj'. intros n Hn. rewrite Z.land_spec, !Z.ldiff_spec, Z.land_spec. by rewrite andb_assoc.
  - rewrite Z.land_ones, Z.mod_small by lia. rewrite Z.ldiff_ones_r, Z.shiftl_mul_pow2, Z.shiftr_div_pow2 by lia. lia.
Qed.

Lemma cluster_index f x : data_ok f -> x / SS / csize f = x / bcs f.
Proof. intros Hd. pose proof (csize_range f Hd). unfold bcs. rewrite Z.div_div by (unfold SS; lia). by rewrite Z.mul_comm. Qed.

Lemma seek_start_ok s cs ofs : file_ok s cs -> 0 < ofs <= objsize (file s) ->
  exists o c s1 j, seek_start (bcs (fs (vol s))) ofs (fptr (file s)) (at_ptr s 0) = Some (inr (o, c), s1) /\
    quiet (pos s (bcs (fs (vol s)) * j) c) s1 cs /\ 0 <= j /\ cs.[j] = Some c /\
    0 < o /\ bcs (fs (vol s)) * j + o = ofs.
Proof.
  intros [Hc [Hp Hcl _]] Hofs. pose proof (csize_range _ (co_data _ _ Hc)) as Hz. pose proof (co_size _ _ Hc) as [Hsz Hspan].
  rewrite cluster_index in Hcl by apply Hc. pose proof (cluster_mask (fs (vol s))) as Hmask. specialize (Hmask (fptr (file s) - 1) (co_data _ _ Hc)).
  set (B := bcs (fs (vol s))) in *. assert (HB : 0 < B) by (unfold B, bcs, SS; lia).
  set (p := fptr (file s)) in *. unfold seek_start. rewrite fil_bind. unfold id.
  destruct ((0 <? p) && _) eqn:E; zb.
  - rewrite Hmask by lia. set (j := (p - 1) / B) in *. rewrite upd_fil_bind.
    assert (Hle : B * j <= ofs - 1).
    { transitivity (B * ((ofs - 1) / B)); [nia|]. by apply Z.mul_div_le. }
    assert (Hj : 0 <= j) by (apply Z.div_pos; lia).
    eexists _, _, _, j. split; [reflexivity|]. change (clust (file (at_ptr s 0))) with (clust (file s)).
    rewrite u32_small by nia. splits; [|done|by apply Hcl|lia|lia].
    assert (Ep : pos s (B * j) (clust (file s)) = at_ptr s (B * j)) by (by destruct s as [? ? []]).
    rewrite Ep. exact (quiet_refl (at_ptr s (B * j)) cs (core_ptr s cs _ Hc)).
  - assert (Hne : cs.[0] = Some (sclust (file s)) /\ sclust (file s) <> 0).
    { destruct (co_chain _ _ Hc) as [[_ ->]|Hch]; [unfold span in Hspan; cbn in Hspan; lia|].
      destruct cs as [|b l]; [done|]. destruct (linked_head _ _ _ _ _ Hch) as [-> ?]. split; [done|lia]. }
    destruct Hne as [Hx Hs0]. change (sclust (file (at_ptr s 0))) with (sclust (file s)).
    replace (sclust (file s) =? 0) with false by (symmetry; by apply Z.eqb_neq). rewrite st_ret_bind. cbv beta iota.
    rewrite upd_fil_bind. eexists _, _, _, 0. split; [reflexivity|]. rewrite Z.mul_0_r.
    splits; [|done|done|lia|lia]. apply (quiet_refl (pos s 0 (sclust (file s)))). by apply core_pos.
Qed.

Lemma seek_chain_ok s cs ofs : file_ok s cs -> 0 < ofs <= objsize (file s) ->
  exists r s1, seek_chain ofs (fptr (file s)) (at_ptr s 0) = Some (r, s1) /\
    ((exists t c, r = inr t /\ quiet (pos s ofs c) s1 cs /\ cs.[(ofs - 1) / SS / csize (fs (vol s))] = Some c /\
        (ofs mod SS <> 0 -> t = snum (fs (vol s)) cs (ofs / SS))) \/
     r = inl FR_DISK_ERR /\ ~ reliable D).
Proof.
  intros Hf Hofs. pose proof Hf as [Hc _]. pose proof (csize_range _ (co_data _ _ Hc)) as Hz.
  pose proof (co_size _ _ Hc) as [Hsz Hspan]. unfold seek_chain. rewrite fatfs_bind. unfold id.
  change (fs (vol (at_ptr s 0))) with (fs (vol s)). fold (bcs (fs (vol s))). cbv zeta.
  rewrite u32_small by (unfold bcs, SS; lia).
  destruct (seek_start_ok s cs ofs Hf Hofs) as (o & c & s1 & j & E1 & Q1 & Hj & Hx & Ho & Eo).
  rewrite (st_bind_eq _ _ _ _ _ E1).
  assert (Hcl : forall k x, cs.[k] = Some x -> cluster (fs (vol s)) x).
  { intros k x Hk. apply arr_get_Some in Hk as [_ Hk]. by apply (Forall_lookup_1 _ _ _ _ (core_clusters s cs Hc) Hk). }
  pose proof (Hcl _ _ Hx) as Hcc. unfold cluster in Hcc. replace (c =? 0) with false by (symmetry; apply Z.eqb_neq; lia).
  set (B := bcs (fs (vol s))) in *. assert (HB : 0 < B) by (unfold B, bcs, SS; lia).
  destruct (seek_loop_ok (Z.to_nat (o / B)) s s1 cs j c o) as (r & s2 & E2 & Hr); try done; fold B.
  { rewrite Z2Nat.id by (apply Z.div_pos; lia). split; [done|]. pose proof (Z.mul_succ_div_gt o B HB). lia. }
  { lia. }
  fold B in E2, Hr. rewrite (st_bind_eq _ _ _ _ _ E2).
  destruct Hr as [(o' & j' & c' & -> & Q2 & Hj' & Hx' & Ho' & Eo')|[-> Hrel]].
  2: { eexists _, _. split; [reflexivity|by right]. }
  rewrite upd_fil_bind. destruct (pos_fields _ _ _ _ _ Q2) as (E3 & _).
  change (s2 <| file ::= set fptr (fun p => u32 (p + o')) |>) with (at_ptr s2 (u32 (fptr (file s2) + o'))).
  rewrite E3, u32_small by lia. replace (B * j' + o') with ofs by lia.
  assert (Q3 : quiet (pos s ofs c') (at_ptr s2 ofs) cs) by exact (quiet_ptr _ _ _ ofs Q2).
  assert (Hidx : (ofs - 1) / SS / csize (fs (vol s)) = j').
  { rewrite cluster_index by apply Hc. fold B. symmetry. apply Z.div_unique_pos with (o' - 1); lia. }
  assert (Hmod : o' mod SS = ofs mod SS /\ ofs / SS = csize (fs (vol s)) * j' + o' / SS).
  { replace ofs with (o' + csize (fs (vol s)) * j' * SS) by (unfold B, bcs in *; lia).
    rewrite Z.mod_add, Z.div_add by done. split; lia. }
  destruct Hmod as [Em Ed]. rewrite Em. destruct (ofs mod SS =? 0) eqn:E0; zb.
  { eexists _, _. split; [reflexivity|left]. exists 0, c'. splits; [done|exact Q3|by rewrite Hidx|done]. }
  rewrite fatfs_bind. change (fs (vol (at_ptr s2 ofs))) with (fs (vol s2)).
  assert (Hk : o' / SS < csize (fs (vol s))).
  { apply Z.div_lt_upper_bound; [done|]. unfold B, bcs in *. destruct (decide (o' = csize (fs (vol s)) * SS)) as [E|]; [|lia].
    exfalso. apply E0. rewrite <- Em, E. by apply Z.mod_mul. }
  assert (Hk0 : 0 <= o' / SS) by (apply Z.div_pos; [lia|done]).
  pose proof (fr_stable _ _ _ (qu_frame _ _ _ Q2)) as Hst. change (fs (vol (pos s (B * j') c'))) with (fs (vol s)) in Hst.
  pose proof (Hcl _ _ Hx') as Hcc'. destruct (base_range _ _ (co_data _ _ Hc) Hcc') as [Hb Ht].
  destruct (data_live (fs (vol s)) (base (fs (vol s)) c')) as (_ & _ & Hb0); [apply vol_geo, Hc|apply Hc|lia|].
  rewrite clst2sect_eq; [|by apply (stable_data_ok _ _ Hst), Hc|apply vol_geo, Q2|by apply (stable_cluster _ _ _ Hst)].
  rewrite (stable_base _ _ _ Hst). replace (base (fs (vol s)) c' =? 0) with false by (symmetry; apply Z.eqb_neq; lia).
  eexists _, _. split; [reflexivity|left]. eexists _, c'. splits; [reflexivity|exact Q3|by rewrite Hidx|]. intros _.
  rewrite u32_small by (unfold NO_SECTOR in *; lia). unfold snum. rewrite Ed.
  rewrite <- (Z.div_unique_pos (csize (fs (vol s)) * j' + o' / SS) (csize (fs (vol s))) j' (o' / SS)) by lia.
  rewrite <- (Z.mod_unique_pos (csize (fs (vol s)) * j' + o' / SS) (csize (fs (vol s))) j' (o' / SS)) by lia.
  by rewrite Hx'.
Qed.

Lemma pos_here s p : pos s p (clust (file s)) = at_ptr s p.
Proof. by destruct s as [? ? []]. Qed.

Lemma normal_seek_ok s cs ofs : file_ok s cs -> 0 <= ofs -> (has FA_WRITE (flag (file s)) = true -> ofs <= objsize (file s)) ->
  let p := Z.min ofs (objsize (file s)) in
  exists r s', normal_seek ofs s = Some (r, s') /\
    (r = FR_OK /\ moved s s' cs p \/ r = FR_DISK_ERR /\ ~ reliable D).
Proof.
  intros Hf Hofs Hw p. pose proof Hf as [Hc _]. pose proof (co_size _ _ Hc) as [Hsz _].
  unfold normal_seek. rewrite fil_bind. unfold id. cbv zeta.
  replace (if (objsize (file s) <? ofs) && negb (has FA_WRITE (flag (file s))) then objsize (file s) else ofs) with p.
  2: { unfold p. destruct (has FA_WRITE (flag (file s))); cbn [negb]; [rewrite andb_false_r; specialize (Hw eq_refl); lia|].
       rewrite andb_true_r. zcase; lia. }
  rewrite upd_fil_bind. change (s <| file ::= set fptr (fun _ => 0) |>) with (at_ptr s 0).
  assert (Hsame : forall c s1, quiet (pos s p c) s1 cs -> s1 <| file ::= (fun fp =>
      if objsize fp <? fptr fp then fp <| objsize := fptr fp |> <| flag ::= Z.lor FA_MODIFIED |> else fp) |> = s1).
  { intros c s1 Q. destruct (pos_fields _ _ _ _ _ Q) as (E1 & _ & E3 & _). destruct s1 as [v n fp]. unfold set. cbn in *.
    rewrite E1, E3. by replace (objsize (file s) <? p) with false by (symmetry; apply Z.ltb_ge; lia). }
  destruct (0 <? p) eqn:E0; zb.
  - destruct (seek_chain_ok s cs p Hf ltac:(lia)) as (r & s1 & E1 & Hr). rewrite (st_bind_eq _ _ _ _ _ E1).
    destruct Hr as [(t & c & -> & Q & Hcl & Ht)|[-> Hrel]].
    2: { eexists _, _. split; [reflexivity|by right]. }
    rewrite upd_fil_bind, (Hsame c s1 Q). apply (seek_load_ok s s1 cs p c Hc Q); [lia|by intros _|exact Ht].
  - rewrite st_ret_bind. cbv beta iota. assert (Ep : p = 0) by lia. rewrite Ep in *.
    assert (Q : quiet (pos s 0 (clust (file s))) (at_ptr s 0) cs).
    { rewrite pos_here. exact (quiet_refl (at_ptr s 0) cs (core_ptr s cs 0 Hc)). }
    rewrite upd_fil_bind, (Hsame _ _ Q). apply (seek_load_ok s (at_ptr s 0) cs 0 (clust (file s)) Hc Q); [lia|lia|done].
Qed.

Lemma fast_seek_ok s cs tbl ofs : file_ok s cs -> cltbl (file s) = Some tbl -> map_ok s cs -> 0 <= ofs ->
  let p := Z.min ofs (objsize (file s)) in
  exists r s', fast_seek tbl ofs s = Some (r, s') /\
    (r = FR_OK /\ moved s s' cs p \/ r = FR_DISK_ERR /\ ~ reliable D).
Proof.
  intros Hf Etbl Hmap Hofs p. pose proof Hf as [Hc _]. pose proof (co_size _ _ Hc) as [Hsz Hspan].
  unfold fast_seek. rewrite fil_bind, fatfs_bind. unfold id. cbv zeta.
  replace (if objsize (file s) <? ofs then objsize (file s) else ofs) with p by (unfold p; zcase; lia).
  rewrite upd_fil_bind. change (s <| file ::= set fptr (fun _ => p) |>) with (at_ptr s p).
  destruct (p <=? 0) eqn:E0; zb.
  { exists FR_OK, (at_ptr s p). split; [done|left]. split; [done|]. assert (Ep : p = 0) by lia. rewrite Ep.
    apply (settled s _ cs 0 (clust (file s))); [done| |lia|lia|done].
    rewrite pos_here. exact (quiet_refl (at_ptr s 0) cs (core_ptr s cs 0 Hc)). }
  unfold map_ok in Hmap. rewrite Etbl in Hmap. rewrite Hmap by lia.
  assert (Hi : 0 <= (p - 1) / SS < span (fs (vol s)) cs) by (unfold SS in *; divs).
  destruct (chain_lookup _ cs _ (co_data _ _ Hc) (core_clusters s cs Hc) Hi) as (c & Ex & Hcc & Es).
  rewrite Ex. rewrite (st_bind_eq (st_opt (Some c)) _ (at_ptr s p) c (at_ptr s p) eq_refl), upd_fil_bind.
  rewrite clst2sect_eq; [|apply Hc|apply vol_geo, Hc|done]. destruct (base_range _ _ (co_data _ _ Hc) Hcc) as [Hb Ht].
  pose proof (csize_range _ (co_data _ _ Hc)) as Hz.
  destruct (data_live (fs (vol s)) (base (fs (vol s)) c)) as (_ & _ & Hb0); [apply vol_geo, Hc|apply Hc|lia|].
  replace (base (fs (vol s)) c =? 0) with false by (symmetry; apply Z.eqb_neq; lia).
  rewrite csize_mask by apply Hc. rewrite <- Es.
  destruct (file_snum s cs _ Hc Hi) as (_ & _ & Hr). rewrite u32_small by (unfold NO_SECTOR in *; lia).
  apply (seek_load_ok s _ cs p c Hc); [exact (quiet_refl (pos s p c) cs (core_pos s cs p c Hc))|lia|done|].
  intros Hm. f_equal. clear - Hm. unfold SS in *. divs.
Qed.

(** Moving the pointer, in terms of the move. *)
Lemma f_lseek_ok s cs ofs : file_ok s cs -> usable s -> map_ok s cs -> 0 <= ofs ->
  (cltbl (file s) <> None -> ofs <> CREATE_LINKMAP) ->
  (cltbl (file s) = None -> has FA_WRITE (flag (file s)) = true -> ofs <= objsize (file s)) ->
  exists r s', f_lseek ofs s = Some (r, s') /\
    (r = FR_OK /\ moved s s' cs (Z.min ofs (objsize (file s))) \/
     (r = FR_DISK_ERR \/ r = FR_INVALID_OBJECT) /\ ~ reliable D).
Proof.
  intros Hf Huse Hmap Hofs Hlink Hw. unfold f_lseek.
  destruct (check_ok s cs Hf Huse) as (r & s1 & E1 & Ef1 & [[-> Hm1]|[-> Hrel]]); rewrite (st_bind_eq _ _ _ _ _ E1).
  2: { eexists _, _. split; [reflexivity|]. right. split; [by right|done]. }
  cbn [Z.eqb negb FR_OK]. rewrite fil_bind. pose proof (mv_file _ _ _ _ Hm1) as Hf1.
  assert (Hgo : forall m : ST (FileSys D) Z, (exists r s', m s1 = Some (r, s') /\
    (r = FR_OK /\ moved s1 s' cs (Z.min ofs (objsize (file s1))) \/ r = FR_DISK_ERR /\ ~ reliable D)) ->
    exists r s', m s1 = Some (r, s') /\ (r = FR_OK /\ moved s s' cs (Z.min ofs (objsize (file s))) \/
      (r = FR_DISK_ERR \/ r = FR_INVALID_OBJECT) /\ ~ reliable D)).
  { intros m (r & s' & E & Hr). exists r, s'. split; [done|]. rewrite Ef1 in Hr.
    destruct Hr as [[-> Hm]|[-> Hrel]]; [left; split; [done|by apply moved_trans with s1 (fptr (file s))]|right; split; [by left|done]]. }
  apply Hgo. destruct (cltbl (file s1)) as [tbl|] eqn:Et.
  - replace (ofs =? CREATE_LINKMAP) with false by (symmetry; apply Z.eqb_neq, Hlink; by rewrite <- Ef1, Et).
    apply (fast_seek_ok s1 cs tbl ofs); [done|done|by apply (moved_map s s1 cs _ Hm1)|lia].
  - apply (normal_seek_ok s1 cs ofs); [done|lia|]. rewrite Ef1 in Et |- *. by apply Hw.
Qed.

(** Moving the file pointer.  On an open file a move to [ofs], in a file open for
    reading only or to a place inside of the file, always returns; unless the drive fails
    the pointer is at [ofs], or at the end of the file when [ofs] is behind it, the
    current cluster and the buffer are those of that place, and neither the content nor
    anything else has changed, whether the chain is followed from the current cluster,
    from its start or by the cluster link map. *)
Theorem f_lseek_spec s cs ofs : file_ok s cs -> usable s -> map_ok s cs -> 0 <= ofs < 2 ^ 32 ->
  (cltbl (file s) <> None -> ofs <> CREATE_LINKMAP) ->
  (cltbl (file s) = None -> has FA_WRITE (flag (file s)) = true -> ofs <= objsize (file s)) ->
  exists r s', f_lseek ofs s = Some (r, s') /\
    (r = FR_OK /\ fptr (file s') = Z.min ofs (objsize (file s)) /\ file_ok s' cs /\ content s' cs = content s cs /\
       tail (file s') = tail (file s) /\ frame s s' cs \/
     (r = FR_DISK_ERR \/ r = FR_INVALID_OBJECT) /\ ~ reliable D).
Proof.
  intros Hf Huse Hmap Hofs Hlink Hw.
  destruct (f_lseek_ok s cs ofs Hf Huse Hmap ltac:(lia) Hlink Hw) as (r & s' & E & Hr).
  exists r, s'. split; [exact E|]. destruct Hr as [[-> Hm]|Hr]; [left|by right].
  splits; [done|apply Hm|apply Hm|by apply (moved_content _ _ _ _ Hf Hm)|apply Hm|apply Hm].
Qed.

(** ** What was written is read back *)

Lemma has_stub b s s' : 0 <= b < 7 -> stub (file s') = stub (file s) -> has (2 ^ b) (flag (file s')) = has (2 ^ b) (flag (file s)).
Proof.
  intros Hb E. unfold stub in E. injection E as _ _ _ _ _ _ E.
  by rewrite <- (has_clear b (flag (file s'))), <- (has_clear b (flag (file s))), E by done.
Qed.

Lemma has_lor b x f : Z.land x b = 0 -> has b (Z.lor x f) = has b f.
Proof. intros E. unfold has. by rewrite Z.land_lor_distr_l, E. Qed.

(** The file after a write is as usable as before. *)
Lemma written_usable s s2 cs cs' chunk : wrote s s2 cs cs' chunk -> usable s -> cltbl (file s) = None ->
  usable (modified s2) /\ map_ok (modified s2) cs' /\ cltbl (file (modified s2)) = None /\
  has FA_READ (flag (file (modified s2))) = has FA_READ (flag (file s)).
Proof.
  intros W (H1 & H2 & H3) Htbl. pose proof (wr_stub _ _ _ _ _ W) as Es. pose proof (has_stub 0 s s2 ltac:(lia) Es) as Hr.
  unfold stub in Es. injection Es as E1 E2 E3 E4 E5 E6 _.
  assert (Hn : cltbl (file (modified s2)) = None) by exact (eq_trans E4 Htbl). splits; [|by unfold map_ok; rewrite Hn|done|].
  - unfold usable. change (obj_fs (file s2) = true /\ obj_id (file s2) = fs_id s2 /\ err (file s2) = 0).
    by rewrite E1, E2, E3, (wr_id _ _ _ _ _ W).
  - exact (eq_trans (has_lor FA_READ FA_MODIFIED _ eq_refl) Hr).
Qed.

(** C10: What was written is read back.  On a drive that does not fail, [n] bytes are
    written at the file pointer, the pointer is moved back and as many bytes are read as
    were written: they are the bytes given, all of them unless the volume became full.
    It does not matter where sectors and clusters begin, which clusters the chain has and
    grows by, or what is in the buffer and what on the drive. *)
Theorem write_read s cs buff rbuff n : reliable D ->
  file_ok s cs -> usable s -> has FA_READ (flag (file s)) = true -> has FA_WRITE (flag (file s)) = true ->
  cltbl (file s) = None -> room (vol s) ->
  0 <= n <= Z.of_nat (length buff) -> n <= Z.of_nat (length rbuff) -> fptr (file s) + n < 2 ^ 32 ->
  Forall is_u8 buff -> Forall is_u8 rbuff ->
  exists bw s1 s2 rbuff' s3,
    f_write buff n s = Some (FR_OK, bw, s1) /\ 0 <= bw <= n /\ (bw < n -> full s1) /\
    f_lseek (fptr (file s)) s1 = Some (FR_OK, s2) /\
    f_read bw rbuff s2 = Some (FR_OK, bw, rbuff', s3) /\
    rbuff' = take (Z.to_nat bw) buff ++ drop (Z.to_nat bw) rbuff.
Proof.
  intros Hrel Hf Huse Hr Hw Htbl Hroom Hn Hlr Hlt Hu8 Hu8r. pose proof (po_ptr _ _ (proj2 Hf)) as Hp.
  destruct (f_write_ok s cs buff n Hf Huse Hw Htbl Hroom ltac:(lia) ltac:(lia) Hu8) as (r & bw & s1 & E1 & H1).
  destruct H1 as [(-> & Hbw & Hfull & s0 & cs' & chunk & -> & Hk & W)|[_ Hno]]; [|done].
  rewrite Z.min_l in Hbw, Hfull by lia. pose proof (peek_length _ _ _ _ Hk) as Hlc.
  destruct (written_usable _ _ _ _ _ W Huse Htbl) as (Huse1 & Hmap1 & Htbl1 & Hr1).
  destruct (modified_ok s0 cs' (wr_file _ _ _ _ _ W)) as (Hf1 & _ & Hct1).
  pose proof (wr_size _ _ _ _ _ W) as Ho1. change (objsize (file s0)) with (objsize (file (modified s0))) in Ho1.
  destruct (f_lseek_ok (modified s0) cs' (fptr (file s)) Hf1 Huse1 Hmap1) as (r & s2 & E2 & [[-> Hm2]|[_ Hno]]); [lia|done|lia| |done].
  rewrite Ho1, Z.min_l in Hm2 by lia. pose proof (mv_ptr _ _ _ _ Hm2) as Hp2. pose proof (moved_size _ _ _ _ Hm2) as Ho2.
  pose proof (mv_tail _ _ _ _ Hm2) as Ht. unfold tail in Ht. injection Ht as T1 T2 _ _ T5 _ _ _ T9.
  destruct (f_read_ok s2 cs' bw rbuff) as (r & br & rb & s3 & E3 & [(-> & -> & Hpk & _)|[_ Hno]]);
    [apply Hm2| | |by apply (moved_map _ _ _ _ Hm2)|lia|done| |done].
  - destruct Huse1 as (? & ? & ?). unfold usable. rewrite T1, T2, T5, (mv_id _ _ _ _ Hm2). done.
  - change FA_READ with (2 ^ 0) in *. rewrite <- (has_clear 0 (flag (file s2))), T9, (has_clear 0) by lia. exact (eq_trans Hr1 Hr).
  - rewrite Hp2, Ho2, Ho1, Z.min_l in E3, Hpk by lia. exists bw, (modified s0), s2, rb, s3.
    splits; [done|lia|lia|done|done|done|].
    rewrite (read_content s2 cs' rbuff rb (fptr (file s)) bw); [|lia|lia|rewrite Ho2, Ho1; lia|exact Hpk]. f_equal.
    rewrite (moved_content _ _ _ _ Hf1 Hm2), Hct1, (wrote_content _ _ _ _ _ Hf W).
    rewrite drop_app_length' by (unfold content; rewrite length_take, bytes_length; lia).
    rewrite take_app_length' by lia. by apply peek_Some in Hk as (_ & _ & _ & ->).
Qed.
End seek.
