(* ===== verification/FileSync.v ===== *)
(** * FileSync: a file is brought to the drive

    [f_sync] writes back the buffer, the directory entry, the window with the table in
    it and the FSInfo sector: then the drive alone holds the file. *)

From S2P Require Import Prelude FatWords Blocks Fat FatFacts FatChain FatCreate FatWindow File FileFacts FileRead FileWrite.

Section sync.
Context `{DL : DiskLaws D}.
Implicit Types (v : Vol D) (s : FileSys D) (cs : list Z).

(** ** The directory entry *)

Lemma arr_in (b : list Z) k : 0 <= k < Z.of_nat (length b) -> exists x, b.[k] = Some x.
Proof. apply arr_get_is_Some. Qed.

(** The entry says where the file starts and how long it is. *)
Definition entry_at (f : FATFS) (w : list Z) (dir cl size : Z) : Prop :=
  ld_dword w (dir + DIR_FileSize) = Some size /\ ld_word w (dir + DIR_FstClusLO) = Some (u16 cl) /\
  (fs_type f = FS_FAT32 -> ld_word w (dir + DIR_FstClusHI) = Some (u16 (Z.shiftr cl 16))).

Lemma word_bytes x : u8 x + 256 * u8 (Z.shiftr x 8) = u16 x.
Proof. rewrite Z.shiftr_div_pow2 by lia. unfold u8, u16. divs. Qed.

Lemma dword_bytes x : 0 <= x < 2 ^ 32 ->
  u8 x + 256 * u8 (Z.shiftr x 8) + 65536 * u8 (Z.shiftr x 16) + 16777216 * u8 (Z.shiftr x 24) = x.
Proof. intros Hx. rewrite !Z.shiftr_div_pow2 by lia. unfold u8. divs. Qed.

Lemma st_clust_at f w dir cl : 0 <= dir -> dir + 32 <= Z.of_nat (length w) ->
  exists w', st_clust f w dir cl = Some w' /\ length w' = length w /\ (Forall is_u8 w -> Forall is_u8 w') /\
    forall i, w'.[i] = if i =? dir + 26 then Some (u8 (u16 cl)) else if i =? dir + 27 then Some (u8 (Z.shiftr (u16 cl) 8))
      else if (fs_type f =? FS_FAT32) && (i =? dir + 20) then Some (u8 (u16 (Z.shiftr cl 16)))
      else if (fs_type f =? FS_FAT32) && (i =? dir + 21) then Some (u8 (Z.shiftr (u16 (Z.shiftr cl 16)) 8)) else w.[i].
Proof.
  intros Hd Hl. unfold st_clust, DIR_FstClusLO, DIR_FstClusHI.
  destruct (st_word_at w (dir + 26) (u16 cl)) as (w1 & -> & L1 & F1 & G1); [lia|lia|]. cbn [mbind option_bind].
  replace (dir + 26 + 1) with (dir + 27) in G1 by lia. destruct (fs_type f =? FS_FAT32); cbn [andb].
  - destruct (st_word_at w1 (dir + 20) (u16 (Z.shiftr cl 16))) as (w2 & -> & L2 & F2 & G2); [lia|lia|].
    replace (dir + 20 + 1) with (dir + 21) in G2 by lia. exists w2. splits; [done|lia|auto|].
    intros i. rewrite G2, G1. repeat zcase; try done; lia.
  - exists w1. splits; [done|done|done|exact G1].
Qed.

Lemma update_entry_ok f fp tm : sector (win f) -> 0 <= dir_ptr fp -> dir_ptr fp + 32 <= SS -> 0 <= objsize fp < 2 ^ 32 ->
  exists w, update_entry f fp tm = Some w /\ sector w /\ entry_at f w (dir_ptr fp) (sclust fp) (objsize fp) /\
    forall i, ~ (dir_ptr fp <= i < dir_ptr fp + 32) -> w.[i] = (win f).[i].
Proof.
  intros Hs Hd Hl Ho. unfold update_entry, DIR_Attr, DIR_FileSize, DIR_ModTime, DIR_LstAccDate. cbv zeta.
  pose proof Hs as [Hlen Hb]. unfold SS in *. set (dir := dir_ptr fp) in *.
  destruct (sector_byte (win f) (dir + 11) Hs ltac:(lia)) as (a & Ea & Ha). rewrite Ea. cbn [mbind option_bind].
  destruct (arr_set_at (win f) (dir + 11) (Z.lor a AM_ARC)) as (w1 & -> & L1 & F1 & G1); [lia|]. cbn [mbind option_bind].
  destruct (st_clust_at f w1 dir (sclust fp)) as (w2 & -> & L2 & F2 & G2); [lia|lia|]. cbn [mbind option_bind].
  destruct (st_dword_at w2 (dir + 28) (u32 (objsize fp))) as (w3 & -> & L3 & F3 & G3); [lia|lia|]. cbn [mbind option_bind].
  destruct (st_dword_at w3 (dir + 22) tm) as (w4 & -> & L4 & F4 & G4); [lia|lia|]. cbn [mbind option_bind].
  destruct (st_word_at w4 (dir + 18) 0) as (w5 & -> & L5 & F5 & G5); [lia|lia|]. exists w5.
  assert (Hlor : is_u8 (Z.lor a AM_ARC)).
  { unfold is_u8, AM_ARC in *. exact (lor_range 8 a 32 ltac:(lia) Ha ltac:(lia)). }
  assert (Hw5 : forall i, dir + 20 <= i < dir + 32 -> i <> dir + 22 -> i <> dir + 23 -> i <> dir + 24 -> i <> dir + 25 -> w5.[i] = w3.[i]).
  { intros i Hi ? ? ? ?. rewrite G5, G4. repeat zcase; try done; lia. }
  splits; [done| | |].
  - split; [lia|]. by apply F5, F4, F3, F2, F1.
  - unfold entry_at, DIR_FileSize, DIR_FstClusLO, DIR_FstClusHI. splits.
    + rewrite (ld_dword_eq w5 (dir + 28) (u8 (u32 (objsize fp))) (u8 (Z.shiftr (u32 (objsize fp)) 8))
        (u8 (Z.shiftr (u32 (objsize fp)) 16)) (u8 (Z.shiftr (u32 (objsize fp)) 24))); try apply u8_byte;
        try (rewrite Hw5 by lia; rewrite G3; repeat zcase; try done; lia).
      f_equal. rewrite dword_bytes by (apply u32_range). by apply u32_small.
    + rewrite (ld_word_eq w5 (dir + 26) (u8 (u16 (sclust fp))) (u8 (Z.shiftr (u16 (sclust fp)) 8))); try apply u8_byte;
        try (rewrite Hw5 by lia; rewrite G3, G2; repeat zcase; try done; lia).
      f_equal. rewrite word_bytes. unfold u16. by rewrite Z.mod_mod.
    + intros E. assert (E' : (fs_type f =? FS_FAT32) = true) by (by apply Z.eqb_eq). rewrite E' in G2. cbn [andb] in G2.
      rewrite (ld_word_eq w5 (dir + 20) (u8 (u16 (Z.shiftr (sclust fp) 16))) (u8 (Z.shiftr (u16 (Z.shiftr (sclust fp) 16)) 8))); try apply u8_byte;
        try (rewrite Hw5 by lia; rewrite G3, G2; repeat zcase; try done; lia).
      f_equal. rewrite word_bytes. unfold u16. by rewrite Z.mod_mod.
  - intros i Hi. rewrite G5, G4, G3, G2, G1. repeat zcase; try done; lia.
Qed.

(** ** The volume is brought to the drive *)

(** A clean window hides nothing. *)
Lemma clean_view v t : vol_ok v -> wflag (fs v) = 0 -> t < NO_SECTOR -> view v t = medium (dev v) t.
Proof.
  intros [_ _ _ Hf] Hw Ht. unfold view. destruct (t =? winsect (fs v)) eqn:E; zb; [|done].
  destruct Hf as [[_ [Hn|Hc]]|[Hf _]]; [lia|by rewrite E|lia].
Qed.

Lemma fsinfo_ok f : exists w, fsinfo f = Some w /\ sector w.
Proof.
  unfold fsinfo. assert (H0 : Forall is_u8 (replicate 512 0)) by (apply Forall_replicate; unfold is_u8; lia).
  destruct (st_word_at (replicate 512 0) 510 0xAA55) as (w1 & -> & L1 & F1 & _); [done|done|]. cbn [mbind option_bind].
  destruct (st_dword_at w1 0 0x41615252) as (w2 & -> & L2 & F2 & _); [done|by rewrite L1|]. cbn [mbind option_bind].
  destruct (st_dword_at w2 484 0x61417272) as (w3 & -> & L3 & F3 & _); [done|by rewrite L2, L1|]. cbn [mbind option_bind].
  destruct (st_dword_at w3 488 (free_clst f)) as (w4 & -> & L4 & F4 & _); [done|by rewrite L3, L2, L1|]. cbn [mbind option_bind].
  destruct (st_dword_at w4 492 (last_clst f)) as (w5 & -> & L5 & F5 & _); [done|by rewrite L4, L3, L2, L1|].
  exists w5. split; [done|]. split; [by rewrite L5, L4, L3, L2, L1|]. by apply F5, F4, F3, F2, F1.
Qed.

(** The sector of the FSInfo structure that is going to be written. *)
Definition info_sector (f : FATFS) (t : Z) : Prop :=
  fs_type f = FS_FAT32 /\ fsi_flag f = 1 /\ t = u32 (volbase f + 1).

(** The window is replaced by a sector that is written. *)
Lemma apart_write v w t d : vol_ok v -> wflag (fs v) = 0 -> sector w -> 0 <= t < NO_SECTOR ->
  (forall u, u <> t -> medium d u = medium (dev v) u) -> medium d t = w ->
  apart v (MkVol ((fs v) <| win := w |> <| winsect := t |> <| fsi_flag := 0 |>) d) (fun u => u = t).
Proof.
  intros Hv Hw Hs Ht Hm Hmt. constructor; [|done|done|done|].
  - destruct (vol_geo _ Hv). constructor; cbn; [by constructor|done|lia|]. left. split; [done|by right].
  - intros u Hu Hne. rewrite (clean_view v u Hv Hw) by apply Hu. rewrite <- Hm by done.
    unfold view. cbn. by replace (u =? t) with false by (symmetry; by apply Z.eqb_neq).
Qed.

Lemma sync_fs_ok v : vol_ok v -> (forall t, info_sector (fs v) t -> t < NO_SECTOR) ->
  exists r v', sync_fs v = Some (r, v') /\
    (r = FR_OK /\ apart v v' (info_sector (fs v)) /\ wflag (fs v') = 0 /\
       (winsect (fs v') = winsect (fs v) \/ info_sector (fs v) (winsect (fs v'))) \/
     (r = FR_OK \/ r = FR_DISK_ERR) /\ ~ reliable D).
Proof.
  intros Hv Hinfo. unfold sync_fs. destruct (sync_window_ok v Hv) as (r1 & v1 & E1 & K1 & Ew1 & _ & Hr1).
  rewrite (st_bind_eq _ _ _ _ _ E1). destruct Hr1 as [[-> Hf1]|[-> Hrel]].
  2: { exists FR_DISK_ERR, v1. split; [done|right]. split; [by right|done]. }
  cbn [Z.eqb FR_OK]. rewrite get_id_bind. pose proof K1 as (Hv1 & Hsame & _).
  assert (Hfi : fs_type (fs v1) = fs_type (fs v) /\ fsi_flag (fs v1) = fsi_flag (fs v) /\ volbase (fs v1) = volbase (fs v)).
  { unfold same in Hsame. by rewrite Hsame. }
  destruct Hfi as (Et & Ei & Eb).
  assert (Hend : forall v2, (apart v v2 (info_sector (fs v)) /\ wflag (fs v2) = 0 /\
      (winsect (fs v2) = winsect (fs v) \/ info_sector (fs v) (winsect (fs v2))) \/ ~ reliable D) ->
    exists r v', (r ← on_dev (disk_ctrl_sync (pdrv (fs v1))); mret (if negb (r =? RES_OK) then FR_DISK_ERR else FR_OK)) v2 = Some (r, v') /\
      (r = FR_OK /\ apart v v' (info_sector (fs v)) /\ wflag (fs v') = 0 /\
         (winsect (fs v') = winsect (fs v) \/ info_sector (fs v) (winsect (fs v'))) \/
       (r = FR_OK \/ r = FR_DISK_ERR) /\ ~ reliable D)).
  { intros v2 H2. destruct (sync_law (pdrv (fs v1)) (dev v2)) as (r3 & d3 & E3 & Hm3).
    rewrite (st_bind_eq _ _ _ _ _ (on_dev_eq _ _ _ _ E3)). eexists _, _. split; [reflexivity|].
    destruct (r3 =? RES_OK) eqn:Er; zb; cbn [negb].
    - destruct H2 as [(A2 & Hf2 & Hw2)|Hrel]; [left|right; split; [by left|done]]. splits; [done| |done|done].
      apply apart_trans with v2; [done|]. apply apart_kept. by apply kept_dev; [apply A2|].
    - right. split; [by right|]. intros Hrel. by apply Er, (reliable_sync _ Hrel _ _ _ _ E3). }
  destruct ((fs_type (fs v1) =? FS_FAT32) && (fsi_flag (fs v1) =? 1)) eqn:Ec; cbn [when].
  2: { rewrite (st_bind_eq _ _ v1 tt v1 eq_refl). apply Hend. left. splits; [by apply apart_kept|done|by left]. }
  apply andb_true_iff in Ec as [Ec1 Ec2]. zb. set (t := u32 (volbase (fs v1) + 1)).
  assert (Hit : info_sector (fs v) t) by (unfold info_sector, t; rewrite <- Et, <- Ei, <- Eb; done).
  pose proof (Hinfo t Hit) as Htl. pose proof (u32_range (volbase (fs v1) + 1)) as Htr. fold t in Htr.
  destruct (fsinfo_ok (fs v1)) as (w & Ew & Hsw).
  destruct (write_law (pdrv (fs v1)) w t (dev v1) Hsw) as (r2 & d2 & E2 & Hm2 & Hr2).
  set (v2 := MkVol ((fs v1) <| win := w |> <| winsect := t |> <| fsi_flag := 0 |>) d2).
  erewrite (st_bind_eq _ _ v1 tt v2).
  2: { rewrite Ew. rewrite (st_bind_eq (st_opt (Some w)) _ v1 w v1 eq_refl), upd_bind.
       rewrite (st_bind_eq _ _ _ r2 ((v1 <| fs ::= (fun fs => fs <| win := w |> <| winsect := t |>) |>) <| dev := d2 |>))
         by (by apply on_dev_eq). done. }
  apply Hend. destruct (decide (r2 = RES_OK)) as [Hok|Hno].
  2: { right. intros Hrel. by apply Hno, (reliable_write _ Hrel _ _ _ _ _ _ _ E2). }
  left. splits; [|done|by right]. apply apart_trans with v1; [by apply apart_kept|].
  apply apart_weaken with (fun u => u = t); [|by intros ? ->]. apply apart_write; try done; [lia|by apply Hr2].
Qed.

(** ** The file *)

(** The place of the directory entry, and of the FSInfo sector when that is going to be
    written: neither is in the table or in the file. *)
Record dir_place s cs : Prop := DirPlace {
  dp_data : data_sector (fs (vol s)) (dir_sect (file s));
  dp_file i : 0 <= i < span (fs (vol s)) cs -> dir_sect (file s) <> snum (fs (vol s)) cs i;
  dp_ptr : 0 <= dir_ptr (file s) /\ dir_ptr (file s) + 32 <= SS;
  dp_info t : info_sector (fs (vol s)) t -> data_sector (fs (vol s)) t /\ t <> dir_sect (file s) /\
    forall i, 0 <= i < span (fs (vol s)) cs -> t <> snum (fs (vol s)) cs i
}.

(** What a medium alone gives: the bytes in the sectors of a chain, and the table. *)
Definition stored (d : D) (f : FATFS) cs (n : Z) : list Z :=
  bytes (fun k => default 0 (medium d (snum f cs (k / SS))).[k mod SS]) 0 n.
Definition medium_entry (d : D) (f : FATFS) : Z -> Z :=
  entry_of (fs_type f) (fun k => default 0 (medium d (fatbase f + k / SS)).[k mod SS]).

Lemma medium_entry_clean v f c : vol_ok v -> wflag (fs v) = 0 -> stable f (fs v) -> cluster f c ->
  medium_entry (dev v) f c = entry v c.
Proof.
  intros Hv Hw Hst Hc. destruct (stable_fields _ _ Hst) as (Et & _ & Eb & _). apply (stable_cluster _ _ _ Hst) in Hc.
  assert (Hb : forall k, in_fat (fs v) k -> default 0 (medium (dev v) (fatbase f + k / SS)).[k mod SS] = fat_byte v k).
  { intros k Hk. destruct (fat_sector _ _ (vol_geo _ Hv) Hk) as [_ Hl]. unfold fat_byte. rewrite <- Eb.
    rewrite clean_view; [done|done|done|apply Hl]. }
  destruct (cluster_bytes _ _ (vol_geo _ Hv) Hc) as (_ & H12 & H16 & H32). unfold medium_entry, entry, entry_of. rewrite <- Et.
  destruct (vol_geo _ Hv) as [[E|[E|E]] _ _ _ _ _]; rewrite E; cbn [Z.eqb Pos.eqb FS_FAT12 FS_FAT16 FS_FAT32].
  - destruct (H12 E). cbn. by rewrite !Hb by done.
  - destruct (H16 E). cbn. by rewrite !Hb by done.
  - destruct (H32 E) as (? & ? & ? & ?). cbn. by rewrite !Hb by done.
Qed.

Lemma pos_quiet s s' cs : pos_ok s cs -> quiet s s' cs -> sect (file s') = sect (file s) -> pos_ok s' cs.
Proof.
  intros [Hp Hcl Hs] Q Es. pose proof (qu_head _ _ _ Q) as Hh. unfold head in Hh. injection Hh as _ _ _ Eo _ Ep Ec _ _ _ _.
  pose proof (fr_stable _ _ _ (qu_frame _ _ _ Q)) as Hst. destruct (stable_geometry _ _ Hst) as (Ez & _).
  constructor; rewrite ?Eo, ?Ep, ?Ec, ?Es, ?Ez; [done|done|].
  by destruct (stable_snum _ _ cs (fptr (file s) / SS) Hst) as [_ ->].
Qed.

(** The entry is changed in the window. *)
Lemma window_entry_ok v fp tm : vol_ok v -> winsect (fs v) = dir_sect fp -> dir_sect fp < NO_SECTOR ->
  0 <= dir_ptr fp /\ dir_ptr fp + 32 <= SS -> 0 <= objsize fp < 2 ^ 32 ->
  exists w, update_entry (fs v) fp tm = Some w /\
    let v' := v <| fs ::= (fun f => f <| win := w |> <| wflag := 1 |>) |> in
    apart v v' (fun t => t = dir_sect fp) /\ winsect (fs v') = dir_sect fp /\
    (forall t, info_sector (fs v') t <-> info_sector (fs v) t) /\
    entry_at (fs v) (view v' (dir_sect fp)) (dir_ptr fp) (sclust fp) (objsize fp) /\
    forall i, ~ (dir_ptr fp <= i < dir_ptr fp + 32) -> (view v' (dir_sect fp)).[i] = (view v (dir_sect fp)).[i].
Proof.
  intros Hv Hw Hl [Hd Hd'] Ho. pose proof Hv as [Hg Hwin Hs _].
  destruct (update_entry_ok (fs v) fp tm Hwin Hd Hd' Ho) as (w & E & Hsw & He & Hrest). exists w. split; [done|]. intros v'.
  assert (Ew : winsect (fs v') = dir_sect fp) by (by destruct v as [[] ?]).
  assert (Ev : view v (dir_sect fp) = win (fs v)) by (unfold view; by rewrite Hw, Z.eqb_refl).
  assert (Ev' : view v' (dir_sect fp) = w) by (unfold view; rewrite Ew, Z.eqb_refl; by destruct v as [[] ?]).
  rewrite Ev, Ev'. splits; [|done|by destruct v as [[] ?]|done|exact Hrest].
  constructor; [|by destruct v as [[] ?]|by destruct v as [[] ?]|by destruct v as [[] ?]|].
  - destruct v as [f d]. unfold v', set in *. destruct f; cbn in *. unfold set, settable in *. cbn in *.
    constructor; cbn; [by destruct Hg|done|lia|right; lia].
  - intros t _ Hne. unfold view. rewrite Ew, Hw. replace (t =? dir_sect fp) with false by (symmetry; by apply Z.eqb_neq).
    by destruct v as [[] ?].
Qed.

Lemma on_vol_upd {A} f (k : unit -> ST (FileSys D) A) s :
  (on_vol (upd f) ≫= k) s = k tt (s <| vol ::= (fun v => v <| fs ::= f |>) |>).
Proof. reflexivity. Qed.

(** What the drive gets. *)
Record synced s v' : Prop := Synced {
  sy_apart : apart (vol s) v' (fun t => t = dir_sect (file s) \/ info_sector (fs (vol s)) t);
  sy_clean : wflag (fs v') = 0;
  sy_win : winsect (fs v') = dir_sect (file s) \/ info_sector (fs (vol s)) (winsect (fs v'));
  sy_entry : entry_at (fs (vol s)) (view v' (dir_sect (file s))) (dir_ptr (file s)) (sclust (file s)) (objsize (file s));
  sy_rest i : ~ (dir_ptr (file s) <= i < dir_ptr (file s) + 32) ->
    (view v' (dir_sect (file s))).[i] = (view (vol s) (dir_sect (file s))).[i]
}.

Definition unmodified s : FileSys D := s <| file ::= set flag (clear FA_MODIFIED) |>.

Lemma sync_entry_ok s cs : core_ok s cs -> dir_place s cs ->
  exists r s', sync_entry s = Some (r, s') /\
    (r = FR_OK /\ (exists v', s' = unmodified (s <| vol := v' |> : FileSys D) /\ synced s v') \/
     (r = FR_OK \/ r = FR_DISK_ERR) /\ ~ reliable D).
Proof.
  intros Hc [Hdata Hfile Hptr Hinf]. pose proof (co_size _ _ Hc) as [Hsz _]. pose proof Hdata as [Hlive _]. pose proof Hlive as [Hds _].
  unfold sync_entry. rewrite fil_bind. unfold id. cbv zeta. set (p := dir_sect (file s)) in *.
  destruct (move_window_ok (vol s) p (co_vol _ _ Hc) Hds) as (r & v3 & E3 & K3 & Hr3).
  rewrite (st_bind_eq _ _ _ _ _ (on_vol_eq _ _ _ _ E3)). destruct Hr3 as [[-> Hw3]|[-> Hrel]].
  2: { eexists _, _. split; [reflexivity|right]. split; [by right|done]. }
  cbn [Z.eqb negb FR_OK]. rewrite fatfs_bind. pose proof K3 as (Hv3 & Hsame & Hview3).
  assert (Hi3 : forall t, info_sector (fs v3) t <-> info_sector (fs (vol s)) t) by (intros t; by rewrite Hsame).
  pose proof (same_stable _ _ Hsame) as Hst3. destruct (stable_fields _ _ Hst3) as (Et3 & _).
  destruct (window_entry_ok v3 (file s) get_fattime Hv3 Hw3 (proj2 Hds) Hptr Hsz) as (w & Ew & A4 & Hw4 & Hi4 & He4 & Hrest4).
  match goal with |- context [update_entry ?f (file s) get_fattime] => change f with (fs v3) end. rewrite Ew.
  rewrite (st_bind_eq (st_opt (Some w)) _ _ w _ eq_refl). set (v4 := v3 <| fs ::= _ |>) in *.
  rewrite on_vol_upd.
  assert (Hinfo : forall t, info_sector (fs v4) t -> t < NO_SECTOR).
  { intros t Ht. apply Hi4, Hi3, Hinf in Ht as ([[Hb _] _] & _). apply Hb. }
  destruct (sync_fs_ok v4 (ap_ok _ _ _ A4) Hinfo) as (r & v5 & E5 & Hr5).
  erewrite st_bind_eq by (apply on_vol_eq; exact E5). rewrite upd_fil_bind.
  eexists _, _. split; [reflexivity|]. destruct Hr5 as [(-> & A5 & Hf5 & Hw5)|Hr5]; [left|by right]. split; [done|].
  exists v5. split; [done|]. pose proof (ap_stable _ _ _ A4) as Hst4.
  assert (Hp5 : view v5 p = view v4 p).
  { apply (ap_view _ _ _ A5); [by apply (stable_live _ _ _ Hst4), (stable_live _ _ _ Hst3)|].
    intros Ht. apply Hi4, Hi3, Hinf in Ht as (_ & Hne & _). by apply Hne. }
  constructor; fold p; [|done| | |].
  - apply apart_trans with v3; [by apply apart_kept|]. apply apart_trans with v4.
    + apply (apart_weaken _ _ _ _ A4). intros t ->. by left.
    + apply (apart_weaken _ _ _ _ A5). intros t Ht. right. by apply Hi3, Hi4.
  - destruct Hw5 as [->|Hw5]; [by left|right; by apply Hi3, Hi4].
  - rewrite Hp5. unfold entry_at in *. by rewrite <- Et3.
  - intros i Hi. rewrite Hp5, Hrest4 by done. by rewrite <- (Hview3 p Hlive).
Qed.

Lemma quiet_place s s' cs : quiet s s' cs -> fsi_flag (fs (vol s')) = fsi_flag (fs (vol s)) -> dir_place s cs -> dir_place s' cs.
Proof.
  intros Q Ei [Hdata Hfile Hptr Hinf]. pose proof (qu_head _ _ _ Q) as Hh. unfold head in Hh. injection Hh as _ _ _ _ _ _ _ _ Es Ep _.
  pose proof (fr_stable _ _ _ (qu_frame _ _ _ Q)) as Hst. destruct (stable_fields _ _ Hst) as (Et & _).
  assert (Hsn : forall i, span (fs (vol s')) cs = span (fs (vol s)) cs /\ snum (fs (vol s')) cs i = snum (fs (vol s)) cs i)
    by (intros i; by apply stable_snum).
  assert (Ev : volbase (fs (vol s')) = volbase (fs (vol s))) by (revert Hst; unfold stable, geometry; by intros [=]).
  assert (Hi : forall t, info_sector (fs (vol s')) t <-> info_sector (fs (vol s)) t) by (intros t; unfold info_sector; by rewrite Et, Ei, Ev).
  constructor; rewrite ?Es, ?Ep; [by apply (stable_data _ _ _ Hst)| |done|].
  - intros i. destruct (Hsn i) as [-> ->]. apply Hfile.
  - intros t Ht. apply Hi, Hinf in Ht as (? & ? & Hn). splits; [by apply (stable_data _ _ _ Hst)|done|].
    intros i. destruct (Hsn i) as [-> ->]. apply Hn.
Qed.

Lemma unmodified_ok s cs : file_ok s cs ->
  file_ok (unmodified s) cs /\ frame s (unmodified s) cs /\ content (unmodified s) cs = content s cs.
Proof.
  intros Hf. apply (reflag_ok s cs (clear FA_MODIFIED) Hf). unfold has, clear, FA_MODIFIED, FA_DIRTY.
  by rewrite <- Z.land_assoc.
Qed.

Lemma unmodified_clear s : has FA_MODIFIED (flag (file (unmodified s))) = false.
Proof. unfold unmodified, has, clear, FA_MODIFIED. cbn. by rewrite <- Z.land_assoc, Z.land_0_r. Qed.

Lemma place_beside s cs : dir_place s cs -> beside s cs (fun t => t = dir_sect (file s) \/ info_sector (fs (vol s)) t).
Proof.
  intros [[_ Hd] Hf _ Hi] t [->|Ht]; [by split|]. apply Hi in Ht as ([_ ?] & _ & ?). by split.
Qed.

(** The drive alone gives the content of a file whose buffer is clean. *)
Lemma stored_content s cs : core_ok s cs -> dirty (file s) = false ->
  stored (dev (vol s)) (fs (vol s)) cs (objsize (file s)) = content s cs.
Proof. intros Hc Hd. unfold stored, content. apply bytes_ext. intros j _. unfold fbyte, cached. by rewrite Hd. Qed.

Lemma stored_stable d f g cs n : stable f g -> stored d g cs n = stored d f cs n.
Proof.
  intros Hst. unfold stored. apply bytes_ext. intros k _. by destruct (stable_snum _ _ cs (k / SS) Hst) as [_ ->].
Qed.

(** After the drive got everything, the file is what it was. *)
Lemma synced_ok s v' cs : file_ok s cs -> dirty (file s) = false -> dir_place s cs -> synced s v' ->
  let s' := s <| vol := v' |> : FileSys D in
  file_ok s' cs /\ content s' cs = content s cs /\ (room (vol s) -> room v').
Proof.
  intros [Hc Hpos] Hd Hplace Y s'. pose proof (place_beside s cs Hplace) as HX. pose proof (sy_apart _ _ Y) as A.
  destruct (apart_core s cs v' _ Hc A HX) as (Hc' & Hroom & Hmed).
  { intros i Hi. apply (HX (winsect (fs v'))); [|done]. exact (sy_win _ _ Y). }
  pose proof (ap_stable _ _ _ A) as Hst. destruct (stable_geometry _ _ Hst) as (Ez & _). splits; [| |done].
  - split; [exact Hc'|]. destruct Hpos as [Hp Hcl Hs]. constructor; cbn; rewrite ?Ez; [done|done|].
    by destruct (stable_snum _ _ cs (fptr (file s) / SS) Hst) as [_ ->].
  - unfold content. apply bytes_ext. intros k Hk. unfold fbyte, cached. change (file s') with (file s).
    change (fs (vol s')) with (fs v'). change (dev (vol s')) with (dev v'). rewrite Hd. cbn [andb].
    destruct (stable_snum _ _ cs (k / SS) Hst) as [_ ->]. rewrite Hmed; [done|].
    pose proof (co_size _ _ Hc) as [_ Hsz]. unfold SS in *. change (objsize (file s')) with (objsize (file s)) in Hk. divs.
Qed.

(** C13: Bringing a file to the drive.  [f_sync] on a file that has been modified always
    returns, and unless the drive fails it needs no memory any more: the bytes on the
    drive in the sectors of the chain are the content of the file, the directory entry
    on the drive has its first cluster and its size, the table on the drive links the
    chain and has the other entries as they were, and neither the rest of the directory
    sector nor any sector but those, the table and FSInfo has changed.  The file goes on
    as before, with the mark of a modification gone. *)
Theorem f_sync_spec s cs : file_ok s cs -> obj_fs (file s) = true -> obj_id (file s) = fs_id s ->
  has FA_MODIFIED (flag (file s)) = true -> dir_place s cs ->
  let f := fs (vol s) in let fp := file s in
  exists r s', f_sync s = Some (r, s') /\
    (r = FR_OK /\ file_ok s' cs /\ content s' cs = content s cs /\ has FA_MODIFIED (flag (file s')) = false /\
       (let d := dev (vol s') in
        stored d f cs (objsize fp) = content s cs /\
        entry_at f (medium d (dir_sect fp)) (dir_ptr fp) (sclust fp) (objsize fp) /\
        (sclust fp = 0 /\ cs = [] \/ linked (medium_entry d f) (n_fatent f) (sclust fp) cs) /\
        (forall c, cluster f c -> c ∉ cs -> medium_entry d f c = entry (vol s) c) /\
        (forall i, ~ (dir_ptr fp <= i < dir_ptr fp + 32) -> (medium d (dir_sect fp)).[i] = (view (vol s) (dir_sect fp)).[i]) /\
        (forall t, data_sector f t -> (forall i, 0 <= i < span f cs -> t <> snum f cs i) -> t <> dir_sect fp ->
           ~ info_sector f t -> medium d t = view (vol s) t)) \/
     (r = FR_OK \/ r = FR_DISK_ERR \/ r = FR_INVALID_OBJECT) /\ ~ reliable D).
Proof.
  intros Hf Hofs Hid Hmod Hplace f fp. pose proof Hf as [Hc Hpos]. unfold f_sync.
  destruct (validate_ok s cs Hc Hofs Hid) as (r & s1 & E1 & Ef1 & [[-> Q1]|[-> Hrel]]); rewrite (st_bind_eq _ _ _ _ _ E1).
  2: { eexists _, _. split; [reflexivity|right]. by split; [right; right|]. }
  cbn [Z.eqb negb FR_OK]. rewrite fil_bind. unfold id. rewrite Ef1, Hmod. cbn [negb].
  destruct (flush_ok s1 cs (qu_core _ _ _ Q1)) as (r & s2 & E2 & [(-> & Q2 & Hd2 & Es2)|[-> Hrel]]); rewrite (st_bind_eq _ _ _ _ _ E2).
  2: { eexists _, _. split; [reflexivity|right]. by split; [right; left|]. }
  cbn [Z.eqb negb FR_OK]. pose proof (quiet_trans _ _ _ _ Q1 Q2) as Q. rewrite Ef1 in Es2.
  pose proof (quiet_place _ _ _ Q (qu_info _ _ _ Q) Hplace) as Hplace2.
  assert (Hf2 : file_ok s2 cs) by (split; [apply Q|by apply (pos_quiet s)]).
  destruct (sync_entry_ok s2 cs (proj1 Hf2) Hplace2) as (r & s' & E3 & Hr). exists r, s'. split; [exact E3|].
  destruct Hr as [(-> & v' & -> & Y)|[Hr Hrel]]; [left|right; split; [|done]; tauto].
  destruct (synced_ok s2 v' cs Hf2 Hd2 Hplace2 Y) as (Hf5 & Hct5 & _).
  destruct (unmodified_ok _ _ Hf5) as (Hf6 & _ & Hct6). pose proof (qu_head _ _ _ Q) as Hh. unfold head in Hh.
  injection Hh as _ _ Hsc Hos _ _ _ _ Hds Hdp _. fold fp in Hsc, Hos, Hds, Hdp.
  pose proof (fr_stable _ _ _ (qu_frame _ _ _ Q)) as Hst. fold f in Hst. pose proof (sy_apart _ _ Y) as A.
  pose proof (stable_trans _ _ _ Hst (ap_stable _ _ _ A)) as Hst5. destruct (stable_fields _ _ Hst5) as (_ & _ & _ & _ & En5).
  assert (Hcont : content s2 cs = content s cs).
  { unfold content. rewrite Hos. apply bytes_ext. intros k Hk. apply (quiet_fbyte s s2); [done|]. pose proof (co_size _ _ Hc). lia. }
  assert (Hview : forall t, t < NO_SECTOR -> view v' t = medium (dev v') t) by (intros t; apply clean_view; [apply A|apply Y]).
  assert (Hent : forall c, cluster f c -> medium_entry (dev v') f c = entry v' c)
    by (intros c; apply medium_entry_clean; [apply A|apply Y|done]).
  assert (Hdt : data_sector f (dir_sect fp)) by apply Hplace. pose proof Hdt as [[[_ Hdn] _] _].
  splits; [done|exact Hf6|by rewrite Hct6, Hct5|apply unmodified_clear| | | | | |].
  - rewrite <- Hcont, <- Hct5, <- Hos, <- (stored_stable _ _ _ _ _ Hst5). exact (stored_content _ cs (proj1 Hf5) Hd2).
  - pose proof (sy_entry _ _ Y) as He. rewrite Hds, Hdp, Hsc, Hos, Hview in He by done. unfold entry_at in *.
    by destruct (stable_fields _ _ Hst) as (<- & _).
  - destruct (co_chain _ _ (proj1 Hf5)) as [Hnil|Hl]; [left|right]; cbn in *.
    + by rewrite <- Hsc.
    + rewrite <- Hsc, <- En5. apply linked_ext with (entry v'); [|done]. intros a Ha. apply Hent.
      pose proof (core_clusters _ _ Hc) as HF. unfold clusters in HF. rewrite List.Forall_forall in HF. by apply HF.
  - intros c Hcl Hn. rewrite Hent by done. rewrite (apart_entry _ _ _ c (co_vol _ _ (proj1 Hf2)) A).
    + by apply Q.
    + intros t Ht. by apply (place_beside _ _ Hplace2).
    + by apply (stable_cluster _ _ _ Hst).
  - intros i Hi. change (vol (unmodified _)) with v'. pose proof (sy_rest _ _ Y i) as Hr. rewrite Hds, Hdp, Hview in Hr by done.
    rewrite Hr by done. by rewrite (fr_view _ _ _ (qu_frame _ _ _ Q)) by (done || apply Hplace).
  - intros t Ht Hi Hne Hno. change (vol (unmodified _)) with v'. destruct Ht as [Hlive Htab]. rewrite <- Hview by apply Hlive.
    rewrite (ap_view _ _ _ A); [by apply Q|by apply (stable_live _ _ _ Hst)|].
    rewrite Hds. intros [->|Hin]; [done|]. apply Hno. unfold info_sector in *. rewrite (qu_info _ _ _ Q) in Hin.
    destruct (stable_fields _ _ Hst) as (Et & _). fold f in Hin. rewrite Et in Hin.
    by replace (volbase (fs (vol s2))) with (volbase f) in Hin by (revert Hst; unfold stable, geometry; by intros [=]).
Qed.
End sync.
