(* ===== verification/FatChecks.v ===== *)
(** * FatChecks: the table on a drive in memory

    The contract of a drive holds of a medium in memory that never fails, and the
    theorems about the table and its chains hold on concrete volumes in it. *)

From S2P Require Import Prelude FatWords Blocks Fat FatFacts FatChain FatCreate.

(** ** A drive in memory *)

Definition is_sector (b : list Z) : bool :=
  bool_decide (length b = 512%nat) && forallb (fun x => (0 <=? x) && (x <? 256)) b.

Lemma is_sector_spec b : is_sector b = true <-> sector b.
Proof.
  unfold is_sector, sector. rewrite andb_true_iff, bool_decide_eq_true, forallb_forall, List.Forall_forall.
  split; intros [Hl Hb]; (split; [done|]); intros x Hx; specialize (Hb x Hx); unfold is_u8 in *.
  - zb. lia.
  - by repeat ztest.
Qed.

(** The sectors that were written; the others are zero. *)
Definition ram : Type := gmap Z (list Z).

Definition ram_sector (d : ram) (s : Z) : list Z :=
  match d !! s with
  | Some b => if is_sector b then b else replicate 512 0
  | None => replicate 512 0
  end.

(** [n] sectors from [s]. *)
Definition ram_read (d : ram) (s n : Z) : list Z := flat_map (fun i => ram_sector d (s + i)) (seqZ 0 n).

Fixpoint ram_write (d : ram) (s : Z) (n : nat) (b : list Z) : ram :=
  match n with
  | O => d
  | S n' => <[s := take 512 b]> (ram_write d (s + 1) n' (drop 512 b))
  end.

#[export] Instance ram_disk : Disk ram := {
  disk_initialize _ d := Some (0, d);
  disk_status _ d := Some (0, d);
  disk_read _ _ s n d := Some (RES_OK, ram_read d s n, d);
  disk_write _ b s n d := Some (RES_OK, ram_write d s (Z.to_nat n) b);
  disk_ctrl_sync _ d := Some (RES_OK, d)
}.

Lemma zero_sector : sector (replicate 512 0).
Proof. by apply is_sector_spec. Qed.

Lemma ram_sector_ok d s : sector (ram_sector d s).
Proof.
  unfold ram_sector. destruct (d !! s) as [b|]; [|apply zero_sector].
  destruct (is_sector b) eqn:E; [by apply is_sector_spec|apply zero_sector].
Qed.

Lemma ram_read_spec d s n : 0 <= n ->
  Z.of_nat (length (ram_read d s n)) = SS * n /\ Forall is_u8 (ram_read d s n) /\
  forall i, 0 <= i < n -> peek (ram_read d s n) (SS * i) SS = Some (ram_sector d (s + i)).
Proof.
  intros Hn. apply natlike_ind with (P := fun n => Z.of_nat (length (ram_read d s n)) = SS * n /\
    Forall is_u8 (ram_read d s n) /\
    forall i, 0 <= i < n -> peek (ram_read d s n) (SS * i) SS = Some (ram_sector d (s + i))); [..|exact Hn].
  - splits; [done|constructor|lia].
  - clear n Hn. intros n Hn (Hl & Hb & Hp). destruct (ram_sector_ok d (s + n)) as [Hl1 Hb1].
    assert (E : ram_read d s (Z.succ n) = ram_read d s n ++ ram_sector d (s + n)).
    { unfold ram_read. rewrite <- Z.add_1_r, seqZ_app, flat_map_app by lia. f_equal.
      change (seqZ (0 + n) 1) with [n]. cbn [flat_map]. apply app_nil_r. }
    rewrite E, length_app. unfold SS in *. splits; [lia|by apply Forall_app_2|].
    intros i Hi. apply peek_Some. rewrite length_app. splits; [lia..|].
    destruct (decide (i = n)) as [->|Hne].
    + rewrite drop_app_length' by lia. by rewrite take_ge by lia.
    + destruct (proj1 (peek_Some _ _ _ _) (Hp i ltac:(lia))) as (_ & _ & ? & ->).
      rewrite drop_app_le by lia. rewrite take_app_le by (rewrite length_drop; lia). done.
Qed.

Lemma ram_write_spec n : forall d s b, length b = (512 * n)%nat -> Forall is_u8 b ->
  (forall t, ~ (s <= t < s + Z.of_nat n) -> ram_sector (ram_write d s n b) t = ram_sector d t) /\
  forall i, 0 <= i < Z.of_nat n -> peek b (SS * i) SS = Some (ram_sector (ram_write d s n b) (s + i)).
Proof.
  induction n as [|n IH]; intros d s b Hl Hb; [by split; [|lia]|]. cbn [ram_write].
  destruct (IH d (s + 1) (drop 512 b)) as [IH1 IH2]; [rewrite length_drop; lia|by apply Forall_drop|].
  set (d' := ram_write d (s + 1) n (drop 512 b)) in *.
  assert (Hne : forall t, t <> s -> ram_sector (<[s := take 512 b]> d') t = ram_sector d' t).
  { intros t Ht. unfold ram_sector, ram. by rewrite lookup_insert_ne by done. }
  split.
  - intros t Ht. rewrite Hne by lia. apply IH1. lia.
  - intros i Hi. destruct (decide (i = 0)) as [->|Hi0].
    + rewrite Z.add_0_r, peek_range by (unfold SS; lia). unfold ram_sector, ram. rewrite lookup_insert_eq.
      unfold SS. change (Z.to_nat 512) with 512%nat. change (Z.to_nat (512 * 0)) with 0%nat. rewrite drop_0.
      replace (is_sector (take 512 b)) with true; [done|]. symmetry. apply is_sector_spec. split; [rewrite length_take; lia|by apply Forall_take].
    + specialize (IH2 (i - 1) ltac:(lia)). rewrite Hne by lia. replace (s + i) with (s + 1 + (i - 1)) by lia. rewrite <- IH2.
      unfold SS. rewrite !peek_range by (rewrite ?length_drop; lia). rewrite drop_drop. do 3 f_equal. lia.
Qed.

#[export] Instance ram_laws : DiskLaws ram.
Proof.
  refine {| medium := ram_sector |}.
  - exact ram_sector_ok.
  - intros p d. by exists 0, d.
  - intros p d. by exists 0, d.
  - intros p b s n d Hn Hl Hb. destruct (ram_read_spec d s n) as (Hl' & Hb' & Hp); [lia|].
    exists RES_OK, (ram_read d s n), d. splits; [done|lia|done|done|done].
  - intros p b s n d Hn Hl Hb. destruct (ram_write_spec (Z.to_nat n) d s b) as [H1 H2]; [unfold SS in *; lia|done|].
    exists RES_OK, (ram_write d s (Z.to_nat n) b). splits; [done| |].
    + intros t Ht. apply H1. lia.
    + intros _ i Hi. apply H2. lia.
  - intros p d. by exists RES_OK, d.
Defined.

Lemma ram_reliable : reliable ram.
Proof. constructor; [by intros ? ? ? ? [= <- _]|by intros ? ? ? ? [= <- _]|by intros ? ? ? ? ? ? ? ? [= <- _ _]|by intros ? ? ? ? ? ? ? [= <- _]|by intros ? ? ? ? [= <- _]]. Qed.

(** ** Volumes *)

(** A freshly formatted volume with two copies of a table of two sectors. *)
Definition fresh (type n : Z) : Vol ram :=
  MkVol (MkFATFS type 2 2 0 0 560 1 0 (n - 2) n 2 0 1 5 40 0xFFFFFFFF (replicate 512 0)) ∅.

Lemma fresh_ok type n : type = FS_FAT12 \/ type = FS_FAT16 \/ type = FS_FAT32 ->
  2 <= n <= end_of_chain type -> table_bytes type n <= 1024 -> vol_ok (fresh type n).
Proof.
  intros Ht Hn Hb. constructor; cbn; [|exact zero_sector|unfold NO_SECTOR; lia|left; split; [done|by left]].
  constructor; cbn; [done|lia|lia|lia|done|unfold SS; lia].
Qed.

(** Entry 341 of a twelve-bit table is in bytes 511 and 512, the last of one sector and
    the first of the next. *)
Example fat_roundtrip_witness :
  exists v', put_fat 341 0xABC (fresh FS_FAT12 400) = Some (FR_OK, v') /\
    exists y v'', get_fat 341 v' = Some (y, v'') /\ y = 0xABC.
Proof.
  destruct (fat_roundtrip (fresh FS_FAT12 400) 341 0xABC) as (r & v' & E & _ & _ & _ & [[-> (y & v'' & E' & _ & Hy)]|[_ Hn]]).
  - apply fresh_ok; [by left|vm_compute; split; discriminate|vm_compute; discriminate].
  - vm_compute. split; [discriminate|done].
  - exists v'. split; [exact E|]. exists y, v''. split; [exact E'|].
    destruct Hy as [Hy|[_ Hn]]; [exact Hy|]. destruct (Hn ram_reliable).
  - destruct (Hn ram_reliable).
Defined.

(** A sixteen-bit table from its entries, in the window and not yet on the drive. *)
Definition table16 (es : list Z) : list Z :=
  take 512 (flat_map (fun e => [e mod 256; e / 256]) es ++ replicate 512 0).

Definition loaded (es : list Z) (last free n : Z) : Vol ram :=
  MkVol (MkFATFS FS_FAT16 2 2 1 0 560 1 last free n 2 0 1 5 40 1 (table16 es)) ∅.

Lemma loaded_ok es last free n : is_sector (table16 es) = true -> 2 <= n <= 512 -> vol_ok (loaded es last free n).
Proof.
  intros Hs Hn. constructor; cbn; [|by apply is_sector_spec|unfold NO_SECTOR; lia|right; split; [done|unfold NO_SECTOR; lia]].
  constructor; cbn; [tauto|lia|lia|lia|lia|unfold SS, table_bytes; cbn; lia].
Qed.

(** The chain 2, 5, 3 among twenty clusters. *)
Definition chained : Vol ram := loaded [0xFFF8; 0xFFFF; 5; 0xFFFF; 0; 3] 3 15 20.

Lemma chained_ok : vol_ok chained.
Proof. apply loaded_ok; [vm_compute; reflexivity|lia]. Qed.

Lemma chained_sane : sane chained.
Proof.
  intros c Hc. assert (Ha : forallb (fun c => negb (entry chained c =? 1)) (seqZ 2 18) = true) by (vm_compute; reflexivity).
  rewrite forallb_forall in Ha. specialize (Ha c). rewrite <- list_elem_of_In, elem_of_seqZ in Ha.
  unfold cluster in Hc. cbn in Hc. specialize (Ha ltac:(lia)). by zb.
Qed.

(** Cutting the chain after its first cluster. *)
Example remove_chain_frees_witness :
  exists v', remove_chain 5 2 chained = Some (FR_OK, v') /\
    entry v' 2 = 0xFFFF /\ entry v' 5 = 0 /\ entry v' 3 = 0.
Proof.
  destruct (remove_chain_frees chained 5 2 [5; 3]) as (r & v' & E & _ & [[-> He]|(_ & Hn & _)]).
  - exact chained_ok.
  - vm_compute. discriminate.
  - cbn. repeat split; vm_compute; (reflexivity || discriminate).
  - repeat constructor; set_solver.
  - right. split; [vm_compute; split; [discriminate|done]|set_solver].
  - exists v'. split; [exact E|]. rewrite !He by (vm_compute; split; [discriminate|done]). vm_compute. tauto.
  - destruct (Hn ram_reliable).
Defined.

(** A cycle of two clusters is freed. *)
Definition cyclic : Vol ram := loaded [0xFFF8; 0xFFFF; 3; 2] 3 16 20.

Example remove_chain_ends_witness :
  exists r v', remove_chain 2 0 cyclic = Some (r, v') /\ count_ok v' /\ r = FR_OK.
Proof.
  destruct (remove_chain_ends cyclic 2 0) as (r & v' & E & _ & [[_ Hn]|(_ & Hc & _)]).
  - apply loaded_ok; [vm_compute; reflexivity|lia].
  - vm_compute. discriminate.
  - vm_compute. split; [discriminate|done].
  - by left.
  - destruct (Hn ram_reliable).
  - exists r, v'. split; [exact E|]. split; [apply Hc; left; vm_compute; reflexivity|].
    assert (Er : fst <$> remove_chain 2 0 cyclic = Some FR_OK) by (vm_compute; reflexivity).
    rewrite E in Er. by injection Er.
Defined.

(** The chain is stretched by the cluster after its end, which is free. *)
Example create_chain_spec_witness :
  exists v', create_chain 3 chained = Some (4, v') /\ linked (entry v') 20 2 [2; 5; 3; 4].
Proof.
  assert (Er : fst <$> create_chain 3 chained = Some 4) by (vm_compute; reflexivity).
  destruct (create_chain 3 chained) as [[r v']|] eqn:E; [|discriminate Er]. injection Er as ->.
  exists v'. split; [reflexivity|].
  destruct (create_chain_spec chained 3) as [_ H].
  - exact chained_ok.
  - split; [apply chained_sane|]. split; [vm_compute; discriminate|]. split; [left; vm_compute; reflexivity|].
    split; [vm_compute; discriminate|]. right. split; [vm_compute; split; [discriminate|done]|vm_compute; discriminate].
  - apply (H 4 v' 2 [2; 5]); [exact E|vm_compute; split; [discriminate|done]| |repeat constructor; set_solver].
    cbn. repeat split; vm_compute; (reflexivity || discriminate).
Defined.
