(* ===== verification/FileChecks.v ===== *)
(** * FileChecks: a file on a drive in memory

    The theorems about files hold of a file of three clusters on a concrete volume, open
    for reading and writing, whose buffer has not been written back; and a volume of 128
    sectors is mounted from its boot sector. *)

From S2P Require Import Prelude FatWords Blocks Fat FatFacts FatChain FatCreate FatWindow File Mount FileFacts MountFacts FileRead FileWrite FileSeek FileSync FatChecks.

(** The volume of the chain 2, 5, 3 with data in the sector of cluster 5. *)
Definition filled : Vol ram := chained <| dev := <[43 := replicate 512 65]> ∅ |>.

(** A file of 520 bytes with the pointer at 508; the bytes of its first sector are only
    in the buffer. *)
Definition opened : FileSys ram :=
  MkFileSys filled 7 (MkFIL true 7 2 520 (FA_READ + FA_WRITE + FA_DIRTY) 0 508 2 40 60 32 None (replicate 512 66)).

Lemma filled_ok : vol_ok filled.
Proof. destruct chained_ok. by constructor. Qed.

Lemma filled_room : room filled.
Proof.
  unfold room. splits; [|vm_compute; discriminate|left; vm_compute; reflexivity|vm_compute; discriminate].
  intros c Hc. assert (Ha : forallb (fun c => negb (entry filled c =? 1)) (seqZ 2 18) = true) by (vm_compute; reflexivity).
  rewrite forallb_forall in Ha. specialize (Ha c). rewrite <- list_elem_of_In, elem_of_seqZ in Ha.
  unfold cluster in Hc. cbn in Hc. specialize (Ha ltac:(lia)). by zb.
Qed.

Lemma opened_file : file_ok opened [2; 5; 3].
Proof.
  assert (Hspan : span (fs (vol opened)) [2; 5; 3] = 3) by (vm_compute; reflexivity).
  split; constructor; rewrite ?Hspan.
  - exact filled_ok.
  - constructor; [exists 0; vm_compute; by splits|right; done|vm_compute; discriminate|vm_compute; discriminate].
  - right. cbn. repeat split; vm_compute; (reflexivity || discriminate).
  - repeat constructor; set_solver.
  - vm_compute. repeat split; discriminate.
  - apply is_sector_spec. vm_compute. reflexivity.
  - intros _. exists 0. split; [lia|vm_compute; reflexivity].
  - intros i Hd. discriminate Hd.
  - intros i Hi. assert (i = 0 \/ i = 1 \/ i = 2) as [->|[->| ->]] by lia; vm_compute; discriminate.
  - vm_compute. split; discriminate.
  - intros _. vm_compute. reflexivity.
  - intros _. vm_compute. reflexivity.
Qed.

Lemma opened_usable : usable opened.
Proof. by splits. Qed.

(** Four bytes from the buffer and six from the drive. *)
Example f_read_spec_witness :
  exists s', f_read 10 (replicate 12 0) opened = Some (FR_OK, 10, replicate 4 66 ++ replicate 6 65 ++ [0; 0], s') /\
    content s' [2; 5; 3] = content opened [2; 5; 3].
Proof.
  destruct (f_read_spec opened [2; 5; 3] 10 (replicate 12 0)) as (r & br & b & s' & E & [(-> & -> & -> & _ & _ & Hc & _)|[_ Hn]]).
  - exact opened_file.
  - exact opened_usable.
  - reflexivity.
  - exact I.
  - cbn. lia.
  - by repeat constructor.
  - exists s'. split; [|exact Hc]. revert E. unfold content.
    rewrite bytes_drop, bytes_take by (cbn; lia). intros E. rewrite E. vm_compute. reflexivity.
  - destruct (Hn ram_reliable).
Defined.

(** Ten bytes over the end of a sector. *)
Example f_write_spec_witness :
  exists s', f_write (seqZ 1 10) 10 opened = Some (FR_OK, 10, s') /\
    content s' [2; 5; 3] =
      take 508 (content opened [2; 5; 3]) ++ seqZ 1 10 ++ drop 518 (content opened [2; 5; 3]).
Proof.
  assert (Er : fst <$> f_write (seqZ 1 10) 10 opened = Some (FR_OK, 10)) by (vm_compute; reflexivity).
  destruct (f_write_spec opened [2; 5; 3] (seqZ 1 10) 10)
    as (r & bw & s' & E & [(_ & _ & _ & (ext & _ & _ & _ & Hneed & Hc) & _)|[_ Hn]]).
  - exact opened_file.
  - exact opened_usable.
  - reflexivity.
  - reflexivity.
  - exact filled_room.
  - lia.
  - vm_compute. discriminate.
  - by repeat constructor.
  - rewrite E in Er. injection Er as -> ->. exists s'. split; [exact E|].
    destruct Hneed as [->|Hneed]; [exact Hc|]. rewrite length_app in Hneed. vm_compute (_ / _) in Hneed. cbn in Hneed. lia.
  - destruct (Hn ram_reliable).
Defined.

(** Back from byte 508 to byte 100. *)
Example f_lseek_spec_witness :
  exists s', f_lseek 100 opened = Some (FR_OK, s') /\ fptr (file s') = 100 /\
    content s' [2; 5; 3] = content opened [2; 5; 3].
Proof.
  destruct (f_lseek_spec opened [2; 5; 3] 100) as (r & s' & E & [(-> & Hp & _ & Hc & _)|[_ Hn]]).
  - exact opened_file.
  - exact opened_usable.
  - exact I.
  - lia.
  - done.
  - intros _ _. vm_compute. discriminate.
  - exists s'. split; [exact E|]. split; [exact Hp|exact Hc].
  - destruct (Hn ram_reliable).
Defined.

(** Six bytes over the end of a sector, written and read back. *)
Example write_read_witness :
  exists s1 s2 s3, f_write [1; 2; 3; 4; 5; 6] 6 opened = Some (FR_OK, 6, s1) /\
    f_lseek 508 s1 = Some (FR_OK, s2) /\ f_read 6 (replicate 8 0) s2 = Some (FR_OK, 6, [1; 2; 3; 4; 5; 6; 0; 0], s3).
Proof.
  assert (Er : fst <$> f_write [1; 2; 3; 4; 5; 6] 6 opened = Some (FR_OK, 6)) by (vm_compute; reflexivity).
  destruct (write_read opened [2; 5; 3] [1; 2; 3; 4; 5; 6] (replicate 8 0) 6) as (bw & s1 & s2 & rb & s3 & E1 & _ & _ & E2 & E3 & Hb).
  - exact ram_reliable.
  - exact opened_file.
  - exact opened_usable.
  - reflexivity.
  - reflexivity.
  - reflexivity.
  - exact filled_room.
  - cbn. lia.
  - cbn. lia.
  - cbn. lia.
  - by repeat constructor.
  - by repeat constructor.
  - rewrite E1 in Er. injection Er as ->. rewrite Hb in E3. exists s1, s2, s3. split; [exact E1|]. split; [exact E2|exact E3].
Defined.

(** The file has been modified; its directory entry is the second of sector 60. *)
Definition changed : FileSys ram := modified opened.

Lemma changed_place : dir_place changed [2; 5; 3].
Proof.
  constructor.
  - unfold data_sector, live, NO_SECTOR. cbn. lia.
  - intros i Hi. change (span (fs (vol changed)) [2; 5; 3]) with 3 in Hi.
    assert (i = 0 \/ i = 1 \/ i = 2) as [->|[->| ->]] by lia; vm_compute; discriminate.
  - vm_compute. split; discriminate.
  - intros t [Ht _]. discriminate Ht.
Qed.

Example f_sync_spec_witness :
  exists s', f_sync changed = Some (FR_OK, s') /\
    stored (dev (vol s')) (fs filled) [2; 5; 3] 520 = content changed [2; 5; 3] /\
    ld_dword (medium (dev (vol s')) 60) (32 + 28) = Some 520 /\ ld_word (medium (dev (vol s')) 60) (32 + 26) = Some 2.
Proof.
  destruct (f_sync_spec changed [2; 5; 3]) as (r & s' & E & [(-> & _ & _ & _ & Hs & (He1 & He2 & _) & _)|[_ Hn]]).
  - exact (proj1 (modified_ok opened _ opened_file)).
  - reflexivity.
  - reflexivity.
  - reflexivity.
  - exact changed_place.
  - exists s'. split; [exact E|]. split; [exact Hs|]. split; [exact He1|exact He2].
  - destruct (Hn ram_reliable).
Defined.

(** ** Mounting *)

(** The boot sector of 128 sectors: two tables of one sector, sixteen root entries. *)
Definition boot : list Z :=
  foldr (fun x l => <[x.1 := x.2]> l) (replicate 512 0)
    [(0%nat, 0xEB); (12%nat, 2); (13%nat, 1); (14%nat, 1); (16%nat, 2); (17%nat, 16); (19%nat, 128); (22%nat, 1);
     (510%nat, 0x55); (511%nat, 0xAA)].

Definition blank : FATFS := MkFATFS 0 0 0 0 0 0 0 0 0 0 0 0 0 0 0 0 (replicate 512 0).

Definition registered : Mounts (D := ram) := MkMounts [Some (blank, 0); None; None] (<[0 := boot]> ∅) 0.

Lemma boot_bootable : bootable boot.
Proof. split; [vm_compute; reflexivity|]. exists FS_FAT12. split; [done|]. intros []. vm_compute. reflexivity. Qed.

Lemma boot_fits : fits boot 0.
Proof. vm_compute. split; [reflexivity|discriminate]. Qed.

Example mount_volume_spec_witness :
  exists m' f', mount_volume [0x30; 0x3A; 0] 0 registered = Some (FR_OK, m') /\ (FatFs m').[0] = Some (Some (f', 1)) /\
    vol_ok (MkVol f' (m_dev m')) /\ data_ok f'.
Proof.
  assert (Hb : medium (m_dev registered) 0 = boot) by (vm_compute; reflexivity).
  assert (Ev : match mount_volume [0x30; 0x3A; 0] 0 registered with
    | Some (_, m') => match (FatFs m').[0] with Some (Some (f', _)) => volbase f' =? 0 | _ => false end
    | None => false end = true) by (vm_compute; reflexivity).
  destruct (mount_volume_spec registered [0x30; 0x3A; 0] 0 0 2 blank 0) as (r & m' & f' & n' & E & Hu & _ & Hf & Hr & Hok).
  - reflexivity.
  - reflexivity.
  - reflexivity.
  - apply zero_sector.
  - rewrite E, Hf in Ev. apply Z.eqb_eq in Ev.
    assert (Er : r = FR_OK) by (apply Hok; [exact ram_reliable|rewrite Hb; exact boot_bootable|reflexivity]).
    destruct Hr as [(_ & En & _ & [Hm|Hn])|(Hr & _)]; [|destruct (Hn ram_reliable)|].
    + rewrite Er in E. exists m', f'. split; [exact E|]. split; [rewrite Hf, En; reflexivity|].
      pose proof (mo_ok _ Hm) as Hfin. cbn [fs dev] in Hfin. rewrite Ev, Hu, Hb in Hfin. exact (Hfin boot_fits).
    + destruct Hr as [Hr|[[Hr _]|[_ Hn]]]; [rewrite Er in Hr; discriminate Hr|rewrite Er in Hr; discriminate Hr|destruct (Hn ram_reliable)].
Defined.

(** The number of sectors of both tables is computed in 32 bits.  A boot record that asks
    for two tables of 2^31 + 1 sectors each is accepted: they count as two sectors, and
    the data area begins inside of the first table. *)
Definition wrapped : list Z :=
  foldr (fun x l => <[x.1 := x.2]> l) (replicate 512 0)
    ([(0%nat, 0xEB); (12%nat, 2); (13%nat, 1); (14%nat, 32); (16%nat, 2); (32%nat, 0x92); (33%nat, 0x11); (34%nat, 1);
      (36%nat, 1); (39%nat, 0x80); (510%nat, 0x55); (511%nat, 0xAA)] ++ zip (seq 82 8) FAT32_name).

Example wrapped_accepted :
  exists f, boot_status wrapped = Some 0 /\ init_fat wrapped 0 blank = Some (FS_FAT32, f) /\
    fatbase f = 32 /\ fsize f = 2 ^ 31 + 1 /\ database f = 34.
Proof.
  eexists. split; [vm_compute; reflexivity|]. split; [vm_compute; reflexivity|]. vm_compute. tauto.
Qed.
