(* ===== verification/Events.v ===== *)
(** * Events: the event queues of the LCD application (TFTLCD/src/tftlcd_event.c)

    Two fixed arrays of pointers to event objects the application owns: the once
    events, run on the next pass after they were activated, and the cycle events,
    run every [EventPeriodCnt] passes.  [TFTLCD_EventProcess] is one pass.

    Event objects are shared between the queues and the application: they live in
    a store indexed by their addresses.  A function pointer is a number; what the
    functions do is an interface ([EventFunctions]), of which [printf_functions]
    is the pair of functions at the end of the file.  [UINT16] of tftlcd_event.h
    is [unsigned int]: 32 bits. *)

From S2P Require Import Prelude.

Definition CYCLE_EVENT_QUEUE_NUM : Z := 4.
Definition ONCE_EVENT_QUEUE_NUM : Z := 5.
Definition EVENT_CYCLE_CNT_VALUE : Z := 0xFFFF.
Definition EVENT_STATE_INACTIVE : Z := 0.
Definition EVENT_STATE_ACTIVE : Z := 1.
Definition EVENT_STATE_LOGOUT : Z := 2.

Record CycleEventType := CycleEvent {
  ce_number : Z;
  ce_status : Z;
  _EventInitCtn : Z;
  EventPeriodCnt : Z;
  ce_OnFunc : Z
}.
#[export] Instance CycleEventType_settable : Settable CycleEventType :=
  fun r => CycleEvent (ce_number r) (ce_status r) (_EventInitCtn r) (EventPeriodCnt r)
    (ce_OnFunc r).

Record OnceEventType := OnceEvent {
  oe_number : Z;
  oe_status : Z;
  oe_OnFunc : Z;
  OnCbFunc : Z
}.
#[export] Instance OnceEventType_settable : Settable OnceEventType :=
  fun r => OnceEvent (oe_number r) (oe_status r) (oe_OnFunc r) (OnCbFunc r).

(** The calls through function pointers and the lines printed, in order. *)
Inductive event_call :=
  | Once_call (f obj : Z)
  | Once_done (f : Z)
  | Cycle_call (f obj : Z)
  | Cycle_value (line number : Z).

(** The static variables of the file, and the objects by address. *)
Record event_world := EventWorld {
  CycleEventQueue : list (option Z);
  OnceEventQueue : list (option Z);
  EventCycleCnt : Z;
  cycle_objs : gmap Z CycleEventType;
  once_objs : gmap Z OnceEventType;
  ev_log : list event_call
}.
#[export] Instance event_world_settable : Settable event_world :=
  fun r => EventWorld (CycleEventQueue r) (OnceEventQueue r) (EventCycleCnt r) (cycle_objs r)
    (once_objs r) (ev_log r).

Definition events_init : event_world :=
  EventWorld (replicate (Z.to_nat CYCLE_EVENT_QUEUE_NUM) None)
    (replicate (Z.to_nat ONCE_EVENT_QUEUE_NUM) None) 1 ∅ ∅ [].

Definition EV (A : Type) : Type := ST event_world A.

(** What a function of the application does besides being called. *)
Class EventFunctions := {
  once_func : Z -> Z -> EV unit;
  once_done_func : Z -> EV unit;
  cycle_func : Z -> Z -> EV unit
}.

Definition ev_emit (c : event_call) : EV unit := st_mod (set ev_log (fun l => l ++ [c])).

(** [*p] and [*p = f( *p )]. *)
Definition get_cycle (p : Z) : EV CycleEventType := fun w =>
  (fun o => (o, w)) <$> cycle_objs w !! p.
Definition get_once (p : Z) : EV OnceEventType := fun w =>
  (fun o => (o, w)) <$> once_objs w !! p.
Definition upd_cycle (p : Z) (f : CycleEventType -> CycleEventType) : EV unit := fun w =>
  (fun o => (tt, w <| cycle_objs ::= <[p := f o]> |>)) <$> cycle_objs w !! p.
Definition upd_once (p : Z) (f : OnceEventType -> OnceEventType) : EV unit := fun w =>
  (fun o => (tt, w <| once_objs ::= <[p := f o]> |>)) <$> once_objs w !! p.

Definition cycle_slot (i : Z) : EV (option Z) := fun w =>
  (fun o => (o, w)) <$> (CycleEventQueue w).[i].
Definition once_slot (i : Z) : EV (option Z) := fun w =>
  (fun o => (o, w)) <$> (OnceEventQueue w).[i].
Definition set_cycle_slot (i : Z) (p : option Z) : EV unit := fun w =>
  (fun q => (tt, w <| CycleEventQueue := q |>)) <$> (CycleEventQueue w).[i <- p].
Definition set_once_slot (i : Z) (p : option Z) : EV unit := fun w =>
  (fun q => (tt, w <| OnceEventQueue := q |>)) <$> (OnceEventQueue w).[i <- p].

Definition get_count : EV Z := st_get EventCycleCnt.

(** ** Registration *)

(** The search for a slot, downwards from slot [n]; slots are numbered from 1. *)
Fixpoint _TFTLCD_GetCycleEQNumber (n : nat) : EV Z :=
  match n with
  | O => mret 0
  | S k =>
      p ← cycle_slot (Z.of_nat k);
      match p with
      | None => mret (Z.of_nat n)
      | Some p =>
          o ← get_cycle p;
          if ce_number o =? EVENT_STATE_LOGOUT then mret (Z.of_nat n)
          else _TFTLCD_GetCycleEQNumber k
      end
  end.

Fixpoint _TFTLCD_GetOnceEQNumber (n : nat) : EV Z :=
  match n with
  | O => mret 0
  | S k =>
      p ← once_slot (Z.of_nat k);
      match p with
      | None => mret (Z.of_nat n)
      | Some p =>
          o ← get_once p;
          if oe_number o =? EVENT_STATE_LOGOUT then mret (Z.of_nat n)
          else _TFTLCD_GetOnceEQNumber k
      end
  end.

Definition TFTLCD_CycleEventRegister (OnFunc PeriodCnt pEventObj : Z) : EV bool :=
  EventNumber ← _TFTLCD_GetCycleEQNumber (Z.to_nat CYCLE_EVENT_QUEUE_NUM);
  if EventNumber =? 0 then mret false else
  _ ← upd_cycle pEventObj (fun _ =>
        CycleEvent EventNumber EVENT_STATE_INACTIVE 0 PeriodCnt OnFunc);
  _ ← set_cycle_slot (EventNumber - 1) (Some pEventObj);
  mret true.

Definition TFTLCD_OnceEventRegister (OnFunc OnCb pEventObj : Z) : EV bool :=
  EventNumber ← _TFTLCD_GetOnceEQNumber (Z.to_nat ONCE_EVENT_QUEUE_NUM);
  if EventNumber =? 0 then mret false else
  _ ← upd_once pEventObj (fun _ => OnceEvent EventNumber EVENT_STATE_INACTIVE OnFunc OnCb);
  _ ← set_once_slot (EventNumber - 1) (Some pEventObj);
  mret true.

(** ** Priorities *)

Definition TFTLCD_SetOnceEventPriority (GradeNumber pEventObj : Z) : EV unit :=
  if (GradeNumber <? 1) || (ONCE_EVENT_QUEUE_NUM + 1 <? GradeNumber) then st_skip else
  pOnceEvent ← once_slot GradeNumber;
  _ ← set_once_slot GradeNumber (Some pEventObj);
  o ← get_once pEventObj;
  _ ← set_once_slot (oe_number o) pOnceEvent;
  upd_once pEventObj (set oe_number (fun _ => GradeNumber)).

Definition TFTLCD_SetCycleEventPriority (GradeNumber pEventObj : Z) : EV unit :=
  if (GradeNumber <? 1) || (CYCLE_EVENT_QUEUE_NUM + 1 <? GradeNumber) then st_skip else
  pCycleEvent ← cycle_slot GradeNumber;
  _ ← set_cycle_slot GradeNumber (Some pEventObj);
  o ← get_cycle pEventObj;
  _ ← set_cycle_slot (ce_number o) pCycleEvent;
  upd_cycle pEventObj (set ce_number (fun _ => GradeNumber)).

(** ** One pass *)

Section process.
Context `{EF : EventFunctions}.

(** The remainder by 0 is undefined. *)
Definition u32_rem (a b : Z) : EV Z := st_opt (if b =? 0 then None else Some (a mod b)).

(** Has the period of the event elapsed at count [EventCnt]? *)
Definition _TFTLCD_CycleBaseOnFunc (EventCnt obj : Z) : EV unit :=
  o ← get_cycle obj;
  _ ← when (_EventInitCtn o =? 0) (upd_cycle obj (set _EventInitCtn (fun _ => EventCnt)));
  o ← get_cycle obj;
  r ← u32_rem (u32 (EVENT_CYCLE_CNT_VALUE + EventCnt - _EventInitCtn o) mod EVENT_CYCLE_CNT_VALUE)
        (EventPeriodCnt o);
  when (r =? 0)
    (_ ← ev_emit (Cycle_call (ce_OnFunc o) obj); cycle_func (ce_OnFunc o) obj).

Definition process_once (EventIndex : Z) : EV unit :=
  p ← once_slot EventIndex;
  match p with
  | None => st_skip
  | Some obj =>
      o ← get_once obj;
      when (oe_status o =? EVENT_STATE_ACTIVE)
        (_ ← ev_emit (Once_call (oe_OnFunc o) obj);
         _ ← once_func (oe_OnFunc o) obj;
         _ ← upd_once obj (set oe_status (fun _ => EVENT_STATE_INACTIVE));
         o ← get_once obj;
         _ ← ev_emit (Once_done (OnCbFunc o));
         once_done_func (OnCbFunc o))
  end.

Definition process_cycle (EventIndex : Z) : EV unit :=
  p ← cycle_slot EventIndex;
  match p with
  | None => st_skip
  | Some obj =>
      o ← get_cycle obj;
      when (ce_status o =? EVENT_STATE_ACTIVE)
        (cnt ← get_count; _TFTLCD_CycleBaseOnFunc cnt obj)
  end.

Definition TFTLCD_EventProcess : EV unit :=
  _ ← st_for (Z.to_nat ONCE_EVENT_QUEUE_NUM) 0 process_once;
  _ ← st_for (Z.to_nat CYCLE_EVENT_QUEUE_NUM) 0 process_cycle;
  st_mod (set EventCycleCnt (fun c => u32 (c mod EVENT_CYCLE_CNT_VALUE + 1))).
End process.

(** The functions of the file: the object becomes inactive, and its number is
    printed. *)
Definition PrintCycleCnt (obj : Z) : EV unit :=
  _ ← upd_cycle obj (set ce_status (fun _ => EVENT_STATE_INACTIVE));
  o ← get_cycle obj;
  ev_emit (Cycle_value 0 (ce_number o)).
Definition PrintCycleCnt1 (obj : Z) : EV unit :=
  _ ← upd_cycle obj (set ce_status (fun _ => EVENT_STATE_INACTIVE));
  o ← get_cycle obj;
  ev_emit (Cycle_value 1 (ce_number o)).

Definition printf_functions : EventFunctions := {|
  once_func _ _ := st_skip;
  once_done_func _ := st_skip;
  cycle_func f obj := if f =? 0 then PrintCycleCnt obj else PrintCycleCnt1 obj
|}.

(** ** What a pass does *)

(** The queues have their sizes, point to objects, no object twice, and no
    registered period is 0. *)
Record events_ok (w : event_world) : Prop := EventsOk {
  eo_once : Z.of_nat (length (OnceEventQueue w)) = ONCE_EVENT_QUEUE_NUM;
  eo_cycle : Z.of_nat (length (CycleEventQueue w)) = CYCLE_EVENT_QUEUE_NUM;
  eo_once_nodup : NoDup (omap id (OnceEventQueue w));
  eo_cycle_nodup : NoDup (omap id (CycleEventQueue w));
  eo_once_objs p : Some p ∈ OnceEventQueue w -> is_Some (once_objs w !! p);
  eo_cycle_objs p : Some p ∈ CycleEventQueue w -> exists o, cycle_objs w !! p = Some o /\
    EventPeriodCnt o <> 0 /\ 0 <= _EventInitCtn o <= EVENT_CYCLE_CNT_VALUE;
  eo_count : 1 <= EventCycleCnt w <= EVENT_CYCLE_CNT_VALUE
}.

(** What the application's functions may do: change the object they are given, and
    print.  The two functions of the file do both. *)
Class EventEffects (EF : EventFunctions) := {
  once_effect : Z -> OnceEventType -> OnceEventType;
  once_prints : Z -> OnceEventType -> list (Z * Z);
  done_prints : Z -> list (Z * Z);
  cycle_effect : Z -> CycleEventType -> CycleEventType;
  cycle_prints : Z -> CycleEventType -> list (Z * Z);
  effect_once f p w o : once_objs w !! p = Some o ->
    once_func f p w = Some (tt, w <| once_objs ::= <[p := once_effect f o]> |>
      <| ev_log ::= (fun l => l ++ (uncurry Cycle_value <$> once_prints f o)) |>);
  effect_done f w :
    once_done_func f w = Some (tt, w <| ev_log ::= (fun l => l ++ (uncurry Cycle_value <$> done_prints f)) |>);
  effect_cycle f p w o : cycle_objs w !! p = Some o ->
    cycle_func f p w = Some (tt, w <| cycle_objs ::= <[p := cycle_effect f o]> |>
      <| ev_log ::= (fun l => l ++ (uncurry Cycle_value <$> cycle_prints f o)) |>);
  effect_period f o : EventPeriodCnt o <> 0 -> EventPeriodCnt (cycle_effect f o) <> 0;
  effect_count f o : 0 <= _EventInitCtn o <= EVENT_CYCLE_CNT_VALUE ->
    0 <= _EventInitCtn (cycle_effect f o) <= EVENT_CYCLE_CNT_VALUE
}.

(** The number of passes since the first, modulo the range of the counter, is a
    multiple of the period. *)
Definition due (cnt : Z) (o : CycleEventType) : bool :=
  let first := if _EventInitCtn o =? 0 then cnt else _EventInitCtn o in
  ((EVENT_CYCLE_CNT_VALUE + cnt - first) mod EVENT_CYCLE_CNT_VALUE) mod EventPeriodCnt o =? 0.

Definition start_counting (cnt : Z) (o : CycleEventType) : CycleEventType :=
  if _EventInitCtn o =? 0 then o <| _EventInitCtn := cnt |> else o.

Section pass_of.
Context `{EE : EventEffects}.

(** A cycle event in a pass: an active one starts counting, and is run when due. *)
Definition run_cycle (cnt : Z) (o : CycleEventType) : CycleEventType :=
  if ce_status o =? EVENT_STATE_ACTIVE then
    if due cnt o then cycle_effect (ce_OnFunc o) (start_counting cnt o) else start_counting cnt o
  else o.

Definition cycle_calls_of (cnt : Z) (objs : gmap Z CycleEventType) (slot : option Z) : list event_call :=
  match slot with
  | None => []
  | Some p =>
      match objs !! p with
      | None => []
      | Some o =>
          if (ce_status o =? EVENT_STATE_ACTIVE) && due cnt o
          then [Cycle_call (ce_OnFunc o) p] ++
            (uncurry Cycle_value <$> cycle_prints (ce_OnFunc o) (start_counting cnt o))
          else []
      end
  end.

(** A once event in a pass: an active one is run and becomes inactive. *)
Definition run_once (o : OnceEventType) : OnceEventType :=
  if oe_status o =? EVENT_STATE_ACTIVE
  then (once_effect (oe_OnFunc o) o) <| oe_status := EVENT_STATE_INACTIVE |> else o.

Definition once_calls_of (objs : gmap Z OnceEventType) (slot : option Z) : list event_call :=
  match slot with
  | None => []
  | Some p =>
      match objs !! p with
      | None => []
      | Some o =>
          if oe_status o =? EVENT_STATE_ACTIVE
          then let cb := OnCbFunc (once_effect (oe_OnFunc o) o) in
            [Once_call (oe_OnFunc o) p] ++ (uncurry Cycle_value <$> once_prints (oe_OnFunc o) o) ++
            [Once_done cb] ++ (uncurry Cycle_value <$> done_prints cb)
          else []
      end
  end.
End pass_of.

(** The objects in the slots are updated, the others stay. *)
Definition upd_slots {O} (f : O -> O) (slots : list (option Z)) (m : gmap Z O) : gmap Z O :=
  map_imap (fun p o => Some (if bool_decide (Some p ∈ slots) then f o else o)) m.

Section pass.
Context `{EE : EventEffects}.

Lemma upd_slots_lookup {O} (f : O -> O) slots m p :
  upd_slots f slots m !! p =
    (fun o => if bool_decide (Some p ∈ slots) then f o else o) <$> m !! p.
Proof. unfold upd_slots. rewrite map_lookup_imap. by destruct (m !! p). Qed.

Lemma upd_slots_nil {O} (f : O -> O) m : upd_slots f [] m = m.
Proof.
  apply map_eq. intros p. rewrite upd_slots_lookup, bool_decide_eq_false_2 by set_solver.
  by destruct (m !! p).
Qed.

(** One more slot, of an object that is not in the earlier ones. *)
Lemma upd_slots_snoc {O} (f : O -> O) slots m p o :
  Some p ∉ slots -> m !! p = Some o ->
  upd_slots f (slots ++ [Some p]) m = <[p := f o]> (upd_slots f slots m).
Proof.
  intros Hp Ho. apply map_eq. intros q. rewrite upd_slots_lookup.
  destruct (decide (q = p)) as [->|Hne].
  - rewrite lookup_insert_eq, Ho, bool_decide_eq_true_2 by set_solver. done.
  - rewrite lookup_insert_ne, upd_slots_lookup by done. f_equal.
    do 2 case_bool_decide; try done; set_solver.
Qed.

Lemma upd_slots_snoc_None {O} (f : O -> O) slots m :
  upd_slots f (slots ++ [None]) m = upd_slots f slots m.
Proof.
  apply map_eq. intros q. rewrite !upd_slots_lookup. destruct (m !! q); [|done]. cbn. f_equal.
  do 2 case_bool_decide; try done; set_solver.
Qed.

Lemma upd_slots_same {O} (f : O -> O) slots m p o :
  Some p ∉ slots -> m !! p = Some o -> f o = o ->
  upd_slots f (slots ++ [Some p]) m = upd_slots f slots m.
Proof.
  intros Hp Ho Hf. rewrite (upd_slots_snoc _ _ _ _ _ Hp Ho), Hf. apply insert_id.
  rewrite upd_slots_lookup, Ho, bool_decide_eq_false_2 by done. done.
Qed.

Lemma not_in_take (l : list (option Z)) k p :
  NoDup (omap id l) -> l !! k = Some (Some p) -> Some p ∉ take k l.
Proof.
  intros Hnd Hk Hin. rewrite <- (take_drop_middle _ _ _ Hk) in Hnd.
  rewrite omap_app in Hnd. apply NoDup_app in Hnd as (_ & Hd & _). apply (Hd p).
  - apply list_elem_of_omap. by exists (Some p).
  - cbn. set_solver.
Qed.

(** The state after the first [k] slots of the once queue. *)
Definition after_once (w : event_world) (k : Z) : event_world :=
  let slots := take (Z.to_nat k) (OnceEventQueue w) in
  w <| once_objs := upd_slots run_once slots (once_objs w) |>
    <| ev_log := ev_log w ++ flat_map (once_calls_of (once_objs w)) slots |>.

Definition after_cycle (w : event_world) (k : Z) : event_world :=
  let slots := take (Z.to_nat k) (CycleEventQueue w) in
  w <| cycle_objs := upd_slots (run_cycle (EventCycleCnt w)) slots (cycle_objs w) |>
    <| ev_log := ev_log w ++
         flat_map (cycle_calls_of (EventCycleCnt w) (cycle_objs w)) slots |>.

Lemma take_next {A} (l : list A) k x :
  l.[k] = Some x -> take (Z.to_nat (k + 1)) l = take (Z.to_nat k) l ++ [x].
Proof.
  intros [Hk Hx]%arr_get_Some. replace (Z.to_nat (k + 1)) with (S (Z.to_nat k)) by lia.
  by apply take_S_r.
Qed.

Lemma ev_emit_eq c w : ev_emit c w = Some (tt, w <| ev_log ::= (fun l => l ++ [c]) |>).
Proof. done. Qed.

Lemma once_step w k :
  events_ok w -> 0 <= k < ONCE_EVENT_QUEUE_NUM ->
  process_once k (after_once w k) = Some (tt, after_once w (k + 1)).
Proof.
  intros [Hl _ Hnd _ Ho _ _] Hk. destruct (arr_get_is_Some (OnceEventQueue w) k) as [s Hs]; [lia|].
  unfold process_once. rewrite (st_bind_eq _ _ _ s (after_once w k))
    by (unfold once_slot; cbn [after_once set OnceEventQueue]; by rewrite Hs).
  unfold after_once at 2. rewrite (take_next _ _ _ Hs), flat_map_app.
  pose proof Hs as [_ Hs']%arr_get_Some.
  destruct s as [p|].
  2:{ rewrite upd_slots_snoc_None. cbn [flat_map once_calls_of]. by rewrite !app_nil_r. }
  destruct (Ho p) as [o Hp]; [by eapply list_elem_of_lookup_2|].
  pose proof (not_in_take _ _ _ Hnd Hs') as Hout.
  assert (Hget : once_objs (after_once w k) !! p = Some o).
  { cbn [after_once set once_objs]. by rewrite upd_slots_lookup, Hp, bool_decide_eq_false_2. }
  rewrite (st_bind_eq _ _ _ o (after_once w k)) by (unfold get_once; by rewrite Hget).
  cbn [flat_map once_calls_of]. rewrite Hp, !app_nil_r.
  destruct (oe_status o =? EVENT_STATE_ACTIVE) eqn:Ea.
  - rewrite when_true. rewrite (upd_slots_snoc _ _ _ _ _ Hout Hp).
    set (o1 := once_effect (oe_OnFunc o) o). set (o' := o1 <| oe_status := EVENT_STATE_INACTIVE |>).
    replace (run_once o) with o' by (unfold run_once; by rewrite Ea).
    rewrite (st_bind_eq _ _ _ _ _ (ev_emit_eq _ _)).
    set (w0 := (after_once w k) <| ev_log ::= _ |>).
    rewrite (st_bind_eq _ _ _ _ _ (effect_once (oe_OnFunc o) p w0 o Hget)). fold o1.
    set (w1 := _ <| ev_log ::= _ |>). set (w2 := w1 <| once_objs ::= <[p := o']> |>).
    assert (E1 : upd_once p (set oe_status (fun _ => EVENT_STATE_INACTIVE)) w1 = Some (tt, w2)).
    { unfold upd_once. cbn [w1 set once_objs]. by rewrite lookup_insert_eq. }
    rewrite (st_bind_eq _ _ _ _ _ E1).
    assert (E2 : get_once p w2 = Some (o', w2)).
    { unfold get_once. cbn [w2 set once_objs]. by rewrite lookup_insert_eq. }
    rewrite (st_bind_eq _ _ _ _ _ E2).
    rewrite (st_bind_eq _ _ _ _ _ (ev_emit_eq _ _)), effect_done.
    unfold w2, w1, w0, after_once, set. cbn. rewrite insert_insert_eq, <- !app_assoc. done.
  - rewrite when_false, (upd_slots_same _ _ _ _ _ Hout Hp), app_nil_r; [done|].
    unfold run_once. by rewrite Ea.
Qed.

(** One call of the base function on an active object. *)
Lemma cycle_base cnt p w o :
  1 <= cnt <= EVENT_CYCLE_CNT_VALUE -> cycle_objs w !! p = Some o ->
  ce_status o = EVENT_STATE_ACTIVE -> EventPeriodCnt o <> 0 ->
  0 <= _EventInitCtn o <= EVENT_CYCLE_CNT_VALUE ->
  _TFTLCD_CycleBaseOnFunc cnt p w = Some (tt,
    w <| cycle_objs ::= <[p := run_cycle cnt o]> |>
      <| ev_log ::= (fun l => l ++ cycle_calls_of cnt (cycle_objs w) (Some p)) |>).
Proof.
  intros Hc Ho Ha Hp Hi. unfold _TFTLCD_CycleBaseOnFunc, run_cycle, cycle_calls_of. rewrite Ho, Ha.
  change (EVENT_STATE_ACTIVE =? EVENT_STATE_ACTIVE) with true. cbn [andb].
  assert (E1 : get_cycle p w = Some (o, w)) by (unfold get_cycle; by rewrite Ho).
  rewrite (st_bind_eq _ _ _ _ _ E1). set (o1 := start_counting cnt o).
  set (w1 := w <| cycle_objs ::= <[p := o1]> |>).
  assert (E2 : when (_EventInitCtn o =? 0) (upd_cycle p (set _EventInitCtn (fun _ => cnt))) w
    = Some (tt, w1)).
  { unfold w1, o1, start_counting. destruct (_EventInitCtn o =? 0); [by unfold when, upd_cycle; rewrite Ho|].
    rewrite when_false. unfold set. cbn. rewrite insert_id by done. by destruct w. }
  rewrite (st_bind_eq _ _ _ _ _ E2).
  assert (Hget : cycle_objs w1 !! p = Some o1) by (cbn [w1 set cycle_objs]; by rewrite lookup_insert_eq).
  assert (E3 : get_cycle p w1 = Some (o1, w1)) by (unfold get_cycle; by rewrite Hget).
  rewrite (st_bind_eq _ _ _ _ _ E3).
  assert (Hfirst : _EventInitCtn o1 = if _EventInitCtn o =? 0 then cnt else _EventInitCtn o)
    by (unfold o1, start_counting; by destruct (_EventInitCtn o =? 0)).
  assert (Hper : EventPeriodCnt o1 = EventPeriodCnt o /\ ce_OnFunc o1 = ce_OnFunc o)
    by (unfold o1, start_counting; by destruct (_ =? _)).
  destruct Hper as [-> ->]. unfold u32_rem. rewrite (proj2 (Z.eqb_neq _ 0)) by done.
  rewrite u32_small by (rewrite Hfirst; destruct (_EventInitCtn o =? 0);
    unfold EVENT_CYCLE_CNT_VALUE in *; lia).
  rewrite (st_bind_eq (st_opt (Some _)) _ w1 _ w1 eq_refl). rewrite Hfirst.
  change (_ =? 0) with (due cnt o) at 1. destruct (due cnt o).
  - rewrite when_true, (st_bind_eq _ _ _ _ _ (ev_emit_eq _ _)).
    rewrite (effect_cycle (ce_OnFunc o) p _ o1) by exact Hget.
    unfold w1, set. cbn. rewrite insert_insert_eq, <- app_assoc. done.
  - rewrite when_false. unfold w1, set. cbn. by rewrite app_nil_r.
Qed.

Lemma cycle_step w k :
  events_ok w -> 0 <= k < CYCLE_EVENT_QUEUE_NUM ->
  process_cycle k (after_cycle w k) = Some (tt, after_cycle w (k + 1)).
Proof.
  intros [_ Hl _ Hnd _ Ho Hc] Hk. destruct (arr_get_is_Some (CycleEventQueue w) k) as [s Hs]; [lia|].
  unfold process_cycle. rewrite (st_bind_eq _ _ _ s (after_cycle w k))
    by (unfold cycle_slot; cbn [after_cycle set CycleEventQueue]; by rewrite Hs).
  unfold after_cycle at 2. rewrite (take_next _ _ _ Hs), flat_map_app.
  pose proof Hs as [_ Hs']%arr_get_Some.
  destruct s as [p|].
  2:{ rewrite upd_slots_snoc_None. cbn [flat_map cycle_calls_of]. by rewrite !app_nil_r. }
  destruct (Ho p) as (o & Hp & Hper & Hi); [by eapply list_elem_of_lookup_2|].
  pose proof (not_in_take _ _ _ Hnd Hs') as Hout.
  assert (Hget : cycle_objs (after_cycle w k) !! p = Some o).
  { cbn [after_cycle set cycle_objs]. by rewrite upd_slots_lookup, Hp, bool_decide_eq_false_2. }
  rewrite (st_bind_eq _ _ _ o (after_cycle w k)) by (unfold get_cycle; by rewrite Hget).
  cbn [flat_map]. rewrite !app_nil_r.
  destruct (ce_status o =? EVENT_STATE_ACTIVE) eqn:Ea.
  - rewrite when_true. rewrite (st_bind_eq get_count _ (after_cycle w k) _ _ eq_refl).
    change (EventCycleCnt (after_cycle w k)) with (EventCycleCnt w).
    rewrite (cycle_base _ _ _ o) by (done || by apply Z.eqb_eq).
    assert (Hcalls : cycle_calls_of (EventCycleCnt w) (cycle_objs (after_cycle w k)) (Some p) =
      cycle_calls_of (EventCycleCnt w) (cycle_objs w) (Some p))
      by (unfold cycle_calls_of; by rewrite Hget, Hp).
    rewrite Hcalls, (upd_slots_snoc _ _ _ _ _ Hout Hp). unfold after_cycle, set. cbn. by rewrite <- app_assoc.
  - rewrite when_false, (upd_slots_same _ _ _ _ _ Hout Hp).
    + unfold cycle_calls_of. by rewrite Hp, Ea, app_nil_r.
    + unfold run_cycle. by rewrite Ea.
Qed.

(** The pass as a function: the reference definition. *)
Definition pass (w : event_world) : event_world :=
  let w1 := w <| once_objs := upd_slots run_once (OnceEventQueue w) (once_objs w) |>
              <| ev_log ::= (fun l => l ++ flat_map (once_calls_of (once_objs w)) (OnceEventQueue w)) |> in
  w1 <| cycle_objs := upd_slots (run_cycle (EventCycleCnt w)) (CycleEventQueue w) (cycle_objs w) |>
     <| ev_log ::= (fun l => l ++
          flat_map (cycle_calls_of (EventCycleCnt w) (cycle_objs w)) (CycleEventQueue w)) |>
     <| EventCycleCnt := EventCycleCnt w mod EVENT_CYCLE_CNT_VALUE + 1 |>.

Lemma after_once_ok w k : events_ok w -> events_ok (after_once w k).
Proof.
  intros []. constructor; try done.
  intros p Hp. cbn [after_once set once_objs]. rewrite upd_slots_lookup.
  destruct (eo_once_objs0 p Hp) as [o ->]. by eexists.
Qed.

Lemma process_pass w : events_ok w ->
  TFTLCD_EventProcess w = Some (tt, pass w).
Proof.
  intros Hok. unfold TFTLCD_EventProcess. pose proof (eo_once _ Hok) as Hl1.
  assert (Eid : forall v, v = (after_once v 0) /\ v = after_cycle v 0).
  { intros v. unfold after_once, after_cycle, set. cbn -[app]. rewrite !upd_slots_nil, !app_nil_r.
    split; by destruct v. }
  destruct (st_for_inv (fun k v => v = after_once w k) process_once
    (Z.to_nat ONCE_EVENT_QUEUE_NUM) 0 w) as (w1 & E1 & H1).
  { intros k v Hk ->. eexists. split; [by apply once_step|done]. }
  { apply Eid. }
  rewrite (st_bind_eq _ _ _ _ _ E1). pose proof (after_once_ok w 5 Hok) as Hok1.
  change (0 + Z.of_nat _) with 5 in H1. subst w1.
  destruct (st_for_inv (fun k v => v = after_cycle (after_once w 5) k) process_cycle
    (Z.to_nat CYCLE_EVENT_QUEUE_NUM) 0 (after_once w 5)) as (w2 & E2 & H2).
  { intros k v Hk ->. eexists. split; [by apply cycle_step|done]. }
  { apply Eid. }
  rewrite (st_bind_eq _ _ _ _ _ E2). change (0 + Z.of_nat _) with 4 in H2. subst w2.
  unfold st_mod. do 2 f_equal. unfold after_cycle.
  change (CycleEventQueue (after_once w 5)) with (CycleEventQueue w).
  change (EventCycleCnt (after_once w 5)) with (EventCycleCnt w).
  change (cycle_objs (after_once w 5)) with (cycle_objs w).
  pose proof (eo_cycle _ Hok) as Hl2. pose proof (eo_count _ Hok) as Hc.
  unfold after_once. rewrite !take_ge by (unfold ONCE_EVENT_QUEUE_NUM, CYCLE_EVENT_QUEUE_NUM in *; lia).
  unfold pass, set. cbn. f_equal.
  apply u32_small. pose proof (Z.mod_pos_bound (EventCycleCnt w) EVENT_CYCLE_CNT_VALUE eq_refl).
  unfold EVENT_CYCLE_CNT_VALUE in *. lia.
Qed.

(** ** Over many passes *)

Lemma events_pass_ok w : events_ok w -> events_ok (pass w).
Proof.
  intros []. constructor; try done.
  - intros p Hp. cbn [pass set once_objs]. rewrite upd_slots_lookup.
    destruct (eo_once_objs0 p Hp) as [o ->]. by eexists.
  - intros p Hp. cbn [pass set cycle_objs]. rewrite upd_slots_lookup.
    destruct (eo_cycle_objs0 p Hp) as (o & -> & Hper & Hi). cbn. eexists. split; [reflexivity|].
    case_bool_decide; [|done]. pose proof eo_count0 as Hc.
    assert (Hs : EventPeriodCnt (start_counting (EventCycleCnt w) o) <> 0 /\
      0 <= _EventInitCtn (start_counting (EventCycleCnt w) o) <= EVENT_CYCLE_CNT_VALUE)
      by (unfold start_counting; destruct (_ =? 0); [split; [done|cbn; lia]|done]).
    unfold run_cycle. destruct (_ =? _); [|done]. destruct (due _ _); [|done].
    split; [apply effect_period|apply effect_count]; apply Hs.
  - cbn [pass set EventCycleCnt].
    pose proof (Z.mod_pos_bound (EventCycleCnt w) EVENT_CYCLE_CNT_VALUE eq_refl).
    unfold EVENT_CYCLE_CNT_VALUE in *. lia.
Qed.

(** [n] passes. *)
Fixpoint passes (n : nat) : EV unit :=
  match n with
  | O => st_skip
  | S n => _ ← TFTLCD_EventProcess; passes n
  end.

Definition count_calls (q : event_call -> bool) (l : list event_call) : nat :=
  length (List.filter q l).

Definition is_cycle_call (p : Z) (c : event_call) : bool :=
  match c with Cycle_call _ obj => obj =? p | _ => false end.
Definition is_once_call (p : Z) (c : event_call) : bool :=
  match c with Once_call _ obj => obj =? p | _ => false end.

Lemma count_calls_app q l1 l2 :
  count_calls q (l1 ++ l2) = (count_calls q l1 + count_calls q l2)%nat.
Proof. unfold count_calls. by rewrite List.filter_app, length_app. Qed.

Lemma count_prints q l : (forall i n, q (Cycle_value i n) = false) ->
  count_calls q (uncurry Cycle_value <$> l) = 0%nat.
Proof.
  intros Hq. unfold count_calls. induction l as [|[i n] l IH]; [done|]. cbn. by rewrite Hq.
Qed.

Lemma count_none q (g : option Z -> list event_call) slots :
  (forall s, s ∈ slots -> count_calls q (g s) = 0%nat) ->
  count_calls q (flat_map g slots) = 0%nat.
Proof.
  induction slots as [|s slots IH]; intros H; cbn [flat_map]; [done|].
  rewrite count_calls_app, (H s), IH by set_solver. done.
Qed.

(** Only the slot of [p] calls [p]. *)
Lemma count_slot q (g : option Z -> list event_call) slots p :
  (forall s, s <> Some p -> count_calls q (g s) = 0%nat) ->
  NoDup (omap id slots) -> Some p ∈ slots ->
  count_calls q (flat_map g slots) = count_calls q (g (Some p)).
Proof.
  intros Hg Hnd Hin. apply list_elem_of_split in Hin as (l1 & l2 & ->).
  rewrite omap_app in Hnd. cbn [omap list_omap id] in Hnd.
  apply NoDup_app in Hnd as (_ & H1 & H2). apply NoDup_cons in H2 as [H2 _].
  rewrite flat_map_app, count_calls_app. cbn [flat_map]. rewrite count_calls_app.
  rewrite !(count_none q g); [lia| |].
  - intros s Hs. apply Hg. intros ->. apply H2, list_elem_of_omap. by exists (Some p).
  - intros s Hs. apply Hg. intros ->. apply (H1 p); [|set_solver].
    apply list_elem_of_omap. by exists (Some p).
Qed.

Lemma pass_cycle_count w p o :
  events_ok w -> Some p ∈ CycleEventQueue w -> cycle_objs w !! p = Some o ->
  count_calls (is_cycle_call p) (ev_log (pass w)) =
  (count_calls (is_cycle_call p) (ev_log w) +
    if ((ce_status o =? EVENT_STATE_ACTIVE)%Z && due (EventCycleCnt w) o) then 1 else 0)%nat.
Proof.
  intros Hok Hin Ho. cbn [pass set ev_log]. rewrite !count_calls_app, count_none.
  2:{ intros [q|] _; [|done]. unfold once_calls_of. destruct (once_objs w !! q); [|done].
      destruct (_ =? _); [|done]. by rewrite !count_calls_app, !count_prints. }
  rewrite (count_slot _ _ _ p); [|intros [q|] Hq; [|done]|apply Hok|done].
  - unfold cycle_calls_of. rewrite Ho. destruct (_ && _); [|done].
    rewrite count_calls_app, count_prints by done. unfold count_calls.
    cbn [List.filter is_cycle_call]. rewrite Z.eqb_refl. cbn [length]. lia.
  - unfold cycle_calls_of. destruct (cycle_objs w !! q); [|done]. destruct (_ && _); [|done].
    rewrite count_calls_app, count_prints by done.
    unfold count_calls. cbn [List.filter is_cycle_call]. by rewrite (proj2 (Z.eqb_neq q p)) by congruence.
Qed.

Lemma pass_once_count w p o :
  events_ok w -> Some p ∈ OnceEventQueue w -> once_objs w !! p = Some o ->
  count_calls (is_once_call p) (ev_log (pass w)) =
  (count_calls (is_once_call p) (ev_log w) +
    if (oe_status o =? EVENT_STATE_ACTIVE)%Z then 1 else 0)%nat.
Proof.
  intros Hok Hin Ho. cbn [pass set ev_log]. rewrite !count_calls_app.
  rewrite (count_none _ (cycle_calls_of _ _)).
  2:{ intros [q|] _; [|done]. unfold cycle_calls_of. destruct (cycle_objs w !! q); [|done].
      destruct (_ && _); [|done]. by rewrite count_calls_app, count_prints. }
  rewrite (count_slot _ _ _ p); [|intros [q|] Hq; [|done]|apply Hok|done].
  - unfold once_calls_of. rewrite Ho. destruct (_ =? _); [|done].
    rewrite !count_calls_app, !count_prints by done. unfold count_calls.
    cbn [List.filter is_once_call]. rewrite Z.eqb_refl. cbn [length]. lia.
  - unfold once_calls_of. destruct (once_objs w !! q); [|done]. destruct (_ =? _); [|done].
    rewrite !count_calls_app, !count_prints by done. unfold count_calls.
    cbn [List.filter is_once_call]. by rewrite (proj2 (Z.eqb_neq q p)) by congruence.
Qed.

Lemma counter_after c i :
  1 <= c <= EVENT_CYCLE_CNT_VALUE -> 0 <= i ->
  ((c - 1 + i) mod EVENT_CYCLE_CNT_VALUE + 1) mod EVENT_CYCLE_CNT_VALUE + 1 =
  (c - 1 + (i + 1)) mod EVENT_CYCLE_CNT_VALUE + 1.
Proof.
  intros Hc Hi. f_equal. rewrite Zplus_mod_idemp_l. f_equal. lia.
Qed.

Lemma due_after c i o o' :
  1 <= c <= EVENT_CYCLE_CNT_VALUE -> 0 <= i ->
  EventPeriodCnt o' = EventPeriodCnt o ->
  _EventInitCtn o' = (if decide (i = 0) then 0 else c) ->
  due ((c - 1 + i) mod EVENT_CYCLE_CNT_VALUE + 1) o' =
  ((i mod EVENT_CYCLE_CNT_VALUE) mod EventPeriodCnt o =? 0).
Proof.
  intros Hc Hi Hp Hf. unfold due. rewrite Hp, Hf. set (N := EVENT_CYCLE_CNT_VALUE) in *.
  assert (HN : 0 < N) by done. do 2 f_equal.
  assert (E : (N + ((c - 1 + i) mod N + 1) - c) mod N = i mod N).
  { replace (N + ((c - 1 + i) mod N + 1) - c) with ((c - 1 + i) mod N + (1 - c) + 1 * N) by lia.
    rewrite Z_mod_plus_full, Zplus_mod_idemp_l. f_equal. lia. }
  case_decide as H0.
  - subst i. rewrite Z.eqb_refl. rewrite Z.add_simpl_r, Z_mod_same_full. done.
  - rewrite (proj2 (Z.eqb_neq c 0)) by lia. exact E.
Qed.

(** The object of a cycle event after [i] passes. *)
Definition cycle_at (c i : Z) (o : CycleEventType) : CycleEventType :=
  if decide (i = 0) then o else o <| _EventInitCtn := c |>.

Lemma passes_cycle n p o : forall w i c,
  events_ok w -> Some p ∈ CycleEventQueue w -> 0 <= i ->
  1 <= c <= EVENT_CYCLE_CNT_VALUE ->
  EventCycleCnt w = (c - 1 + i) mod EVENT_CYCLE_CNT_VALUE + 1 ->
  _EventInitCtn o = 0 -> ce_status o = EVENT_STATE_ACTIVE ->
  (forall o', cycle_effect (ce_OnFunc o) o' = o') ->
  cycle_objs w !! p = Some (cycle_at c i o) ->
  exists w', passes n w = Some (tt, w') /\ events_ok w' /\
    count_calls (is_cycle_call p) (ev_log w') =
    (count_calls (is_cycle_call p) (ev_log w) +
      length (List.filter (fun k => (k mod EVENT_CYCLE_CNT_VALUE) mod EventPeriodCnt o =? 0)%Z
        (seqZ i (Z.of_nat n))))%nat.
Proof.
  induction n as [|n IH]; intros w i c Hok Hin Hi Hc Hcnt Hinit Hact Heff Ho; cbn [passes].
  { exists w. splits; [done|done|]. change (seqZ i (Z.of_nat 0)) with ([] : list Z). cbn [List.filter length]. lia. }
  rewrite (st_bind_eq _ _ _ _ _ (process_pass w Hok)).
  pose proof (pass_cycle_count w p _ Hok Hin Ho) as Hcount.
  assert (Hst : ce_status (cycle_at c i o) = EVENT_STATE_ACTIVE)
    by (unfold cycle_at; by case_decide).
  assert (Hf : _EventInitCtn (cycle_at c i o) = if decide (i = 0) then 0 else c)
    by (unfold cycle_at; by case_decide).
  assert (Hper : EventPeriodCnt (cycle_at c i o) = EventPeriodCnt o)
    by (unfold cycle_at; by case_decide).
  assert (Hfun : ce_OnFunc (cycle_at c i o) = ce_OnFunc o) by (unfold cycle_at; by case_decide).
  rewrite Hst, Hcnt, (due_after c i o) in Hcount by done.
  destruct (IH (pass w) (i + 1) c) as (w' & E & Hok' & Hn); try done.
  - by apply events_pass_ok.
  - lia.
  - cbn [pass set EventCycleCnt]. by rewrite Hcnt, counter_after.
  - cbn [pass set cycle_objs]. rewrite upd_slots_lookup, Ho, bool_decide_eq_true_2 by done.
    cbn. f_equal. unfold run_cycle. rewrite Hst, Hfun, Heff.
    change (EVENT_STATE_ACTIVE =? EVENT_STATE_ACTIVE) with true.
    replace (if due _ _ then _ else _) with (start_counting (EventCycleCnt w) (cycle_at c i o)) by (by destruct (due _ _)).
    unfold start_counting. rewrite Hf.
    assert (Hnext : cycle_at c (i + 1) o = o <| _EventInitCtn := c |>)
      by (unfold cycle_at; by rewrite decide_False by lia).
    rewrite Hnext, Hcnt. unfold cycle_at.
    case_decide as H0.
    + rewrite Z.eqb_refl. subst i. rewrite Z.mod_small by (unfold EVENT_CYCLE_CNT_VALUE in *; lia).
      unfold set. cbn. f_equal. lia.
    + by rewrite (proj2 (Z.eqb_neq c 0)) by lia.
  - exists w'. splits; [done|done|]. rewrite Hn, Hcount.
    rewrite (seqZ_cons i) by lia. replace (Z.pred (Z.of_nat (S n))) with (Z.of_nat n) by lia.
    replace (Z.succ i) with (i + 1) by lia. cbn [List.filter].
    change (EVENT_STATE_ACTIVE =? EVENT_STATE_ACTIVE) with true. cbn [andb].
    destruct (_ =? 0); cbn [length]; lia.
Qed.

(** C38: One pass of the event queues is the reference function [pass], for functions
    that change no more than the object they are given, as those of the file do
    ([EventEffects]): every active once event in a slot is called, becomes inactive, and
    its completion function is called, slot by slot from 1; then every active cycle event
    starts counting if it had not and, when due, is called, slot by slot; the pass counter
    goes round from 1 to 65535.  The queues stay well formed. *)
Theorem EventProcess_is_pass w :
  events_ok w -> TFTLCD_EventProcess w = Some (tt, pass w) /\ events_ok (pass w).
Proof. intros H. split; [by apply process_pass|by apply events_pass_ok]. Qed.

(** The cadence of a cycle event.  An active event that starts counting now
    is called, among the next [n] passes, exactly in the passes whose number,
    modulo the range 65535 of the counter, is a multiple of its period, if its function
    does not change it. *)
Theorem cycle_event_cadence w n p o :
  events_ok w -> Some p ∈ CycleEventQueue w -> cycle_objs w !! p = Some o ->
  _EventInitCtn o = 0 -> ce_status o = EVENT_STATE_ACTIVE ->
  (forall o', cycle_effect (ce_OnFunc o) o' = o') ->
  exists w', passes n w = Some (tt, w') /\
    count_calls (is_cycle_call p) (ev_log w') =
    (count_calls (is_cycle_call p) (ev_log w) +
      length (List.filter (fun k => (k mod EVENT_CYCLE_CNT_VALUE) mod EventPeriodCnt o =? 0)%Z
        (seqZ 0 (Z.of_nat n))))%nat.
Proof.
  intros Hok Hin Ho Hi Ha He. pose proof (eo_count _ Hok) as Hc.
  destruct (passes_cycle n p o w 0 (EventCycleCnt w)) as (w' & E & _ & Hn); try done.
  - rewrite Z.mod_small; unfold EVENT_CYCLE_CNT_VALUE in *; lia.
  - by exists w'.
Qed.

Lemma passes_once n p o : forall w,
  events_ok w -> Some p ∈ OnceEventQueue w -> once_objs w !! p = Some o ->
  oe_status o <> EVENT_STATE_ACTIVE ->
  exists w', passes n w = Some (tt, w') /\
    count_calls (is_once_call p) (ev_log w') = count_calls (is_once_call p) (ev_log w).
Proof.
  induction n as [|n IH]; intros w Hok Hin Ho Ha; cbn [passes]; [by exists w|].
  rewrite (st_bind_eq _ _ _ _ _ (process_pass w Hok)).
  destruct (IH (pass w)) as (w' & E & Hn); [by apply events_pass_ok|done| |done|].
  - cbn [pass set once_objs]. rewrite upd_slots_lookup, Ho, bool_decide_eq_true_2 by done.
    cbn. unfold run_once. by rewrite (proj2 (Z.eqb_neq _ _) Ha).
  - exists w'. split; [done|]. rewrite Hn, (pass_once_count _ _ o) by done.
    rewrite (proj2 (Z.eqb_neq _ _) Ha). lia.
Qed.

(** An activated once event runs exactly once, however many passes follow,
    and it runs in the first of them. *)
Theorem once_event_once w n p o :
  events_ok w -> Some p ∈ OnceEventQueue w -> once_objs w !! p = Some o ->
  oe_status o = EVENT_STATE_ACTIVE ->
  exists w', passes (S n) w = Some (tt, w') /\
    count_calls (is_once_call p) (ev_log w') = S (count_calls (is_once_call p) (ev_log w)) /\
    Once_call (oe_OnFunc o) p ∈ ev_log (pass w).
Proof.
  intros Hok Hin Ho Ha. cbn [passes]. rewrite (st_bind_eq _ _ _ _ _ (process_pass w Hok)).
  destruct (passes_once n p (run_once o) (pass w)) as (w' & E & Hn); [by apply events_pass_ok|done| | |].
  - cbn [pass set once_objs]. by rewrite upd_slots_lookup, Ho, bool_decide_eq_true_2 by done.
  - unfold run_once. rewrite (proj2 (Z.eqb_eq _ _) Ha). done.
  - exists w'. splits; [done| |].
    + rewrite Hn, (pass_once_count _ _ o) by done. rewrite (proj2 (Z.eqb_eq _ _) Ha). lia.
    + cbn [pass set ev_log]. apply elem_of_app. left. apply elem_of_app. right.
      apply list_elem_of_In, in_flat_map. exists (Some p). split; [by apply list_elem_of_In|].
      unfold once_calls_of. rewrite Ho, (proj2 (Z.eqb_eq _ _) Ha). by left.
Qed.
End pass.

(** ** Registration *)

(** Registering the objects [l] in order, all with the same functions. *)
Fixpoint register_once (f cb : Z) (l : list Z) : EV (list bool) :=
  match l with
  | [] => mret []
  | p :: l =>
      b ← TFTLCD_OnceEventRegister f cb p;
      bs ← register_once f cb l;
      mret (b :: bs)
  end.

(** The queue after the objects [l]: slots 5, 4 and 3 for the first three, then
    slot 2 for each of the others in turn. *)
Definition once_queue_after (l : list Z) : list (option Z) :=
  [None; if decide (4 <= length l)%nat then last l else None; l !! 2%nat; l !! 1%nat; l !! 0%nat].

Record registered_as (l : list Z) (w : event_world) : Prop := RegisteredAs {
  ra_queue : OnceEventQueue w = once_queue_after l;
  ra_number k p : (k < 3)%nat -> l !! k = Some p ->
    exists o, once_objs w !! p = Some o /\ oe_number o = 5 - Z.of_nat k;
  ra_last p : (4 <= length l)%nat -> last l = Some p ->
    exists o, once_objs w !! p = Some o /\ oe_number o = 2
}.

Lemma once_slot_eq w i s : (OnceEventQueue w).[i] = Some s -> once_slot i w = Some (s, w).
Proof. unfold once_slot. by intros ->. Qed.

Lemma get_once_eq w p o : once_objs w !! p = Some o -> get_once p w = Some (o, w).
Proof. unfold get_once. by intros ->. Qed.

(** The search, one slot at a time. *)
Lemma search_empty w k :
  (OnceEventQueue w).[Z.of_nat k] = Some None ->
  _TFTLCD_GetOnceEQNumber (S k) w = Some (Z.of_nat (S k), w).
Proof. intros H. cbn [_TFTLCD_GetOnceEQNumber]. by rewrite (st_bind_eq _ _ _ _ _ (once_slot_eq _ _ _ H)). Qed.

Lemma search_taken w k p o :
  (OnceEventQueue w).[Z.of_nat k] = Some (Some p) -> once_objs w !! p = Some o ->
  _TFTLCD_GetOnceEQNumber (S k) w =
    if oe_number o =? EVENT_STATE_LOGOUT then Some (Z.of_nat (S k), w)
    else _TFTLCD_GetOnceEQNumber k w.
Proof.
  intros H Ho. cbn [_TFTLCD_GetOnceEQNumber].
  rewrite (st_bind_eq _ _ _ _ _ (once_slot_eq _ _ _ H)), (st_bind_eq _ _ _ _ _ (get_once_eq _ _ _ Ho)).
  by destruct (_ =? _).
Qed.

Lemma search_registered l w :
  registered_as l w -> _TFTLCD_GetOnceEQNumber 5 w = Some (Z.max 2 (5 - Z.of_nat (length l)), w).
Proof.
  intros [Hq Hn Hl]. assert (Hslot : forall k, (OnceEventQueue w).[Z.of_nat k] = once_queue_after l !! k)
    by (intros k; rewrite Hq; apply arr_get_nat).
  assert (Hfirst : forall k p, (k < 3)%nat -> l !! k = Some p ->
    _TFTLCD_GetOnceEQNumber (5 - k) w = _TFTLCD_GetOnceEQNumber (4 - k) w).
  { intros k p Hk Hp. destruct (Hn k p Hk Hp) as (o & Ho & Hnum).
    replace (5 - k)%nat with (S (4 - k)) by lia. rewrite (search_taken w _ p o).
    - rewrite Hnum, (proj2 (Z.eqb_neq _ _)) by (unfold EVENT_STATE_LOGOUT; lia). done.
    - rewrite Hslot. do 3 (destruct k as [|k]; [cbn; by f_equal|]). lia.
    - done. }
  assert (Hnone : forall k, (k < 3)%nat -> l !! k = None ->
    _TFTLCD_GetOnceEQNumber (5 - k) w = Some (5 - Z.of_nat k, w)).
  { intros k Hk Hp. replace (5 - k)%nat with (S (4 - k)) by lia. rewrite search_empty.
    - do 2 f_equal. lia.
    - rewrite Hslot. do 3 (destruct k as [|k]; [cbn; by f_equal|]). lia. }
  destruct (l !! 0%nat) as [p0|] eqn:E0;
    [etransitivity; [exact (Hfirst 0%nat p0 ltac:(lia) E0)|]|].
  2:{ etransitivity; [exact (Hnone 0%nat ltac:(lia) E0)|]. apply lookup_ge_None in E0. do 2 f_equal. lia. }
  destruct (l !! 1%nat) as [p1|] eqn:E1;
    [etransitivity; [exact (Hfirst 1%nat p1 ltac:(lia) E1)|]|].
  2:{ etransitivity; [exact (Hnone 1%nat ltac:(lia) E1)|]. apply lookup_ge_None in E1. apply lookup_lt_Some in E0.
      do 2 f_equal. lia. }
  destruct (l !! 2%nat) as [p2|] eqn:E2;
    [etransitivity; [exact (Hfirst 2%nat p2 ltac:(lia) E2)|]|].
  2:{ etransitivity; [exact (Hnone 2%nat ltac:(lia) E2)|]. apply lookup_ge_None in E2. apply lookup_lt_Some in E1.
      do 2 f_equal. lia. }
  apply lookup_lt_Some in E2. change (4 - 2)%nat with 2%nat.
  replace (Z.max 2 (5 - Z.of_nat (length l))) with 2 by lia.
  destruct (decide (4 <= length l)%nat) as [H4|H4].
  - destruct (last l) as [p|] eqn:Ep; [|apply last_None in Ep; subst l; cbn in E2; lia].
    destruct (Hl p H4 eq_refl) as (o & Ho & Hnum). rewrite (search_taken w _ p o), Hnum; [done| |done].
    rewrite Hslot. cbn. by rewrite decide_True, Ep by done.
  - rewrite search_empty; [done|]. rewrite Hslot. cbn. by rewrite decide_False by done.
Qed.

Lemma register_one f cb p l w :
  registered_as l w -> p ∉ l -> is_Some (once_objs w !! p) ->
  exists w', TFTLCD_OnceEventRegister f cb p w = Some (true, w') /\ registered_as (l ++ [p]) w' /\
    dom (once_objs w') = dom (once_objs w).
Proof.
  intros R Hp [o0 Ho0]. pose proof R as [Hq Hn Hl]. unfold TFTLCD_OnceEventRegister.
  rewrite (st_bind_eq _ _ _ _ _ (search_registered l w R)). set (n := Z.max 2 _).
  assert (H2 : 2 <= n <= 5) by lia. rewrite (proj2 (Z.eqb_neq n 0)) by lia.
  set (o := OnceEvent n _ _ _). set (w1 := w <| once_objs ::= <[p := o]> |>).
  assert (E1 : upd_once p (fun _ => o) w = Some (tt, w1)) by (unfold upd_once; by rewrite Ho0).
  rewrite (st_bind_eq _ _ _ _ _ E1).
  assert (Hlen : Z.of_nat (length (OnceEventQueue w1)) = 5) by (cbn [w1 set OnceEventQueue]; by rewrite Hq).
  set (w2 := w1 <| OnceEventQueue := <[Z.to_nat (n - 1) := Some p]> (OnceEventQueue w1) |>).
  assert (E2 : set_once_slot (n - 1) (Some p) w1 = Some (tt, w2))
    by (unfold set_once_slot; by rewrite arr_set_is_Some by lia).
  rewrite (st_bind_eq _ _ _ _ _ E2). exists w2. split; [done|]. split.
  - constructor.
    + cbn [w2 w1 set OnceEventQueue]. rewrite Hq. unfold once_queue_after, n.
      rewrite last_snoc, length_app. cbn [length].
      destruct l as [|a [|b [|c [|e l]]]]; [done..|].
      rewrite !decide_True by (cbn [length]; lia).
      replace (Z.to_nat _) with 1%nat by (cbn [length]; lia). done.
    + intros k q Hk Hq'. cbn [w2 w1 set once_objs]. destruct (decide (q = p)) as [->|Hne].
      * exists o. split; [by rewrite lookup_insert_eq|]. cbn [o oe_number]. unfold n.
        destruct (decide (k < length l)%nat) as [Hkl|Hkl].
        -- rewrite lookup_app_l in Hq' by done. apply list_elem_of_lookup_2 in Hq'. done.
        -- rewrite lookup_app_r in Hq' by lia. apply lookup_lt_Some in Hq'. cbn in Hq'. lia.
      * rewrite lookup_insert_ne by done. apply Hn; [done|].
        apply lookup_app_Some in Hq' as [|[_ Hq']]; [done|].
        apply list_lookup_singleton_Some in Hq' as [_ ->]. done.
    + intros q H4 Hlast. rewrite last_snoc in Hlast. injection Hlast as <-.
      exists o. split; [by apply lookup_insert_eq|]. rewrite length_app in H4. cbn in H4 |- *. lia.
  - cbn [w2 w1 set once_objs]. apply dom_insert_lookup_L. by exists o0.
Qed.

Lemma register_list f cb l : forall done w,
  registered_as done w -> NoDup (done ++ l) -> (forall p, p ∈ l -> is_Some (once_objs w !! p)) ->
  exists w', register_once f cb l w = Some (replicate (length l) true, w') /\
    registered_as (done ++ l) w'.
Proof.
  induction l as [|p l IH]; intros d w R Hnd Hobj; cbn [register_once].
  { exists w. by rewrite app_nil_r. }
  destruct (register_one f cb p d w R) as (w1 & E & R1 & Hdom).
  - intros Hin. apply NoDup_app in Hnd as (_ & H & _). apply (H p Hin). by left.
  - apply Hobj. by left.
  - rewrite (st_bind_eq _ _ _ _ _ E).
    destruct (IH (d ++ [p]) w1) as (w' & E' & R'); [done|by rewrite <- app_assoc| |].
    + intros q Hq. apply elem_of_dom. rewrite Hdom. apply elem_of_dom, Hobj. by right.
    + rewrite (st_bind_eq _ _ _ _ _ E'). exists w'. rewrite <- app_assoc in R'. done.
Qed.

(** The capacity of the once queue.  Registering distinct objects one after
    the other always succeeds: the first three take slots 5, 4 and 3, the fourth
    slot 2, and each further one takes slot 2 from the one before, because the
    number 2 of that slot is the value of EVENT_STATE_LOGOUT; slot 1 is never
    used. *)
Theorem once_queue_capacity f cb l w :
  OnceEventQueue w = OnceEventQueue events_init -> NoDup l ->
  (forall p, p ∈ l -> is_Some (once_objs w !! p)) ->
  exists w', register_once f cb l w = Some (replicate (length l) true, w') /\
    OnceEventQueue w' =
      [None; if decide (4 <= length l)%nat then last l else None;
       l !! 2%nat; l !! 1%nat; l !! 0%nat].
Proof.
  intros Hq Hnd Hobj. destruct (register_list f cb l [] w) as (w' & E & R).
  - by constructor.
  - done.
  - done.
  - exists w'. split; [done|]. apply R.
Qed.

(** Changing the priority of an event in the highest slot writes one past
    the queue: the event's number is used as the index of its slot. *)
Theorem SetOnceEventPriority_top grade p w o :
  1 <= grade < ONCE_EVENT_QUEUE_NUM ->
  Z.of_nat (length (OnceEventQueue w)) = ONCE_EVENT_QUEUE_NUM ->
  once_objs w !! p = Some o -> oe_number o = ONCE_EVENT_QUEUE_NUM ->
  TFTLCD_SetOnceEventPriority grade p w = None.
Proof.
  intros Hg Hl Ho Hn. unfold TFTLCD_SetOnceEventPriority.
  replace (_ || _) with false by (symmetry; apply orb_false_iff; rewrite !Z.ltb_ge; lia).
  destruct (arr_get_is_Some (OnceEventQueue w) grade) as [s Hs]; [lia|].
  rewrite (st_bind_eq _ _ _ _ _ (once_slot_eq _ _ _ Hs)).
  set (w1 := w <| OnceEventQueue := <[Z.to_nat grade := Some p]> (OnceEventQueue w) |>).
  assert (E1 : set_once_slot grade (Some p) w = Some (tt, w1))
    by (unfold set_once_slot; by rewrite arr_set_is_Some by lia).
  rewrite (st_bind_eq _ _ _ _ _ E1), (st_bind_eq _ _ _ _ _ (get_once_eq w1 p o Ho)), Hn.
  unfold set_once_slot, mbind, ST_bind.
  replace (OnceEventQueue w1).[ONCE_EVENT_QUEUE_NUM <- s] with (@None (list (option Z))); [done|].
  symmetry. apply arr_set_None. right. cbn [w1 set OnceEventQueue]. rewrite length_insert. lia.
Qed.

(** ** Checks on a concrete application *)

Section checks.
(** The functions of the file: each makes its object inactive and prints its number. *)
#[local] Instance printf_effects : EventEffects printf_functions.
Proof.
  refine {|
    once_effect _ o := o;
    once_prints _ _ := [];
    done_prints _ := [];
    cycle_effect _ o := o <| ce_status := EVENT_STATE_INACTIVE |>;
    cycle_prints f o := [(if f =? 0 then 0 else 1, ce_number o)]
  |}; [| | |done|done].
  - intros f p w o Ho. cbn. unfold st_skip, set. cbn. rewrite insert_id, app_nil_r by done. by destruct w.
  - intros f w. cbn. unfold st_skip, set. cbn. rewrite app_nil_r. by destruct w.
  - intros f p w o Ho. cbn [cycle_func printf_functions].
    assert (E : upd_cycle p (set ce_status (fun _ => EVENT_STATE_INACTIVE)) w = Some (tt,
      w <| cycle_objs ::= <[p := o <| ce_status := EVENT_STATE_INACTIVE |>]> |>))
      by (unfold upd_cycle; by rewrite Ho).
    set (o' := o <| ce_status := EVENT_STATE_INACTIVE |>) in *. set (w1 := w <| cycle_objs ::= _ |>) in *.
    assert (E1 : get_cycle p w1 = Some (o', w1))
      by (unfold get_cycle; cbn [w1 set cycle_objs]; by rewrite lookup_insert_eq).
    destruct (f =? 0); unfold PrintCycleCnt, PrintCycleCnt1;
      by rewrite (st_bind_eq _ _ _ _ _ E), (st_bind_eq _ _ _ _ _ E1).
Defined.

(** An active once event at address 100 and an active cycle event of period 3 at
    address 200, each alone in its queue; the function of the latter is [PrintCycleCnt]. *)
Definition sample_events : event_world :=
  EventWorld [None; None; None; Some 200] [None; None; None; None; Some 100] 65534
    {[200 := CycleEvent 4 EVENT_STATE_ACTIVE 0 3 0]}
    {[100 := OnceEvent 5 EVENT_STATE_ACTIVE 8 9]} [].

Lemma sample_events_ok : events_ok sample_events.
Proof.
  constructor; try done.
  - cbn. apply NoDup_singleton.
  - cbn. apply NoDup_singleton.
  - intros p Hp. assert (p = 100) as -> by (cbn in Hp; set_solver). by eexists.
  - intros p Hp. assert (p = 200) as -> by (cbn in Hp; set_solver). by eexists.
Qed.

Example EventProcess_is_pass_witness :
  TFTLCD_EventProcess (EF := printf_functions) sample_events = Some (tt, pass (EE := printf_effects) sample_events) /\
  ev_log (pass (EE := printf_effects) sample_events) = [Once_call 8 100; Once_done 9; Cycle_call 0 200; Cycle_value 0 4] /\
  ce_status <$> cycle_objs (pass (EE := printf_effects) sample_events) !! 200 = Some EVENT_STATE_INACTIVE.
Proof.
  split; [|split; by vm_compute].
  exact (proj1 (EventProcess_is_pass (EE := printf_effects) sample_events sample_events_ok)).
Defined.

(** Functions that do nothing. *)
Definition idle_functions : EventFunctions := {|
  once_func _ _ := st_skip;
  once_done_func _ := st_skip;
  cycle_func _ _ := st_skip
|}.

#[local] Instance idle_effects : EventEffects idle_functions.
Proof.
  refine {|
    once_effect _ o := o;
    once_prints _ _ := [];
    done_prints _ := [];
    cycle_effect _ o := o;
    cycle_prints _ _ := []
  |}; [| | |done|done].
  - intros f p w o Ho. cbn. unfold st_skip, set. cbn. rewrite insert_id, app_nil_r by done. by destruct w.
  - intros f w. cbn. unfold st_skip, set. cbn. rewrite app_nil_r. by destruct w.
  - intros f p w o Ho. cbn. unfold st_skip, set. cbn. rewrite insert_id, app_nil_r by done. by destruct w.
Defined.

Example cycle_event_cadence_witness :
  exists w, passes (EF := idle_functions) 8 sample_events = Some (tt, w) /\
    count_calls (is_cycle_call 200) (ev_log w) = 3%nat.
Proof.
  destruct (cycle_event_cadence (EE := idle_effects) sample_events 8 200
    (CycleEvent 4 EVENT_STATE_ACTIVE 0 3 0)) as (w & E & H);
    [apply sample_events_ok|cbn; set_solver|done|done|done|done|].
  exists w. exact (conj E H).
Defined.

Example once_event_once_witness :
  exists w, passes (EF := printf_functions) 5 sample_events = Some (tt, w) /\
    count_calls (is_once_call 100) (ev_log w) = 1%nat.
Proof.
  destruct (once_event_once (EE := printf_effects) sample_events 4 100
    (OnceEvent 5 EVENT_STATE_ACTIVE 8 9)) as (w & E & H & _);
    [apply sample_events_ok|cbn; set_solver|done|done|].
  exists w. exact (conj E H).
Defined.

Definition six_objects : event_world :=
  events_init <| once_objs := list_to_map ((fun p => (p, OnceEvent 0 0 0 0)) <$> [1; 2; 3; 4; 5; 6]) |>.

Example once_queue_capacity_witness :
  exists w, register_once 8 9 [1; 2; 3; 4; 5; 6] six_objects = Some (replicate 6 true, w) /\
    OnceEventQueue w = [None; Some 6; Some 3; Some 2; Some 1].
Proof.
  destruct (once_queue_capacity 8 9 [1; 2; 3; 4; 5; 6] six_objects) as (w & E & H).
  - done.
  - by apply (bool_decide_unpack _).
  - intros p Hp. apply elem_of_dom. revert p Hp. apply Forall_forall. by apply (bool_decide_unpack _).
  - exists w. exact (conj E H).
Defined.

Example SetOnceEventPriority_top_witness : TFTLCD_SetOnceEventPriority 2 100 sample_events = None.
Proof.
  apply (SetOnceEventPriority_top 2 100 sample_events (OnceEvent 5 EVENT_STATE_ACTIVE 8 9));
    [done|reflexivity|reflexivity|reflexivity].
Defined.
End checks.
