(* ===== verification/Bits.v ===== *)
(** * Bits: the bit copy of src/pdo.c

    [CopyBits] moves a field of bits between two byte arrays, as many bits at a
    time as stay inside one byte of both.  Bit [k] of an array is bit [k mod 8]
    of its byte [k / 8]. *)

From S2P Require Import Prelude CMem.

(** ** Operation

    A pointer into an array is the array and an index; [fuel] bounds the bits
    left (each turn copies at least one). *)

Fixpoint CopyBits_loop (fuel : nat) (NbBits : Z)
    (src : list Z) (SrcByteIndex SrcBitIndex : Z) (SrcBigEndian : bool)
    (dst : list Z) (DestByteIndex DestBitIndex : Z) (DestBigEndian : bool)
    : option (list Z) :=
  match fuel with
  | O => Some dst
  | S fuel =>
      if NbBits <=? 0 then Some dst else
      let Vect := DestBitIndex - SrcBitIndex in
      s ← src.[SrcByteIndex];
      let Aligned := u8 (if 0 <? Vect then Z.shiftl s Vect else Z.shiftr s (- Vect)) in
      let BoudaryLimit := if 0 <? Vect then 8 - DestBitIndex else 8 - SrcBitIndex in
      let BitsToCopy := if NbBits <? BoudaryLimit then NbBits else BoudaryLimit in
      let Mask := u8 (Z.lor (Z.shiftl 0xff (DestBitIndex + BitsToCopy))
                            (Z.shiftr 0xff (8 - DestBitIndex))) in
      let Filtered := u8 (Z.land Aligned (Z.lnot Mask)) in
      b ← dst.[DestByteIndex];
      dst ← dst.[DestByteIndex <- Z.lor (Z.land b Mask) Filtered];
      let SrcBitIndex := SrcBitIndex + BitsToCopy in
      let '(SrcBitIndex, SrcByteIndex) :=
        if 7 <? SrcBitIndex
        then (0, SrcByteIndex + (if SrcBigEndian then -1 else 1))
        else (SrcBitIndex, SrcByteIndex) in
      let DestBitIndex := DestBitIndex + BitsToCopy in
      let '(DestBitIndex, DestByteIndex) :=
        if 7 <? DestBitIndex
        then (0, DestByteIndex + (if DestBigEndian then -1 else 1))
        else (DestBitIndex, DestByteIndex) in
      CopyBits_loop fuel (NbBits - BitsToCopy)
        src SrcByteIndex SrcBitIndex SrcBigEndian
        dst DestByteIndex DestBitIndex DestBigEndian
  end.

Definition CopyBits (NbBits : Z) (src : list Z) (SrcByteIndex SrcBitIndex : Z)
    (SrcBigEndian : bool) (dst : list Z) (DestByteIndex DestBitIndex : Z)
    (DestBigEndian : bool) : option (list Z) :=
  CopyBits_loop (Z.to_nat NbBits) NbBits src SrcByteIndex SrcBitIndex SrcBigEndian
    dst DestByteIndex DestBitIndex DestBigEndian.

(** ** Bits of an array *)

Definition abit (l : list Z) (k : Z) : bool :=
  match l.[k / 8] with Some b => Z.testbit b (k mod 8) | None => false end.

Definition bytes (l : list Z) : Prop := Forall is_byte l.

Lemma testbit_ff i : 0 <= i -> Z.testbit 0xff i = (i <? 8).
Proof.
  intros. change 0xff with (Z.ones 8). rewrite Z.testbit_ones by lia.
  by replace (0 <=? i) with true by (symmetry; apply Z.leb_le; lia).
Qed.

Lemma testbit_u8 x i : 0 <= i < 8 -> Z.testbit (u8 x) i = Z.testbit x i.
Proof. intros. unfold u8. apply Z.mod_pow2_bits_low. lia. Qed.

(** The mask keeps the bits outside the field. *)
Lemma mask_bit db n i :
  0 <= db < 8 -> 0 < n -> db + n <= 8 -> 0 <= i < 8 ->
  Z.testbit (u8 (Z.lor (Z.shiftl 0xff (db + n)) (Z.shiftr 0xff (8 - db)))) i =
  negb ((db <=? i) && (i <? db + n)).
Proof.
  intros Hdb Hn Hle Hi. rewrite testbit_u8, Z.lor_spec, Z.shiftl_spec, Z.shiftr_spec by lia.
  rewrite (testbit_ff (i + (8 - db))) by lia.
  destruct (decide (db + n <= i)) as [H|H].
  - rewrite testbit_ff by lia. by repeat ztest.
  - rewrite Z.testbit_neg_r by lia. cbn [orb].
    apply eq_true_iff_eq. rewrite negb_true_iff, andb_false_iff, !Z.ltb_lt, Z.leb_gt, Z.ltb_ge.
    lia.
Qed.

Lemma aligned_bit s v i : 0 <= i ->
  Z.testbit (if 0 <? v then Z.shiftl s v else Z.shiftr s (- v)) i = Z.testbit s (i - v).
Proof.
  intros. zcase; [by rewrite Z.shiftl_spec|].
  by rewrite Z.shiftr_spec by lia.
Qed.

(** The byte written by one turn. *)
Lemma copied_bit s b sb db n i :
  0 <= db < 8 -> 0 < n -> db + n <= 8 -> 0 <= i < 8 ->
  let v := db - sb in
  let mask := u8 (Z.lor (Z.shiftl 0xff (db + n)) (Z.shiftr 0xff (8 - db))) in
  let aligned := u8 (if 0 <? v then Z.shiftl s v else Z.shiftr s (- v)) in
  Z.testbit (Z.lor (Z.land b mask) (u8 (Z.land aligned (Z.lnot mask)))) i =
  if (db <=? i) && (i <? db + n) then Z.testbit s (i - db + sb) else Z.testbit b i.
Proof.
  intros Hdb Hn Hle Hi v mask aligned.
  rewrite Z.lor_spec, Z.land_spec, testbit_u8, Z.land_spec, Z.lnot_spec by lia.
  unfold mask, aligned. rewrite mask_bit, (testbit_u8 (if 0 <? v then Z.shiftl s v else Z.shiftr s (- v)))
    by lia.
  rewrite aligned_bit by lia. unfold v. replace (i - (db - sb)) with (i - db + sb) by lia.
  destruct ((db <=? i) && (i <? db + n)); cbn [negb];
    rewrite ?andb_false_r, ?andb_true_r, ?orb_false_r; done.
Qed.

Lemma copied_byte s b sb db n :
  is_byte b ->
  let v := db - sb in
  let mask := u8 (Z.lor (Z.shiftl 0xff (db + n)) (Z.shiftr 0xff (8 - db))) in
  let aligned := u8 (if 0 <? v then Z.shiftl s v else Z.shiftr s (- v)) in
  is_byte (Z.lor (Z.land b mask) (u8 (Z.land aligned (Z.lnot mask)))).
Proof.
  intros Hb v mask aligned. apply (lor_range 8); [lia| |apply u8_range].
  rewrite Z.land_comm. by apply (land_range 8).
Qed.

(** ** The copy *)

Definition copies (dst src dst' : list Z) (d s n : Z) : Prop :=
  length dst' = length dst /\ bytes dst' /\
  forall k, 0 <= k ->
    abit dst' k = if (d <=? k) && (k <? d + n) then abit src (s + (k - d)) else abit dst k.

Lemma abit_set l i x k : 0 <= i < Z.of_nat (length l) -> 0 <= k ->
  abit (<[Z.to_nat i := x]> l) k = if k / 8 =? i then Z.testbit x (k mod 8) else abit l k.
Proof.
  intros Hi Hk. unfold abit. rewrite insert_get by done.
  destruct (decide (k / 8 = i)) as [->|Hne]; [by rewrite Z.eqb_refl|].
  by rewrite (proj2 (Z.eqb_neq _ _) Hne).
Qed.

(** One turn copies [n] bits inside a byte of the source and one of the
    destination. *)
Lemma copy_turn dst src si sb di db n s b :
  bytes dst -> src.[si] = Some s -> dst.[di] = Some b ->
  0 <= sb -> sb + n <= 8 -> 0 <= db -> db + n <= 8 -> 0 < n ->
  let v := db - sb in
  let mask := u8 (Z.lor (Z.shiftl 0xff (db + n)) (Z.shiftr 0xff (8 - db))) in
  let aligned := u8 (if 0 <? v then Z.shiftl s v else Z.shiftr s (- v)) in
  copies dst src
    (<[Z.to_nat di := Z.lor (Z.land b mask) (u8 (Z.land aligned (Z.lnot mask)))]> dst)
    (8 * di + db) (8 * si + sb) n.
Proof.
  intros Hby Hs Hb Hsb Hsn Hdb Hdn Hn v mask aligned.
  pose proof (arr_get_lt _ _ _ Hs) as Hsi. pose proof (arr_get_lt _ _ _ Hb) as Hdi.
  assert (Hbb : is_byte b).
  { apply arr_get_Some in Hb as [_ Hb]. unfold bytes in Hby. rewrite Forall_lookup in Hby.
    by eapply Hby. }
  split; [by rewrite length_insert|]. split; [by apply Forall_insert, copied_byte|].
  intros k Hk. rewrite abit_set by done.
  pose proof (Z.div_mod k 8 ltac:(lia)) as Ek. pose proof (Z.mod_pos_bound k 8 ltac:(lia)) as Hm.
  destruct (k / 8 =? di) eqn:Ed; zb.
  - unfold mask, aligned, v. rewrite copied_bit by lia.
    replace ((8 * di + db <=? k) && (k <? 8 * di + db + n))
      with ((db <=? k mod 8) && (k mod 8 <? db + n)).
    2: { apply eq_true_iff_eq. rewrite !andb_true_iff, !Z.leb_le, !Z.ltb_lt. lia. }
    destruct ((db <=? k mod 8) && _) eqn:E; zb.
    + unfold abit. replace (8 * si + sb + (k - (8 * di + db)))
        with (k mod 8 - db + sb + si * 8) by lia.
      rewrite Z.div_add, Z.mod_add by lia.
      rewrite (Z.div_small (k mod 8 - db + sb)), (Z.mod_small (k mod 8 - db + sb)) by lia.
      by rewrite Z.add_0_l, Hs.
    + unfold abit. by rewrite Ed, Hb.
  - replace ((8 * di + db <=? k) && (k <? 8 * di + db + n)) with false; [done|].
    symmetry. apply andb_false_iff. rewrite Z.leb_gt, Z.ltb_ge. lia.
Qed.

Lemma copies_trans dst src d1 d2 d s n m :
  copies dst src d1 d s n -> copies d1 src d2 (d + n) (s + n) m ->
  0 <= n -> 0 <= m -> copies dst src d2 d s (n + m).
Proof.
  intros (L1 & _ & H1) (L2 & B2 & H2) Hn Hm. split; [congruence|]. split; [done|].
  intros k Hk. rewrite H2, H1 by done.
  destruct ((d + n <=? k) && (k <? d + n + m)) eqn:E2.
  - zb. repeat ztest. f_equal. lia.
  - destruct ((d <=? k) && (k <? d + n)) eqn:E1.
    + zb. by repeat ztest.
    + destruct ((d <=? k) && (k <? d + (n + m))) eqn:E3; [zb; lia|done].
Qed.

Lemma copies_refl l src d s : bytes l -> copies l src l d s 0.
Proof.
  intros Hb. split; [done|]. split; [done|]. intros k Hk.
  destruct ((d <=? k) && (k <? d + 0)) eqn:E; [zb; lia|done].
Qed.

Lemma CopyBits_loop_spec fuel nb src si sb dst di db :
  (Z.to_nat nb <= fuel)%nat -> 0 <= nb -> bytes dst ->
  0 <= si -> 0 <= sb < 8 -> 0 <= di -> 0 <= db < 8 ->
  8 * si + sb + nb <= 8 * Z.of_nat (length src) ->
  8 * di + db + nb <= 8 * Z.of_nat (length dst) ->
  exists dst', CopyBits_loop fuel nb src si sb false dst di db false = Some dst' /\
    copies dst src dst' (8 * di + db) (8 * si + sb) nb.
Proof.
  revert nb si sb dst di db.
  induction fuel as [|fuel IH]; intros nb si sb dst di db Hf Hnb Hb Hsi Hsb Hdi Hdb Hs Hd;
    cbn [CopyBits_loop].
  { exists dst. replace nb with 0 by lia. split; [done|by apply copies_refl]. }
  destruct (nb <=? 0) eqn:E0; zb.
  { exists dst. replace nb with 0 by lia. split; [done|by apply copies_refl]. }
  destruct (arr_get_is_Some src si) as [s Es]; [lia|].
  destruct (arr_get_is_Some dst di) as [b Eb]; [lia|].
  rewrite Es, Eb. cbn [mbind option_bind].
  set (lim := if 0 <? db - sb then 8 - db else 8 - sb).
  assert (Hlim : 0 < lim /\ sb + lim <= 8 /\ db + lim <= 8)
    by (unfold lim; zcase; lia).
  set (n := if nb <? lim then nb else lim).
  assert (Hn : 0 < n <= lim /\ n <= nb) by (unfold n; zcase; lia).
  pose proof (copy_turn dst src si sb di db n s b Hb Es Eb ltac:(lia) ltac:(lia) ltac:(lia)
    ltac:(lia) ltac:(lia)) as Hturn. cbn zeta in Hturn.
  rewrite arr_set_is_Some by lia. cbn [mbind option_bind].
  set (dst1 := <[Z.to_nat di := _]> dst) in *. pose proof Hturn as (L1 & B1 & _).
  destruct (if 7 <? sb + n then (0, si + 1) else (sb + n, si)) as [sb' si'] eqn:Esrc.
  assert (Hsrc : 0 <= si' /\ 0 <= sb' < 8 /\ 8 * si' + sb' = 8 * si + sb + n)
    by (revert Esrc; zcase; intros [= <- <-]; lia).
  destruct (if 7 <? db + n then (0, di + 1) else (db + n, di)) as [db' di'] eqn:Edst.
  assert (Hdst : 0 <= di' /\ 0 <= db' < 8 /\ 8 * di' + db' = 8 * di + db + n)
    by (revert Edst; zcase; intros [= <- <-]; lia).
  destruct (IH (nb - n) si' sb' dst1 di' db') as (dst' & E & Hrest); try lia; [done|].
  exists dst'. split; [exact E|].
  replace nb with (n + (nb - n)) by lia. eapply copies_trans; [exact Hturn| |lia|lia].
  replace (8 * di + db + n) with (8 * di' + db') by lia.
  by replace (8 * si + sb + n) with (8 * si' + sb') by lia.
Qed.

Lemma CopyBits_copies n src si sb dst di db :
  0 <= n -> bytes dst -> 0 <= si -> 0 <= sb < 8 -> 0 <= di -> 0 <= db < 8 ->
  8 * si + sb + n <= 8 * Z.of_nat (length src) ->
  8 * di + db + n <= 8 * Z.of_nat (length dst) ->
  exists dst', CopyBits n src si sb false dst di db false = Some dst' /\
    length dst' = length dst /\ bytes dst' /\
    forall k, 0 <= k -> abit dst' k =
      if (8 * di + db <=? k) && (k <? 8 * di + db + n)
      then abit src (8 * si + sb + (k - (8 * di + db))) else abit dst k.
Proof. intros. unfold CopyBits. by apply CopyBits_loop_spec. Qed.

(** Copying [n] bits from bit [s] of an array to bit [d] of another, both
    inside their arrays, terminates without leaving them and copies exactly
    those bits: bit [d + j] becomes bit [s + j] for [j < n], every other bit of
    the destination stays. *)
Theorem CopyBits_spec n src si sb dst di db :
  0 <= n -> bytes dst -> 0 <= si -> 0 <= sb < 8 -> 0 <= di -> 0 <= db < 8 ->
  8 * si + sb + n <= 8 * Z.of_nat (length src) ->
  8 * di + db + n <= 8 * Z.of_nat (length dst) ->
  exists dst', CopyBits n src si sb false dst di db false = Some dst' /\
    length dst' = length dst /\ bytes dst' /\
    forall k, 0 <= k -> abit dst' k =
      if (8 * di + db <=? k) && (k <? 8 * di + db + n)
      then abit src (8 * si + sb + (k - (8 * di + db))) else abit dst k.
Proof. apply CopyBits_copies. Qed.

Example CopyBits_spec_witness :
  exists dst', CopyBits 5 [0xB0; 0x01] 0 4 false [0xFF; 0xFF] 0 6 false = Some dst' /\
    abit dst' 6 = true /\ abit dst' 8 = false.
Proof.
  destruct (CopyBits_spec 5 [0xB0; 0x01] 0 4 [0xFF; 0xFF] 0 6) as (dst' & E & _ & _ & H);
    try (cbn; lia); [by repeat constructor|].
  exists dst'. split; [exact E|]. split; rewrite H by lia; reflexivity.
Defined.
