(* ===== verification/Pdo.v ===== *)
(** * Pdo: process data objects (src/pdo.c)

    A transmit PDO packs the variables its mapping entries name, bit by bit, into
    a message; a receive PDO is unpacked into variables.  Transmission is
    triggered by SYNC messages, by changes (with an inhibit and an event timer)
    or by remote requests. *)

From S2P Require Import Prelude CMem Timers Node ObjDict Bits.

Definition PDO_INHIBITED : Z := 0x01.
Definition PDO_RTR_SYNC_READY : Z := 0x01.
Definition TRANS_SYNC_ACYCLIC : Z := 0.
Definition TRANS_SYNC_MIN : Z := 1.
Definition TRANS_SYNC_MAX : Z := 240.
Definition TRANS_RTR_SYNC : Z := 252.
Definition TRANS_RTR : Z := 253.
Definition TRANS_EVENT_SPECIFIC : Z := 254.
Definition TRANS_EVENT_PROFILE : Z := 255.

(** ** Access to the structures *)

Definition get_PDO_status (n : Z) : CO s_PDO_status :=
  p ← get co_pdos; opt ((PDO_status p).[n]).

Definition upd_PDO_status (n : Z) (f : s_PDO_status -> s_PDO_status) : CO unit := fun d =>
  s ← (PDO_status (co_pdos d)).[n];
  l ← (PDO_status (co_pdos d)).[n <- f s];
  Some (tt, d <| co_pdos ::= set PDO_status (fun _ => l) |>).

(** [*(UNSk * )d->objdict[i].pSubindex[s].pObject]. *)
Definition rd_sub (k i s : Z) : CO Z := sub ← od_sub i s; rd k (pObject sub).

Definition csPDO_on : CO bool :=
  st ← get co_st; ret (negb (csPDO (CurrentCommunicationState st) =? 0)).

(** [memcpy(tmp, bs)] into a buffer of zeros. *)
Definition fill8 (bs : list Z) : option (list Z) :=
  if Z.of_nat (length bs) <=? 8 then Some (bs ++ drop (length bs) (replicate 8 0)) else None.

(** The fields of a mapping parameter. *)
Definition map_index (p : Z) : Z := u16 (Z.shiftr p 16).
Definition map_subIndex (p : Z) : Z := Z.land (Z.shiftr p 8) 0xFF.
Definition map_size (p : Z) : Z := Z.land p 0xFF.

(** ** Building a message *)

(** One turn of the loop on mapping entry [prp_j]: the new offset and message,
    [None] for the error return. *)
Definition build_entry (mapi prp_j offset : Z) (pdo : Message)
    : CO (option (Z * Message)) :=
  param ← rd_sub 4 mapi (prp_j + 1);
  let Size := map_size param in
  if negb (Size =? 0) && (offset + Size <=? 64) then
    let ByteSize := 1 + Z.shiftr (Size - 1) 3 in
    r ← getODentry (map_index param) (map_subIndex param) false ByteSize false;
    if negb (rd_code r =? OD_SUCCESSFUL) then ret None else
    tmp ← opt (fill8 (rd_bytes r));
    l ← opt (CopyBits Size tmp 0 0 false (msg_data pdo) (Z.shiftr offset 3) (offset mod 8) false);
    ret (Some (offset + Size, pdo <| msg_data := l |>))
  else ret (Some (offset, pdo)).

(** The do-while loop; there are at most 255 mapping entries.  The answer is the final
    offset, [None] for the error return, and the message as the loop leaves it. *)
Fixpoint build_entries (fuel : nat) (mapi prp_j offset : Z) (pdo : Message)
    : CO (option Z * Message) :=
  match fuel with
  | O => ret (Some offset, pdo)
  | S fuel =>
      r ← build_entry mapi prp_j offset pdo;
      match r with
      | None => ret (None, pdo)
      | Some (offset, pdo) =>
          count ← rd_sub 1 mapi 0;
          if prp_j + 1 <? count then build_entries fuel mapi (prp_j + 1) offset pdo
          else ret (Some offset, pdo)
      end
  end.

(** The answer is 0 or 0xFF, and the message as the call leaves it. *)
Definition buildPDO (numPdo : Z) (pdo : Message) : CO (Z * Message) :=
  od ← get co_od;
  let comi := PDO_TRS (firstIndex od) + numPdo in
  let mapi := PDO_TRS_MAP (firstIndex od) + numPdo in
  cobid ← rd_sub 4 comi 1;
  let pdo := pdo <| cob_id := u16 (Z.land cobid 0x7FF) |> <| rtr := NOT_A_REQUEST |> in
  r ← build_entries 256 mapi 0 0 pdo;
  match r with
  | (None, pdo) => ret (0xFF, pdo)
  | (Some offset, pdo) =>
      ret (0, pdo <| len := u8 (1 + Z.shiftr (u32 (offset - 1)) 3) |>)
  end.

(** ** Sending *)

Definition sendPDOrequest (RPDOIndex : Z) : CO Z :=
  od ← get co_od;
  on ← csPDO_on;
  if negb on then ret 0 else
  let offset := PDO_RCV (firstIndex od) in
  if negb (offset =? 0) && (0x1400 <=? RPDOIndex) then
    let offset := u16 (offset + (RPDOIndex - 0x1400)) in
    if offset <=? PDO_RCV (lastIndex od) then
      m ← Message_uninit;
      cobid ← rd_sub 2 offset 1;
      canSend (MkMessage cobid REQUEST 0 (msg_data m))
    else ret 0xFF
  else ret 0xFF.

Definition sendPdo (pdoNum : Z) (pdo : Message) : CO unit :=
  _ ← upd_PDO_status pdoNum (set last_message (fun _ => pdo));
  _ ← canSend pdo;
  st_skip.

(** [last_message] and [pdo] have the same identifier, length and 8 bytes. *)
Definition same_message (a b : Message) : bool :=
  (cob_id a =? cob_id b) && (len a =? len b) &&
  bool_decide (take 8 (msg_data a) = take 8 (msg_data b)).

Definition sendOnePDOevent (pdoNum : Z) : CO Z :=
  on ← csPDO_on;
  if negb on then ret 0 else
  s ← get_PDO_status pdoNum;
  if negb (Z.land (transmit_type_parameter s) PDO_INHIBITED =? 0) then ret 0 else
  od ← get co_od;
  let offsetObjdict := u16 (PDO_TRS (firstIndex od) + pdoNum) in
  '(err, pdo) ← buildPDO pdoNum Message_Initializer;
  if negb (err =? 0) then ret 0 else
  s ← get_PDO_status pdoNum;
  if same_message (last_message s) pdo then ret 0 else
  EventTimerDuration ← rd_sub 2 offsetObjdict 5;
  InhibitTimerDuration ← rd_sub 2 offsetObjdict 3;
  _ ← when (negb (EventTimerDuration =? 0))
    (_ ← coDelAlarm (event_timer s);
     h ← coSetAlarm pdoNum PDOEventTimerAlarm_cb (MS_TO_TIMEVAL EventTimerDuration) 0;
     upd_PDO_status pdoNum (set event_timer (fun _ => h)));
  _ ← when (negb (InhibitTimerDuration =? 0))
    (_ ← coDelAlarm (inhibit_timer s);
     h ← coSetAlarm pdoNum PDOInhibitTimerAlarm_cb
           (US_TO_TIMEVAL (InhibitTimerDuration * 100)) 0;
     upd_PDO_status pdoNum (fun s =>
       s <| inhibit_timer := h |>
         <| transmit_type_parameter ::= (fun p => Z.lor p PDO_INHIBITED) |>));
  _ ← sendPdo pdoNum pdo;
  ret 1.

Definition PDOEventTimerAlarm (pdoNum : Z) : CO unit :=
  _ ← upd_PDO_status pdoNum (fun s =>
    s <| event_timer := TIMER_NONE |> <| last_message ::= set cob_id (fun _ => 0) |>);
  _ ← sendOnePDOevent (u8 pdoNum);
  st_skip.

Definition PDOInhibitTimerAlarm (pdoNum : Z) : CO unit :=
  _ ← upd_PDO_status pdoNum (fun s =>
    s <| inhibit_timer := TIMER_NONE |>
      <| transmit_type_parameter ::= (fun p => Z.land p (u8 (Z.lnot PDO_INHIBITED))) |>);
  _ ← sendOnePDOevent (u8 pdoNum);
  st_skip.

Definition RxPDO_EventTimers_Handler (pdoNum : Z) : CO unit :=
  emit (Call_RxPDO_EventTimers_Handler pdoNum).

(** The body of the loop on one transmit PDO, at position [offsetObjdict]. *)
Definition sendPDOevent_one (isSyncEvent : bool) (pdoNum offsetObjdict : Z) : CO unit :=
  cobid ← rd_sub 4 offsetObjdict 1;
  if negb (Z.land cobid 0x80000000 =? 0) then st_skip else
  type ← rd_sub 1 offsetObjdict 2;
  let cyclic := isSyncEvent && (TRANS_SYNC_MIN <=? type) && (type <=? TRANS_SYNC_MAX) in
  _ ← when cyclic
    (upd_PDO_status pdoNum (set transmit_type_parameter (fun p => u8 (p + 1))));
  s ← get_PDO_status pdoNum;
  if cyclic && (transmit_type_parameter s =? type) then
    _ ← upd_PDO_status pdoNum (set transmit_type_parameter (fun _ => 0));
    '(err, pdo) ← buildPDO pdoNum Message_Initializer;
    if negb (err =? 0) then st_skip else sendPdo pdoNum pdo
  else if isSyncEvent && (type =? TRANS_RTR_SYNC) then
    '(err, pdo) ← buildPDO pdoNum (last_message s);
    upd_PDO_status pdoNum (fun s =>
      s <| last_message := pdo |>
        <| transmit_type_parameter ::= (fun p =>
             if negb (err =? 0) then Z.land p (u8 (Z.lnot PDO_RTR_SYNC_READY))
             else Z.lor p PDO_RTR_SYNC_READY) |>)
  else if (isSyncEvent && (type =? TRANS_SYNC_ACYCLIC)) ||
          (negb isSyncEvent &&
           ((type =? TRANS_EVENT_PROFILE) || (type =? TRANS_EVENT_SPECIFIC)) &&
           (Z.land (transmit_type_parameter s) PDO_INHIBITED =? 0)) then
    _ ← sendOnePDOevent pdoNum; st_skip
  else st_skip.

(** The number of positions from [first] to [last], none if [first] is 0. *)
Definition positions (first last : Z) : nat :=
  if first =? 0 then 0%nat else Z.to_nat (last - first + 1).

Definition _sendPDOevent (isSyncEvent : bool) : CO Z :=
  od ← get co_od;
  on ← csPDO_on;
  if negb on then ret 0 else
  let first := PDO_TRS (firstIndex od) in
  _ ← st_for (positions first (PDO_TRS (lastIndex od))) 0 (fun k =>
    sendPDOevent_one isSyncEvent (u8 k) (first + k));
  ret 0.

Definition sendPDOevent : CO Z := _sendPDOevent false.

(** Deleting both alarms of a PDO. *)
Definition zap_timers (n : Z) : CO unit :=
  s ← get_PDO_status n;
  h ← coDelAlarm (event_timer s);
  _ ← upd_PDO_status n (set event_timer (fun _ => h));
  s ← get_PDO_status n;
  h ← coDelAlarm (inhibit_timer s);
  upd_PDO_status n (set inhibit_timer (fun _ => h)).

(** Registered on subindexes 2, 3 and 5 of the communication parameters;
    [OD_entry] is the position of the entry. *)
Definition TPDO_Communication_Parameter_Callback (OD_entry bSubindex : Z) : CO Z :=
  on ← csPDO_on;
  if on && ((bSubindex =? 2) || (bSubindex =? 3) || (bSubindex =? 5)) then
    od ← get co_od;
    let numPdo := u8 (OD_entry - PDO_TRS (firstIndex od)) in
    _ ← zap_timers numPdo;
    _ ← upd_PDO_status numPdo (set transmit_type_parameter (fun _ => 0));
    _ ← PDOEventTimerAlarm numPdo;
    ret 0
  else ret 0.

Definition PDOInit : CO unit :=
  od ← get co_od;
  let first := PDO_TRS (firstIndex od) in
  _ ← st_for (positions first (PDO_TRS (lastIndex od))) 0 (fun k =>
    let pdoIndex := u16 (0x1800 + k) in
    '(errorCode, _) ← scanIndexOD pdoIndex;
    cbs ← get co_cbs;
    when ((errorCode =? OD_SUCCESSFUL) && bool_decide (is_Some (cbs !! pdoIndex)))
      (_ ← set_callback pdoIndex 2 (Some TPDO_Communication_Parameter_cb);
       _ ← set_callback pdoIndex 3 (Some TPDO_Communication_Parameter_cb);
       set_callback pdoIndex 5 (Some TPDO_Communication_Parameter_cb)));
  _ ← _sendPDOevent false;
  st_skip.

Definition PDOStop : CO unit :=
  od ← get co_od;
  let first := PDO_TRS (firstIndex od) in
  st_for (positions first (PDO_TRS (lastIndex od))) 0 (fun k =>
    _ ← zap_timers (u8 k);
    upd_PDO_status (u8 k) (fun s =>
      s <| transmit_type_parameter := 0 |>
        <| last_message ::= set cob_id (fun _ => 0) |>)).

(** ** Receiving *)

(** The search for the position whose 16-bit COB-ID is [cob]; [fuel] positions
    are left.  The answer is the position and the number of the PDO. *)
Fixpoint find_cobid (fuel : nat) (offsetObjdict numPdo cob : Z) : CO (option (Z * Z)) :=
  match fuel with
  | O => ret None
  | S fuel =>
      c ← rd_sub 2 offsetObjdict 1;
      if c =? cob then ret (Some (offsetObjdict, numPdo))
      else find_cobid fuel (offsetObjdict + 1) (u8 (numPdo + 1)) cob
  end.

Section receiving.
Context `{ODC : ODCallbacks}.

(** One mapped variable: the new offset, [None] for the error return. *)
Definition receive_entry (m : Message) (mapi numMap offset : Z) : CO (option Z) :=
  param ← rd_sub 4 mapi (numMap + 1);
  let Size := map_size param in
  if negb (Size =? 0) && (offset + Size <=? Z.shiftl (len m) 3) then
    tmp ← opt (CopyBits Size (msg_data m) (Z.shiftr offset 3) (offset mod 8) false
                 (replicate 8 0) 0 0 false);
    let ByteSize := 1 + Z.shiftr (Size - 1) 3 in
    '(objDict, _) ← setODentry (map_index param) (map_subIndex param) tmp ByteSize false;
    if negb (objDict =? OD_SUCCESSFUL) then ret None
    else ret (Some (u8 (offset + Size)))
  else ret (Some offset).

Fixpoint receive_entries (fuel : nat) (m : Message) (mapi numMap offset : Z)
    : CO (option Z) :=
  match fuel with
  | O => ret (Some offset)
  | S fuel =>
      count ← rd_sub 1 mapi 0;
      if numMap <? count then
        r ← receive_entry m mapi numMap offset;
        match r with
        | None => ret None
        | Some offset => receive_entries fuel m mapi (numMap + 1) offset
        end
      else ret (Some offset)
  end.

Definition set_RxTimer (n h : Z) : CO unit := fun d =>
  l ← RxPDO_EventTimers (co_pdos d);
  l' ← l.[n <- h];
  Some (tt, d <| co_pdos ::= set RxPDO_EventTimers (fun _ => Some l') |>).

(** The event timer of a receive PDO, after its variables are written.  (The
    duration is read from the first mapping entry, not from the communication
    parameter of the PDO.) *)
Definition restart_RxTimer (offsetObjdict numPdo : Z) : CO unit :=
  p ← get co_pdos;
  match RxPDO_EventTimers p with
  | None => st_skip
  | Some timers =>
      EventTimerDuration ← rd_sub 2 offsetObjdict 5;
      when (negb (EventTimerDuration =? 0))
        (h ← opt (timers.[numPdo]);
         _ ← coDelAlarm h;
         h ← coSetAlarm numPdo RxPDO_EventTimers_Handler_cb
               (MS_TO_TIMEVAL EventTimerDuration) 0;
         set_RxTimer numPdo h)
  end.

Definition proceedPDO_data (m : Message) : CO Z :=
  od ← get co_od;
  let first := PDO_RCV (firstIndex od) in
  found ← find_cobid (positions first (PDO_RCV (lastIndex od))) first 0 (cob_id m);
  match found with
  | None => ret 0
  | Some (_, numPdo) =>
      let mapFirst := PDO_RCV_MAP (firstIndex od) in
      r ← receive_entries 256 m (mapFirst + numPdo) 0 0;
      match r with
      | None => ret 0xFF
      | Some _ => _ ← restart_RxTimer mapFirst numPdo; ret 0
      end
  end.

Definition proceedPDO_request (m : Message) : CO Z :=
  od ← get co_od;
  let first := PDO_TRS (firstIndex od) in
  found ← find_cobid (positions first (PDO_TRS (lastIndex od))) first 0 (cob_id m);
  match found with
  | None => ret 0
  | Some (offsetObjdict, numPdo) =>
      type ← rd_sub 1 offsetObjdict 2;
      let send_now :=
        g ← Message_uninit;
        '(err, pdo) ← buildPDO numPdo g;
        if negb (err =? 0) then ret 0xFF else
        _ ← canSend pdo;
        ret 0 in
      if type =? TRANS_RTR then send_now
      else if type =? TRANS_RTR_SYNC then
        s ← get_PDO_status numPdo;
        if negb (Z.land (transmit_type_parameter s) PDO_RTR_SYNC_READY =? 0) then
          _ ← canSend (last_message s); ret 0
        else send_now
      else if (type =? TRANS_EVENT_PROFILE) || (type =? TRANS_EVENT_SPECIFIC) then
        _ ← zap_timers numPdo;
        _ ← upd_PDO_status numPdo (set transmit_type_parameter
              (fun p => Z.land p (u8 (Z.lnot PDO_INHIBITED))));
        _ ← PDOEventTimerAlarm numPdo;
        ret 0
      else ret 0xFF
  end.

Definition proceedPDO (m : Message) : CO Z :=
  if rtr m =? NOT_A_REQUEST then proceedPDO_data m
  else if rtr m =? REQUEST then proceedPDO_request m
  else ret 0.
End receiving.

(** ** What a transmit PDO carries *)

(** The integer of [k] bytes at subindex [s] of position [i], if there is one. *)
Definition sub_value (k : Z) (d : CO_Data) (i s : Z) : option Z :=
  e ← (objdict (co_od d)).[i]; x ← (pSubindex e).[s]; load k (co_mem d) (pObject x).

Lemma rd_sub_eq k i s d : rd_sub k i s d = (fun v => (v, d)) <$> sub_value k d i s.
Proof.
  unfold rd_sub, od_sub, sub_value, rd. cbv [mbind ST_bind option_bind].
  destruct (objdict (co_od d)).[i] as [e|]; [|done]. by destruct (pSubindex e).[s].
Qed.

Lemma rd_sub_ok k i s d v : sub_value k d i s = Some v -> rd_sub k i s d = Some (v, d).
Proof. rewrite rd_sub_eq. by intros ->. Qed.

(** Mapping entry [j] of the mapping parameter at position [mapi] names [fst v]
    bits of a readable variable whose bytes are [snd v]. *)
Definition maps (d : CO_Data) (mapi j : Z) (v : Z * list Z) : Prop :=
  exists p i x, sub_value 4 d mapi (j + 1) = Some p /\ map_size p = fst v /\
    find_sub (co_od d) (map_index p) (map_subIndex p) = Some (i, x) /\
    bDataType x <> visible_string /\
    mload (co_mem d) (pObject x) (od_size x) = Some (snd v) /\ bytes (snd v) /\
    od_size x <= 1 + Z.shiftr (fst v - 1) 3.

(** The mapping entries of the parameter at [mapi], in order. *)
Definition mapping (d : CO_Data) (mapi : Z) (vs : list (Z * list Z)) : Prop :=
  sub_value 1 d mapi 0 = Some (Z.of_nat (length vs)) /\
  forall k v, vs !! k = Some v -> maps d mapi (Z.of_nat k) v.

(** Where fields of the given sizes go: each after the ones before it, those that
    do not fit in [lim] bits left out.  The answer is the number of bits used and
    the fields with their positions. *)
Fixpoint placement {A} (lim off : Z) (vs : list (Z * A)) : Z * list (Z * (Z * A)) :=
  match vs with
  | [] => (off, [])
  | v :: vs =>
      if negb (fst v =? 0) && (off + fst v <=? lim)
      then let '(t, l) := placement lim (off + fst v) vs in (t, (off, v) :: l)
      else placement lim off vs
  end.

#[local] Ltac Zify.zify_post_hook ::= Z.to_euclidean_division_equations.

Lemma shiftr3 x : Z.shiftr x 3 = x / 8.
Proof. by rewrite Z.shiftr_div_pow2. Qed.

Lemma map_subIndex_range p : 0 <= map_subIndex p.
Proof. unfold map_subIndex. apply Z.land_nonneg. lia. Qed.

Lemma map_size_range p : 0 <= map_size p < 256.
Proof. unfold map_size. apply (land_range 8); lia. Qed.

Lemma fill8_ok bs :
  Z.of_nat (length bs) <= 8 ->
  exists t, fill8 bs = Some t /\ length t = 8%nat /\ forall k, 0 <= k -> abit t k = abit bs k.
Proof.
  intros H. unfold fill8. ztest. eexists. split; [reflexivity|].
  rewrite length_app, length_drop, length_replicate. split; [lia|].
  intros k Hk. unfold abit, arr_get. rewrite (proj2 (Z.leb_le 0 (k / 8))) by (apply Z.div_pos; lia).
  destruct (decide (Z.to_nat (k / 8) < length bs)%nat) as [Hlt|Hge].
  { by rewrite lookup_app_l. }
  rewrite lookup_app_r by lia. rewrite (lookup_ge_None_2 bs) by lia.
  rewrite lookup_drop.
  destruct (replicate 8 0 !! _) as [z|] eqn:E; [|done].
  apply lookup_replicate in E as [-> _]. apply Z.testbit_0_l.
Qed.

Lemma placement_le {A} lim off (vs : list (Z * A)) :
  off <= lim -> Forall (fun v => 0 <= fst v) vs ->
  off <= fst (placement lim off vs) <= lim.
Proof.
  intros Hoff Hv. revert off Hoff.
  induction Hv as [|v vs Hv0 Hv IH]; intros off Hoff; cbn [placement]; [cbn; lia|].
  zcase; zb; [|by apply IH]. specialize (IH (off + fst v)).
  destruct (placement lim (off + fst v) vs) as [t l]. cbn in *. lia.
Qed.

(** One entry. *)
Lemma build_entry_spec d mapi j off pdo v :
  node_od_ok d -> maps d mapi j v -> length (msg_data pdo) = 8%nat -> bytes (msg_data pdo) ->
  0 <= off <= 64 ->
  0 <= fst v /\
  if negb (fst v =? 0) && (off + fst v <=? 64) then
    exists l, build_entry mapi j off pdo d = Some (Some (off + fst v, pdo <| msg_data := l |>), d) /\
      length l = 8%nat /\ bytes l /\
      forall k, 0 <= k -> abit l k =
        if (off <=? k) && (k <? off + fst v) then abit (snd v) (k - off)
        else abit (msg_data pdo) k
  else build_entry mapi j off pdo d = Some (Some (off, pdo), d).
Proof.
  intros Hok (p & i & x & Hp & Hsz & Hf & Hty & Hm & Hby & Hfit) Hl Hb Hoff.
  pose proof (map_size_range p). split; [lia|]. unfold build_entry.
  rewrite (st_bind_eq _ _ _ _ _ (rd_sub_ok _ _ _ _ _ Hp)). cbn beta zeta. rewrite Hsz.
  destruct (negb (fst v =? 0) && (off + fst v <=? 64)) eqn:E; [|done]. zb.
  assert (Hsc : exists w, scan (co_od d) (map_index p) = Some w).
  { apply find_sub_Some in Hf as (? & ? & _). by eexists. }
  destruct Hsc as [w Hsc].
  assert (Hget : getODentry (map_index p) (map_subIndex p) false
    (1 + Z.shiftr (fst v - 1) 3) false d =
    Some (OdRead OD_SUCCESSFUL (od_size x) (Some (bDataType x)) (snd v), d)).
  { rewrite getODentry_find, Hsc, Hf by (done || apply map_subIndex_range).
    by apply read_sub_ok. }
  rewrite (st_bind_eq _ _ _ _ _ Hget). cbn [rd_code rd_bytes].
  change (negb (OD_SUCCESSFUL =? OD_SUCCESSFUL)) with false. cbn iota.
  assert (Z.of_nat (length (snd v)) <= 8).
  { rewrite (mload_length _ _ _ _ Hm). rewrite shiftr3 in Hfit. lia. }
  destruct (fill8_ok (snd v)) as (t & -> & Ht & Htb); [done|].
  destruct (CopyBits_copies (fst v) t 0 0 (msg_data pdo) (Z.shiftr off 3) (off mod 8))
    as (l & Hc & Hll & Hlb & Hbits); try (rewrite ?shiftr3; lia); [done|].
  co_red. rewrite Hc. exists l. split; [done|]. splits; [lia|done|].
  intros k Hk. rewrite Hbits by done.
  replace (8 * Z.shiftr off 3 + off mod 8) with off by (rewrite shiftr3; lia).
  destruct ((off <=? k) && (k <? off + fst v)) eqn:E2; [|done]. zb.
  rewrite Htb by lia. f_equal; lia.
Qed.

Lemma elem_placement {A} lim off (vs : list (Z * A)) o v :
  (o, v) ∈ snd (placement lim off vs) -> off <= lim -> Forall (fun v => 0 <= fst v) vs ->
  off <= o /\ v ∈ vs /\ 0 < fst v /\ o + fst v <= fst (placement lim off vs).
Proof.
  revert off. induction vs as [|u vs IH]; intros off; cbn [placement].
  { intros H%elem_of_nil. done. }
  intros Hin Hoff Hv. apply Forall_cons in Hv as [Hu Hv].
  destruct (negb (fst u =? 0) && (off + fst u <=? lim)) eqn:E.
  - pose proof (placement_le lim (off + fst u) vs) as Hle. specialize (IH (off + fst u)).
    destruct (placement lim (off + fst u) vs) as [t l]. cbn [fst snd] in *. zb.
    apply elem_of_cons in Hin as [[= -> ->]|Hin].
    + splits; [lia|left|lia|apply Hle; [lia|done]].
    + destruct IH as (?&?&?&?); [done..|]. splits; [lia|by right|lia|lia].
  - destruct (IH off Hin Hoff Hv) as (?&?&?&?). splits; [lia|by right|lia|lia].
Qed.

Lemma build_entries_spec d mapi vs :
  node_od_ok d -> forall fuel j off pdo,
  sub_value 1 d mapi 0 = Some (j + Z.of_nat (length vs)) -> vs <> [] ->
  (length vs <= fuel)%nat ->
  (forall k v, vs !! k = Some v -> maps d mapi (j + Z.of_nat k) v) ->
  length (msg_data pdo) = 8%nat -> bytes (msg_data pdo) -> 0 <= off <= 64 ->
  exists l, build_entries fuel mapi j off pdo d =
      Some ((Some (fst (placement 64 off vs)), pdo <| msg_data := l |>), d) /\
    length l = 8%nat /\ bytes l /\ Forall (fun v => 0 <= fst v) vs /\
    (forall o v k, (o, v) ∈ snd (placement 64 off vs) -> 0 <= k < fst v ->
       abit l (o + k) = abit (snd v) k) /\
    (forall k, 0 <= k -> k < off \/ fst (placement 64 off vs) <= k ->
       abit l k = abit (msg_data pdo) k).
Proof.
  intros Hok. induction vs as [|v vs IH]; [done|].
  intros fuel j off pdo Hcount _ Hfuel Hmaps Hl Hb Hoff.
  destruct fuel as [|fuel]; [cbn in Hfuel; lia|]. cbn [build_entries placement].
  assert (Hv : maps d mapi j v).
  { replace j with (j + Z.of_nat 0) by lia. by apply Hmaps. }
  destruct (build_entry_spec d mapi j off pdo v) as [Hsz He]; [done..|].
  assert (Htail : forall k u, vs !! k = Some u -> maps d mapi (j + 1 + Z.of_nat k) u).
  { intros k u Hu. replace (j + 1 + Z.of_nat k) with (j + Z.of_nat (S k)) by lia.
    by apply Hmaps. }
  cbn [length] in Hcount, Hfuel.
  assert (Hc : sub_value 1 d mapi 0 = Some (j + 1 + Z.of_nat (length vs)))
    by (rewrite Hcount; f_equal; lia).
  assert (Hnext : forall off' pdo', build_entry mapi j off pdo d = Some (Some (off', pdo'), d) ->
    build_entries (S fuel) mapi j off pdo d =
      if negb (bool_decide (vs = [])) then build_entries fuel mapi (j + 1) off' pdo' d
      else Some ((Some off', pdo'), d)).
  { intros off' pdo' E. cbn [build_entries]. rewrite (st_bind_eq _ _ _ _ _ E).
    rewrite (st_bind_eq _ _ _ _ _ (rd_sub_ok _ _ _ _ _ Hc)). cbn beta.
    destruct vs as [|u vs']; cbn [length];
      [rewrite (bool_decide_eq_true_2 (_ = _)) by done|rewrite bool_decide_eq_false_2 by done];
      by ztest. }
  cbn [build_entries] in Hnext.
  destruct (negb (fst v =? 0) && (off + fst v <=? 64)) eqn:E.
  - destruct He as (l & He & Hll & Hlb & Hbits). rewrite (Hnext _ _ He). zb.
    destruct (decide (vs = [])) as [->|Hne].
    { cbn [placement fst snd bool_decide negb]. exists l.
      rewrite (bool_decide_eq_true_2 (_ = _)) by done. cbn [negb].
      splits; [done..|by repeat constructor| |].
      - intros o u k Hin Hk. apply list_elem_of_singleton in Hin as [= -> ->].
        rewrite Hbits by lia. repeat ztest. cbn. f_equal. lia.
      - intros k Hk Hout. rewrite Hbits by lia.
        destruct ((off <=? k) && (k <? off + fst v)) eqn:E2; [zb; lia|done]. }
    rewrite bool_decide_eq_false_2 by done. cbn [negb].
    destruct (IH fuel (j + 1) (off + fst v) (pdo <| msg_data := l |>))
      as (l' & -> & Hl' & Hb' & Hall & Hin' & Hout'); try done; [lia..|].
    pose proof (placement_le 64 (off + fst v) vs) as Hpl.
    destruct (placement 64 (off + fst v) vs) as [t ps] eqn:Eps. cbn [fst snd] in *.
    exists l'. splits; [done|done|done|by constructor| |].
    + intros o u k Hin Hk. apply elem_of_cons in Hin as [[= -> ->]|Hin]; [|by apply Hin'].
      rewrite Hout' by lia. cbn [set msg_data]. rewrite Hbits by lia. repeat ztest.
      cbn. f_equal. lia.
    + intros k Hk Hout. specialize (Hpl ltac:(lia) Hall). rewrite Hout' by lia.
      cbn [set msg_data]. rewrite Hbits by lia.
      destruct ((off <=? k) && (k <? off + fst v)) eqn:E2; [zb; lia|done].
  - rewrite (Hnext _ _ He).
    destruct (decide (vs = [])) as [->|Hne].
    { cbn [placement fst snd]. exists (msg_data pdo).
      rewrite (bool_decide_eq_true_2 (_ = _)) by done. cbn [negb].
      splits; [by destruct pdo|done|done|by repeat constructor| |done].
      by intros o u k Hin%elem_of_nil. }
    rewrite bool_decide_eq_false_2 by done. cbn [negb].
    destruct (IH fuel (j + 1) off pdo) as (l' & -> & Hl' & Hb' & Hall & Hin' & Hout');
      try done; [lia|].
    exists l'. splits; [done..|by constructor|done|done].
Qed.

Lemma buildPDO_run d n pdo vs cobid :
  node_od_ok d -> length (msg_data pdo) = 8%nat -> bytes (msg_data pdo) ->
  sub_value 4 d (PDO_TRS (firstIndex (co_od d)) + n) 1 = Some cobid ->
  mapping d (PDO_TRS_MAP (firstIndex (co_od d)) + n) vs ->
  (0 < length vs <= 256)%nat ->
  exists m, buildPDO n pdo d = Some ((0, m), d) /\
    cob_id m = Z.land cobid 0x7FF /\ rtr m = NOT_A_REQUEST /\
    length (msg_data m) = 8%nat /\ bytes (msg_data m) /\
    len m = (fst (placement 64 0 vs) + 7) / 8 /\
    (forall o v k, (o, v) ∈ snd (placement 64 0 vs) -> 0 <= k < fst v ->
       abit (msg_data m) (o + k) = abit (snd v) k) /\
    (forall k, fst (placement 64 0 vs) <= k -> abit (msg_data m) k = abit (msg_data pdo) k).
Proof.
  intros Hok Hl Hb Hcob [Hcount Hmap] [Hpos Hlen]. unfold buildPDO.
  rewrite (st_bind_eq _ _ _ _ _ (eq_refl : get co_od d = Some (co_od d, d))).
  cbn beta zeta. rewrite (st_bind_eq _ _ _ _ _ (rd_sub_ok _ _ _ _ _ Hcob)). cbn beta.
  destruct (build_entries_spec d (PDO_TRS_MAP (firstIndex (co_od d)) + n) vs Hok 256 0 0
    (pdo <| cob_id := u16 (Z.land cobid 0x7FF) |> <| rtr := NOT_A_REQUEST |>))
    as (l & E & Hll & Hlb & Hall & Hin & Hout); try done.
  { intros ->. cbn in Hpos. lia. }
  pose proof (placement_le 64 0 vs ltac:(lia) Hall) as Hpl.
  rewrite (st_bind_eq _ _ _ _ _ E). eexists. split; [reflexivity|].
  cbn [set cob_id rtr len msg_data Message_settable settable].
  assert (Hc : 0 <= Z.land cobid 0x7FF < 2 ^ 11) by (apply land_range; lia).
  splits; [apply u16_small; lia|done|done|done| |done|].
  - set (t := fst (placement 64 0 vs)) in *.
    destruct (decide (t = 0)) as [->|Hne]; [done|].
    rewrite u32_small, shiftr3, u8_small by lia. lia.
  - intros k Hk. apply Hout; lia.
Qed.

(** Building a transmit PDO packs the mapped variables, each right after the
    one before it and least significant bit first; fields that would pass the
    64th bit are left out; the length is the number of bytes the fields use, the
    identifier the low eleven bits of the communication parameter, and the bits
    after the last field are those the message had.  The node is unchanged. *)
Theorem buildPDO_spec d n pdo vs cobid :
  node_od_ok d -> length (msg_data pdo) = 8%nat -> bytes (msg_data pdo) ->
  sub_value 4 d (PDO_TRS (firstIndex (co_od d)) + n) 1 = Some cobid ->
  mapping d (PDO_TRS_MAP (firstIndex (co_od d)) + n) vs ->
  (0 < length vs <= 256)%nat ->
  exists m, buildPDO n pdo d = Some ((0, m), d) /\
    cob_id m = Z.land cobid 0x7FF /\ rtr m = NOT_A_REQUEST /\
    length (msg_data m) = 8%nat /\ bytes (msg_data m) /\
    len m = (fst (placement 64 0 vs) + 7) / 8 /\
    (forall o v k, (o, v) ∈ snd (placement 64 0 vs) -> 0 <= k < fst v ->
       abit (msg_data m) (o + k) = abit (snd v) k) /\
    (forall k, fst (placement 64 0 vs) <= k -> abit (msg_data m) k = abit (msg_data pdo) k).
Proof. apply buildPDO_run. Qed.

(** ** What a receive PDO delivers *)

Definition same_but_mem (d d' : CO_Data) : Prop :=
  d' = d <| co_mem := co_mem d' |> <| co_log := co_log d' |>.

Lemma same_but_mem_refl d : same_but_mem d d.
Proof. by destruct d. Qed.

Lemma same_but_mem_trans d1 d2 d3 :
  same_but_mem d1 d2 -> same_but_mem d2 d3 -> same_but_mem d1 d3.
Proof. unfold same_but_mem. intros -> ->. done. Qed.

Lemma disjoint_range_sym p n q k : disjoint_range p n q k -> disjoint_range q k p n.
Proof. unfold disjoint_range. intros [?|?]; [left; congruence|lia]. Qed.

(** The variable of a subindex does not touch the range. *)
Definition clear_of (x : subindex) (q : ptr) (k : Z) : Prop :=
  disjoint_range (pObject x) (od_size x) q k.

(** Mapping entry [j] of the parameter at [mapi] names [fst v] bits for the
    variable [snd v], which takes any value. *)
Definition rx_maps (d : CO_Data) (mapi j : Z) (v : Z * subindex) : Prop :=
  exists p i, sub_value 4 d mapi (j + 1) = Some p /\ map_size p = fst v /\
    find_sub (co_od d) (map_index p) (map_subIndex p) = Some (i, snd v) /\
    bDataType (snd v) <> visible_string /\
    registered d (map_index p) (map_subIndex p) = None /\
    od_size (snd v) = 1 + Z.shiftr (fst v - 1) 3 /\
    (forall bs, length bs = 8%nat -> valueRangeTest (co_od d) (bDataType (snd v)) bs = Some 0).

(** The variables do not overlap each other, nor the mapping parameter. *)
Fixpoint all_apart (d : CO_Data) (mapi : Z) (vs : list (Z * subindex)) : Prop :=
  match vs with
  | [] => True
  | v :: vs =>
      (forall e s y, (objdict (co_od d)).[mapi] = Some e -> (pSubindex e).[s] = Some y ->
         clear_of (snd v) (pObject y) (if s =? 0 then 1 else 4)) /\
      Forall (fun u => clear_of (snd v) (pObject (snd u)) (od_size (snd u))) vs /\
      all_apart d mapi vs
  end.

Definition rx_mapping (d : CO_Data) (mapi : Z) (vs : list (Z * subindex)) : Prop :=
  sub_value 1 d mapi 0 = Some (Z.of_nat (length vs)) /\
  (forall k v, vs !! k = Some v -> rx_maps d mapi (Z.of_nat k) v) /\
  all_apart d mapi vs.

(** The variable holds the field of the message at bit [o]. *)
Definition delivered (d : CO_Data) (data : list Z) (o : Z) (v : Z * subindex) : Prop :=
  exists bs, mload (co_mem d) (pObject (snd v)) (od_size (snd v)) = Some bs /\ bytes bs /\
    (forall k, 0 <= k < fst v -> abit bs k = abit data (o + k)) /\
    (forall k, fst v <= k -> abit bs k = false).

(** The parameter is the same after a write elsewhere. *)
Lemma sub_value_keep k d d' mapi s :
  co_od d' = co_od d ->
  (forall e y, (objdict (co_od d)).[mapi] = Some e -> (pSubindex e).[s] = Some y ->
     mload (co_mem d') (pObject y) k = mload (co_mem d) (pObject y) k) ->
  sub_value k d' mapi s = sub_value k d mapi s.
Proof.
  intros Eo H. unfold sub_value, load. rewrite Eo. cbv [mbind option_bind].
  destruct (objdict (co_od d)).[mapi] as [e|] eqn:Ee; [|done].
  destruct (pSubindex e).[s] as [y|] eqn:Ey; [|done]. by rewrite (H e y).
Qed.

Lemma rx_maps_keep d d' mapi j v :
  same_but_mem d d' -> sub_value 4 d' mapi (j + 1) = sub_value 4 d mapi (j + 1) ->
  rx_maps d mapi j v -> rx_maps d' mapi j v.
Proof.
  unfold same_but_mem, rx_maps. intros E Es. rewrite Es. by rewrite E.
Qed.

Lemma all_apart_keep d d' mapi vs :
  co_od d' = co_od d -> all_apart d mapi vs -> all_apart d' mapi vs.
Proof.
  intros E. induction vs as [|v vs IH]; cbn [all_apart]; [done|]. rewrite E.
  intros (?&?&?). splits; [done|done|by apply IH].
Qed.

Lemma take_abit n l k : abit (take n l) k = if k / 8 <? Z.of_nat n then abit l k else false.
Proof.
  unfold abit, arr_get. destruct (0 <=? k / 8) eqn:E0; [|by destruct (_ <? _)]. zb.
  zcase; zb.
  - by rewrite lookup_take_lt by lia.
  - by rewrite lookup_take_ge by lia.
Qed.

Section receive_lemmas.
Context `{ODC : ODCallbacks}.

Lemma receive_entry_spec d m mapi j off v :
  node_od_ok d -> rx_maps d mapi j v -> length (msg_data m) = 8%nat ->
  0 <= off <= 8 * len m -> len m <= 8 ->
  0 < fst v /\
  if negb (fst v =? 0) && (off + fst v <=? 8 * len m) then
    exists d', receive_entry m mapi j off d = Some (Some (off + fst v), d') /\
      node_od_ok d' /\ same_but_mem d d' /\ delivered d' (msg_data m) off v /\
      forall q k, clear_of (snd v) q k -> mload (co_mem d') q k = mload (co_mem d) q k
  else receive_entry m mapi j off d = Some (Some off, d).
Proof.
  intros Hok (p & i & Hp & Hsz & Hf & Hty & Hreg & Hfit & Hrange) Hl Hoff Hlen.
  pose proof (map_size_range p) as Hps. pose proof Hf as (en & Hsc & Hen & Hlt & Hx)%find_sub_Some.
  destruct (ok_object _ _ _ Hok _ _ _ _ Hen Hx) as [Hpos _]. rewrite shiftr3 in Hfit.
  split; [lia|]. unfold receive_entry.
  rewrite (st_bind_eq _ _ _ _ _ (rd_sub_ok _ _ _ _ _ Hp)). cbn beta zeta. rewrite Hsz.
  replace (Z.shiftl (len m) 3) with (8 * len m) by (rewrite Z.shiftl_mul_pow2; lia).
  destruct (negb (fst v =? 0) && (off + fst v <=? 8 * len m)) eqn:E; [|done]. zb.
  destruct (CopyBits_copies (fst v) (msg_data m) (Z.shiftr off 3) (off mod 8)
    (replicate 8 0) 0 0) as (t & Hc & Htl & Htb & Hbits);
    try (rewrite ?shiftr3, ?length_replicate; lia); [by repeat constructor|].
  rewrite Hc. rewrite shiftr3. set (n := 1 + (fst v - 1) / 8) in *.
  rewrite length_replicate in Htl.
  destruct (write_sub_ok i (map_index p) (map_subIndex p) (snd v) t n false d en)
    as (mm & Hm & Hw); try done.
  { split; [apply map_subIndex_range|done]. }
  { lia. }
  { split; [done|]. split; [by right|by apply Hrange]. }
  assert (Hset : setODentry (map_index p) (map_subIndex p) t n false d =
    Some (OD_SUCCESSFUL, od_size (snd v),
          stored d (map_index p) (map_subIndex p) (snd v) mm)).
  { rewrite setODentry_find by (done || apply map_subIndex_range). by rewrite Hsc, Hf. }
  cbn [st_opt opt fmap option_fmap option_map]. unfold opt.
  rewrite (st_bind_eq (st_opt (Some t)) _ d t d) by done.
  rewrite (st_bind_eq _ _ _ _ _ Hset). cbn iota beta.
  change (negb (OD_SUCCESSFUL =? OD_SUCCESSFUL)) with false. cbn iota.
  rewrite u8_small by lia.
  assert (Hmem : co_mem (stored d (map_index p) (map_subIndex p) (snd v) mm) = mm)
    by (unfold stored; by destruct (_ =? 0)).
  assert (Htake : Z.of_nat (length (take (Z.to_nat n) t)) = od_size (snd v))
    by (rewrite length_take; lia).
  eexists. split; [reflexivity|]. splits.
  - unfold node_od_ok, stored. pose proof (od_ok_mstore _ _ _ _ _ _ Hok Hm).
    by destruct (_ =? 0).
  - unfold same_but_mem, stored. destruct d. by destruct (_ =? 0).
  - exists (take (Z.to_nat n) t). rewrite Hmem. splits.
    + rewrite <- Htake. by eapply mload_mstore_same.
    + by apply Forall_take.
    + intros k Hk. rewrite take_abit.
      rewrite (proj2 (Z.ltb_lt _ _)) by lia. rewrite Hbits by lia.
      replace (8 * 0 + 0) with 0 by done. repeat ztest. cbn [andb]. f_equal.
      rewrite shiftr3. lia.
    + intros k Hk. rewrite take_abit. destruct (_ <? _); [|done]. rewrite Hbits by lia.
      replace (8 * 0 + 0) with 0 by done.
      rewrite (proj2 (Z.ltb_ge k (0 + fst v))) by lia. rewrite andb_false_r.
      unfold abit. destruct (replicate 8 0).[_] as [z|] eqn:Ez; [|done].
      apply arr_get_Some in Ez as [_ [-> _]%lookup_replicate]. apply Z.testbit_0_l.
  - intros q k Hcl. rewrite Hmem. eapply mload_mstore_disjoint; [exact Hm|]. by rewrite Htake.
Qed.

Lemma receive_entries_spec m mapi vs :
  length (msg_data m) = 8%nat -> len m <= 8 -> forall d fuel j off,
  node_od_ok d -> sub_value 1 d mapi 0 = Some (j + Z.of_nat (length vs)) ->
  (length vs < fuel)%nat -> 0 <= j ->
  (forall k v, vs !! k = Some v -> rx_maps d mapi (j + Z.of_nat k) v) ->
  all_apart d mapi vs -> 0 <= off <= 8 * len m ->
  exists d', receive_entries fuel m mapi j off d =
      Some (Some (fst (placement (8 * len m) off vs)), d') /\
    node_od_ok d' /\ same_but_mem d d' /\ Forall (fun v => 0 <= fst v) vs /\
    (forall o v, (o, v) ∈ snd (placement (8 * len m) off vs) -> delivered d' (msg_data m) o v) /\
    (forall q k, Forall (fun v => clear_of (snd v) q k) vs ->
       mload (co_mem d') q k = mload (co_mem d) q k).
Proof.
  intros Hl Hlen. induction vs as [|v vs IH];
    intros d fuel j off Hok Hcount Hfuel Hj Hmaps Hap Hoff;
    (destruct fuel as [|fuel]; [cbn in Hfuel; lia|]); cbn [receive_entries placement];
    rewrite (st_bind_eq _ _ _ _ _ (rd_sub_ok _ _ _ _ _ Hcount)); cbn beta.
  { cbn [length]. ztest. exists d. splits; [done..|by apply same_but_mem_refl|done| |done].
    by intros o v Hin%elem_of_nil. }
  cbn [length all_apart] in Hcount, Hfuel, Hap |- *. ztest. destruct Hap as (Hcl & Hvs & Hap).
  assert (Hv : rx_maps d mapi j v).
  { replace j with (j + Z.of_nat 0) by lia. by apply Hmaps. }
  assert (Htail : forall k u, vs !! k = Some u -> rx_maps d mapi (j + 1 + Z.of_nat k) u).
  { intros k u Hu. replace (j + 1 + Z.of_nat k) with (j + Z.of_nat (S k)) by lia.
    by apply Hmaps. }
  assert (Hc : sub_value 1 d mapi 0 = Some (j + 1 + Z.of_nat (length vs)))
    by (rewrite Hcount; f_equal; lia).
  destruct (receive_entry_spec d m mapi j off v) as [Hsz He]; [done..|].
  destruct (negb (fst v =? 0) && (off + fst v <=? 8 * len m)) eqn:E.
  - destruct He as (d1 & He & Hok1 & Hs1 & Hdel & Hfr). zb.
    rewrite (st_bind_eq _ _ _ _ _ He). cbn iota beta.
    assert (Eo : co_od d1 = co_od d) by (unfold same_but_mem in Hs1; by rewrite Hs1).
    assert (Hkeep : forall k s, 0 <= s -> k = (if s =? 0 then 1 else 4) ->
      sub_value k d1 mapi s = sub_value k d mapi s).
    { intros k s Hs ->. apply sub_value_keep; [done|]. intros e y He' Hy.
      apply Hfr. by eapply Hcl. }
    destruct (IH d1 fuel (j + 1) (off + fst v)) as (d2 & E2 & Hok2 & Hs2 & Hall & Hin2 & Hfr2).
    + done.
    + by rewrite (Hkeep 1 0).
    + lia.
    + lia.
    + intros k u Hu. eapply rx_maps_keep; [exact Hs1| |by apply Htail].
      apply Hkeep; [lia|]. by ztest.
    + by eapply all_apart_keep.
    + lia.
    + rewrite E2. destruct (placement (8 * len m) (off + fst v) vs) as [t ps] eqn:Eps.
      cbn [fst snd] in *. exists d2. splits; [done|done|by eapply same_but_mem_trans| | |].
      * constructor; [lia|done].
      * intros o u Hin. apply elem_of_cons in Hin as [[= -> ->]|Hin]; [|by apply Hin2].
        destruct Hdel as (bs & Hbs & Hrest). exists bs. split; [|exact Hrest].
        rewrite Hfr2; [done|]. eapply Forall_impl; [exact Hvs|].
        intros u Hu. by apply disjoint_range_sym.
      * intros q k Hq. apply Forall_cons in Hq as [Hq1 Hq2]. rewrite Hfr2 by done. by apply Hfr.
  - rewrite (st_bind_eq _ _ _ _ _ He). cbn iota beta.
    destruct (IH d fuel (j + 1) off) as (d2 & E2 & Hok2 & Hs2 & Hall & Hin2 & Hfr2);
      try done; [lia|lia|].
    exists d2. splits; [done|done|done| |done|].
    + constructor; [lia|done].
    + intros q k Hq. apply Forall_cons in Hq as [_ Hq2]. by apply Hfr2.
Qed.

(** The search finds the first position with the identifier. *)
Lemma find_cobid_first d cob fuel first n num :
  sub_value 2 d (first + Z.of_nat n) 1 = Some cob -> (n < fuel)%nat ->
  (forall k, (k < n)%nat -> exists c, sub_value 2 d (first + Z.of_nat k) 1 = Some c /\ c <> cob) ->
  0 <= num -> num + Z.of_nat n < 256 ->
  find_cobid fuel first num cob d = Some (Some (first + Z.of_nat n, num + Z.of_nat n), d).
Proof.
  revert first n num. induction fuel as [|fuel IH]; intros first n num Hn Hlt Hne H0 Hnum; [lia|].
  cbn [find_cobid]. destruct n as [|n].
  - replace (first + Z.of_nat 0) with first in * by lia.
    rewrite (st_bind_eq _ _ _ _ _ (rd_sub_ok _ _ _ _ _ Hn)). cbn beta. rewrite Z.eqb_refl.
    by replace (num + Z.of_nat 0) with num by lia.
  - destruct (Hne 0%nat) as (c & Hc & Hcne); [lia|].
    replace (first + Z.of_nat 0) with first in Hc by lia.
    rewrite (st_bind_eq _ _ _ _ _ (rd_sub_ok _ _ _ _ _ Hc)). cbn beta.
    rewrite (proj2 (Z.eqb_neq _ _) Hcne). rewrite u8_small by lia.
    replace (first + Z.of_nat (S n)) with (first + 1 + Z.of_nat n) in * by lia.
    replace (num + Z.of_nat (S n)) with (num + 1 + Z.of_nat n) by lia.
    apply IH; [done|lia| |lia|lia]. intros k Hk. destruct (Hne (S k)) as (c' & Hc' & ?); [lia|].
    exists c'. split; [|done]. by replace (first + 1 + Z.of_nat k) with (first + Z.of_nat (S k)) by lia.
Qed.
End receive_lemmas.

(** ** Transport from a transmit PDO to a receive PDO *)

Definition total {A} (vs : list (Z * A)) : Z := foldr (fun v a => fst v + a) 0 vs.

Lemma total_nonneg {A} (vs : list (Z * A)) : Forall (fun v => 0 < fst v) vs -> 0 <= total vs.
Proof. induction 1 as [|v vs Hv _ IH]; [done|]. change (0 <= fst v + total vs). lia. Qed.

Lemma total_sizes {A B} (vs : list (Z * A)) (ws : list (Z * B)) :
  fst <$> vs = fst <$> ws -> total vs = total ws.
Proof.
  revert ws. induction vs as [|v vs IH]; intros [|w ws]; [done..|].
  intros [= Hvw Hrest]. change (fst v + total vs = fst w + total ws).
  by rewrite Hvw, (IH ws).
Qed.

(** Fields that fit lie one after the other. *)
Lemma placement_fits {A} lim (vs : list (Z * A)) : Forall (fun v => 0 < fst v) vs ->
  forall off, 0 <= off -> off + total vs <= lim ->
  fst (placement lim off vs) = off + total vs /\
  forall k v, vs !! k = Some v ->
    (off + total (take k vs), v) ∈ snd (placement lim off vs).
Proof.
  induction 1 as [|v vs Hv Hvs IH]; intros off Hoff Hle; cbn [placement total foldr] in *.
  { split; [cbn; lia|done]. }
  change (foldr _ 0 vs) with (total vs) in Hle. pose proof (total_nonneg vs Hvs).
  repeat ztest. cbn [negb andb]. destruct (IH (off + fst v)) as [Ht Hin]; [lia..|].
  change (foldr _ 0 vs) with (total vs).
  destruct (placement lim (off + fst v) vs) as [t l]. cbn [fst snd] in *.
  split; [lia|]. intros [|k] u; cbn [lookup list_lookup take total foldr].
  - intros [= ->]. rewrite Z.add_0_r. left.
  - intros Hu. right. change (foldr _ 0 (take k vs)) with (total (take k vs)).
    rewrite Z.add_assoc. by apply Hin.
Qed.

Lemma abit_ext l1 l2 :
  length l1 = length l2 -> bytes l1 -> bytes l2 ->
  (forall k, 0 <= k < 8 * Z.of_nat (length l1) -> abit l1 k = abit l2 k) -> l1 = l2.
Proof.
  intros Hl H1 H2 H. apply arr_ext; [done|]. intros i Hi.
  destruct (arr_get_is_Some l1 i Hi) as [a Ha].
  destruct (arr_get_is_Some l2 i) as [b Hb]; [lia|]. rewrite Ha, Hb. f_equal.
  assert (Hab : is_byte a /\ is_byte b).
  { apply arr_get_Some in Ha as [_ Ha], Hb as [_ Hb].
    split; [by eapply (Forall_lookup_1 is_byte l1)|by eapply (Forall_lookup_1 is_byte l2)]. }
  destruct Hab as [[Ha1 Ha2] [Hb1 Hb2]]. apply Z.bits_inj'. intros n Hn.
  destruct (decide (n < 8)) as [Hlt|Hge].
  - specialize (H (8 * i + n)). unfold abit in H.
    replace ((8 * i + n) / 8) with i in H by lia.
    replace ((8 * i + n) mod 8) with n in H by lia. rewrite Ha, Hb in H. apply H. lia.
  - assert (Hsmall : forall z, 0 <= z < 256 -> Z.testbit z n = false).
    { intros z Hz. rewrite <- (u8_small z) by lia. unfold u8.
      apply Z.mod_pow2_bits_high. lia. }
    by rewrite !Hsmall by lia.
Qed.

Section transport.
Context `{ODC : ODCallbacks}.

Lemma proceedPDO_run d m n vs :
  node_od_ok d -> rtr m = NOT_A_REQUEST -> length (msg_data m) = 8%nat ->
  0 <= len m <= 8 ->
  let od := co_od d in
  PDO_RCV (firstIndex od) <> 0 ->
  Z.of_nat n <= PDO_RCV (lastIndex od) - PDO_RCV (firstIndex od) -> Z.of_nat n < 256 ->
  sub_value 2 d (PDO_RCV (firstIndex od) + Z.of_nat n) 1 = Some (cob_id m) ->
  (forall k, (k < n)%nat -> exists c,
     sub_value 2 d (PDO_RCV (firstIndex od) + Z.of_nat k) 1 = Some c /\ c <> cob_id m) ->
  rx_mapping d (PDO_RCV_MAP (firstIndex od) + Z.of_nat n) vs -> (length vs < 256)%nat ->
  RxPDO_EventTimers (co_pdos d) = None ->
  exists d', proceedPDO m d = Some (0, d') /\ node_od_ok d' /\ same_but_mem d d' /\
    (forall o v, (o, v) ∈ snd (placement (8 * len m) 0 vs) -> delivered d' (msg_data m) o v) /\
    (forall q k, Forall (fun v => clear_of (snd v) q k) vs ->
       mload (co_mem d') q k = mload (co_mem d) q k).
Proof.
  intros Hok Hr Hl Hlen od Hfirst Hn Hn256 Hcob Hne (Hcount & Hmaps & Hap) Hvs Hrx.
  unfold proceedPDO. rewrite Hr. change (NOT_A_REQUEST =? NOT_A_REQUEST) with true. cbn iota.
  unfold proceedPDO_data.
  rewrite (st_bind_eq _ _ _ _ _ (eq_refl : get co_od d = Some (co_od d, d))).
  cbn beta zeta. fold od.
  assert (Hpn : (n < positions (PDO_RCV (firstIndex od)) (PDO_RCV (lastIndex od)))%nat).
  { unfold positions. rewrite (proj2 (Z.eqb_neq _ _) Hfirst). lia. }
  rewrite (st_bind_eq _ _ _ _ _ (find_cobid_first d (cob_id m) _ _ n 0 Hcob Hpn Hne
    (Z.le_refl 0) Hn256)).
  cbn iota beta. rewrite Z.add_0_l.
  destruct (receive_entries_spec m (PDO_RCV_MAP (firstIndex od) + Z.of_nat n) vs Hl
    ltac:(lia) d 256 0 0) as (d' & E & Hok' & Hs & _ & Hin & Hfr); try done; [lia|].
  rewrite (st_bind_eq _ _ _ _ _ E). exists d'. split; [|done].
  assert (Hrx' : RxPDO_EventTimers (co_pdos d') = None) by (unfold same_but_mem in Hs; by rewrite Hs).
  assert (Hskip : forall i k, restart_RxTimer i k d' = Some (tt, d')).
  { intros i k. unfold restart_RxTimer. co_red. by rewrite Hrx'. }
  by rewrite (st_bind_eq _ _ _ _ _ (Hskip _ _)).
Qed.

(** A data message whose identifier is that of a receive PDO writes each
    mapped variable with its field of the message, the unused high bits cleared,
    in the order of the mapping, as long as the fields fit in the message; every
    other part of memory and of the node is untouched. *)
Theorem proceedPDO_spec d m n vs :
  node_od_ok d -> rtr m = NOT_A_REQUEST -> length (msg_data m) = 8%nat ->
  0 <= len m <= 8 ->
  let od := co_od d in
  PDO_RCV (firstIndex od) <> 0 ->
  Z.of_nat n <= PDO_RCV (lastIndex od) - PDO_RCV (firstIndex od) -> Z.of_nat n < 256 ->
  sub_value 2 d (PDO_RCV (firstIndex od) + Z.of_nat n) 1 = Some (cob_id m) ->
  (forall k, (k < n)%nat -> exists c,
     sub_value 2 d (PDO_RCV (firstIndex od) + Z.of_nat k) 1 = Some c /\ c <> cob_id m) ->
  rx_mapping d (PDO_RCV_MAP (firstIndex od) + Z.of_nat n) vs -> (length vs < 256)%nat ->
  RxPDO_EventTimers (co_pdos d) = None ->
  exists d', proceedPDO m d = Some (0, d') /\ node_od_ok d' /\ same_but_mem d d' /\
    (forall o v, (o, v) ∈ snd (placement (8 * len m) 0 vs) -> delivered d' (msg_data m) o v) /\
    (forall q k, Forall (fun v => clear_of (snd v) q k) vs ->
       mload (co_mem d') q k = mload (co_mem d) q k).
Proof. apply proceedPDO_run. Qed.

(** C9: What one node maps into a transmit PDO is what another node finds in the
    variables of the receive PDO with the same identifier and field sizes: for
    fields of whole bytes that fit together in 64 bits, after the message built
    by the first node is processed by the second, each variable of the second
    holds the bytes of the variable of the first. *)
Theorem PDO_transport ds dr nt nr ts rs cobid :
  node_od_ok ds -> node_od_ok dr ->
  sub_value 4 ds (PDO_TRS (firstIndex (co_od ds)) + nt) 1 = Some cobid ->
  mapping ds (PDO_TRS_MAP (firstIndex (co_od ds)) + nt) ts -> (0 < length ts < 256)%nat ->
  let od := co_od dr in
  let cob := Z.land cobid 0x7FF in
  PDO_RCV (firstIndex od) <> 0 ->
  Z.of_nat nr <= PDO_RCV (lastIndex od) - PDO_RCV (firstIndex od) -> Z.of_nat nr < 256 ->
  sub_value 2 dr (PDO_RCV (firstIndex od) + Z.of_nat nr) 1 = Some cob ->
  (forall k, (k < nr)%nat -> exists c,
     sub_value 2 dr (PDO_RCV (firstIndex od) + Z.of_nat k) 1 = Some c /\ c <> cob) ->
  rx_mapping dr (PDO_RCV_MAP (firstIndex od) + Z.of_nat nr) rs ->
  RxPDO_EventTimers (co_pdos dr) = None ->
  fst <$> ts = fst <$> rs -> Forall (fun v => 0 < fst v) ts -> total ts <= 64 ->
  exists m dr', buildPDO nt Message_Initializer ds = Some ((0, m), ds) /\
    proceedPDO m dr = Some (0, dr') /\
    forall k sz bs x, ts !! k = Some (sz, bs) -> rs !! k = Some (sz, x) ->
      sz = 8 * Z.of_nat (length bs) ->
      mload (co_mem dr') (pObject x) (od_size x) = Some bs.
Proof.
  intros Hoks Hokr Hcob Hmap Hts od cob Hfirst Hnr Hnr256 Hcobr Hne Hrx Htm Hsz Hpos H64.
  destruct (buildPDO_run ds nt Message_Initializer ts cobid)
    as (m & Hb & Hmc & Hmr & Hml & _ & Hmlen & Hbits & _);
    [done|done|by repeat constructor|done|done|lia|].
  pose proof (total_nonneg ts Hpos).
  destruct (placement_fits 64 ts Hpos 0) as [Ht Hint]; [lia..|]. rewrite Z.add_0_l in Ht.
  rewrite Ht in Hmlen.
  assert (Hlen : length ts = length rs).
  { rewrite <- (length_fmap fst ts), Hsz. by rewrite length_fmap. }
  pose proof (total_sizes _ _ Hsz) as Htr.
  assert (Hposr : Forall (fun v => 0 < fst v) rs).
  { apply Forall_lookup. intros k v Hv.
    assert (Hk : (fst <$> ts) !! k = Some (fst v)) by (rewrite Hsz, list_lookup_fmap, Hv; done).
    rewrite list_lookup_fmap in Hk. apply fmap_Some in Hk as (u & Hu & ->).
    by eapply (Forall_lookup_1 _ _ _ _ Hpos). }
  destruct (proceedPDO_run dr m nr rs) as (dr' & Hp & _ & _ & Hdel & _); try done;
    [lia|by rewrite Hmc|by rewrite Hmc|lia|].
  exists m, dr'. split; [done|]. split; [done|].
  intros k sz bs x Hk Hkr Hbs.
  destruct (placement_fits (8 * len m) rs Hposr 0) as [_ Hinr]; [lia..|].
  specialize (Hinr _ _ Hkr). specialize (Hint _ _ Hk).
  rewrite Z.add_0_l in Hinr, Hint. apply Hdel in Hinr as (bs' & Hld & Hby & Hlow & _).
  cbn [snd fst] in *. rewrite Hld. f_equal.
  assert (Eo : total (take k rs) = total (take k ts)).
  { apply total_sizes. rewrite !fmap_take. by f_equal. }
  destruct Hrx as (_ & Hmaps & _).
  destruct (Hmaps _ _ Hkr) as (p & i & _ & _ & _ & _ & _ & Hfit & _). cbn [fst snd] in Hfit.
  destruct Hmap as [_ Hmapt].
  destruct (Hmapt _ _ Hk) as (p' & i' & x' & _ & _ & _ & _ & _ & Hbyt & _). cbn [snd] in Hbyt.
  rewrite shiftr3 in Hfit. pose proof (mload_length _ _ _ _ Hld) as Hll.
  assert (0 < sz) by (by eapply (Forall_lookup_1 _ _ _ _ Hpos) in Hk).
  apply abit_ext; [lia|done|done|].
  intros b Hb'. rewrite Hlow by lia. rewrite Eo. apply (Hbits _ _ b Hint). cbn. lia.
Qed.
End transport.
