(* ===== verification/Sync.v ===== *)
(** * Sync: synchronisation (src/sync.c)

    A node whose COB-ID of SYNC (1005h) has bit 30 set produces SYNC messages at
    the period of 1006h; every SYNC, own or received, triggers the transmit PDOs
    in operational state. *)

From S2P Require Import Prelude CMem Timers Node ObjDict Bits Pdo.

(** ** Operations *)

Definition proceedSYNC : CO Z :=
  _ ← emit Call_post_sync;
  on ← csPDO_on;
  if negb on then ret 0 else
  res ← _sendPDOevent true;
  _ ← emit Call_post_TPDO;
  ret res.

Definition sendSYNCMessage : CO Z :=
  od ← get co_od;
  m ← Message_uninit;
  cobid ← rd 4 (COB_ID_Sync od);
  canSend (MkMessage (u16 cobid) NOT_A_REQUEST 0 (msg_data m)).

Definition sendSYNC : CO Z :=
  res ← sendSYNCMessage;
  _ ← proceedSYNC;
  ret res.

Definition SyncAlarm (id : Z) : CO unit := _ ← sendSYNC; st_skip.

Definition set_syncTimer (h : Z) : CO unit := modify (set syncTimer (fun _ => h)).

Definition stopSYNC : CO unit :=
  _ ← RegisterSetODentryCallBack 0x1005 0 None;
  _ ← RegisterSetODentryCallBack 0x1006 0 None;
  h ← get syncTimer;
  h ← coDelAlarm h;
  set_syncTimer h.

Definition startSYNC : CO unit :=
  h ← get syncTimer;
  _ ← when (negb (h =? TIMER_NONE)) stopSYNC;
  _ ← RegisterSetODentryCallBack 0x1005 0 (Some OnCOB_ID_SyncUpdate_cb);
  _ ← RegisterSetODentryCallBack 0x1006 0 (Some OnCOB_ID_SyncUpdate_cb);
  od ← get co_od;
  cobid ← rd 4 (COB_ID_Sync od);
  period ← rd 4 (Sync_Cycle_Period od);
  when (negb (Z.land cobid 0x40000000 =? 0) && negb (period =? 0))
    (h ← coSetAlarm 0 SyncAlarm_cb (US_TO_TIMEVAL period) (US_TO_TIMEVAL period);
     set_syncTimer h).

Definition OnCOB_ID_SyncUpdate : CO Z := _ ← startSYNC; ret 0.
