(* ===== verification/SdoLine.v ===== *)
(** * SdoLine: the transfer lines of the SDO layer (src/sdo.c, first part)

    A transfer - of a server or of a client - runs on a line: the position in a
    buffer of 32 bytes, the toggle bit, the block state and a timeout.  Here are
    the lines, the copies between a line, a message and the dictionary, and the
    sending of SDO messages and aborts. *)

From S2P Require Import Prelude CMem Timers Node ObjDict.

Definition SDO_TIMEOUT_MS : Z := 3000.
Definition SDO_FINISHED : Z := 0x1.
Definition SDO_ABORTED_RCV : Z := 0x80.
Definition SDO_ABORTED_INTERNAL : Z := 0x85.
Definition SDO_DOWNLOAD_IN_PROGRESS : Z := 0x2.
Definition SDO_UPLOAD_IN_PROGRESS : Z := 0x3.
Definition SDO_BLOCK_DOWNLOAD_IN_PROGRESS : Z := 0x4.
Definition SDO_BLOCK_UPLOAD_IN_PROGRESS : Z := 0x5.
Definition SDO_PROVIDED_BUFFER_TOO_SMALL : Z := 0x8A.
Definition SDO_SERVER : Z := 0x1.
Definition SDO_CLIENT : Z := 0x2.
Definition SDO_UNKNOWN : Z := 0x3.
Definition SDOABT_TOGGLE_NOT_ALTERNED : Z := 0x05030000.
Definition SDOABT_TIMED_OUT : Z := 0x05040000.
Definition SDOABT_LOCAL_CTRL_ERROR : Z := 0x08000021.

(** The functions called at the end of a transfer of a client, by number. *)
Class SDOCallbacks := run_sdo_callback : Z -> Z -> CO unit.

(** ** Access to a line *)

Definition get_line (line : Z) : CO s_transfer :=
  l ← get transfers; opt (l.[line]).

Definition upd_line (line : Z) (f : s_transfer -> s_transfer) : CO unit := fun d =>
  t ← (transfers d).[line];
  l ← (transfers d).[line <- f t];
  Some (tt, d <| transfers := l |>).

(** [n] bytes of an array from position [off], and writing them. *)
Definition slice (l : list Z) (off n : Z) : option (list Z) :=
  if (0 <=? off) && (0 <=? n) && (off + n <=? Z.of_nat (length l))
  then Some (take (Z.to_nat n) (drop (Z.to_nat off) l)) else None.

Definition put_slice (l : list Z) (off : Z) (bs : list Z) : option (list Z) :=
  if (0 <=? off) && (off + Z.of_nat (length bs) <=? Z.of_nat (length l))
  then Some (take (Z.to_nat off) l ++ bs ++ drop (Z.to_nat off + length bs) l) else None.

(** ** Timers *)

Definition StopSDO_TIMER (id : Z) : CO unit :=
  t ← get_line id;
  h ← coDelAlarm (tr_timer t);
  upd_line id (set tr_timer (fun _ => h)).

Definition StartSDO_TIMER (id : Z) : CO unit :=
  h ← coSetAlarm id SDOTimeoutAlarm_cb (MS_TO_TIMEVAL SDO_TIMEOUT_MS) 0;
  upd_line id (set tr_timer (fun _ => h)).

Definition RestartSDO_TIMER (id : Z) : CO unit :=
  t ← get_line id;
  when (negb (tr_timer t =? TIMER_NONE)) (_ ← StopSDO_TIMER id; StartSDO_TIMER id).

(** ** Lines *)

Definition initSDOline (line CliServNbr index subIndex state : Z) : CO unit :=
  _ ← (if (state =? SDO_DOWNLOAD_IN_PROGRESS) || (state =? SDO_UPLOAD_IN_PROGRESS) ||
          (state =? SDO_BLOCK_DOWNLOAD_IN_PROGRESS) || (state =? SDO_BLOCK_UPLOAD_IN_PROGRESS)
       then StartSDO_TIMER line else StopSDO_TIMER line);
  upd_line line (fun t =>
    Transfer CliServNbr (whoami t) state 0 (abortCode t) index subIndex 0 0 (tr_data t)
      0 0 0 0 0 0 0 RXSTEP_INIT (tmpData t) 0 (tr_timer t) None).

Definition resetSDOline (line : Z) : CO unit :=
  _ ← initSDOline line 0 0 0 SDO_RESET;
  upd_line line (fun t =>
    t <| tr_data := replicate (Z.to_nat SDO_MAX_LENGTH_TRANSFER) 0 |>
      <| whoami := 0 |> <| abortCode := 0 |>).

Definition resetSDO : CO unit :=
  st_for (Z.to_nat SDO_MAX_SIMULTANEOUS_TRANSFERS) 0 resetSDOline.

(** The first line from [i] on that satisfies [p]. *)
Fixpoint find_line (fuel : nat) (i : Z) (p : s_transfer -> bool) (l : list s_transfer)
    : option (option Z) :=
  match fuel with
  | O => Some None
  | S fuel => t ← l.[i]; if p t then Some (Some i) else find_line fuel (i + 1) p l
  end.

Definition search_line (p : s_transfer -> bool) : CO (option Z) :=
  l ← get transfers; opt (find_line (Z.to_nat SDO_MAX_SIMULTANEOUS_TRANSFERS) 0 p l).

(** [None] is the answer 0xFF. *)
Definition getSDOfreeLine (who : Z) : CO (option Z) :=
  line ← search_line (fun t => tr_state t =? SDO_RESET);
  match line with
  | Some i => _ ← upd_line i (set whoami (fun _ => who)); ret (Some i)
  | None => ret None
  end.

Definition getSDOlineOnUse (cliServNbr who : Z) : CO (option Z) :=
  search_line (fun t => negb (tr_state t =? SDO_RESET) &&
    negb (tr_state t =? SDO_ABORTED_INTERNAL) &&
    (CliServNbr t =? cliServNbr) && (whoami t =? who)).

Definition getSDOlineToClose (cliServNbr who : Z) : CO (option Z) :=
  search_line (fun t => negb (tr_state t =? SDO_RESET) &&
    (CliServNbr t =? cliServNbr) && (whoami t =? who)).

Definition getSDOlineRestBytes (line : Z) : CO Z :=
  t ← get_line line;
  ret (if tr_count t =? 0 then 0 else u32 (tr_count t - tr_offset t)).

Definition setSDOlineRestBytes (line nbBytes : Z) : CO Z :=
  if SDO_MAX_LENGTH_TRANSFER <? nbBytes then ret 0xFF else
  _ ← upd_line line (set tr_count (fun _ => nbBytes));
  ret 0.

(** ** Between a line and a message *)

(** The bytes taken from the line; [None] is the answer 0xFF. *)
Definition lineToSDO (line nbBytes : Z) : CO (option (list Z)) :=
  t ← get_line line;
  if SDO_MAX_LENGTH_TRANSFER <? u32 (tr_offset t + nbBytes) then ret None else
  if tr_count t <? u32 (tr_offset t + nbBytes) then ret None else
  bs ← opt (slice (tr_data t) (tr_offset t) nbBytes);
  _ ← upd_line line (set tr_offset (fun o => u32 (o + nbBytes)));
  ret (Some bs).

Definition SDOtoLine (line nbBytes : Z) (data : list Z) : CO Z :=
  t ← get_line line;
  if SDO_MAX_LENGTH_TRANSFER <? u32 (tr_offset t + nbBytes) then ret 0xFF else
  bs ← opt (slice data 0 nbBytes);
  l ← opt (put_slice (tr_data t) (tr_offset t) bs);
  _ ← upd_line line (fun t =>
    t <| tr_data := l |> <| tr_offset ::= (fun o => u32 (o + nbBytes)) |>);
  ret 0.

(** ** Between a line and the dictionary *)

Definition SDOlineToObjdict `{ODC : ODCallbacks} (line : Z) : CO Z :=
  t ← get_line line;
  _ ← when (tr_count t =? 0) (upd_line line (set tr_count (fun _ => tr_offset t)));
  t ← get_line line;
  '(errorCode, _) ← setODentry (tr_index t) (tr_subIndex t) (tr_data t) (tr_count t) true;
  if negb (errorCode =? OD_SUCCESSFUL) then ret errorCode else ret 0.

Definition objdictToSDOline (line : Z) : CO Z :=
  t ← get_line line;
  r ← getODentry (tr_index t) (tr_subIndex t) false SDO_MAX_LENGTH_TRANSFER true;
  l ← opt (put_slice (tr_data t) 0 (rd_bytes r));
  _ ← upd_line line (set tr_data (fun _ => l));
  if negb (rd_code r =? OD_SUCCESSFUL) then ret (rd_code r) else
  _ ← upd_line line (fun t => t <| tr_count := rd_size r |> <| tr_offset := 0 |>);
  ret 0.

(** ** Messages *)

(** The identifier for what the server (subindex 2) or the client (subindex 1)
    sends; [None] when there is no such server or client. *)
Definition sdo_cobid (who cliServNbr : Z) : CO (option Z) :=
  od ← get co_od;
  let '(first, last, s) :=
    if who =? SDO_SERVER then (SDO_SVR (firstIndex od), SDO_SVR (lastIndex od), 2)
    else (SDO_CLT (firstIndex od), SDO_CLT (lastIndex od), 1) in
  if (first =? 0) || (last <? first + cliServNbr) then ret None else
  sub ← od_sub (first + cliServNbr) s;
  c ← rd 4 (pObject sub);
  ret (Some (u16 c)).

Definition sendSDO (who cliServNbr : Z) (pData : list Z) : CO Z :=
  st ← get co_st;
  if negb ((nodeState st =? Operational) || (nodeState st =? Pre_operational))
  then ret 0xFF else
  m ← Message_uninit;
  c ← sdo_cobid who cliServNbr;
  match c with
  | None => ret 0xFF
  | Some c =>
      bs ← opt (slice pData 0 8);
      m ← opt (set_bytes 0 bs m);
      canSend (MkMessage c NOT_A_REQUEST 8 (msg_data m))
  end.

Definition sendSDOabort (who cliServNbr index subIndex code : Z) : CO Z :=
  sendSDO who cliServNbr
    [0x80; Z.land index 0xFF; Z.land (Z.shiftr index 8) 0xFF; subIndex;
     u8 (Z.land code 0xFF); u8 (Z.land (Z.shiftr code 8) 0xFF);
     u8 (Z.land (Z.shiftr code 16) 0xFF); u8 (Z.land (Z.shiftr code 24) 0xFF)].

Definition failedSDO (cliServNbr who index subIndex code : Z) : CO Z :=
  line ← getSDOlineOnUse cliServNbr who;
  _ ← match line with
    | Some line =>
        _ ← when (who =? SDO_SERVER) (resetSDOline line);
        when (who =? SDO_CLIENT)
          (_ ← StopSDO_TIMER line;
           upd_line line (fun t =>
             t <| tr_state := SDO_ABORTED_INTERNAL |> <| abortCode := code |>))
    | None => st_skip
    end;
  err ← sendSDOabort who cliServNbr index subIndex code;
  if negb (err =? 0) then ret 0xFF else ret 0.

Section callbacks.
Context `{SC : SDOCallbacks}.

(** [if(d->transfers[line].Callback) ...]. *)
Definition call_Callback (line nodeId : Z) : CO unit :=
  t ← get_line line;
  match tr_Callback t with
  | None => st_skip
  | Some cb => run_sdo_callback cb nodeId
  end.

Definition SDOTimeoutAlarm (id : Z) : CO unit :=
  od ← get co_od;
  let offset := SDO_CLT (firstIndex od) in
  t ← get_line id;
  if (offset =? 0) || (SDO_CLT (lastIndex od) <? offset + CliServNbr t) then st_skip else
  sub ← od_sub (offset + CliServNbr t) 3;
  nodeId ← rd 4 (pObject sub);
  let nodeId := u8 nodeId in
  _ ← upd_line id (fun t =>
    t <| tr_timer := TIMER_NONE |> <| tr_state := SDO_ABORTED_INTERNAL |>);
  _ ← sendSDOabort (whoami t) (CliServNbr t) (tr_index t) (tr_subIndex t) SDOABT_TIMED_OUT;
  _ ← upd_line id (set abortCode (fun _ => SDOABT_TIMED_OUT));
  _ ← call_Callback id nodeId;
  t ← get_line id;
  when (abortCode t =? SDOABT_TIMED_OUT) (resetSDOline (u8 id)).
End callbacks.
