(* ===== verification/Sdo.v ===== *)
(** * Sdo: the SDO protocol (proceedSDO of src/sdo.c)

    One received SDO message, as server (the dictionary is here) or as client
    (the dictionary is at the other node): expedited, segmented and block
    transfers in both directions, aborts and protocol errors. *)

From S2P Require Import Prelude CMem Timers Node ObjDict SdoLine.

(** ** The fields of the first byte *)

Definition getSDOcs (byte : Z) : Z := Z.shiftr byte 5.
Definition getSDOn2 (byte : Z) : Z := Z.land (Z.shiftr byte 2) 3.
Definition getSDOn3 (byte : Z) : Z := Z.land (Z.shiftr byte 1) 7.
Definition getSDOe (byte : Z) : Z := Z.land (Z.shiftr byte 1) 1.
Definition getSDOs (byte : Z) : Z := Z.land byte 1.
Definition getSDOc (byte : Z) : Z := Z.land byte 1.
Definition getSDOt (byte : Z) : Z := Z.land (Z.shiftr byte 4) 1.
Definition getSDOindex (byte1 byte2 : Z) : Z := Z.lor (Z.shiftl byte2 8) byte1.
Definition getSDOblockSC (byte : Z) : Z := Z.land byte 3.

Definition SDO_BCS_INITIATE_UPLOAD_REQUEST : Z := 0.
Definition SDO_BCS_END_UPLOAD_REQUEST : Z := 1.
Definition SDO_BCS_UPLOAD_RESPONSE : Z := 2.
Definition SDO_BCS_START_UPLOAD : Z := 3.
Definition SDO_BSS_INITIATE_UPLOAD_RESPONSE : Z := 0.
Definition SDO_BSS_END_UPLOAD_RESPONSE : Z := 1.
Definition SDO_BCS_INITIATE_DOWNLOAD_REQUEST : Z := 0.
Definition SDO_BCS_END_DOWNLOAD_REQUEST : Z := 1.
Definition SDO_BSS_INITIATE_DOWNLOAD_RESPONSE : Z := 0.
Definition SDO_BSS_END_DOWNLOAD_RESPONSE : Z := 1.
Definition SDO_BSS_DOWNLOAD_RESPONSE : Z := 2.

(** The four bytes of a size or an abort code. *)
Definition le32 (b0 b1 b2 b3 : Z) : Z :=
  u32 (b0 + Z.shiftl b1 8 + Z.shiftl b2 16 + Z.shiftl b3 24).

Definition bytes32 (n : Z) : list Z :=
  [u8 n; u8 (Z.shiftr n 8); u8 (Z.shiftr n 16); u8 (Z.shiftr n 24)].

(** Bytes 1 to 3 of a message that names an entry. *)
Definition mux (index subIndex : Z) : list Z :=
  [Z.land index 0xFF; Z.land (Z.shiftr index 8) 0xFF; subIndex].

(** [bs] followed by zeros, in [n] bytes. *)
Definition pad (n : Z) (bs : list Z) : list Z :=
  bs ++ replicate (Z.to_nat n - length bs) 0.

(** [! toggle & 1]. *)
Definition invert (toggle : Z) : Z := b2z (toggle =? 0).

(** ** Which server or client the message is for *)

Inductive sdo_found :=
  | Sdo_invalid                      (** an entry without the subindex *)
  | Sdo_not_found
  | Sdo_at (j offset : Z).

(** The first entry from [offset] on whose subindex [s] holds [cob]; the entry
    must have more than [need] subindexes. *)
Fixpoint find_sdo (fuel : nat) (offset j need s cob : Z) : CO sdo_found :=
  match fuel with
  | O => ret Sdo_not_found
  | S fuel =>
      e ← od_entry offset;
      if bSubCount e <=? need then ret Sdo_invalid else
      sub ← od_sub offset s;
      c ← rd 4 (pObject sub);
      if c =? cob then ret (Sdo_at j offset)
      else find_sdo fuel (offset + 1) (u8 (j + 1)) need s cob
  end.

Definition sdo_positions (first last : Z) : nat :=
  if first =? 0 then 0%nat else Z.to_nat (last - first + 1).

(** Who is addressed: server or client, its number, and for a client the node of
    the server; [None] for the answer 0xFF. *)
Definition sdo_addressee (cob : Z) : CO (option (Z * Z * Z)) :=
  od ← get co_od;
  let first := SDO_SVR (firstIndex od) in
  r ← find_sdo (sdo_positions first (SDO_SVR (lastIndex od))) first 0 1 1 cob;
  match r with
  | Sdo_invalid => ret None
  | Sdo_at j _ => ret (Some (SDO_SERVER, j, 0))
  | Sdo_not_found =>
      let first := SDO_CLT (firstIndex od) in
      r ← find_sdo (sdo_positions first (SDO_CLT (lastIndex od))) first 0 3 2 cob;
      match r with
      | Sdo_at j offset =>
          sub ← od_sub offset 3;
          nodeId ← rd 1 (pObject sub);
          ret (Some (SDO_CLIENT, j, nodeId))
      | _ => ret None
      end
  end.

(** ** The protocol *)

Section protocol.
Context `{ODC : ODCallbacks} `{SC : SDOCallbacks}.

(** Everything is about transfers between the node and number [nbr], as
    server or client [who]; [nodeId] is the server's node for a client. *)
Context (who nbr nodeId : Z).

Definition send (data : list Z) : CO Z := sendSDO who nbr data.

(** [failedSDO(...); return 0xFF;]. *)
Definition fail (index subIndex code : Z) : CO Z :=
  _ ← failedSDO nbr who index subIndex code;
  ret 0xFF.

(** The line on use must exist and be in state [want]. *)
Definition with_line (onuse : option Z) (want : Z) (k : Z -> CO Z) : CO Z :=
  match onuse with
  | None => fail 0 0 SDOABT_LOCAL_CTRL_ERROR
  | Some line =>
      t ← get_line line;
      if negb (tr_state t =? want) then fail 0 0 SDOABT_LOCAL_CTRL_ERROR else k line
  end.

(** The end of a transfer of a client. *)
Definition finish (line : Z) : CO Z :=
  _ ← StopSDO_TIMER line;
  _ ← upd_line line (set tr_state (fun _ => SDO_FINISHED));
  _ ← call_Callback line nodeId;
  ret 0.

(** A line for a new transfer of a server: there must be none on use, and a free
    one. *)
Definition open_line (onuse : option Z) (index subIndex state : Z) (k : Z -> CO Z) : CO Z :=
  match onuse with
  | Some _ => fail index subIndex SDOABT_LOCAL_CTRL_ERROR
  | None =>
      free ← getSDOfreeLine who;
      match free with
      | None => fail index subIndex SDOABT_LOCAL_CTRL_ERROR
      | Some line => _ ← initSDOline line nbr index subIndex state; k line
      end
  end.

(** The size announced in bytes 4 to 7. *)
Definition announced (m : Message) : CO Z :=
  b4 ← data_at m 4; b5 ← data_at m 5; b6 ← data_at m 6; b7 ← data_at m 7;
  ret (le32 b4 b5 b6 b7).

(** *** cs = 0: segment of a download (server) or of an upload (client) *)

Definition segment_received (onuse : option Z) (want : Z) (m : Message)
    (k : Z -> s_transfer -> CO Z) : CO Z :=
  with_line onuse want (fun line =>
    b0 ← data_at m 0;
    _ ← RestartSDO_TIMER line;
    t ← get_line line;
    if negb (tr_toggle t =? getSDOt b0)
    then fail (tr_index t) (tr_subIndex t) SDOABT_TOGGLE_NOT_ALTERNED else
    err ← SDOtoLine line (7 - getSDOn3 b0) (drop 1 (msg_data m));
    if negb (err =? 0) then fail (tr_index t) (tr_subIndex t) SDOABT_GENERAL_ERROR
    else k line t).

Definition server_download_segment (onuse : option Z) (m : Message) : CO Z :=
  segment_received onuse SDO_DOWNLOAD_IN_PROGRESS m (fun line t =>
    b0 ← data_at m 0;
    _ ← send (pad 8 [Z.lor (Z.shiftl 1 5) (Z.shiftl (tr_toggle t) 4)]);
    _ ← upd_line line (set tr_toggle invert);
    if negb (getSDOc b0 =? 0) then
      errorCode ← SDOlineToObjdict line;
      if negb (errorCode =? 0) then fail (tr_index t) (tr_subIndex t) errorCode else
      _ ← resetSDOline line;
      ret 0
    else ret 0).

Definition client_upload_segment (onuse : option Z) (m : Message) : CO Z :=
  segment_received onuse SDO_UPLOAD_IN_PROGRESS m (fun line t =>
    b0 ← data_at m 0;
    _ ← upd_line line (set tr_toggle invert);
    if negb (getSDOc b0 =? 0) then finish line
    else
      t ← get_line line;
      _ ← send (pad 8 [Z.lor (Z.shiftl 3 5) (Z.shiftl (tr_toggle t) 4)]);
      ret 0).

(** *** cs = 1: initiate download (server), segment acknowledged (client) *)

Definition server_initiate_download (onuse : option Z) (m : Message) : CO Z :=
  b0 ← data_at m 0; b1 ← data_at m 1; b2 ← data_at m 2; subIndex ← data_at m 3;
  let index := getSDOindex b1 b2 in
  open_line onuse index subIndex SDO_DOWNLOAD_IN_PROGRESS (fun line =>
    let answer := _ ← send (pad 8 (Z.shiftl 3 5 :: mux index subIndex)); ret 0 in
    if negb (getSDOe b0 =? 0) then
      let nbBytes := 4 - getSDOn2 b0 in
      _ ← upd_line line (set tr_count (fun _ => nbBytes));
      err ← SDOtoLine line nbBytes (drop 4 (msg_data m));
      if negb (err =? 0) then fail index subIndex SDOABT_GENERAL_ERROR else
      errorCode ← SDOlineToObjdict line;
      if negb (errorCode =? 0) then fail index subIndex errorCode else
      _ ← resetSDOline line;
      answer
    else if negb (getSDOs b0 =? 0) then
      nbBytes ← announced m;
      err ← setSDOlineRestBytes line nbBytes;
      if negb (err =? 0) then fail index subIndex SDOABT_GENERAL_ERROR else answer
    else answer).

(** The next segment of a download, after the toggle is set. *)
Definition client_send_segment (line nbBytes index subIndex : Z) : CO Z :=
  t ← get_line line;
  let last := negb (7 <? nbBytes) in
  let n := if last then nbBytes else 7 in
  let b0 := if last
    then u8 (Z.lor (Z.lor (Z.shiftl (tr_toggle t) 4) (Z.shiftl (7 - nbBytes) 1)) 1)
    else Z.shiftl (tr_toggle t) 4 in
  bs ← lineToSDO line n;
  match bs with
  | None => fail index subIndex SDOABT_GENERAL_ERROR
  | Some bs => _ ← send (pad 8 (b0 :: bs)); ret 0
  end.

Definition client_download_response (onuse : option Z) (m : Message) : CO Z :=
  with_line onuse SDO_DOWNLOAD_IN_PROGRESS (fun line =>
    b0 ← data_at m 0;
    _ ← RestartSDO_TIMER line;
    t ← get_line line;
    if negb (tr_toggle t =? getSDOt b0)
    then fail (tr_index t) (tr_subIndex t) SDOABT_TOGGLE_NOT_ALTERNED else
    nbBytes ← getSDOlineRestBytes line;
    if nbBytes =? 0 then finish line else
    _ ← upd_line line (set tr_toggle invert);
    client_send_segment line nbBytes (tr_index t) (tr_subIndex t)).

(** *** cs = 2: initiate upload (server), its answer (client) *)

(** The answer to the request: the value if it fits the message, or its size. *)
Definition answer_upload (line index subIndex nbBytes : Z) : CO Z :=
  if 4 <? nbBytes then
    _ ← send (Z.lor (Z.shiftl 2 5) 1 :: mux index subIndex ++ bytes32 nbBytes);
    ret 0
  else
    bs ← lineToSDO line nbBytes;
    match bs with
    | None => fail index subIndex SDOABT_GENERAL_ERROR
    | Some bs =>
        let b0 := u8 (Z.lor (Z.lor (Z.shiftl 2 5) (Z.shiftl (4 - nbBytes) 2)) 3) in
        _ ← send (pad 8 (b0 :: mux index subIndex ++ bs));
        _ ← resetSDOline line;
        ret 0
    end.

Definition server_initiate_upload (onuse : option Z) (m : Message) : CO Z :=
  b1 ← data_at m 1; b2 ← data_at m 2; subIndex ← data_at m 3;
  let index := getSDOindex b1 b2 in
  open_line onuse index subIndex SDO_UPLOAD_IN_PROGRESS (fun line =>
    errorCode ← objdictToSDOline line;
    if negb (errorCode =? 0) then fail index subIndex errorCode else
    nbBytes ← getSDOlineRestBytes line;
    answer_upload line index subIndex nbBytes).

(** The value came with the answer: the transfer is over. *)
Definition take_expedited (line index subIndex nbBytes : Z) (data : list Z) : CO Z :=
  err ← SDOtoLine line nbBytes data;
  if negb (err =? 0) then fail index subIndex SDOABT_GENERAL_ERROR else
  _ ← StopSDO_TIMER line;
  _ ← upd_line line (fun t => t <| tr_count := nbBytes |> <| tr_state := SDO_FINISHED |>);
  _ ← call_Callback line nodeId;
  ret 0.

Definition client_initiate_upload_response (onuse : option Z) (m : Message) : CO Z :=
  with_line onuse SDO_UPLOAD_IN_PROGRESS (fun line =>
    b0 ← data_at m 0;
    _ ← RestartSDO_TIMER line;
    t ← get_line line;
    if negb (getSDOe b0 =? 0)
    then take_expedited line (tr_index t) (tr_subIndex t) (4 - getSDOn2 b0) (drop 4 (msg_data m))
    else
      let request := _ ← send (pad 8 [Z.shiftl 3 5]); ret 0 in
      if negb (getSDOs b0 =? 0) then
        nbBytes ← announced m;
        err ← setSDOlineRestBytes line nbBytes;
        if negb (err =? 0) then fail (tr_index t) (tr_subIndex t) SDOABT_GENERAL_ERROR
        else request
      else request).

(** *** cs = 3: request for a segment (server), download accepted (client) *)

(** The next segment of an upload; [t] is the line before it. *)
Definition server_send_segment (line nbBytes : Z) (t : s_transfer) : CO Z :=
  if 7 <? nbBytes then
    bs ← lineToSDO line 7;
    match bs with
    | None => fail (tr_index t) (tr_subIndex t) SDOABT_GENERAL_ERROR
    | Some bs =>
        _ ← upd_line line (set tr_toggle invert);
        _ ← send (Z.shiftl (tr_toggle t) 4 :: bs);
        ret 0
    end
  else
    bs ← lineToSDO line nbBytes;
    match bs with
    | None => fail (tr_index t) (tr_subIndex t) SDOABT_GENERAL_ERROR
    | Some bs =>
        let b0 := u8 (Z.lor (Z.lor (Z.shiftl (tr_toggle t) 4) (Z.shiftl (7 - nbBytes) 1)) 1) in
        _ ← send (pad 8 (b0 :: bs));
        _ ← resetSDOline line;
        ret 0
    end.

Definition server_upload_segment (onuse : option Z) (m : Message) : CO Z :=
  with_line onuse SDO_UPLOAD_IN_PROGRESS (fun line =>
    b0 ← data_at m 0;
    _ ← RestartSDO_TIMER line;
    t ← get_line line;
    if negb (tr_toggle t =? getSDOt b0)
    then fail (tr_index t) (tr_subIndex t) SDOABT_TOGGLE_NOT_ALTERNED else
    nbBytes ← getSDOlineRestBytes line;
    server_send_segment line nbBytes t).

Definition client_initiate_download_response (onuse : option Z) (m : Message) : CO Z :=
  with_line onuse SDO_DOWNLOAD_IN_PROGRESS (fun line =>
    _ ← RestartSDO_TIMER line;
    t ← get_line line;
    nbBytes ← getSDOlineRestBytes line;
    if nbBytes =? 0 then finish line
    else client_send_segment line nbBytes (tr_index t) (tr_subIndex t)).

(** *** cs = 4: abort *)

Definition sdo_abort_received (onuse : option Z) (m : Message) : CO Z :=
  code ← announced m;
  match onuse with
  | None => ret 0
  | Some line =>
      if who =? SDO_SERVER then _ ← resetSDOline line; ret 0
      else
        _ ← StopSDO_TIMER line;
        _ ← upd_line line (fun t => t <| tr_state := SDO_ABORTED_RCV |> <| abortCode := code |>);
        _ ← call_Callback line nodeId;
        ret 0
  end.

(** *** cs = 5: block transfer, the side that produces the data *)

(** The segments of one block, from number [SeqNo] on; [failed] is the error return. *)
Fixpoint send_block (fuel : nat) (line SeqNo : Z) (failed : CO Z) : CO Z :=
  match fuel with
  | O => opt None
  | S fuel =>
      t ← get_line line;
      if negb (SeqNo <=? blksize t) then ret 0 else
      _ ← upd_line line (set seqno (fun _ => SeqNo));
      nbBytes ← getSDOlineRestBytes line;
      if 7 <? nbBytes then
        bs ← lineToSDO line 7;
        match bs with
        | None => failed
        | Some bs =>
            _ ← send (SeqNo :: bs);
            send_block fuel line (u8 (SeqNo + 1)) failed
        end
      else
        bs ← lineToSDO line nbBytes;
        match bs with
        | None => failed
        | Some bs =>
            _ ← send (pad 8 (Z.lor 0x80 SeqNo :: bs));
            _ ← upd_line line (set endfield (fun _ => u8 (7 - nbBytes)));
            ret 0
        end
  end.

(** A block starts where the line is. *)
Definition start_block (line : Z) (failed : CO Z) : CO Z :=
  _ ← upd_line line (fun t => t <| lastblockoffset := u8 (tr_offset t) |>);
  send_block 256 line 1 failed.

(** The receiver acknowledged segment [AckSeq] of the block: either everything is
    through, and the end command [sc] is sent, or the next block starts after the
    segments received. *)
Definition block_acknowledged (line sc : Z) (m : Message) (failed : CO Z) : CO Z :=
  b1 ← data_at m 1; b2 ← data_at m 2;
  _ ← upd_line line (set blksize (fun _ => b2));
  let AckSeq := Z.land b1 0x7f in
  nbBytes ← getSDOlineRestBytes line;
  t ← get_line line;
  if (nbBytes =? 0) && (AckSeq =? seqno t) then
    _ ← send (pad 8 [Z.lor (Z.lor (Z.shiftl 6 5) (Z.shiftl (endfield t) 2)) sc]);
    ret 0
  else
    _ ← upd_line line (set tr_offset (fun _ => lastblockoffset t + 7 * AckSeq));
    t ← get_line line;
    if tr_count t <? tr_offset t then fail 0 0 SDOABT_LOCAL_CTRL_ERROR
    else start_block line failed.

Definition server_block_upload (onuse : option Z) (m : Message) : CO Z :=
  b0 ← data_at m 0;
  let SubCommand := getSDOblockSC b0 in
  if SubCommand =? SDO_BCS_INITIATE_UPLOAD_REQUEST then
    b1 ← data_at m 1; b2 ← data_at m 2; subIndex ← data_at m 3;
    let index := getSDOindex b1 b2 in
    open_line onuse index subIndex SDO_BLOCK_UPLOAD_IN_PROGRESS (fun line =>
      b4 ← data_at m 4;
      _ ← upd_line line (fun t =>
        t <| peerCRCsupport := Z.land (Z.shiftr b0 2) 1 |> <| blksize := b4 |>);
      errorCode ← objdictToSDOline line;
      if negb (errorCode =? 0) then fail index subIndex errorCode else
      nbBytes ← getSDOlineRestBytes line;
      _ ← upd_line line (set objsize (fun _ => nbBytes));
      _ ← send (Z.lor (Z.lor (Z.shiftl 6 5) (Z.shiftl 1 1)) SDO_BSS_INITIATE_UPLOAD_RESPONSE
                :: mux index subIndex ++ bytes32 nbBytes);
      ret 0)
  else if SubCommand =? SDO_BCS_END_UPLOAD_REQUEST then
    with_line onuse SDO_BLOCK_UPLOAD_IN_PROGRESS (fun line =>
      _ ← resetSDOline line; ret 0)
  else
    with_line onuse SDO_BLOCK_UPLOAD_IN_PROGRESS (fun line =>
      _ ← RestartSDO_TIMER line;
      t ← get_line line;
      let failed := fail (tr_index t) (tr_subIndex t) SDOABT_GENERAL_ERROR in
      if SubCommand =? SDO_BCS_UPLOAD_RESPONSE
      then block_acknowledged line SDO_BSS_END_UPLOAD_RESPONSE m failed
      else start_block line failed).

(** After a block, the error return would use variables the code has not set; the
    answer to an end of a transfer that is not there, the number of a line. *)
Definition client_block_download (onuse : option Z) (m : Message) : CO Z :=
  b0 ← data_at m 0;
  let SubCommand := getSDOblockSC b0 in
  if (SubCommand =? SDO_BSS_INITIATE_DOWNLOAD_RESPONSE) ||
     (SubCommand =? SDO_BSS_DOWNLOAD_RESPONSE) then
    with_line onuse SDO_BLOCK_DOWNLOAD_IN_PROGRESS (fun line =>
      _ ← RestartSDO_TIMER line;
      t ← get_line line;
      if SubCommand =? SDO_BSS_INITIATE_DOWNLOAD_RESPONSE then
        b4 ← data_at m 4;
        _ ← upd_line line (fun t =>
          t <| peerCRCsupport := Z.land (Z.shiftr b0 2) 1 |> <| blksize := b4 |>);
        start_block line (fail (tr_index t) (tr_subIndex t) SDOABT_GENERAL_ERROR)
      else block_acknowledged line SDO_BCS_END_DOWNLOAD_REQUEST m (opt None))
  else if SubCommand =? SDO_BSS_END_DOWNLOAD_RESPONSE then
    line ← opt onuse;
    finish line
  else fail 0 0 SDOABT_LOCAL_CTRL_ERROR.

(** *** cs = 6: block transfer, the side that receives the data *)

(** A segment of a block, the last one kept aside until its length is known;
    [sc] is the command of the acknowledgement. *)
Definition block_segment (line sc : Z) (m : Message) : CO Z :=
  b0 ← data_at m 0;
  let SeqNo := Z.land b0 0x7F in
  let acknowledge :=
    t ← get_line line;
    _ ← send (pad 8 [Z.lor (Z.shiftl 5 5) sc; seqno t; SDO_BLOCK_SIZE]);
    _ ← upd_line line (set seqno (fun _ => 0));
    ret 0 in
  t ← get_line line;
  if negb (Z.land b0 0x80 =? 0) then
    _ ← when (SeqNo =? seqno t + 1)
      (bs ← opt (slice (msg_data m) 0 8);
       upd_line line (fun t =>
         t <| rxstep := RXSTEP_END |> <| seqno := SeqNo |> <| tmpData := bs |>));
    acknowledge
  else
    let next := if SeqNo =? SDO_BLOCK_SIZE then acknowledge else ret 0 in
    if SeqNo =? seqno t + 1 then
      _ ← upd_line line (set seqno (fun _ => SeqNo));
      err ← SDOtoLine line 7 (drop 1 (msg_data m));
      if negb (err =? 0) then fail (tr_index t) (tr_subIndex t) SDOABT_GENERAL_ERROR else next
    else next.

(** The bytes kept aside go to the line, and the size must be the one announced. *)
Definition block_end (line b0 : Z) (k : CO Z) : CO Z :=
  t ← get_line line;
  let NbBytesNoData := Z.land (Z.shiftr b0 2) 0x07 in
  err ← SDOtoLine line (7 - NbBytesNoData) (drop 1 (tmpData t));
  if negb (err =? 0) then fail (tr_index t) (tr_subIndex t) SDOABT_GENERAL_ERROR else
  t ← get_line line;
  if negb (objsize t =? 0) && negb (objsize t =? tr_offset t)
  then fail (tr_index t) (tr_subIndex t) SDOABT_LOCAL_CTRL_ERROR else k.

Definition server_block_download (onuse : option Z) (m : Message) : CO Z :=
  b0 ← data_at m 0;
  match onuse with
  | None =>
      if negb (Z.land b0 1 =? SDO_BCS_INITIATE_DOWNLOAD_REQUEST)
      then fail 0 0 SDOABT_LOCAL_CTRL_ERROR else
      b1 ← data_at m 1; b2 ← data_at m 2; subIndex ← data_at m 3;
      let index := getSDOindex b1 b2 in
      open_line None index subIndex SDO_BLOCK_DOWNLOAD_IN_PROGRESS (fun line =>
        _ ← upd_line line (fun t =>
          t <| rxstep := RXSTEP_STARTED |> <| peerCRCsupport := Z.land (Z.shiftr b0 2) 1 |>);
        _ ← when (negb (Z.land b0 2 =? 0))
          (n ← announced m; upd_line line (set objsize (fun _ => n)));
        _ ← send (pad 8 (Z.lor (Z.shiftl 5 5) SDO_BSS_INITIATE_DOWNLOAD_RESPONSE ::
                  [u8 index; u8 (Z.shiftr index 8); subIndex] ++ [SDO_BLOCK_SIZE]));
        ret 0)
  | Some line =>
      t ← get_line line;
      if rxstep t =? RXSTEP_STARTED then
        _ ← RestartSDO_TIMER line;
        block_segment line SDO_BSS_DOWNLOAD_RESPONSE m
      else if rxstep t =? RXSTEP_END then
        if negb (Z.land b0 1 =? SDO_BCS_END_DOWNLOAD_REQUEST)
        then fail 0 0 SDOABT_LOCAL_CTRL_ERROR else
        _ ← RestartSDO_TIMER line;
        block_end line b0
          (_ ← send (pad 8 [Z.lor (Z.shiftl 5 5) SDO_BSS_END_DOWNLOAD_RESPONSE]);
           errorCode ← SDOlineToObjdict line;
           if negb (errorCode =? 0) then fail (tr_index t) (tr_subIndex t) errorCode else
           _ ← resetSDOline line;
           ret 0)
      else ret 0
  end.

Definition client_block_upload (onuse : option Z) (m : Message) : CO Z :=
  b0 ← data_at m 0;
  match onuse with
  | None => fail 0 0 SDOABT_LOCAL_CTRL_ERROR
  | Some line =>
      _ ← RestartSDO_TIMER line;
      t ← get_line line;
      if rxstep t =? RXSTEP_INIT then
        if Z.land b0 1 =? SDO_BSS_INITIATE_UPLOAD_RESPONSE then
          _ ← upd_line line (fun t =>
            t <| rxstep := RXSTEP_STARTED |> <| peerCRCsupport := Z.land (Z.shiftr b0 2) 1 |>);
          _ ← when (negb (Z.land b0 2 =? 0))
            (n ← announced m; upd_line line (set objsize (fun _ => n)));
          _ ← send (pad 8 [Z.lor (Z.shiftl 5 5) SDO_BCS_START_UPLOAD]);
          ret 0
        else ret 0
      else if rxstep t =? RXSTEP_STARTED then block_segment line SDO_BCS_UPLOAD_RESPONSE m
      else if rxstep t =? RXSTEP_END then
        if negb (Z.land b0 1 =? SDO_BSS_END_UPLOAD_RESPONSE)
        then fail 0 0 SDOABT_LOCAL_CTRL_ERROR else
        block_end line b0
          (_ ← send (pad 8 [Z.lor (Z.shiftl 5 5) SDO_BCS_END_UPLOAD_REQUEST]);
           finish line)
      else ret 0
  end.

(** *** The command *)

(** The command specifier; in the data phase of a block transfer the first byte
    is a sequence number instead. *)
Definition sdo_cs (onuse : option Z) (m : Message) : CO Z :=
  b0 ← data_at m 0;
  match onuse with
  | None => ret (getSDOcs b0)
  | Some line =>
      t ← get_line line;
      if ((who =? SDO_SERVER) && (tr_state t =? SDO_BLOCK_DOWNLOAD_IN_PROGRESS)) ||
         ((who =? SDO_CLIENT) && (tr_state t =? SDO_BLOCK_UPLOAD_IN_PROGRESS))
      then ret (if b0 =? 0x80 then 4 else 6)
      else ret (getSDOcs b0)
  end.

Definition sdo_command (cs : Z) (onuse : option Z) (m : Message) : CO Z :=
  let server := who =? SDO_SERVER in
  match cs with
  | 0 => if server then server_download_segment onuse m else client_upload_segment onuse m
  | 1 => if server then server_initiate_download onuse m else client_download_response onuse m
  | 2 => if server then server_initiate_upload onuse m
         else client_initiate_upload_response onuse m
  | 3 => if server then server_upload_segment onuse m
         else client_initiate_download_response onuse m
  | 4 => sdo_abort_received onuse m
  | 5 => if server then server_block_upload onuse m else client_block_download onuse m
  | 6 => if server then server_block_download onuse m else client_block_upload onuse m
  | _ => ret 0xFF
  end.
End protocol.

Definition proceedSDO `{ODC : ODCallbacks} `{SC : SDOCallbacks} (m : Message) : CO Z :=
  a ← sdo_addressee (cob_id m);
  match a with
  | None => ret 0xFF
  | Some (who, nbr, nodeId) =>
      if negb (len m =? 8) then
        _ ← failedSDO nbr who 0 0 SDOABT_GENERAL_ERROR;
        ret 0xFF
      else
        onuse ← getSDOlineOnUse nbr who;
        cs ← sdo_cs who onuse m;
        sdo_command who nbr nodeId cs onuse m
  end.
