(* ===== verification/SdoClient.v ===== *)
(** * SdoClient: reading and writing the dictionary of another node (src/sdo.c,
    last part)

    The application starts a transfer to a server it names by node, is called
    back at its end, and fetches the result. *)

From S2P Require Import Prelude CMem Timers Node ObjDict SdoLine Sdo.

(** The number of the client for a node, or 0xFF (none at all), 0xFE (not found). *)
Fixpoint find_client (fuel : nat) (offset CliNbr nodeId : Z) : CO Z :=
  match fuel with
  | O => ret 0xFE
  | S fuel =>
      e ← od_entry offset;
      if bSubCount e <=? 3 then ret 0xFF else
      sub ← od_sub offset 3;
      nodeIdServer ← rd 1 (pObject sub);
      if nodeIdServer =? nodeId then ret CliNbr
      else find_client fuel (offset + 1) (u8 (CliNbr + 1)) nodeId
  end.

Definition GetSDOClientFromNodeId (nodeId : Z) : CO Z :=
  od ← get co_od;
  let offset := SDO_CLT (firstIndex od) in
  if offset =? 0 then ret 0xFF else
  find_client (sdo_positions offset (SDO_CLT (lastIndex od))) offset 0 nodeId.

(** A free line for client [CliNbr], which must not be transferring; [None] is the
    answer 0xFF. *)
Definition take_client_line (CliNbr : Z) : CO (option Z) :=
  onuse ← getSDOlineOnUse CliNbr SDO_CLIENT;
  match onuse with
  | Some _ => ret None
  | None => getSDOfreeLine SDO_CLIENT
  end.

(** Sending the first message; the line is released if the driver refuses it. *)
Definition launch (line CliNbr : Z) (Callback : option Z) (buf : list Z) : CO Z :=
  _ ← upd_line line (set tr_Callback (fun _ => Callback));
  err ← sendSDO SDO_CLIENT CliNbr buf;
  if negb (err =? 0) then _ ← resetSDOline line; ret 0xFF else ret 0.

(** [data] are the bytes at the pointer of the caller.  Copying more than the
    buffer of the line holds writes past it. *)
Definition _writeNetworkDict (nodeId index subIndex count dataType : Z) (data : list Z)
    (Callback : option Z) (useBlockMode : bool) : CO Z :=
  CliNbr ← GetSDOClientFromNodeId nodeId;
  if 0xFE <=? CliNbr then ret CliNbr else
  free ← take_client_line CliNbr;
  match free with
  | None => ret 0xFF
  | Some line =>
      _ ← (if useBlockMode then
             _ ← initSDOline line CliNbr index subIndex SDO_BLOCK_DOWNLOAD_IN_PROGRESS;
             upd_line line (set objsize (fun _ => count))
           else initSDOline line CliNbr index subIndex SDO_DOWNLOAD_IN_PROGRESS);
      bs ← opt (slice data 0 count);
      t ← get_line line;
      l ← opt (put_slice (tr_data t) 0 bs);
      _ ← upd_line line (fun t =>
        t <| tr_count := count |> <| tr_dataType := dataType |> <| tr_data := l |>);
      if useBlockMode then
        launch line CliNbr Callback
          (Z.lor (Z.shiftl 6 5) (Z.shiftl 1 1) :: mux index subIndex ++ bytes32 count)
      else if count <=? 4 then
        bs ← opt (slice l 0 4);
        _ ← upd_line line (set tr_offset (fun _ => count));
        launch line CliNbr Callback
          (u8 (Z.lor (Z.lor (Z.shiftl 1 5) (Z.shiftl (4 - count) 2)) 3) :: mux index subIndex ++ bs)
      else
        launch line CliNbr Callback
          (Z.lor (Z.shiftl 1 5) 1 :: mux index subIndex ++ bytes32 count)
  end.

Definition writeNetworkDict (nodeId index subIndex count dataType : Z) (data : list Z)
    (useBlockMode : bool) : CO Z :=
  _writeNetworkDict nodeId index subIndex count dataType data None useBlockMode.

Definition writeNetworkDictCallBack (nodeId index subIndex count dataType : Z)
    (data : list Z) (Callback : option Z) (useBlockMode : bool) : CO Z :=
  _writeNetworkDict nodeId index subIndex count dataType data Callback useBlockMode.

(** The first client that has no server yet is given [nodeId], and [again] runs. *)
Fixpoint assign_client (fuel : nat) (offset nodeId : Z) (again : CO Z) : CO Z :=
  match fuel with
  | O => ret 0xFF
  | S fuel =>
      e ← od_entry offset;
      if bSubCount e <=? 3 then ret 0xFF else
      sub3 ← od_sub offset 3;
      nodeIdServer ← rd 1 (pObject sub3);
      if nodeIdServer =? 0 then
        sub1 ← od_sub offset 1;
        _ ← wr 4 (pObject sub1) (0x600 + nodeId);
        sub2 ← od_sub offset 2;
        _ ← wr 4 (pObject sub2) (0x580 + nodeId);
        _ ← wr 1 (pObject sub3) nodeId;
        again
      else assign_client fuel (offset + 1) nodeId again
  end.

(** The [AI] variants: a client is made for the node if there is none. *)
Definition with_client (nodeId : Z) (transfer : CO Z) : CO Z :=
  r ← transfer;
  if r =? 0xFE then
    od ← get co_od;
    let offset := SDO_CLT (firstIndex od) in
    if offset =? 0 then ret 0xFF else
    assign_client (sdo_positions offset (SDO_CLT (lastIndex od))) offset nodeId transfer
  else if r =? 0 then ret 0
  else ret 0xFF.

Definition writeNetworkDictCallBackAI (nodeId index subIndex count dataType : Z)
    (data : list Z) (Callback : option Z) (useBlockMode : bool) : CO Z :=
  with_client nodeId
    (_writeNetworkDict nodeId index subIndex count dataType data Callback useBlockMode).

Definition _readNetworkDict (nodeId index subIndex dataType : Z) (Callback : option Z)
    (useBlockMode : bool) : CO Z :=
  CliNbr ← GetSDOClientFromNodeId nodeId;
  if 0xFE <=? CliNbr then ret CliNbr else
  free ← take_client_line CliNbr;
  match free with
  | None => ret 0xFF
  | Some line =>
      _ ← initSDOline line CliNbr index subIndex
            (if useBlockMode then SDO_BLOCK_UPLOAD_IN_PROGRESS else SDO_UPLOAD_IN_PROGRESS);
      _ ← upd_line line (set tr_dataType (fun _ => dataType));
      launch line CliNbr Callback
        (if useBlockMode
         then pad 8 (Z.lor (Z.shiftl 5 5) SDO_BCS_INITIATE_UPLOAD_REQUEST
                     :: mux index subIndex ++ [SDO_BLOCK_SIZE])
         else pad 8 (Z.shiftl 2 5 :: mux index subIndex))
  end.

Definition readNetworkDict (nodeId index subIndex dataType : Z) (useBlockMode : bool) : CO Z :=
  _readNetworkDict nodeId index subIndex dataType None useBlockMode.

Definition readNetworkDictCallback (nodeId index subIndex dataType : Z)
    (Callback : option Z) (useBlockMode : bool) : CO Z :=
  _readNetworkDict nodeId index subIndex dataType Callback useBlockMode.

Definition readNetworkDictCallbackAI (nodeId index subIndex dataType : Z)
    (Callback : option Z) (useBlockMode : bool) : CO Z :=
  with_client nodeId (_readNetworkDict nodeId index subIndex dataType Callback useBlockMode).

(** What the caller gets: the status, [*size], [*abortCode] and the bytes stored. *)
Record read_result := ReadResult {
  rr_status : Z;
  rr_size : Z;
  rr_abortCode : Z;
  rr_data : list Z
}.

Definition getReadResultNetworkDict (nodeId size : Z) : CO read_result :=
  CliNbr ← GetSDOClientFromNodeId nodeId;
  if 0xFE <=? CliNbr then ret (ReadResult SDO_ABORTED_INTERNAL 0 0 []) else
  onuse ← getSDOlineOnUse CliNbr SDO_CLIENT;
  match onuse with
  | None => ret (ReadResult SDO_ABORTED_INTERNAL 0 0 [])
  | Some line =>
      t ← get_line line;
      if negb (tr_state t =? SDO_FINISHED) then
        if (tr_state t =? SDO_ABORTED_RCV) || (tr_state t =? SDO_ABORTED_INTERNAL)
        then ret (ReadResult (tr_state t) 0 (abortCode t) [])
        else ret (ReadResult (tr_state t) size 0 [])
      else
        _ ← when (tr_count t =? 0) (upd_line line (set tr_count (fun _ => tr_offset t)));
        t ← get_line line;
        if size <? tr_count t then ret (ReadResult SDO_PROVIDED_BUFFER_TOO_SMALL 0 0 []) else
        bs ← opt (slice (tr_data t) 0 (tr_count t));
        _ ← resetSDOline line;
        ret (ReadResult SDO_FINISHED (tr_count t) 0 bs)
  end.

(** The status and [*abortCode]. *)
Definition getWriteResultNetworkDict (nodeId : Z) : CO (Z * Z) :=
  CliNbr ← GetSDOClientFromNodeId nodeId;
  if 0xFE <=? CliNbr then ret (SDO_ABORTED_INTERNAL, 0) else
  onuse ← getSDOlineOnUse CliNbr SDO_CLIENT;
  match onuse with
  | None => ret (SDO_ABORTED_INTERNAL, 0)
  | Some line =>
      t ← get_line line;
      if negb (tr_state t =? SDO_FINISHED) then ret (tr_state t, abortCode t) else
      _ ← resetSDOline line;
      ret (SDO_FINISHED, abortCode t)
  end.

Definition closeSDOtransfer (nodeId who : Z) : CO Z :=
  CliNbr ← GetSDOClientFromNodeId nodeId;
  if 0xFE <=? CliNbr then ret SDO_ABORTED_INTERNAL else
  line ← getSDOlineToClose CliNbr who;
  match line with
  | None => ret 0xFF
  | Some line => _ ← resetSDOline line; ret 0
  end.
