(* ===== verification/States.v ===== *)
(** * States: the NMT state machine (src/states.c, src/nmtSlave.c)

    [setState] moves the node between initialisation, pre-operational,
    operational and stopped; every state allows some of the communication
    objects, and the services behind them are started and stopped on the way.
    [proceedNMTstateChange] is how the master drives it. *)

From S2P Require Import Prelude CMem Timers Node ObjDict Emcy Nmt LifeGuard Bits Pdo Sync SdoLine.

Definition getState : CO Z := st ← get co_st; ret (nodeState st).

Definition set_nodeState (s : Z) : CO unit := modify (set co_st (set nodeState (fun _ => s))).

(** ** The services of a state *)

(** The macro of the same name: [cur] and [upd] read and write the flag. *)
Definition StartOrStop (new : Z) (cur : s_state_communication -> Z)
    (upd : Z -> s_state_communication -> s_state_communication)
    (FuncStart FuncStop : CO unit) : CO unit :=
  st ← get co_st;
  let c := cur (CurrentCommunicationState st) in
  if negb (new =? 0) && (c =? 0) then
    _ ← modify (set co_st (set CurrentCommunicationState (upd 1))); FuncStart
  else if (new =? 0) && (c =? 1) then
    _ ← modify (set co_st (set CurrentCommunicationState (upd 0))); FuncStop
  else st_skip.

Definition switchCommunicationState (new : s_state_communication) : CO unit :=
  _ ← StartOrStop (csSDO new) csSDO (fun v => set csSDO (fun _ => v)) st_skip resetSDO;
  _ ← StartOrStop (csSYNC new) csSYNC (fun v => set csSYNC (fun _ => v)) startSYNC stopSYNC;
  _ ← StartOrStop (csLifeGuard new) csLifeGuard (fun v => set csLifeGuard (fun _ => v))
        lifeGuardInit lifeGuardStop;
  _ ← StartOrStop (csEmergency new) csEmergency (fun v => set csEmergency (fun _ => v))
        emergencyInit emergencyStop;
  _ ← StartOrStop (csPDO new) csPDO (fun v => set csPDO (fun _ => v)) PDOInit PDOStop;
  StartOrStop (csBoot_Up new) csBoot_Up (fun v => set csBoot_Up (fun _ => v)) st_skip
    (_ ← slaveSendBootUp; st_skip).

(** The flags csBoot_Up, csSDO, csEmergency, csSYNC, csLifeGuard, csPDO, csLSS of
    the states. *)
Definition Initialisation_services : s_state_communication :=
  StateCommunication 1 0 0 0 0 0 0.
Definition Pre_operational_services : s_state_communication :=
  StateCommunication 0 1 1 1 1 0 1.
Definition Operational_services : s_state_communication :=
  StateCommunication 0 1 1 1 1 1 0.
Definition Stopped_services : s_state_communication :=
  StateCommunication 0 0 0 0 1 0 1.

(** The functions the application may overload; all of them are empty but
    [_preOperational], with which a master resets the nodes. *)
Definition _preOperational : CO unit :=
  _ ← emit Call_preOperational;
  od ← get co_od;
  when (iam_a_slave od =? 0) (_ ← masterSendNMTstateChange 0 NMT_Reset_Node; st_skip).

Definition enter (s : Z) (services : s_state_communication) (user : CO unit) : CO unit :=
  _ ← set_nodeState s;
  _ ← switchCommunicationState services;
  user.

Definition setState (newState : Z) : CO Z :=
  s ← getState;
  if newState =? s then ret s else
  if newState =? Initialisation then
    _ ← enter Initialisation Initialisation_services (emit Call_initialisation);
    _ ← enter Pre_operational Pre_operational_services _preOperational;
    getState
  else if newState =? Pre_operational then
    _ ← enter Pre_operational Pre_operational_services _preOperational;
    getState
  else if newState =? Operational then
    if s =? Initialisation then ret 0xFF else
    _ ← enter Operational Operational_services (emit Call_operational);
    getState
  else if newState =? Stopped then
    if s =? Initialisation then ret 0xFF else
    _ ← enter Stopped Stopped_services (emit Call_stopped);
    getState
  else ret 0xFF.

(** ** The node identifier *)

Definition getNodeId : CO Z := od ← get co_od; rd 1 (bDeviceNodeId od).

(** A COB-ID that still has its default value (or follows no node yet) follows the
    new node. *)
Definition follow (p : ptr) (base nodeId : Z) : CO unit :=
  c ← rd 4 p;
  id ← getNodeId;
  when ((c =? base + id) || (id =? 0xFF)) (wr 4 p (base + nodeId)).

Definition follow_sub (offset s base nodeId : Z) : CO unit :=
  sub ← od_sub offset s;
  follow (pObject sub) base nodeId.

(** The first PDOs, one base COB-ID each, up to the last position. *)
Fixpoint follow_PDOs (cobID : list Z) (offset lastIndex nodeId : Z) : CO unit :=
  match cobID with
  | [] => st_skip
  | base :: cobID =>
      if offset <=? lastIndex then
        _ ← follow_sub offset 1 base nodeId;
        follow_PDOs cobID (u16 (offset + 1)) lastIndex nodeId
      else st_skip
  end.

Definition setNodeId (nodeId : Z) : CO unit :=
  od ← get co_od;
  if negb ((0 <? nodeId) && (nodeId <=? 127)) then st_skip else
  _ ← when (negb (SDO_SVR (firstIndex od) =? 0))
    (_ ← follow_sub (SDO_SVR (firstIndex od)) 1 0x600 nodeId;
     follow_sub (SDO_SVR (firstIndex od)) 2 0x580 nodeId);
  _ ← when (negb (PDO_RCV (firstIndex od) =? 0))
    (follow_PDOs [0x200; 0x300; 0x400; 0x500]
       (PDO_RCV (firstIndex od)) (PDO_RCV (lastIndex od)) nodeId);
  _ ← when (negb (PDO_TRS (firstIndex od) =? 0))
    (follow_PDOs [0x180; 0x280; 0x380; 0x480]
       (PDO_TRS (firstIndex od)) (PDO_TRS (lastIndex od)) nodeId);
  _ ← follow (error_cobid od) 0x80 nodeId;
  wr 1 (bDeviceNodeId od) nodeId.

(** ** The NMT slave *)

Definition reset_communication : CO unit :=
  od ← get co_od;
  currentNodeId ← getNodeId;
  st ← get co_st;
  _ ← when (NMT_Slave_Communications_Reset_Callback st) (emit Call_Communications_Reset);
  _ ← wr 1 (bDeviceNodeId od) 0xFF;
  _ ← setNodeId currentNodeId;
  _ ← setState Initialisation;
  st_skip.

(** The switch on the command specifier [cs], in state [s]. *)
Definition NMT_command (cs s : Z) : CO unit :=
  if cs =? NMT_Start_Node then
    when ((s =? Pre_operational) || (s =? Stopped)) (_ ← setState Operational; st_skip)
  else if cs =? NMT_Stop_Node then
    when ((s =? Pre_operational) || (s =? Operational)) (_ ← setState Stopped; st_skip)
  else if cs =? NMT_Enter_PreOperational then
    when ((s =? Operational) || (s =? Stopped)) (_ ← setState Pre_operational; st_skip)
  else if cs =? NMT_Reset_Node then
    st ← get co_st;
    _ ← when (NMT_Slave_Node_Reset_Callback st) (emit Call_Node_Reset);
    _ ← setState Initialisation;
    st_skip
  else when (cs =? NMT_Reset_Comunication) reset_communication.

Definition proceedNMTstateChange (m : Message) : CO unit :=
  s ← getState;
  if negb ((s =? Pre_operational) || (s =? Operational) || (s =? Stopped)) then st_skip else
  node ← data_at m 1;
  id ← getNodeId;
  if negb ((node =? 0) || (node =? id)) then st_skip else
  cs ← data_at m 0;
  NMT_command cs s.
