(* ===== verification/Dcf.v ===== *)
(** * Dcf: concise device configuration (src/dcf.c)

    A master compares the configuration stored for a node (1F22h) with the
    node's dictionary, entry by entry, rewrites it if something differs, and
    starts the node.  Each step is a transfer of the SDO client whose callback is
    the next step. *)

From S2P Require Import Prelude CMem Timers Node ObjDict Nmt States SdoLine Sdo SdoClient.

Definition DCF_STATUS_INIT : Z := 0.
Definition DCF_STATUS_READ_CHECK : Z := 1.
Definition DCF_STATUS_WRITE : Z := 2.
Definition DCF_STATUS_SAVED : Z := 3.

(** The pointers kept in the variables of 1F22h, which the generated file
    initialises and nothing writes. *)
Class DcfPointers := dcf_pointer : ptr -> option ptr.

Record dcf_entry_t := DcfEntry {
  Index : Z;
  Subindex_ : Z;
  Size : Z;
  Data : ptr
}.

(** The number of [CheckSDOAndContinue] among the callbacks of transfers. *)
Definition CheckSDOAndContinue_cb : Z := 0.

Section dcf.
Context `{DP : DcfPointers}.

Definition upd_dcf (f : co_dcf -> co_dcf) : CO unit := modify (set co_dcfs f).

Definition start_node (nodeId : Z) : CO unit :=
  _ ← masterSendNMTstateChange nodeId NMT_Start_Node;
  set_NMTable nodeId Operational.

(** The subindex of the configuration of a node. *)
Definition dcf_sub (i nodeId : Z) : CO subindex := od_sub i nodeId.

Definition init_consise_dcf (nodeId : Z) : CO Z :=
  '(errorCode, odentry) ← scanIndexOD 0x1F22;
  _ ← upd_dcf (set dcf_odentry (fun _ => odentry));
  match odentry with
  | None => ret 0
  | Some i =>
      e ← od_entry i;
      if bSubCount e <? nodeId then ret 0 else
      sub ← dcf_sub i nodeId;
      if od_size sub =? 0 then ret 0 else
      dcf ← opt (dcf_pointer (pObject sub));
      _ ← upd_dcf (fun c =>
        c <| dcf_cursor := Some (ptr_add dcf 4) |> <| dcf_entries_count := 0 |>
          <| dcf_status := DCF_STATUS_INIT |>);
      ret 1
  end.

(** The next entry of the stream; [None] is the answer 0. *)
Definition get_next_DCF_data (nodeId : Z) : CO (option dcf_entry_t) :=
  c ← get co_dcfs;
  match dcf_odentry c with
  | None => ret None
  | Some i =>
      e ← od_entry i;
      if bSubCount e <? nodeId then ret None else
      sub ← dcf_sub i nodeId;
      dcf ← opt (dcf_pointer (pObject sub));
      nb_entries ← rd 4 dcf;
      cursor ← opt (dcf_cursor c);
      if (snd cursor + 7 <? snd dcf + od_size sub) && (dcf_entries_count c <? nb_entries) then
        idx ← rd 2 cursor;
        s ← rd 1 (ptr_add cursor 2);
        size ← rd 4 (ptr_add cursor 3);
        let data := ptr_add cursor 7 in
        _ ← upd_dcf (fun c =>
          c <| dcf_data := Some data |> <| dcf_size := size |>
            <| dcf_cursor := Some (ptr_add data size) |>
            <| dcf_entries_count ::= (fun n => n + 1) |>);
        ret (Some (DcfEntry idx s size data))
      else ret None
  end.

Definition write_consise_dcf_next_entry (nodeId : Z) : CO Z :=
  r ← get_next_DCF_data nodeId;
  match r with
  | None => ret 0
  | Some entry =>
      m ← get co_mem;
      let count := u8 (Size entry) in
      data ← opt (mload m (Data entry) count);
      _ ← writeNetworkDictCallBackAI nodeId (Index entry) (Subindex_ entry) count 0 data
            (Some CheckSDOAndContinue_cb) false;
      ret 1
  end.

Definition read_consise_dcf_next_entry (nodeId : Z) : CO Z :=
  r ← get_next_DCF_data nodeId;
  match r with
  | None => ret 0
  | Some entry =>
      _ ← readNetworkDictCallbackAI nodeId (Index entry) (Subindex_ entry) 0
            (Some CheckSDOAndContinue_cb) false;
      ret 1
  end.

Definition SaveNode (nodeId : Z) : CO unit :=
  _ ← writeNetworkDictCallBackAI nodeId 0x1010 1 4 0 (le_bytes 4 0x65766173)
        (Some CheckSDOAndContinue_cb) false;
  st_skip.

Definition check_and_start_node (nodeId : Z) : CO Z :=
  c ← get co_dcfs;
  if negb (dcf_status c =? DCF_STATUS_INIT) then ret 0 else
  let start := _ ← start_node nodeId; ret 1 in
  r ← init_consise_dcf nodeId;
  if r =? 0 then start else
  r ← read_consise_dcf_next_entry nodeId;
  if r =? 0 then start else
  _ ← upd_dcf (set dcf_status (fun _ => DCF_STATUS_READ_CHECK));
  ret 2.

(** The search for a node that waits to be started, from [node] on. *)
Fixpoint seek_node (fuel : nat) (node : Z) : CO unit :=
  match fuel with
  | O => _ ← setState Operational; st_skip
  | S fuel =>
      s ← get_NMTable node;
      if negb (s =? Initialisation) then seek_node fuel (node + 1) else
      r ← check_and_start_node node;
      if r =? 2 then st_skip else seek_node fuel (node + 1)
  end.

Definition start_and_seek_node (nodeId : Z) : CO unit :=
  _ ← start_node nodeId;
  seek_node (Z.to_nat NMT_MAX_NODE_ID) 0.

Definition dcferror (nodeId : Z) : CO unit := set_NMTable nodeId Unknown_state.

(** In READ_CHECK, [buf] holds the bytes read, in front of what it held before. *)
Definition check_read (nodeId : Z) : CO unit :=
  r ← getReadResultNetworkDict nodeId 4;
  if negb (rr_status r =? SDO_FINISHED) then dcferror nodeId else
  c ← get co_dcfs;
  match_ ← (if rr_size r =? dcf_size c then
              p ← opt (dcf_data c);
              m ← get co_mem;
              bs ← opt (mload m p (rr_size r));
              ret (bool_decide (rr_data r = bs))
            else ret false);
  if (match_ : bool) then
    r ← read_consise_dcf_next_entry nodeId;
    when (r =? 0) (start_and_seek_node nodeId)
  else
    r ← init_consise_dcf nodeId;
    if r =? 0 then dcferror nodeId else
    r ← write_consise_dcf_next_entry nodeId;
    if r =? 0 then dcferror nodeId else
    upd_dcf (set dcf_status (fun _ => DCF_STATUS_WRITE)).

Definition CheckSDOAndContinue (nodeId : Z) : CO unit :=
  c ← get co_dcfs;
  if dcf_status c =? DCF_STATUS_READ_CHECK then check_read nodeId
  else if dcf_status c =? DCF_STATUS_WRITE then
    '(s, _) ← getWriteResultNetworkDict nodeId;
    if negb (s =? SDO_FINISHED) then dcferror nodeId else
    r ← write_consise_dcf_next_entry nodeId;
    when (r =? 0)
      (_ ← upd_dcf (set dcf_status (fun _ => DCF_STATUS_INIT));
       start_and_seek_node nodeId)
  else if dcf_status c =? DCF_STATUS_SAVED then
    '(s, _) ← getWriteResultNetworkDict nodeId;
    if negb (s =? SDO_FINISHED) then dcferror nodeId else
    _ ← masterSendNMTstateChange nodeId NMT_Reset_Node;
    _ ← upd_dcf (set dcf_status (fun _ => DCF_STATUS_INIT));
    set_NMTable nodeId Unknown_state
  else st_skip.
End dcf.
