(* ===== verification/Stack.v ===== *)
(** * Stack: the components together (canDispatch of src/states.c)

    What the components left to an interface is decided here: the functions
    registered on entries of the dictionary, the functions at the end of SDO
    transfers, and the functions of the alarms.  [canDispatch] takes a received
    message to its component; [node_step] is one input of a running node. *)

From S2P Require Import Prelude CMem Timers Node ObjDict Emcy Nmt LifeGuard Bits Pdo Sync.
From S2P Require Import States SdoLine Sdo SdoClient Dcf.

(** ** The interfaces *)

#[export] Instance stack_od_callbacks : ODCallbacks := fun cb i bSubindex =>
  match cb with
  | OnNumberOfErrorsUpdate_cb => OnNumberOfErrorsUpdate
  | OnCOB_ID_SyncUpdate_cb => OnCOB_ID_SyncUpdate
  | OnHeartbeatProducerUpdate_cb => OnHeartbeatProducerUpdate
  | OnNodeGuardUpdate_cb => OnNodeGuardUpdate
  | TPDO_Communication_Parameter_cb => TPDO_Communication_Parameter_Callback i bSubindex
  end.

Section stack.
Context `{DP : DcfPointers}.

#[local] Instance stack_sdo_callbacks : SDOCallbacks := fun n nodeId =>
  if n =? CheckSDOAndContinue_cb then CheckSDOAndContinue nodeId
  else emit (Call_sdo_callback n nodeId).

Definition run_alarm (cb : alarm) (id : Z) : CO unit :=
  match cb with
  | SyncAlarm_cb => SyncAlarm id
  | ConsumerHeartbeatAlarm_cb => ConsumerHeartbeatAlarm id
  | ProducerHeartbeatAlarm_cb => ProducerHeartbeatAlarm id
  | GuardTimeAlarm_cb => GuardTimeAlarm id
  | PDOEventTimerAlarm_cb => PDOEventTimerAlarm id
  | PDOInhibitTimerAlarm_cb => PDOInhibitTimerAlarm id
  | RxPDO_EventTimers_Handler_cb => RxPDO_EventTimers_Handler id
  | SDOTimeoutAlarm_cb => SDOTimeoutAlarm id
  end.

#[local] Instance stack_alarms : TimerCallbacks alarm CO_Data :=
  fun cb id d => snd <$> run_alarm cb id d.

(** ** Received messages *)

(** The function codes (def.h). *)
Definition fc_NMT : Z := 0x0.
Definition fc_SYNC : Z := 0x1.
Definition fc_PDO1tx : Z := 0x3.
Definition fc_PDO4rx : Z := 0xA.
Definition fc_SDOtx : Z := 0xB.
Definition fc_SDOrx : Z := 0xC.

Definition ignore (m : CO Z) : CO unit := _ ← m; st_skip.

Definition canDispatch (m : Message) : CO unit :=
  od ← get co_od;
  st ← get co_st;
  let cs := CurrentCommunicationState st in
  let fc := Z.shiftr (cob_id m) 7 in
  if fc =? fc_SYNC then
    if cob_id m =? 0x080 then when (negb (csSYNC cs =? 0)) (ignore proceedSYNC)
    else when (negb (csEmergency cs =? 0)) (proceedEMCY m)
  else if (fc_PDO1tx <=? fc) && (fc <=? fc_PDO4rx) then
    when (negb (csPDO cs =? 0)) (ignore (proceedPDO m))
  else if (fc =? fc_SDOtx) || (fc =? fc_SDOrx) then
    when (negb (csSDO cs =? 0)) (ignore (proceedSDO m))
  else if fc =? NODE_GUARD then
    when (negb (csLifeGuard cs =? 0)) (proceedNODE_GUARD m)
  else when ((fc =? fc_NMT) && negb (iam_a_slave od =? 0)) (proceedNMTstateChange m).

(** ** A running node *)

(** The main loop's work on one node: a received message, a timer interrupt, a
    state asked for by the application, a change of a mapped variable announced
    with [sendPDOevent]. *)
Inductive node_input :=
  | Received (m : Message)
  | Timer_interrupt
  | Application_state (s : Z)
  | Application_PDO_event.

Definition node_step (i : node_input) (d : CO_Data) : option CO_Data :=
  match i with
  | Received m => snd <$> canDispatch m d
  | Timer_interrupt => TimeDispatch d
  | Application_state s => snd <$> setState s d
  | Application_PDO_event => snd <$> sendPDOevent d
  end.

Fixpoint node_run (l : list node_input) (d : CO_Data) : option CO_Data :=
  match l with
  | [] => Some d
  | i :: l => d ← node_step i d; node_run l d
  end.
End stack.
