(* ===== verification/SdoFacts.v ===== *)
(** * SdoFacts: the line operations as equations

    The build has one line ([SDO_MAX_SIMULTANEOUS_TRANSFERS] is 1).  Every
    operation on it is described by the line it leaves; apart from the alarm
    table, the line and the log nothing of the node moves. *)

From S2P Require Import Prelude CMem Timers Node ObjDict SdoLine Sdo.

(** ** States of the line *)

(** The node with line [t] and alarm table [tm]. *)
Definition line_state (d : CO_Data) (t : s_transfer) (tm : timer_table alarm) : CO_Data :=
  d <| co_timers := tm |> <| transfers := [t] |>.

(** The node after it sent [m]. *)
Definition sent (d : CO_Data) (m : Message) : CO_Data :=
  d <| co_log ::= (fun l => l ++ [Sent m]) |>.

Definition handle_ok (h : Z) : Prop := TIMER_NONE <= h < MAX_NB_TIMER.

(** The node's line is [t], with a good handle and a buffer of the full size, and
    the alarm table is consistent. *)
Record at_line (d : CO_Data) (t : s_transfer) : Prop := AtLine {
  al_line : transfers d = [t];
  al_handle : handle_ok (tr_timer t);
  al_data : length (tr_data t) = 32%nat;
  al_timers : timers_inv (co_timers d)
}.

Lemma line_state_id d t : transfers d = [t] -> d = line_state d t (co_timers d).
Proof. intros H. unfold line_state. rewrite <- H. by destruct d. Qed.

Lemma at_line_state d t tm :
  timers_inv tm -> handle_ok (tr_timer t) -> length (tr_data t) = 32%nat ->
  at_line (line_state d t tm) t.
Proof. by constructor. Qed.

Lemma at_line_sent d t m : at_line d t -> at_line (sent d m) t.
Proof. intros []. by constructor. Qed.

(** ** Operations *)

Lemma get_line_eq d t : at_line d t -> get_line 0 d = Some (t, d).
Proof. intros H. unfold get_line. co_red. by rewrite (al_line _ _ H). Qed.

Lemma upd_line_eq d t f :
  at_line d t -> upd_line 0 f d = Some (tt, line_state d (f t) (co_timers d)).
Proof.
  intros H. unfold upd_line. rewrite (al_line _ _ H).
  cbn [arr_get arr_set Z.leb Z.ltb Z.to_nat lookup list_lookup mbind option_bind].
  destruct d; done.
Qed.

Lemma StartSDO_TIMER_eq d t :
  at_line d t -> exists h tm,
  StartSDO_TIMER 0 d = Some (tt, line_state d (t <| tr_timer := h |>) tm) /\
  handle_ok h /\ timers_inv tm.
Proof.
  intros H. destruct (coSetAlarm_ok 0 SDOTimeoutAlarm_cb (MS_TO_TIMEVAL SDO_TIMEOUT_MS) 0 d)
    as (h & tm & E & I & Hh); [apply H|done..|].
  exists h, tm. unfold StartSDO_TIMER. rewrite (st_bind_eq _ _ _ _ _ E). split; [|done].
  rewrite (upd_line_eq _ t); [done|]. destruct H. by constructor.
Qed.

Lemma StopSDO_TIMER_eq d t :
  at_line d t -> exists tm,
  StopSDO_TIMER 0 d = Some (tt, line_state d (t <| tr_timer := TIMER_NONE |>) tm) /\
  timers_inv tm.
Proof.
  intros H. destruct (coDelAlarm_ok (tr_timer t) d) as (tm & E & I); [apply H|apply H|].
  exists tm. unfold StopSDO_TIMER. rewrite (st_bind_eq _ _ _ _ _ (get_line_eq _ _ H)).
  cbn beta. rewrite (st_bind_eq _ _ _ _ _ E). split; [|done].
  rewrite (upd_line_eq _ t); [done|]. destruct H. by constructor.
Qed.

(** The alarm of a line restarted: only its handle may move. *)
Lemma RestartSDO_TIMER_eq d t :
  at_line d t -> exists h tm,
  RestartSDO_TIMER 0 d = Some (tt, line_state d (t <| tr_timer := h |>) tm) /\
  handle_ok h /\ timers_inv tm.
Proof.
  intros H. unfold RestartSDO_TIMER. rewrite (st_bind_eq _ _ _ _ _ (get_line_eq _ _ H)).
  cbn beta. destruct (tr_timer t =? TIMER_NONE) eqn:E; cbn [negb].
  - exists (tr_timer t), (co_timers d). rewrite when_false. split; [|split; apply H].
    do 2 f_equal. rewrite (line_state_id d t) at 1 by apply H. by destruct t.
  - rewrite when_true. destruct (StopSDO_TIMER_eq d t H) as (tm & E1 & I1).
    rewrite (st_bind_eq _ _ _ _ _ E1).
    destruct (StartSDO_TIMER_eq (line_state d (t <| tr_timer := TIMER_NONE |>) tm)
      (t <| tr_timer := TIMER_NONE |>)) as (h & tm' & -> & Hh & I');
      [by constructor; [| |apply H|]|].
    by exists h, tm'.
Qed.

(** The line a transfer starts with. *)
Definition opened (t : s_transfer) (nbr index sub state h : Z) : s_transfer :=
  Transfer nbr (whoami t) state 0 (abortCode t) index sub 0 0 (tr_data t)
    0 0 0 0 0 0 0 RXSTEP_INIT (tmpData t) 0 h None.

Definition in_progress (state : Z) : bool :=
  (state =? SDO_DOWNLOAD_IN_PROGRESS) || (state =? SDO_UPLOAD_IN_PROGRESS) ||
  (state =? SDO_BLOCK_DOWNLOAD_IN_PROGRESS) || (state =? SDO_BLOCK_UPLOAD_IN_PROGRESS).

Lemma initSDOline_eq d t nbr index sub state :
  at_line d t -> exists h tm,
  initSDOline 0 nbr index sub state d =
    Some (tt, line_state d (opened t nbr index sub state h) tm) /\
  handle_ok h /\ timers_inv tm.
Proof.
  intros H. unfold initSDOline. fold (in_progress state). destruct (in_progress state).
  - destruct (StartSDO_TIMER_eq d t H) as (h & tm & E & Hh & I).
    exists h, tm. rewrite (st_bind_eq _ _ _ _ _ E). split; [|done].
    by rewrite (upd_line_eq _ (t <| tr_timer := h |>)) by (constructor; [..|apply H|]; done).
  - destruct (StopSDO_TIMER_eq d t H) as (tm & E & I).
    exists TIMER_NONE, tm. rewrite (st_bind_eq _ _ _ _ _ E). split; [|done].
    by rewrite (upd_line_eq _ (t <| tr_timer := TIMER_NONE |>))
      by (constructor; [..|apply H|]; done).
Qed.

(** The line a finished transfer leaves. *)
Definition free_line (t : s_transfer) (h : Z) : s_transfer :=
  Transfer 0 0 SDO_RESET 0 0 0 0 0 0 (replicate 32 0) 0 0 0 0 0 0 0 RXSTEP_INIT
    (tmpData t) 0 h None.

Lemma resetSDOline_eq d t :
  at_line d t -> exists h tm,
  resetSDOline 0 d = Some (tt, line_state d (free_line t h) tm) /\
  handle_ok h /\ timers_inv tm.
Proof.
  intros H. unfold resetSDOline.
  destruct (initSDOline_eq d t 0 0 0 SDO_RESET H) as (h & tm & E & Hh & I).
  exists h, tm. rewrite (st_bind_eq _ _ _ _ _ E). split; [|done].
  by rewrite (upd_line_eq _ (opened t 0 0 0 SDO_RESET h)) by (constructor; [..|apply H|]; done).
Qed.

Lemma free_line_ok d t h tm :
  handle_ok h -> timers_inv tm -> at_line (line_state d (free_line t h) tm) (free_line t h).
Proof. by constructor. Qed.

(** ** Searching *)

Lemma search_line_eq d t p :
  at_line d t -> search_line p d = Some (if p t then Some 0 else None, d).
Proof.
  intros H. unfold search_line. co_red. rewrite (al_line _ _ H).
  change (Z.to_nat SDO_MAX_SIMULTANEOUS_TRANSFERS) with 1%nat.
  cbv [find_line arr_get mbind option_bind]. change (Z.to_nat 0) with 0%nat. cbn. by destruct (p t).
Qed.

Definition on_use (t : s_transfer) (nbr who : Z) : bool :=
  negb (tr_state t =? SDO_RESET) && negb (tr_state t =? SDO_ABORTED_INTERNAL) &&
  (CliServNbr t =? nbr) && (whoami t =? who).

Lemma getSDOlineOnUse_eq d t nbr who :
  at_line d t ->
  getSDOlineOnUse nbr who d = Some (if on_use t nbr who then Some 0 else None, d).
Proof. intros H. unfold getSDOlineOnUse. by rewrite (search_line_eq _ t). Qed.

Lemma getSDOfreeLine_eq d t who :
  at_line d t -> tr_state t = SDO_RESET ->
  getSDOfreeLine who d =
    Some (Some 0, line_state d (t <| whoami := who |>) (co_timers d)).
Proof.
  intros H Hs. unfold getSDOfreeLine. rewrite (st_bind_eq _ _ _ _ _ (search_line_eq _ _ _ H)).
  rewrite Hs. change (SDO_RESET =? SDO_RESET) with true. cbn beta iota.
  by rewrite (st_bind_eq _ _ _ _ _ (upd_line_eq _ _ _ H)).
Qed.

(** ** Copies *)

Lemma slice_ok l off n :
  0 <= off -> 0 <= n -> off + n <= Z.of_nat (length l) ->
  slice l off n = Some (take (Z.to_nat n) (drop (Z.to_nat off) l)).
Proof. intros. unfold slice. by repeat ztest. Qed.

Lemma put_slice_ok l off bs :
  0 <= off -> off + Z.of_nat (length bs) <= Z.of_nat (length l) ->
  put_slice l off bs =
    Some (take (Z.to_nat off) l ++ bs ++ drop (Z.to_nat off + length bs) l).
Proof. intros. unfold put_slice. by repeat ztest. Qed.

Lemma getSDOlineRestBytes_eq d t :
  at_line d t -> getSDOlineRestBytes 0 d =
    Some (if tr_count t =? 0 then 0 else u32 (tr_count t - tr_offset t), d).
Proof.
  intros H. unfold getSDOlineRestBytes. by rewrite (st_bind_eq _ _ _ _ _ (get_line_eq _ _ H)).
Qed.

Lemma lineToSDO_eq d t n :
  at_line d t -> 0 <= n -> 0 <= tr_offset t -> tr_offset t + n <= tr_count t <= 32 ->
  lineToSDO 0 n d = Some (
    Some (take (Z.to_nat n) (drop (Z.to_nat (tr_offset t)) (tr_data t))),
    line_state d (t <| tr_offset := tr_offset t + n |>) (co_timers d)).
Proof.
  intros H Hn Ho Hc. unfold lineToSDO. rewrite (st_bind_eq _ _ _ _ _ (get_line_eq _ _ H)).
  cbn beta. unfold SDO_MAX_LENGTH_TRANSFER. rewrite u32_small by lia. repeat ztest.
  pose proof (al_data _ _ H). rewrite slice_ok by lia.
  unfold opt. rewrite (st_bind_eq (st_opt (Some _)) _ d _ d eq_refl). cbn beta.
  rewrite (st_bind_eq _ _ _ _ _ (upd_line_eq _ _ _ H)).
  replace (t <| tr_offset ::= _ |>) with (t <| tr_offset := tr_offset t + n |>); [done|].
  cbv [set]. cbn beta. by rewrite u32_small by lia.
Qed.

Lemma SDOtoLine_eq d t n data :
  at_line d t -> 0 <= n <= Z.of_nat (length data) -> 0 <= tr_offset t -> tr_offset t + n <= 32 ->
  SDOtoLine 0 n data d = Some (0, line_state d (t
    <| tr_data := take (Z.to_nat (tr_offset t)) (tr_data t) ++ take (Z.to_nat n) data ++
                  drop (Z.to_nat (tr_offset t) + Z.to_nat n) (tr_data t) |>
    <| tr_offset := tr_offset t + n |>) (co_timers d)).
Proof.
  intros H Hn Ho Hc. unfold SDOtoLine. rewrite (st_bind_eq _ _ _ _ _ (get_line_eq _ _ H)).
  cbn beta. unfold SDO_MAX_LENGTH_TRANSFER. rewrite u32_small by lia. repeat ztest.
  pose proof (al_data _ _ H). rewrite slice_ok by lia. rewrite drop_0.
  unfold opt. rewrite (st_bind_eq (st_opt (Some _)) _ d _ d eq_refl). cbn beta.
  rewrite put_slice_ok by (rewrite ?length_take; lia). rewrite length_take_le by lia.
  rewrite (st_bind_eq (st_opt (Some _)) _ d _ d eq_refl). cbn beta.
  rewrite (st_bind_eq _ _ _ _ _ (upd_line_eq _ _ _ H)).
  match goal with |- ret 0 (line_state _ ?a _) = Some (_, line_state _ ?b _) =>
    replace a with b; [done|] end.
  cbv [set]. cbn. by rewrite u32_small by lia.
Qed.

(** ** Messages *)

(** What the dictionary says about SDO identifiers does not depend on the line. *)
Lemma find_sdo_frame fuel offset j need s cob d r d1 :
  find_sdo fuel offset j need s cob d = Some (r, d1) ->
  d1 = d /\ forall d2, co_od d2 = co_od d -> co_mem d2 = co_mem d ->
    find_sdo fuel offset j need s cob d2 = Some (r, d2).
Proof.
  revert offset j. induction fuel as [|fuel IH]; intros offset j; cbn [find_sdo].
  { intros [= <- <-]. done. }
  unfold od_entry, od_sub, rd. cbv [mbind ST_bind option_bind fmap option_fmap option_map].
  destruct (objdict (co_od d)).[offset] as [e|] eqn:Ee; [|done].
  destruct (bSubCount e <=? need) eqn:En.
  { intros [= <- <-]. split; [done|]. intros d2 Eo _. rewrite Eo, Ee. cbv beta iota.
    by rewrite En. }
  rewrite Ee. cbv beta iota.
  destruct (pSubindex e).[s] as [x|] eqn:Ex; [|done].
  destruct (load 4 (co_mem d) (pObject x)) as [c|] eqn:Ec; [|done].
  destruct (c =? cob) eqn:Eq.
  - intros [= <- <-]. split; [done|]. intros d2 Eo Em. rewrite Eo, Ee. cbv beta iota.
    rewrite En, Eo, Ee. cbv beta iota. rewrite Ex. cbv beta iota. rewrite Em, Ec. cbv beta iota.
    by rewrite Eq.
  - intros H. apply IH in H as [-> Hf]. split; [done|]. intros d2 Eo Em.
    rewrite Eo, Ee. cbv beta iota.
    rewrite En, Eo, Ee. cbv beta iota. rewrite Ex. cbv beta iota. rewrite Em, Ec. cbv beta iota.
    rewrite Eq. by apply Hf.
Qed.

Definition addressed (d : CO_Data) (cob who nbr node : Z) : Prop :=
  sdo_addressee cob d = Some (Some (who, nbr, node), d).

Definition answers_on (d : CO_Data) (who nbr cob : Z) : Prop :=
  sdo_cobid who nbr d = Some (Some cob, d).

Lemma addressed_frame d d2 cob who nbr node :
  addressed d cob who nbr node -> co_od d2 = co_od d -> co_mem d2 = co_mem d ->
  addressed d2 cob who nbr node.
Proof.
  unfold addressed, sdo_addressee. intros H Eo Em.
  rewrite (st_bind_eq _ _ _ _ _ (eq_refl : get co_od d = Some (co_od d, d))) in H.
  rewrite (st_bind_eq _ _ _ _ _ (eq_refl : get co_od d2 = Some (co_od d2, d2))), Eo.
  cbn beta zeta in *. apply st_bind_Some in H as (r & d1 & Hf & H).
  apply find_sdo_frame in Hf as [-> Hf]. rewrite (st_bind_eq _ _ _ _ _ (Hf d2 Eo Em)).
  destruct r as [| |j off]; [done| |by injection H as <- <- <-].
  apply st_bind_Some in H as (r & d1 & Hf2 & H).
  apply find_sdo_frame in Hf2 as [-> Hf2]. rewrite (st_bind_eq _ _ _ _ _ (Hf2 d2 Eo Em)).
  destruct r as [| |j off]; [done|done|]. unfold od_sub, rd in *.
  cbv [mbind ST_bind option_bind fmap option_fmap option_map] in *. rewrite Eo.
  destruct (objdict (co_od d)).[off] as [e|]; [|done].
  destruct (pSubindex e).[3] as [x|]; [|done]. cbv beta iota in *. rewrite Em.
  destruct (load 1 (co_mem d) (pObject x)) as [c|]; [|done]. by injection H as <- <- <-.
Qed.

Lemma answers_on_frame d d2 who nbr cob :
  answers_on d who nbr cob -> co_od d2 = co_od d -> co_mem d2 = co_mem d ->
  answers_on d2 who nbr cob.
Proof.
  unfold answers_on, sdo_cobid. intros H Eo Em.
  rewrite (st_bind_eq _ _ _ _ _ (eq_refl : get co_od d = Some (co_od d, d))) in H.
  rewrite (st_bind_eq _ _ _ _ _ (eq_refl : get co_od d2 = Some (co_od d2, d2))), Eo.
  cbn beta in *. destruct (if who =? SDO_SERVER then _ else _) as [[first last] s].
  destruct ((first =? 0) || (last <? first + nbr)); [done|].
  unfold od_sub, rd in *.
  cbv [mbind ST_bind option_bind fmap option_fmap option_map] in *. rewrite Eo.
  destruct (objdict (co_od d)).[first + nbr] as [e|]; [|done].
  destruct (pSubindex e).[s] as [x|]; [|done]. cbv beta iota in *. rewrite Em.
  destruct (load 4 (co_mem d) (pObject x)) as [c|]; [|done]. by injection H as <-.
Qed.

(** The states in which SDO messages are sent. *)
Definition sdo_state (d : CO_Data) : Prop :=
  nodeState (co_st d) = Operational \/ nodeState (co_st d) = Pre_operational.

Lemma sendSDO_eq d who nbr cob bs :
  sdo_state d -> answers_on d who nbr cob -> clean_env (co_env d) -> length bs = 8%nat ->
  sendSDO who nbr bs d = Some (can_result (co_env d) (length (co_log d)),
    sent d (MkMessage cob NOT_A_REQUEST 8 bs)).
Proof.
  intros Hs Ha He Hb. unfold sendSDO.
  rewrite (st_bind_eq _ _ _ _ _ (eq_refl : get co_st d = Some (co_st d, d))). cbn beta.
  replace (negb _) with false.
  2: { symmetry. apply negb_false_iff, orb_true_iff. rewrite !Z.eqb_eq. exact Hs. }
  rewrite (st_bind_eq Message_uninit _ d _ d eq_refl). cbn beta.
  rewrite (st_bind_eq _ _ _ _ _ Ha). cbn iota.
  rewrite slice_ok by lia. rewrite drop_0, take_ge by lia. unfold opt.
  rewrite (st_bind_eq (st_opt (Some _)) _ d _ d eq_refl). cbn beta.
  set (g := garbage _ _). pose proof (He (length (co_log d))) as Hg. fold g in Hg.
  destruct (set_bytes_is_Some 0 bs g) as [m1 E1]; [lia|lia|].
  destruct (set_bytes_data _ _ _ _ E1) as (D1 & _); [lia|lia|]. rewrite E1.
  rewrite (st_bind_eq (st_opt (Some _)) _ d _ d eq_refl). cbn beta.
  rewrite D1, drop_ge, app_nil_r by (cbn; lia). done.
Qed.
