(* ===== verification/SdoTransfer.v ===== *)
(** * SdoTransfer: transfers between a client and a server

    Two nodes on a bus: the messages of the client go to the server and the
    answers of the server to the client, until the client has nothing more to
    say.  A read of any entry that fits the line, expedited or in segments,
    delivers the entry. *)

From S2P Require Import Prelude CMem Timers Node ObjDict SdoLine Sdo SdoClient SdoFacts.

(** ** Two nodes on a bus *)

(** The message a step sent, when it sent exactly one and did nothing else. *)
Definition new_sent (d d' : CO_Data) : option Message :=
  match drop (length (co_log d)) (co_log d') with
  | [Sent m] => Some m
  | _ => None
  end.

Section bus.
Context `{ODC : ODCallbacks} `{SC : SDOCallbacks}.

(** [m] goes from client [c] to server [s], which must answer with one message. *)
Fixpoint dialogue (fuel : nat) (c s : CO_Data) (m : Message) : option (CO_Data * CO_Data) :=
  match fuel with
  | O => None
  | S fuel =>
      s' ← snd <$> proceedSDO m s;
      answer ← new_sent s s';
      c' ← snd <$> proceedSDO answer c;
      match new_sent c c' with
      | Some m' => dialogue fuel c' s' m'
      | None => Some (c', s')
      end
  end.

(** ** Nodes *)

(** The parts of the node that a transfer of a client, or an upload from a
    server, does not touch. *)
Record same_node (d d2 : CO_Data) : Prop := SameNode {
  sn_od : co_od d2 = co_od d;
  sn_mem : co_mem d2 = co_mem d;
  sn_cbs : co_cbs d2 = co_cbs d;
  sn_st : co_st d2 = co_st d;
  sn_env : co_env d2 = co_env d
}.

Lemma same_node_refl d : same_node d d.
Proof. done. Qed.
Lemma same_node_trans d1 d2 d3 : same_node d1 d2 -> same_node d2 d3 -> same_node d1 d3.
Proof. intros [] []. constructor; congruence. Qed.

(** The node serves requests on [rx] and answers on [tx]. *)
Record sdo_server (d : CO_Data) (rx tx : Z) : Prop := SdoServer {
  ss_in : addressed d rx SDO_SERVER 0 0;
  ss_out : answers_on d SDO_SERVER 0 tx;
  ss_state : sdo_state d;
  ss_env : clean_env (co_env d)
}.

(** The node's client for node [node] sends on [tx] and listens on [rx]. *)
Record sdo_client (d : CO_Data) (rx tx node : Z) : Prop := SdoClientNode {
  sc_in : addressed d rx SDO_CLIENT 0 node;
  sc_out : answers_on d SDO_CLIENT 0 tx;
  sc_nbr : GetSDOClientFromNodeId node d = Some (0, d);
  sc_state : sdo_state d;
  sc_env : clean_env (co_env d)
}.

Lemma find_client_frame fuel offset nbr node d r d1 :
  find_client fuel offset nbr node d = Some (r, d1) ->
  d1 = d /\ forall d2, co_od d2 = co_od d -> co_mem d2 = co_mem d ->
    find_client fuel offset nbr node d2 = Some (r, d2).
Proof.
  revert offset nbr. induction fuel as [|fuel IH]; intros offset nbr; cbn [find_client].
  { intros [= <- <-]. done. }
  unfold od_entry, od_sub, rd. cbv [mbind ST_bind option_bind fmap option_fmap option_map].
  destruct (objdict (co_od d)).[offset] as [e|] eqn:Ee; [|done].
  destruct (bSubCount e <=? 3) eqn:En.
  { intros [= <- <-]. split; [done|]. intros d2 Eo _. rewrite Eo, Ee. cbv beta iota.
    by rewrite En. }
  rewrite Ee. cbv beta iota.
  destruct (pSubindex e).[3] as [x|] eqn:Ex; [|done].
  destruct (load 1 (co_mem d) (pObject x)) as [c|] eqn:Ec; [|done].
  destruct (c =? node) eqn:Eq.
  - intros [= <- <-]. split; [done|]. intros d2 Eo Em. rewrite Eo, Ee. cbv beta iota.
    rewrite En, Eo, Ee. cbv beta iota. rewrite Ex. cbv beta iota. rewrite Em, Ec. cbv beta iota.
    by rewrite Eq.
  - intros H. apply IH in H as [-> Hf]. split; [done|]. intros d2 Eo Em.
    rewrite Eo, Ee. cbv beta iota.
    rewrite En, Eo, Ee. cbv beta iota. rewrite Ex. cbv beta iota. rewrite Em, Ec. cbv beta iota.
    rewrite Eq. by apply Hf.
Qed.

Lemma GetSDOClient_frame node d d2 n :
  GetSDOClientFromNodeId node d = Some (n, d) -> co_od d2 = co_od d -> co_mem d2 = co_mem d ->
  GetSDOClientFromNodeId node d2 = Some (n, d2).
Proof.
  unfold GetSDOClientFromNodeId. intros H Eo Em.
  rewrite (st_bind_eq _ _ _ _ _ (eq_refl : get co_od d = Some (co_od d, d))) in H.
  rewrite (st_bind_eq _ _ _ _ _ (eq_refl : get co_od d2 = Some (co_od d2, d2))), Eo.
  cbn beta zeta in *. destruct (SDO_CLT (firstIndex (co_od d)) =? 0).
  { by injection H as <-. }
  apply find_client_frame in H as [_ H]. by apply H.
Qed.

Lemma sdo_state_frame d d2 : sdo_state d -> co_st d2 = co_st d -> sdo_state d2.
Proof. unfold sdo_state. by intros H ->. Qed.

Lemma sdo_server_frame d d2 rx tx : sdo_server d rx tx -> same_node d d2 -> sdo_server d2 rx tx.
Proof.
  intros [] []. constructor.
  - by apply (addressed_frame d).
  - by apply (answers_on_frame d).
  - by apply (sdo_state_frame d).
  - congruence.
Qed.

Lemma sdo_client_frame d d2 rx tx node :
  sdo_client d rx tx node -> same_node d d2 -> sdo_client d2 rx tx node.
Proof.
  intros [] []. constructor.
  - by apply (addressed_frame d).
  - by apply (answers_on_frame d).
  - by apply (GetSDOClient_frame node d).
  - by apply (sdo_state_frame d).
  - congruence.
Qed.

Lemma same_node_line d t tm : same_node d (line_state d t tm).
Proof. done. Qed.
Lemma same_node_sent d m : same_node d (sent d m).
Proof. done. Qed.

Lemma new_sent_sent d m t tm : new_sent d (line_state (sent d m) t tm) = Some m.
Proof. unfold new_sent, line_state, sent. cbn [set co_log]. by rewrite drop_app_length. Qed.

Lemma new_sent_none d t tm : new_sent d (line_state d t tm) = None.
Proof. unfold new_sent, line_state. cbn [set co_log]. by rewrite drop_all. Qed.

(** ** One message *)

Lemma proceedSDO_command d t m who node b0 :
  at_line d t -> addressed d (cob_id m) who 0 node -> len m = 8 ->
  (msg_data m).[0] = Some b0 ->
  tr_state t <> SDO_BLOCK_DOWNLOAD_IN_PROGRESS -> tr_state t <> SDO_BLOCK_UPLOAD_IN_PROGRESS ->
  proceedSDO m d = sdo_command who 0 node (getSDOcs b0)
    (if on_use t 0 who then Some 0 else None) m d.
Proof.
  intros H Ha Hl Hb Hd Hu. unfold proceedSDO. rewrite (st_bind_eq _ _ _ _ _ Ha). cbn iota.
  rewrite Hl. change (negb (8 =? 8)) with false. cbn iota.
  rewrite (st_bind_eq _ _ _ _ _ (getSDOlineOnUse_eq _ _ _ _ H)). cbn beta.
  assert (Hcs : sdo_cs who (if on_use t 0 who then Some 0 else None) m d =
    Some (getSDOcs b0, d)).
  { unfold sdo_cs, data_at. rewrite Hb. unfold opt.
    rewrite (st_bind_eq (st_opt (Some b0)) _ d b0 d eq_refl).
    destruct (on_use t 0 who); [|done].
    rewrite (st_bind_eq _ _ _ _ _ (get_line_eq _ _ H)). cbn beta.
    by rewrite (proj2 (Z.eqb_neq _ _) Hd), (proj2 (Z.eqb_neq _ _) Hu), !andb_false_r. }
  by rewrite (st_bind_eq _ _ _ _ _ Hcs).
Qed.

(** The line of a transfer in progress, as server or client. *)
Record run_line (st : Z) (t : s_transfer) (who tg count off : Z) (data : list Z) : Prop := RunLine {
  ul_state : tr_state t = st;
  ul_who : whoami t = who;
  ul_nbr : CliServNbr t = 0;
  ul_toggle : tr_toggle t = tg;
  ul_count : tr_count t = count;
  ul_off : tr_offset t = off;
  ul_data : tr_data t = data;
  ul_cb : tr_Callback t = None
}.
Definition up_line := run_line SDO_UPLOAD_IN_PROGRESS.

Lemma run_line_use st t who tg count off data :
  run_line st t who tg count off data -> st <> SDO_RESET -> st <> SDO_ABORTED_INTERNAL ->
  on_use t 0 who = true.
Proof.
  intros [] Hr Ha. unfold on_use. rewrite ul_state0, ul_who0, ul_nbr0, !Z.eqb_refl.
  by rewrite (proj2 (Z.eqb_neq _ _) Hr), (proj2 (Z.eqb_neq _ _) Ha).
Qed.

Definition bit (b : Z) : Prop := b = 0 \/ b = 1.

Lemma bit_invert b : bit b -> bit (invert b).
Proof. unfold bit, invert. intros [-> | ->]; auto. Qed.

(** The request for a segment. *)
Definition request (cob tg : Z) : Message :=
  MkMessage cob NOT_A_REQUEST 8 (pad 8 [Z.lor (Z.shiftl 3 5) (Z.shiftl tg 4)]).

Definition last_byte (tg k : Z) : Z :=
  u8 (Z.lor (Z.lor (Z.shiftl tg 4) (Z.shiftl (7 - k) 1)) 1).

Lemma request_bits tg : bit tg ->
  let b := Z.lor (Z.shiftl 3 5) (Z.shiftl tg 4) in getSDOcs b = 3 /\ getSDOt b = tg.
Proof. by intros [-> | ->]. Qed.

Lemma segment_bits tg : bit tg ->
  let b := Z.shiftl tg 4 in
  getSDOcs b = 0 /\ getSDOt b = tg /\ getSDOn3 b = 0 /\ getSDOc b = 0.
Proof. by intros [-> | ->]. Qed.

Lemma last_byte_bits tg k : bit tg -> 0 <= k <= 7 ->
  let b := last_byte tg k in
  getSDOcs b = 0 /\ getSDOt b = tg /\ getSDOn3 b = 7 - k /\ getSDOc b = 1.
Proof.
  intros Ht Hk.
  assert (k = 0 \/ k = 1 \/ k = 2 \/ k = 3 \/ k = 4 \/ k = 5 \/ k = 6 \/ k = 7) as Hc by lia.
  destruct Ht as [-> | ->]; repeat destruct Hc as [-> | Hc]; try (subst k); done.
Qed.

Lemma pad_length n bs : Z.of_nat (length bs) <= n -> Z.of_nat (length (pad n bs)) = n.
Proof. intros H. unfold pad. rewrite length_app, length_replicate. lia. Qed.

Lemma pad8_length bs : (length bs <= 8)%nat -> length (pad 8 bs) = 8%nat.
Proof. intros H. pose proof (pad_length 8 bs). lia. Qed.

(** ** A segment *)

Lemma with_line_eq who nbr t want d (k : Z -> CO Z) :
  at_line d t -> tr_state t = want -> with_line who nbr (Some 0) want k d = k 0 d.
Proof.
  intros H Hs. unfold with_line. rewrite (st_bind_eq _ _ _ _ _ (get_line_eq _ _ H)). cbn beta.
  by rewrite Hs, Z.eqb_refl.
Qed.

Lemma run_line_handle st t who tg count off data h :
  run_line st t who tg count off data -> run_line st (t <| tr_timer := h |>) who tg count off data.
Proof. intros []. by constructor. Qed.

Lemma run_line_advance st t who tg count off data n data' :
  run_line st t who tg count off data ->
  run_line st (t <| tr_data := data' |> <| tr_offset := off + n |>) who tg count (off + n) data'.
Proof. intros []. by constructor. Qed.

Lemma run_line_offset st t who tg count off data n :
  run_line st t who tg count off data ->
  run_line st (t <| tr_offset := off + n |>) who tg count (off + n) data.
Proof. intros []. by constructor. Qed.

Lemma run_line_invert st t who tg count off data :
  run_line st t who tg count off data ->
  run_line st (t <| tr_toggle ::= invert |>) who (invert tg) count off data.
Proof. intros []. constructor; try done. cbn. by rewrite ul_toggle0. Qed.

Lemma rest_bytes st t who tg count off data d :
  at_line d t -> run_line st t who tg count off data -> 0 < count -> 0 <= off <= count ->
  count <= 32 -> getSDOlineRestBytes 0 d = Some (count - off, d).
Proof.
  intros H [] H0 Ho Hc. rewrite (getSDOlineRestBytes_eq _ _ H), ul_count0, ul_off0.
  rewrite (proj2 (Z.eqb_neq count 0)) by lia. by rewrite u32_small by lia.
Qed.

Lemma send_eq d who cob bs :
  sdo_state d -> answers_on d who 0 cob -> clean_env (co_env d) -> length bs = 8%nat ->
  exists r, send who 0 bs d = Some (r, sent d (MkMessage cob NOT_A_REQUEST 8 bs)).
Proof. intros. eexists. by apply sendSDO_eq. Qed.

(** The node after the timer of its line was restarted. *)
Lemma restarted st d t who tg count off data :
  at_line d t -> run_line st t who tg count off data ->
  exists t1 tm, RestartSDO_TIMER 0 d = Some (tt, line_state d t1 tm) /\
    at_line (line_state d t1 tm) t1 /\ run_line st t1 who tg count off data /\
    tr_index t1 = tr_index t /\ tr_subIndex t1 = tr_subIndex t.
Proof.
  intros H U. destruct (RestartSDO_TIMER_eq d t H) as (h & tm & E & Hh & I).
  exists (t <| tr_timer := h |>), tm. split; [done|].
  split; [apply at_line_state; [done|done|apply H]|]. by split; [apply run_line_handle|].
Qed.

Lemma server_after d t tm rx tx : sdo_server d rx tx -> sdo_server (line_state d t tm) rx tx.
Proof. intros S. by apply (sdo_server_frame d). Qed.

Lemma client_after d t tm rx tx node :
  sdo_client d rx tx node -> sdo_client (line_state d t tm) rx tx node.
Proof. intros S. by apply (sdo_client_frame d). Qed.

Lemma server_sends d rx tx bs : sdo_server d rx tx -> length bs = 8%nat ->
  exists r, send SDO_SERVER 0 bs d = Some (r, sent d (MkMessage tx NOT_A_REQUEST 8 bs)).
Proof. intros [] Hb. by apply send_eq. Qed.

Lemma client_sends d rx tx node bs : sdo_client d rx tx node -> length bs = 8%nat ->
  exists r, send SDO_CLIENT 0 bs d = Some (r, sent d (MkMessage tx NOT_A_REQUEST 8 bs)).
Proof. intros [] Hb. by apply send_eq. Qed.

(** Taking the next [n] bytes of a line. *)
Lemma take_bytes st d t who tg count off data n :
  at_line d t -> run_line st t who tg count off data ->
  0 <= n -> 0 <= off -> off + n <= count <= 32 ->
  exists t', lineToSDO 0 n d =
      Some (Some (take (Z.to_nat n) (drop (Z.to_nat off) data)), line_state d t' (co_timers d)) /\
    run_line st t' who tg count (off + n) data /\ at_line (line_state d t' (co_timers d)) t' /\
    length (take (Z.to_nat n) (drop (Z.to_nat off) data)) = Z.to_nat n /\
    tr_index t' = tr_index t /\ tr_subIndex t' = tr_subIndex t.
Proof.
  intros H U Hn Ho Hc. pose proof (ul_off _ _ _ _ _ _ _ U) as Eo.
  pose proof (ul_count _ _ _ _ _ _ _ U) as Ec. pose proof (ul_data _ _ _ _ _ _ _ U) as Ed.
  pose proof (al_data _ _ H) as Hl. rewrite Ed in Hl.
  pose proof (lineToSDO_eq _ _ n H Hn ltac:(lia) ltac:(lia)) as E. rewrite Eo, Ed in E.
  eexists. split; [exact E|]. split; [by eapply run_line_offset|]. split.
  - destruct H. by constructor.
  - split; [rewrite length_take, length_drop; lia|done].
Qed.

(** The next segment of an upload, when more follow, and the last one. *)
Lemma server_sends_more d t rx tx tg count off data :
  at_line d t -> sdo_server d rx tx -> up_line t SDO_SERVER tg count off data ->
  0 <= off -> 7 < count - off -> count <= 32 ->
  exists t', server_send_segment SDO_SERVER 0 0 (count - off) t d = Some (0,
      line_state (sent d (MkMessage tx NOT_A_REQUEST 8
        (Z.shiftl tg 4 :: take 7 (drop (Z.to_nat off) data)))) t' (co_timers d)) /\
    up_line t' SDO_SERVER (invert tg) count (off + 7) data /\
    at_line (line_state d t' (co_timers d)) t'.
Proof.
  intros H S U Ho Hr Hc. unfold server_send_segment. ztest.
  destruct (take_bytes _ _ _ _ _ _ _ _ 7 H U) as (t2 & E & U2 & A2 & Hl & _); [lia..|].
  rewrite (st_bind_eq _ _ _ _ _ E). cbn iota. rewrite (st_bind_eq _ _ _ _ _ (upd_line_eq _ _ _ A2)).
  rewrite (ul_toggle _ _ _ _ _ _ _ U). set (t3 := t2 <| tr_toggle ::= invert |>).
  destruct (server_sends (line_state d t3 (co_timers d)) rx tx
    (Z.shiftl tg 4 :: take 7 (drop (Z.to_nat off) data))) as [r Er];
    [by apply server_after|cbn [length]; change (Z.to_nat 7) with 7%nat in Hl; lia|].
  exists t3. split; [exact (st_bind_eq _ _ _ _ _ Er)|]. split; [by apply run_line_invert|].
  destruct A2. by constructor.
Qed.

Lemma server_sends_last d t rx tx tg count off data :
  at_line d t -> sdo_server d rx tx -> up_line t SDO_SERVER tg count off data ->
  0 <= off < count -> count - off <= 7 -> count <= 32 ->
  exists t' tm, server_send_segment SDO_SERVER 0 0 (count - off) t d = Some (0,
      line_state (sent d (MkMessage tx NOT_A_REQUEST 8 (pad 8 (last_byte tg (count - off) ::
        take (Z.to_nat (count - off)) (drop (Z.to_nat off) data))))) t' tm) /\
    tr_state t' = SDO_RESET /\ at_line (line_state d t' tm) t'.
Proof.
  intros H S U Ho Hr Hc. unfold server_send_segment. ztest.
  destruct (take_bytes _ _ _ _ _ _ _ _ (count - off) H U) as (t2 & E & U2 & A2 & Hl & _); [lia..|].
  rewrite (st_bind_eq _ _ _ _ _ E). cbn iota zeta. rewrite (ul_toggle _ _ _ _ _ _ _ U).
  fold (last_byte tg (count - off)). set (bs := pad 8 _).
  destruct (server_sends (line_state d t2 (co_timers d)) rx tx bs) as [r Er];
    [by apply server_after|apply pad8_length; cbn; lia|].
  rewrite (st_bind_eq _ _ _ _ _ Er).
  destruct (resetSDOline_eq (sent (line_state d t2 (co_timers d)) (MkMessage tx NOT_A_REQUEST 8 bs)) t2)
    as (h & tm & E' & Hh & I); [destruct A2; by constructor|].
  exists (free_line t2 h), tm. split; [by rewrite (st_bind_eq _ _ _ _ _ E')|].
  split; [done|]. by apply free_line_ok.
Qed.

(** The server answers a request with the next segment. *)
Lemma server_segment d t rx tx tg count off data :
  at_line d t -> sdo_server d rx tx -> up_line t SDO_SERVER tg count off data ->
  bit tg -> 0 <= off < count -> count <= 32 ->
  let n := Z.min 7 (count - off) in
  let seg := take (Z.to_nat n) (drop (Z.to_nat off) data) in
  if 7 <? count - off then
    exists t' tm, proceedSDO (request rx tg) d = Some (0,
      line_state (sent d (MkMessage tx NOT_A_REQUEST 8 (Z.shiftl tg 4 :: seg))) t' tm) /\
      up_line t' SDO_SERVER (invert tg) count (off + 7) data /\ at_line (line_state d t' tm) t'
  else
    exists t' tm, proceedSDO (request rx tg) d = Some (0,
      line_state (sent d (MkMessage tx NOT_A_REQUEST 8 (pad 8 (last_byte tg n :: seg)))) t' tm) /\
      tr_state t' = SDO_RESET /\ at_line (line_state d t' tm) t'.
Proof.
  intros H S U Hb Ho Hc n seg.
  destruct (request_bits tg Hb) as [Hcs Htg]. set (b0 := Z.lor _ _) in Hcs, Htg.
  assert (H0 : (msg_data (request rx tg)).[0] = Some b0) by done.
  destruct (restarted _ _ _ _ _ _ _ _ H U) as (t1 & tm & E & A1 & U1 & _).
  assert (Eseg : proceedSDO (request rx tg) d =
    server_send_segment SDO_SERVER 0 0 (count - off) t1 (line_state d t1 tm)).
  { rewrite (proceedSDO_command d t _ SDO_SERVER 0 b0);
      [|done|apply S|done|done|by rewrite (ul_state _ _ _ _ _ _ _ U)..].
    rewrite (run_line_use _ _ _ _ _ _ _ U) by done. rewrite Hcs.
    unfold sdo_command. change (SDO_SERVER =? SDO_SERVER) with true. unfold server_upload_segment.
    cbn iota. rewrite (with_line_eq _ _ t) by (done || apply U).
    unfold data_at. rewrite H0. unfold opt. rewrite (st_bind_eq (st_opt (Some b0)) _ d b0 d eq_refl).
    rewrite (st_bind_eq _ _ _ _ _ E), (st_bind_eq _ _ _ _ _ (get_line_eq _ _ A1)). cbn beta.
    rewrite (ul_toggle _ _ _ _ _ _ _ U1), Htg, Z.eqb_refl. cbn [negb].
    by rewrite (st_bind_eq _ _ _ _ _ (rest_bytes _ _ _ _ _ _ _ _ A1 U1 ltac:(lia) ltac:(lia) Hc)). }
  rewrite Eseg. pose proof (server_after _ t1 tm _ _ S) as S1.
  unfold seg, n. destruct (7 <? count - off) eqn:E7; zb.
  - destruct (server_sends_more _ _ _ _ _ _ _ _ A1 S1 U1) as (t2 & E2 & U2 & A2); [lia..|].
    rewrite (Z.min_l 7) by lia. by exists t2, tm.
  - destruct (server_sends_last _ _ _ _ _ _ _ _ A1 S1 U1) as (t2 & tm2 & E2 & R2 & A2); [lia..|].
    rewrite (Z.min_r 7) by lia. by exists t2, tm2.
Qed.

(** The line of a client whose transfer is over. *)
Record done_line (t : s_transfer) (count off : Z) (data : list Z) : Prop := DoneLine {
  dl_state : tr_state t = SDO_FINISHED;
  dl_who : whoami t = SDO_CLIENT;
  dl_nbr : CliServNbr t = 0;
  dl_count : tr_count t = count;
  dl_off : tr_offset t = off;
  dl_data : tr_data t = data
}.

Lemma finish_eq d t node :
  at_line d t -> tr_Callback t = None -> exists tm,
  finish node 0 d =
    Some (0, line_state d (t <| tr_timer := TIMER_NONE |> <| tr_state := SDO_FINISHED |>) tm) /\
  timers_inv tm.
Proof.
  intros H Hc. destruct (StopSDO_TIMER_eq d t H) as (tm & E & I). exists tm. split; [|done].
  unfold finish. rewrite (st_bind_eq _ _ _ _ _ E).
  assert (A1 : at_line (line_state d (t <| tr_timer := TIMER_NONE |>) tm)
    (t <| tr_timer := TIMER_NONE |>)) by (constructor; [done|done|apply H|done]).
  rewrite (st_bind_eq _ _ _ _ _ (upd_line_eq _ _ _ A1)). unfold call_Callback.
  set (t2 := t <| tr_timer := TIMER_NONE |> <| tr_state := SDO_FINISHED |>).
  assert (A2 : at_line (line_state d t2 tm) t2) by (constructor; [done|done|apply H|done]).
  assert (Ecb : (t ← get_line 0; match tr_Callback t with None => st_skip
    | Some cb => run_sdo_callback cb node end) (line_state d t2 tm) =
    Some (tt, line_state d t2 tm)).
  { rewrite (st_bind_eq _ _ _ _ _ (get_line_eq _ _ A2)). cbn beta.
    change (tr_Callback t2) with (tr_Callback t). by rewrite Hc. }
  by rewrite (st_bind_eq _ _ _ _ _ Ecb).
Qed.

(** A segment received by the client, up to the copy in the line. *)
Lemma segment_received_eq st who d t tg count off data b0 seg m (k : Z -> s_transfer -> CO Z) :
  at_line d t -> run_line st t who tg count off data ->
  (msg_data m).[0] = Some b0 -> drop 1 (msg_data m) = seg ++ drop (length seg) (drop 1 (msg_data m)) ->
  getSDOt b0 = tg -> getSDOn3 b0 = 7 - Z.of_nat (length seg) ->
  0 <= off -> off + Z.of_nat (length seg) <= 32 ->
  let data' := take (Z.to_nat off) data ++ seg ++ drop (Z.to_nat off + length seg) data in
  exists t' t0 tm, segment_received who 0 (Some 0) st m k d = k 0 t0 (line_state d t' tm) /\
    tr_toggle t0 = tg /\ run_line st t' who tg count (off + Z.of_nat (length seg)) data' /\
    at_line (line_state d t' tm) t' /\ tr_index t' = tr_index t /\ tr_subIndex t' = tr_subIndex t.
Proof.
  intros H U H0 Hm Ht Hn Ho Hle data'. unfold segment_received.
  rewrite (with_line_eq _ _ t) by (done || apply U).
  unfold data_at. rewrite H0. unfold opt. rewrite (st_bind_eq (st_opt (Some b0)) _ d b0 d eq_refl).
  destruct (RestartSDO_TIMER_eq d t H) as (h & tm & E & Hh & I).
  rewrite (st_bind_eq _ _ _ _ _ E). set (t1 := t <| tr_timer := h |>).
  assert (A1 : at_line (line_state d t1 tm) t1) by (apply at_line_state; [done|done|apply H]).
  assert (U1 : run_line st t1 who tg count off data) by by apply run_line_handle.
  rewrite (st_bind_eq _ _ _ _ _ (get_line_eq _ _ A1)). cbn beta.
  rewrite (ul_toggle _ _ _ _ _ _ _ U1), Ht, Z.eqb_refl. cbn [negb].
  pose proof (ul_off _ _ _ _ _ _ _ U1) as Eoff.
  assert (El : (length seg <= length (drop 1 (msg_data m)))%nat).
  { rewrite Hm at 1. rewrite length_app. lia. }
  rewrite Hn. replace (7 - (7 - Z.of_nat (length seg))) with (Z.of_nat (length seg)) by lia.
  rewrite (st_bind_eq _ _ _ _ _ (SDOtoLine_eq _ _ (Z.of_nat (length seg)) (drop 1 (msg_data m)) A1
    ltac:(lia) ltac:(lia) ltac:(lia))). cbn beta iota.
  change (negb (0 =? 0)) with false. cbn iota.
  rewrite Eoff, (ul_data _ _ _ _ _ _ _ U1), Nat2Z.id.
  assert (Ek : take (length seg) (drop 1 (msg_data m)) = seg)
    by (rewrite Hm; apply take_app_length).
  rewrite Ek. fold data'.
  exists (t1 <| tr_data := data' |> <| tr_offset := off + Z.of_nat (length seg) |>), t1, tm.
  split; [done|]. split; [apply U1|]. split; [by eapply run_line_advance|].
  split; [|done]. constructor; [done|done| |done]. cbn [set tr_data]. unfold data'.
  pose proof (al_data _ _ A1) as Hlen. rewrite (ul_data _ _ _ _ _ _ _ U1) in Hlen.
  rewrite !length_app, length_take, length_drop. lia.
Qed.

(** The client asks for the next segment, or is done. *)
Lemma client_segment d t rx tx node tg count off data b0 seg :
  at_line d t -> sdo_client d rx tx node -> up_line t SDO_CLIENT tg count off data ->
  getSDOcs b0 = 0 -> getSDOt b0 = tg -> getSDOn3 b0 = 7 - Z.of_nat (length seg) ->
  (length seg <= 7)%nat -> 0 <= off -> off + Z.of_nat (length seg) <= 32 -> bit tg ->
  let data' := take (Z.to_nat off) data ++ seg ++ drop (Z.to_nat off + length seg) data in
  let off' := off + Z.of_nat (length seg) in
  let m := MkMessage rx NOT_A_REQUEST 8 (pad 8 (b0 :: seg)) in
  if getSDOc b0 =? 0 then
    exists t' tm, proceedSDO m d = Some (0, line_state (sent d (request tx (invert tg))) t' tm) /\
      up_line t' SDO_CLIENT (invert tg) count off' data' /\ at_line (line_state d t' tm) t'
  else
    exists t' tm, proceedSDO m d = Some (0, line_state d t' tm) /\
      done_line t' count off' data' /\ at_line (line_state d t' tm) t'.
Proof.
  intros H S U Hcs Ht Hn Hl7 Ho Hle Hb data' off' m.
  assert (H0 : (msg_data m).[0] = Some b0) by done.
  rewrite (proceedSDO_command d t m SDO_CLIENT node b0);
    [|done|apply S|done|done|by rewrite (ul_state _ _ _ _ _ _ _ U)..].
  rewrite (run_line_use _ _ _ _ _ _ _ U) by done; rewrite Hcs. cbn [sdo_command].
  change (SDO_CLIENT =? SDO_SERVER) with false. cbn iota. unfold client_upload_segment.
  destruct (segment_received_eq SDO_UPLOAD_IN_PROGRESS SDO_CLIENT d t tg count off data b0 seg m
    (fun line t =>
      b0 ← data_at m 0;
      _ ← upd_line line (set tr_toggle invert);
      if negb (getSDOc b0 =? 0) then finish node line
      else
        t ← get_line line;
        _ ← send SDO_CLIENT 0 (pad 8 [Z.lor (Z.shiftl 3 5) (Z.shiftl (tr_toggle t) 4)]);
        ret 0)) as (t1 & t0 & tm & E & _ & U1 & A1 & _); try done.
  { change (drop 1 (msg_data m)) with (seg ++ replicate (Z.to_nat 8 - length (b0 :: seg)) 0).
    by rewrite drop_app_length. }
  rewrite E. cbn beta. unfold data_at, opt. rewrite H0.
  set (dd := line_state d t1 tm) in *.
  rewrite (st_bind_eq (st_opt (Some b0)) _ dd b0 dd eq_refl). cbn beta.
  rewrite (st_bind_eq _ _ _ _ _ (upd_line_eq _ _ _ A1)).
  set (t2 := t1 <| tr_toggle ::= invert |>).
  assert (U2 : up_line t2 SDO_CLIENT (invert tg) count off' data') by by apply run_line_invert.
  assert (A2 : at_line (line_state d t2 tm) t2) by (destruct A1; by constructor).
  destruct (getSDOc b0 =? 0); cbn [negb].
  - exists t2, tm. split; [|done].
    change (line_state dd t2 (co_timers dd)) with (line_state d t2 tm).
    rewrite (st_bind_eq _ _ _ _ _ (get_line_eq _ _ A2)). cbn beta.
    rewrite (ul_toggle _ _ _ _ _ _ _ U2).
    destruct (send_eq (line_state d t2 tm) SDO_CLIENT tx
      (pad 8 [Z.lor (Z.shiftl 3 5) (Z.shiftl (invert tg) 4)])) as [r Er];
      [apply S|apply (answers_on_frame d); [apply S|done..]|apply S|done|].
    by rewrite (st_bind_eq _ _ _ _ _ Er).
  - change (line_state dd t2 (co_timers dd)) with (line_state d t2 tm).
    destruct (finish_eq (line_state d t2 tm) t2 node A2 (ul_cb _ _ _ _ _ _ _ U2))
      as (tm' & -> & I').
    eexists _, tm'. split; [reflexivity|]. split.
    + destruct U2. by constructor.
    + destruct A2. by constructor.
Qed.

(** ** The segments of an upload *)

Lemma take_segment (v data datac : list Z) off k n :
  take n data = v -> (off + k <= n)%nat -> (n <= 32)%nat -> length data = 32%nat ->
  length datac = 32%nat -> take off datac = take off v ->
  take (off + k) (take off datac ++ take k (drop off data) ++ drop (off + k) datac) =
  take (off + k) v.
Proof.
  intros Hv Hk Hn Hl Hlc Ho. subst v. rewrite Ho, app_assoc, take_app_le.
  2: { rewrite length_app, !length_take, length_drop. lia. }
  rewrite take_ge by (rewrite length_app, !length_take, length_drop; lia).
  rewrite !take_take, !Nat.min_l by lia. apply take_take_drop.
Qed.

Lemma dialogue_step fuel c s m answer s' c' :
  proceedSDO m s = Some (0, s') -> new_sent s s' = Some answer ->
  proceedSDO answer c = Some (0, c') ->
  dialogue (S fuel) c s m =
    match new_sent c c' with Some m' => dialogue fuel c' s' m' | None => Some (c', s') end.
Proof.
  intros Hs Ha Hc. cbn [dialogue]. rewrite Hs. cbn [fmap option_fmap option_map snd mbind option_bind].
  rewrite Ha. cbn [mbind option_bind]. by rewrite Hc.
Qed.

Lemma run_line_at st d t who tg count off data tm :
  run_line st t who tg count off data -> length data = 32%nat -> handle_ok (tr_timer t) ->
  timers_inv tm -> at_line (line_state d t tm) t.
Proof. intros [] Hl Hh I. constructor; try done. by rewrite ul_data0. Qed.

(** What the client has after a segment of [k] bytes from position [off]. *)
Definition with_segment (datac datas : list Z) (off k : Z) : list Z :=
  take (Z.to_nat off) datac ++ take (Z.to_nat k) (drop (Z.to_nat off) datas) ++
  drop (Z.to_nat (off + k)) datac.

Lemma with_segment_take v datac datas off k n :
  take (Z.to_nat n) datas = v -> 0 <= off -> 0 <= k -> off + k <= n -> n <= 32 ->
  length datas = 32%nat -> length datac = 32%nat ->
  take (Z.to_nat off) datac = take (Z.to_nat off) v ->
  take (Z.to_nat (off + k)) (with_segment datac datas off k) = take (Z.to_nat (off + k)) v.
Proof.
  intros Hv Ho Hk Hle Hn Hls Hlc Hpre. unfold with_segment. rewrite !Z2Nat.inj_add by lia.
  apply (take_segment v datas datac (Z.to_nat off) (Z.to_nat k) (Z.to_nat n)); (done || lia).
Qed.

(** One exchange: the client asks, the server sends a segment and more remain. *)
Lemma exchange_more rx tx node n c s tc ts off tg datac datas fuel :
  at_line c tc -> at_line s ts -> sdo_client c tx rx node -> sdo_server s rx tx ->
  up_line tc SDO_CLIENT tg n off datac -> up_line ts SDO_SERVER tg n off datas ->
  0 <= off -> 7 < n - off -> n <= 32 -> bit tg ->
  exists c' s' tc' ts',
    dialogue (S fuel) c s (request rx tg) = dialogue fuel c' s' (request rx (invert tg)) /\
    at_line c' tc' /\ at_line s' ts' /\ same_node c c' /\ same_node s s' /\
    up_line tc' SDO_CLIENT (invert tg) n (off + 7) (with_segment datac datas off 7) /\
    up_line ts' SDO_SERVER (invert tg) n (off + 7) datas.
Proof.
  intros Ac As Sc Ss Uc Us Ho Hr Hn Hb.
  pose proof (server_segment s ts rx tx tg n off datas As Ss Us Hb ltac:(lia) Hn) as Hs.
  cbn zeta in Hs. rewrite (Z.min_l 7), (proj2 (Z.ltb_lt 7 (n - off))) in Hs by lia.
  destruct Hs as (ts' & tm & Hps & Us' & As').
  set (seg := take (Z.to_nat 7) (drop (Z.to_nat off) datas)) in *.
  pose proof (al_data _ _ As) as Hls. rewrite (ul_data _ _ _ _ _ _ _ Us) in Hls.
  assert (Hseg : length seg = 7%nat) by (unfold seg; rewrite length_take, length_drop; lia).
  destruct (segment_bits tg Hb) as (B1 & B2 & B3 & B4).
  pose proof (client_segment c tc tx rx node tg n off datac (Z.shiftl tg 4) seg
    Ac Sc Uc B1 B2 ltac:(lia) ltac:(lia) ltac:(lia) ltac:(lia) Hb) as Hc. cbn zeta in Hc.
  rewrite B4 in Hc. destruct Hc as (tc' & tmc & Hpc & Uc' & Ac').
  replace (pad 8 (Z.shiftl tg 4 :: seg)) with (Z.shiftl tg 4 :: seg) in Hpc
    by (unfold pad; cbn [length]; rewrite Hseg; by rewrite app_nil_r).
  rewrite (dialogue_step _ _ _ _ _ _ _ Hps (new_sent_sent _ _ _ _) Hpc), new_sent_sent.
  do 2 eexists. exists tc', ts'. split; [reflexivity|].
  split; [destruct Ac'; by constructor|]. split; [destruct As'; by constructor|].
  split; [done|]. split; [done|]. split; [|exact Us'].
  unfold with_segment. fold seg. rewrite Z2Nat.inj_add by lia. rewrite Hseg in Uc'. exact Uc'.
Qed.

(** The last exchange. *)
Lemma exchange_last rx tx node n c s tc ts off tg datac datas fuel :
  at_line c tc -> at_line s ts -> sdo_client c tx rx node -> sdo_server s rx tx ->
  up_line tc SDO_CLIENT tg n off datac -> up_line ts SDO_SERVER tg n off datas ->
  0 <= off < n -> n - off <= 7 -> n <= 32 -> bit tg ->
  exists c' s' tc' ts',
    dialogue (S fuel) c s (request rx tg) = Some (c', s') /\
    at_line c' tc' /\ at_line s' ts' /\ same_node c c' /\ same_node s s' /\
    done_line tc' n n (with_segment datac datas off (n - off)) /\ tr_state ts' = SDO_RESET.
Proof.
  intros Ac As Sc Ss Uc Us Ho Hr Hn Hb.
  pose proof (server_segment s ts rx tx tg n off datas As Ss Us Hb Ho Hn) as Hs.
  cbn zeta in Hs. rewrite (Z.min_r 7), (proj2 (Z.ltb_ge 7 (n - off))) in Hs by lia.
  destruct Hs as (ts' & tm & Hps & Hfree & As'). set (k := n - off) in *.
  set (seg := take (Z.to_nat k) (drop (Z.to_nat off) datas)) in *.
  pose proof (al_data _ _ As) as Hls. rewrite (ul_data _ _ _ _ _ _ _ Us) in Hls.
  assert (Hseg : length seg = Z.to_nat k) by (unfold seg; rewrite length_take, length_drop; lia).
  destruct (last_byte_bits tg k Hb ltac:(lia)) as (B1 & B2 & B3 & B4).
  pose proof (client_segment c tc tx rx node tg n off datac (last_byte tg k) seg
    Ac Sc Uc B1 B2 ltac:(lia) ltac:(lia) ltac:(lia) ltac:(lia) Hb) as Hc. cbn zeta in Hc.
  rewrite B4 in Hc. destruct Hc as (tc' & tmc & Hpc & Dc' & Ac').
  rewrite (dialogue_step _ _ _ _ _ _ _ Hps (new_sent_sent _ _ _ _) Hpc), new_sent_none.
  do 2 eexists. exists tc', ts'. split; [reflexivity|]. split; [done|].
  split; [destruct As'; by constructor|]. split; [done|]. split; [done|]. split; [|done].
  unfold with_segment. fold seg. rewrite Z2Nat.inj_add by lia. rewrite Hseg in Dc'.
  by replace (off + Z.of_nat (Z.to_nat k)) with n in Dc' by lia.
Qed.

Lemma upload_loop rx tx node v n fuel : forall c s tc ts off tg datac datas,
  at_line c tc -> at_line s ts -> sdo_client c tx rx node -> sdo_server s rx tx ->
  up_line tc SDO_CLIENT tg n off datac -> up_line ts SDO_SERVER tg n off datas ->
  take (Z.to_nat n) datas = v -> take (Z.to_nat off) datac = take (Z.to_nat off) v ->
  0 <= off < n -> n <= 32 -> n - off <= 7 * Z.of_nat fuel -> bit tg ->
  exists c' s' tc' ts' data',
    dialogue fuel c s (request rx tg) = Some (c', s') /\
    at_line c' tc' /\ done_line tc' n n data' /\ take (Z.to_nat n) data' = v /\
    at_line s' ts' /\ tr_state ts' = SDO_RESET /\ same_node c c' /\ same_node s s'.
Proof.
  induction fuel as [|fuel IH];
    intros c s tc ts off tg datac datas Ac As Sc Ss Uc Us Hv Hpre Ho Hn Hf Hb; [lia|].
  pose proof (al_data _ _ As) as Hls. rewrite (ul_data _ _ _ _ _ _ _ Us) in Hls.
  pose proof (al_data _ _ Ac) as Hlc. rewrite (ul_data _ _ _ _ _ _ _ Uc) in Hlc.
  destruct (decide (7 < n - off)) as [E7|E7].
  - destruct (exchange_more rx tx node n c s tc ts off tg datac datas fuel)
      as (c1 & s1 & tc1 & ts1 & E & Ac1 & As1 & Nc & Ns & Uc1 & Us1); try done; [lia|].
    destruct (IH c1 s1 tc1 ts1 (off + 7) (invert tg) (with_segment datac datas off 7) datas)
      as (c2 & s2 & tc2 & ts2 & d2 & E2 & Ac2 & Dc2 & Hv2 & As2 & Hr2 & Nc2 & Ns2);
      try done; try lia.
    + by apply (sdo_client_frame c).
    + by apply (sdo_server_frame s).
    + apply (with_segment_take v datac datas off 7 n); (done || lia).
    + by apply bit_invert.
    + exists c2, s2, tc2, ts2, d2. rewrite E. splits; try done; by eapply same_node_trans.
  - destruct (exchange_last rx tx node n c s tc ts off tg datac datas fuel)
      as (c1 & s1 & tc1 & ts1 & E & Ac1 & As1 & Nc & Ns & Dc & Hr); try done; [lia|].
    exists c1, s1, tc1, ts1, (with_segment datac datas off (n - off)). splits; try done.
    replace n with (off + (n - off)) at 1 by lia.
    rewrite (with_segment_take v datac datas off (n - off) n) by (done || lia).
    rewrite take_ge; [done|]. rewrite <- Hv, length_take. lia.
Qed.

(** ** The beginning of an upload *)

(** An entry that a client may read and that fits the line; its bytes are [v]. *)
Definition readable_entry (d : CO_Data) (index sub : Z) (v : list Z) : Prop :=
  exists i x, find_sub (co_od d) index sub = Some (i, x) /\
    Z.land (bAccessType x) WO = 0 /\ bDataType x <> visible_string /\
    od_size x <= SDO_MAX_LENGTH_TRANSFER /\
    mload (co_mem d) (pObject x) (od_size x) = Some v.

Lemma readable_entry_length d index sub v :
  node_od_ok d -> readable_entry d index sub v -> 0 < Z.of_nat (length v) <= 32.
Proof.
  intros Hok (i & x & Hf & _ & _ & Hs & Hv). rewrite (mload_length _ _ _ _ Hv).
  destruct (find_sub_object _ _ _ _ _ _ _ Hok Hf) as [Hpos _].
  unfold SDO_MAX_LENGTH_TRANSFER in Hs. lia.
Qed.

(** The message that names an entry, with command byte [b0]. *)
Definition naming (cob b0 index sub : Z) : Message :=
  MkMessage cob NOT_A_REQUEST 8 (pad 8 (b0 :: mux index sub)).

Lemma getSDOindex_mux index : 0 <= index < 65536 ->
  getSDOindex (Z.land index 0xFF) (Z.land (Z.shiftr index 8) 0xFF) = index.
Proof.
  intros H. unfold getSDOindex. apply Z.bits_inj'. intros k Hk.
  rewrite Z.lor_spec, Z.land_spec. change 255 with (Z.ones 8).
  destruct (decide (k < 8)) as [Hlt|Hge].
  - rewrite Z.shiftl_spec_low, Z.ones_spec_low, andb_true_r by lia. done.
  - rewrite (Z.ones_spec_high 8 k), andb_false_r, orb_false_r by lia.
    rewrite Z.shiftl_spec, Z.land_spec, Z.shiftr_spec by lia.
    replace (k - 8 + 8) with k by lia.
    destruct (decide (k < 16)) as [Hlt|Hge2].
    + by rewrite Z.ones_spec_low, andb_true_r by lia.
    + rewrite (Z.ones_spec_high 8 (k - 8)), andb_false_r by lia.
      rewrite <- (u16_small index) by lia. unfold u16. by rewrite Z.mod_pow2_bits_high by lia.
Qed.

Lemma le32_bytes32 n : 0 <= n < 2 ^ 32 ->
  le32 (u8 n) (u8 (Z.shiftr n 8)) (u8 (Z.shiftr n 16)) (u8 (Z.shiftr n 24)) = n.
Proof.
  intros H. unfold le32, u8. rewrite !Z.shiftl_mul_pow2, !Z.shiftr_div_pow2 by lia.
  rewrite u32_small; Z.to_euclidean_division_equations; lia.
Qed.

(** The line after the dictionary was copied into it. *)
Lemma objdictToSDOline_eq d t index sub v :
  at_line d t -> tr_index t = index -> tr_subIndex t = sub -> 0 <= sub -> node_od_ok d ->
  readable_entry d index sub v ->
  objdictToSDOline 0 d = Some (0, line_state d (t
    <| tr_data := v ++ drop (length v) (tr_data t) |>
    <| tr_count := Z.of_nat (length v) |> <| tr_offset := 0 |>) (co_timers d)).
Proof.
  intros H Hi Hs Hs0 Hok He. pose proof (readable_entry_length _ _ _ _ Hok He) as Hl.
  destruct He as (i & x & Hf & Hacc & Hty & Hsz & Hv).
  unfold objdictToSDOline. rewrite (st_bind_eq _ _ _ _ _ (get_line_eq _ _ H)). cbn beta.
  rewrite Hi, Hs.
  assert (Hget : getODentry index sub false SDO_MAX_LENGTH_TRANSFER true d =
    Some (OdRead OD_SUCCESSFUL (od_size x) (Some (bDataType x)) v, d)).
  { pose proof Hf as (en & Hsc & _)%find_sub_Some. rewrite getODentry_find, Hsc, Hf by done.
    by apply read_sub_ok. }
  rewrite (st_bind_eq _ _ _ _ _ Hget). cbn [rd_bytes rd_code rd_size].
  pose proof (al_data _ _ H). rewrite put_slice_ok by lia. rewrite take_0. cbn [app].
  unfold opt. rewrite (st_bind_eq (st_opt (Some _)) _ d _ d eq_refl). cbn beta.
  rewrite (st_bind_eq _ _ _ _ _ (upd_line_eq _ _ _ H)).
  change (negb (OD_SUCCESSFUL =? OD_SUCCESSFUL)) with false. cbn iota.
  set (t1 := t <| tr_data := _ |>).
  assert (A1 : at_line (line_state d t1 (co_timers d)) t1).
  { constructor; [done|apply H| |apply H]. cbn [t1 set tr_data].
    rewrite length_app, length_drop. change (Z.to_nat 0 + length v)%nat with (length v). lia. }
  rewrite (st_bind_eq _ _ _ _ _ (upd_line_eq _ _ _ A1)).
  by rewrite <- (mload_length _ _ _ _ Hv).
Qed.

Lemma open_line_eq who d t index sub state (k : Z -> CO Z) :
  at_line d t -> tr_state t = SDO_RESET -> exists t' tm,
  open_line who 0 None index sub state k d = k 0 (line_state d t' tm) /\
  at_line (line_state d t' tm) t' /\
  t' = opened (t <| whoami := who |>) 0 index sub state (tr_timer t').
Proof.
  intros H Hr. unfold open_line. rewrite (st_bind_eq _ _ _ _ _ (getSDOfreeLine_eq _ _ who H Hr)).
  cbn iota. set (t1 := t <| whoami := who |>).
  assert (A1 : at_line (line_state d t1 (co_timers d)) t1) by (destruct H; by constructor).
  destruct (initSDOline_eq _ _ 0 index sub state A1) as (h & tm & E & Hh & I).
  rewrite (st_bind_eq _ _ _ _ _ E).
  exists (opened t1 0 index sub state h), tm. split; [done|]. split; [|done].
  constructor; [done|done|apply H|done].
Qed.

Definition upload_answer (cob index sub : Z) (v : list Z) : Message :=
  let n := Z.of_nat (length v) in
  MkMessage cob NOT_A_REQUEST 8
    (if 4 <? n then Z.lor (Z.shiftl 2 5) 1 :: mux index sub ++ bytes32 n
     else pad 8 (u8 (Z.lor (Z.lor (Z.shiftl 2 5) (Z.shiftl (4 - n) 2)) 3) :: mux index sub ++ v)).

(** The answer to an upload request: the value, or its size. *)
Lemma answer_upload_eq d t rx tx index sub v data :
  at_line d t -> sdo_server d rx tx -> up_line t SDO_SERVER 0 (Z.of_nat (length v)) 0 data ->
  take (length v) data = v -> 0 < Z.of_nat (length v) <= 32 ->
  exists t' tm, answer_upload SDO_SERVER 0 0 index sub (Z.of_nat (length v)) d =
      Some (0, line_state (sent d (upload_answer tx index sub v)) t' tm) /\
    at_line (line_state d t' tm) t' /\
    if 4 <? Z.of_nat (length v) then t' = t else tr_state t' = SDO_RESET.
Proof.
  intros H S U Hv Hl. unfold answer_upload, upload_answer.
  destruct (4 <? Z.of_nat (length v)) eqn:E4; zb.
  - destruct (server_sends d rx tx
      (Z.lor (Z.shiftl 2 5) 1 :: mux index sub ++ bytes32 (Z.of_nat (length v))) S eq_refl) as [r Er].
    exists t, (co_timers d). rewrite (st_bind_eq _ _ _ _ _ Er).
    split; [|by rewrite <- (line_state_id d t) by apply H].
    set (m := MkMessage _ _ _ _).
    exact (f_equal (fun d => Some (0, d)) (line_state_id (sent d m) t (al_line _ _ H))).
  - destruct (take_bytes _ _ _ _ _ _ _ _ (Z.of_nat (length v)) H U) as (t2 & E & U2 & A2 & _); [lia..|].
    rewrite (st_bind_eq _ _ _ _ _ E), Nat2Z.id, drop_0, Hv. cbn iota zeta. set (bs := pad 8 _).
    destruct (server_sends (line_state d t2 (co_timers d)) rx tx bs) as [r Er];
      [by apply server_after|apply pad8_length; cbn; lia|].
    rewrite (st_bind_eq _ _ _ _ _ Er).
    destruct (resetSDOline_eq (sent (line_state d t2 (co_timers d)) (MkMessage tx NOT_A_REQUEST 8 bs)) t2)
      as (h & tm & E' & Hh & I); [destruct A2; by constructor|].
    exists (free_line t2 h), tm. split; [by rewrite (st_bind_eq _ _ _ _ _ E')|].
    by split; [apply free_line_ok|].
Qed.

(** The server receives an upload request. *)
Lemma server_initiate d t rx tx index sub v :
  at_line d t -> tr_state t = SDO_RESET -> sdo_server d rx tx -> node_od_ok d ->
  readable_entry d index sub v -> 0 <= index < 65536 -> 0 <= sub ->
  exists t' tm, proceedSDO (naming rx (Z.shiftl 2 5) index sub) d = Some (0,
      line_state (sent d (upload_answer tx index sub v)) t' tm) /\
    at_line (line_state d t' tm) t' /\
    if 4 <? Z.of_nat (length v)
    then exists data, up_line t' SDO_SERVER 0 (Z.of_nat (length v)) 0 data /\
           take (length v) data = v
    else tr_state t' = SDO_RESET.
Proof.
  intros H Hr S Hok He Hidx Hs0. pose proof (readable_entry_length _ _ _ _ Hok He) as Hl.
  set (m := naming _ _ _ _). set (b0 := Z.shiftl 2 5).
  rewrite (proceedSDO_command d t m SDO_SERVER 0 b0);
    [|done|apply S|done|done|by rewrite Hr..].
  replace (on_use t 0 SDO_SERVER) with false by (unfold on_use; by rewrite Hr).
  change (getSDOcs b0) with 2. cbn [sdo_command]. change (SDO_SERVER =? SDO_SERVER) with true.
  cbn iota. unfold server_initiate_upload, data_at, opt.
  change (msg_data m).[1] with (Some (Z.land index 0xFF)).
  change (msg_data m).[2] with (Some (Z.land (Z.shiftr index 8) 0xFF)).
  change (msg_data m).[3] with (Some sub).
  rewrite 3!(st_bind_eq (st_opt (Some _)) _ d _ d eq_refl), getSDOindex_mux by done.
  match goal with |- context [open_line _ _ None _ _ _ ?k d] =>
    destruct (open_line_eq SDO_SERVER d t index sub SDO_UPLOAD_IN_PROGRESS k H Hr)
      as (t1 & tm & -> & A1 & Et1) end.
  rewrite (st_bind_eq _ _ _ _ _ (objdictToSDOline_eq (line_state d t1 tm) t1 index sub v A1
    ltac:(by rewrite Et1) ltac:(by rewrite Et1) Hs0 Hok He)).
  change (negb (0 =? 0)) with false. cbn iota.
  set (data := v ++ drop (length v) (tr_data t1)). set (t2 := t1 <| tr_data := _ |> <| tr_count := _ |> <| tr_offset := _ |>).
  change (line_state (line_state d t1 tm) t2 (co_timers (line_state d t1 tm)))
    with (line_state d t2 tm).
  assert (Hdl : length data = 32%nat).
  { unfold data. rewrite length_app, length_drop. pose proof (al_data _ _ A1). lia. }
  assert (A2 : at_line (line_state d t2 tm) t2) by (constructor; [done|apply A1|done|apply A1]).
  assert (U2 : up_line t2 SDO_SERVER 0 (Z.of_nat (length v)) 0 data)
    by (unfold t2; rewrite Et1; by constructor).
  rewrite (st_bind_eq _ _ _ _ _ (rest_bytes _ _ _ _ _ _ _ _ A2 U2 ltac:(lia) ltac:(lia) ltac:(lia))).
  rewrite Z.sub_0_r.
  destruct (answer_upload_eq (line_state d t2 tm) t2 rx tx index sub v data)
    as (t3 & tm3 & E3 & A3 & R3); try done.
  { by apply server_after. }
  { unfold data. by rewrite take_app_length. }
  exists t3, tm3. split; [exact E3|]. split; [exact A3|]. zcase; [|done]. subst t3.
  exists data. split; [done|]. unfold data. by rewrite take_app_length.
Qed.

Lemma expedited_bits n : 1 <= n <= 4 ->
  let b := u8 (Z.lor (Z.lor (Z.shiftl 2 5) (Z.shiftl (4 - n) 2)) 3) in
  getSDOcs b = 2 /\ getSDOe b = 1 /\ getSDOn2 b = 4 - n.
Proof.
  intros H. assert (n = 1 \/ n = 2 \/ n = 3 \/ n = 4) as Hc by lia.
  repeat destruct Hc as [-> | Hc]; try (subst n); done.
Qed.

(** A client takes the line and sends the first message. *)
Lemma take_client_line_eq d t :
  at_line d t -> tr_state t = SDO_RESET ->
  take_client_line 0 d = Some (Some 0, line_state d (t <| whoami := SDO_CLIENT |>) (co_timers d)) /\
  at_line (line_state d (t <| whoami := SDO_CLIENT |>) (co_timers d)) (t <| whoami := SDO_CLIENT |>).
Proof.
  intros H Hr. split; [|destruct H; by constructor].
  unfold take_client_line. rewrite (st_bind_eq _ _ _ _ _ (getSDOlineOnUse_eq _ _ _ _ H)).
  replace (on_use t 0 SDO_CLIENT) with false by (unfold on_use; by rewrite Hr).
  by apply getSDOfreeLine_eq.
Qed.

Lemma launch_eq d t tm rx tx node buf :
  at_line (line_state d t tm) t -> sdo_client d rx tx node ->
  can_result (co_env d) (length (co_log d)) = 0 -> length buf = 8%nat ->
  let t' := t <| tr_Callback := None |> in
  launch 0 0 None buf (line_state d t tm) =
    Some (0, line_state (sent d (MkMessage tx NOT_A_REQUEST 8 buf)) t' tm) /\
  at_line (line_state d t' tm) t'.
Proof.
  intros H S Hdrv Hb t'. split; [|destruct H; by constructor].
  unfold launch. rewrite (st_bind_eq _ _ _ _ _ (upd_line_eq _ _ _ H)). fold t'.
  change (line_state (line_state d t tm) t' _) with (line_state d t' tm).
  pose proof (client_after d t' tm _ _ _ S) as S'.
  rewrite (st_bind_eq _ _ _ _ _ (sendSDO_eq (line_state d t' tm) SDO_CLIENT 0 tx buf
    (sc_state _ _ _ _ S') (sc_out _ _ _ _ S') (sc_env _ _ _ _ S') Hb)).
  change (can_result (co_env (line_state d t' tm)) (length (co_log (line_state d t' tm))))
    with (can_result (co_env d) (length (co_log d))). by rewrite Hdrv.
Qed.

(** The request of the client. *)
Lemma readNetworkDict_eq d t rx tx node index sub ty :
  at_line d t -> tr_state t = SDO_RESET -> sdo_client d rx tx node ->
  can_result (co_env d) (length (co_log d)) = 0 ->
  exists t' tm, readNetworkDict node index sub ty false d =
      Some (0, line_state (sent d (naming tx (Z.shiftl 2 5) index sub)) t' tm) /\
    at_line (line_state d t' tm) t' /\ up_line t' SDO_CLIENT 0 0 0 (tr_data t).
Proof.
  intros H Hr S Hdrv. unfold readNetworkDict, _readNetworkDict.
  rewrite (st_bind_eq _ _ _ _ _ (sc_nbr _ _ _ _ S)). change (0xFE <=? 0) with false. cbn iota.
  destruct (take_client_line_eq d t H Hr) as [Htake A0].
  rewrite (st_bind_eq _ _ _ _ _ Htake). cbn iota.
  destruct (initSDOline_eq _ _ 0 index sub SDO_UPLOAD_IN_PROGRESS A0) as (h & tm & E & Hh & I).
  rewrite (st_bind_eq _ _ _ _ _ E). set (t1 := opened _ _ _ _ _ _).
  assert (A1 : at_line (line_state d t1 tm) t1) by (constructor; [done|done|apply H|done]).
  rewrite (st_bind_eq _ _ _ _ _ (upd_line_eq _ _ _ A1)). set (t2 := t1 <| tr_dataType := ty |>).
  assert (A2 : at_line (line_state d t2 tm) t2) by (constructor; [done|done|apply H|done]).
  destruct (launch_eq d t2 tm rx tx node (pad 8 (Z.shiftl 2 5 :: mux index sub)) A2 S Hdrv eq_refl)
    as [El A3].
  eexists _, tm. split; [exact El|]. split; [exact A3|by constructor].
Qed.

(** Copying bytes to the start of a line. *)
Lemma put_bytes st d t who tg count data v rest :
  at_line d t -> run_line st t who tg count 0 data -> Z.of_nat (length v) <= 32 ->
  exists t', SDOtoLine 0 (Z.of_nat (length v)) (v ++ rest) d =
      Some (0, line_state d t' (co_timers d)) /\
    at_line (line_state d t' (co_timers d)) t' /\
    run_line st t' who tg count (Z.of_nat (length v)) (v ++ drop (length v) data) /\
    tr_index t' = tr_index t /\ tr_subIndex t' = tr_subIndex t.
Proof.
  intros H U Hl. pose proof (ul_off _ _ _ _ _ _ _ U) as Eo.
  pose proof (ul_data _ _ _ _ _ _ _ U) as Ed. pose proof (al_data _ _ H) as Hd.
  rewrite (SDOtoLine_eq d t (Z.of_nat (length v)) (v ++ rest)) by
    (rewrite ?length_app, ?Eo; (done || lia)).
  rewrite Eo, Ed, Z.add_0_l, Nat2Z.id, take_app_length. cbn [Z.to_nat take app Nat.add].
  eexists. split; [reflexivity|]. rewrite Ed in Hd. split.
  - destruct H. constructor; try done. cbn [set tr_data]. change (length (v ++ drop (length v) data) = 32%nat). rewrite length_app, length_drop. lia.
  - split; [destruct U; by constructor|done].
Qed.

(** An expedited answer: the client has the value. *)
Lemma take_expedited_eq d t node index sub v rest data :
  at_line d t -> up_line t SDO_CLIENT 0 0 0 data -> Z.of_nat (length v) <= 32 ->
  exists t' tm, take_expedited SDO_CLIENT 0 node 0 index sub (Z.of_nat (length v)) (v ++ rest) d =
      Some (0, line_state d t' tm) /\
    at_line (line_state d t' tm) t' /\
    done_line t' (Z.of_nat (length v)) (Z.of_nat (length v)) (v ++ drop (length v) data).
Proof.
  intros H U Hl. unfold take_expedited.
  destruct (put_bytes _ _ _ _ _ _ _ v rest H U Hl) as (t2 & E2 & A2 & U2 & _).
  rewrite (st_bind_eq _ _ _ _ _ E2). change (negb (0 =? 0)) with false. cbn iota.
  destruct (StopSDO_TIMER_eq _ _ A2) as (tm & E3 & I3). rewrite (st_bind_eq _ _ _ _ _ E3).
  set (t3 := t2 <| tr_timer := TIMER_NONE |>).
  assert (A3 : at_line (line_state d t3 tm) t3) by (constructor; [done|done|apply A2|done]).
  rewrite (st_bind_eq _ _ _ _ _ (upd_line_eq _ _ _ A3)).
  set (t4 := t3 <| tr_count := _ |> <| tr_state := SDO_FINISHED |>).
  assert (A4 : at_line (line_state d t4 tm) t4) by (constructor; [done|done|apply A2|done]).
  assert (Ecb : call_Callback 0 node (line_state d t4 tm) = Some (tt, line_state d t4 tm)).
  { unfold call_Callback. rewrite (st_bind_eq _ _ _ _ _ (get_line_eq _ _ A4)).
    change (tr_Callback t4) with (tr_Callback t2). by rewrite (ul_cb _ _ _ _ _ _ _ U2). }
  exists t4, tm. split; [exact (st_bind_eq _ _ _ _ _ Ecb)|]. split; [done|].
  destruct U2. by constructor.
Qed.

(** The client receives the answer to its request. *)
Lemma client_upload_response d t rx tx node data m b0 :
  at_line d t -> sdo_client d rx tx node -> up_line t SDO_CLIENT 0 0 0 data ->
  cob_id m = rx -> len m = 8 -> (msg_data m).[0] = Some b0 -> getSDOcs b0 = 2 ->
  exists t1 tm, at_line (line_state d t1 tm) t1 /\ up_line t1 SDO_CLIENT 0 0 0 data /\
    proceedSDO m d = (
      if negb (getSDOe b0 =? 0)
      then take_expedited SDO_CLIENT 0 node 0 (tr_index t1) (tr_subIndex t1) (4 - getSDOn2 b0)
             (drop 4 (msg_data m))
      else
        let request := _ ← send SDO_CLIENT 0 (pad 8 [Z.shiftl 3 5]); ret 0 in
        if negb (getSDOs b0 =? 0) then
          nbBytes ← announced m;
          err ← setSDOlineRestBytes 0 nbBytes;
          if negb (err =? 0)
          then fail SDO_CLIENT 0 (tr_index t1) (tr_subIndex t1) SDOABT_GENERAL_ERROR
          else request
        else request) (line_state d t1 tm).
Proof.
  intros H S U Hm Hlen H0 Hcs. destruct (restarted _ _ _ _ _ _ _ _ H U) as (t1 & tm & E & A1 & U1 & _).
  exists t1, tm. split; [done|]. split; [done|].
  rewrite (proceedSDO_command d t m SDO_CLIENT node b0);
    [|done|rewrite Hm; apply S|done|done|by rewrite (ul_state _ _ _ _ _ _ _ U)..].
  rewrite (run_line_use _ _ _ _ _ _ _ U) by done. rewrite Hcs.
  unfold sdo_command. change (SDO_CLIENT =? SDO_SERVER) with false. cbn iota.
  unfold client_initiate_upload_response. rewrite (with_line_eq _ _ t) by (done || apply U).
  unfold data_at at 1. rewrite H0. unfold opt at 1.
  rewrite (st_bind_eq (st_opt (Some b0)) _ d _ d eq_refl).
  by rewrite (st_bind_eq _ _ _ _ _ E), (st_bind_eq _ _ _ _ _ (get_line_eq _ _ A1)).
Qed.

(** It has the value, or asks for segments. *)
Lemma client_answer d t rx tx node index sub v data :
  at_line d t -> sdo_client d rx tx node -> up_line t SDO_CLIENT 0 0 0 data ->
  0 < Z.of_nat (length v) <= 32 ->
  let n := Z.of_nat (length v) in
  if 4 <? n then
    exists t' tm, proceedSDO (upload_answer rx index sub v) d =
        Some (0, line_state (sent d (request tx 0)) t' tm) /\
      at_line (line_state d t' tm) t' /\ up_line t' SDO_CLIENT 0 n 0 data
  else
    exists t' tm, proceedSDO (upload_answer rx index sub v) d = Some (0, line_state d t' tm) /\
      at_line (line_state d t' tm) t' /\ done_line t' n n (v ++ drop (length v) data).
Proof.
  intros H S U Hl n. unfold upload_answer. fold n. destruct (4 <? n) eqn:E4; zb.
  - set (m := MkMessage _ _ _ _).
    destruct (client_upload_response d t rx tx node data m 0x41 H S U eq_refl eq_refl eq_refl eq_refl)
      as (t1 & tm & A1 & U1 & ->). change (negb (getSDOe 0x41 =? 0)) with false.
    change (negb (getSDOs 0x41 =? 0)) with true. cbn iota zeta.
    assert (Hann : announced m (line_state d t1 tm) = Some (n, line_state d t1 tm)).
    { transitivity (Some (le32 (u8 n) (u8 (Z.shiftr n 8)) (u8 (Z.shiftr n 16)) (u8 (Z.shiftr n 24)),
        line_state d t1 tm)); [done|by rewrite le32_bytes32 by lia]. }
    rewrite (st_bind_eq _ _ _ _ _ Hann). unfold setSDOlineRestBytes, SDO_MAX_LENGTH_TRANSFER.
    ztest. rewrite (st_bind_eq _ _ _ _ _ (st_bind_eq _ _ _ _ _ (upd_line_eq _ _ _ A1))).
    cbn beta. change (negb (0 =? 0)) with false. cbn iota.
    set (t2 := t1 <| tr_count := n |>).
    destruct (client_sends (line_state d t2 tm) rx tx node (pad 8 [Z.shiftl 3 5])) as [r Er];
      [by apply client_after|done|].
    exists t2, tm. split; [exact (st_bind_eq _ _ _ _ _ Er)|]. split.
    + destruct A1. by constructor.
    + destruct U1. by constructor.
  - destruct (expedited_bits n) as (B1 & B2 & B3); [lia|]. set (b0 := u8 _) in *. set (m := MkMessage _ _ _ _).
    destruct (client_upload_response d t rx tx node data m b0 H S U eq_refl eq_refl eq_refl B1)
      as (t1 & tm & A1 & U1 & ->). rewrite B2, B3. change (negb (1 =? 0)) with true. cbn iota.
    replace (4 - (4 - n)) with n by lia.
    destruct (take_expedited_eq (line_state d t1 tm) t1 node (tr_index t1) (tr_subIndex t1) v
      (replicate (8 - (4 + length v)) 0) data A1 U1 ltac:(lia)) as (t2 & tm2 & E2 & A2 & D2).
    by exists t2, tm2.
Qed.

(** The result, and the line is free again. *)
Lemma getReadResult_eq d t rx tx node n data size :
  at_line d t -> sdo_client d rx tx node -> done_line t n n data -> 0 < n <= 32 -> n <= size ->
  exists t' tm, getReadResultNetworkDict node size d =
      Some (ReadResult SDO_FINISHED n 0 (take (Z.to_nat n) data), line_state d t' tm) /\
    tr_state t' = SDO_RESET /\ at_line (line_state d t' tm) t'.
Proof.
  intros H S [] Hn Hs. unfold getReadResultNetworkDict.
  rewrite (st_bind_eq _ _ _ _ _ (sc_nbr _ _ _ _ S)). change (0xFE <=? 0) with false. cbn iota.
  rewrite (st_bind_eq _ _ _ _ _ (getSDOlineOnUse_eq _ _ _ _ H)).
  replace (on_use t 0 SDO_CLIENT) with true
    by (unfold on_use; by rewrite dl_state0, dl_nbr0, dl_who0).
  cbn iota. rewrite (st_bind_eq _ _ _ _ _ (get_line_eq _ _ H)). cbn beta.
  rewrite dl_state0. change (negb (SDO_FINISHED =? SDO_FINISHED)) with false. cbn iota.
  rewrite dl_count0. rewrite (proj2 (Z.eqb_neq n 0)) by lia.
  rewrite (st_bind_eq _ _ _ _ _ (when_false _ d)).
  rewrite (st_bind_eq _ _ _ _ _ (get_line_eq _ _ H)). cbn beta. rewrite dl_count0. ztest.
  pose proof (al_data _ _ H) as Hd. rewrite dl_data0 in *. rewrite slice_ok by lia. rewrite drop_0.
  unfold opt. rewrite (st_bind_eq (st_opt (Some _)) _ d _ d eq_refl). cbn beta.
  destruct (resetSDOline_eq _ _ H) as (h & tm & E & Hh & I). rewrite (st_bind_eq _ _ _ _ _ E).
  exists (free_line t h), tm. split; [done|]. split; [done|]. by apply free_line_ok.
Qed.

(** From the client's request to the end of the dialogue. *)
Lemma upload_dialogue c s tc ts rx tx node index sub v :
  at_line c tc -> sdo_client c tx rx node -> up_line tc SDO_CLIENT 0 0 0 (tr_data tc) ->
  at_line s ts -> tr_state ts = SDO_RESET -> sdo_server s rx tx -> node_od_ok s ->
  readable_entry s index sub v -> 0 <= index < 65536 -> 0 <= sub < 256 ->
  let n := Z.of_nat (length v) in
  exists c2 s2 tc2 ts2 data,
    dialogue 6 c s (naming rx (Z.shiftl 2 5) index sub) = Some (c2, s2) /\
    at_line c2 tc2 /\ done_line tc2 n n data /\ take (Z.to_nat n) data = v /\
    at_line s2 ts2 /\ tr_state ts2 = SDO_RESET /\ same_node c c2 /\ same_node s s2.
Proof.
  intros Ac Sc Uc As Hrs Ss Hok He Hidx Hsub n.
  pose proof (readable_entry_length _ _ _ _ Hok He) as Hl. fold n in Hl.
  destruct (server_initiate s ts rx tx index sub v) as (t2 & tm2 & E2 & A2 & R2); [done..|lia|].
  set (s1 := line_state (sent s _) t2 tm2) in E2.
  assert (A2' : at_line s1 t2) by (destruct A2; by constructor).
  pose proof (client_answer c tc tx rx node index sub v _ Ac Sc Uc Hl) as Hans.
  cbn zeta in Hans. fold n in Hans. fold n in R2. destruct (4 <? n) eqn:E4; zb.
  - destruct R2 as (data & U2 & Hdata). destruct Hans as (t3 & tm3 & E3 & A3 & U3).
    rewrite (dialogue_step _ _ _ _ _ _ _ E2 (new_sent_sent _ _ _ _) E3), new_sent_sent.
    destruct (upload_loop rx tx node v n 5 (line_state (sent c (request rx 0)) t3 tm3) s1
      t3 t2 0 0 (tr_data tc) data)
      as (c2 & s2 & tc2 & ts2 & d2 & Ed & Ac2 & Dc2 & Hv & As2 & Hr2 & Nc & Ns);
      try done; try lia; [..|by left|].
    + destruct A3. by constructor.
    + by apply (sdo_client_frame c).
    + by apply (sdo_server_frame s).
    + unfold n. by rewrite Nat2Z.id.
    + exists c2, s2, tc2, ts2, d2. splits; try done; by (eapply same_node_trans; [|eassumption]).
  - destruct Hans as (t3 & tm3 & E3 & A3 & D3).
    rewrite (dialogue_step _ _ _ _ _ _ _ E2 (new_sent_sent _ _ _ _) E3), new_sent_none.
    eexists _, s1, t3, t2, _. split; [reflexivity|]. splits; try done.
    unfold n. by rewrite Nat2Z.id, take_app_length.
Qed.

(** C4: Reading an entry of another node delivers the entry.  The client's
    request starts a dialogue that ends by itself, expedited or in segments, with
    the value of the server's entry as the client's result; the server's
    dictionary is untouched and both lines are free for the next transfer.  (The
    entry is any readable one, not a string, that fits the line's 32 bytes.) *)
Theorem SDO_read_transfer c s tc ts rx tx node index sub ty v size :
  at_line c tc -> tr_state tc = SDO_RESET -> sdo_client c tx rx node ->
  can_result (co_env c) (length (co_log c)) = 0 ->
  at_line s ts -> tr_state ts = SDO_RESET -> sdo_server s rx tx -> node_od_ok s ->
  readable_entry s index sub v -> 0 <= index < 65536 -> 0 <= sub < 256 ->
  Z.of_nat (length v) <= size ->
  exists c1 m c2 s2 c3,
    readNetworkDict node index sub ty false c = Some (0, c1) /\ new_sent c c1 = Some m /\
    dialogue 6 c1 s m = Some (c2, s2) /\
    getReadResultNetworkDict node size c2 =
      Some (ReadResult SDO_FINISHED (Z.of_nat (length v)) 0 v, c3) /\
    same_node c c3 /\ same_node s s2 /\
    (exists t, at_line c3 t /\ tr_state t = SDO_RESET) /\
    (exists t, at_line s2 t /\ tr_state t = SDO_RESET).
Proof.
  intros Ac Hrc Sc Hdrv As Hrs Ss Hok He Hidx Hsub Hsize.
  pose proof (readable_entry_length _ _ _ _ Hok He) as Hl.
  destruct (readNetworkDict_eq c tc tx rx node index sub ty Ac Hrc Sc Hdrv)
    as (t1 & tm1 & E1 & A1 & U1). set (c1 := line_state (sent c _) t1 tm1) in E1.
  assert (A1' : at_line c1 t1) by (destruct A1; by constructor).
  assert (S1 : sdo_client c1 tx rx node) by by apply (sdo_client_frame c).
  rewrite <- (ul_data _ _ _ _ _ _ _ U1) in U1.
  destruct (upload_dialogue c1 s t1 ts rx tx node index sub v A1' S1 U1 As Hrs Ss Hok He Hidx Hsub)
    as (c2 & s2 & tc2 & ts2 & data & Ed & Ac2 & Dc2 & Hv & As2 & Hr2 & Nc & Ns).
  destruct (getReadResult_eq c2 tc2 tx rx node (Z.of_nat (length v)) data size)
    as (t3 & tm3 & E3 & Hr3 & A3); [done|by apply (sdo_client_frame c1)|done..|].
  rewrite Hv in E3. eexists c1, _, c2, s2, _. split; [exact E1|].
  split; [apply new_sent_sent|]. split; [exact Ed|]. split; [exact E3|].
  splits; [|done|by exists t3|by exists ts2].
  apply (same_node_trans _ c1); [done|]. by apply (same_node_trans _ c2).
Qed.
End bus.
