(* ===== verification/SdoDownload.v ===== *)
(** * SdoDownload: writing an entry of another node

    The counterpart of SdoTransfer: the client sends the value, expedited or in
    segments, and the server stores it in its dictionary when it has all of it. *)

From S2P Require Import Prelude CMem Timers Node ObjDict SdoLine Sdo SdoClient SdoFacts SdoTransfer.

Section download.
Context `{ODC : ODCallbacks} `{SC : SDOCallbacks}.

Definition down_line := run_line SDO_DOWNLOAD_IN_PROGRESS.

Definition names (t : s_transfer) (index sub : Z) : Prop :=
  tr_index t = index /\ tr_subIndex t = sub.

(** ** The server's entry *)

(** An entry that a client may write, with a value [v] for it: not a string, of
    the value's size, with no function registered on it and not to be saved, and
    the value in its range whatever follows it in the buffer. *)
Definition writable_entry (d : CO_Data) (index sub : Z) (v : list Z) (x : subindex) : Prop :=
  exists i, find_sub (co_od d) index sub = Some (i, x) /\
    bAccessType x <> RO /\ Z.land (bAccessType x) TO_BE_SAVE = 0 /\
    bDataType x <> visible_string /\ registered d index sub = None /\
    Z.of_nat (length v) = od_size x /\ 0 < od_size x <= SDO_MAX_LENGTH_TRANSFER /\
    forall rest, valueRangeTest (co_od d) (bDataType x) (v ++ rest) = Some 0.

(** The line goes to the dictionary. *)
Lemma SDOlineToObjdict_eq d t tg n off v rest index sub x :
  at_line d t -> down_line t SDO_SERVER tg n off (v ++ rest) -> n = Z.of_nat (length v) ->
  names t index sub -> 0 <= sub -> node_od_ok d -> writable_entry d index sub v x ->
  exists m, mstore (co_mem d) (pObject x) v = Some m /\
    SDOlineToObjdict 0 d = Some (0, d <| co_mem := m |>).
Proof.
  intros H U -> [Hi Hs] Hs0 Hok (i & Hf & Hacc & Hsave & Hty & Hreg & Hlen & Hsz & Hr).
  pose proof Hf as (en & Hsc & Hen & Hlt & Hx)%find_sub_Some.
  destruct (write_sub_ok i index sub x (v ++ rest) (Z.of_nat (length v)) true d en)
    as (m & Hm & Ew); try done.
  { rewrite length_app. lia. }
  { split; [done|]. split; [by right|apply Hr]. }
  rewrite Nat2Z.id, take_app_length in Hm. exists m. split; [done|].
  unfold SDOlineToObjdict. rewrite (st_bind_eq _ _ _ _ _ (get_line_eq _ _ H)).
  rewrite (ul_count _ _ _ _ _ _ _ U). rewrite (proj2 (Z.eqb_neq _ 0)) by lia.
  rewrite (st_bind_eq _ _ _ _ _ (when_false _ d)), (st_bind_eq _ _ _ _ _ (get_line_eq _ _ H)).
  rewrite Hi, Hs, (ul_data _ _ _ _ _ _ _ U), (ul_count _ _ _ _ _ _ _ U).
  assert (E : setODentry index sub (v ++ rest) (Z.of_nat (length v)) true d =
    Some ((OD_SUCCESSFUL, od_size x), d <| co_mem := m |>)).
  { rewrite setODentry_find, Hsc, Hf by done. rewrite Ew. unfold stored.
    by rewrite Hsave. }
  rewrite (st_bind_eq _ _ _ _ _ E). done.
Qed.

(** ** Messages *)

Definition segment (cob tg off n : Z) (v : list Z) : Message :=
  let k := n - off in
  MkMessage cob NOT_A_REQUEST 8
    (if 7 <? k then Z.shiftl tg 4 :: take 7 (drop (Z.to_nat off) v)
     else pad 8 (last_byte tg k :: take (Z.to_nat k) (drop (Z.to_nat off) v))).

(** The server's answer to a segment. *)
Definition ack (cob tg : Z) : Message :=
  MkMessage cob NOT_A_REQUEST 8 (pad 8 [Z.lor (Z.shiftl 1 5) (Z.shiftl tg 4)]).

(** The client's first message; [junk] is what its buffer has after the value. *)
Definition download_request (cob index sub : Z) (v junk : list Z) : Message :=
  let n := Z.of_nat (length v) in
  MkMessage cob NOT_A_REQUEST 8
    (if 4 <? n then Z.lor (Z.shiftl 1 5) 1 :: mux index sub ++ bytes32 n
     else u8 (Z.lor (Z.lor (Z.shiftl 1 5) (Z.shiftl (4 - n) 2)) 3) :: mux index sub ++
          take 4 (v ++ junk)).

Definition accepted (cob index sub : Z) : Message := naming cob (Z.shiftl 3 5) index sub.

Lemma ack_bits tg : bit tg ->
  let b := Z.lor (Z.shiftl 1 5) (Z.shiftl tg 4) in getSDOcs b = 1 /\ getSDOt b = tg.
Proof. by intros [-> | ->]. Qed.

Lemma expedited_download_bits n : 1 <= n <= 4 ->
  let b := u8 (Z.lor (Z.lor (Z.shiftl 1 5) (Z.shiftl (4 - n) 2)) 3) in
  getSDOcs b = 1 /\ getSDOe b = 1 /\ getSDOn2 b = 4 - n.
Proof.
  intros H. assert (n = 1 \/ n = 2 \/ n = 3 \/ n = 4) as Hc by lia.
  repeat destruct Hc as [-> | Hc]; try (subst n); done.
Qed.

(** ** The client *)

Lemma take_prefix (v junk : list Z) off k :
  (off + k <= length v)%nat -> take k (drop off (v ++ junk)) = take k (drop off v).
Proof.
  intros H. rewrite drop_app_le by lia. rewrite take_app_le by (rewrite length_drop; lia). done.
Qed.

(** The client sends the segment at its position. *)
Lemma client_send_segment_eq d t rx tx node tg off v junk index sub :
  at_line d t -> sdo_client d rx tx node ->
  down_line t SDO_CLIENT tg (Z.of_nat (length v)) off (v ++ junk) ->
  0 <= off < Z.of_nat (length v) -> Z.of_nat (length v) <= 32 ->
  let n := Z.of_nat (length v) in
  exists t', client_send_segment SDO_CLIENT 0 0 (n - off) index sub d =
      Some (0, line_state (sent d (segment tx tg off n v)) t' (co_timers d)) /\
    down_line t' SDO_CLIENT tg n (off + Z.min 7 (n - off)) (v ++ junk) /\
    at_line (line_state d t' (co_timers d)) t'.
Proof.
  intros H S U Ho Hl n. unfold client_send_segment.
  rewrite (st_bind_eq _ _ _ _ _ (get_line_eq _ _ H)). cbn zeta. rewrite (ul_toggle _ _ _ _ _ _ _ U).
  unfold segment. destruct (7 <? n - off) eqn:E7; zb; cbn [negb].
  - destruct (take_bytes _ _ _ _ _ _ _ _ 7 H U) as (t2 & E & U2 & A2 & Hk & _); [lia..|].
    rewrite (st_bind_eq _ _ _ _ _ E). cbn iota. rewrite take_prefix in * by lia.
    change (Z.to_nat 7) with 7%nat in *.
    replace (pad 8 _) with (Z.shiftl tg 4 :: take 7 (drop (Z.to_nat off) v))
      by (unfold pad; cbn [length]; rewrite Hk; by rewrite app_nil_r).
    destruct (client_sends (line_state d t2 (co_timers d)) rx tx node
      (Z.shiftl tg 4 :: take 7 (drop (Z.to_nat off) v))) as [r Er];
      [by apply client_after|cbn [length]; lia|].
    exists t2. split; [exact (st_bind_eq _ _ _ _ _ Er)|]. by rewrite Z.min_l by lia.
  - destruct (take_bytes _ _ _ _ _ _ _ _ (n - off) H U) as (t2 & E & U2 & A2 & Hk & _); [lia..|].
    rewrite (st_bind_eq _ _ _ _ _ E). cbn iota. rewrite take_prefix in * by lia.
    fold (last_byte tg (n - off)).
    destruct (client_sends (line_state d t2 (co_timers d)) rx tx node
      (pad 8 (last_byte tg (n - off) :: take (Z.to_nat (n - off)) (drop (Z.to_nat off) v)))) as [r Er];
      [by apply client_after|apply pad8_length; cbn [length]; lia|].
    exists t2. split; [exact (st_bind_eq _ _ _ _ _ Er)|]. by rewrite Z.min_r by lia.
Qed.

(** What the client does when the server has taken what it sent: the next
    segment, or the transfer is over. *)
Lemma client_goes_on d t rx tx node tg off v junk (inv : bool) :
  at_line d t -> sdo_client d rx tx node ->
  down_line t SDO_CLIENT tg (Z.of_nat (length v)) off (v ++ junk) ->
  0 <= off <= Z.of_nat (length v) -> 0 < Z.of_nat (length v) <= 32 ->
  let n := Z.of_nat (length v) in
  let tg' := if inv then invert tg else tg in
  exists t' tm,
    (nbBytes ← getSDOlineRestBytes 0;
     if nbBytes =? 0 then finish node 0 else
     _ ← (if inv then upd_line 0 (set tr_toggle invert) else st_skip);
     client_send_segment SDO_CLIENT 0 0 nbBytes (tr_index t) (tr_subIndex t)) d =
      Some (0, if off =? n then line_state d t' tm
               else line_state (sent d (segment tx tg' off n v)) t' tm) /\
    at_line (line_state d t' tm) t' /\
    if off =? n then done_line t' n n (v ++ junk)
    else down_line t' SDO_CLIENT tg' n (off + Z.min 7 (n - off)) (v ++ junk).
Proof.
  intros H S U Ho Hl n tg'.
  rewrite (st_bind_eq _ _ _ _ _ (rest_bytes _ _ _ _ _ _ _ _ H U ltac:(lia) ltac:(lia) ltac:(lia))).
  fold n. destruct (off =? n) eqn:E; zb.
  - rewrite (proj2 (Z.eqb_eq (n - off) 0)) by lia.
    destruct (finish_eq d t node H (ul_cb _ _ _ _ _ _ _ U)) as (tm & -> & I).
    do 2 eexists. split; [reflexivity|]. split; [destruct H; by constructor|].
    destruct U. subst off. by constructor.
  - rewrite (proj2 (Z.eqb_neq (n - off) 0)) by lia.
    assert (Hinv : exists t1,
      (if inv then upd_line 0 (set tr_toggle invert) else st_skip) d =
        Some (tt, line_state d t1 (co_timers d)) /\
      at_line (line_state d t1 (co_timers d)) t1 /\
      down_line t1 SDO_CLIENT tg' n off (v ++ junk)).
    { subst tg'. destruct inv.
      - exists (t <| tr_toggle ::= invert |>). split; [by apply upd_line_eq|].
        split; [destruct H; by constructor|by apply run_line_invert].
      - exists t. split; [by rewrite <- line_state_id by apply H|].
        split; [by rewrite <- line_state_id by apply H|done]. }
    destruct Hinv as (t1 & E1 & A1 & U1). rewrite (st_bind_eq _ _ _ _ _ E1).
    destruct (client_send_segment_eq _ t1 rx tx node tg' off v junk (tr_index t) (tr_subIndex t) A1
      (client_after _ _ _ _ _ _ S) U1) as (t2 & E2 & U2 & A2); [lia..|].
    by exists t2, (co_timers d).
Qed.

(** The message of a server reaches the transfer of a client. *)
Lemma client_hears d t rx tx node tg off v junk m b0 :
  at_line d t -> sdo_client d rx tx node ->
  down_line t SDO_CLIENT tg (Z.of_nat (length v)) off (v ++ junk) ->
  cob_id m = rx -> len m = 8 -> (msg_data m).[0] = Some b0 ->
  proceedSDO m d = sdo_command SDO_CLIENT 0 node (getSDOcs b0) (Some 0) m d.
Proof.
  intros H S U Hm Hlen H0. rewrite (proceedSDO_command d t m SDO_CLIENT node b0);
    [|done|rewrite Hm; apply S|done|done|by rewrite (ul_state _ _ _ _ _ _ _ U)..].
  by rewrite (run_line_use _ _ _ _ _ _ _ U).
Qed.

Lemma client_accepted d t rx tx node off v junk index sub :
  at_line d t -> sdo_client d rx tx node ->
  down_line t SDO_CLIENT 0 (Z.of_nat (length v)) off (v ++ junk) ->
  0 <= off <= Z.of_nat (length v) -> 0 < Z.of_nat (length v) <= 32 ->
  let n := Z.of_nat (length v) in
  exists t' tm, proceedSDO (accepted rx index sub) d =
      Some (0, if off =? n then line_state d t' tm
               else line_state (sent d (segment tx 0 off n v)) t' tm) /\
    at_line (line_state d t' tm) t' /\
    if off =? n then done_line t' n n (v ++ junk)
    else down_line t' SDO_CLIENT 0 n (off + Z.min 7 (n - off)) (v ++ junk).
Proof.
  intros H S U Ho Hl n.
  rewrite (client_hears _ _ _ _ _ _ _ _ _ (accepted rx index sub) (Z.shiftl 3 5) H S U) by done.
  change (getSDOcs (Z.shiftl 3 5)) with 3. unfold sdo_command.
  change (SDO_CLIENT =? SDO_SERVER) with false. cbn iota. unfold client_initiate_download_response.
  rewrite (with_line_eq _ _ t) by (done || apply U).
  destruct (restarted _ _ _ _ _ _ _ _ H U) as (t1 & tm & E & A1 & U1 & _).
  rewrite (st_bind_eq _ _ _ _ _ E), (st_bind_eq _ _ _ _ _ (get_line_eq _ _ A1)).
  destruct (client_goes_on _ t1 rx tx node 0 off v junk false A1 (client_after _ _ _ _ _ _ S) U1)
    as (t2 & tm2 & E2 & A2 & R2); [lia..|].
  exists t2, tm2. split; [|done]. fold n in E2.
  transitivity (Some (0, if off =? n then line_state (line_state d t1 tm) t2 tm2
    else line_state (sent (line_state d t1 tm) (segment tx 0 off n v)) t2 tm2)); [|by zcase].
  exact E2.
Qed.

Lemma client_acked d t rx tx node tg off v junk :
  at_line d t -> sdo_client d rx tx node ->
  down_line t SDO_CLIENT tg (Z.of_nat (length v)) off (v ++ junk) ->
  0 <= off <= Z.of_nat (length v) -> 0 < Z.of_nat (length v) <= 32 -> bit tg ->
  let n := Z.of_nat (length v) in
  exists t' tm, proceedSDO (ack rx tg) d =
      Some (0, if off =? n then line_state d t' tm
               else line_state (sent d (segment tx (invert tg) off n v)) t' tm) /\
    at_line (line_state d t' tm) t' /\
    if off =? n then done_line t' n n (v ++ junk)
    else down_line t' SDO_CLIENT (invert tg) n (off + Z.min 7 (n - off)) (v ++ junk).
Proof.
  intros H S U Ho Hl Hb n. destruct (ack_bits tg Hb) as [Hcs Ht]. set (b0 := Z.lor _ _) in Hcs, Ht.
  rewrite (client_hears _ _ _ _ _ _ _ _ _ (ack rx tg) b0 H S U) by done.
  rewrite Hcs. unfold sdo_command. change (SDO_CLIENT =? SDO_SERVER) with false. cbn iota.
  unfold client_download_response. rewrite (with_line_eq _ _ t) by (done || apply U).
  unfold data_at. change ((msg_data (ack rx tg)).[0]) with (Some b0). unfold opt.
  rewrite (st_bind_eq (st_opt (Some b0)) _ d b0 d eq_refl).
  destruct (restarted _ _ _ _ _ _ _ _ H U) as (t1 & tm & E & A1 & U1 & _).
  rewrite (st_bind_eq _ _ _ _ _ E), (st_bind_eq _ _ _ _ _ (get_line_eq _ _ A1)).
  rewrite (ul_toggle _ _ _ _ _ _ _ U1), Ht, Z.eqb_refl. cbn [negb].
  destruct (client_goes_on _ t1 rx tx node tg off v junk true A1 (client_after _ _ _ _ _ _ S) U1)
    as (t2 & tm2 & E2 & A2 & R2); [lia..|].
  exists t2, tm2. split; [|done]. fold n in E2.
  transitivity (Some (0, if off =? n then line_state (line_state d t1 tm) t2 tm2
    else line_state (sent (line_state d t1 tm) (segment tx (invert tg) off n v)) t2 tm2)); [|by zcase].
  exact E2.
Qed.

(** ** The server *)

Lemma server_hears d t rx tx m b0 :
  at_line d t -> sdo_server d rx tx -> cob_id m = rx -> len m = 8 -> (msg_data m).[0] = Some b0 ->
  tr_state t <> SDO_BLOCK_DOWNLOAD_IN_PROGRESS -> tr_state t <> SDO_BLOCK_UPLOAD_IN_PROGRESS ->
  proceedSDO m d = sdo_command SDO_SERVER 0 0 (getSDOcs b0)
    (if on_use t 0 SDO_SERVER then Some 0 else None) m d.
Proof. intros H S Hm ? ???. apply proceedSDO_command; (done || rewrite Hm; apply S). Qed.

Lemma grown (v junk : list Z) off k :
  (off + k <= length v)%nat ->
  take off (take off v ++ junk) ++ take k (drop off v) ++ drop (off + k) (take off v ++ junk) =
  take (off + k) v ++ drop k junk.
Proof.
  intros H. rewrite take_app_le by (rewrite length_take; lia). rewrite take_take, Nat.min_l by lia.
  rewrite app_assoc, take_take_drop. f_equal.
  rewrite drop_app_ge by (rewrite length_take; lia). f_equal. rewrite length_take. lia.
Qed.

(** A segment arrives, up to what the server does after the copy. *)
Lemma server_takes_segment d t rx tx tg off v junk m b0 k :
  at_line d t -> sdo_server d rx tx ->
  down_line t SDO_SERVER tg (Z.of_nat (length v)) off (take (Z.to_nat off) v ++ junk) ->
  cob_id m = rx -> len m = 8 ->
  msg_data m = pad 8 (b0 :: take (Z.to_nat k) (drop (Z.to_nat off) v)) ->
  getSDOcs b0 = 0 -> getSDOt b0 = tg -> getSDOn3 b0 = 7 - k ->
  0 <= k <= 7 -> 0 <= off -> off + k <= Z.of_nat (length v) <= 32 ->
  exists t' t0 tm,
    proceedSDO m d =
      (if negb (getSDOc b0 =? 0) then
         errorCode ← SDOlineToObjdict 0;
         if negb (errorCode =? 0)
         then fail SDO_SERVER 0 (tr_index t0) (tr_subIndex t0) errorCode
         else _ ← resetSDOline 0; ret 0
       else ret 0) (line_state (sent d (ack tx tg)) t' tm) /\
    down_line t' SDO_SERVER (invert tg) (Z.of_nat (length v)) (off + k)
      (take (Z.to_nat (off + k)) v ++ drop (Z.to_nat k) junk) /\
    at_line (line_state d t' tm) t' /\ names t' (tr_index t) (tr_subIndex t).
Proof.
  intros H S U Hcob Hlen Hm Hcs Ht Hn Hk Ho Hle.
  assert (H0 : (msg_data m).[0] = Some b0) by (by rewrite Hm).
  rewrite (server_hears _ _ _ _ m b0 H S) by (done || by rewrite (ul_state _ _ _ _ _ _ _ U)).
  rewrite (run_line_use _ _ _ _ _ _ _ U) by done. rewrite Hcs. unfold sdo_command.
  change (SDO_SERVER =? SDO_SERVER) with true. cbn iota. unfold server_download_segment.
  set (seg := take (Z.to_nat k) (drop (Z.to_nat off) v)) in *.
  assert (Hseg : length seg = Z.to_nat k) by (unfold seg; rewrite length_take, length_drop; lia).
  match goal with |- context [segment_received _ _ _ _ _ ?f] =>
    destruct (segment_received_eq _ SDO_SERVER d t tg _ off _ b0 seg m f H U H0)
      as (t1 & t0 & tm & -> & Htg & U1 & A1 & N1) end; try done; try lia.
  { rewrite Hm. change (drop 1 (pad 8 (b0 :: seg))) with
      (seg ++ replicate (Z.to_nat 8 - length (b0 :: seg)) 0). by rewrite drop_app_length. }
  rewrite Hseg, <- Z2Nat.inj_add in U1 by lia. unfold seg in U1.
  rewrite !Z2Nat.inj_add, grown, <- Z2Nat.inj_add, Z2Nat.id in U1 by lia.
  unfold data_at, opt. rewrite H0. set (d1 := line_state d t1 tm) in *.
  rewrite (st_bind_eq (st_opt (Some b0)) _ d1 b0 d1 eq_refl), Htg.
  destruct (server_sends d1 rx tx (pad 8 [Z.lor (Z.shiftl 1 5) (Z.shiftl tg 4)])) as [r Er];
    [by apply server_after|done|].
  rewrite (st_bind_eq _ _ _ _ _ Er). fold (ack tx tg).
  rewrite (st_bind_eq _ _ _ _ _ (upd_line_eq _ _ _ (at_line_sent _ _ (ack tx tg) A1))).
  exists (t1 <| tr_toggle ::= invert |>), t0, tm. split; [done|].
  split; [by apply run_line_invert|]. split; [destruct A1; by constructor|done].
Qed.

(** The end of a download: the value is stored and the line released. *)
Lemma server_stores d t tg off v rest index sub x (bad : Z -> CO Z) (k : CO Z) :
  at_line d t -> down_line t SDO_SERVER tg (Z.of_nat (length v)) off (v ++ rest) ->
  names t index sub -> 0 <= sub -> node_od_ok d -> writable_entry d index sub v x ->
  exists m t' tm, mstore (co_mem d) (pObject x) v = Some m /\
    (errorCode ← SDOlineToObjdict 0;
     if negb (errorCode =? 0) then bad errorCode else _ ← resetSDOline 0; k) d =
      k (line_state (d <| co_mem := m |>) t' tm) /\
    tr_state t' = SDO_RESET /\ at_line (line_state (d <| co_mem := m |>) t' tm) t'.
Proof.
  intros H U N Hs Hok He.
  destruct (SDOlineToObjdict_eq d t _ _ _ v rest index sub x H U eq_refl N Hs Hok He) as (m & Hm & E).
  rewrite (st_bind_eq _ _ _ _ _ E). change (negb (0 =? 0)) with false. cbn iota.
  destruct (resetSDOline_eq (d <| co_mem := m |>) t) as (h & tm & E' & Hh & I);
    [destruct H; by constructor|].
  exists m, (free_line t h), tm. rewrite (st_bind_eq _ _ _ _ _ E').
  by splits.
Qed.

(** A segment with more to come, and the last one. *)
Lemma server_more d t rx tx tg off v junk :
  at_line d t -> sdo_server d rx tx ->
  down_line t SDO_SERVER tg (Z.of_nat (length v)) off (take (Z.to_nat off) v ++ junk) ->
  bit tg -> 0 <= off -> 7 < Z.of_nat (length v) - off -> Z.of_nat (length v) <= 32 ->
  let n := Z.of_nat (length v) in
  exists t' tm, proceedSDO (segment rx tg off n v) d =
      Some (0, line_state (sent d (ack tx tg)) t' tm) /\
    down_line t' SDO_SERVER (invert tg) n (off + 7) (take (Z.to_nat (off + 7)) v ++ drop 7 junk) /\
    at_line (line_state d t' tm) t' /\ names t' (tr_index t) (tr_subIndex t).
Proof.
  intros H S U Hb Ho Hr Hl n. destruct (segment_bits tg Hb) as (B1 & B2 & B3 & B4).
  destruct (server_takes_segment d t rx tx tg off v junk (segment rx tg off n v) (Z.shiftl tg 4) 7)
    as (t1 & t0 & tm & E & U1 & A1 & N1); try done; try lia.
  { unfold segment. fold n. rewrite (proj2 (Z.ltb_lt 7 (n - off))) by lia. cbn [msg_data].
    unfold pad. cbn [length]. rewrite length_take, length_drop, Nat.min_l by (unfold n in *; lia).
    by rewrite app_nil_r. }
  exists t1, tm. split; [|done]. rewrite E, B4. done.
Qed.

Lemma server_last d t rx tx tg off v junk index sub x :
  at_line d t -> sdo_server d rx tx ->
  down_line t SDO_SERVER tg (Z.of_nat (length v)) off (take (Z.to_nat off) v ++ junk) ->
  bit tg -> 0 <= off < Z.of_nat (length v) -> Z.of_nat (length v) - off <= 7 ->
  Z.of_nat (length v) <= 32 -> names t index sub -> 0 <= sub -> node_od_ok d ->
  writable_entry d index sub v x ->
  exists m t' tm, mstore (co_mem d) (pObject x) v = Some m /\
    proceedSDO (segment rx tg off (Z.of_nat (length v)) v) d =
      Some (0, line_state (sent (d <| co_mem := m |>) (ack tx tg)) t' tm) /\
    tr_state t' = SDO_RESET /\ at_line (line_state (d <| co_mem := m |>) t' tm) t'.
Proof.
  intros H S U Hb Ho Hr Hl [N1 N2] Hs Hok He. set (n := Z.of_nat (length v)) in *.
  destruct (last_byte_bits tg (n - off) Hb ltac:(lia)) as (B1 & B2 & B3 & B4).
  destruct (server_takes_segment d t rx tx tg off v junk (segment rx tg off n v)
    (last_byte tg (n - off)) (n - off)) as (t1 & t0 & tm & E & U1 & A1 & N); try done; try lia.
  { unfold segment. by rewrite (proj2 (Z.ltb_ge 7 (n - off))) by lia. }
  rewrite E, B4. change (negb (1 =? 0)) with true. cbn iota.
  replace (off + (n - off)) with n in U1 by lia. rewrite take_ge in U1 by (unfold n; lia).
  set (d1 := line_state (sent d (ack tx tg)) t1 tm).
  destruct (server_stores d1 t1 (invert tg) n v (drop (Z.to_nat (n - off)) junk) index sub x
    (fail SDO_SERVER 0 (tr_index t0) (tr_subIndex t0)) (ret 0)) as (m & t2 & tm2 & Hm & E2 & R2 & A2);
    try done.
  - destruct A1. by constructor.
  - unfold names in *. destruct N. split; congruence.
  - exists m, t2, tm2. split; [done|]. split; [exact E2|]. split; [done|].
    destruct A2. by constructor.
Qed.

(** A download request opens the line. *)
Lemma server_opens d t rx tx index sub m b0 rest :
  at_line d t -> tr_state t = SDO_RESET -> sdo_server d rx tx ->
  cob_id m = rx -> len m = 8 -> msg_data m = b0 :: mux index sub ++ rest ->
  getSDOcs b0 = 1 -> 0 <= index < 65536 ->
  exists t' tm, at_line (line_state d t' tm) t' /\ names t' index sub /\
    down_line t' SDO_SERVER 0 0 0 (tr_data t) /\
    proceedSDO m d = (
      let answer := _ ← send SDO_SERVER 0 (pad 8 (Z.shiftl 3 5 :: mux index sub)); ret 0 in
      if negb (getSDOe b0 =? 0) then
        let nbBytes := 4 - getSDOn2 b0 in
        _ ← upd_line 0 (set tr_count (fun _ => nbBytes));
        err ← SDOtoLine 0 nbBytes rest;
        if negb (err =? 0) then fail SDO_SERVER 0 index sub SDOABT_GENERAL_ERROR else
        errorCode ← SDOlineToObjdict 0;
        if negb (errorCode =? 0) then fail SDO_SERVER 0 index sub errorCode else
        _ ← resetSDOline 0;
        answer
      else if negb (getSDOs b0 =? 0) then
        nbBytes ← announced m;
        err ← setSDOlineRestBytes 0 nbBytes;
        if negb (err =? 0) then fail SDO_SERVER 0 index sub SDOABT_GENERAL_ERROR else answer
      else answer) (line_state d t' tm).
Proof.
  intros H Hr S Hcob Hlen Hm Hcs Hidx.
  rewrite (server_hears _ _ _ _ m b0 H S) by (done || (by rewrite Hm) || by rewrite Hr).
  replace (on_use t 0 SDO_SERVER) with false by (unfold on_use; by rewrite Hr).
  rewrite Hcs. unfold sdo_command. change (SDO_SERVER =? SDO_SERVER) with true.
  cbn iota. unfold server_initiate_download, data_at, opt. rewrite Hm.
  change ((b0 :: mux index sub ++ rest).[0]) with (Some b0).
  change ((b0 :: mux index sub ++ rest).[1]) with (Some (Z.land index 0xFF)).
  change ((b0 :: mux index sub ++ rest).[2]) with (Some (Z.land (Z.shiftr index 8) 0xFF)).
  change ((b0 :: mux index sub ++ rest).[3]) with (Some sub).
  rewrite 4!(st_bind_eq (st_opt (Some _)) _ d _ d eq_refl), getSDOindex_mux by done.
  match goal with |- context [open_line _ _ None _ _ _ ?k d] =>
    destruct (open_line_eq SDO_SERVER d t index sub SDO_DOWNLOAD_IN_PROGRESS k H Hr)
      as (t1 & tm & -> & A1 & Et1) end.
  exists t1, tm. split; [done|]. split; [by rewrite Et1|].
  split; [rewrite Et1; by constructor|done].
Qed.

Lemma server_accepts_size d t rx tx index sub v junk :
  at_line d t -> tr_state t = SDO_RESET -> sdo_server d rx tx ->
  4 < Z.of_nat (length v) <= 32 -> 0 <= index < 65536 ->
  exists t' tm, proceedSDO (download_request rx index sub v junk) d =
      Some (0, line_state (sent d (accepted tx index sub)) t' tm) /\
    down_line t' SDO_SERVER 0 (Z.of_nat (length v)) 0 (tr_data t) /\
    at_line (line_state d t' tm) t' /\ names t' index sub.
Proof.
  intros H Hr S Hl Hidx. set (n := Z.of_nat (length v)) in *.
  set (m := download_request rx index sub v junk).
  assert (Hm : msg_data m = Z.lor (Z.shiftl 1 5) 1 :: mux index sub ++ bytes32 n).
  { unfold m, download_request. fold n. by rewrite (proj2 (Z.ltb_lt 4 n)) by lia. }
  destruct (server_opens d t rx tx index sub m _ _ H Hr S eq_refl eq_refl Hm eq_refl Hidx)
    as (t1 & tm & A1 & N1 & U1 & ->).
  change (negb (getSDOe _ =? 0)) with false. change (negb (getSDOs _ =? 0)) with true. cbn iota zeta.
  assert (Hann : announced m (line_state d t1 tm) = Some (n, line_state d t1 tm)).
  { unfold announced, data_at, opt. rewrite Hm.
    transitivity (Some (le32 (u8 n) (u8 (Z.shiftr n 8)) (u8 (Z.shiftr n 16)) (u8 (Z.shiftr n 24)),
      line_state d t1 tm)); [done|by rewrite le32_bytes32 by lia]. }
  rewrite (st_bind_eq _ _ _ _ _ Hann). unfold setSDOlineRestBytes, SDO_MAX_LENGTH_TRANSFER. ztest.
  rewrite (st_bind_eq _ _ _ _ _ (st_bind_eq _ _ _ _ _ (upd_line_eq _ _ _ A1))).
  change (negb (0 =? 0)) with false. cbn iota. set (t2 := t1 <| tr_count := n |>).
  destruct (server_sends (line_state d t2 tm) rx tx (pad 8 (Z.shiftl 3 5 :: mux index sub)))
    as [r Er]; [by apply server_after|done|].
  exists t2, tm. split; [exact (st_bind_eq _ _ _ _ _ Er)|].
  split; [destruct U1; by constructor|]. split; [destruct A1; by constructor|done].
Qed.

Lemma server_accepts_value d t rx tx index sub v junk x :
  at_line d t -> tr_state t = SDO_RESET -> sdo_server d rx tx ->
  1 <= Z.of_nat (length v) <= 4 -> 0 <= index < 65536 -> 0 <= sub -> node_od_ok d ->
  writable_entry d index sub v x ->
  (forall m, mstore (co_mem d) (pObject x) v = Some m -> sdo_server (d <| co_mem := m |>) rx tx) ->
  exists m t' tm, mstore (co_mem d) (pObject x) v = Some m /\
    proceedSDO (download_request rx index sub v junk) d =
      Some (0, line_state (sent (d <| co_mem := m |>) (accepted tx index sub)) t' tm) /\
    tr_state t' = SDO_RESET /\ at_line (line_state (d <| co_mem := m |>) t' tm) t'.
Proof.
  intros H Hr S Hl Hidx Hs Hok He Hsrv. set (n := Z.of_nat (length v)) in *.
  destruct (expedited_download_bits n Hl) as (B1 & B2 & B3). set (b0 := u8 _) in B1, B2, B3.
  set (m := download_request rx index sub v junk).
  assert (Hm : msg_data m = b0 :: mux index sub ++ v ++ take (4 - length v) junk).
  { unfold m, download_request. fold n. rewrite (proj2 (Z.ltb_ge 4 n)) by lia. fold b0.
    cbn [msg_data]. by rewrite take_app, take_ge by lia. }
  destruct (server_opens d t rx tx index sub m b0 _ H Hr S eq_refl eq_refl Hm B1 Hidx)
    as (t1 & tm & A1 & N1 & U1 & ->).
  rewrite B2, B3. change (negb (1 =? 0)) with true. cbn iota zeta.
  replace (4 - (4 - n)) with n by lia. rewrite (st_bind_eq _ _ _ _ _ (upd_line_eq _ _ _ A1)).
  set (t2 := t1 <| tr_count := n |>).
  assert (A2 : at_line (line_state d t2 tm) t2) by (destruct A1; by constructor).
  assert (U2 : down_line t2 SDO_SERVER 0 n 0 (tr_data t)) by (destruct U1; by constructor).
  destruct (put_bytes _ _ _ _ _ _ _ v (take (4 - length v) junk) A2 U2 ltac:(lia))
    as (t3 & E3 & A3 & U3 & N3 & N4).
  rewrite (st_bind_eq _ _ _ _ _ E3). change (negb (0 =? 0)) with false. cbn iota.
  destruct (server_stores (line_state d t3 tm) t3 0 n v _ index sub x
    (fail SDO_SERVER 0 index sub)
    (_ ← send SDO_SERVER 0 (pad 8 (Z.shiftl 3 5 :: mux index sub)); ret 0) A3 U3)
    as (mm & t4 & tm4 & Hmm & E4 & R4 & A4); try done.
  { unfold names. rewrite N3, N4. apply N1. }
  exists mm, t4, tm4. split; [done|]. split; [|done].
  destruct (server_sends (line_state (d <| co_mem := mm |>) t4 tm4) rx tx
    (pad 8 (Z.shiftl 3 5 :: mux index sub))) as [r Er]; [by apply server_after, Hsrv|done|].
  transitivity ((_ ← send SDO_SERVER 0 (pad 8 (Z.shiftl 3 5 :: mux index sub)); ret 0)
    (line_state (d <| co_mem := mm |>) t4 tm4)); [exact E4|exact (st_bind_eq _ _ _ _ _ Er)].
Qed.

(** ** The transfer *)

(** The client's request carries the value, or its size. *)
Lemma writeNetworkDict_eq d t rx tx node index sub ty v :
  at_line d t -> tr_state t = SDO_RESET -> sdo_client d rx tx node ->
  can_result (co_env d) (length (co_log d)) = 0 -> 1 <= Z.of_nat (length v) <= 32 ->
  let n := Z.of_nat (length v) in
  let junk := drop (length v) (tr_data t) in
  exists t' tm, writeNetworkDict node index sub n ty v false d =
      Some (0, line_state (sent d (download_request tx index sub v junk)) t' tm) /\
    at_line (line_state d t' tm) t' /\
    down_line t' SDO_CLIENT 0 n (if 4 <? n then 0 else n) (v ++ junk).
Proof.
  intros H Hr S Hdrv Hl n junk. unfold writeNetworkDict, _writeNetworkDict.
  rewrite (st_bind_eq _ _ _ _ _ (sc_nbr _ _ _ _ S)). change (0xFE <=? 0) with false. cbn iota.
  destruct (take_client_line_eq d t H Hr) as [Htake A0].
  rewrite (st_bind_eq _ _ _ _ _ Htake). cbn iota.
  destruct (initSDOline_eq _ _ 0 index sub SDO_DOWNLOAD_IN_PROGRESS A0) as (h & tm & E & Hh & I).
  rewrite (st_bind_eq _ _ _ _ _ E). set (t1 := opened _ _ _ _ _ _).
  set (d1 := line_state _ t1 tm). change d1 with (line_state d t1 tm). clear d1.
  assert (A1 : at_line (line_state d t1 tm) t1) by (constructor; [done|done|apply H|done]).
  pose proof (al_data _ _ H) as Hd.
  rewrite slice_ok, drop_0, take_ge by lia. unfold opt.
  rewrite (st_bind_eq (st_opt (Some v)) _ (line_state d t1 tm) v (line_state d t1 tm) eq_refl), (st_bind_eq _ _ _ _ _ (get_line_eq _ _ A1)).
  change (tr_data t1) with (tr_data t). rewrite put_slice_ok, take_0 by lia. cbn [app Z.to_nat Nat.add].
  fold junk. rewrite (st_bind_eq (st_opt (Some (v ++ junk))) _ (line_state d t1 tm) _ (line_state d t1 tm) eq_refl).
  rewrite (st_bind_eq _ _ _ _ _ (upd_line_eq _ _ _ A1)).
  set (t2 := t1 <| tr_count := n |> <| tr_dataType := ty |> <| tr_data := v ++ junk |>).
  assert (Hlen : length (v ++ junk) = 32%nat) by (unfold junk; rewrite length_app, length_drop; lia).
  assert (A2 : at_line (line_state d t2 tm) t2) by by constructor.
  change (line_state (line_state d t1 tm) t2 _) with (line_state d t2 tm).
  unfold download_request. fold n. destruct (4 <? n) eqn:E4; zb.
  - replace (n <=? 4) with false by lia.
    destruct (launch_eq d t2 tm rx tx node (Z.lor (Z.shiftl 1 5) 1 :: mux index sub ++ bytes32 n)
      A2 S Hdrv eq_refl) as [El A3].
    eexists _, tm. split; [exact El|]. split; [exact A3|by constructor].
  - replace (n <=? 4) with true by lia. rewrite slice_ok, drop_0 by lia.
    change (Z.to_nat 4) with 4%nat. rewrite (st_bind_eq (st_opt (Some _)) _ (line_state d t2 tm) _ (line_state d t2 tm) eq_refl).
    rewrite (st_bind_eq _ _ _ _ _ (upd_line_eq _ _ _ A2)). set (t3 := t2 <| tr_offset := n |>).
    assert (A3 : at_line (line_state d t3 tm) t3) by by constructor.
    destruct (launch_eq d t3 tm rx tx node
      (u8 (Z.lor (Z.lor (Z.shiftl 1 5) (Z.shiftl (4 - n) 2)) 3) :: mux index sub ++ take 4 (v ++ junk))
      A3 S Hdrv) as [El A4].
    { cbn [mux app length]. rewrite length_take. lia. }
    eexists _, tm. split; [exact El|]. split; [exact A4|by constructor].
Qed.

(** The client learns that the transfer succeeded, and the line is free. *)
Lemma getWriteResult_eq d t rx tx node n data :
  at_line d t -> sdo_client d rx tx node -> done_line t n n data ->
  exists t' tm, getWriteResultNetworkDict node d =
      Some ((SDO_FINISHED, abortCode t), line_state d t' tm) /\
    tr_state t' = SDO_RESET /\ at_line (line_state d t' tm) t'.
Proof.
  intros H S [Est Ewho Enbr _ _ _]. unfold getWriteResultNetworkDict.
  rewrite (st_bind_eq _ _ _ _ _ (sc_nbr _ _ _ _ S)). change (0xFE <=? 0) with false. cbn iota.
  rewrite (st_bind_eq _ _ _ _ _ (getSDOlineOnUse_eq _ _ _ _ H)).
  replace (on_use t 0 SDO_CLIENT) with true
    by (unfold on_use; by rewrite Est, Enbr, Ewho).
  cbn iota. rewrite (st_bind_eq _ _ _ _ _ (get_line_eq _ _ H)). cbn beta.
  rewrite Est. change (negb (SDO_FINISHED =? SDO_FINISHED)) with false. cbn iota.
  destruct (resetSDOline_eq _ _ H) as (h & tm & E & Hh & I). rewrite (st_bind_eq _ _ _ _ _ E).
  exists (free_line t h), tm. split; [done|]. split; [done|]. by apply free_line_ok.
Qed.

(** The segments of a download: the client has sent the one at [off]. *)
Lemma download_loop rx tx node v index sub x fuel : forall c s tc ts off tg junkc junks,
  at_line c tc -> at_line s ts -> sdo_client c tx rx node -> sdo_server s rx tx ->
  let n := Z.of_nat (length v) in
  down_line tc SDO_CLIENT tg n (off + Z.min 7 (n - off)) (v ++ junkc) ->
  down_line ts SDO_SERVER tg n off (take (Z.to_nat off) v ++ junks) ->
  names ts index sub -> node_od_ok s -> writable_entry s index sub v x -> 0 <= sub ->
  0 <= off < n -> n <= 32 -> n - off <= 7 * Z.of_nat fuel -> bit tg ->
  exists c' s' tc' ts' m,
    dialogue fuel c s (segment rx tg off n v) = Some (c', s') /\
    mstore (co_mem s) (pObject x) v = Some m /\
    at_line c' tc' /\ done_line tc' n n (v ++ junkc) /\
    at_line s' ts' /\ tr_state ts' = SDO_RESET /\ same_node c c' /\
    same_node (s <| co_mem := m |>) s'.
Proof.
  induction fuel as [|fuel IH]; intros c s tc ts off tg junkc junks Ac As Sc Ss n Uc Us N Hok He Hsub
    Ho Hn Hf Hb; [lia|]. destruct (decide (7 < n - off)) as [E7|E7].
  - destruct (server_more s ts rx tx tg off v junks As Ss Us Hb) as (ts1 & tm1 & Es & Us1 & As1 & N1);
      [lia..|].
    rewrite Z.min_l in Uc by lia.
    destruct (client_acked c tc tx rx node tg (off + 7) v junkc Ac Sc Uc)
      as (tc1 & tmc & Ec & Ac1 & Uc1); [lia..|done|].
    fold n in Ec, Uc1. rewrite (proj2 (Z.eqb_neq (off + 7) n)) in Ec, Uc1 by lia.
    rewrite (dialogue_step _ _ _ _ _ _ _ Es (new_sent_sent _ _ _ _) Ec), new_sent_sent.
    destruct (IH (line_state (sent c (segment rx (invert tg) (off + 7) n v)) tc1 tmc)
      (line_state (sent s (ack tx tg)) ts1 tm1) tc1 ts1 (off + 7) (invert tg) junkc (drop 7 junks))
      as (c2 & s2 & tc2 & ts2 & m & Ed & Hm & Ac2 & Dc2 & As2 & Hr2 & Nc & Ns); try done; try lia.
    + destruct Ac1. by constructor.
    + destruct As1. by constructor.
    + by apply (sdo_client_frame c).
    + by apply (sdo_server_frame s).
    + unfold names in *. destruct N, N1. split; congruence.
    + by apply bit_invert.
    + exists c2, s2, tc2, ts2, m. splits; try done.
      * by eapply same_node_trans; [|exact Nc].
      * destruct Ns. by constructor.
  - destruct (server_last s ts rx tx tg off v junks index sub x As Ss Us Hb)
      as (m & ts1 & tm1 & Hm & Es & R1 & As1); try done; try lia.
    rewrite Z.min_r in Uc by lia. replace (off + (n - off)) with n in Uc by lia.
    destruct (client_acked c tc tx rx node tg n v junkc Ac Sc Uc) as (tc1 & tmc & Ec & Ac1 & Dc1);
      [lia..|done|]. fold n in Ec, Dc1. rewrite Z.eqb_refl in Ec, Dc1.
    assert (Hns : new_sent s (line_state (sent (s <| co_mem := m |>) (ack tx tg)) ts1 tm1) =
      Some (ack tx tg)) by (unfold new_sent, line_state, sent; cbn [set co_log]; by rewrite drop_app_length).
    rewrite (dialogue_step _ _ _ _ _ _ _ Es Hns Ec), new_sent_none.
    do 2 eexists. exists tc1, ts1, m. split; [reflexivity|]. splits; try done.
    destruct As1. by constructor.
Qed.

(** From the client's request to the end of the dialogue. *)
Lemma download_dialogue c s tc ts rx tx node index sub v junk x :
  let n := Z.of_nat (length v) in
  at_line c tc -> sdo_client c tx rx node ->
  down_line tc SDO_CLIENT 0 n (if 4 <? n then 0 else n) (v ++ junk) ->
  at_line s ts -> tr_state ts = SDO_RESET -> sdo_server s rx tx -> node_od_ok s ->
  writable_entry s index sub v x -> 0 <= index < 65536 -> 0 <= sub ->
  (forall m, mstore (co_mem s) (pObject x) v = Some m -> sdo_server (s <| co_mem := m |>) rx tx) ->
  exists c' s' tc' ts' m,
    dialogue 6 c s (download_request rx index sub v junk) = Some (c', s') /\
    mstore (co_mem s) (pObject x) v = Some m /\
    at_line c' tc' /\ done_line tc' n n (v ++ junk) /\
    at_line s' ts' /\ tr_state ts' = SDO_RESET /\ same_node c c' /\
    same_node (s <| co_mem := m |>) s'.
Proof.
  intros n Ac Sc Uc As Hr Ss Hok He Hidx Hsub Hsrv.
  assert (Hl : 1 <= n <= 32).
  { destruct He as (i & _ & _ & _ & _ & _ & Hlen & Hsz & _).
    unfold n, SDO_MAX_LENGTH_TRANSFER in *. lia. }
  destruct (client_accepted c tc tx rx node _ v junk index sub Ac Sc Uc) as (tc1 & tmc & Ec & Ac1 & Uc1);
    [fold n; zcase; lia|fold n; lia|]. fold n in Ec, Uc1.
  destruct (4 <? n) eqn:E4; zb.
  - rewrite (proj2 (Z.eqb_neq 0 n)) in Ec, Uc1 by lia.
    destruct (server_accepts_size s ts rx tx index sub v junk As Hr Ss) as (ts1 & tms & Es & Us1 & As1 & N1);
      [fold n; lia|done|].
    rewrite (dialogue_step _ _ _ _ _ _ _ Es (new_sent_sent _ _ _ _) Ec), new_sent_sent.
    destruct (download_loop rx tx node v index sub x 5
      (line_state (sent c (segment rx 0 0 n v)) tc1 tmc)
      (line_state (sent s (accepted tx index sub)) ts1 tms) tc1 ts1 0 0 junk (tr_data ts))
      as (c2 & s2 & tc2 & ts2 & m & Ed & Hm & Ac2 & Dc2 & As2 & Hr2 & Nc & Ns);
      try done; try (fold n; lia).
    + destruct Ac1. by constructor.
    + destruct As1. by constructor.
    + by apply (sdo_client_frame c).
    + by apply (sdo_server_frame s).
    + by left.
    + exists c2, s2, tc2, ts2, m. splits; try done.
      * by eapply same_node_trans; [|exact Nc].
      * destruct Ns. by constructor.
  - rewrite Z.eqb_refl in Ec, Uc1.
    destruct (server_accepts_value s ts rx tx index sub v junk x As Hr Ss)
      as (m & ts1 & tms & Hm & Es & Hr1 & As1); try done; [fold n; lia|].
    assert (Hns : new_sent s (line_state (sent (s <| co_mem := m |>) (accepted tx index sub)) ts1 tms) =
      Some (accepted tx index sub))
      by (unfold new_sent, line_state, sent; cbn [set co_log]; by rewrite drop_app_length).
    rewrite (dialogue_step _ _ _ _ _ _ _ Es Hns Ec), new_sent_none.
    do 2 eexists. exists tc1, ts1, m. split; [reflexivity|]. splits; try done.
    destruct As1. by constructor.
Qed.

(** C5: Writing an entry of another node changes exactly that entry.  The client's
    request starts a dialogue that ends by itself, expedited or in segments; the
    client learns that the transfer finished, the server's variable holds the
    value, and nothing else of the two nodes has moved but their lines, their
    alarm tables and their logs; both lines are free again.  (The entry is any
    writable one, not a string, of the value's size, that fits the line's 32
    bytes, has no function registered on it, and does not hold the identifiers of
    the server itself.) *)
Theorem SDO_write_transfer c s tc ts rx tx node index sub ty v x :
  at_line c tc -> tr_state tc = SDO_RESET -> sdo_client c tx rx node ->
  can_result (co_env c) (length (co_log c)) = 0 ->
  at_line s ts -> tr_state ts = SDO_RESET -> sdo_server s rx tx -> node_od_ok s ->
  writable_entry s index sub v x -> 0 <= index < 65536 -> 0 <= sub < 256 ->
  (forall m, mstore (co_mem s) (pObject x) v = Some m -> sdo_server (s <| co_mem := m |>) rx tx) ->
  exists c1 m c2 s2 code c3 mem',
    writeNetworkDict node index sub (Z.of_nat (length v)) ty v false c = Some (0, c1) /\
    new_sent c c1 = Some m /\ dialogue 6 c1 s m = Some (c2, s2) /\
    getWriteResultNetworkDict node c2 = Some ((SDO_FINISHED, code), c3) /\
    mstore (co_mem s) (pObject x) v = Some mem' /\
    mload (co_mem s2) (pObject x) (od_size x) = Some v /\
    same_node c c3 /\ same_node (s <| co_mem := mem' |>) s2 /\
    (exists t, at_line c3 t /\ tr_state t = SDO_RESET) /\
    (exists t, at_line s2 t /\ tr_state t = SDO_RESET).
Proof.
  intros Ac Hrc Sc Hdrv As Hrs Ss Hok He Hidx Hsub Hsrv.
  assert (Hl : Z.of_nat (length v) = od_size x /\ 1 <= Z.of_nat (length v) <= 32).
  { destruct He as (i & _ & _ & _ & _ & _ & Hlen & Hsz & _).
    unfold SDO_MAX_LENGTH_TRANSFER in *. lia. }
  destruct Hl as [Hlen Hl].
  destruct (writeNetworkDict_eq c tc tx rx node index sub ty v Ac Hrc Sc Hdrv Hl)
    as (t1 & tm1 & E1 & A1 & U1). set (c1 := line_state (sent c _) t1 tm1) in E1.
  assert (A1' : at_line c1 t1) by (destruct A1; by constructor).
  assert (S1 : sdo_client c1 tx rx node) by by apply (sdo_client_frame c).
  destruct (download_dialogue c1 s t1 ts rx tx node index sub v _ x A1' S1 U1 As Hrs Ss Hok He Hidx
    ltac:(lia) Hsrv) as (c2 & s2 & tc2 & ts2 & mm & Ed & Hm & Ac2 & Dc2 & As2 & Hr2 & Nc & Ns).
  destruct (getWriteResult_eq c2 tc2 tx rx node _ _ Ac2 (sdo_client_frame c1 c2 _ _ _ S1 Nc) Dc2)
    as (t3 & tm3 & E3 & Hr3 & A3).
  eexists c1, _, c2, s2, _, _, mm. split; [exact E1|]. split; [apply new_sent_sent|].
  split; [exact Ed|]. split; [exact E3|]. split; [exact Hm|].
  splits; [|apply (same_node_trans _ c1); [done|by apply (same_node_trans _ c2)]|done
    |by exists t3|by exists ts2].
  rewrite (sn_mem _ _ Ns), <- Hlen. by eapply mload_mstore_same.
Qed.
End download.
