(* ===== verification/Running.v ===== *)
(** * Running: the invariant of a running node, and the services under it

    [node_ok] collects what the code relies on when a service is started or
    stopped: the dictionary is well formed, the variables behind the stack's
    pointers are there, the mapping of every transmit PDO names existing entries
    that are not strings, every alarm handle is in range.  [keeps m Q] says that
    [m] run on such a node returns, answers something that satisfies [Q], leaves
    such a node, changes nothing of the state machine and reports no entry into a state; the
    rules compose it along the code. *)

From S2P Require Import Prelude CMem Timers Node ObjDict Emcy Nmt LifeGuard Bits Pdo Sync.
From S2P Require Import SdoLine States SdoFacts.

(** ** Checks on the dictionary and its memory *)

Section checks.
Context (od : od_config).
Implicit Types (m : mem).

Definition readable_at m (k : Z) (p : ptr) : bool := bool_decide (is_Some (load k m p)).

Definition sub_ptr (i s : Z) : option ptr :=
  e ← (objdict od).[i]; x ← (pSubindex e).[s]; Some (pObject x).

Definition sub_load m (k i s : Z) : option Z := p ← sub_ptr i s; load k m p.

Definition tpdos : nat := positions (PDO_TRS (firstIndex od)) (PDO_TRS (lastIndex od)).
Definition tpdo_com (k : Z) : Z := PDO_TRS (firstIndex od) + k.
Definition tpdo_map (k : Z) : Z := PDO_TRS_MAP (firstIndex od) + k.

(** Mapping entry [j] names nothing, or an entry that is not a string. *)
Definition map_entry_okb m (mapi j : Z) : bool :=
  match sub_load m 4 mapi (j + 1) with
  | Some p =>
      match find_sub od (map_index p) (map_subIndex p) with
      | Some (_, x) => negb (bDataType x =? visible_string)
      | None => true
      end
  | None => false
  end.

Definition mapping_okb m (mapi : Z) : bool :=
  match sub_load m 1 mapi 0 with
  | Some c => forallb (fun j => map_entry_okb m mapi (Z.of_nat j)) (seq 0 (Nat.max 1 (Z.to_nat c)))
  | None => false
  end.

Definition tpdo_okb m (k : Z) : bool :=
  bool_decide (is_Some (sub_load m 4 (tpdo_com k) 1)) &&
  bool_decide (is_Some (sub_load m 1 (tpdo_com k) 2)) &&
  bool_decide (is_Some (sub_load m 2 (tpdo_com k) 3)) &&
  bool_decide (is_Some (sub_load m 2 (tpdo_com k) 5)) &&
  mapping_okb m (tpdo_map k).

(** The variables the stack reads and writes through its own pointers. *)
Definition od_pointers : list (Z * ptr) :=
  [(1, bDeviceNodeId od); (1, ConsumerHeartbeatCount od); (2, ProducerHeartBeatTime od);
   (2, GuardTime od); (1, LifeTimeFactor od); (4, COB_ID_Sync od); (4, Sync_Cycle_Period od);
   (1, error_number od); (4, error_cobid od)].

(** The subindexes that follow the node identifier. *)
Definition followers : list (Z * Z) :=
  (if SDO_SVR (firstIndex od) =? 0 then []
   else [(SDO_SVR (firstIndex od), 1); (SDO_SVR (firstIndex od), 2)]) ++
  ((fun k => (PDO_RCV (firstIndex od) + Z.of_nat k, 1)) <$>
    seq 0 (positions (PDO_RCV (firstIndex od)) (PDO_RCV (lastIndex od)) `min` 4)) ++
  ((fun k => (PDO_TRS (firstIndex od) + Z.of_nat k, 1)) <$> seq 0 (tpdos `min` 4)).

Definition consumers_okb m (room : nat) : bool :=
  match load 1 m (ConsumerHeartbeatCount od) with
  | Some c => (c <=? Z.of_nat room) &&
      forallb (fun i => readable_at m 4 (ptr_add (ConsumerHeartbeatEntries od) (4 * Z.of_nat i)))
        (seq 0 (Z.to_nat c))
  | None => false
  end.

Definition mem_okb m (room : nat) : bool :=
  forallb (fun '(k, p) => readable_at m k p) od_pointers &&
  forallb (fun '(i, s) => bool_decide (is_Some (sub_load m 4 i s))) followers &&
  consumers_okb m room &&
  forallb (fun k => tpdo_okb m (Z.of_nat k)) (seq 0 tpdos).

(** A write of [n] bytes at [q] touches neither the mapping parameters nor the
    number of consumers. *)
Definition disjointb (p : ptr) (n : Z) (q : ptr) (k : Z) : bool :=
  negb (fst p =? fst q) || (snd p + n <=? snd q) || (snd q + k <=? snd p).

Definition apartb (q : ptr) (n : Z) : bool :=
  disjointb q n (ConsumerHeartbeatCount od) 1 &&
  forallb (fun k =>
    match (objdict od).[tpdo_map (Z.of_nat k)] with
    | Some e => forallb (fun x => disjointb q n (pObject x) 4) (pSubindex e)
    | None => true
    end) (seq 0 tpdos).

(** The fixed part: what the services write is apart from what they rely on. *)
Definition config_okb : bool :=
  (0 <=? PDO_TRS (firstIndex od)) && (PDO_TRS (firstIndex od) + Z.of_nat tpdos <=? 65535) &&
  (Z.of_nat tpdos <=? 256) &&
  (0 <=? PDO_RCV (firstIndex od)) && (PDO_RCV (lastIndex od) <? 65535) &&
  forallb (fun k => match scan od (0x1800 + Z.of_nat k) with
    | Some i => match (objdict od).[i] with Some e => 6 <=? bSubCount e | None => true end
    | None => true end) (seq 0 tpdos) &&
  apartb (error_number od) 1 && apartb (bDeviceNodeId od) 1 && apartb (error_cobid od) 4 &&
  forallb (fun '(i, s) => match sub_ptr i s with Some p => apartb p 4 | None => false end) followers.
End checks.

Definition mem_bytes (m : mem) : Prop := map_Forall (fun _ bs => bytes bs) m.

(** ** The invariant *)

Definition bit (b : Z) : Prop := b = 0 \/ b = 1.

Record flags_ok (f : s_state_communication) : Prop := FlagsOk {
  fo_boot : bit (csBoot_Up f);
  fo_sdo : bit (csSDO f);
  fo_emcy : bit (csEmergency f);
  fo_sync : bit (csSYNC f);
  fo_life : bit (csLifeGuard f);
  fo_pdo : bit (csPDO f)
}.

Definition message_ok (m : Message) : Prop := length (msg_data m) = 8%nat /\ bytes (msg_data m).

Record status_ok (s : s_PDO_status) : Prop := StatusOk {
  so_event : handle_ok (event_timer s);
  so_inhibit : handle_ok (inhibit_timer s);
  so_last : message_ok (last_message s)
}.

(** A frame for the CAN driver: an identifier of 16 bits, at most 8 bytes counted, in a
    buffer of 8 bytes. *)
Record frame_ok (m : Message) : Prop := FrameOk {
  fr_id : 0 <= cob_id m < 2 ^ 16;
  fr_rtr : rtr m = NOT_A_REQUEST \/ rtr m = REQUEST;
  fr_len : 0 <= len m <= 8;
  fr_data : message_ok m
}.

Definition event_ok (e : co_event) : Prop :=
  match e with Sent m => frame_ok m | _ => True end.

Record node_ok (d : CO_Data) : Prop := NodeOk {
  no_config : config_okb (co_od d) = true;
  no_dict : node_od_ok d;
  no_bytes : mem_bytes (co_mem d);
  no_mem : mem_okb (co_od d) (co_mem d) (length (ConsumerHeartBeatTimers (co_lg d))) = true;
  no_env k : message_ok (garbage (co_env d) k);
  no_flags : flags_ok (CurrentCommunicationState (co_st d));
  no_sync : handle_ok (syncTimer d);
  no_producer : handle_ok (ProducerHeartBeatTimer (co_lg d));
  no_guard : handle_ok (GuardTimeTimer (co_lg d));
  no_consumers : handles_ok (ConsumerHeartBeatTimers (co_lg d));
  no_table : length (NMTable (co_lg d)) = 128%nat;
  no_guards : length (nodeGuardStatus (co_lg d)) = 128%nat;
  no_status k : 0 <= k < Z.of_nat (tpdos (co_od d)) ->
    exists s, (PDO_status (co_pdos d)).[k] = Some s /\ status_ok s;
  no_frames : Forall event_ok (co_log d);
  no_line : exists t, at_line d t
}.

(** The calls with which the application hears that a state is entered. *)
Definition is_state_call (e : co_event) : bool :=
  match e with
  | Call_initialisation | Call_preOperational | Call_operational | Call_stopped => true
  | _ => false
  end.

Definition quiet_event (e : co_event) : Prop := is_state_call e = false.

(** The alarms of the services: those of SDO transfers and of received PDOs are not. *)
Definition may_call (d : CO_Data) (cb : alarm) (id : Z) : Prop :=
  match cb with
  | SyncAlarm_cb | ProducerHeartbeatAlarm_cb | GuardTimeAlarm_cb => True
  | ConsumerHeartbeatAlarm_cb =>
      exists c, load 1 (co_mem d) (ConsumerHeartbeatCount (co_od d)) = Some c /\ 0 <= id < c
  | PDOEventTimerAlarm_cb | PDOInhibitTimerAlarm_cb => 0 <= id < Z.of_nat (tpdos (co_od d))
  | RxPDO_EventTimers_Handler_cb | SDOTimeoutAlarm_cb => False
  end.

(** What a service may do besides keeping the invariant: the alarms it arms are those of
    the services, and none of them waits. *)
Record quiet_step (d d' : CO_Data) : Prop := QuietStep {
  qs_od : co_od d' = co_od d;
  qs_st : co_st d' = co_st d;
  qs_log : exists es, co_log d' = co_log d ++ es /\ Forall quiet_event es;
  qs_count : load 1 (co_mem d') (ConsumerHeartbeatCount (co_od d)) =
    load 1 (co_mem d) (ConsumerHeartbeatCount (co_od d));
  qs_alarms : alarms_step (may_call d) (co_timers d) (co_timers d')
}.

Lemma quiet_step_refl d : quiet_step d d.
Proof.
  constructor; [done|done| |done|apply alarms_step_refl]. exists []. by rewrite app_nil_r.
Qed.

Lemma may_call_step d d' cb id : co_od d' = co_od d ->
  load 1 (co_mem d') (ConsumerHeartbeatCount (co_od d)) = load 1 (co_mem d) (ConsumerHeartbeatCount (co_od d)) ->
  may_call d' cb id -> may_call d cb id.
Proof. unfold may_call. intros -> ->. done. Qed.

Lemma quiet_step_trans d1 d2 d3 : quiet_step d1 d2 -> quiet_step d2 d3 -> quiet_step d1 d3.
Proof.
  intros [O1 S1 (e1 & L1 & F1) C1 A1] [O2 S2 (e2 & L2 & F2) C2 A2].
  constructor; [congruence..| |rewrite O1 in C2; congruence|].
  - exists (e1 ++ e2). rewrite L2, L1, app_assoc. split; [done|]. by apply Forall_app.
  - eapply alarms_step_trans; [exact A1|]. eapply alarms_step_mono; [|exact A2].
    intros cb id. by apply may_call_step.
Qed.
#[export] Hint Resolve quiet_step_refl : cdb.

(** ** Rules *)

Section rules.
Context (od : od_config) (room : nat) (count : Z).

(** A good node with dictionary [od], [room] heartbeat consumer alarms and [count]
    consumers. *)
Definition good (d : CO_Data) : Prop :=
  node_ok d /\ co_od d = od /\ length (ConsumerHeartBeatTimers (co_lg d)) = room /\
  load 1 (co_mem d) (ConsumerHeartbeatCount od) = Some count.

Definition keeps {A} (m : CO A) (Q : A -> Prop) : Prop :=
  forall d, good d -> exists x d', m d = Some (x, d') /\ good d' /\ quiet_step d d' /\ Q x.

Definition any {A} (x : A) : Prop := True.

Lemma any_I {A} (x : A) : any x.
Proof. done. Qed.
#[local] Hint Resolve any_I : cdb.

Lemma keeps_ret {A} (x : A) (Q : A -> Prop) : Q x -> keeps (ret x) Q.
Proof. intros H d Hd. exists x, d. eauto with cdb. Qed.

Lemma keeps_skip : keeps st_skip any.
Proof. intros d Hd. exists tt, d. unfold any. eauto with cdb. Qed.

Lemma keeps_bind {A B} (m : CO A) (f : A -> CO B) R Q :
  keeps m R -> (forall x, R x -> keeps (f x) Q) -> keeps (m ≫= f) Q.
Proof.
  intros Hm Hf d Hd. destruct (Hm d Hd) as (x & d1 & E & H1 & S1 & HR).
  destruct (Hf x HR d1 H1) as (y & d2 & E2 & H2 & S2 & HQ).
  exists y, d2. rewrite (st_bind_eq _ _ _ _ _ E). eauto using quiet_step_trans.
Qed.

Lemma keeps_weaken {A} (m : CO A) (R Q : A -> Prop) :
  keeps m R -> (forall x, R x -> Q x) -> keeps m Q.
Proof. intros Hm HQ d Hd. destruct (Hm d Hd) as (x & d1 & ? & ? & ? & ?). eauto 10. Qed.

Lemma keeps_any {A} (m : CO A) (R : A -> Prop) : keeps m R -> keeps m any.
Proof. intros H. by eapply keeps_weaken. Qed.

Lemma keeps_when b (m : CO unit) : (b = true -> keeps m any) -> keeps (when b m) any.
Proof. destruct b; intros H; [by apply H|apply keeps_skip]. Qed.

Lemma keeps_for n i (body : Z -> CO unit) :
  (forall k, i <= k < i + Z.of_nat n -> keeps (body k) any) -> keeps (st_for n i body) any.
Proof.
  intros Hb d Hd.
  destruct (st_for_inv (fun _ d' => good d' /\ quiet_step d d') body n i d) as (d' & E & H' & S').
  - intros k t Hk [Ht St]. destruct (Hb k Hk t Ht) as ([] & t' & ? & ? & ? & _).
    exists t'. eauto using quiet_step_trans.
  - eauto with cdb.
  - exists tt, d'. unfold any. eauto.
Qed.

Lemma keeps_get {A} (f : CO_Data -> A) (Q : A -> Prop) :
  (forall d, good d -> Q (f d)) -> keeps (get f) Q.
Proof. intros H d Hd. exists (f d), d. eauto with cdb. Qed.

Lemma keeps_opt {A} (x : option A) v (Q : A -> Prop) : x = Some v -> Q v -> keeps (opt x) Q.
Proof. intros -> HQ. by apply keeps_ret. Qed.

Lemma keeps_modify f :
  (forall d, good d -> good (f d) /\ quiet_step d (f d)) -> keeps (modify f) any.
Proof. intros H d Hd. destruct (H d Hd). exists tt, (f d). unfold any. eauto. Qed.

Lemma keeps_rd k p (Q : Z -> Prop) :
  (forall d, good d -> exists v, load k (co_mem d) p = Some v /\ Q v) -> keeps (rd k p) Q.
Proof.
  intros H d Hd. destruct (H d Hd) as (v & E & HQ). exists v, d. rewrite (rd_eq _ _ _ _ E).
  eauto with cdb.
Qed.
End rules.
#[export] Hint Resolve any_I : cdb.

Lemma node_good d : node_ok d ->
  exists room count, good (co_od d) room count d.
Proof.
  intros I. pose proof (no_mem _ I) as Hm. unfold mem_okb in Hm. rewrite !andb_true_iff in Hm.
  destruct Hm as [[_ Hm] _]. unfold consumers_okb in Hm.
  destruct (load 1 (co_mem d) (ConsumerHeartbeatCount (co_od d))) as [c|] eqn:E; [|done].
  by exists (length (ConsumerHeartBeatTimers (co_lg d))), c.
Qed.

(** ** Memory steps *)

Section memory_steps.
Context (od : od_config).

Lemma disjointb_range p n q k j : disjointb p n q k = true -> j <= k -> disjoint_range p n q j.
Proof.
  unfold disjointb, disjoint_range. intros H Hj. apply orb_true_iff in H as [[H|H]%orb_true_iff|H]; zb.
  - by left.
  - right. lia.
  - right. lia.
Qed.

Lemma readable_store n m q v m' k p :
  store n m q v = Some m' -> readable_at m k p = true -> readable_at m' k p = true.
Proof.
  unfold readable_at. intros Hs [x Hx]%bool_decide_eq_true. apply bool_decide_eq_true.
  destruct (store_keeps_load _ _ _ _ _ _ _ _ Hs Hx) as [y Hy]. by eexists.
Qed.

Lemma sub_load_store n m q v m' k i s :
  store n m q v = Some m' -> is_Some (sub_load od m k i s) -> is_Some (sub_load od m' k i s).
Proof.
  unfold sub_load. intros Hs. destruct (sub_ptr od i s) as [p|]; cbn [mbind option_bind]; [|done].
  intros [x Hx]. destruct (store_keeps_load _ _ _ _ _ _ _ _ Hs Hx) as [y Hy]. by eexists.
Qed.

Lemma apart_mapping n m q v m' k s j :
  store n m q v = Some m' -> apartb od q (Z.of_nat n) = true -> 0 <= k < Z.of_nat (tpdos od) ->
  j <= 4 -> sub_load od m' j (tpdo_map od k) s = sub_load od m j (tpdo_map od k) s.
Proof.
  unfold apartb. intros Hs [_ Hk]%andb_true_iff Hr Hj. rewrite forallb_forall in Hk.
  specialize (Hk (Z.to_nat k)). rewrite Z2Nat.id in Hk by lia.
  unfold sub_load, sub_ptr. destruct (objdict od).[tpdo_map od k] as [e|]; [|done].
  cbn [mbind option_bind]. destruct (pSubindex e).[s] as [x|] eqn:Ex; [|done]. cbn [mbind option_bind].
  assert (He : forallb (fun x => disjointb q (Z.of_nat n) (pObject x) 4) (pSubindex e) = true)
    by (apply Hk, in_seq; lia).
  rewrite forallb_forall in He. specialize (He x). apply (load_store_other _ _ _ _ _ _ _ Hs).
  eapply disjointb_range; [apply He|done]. apply arr_get_Some in Ex as [_ Ex].
  by eapply list_elem_of_In, list_elem_of_lookup_2.
Qed.

Lemma mapping_okb_store n m q v m' k :
  store n m q v = Some m' -> apartb od q (Z.of_nat n) = true -> 0 <= k < Z.of_nat (tpdos od) ->
  mapping_okb od m' (tpdo_map od k) = mapping_okb od m (tpdo_map od k).
Proof.
  intros Hs Ha Hk. unfold mapping_okb. rewrite (apart_mapping n m q v m') by (done || lia).
  destruct (sub_load od m 1 _ 0) as [c|]; [|done].
  induction (seq 0 _) as [|j l IH]; cbn [forallb]; [done|]. rewrite IH. f_equal.
  unfold map_entry_okb. by rewrite (apart_mapping n m q v m') by (done || lia).
Qed.

Lemma consumers_store n m q v m' room :
  store n m q v = Some m' -> apartb od q (Z.of_nat n) = true ->
  consumers_okb od m room = true -> consumers_okb od m' room = true.
Proof.
  intros Hs [Ha _]%andb_true_iff. unfold consumers_okb.
  rewrite (load_store_other _ _ _ _ _ _ _ Hs) by by eapply disjointb_range.
  destruct (load 1 m _) as [c|]; [|done]. rewrite !andb_true_iff, !forallb_forall.
  intros [? H]. split; [done|]. intros i Hi. by eapply readable_store, H.
Qed.

Lemma mem_okb_store n m q v m' room :
  store n m q v = Some m' -> apartb od q (Z.of_nat n) = true ->
  mem_okb od m room = true -> mem_okb od m' room = true.
Proof.
  intros Hs Ha. unfold mem_okb. rewrite !andb_true_iff, !forallb_forall.
  intros [[[Hp Hf] Hc] Ht]. splits.
  - intros [k p] Hin. by eapply readable_store, (Hp (k, p)).
  - intros [i s] Hin. specialize (Hf _ Hin). apply bool_decide_eq_true in Hf.
    apply bool_decide_eq_true. by eapply sub_load_store.
  - by eapply consumers_store.
  - intros k Hin. specialize (Ht k Hin). apply in_seq in Hin. unfold tpdo_okb in *.
    rewrite !andb_true_iff, !bool_decide_eq_true in *. destruct Ht as [[[[? ?] ?] ?] Hm].
    splits; [by eapply sub_load_store..|]. by rewrite (mapping_okb_store n m q v m') by (done || lia).
Qed.

Lemma mem_bytes_store n m q v m' : store n m q v = Some m' -> mem_bytes m -> mem_bytes m'.
Proof.
  unfold store, mem_bytes. intros (blk & Hb & _ & _ & ->)%mstore_Some H.
  apply map_Forall_insert_2; [|done]. specialize (H _ _ Hb).
  repeat apply Forall_app_2; [by apply Forall_take|apply le_bytes_byte|by apply Forall_drop].
Qed.

Lemma load_range m k p v : mem_bytes m -> load k m p = Some v -> 0 <= v < 256 ^ k.
Proof.
  unfold load. intros H (bs & Hbs & ->)%fmap_Some. rewrite <- (mload_length _ _ _ _ Hbs).
  apply le_val_range. apply mload_Some in Hbs as (blk & Hb & _ & _ & _ & ->).
  apply Forall_take, Forall_drop. by apply (H _ _ Hb).
Qed.

End memory_steps.

(** The node invariant after an update, from that before it. *)
Ltac keep_node I :=
  let t := fresh in let H := fresh in
  destruct I as [? ? ? ? ? ? ? ? ? ? ? ? ? ? (t & H)]; constructor; try done;
  try (exists t; by destruct H; constructor).

Ltac keep_log := constructor; [done|done|exists []; by rewrite app_nil_r|try done|try apply alarms_step_refl].

(** ** Steps *)

Section steps.
Context (od : od_config) (room : nat) (count : Z).
Abbreviation good := (good od room count).
Abbreviation keeps := (keeps od room count).

Lemma keeps_get_od : keeps (get co_od) (fun o => o = od).
Proof. apply keeps_get. by intros d (_ & ? & _). Qed.

(** A variable of the stack, as an integer of [k] bytes. *)
Lemma keeps_rd_in k p : In (k, p) (od_pointers od) -> keeps (rd k p) (fun v => 0 <= v < 256 ^ k).
Proof.
  intros Hin. apply keeps_rd. intros d (I & <- & _). pose proof (no_mem _ I) as Hm.
  unfold mem_okb in Hm. rewrite !andb_true_iff, !forallb_forall in Hm. destruct Hm as [[[Hp _] _] _].
  specialize (Hp _ Hin). apply bool_decide_eq_true in Hp as [v Hv]. exists v. split; [done|].
  eapply load_range; [apply I|exact Hv].
Qed.

Lemma keeps_rd_count : keeps (rd 1 (ConsumerHeartbeatCount od)) (fun c => c = count).
Proof. apply keeps_rd. intros d (_ & _ & _ & E). by exists count. Qed.

Lemma keeps_wr n p v :
  apartb od p (Z.of_nat n) = true ->
  (forall d, good d -> is_Some (load (Z.of_nat n) (co_mem d) p)) -> keeps (wr n p v) any.
Proof.
  intros Ha Hl d (I & E & Hr & Hc). destruct (Hl d) as [x Hx]; [done|].
  destruct (wr_ok n p v d x Hx) as (m' & Hs & ->). exists tt, (d <| co_mem := m' |>).
  assert (Hcount : load 1 m' (ConsumerHeartbeatCount od) = load 1 (co_mem d) (ConsumerHeartbeatCount od)).
  { rewrite (load_store_other _ _ _ _ _ _ _ Hs); [done|].
    apply andb_true_iff in Ha as [Ha _]. by eapply disjointb_range. }
  splits; [done| |keep_log; cbn; by rewrite E|done]. hnf; splits; [|done|done|cbn; by rewrite Hcount].
  - pose proof (no_dict _ I). pose proof (no_bytes _ I). pose proof (no_mem _ I).
    keep_node I; [by eapply od_ok_mstore|by eapply mem_bytes_store|].
    cbn. rewrite E in *. by eapply mem_okb_store.
Qed.

Lemma keeps_wr_in n p v :
  apartb od p (Z.of_nat n) = true -> In (Z.of_nat n, p) (od_pointers od) -> keeps (wr n p v) any.
Proof.
  intros Ha Hin. apply keeps_wr; [done|]. intros d Hd.
  destruct (keeps_rd_in _ _ Hin d Hd) as (x & d' & E & _). unfold rd in E.
  by apply fmap_Some in E as (y & -> & _).
Qed.

Lemma keeps_send m : frame_ok m -> keeps (canSend m) any.
Proof.
  intros Hm d (I & ? & ? & ?). eexists _, _. splits; [reflexivity| |constructor|done]; try done; try apply alarms_step_refl.
  - hnf; splits; try done. pose proof (no_frames _ I) as Hf. keep_node I.
    apply Forall_app_2; [exact Hf|by constructor].
  - exists [Sent m]. split; [done|]. by repeat constructor.
Qed.

Definition is_sent (e : co_event) : bool := match e with Sent _ => true | _ => false end.

Lemma keeps_emit e : is_state_call e = false -> is_sent e = false -> keeps (emit e) any.
Proof.
  intros He Hs d (I & ? & ? & ?). eexists _, _. splits; [reflexivity| |constructor|done]; try done; try apply alarms_step_refl.
  - hnf; splits; try done. pose proof (no_frames _ I) as Hf. keep_node I.
    apply Forall_app_2; [exact Hf|]. constructor; [by destruct e|done].
  - exists [e]. split; [done|]. by repeat constructor.
Qed.

Lemma keeps_uninit : keeps Message_uninit message_ok.
Proof. apply keeps_get. intros d (I & _). apply I. Qed.

Lemma keeps_set_bytes i vs m : message_ok m -> bytes vs ->
  0 <= i -> i + Z.of_nat (length vs) <= 8 ->
  keeps (opt (set_bytes i vs m)) message_ok.
Proof.
  intros [Hm Hb] Hvs Hi Hl. destruct (set_bytes_is_Some i vs m) as [m' E]; [lia|lia|].
  eapply keeps_opt; [exact E|]. unfold message_ok, bytes in *.
  destruct (set_bytes_data _ _ _ _ E) as [-> _]; [lia|lia|]. split.
  - rewrite !length_app, length_take, length_drop. lia.
  - repeat apply Forall_app_2; [by apply Forall_take|done|by apply Forall_drop].
Qed.

(** A message of the node's own making. *)
Lemma short_frame id r n m : 0 <= id < 2 ^ 16 -> r = NOT_A_REQUEST \/ r = REQUEST -> 0 <= n <= 8 ->
  message_ok m -> frame_ok (MkMessage id r n (msg_data m)).
Proof. by constructor. Qed.

Lemma may_consumer d i : good d -> 0 <= i < count -> may_call d ConsumerHeartbeatAlarm_cb i.
Proof. intros (_ & Eo & _ & Hc) Hi. exists count. by rewrite Eo. Qed.

Lemma may_pdo d cb k : good d -> cb = PDOEventTimerAlarm_cb \/ cb = PDOInhibitTimerAlarm_cb ->
  0 <= k < Z.of_nat (tpdos od) -> may_call d cb k.
Proof. intros (_ & Eo & _) [-> | ->] Hk; cbn; by rewrite Eo. Qed.

Lemma keeps_SetAlarm id cb v p :
  0 <= v -> v + 1 < 2 ^ 32 -> 0 <= p < 2 ^ 32 -> (forall d, good d -> may_call d cb id) ->
  keeps (coSetAlarm id cb v p) handle_ok.
Proof.
  intros Hv Hv1 Hp Hc d Hd. pose proof (Hc d Hd) as Hcall. destruct Hd as (I & ? & ? & ?). destruct (no_line _ I) as [t0 L].
  destruct (coSetAlarm_ok id cb v p d) as (h & t & Es & It & Hh); [apply L|done..|].
  pose proof (SetAlarm_step (may_call d) d id cb v p h _ (al_timers _ _ L) Hv Hv1 Hp Hcall Es) as Hstep.
  rewrite Es. exists h, (d <| co_timers := t |>). splits; [done| |keep_log; exact Hstep|done].
  hnf; splits; try done. keep_node I.
Qed.

Lemma keeps_DelAlarm h : handle_ok h -> keeps (coDelAlarm h) handle_ok.
Proof.
  intros Hh d (I & ? & ? & ?). destruct (no_line _ I) as [t0 L].
  destruct (coDelAlarm_ok h d) as (t & Es & It); [apply L|done|].
  pose proof (DelAlarm_step (may_call d) d h _ _ (al_timers _ _ L) Hh Es) as Hstep.
  rewrite Es. exists TIMER_NONE, (d <| co_timers := t |>). splits; [done| |keep_log; exact Hstep|done].
  hnf; splits; try done. keep_node I.
Qed.

(** ** Registering functions *)

Lemma set_callback_ok w i cb d l :
  good d -> co_cbs d !! w = Some l -> 0 <= i < Z.of_nat (length l) ->
  exists d', set_callback w i cb d = Some (tt, d') /\ good d' /\ quiet_step d d' /\
    exists l', co_cbs d' !! w = Some l' /\ length l' = length l.
Proof.
  intros (I & ? & ? & ?) El Hi. unfold set_callback. rewrite El. cbn [mbind option_bind].
  rewrite arr_set_is_Some by done. cbn [mbind option_bind].
  eexists. splits; [reflexivity| |keep_log|].
  - hnf; splits; try done. pose proof (no_dict _ I) as [K1 K2 K3 K4]. keep_node I.
    constructor; [done..|]. cbn. intros w' j e l' Hs He [(<- & <-)|(Hne & Hl')]%lookup_insert_Some.
    + rewrite length_insert. by eapply K4.
    + by eapply K4.
  - eexists. cbn. rewrite lookup_insert_eq. split; [done|]. by rewrite length_insert.
Qed.

Lemma keeps_Register w s cb : 0 <= s -> keeps (RegisterSetODentryCallBack w s cb) any.
Proof.
  intros Hs d Hd. pose proof Hd as (I & _). unfold RegisterSetODentryCallBack, scanIndexOD. co_red.
  pose proof (no_dict _ I) as Hok.
  destruct (scan (co_od d) w) as [i|] eqn:Ei; co_red; [|exists OD_NO_SUCH_OBJECT, d; by auto 10 with cdb].
  destruct (co_cbs d !! w) as [l|] eqn:El; [|exists OD_SUCCESSFUL, d; by auto 10 with cdb].
  destruct (ok_entry _ _ _ Hok w i Ei) as [e He]. unfold od_entry. rewrite He. co_red.
  destruct (s <? bSubCount e) eqn:Es; zb.
  - pose proof (ok_cbs _ _ _ Hok w i e l Ei He El).
    destruct (set_callback_ok w s cb d l) as (d' & E & ? & ? & _); [done|done|lia|].
    rewrite when_true, E. by exists OD_SUCCESSFUL, d'.
  - rewrite when_false. exists OD_SUCCESSFUL, d. by auto 10 with cdb.
Qed.

(** The body of the loop of [PDOInit]. *)
Lemma keeps_register_tpdo k : 0 <= k < Z.of_nat (tpdos od) ->
  keeps ('(errorCode, _) ← scanIndexOD (u16 (0x1800 + k));
    cbs ← get co_cbs;
    when ((errorCode =? OD_SUCCESSFUL) && bool_decide (is_Some (cbs !! u16 (0x1800 + k))))
      (_ ← set_callback (u16 (0x1800 + k)) 2 (Some TPDO_Communication_Parameter_cb);
       _ ← set_callback (u16 (0x1800 + k)) 3 (Some TPDO_Communication_Parameter_cb);
       set_callback (u16 (0x1800 + k)) 5 (Some TPDO_Communication_Parameter_cb))) any.
Proof.
  intros Hk d Hd. pose proof Hd as (I & Eo & _). unfold scanIndexOD. co_red.
  pose proof (no_dict _ I) as Hok. pose proof (no_config _ I) as Hc. unfold config_okb in Hc.
  rewrite !andb_true_iff, !forallb_forall, Eo in Hc. destruct_and! Hc. zb.
  rewrite u16_small by lia. set (w := 0x1800 + k).
  assert (Hw : match scan od w with
    | Some i => match (objdict od).[i] with Some e => 6 <=? bSubCount e | None => true end
    | None => true end = true).
  { match goal with H : forall x, In x (seq 0 (tpdos od)) -> _ |- _ =>
      specialize (H (Z.to_nat k)); rewrite Z2Nat.id in H by lia; apply H, in_seq; lia end. }
  rewrite Eo. destruct (scan od w) as [i|] eqn:Ei; co_red; [|exists tt, d; by auto 10 with cdb].
  destruct (co_cbs d !! w) as [l|] eqn:El;
    [|rewrite bool_decide_eq_false_2, andb_false_r by (intros [? ?]; done);
      exists tt, d; by auto 10 with cdb].
  rewrite bool_decide_eq_true_2 by done. rewrite when_true.
  rewrite <- Eo in Ei. destruct (ok_entry _ _ _ Hok w i Ei) as [e He].
  pose proof (ok_cbs _ _ _ Hok w i e l Ei He El). rewrite Eo in He. rewrite He in Hw. zb.
  destruct (set_callback_ok w 2 (Some TPDO_Communication_Parameter_cb) d l)
    as (d1 & E1 & G1 & S1 & l1 & El1 & Hl1); [done|done|lia|].
  destruct (set_callback_ok w 3 (Some TPDO_Communication_Parameter_cb) d1 l1)
    as (d2 & E2 & G2 & S2 & l2 & El2 & Hl2); [done|done|lia|].
  destruct (set_callback_ok w 5 (Some TPDO_Communication_Parameter_cb) d2 l2)
    as (d3 & E3 & G3 & S3 & _); [done|done|lia|].
  exists tt, d3. rewrite E1, E2, E3. splits; [done|done|by eauto using quiet_step_trans|done].
Qed.
End steps.

(** ** The services *)

Section services.
Context (od : od_config) (room : nat) (count : Z).
Abbreviation good := (good od room count).
Abbreviation keeps := (keeps od room count).

Ltac leaf := first
  [ apply keeps_get_od | apply keeps_rd_count
  | apply keeps_rd_in; cbn; repeat (first [by left | right])
  | apply keeps_Register; lia
  | apply keeps_send | apply keeps_uninit | apply keeps_skip
  | apply keeps_DelAlarm; assumption | by apply keeps_ret ].
Ltac bind_leaf := eapply keeps_bind; [leaf|intros ? ?; cbn beta in *].

(** The alarm handles the node keeps. *)
Lemma keeps_handle (f : CO_Data -> Z) : (forall d, node_ok d -> handle_ok (f d)) -> keeps (get f) handle_ok.
Proof. intros H. apply keeps_get. intros d (I & _). by apply H. Qed.

Lemma keeps_lg (Q : co_lifeguard -> Prop) :
  (forall d, node_ok d -> Q (co_lg d)) -> keeps (get co_lg) Q.
Proof. intros H. apply keeps_get. intros d (I & _). by apply H. Qed.

Ltac keep_update := apply keeps_modify; intros ? (?I & ? & ? & ?); split; [|keep_log];
  hnf; splits; try done; keep_node I.

Lemma keeps_set_syncTimer h : handle_ok h -> keeps (set_syncTimer h) any.
Proof. intros Hh. keep_update. Qed.

Lemma keeps_stopSYNC : keeps stopSYNC any.
Proof.
  unfold stopSYNC. do 2 bind_leaf.
  eapply keeps_bind; [apply (keeps_handle syncTimer); by intros d []|intros h Hh].
  bind_leaf. by apply keeps_set_syncTimer.
Qed.

Lemma US_TO_TIMEVAL_small us : 0 <= us < 2 ^ 32 ->
  0 <= US_TO_TIMEVAL us /\ US_TO_TIMEVAL us + 1 < 2 ^ 32.
Proof.
  intros H. unfold US_TO_TIMEVAL. rewrite Z.shiftr_div_pow2 by lia.
  pose proof (Z.div_pos us (2 ^ 3)). pose proof (Z.div_lt_upper_bound us (2 ^ 3) (2 ^ 29)). lia.
Qed.

Lemma keeps_startSYNC : keeps startSYNC any.
Proof.
  unfold startSYNC.
  eapply keeps_bind; [apply (keeps_handle syncTimer); by intros d []|intros h Hh].
  eapply keeps_bind; [apply keeps_when; intros _; apply keeps_stopSYNC|intros _ _].
  do 3 bind_leaf. subst. bind_leaf. eapply keeps_bind; [leaf|intros period Hp].
  apply keeps_when. intros _. destruct (US_TO_TIMEVAL_small period Hp).
  eapply keeps_bind; [apply keeps_SetAlarm; [lia..|done]|intros ? ?]. by apply keeps_set_syncTimer.
Qed.

(** *** Heartbeat and node guarding *)

Lemma keeps_ConsumerEntry i : 0 <= i < count -> keeps (ConsumerHeartbeatEntry i) any.
Proof.
  intros Hi. unfold ConsumerHeartbeatEntry. bind_leaf. subst. apply keeps_rd.
  intros d (I & E & _ & Ec). pose proof (no_mem _ I) as Hm. unfold mem_okb in Hm. rewrite E in Hm.
  rewrite !andb_true_iff in Hm. destruct Hm as [[_ Hm] _]. unfold consumers_okb in Hm.
  rewrite Ec, andb_true_iff, forallb_forall in Hm. destruct Hm as [_ Hm].
  specialize (Hm (Z.to_nat i)). rewrite Z2Nat.id in Hm by lia.
  apply bool_decide_eq_true_1 in Hm as [v Hv]; [by exists v|]. apply in_seq. lia.
Qed.

Lemma good_count d : good d -> count <= Z.of_nat room.
Proof.
  intros (I & E & Hr & Ec). pose proof (no_mem _ I) as Hm. unfold mem_okb in Hm. rewrite E in Hm.
  rewrite !andb_true_iff in Hm. destruct Hm as [[_ Hm] _]. unfold consumers_okb in Hm.
  rewrite Ec, andb_true_iff, Hr in Hm. destruct Hm as [Hm _]. by zb.
Qed.

Lemma keeps_set_HeartBeatTimer i h : 0 <= i < count -> handle_ok h ->
  keeps (set_HeartBeatTimer i h) any.
Proof.
  intros Hi Hh d Hd. pose proof (good_count d Hd) as Hc. destruct Hd as (I & ? & Hr & ?).
  unfold set_HeartBeatTimer. rewrite arr_set_is_Some by lia. eexists _, _.
  splits; [reflexivity| |keep_log|done]. hnf; splits; try done; [|cbn; by rewrite length_insert].
  pose proof (no_mem _ I). pose proof (no_consumers _ I). keep_node I.
  - cbn [set co_lg co_od co_mem ConsumerHeartBeatTimers]. by rewrite length_insert.
  - apply handles_insert; [done|lia|done].
Qed.

Lemma keeps_get_HeartBeatTimer i : 0 <= i < count -> keeps (get_HeartBeatTimer i) handle_ok.
Proof.
  intros Hi d Hd. pose proof (good_count d Hd) as Hc. pose proof Hd as (I & ? & Hr & ?).
  unfold get_HeartBeatTimer. co_red.
  destruct (arr_get_is_Some (ConsumerHeartBeatTimers (co_lg d)) i) as [h Eh]; [lia|].
  rewrite Eh. exists h, d. splits; auto with cdb. by apply (no_consumers _ I i).
Qed.

Lemma keeps_heartbeatInit : keeps heartbeatInit any.
Proof.
  unfold heartbeatInit. bind_leaf. eapply keeps_bind; [keep_update|intros _ _].
  bind_leaf. subst. eapply keeps_bind; [leaf|intros c ->].
  eapply keeps_bind; [apply keeps_for; intros i Hi|intros _ _].
  - eapply keeps_bind; [apply keeps_ConsumerEntry; lia|intros e _]. cbn zeta.
    apply keeps_when. intros _. pose proof (MS_TO_TIMEVAL_small _ (HeartBeat_time_range e)) as [? ?].
    eapply keeps_bind; [apply keeps_SetAlarm; [lia..|intros d Hd; apply (may_consumer od room count); [done|lia]]|intros h Hh].
    apply keeps_set_HeartBeatTimer; [lia|done].
  - eapply keeps_bind; [leaf|intros t Ht]. apply keeps_when. intros _.
    destruct (MS_TO_TIMEVAL_small t Ht) as [? ?].
    eapply keeps_bind; [apply keeps_SetAlarm; [lia..|done]|intros h Hh]. keep_update.
Qed.

Lemma keeps_heartbeatStop : keeps heartbeatStop any.
Proof.
  unfold heartbeatStop. bind_leaf. subst. eapply keeps_bind; [leaf|intros c ->].
  eapply keeps_bind; [apply keeps_for; intros i Hi|intros _ _].
  - eapply keeps_bind; [apply keeps_get_HeartBeatTimer; lia|intros h Hh]. bind_leaf.
    by apply keeps_set_HeartBeatTimer; [lia|].
  - eapply keeps_bind; [apply (keeps_lg (fun lg => handle_ok (ProducerHeartBeatTimer lg))); by intros d []|intros lg Hh].
    bind_leaf. keep_update.
Qed.

Lemma keeps_get_NMTable i : 0 <= i < 128 -> keeps (get_NMTable i) any.
Proof.
  intros Hi d Hd. pose proof Hd as (I & _). unfold get_NMTable. co_red.
  destruct (arr_get_is_Some (NMTable (co_lg d)) i) as [s Es]; [rewrite (no_table _ I); lia|].
  rewrite Es. exists s, d. auto 10 with cdb.
Qed.

Lemma keeps_set_nodeGuardStatus i v : 0 <= i < 128 -> keeps (set_nodeGuardStatus i v) any.
Proof.
  intros Hi d (I & ? & ? & ?). unfold set_nodeGuardStatus. pose proof (no_guards _ I) as Hg.
  rewrite arr_set_is_Some by lia. eexists _, _. splits; [reflexivity| |keep_log|done].
  hnf; splits; try done. keep_node I. cbn. by rewrite length_insert.
Qed.

Lemma keeps_nodeguardInit : keeps nodeguardInit any.
Proof.
  unfold nodeguardInit. do 3 bind_leaf. subst. eapply keeps_bind; [leaf|intros t Ht].
  bind_leaf. apply keeps_when. intros _. destruct (MS_TO_TIMEVAL_small t Ht) as [? ?].
  eapply keeps_bind; [apply keeps_SetAlarm; [lia..|done]|intros h Hh].
  eapply keeps_bind; [keep_update|intros _ _].
  apply keeps_for. intros i Hi. change (Z.of_nat (Z.to_nat NMT_MAX_NODE_ID)) with 128 in Hi.
  eapply keeps_bind; [by apply keeps_get_NMTable; lia|intros s _].
  destruct (s =? Unknown_state); [apply keeps_skip|]. bind_leaf.
  apply keeps_when. intros _. by apply keeps_set_nodeGuardStatus; lia.
Qed.

Lemma keeps_nodeguardStop : keeps nodeguardStop any.
Proof.
  unfold nodeguardStop.
  eapply keeps_bind; [apply (keeps_lg (fun lg => handle_ok (GuardTimeTimer lg))); by intros d []|intros lg Hh].
  bind_leaf. keep_update.
Qed.

Lemma keeps_lifeGuardInit : keeps lifeGuardInit any.
Proof. eapply keeps_bind; [apply keeps_heartbeatInit|intros _ _; apply keeps_nodeguardInit]. Qed.

Lemma keeps_lifeGuardStop : keeps lifeGuardStop any.
Proof. eapply keeps_bind; [apply keeps_heartbeatStop|intros _ _; apply keeps_nodeguardStop]. Qed.
End services.

(** ** Transmit PDOs *)

Section transmit.
Context (od : od_config) (room : nat) (count : Z).
Context (Hcfg : config_okb od = true).
Abbreviation good := (good od room count).
Abbreviation keeps := (keeps od room count).
Implicit Types (m : Message).

Lemma sub_load_value k d i s : sub_value k d i s = sub_load (co_od d) (co_mem d) k i s.
Proof.
  unfold sub_value, sub_load, sub_ptr. destruct (objdict (co_od d)).[i] as [e|]; [|done].
  cbn [mbind option_bind]. by destruct (pSubindex e).[s].
Qed.

Lemma good_tpdo d k : good d -> 0 <= k < Z.of_nat (tpdos od) -> tpdo_okb od (co_mem d) k = true.
Proof.
  intros (I & E & _) Hk. pose proof (no_mem _ I) as Hm. unfold mem_okb in Hm. rewrite E in Hm.
  rewrite !andb_true_iff, !forallb_forall in Hm. destruct Hm as [_ Hm].
  specialize (Hm (Z.to_nat k)). rewrite Z2Nat.id in Hm by lia. apply Hm, in_seq. lia.
Qed.

Lemma keeps_rd_sub k i s :
  (forall d, good d -> is_Some (sub_load od (co_mem d) k i s)) ->
  keeps (rd_sub k i s) (fun v => 0 <= v < 256 ^ k).
Proof.
  intros H d Hd. destruct (H d Hd) as [v Hv]. pose proof Hd as (I & E & _). exists v, d.
  rewrite (rd_sub_ok _ _ _ _ v) by (by rewrite sub_load_value, E).
  split; [done|]. split; [done|]. split; [auto with cdb|].
  unfold sub_load in Hv. apply bind_Some in Hv as (p & _ & Hv).
  eapply load_range; [apply I|exact Hv].
Qed.

(** The communication parameters of a transmit PDO. *)
Lemma keeps_rd_com j s k : In (j, s) [(4, 1); (1, 2); (2, 3); (2, 5)] ->
  0 <= k < Z.of_nat (tpdos od) -> keeps (rd_sub j (tpdo_com od k) s) (fun v => 0 <= v < 256 ^ j).
Proof.
  intros Hin Hk. apply keeps_rd_sub. intros d Hd. pose proof (good_tpdo d k Hd Hk) as H.
  unfold tpdo_okb in H. rewrite !andb_true_iff, !bool_decide_eq_true in H. destruct_and! H.
  cbn in Hin. by destruct Hin as [[= <- <-]|[[= <- <-]|[[= <- <-]|[[= <- <-]|[]]]]].
Qed.

(** *** Building, whatever the mapping names *)

Lemma getODentry_total w s e d :
  node_od_ok d -> 0 <= s ->
  (forall i x, find_sub (co_od d) w s = Some (i, x) -> bDataType x <> visible_string) ->
  exists r, getODentry w s false e false d = Some (r, d) /\
    (rd_code r = OD_SUCCESSFUL -> Z.of_nat (length (rd_bytes r)) <= e).
Proof.
  intros Hok Hs Hx. rewrite getODentry_find by done.
  destruct (scan (co_od d) w); [|by eexists].
  destruct (find_sub (co_od d) w s) as [[j x]|] eqn:Hf; [|by eexists].
  destruct (find_sub_object _ _ _ _ _ _ _ Hok Hf) as (_ & bs & Hbs).
  destruct (decide (od_size x <= e)).
  - eexists. split; [apply read_sub_ok; by eauto|]. intros _. cbn.
    by rewrite (mload_length _ _ _ _ Hbs).
  - unfold read_sub. cbn [andb]. ztest. by eexists.
Qed.

(** What the loop answers. *)
Definition built_all (m0 : Message) (r : option Z * Message) : Prop :=
  (forall off, fst r = Some off -> 0 <= off <= 64) /\ message_ok (snd r) /\ cob_id (snd r) = cob_id m0 /\ rtr (snd r) = rtr m0.

(** What a turn of it answers. *)
Definition built (m0 : Message) (r : option (Z * Message)) : Prop :=
  match r with
  | Some (off, m) => 0 <= off <= 64 /\ message_ok m /\ cob_id m = cob_id m0 /\ rtr m = rtr m0
  | None => True
  end.

#[local] Ltac Zify.zify_post_hook ::= Z.to_euclidean_division_equations.

(** The length of a message of [off] bits. *)
Lemma built_len off : 0 <= off <= 64 -> 0 <= u8 (1 + Z.shiftr (u32 (off - 1)) 3) <= 8.
Proof.
  intros H. destruct (decide (off = 0)) as [->|Hne]; [by vm_compute|].
  rewrite u32_small, shiftr3, u8_small by lia. lia.
Qed.


Lemma build_entry_total mapi j off m d :
  good d -> map_entry_okb od (co_mem d) mapi j = true -> 0 <= off <= 64 -> message_ok m ->
  exists r, build_entry mapi j off m d = Some (r, d) /\ built m r.
Proof.
  intros (I & E & _) He Hoff [Hl Hb]. unfold map_entry_okb in He.
  destruct (sub_load od _ 4 mapi (j + 1)) as [p|] eqn:Ep; [|done]. unfold build_entry.
  rewrite <- E, <- sub_load_value in Ep. rewrite (st_bind_eq _ _ _ _ _ (rd_sub_ok _ _ _ _ _ Ep)).
  cbn zeta. pose proof (map_size_range p).
  destruct (negb (map_size p =? 0) && (off + map_size p <=? 64)) eqn:Es; [|by eexists]. zb.
  destruct (getODentry_total (map_index p) (map_subIndex p) (1 + Z.shiftr (map_size p - 1) 3) d)
    as (r & Er & Hr); [apply I|apply map_subIndex_range| |].
  { rewrite E. intros i x Hf. rewrite Hf in He. by zb. }
  rewrite (st_bind_eq _ _ _ _ _ Er).
  destruct (rd_code r =? OD_SUCCESSFUL) eqn:Ec; cbn [negb]; [|by eexists]. zb.
  specialize (Hr Ec). rewrite shiftr3 in Hr.
  destruct (fill8_ok (rd_bytes r)) as (t & -> & Ht & _); [lia|].
  destruct (CopyBits_copies (map_size p) t 0 0 (msg_data m) (Z.shiftr off 3) (off mod 8))
    as (l & Hc & Hll & Hlb & _); try (rewrite ?shiftr3; lia); [done|].
  co_red. rewrite Hc. eexists. split; [reflexivity|]. cbn. split; [lia|].
  split; [|done]. split; [by rewrite <- Hl|done].
Qed.

Lemma build_entries_total mapi d : good d -> mapping_okb od (co_mem d) mapi = true ->
  forall fuel j off m, 0 <= j ->
  (j = 0 \/ exists c, sub_load od (co_mem d) 1 mapi 0 = Some c /\ j < c) ->
  0 <= off <= 64 -> message_ok m ->
  exists r, build_entries fuel mapi j off m d = Some (r, d) /\ built_all m r.
Proof.
  intros Hd Hm. unfold mapping_okb in Hm.
  destruct (sub_load od _ 1 mapi 0) as [c|] eqn:Ec; [|done]. rewrite forallb_forall in Hm.
  pose proof Hd as (I & E & _). pose proof Ec as Ev. rewrite <- E, <- sub_load_value in Ev.
  induction fuel as [|fuel IH]; intros j off m Hj Hc Hoff Hmo; cbn [build_entries].
  { exists (Some off, m). split; [done|]. split; [by intros ? [= <-]|done]. }
  destruct (build_entry_total mapi j off m d) as (r & Er & Hr); try done.
  { specialize (Hm (Z.to_nat j)). rewrite Z2Nat.id in Hm by lia. apply Hm, in_seq.
    destruct Hc as [->|(c' & [= <-] & Hlt)]; lia. }
  rewrite (st_bind_eq _ _ _ _ _ Er).
  destruct r as [[off' m']|]; [|by exists (None, m)]. destruct Hr as (Hoff' & Hmo' & Hid & Hrtr).
  rewrite (st_bind_eq _ _ _ _ _ (rd_sub_ok _ _ _ _ _ Ev)).
  destruct (j + 1 <? c) eqn:El; zb;
    [|exists (Some off', m'); split; [done|]; split; [by intros ? [= <-]|done]].
  destruct (IH (j + 1) off' m') as (r & Er' & Hr'); [lia|by right; exists c|done|done|].
  exists r. split; [done|]. destruct Hr' as (H1 & H2 & H3 & H4). split; [done|]. splits; [done|congruence..].
Qed.

(** The node is unchanged; the message carries the identifier of the PDO. *)
Lemma buildPDO_total k m d : good d -> 0 <= k < Z.of_nat (tpdos od) -> message_ok m ->
  exists cobid err m', sub_load od (co_mem d) 4 (tpdo_com od k) 1 = Some cobid /\
    buildPDO k m d = Some ((err, m'), d) /\ message_ok m' /\
    cob_id m' = u16 (Z.land cobid 0x7FF) /\ (err = 0 -> frame_ok m').
Proof.
  intros Hd Hk Hm. pose proof (good_tpdo d k Hd Hk) as H. pose proof Hd as (I & E & _).
  unfold tpdo_okb in H. rewrite !andb_true_iff, !bool_decide_eq_true in H.
  destruct H as [[[[[c Hc] _] _] _] Hmap]. exists c. unfold buildPDO. co_red. rewrite E.
  pose proof Hc as Hv. rewrite <- E, <- sub_load_value in Hv. rewrite E in Hv.
  fold (tpdo_com od k) (tpdo_map od k). rewrite (rd_sub_ok _ _ _ _ _ Hv). cbn zeta.
  set (m0 := m <| cob_id := _ |> <| rtr := _ |>).
  destruct (build_entries_total (tpdo_map od k) d Hd Hmap 256 0 0 m0) as (r & -> & Hr);
    [lia|by left|lia|done|].
  destruct Hr as (Hoff & Hmo & Hid & Hrtr).
  destruct r as [[off|] m']; [|eexists _, _; splits; [done|reflexivity|exact Hmo|exact Hid|done]].
  specialize (Hoff off eq_refl). cbn [snd] in Hmo, Hid, Hrtr. eexists _, _; splits; [done|reflexivity|done|done|].
  intros _. constructor.
  - change (0 <= cob_id m' < 2 ^ 16). rewrite Hid. apply u16_range.
  - left. exact Hrtr.
  - by apply built_len.
  - exact Hmo.
Qed.

Lemma keeps_buildPDO k m : 0 <= k < Z.of_nat (tpdos od) -> message_ok m ->
  keeps (buildPDO k m) (fun r => message_ok (snd r) /\ (fst r = 0 -> frame_ok (snd r))).
Proof.
  intros Hk Hm d Hd. destruct (buildPDO_total k m d) as (c & err & m' & _ & E & Hm' & _ & Hf); [done..|].
  exists (err, m'), d. auto with cdb.
Qed.

(** *** Sending *)

Lemma keeps_csPDO_on : keeps csPDO_on any.
Proof. intros d Hd. eexists _, d. unfold csPDO_on. co_red. auto 10 with cdb. Qed.

Lemma keeps_get_PDO_status k : 0 <= k < Z.of_nat (tpdos od) -> keeps (get_PDO_status k) status_ok.
Proof.
  intros Hk d Hd. pose proof Hd as (I & E & _). rewrite <- E in Hk.
  destruct (no_status _ I k Hk) as (s & Hs & Hok). exists s, d. unfold get_PDO_status. co_red.
  rewrite Hs. auto 10 with cdb.
Qed.

Lemma keeps_upd_PDO_status k f : 0 <= k < Z.of_nat (tpdos od) ->
  (forall s, status_ok s -> status_ok (f s)) -> keeps (upd_PDO_status k f) any.
Proof.
  intros Hk Hf d (I & E & ? & ?). rewrite <- E in Hk. pose proof (no_status _ I) as Hst.
  destruct (Hst k Hk) as (s & Hs & Hok). unfold upd_PDO_status. rewrite Hs. cbn [mbind option_bind].
  pose proof (arr_get_lt _ _ _ Hs). rewrite arr_set_is_Some by done. cbn [mbind option_bind].
  eexists _, _. splits; [reflexivity| |keep_log|done]. hnf; splits; try done. keep_node I.
  intros j Hj. cbn. rewrite insert_get by done. case_decide; [eauto|by apply Hst].
Qed.

Ltac status := let s := fresh in let H := fresh in
  intros s H; destruct H; by constructor.

Lemma keeps_sendPdo k m : 0 <= k < Z.of_nat (tpdos od) -> message_ok m -> frame_ok m ->
  keeps (sendPdo k m) any.
Proof.
  intros Hk Hm Hf. unfold sendPdo.
  eapply keeps_bind; [apply keeps_upd_PDO_status; [done|status]|intros _ _].
  eapply keeps_bind; [by apply keeps_send|intros _ _; apply keeps_skip].
Qed.

Lemma Message_Initializer_ok : message_ok Message_Initializer.
Proof. split; [done|]. by repeat constructor. Qed.

(** Replacing an alarm of a PDO. *)
Lemma keeps_rearm k cb h v f : 0 <= k < Z.of_nat (tpdos od) -> handle_ok h ->
  cb = PDOEventTimerAlarm_cb \/ cb = PDOInhibitTimerAlarm_cb ->
  0 <= v -> v + 1 < 2 ^ 32 ->
  (forall h s, handle_ok h -> status_ok s -> status_ok (f h s)) ->
  keeps (_ ← coDelAlarm h; h ← coSetAlarm k cb v 0; upd_PDO_status k (f h)) any.
Proof.
  intros Hk Hh Hcb Hv Hv1 Hf. eapply keeps_bind; [by apply keeps_DelAlarm|intros _ _].
  eapply keeps_bind; [apply keeps_SetAlarm; [lia..|intros d Hd; by apply (may_pdo od room count)]|intros h' Hh'].
  apply keeps_upd_PDO_status; [done|]. intros s Hs. by apply Hf.
Qed.

Lemma config_bounds : 0 <= PDO_TRS (firstIndex od) /\
  PDO_TRS (firstIndex od) + Z.of_nat (tpdos od) <= 65536 /\ Z.of_nat (tpdos od) <= 256.
Proof. unfold config_okb in Hcfg. rewrite !andb_true_iff in Hcfg. destruct_and! Hcfg. zb. lia. Qed.

Lemma keeps_sendOnePDOevent k : 0 <= k < Z.of_nat (tpdos od) -> keeps (sendOnePDOevent k) any.
Proof.
  intros Hk. unfold sendOnePDOevent. eapply keeps_bind; [apply keeps_csPDO_on|intros on _].
  destruct (negb on); [by apply keeps_ret|].
  eapply keeps_bind; [by apply keeps_get_PDO_status|intros s1 _].
  destruct (negb _); [by apply keeps_ret|].
  eapply keeps_bind; [apply keeps_get_od|intros ? ->]. pose proof config_bounds.
  rewrite u16_small by lia. fold (tpdo_com od k). cbn zeta.
  eapply keeps_bind; [by apply keeps_buildPDO, Message_Initializer_ok|intros [err m] [Hm Hf]].
  cbn beta iota. destruct (negb (err =? 0)) eqn:Eerr; [by apply keeps_ret|]. zb.
  eapply keeps_bind; [by apply keeps_get_PDO_status|intros s [He Hi _]].
  destruct (same_message _ _); [by apply keeps_ret|].
  eapply keeps_bind; [by apply keeps_rd_com; [cbn; auto|]|intros ev Hev].
  eapply keeps_bind; [by apply keeps_rd_com; [cbn; auto|]|intros ih Hih]. cbn beta in *.
  eapply keeps_bind; [apply keeps_when; intros _|intros _ _].
  { destruct (MS_TO_TIMEVAL_small ev Hev). apply (keeps_rearm k _ _ _ (fun h => set event_timer (fun _ => h)));
      auto. intros h s0 Hh0. revert s0. status. }
  eapply keeps_bind; [apply keeps_when; intros _|intros _ _].
  { destruct (US_TO_TIMEVAL_small (ih * 100)); [lia|].
    apply (keeps_rearm k _ _ _ (fun h s => s <| inhibit_timer := h |>
         <| transmit_type_parameter ::= (fun p => Z.lor p PDO_INHIBITED) |>)); auto.
    intros h s0 Hh0. revert s0. status. }
  eapply keeps_bind; [by apply keeps_sendPdo; auto|intros _ _; by apply keeps_ret].
Qed.

Lemma keeps_sendPDOevent_one sync k : 0 <= k < Z.of_nat (tpdos od) ->
  keeps (sendPDOevent_one sync k (tpdo_com od k)) any.
Proof.
  intros Hk. unfold sendPDOevent_one.
  eapply keeps_bind; [by apply keeps_rd_com; [cbn; auto|]|intros cobid _].
  destruct (negb _); [apply keeps_skip|].
  eapply keeps_bind; [by apply keeps_rd_com; [cbn; auto|]|intros type _]. cbn zeta.
  eapply keeps_bind; [apply keeps_when; intros _; apply keeps_upd_PDO_status; [done|status]|intros _ _].
  eapply keeps_bind; [by apply keeps_get_PDO_status|intros s [He Hi Hl]].
  destruct (_ && _).
  - eapply keeps_bind; [apply keeps_upd_PDO_status; [done|status]|intros _ _].
    eapply keeps_bind; [by apply keeps_buildPDO, Message_Initializer_ok|intros [err m] [Hm Hf]].
    cbn beta iota. destruct (negb _) eqn:Eerr; [apply keeps_skip|]. zb. apply keeps_sendPdo; auto.
  - destruct (sync && (type =? TRANS_RTR_SYNC)).
    + eapply keeps_bind; [by apply keeps_buildPDO|intros [err m] [Hm _]].
      cbn beta iota. apply keeps_upd_PDO_status; [done|]. intros s0 []. by constructor.
    + destruct (_ || _); [|apply keeps_skip].
      eapply keeps_bind; [by apply keeps_sendOnePDOevent|intros _ _; apply keeps_skip].
Qed.

Lemma keeps_sendPDOevent sync : keeps (_sendPDOevent sync) any.
Proof.
  unfold _sendPDOevent. eapply keeps_bind; [apply keeps_get_od|intros ? ->].
  eapply keeps_bind; [apply keeps_csPDO_on|intros on _]. destruct (negb on); [by apply keeps_ret|].
  cbn zeta. eapply keeps_bind; [apply keeps_for; intros k Hk|intros _ _; by apply keeps_ret].
  pose proof config_bounds. rewrite u8_small by (unfold tpdos in *; lia).
  apply keeps_sendPDOevent_one. unfold tpdos. lia.
Qed.

Lemma keeps_PDOInit : keeps PDOInit any.
Proof.
  unfold PDOInit. eapply keeps_bind; [apply keeps_get_od|intros ? ->]. cbn zeta.
  eapply keeps_bind; [apply keeps_for; intros k Hk; apply keeps_register_tpdo; unfold tpdos; lia
                     |intros _ _].
  eapply keeps_bind; [apply keeps_sendPDOevent|intros _ _; apply keeps_skip].
Qed.

Lemma keeps_zap_timers k : 0 <= k < Z.of_nat (tpdos od) -> keeps (zap_timers k) any.
Proof.
  intros Hk. unfold zap_timers.
  eapply keeps_bind; [by apply keeps_get_PDO_status|intros s [He _ _]].
  eapply keeps_bind; [by apply keeps_DelAlarm|intros h Hh].
  eapply keeps_bind; [apply keeps_upd_PDO_status; [done|status]|intros _ _].
  eapply keeps_bind; [by apply keeps_get_PDO_status|intros s2 [_ Hi _]].
  eapply keeps_bind; [by apply keeps_DelAlarm|intros h2 Hh2].
  apply keeps_upd_PDO_status; [done|status].
Qed.

Lemma keeps_PDOStop : keeps PDOStop any.
Proof.
  unfold PDOStop. eapply keeps_bind; [apply keeps_get_od|intros ? ->]. cbn zeta.
  apply keeps_for. intros k Hk. pose proof config_bounds.
  rewrite u8_small by (unfold tpdos in *; lia).
  assert (0 <= k < Z.of_nat (tpdos od)) by (unfold tpdos; lia).
  eapply keeps_bind; [by apply keeps_zap_timers|intros _ _].
  apply keeps_upd_PDO_status; [done|status].
Qed.

(** *** The other services *)

Lemma config_apart p n : In (p, n) [(error_number od, 1); (bDeviceNodeId od, 1); (error_cobid od, 4)] ->
  apartb od p n = true.
Proof.
  unfold config_okb in Hcfg. rewrite !andb_true_iff in Hcfg. destruct_and! Hcfg. cbn.
  by intros [[= <- <-]|[[= <- <-]|[[= <- <-]|[]]]].
Qed.

Lemma keeps_emergencyInit : keeps emergencyInit any.
Proof.
  unfold emergencyInit. eapply keeps_bind; [by apply keeps_Register|intros _ _].
  eapply keeps_bind; [apply keeps_get_od|intros ? ->].
  apply keeps_wr_in; [apply config_apart; cbn; auto|cbn; auto 10].
Qed.

Lemma upd_line_timers k f d u d' : upd_line k f d = Some (u, d') -> co_timers d' = co_timers d.
Proof. unfold upd_line. by intros (t & _ & (l & _ & [= _ <-])%bind_Some)%bind_Some. Qed.

(** Resetting the line deletes its alarm. *)
Lemma resetSDOline_step Q d t u d' : at_line d t -> resetSDOline 0 d = Some (u, d') ->
  alarms_step Q (co_timers d) (co_timers d').
Proof.
  intros L E. unfold resetSDOline, initSDOline, StopSDO_TIMER in E.
  apply st_bind_Some in E as (? & d3 & E & E3%upd_line_timers).
  apply st_bind_Some in E as (? & d2 & E & E2%upd_line_timers). cbn [Z.eqb orb] in E.
  change (_ || _) with false in E. cbv iota in E.
  rewrite (st_bind_eq _ _ _ _ _ (get_line_eq _ _ L)) in E.
  apply st_bind_Some in E as (h & d1 & E1 & E%upd_line_timers). rewrite E3, E2, E.
  exact (DelAlarm_step Q d _ _ _ (al_timers _ _ L) (al_handle _ _ L) E1).
Qed.

Lemma keeps_resetSDO : keeps resetSDO any.
Proof.
  unfold resetSDO. apply keeps_for. intros k Hk.
  change (Z.of_nat (Z.to_nat SDO_MAX_SIMULTANEOUS_TRANSFERS)) with 1 in Hk.
  replace k with 0 by lia. intros d (I & ? & ? & ?). destruct (no_line _ I) as [t L].
  destruct (resetSDOline_eq d t L) as (h & tm & Er & Hh & It).
  pose proof (resetSDOline_step (may_call d) _ _ _ _ L Er) as Hstep. rewrite Er.
  eexists _, _. splits; [reflexivity| |keep_log; exact Hstep|done]. hnf; splits; try done. keep_node I.
  eexists. by apply free_line_ok.
Qed.

Lemma keeps_slaveSendBootUp : keeps slaveSendBootUp any.
Proof.
  unfold slaveSendBootUp. eapply keeps_bind; [apply keeps_get_od|intros ? ->].
  eapply keeps_bind; [apply keeps_uninit|intros m Hm].
  eapply keeps_bind; [apply keeps_rd_in; cbn; auto|intros id _]. cbn zeta.
  eapply keeps_bind; [apply keeps_set_bytes; [done|by repeat constructor|lia|cbn; lia]|intros m' Hm'].
  apply keeps_send, short_frame; done || lia || apply u16_range || by left.
Qed.

Lemma keeps_masterSend i cs : is_byte i -> is_byte cs -> keeps (masterSendNMTstateChange i cs) any.
Proof.
  intros Hi Hcs. unfold masterSendNMTstateChange. eapply keeps_bind; [apply keeps_uninit|intros m Hm].
  eapply keeps_bind; [apply keeps_set_bytes; [done|apply Forall_cons_2; [done|by apply Forall_cons_2]|lia|cbn; lia]|intros m' Hm'].
  apply keeps_send, short_frame; done || lia || by left.
Qed.
(** *** Received messages *)

Lemma keeps_proceedSYNC : keeps proceedSYNC any.
Proof.
  unfold proceedSYNC. eapply keeps_bind; [by apply keeps_emit|intros _ _].
  eapply keeps_bind; [apply keeps_csPDO_on|intros on _]. destruct (negb on); [by apply keeps_ret|].
  eapply keeps_bind; [apply keeps_sendPDOevent|intros r _].
  eapply keeps_bind; [by apply keeps_emit|intros _ _; by apply keeps_ret].
Qed.

Lemma keeps_data_at m i : length (msg_data m) = 8%nat -> 0 <= i < 8 -> keeps (data_at m i) any.
Proof.
  intros Hm Hi. unfold data_at. destruct (arr_get_is_Some (msg_data m) i) as [v Hv]; [lia|].
  by eapply keeps_opt.
Qed.

Lemma keeps_proceedEMCY m : length (msg_data m) = 8%nat -> keeps (proceedEMCY m) any.
Proof.
  intros Hm. unfold proceedEMCY. destruct (negb _); [apply keeps_skip|].
  eapply keeps_bind; [by apply keeps_data_at; [|lia]|intros b0 _].
  eapply keeps_bind; [by apply keeps_data_at; [|lia]|intros b1 _].
  eapply keeps_bind; [by apply keeps_data_at; [|lia]|intros reg _]. by apply keeps_emit.
Qed.

Lemma keeps_set_NMTable i v : 0 <= i < 128 -> keeps (set_NMTable i v) any.
Proof.
  intros Hi d (I & ? & ? & ?). unfold set_NMTable. pose proof (no_table _ I) as Hg.
  rewrite arr_set_is_Some by lia. eexists _, _. splits; [reflexivity| |keep_log|done].
  hnf; splits; try done. keep_node I. cbn. by rewrite length_insert.
Qed.

Lemma keeps_answer_nodeguard : keeps answer_nodeguard any.
Proof.
  unfold answer_nodeguard. eapply keeps_bind; [apply keeps_get_od|intros ? ->].
  eapply keeps_bind; [apply keeps_uninit|intros m Hm].
  eapply keeps_bind; [apply keeps_rd_in; cbn; auto|intros id _].
  eapply keeps_bind; [by apply (keeps_get _ _ _ co_st any)|intros st _].
  eapply keeps_bind; [by apply (keeps_get _ _ _ co_lg any)|intros lg _]. cbn zeta.
  eapply keeps_bind; [apply keeps_set_bytes; [done| |lia|cbn; lia]|intros m' Hm'].
  { apply Forall_cons_2; [|done]. destruct (negb _); [apply (lor_range 8); [done|apply u8_range|done]|apply u8_range]. }
  eapply keeps_bind; [|intros _ _; eapply keeps_bind; [apply keeps_send, short_frame;
    by auto using u16_range|intros _ _; apply keeps_skip]].
  apply keeps_modify. intros d (I & ? & ? & ?). split; [|keep_log]. hnf; splits; try done. keep_node I.
Qed.

Lemma keeps_renew_consumers nodeId : keeps (renew_consumers nodeId count) any.
Proof.
  apply keeps_for. intros i Hi. eapply keeps_bind; [apply keeps_ConsumerEntry; lia|intros e _].
  apply keeps_when. intros _. pose proof (MS_TO_TIMEVAL_small _ (HeartBeat_time_range e)) as [? ?].
  eapply keeps_bind; [apply keeps_get_HeartBeatTimer; lia|intros h Hh].
  eapply keeps_bind; [by apply keeps_DelAlarm|intros _ _].
  eapply keeps_bind; [apply keeps_SetAlarm; [lia..|intros d Hd; apply (may_consumer od room count); [done|lia]]|intros h' Hh'].
  apply keeps_set_HeartBeatTimer; [lia|done].
Qed.

Lemma keeps_proceedNODE_GUARD m : length (msg_data m) = 8%nat -> keeps (proceedNODE_GUARD m) any.
Proof.
  intros Hm. unfold proceedNODE_GUARD.
  assert (Hn : 0 <= GET_NODE_ID m < 128) by (apply (land_range 7); lia).
  eapply keeps_bind; [apply keeps_get_od|intros ? ->]. destruct (rtr m =? 1).
  { eapply keeps_bind; [apply keeps_rd_in; cbn; auto|intros id _].
    apply keeps_when. intros _. apply keeps_answer_nodeguard. }
  eapply keeps_bind; [by apply keeps_data_at; [|lia]|intros b _]. cbn zeta.
  eapply keeps_bind; [apply keeps_rd_in; cbn; auto 12|intros f _].
  eapply keeps_bind; [by apply keeps_set_nodeGuardStatus|intros _ _].
  eapply keeps_bind; [by apply keeps_get_NMTable|intros old _].
  eapply keeps_bind; [apply keeps_when; intros _|intros _ _].
  { eapply keeps_bind; [by apply keeps_emit|intros _ _; by apply keeps_set_NMTable]. }
  eapply keeps_bind; [by apply keeps_get_NMTable|intros s _].
  eapply keeps_bind; [apply keeps_when; intros _; by apply keeps_emit|intros _ _].
  apply keeps_when. intros _. eapply keeps_bind; [apply keeps_rd_count|intros c ->].
  apply keeps_renew_consumers.
Qed.
End transmit.
