(* ===== verification/SyncFacts.v ===== *)
(** * SyncFacts: the cadence of synchronous PDOs (src/sync.c with src/pdo.c)

    A transmit PDO of transmission type [n] from 1 to 240 is sent at every [n]-th
    SYNC.  The turns of the loop on the other PDOs are followed only as far as
    they concern this one: [does j m Q] says that [m], run on a good node, returns
    an answer that satisfies [Q], leaves such a node, and has touched at most the
    status of PDO [j] and sent only messages with its identifier. *)

From S2P Require Import Prelude CMem Timers Node ObjDict Emcy Nmt LifeGuard Bits Pdo Sync.
From S2P Require Import SdoLine States SdoFacts Running.

(** ** Messages of one identifier *)

Definition sent_with (c : Z) (e : co_event) : bool :=
  match e with Sent m => cob_id m =? c | _ => false end.

Definition sent_count (c : Z) (l : list co_event) : Z :=
  Z.of_nat (length (filter (fun e => sent_with c e = true) l)).

Lemma sent_count_app c l1 l2 : sent_count c (l1 ++ l2) = sent_count c l1 + sent_count c l2.
Proof. unfold sent_count. rewrite filter_app, length_app. lia. Qed.

Lemma sent_count_none c l : Forall (fun e => sent_with c e = false) l -> sent_count c l = 0.
Proof.
  unfold sent_count. induction 1 as [|e l He _ IH]; [done|]. rewrite filter_cons.
  rewrite decide_False by congruence. done.
Qed.

(** ** The loop, one PDO at a time *)

Section sync.
Context (od : od_config) (room : nat) (count : Z) (mem0 : mem).
Context (Hcfg : config_okb od = true).
Abbreviation good := (good od room count).
Abbreviation keeps := (keeps od room count).

(** A good node whose variables are [mem0]. *)
Definition at_mem (d : CO_Data) : Prop := good d /\ co_mem d = mem0.

(** The communication parameters of PDO [j]. *)
Definition cob_of (j : Z) : option Z := sub_load od mem0 4 (tpdo_com od j) 1.
Definition type_of (j : Z) : option Z := sub_load od mem0 1 (tpdo_com od j) 2.
Definition wire_id (cobid : Z) : Z := u16 (Z.land cobid 0x7FF).
Definition valid_cob (cobid : Z) : bool := Z.land cobid 0x80000000 =? 0.

(** Messages on the way of PDO [j] carry its identifier. *)
Definition of_pdo (j : Z) (m : Message) : Prop :=
  exists c, cob_of j = Some c /\ cob_id m = wire_id c.

Definition only_pdo (j : Z) (e : co_event) : Prop :=
  match e with Sent m => of_pdo j m | _ => True end.

Record touches (j : Z) (d d' : CO_Data) : Prop := Touches {
  to_mem : co_mem d' = co_mem d;
  to_status i : i <> j -> (PDO_status (co_pdos d')).[i] = (PDO_status (co_pdos d)).[i];
  to_log : exists es, co_log d' = co_log d ++ es /\ Forall (only_pdo j) es
}.

Lemma touches_refl j d : touches j d d.
Proof. constructor; [done|done|]. exists []. by rewrite app_nil_r. Qed.

Lemma touches_trans j d1 d2 d3 : touches j d1 d2 -> touches j d2 d3 -> touches j d1 d3.
Proof.
  intros [M1 S1 (e1 & L1 & F1)] [M2 S2 (e2 & L2 & F2)]. constructor; [congruence| |].
  - intros i Hi. by rewrite S2, S1.
  - exists (e1 ++ e2). rewrite L2, L1, app_assoc. split; [done|]. by apply Forall_app.
Qed.

Definition does {A} (j : Z) (m : CO A) (Q : A -> Prop) : Prop :=
  forall d, at_mem d -> exists x d', m d = Some (x, d') /\ at_mem d' /\ touches j d d' /\
    co_st d' = co_st d /\ Q x.

Lemma does_keeps {A} j (m : CO A) (Q : A -> Prop) :
  keeps m Q -> (forall d x d', at_mem d -> m d = Some (x, d') -> touches j d d') -> does j m Q.
Proof.
  intros Hk Ht d Hd. destruct (Hk d) as (x & d' & E & H' & [_ S' _] & HQ); [apply Hd|].
  specialize (Ht _ _ _ Hd E). exists x, d'. splits; try done.
  split; [done|]. rewrite (to_mem _ _ _ Ht). apply Hd.
Qed.

Lemma does_bind {A B} j (m : CO A) (f : A -> CO B) R Q :
  does j m R -> (forall x, R x -> does j (f x) Q) -> does j (m ≫= f) Q.
Proof.
  intros Hm Hf d Hd. destruct (Hm d Hd) as (x & d1 & E & H1 & T1 & S1 & HR).
  destruct (Hf x HR d1 H1) as (y & d2 & E2 & H2 & T2 & S2 & HQ).
  exists y, d2. rewrite (st_bind_eq _ _ _ _ _ E). splits; try done; [|congruence].
  by eapply touches_trans.
Qed.

Lemma does_ret {A} j (x : A) (Q : A -> Prop) : Q x -> does j (ret x) Q.
Proof. intros HQ d Hd. exists x, d. splits; auto using touches_refl. Qed.

Lemma does_skip j : does j st_skip any.
Proof. intros d Hd. exists tt, d. splits; auto using touches_refl with cdb. Qed.

Lemma does_when j b (m : CO unit) : (b = true -> does j m any) -> does j (when b m) any.
Proof. destruct b; intros H; [by apply H|apply does_skip]. Qed.

(** Code that reads only. *)
Lemma does_read {A} j (m : CO A) (Q : A -> Prop) :
  (forall d, at_mem d -> exists x, m d = Some (x, d) /\ Q x) -> does j m Q.
Proof. intros H d Hd. destruct (H d Hd) as (x & E & HQ). exists x, d. splits; auto using touches_refl. Qed.

Lemma does_SetAlarm j id cb v : 0 <= v -> v + 1 < 2 ^ 32 ->
  (forall d, Running.good od room count d -> may_call d cb id) -> does j (coSetAlarm id cb v 0) handle_ok.
Proof.
  intros Hv Hv1 Hc d Hd. pose proof Hd as [(I & ? & ? & ?) Hm]. destruct (no_line _ I) as [t0 L].
  destruct (keeps_SetAlarm od room count id cb v 0 Hv Hv1 ltac:(lia) Hc d (proj1 Hd))
    as (h & d' & E & G' & [_ S' _ _ _] & Hh).
  destruct (coSetAlarm_ok id cb v 0 d) as (h' & t & E' & _); [apply L|done..|].
  rewrite E' in E. injection E as <- <-. eexists _, _. splits; [exact E'|by split| |done|done].
  constructor; [done|done|]. exists []. by rewrite app_nil_r.
Qed.

Lemma does_DelAlarm j h : handle_ok h -> does j (coDelAlarm h) handle_ok.
Proof.
  intros Hh d Hd. pose proof Hd as [(I & ? & ? & ?) Hm]. destruct (no_line _ I) as [t0 L].
  destruct (keeps_DelAlarm od room count h Hh d (proj1 Hd)) as (h' & d' & E & G' & [_ S' _ _ _] & Hh').
  destruct (coDelAlarm_ok h d) as (t & E' & _); [apply L|done|].
  rewrite E' in E. injection E as <- <-. eexists _, _. splits; [exact E'|by split| |done|done].
  constructor; [done|done|]. exists []. by rewrite app_nil_r.
Qed.

Lemma does_rd_com j k s i : In (k, s) [(4, 1); (1, 2); (2, 3); (2, 5)] ->
  0 <= i < Z.of_nat (tpdos od) ->
  does j (rd_sub k (tpdo_com od i) s)
    (fun v => 0 <= v < 256 ^ k /\ sub_load od mem0 k (tpdo_com od i) s = Some v).
Proof.
  intros Hin Hi. apply does_read. intros d [Hd Hm].
  destruct (keeps_rd_com od room count k s i Hin Hi d Hd) as (v & d' & E & _ & _ & Hv).
  pose proof E as E2. rewrite rd_sub_eq in E2. apply fmap_Some in E2 as (v' & Hl & [= -> ->]).
  exists v'. split; [done|]. split; [done|]. rewrite sub_load_value in Hl.
  destruct Hd as (_ & Eo & _). by rewrite Eo, Hm in Hl.
Qed.

Lemma does_get_PDO_status j : 0 <= j < Z.of_nat (tpdos od) -> does j (get_PDO_status j) status_ok.
Proof.
  intros Hj. apply does_read. intros d [Hd _].
  destruct (keeps_get_PDO_status od room count j Hj d Hd) as (s & d' & E & _ & _ & Hs).
  exists s. unfold get_PDO_status in *. co_red. co_red_in E.
  destruct (PDO_status (co_pdos d)).[j]; [|done]. by injection E as <- <-.
Qed.

Lemma does_upd_PDO_status j f : 0 <= j < Z.of_nat (tpdos od) ->
  (forall s, status_ok s -> status_ok (f s)) -> does j (upd_PDO_status j f) any.
Proof.
  intros Hj Hf. apply does_keeps; [by apply keeps_upd_PDO_status|].
  intros d x d' _ E. unfold upd_PDO_status in E.
  destruct (PDO_status (co_pdos d)).[j] as [s|]; cbn [mbind option_bind] in E; [|done].
  destruct ((PDO_status (co_pdos d)).[j <- f s]) as [l|] eqn:El; cbn [mbind option_bind] in E; [|done].
  injection E as <- <-. constructor; [done| |exists []; by rewrite app_nil_r].
  intros i Hi. cbn. by eapply arr_get_set_ne.
Qed.

Lemma does_buildPDO j m : 0 <= j < Z.of_nat (tpdos od) -> message_ok m ->
  does j (buildPDO j m) (fun r => message_ok (snd r) /\ of_pdo j (snd r) /\ (fst r = 0 -> frame_ok (snd r))).
Proof.
  intros Hj Hm. apply does_read. intros d [Hd Hmem].
  destruct (buildPDO_total od room count j m d Hd Hj Hm) as (c & err & m' & Hc & E & Hm' & Hid & Hf).
  exists (err, m'). split; [done|]. split; [done|]. split; [|done]. exists c. split; [|done].
  unfold cob_of. by rewrite <- Hmem.
Qed.

Lemma does_sendPdo j m : 0 <= j < Z.of_nat (tpdos od) -> message_ok m -> of_pdo j m ->
  frame_ok m -> does j (sendPdo j m) any.
Proof.
  intros Hj Hm Hid Hf. unfold sendPdo. eapply does_bind.
  - apply does_upd_PDO_status; [done|]. intros s [? ? ?]. by constructor.
  - intros _ _. eapply does_bind; [|intros _ _; apply does_skip].
    apply does_keeps; [by apply keeps_send|]. intros d x d' _ [= _ <-].
    constructor; [done|done|]. exists [Sent m]. split; [done|]. by repeat constructor.
Qed.

Lemma does_csPDO_on j : does j csPDO_on any.
Proof. apply does_read. intros d Hd. eexists. split; [reflexivity|done]. Qed.

Lemma does_rearm j cb h v f : 0 <= j < Z.of_nat (tpdos od) -> handle_ok h ->
  cb = PDOEventTimerAlarm_cb \/ cb = PDOInhibitTimerAlarm_cb ->
  0 <= v -> v + 1 < 2 ^ 32 ->
  (forall h s, handle_ok h -> status_ok s -> status_ok (f h s)) ->
  does j (_ ← coDelAlarm h; h ← coSetAlarm j cb v 0; upd_PDO_status j (f h)) any.
Proof.
  intros Hj Hh Hcb Hv Hv1 Hf. eapply does_bind; [by apply does_DelAlarm|intros _ _].
  eapply does_bind; [apply does_SetAlarm; [done|done|intros d Hd; by apply (may_pdo od room count)]|intros h' Hh'].
  apply does_upd_PDO_status; [done|]. intros s Hs. by apply Hf.
Qed.

Ltac status := let s := fresh in let H := fresh in intros s H; destruct H; by constructor.

Lemma does_sendOnePDOevent j : 0 <= j < Z.of_nat (tpdos od) -> does j (sendOnePDOevent j) any.
Proof.
  intros Hj. unfold sendOnePDOevent. eapply does_bind; [apply does_csPDO_on|intros on _].
  destruct (negb on); [by apply does_ret|].
  eapply does_bind; [by apply does_get_PDO_status|intros s1 _].
  destruct (negb _); [by apply does_ret|].
  eapply (does_bind j (get co_od) _ (fun o => o = od)).
  { apply does_read. intros d [(_ & E & _) _]. by exists od; rewrite <- E at 1. }
  intros ? ->. pose proof (config_bounds od Hcfg). rewrite u16_small by lia. cbn zeta.
  fold (tpdo_com od j).
  eapply does_bind; [by apply does_buildPDO, Message_Initializer_ok|intros [err m] (Hm & Hid & Hf)].
  cbn beta iota. destruct (negb (err =? 0)) eqn:Eerr; [by apply does_ret|]. zb.
  eapply does_bind; [by apply does_get_PDO_status|intros s [He Hi _]].
  destruct (same_message _ _); [by apply does_ret|].
  eapply does_bind; [by apply does_rd_com; [cbn; auto|]|intros ev [Hev _]].
  eapply does_bind; [by apply does_rd_com; [cbn; auto|]|intros ih [Hih _]].
  eapply does_bind; [apply does_when; intros _|intros _ _].
  { destruct (MS_TO_TIMEVAL_small ev Hev).
    apply (does_rearm j _ _ _ (fun h => set event_timer (fun _ => h))); auto.
    intros h s0 Hh0. revert s0. status. }
  eapply does_bind; [apply does_when; intros _|intros _ _].
  { destruct (US_TO_TIMEVAL_small (ih * 100)); [lia|].
    apply (does_rearm j _ _ _ (fun h s => s <| inhibit_timer := h |>
         <| transmit_type_parameter ::= (fun p => Z.lor p PDO_INHIBITED) |>)); auto.
    intros h s0 Hh0. revert s0. status. }
  eapply does_bind; [by apply does_sendPdo; auto|intros _ _; by apply does_ret].
Qed.

Lemma does_sendPDOevent_one sync j : 0 <= j < Z.of_nat (tpdos od) ->
  does j (sendPDOevent_one sync j (tpdo_com od j)) any.
Proof.
  intros Hj. unfold sendPDOevent_one.
  eapply does_bind; [by apply does_rd_com; [cbn; auto|]|intros cobid _].
  destruct (negb _); [apply does_skip|].
  eapply does_bind; [by apply does_rd_com; [cbn; auto|]|intros type _]. cbn zeta.
  eapply does_bind; [apply does_when; intros _; apply does_upd_PDO_status; [done|status]|intros _ _].
  eapply does_bind; [by apply does_get_PDO_status|intros s [He Hi Hl]].
  destruct (_ && _).
  - eapply does_bind; [apply does_upd_PDO_status; [done|status]|intros _ _].
    eapply does_bind; [by apply does_buildPDO, Message_Initializer_ok|intros [err m] (Hm & Hid & Hf)].
    cbn beta iota. destruct (negb _) eqn:Eerr; [apply does_skip|]. zb. apply does_sendPdo; auto.
  - destruct (sync && (type =? TRANS_RTR_SYNC)).
    + eapply does_bind; [by apply does_buildPDO|intros [err m] (Hm & Hid & _)].
      cbn beta iota. apply does_upd_PDO_status; [done|]. intros s0 []. by constructor.
    + destruct (_ || _); [|apply does_skip].
      eapply does_bind; [by apply does_sendOnePDOevent|intros _ _; apply does_skip].
Qed.

(** ** One SYNC on the PDO itself *)

Lemma upd_PDO_status_eq d k s f :
  (PDO_status (co_pdos d)).[k] = Some s ->
  exists d', upd_PDO_status k f d = Some (tt, d') /\ (PDO_status (co_pdos d')).[k] = Some (f s) /\
    co_log d' = co_log d /\ co_od d' = co_od d.
Proof.
  intros Hs. pose proof (arr_get_lt _ _ _ Hs). unfold upd_PDO_status. rewrite Hs. cbn [mbind option_bind].
  rewrite arr_set_is_Some by done. cbn [mbind option_bind]. eexists. split; [reflexivity|].
  cbn. rewrite insert_get by done. by rewrite decide_True.
Qed.

(** The same with what [does] knows. *)
Lemma upd_status_step d k s f : at_mem d -> 0 <= k < Z.of_nat (tpdos od) ->
  (forall s, status_ok s -> status_ok (f s)) -> (PDO_status (co_pdos d)).[k] = Some s ->
  exists d', upd_PDO_status k f d = Some (tt, d') /\ at_mem d' /\ co_st d' = co_st d /\
    (PDO_status (co_pdos d')).[k] = Some (f s) /\ co_log d' = co_log d.
Proof.
  intros Hd Hk Hf Hs. destruct (upd_PDO_status_eq d k s f Hs) as (d' & E & Hs' & Hl & _).
  destruct (does_upd_PDO_status k f Hk Hf d Hd) as (x & d'' & E' & Hd' & _ & Hst & _).
  rewrite E in E'. injection E' as <- <-. by exists d'.
Qed.

Section one.
Context (k n cobid : Z) (vs : list (Z * list Z)).
Context (Hk : 0 <= k < Z.of_nat (tpdos od)) (Hn : TRANS_SYNC_MIN <= n <= TRANS_SYNC_MAX).
Context (Hcob : cob_of k = Some cobid) (Hvalid : valid_cob cobid = true).
Context (Htype : type_of k = Some n).
Context (Hvs : (0 < length vs <= 256)%nat).
Context (Hmap : forall d, at_mem d -> mapping d (tpdo_map od k) vs).

(** How many messages of the PDO a turn adds to the log. *)
Definition step_log (d d' : CO_Data) (c : Z) : Prop :=
  exists es, co_log d' = co_log d ++ es /\ sent_count (wire_id cobid) es = c.

Lemma step_log_trans d1 d2 d3 c c' :
  step_log d1 d2 c -> step_log d2 d3 c' -> step_log d1 d3 (c + c').
Proof.
  intros (e1 & L1 & C1) (e2 & L2 & C2). exists (e1 ++ e2).
  by rewrite L2, L1, app_assoc, sent_count_app, C1, C2.
Qed.

(** The counter of the PDO. *)
Definition counter (d : CO_Data) (p : Z) : Prop :=
  exists s, (PDO_status (co_pdos d)).[k] = Some s /\ transmit_type_parameter s = p.

Lemma at_mem_od d : at_mem d -> co_od d = od.
Proof. by intros [(_ & ? & _) _]. Qed.

Lemma rd_com_eq d j s v :
  at_mem d -> sub_load od mem0 j (tpdo_com od k) s = Some v ->
  rd_sub j (tpdo_com od k) s d = Some (v, d).
Proof.
  intros Hd Hv. apply rd_sub_ok. rewrite sub_load_value, (at_mem_od _ Hd). by destruct Hd as [_ ->].
Qed.

(** The message is built and sent. *)
Lemma send_built d s : at_mem d -> (PDO_status (co_pdos d)).[k] = Some s ->
  exists d', ('(err, pdo) ← buildPDO k Message_Initializer;
      if negb (err =? 0) then st_skip else sendPdo k pdo) d = Some (tt, d') /\
    at_mem d' /\ co_st d' = co_st d /\ counter d' (transmit_type_parameter s) /\ step_log d d' 1.
Proof.
  intros Hd Hs. pose proof Hd as [(I & Eo & _) Em].
  destruct (buildPDO_run d k Message_Initializer vs cobid) as (m & E & Hid & _ & Hl & Hb & _);
    [apply I|apply Message_Initializer_ok..| | |done|].
  { rewrite sub_load_value, Eo, Em. exact Hcob. }
  { rewrite Eo. by apply Hmap. }
  assert (Hf : frame_ok m).
  { destruct (buildPDO_total od room count k Message_Initializer d (proj1 Hd) Hk Message_Initializer_ok)
      as (c & err & m' & _ & E' & _ & _ & Hf). rewrite E in E'. injection E' as <- <-. by apply Hf. }
  rewrite (st_bind_eq _ _ _ _ _ E). cbn beta iota. cbn [Z.eqb negb]. unfold sendPdo.
  destruct (upd_status_step d k s (set last_message (fun _ => m))) as (d1 & E1 & Hd1 & St1 & Hs1 & L1);
    [done|done| |done|].
  { intros s0 [? ? ?]. by constructor. }
  rewrite (st_bind_eq _ _ _ _ _ E1).
  destruct (keeps_send od room count m Hf d1 (proj1 Hd1)) as (x & d2 & E2 & G2 & [_ St2 _] & _).
  pose proof E2 as Ed2. unfold canSend in Ed2. injection Ed2 as _ Ed2.
  rewrite (st_bind_eq _ _ _ _ _ E2). exists d2. split; [reflexivity|].
  split; [split; [exact G2|by rewrite <- Ed2; destruct Hd1]|]. split; [congruence|]. split.
  - exists (s <| last_message := m |>). split; [by rewrite <- Ed2|done].
  - exists [Sent m]. split; [rewrite <- Ed2; cbn; by rewrite L1|].
    unfold sent_count. rewrite filter_cons, filter_nil. cbn [sent_with]. rewrite Hid.
    unfold wire_id. assert (0 <= Z.land cobid 0x7FF < 2 ^ 11) by (apply land_range; lia).
    rewrite u16_small, Z.eqb_refl by lia. done.
Qed.

Lemma cyclic_step d p : at_mem d -> counter d p -> 0 <= p < n ->
  exists d', sendPDOevent_one true k (tpdo_com od k) d = Some (tt, d') /\ at_mem d' /\
    co_st d' = co_st d /\ counter d' ((p + 1) mod n) /\ step_log d d' ((p + 1) / n).
Proof.
  intros Hd (s & Hs & Hp) Hpn. unfold TRANS_SYNC_MIN, TRANS_SYNC_MAX in Hn. unfold sendPDOevent_one.
  rewrite (st_bind_eq _ _ _ _ _ (rd_com_eq d 4 1 cobid Hd Hcob)).
  unfold valid_cob in Hvalid. rewrite Hvalid. cbn [negb].
  rewrite (st_bind_eq _ _ _ _ _ (rd_com_eq d 1 2 n Hd Htype)). cbn zeta.
  replace ((TRANS_SYNC_MIN <=? n) && (n <=? TRANS_SYNC_MAX)) with true
    by (symmetry; rewrite andb_true_iff, !Z.leb_le; cbv [TRANS_SYNC_MIN TRANS_SYNC_MAX]; lia).
  rewrite <- andb_assoc.
  replace (true && ((TRANS_SYNC_MIN <=? n) && (n <=? TRANS_SYNC_MAX))) with true
    by (symmetry; cbn; rewrite andb_true_iff, !Z.leb_le; cbv [TRANS_SYNC_MIN TRANS_SYNC_MAX]; lia).
  rewrite when_true.
  destruct (upd_status_step d k s (set transmit_type_parameter (fun p => u8 (p + 1))))
    as (d1 & E1 & Hd1 & St1 & Hs1 & L1); [done|done| |done|].
  { intros s0 [? ? ?]. by constructor. }
  rewrite (st_bind_eq _ _ _ _ _ E1). set (s1 := set transmit_type_parameter _ s) in *.
  assert (Hp1 : transmit_type_parameter s1 = p + 1) by (cbn -[u8]; rewrite Hp, u8_small; lia).
  assert (Eg : get_PDO_status k d1 = Some (s1, d1)) by (unfold get_PDO_status; co_red; by rewrite Hs1).
  rewrite (st_bind_eq _ _ _ _ _ Eg), Hp1. cbn [andb].
  destruct (p + 1 =? n) eqn:Hlast; zb.
  - destruct (upd_status_step d1 k s1 (set transmit_type_parameter (fun _ => 0)))
      as (d2 & E2 & Hd2 & St2 & Hs2 & L2); [done|done| |done|].
    { intros s0 [? ? ?]. by constructor. }
    rewrite (st_bind_eq _ _ _ _ _ E2).
    destruct (send_built d2 _ Hd2 Hs2) as (d3 & E3 & Hd3 & St3 & Hc3 & es & L3 & C3).
    exists d3. splits; [exact E3|done|congruence| |].
    + by rewrite Hlast, Z_mod_same_full.
    + exists es. rewrite L3, L2, L1, Hlast, Z_div_same_full by lia. done.
  - replace (n =? TRANS_RTR_SYNC) with false
      by (symmetry; apply Z.eqb_neq; cbv [TRANS_RTR_SYNC]; lia).
    replace (n =? TRANS_SYNC_ACYCLIC) with false
      by (symmetry; apply Z.eqb_neq; cbv [TRANS_SYNC_ACYCLIC]; lia).
    cbn [andb orb negb]. exists d1. splits; [done|done|done| |].
    + exists s1. split; [done|]. rewrite Z.mod_small; lia.
    + exists []. rewrite app_nil_r, Z.div_small by lia. done.
Qed.

(** ** The other PDOs *)

Context (Hother : forall j c, 0 <= j < Z.of_nat (tpdos od) -> j <> k -> cob_of j = Some c ->
  valid_cob c = true -> wire_id c <> wire_id cobid).

(** What a turn on another PDO means for this one. *)
Lemma other_step j d : 0 <= j < Z.of_nat (tpdos od) -> j <> k -> at_mem d ->
  exists d', sendPDOevent_one true j (tpdo_com od j) d = Some (tt, d') /\ at_mem d' /\
    co_st d' = co_st d /\ (forall p, counter d p -> counter d' p) /\ step_log d d' 0.
Proof.
  intros Hj Hne Hd.
  destruct (does_sendPDOevent_one true j Hj d Hd) as ([] & d' & E & Hd' & [_ Hs (es & L & F)] & St & _).
  exists d'. split; [done|]. split; [done|]. split; [done|]. split.
  { intros p (s & Hs' & Hp). exists s. rewrite Hs by done. done. }
  exists es. split; [done|]. apply sent_count_none.
  destruct (does_rd_com j 4 1 j ltac:(cbn; auto) Hj d Hd) as (c & d1 & Ec & _ & _ & _ & _ & Hc).
  destruct (valid_cob c) eqn:Hv.
  - eapply Forall_impl; [exact F|]. intros [] He; try done. cbn in *.
    destruct He as (c' & Hc' & ->). unfold cob_of in Hc'. rewrite Hc in Hc'. injection Hc' as <-.
    apply Z.eqb_neq. by eapply Hother.
  - unfold sendPDOevent_one in E.
    assert (d1 = d) as ->.
    { rewrite rd_sub_eq in Ec. by apply fmap_Some in Ec as (? & _ & [= _ ->]). }
    rewrite (st_bind_eq _ _ _ _ _ Ec) in E. unfold valid_cob in Hv. rewrite Hv in E.
    cbn [negb] in E. injection E as <-.
    destruct es; [constructor|]. exfalso. apply (f_equal length) in L. rewrite length_app in L.
    cbn in L. lia.
Qed.

Lemma other_loop m i d : 0 <= i -> i + Z.of_nat m <= Z.of_nat (tpdos od) ->
  (i + Z.of_nat m <= k \/ k < i) -> at_mem d ->
  exists d', st_for m i (fun j => sendPDOevent_one true (u8 j) (tpdo_com od j)) d = Some (tt, d') /\
    at_mem d' /\ co_st d' = co_st d /\ (forall p, counter d p -> counter d' p) /\ step_log d d' 0.
Proof.
  intros Hi Hm Hout Hd. pose proof (config_bounds od Hcfg).
  destruct (st_for_inv (fun _ d' => at_mem d' /\ co_st d' = co_st d /\
      (forall p, counter d p -> counter d' p) /\ step_log d d' 0)
    (fun j => sendPDOevent_one true (u8 j) (tpdo_com od j)) m i d) as (d' & E & HP).
  - intros j t Hj (Ht & St & Hc & Hl). rewrite u8_small by lia.
    destruct (other_step j t) as (t' & E & Ht' & St' & Hc' & Hl'); [lia|lia|done|].
    exists t'. splits; [done|done|congruence|auto|]. exact (step_log_trans _ _ _ _ _ Hl Hl').
  - splits; [done|done|auto|]. exists []. by rewrite app_nil_r.
  - exists d'. by split.
Qed.

(** ** One SYNC *)

Lemma loop_step d p : at_mem d -> counter d p -> 0 <= p < n ->
  exists d', st_for (tpdos od) 0 (fun j => sendPDOevent_one true (u8 j) (tpdo_com od j)) d =
      Some (tt, d') /\
    at_mem d' /\ co_st d' = co_st d /\ counter d' ((p + 1) mod n) /\ step_log d d' ((p + 1) / n).
Proof.
  intros Hd Hc Hp. pose proof (config_bounds od Hcfg).
  replace (tpdos od) with (Z.to_nat k + (1 + (tpdos od - Z.to_nat k - 1)))%nat by lia.
  destruct (other_loop (Z.to_nat k) 0 d) as (d1 & E1 & Hd1 & St1 & Hc1 & L1); [lia|lia|lia|done|].
  rewrite (st_for_app _ _ _ _ _ _ E1), Z2Nat.id by lia.
  destruct (cyclic_step d1 p Hd1 (Hc1 _ Hc) Hp) as (d2 & E2 & Hd2 & St2 & Hc2 & L2).
  rewrite (st_for_app 1 _ _ _ _ d2); [|apply st_for_one; by rewrite u8_small by lia].
  destruct (other_loop (tpdos od - Z.to_nat k - 1) (0 + k + 1) d2)
    as (d3 & E3 & Hd3 & St3 & Hc3 & L3); [lia|lia|lia|done|].
  exists d3. splits; [exact E3|done|congruence|auto|].
  pose proof (step_log_trans _ _ _ _ _ (step_log_trans _ _ _ _ _ L1 L2) L3) as HL.
  by replace (0 + (p + 1) / n + 0) with ((p + 1) / n) in HL by lia.
Qed.

Lemma emit_step d e : is_state_call e = false -> is_sent e = false -> at_mem d ->
  exists d', emit e d = Some (tt, d') /\ at_mem d' /\ co_st d' = co_st d /\
    (forall p, counter d p -> counter d' p) /\ step_log d d' 0.
Proof.
  intros He Hs Hd. destruct (keeps_emit od room count e He Hs d (proj1 Hd)) as ([] & d' & E & G & [_ St _] & _).
  pose proof E as Ed. unfold emit, modify, st_mod in Ed. injection Ed as Ed.
  exists d'. splits; [done| |done| |].
  - split; [done|]. rewrite <- Ed. apply Hd.
  - intros p (s & Hp & Hq). exists s. by rewrite <- Ed.
  - exists [e]. split; [by rewrite <- Ed|]. apply sent_count_none. constructor; [by destruct e|done].
Qed.

Lemma proceedSYNC_step d p : at_mem d -> csPDO (CurrentCommunicationState (co_st d)) <> 0 ->
  counter d p -> 0 <= p < n ->
  exists d', proceedSYNC d = Some (0, d') /\ at_mem d' /\ co_st d' = co_st d /\
    counter d' ((p + 1) mod n) /\ step_log d d' ((p + 1) / n).
Proof.
  intros Hd Hon Hc Hp. unfold proceedSYNC.
  destruct (emit_step d Call_post_sync) as (d1 & E1 & Hd1 & St1 & Hc1 & L1); [done..|].
  rewrite (st_bind_eq _ _ _ _ _ E1).
  assert (Eon : csPDO_on d1 = Some (true, d1)).
  { unfold csPDO_on. co_red. rewrite St1. apply Z.eqb_neq in Hon. by rewrite Hon. }
  rewrite (st_bind_eq _ _ _ _ _ Eon). cbn [negb].
  destruct (loop_step d1 p Hd1 (Hc1 _ Hc) Hp) as (d2 & E2 & Hd2 & St2 & Hc2 & L2).
  assert (Es : _sendPDOevent true d1 = Some (0, d2)).
  { unfold _sendPDOevent. rewrite (st_bind_eq (get co_od) _ d1 od d1) by (by rewrite <- (at_mem_od d1 Hd1)).
    rewrite (st_bind_eq _ _ _ _ _ Eon). cbn [negb]. cbn zeta.
    rewrite (st_bind_eq _ _ d1 tt d2); [done|]. exact E2. }
  rewrite (st_bind_eq _ _ _ _ _ Es).
  destruct (emit_step d2 Call_post_TPDO) as (d3 & E3 & Hd3 & St3 & Hc3 & L3); [done..|].
  rewrite (st_bind_eq _ _ _ _ _ E3). exists d3. splits; [done|done|congruence|auto|].
  pose proof (step_log_trans _ _ _ _ _ (step_log_trans _ _ _ _ _ L1 L2) L3) as HL.
  by replace (0 + (p + 1) / n + 0) with ((p + 1) / n) in HL by lia.
Qed.

(** ** Any number of SYNCs *)

Lemma syncs_run j d p : at_mem d -> csPDO (CurrentCommunicationState (co_st d)) <> 0 ->
  counter d p -> 0 <= p < n ->
  exists d', st_for j 0 (fun _ => _ ← proceedSYNC; st_skip) d = Some (tt, d') /\ at_mem d' /\
    counter d' ((p + Z.of_nat j) mod n) /\ step_log d d' ((p + Z.of_nat j) / n).
Proof.
  intros Hd Hon Hc Hp.
  destruct (st_for_inv (fun i d' => 0 <= i /\ at_mem d' /\ co_st d' = co_st d /\
      counter d' ((p + i) mod n) /\ step_log d d' ((p + i) / n))
    (fun _ => _ ← proceedSYNC; st_skip) j 0 d) as (d' & E & _ & Hd' & _ & Hc' & HL).
  - intros i t Hi (Hi0 & Ht & St & Hct & HLt).
    destruct (proceedSYNC_step t ((p + i) mod n)) as (t' & E & Ht' & St' & Hct' & HL');
      [done|congruence|done|apply Z.mod_pos_bound; lia|].
    exists t'. rewrite (st_bind_eq _ _ _ _ _ E). splits; [done|lia|done|congruence| |].
    + by rewrite Zplus_mod_idemp_l, <- Z.add_assoc in Hct'.
    + pose proof (step_log_trans _ _ _ _ _ HLt HL') as HL2.
      replace ((p + i) / n + ((p + i) mod n + 1) / n) with ((p + (i + 1)) / n) in HL2; [done|].
      replace (p + (i + 1)) with ((p + i) mod n + 1 + (p + i) / n * n)
        by (pose proof (Z.div_mod (p + i) n); lia).
      rewrite Z.div_add by lia. lia.
  - rewrite Z.add_0_r, Z.mod_small, Z.div_small by lia. splits; try done.
    exists []. by rewrite app_nil_r.
  - exists d'. rewrite !Z.add_0_l in *. by splits.
Qed.
End one.
End sync.

(** C8: In a node whose PDOs are running, a transmit PDO of transmission type [n]
    between 1 and 240 is sent at every [n]-th SYNC, whatever the other PDOs are
    configured to do, as long as none of them has its identifier: after [j] SYNCs
    it has been sent exactly [(p + j) / n] times more, where [p] is its counter at
    the start, and the counter is where it has to be.  Nothing a SYNC does can
    fail, and the node stays good. *)
Theorem sync_cadence d k n p cobid vs j :
  node_ok d -> csPDO (CurrentCommunicationState (co_st d)) <> 0 ->
  0 <= k < Z.of_nat (tpdos (co_od d)) ->
  sub_value 4 d (tpdo_com (co_od d) k) 1 = Some cobid -> valid_cob cobid = true ->
  sub_value 1 d (tpdo_com (co_od d) k) 2 = Some n -> TRANS_SYNC_MIN <= n <= TRANS_SYNC_MAX ->
  mapping d (tpdo_map (co_od d) k) vs -> (0 < length vs <= 256)%nat ->
  (forall i c, 0 <= i < Z.of_nat (tpdos (co_od d)) -> i <> k ->
     sub_value 4 d (tpdo_com (co_od d) i) 1 = Some c -> valid_cob c = true ->
     wire_id c <> wire_id cobid) ->
  counter k d p -> 0 <= p < n ->
  exists d', st_for j 0 (fun _ => _ ← proceedSYNC; st_skip) d = Some (tt, d') /\ node_ok d' /\
    counter k d' ((p + Z.of_nat j) mod n) /\
    sent_count (wire_id cobid) (co_log d') =
      sent_count (wire_id cobid) (co_log d) + (p + Z.of_nat j) / n.
Proof.
  intros Hok Hon Hk Hcob Hv Ht Hn Hmap Hvs Hoth Hc Hp.
  destruct (node_good d Hok) as (room & count & Hgood).
  assert (Hd : at_mem (co_od d) room count (co_mem d) d) by (by split).
  rewrite sub_load_value in Hcob, Ht.
  destruct (syncs_run (co_od d) room count (co_mem d) (no_config _ Hok) k n cobid vs Hk Hn Hcob Hv Ht Hvs) with (j := j) (d := d) (p := p)
    as (d' & E & [(Hok' & _) _] & Hc' & es & L & C); try done.
  - intros d1 [(_ & E & _) Em]. revert Hmap. unfold mapping, maps, sub_value. by rewrite E, Em.
  - intros i c Hi Hne Hci. apply (Hoth i c Hi Hne). by rewrite sub_load_value.
  - exists d'. splits; [done|done|done|]. by rewrite L, sent_count_app, C.
Qed.
