(* ===== verification/StateMachine.v ===== *)
(** * StateMachine: the state machine of a running node

    What [setState] and [proceedNMTstateChange] do to a node that satisfies
    [node_ok]: the abstract specification is the automaton of the NMT slave with
    four states and five commands; the node implements it, with the services and
    the functions of the application started and called as each state demands. *)

From S2P Require Import Prelude CMem Timers Node ObjDict Emcy Nmt LifeGuard Bits Pdo Sync.
From S2P Require Import SdoLine States SdoFacts Running.

(** ** The automaton *)

Inductive nmt_state := Initialising | Pre_op | Oper | Stop.

#[export] Instance nmt_state_eq_dec : EqDecision nmt_state.
Proof. solve_decision. Defined.

Definition state_code (s : nmt_state) : Z :=
  match s with
  | Initialising => Initialisation
  | Pre_op => Pre_operational
  | Oper => Operational
  | Stop => Stopped
  end.

Definition services (s : nmt_state) : s_state_communication :=
  match s with
  | Initialising => Initialisation_services
  | Pre_op => Pre_operational_services
  | Oper => Operational_services
  | Stop => Stopped_services
  end.

(** The function of the application called when a state is entered. *)
Definition state_call (s : nmt_state) : co_event :=
  match s with
  | Initialising => Call_initialisation
  | Pre_op => Call_preOperational
  | Oper => Call_operational
  | Stop => Call_stopped
  end.

Inductive nmt_command := Start_node | Stop_node | Enter_pre_op | Reset_node | Reset_communication.

Definition command_of (cs : Z) : option nmt_command :=
  if cs =? NMT_Start_Node then Some Start_node
  else if cs =? NMT_Stop_Node then Some Stop_node
  else if cs =? NMT_Enter_PreOperational then Some Enter_pre_op
  else if cs =? NMT_Reset_Node then Some Reset_node
  else if cs =? NMT_Reset_Comunication then Some Reset_communication
  else None.

(** The states a command leads through; a command for the present state leads
    nowhere. *)
Definition nmt_path (s : nmt_state) (c : nmt_command) : list nmt_state :=
  match c with
  | Start_node => if decide (s = Oper) then [] else [Oper]
  | Stop_node => if decide (s = Stop) then [] else [Stop]
  | Enter_pre_op => if decide (s = Pre_op) then [] else [Pre_op]
  | Reset_node | Reset_communication => [Initialising; Pre_op]
  end.

(** ** Calls of the application *)

Definition state_calls (l : list co_event) : list co_event := List.filter is_state_call l.

Lemma state_calls_app l l' : state_calls (l ++ l') = state_calls l ++ state_calls l'.
Proof. apply List.filter_app. Qed.

Lemma state_calls_quiet es : Forall quiet_event es -> state_calls es = [].
Proof. induction 1 as [|e es He _ IH]; [done|]. cbn. by rewrite He. Qed.

(** What a step does besides keeping the node good: the state and the calls. *)
Record moves (st : co_state) (calls : list co_event) (d d' : CO_Data) : Prop := Moves {
  mv_st : co_st d' = st;
  mv_calls : state_calls (co_log d') = state_calls (co_log d) ++ calls
}.

Lemma quiet_moves d d' : quiet_step d d' -> moves (co_st d) [] d d'.
Proof.
  intros [_ S (es & L & F)]. constructor; [done|].
  by rewrite L, state_calls_app, (state_calls_quiet es F).
Qed.

Lemma moves_trans st1 st2 c1 c2 d1 d2 d3 :
  moves st1 c1 d1 d2 -> moves st2 c2 d2 d3 -> moves st2 (c1 ++ c2) d1 d3.
Proof. intros [_ L1] [S2 L2]. constructor; [done|]. by rewrite L2, L1, app_assoc. Qed.

(** ** Switching services *)

Section switching.
Context (od : od_config) (room : nat) (count : Z).
Context (Hcfg : config_okb od = true).
Abbreviation good := (good od room count).
Abbreviation keeps := (keeps od room count).

(** The operation returns, keeps the node good and moves it. *)
Definition run_to {A} (m : CO A) (d : CO_Data) (st : co_state) (calls : list co_event) (x : A) : Prop :=
  exists d', m d = Some (x, d') /\ good d' /\ moves st calls d d'.

Lemma run_to_bind {A B} (m : CO A) (f : A -> CO B) d st1 st2 c1 c2 x y :
  run_to m d st1 c1 x ->
  (forall d1, good d1 -> co_st d1 = st1 -> run_to (f x) d1 st2 c2 y) ->
  run_to (m ≫= f) d st2 (c1 ++ c2) y.
Proof.
  intros (d1 & E1 & G1 & M1) Hf. destruct (Hf d1 G1 (mv_st _ _ _ _ M1)) as (d2 & E2 & G2 & M2).
  exists d2. rewrite (st_bind_eq _ _ _ _ _ E1). splits; [done|done|by eapply moves_trans].
Qed.

Lemma keeps_run {A} (m : CO A) d : keeps m any -> good d -> exists x, run_to m d (co_st d) [] x.
Proof.
  intros Hm Hd. destruct (Hm d Hd) as (x & d' & E & G & S & _). exists x, d'.
  splits; [done|done|by apply quiet_moves].
Qed.

Lemma run_to_unit (m : CO unit) d : keeps m any -> good d -> run_to m d (co_st d) [] tt.
Proof. intros Hm Hd. by destruct (keeps_run m d Hm Hd) as ([] & H). Qed.

Lemma run_to_set_st f d :
  good d -> flags_ok (CurrentCommunicationState (f (co_st d))) ->
  run_to (modify (set co_st f)) d (f (co_st d)) [] tt.
Proof.
  intros (I & ? & ? & ?) Hf. eexists. splits; [reflexivity| |].
  - hnf. splits; try done. keep_node I.
  - constructor; [done|]. by rewrite app_nil_r.
Qed.

Lemma run_to_emit e d : is_sent e = false -> good d ->
  run_to (emit e) d (co_st d) (if is_state_call e then [e] else []) tt.
Proof.
  intros Hs (I & ? & ? & ?). eexists. splits; [reflexivity| |].
  - hnf. splits; try done. pose proof (no_frames _ I) as Hf. keep_node I.
    apply Forall_app_2; [exact Hf|]. constructor; [by destruct e|done].
  - constructor; [done|]. cbn. rewrite state_calls_app. cbn. by destruct (is_state_call e).
Qed.

(** The macro: the flag takes the new value. *)
Lemma StartOrStop_run new cur upd F G d :
  (forall v f, cur (upd v f) = v) -> (forall f, upd (cur f) f = f) ->
  (forall v f, bit v -> flags_ok f -> flags_ok (upd v f)) -> (forall f, flags_ok f -> bit (cur f)) ->
  keeps F any -> keeps G any -> bit new -> good d ->
  run_to (StartOrStop new cur upd F G) d ((co_st d) <| CurrentCommunicationState ::= upd new |>) [] tt.
Proof.
  intros Hcu Huc Hup Hcur HF HG Hnew Hd. pose proof Hd as (I & _). pose proof (no_flags _ I) as Hfl.
  unfold run_to, StartOrStop. rewrite (st_bind_eq _ _ _ _ _ (eq_refl : get co_st d = Some (co_st d, d))).
  cbn zeta. set (fl := CurrentCommunicationState (co_st d)) in *.
  assert (Hset : forall v, bit v ->
    run_to (modify (set co_st (set CurrentCommunicationState (upd v)))) d
      ((co_st d) <| CurrentCommunicationState ::= upd v |>) [] tt)
    by (intros v Hv; apply run_to_set_st; [done|by apply Hup]).
  assert (Hthen : forall v m, bit v -> keeps m any ->
    run_to (_ ← modify (set co_st (set CurrentCommunicationState (upd v))); m) d
      ((co_st d) <| CurrentCommunicationState ::= upd v |>) [] tt).
  { intros v m Hv Hm. eapply (run_to_bind _ _ _ _ _ [] []); [by apply Hset|].
    intros d1 G1 S1. rewrite <- S1. by apply run_to_unit. }
  specialize (Hcur fl Hfl). destruct Hnew as [->| ->], Hcur as [E|E]; rewrite E; cbn [Z.eqb negb andb].
  1, 4: eexists; splits; [reflexivity|done|];
    replace ((co_st d) <| CurrentCommunicationState ::= _ |>) with (co_st d);
    [apply quiet_moves, quiet_step_refl|unfold set; fold fl; rewrite <- E, Huc; by destruct (co_st d)].
  - exact (Hthen 0 G (or_introl eq_refl) HG).
  - exact (Hthen 1 F (or_intror eq_refl) HF).
Qed.

(** The services of a state, all but LSS, which the code never switches. *)
Definition switched (new old : s_state_communication) : s_state_communication :=
  new <| csLSS := csLSS old |>.

Lemma run_to_eq {A} (m : CO A) d st st' c x : run_to m d st c x -> st = st' -> run_to m d st' c x.
Proof. by intros ? <-. Qed.

(** One more flag of the state [d] began with. *)
Lemma run_to_then (m1 m2 : CO unit) d st1 st2 :
  run_to m1 d st1 [] tt ->
  (forall d1, good d1 -> co_st d1 = st1 -> run_to m2 d1 st2 [] tt) ->
  run_to (_ ← m1; m2) d st2 [] tt.
Proof. intros H1 H2. by eapply (run_to_bind _ _ _ _ _ [] []). Qed.

Lemma keeps_bootup : keeps (_ ← slaveSendBootUp; st_skip) any.
Proof. eapply keeps_bind; [apply keeps_slaveSendBootUp|intros _ _; apply keeps_skip]. Qed.

(** One service, with what starts and stops it. *)
Ltac flag F G :=
  apply StartOrStop_run;
  [by intros ? []|by intros []|by intros ? ? ? []; constructor|by intros ? []
  |by apply F|by apply G|done|done].

Ltac next_flag := eapply run_to_then; [|intros ? ?Hg ?E].

Lemma switch_run new d : flags_ok new -> good d ->
  run_to (switchCommunicationState new) d
    ((co_st d) <| CurrentCommunicationState ::= switched new |>) [] tt.
Proof.
  intros [Hb Hs He Hy Hl Hp] Hd. unfold switchCommunicationState.
  next_flag; [flag keeps_skip keeps_resetSDO|].
  next_flag; [flag keeps_startSYNC keeps_stopSYNC|].
  next_flag; [flag keeps_lifeGuardInit keeps_lifeGuardStop|].
  next_flag; [flag keeps_emergencyInit keeps_skip|].
  next_flag; [flag keeps_PDOInit keeps_PDOStop|].
  eapply run_to_eq; [flag keeps_skip keeps_bootup|].
  repeat match goal with H : co_st _ = _ |- _ => rewrite H; clear H end.
  by destruct (co_st d) as [? [] ? ?], new.
Qed.

(** *** Entering a state *)

Definition in_state (st : co_state) (s : nmt_state) : co_state :=
  st <| nodeState := state_code s |> <| CurrentCommunicationState ::= switched (services s) |>.

Lemma services_ok s : flags_ok (services s).
Proof. destruct s; constructor; cbn; (by left) || by right. Qed.

Lemma enter_run s user d :
  (forall d1, good d1 -> run_to user d1 (co_st d1) [state_call s] tt) -> good d ->
  run_to (enter (state_code s) (services s) user) d (in_state (co_st d) s) [state_call s] tt.
Proof.
  intros Hu Hd. unfold enter. eapply (run_to_bind _ _ _ _ _ [] [_]).
  { apply (run_to_set_st (set nodeState (fun _ => state_code s))); [done|].
    destruct Hd as (I & _). apply (no_flags _ I). }
  intros d1 G1 S1. eapply (run_to_bind _ _ _ _ _ [] [_]); [by apply switch_run, G1; apply services_ok|].
  intros d2 G2 S2. eapply run_to_eq; [by apply Hu|]. by rewrite S2, S1.
Qed.

Lemma user_run s d : good d ->
  run_to (match s with Pre_op => _preOperational | _ => emit (state_call s) end) d
    (co_st d) [state_call s] tt.
Proof.
  intros Hd. destruct s;
    [exact (run_to_emit Call_initialisation d eq_refl Hd)| |exact (run_to_emit Call_operational d eq_refl Hd)
    |exact (run_to_emit Call_stopped d eq_refl Hd)].
  unfold _preOperational. eapply (run_to_bind _ _ _ _ _ [_] []); [by apply (run_to_emit Call_preOperational)|].
  intros d1 G1 S1. rewrite <- S1. apply run_to_unit; [|done].
  eapply keeps_bind; [apply keeps_get_od|intros ? ->]. apply keeps_when. intros _.
  eapply keeps_bind; [by apply keeps_masterSend|intros _ _; apply keeps_skip].
Qed.

Lemma enter_user s d : good d ->
  run_to (enter (state_code s) (services s)
    (match s with Pre_op => _preOperational | _ => emit (state_call s) end)) d
    (in_state (co_st d) s) [state_call s] tt.
Proof. intros Hd. apply enter_run; [|done]. intros d1. apply user_run. Qed.

Lemma getState_run d : good d -> run_to getState d (co_st d) [] (nodeState (co_st d)).
Proof. intros Hd. exists d. splits; [done|done|]. apply quiet_moves, quiet_step_refl. Qed.

(** The states entered on the way to a state asked for, from state [s]; [None]
    where the code refuses. *)
Definition enter_path (s : Z) (t : nmt_state) : option (list nmt_state) :=
  if state_code t =? s then Some [] else
  match t with
  | Initialising => Some [Initialising; Pre_op]
  | Pre_op => Some [Pre_op]
  | Oper | Stop => if s =? Initialisation then None else Some [t]
  end.

Lemma setState_run t d : good d ->
  match enter_path (nodeState (co_st d)) t with
  | None => setState (state_code t) d = Some (0xFF, d)
  | Some p =>
      let st := foldl in_state (co_st d) p in
      run_to (setState (state_code t)) d st (state_call <$> p) (nodeState st)
  end.
Proof.
  intros Hd. unfold enter_path, setState, run_to.
  rewrite (st_bind_eq _ _ _ _ _ (eq_refl : getState d = Some (nodeState (co_st d), d))).
  set (s := nodeState (co_st d)). destruct (state_code t =? s) eqn:E; zb.
  { exists d. splits; [done|done|]. apply quiet_moves, quiet_step_refl. }
  assert (Hlast : forall u d0, good d0 ->
    run_to (_ ← enter (state_code u) (services u)
      (match u with Pre_op => _preOperational | _ => emit (state_call u) end); getState) d0
      (in_state (co_st d0) u) [state_call u] (state_code u)).
  { intros u d0 G0. eapply (run_to_bind _ _ _ _ _ [_] []); [by apply enter_user|].
    intros d1 G1 S1. rewrite <- S1. replace (state_code u) with (nodeState (co_st d1)) by (rewrite S1; by destruct u).
    by apply getState_run. }
  destruct t; cbn zeta; cbn [state_code foldl fmap list_fmap]; cbn [Z.eqb Initialisation Pre_operational Operational Stopped Pos.eqb].
  - eapply (run_to_bind _ _ _ _ _ [_] [_]); [by apply (enter_user Initialising)|].
    intros d1 G1 S1. rewrite <- S1. by apply (Hlast Pre_op).
  - by apply (Hlast Pre_op).
  - destruct (s =? Initialisation); [done|by apply (Hlast Oper)].
  - destruct (s =? Initialisation); [done|by apply (Hlast Stop)].
Qed.
End switching.

(** ** The node identifier *)

Section identifier.
Context (od : od_config) (room : nat) (count : Z).
Context (Hcfg : config_okb od = true).
Abbreviation good := (good od room count).
Abbreviation keeps := (keeps od room count).

Lemma keeps_getNodeId : keeps getNodeId any.
Proof.
  eapply keeps_bind; [apply keeps_get_od|intros ? ->].
  eapply keeps_any, keeps_rd_in. cbn. auto.
Qed.

Lemma keeps_follow_sub i s base nodeId : In (i, s) (followers od) ->
  keeps (follow_sub i s base nodeId) any.
Proof.
  intros Hin. unfold follow_sub.
  assert (Hp : exists p, sub_ptr od i s = Some p /\ apartb od p 4 = true).
  { unfold config_okb in Hcfg. rewrite !andb_true_iff, !forallb_forall in Hcfg. destruct_and! Hcfg.
    match goal with H : forall x, In x (followers od) -> _ |- _ => specialize (H _ Hin); cbn beta iota in H end.
    destruct (sub_ptr od i s) as [p|]; [by exists p|done]. }
  destruct Hp as (p & Hp & Ha).
  assert (Hl : forall d, good d -> is_Some (load 4 (co_mem d) p)).
  { intros d (I & E & _). pose proof (no_mem _ I) as Hm. unfold mem_okb in Hm. rewrite E in Hm.
    rewrite !andb_true_iff, !forallb_forall in Hm. destruct Hm as [[[_ Hf] _] _].
    specialize (Hf _ Hin). apply bool_decide_eq_true in Hf. unfold sub_load in Hf. by rewrite Hp in Hf. }
  eapply (keeps_bind _ _ _ _ _ (fun x => pObject x = p)).
  - intros d Hd. pose proof Hd as (_ & E & _). unfold od_sub. rewrite E. unfold sub_ptr in Hp.
    destruct (objdict od).[i] as [e|]; [|done]. cbn [mbind option_bind] in Hp |- *.
    destruct (pSubindex e).[s] as [x|]; [|done]. injection Hp as Hp. exists x, d. auto with cdb.
  - intros x ->. unfold follow.
    eapply keeps_bind; [apply (keeps_rd _ _ _ _ _ any)|intros c _].
    { intros d Hd. destruct (Hl d Hd) as [v Hv]. by exists v. }
    eapply keeps_bind; [apply keeps_getNodeId|intros id _].
    apply keeps_when. intros _. by apply keeps_wr.
Qed.

Lemma keeps_follow_PDOs bases last nodeId : forall offset,
  (forall k, offset <= k <= last -> k < offset + Z.of_nat (length bases) -> In (k, 1) (followers od)) ->
  0 <= offset -> last < 65535 -> keeps (follow_PDOs bases offset last nodeId) any.
Proof.
  induction bases as [|base bases IH]; intros offset Hin Ho Hl; cbn [follow_PDOs]; [apply keeps_skip|].
  destruct (offset <=? last) eqn:E; zb; [|apply keeps_skip]. cbn [length] in Hin.
  eapply keeps_bind; [apply keeps_follow_sub, Hin; lia|intros _ _].
  rewrite u16_small by lia. apply IH; [|lia|done]. intros k Hk Hk2. apply Hin; lia.
Qed.

Lemma in_positions (f : nat -> Z * Z) n k : (k < n)%nat -> In (f k) (f <$> seq 0 n).
Proof.
  intros Hk. apply list_elem_of_In, list_elem_of_fmap. exists k. split; [done|].
  apply list_elem_of_In, in_seq. lia.
Qed.

Lemma follower_RCV k : PDO_RCV (firstIndex od) <> 0 ->
  PDO_RCV (firstIndex od) <= k <= PDO_RCV (lastIndex od) -> k < PDO_RCV (firstIndex od) + 4 ->
  In (k, 1) (followers od).
Proof.
  intros Hne Hk Hk4. unfold followers. apply in_or_app. right. apply in_or_app. left.
  replace k with (PDO_RCV (firstIndex od) + Z.of_nat (Z.to_nat (k - PDO_RCV (firstIndex od)))) by lia.
  apply (in_positions (fun k => (PDO_RCV (firstIndex od) + Z.of_nat k, 1))).
  unfold positions. rewrite (proj2 (Z.eqb_neq _ _) Hne). lia.
Qed.

Lemma follower_TRS k : PDO_TRS (firstIndex od) <> 0 ->
  PDO_TRS (firstIndex od) <= k <= PDO_TRS (lastIndex od) -> k < PDO_TRS (firstIndex od) + 4 ->
  In (k, 1) (followers od).
Proof.
  intros Hne Hk Hk4. unfold followers. apply in_or_app. right. apply in_or_app. right.
  replace k with (PDO_TRS (firstIndex od) + Z.of_nat (Z.to_nat (k - PDO_TRS (firstIndex od)))) by lia.
  apply (in_positions (fun k => (PDO_TRS (firstIndex od) + Z.of_nat k, 1))).
  unfold tpdos, positions. rewrite (proj2 (Z.eqb_neq _ _) Hne). lia.
Qed.

Lemma keeps_setNodeId nodeId : keeps (setNodeId nodeId) any.
Proof.
  unfold setNodeId. eapply keeps_bind; [apply keeps_get_od|intros ? ->].
  destruct (negb _); [apply keeps_skip|].
  pose proof Hcfg as Hc. unfold config_okb in Hc. rewrite !andb_true_iff in Hc. destruct_and! Hc. zb.
  eapply keeps_bind; [apply keeps_when; intros Hn; zb|intros _ _].
  { assert (Hf : forall s, In s [1; 2] -> In (SDO_SVR (firstIndex od), s) (followers od)).
    { intros s Hs. unfold followers. rewrite (proj2 (Z.eqb_neq _ _) Hn). cbn in *.
      destruct Hs as [<-|[<-|[]]]; auto. }
    eapply keeps_bind; [apply keeps_follow_sub, Hf; cbn; auto|intros _ _].
    apply keeps_follow_sub, Hf. cbn. auto. }
  eapply keeps_bind; [apply keeps_when; intros Hn; zb|intros _ _].
  { apply keeps_follow_PDOs; [|lia|lia]. intros k Hk Hk2. by apply follower_RCV. }
  eapply keeps_bind; [apply keeps_when; intros Hn; zb|intros _ _].
  { apply keeps_follow_PDOs; [by intros k Hk Hk2; apply follower_TRS|lia|].
    unfold tpdos, positions in *. rewrite (proj2 (Z.eqb_neq _ _) Hn) in *. lia. }
  eapply keeps_bind.
  - unfold follow. eapply keeps_bind; [apply keeps_rd_in; cbn; auto 12|intros c _].
    eapply keeps_bind; [apply keeps_getNodeId|intros id _]. apply keeps_when. intros _.
    apply keeps_wr_in; [done|cbn; auto 12].
  - intros _ _. apply keeps_wr_in; [done|cbn; auto 12].
Qed.
End identifier.

(** ** Theorems *)

Lemma setState_ok t d :
  node_ok d ->
  match enter_path (nodeState (co_st d)) t with
  | None => setState (state_code t) d = Some (0xFF, d)
  | Some p => exists d',
      setState (state_code t) d = Some (nodeState (co_st d'), d') /\ node_ok d' /\
      co_st d' = foldl in_state (co_st d) p /\
      state_calls (co_log d') = state_calls (co_log d) ++ (state_call <$> p)
  end.
Proof.
  intros I. destruct (node_good d I) as (room & count & Hd).
  pose proof (setState_run (co_od d) room count (no_config _ I) t d Hd) as H.
  destruct (enter_path _ t) as [p|]; [|done]. destruct H as (d' & E & (I' & _) & [S L]).
  exists d'. by rewrite S.
Qed.

(** C6: Entering a state.  On a good node [setState] always returns and leaves a
    good node.  It does nothing for the present state, and refuses (answer 0xFF)
    to leave initialisation for another state than pre-operational; otherwise the
    node goes through the states of the path -- initialisation leads on to
    pre-operational -- with exactly the services of the last one running, and the
    function of the application for each state entered is called once, in order. *)
Theorem setState_spec t d :
  node_ok d ->
  match enter_path (nodeState (co_st d)) t with
  | None => setState (state_code t) d = Some (0xFF, d)
  | Some p => exists d',
      setState (state_code t) d = Some (nodeState (co_st d'), d') /\ node_ok d' /\
      co_st d' = foldl in_state (co_st d) p /\
      state_calls (co_log d') = state_calls (co_log d) ++ (state_call <$> p)
  end.
Proof. apply setState_ok. Qed.

(** A good node in state [s], with the services of that state. *)
Record node_in (s : nmt_state) (d : CO_Data) : Prop := NodeIn {
  ni_ok : node_ok d;
  ni_state : nodeState (co_st d) = state_code s;
  ni_services : CurrentCommunicationState (co_st d) =
    switched (services s) (CurrentCommunicationState (co_st d))
}.

Lemma in_state_last st p s :
  p <> [] -> last p = Some s ->
  nodeState (foldl in_state st p) = state_code s /\
  CurrentCommunicationState (foldl in_state st p) =
    switched (services s) (CurrentCommunicationState (foldl in_state st p)).
Proof.
  intros _ H. destruct (proj1 (last_Some _ _) H) as [q ->]. rewrite foldl_app. done.
Qed.

Section slave.
Context (od : od_config) (room : nat) (count : Z).
Context (Hcfg : config_okb od = true).
Abbreviation good := (good od room count).
Abbreviation run_to := (run_to od room count).

Lemma setState_then_skip u d : good d -> nodeState (co_st d) <> state_code u ->
  nodeState (co_st d) <> Initialisation ->
  let p := match u with Initialising => [Initialising; Pre_op] | _ => [u] end in
  run_to (_ ← setState (state_code u); st_skip) d (foldl in_state (co_st d) p) (state_call <$> p) tt.
Proof.
  intros Hd Hu Hi p. pose proof (setState_run od room count Hcfg u d Hd) as H.
  unfold enter_path in H. rewrite (proj2 (Z.eqb_neq _ _) (not_eq_sym Hu)) in H.
  rewrite (proj2 (Z.eqb_neq _ Initialisation) Hi) in H.
  assert (Hrun : run_to (setState (state_code u)) d (foldl in_state (co_st d) p) (state_call <$> p)
    (nodeState (foldl in_state (co_st d) p))) by (by destruct u).
  rewrite <- (app_nil_r (state_call <$> p)).
  eapply run_to_bind; [exact Hrun|]. intros d1 G1 S1. rewrite <- S1.
  apply run_to_unit; [apply keeps_skip|done].
Qed.

Lemma emit_when_run b e d : good d -> is_state_call e = false -> is_sent e = false ->
  run_to (when b (emit e)) d (co_st d) [] tt.
Proof.
  intros Hd He Hs. destruct b; [|by apply run_to_unit; [apply keeps_skip|]].
  rewrite when_true. pose proof (run_to_emit od room count e d Hs Hd) as H. by rewrite He in H.
Qed.

(** A first step that leaves the state alone. *)
Lemma run_to_after {A B} (m : CO A) (f : A -> CO B) R d st c y :
  keeps od room count m R -> good d ->
  (forall x d1, R x -> good d1 -> co_st d1 = co_st d -> run_to (f x) d1 st c y) ->
  run_to (m ≫= f) d st c y.
Proof.
  intros Hm Hd Hf. destruct (Hm d Hd) as (x & d1 & E & G & S & HR).
  destruct (Hf x d1 HR G (qs_st _ _ S)) as (d2 & E2 & G2 & M2).
  exists d2. rewrite (st_bind_eq _ _ _ _ _ E). splits; [done|done|].
  exact (moves_trans _ _ [] _ _ _ _ (quiet_moves _ _ S) M2).
Qed.

Lemma reset_communication_run d : good d -> nodeState (co_st d) <> Initialisation ->
  let p := [Initialising; Pre_op] in
  run_to reset_communication d (foldl in_state (co_st d) p) (state_call <$> p) tt.
Proof.
  intros Hd Hi p. unfold reset_communication.
  eapply run_to_after; [apply keeps_get_od|done|intros ? d1 -> G1 S1].
  eapply run_to_after; [apply keeps_getNodeId|done|intros id d2 _ G2 S2].
  eapply run_to_after; [by apply (keeps_get _ _ _ co_st any)|done|intros st d3 _ G3 S3].
  eapply (run_to_bind _ _ _ _ _ _ _ _ [] _); [by apply emit_when_run|intros d4 G4 S4].
  eapply run_to_after; [apply (keeps_wr_in od room count 1); [by apply config_apart; cbn; auto|cbn; auto]
                       |done|intros _ d5 _ G5 S5].
  eapply run_to_after; [by apply keeps_setNodeId|done|intros _ d6 _ G6 S6].
  replace (co_st d) with (co_st d6) in * by congruence.
  by apply (setState_then_skip Initialising).
Qed.

(** The switch, where the command leads somewhere. *)
Lemma NMT_command_run s c cs d : good d -> nodeState (co_st d) = state_code s -> s <> Initialising ->
  command_of cs = Some c -> nmt_path s c <> [] ->
  run_to (NMT_command cs (state_code s)) d
    (foldl in_state (co_st d) (nmt_path s c)) (state_call <$> nmt_path s c) tt.
Proof.
  intros Hd Hs Hne Hc Hp. unfold command_of in Hc. unfold NMT_command.
  assert (Hi : nodeState (co_st d) <> Initialisation) by (rewrite Hs; by destruct s).
  assert (Hto : forall u b, u <> Initialising -> s <> u -> b = true ->
    run_to (when b (_ ← setState (state_code u); st_skip)) d
      (foldl in_state (co_st d) [u]) (state_call <$> [u]) tt).
  { intros u b Hu Hsu ->. pose proof (setState_then_skip u d Hd) as H. rewrite when_true.
    destruct u; [done|..]; apply H; try done; rewrite Hs; by destruct s. }
  destruct (cs =? NMT_Start_Node).
  { injection Hc as <-. cbn [nmt_path] in *. case_decide; [done|].
    apply (Hto Oper); [done|done|by destruct s]. }
  destruct (cs =? NMT_Stop_Node).
  { injection Hc as <-. cbn [nmt_path] in *. case_decide; [done|].
    apply (Hto Stop); [done|done|by destruct s]. }
  destruct (cs =? NMT_Enter_PreOperational).
  { injection Hc as <-. cbn [nmt_path] in *. case_decide; [done|].
    apply (Hto Pre_op); [done|done|by destruct s]. }
  destruct (cs =? NMT_Reset_Node).
  - injection Hc as <-.
    eapply run_to_after; [by apply (keeps_get _ _ _ co_st any)|done|intros st d1 _ G1 S1].
    eapply (run_to_bind _ _ _ _ _ _ _ _ [] _); [by apply emit_when_run|intros d2 G2 S2].
    replace (co_st d) with (co_st d2) in * by congruence. by apply (setState_then_skip Initialising).
  - destruct (cs =? NMT_Reset_Comunication); [|done]. injection Hc as <-.
    by apply reset_communication_run.
Qed.

(** The switch, where it does nothing. *)
Lemma NMT_command_skip s cs d : s <> Initialising ->
  match command_of cs with Some c => nmt_path s c = [] | None => True end ->
  NMT_command cs (state_code s) d = Some (tt, d).
Proof.
  intros Hne H. unfold command_of in H. unfold NMT_command.
  destruct (cs =? NMT_Start_Node); [cbn [nmt_path] in H; by case_decide; subst|].
  destruct (cs =? NMT_Stop_Node); [cbn [nmt_path] in H; by case_decide; subst|].
  destruct (cs =? NMT_Enter_PreOperational); [cbn [nmt_path] in H; by case_decide; subst|].
  destruct (cs =? NMT_Reset_Node); [done|]. by destruct (cs =? NMT_Reset_Comunication).
Qed.
End slave.

(** The guards. *)
Lemma proceedNMT_eq s d m id node cs :
  nodeState (co_st d) = state_code s -> s <> Initialising ->
  load 1 (co_mem d) (bDeviceNodeId (co_od d)) = Some id ->
  (msg_data m).[0] = Some cs -> (msg_data m).[1] = Some node ->
  proceedNMTstateChange m d =
    (if negb ((node =? 0) || (node =? id)) then st_skip else NMT_command cs (state_code s)) d.
Proof.
  intros Hs Hne Hid Hcs Hnode. unfold proceedNMTstateChange, getNodeId, data_at.
  rewrite (st_bind_eq _ _ _ _ _ (eq_refl : getState d = Some (nodeState (co_st d), d))), Hs.
  replace (negb _) with false by (by destruct s). rewrite Hnode.
  rewrite (st_bind_eq _ _ _ _ _ (eq_refl : opt (Some node) d = Some (node, d))).
  assert (E : (od ← get co_od; rd 1 (bDeviceNodeId od)) d = Some (id, d)) by by apply rd_eq.
  rewrite (st_bind_eq _ _ _ _ _ E). destruct (negb _); [done|]. by rewrite Hcs.
Qed.

(** The states an NMT message leads a node through. *)
Definition nmt_message_path (s : nmt_state) (id node cs : Z) : list nmt_state :=
  if (node =? 0) || (node =? id) then
    match command_of cs with Some c => nmt_path s c | None => [] end
  else [].

Lemma NMT_slave_step s d m id node cs :
  node_in s d -> s <> Initialising ->
  load 1 (co_mem d) (bDeviceNodeId (co_od d)) = Some id ->
  (msg_data m).[0] = Some cs -> (msg_data m).[1] = Some node ->
  let p := nmt_message_path s id node cs in
  exists d', proceedNMTstateChange m d = Some (tt, d') /\
    node_in (default s (last p)) d' /\
    state_calls (co_log d') = state_calls (co_log d) ++ (state_call <$> p) /\
    (p = [] -> d' = d).
Proof.
  intros HI Hne Hid Hcs Hnode p. pose proof HI as [I Hs Hsv].
  destruct (node_good d I) as (room & count & Hd). unfold nmt_message_path in p.
  rewrite (proceedNMT_eq s d m id node cs) by done. unfold p. clear p.
  destruct ((node =? 0) || (node =? id)); cbn [negb];
    [|exists d; cbn; by rewrite app_nil_r].
  assert (Hskip : forall q, NMT_command cs (state_code s) d = Some (tt, d) -> q = [] -> exists d',
    NMT_command cs (state_code s) d = Some (tt, d') /\ node_in (default s (last q)) d' /\
    state_calls (co_log d') = state_calls (co_log d) ++ (state_call <$> q) /\ (q = [] -> d' = d)).
  { intros q E ->. exists d. cbn. by rewrite app_nil_r. }
  destruct (command_of cs) as [c|] eqn:Ec; [|by apply Hskip; [apply NMT_command_skip; [|rewrite Ec]|]].
  destruct (nmt_path s c) as [|u q] eqn:Ep;
    [by apply Hskip; [apply NMT_command_skip; [|rewrite Ec]|]|].
  assert (Hp : nmt_path s c <> []) by by rewrite Ep.
  destruct (NMT_command_run (co_od d) room count (no_config _ I) s c cs d Hd Hs Hne Ec Hp)
    as (d' & E & (I' & _) & [S L]).
  rewrite <- Ep. exists d'. splits; [done| |done|done].
  destruct (last (nmt_path s c)) as [v|] eqn:Ev; [|by apply last_None in Ev].
  destruct (in_state_last (co_st d) _ v Hp Ev). by constructor; [|rewrite S..].
Qed.

(** C1: The node implements the NMT slave.  A node that is pre-operational,
    operational or stopped, given a message of the NMT master, returns, and is in
    the state the automaton reaches by the command, with that state's services and
    no others; the functions of the application are called for the states entered,
    in order.  A message for another node, an unknown command and a command for
    the present state change nothing at all. *)
Theorem NMT_slave_refines s d m id node cs :
  node_in s d -> s <> Initialising ->
  load 1 (co_mem d) (bDeviceNodeId (co_od d)) = Some id ->
  (msg_data m).[0] = Some cs -> (msg_data m).[1] = Some node ->
  let p := nmt_message_path s id node cs in
  exists d', proceedNMTstateChange m d = Some (tt, d') /\
    node_in (default s (last p)) d' /\
    state_calls (co_log d') = state_calls (co_log d) ++ (state_call <$> p) /\
    (p = [] -> d' = d).
Proof. apply NMT_slave_step. Qed.
