(* ===== verification/Alarms.v ===== *)
(** * Alarms: the timer interrupt of a running node

    What the alarms of the services do when the dispatch of Timers.v calls them:
    [alarms_keep_contract] is the contract of the dispatch for the functions of the
    stack, so that a timer interrupt on a good node is safe.  The alarms of SDO
    transfers and of received PDOs, and nodes with heartbeat consumers, are left out:
    the first end in functions of the application, and the alarm of a consumer writes
    behind the table of states when the node identifier in the dictionary is above 127. *)

From S2P Require Import Prelude CMem Timers Node ObjDict Emcy Nmt LifeGuard Bits Pdo Sync.
From S2P Require Import States SdoLine Sdo SdoClient Dcf Stack SdoFacts Running.

(** ** The functions of the alarms *)

Section functions.
Context (od : od_config) (room : nat) (count : Z).
Context (Hcfg : config_okb od = true).
Abbreviation good := (good od room count).
Abbreviation keeps := (keeps od room count).

Lemma keeps_SyncAlarm id : keeps (SyncAlarm id) any.
Proof.
  unfold SyncAlarm, sendSYNC, sendSYNCMessage.
  apply (keeps_bind _ _ _ _ _ any); [|intros _ _; apply keeps_skip].
  apply (keeps_bind _ _ _ _ _ any); [|intros res _; eapply keeps_bind;
    [by apply keeps_proceedSYNC|intros _ _; by apply keeps_ret]].
  eapply keeps_bind; [apply keeps_get_od|intros ? ->].
  eapply keeps_bind; [apply keeps_uninit|intros m Hm].
  eapply keeps_bind; [apply keeps_rd_in; cbn; auto 10|intros cobid _].
  apply keeps_send, short_frame; [apply u16_range|by left|lia|done].
Qed.

Lemma keeps_set_producer h : handle_ok h ->
  keeps (modify (set co_lg (set ProducerHeartBeatTimer (fun _ => h)))) any.
Proof.
  intros Hh. apply keeps_modify. intros d (I & ? & ? & ?). split; [|keep_log].
  hnf; splits; try done; keep_node I.
Qed.

Lemma keeps_set_guard h : handle_ok h ->
  keeps (modify (set co_lg (set GuardTimeTimer (fun _ => h)))) any.
Proof.
  intros Hh. apply keeps_modify. intros d (I & ? & ? & ?). split; [|keep_log].
  hnf; splits; try done; keep_node I.
Qed.

Lemma keeps_ProducerHeartbeatAlarm id : keeps (ProducerHeartbeatAlarm id) any.
Proof.
  unfold ProducerHeartbeatAlarm. eapply keeps_bind; [apply keeps_get_od|intros ? ->].
  eapply keeps_bind; [apply keeps_rd_in; cbn; auto 10|intros time _]. destruct (negb _).
  - eapply keeps_bind; [apply keeps_uninit|intros m Hm].
    eapply keeps_bind; [apply keeps_rd_in; cbn; auto|intros i _].
    eapply keeps_bind; [by apply (keeps_get _ _ _ co_st any)|intros st _].
    eapply keeps_bind; [apply keeps_set_bytes; [done| |lia|cbn; lia]|intros m' Hm'].
    { apply Forall_cons_2; [apply u8_range|done]. }
    eapply keeps_bind; [apply keeps_send, short_frame; [apply u16_range|by left|lia|done]|intros _ _; apply keeps_skip].
  - eapply keeps_bind; [apply (keeps_lg _ _ _ (fun lg => handle_ok (ProducerHeartBeatTimer lg))); apply no_producer|].
    intros lg Hh. eapply keeps_bind; [by apply keeps_DelAlarm|intros h' Hh']. by apply keeps_set_producer.
Qed.

Lemma keeps_guard_node i : 0 <= i < 128 -> keeps (guard_node i) any.
Proof.
  intros Hi. unfold guard_node, masterSendNMTnodeguard. eapply keeps_bind; [apply keeps_get_od|intros ? ->].
  eapply keeps_bind; [by apply keeps_get_NMTable|intros s _]. destruct (s =? _); [apply keeps_skip|].
  eapply keeps_bind; [apply keeps_rd_in; cbn; auto|intros id _]. destruct (i =? id); [apply keeps_skip|].
  eapply keeps_bind; [apply (keeps_lg _ _ _ (fun lg => length (nodeGuardStatus lg) = 128%nat)); apply no_guards|].
  intros lg Hl. cbn beta in Hl. destruct (arr_get_is_Some (nodeGuardStatus lg) i) as [status Hs]; [lia|].
  eapply keeps_bind; [by apply (keeps_opt _ _ _ _ _ any Hs)|intros st _].
  eapply keeps_bind; [apply keeps_when; intros _|intros _ _].
  { eapply keeps_bind; [by apply keeps_emit|intros _ _; by apply keeps_set_NMTable]. }
  eapply keeps_bind; [by apply keeps_set_nodeGuardStatus|intros _ _].
  apply (keeps_bind _ _ _ _ _ any); [|intros _ _; apply keeps_skip].
  eapply keeps_bind; [apply keeps_uninit|intros m Hm].
  apply keeps_send, short_frame; [apply u16_range|by right|lia|done].
Qed.

Lemma keeps_GuardTimeAlarm id : keeps (GuardTimeAlarm id) any.
Proof.
  unfold GuardTimeAlarm. eapply keeps_bind; [apply keeps_get_od|intros ? ->].
  eapply keeps_bind; [apply keeps_rd_in; cbn; auto 10|intros time _]. destruct (negb _).
  - apply keeps_for. intros i Hi. change (Z.of_nat (Z.to_nat NMT_MAX_NODE_ID)) with 128 in Hi.
    apply keeps_guard_node. lia.
  - eapply keeps_bind; [apply (keeps_lg _ _ _ (fun lg => handle_ok (GuardTimeTimer lg))); apply no_guard|].
    intros lg Hh. eapply keeps_bind; [by apply keeps_DelAlarm|intros h' Hh']. by apply keeps_set_guard.
Qed.

Lemma keeps_PDO_alarm k f : 0 <= k < Z.of_nat (tpdos od) ->
  (forall s, status_ok s -> status_ok (f s)) ->
  keeps (_ ← upd_PDO_status k f; _ ← sendOnePDOevent (u8 k); st_skip) any.
Proof.
  intros Hk Hf. pose proof (config_bounds od Hcfg). rewrite u8_small by lia.
  eapply keeps_bind; [by apply keeps_upd_PDO_status|intros _ _].
  eapply keeps_bind; [by apply keeps_sendOnePDOevent|intros _ _; apply keeps_skip].
Qed.

Lemma keeps_PDOEventTimerAlarm k : 0 <= k < Z.of_nat (tpdos od) -> keeps (PDOEventTimerAlarm k) any.
Proof.
  intros Hk. unfold PDOEventTimerAlarm. apply keeps_PDO_alarm; [exact Hk|].
  intros s [? ? [? ?]]. constructor; [done|done|by split].
Qed.

Lemma keeps_PDOInhibitTimerAlarm k : 0 <= k < Z.of_nat (tpdos od) -> keeps (PDOInhibitTimerAlarm k) any.
Proof.
  intros Hk. unfold PDOInhibitTimerAlarm. apply keeps_PDO_alarm; [exact Hk|].
  intros s [? ? ?]. by constructor.
Qed.
End functions.

(** ** The contract of the dispatch *)

Section contract.
Context `{DP : DcfPointers} (od : od_config) (room : nat).
Context (Hcfg : config_okb od = true).

(** A good node without heartbeat consumers whose alarms are those of the services. *)
Definition ticking (d : CO_Data) : Prop := good od room 0 d /\ calls_only (may_call d) (co_timers d).

Lemma run_alarm_keeps cb id d :
  good od room 0 d -> may_call d cb id -> keeps od room 0 (run_alarm cb id) any.
Proof.
  intros (_ & Eo & _ & Ec) Hc. destruct cb; cbn [may_call run_alarm] in *; rewrite ?Eo in Hc.
  - apply keeps_SyncAlarm, Hcfg.
  - destruct Hc as (c & Hc & Hid). rewrite Ec in Hc. injection Hc as <-. lia.
  - apply keeps_ProducerHeartbeatAlarm.
  - apply keeps_GuardTimeAlarm.
  - by apply keeps_PDOEventTimerAlarm.
  - by apply keeps_PDOInhibitTimerAlarm.
  - done.
  - done.
Qed.

Lemma ticking_timers d t : ticking d -> timers_inv t -> calls_only (may_call d) t -> ticking (d <| co_timers := t |>).
Proof.
  intros [(I & ? & ? & ?) _] It Hc. split; [|exact Hc]. hnf. splits; try done. keep_node I.
Qed.

Lemma ticking_inv d : ticking d -> timers_inv (co_timers d).
Proof. intros [(I & _) _]. destruct (no_line _ I) as [t L]. apply L. Qed.

Lemma ticking_step d d' : ticking d -> good od room 0 d' -> quiet_step d d' -> ticking d'.
Proof.
  intros [G Hc] G' S. split; [done|]. pose proof (alarms_step_calls _ _ _ (qs_alarms _ _ S) Hc) as H.
  intros i row cb Hi Hcb. specialize (H i row cb Hi Hcb).
  destruct G as (_ & Eo & _ & Ec), G' as (_ & Eo' & _ & Ec'). revert H. unfold may_call.
  by rewrite Eo, Eo', Ec, Ec'.
Qed.

(** The functions of the stack keep the contract of the dispatch. *)
Lemma alarms_keep_contract : callbacks_ok (TC := stack_alarms) ticking.
Proof.
  constructor.
  - apply ticking_inv.
  - intros d t Hd It Hsame. apply ticking_timers; [done|done|]. intros i row' cb Hi Hcb.
    pose proof Hi as [Hr Hi']%arr_get_Some. cbn [tw_get co_timer_world] in Hsame.
    destruct (Forall2_lookup_r _ _ _ _ _ Hsame Hi') as (row & Hrow & Ecb & Eid).
    rewrite Eid. apply (proj2 Hd i); [apply arr_get_Some; split; [|done]|congruence].
    pose proof (Forall2_length _ _ _ Hsame). lia.
  - done.
  - intros d i row cb Hd Hi Hcb. pose proof (proj2 Hd i row cb Hi Hcb) as Hc.
    destruct (run_alarm_keeps cb (t_id row) d (proj1 Hd) Hc d (proj1 Hd)) as ([] & d' & E & G' & S & _).
    exists d'. unfold run_callback, stack_alarms. rewrite E. splits; [done|by apply (ticking_step d)|].
    apply (alarms_step_triggers _ _ _ (qs_alarms _ _ S)).
Qed.

(** A timer interrupt on a good node is safe: it answers, calls the functions of the
    alarms that are due in row order, and leaves a good node with no alarm waiting. *)
Theorem timer_interrupt_safe base d :
  ticking d -> quiet (co_timers d) ->
  exists d', node_step Timer_interrupt d = Some d' /\ ticking d' /\ quiet (co_timers d') /\
    fire_all (TC := stack_alarms) (due base (base + total_sleep_time (co_timers d) + 1) (co_timers d))
      (first_call base d) = Some d'.
Proof.
  intros Hd Hq. pose proof (ti_total _ (ticking_inv d Hd)) as Ht. unfold TIMEVAL_MAX in Ht.
  destruct (dispatch_fires (TC := stack_alarms) ticking alarms_keep_contract base d Hd Hq)
    as (d' & E & F & Hd' & Q'); [cbn; lia|].
  by exists d'.
Qed.
End contract.
