(* ===== verification/Dispatch.v ===== *)
(** * Dispatch: received messages and the state machine

    [canDispatch] against the table of the services each state allows, and the
    safety of a node that is driven through its state machine and the messages of
    the services that need no trust in the contents of the dictionary: NMT, SYNC,
    EMCY, heartbeat and node guarding. *)

From S2P Require Import Prelude CMem Timers Node ObjDict Emcy Nmt LifeGuard Bits Pdo Sync.
From S2P Require Import States SdoLine Sdo SdoClient Dcf Stack SdoFacts Running StateMachine.

(** ** The table *)

Inductive service := NMT_service | SYNC_service | EMCY_service | PDO_service | SDO_service
  | Guard_service | No_service.

(** The service of a COB-ID (CiA 301): eleven bits, the function code in the upper
    four. *)
Definition service_of (cob : Z) : service :=
  if (0 <=? cob) && (cob <? 0x80) then NMT_service
  else if cob =? 0x80 then SYNC_service
  else if (0x81 <=? cob) && (cob <? 0x100) then EMCY_service
  else if (0x180 <=? cob) && (cob <? 0x580) then PDO_service
  else if (0x580 <=? cob) && (cob <? 0x680) then SDO_service
  else if (0x700 <=? cob) && (cob <? 0x780) then Guard_service
  else No_service.

(** The services a state allows. *)
Definition allowed (s : nmt_state) (v : service) : bool :=
  match v, s with
  | No_service, _ => false
  | NMT_service, _ => true
  | Guard_service, Initialising => false
  | Guard_service, _ => true
  | PDO_service, Oper => true
  | (SYNC_service | EMCY_service | SDO_service), (Pre_op | Oper) => true
  | _, _ => false
  end.

Section stack.
Context `{DP : DcfPointers}.

(** What receives the messages of a service. *)
Definition handler (v : service) (m : Message) : CO unit :=
  match v with
  | NMT_service => od ← get co_od; when (negb (iam_a_slave od =? 0)) (proceedNMTstateChange m)
  | SYNC_service => ignore proceedSYNC
  | EMCY_service => proceedEMCY m
  | PDO_service => ignore (proceedPDO m)
  | SDO_service => ignore (proceedSDO (SC := stack_sdo_callbacks) m)
  | Guard_service => proceedNODE_GUARD m
  | No_service => st_skip
  end.

Lemma function_code cob k : 0 <= cob < 2048 -> (Z.shiftr cob 7 =? k) = (128 * k <=? cob) && (cob <? 128 * (k + 1)).
Proof.
  intros H. rewrite Z.shiftr_div_pow2 by lia. change (2 ^ 7) with 128.
  pose proof (Z.div_mod cob 128). pose proof (Z.mod_pos_bound cob 128).
  destruct (_ && _) eqn:E; zb; [apply Z.eqb_eq; lia|apply Z.eqb_neq; lia].
Qed.

Lemma function_codes cob : 0 <= cob < 2048 ->
  (384 <=? cob) && (cob <? 1408) = (3 <=? Z.shiftr cob 7) && (Z.shiftr cob 7 <=? 10).
Proof.
  intros H. rewrite Z.shiftr_div_pow2 by lia. change (2 ^ 7) with 128.
  pose proof (Z.div_mod cob 128). pose proof (Z.mod_pos_bound cob 128).
  destruct ((3 <=? _) && _) eqn:E; zb; [apply andb_true_iff; split; [apply Z.leb_le|apply Z.ltb_lt]; lia|].
  apply andb_false_iff. destruct E; zb; [left; apply Z.leb_gt|right; apply Z.ltb_ge]; lia.
Qed.

Lemma service_flags s d : node_in s d ->
  let cs := CurrentCommunicationState (co_st d) in
  csSYNC cs = csSYNC (services s) /\ csEmergency cs = csEmergency (services s) /\
  csPDO cs = csPDO (services s) /\ csSDO cs = csSDO (services s) /\
  csLifeGuard cs = csLifeGuard (services s).
Proof. intros [_ _ H] cs. unfold cs. by rewrite H. Qed.

Lemma canDispatch_eq s m d :
  node_in s d -> 0 <= cob_id m < 2048 ->
  canDispatch m d =
    (if allowed s (service_of (cob_id m)) then handler (service_of (cob_id m)) m else st_skip) d.
Proof.
  intros Hd Hc. destruct (service_flags s d Hd) as (Ey & Ee & Ep & Es & El).
  unfold canDispatch. rewrite (st_bind_eq _ _ _ _ _ (eq_refl : get co_od d = Some (co_od d, d))).
  rewrite (st_bind_eq _ _ _ _ _ (eq_refl : get co_st d = Some (co_st d, d))). cbn zeta.
  rewrite Ey, Ee, Ep, Es, El. unfold fc_SYNC, fc_PDO1tx, fc_PDO4rx, fc_SDOtx, fc_SDOrx, fc_NMT, NODE_GUARD.
  rewrite !function_code by done.
  replace ((3 <=? Z.shiftr (cob_id m) 7) && (Z.shiftr (cob_id m) 7 <=? 10))
    with ((384 <=? cob_id m) && (cob_id m <? 1408)) by apply function_codes, Hc.
  unfold service_of. set (c := cob_id m) in *.
  assert (H : 0 <= c < 128 \/ c = 128 \/ 128 < c < 256 \/ 256 <= c < 384 \/ 384 <= c < 1408 \/
    1408 <= c < 1536 \/ 1536 <= c < 1664 \/ 1664 <= c < 1792 \/ 1792 <= c < 1920 \/ 1920 <= c < 2048) by lia.
  repeat destruct H as [H|H]; repeat ztest; cbn iota; by destruct s.
Qed.

(** C7: The dispatcher against the table.  A message with an eleven-bit COB-ID
    goes to the service its function code names if the present state allows that
    service, and changes nothing at all otherwise: in particular a stopped node
    ignores SYNC, EMCY, PDO and SDO messages. *)
Theorem canDispatch_table s m d :
  node_in s d -> 0 <= cob_id m < 2048 ->
  canDispatch m d =
    (if allowed s (service_of (cob_id m)) then handler (service_of (cob_id m)) m else st_skip) d.
Proof. apply canDispatch_eq. Qed.

(** ** A node driven through its states *)

Lemma keeps_node_in (s : nmt_state) (m : CO unit) d :
  (forall od room count, config_okb od = true -> keeps od room count m any) -> node_in s d ->
  exists d', m d = Some (tt, d') /\ node_in s d'.
Proof.
  intros Hm [I Hs Hsv]. destruct (node_good d I) as (room & count & Hd).
  destruct (Hm _ _ _ (no_config _ I) d Hd) as ([] & d' & E & (I' & _) & S & _).
  exists d'. split; [done|]. constructor; [done|..]; by rewrite (qs_st _ _ S).
Qed.

Lemma keeps_ignore od room count (m : CO Z) : keeps od room count m any -> keeps od room count (ignore m) any.
Proof. intros Hm. eapply keeps_bind; [exact Hm|intros _ _; apply keeps_skip]. Qed.

Lemma node_id_loads d : node_ok d -> exists id, load 1 (co_mem d) (bDeviceNodeId (co_od d)) = Some id.
Proof.
  intros I. destruct (node_good d I) as (room & count & Hd).
  destruct (keeps_rd_in (co_od d) room count 1 (bDeviceNodeId (co_od d)) ltac:(cbn; auto) d Hd)
    as (x & d' & E & _). unfold rd in E. apply fmap_Some in E as (y & -> & _). by exists y.
Qed.

Lemma NMT_message_in s m d : length (msg_data m) = 8%nat -> node_in s d ->
  exists d' s', proceedNMTstateChange m d = Some (tt, d') /\ node_in s' d'.
Proof.
  intros Hm Hd. destruct (decide (s = Initialising)) as [->|Hne].
  { exists d, Initialising. split; [|done]. unfold proceedNMTstateChange.
    rewrite (st_bind_eq _ _ _ _ _ (eq_refl : getState d = Some (nodeState (co_st d), d))).
    by rewrite (ni_state _ _ Hd). }
  destruct (node_id_loads d (ni_ok _ _ Hd)) as [id Hid].
  destruct (arr_get_is_Some (msg_data m) 0) as [cs Hcs]; [lia|].
  destruct (arr_get_is_Some (msg_data m) 1) as [node Hnode]; [lia|].
  destruct (NMT_slave_step s d m id node cs) as (d' & E & H & _); [done..|]. eauto.
Qed.

Lemma code_cases new : (exists t, state_code t = new) \/ (forall t, (new =? state_code t) = false).
Proof.
  destruct (existsb (fun t => new =? state_code t) [Initialising; Pre_op; Oper; Stop]) eqn:E.
  - apply existsb_exists in E as (t & _ & E%Z.eqb_eq). left. by exists t.
  - right. cbn in E. rewrite !orb_false_iff in E. destruct_and! E. by intros [].
Qed.

Lemma setState_in s new d : node_in s d -> exists r d' s', setState new d = Some (r, d') /\ node_in s' d'.
Proof.
  intros Hd. destruct (code_cases new) as [[t <-]|Hn].
  - pose proof (setState_ok t d (ni_ok _ _ Hd)) as H.
    destruct (enter_path _ t) as [p|]; [|by exists 0xFF, d, s].
    destruct H as (d' & E & I' & S & _). eexists _, d'.
    destruct p as [|u p]; [exists s; split; [exact E|]; destruct Hd; by constructor; rewrite ?S|].
    destruct (last (u :: p)) as [v|] eqn:Ev; [|by apply last_None in Ev].
    exists v. split; [exact E|]. destruct (in_state_last (co_st d) (u :: p) v) as [H1 H2]; [done|done|].
    constructor; [done|by rewrite S..].
  - exists (if new =? nodeState (co_st d) then nodeState (co_st d) else 0xFF), d, s. split; [|done].
    unfold setState. rewrite (st_bind_eq _ _ _ _ _ (eq_refl : getState d = Some (nodeState (co_st d), d))).
    destruct (new =? nodeState (co_st d)); [done|].
    pose proof (Hn Initialising) as H0. pose proof (Hn Pre_op) as H1.
    pose proof (Hn Oper) as H2. pose proof (Hn Stop) as H3. cbn [state_code] in *.
    by rewrite H0, H1, H2, H3.
Qed.

(** The inputs that need no trust: anything but PDO and SDO messages and alarms. *)
Definition driven (i : node_input) : Prop :=
  match i with
  | Received m => length (msg_data m) = 8%nat /\ 0 <= cob_id m < 2048 /\
      service_of (cob_id m) <> PDO_service /\ service_of (cob_id m) <> SDO_service
  | Timer_interrupt => False
  | Application_state _ | Application_PDO_event => True
  end.

Lemma handler_in s v m d : node_in s d -> length (msg_data m) = 8%nat ->
  v <> PDO_service -> v <> SDO_service ->
  exists d' s', handler v m d = Some (tt, d') /\ node_in s' d'.
Proof.
  intros Hd Hm Hp Hs.
  assert (Hk : forall o : CO unit, (forall od room count, config_okb od = true -> keeps od room count o any) ->
    exists d' s', o d = Some (tt, d') /\ node_in s' d').
  { intros o Ho. destruct (keeps_node_in s o d Ho Hd) as (d' & ? & ?). eauto. }
  destruct v; try done; cbn [handler].
  - rewrite (st_bind_eq _ _ _ _ _ (eq_refl : get co_od d = Some (co_od d, d))).
    destruct (negb _); [by apply NMT_message_in with s|by exists d, s].
  - apply Hk. intros. by apply keeps_ignore, keeps_proceedSYNC.
  - apply Hk. intros. by apply keeps_proceedEMCY.
  - apply Hk. intros. by apply keeps_proceedNODE_GUARD.
  - by exists d, s.
Qed.

Lemma node_step_in s i d : node_in s d -> driven i ->
  exists d' s', node_step i d = Some d' /\ node_in s' d'.
Proof.
  intros Hd Hi. destruct i as [m| |new|]; cbn [node_step].
  - destruct Hi as (Hm & Hc & Hp & Hs). rewrite (canDispatch_eq s) by done.
    destruct (allowed _ _); [|by exists d, s].
    destruct (handler_in s _ m d Hd Hm Hp Hs) as (d' & s' & -> & ?). by exists d', s'.
  - done.
  - destruct (setState_in s new d Hd) as (r & d' & s' & -> & ?). by exists d', s'.
  - destruct (keeps_node_in s (ignore sendPDOevent) d) as (d' & E & ?); [|done|].
    { intros. by apply keeps_ignore, keeps_sendPDOevent. }
    unfold ignore in E. apply st_bind_Some in E as (x & d1 & -> & [= <-]). by exists d1, s.
Qed.

Lemma node_run_in l s d :
  node_in s d -> Forall driven l -> exists d' s', node_run l d = Some d' /\ node_in s' d'.
Proof.
  intros Hd Hl. revert s d Hd. induction Hl as [|i l Hi _ IH]; intros s d Hd; [by exists d, s|].
  cbn [node_run]. destruct (node_step_in s i d Hd Hi) as (d1 & s1 & -> & H1). by apply (IH s1).
Qed.

(** C2: Safety of a running node.  From a good node in a state with its services,
    every sequence of NMT, SYNC, EMCY, heartbeat and node guarding messages, of
    states asked for and PDO events announced by the application is handled without
    undefined behaviour, and leaves a good node in one of the four states with the
    services of that state. *)
Theorem driven_node_safe l s d :
  node_in s d -> Forall driven l -> exists d' s', node_run l d = Some d' /\ node_in s' d'.
Proof. apply node_run_in. Qed.

(** C3: The frames on the bus are well formed.  Whatever inputs a good node is driven
    by, every frame it has put on the bus is a CAN frame: a 16-bit identifier, a
    request flag of 0 or 1, at most eight data bytes counted, in a buffer of exactly
    eight values that are bytes. *)
Theorem sent_frames_typed l s d d' m :
  node_in s d -> Forall driven l -> node_run l d = Some d' -> In (Sent m) (co_log d') -> frame_ok m.
Proof.
  intros Hd Hl Hr Hm. destruct (node_run_in l s d Hd Hl) as (d1 & s1 & E & H1).
  assert (d1 = d') as -> by congruence.
  pose proof (no_frames _ (ni_ok _ _ H1)) as Hf. rewrite List.Forall_forall in Hf.
  exact (Hf _ Hm).
Qed.
End stack.
