(* ===== verification/Checks.v ===== *)
(** * Checks: the properties on the two nodes of the repository

    Each property with hypotheses, applied to concrete nodes: the slave and the
    master that the dictionary editor generated, in states their operations lead
    to. *)

From S2P Require Import Prelude CMem Timers Node ObjDict TestSlave TestMaster Emcy Nmt.
From S2P Require Import LifeGuard Bits Pdo Sync SdoLine Sdo SdoClient States Dcf Stack.
From S2P Require Import SdoFacts SdoTransfer SdoDownload Running StateMachine Alarms Dispatch SyncFacts.

Lemma quiet_env_clean : clean_env quiet_env.
Proof. done. Qed.

(** ** Emergency *)

(** The slave in state Operational, with the given errors. *)
Definition slave_with (reg : Z) (l : list s_errors) : CO_Data :=
  slave0 <| co_st ::= set CurrentCommunicationState (fun _ => Operational_services) |>
    <| co_em := CoEmcy (if anyActiveError l then Error_occurred else Error_free) l |>
    <| co_mem ::= <[fst TestSlave_obj1001 := [reg]]> |>.

Definition no_errors : list s_errors := replicate 8 (Errors 0 0 0).
Definition one_error : list s_errors := Errors 0x4200 0x08 1 :: replicate 7 (Errors 0 0 0).

Lemma one_error_ok k e : one_error.[k] = Some e ->
  e = Errors 0x4200 0x08 1 /\ k = 0 \/ e = Errors 0 0 0.
Proof.
  intros [Hk H]%arr_get_Some. destruct (Z.to_nat k) eqn:E; cbn [one_error lookup list_lookup] in H.
  - left. split; [congruence|lia].
  - right. apply lookup_replicate in H as [-> _]. done.
Qed.

Lemma slave_emcy_inv reg l :
  Z.of_nat (length l) = EMCY_MAX_ERRORS -> table_ok l ->
  load 1 (co_mem (slave_with reg l)) TestSlave_obj1001 = Some (errRegister_of l) ->
  (forall i e, l.[i] = Some e -> 0 <= errRegMask e < 256) ->
  emcy_inv (slave_with reg l) 0 128 (replicate 8 0).
Proof.
  intros Hl T Hr Hm. constructor.
  - constructor; cbn; try lia; by left.
  - done.
  - constructor; [done|done|done| |done|by repeat constructor|done].
    + intros k Hk. cbn in Hk. do 8 (destruct k as [|k]; [done|]). lia.
  - done.
  - done.
  - apply quiet_env_clean.
Qed.

Lemma slave_no_errors : emcy_inv (slave_with 0 no_errors) 0 128 (replicate 8 0).
Proof.
  apply slave_emcy_inv; try done.
  - constructor; [done| |].
    + intros i e [_ H]%arr_get_Some. apply lookup_replicate in H as [-> _]. by left.
    + intros i j ei ej _ [_ H]%arr_get_Some. apply lookup_replicate in H as [-> _]. done.
  - intros i e [_ H]%arr_get_Some. apply lookup_replicate in H as [-> _]. done.
Qed.

Lemma slave_one_error : emcy_inv (slave_with 8 one_error) 0 128 (replicate 8 0).
Proof.
  apply slave_emcy_inv; try done.
  - constructor; [done| |].
    + intros i e [[-> _]| ->]%one_error_ok; [by right|by left].
    + intros i j ei ej Hi Hj Hij. pose proof (arr_get_lt _ _ _ Hi).
      apply one_error_ok in Hj as [[-> ->]| ->]; [lia|done].
  - intros i e [[-> _]| ->]%one_error_ok; done.
Qed.

Example EMCY_setError_spec_witness :
  exists d, EMCY_setError 0x4200 0x08 0x0102 (slave_with 0 no_errors) = Some (0, d) /\
    is_active 0x4200 (error_data (co_em d)) = true /\
    emcy_inv d 1 128 (0x01024200 :: replicate 7 0).
Proof.
  destruct (EMCY_setError_spec (slave_with 0 no_errors) 0x4200 0x08 0x0102 0 128 (replicate 8 0))
    as (r & d & E & _ & _ & H); [apply slave_no_errors|lia..|].
  destruct H as (I & A & _); [reflexivity..|].
  exists d. splits; [|exact A|exact I].
  transitivity (Some (r, d)); [exact E|]. do 2 f_equal.
  apply (f_equal (fmap fst)) in E. vm_compute in E. congruence.
Defined.

Example EMCY_errorRecovered_spec_witness :
  exists d, EMCY_errorRecovered 0x4200 (slave_with 8 one_error) = Some (tt, d) /\
    is_active 0x4200 (error_data (co_em d)) = false.
Proof.
  destruct (EMCY_errorRecovered_spec (slave_with 8 one_error) 0x4200 0 128 (replicate 8 0))
    as (d & E & _ & _ & H); [apply slave_one_error|].
  exists d. split; [exact E|]. by apply H.
Defined.

(** ** Life guard *)

(** The slave as guarding master of node 5: guard time 100 ms, node 5 Operational,
    with [v] alarms of life time left. *)
Definition guard_with (v : Z) : CO_Data :=
  slave0 <| co_mem ::= (fun m => <[fst TestSlave_obj100C := le_bytes 2 100]>
                          (<[fst TestSlave_obj100D := [2]]> m)) |>
    <| co_lg ::= set NMTable (<[5%nat := Operational]>) |>
    <| co_lg ::= set nodeGuardStatus (<[5%nat := v]>) |>.

Lemma guard_with_tables v : 0 <= v < 256 -> guard_tables (guard_with v).
Proof.
  intros Hv. constructor; [done|done|].
  intros i w [_ H]%arr_get_Some.
  assert (H0 : Forall (fun w => 0 <= w < 256) (nodeGuardStatus (co_lg (guard_with v))))
    by (cbn; repeat (constructor; [lia|]); constructor).
  by apply (Forall_lookup_1 (fun w => 0 <= w < 256) _ _ _ H0 H).
Qed.

Lemma guard_with_time v :
  load 2 (co_mem (guard_with v)) (GuardTime (co_od (guard_with v))) = Some 100.
Proof. reflexivity. Qed.

Lemma guard_with_id v :
  load 1 (co_mem (guard_with v)) (bDeviceNodeId (co_od (guard_with v))) = Some 0.
Proof. reflexivity. Qed.

Example GuardTimeAlarm_spec_witness :
  exists d, GuardTimeAlarm 0 (guard_with 0) = Some (tt, d) /\
    (NMTable (co_lg d)).[5] = Some Disconnected.
Proof.
  destruct (GuardTimeAlarm_spec (guard_with 0) 0 100 0) as (d & E & _ & _ & _ & _ & H & _);
    [apply guard_with_time|done|apply guard_with_id|by apply guard_with_tables|].
  exists d. split; [exact E|]. destruct (H 5 Operational 0) as [H5 _]; [done..|exact H5].
Defined.

Example nodeguard_lifetime_witness :
  exists d, guard_alarms 3 (guard_with 2) = Some (tt, d) /\
    (NMTable (co_lg d)).[5] = Some Disconnected.
Proof.
  destruct (nodeguard_lifetime (guard_with 2) 0 100 5 Operational 2)
    as (_ & d & E & H & _);
    [apply guard_with_time|done|apply guard_with_id|by apply guard_with_tables|done|done|done
    |done|lia|].
  exact (ex_intro _ d (conj E H)).
Defined.

(** Node 5 reports state Stopped. *)
Definition stopped_report : Message :=
  MkMessage 0x705 NOT_A_REQUEST 1 [Stopped; 0; 0; 0; 0; 0; 0; 0].

Lemma guard_with_consumers v : consumers_ok (guard_with v) 0.
Proof.
  constructor; [done|cbn; lia|lia| |apply timers_init_inv].
  intros i h [_ H]%arr_get_Some. cbn in H. apply list_lookup_singleton_Some in H as [_ <-]. done.
Qed.

Example proceedNODE_GUARD_report_witness :
  exists d, proceedNODE_GUARD stopped_report (guard_with 1) = Some (tt, d) /\
    co_log d = [Call_post_SlaveStateChange 5 Stopped].
Proof.
  destruct (proceedNODE_GUARD_report (guard_with 1) stopped_report Stopped Operational 2 0)
    as (d & E & _ & _ & _ & _ & _ & _ & _ & L); [done|done|by apply guard_with_tables|done|lia
    |done|apply guard_with_consumers|].
  exists d. split; [exact E|]. rewrite L. reflexivity.
Defined.

Definition guard_request : Message := MkMessage 0x700 1 0 (replicate 8 0).

Example proceedNODE_GUARD_request_witness :
  exists d, proceedNODE_GUARD guard_request (guard_with 1) = Some (tt, d) /\
    wlog d = [Sent (MkMessage 0x700 NOT_A_REQUEST 1 [Unknown_state])].
Proof.
  pose proof (proceedNODE_GUARD_request (guard_with 1) guard_request 0) as H.
  destruct H as (d & E & L & _); [done|apply guard_with_id|apply quiet_env_clean|].
  exists d. split; [exact E|]. rewrite L. reflexivity.
Defined.

(** ** PDO *)

(** The slave, configured to send its first function code in PDO 5. *)
Definition pdo_slave : CO_Data :=
  slave0 <| co_mem ::= (fun m => <[fst TestSlave_obj1A04 := le_bytes 4 0x20F00110]>
                          (<[fst Slave_FuncCode_F0 := le_bytes 2 0x1234 ++ replicate 46 0]> m)) |>.

(** The master, which receives it as its PDO 3. *)
Definition pdo_master : CO_Data := TestMaster_plain (fun _ => 0) quiet_env.

Lemma pdo_slave_ok : node_od_ok pdo_slave.
Proof.
  apply od_okb_ok.
  - intros w i Hi. by apply TestSlave_scan_sound in Hi.
  - vm_compute. reflexivity.
Qed.

Definition sub_20F0_1 : subindex := Subindex RW uint16 2 Slave_FuncCode_F0.
Definition sub_200B : subindex := Subindex RW int16 2 MasterMap12.

Lemma pdo_slave_mapping : mapping pdo_slave 21 [(16, le_bytes 2 0x1234)].
Proof.
  split; [reflexivity|]. intros [|[|k]] v Hv; [|done|done].
  injection Hv as <-. exists 0x20F00110, 22, sub_20F0_1.
  splits; [reflexivity|reflexivity|reflexivity|done|reflexivity|by repeat constructor|done].
Qed.

Lemma pdo_master_rx_mapping : rx_mapping pdo_master 16 [(16, sub_200B)].
Proof.
  split; [reflexivity|]. split.
  - intros [|[|k]] v Hv; [|done|done]. injection Hv as <-. exists 0x200B0010, 30.
    splits; [reflexivity..|done|reflexivity|reflexivity|done].
  - split; [|done]. intros e s y He Hy. injection He as <-.
    pose proof (arr_get_lt _ _ _ Hy) as Hs. cbn in Hs.
    assert (s = 0 \/ s = 1) as [-> | ->] by lia; injection Hy as <-; by left.
Qed.

Lemma pdo_master_other k : (k < 2)%nat -> exists c,
  sub_value 2 pdo_master (PDO_RCV (firstIndex (co_od pdo_master)) + Z.of_nat k) 1 = Some c /\
  c <> 0x401.
Proof.
  intros Hk. destruct k as [|[|k]]; [exists 0x200|exists 0x300|lia];
    by split; [vm_compute; reflexivity|].
Qed.

Example buildPDO_spec_witness :
  exists m, buildPDO 4 Message_Initializer pdo_slave = Some ((0, m), pdo_slave) /\
    cob_id m = 0x401 /\ len m = 2.
Proof.
  destruct (buildPDO_spec pdo_slave 4 Message_Initializer [(16, le_bytes 2 0x1234)] 0x401)
    as (m & E & Hc & _ & _ & _ & Hl & _);
    [apply pdo_slave_ok|done|by repeat constructor|reflexivity|apply pdo_slave_mapping
    |cbn; lia|].
  exists m. rewrite Hc, Hl. exact (conj E (conj eq_refl eq_refl)).
Defined.

Definition pdo_message : Message :=
  MkMessage 0x401 NOT_A_REQUEST 2 [0x34; 0x12; 0; 0; 0; 0; 0; 0].

Example proceedPDO_spec_witness :
  exists d, proceedPDO pdo_message pdo_master = Some (0, d) /\ node_od_ok d.
Proof.
  destruct (proceedPDO_spec pdo_master pdo_message 2 [(16, sub_200B)]) as (d & E & Hok & _);
    [apply TestMaster_plain_ok|done|done|done|done|done|done|reflexivity|apply pdo_master_other
    |apply pdo_master_rx_mapping|cbn; lia|reflexivity|].
  exists d. exact (conj E Hok).
Defined.

Example PDO_transport_witness :
  exists m d, buildPDO 4 Message_Initializer pdo_slave = Some ((0, m), pdo_slave) /\
    proceedPDO m pdo_master = Some (0, d) /\
    mload (co_mem d) MasterMap12 2 = Some (le_bytes 2 0x1234).
Proof.
  destruct (PDO_transport pdo_slave pdo_master 4 2 [(16, le_bytes 2 0x1234)] [(16, sub_200B)]
    0x401) as (m & d & E1 & E2 & H);
    [apply pdo_slave_ok|apply TestMaster_plain_ok|reflexivity|apply pdo_slave_mapping|cbn; lia
    |done|done|done|reflexivity|apply pdo_master_other|apply pdo_master_rx_mapping|reflexivity
    |reflexivity|by repeat constructor|cbn; lia|].
  exists m, d. splits; [exact E1|exact E2|].
  by apply (H 0%nat 16 (le_bytes 2 0x1234) sub_200B).
Defined.

(** ** SDO *)

(** The slave as node 2: its identifiers follow the node identifier. *)
Definition sdo_slave : CO_Data :=
  (default slave0 (snd <$> setNodeId 2 slave0))
    <| co_st ::= set nodeState (fun _ => Pre_operational) |>.

Definition sdo_master : CO_Data :=
  (TestMaster_Data (fun _ => 0) quiet_env)
    <| co_st ::= set nodeState (fun _ => Operational) |>.

Lemma at_new_line d : transfers d = [s_transfer_Initializer] -> co_timers d = timers_init ->
  at_line d s_transfer_Initializer.
Proof.
  intros Ht Hi. constructor; [done|done|done|]. rewrite Hi. apply timers_init_inv.
Qed.

Lemma sdo_slave_ok : node_od_ok sdo_slave.
Proof.
  apply od_okb_ok.
  - intros w i Hi. by apply TestSlave_scan_sound in Hi.
  - vm_compute. reflexivity.
Qed.

Lemma sdo_slave_serves : sdo_server sdo_slave 0x602 0x582.
Proof. constructor; [vm_compute; reflexivity|vm_compute; reflexivity|by right|apply quiet_env_clean]. Qed.

Lemma sdo_master_asks : sdo_client sdo_master 0x582 0x602 2.
Proof.
  constructor; [vm_compute; reflexivity|vm_compute; reflexivity|vm_compute; reflexivity|by left
               |apply quiet_env_clean].
Qed.

Section sdo_witness.
(** No callback is set on these transfers. *)
Definition no_sdo_callbacks : SDOCallbacks := fun _ _ => st_skip.

Example SDO_read_transfer_witness :
  exists c1 m c2 s2 c3,
    readNetworkDict 2 0x1018 1 uint32 false sdo_master = Some (0, c1) /\
    new_sent sdo_master c1 = Some m /\
    dialogue (SC := no_sdo_callbacks) 6 c1 sdo_slave m = Some (c2, s2) /\
    getReadResultNetworkDict 2 4 c2 =
      Some (ReadResult SDO_FINISHED 4 0 (le_bytes 4 0x12345678), c3).
Proof.
  destruct (SDO_read_transfer (SC := no_sdo_callbacks) sdo_master sdo_slave
    s_transfer_Initializer s_transfer_Initializer 0x602 0x582 2 0x1018 1 uint32
    (le_bytes 4 0x12345678) 4) as (c1 & m & c2 & s2 & c3 & E1 & Em & Ed & Er & _).
  - by apply at_new_line.
  - done.
  - apply sdo_master_asks.
  - done.
  - apply at_new_line; reflexivity.
  - done.
  - apply sdo_slave_serves.
  - apply sdo_slave_ok.
  - exists 9, (Subindex RO uint32 4 TestSlave_obj1018_Vendor_ID).
    splits; [reflexivity|done|done|done|vm_compute; reflexivity].
  - lia.
  - lia.
  - cbn. lia.
  - exists c1, m, c2, s2, c3. exact (conj E1 (conj Em (conj Ed Er))).
Defined.

(** The master sets the SYNC period of the slave. *)
Example SDO_write_transfer_witness :
  exists c1 m c2 s2 code c3,
    writeNetworkDict 2 0x1006 0 4 uint32 (le_bytes 4 50000) false sdo_master = Some (0, c1) /\
    new_sent sdo_master c1 = Some m /\
    dialogue (SC := no_sdo_callbacks) 6 c1 sdo_slave m = Some (c2, s2) /\
    getWriteResultNetworkDict 2 c2 = Some ((SDO_FINISHED, code), c3) /\
    load 4 (co_mem s2) TestSlave_obj1006 = Some 50000.
Proof.
  destruct (SDO_write_transfer (SC := no_sdo_callbacks) sdo_master sdo_slave
    s_transfer_Initializer s_transfer_Initializer 0x602 0x582 2 0x1006 0 uint32
    (le_bytes 4 50000) (Subindex RW uint32 4 TestSlave_obj1006))
    as (c1 & m & c2 & s2 & code & c3 & mm & E1 & Em & Ed & Er & _ & Hl & _).
  - by apply at_new_line.
  - done.
  - apply sdo_master_asks.
  - done.
  - apply at_new_line; reflexivity.
  - done.
  - apply sdo_slave_serves.
  - apply sdo_slave_ok.
  - eexists. splits; [vm_compute; reflexivity|done..|vm_compute; reflexivity|done|done|done|].
    intros rest. reflexivity.
  - lia.
  - lia.
  - intros mm Hmm. vm_compute in Hmm. injection Hmm as <-.
    constructor; [vm_compute; reflexivity|vm_compute; reflexivity|by right|apply quiet_env_clean].
  - exists c1, m, c2, s2, code, c3. repeat (split; [eassumption|]).
    unfold load. cbn [od_size pObject] in Hl. rewrite Hl. vm_compute. reflexivity.
Defined.
End sdo_witness.

(** ** The state machine *)

(** The slave in a state, with its services. *)
Definition slave_in (s : nmt_state) : CO_Data :=
  slave0 <| co_st := CoState (state_code s) (services s) false false |>.

Lemma slave0_bytes : mem_bytes (co_mem slave0).
Proof.
  apply (bool_decide_eq_true_1 (map_Forall (fun _ bs => Forall is_byte bs) (co_mem slave0))).
  vm_compute. reflexivity.
Qed.

(** A node that differs from the slave in its variables and state only. *)
Lemma slave_based_ok d m st :
  d = slave0 <| co_mem := m |> <| co_st := st |> ->
  od_okb (co_od slave0) m (co_cbs slave0) = true -> mem_bytes m ->
  mem_okb (co_od slave0) m (length (ConsumerHeartBeatTimers (co_lg slave0))) = true ->
  flags_ok (CurrentCommunicationState st) -> node_ok d.
Proof.
  intros -> Hod Hb Hm Hf. constructor.
  - vm_compute. reflexivity.
  - apply od_okb_ok; [|exact Hod]. intros w i Hi. by apply TestSlave_scan_sound in Hi.
  - exact Hb.
  - exact Hm.
  - intros k. split; [done|]. by repeat constructor.
  - exact Hf.
  - done.
  - done.
  - done.
  - intros i h [_ H]%arr_get_Some. cbn in H. apply list_lookup_singleton_Some in H as [_ <-]. done.
  - reflexivity.
  - reflexivity.
  - intros k Hk. change (Z.of_nat (tpdos _)) with 5 in Hk.
    exists s_PDO_status_Initializer. split; [|constructor; [done|done|apply Message_Initializer_ok]].
    assert (k = 0 \/ k = 1 \/ k = 2 \/ k = 3 \/ k = 4) as [->|[->|[->|[->| ->]]]] by lia; reflexivity.
  - constructor.
  - exists s_transfer_Initializer. by apply at_new_line.
Qed.

Lemma slave_in_ok s : node_ok (slave_in s).
Proof.
  eapply slave_based_ok; [reflexivity|vm_compute; reflexivity|apply slave0_bytes
                        |vm_compute; reflexivity|apply services_ok].
Qed.

Lemma slave_node_in s : node_in s (slave_in s).
Proof. constructor; [apply slave_in_ok|done|by destruct s]. Qed.

Example setState_spec_witness :
  exists d, setState Initialisation (slave_in Oper) = Some (Pre_operational, d) /\ node_ok d /\
    state_calls (co_log d) = [Call_initialisation; Call_preOperational].
Proof.
  destruct (setState_spec Initialising (slave_in Oper) (slave_in_ok Oper)) as (d & E & I & S & L).
  exists d. rewrite S in E. splits; [exact E|exact I|exact L].
Defined.

Definition start_message : Message := MkMessage 0 NOT_A_REQUEST 2 [NMT_Start_Node; 0; 0; 0; 0; 0; 0; 0].

Example NMT_slave_refines_witness :
  exists d, proceedNMTstateChange start_message (slave_in Pre_op) = Some (tt, d) /\ node_in Oper d /\
    state_calls (co_log d) = [Call_operational].
Proof.
  destruct (NMT_slave_refines Pre_op (slave_in Pre_op) start_message 0 0 NMT_Start_Node)
    as (d & E & H & L & _); [apply slave_node_in|done|reflexivity|reflexivity|reflexivity|].
  exists d. splits; [exact E|exact H|exact L].
Defined.

(** No concise configuration is stored. *)
Definition no_dcf_pointers : DcfPointers := fun _ => None.

Example canDispatch_table_witness :
  canDispatch (DP := no_dcf_pointers) (MkMessage 0x80 NOT_A_REQUEST 0 (replicate 8 0)) (slave_in Stop) =
    Some (tt, slave_in Stop).
Proof.
  rewrite (canDispatch_table (DP := no_dcf_pointers) Stop);
    [reflexivity|apply slave_node_in|cbn; lia].
Defined.

Example driven_node_safe_witness :
  exists d s, node_run (DP := no_dcf_pointers)
    [Received start_message; Application_PDO_event; Application_state Stopped]
    (slave_in Pre_op) = Some d /\ node_in s d.
Proof.
  apply (driven_node_safe (DP := no_dcf_pointers) _ Pre_op); [apply slave_node_in|].
  repeat constructor; done.
Defined.


(** The boot-up frame of a slave that leaves initialisation. *)
Example sent_frames_typed_witness :
  let m := MkMessage 0x700 0 1 [0; 0; 0; 0; 0; 0; 0; 0] in
  exists d, node_run (DP := no_dcf_pointers) [Application_state Pre_operational] (slave_in Initialising) = Some d /\
    In (Sent m) (co_log d) /\ frame_ok m.
Proof.
  intros m.
  assert (H : exists d, node_run (DP := no_dcf_pointers) [Application_state Pre_operational] (slave_in Initialising) = Some d /\
    In (Sent m) (co_log d)).
  { eexists. split; [vm_compute; reflexivity|left; reflexivity]. }
  destruct H as (d & E & Hm). exists d. split; [exact E|split; [exact Hm|]].
  apply (sent_frames_typed (DP := no_dcf_pointers) [Application_state Pre_operational] Initialising (slave_in Initialising) d m);
    [apply slave_node_in|repeat constructor|exact E|exact Hm].
Defined.

(** ** Alarms *)

(** The slave with the alarm of SYNC, periodic, and one that ends an inhibit time. *)
Definition slave_alarms : timer_table alarm :=
  TimerTable ([TimerEntry TIMER_ARMED (Some SyncAlarm_cb) 0 100 100;
               TimerEntry TIMER_ARMED (Some PDOInhibitTimerAlarm_cb) 1 51 0] ++ replicate 6 free_row) 50 1.

Definition ticking_slave : CO_Data := (slave_in Oper) <| co_timers := slave_alarms |>.

Lemma ticking_slave_ok : ticking (co_od slave0) 1 ticking_slave.
Proof.
  apply ticking_timers; [|by apply timers_invb_ok|].
  - split; [|intros i row cb Hi Hcb].
    + hnf. splits; [apply slave_in_ok|done|done|vm_compute; reflexivity].
    + apply arr_get_Some in Hi as [_ [-> _]%lookup_replicate]. done.
  - intros i row cb Hi Hcb. apply arr_get_Some in Hi as [_ Hi]. cbn [timers slave_alarms] in Hi.
    apply lookup_app_Some in Hi as [Hi|[_ [-> _]%lookup_replicate]]; [|done].
    destruct (Z.to_nat i) as [|[|n]]; cbn in Hi; [| |done]; injection Hi as <-; injection Hcb as <-; [done|].
    vm_compute. split; [discriminate|reflexivity].
Qed.

(** The inhibit time ends at the first interrupt; the SYNC alarm waits another 49. *)
Example timer_interrupt_safe_witness :
  exists d, node_step (DP := no_dcf_pointers) Timer_interrupt ticking_slave = Some d /\ ticking (co_od slave0) 1 d.
Proof.
  destruct (timer_interrupt_safe (DP := no_dcf_pointers) (co_od slave0) 1 ltac:(vm_compute; reflexivity) 0 ticking_slave)
    as (d & E & H & _); [apply ticking_slave_ok|by apply quietb_ok|].
  exists d. exact (conj E H).
Defined.

(** ** SYNC *)

(** The slave in operational state, sending its first function code in PDO 5 at
    every third SYNC. *)
Definition cyclic_slave : CO_Data :=
  (slave_in Oper) <| co_mem ::= (fun m => <[fst TestSlave_obj1A04 := le_bytes 4 0x20F00110]>
    (<[fst TestSlave_obj1804_Transmission_Type := le_bytes 1 3]>
    (<[fst Slave_FuncCode_F0 := le_bytes 2 0x1234 ++ replicate 46 0]> m))) |>.

Lemma cyclic_slave_ok : node_ok cyclic_slave.
Proof.
  eapply slave_based_ok.
  - reflexivity.
  - vm_compute. reflexivity.
  - apply (bool_decide_eq_true_1 (map_Forall (fun _ bs => Forall is_byte bs) (co_mem cyclic_slave))).
    vm_compute. reflexivity.
  - vm_compute. reflexivity.
  - apply services_ok.
Qed.

Lemma cyclic_slave_mapping : mapping cyclic_slave (tpdo_map (co_od cyclic_slave) 4) [(16, le_bytes 2 0x1234)].
Proof.
  split; [reflexivity|]. intros [|[|k]] v Hv; [|done|done].
  injection Hv as <-. exists 0x20F00110, 22, sub_20F0_1.
  splits; [reflexivity|reflexivity|reflexivity|done|reflexivity|by repeat constructor|done].
Qed.

Lemma cyclic_slave_others i c : 0 <= i < 5 -> i <> 4 ->
  sub_value 4 cyclic_slave (tpdo_com (co_od cyclic_slave) i) 1 = Some c -> wire_id c <> 0x401.
Proof.
  intros Hi Hne. assert (i = 0 \/ i = 1 \/ i = 2 \/ i = 3) as [->|[->|[->| ->]]] by lia;
    intros H; vm_compute in H; injection H as <-; vm_compute; discriminate.
Qed.

Example sync_cadence_witness :
  exists d, st_for 7 0 (fun _ => _ ← proceedSYNC; st_skip) cyclic_slave = Some (tt, d) /\ node_ok d /\
    counter 4 d 1 /\ sent_count (wire_id 0x401) (co_log d) = 2.
Proof.
  apply (sync_cadence cyclic_slave 4 3 0 0x401 [(16, le_bytes 2 0x1234)] 7);
    [apply cyclic_slave_ok|vm_compute; discriminate|vm_compute; split; done|vm_compute; reflexivity
    |vm_compute; reflexivity|vm_compute; reflexivity|vm_compute; split; discriminate
    |apply cyclic_slave_mapping|cbn; lia| |eexists; split; vm_compute; reflexivity|lia].
  intros i c Hi Hne Hc _. by eapply cyclic_slave_others.
Defined.
